(* ===== verification/_CoqProject ===== *)
-Q . S2P
Prelude.v
Effects.v
Bytes.v
Readers.v
OrdSet.v
Utils.v
IP.v
TcpConnection.v
StunPacket.v
StunFacts.v
StunRoundTrip.v
IceServer.v
IceFacts.v
IceProps.v
Timer.v
SeqManager.v
KeyFrame.v
NackGenerator.v
RtpPacket.v
RtpPacketFacts.v
RtpPacketProps.v
Codecs.v
CodecsFacts.v
CodecsProps.v
RtpExtensions.v
RtpClone.v
RtpStream.v
RtpStreamFacts.v
RtpStreamSend.v
SendFacts.v
Retransmission.v
Consumer.v
SimulcastConsumer.v
SvcConsumer.v
SimpleConsumer.v
PipeConsumer.v
ConsumerFacts.v
ConsumerProps.v
SimulcastFacts.v
SimulcastProps.v
Bitrate.v
BitrateProps.v
Rtcp.v
RtcpNack.v
RtcpTransport.v
RtcpTransportFacts.v
RtcpTransportWire.v
RtcpTransportProps.v
RtcpCodec.v
RtcpReports.v
RtcpReportsFacts.v
RtcpFeedback.v
RtcpFeedbackFacts.v
RtcpPacket.v
RtcpPacketFacts.v
RtcpPacketProps.v
RtcpCompound.v
Floats.v
RateCalculator.v
RateFacts.v
RtxStream.v
RtpStreamRecv.v
RecvFacts.v
RecvSteps.v
RecvProps.v
RtpListener.v
RtpParameters.v
Producer.v
ProducerPackets.v
ProducerFacts.v
ProducerSteps.v
ProducerProps.v
AudioLevelObserver.v
Router.v
RouterFacts.v
RouterRequests.v
RouterProps.v
DtlsTransport.v
WebRtcTransport.v
WebRtcFacts.v
