(* ===== verification/Prelude.v ===== *)
(** The media worker of mediasoup (src/worker): a verified model.

    * The program

    The repository drives workers, processes that forward media.  A worker
    holds routers; a router holds transports, and on them producers (media that
    comes in), consumers (media that goes out) and observers.  Packets arrive on
    a transport, over TCP framed by [TcpConnection].  A [WebRtcTransport] tells
    them apart: STUN messages go to the [IceServer], which decides from which
    addresses the transport talks; DTLS messages to the [DtlsTransport], whose
    handshake gives the keys that media is encrypted with; RTP and RTCP packets
    are decrypted.  RTP packets are parsed by [RtpPacket], given
    to their producer by [RtpListener], followed by the receiving stream (its
    [NackGenerator] asks for what is missing, its producer's
    [KeyFrameRequestManager] for key frames) and handed by the [Router] to the
    consumers.  A consumer is simple (one stream), simulcast (one of several
    streams of the same video, and at most a number of its temporal layers), SVC
    (the layers of one stream) or a pipe (all streams): it chooses the layers,
    asks for key frames when it switches, drops the packets of other layers
    (Codecs), gives what it forwards its own SSRC, numbers ([SeqManager]) and
    timestamps, and restores the packet, which the consumers share.  Its
    [RtpStreamSend] keeps what was sent for retransmission.  The transport
    divides the bitrate the network takes among its consumers.  RTCP packets
    carry the requests and the reports back.

    * How the code is modelled

    A C++ function is a Rocq function that takes the state (the fields of the
    object, a [Record]) and its arguments and returns the new state, the calls
    it makes on its listener in order, and its result, as an [outcome]: [Ok], or
    [Err] of [Rejected] (it returns [nullptr]), [Thrown] (an exception),
    [AssertFailed] (the process ends), [OutOfBounds] (a read or a write outside
    the buffer, or through a pointer to a deleted object) or [OutOfFuel] (a loop
    that has not ended).  [is_crash] tells the last three.  So that a function
    does not crash is a theorem about its outcome, and where a theorem says that
    a function returns, it says [= Ok ...].

    Machine integers are integers of Rocq, with [wrap w] (unsigned) and [swrap w]
    (signed) written wherever the code converts or computes in [w] bits.  A
    buffer is the list of its bytes (Bytes); a pointer into it is an offset, and
    a pointer to an object is an address or an index.  Doubles are those of
    SpecFloat; the conversion of one that does not fit is [OutOfBounds], and
    [std::pow], which no two libraries compute alike, is the class [PowFunction].
    Time is an argument, in milliseconds.  A method that calls many
    others is an [act]: a function of the state that collects the calls on its
    listener (Effects).

    * The files

    - Prelude: outcomes, machine integers, tactics ([ostep], [ok_inv],
      [bool_cases], [wrap_simp]) and generic lemmas.
    - Effects: the monad [act] of state, errors and events, and its Hoare logic
      ([does], with the tactics [does_step] and [does_by]).
    - Bytes: buffers and [Utils::Byte] (include/Utils.hpp), with frame lemmas.
    - Readers: what a parser of bytes reads of a buffer, and the tactic [reads].
    - OrdSet: [std::set] and [std::map] ordered by a comparator that wraps around.
    - Utils: [Utils::Bits], [Crypto] (random, CRC-32), [Time], [String] (Base64).
    - IP: socket addresses, [Utils::IP::CompareAddresses], [TransportTuple].
    - StunPacket (definitions), StunFacts (received messages), StunRoundTrip
      (sent messages): src/RTC/StunPacket.cpp.
    - IceServer (definitions), IceFacts (invariant), IceProps (theorems):
      src/RTC/IceServer.cpp, include/RTC/TransportTuple.hpp.
    - TcpConnection: src/RTC/TcpConnection.cpp and src/handles/TcpConnection.cpp,
      with the calls of libuv as arguments and events.
    - Timer: src/handles/Timer.cpp; libuv is the class [UvTimer] with the laws
      [UvLaws], which the clients of the timer are proved against.
    - SeqManager: src/RTC/SeqManager.cpp.
    - KeyFrame: src/RTC/KeyFrameRequestManager.cpp.
    - NackGenerator: src/RTC/NackGenerator.cpp.
    - RtpPacket (definitions), RtpPacketFacts, RtpPacketProps, RtpExtensions and
      RtpClone (theorems): src/RTC/RtpPacket.cpp.
    - Codecs (definitions), CodecsFacts (what the parsers read and what is
      rewritten), CodecsProps (theorems): src/RTC/Codecs/VP8.cpp, VP9.cpp,
      H264.cpp, H265.cpp, [RtpPacket::ProcessPayload] and [RestorePayload].
    - RtpStream, RtpStreamFacts: src/RTC/RtpStream.cpp.
    - RtpStreamSend (definitions), SendFacts (the retransmission buffer),
      Retransmission (answers to NACKs): src/RTC/RtpStreamSend.cpp.
    - Consumer (the base class, the interface [ConsumerKind] of the kinds, the
      class [ProducerStream] of the streams they read), SimulcastConsumer,
      SvcConsumer, SimpleConsumer, PipeConsumer: src/RTC/*Consumer.cpp.
    - ConsumerFacts, ConsumerProps: what the kinds have in common, and their
      forwarding.  SimulcastFacts (invariant, sending), SimulcastProps (theorems).
    - Bitrate (definitions, the interface [BitrateConsumer]), BitrateProps (the
      distribution for any consumers that keep the laws [BitrateLaws], and that
      the four kinds keep them): src/RTC/Transport.cpp.
    - Rtcp: the headers of RTCP packets, and feedback packets that are a list of
      items (src/RTC/RTCP/Packet.cpp, Feedback.cpp, FeedbackRtp.cpp).
    - RtcpNack: the NACK packet (FeedbackRtpNack.cpp) and how
      src/RTC/RtpStreamRecv.cpp makes it of what the generator asks for.
    - RtcpTransport (definitions), RtcpTransportFacts (reading is safe,
      [AddPacket]), RtcpTransportWire (chunks and deltas),
      RtcpTransportProps (theorems): src/RTC/RTCP/FeedbackRtpTransport.cpp.
    - RtcpCodec: packets that are a list of parts, parsed and written.
    - RtcpReports (definitions), RtcpReportsFacts (reading, round trips): src/RTC/RTCP/SenderReport.cpp, ReceiverReport.cpp, Sdes.cpp,
      Bye.cpp, XR.cpp and its blocks.
    - RtcpFeedback, RtcpFeedbackFacts: the other feedback
      packets (FeedbackPs*.cpp, FeedbackRtp*.cpp) and the dispatch on their types.
    - RtcpPacket, RtcpPacketFacts, RtcpPacketProps (theorems):
      [Packet::Parse], the packets of a datagram.
    - RtcpCompound: src/RTC/RTCP/CompoundPacket.cpp.
    - Floats: what the operations of SpecFloat compute, as rational numbers.
    - RateCalculator (definitions), RateFacts (theorems): src/RTC/RateCalculator.cpp.
    - RtxStream: src/RTC/RtxStream.cpp, and what it shares with the next.
    - RtpStreamRecv (definitions), RecvFacts (its floating point arithmetic and its
      parts), RecvSteps (invariant, what is left alone), RecvProps (theorems):
      src/RTC/RtpStreamRecv.cpp.  RecvProps gives its streams to the consumers,
      as an instance of [ProducerStream].
    - RtpListener: src/RTC/RtpListener.cpp.
    - RtpParameters: src/RTC/RtpDictionaries/ (Parameters.cpp, RtpCodecMimeType.cpp,
      RtpParameters.cpp and what RtpCodecParameters.cpp and RtpEncodingParameters.cpp
      check): modules [Parameters] and [MimeType], codecs, encodings, validation.
    - Producer (definitions), ProducerPackets (the packet for the router),
      ProducerFacts (invariant, finding and creating streams), ProducerSteps
      (packets, and everything else that happens),
      ProducerProps (theorems): src/RTC/Producer.cpp.  The listener is a
      parameter, [producer_listener]: for which SSRCs it asks for key frames
      while it is called.
    - AudioLevelObserver: src/RTC/AudioLevelObserver.cpp and RtpObserver.cpp.
    - Router (definitions), RouterFacts (invariant, steps), RouterRequests
      (every request), RouterProps (theorems): the object graph
      of src/RTC/Router.cpp, Transport.cpp, Producer.cpp and Consumer.cpp.

    - DtlsTransport (definitions and theorem): src/RTC/DtlsTransport.cpp; OpenSSL is
      the class [OpenSSL], what it documents the class [OpenSSLLaws].
    - WebRtcTransport (definitions), WebRtcFacts (invariant, every operation,
      theorems): src/RTC/WebRtcTransport.cpp, SrtpSession.cpp; libsrtp is the class
      [LibSrtp] with the laws [LibSrtpLaws].

    Definitions keep the names of the code; a loop or a branch that is a
    definition of its own is named after what it does.  Methods with the same
    name in several classes are told apart by a prefix ([levels_AddProducer]) or
    by their file.

    * What the theorems show

    - Safety of everything read off the wire: STUN, RTP and RTCP of any bytes
      stay within the buffer, end, and fail no assertion (StunParse_safe,
      Parse_safe, rtcp_parse_safe, transport_feedback_safe); header extensions,
      RTX, STUN attributes and RTCP packets that are written are read back
      (SetExtensions_parsed, rtx_round_trip, stun_round_trip, rtcp_round_trip,
      compound_round_trip, remb_round_trip, nack_round_trip,
      transport_feedback_reports).  Of the RTCP packets this holds for the shapes
      in [readable_packet], which leaves out VBCM (its item is not checked), SDES
      chunks without an end before others, DLRR blocks of several receivers, TMMB
      items that are not correct, and more than 31 reports or chunks; of an SDES or
      XR packet in a compound one, for what [compound_round_trip] says.
    - Video payloads of any bytes are looked at within bounds; a consumer leaves
      nothing in a packet, which the others share, but the marker of VP9
      (payload_restored); its receiver reads its numbers (vp8_renumbered); what is
      let through is of the layers in force (layers_in_force), which follow the
      target but for the temporal layer of VP9: it may rise to that of a packet above
      the target.
    - Consumers: a simulcast consumer fails no assertion in any order of packets,
      requests and reports that keep the conditions of [allowed], above all preferred
      layers below 2^15 and sender reports whose NTP time does not go back to 0, and
      its layers are those of streams it has (simulcast_safe); what it sends has its SSRC, number and timestamp, and the
      packet comes back as it was (simulcast_forwards); so do the other kinds
      (consumers_forward); which timestamps it switches layers with
      (switch_timestamps).
    - The distribution of the bitrate among consumers of all kinds ends, takes no
      more than there is, and leaves some only when each consumer that asked for
      bitrate, as it stands when the loop ends, takes none of it
      (bitrate_distributed).
    - Streams that come in: whatever arrives is handled, and the scores told are
      linked and in range, as long as the numbers the code takes for defined are
      (recv_safe); what a report says (receiver_report); the rates are those of the
      window (rate_is_window).
    - Producers: in any order of packets, reports, requests and timers that keep the
      conditions of [may_happen] (above all an SSRC that is not 0 and numbers that
      are defined), and whatever the listener asks for meanwhile, a producer answers,
      its tables, streams and key frame manager stay consistent, and what it gives
      the router is well-formed and mapped (producer_safe).  Its parameters are
      validated, no encoding has both an SSRC and a RID, and every feature codec has
      [apt]; the code checks neither of the last two.  What a packet for the router
      keeps (MangleRtpPacket_mangles).
    - Repair of losses, across components: the generator asks for what is missing
      and stops asking (loss_is_requested, nack_requests_end, nack_step_total);
      what it asks for reaches a sender and is sent again if it is due
      (loss_is_repaired, ReceiveNack_answers), also after as many other packets
      as the buffer has room for (lost_packet_recovered); the retransmission buffer is
      a queue of numbers of which a full one gives up the first and a newer packet
      becomes the last (StorePacket_stores).
    - Renumbering: [SeqManager] refines unbounded numbers shifted by what was
      dropped (seq_run_refines).
    - Connectivity: the ICE server judges each message, changes only on an
      authentic request, and its listener knows its state
      (ProcessStunPacket_judged, change_is_authentic, listener_knows).
    - Packets over TCP arrive in order however the stream is cut into reads, and
      however little the socket takes at once (tcp_delivers_frames, tcp_round_trip).
    - WebRTC transports: every packet, request, timer and thing to send that keeps
      the conditions of [op_fine] is handled, and no assertion fails (webrtc_safe); media is taken only from valid tuples
      and decrypted with keys of a handshake with a peer that had a certificate of
      the announced fingerprint, and goes, encrypted, to the selected tuple
      (media_authentic); the DTLS transport tells its state in order and gives keys
      only after that check (dtls_safe).  A handshake after which OpenSSL reports an
      error or a profile that was not offered is excluded by [OpenSSLLaws], which also
      takes it that exporting the keys after a handshake does not return 0.  [op_fine]
      excludes a connect request without fingerprints, which aborts the worker, and an
      RTCP packet too long for the trailer, which the code encrypts nevertheless;
      webrtc_safe says both.
    - The object graph: whatever requests come, in whatever order, the objects
      of a router refer to each other consistently, none is used after it is
      deleted, and every request is answered (reachable_consistent,
      requests_answered, TransportClose_closes).
    - Requests for key frames refine an automaton and are limited
      (kf_refines_automaton, kf_rate_limited).
    - What the code does wrong is a theorem as well: a feedback packet that ends
      the worker (transport_feedback_throws), a sender report that does
      (zero_report_aborts), reports that get lost (receiver_reports_lost),
      picture ids that wrap around earlier than their managers (picture_ids_wrap),
      a score that is not a number (score_undefined), a packet with SSRC 0 that
      ends the worker (zero_ssrc_aborts).

    The theorems on reachable states quantify over all sequences of operations
    (inductive predicates such as [nack_reachable], [reporting] and the steps of
    Router), and their invariants are records ([ng_inv], [send_inv], [building],
    [graph_ok], [producer_inv], [dtls_inv], [webrtc_inv]).

    * Fuel

    Loops whose recursion is not structural take fuel, and running out of it is
    [OutOfFuel], which the safety theorems exclude.  [parse_loop] of STUN and the
    extension loops of RTP have one unit for each byte: each round takes at least
    one.  [chunk_loop] and [parse_items] have one for each byte too, and take two
    and one.  [add_loop] of the generator has the number of packets missing,
    [remove_while] one more than the length of the list, [fill_loop] of a NACK
    item 17, [parse_loop] of TCP frames one more than the bytes pending (a frame
    takes at least two), [remove_loop] the size of the window, [share_loop] one more than the bitrate there is (a pass takes some, or
    is the last), [items_loop] the length of the batch, [missing_loop] 7.
    [run_results] has the count of its chunk; with 65535 the C++ loop would not
    end, and no chunk off the wire has more than 8191.

    * Not modelled

    - Third-party code: libuv (the class [UvTimer]), OpenSSL (the classes [OpenSSL]
      and [HmacSha1]), libsrtp (the class [LibSrtp]), usrsctp, libwebrtc; hence
      SctpAssociation and the bandwidth estimators.
    - Sockets, pipes and JSON: the channels, the sockets of UDP and TCP servers, the
      other kinds of transport (PlainTransport, PipeTransport, DirectTransport), and
      what constructors read of their requests (it is an argument).
    - Of DTLS, the certificate and the context that the process makes once.  The
      parent class, told in the middle of a call of the DTLS transport that it is
      connected, may start SCTP, which sends over the DTLS transport in that call;
      in the model such data is sent by an operation of its own.
    - Logging ([MS_DEBUG_*], [Dump]) and statistics ([FillJson*]).  The debug line
      of OnNackGeneratorNackRequired reads the first number of the batch, which
      the generator never leaves empty.
    - The mediasoup library and the demo (src/mediasoup, src/protoo, src/demo),
      which send requests to the workers.

    Of the consumers, the trace events are left out, which change nothing, and the
    sender reports ([GetRtcp]).  That a consumer sends a packet is an event: the
    transport, its listener, then writes the time of sending and the transport-wide
    number into two extensions of the shared packet, which is not modelled.

    Of the router, the data producers and consumers are left out, with
    SctpListener: without usrsctp they only hand messages on.  PortManager chooses
    a port by binding sockets until one binds; TransportCongestionControlServer and
    Client drive the estimators of libwebrtc. *)

From stdpp Require Export prelude list gmap strings.
From Stdlib Require Export ZArith Lia.

#[export] Set Default Goal Selector "!".

Declare Scope ms_scope.
Delimit Scope ms_scope with ms.
Global Open Scope Z_scope.

(** * Outcomes

    A C++ function of the worker either returns, returns [nullptr] (a rejected
    packet), throws (a [MediaSoupError] by [MS_THROW_ERROR], or what [at] of the
    standard library throws, which nothing catches), aborts the process
    ([MS_ASSERT], [MS_ABORT]), or has no defined behaviour at all because it
    reads or writes outside the buffer it was given.  A loop that has not
    ended within the fuel of the model is kept apart from all of those. *)

Inductive error : Type :=
| Rejected
| Thrown
| AssertFailed
| OutOfBounds
| OutOfFuel.

Inductive outcome (A : Type) : Type :=
| Ok (x : A)
| Err (e : error).
Arguments Ok {A} x.
Arguments Err {A} e.

#[export] Instance error_eq_dec : EqDecision error.
Proof. solve_decision. Defined.

#[export] Instance outcome_eq_dec {A} `{EqDecision A} : EqDecision (outcome A).
Proof. solve_decision. Defined.

#[export] Instance outcome_ret : MRet outcome := fun A x => Ok x.
#[export] Instance outcome_bind : MBind outcome := fun A B f m =>
  match m with
  | Ok x => f x
  | Err e => Err e
  end.

(** [require e b]: go on when [b] holds, stop with [e] otherwise. *)
Definition require (e : error) (b : bool) : outcome unit :=
  if b then Ok () else Err e.

(** The failures a caller of a parser cannot observe as a value: undefined
    behaviour, an abort of the process, or a loop that does not end. *)
Definition is_crash {A} (m : outcome A) : bool :=
  match m with
  | Err AssertFailed | Err OutOfBounds | Err OutOfFuel => true
  | _ => false
  end.

(** * Machine integers *)

(** [wrap w z]: conversion of [z] to an unsigned integer of [w] bits. *)
Definition wrap (w z : Z) : Z := z `mod` 2 ^ w.

(** [swrap w z]: conversion of [z] to a two's complement integer of [w] bits. *)
Definition swrap (w z : Z) : Z := (z + 2 ^ (w - 1)) `mod` 2 ^ w - 2 ^ (w - 1).

Definition in_uint (w z : Z) : Prop := 0 <= z < 2 ^ w.

#[export] Instance in_uint_dec w z : Decision (in_uint w z).
Proof. unfold in_uint. apply _. Defined.

Abbreviation u8 := (wrap 8).
Abbreviation u16 := (wrap 16).
Abbreviation u32 := (wrap 32).
Abbreviation u64 := (wrap 64).

(** Boolean value of a C++ integer used as a condition. *)
Definition truthy (z : Z) : bool := negb (z =? 0).

(** C++ [bool] to integer. *)
Definition b2z (b : bool) : Z := if b then 1 else 0.

(** * Proof automation *)

Create HintDb ms.
Create Rewrite HintDb wrap.

(** Case analysis on the boolean comparisons of the goal and hypotheses. *)
Ltac bool_cases :=
  repeat match goal with
  | H : context [?a =? ?b] |- _ => destruct (Z.eqb_spec a b)
  | H : context [?a <? ?b] |- _ => destruct (Z.ltb_spec a b)
  | H : context [?a <=? ?b] |- _ => destruct (Z.leb_spec a b)
  | |- context [?a =? ?b] => destruct (Z.eqb_spec a b)
  | |- context [?a <? ?b] => destruct (Z.ltb_spec a b)
  | |- context [?a <=? ?b] => destruct (Z.leb_spec a b)
  end; simplify_eq/=.

(** * Generic lemmas *)

Section outcome_lemmas.
Context {A B : Type}.

Lemma bind_Ok (m : outcome A) (f : A -> outcome B) y :
  (m ≫= f) = Ok y <-> exists x, m = Ok x /\ f x = Ok y.
Proof.
  destruct m as [x|e]; cbn; [naive_solver|].
  split; [discriminate | intros (? & ? & ?); discriminate].
Qed.

Lemma bind_ret_l (x : A) (f : A -> outcome B) : (Ok x ≫= f) = f x.
Proof. reflexivity. Qed.

Lemma bind_Err (e : error) (f : A -> outcome B) : (Err e ≫= f) = Err e.
Proof. reflexivity. Qed.

Lemma require_Ok e b x : require e b = Ok x -> b = true.
Proof. destruct b; cbn; congruence. Qed.

Lemma require_true e b : b = true -> require e b = Ok ().
Proof. intros ->. reflexivity. Qed.

(** A computation built from steps that do not crash does not crash. *)
Lemma is_crash_bind (m : outcome A) (f : A -> outcome B) :
  is_crash m = false ->
  (forall x, m = Ok x -> is_crash (f x) = false) ->
  is_crash (m ≫= f) = false.
Proof. destruct m as [x|[]]; cbn; auto. Qed.

Lemma is_crash_Ok (x : A) : is_crash (Ok x) = false.
Proof. reflexivity. Qed.
End outcome_lemmas.

Section word_lemmas.
Implicit Types w z a b : Z.

Lemma wrap_range w z : 0 <= w -> in_uint w (wrap w z).
Proof. intros Hw. apply Z.mod_pos_bound. lia. Qed.

Lemma in_uint_weaken j k z : 0 <= j <= k -> in_uint j z -> in_uint k z.
Proof. unfold in_uint. intros Hjk Hz. pose proof (Z.pow_le_mono_r 2 j k). lia. Qed.

Lemma wrap_small w z : in_uint w z -> wrap w z = z.
Proof. apply Z.mod_small. Qed.

Lemma wrap_wrap w z : wrap w (wrap w z) = wrap w z.
Proof. unfold wrap. apply Zmod_mod. Qed.

Lemma wrap_add_l w a b : wrap w (wrap w a + b) = wrap w (a + b).
Proof. unfold wrap. apply Zplus_mod_idemp_l. Qed.

Lemma wrap_add_r w a b : wrap w (a + wrap w b) = wrap w (a + b).
Proof. unfold wrap. apply Zplus_mod_idemp_r. Qed.

Lemma wrap_sub_l w a b : wrap w (wrap w a - b) = wrap w (a - b).
Proof. unfold wrap. apply Zminus_mod_idemp_l. Qed.

Lemma wrap_sub_r w a b : wrap w (a - wrap w b) = wrap w (a - b).
Proof. unfold wrap. apply Zminus_mod_idemp_r. Qed.

Lemma wrap_add_period w z k : wrap w (z + k * 2 ^ w) = wrap w z.
Proof. unfold wrap. apply Z_mod_plus_full. Qed.

(** Equal residues of numbers less than a period apart are equal numbers. *)
Lemma wrap_inj_near w a b :
  0 <= w -> - 2 ^ w < a - b < 2 ^ w -> wrap w a = wrap w b -> a = b.
Proof.
  intros Hw Hab Heq. unfold wrap in Heq.
  assert (0 < 2 ^ w) by lia.
  pose proof (Z.div_mod a (2 ^ w)). pose proof (Z.div_mod b (2 ^ w)).
  assert (a / 2 ^ w = b / 2 ^ w) by nia. nia.
Qed.

Lemma testbit_above w z i : in_uint w z -> w <= i -> Z.testbit z i = false.
Proof.
  intros [Hz0 Hz] Hi. destruct (Z.eq_dec z 0) as [->|Hne].
  - apply Z.bits_0.
  - apply Z.bits_above_log2; [lia|].
    assert (Z.log2 z < w); [|lia]. apply Z.log2_lt_pow2; lia.
Qed.

(** Disjoint bits: [lor] is [+]. *)
Lemma lor_shiftl_add k a b :
  0 <= k -> in_uint k b -> Z.lor b (Z.shiftl a k) = a * 2 ^ k + b.
Proof.
  intros Hk Hb. rewrite <- Z.shiftl_mul_pow2 by done.
  rewrite Z.add_comm, <- Z.add_lor_land.
  enough (Z.land b (Z.shiftl a k) = 0) by lia.
  apply Z.bits_inj_0. intros i. rewrite Z.land_spec.
  destruct (Z.lt_ge_cases i k) as [Hi|Hi].
  - destruct (Z.lt_ge_cases i 0) as [Hn|Hn].
    + by rewrite Z.testbit_neg_r.
    + by rewrite Z.shiftl_spec_low, andb_false_r.
  - by rewrite (testbit_above k).
Qed.
End word_lemmas.

(** Facts about finitely many integers, by computation. *)
Lemma forall_below (n : Z) (P : Z -> bool) :
  forallb P (seqZ 0 n) = true -> forall x, 0 <= x < n -> P x = true.
Proof.
  intros Hall x Hx. rewrite forallb_forall in Hall. apply Hall.
  apply list_elem_of_In, elem_of_seqZ. lia.
Qed.

Lemma forall_below2 (n k : Z) (P : Z -> Z -> bool) :
  forallb (fun x => forallb (P x) (seqZ 0 k)) (seqZ 0 n) = true ->
  forall x y, 0 <= x < n -> 0 <= y < k -> P x y = true.
Proof.
  intros Hall x y Hx Hy. apply (forall_below k); [|done].
  by apply (forall_below n (fun x => forallb (P x) (seqZ 0 k))).
Qed.

(** Congruence of integers modulo [2 ^ w], and rewriting with it. *)
Section congruence.
Context (w : Z).

Definition eqm (a b : Z) : Prop := wrap w a = wrap w b.

#[export] Instance eqm_equiv : Equivalence eqm.
Proof. unfold eqm. split; [intros a|intros a b|intros a b c]; congruence. Qed.

#[export] Instance add_eqm : Proper (eqm ==> eqm ==> eqm) Z.add.
Proof.
  unfold eqm. intros a b Hab c d Hcd.
  by rewrite <- wrap_add_l, <- wrap_add_r, Hab, Hcd, wrap_add_l, wrap_add_r.
Qed.

#[export] Instance sub_eqm : Proper (eqm ==> eqm ==> eqm) Z.sub.
Proof.
  unfold eqm. intros a b Hab c d Hcd.
  by rewrite <- wrap_sub_l, <- wrap_sub_r, Hab, Hcd, wrap_sub_l, wrap_sub_r.
Qed.

#[export] Instance wrap_eqm_proper : Proper (eqm ==> eqm) (wrap w).
Proof. unfold eqm. intros a b Hab. by rewrite !wrap_wrap. Qed.

Lemma wrap_eqm a : eqm (wrap w a) a.
Proof. apply wrap_wrap. Qed.
End congruence.

(** Split a monadic computation that returned: every step returned. *)
Ltac ok_inv :=
  repeat match goal with
  | H : Err _ = Ok _ |- _ => discriminate H
  | H : Ok _ = Err _ |- _ => discriminate H
  | H : Ok _ = Ok _ |- _ => injection H as H; subst
  | H : (_ ≫= _) = Ok _ |- _ =>
      apply bind_Ok in H; destruct H as (? & ? & H); cbn beta in H
  | H : require _ ?b = Ok _ |- _ =>
      apply require_Ok in H
  end.

(** Reduce the monadic steps that have returned, and nothing else. *)
Ltac ostep := cbn [require mbind outcome_bind].

#[export] Hint Resolve is_crash_Ok : ms.
#[export] Hint Rewrite wrap_wrap wrap_add_l wrap_add_r wrap_sub_l wrap_sub_r : wrap.

(** Equality of two conversions: push every conversion outwards, or drop the
    inner ones by congruence; then compare. *)
Ltac wrap_simp :=
  autorewrite with wrap;
  try first
    [ reflexivity
    | f_equal; lia
    | match goal with
      | |- wrap ?w ?a = wrap ?w ?b =>
          change (eqm w a b);
          repeat match goal with
          | |- context [wrap w ?c] => rewrite (wrap_eqm w c)
          end;
          unfold eqm; f_equal; lia
      end ].
