(* ===== verification/Effects.v ===== *)
(** Operations of an object: programs that read and write its state, call its
    listener, and may fail.  What they do is told by a predicate transformer,
    [does m Q s]: run in the state [s], [m] returns, and the result, the new
    state and the calls made satisfy [Q]. *)

From S2P Require Export Prelude.

Section act.
Context {S E : Type}.

(** A program on states [S] that makes calls [E] and returns an [A]. *)
Definition act (A : Type) : Type := S -> outcome (A * S * list E).

#[export] Instance act_ret : MRet act := fun A a s => Ok (a, s, []).

#[export] Instance act_bind : MBind act := fun A B k m s =>
  match m s with
  | Ok (a, s1, es) =>
      match k a s1 with
      | Ok (b, s2, es') => Ok (b, s2, es ++ es')
      | Err e => Err e
      end
  | Err e => Err e
  end.

Definition get : act S := fun s => Ok (s, s, []).
Definition put (s : S) : act unit := fun _ => Ok ((), s, []).
Definition modify (f : S -> S) : act unit := fun s => Ok ((), f s, []).
Definition emit (e : E) : act unit := fun s => Ok ((), s, [e]).
Definition emits (es : list E) : act unit := fun s => Ok ((), s, es).

(** A computation that does not touch the state. *)
Definition lift {A} (m : outcome A) : act A := fun s => x ← m; Ok (x, s, []).

Definition skip : act unit := mret ().

Definition does {A} (m : act A) (Q : A -> S -> list E -> Prop) (s : S) : Prop :=
  exists a s' es, m s = Ok (a, s', es) /\ Q a s' es.

Lemma does_ret {A} (a : A) Q s : Q a s [] -> does (mret a) Q s.
Proof. intros H. by exists a, s, []. Qed.

Lemma does_skip (Q : unit -> S -> list E -> Prop) s : Q () s [] -> does skip Q s.
Proof. apply does_ret. Qed.

Lemma does_bind {A B} (m : act A) (k : A -> act B) Q s :
  does m (fun a s1 es => does (k a) (fun b s2 es' => Q b s2 (es ++ es')) s1) s -> does (m ≫= k) Q s.
Proof.
  intros (a & s1 & es & E1 & b & s2 & es' & E2 & H). exists b, s2, (es ++ es').
  unfold mbind, act_bind. by rewrite E1, E2.
Qed.

Lemma does_get (Q : S -> S -> list E -> Prop) s : Q s s [] -> does get Q s.
Proof. intros H. by exists s, s, []. Qed.

Lemma does_put s' (Q : unit -> S -> list E -> Prop) s : Q () s' [] -> does (put s') Q s.
Proof. intros H. by exists (), s', []. Qed.

Lemma does_modify f (Q : unit -> S -> list E -> Prop) s : Q () (f s) [] -> does (modify f) Q s.
Proof. intros H. by exists (), (f s), []. Qed.

Lemma does_emit e (Q : unit -> S -> list E -> Prop) s : Q () s [e] -> does (emit e) Q s.
Proof. intros H. by exists (), s, [e]. Qed.

Lemma does_emits es (Q : unit -> S -> list E -> Prop) s : Q () s es -> does (emits es) Q s.
Proof. intros H. by exists (), s, es. Qed.

Lemma does_lift {A} (m : outcome A) x Q s : m = Ok x -> Q x s [] -> does (lift m) Q s.
Proof. intros -> H. by exists x, s, []. Qed.

Lemma does_weaken {A} (m : act A) (Q Q' : A -> S -> list E -> Prop) s :
  does m Q s -> (forall a s' es, Q a s' es -> Q' a s' es) -> does m Q' s.
Proof. intros (a & s' & es & E1 & H) HQ. exists a, s', es. split; [exact E1|by apply HQ]. Qed.

Lemma does_and {A} (m : act A) (Q Q' : A -> S -> list E -> Prop) s :
  does m Q s -> does m Q' s -> does m (fun a s' es => Q a s' es /\ Q' a s' es) s.
Proof. intros (a & s' & es & E1 & H) (a' & s2 & es' & E2 & H').
  rewrite E1 in E2. injection E2 as <- <- <-. by exists a, s', es. Qed.

Lemma does_exactly {A} (m : act A) a s s' es : does m (fun b t fs => (b, t, fs) = (a, s', es)) s -> m s = Ok (a, s', es).
Proof. intros (b & t & fs & -> & [= -> -> ->]). done. Qed.

(** A run up to its first actions. *)
Lemma act_get_bind {B} (k : S -> act B) s : (get ≫= k) s = k s s.
Proof. unfold mbind, act_bind, get. by destruct (k s s) as [[[b s'] es]|e]. Qed.

Lemma act_modify_bind {B} f (k : unit -> act B) s : (modify f ≫= k) s = k () (f s).
Proof. unfold mbind, act_bind, modify. by destruct (k () (f s)) as [[[b s'] es]|e]. Qed.

Lemma act_lift_Err {A B} (m : outcome A) (k : A -> act B) e s : m = Err e -> (lift m ≫= k) s = Err e.
Proof. intros ->. done. Qed.

Lemma act_lift_Ok {A B} (m : outcome A) (k : A -> act B) a s : m = Ok a -> (lift m ≫= k) s = k a s.
Proof. intros ->. unfold mbind, act_bind, lift. cbn. by destruct (k a s) as [[[b s'] es]|e]. Qed.

Lemma act_bind_Err {A B} (m : act A) (k : A -> act B) e s : m s = Err e -> (m ≫= k) s = Err e.
Proof. unfold mbind, act_bind. by intros ->. Qed.

(** What a run that returned tells. *)
Lemma does_run {A} (m : act A) Q s a s' es : does m Q s -> m s = Ok (a, s', es) -> Q a s' es.
Proof. intros (a1 & s1 & es1 & E1 & H) E2. rewrite E1 in E2. by injection E2 as <- <- <-. Qed.

(** The calls of every run that returns satisfy [P]: [only P m]. *)
Definition only {A} (P : E -> Prop) (m : act A) : Prop := forall s a s' es, m s = Ok (a, s', es) -> Forall P es.

Section only.
Context (P : E -> Prop).

Lemma only_ret {A} (a : A) : only P (mret a).
Proof. intros s b s' es [= _ _ <-]. constructor. Qed.

Lemma only_get : only P get.
Proof. intros s b s' es [= _ _ <-]. constructor. Qed.

Lemma only_modify f : only P (modify f).
Proof. intros s b s' es [= _ _ <-]. constructor. Qed.

Lemma only_emit e : P e -> only P (emit e).
Proof. intros He s b s' es [= _ _ <-]. by apply Forall_singleton. Qed.

Lemma only_lift {A} (m : outcome A) : only P (lift m).
Proof. intros s b s' es. unfold lift. destruct m; [|done]. intros [= _ _ <-]. constructor. Qed.

Lemma only_bind {A B} (m : act A) (k : A -> act B) : only P m -> (forall a, only P (k a)) -> only P (m ≫= k).
Proof.
  intros Hm Hk s b s' es. unfold mbind, act_bind. destruct (m s) as [[[a s1] es1]|] eqn:E1; [|done].
  destruct (k a s1) as [[[b' s2] es2]|] eqn:E2; [|done]. intros [= _ _ <-]. apply Forall_app. split; [by eapply Hm|by eapply Hk].
Qed.

Lemma only_run {A} (m : act A) Q s : only P m -> does m Q s -> does m (fun a s' es => Q a s' es /\ Forall P es) s.
Proof. intros Hm (a & s' & es & Er & HQ). exists a, s', es. split; [done|]. split; [done|by eapply Hm]. Qed.
End only.

(** What holds of every run that returns, whether or not there is one: [may m Q s]. *)
Definition may {A} (m : act A) (Q : A -> S -> Prop) (s : S) : Prop := forall a s' es, m s = Ok (a, s', es) -> Q a s'.

Lemma may_ret {A} (a : A) (Q : A -> S -> Prop) s : Q a s -> may (mret a) Q s.
Proof. by intros HQ b s' es [= <- <- _]. Qed.

Lemma may_skip (Q : unit -> S -> Prop) s : Q () s -> may skip Q s.
Proof. apply may_ret. Qed.

Lemma may_bind {A B} (m : act A) (k : A -> act B) Q s : may m (fun a s1 => may (k a) Q s1) s -> may (m ≫= k) Q s.
Proof.
  intros Hm b s' es. unfold mbind, act_bind. destruct (m s) as [[[a s1] es1]|e] eqn:E1; [|done].
  destruct (k a s1) as [[[b' s2] es2]|e] eqn:E2; [|done]. intros [= -> -> _]. by apply (Hm a s1 es1 E1 b s' es2).
Qed.

Lemma may_get (Q : S -> S -> Prop) s : Q s s -> may get Q s.
Proof. by intros HQ b s' es [= <- <- _]. Qed.

Lemma may_modify f (Q : unit -> S -> Prop) s : Q () (f s) -> may (modify f) Q s.
Proof. by intros HQ [] s' es [= <- _]. Qed.

Lemma may_emit e (Q : unit -> S -> Prop) s : Q () s -> may (emit e) Q s.
Proof. by intros HQ [] s' es [= <- _]. Qed.

Lemma may_lift {A} (m : outcome A) (Q : A -> S -> Prop) s : (forall a, m = Ok a -> Q a s) -> may (lift m) Q s.
Proof. intros HQ a s' es. unfold lift. destruct m as [x|e]; [|done]. intros [= <- <- _]. by apply HQ. Qed.

Lemma may_weaken {A} (m : act A) (Q Q' : A -> S -> Prop) s : may m Q s -> (forall a s', Q a s' -> Q' a s') -> may m Q' s.
Proof. intros Hm HQ a s' es Em. by eapply HQ, Hm. Qed.

Lemma may_match {A B} (m : act (A * B)) {C} (k : A -> B -> act C) Q s :
  may m (fun ab s1 => may (k ab.1 ab.2) Q s1) s -> may ('(a, b) ← m; k a b) Q s.
Proof. intros Hm. apply may_bind. eapply may_weaken; [exact Hm|]. by intros [a b] s1. Qed.
End act.

Arguments act : clear implicits.

(** One step of a program of which the returning runs are looked at. *)
Ltac may_step :=
  first
  [ progress cbn beta iota delta [negb]
  | lazymatch goal with
    | |- may (_ ≫= _) _ _ => apply may_bind
    | |- may (mret _) _ _ => apply may_ret
    | |- may skip _ _ => apply may_skip
    | |- may get _ _ => apply may_get
    | |- may (modify _) _ _ => apply may_modify
    | |- may (emit _) _ _ => apply may_emit
    | |- may (lift _) _ _ => apply may_lift; intros ? ?
    | |- may (if ?b then _ else _) _ _ => destruct b
    end ].

(** One step of a program: the rule for its first action. *)
Ltac does_step :=
  first
  [ progress cbn beta iota delta [negb app fst snd]
  | lazymatch goal with
    | |- does (_ ≫= _) _ _ => apply does_bind
    | |- does (mret _) _ _ => apply does_ret
    | |- does skip _ _ => apply does_skip
    | |- does get _ _ => apply does_get
    | |- does (put _) _ _ => apply does_put
    | |- does (modify _) _ _ => apply does_modify
    | |- does (emit _) _ _ => apply does_emit
    | |- does (emits _) _ _ => apply does_emits
    end ].

(** Up to a computation whose result is known. *)
Tactic Notation "does_by" constr(E) := repeat does_step; eapply does_lift; [exact E|]; repeat does_step.

(** Up to a call of which a fact is known. *)
Tactic Notation "does_call" uconstr(L) := repeat does_step; eapply does_weaken; [apply L|]; cbn beta.

(** One step of a program whose calls are told by [only]. *)
Ltac only_step :=
  first
    [ apply only_ret | apply only_get | apply only_modify | apply only_lift | apply only_emit; done
    | match goal with |- only _ (_ ≫= _) => apply only_bind; [|intros] end
    | match goal with |- only _ (match ?x with _ => _ end) => destruct x end ].
