(* ===== verification/Bytes.v ===== *)
(** Byte buffers: the memory a packet lives in, and the accessors of
    [Utils::Byte] (worker/include/Utils.hpp).

    A buffer is the list of its bytes, numbers below 256.  An access outside
    of it has no defined behaviour in C++ and is [Err OutOfBounds] here, so
    that memory safety of a function is a theorem about its outcome. *)

From S2P Require Export Prelude.

(** * Raw memory *)

Definition bytes (data : list Z) : Prop := Forall (in_uint 8) data.

#[export] Instance bytes_dec data : Decision (bytes data).
Proof. unfold bytes. apply _. Defined.

Definition zlen {A} (l : list A) : Z := Z.of_nat (length l).

(** [data[i]], read. *)
Definition get1 (data : list Z) (i : Z) : outcome Z :=
  if i <? 0 then Err OutOfBounds
  else match data !! Z.to_nat i with
       | Some b => Ok b
       | None => Err OutOfBounds
       end.

(** The [n] bytes from offset [off], the source of a [memcpy]. *)
Definition slice (data : list Z) (off n : Z) : outcome (list Z) :=
  if (0 <=? off) && (0 <=? n) && (off + n <=? zlen data)
  then Ok (take (Z.to_nat n) (drop (Z.to_nat off) data))
  else Err OutOfBounds.

(** The bytes [bs] stored from offset [off] on, the target of a [memcpy]. *)
Definition write (data : list Z) (off : Z) (bs : list Z) : outcome (list Z) :=
  if (0 <=? off) && (off + zlen bs <=? zlen data)
  then Ok (take (Z.to_nat off) data ++ bs
             ++ drop (Z.to_nat off + length bs) data)
  else Err OutOfBounds.

(** [data[i] = v]. *)
Definition set1 (data : list Z) (i v : Z) : outcome (list Z) := write data i [v].

Definition memmove (data : list Z) (dst src n : Z) : outcome (list Z) :=
  s ← slice data src n; write data dst s.

Definition memset (data : list Z) (off v n : Z) : outcome (list Z) :=
  write data off (replicate (Z.to_nat n) v).

(** * [Utils::Byte] *)

Definition Get1Byte (data : list Z) (i : Z) : outcome Z := get1 data i.

Definition Get2Bytes (data : list Z) (i : Z) : outcome Z :=
  b1 ← get1 data (i + 1);
  b0 ← get1 data i;
  Ok (u16 (Z.lor b1 (Z.shiftl b0 8))).

Definition Get3Bytes (data : list Z) (i : Z) : outcome Z :=
  b2 ← get1 data (i + 2);
  b1 ← get1 data (i + 1);
  b0 ← get1 data i;
  Ok (u32 (Z.lor (Z.lor b2 (Z.shiftl b1 8)) (Z.shiftl b0 16))).

Definition Get4Bytes (data : list Z) (i : Z) : outcome Z :=
  b3 ← get1 data (i + 3);
  b2 ← get1 data (i + 2);
  b1 ← get1 data (i + 1);
  b0 ← get1 data i;
  Ok (u32 (Z.lor (Z.lor (Z.lor b3 (Z.shiftl b2 8)) (Z.shiftl b1 16))
             (Z.shiftl b0 24))).

Definition Get8Bytes (data : list Z) (i : Z) : outcome Z :=
  hi ← Get4Bytes data i;
  lo ← Get4Bytes data (i + 4);
  Ok (u64 (Z.lor (Z.shiftl hi 32) lo)).

Definition Set1Byte (data : list Z) (i value : Z) : outcome (list Z) :=
  set1 data i value.

Definition Set2Bytes (data : list Z) (i value : Z) : outcome (list Z) :=
  data ← set1 data (i + 1) (u8 value);
  set1 data i (u8 (Z.shiftr value 8)).

Definition Set3Bytes (data : list Z) (i value : Z) : outcome (list Z) :=
  data ← set1 data (i + 2) (u8 value);
  data ← set1 data (i + 1) (u8 (Z.shiftr value 8));
  set1 data i (u8 (Z.shiftr value 16)).

Definition Set4Bytes (data : list Z) (i value : Z) : outcome (list Z) :=
  data ← set1 data (i + 3) (u8 value);
  data ← set1 data (i + 2) (u8 (Z.shiftr value 8));
  data ← set1 data (i + 1) (u8 (Z.shiftr value 16));
  set1 data i (u8 (Z.shiftr value 24)).

Definition Set8Bytes (data : list Z) (i value : Z) : outcome (list Z) :=
  data ← set1 data (i + 7) (u8 value);
  data ← set1 data (i + 6) (u8 (Z.shiftr value 8));
  data ← set1 data (i + 5) (u8 (Z.shiftr value 16));
  data ← set1 data (i + 4) (u8 (Z.shiftr value 24));
  data ← set1 data (i + 3) (u8 (Z.shiftr value 32));
  data ← set1 data (i + 2) (u8 (Z.shiftr value 40));
  data ← set1 data (i + 1) (u8 (Z.shiftr value 48));
  set1 data i (u8 (Z.shiftr value 56)).

(** [PadTo4Bytes(uint16_t)] and [PadTo4Bytes(uint32_t)]. *)
Definition PadTo4Bytes16 (size : Z) : Z :=
  if truthy (Z.land size 3) then u16 (Z.land size 65532 + 4) else size.

Definition PadTo4Bytes32 (size : Z) : Z :=
  if truthy (Z.land size 3) then u32 (Z.land size 4294967292 + 4) else size.

(** Big-endian value of a list of bytes, and the [n] bytes of a value: the
    reference the accessors are compared with. *)
Fixpoint be_val (bs : list Z) : Z :=
  match bs with
  | [] => 0
  | b :: bs => b * 2 ^ (8 * zlen bs) + be_val bs
  end.

Fixpoint be_bytes (n : nat) (v : Z) : list Z :=
  match n with
  | O => []
  | S n => u8 (v / 2 ^ (8 * Z.of_nat n)) :: be_bytes n v
  end.

(** * Lemmas: raw memory *)

Lemma zlen_nonneg {A} (l : list A) : 0 <= zlen l.
Proof. unfold zlen. lia. Qed.

Lemma zlen_app {A} (l k : list A) : zlen (l ++ k) = zlen l + zlen k.
Proof. unfold zlen. rewrite length_app. lia. Qed.

Lemma zlen_cons {A} (x : A) l : zlen (x :: l) = 1 + zlen l.
Proof. unfold zlen. cbn. lia. Qed.

Lemma zlen_one {A} (x : A) : zlen [x] = 1.
Proof. reflexivity. Qed.

Lemma get1_one x : get1 [x] 0 = Ok x.
Proof. reflexivity. Qed.

Lemma get1_Ok data i b :
  get1 data i = Ok b <-> 0 <= i /\ data !! Z.to_nat i = Some b.
Proof.
  unfold get1. destruct (Z.ltb_spec i 0).
  - split; [discriminate|]. intros [? ?]. lia.
  - destruct (data !! Z.to_nat i); naive_solver.
Qed.

Lemma get1_in_bounds data i :
  0 <= i < zlen data -> exists b, get1 data i = Ok b.
Proof.
  unfold zlen. intros Hi. destruct (lookup_lt_is_Some_2 data (Z.to_nat i)) as [b Hb].
  - lia.
  - exists b. apply get1_Ok. split; [lia|done].
Qed.

Lemma get1_byte data i b : bytes data -> get1 data i = Ok b -> in_uint 8 b.
Proof.
  intros Hd [_ Hb]%get1_Ok. by eapply (proj1 (Forall_lookup _ _) Hd).
Qed.

Lemma get1_bounds data i b : get1 data i = Ok b -> 0 <= i < zlen data.
Proof.
  intros [? Hb%lookup_lt_Some]%get1_Ok. unfold zlen. lia.
Qed.

Lemma slice_Ok data off n s :
  slice data off n = Ok s <->
  0 <= off /\ 0 <= n /\ off + n <= zlen data /\
  s = take (Z.to_nat n) (drop (Z.to_nat off) data).
Proof.
  unfold slice. destruct (_ && _) eqn:E.
  - rewrite !andb_true_iff, !Z.leb_le in E. naive_solver.
  - split; [discriminate|]. intros (?&?&?&_).
    rewrite !andb_false_iff, !Z.leb_gt in E. lia.
Qed.

Lemma write_Ok data off bs d :
  write data off bs = Ok d <->
  0 <= off /\ off + zlen bs <= zlen data /\
  d = take (Z.to_nat off) data ++ bs ++ drop (Z.to_nat off + length bs) data.
Proof.
  unfold write. destruct (_ && _) eqn:E.
  - rewrite !andb_true_iff, !Z.leb_le in E. naive_solver.
  - split; [discriminate|]. intros (?&?&_).
    rewrite !andb_false_iff, !Z.leb_gt in E. lia.
Qed.

Lemma write_in_bounds data off bs :
  0 <= off -> off + zlen bs <= zlen data -> exists d, write data off bs = Ok d.
Proof. intros. eexists. by apply write_Ok. Qed.

Lemma slice_in_bounds data off n :
  0 <= off -> 0 <= n -> off + n <= zlen data -> exists s, slice data off n = Ok s.
Proof. intros. eexists. by apply slice_Ok. Qed.

Lemma zlen_slice data off n s : slice data off n = Ok s -> zlen s = n.
Proof.
  intros (?&?&H&->)%slice_Ok. unfold zlen in *.
  rewrite length_take, length_drop. lia.
Qed.

Lemma zlen_write data off bs d : write data off bs = Ok d -> zlen d = zlen data.
Proof.
  intros (?&H&->)%write_Ok. unfold zlen in *.
  rewrite !length_app, length_take, length_drop. lia.
Qed.

Lemma zlen_set1 data i v d : set1 data i v = Ok d -> zlen d = zlen data.
Proof. apply zlen_write. Qed.

Lemma bytes_slice data off n s :
  bytes data -> slice data off n = Ok s -> bytes s.
Proof.
  intros Hd (?&?&?&->)%slice_Ok. by apply Forall_take, Forall_drop.
Qed.

Lemma bytes_write data off bs d :
  bytes data -> bytes bs -> write data off bs = Ok d -> bytes d.
Proof.
  intros Hd Hb (?&?&->)%write_Ok. unfold bytes in *.
  rewrite !Forall_app. eauto using Forall_take, Forall_drop.
Qed.

(** What is read after a write: the written byte inside the written range, the
    old one outside of it. *)
Lemma get1_write data off bs d i :
  write data off bs = Ok d ->
  get1 d i = if (off <=? i) && (i <? off + zlen bs) then get1 bs (i - off)
             else get1 data i.
Proof.
  intros (Hoff&Hlen&->)%write_Ok. unfold get1, zlen in *.
  destruct (Z.leb_spec off i), (Z.ltb_spec i (off + Z.of_nat (length bs)));
    cbn [andb]; destruct (Z.ltb_spec i 0); try lia; try done.
  - destruct (Z.ltb_spec (i - off) 0); [lia|].
    rewrite lookup_app_r; rewrite ?length_take; [|lia].
    rewrite lookup_app_l by lia.
    replace (Z.to_nat i - Z.to_nat off `min` length data)%nat
      with (Z.to_nat (i - off)) by lia. done.
  - rewrite lookup_app_r; rewrite ?length_take; [|lia].
    rewrite lookup_app_r by lia. rewrite lookup_drop.
    replace (Z.to_nat off + length bs +
      (Z.to_nat i - Z.to_nat off `min` length data - length bs))%nat
      with (Z.to_nat i) by lia. done.
  - rewrite lookup_app_l; rewrite ?length_take; [|lia].
    rewrite lookup_take_lt by lia. done.
Qed.

(** A buffer is determined by its length and its bytes. *)
Lemma buffer_ext (d1 d2 : list Z) :
  zlen d1 = zlen d2 ->
  (forall i, 0 <= i < zlen d1 -> get1 d1 i = get1 d2 i) -> d1 = d2.
Proof.
  unfold zlen. intros Hlen Hget. apply list_eq. intros i.
  destruct (decide (i < length d1)%nat) as [Hi|Hi].
  - specialize (Hget (Z.of_nat i) ltac:(lia)). unfold get1 in Hget.
    destruct (Z.ltb_spec (Z.of_nat i) 0); [lia|].
    rewrite Nat2Z.id in Hget. by repeat case_match; simplify_eq.
  - rewrite !lookup_ge_None_2 by lia. done.
Qed.

Lemma get1_slice data off n s i :
  slice data off n = Ok s -> 0 <= i < n -> get1 s i = get1 data (off + i).
Proof.
  intros (?&?&?&->)%slice_Ok Hi. unfold get1.
  destruct (Z.ltb_spec i 0), (Z.ltb_spec (off + i) 0); try lia.
  rewrite lookup_take_lt by lia. rewrite lookup_drop.
  by replace (Z.to_nat off + Z.to_nat i)%nat with (Z.to_nat (off + i)) by lia.
Qed.

(** * Lemmas: [Utils::Byte] against the big-endian reference *)

Lemma get1_cases data i : is_Some (data !! Z.to_nat i) /\ 0 <= i /\
    (exists b, get1 data i = Ok b)
  \/ get1 data i = Err OutOfBounds.
Proof.
  unfold get1. destruct (Z.ltb_spec i 0); [by right|].
  destruct (data !! Z.to_nat i) as [b|]; [left|by right]. naive_solver.
Qed.

Lemma slice_0 data i : 0 <= i <= zlen data -> slice data i 0 = Ok [].
Proof. intros. apply slice_Ok. repeat split; try lia. Qed.

Lemma slice_cons data i n :
  0 <= n ->
  slice data i (1 + n) =
    (b ← get1 data i; s ← slice data (i + 1) n; Ok (b :: s)).
Proof.
  intros Hn. destruct (get1_cases data i) as [(_ & Hi & b & Hb)|Hb]; rewrite Hb; cbn.
  - pose proof (get1_bounds _ _ _ Hb) as Hbd. apply get1_Ok in Hb as [_ Hb].
    unfold slice. unfold zlen in *.
    replace (0 <=? i + 1) with true by lia. replace (0 <=? i) with true by lia.
    replace (0 <=? 1 + n) with true by lia. replace (0 <=? n) with true by lia.
    replace (i + 1 + n <=? Z.of_nat (length data))
      with (i + (1 + n) <=? Z.of_nat (length data)) by lia.
    cbn. destruct (i + (1 + n) <=? Z.of_nat (length data)); cbn; [|done].
    erewrite drop_S by done.
    replace (Z.to_nat (1 + n)) with (S (Z.to_nat n)) by lia. cbn.
    by replace (Z.to_nat (i + 1)) with (S (Z.to_nat i)) by lia.
  - unfold slice. destruct (_ && _) eqn:E; [|done].
    rewrite !andb_true_iff, !Z.leb_le in E.
    destruct (get1_in_bounds data i) as [b Hb']; [lia|congruence].
Qed.

Lemma write_cons data i x bs :
  (d ← write data (i + 1) bs; set1 d i x) = write data i (x :: bs).
Proof.
  destruct (write data (i + 1) bs) as [d|e] eqn:E.
  - cbn. pose proof (zlen_write _ _ _ _ E) as Hl.
    pose proof E as (?&?&_)%write_Ok.
    destruct (Z.ltb_spec i 0).
    + unfold set1, write. by replace (0 <=? i) with false by lia.
    + unfold zlen in *. cbn in *.
      destruct (write_in_bounds data i (x :: bs)) as [d' E'];
        unfold zlen in *; cbn; [lia|lia|].
      destruct (write_in_bounds d i [x]) as [d'' E'']; unfold zlen in *; cbn; [lia|lia|].
      unfold set1. rewrite E', E''. f_equal. apply buffer_ext.
      * rewrite (zlen_write _ _ _ _ E''), (zlen_write _ _ _ _ E'). done.
      * intros j _. rewrite (get1_write _ _ _ _ _ E''), (get1_write _ _ _ _ _ E'),
          (get1_write _ _ _ _ _ E). rewrite !zlen_cons. change (zlen []) with 0.
        unfold get1.
        destruct (Z.leb_spec i j), (Z.ltb_spec j (i + (1 + 0))),
          (Z.ltb_spec j (i + (1 + zlen bs))), (Z.leb_spec (i + 1) j),
          (Z.ltb_spec j (i + 1 + zlen bs)); unfold zlen in *; cbn; try lia; try done.
        -- replace (j - i) with 0 by lia. done.
        -- destruct (Z.ltb_spec (j - i) 0), (Z.ltb_spec (j - (i + 1)) 0); try lia.
           replace (Z.to_nat (j - i)) with (S (Z.to_nat (j - (i + 1)))) by lia. done.
  - cbn. assert (e = OutOfBounds) as -> by (unfold write in E; case_match; congruence).
    unfold write in E. destruct (_ && _) eqn:E1; [discriminate E|]. clear E.
    unfold write. rewrite zlen_cons. destruct ((0 <=? i) && _) eqn:E2; [|done]. exfalso.
    rewrite !andb_false_iff, !Z.leb_gt in E1. rewrite !andb_true_iff, !Z.leb_le in E2. lia.
Qed.

Lemma be_val_range bs : bytes bs -> in_uint (8 * zlen bs) (be_val bs).
Proof.
  unfold in_uint. induction 1 as [|b bs Hb Hbs IH]; [done|].
  cbn [be_val]. rewrite zlen_cons. unfold in_uint in Hb.
  pose proof (zlen_nonneg bs).
  replace (8 * (1 + zlen bs)) with (8 + 8 * zlen bs) by lia.
  rewrite Z.pow_add_r by lia. nia.
Qed.

Lemma length_be_bytes n v : length (be_bytes n v) = n.
Proof. induction n; cbn; congruence. Qed.

Lemma zlen_be_bytes n v : zlen (be_bytes n v) = Z.of_nat n.
Proof. unfold zlen. by rewrite length_be_bytes. Qed.

Lemma bytes_be_bytes n v : bytes (be_bytes n v).
Proof.
  induction n; cbn; constructor; [apply wrap_range; lia|done].
Qed.

Lemma be_val_be_bytes n v : be_val (be_bytes n v) = v `mod` 2 ^ (8 * Z.of_nat n).
Proof.
  induction n as [|n IH]; cbn [be_bytes be_val]; [by rewrite Z.mod_1_r|].
  rewrite IH, zlen_be_bytes. unfold wrap.
  replace (8 * Z.of_nat (S n)) with (8 * Z.of_nat n + 8) by lia.
  rewrite Z.pow_add_r, Z.rem_mul_r by lia. lia.
Qed.

Lemma be_bytes_be_val bs : bytes bs -> be_bytes (length bs) (be_val bs) = bs.
Proof.
  intros Hbs. revert Hbs.
  enough (forall k, bytes bs ->
    be_bytes (length bs) (k * 2 ^ (8 * zlen bs) + be_val bs) = bs) as Hk.
  { intros Hbs. by apply (Hk 0). }
  induction bs as [|b bs IH]; intros k; [done|].
  intros [Hb Hbs]%Forall_cons. cbn [length be_bytes be_val].
  pose proof (be_val_range bs Hbs) as Hr. unfold in_uint in *.
  pose proof (zlen_nonneg bs). rewrite zlen_cons. f_equal.
  - unfold wrap. fold (zlen bs).
    replace (k * 2 ^ (8 * (1 + zlen bs)) + (b * 2 ^ (8 * zlen bs) + be_val bs))
      with (be_val bs + (k * 256 + b) * 2 ^ (8 * zlen bs)).
    2: { replace (8 * (1 + zlen bs)) with (8 + 8 * zlen bs) by lia.
         rewrite Z.pow_add_r by lia. lia. }
    rewrite Z.div_add, Z.div_small by lia.
    rewrite Z.add_0_l, Z.add_comm. change (2 ^ 8) with 256.
    rewrite Z_mod_plus_full. by apply Z.mod_small.
  - etrans; [|exact (IH (k * 256 + b) Hbs)]. f_equal.
    replace (8 * (1 + zlen bs)) with (8 + 8 * zlen bs) by lia.
    rewrite Z.pow_add_r by lia. lia.
Qed.

Lemma be_val_app bs1 bs2 :
  be_val (bs1 ++ bs2) = be_val bs1 * 2 ^ (8 * zlen bs2) + be_val bs2.
Proof.
  induction bs1 as [|b bs1 IH]; [done|]. cbn [be_val app].
  rewrite IH, zlen_app. pose proof (zlen_nonneg bs1). pose proof (zlen_nonneg bs2).
  rewrite Z.mul_add_distr_l, Z.pow_add_r by lia. lia.
Qed.

Lemma get1_Err data i e : get1 data i = Err e -> e = OutOfBounds.
Proof. destruct (get1_cases data i) as [(_&_&?&?)|]; congruence. Qed.

(** Case analysis on every byte read in the goal. *)
Ltac byte_reads :=
  repeat match goal with
  | |- context [get1 ?d ?i] =>
      let H := fresh "Hb" in
      destruct (get1 d i) eqn:H;
      [| apply get1_Err in H as ->]; cbn [mbind outcome_bind]; try reflexivity
  end.

(** Range facts of every byte read so far. *)
Ltac byte_facts :=
  repeat match goal with
  | Hd : bytes ?d, H : get1 ?d ?i = Ok ?b |- _ =>
      lazymatch goal with
      | _ : in_uint 8 b |- _ => fail
      | _ => pose proof (get1_byte _ _ _ Hd H); pose proof (get1_bounds _ _ _ H)
      end
  end.

Section getters.
Context (data : list Z) (Hdata : bytes data).

Lemma Get2Bytes_spec i :
  Get2Bytes data i = (s ← slice data i 2; Ok (be_val s)).
Proof.
  change 2 with (1 + (1 + 0)). unfold Get2Bytes. rewrite !slice_cons by lia.
  byte_reads. byte_facts.
  rewrite slice_0 by lia. cbn [mbind outcome_bind be_val]. f_equal.
  rewrite !zlen_cons. change (zlen []) with 0.
  rewrite lor_shiftl_add by done. unfold in_uint in *.
  rewrite wrap_small; [|split]; cbn; lia.
Qed.

Lemma Get3Bytes_spec i :
  Get3Bytes data i = (s ← slice data i 3; Ok (be_val s)).
Proof.
  change 3 with (1 + (1 + (1 + 0))). unfold Get3Bytes. rewrite !slice_cons by lia.
  replace (i + 1 + 1) with (i + 2) by lia. byte_reads. byte_facts.
  rewrite slice_0 by lia. cbn [mbind outcome_bind be_val]. f_equal.
  rewrite !zlen_cons. change (zlen []) with 0.
  rewrite (lor_shiftl_add 8) by done. unfold in_uint in *.
  rewrite lor_shiftl_add; unfold in_uint; [|lia..].
  rewrite wrap_small; [|split]; cbn; lia.
Qed.

Lemma Get4Bytes_spec i :
  Get4Bytes data i = (s ← slice data i 4; Ok (be_val s)).
Proof.
  change 4 with (1 + (1 + (1 + (1 + 0)))). unfold Get4Bytes.
  rewrite !slice_cons by lia.
  replace (i + 1 + 1) with (i + 2) by lia. replace (i + 2 + 1) with (i + 3) by lia.
  byte_reads. byte_facts.
  rewrite slice_0 by lia. cbn [mbind outcome_bind be_val]. f_equal.
  rewrite !zlen_cons. change (zlen []) with 0.
  rewrite (lor_shiftl_add 8) by done. unfold in_uint in *.
  rewrite (lor_shiftl_add 16); unfold in_uint; [|lia..].
  rewrite (lor_shiftl_add 24); unfold in_uint; [|lia..].
  rewrite wrap_small; [|split]; cbn; lia.
Qed.

End getters.

Lemma slice_split data i n m :
  0 <= n -> 0 <= m ->
  slice data i (n + m) =
    (s1 ← slice data i n; s2 ← slice data (i + n) m; Ok (s1 ++ s2)).
Proof.
  intros Hn Hm. unfold slice.
  replace (0 <=? n) with true by lia. replace (0 <=? m) with true by lia.
  replace (0 <=? n + m) with true by lia. rewrite !andb_true_r.
  replace (i + n + m) with (i + (n + m)) by lia.
  destruct (Z.leb_spec 0 i); [|done]. replace (0 <=? i + n) with true by lia.
  destruct (Z.leb_spec (i + n) (zlen data)).
  - cbn. destruct (Z.leb_spec (i + (n + m)) (zlen data)); [|done].
    cbn. f_equal. replace (Z.to_nat (n + m)) with (Z.to_nat n + Z.to_nat m)%nat by lia.
    rewrite <- take_take_drop, drop_drop.
    by replace (Z.to_nat i + Z.to_nat n)%nat with (Z.to_nat (i + n)) by lia.
  - cbn. by replace (i + (n + m) <=? zlen data) with false by lia.
Qed.

Lemma Get8Bytes_spec data i :
  bytes data -> Get8Bytes data i = (s ← slice data i 8; Ok (be_val s)).
Proof.
  intros Hd. unfold Get8Bytes. rewrite !Get4Bytes_spec by done.
  change 8 with (4 + 4). rewrite slice_split by lia.
  destruct (slice data i 4) as [s1|] eqn:E1; [|done]. cbn.
  destruct (slice data (i + 4) 4) as [s2|] eqn:E2; [|done]. cbn. f_equal.
  pose proof (be_val_range _ (bytes_slice _ _ _ _ Hd E1)) as R1.
  pose proof (be_val_range _ (bytes_slice _ _ _ _ Hd E2)) as R2.
  rewrite be_val_app. rewrite (zlen_slice _ _ _ _ E1) in R1.
  rewrite (zlen_slice _ _ _ _ E2) in R2 |- *. rewrite Z.lor_comm.
  rewrite lor_shiftl_add by done. unfold in_uint in *.
  rewrite wrap_small; [|split]; cbn in *; lia.
Qed.

Lemma set1_write data j x : set1 data j x = write data j [x].
Proof. done. Qed.

Lemma set1_chain {A} data j i x bs (f : list Z -> outcome A) :
  j = i + 1 ->
  (d ← write data j bs; d' ← set1 d i x; f d')
  = (d ← write data i (x :: bs); f d).
Proof.
  intros ->. rewrite <- write_cons. by destruct (write data (i + 1) bs).
Qed.

Lemma set1_last data j i x bs :
  j = i + 1 ->
  (d ← write data j bs; set1 d i x) = write data i (x :: bs).
Proof. intros ->. apply write_cons. Qed.

Section setters.
Context (data : list Z) (i v : Z).

Lemma be_bytes_S n : be_bytes (S n) v = u8 (Z.shiftr v (8 * Z.of_nat n)) :: be_bytes n v.
Proof. cbn [be_bytes]. by rewrite Z.shiftr_div_pow2 by lia. Qed.

Lemma Set2Bytes_spec : Set2Bytes data i v = write data i (be_bytes 2 v).
Proof.
  unfold Set2Bytes. rewrite set1_write. rewrite set1_last by lia.
  rewrite !be_bytes_S. cbn [be_bytes]. by rewrite Z.shiftr_0_r.
Qed.

Lemma Set3Bytes_spec : Set3Bytes data i v = write data i (be_bytes 3 v).
Proof.
  unfold Set3Bytes. rewrite set1_write.
  rewrite set1_chain, set1_last by lia.
  rewrite !be_bytes_S. cbn [be_bytes]. by rewrite Z.shiftr_0_r.
Qed.

Lemma Set4Bytes_spec : Set4Bytes data i v = write data i (be_bytes 4 v).
Proof.
  unfold Set4Bytes. rewrite set1_write.
  rewrite !set1_chain, set1_last by lia.
  rewrite !be_bytes_S. cbn [be_bytes]. by rewrite Z.shiftr_0_r.
Qed.

Lemma Set8Bytes_spec : Set8Bytes data i v = write data i (be_bytes 8 v).
Proof.
  unfold Set8Bytes. rewrite set1_write.
  rewrite !set1_chain, set1_last by lia.
  rewrite !be_bytes_S. cbn [be_bytes]. by rewrite Z.shiftr_0_r.
Qed.
End setters.

Lemma slice_write_same data off bs d :
  write data off bs = Ok d -> slice d off (zlen bs) = Ok bs.
Proof.
  intros H. pose proof (zlen_write _ _ _ _ H) as Hl.
  apply write_Ok in H as (?&?&->). apply slice_Ok. pose proof (zlen_nonneg bs).
  unfold zlen in *. rewrite Hl. repeat split; try lia.
  rewrite drop_app_length' by (rewrite length_take; lia).
  rewrite Nat2Z.id. by rewrite take_app_length.
Qed.

Lemma slice_write_other data off bs d off' n :
  write data off bs = Ok d -> off' + n <= off \/ off + zlen bs <= off' ->
  slice d off' n = slice data off' n.
Proof.
  intros H Hdisj. pose proof (zlen_write _ _ _ _ H) as Hl.
  destruct (slice data off' n) as [s|e] eqn:E.
  - pose proof E as (?&?&?&_)%slice_Ok.
    destruct (slice_in_bounds d off' n) as [s' E']; [lia..|].
    rewrite E'. f_equal. apply buffer_ext.
    + by rewrite (zlen_slice _ _ _ _ E), (zlen_slice _ _ _ _ E').
    + intros i. rewrite (zlen_slice _ _ _ _ E'). intros Hi.
      rewrite (get1_slice _ _ _ _ _ E' Hi), (get1_slice _ _ _ _ _ E Hi).
      rewrite (get1_write _ _ _ _ _ H).
      destruct (Z.leb_spec off (off' + i)), (Z.ltb_spec (off' + i) (off + zlen bs));
        cbn; try done; lia.
  - unfold slice in *. rewrite Hl. destruct (_ && _); congruence.
Qed.

Lemma get1_write_other data off bs d i :
  write data off bs = Ok d -> i < off \/ off + zlen bs <= i ->
  get1 d i = get1 data i.
Proof.
  intros H Hi. rewrite (get1_write _ _ _ _ _ H).
  destruct (Z.leb_spec off i), (Z.ltb_spec i (off + zlen bs)); cbn; try done; lia.
Qed.

Lemma memmove_Ok data dst src n d :
  memmove data dst src n = Ok d <->
  exists s, slice data src n = Ok s /\ write data dst s = Ok d.
Proof. unfold memmove. rewrite bind_Ok. naive_solver. Qed.

Lemma memmove_in_bounds data dst src n :
  0 <= n -> 0 <= dst -> 0 <= src -> dst + n <= zlen data -> src + n <= zlen data ->
  exists d, memmove data dst src n = Ok d.
Proof.
  intros. destruct (slice_in_bounds data src n) as [s Hs]; [lia..|].
  destruct (write_in_bounds data dst s) as [d Hd]; [lia| |].
  - rewrite (zlen_slice _ _ _ _ Hs). lia.
  - exists d. apply memmove_Ok. eauto.
Qed.

(** * [PadTo4Bytes] *)

Lemma land_low_ones k z : 0 <= k -> Z.land z (2 ^ k - 1) = z `mod` 2 ^ k.
Proof. intros. rewrite <- Z.land_ones by done. by rewrite Z.ones_equiv, Z.sub_1_r. Qed.

Lemma land_shiftl_r z m k :
  0 <= k -> Z.land z (Z.shiftl m k) = Z.shiftl (Z.land (Z.shiftr z k) m) k.
Proof.
  intros Hk. apply Z.bits_inj'. intros i Hi.
  rewrite Z.land_spec, !Z.shiftl_spec, Z.land_spec by done.
  destruct (Z.lt_ge_cases i k).
  - by rewrite !(Z.testbit_neg_r _ (i - k)) by lia; rewrite !andb_false_r.
  - rewrite Z.shiftr_spec by lia. by replace (i - k + k) with i by lia.
Qed.

Lemma land_high w k z :
  0 <= k <= w -> in_uint w z -> Z.land z (2 ^ w - 2 ^ k) = z - z `mod` 2 ^ k.
Proof.
  intros Hk Hz. unfold in_uint in Hz.
  assert (2 ^ w = 2 ^ (w - k) * 2 ^ k) as Hw.
  { rewrite <- Z.pow_add_r by lia. f_equal. lia. }
  replace (2 ^ w - 2 ^ k) with (Z.shiftl (Z.ones (w - k)) k).
  2: { rewrite Z.shiftl_mul_pow2, Z.ones_equiv by lia. lia. }
  rewrite land_shiftl_r, Z.land_ones, Z.shiftl_mul_pow2, Z.shiftr_div_pow2 by lia.
  rewrite Z.mod_small.
  - pose proof (Z.div_mod z (2 ^ k)). lia.
  - split; [apply Z.div_pos; lia|]. apply Z.div_lt_upper_bound; lia.
Qed.

Lemma PadTo4Bytes16_spec size :
  0 <= size <= 65532 -> PadTo4Bytes16 size = 4 * ((size + 3) / 4).
Proof.
  intros Hs. unfold PadTo4Bytes16, truthy.
  change 3 with (2 ^ 2 - 1) at 1. rewrite land_low_ones by lia.
  change 65532 with (2 ^ 16 - 2 ^ 2). rewrite land_high by (unfold in_uint; lia).
  change (2 ^ 2) with 4. pose proof (Z.div_mod size 4). pose proof (Z.div_mod (size + 3) 4).
  pose proof (Z.mod_pos_bound size 4). pose proof (Z.mod_pos_bound (size + 3) 4).
  destruct (Z.eqb_spec (size `mod` 4) 0); cbn [negb]; [lia|].
  rewrite wrap_small; unfold in_uint; lia.
Qed.

Lemma PadTo4Bytes32_spec size :
  0 <= size <= 4294967292 -> PadTo4Bytes32 size = 4 * ((size + 3) / 4).
Proof.
  intros Hs. unfold PadTo4Bytes32, truthy.
  change 3 with (2 ^ 2 - 1) at 1. rewrite land_low_ones by lia.
  change 4294967292 with (2 ^ 32 - 2 ^ 2). rewrite land_high by (unfold in_uint; lia).
  change (2 ^ 2) with 4. pose proof (Z.div_mod size 4). pose proof (Z.div_mod (size + 3) 4).
  pose proof (Z.mod_pos_bound size 4). pose proof (Z.mod_pos_bound (size + 3) 4).
  destruct (Z.eqb_spec (size `mod` 4) 0); cbn [negb]; [lia|].
  rewrite wrap_small; unfold in_uint; lia.
Qed.

(** The last three sizes of a [uint16_t] wrap around to zero. *)
Lemma PadTo4Bytes16_overflow size :
  65532 < size < 65536 -> PadTo4Bytes16 size = 0.
Proof.
  intros Hs. assert (size = 65533 \/ size = 65534 \/ size = 65535) as [->|[->| ->]] by lia;
    vm_compute; done.
Qed.

(** * Frames: two buffers that differ at most inside a range *)

Definition same_except (lo hi : Z) (m m' : list Z) : Prop :=
  zlen m' = zlen m /\ forall i, ~ (lo <= i < hi) -> get1 m' i = get1 m i.

Section frames.
Implicit Types m : list Z.

Lemma same_except_write m off bs m' :
  write m off bs = Ok m' -> same_except off (off + zlen bs) m m'.
Proof.
  intros Hw. split; [by eapply zlen_write|]. intros i Hi.
  eapply get1_write_other; [exact Hw|]. lia.
Qed.

Lemma same_except_weaken lo hi lo' hi' m m' :
  same_except lo hi m m' -> lo' <= lo -> hi <= hi' -> same_except lo' hi' m m'.
Proof. intros [? Hs] ? ?. split; [done|]. intros i Hi. apply Hs. lia. Qed.

Lemma same_except_trans lo hi m1 m2 m3 :
  same_except lo hi m1 m2 -> same_except lo hi m2 m3 -> same_except lo hi m1 m3.
Proof.
  intros [Hl1 Hs1] [Hl2 Hs2]. split; [congruence|]. intros i Hi. by rewrite Hs2, Hs1.
Qed.

Lemma slice_ext m m' off n :
  zlen m' = zlen m -> (forall i, off <= i < off + n -> get1 m' i = get1 m i) ->
  slice m' off n = slice m off n.
Proof.
  intros Hl Hget.
  destruct (slice m off n) as [s|e] eqn:Es.
  - destruct (slice_in_bounds m' off n) as [s' Es'];
      [apply slice_Ok in Es; lia..|].
    rewrite Es'. f_equal. pose proof (zlen_slice _ _ _ _ Es) as L.
    pose proof (zlen_slice _ _ _ _ Es') as L'.
    apply buffer_ext; [lia|]. intros i Hi.
    rewrite (get1_slice _ _ _ _ i Es'), (get1_slice _ _ _ _ i Es) by lia.
    apply Hget. lia.
  - unfold slice in *. rewrite Hl. destruct ((0 <=? off) && _ && _); [discriminate|done].
Qed.

Lemma Get2Bytes_ext m m' i :
  (forall j, i <= j < i + 2 -> get1 m' j = get1 m j) -> Get2Bytes m' i = Get2Bytes m i.
Proof. intros Hg. unfold Get2Bytes. by rewrite !Hg by lia. Qed.

Lemma Get4Bytes_ext m m' i :
  (forall j, i <= j < i + 4 -> get1 m' j = get1 m j) -> Get4Bytes m' i = Get4Bytes m i.
Proof. intros Hg. unfold Get4Bytes. by rewrite !Hg by lia. Qed.

Lemma zlen_memmove m dst src n m' : memmove m dst src n = Ok m' -> zlen m' = zlen m.
Proof. intros (s & _ & Hw)%memmove_Ok. by eapply zlen_write. Qed.

Lemma same_except_memmove m dst src n m' :
  memmove m dst src n = Ok m' -> same_except dst (dst + n) m m'.
Proof.
  intros (s & Hs & Hw)%memmove_Ok. apply zlen_slice in Hs. subst n. by apply same_except_write.
Qed.

Lemma bytes_memmove m dst src n m' : bytes m -> memmove m dst src n = Ok m' -> bytes m'.
Proof.
  intros Hm (s & Hs & Hw)%memmove_Ok. eapply bytes_write; [exact Hm| |exact Hw].
  by eapply bytes_slice.
Qed.

(** What was moved is found at its destination. *)
Lemma slice_memmove m dst src n m' :
  memmove m dst src n = Ok m' -> slice m' dst n = slice m src n.
Proof.
  intros (s & Hs & Hw)%memmove_Ok. rewrite Hs. pose proof (zlen_slice _ _ _ _ Hs) as <-.
  by eapply slice_write_same.
Qed.

Lemma get1_memmove m dst src n m' i : 0 <= n ->
  memmove m dst src n = Ok m' ->
  get1 m' i = if (dst <=? i) && (i <? dst + n) then get1 m (src + (i - dst)) else get1 m i.
Proof.
  intros Hn (s & Hs & Hw)%memmove_Ok. rewrite (get1_write _ _ _ _ _ Hw).
  rewrite (zlen_slice _ _ _ _ Hs).
  destruct (Z.leb_spec dst i), (Z.ltb_spec i (dst + n)); cbn [andb]; try done.
  apply (get1_slice _ _ _ _ _ Hs). lia.
Qed.

Lemma be_val_wrap n v : be_val (be_bytes n v) = wrap (8 * Z.of_nat n) v.
Proof. apply be_val_be_bytes. Qed.

Lemma Set2Bytes_read m i v m' : bytes m' -> Set2Bytes m i v = Ok m' -> Get2Bytes m' i = Ok (u16 v).
Proof.
  intros Hm Hs. rewrite Set2Bytes_spec in Hs. rewrite Get2Bytes_spec by done.
  apply slice_write_same in Hs. rewrite zlen_be_bytes in Hs. change (Z.of_nat 2) with 2 in Hs.
  rewrite Hs. cbn [mbind outcome_bind].
  by rewrite be_val_wrap.
Qed.

Lemma Set4Bytes_read m i v m' : bytes m' -> Set4Bytes m i v = Ok m' -> Get4Bytes m' i = Ok (u32 v).
Proof.
  intros Hm Hs. rewrite Set4Bytes_spec in Hs. rewrite Get4Bytes_spec by done.
  apply slice_write_same in Hs. rewrite zlen_be_bytes in Hs. change (Z.of_nat 4) with 4 in Hs.
  rewrite Hs. cbn [mbind outcome_bind].
  by rewrite be_val_wrap.
Qed.

(** The integer setters: they succeed inside the buffer, touch their bytes only
    and write bytes. *)
Definition sets (w : nat) (set : list Z -> Z -> Z -> outcome (list Z)) : Prop :=
  forall m i v, 0 <= i -> i + Z.of_nat w <= zlen m ->
    exists m', set m i v = Ok m' /\ same_except i (i + Z.of_nat w) m m' /\ (bytes m -> bytes m') /\
      slice m' i (Z.of_nat w) = Ok (be_bytes w v).

Lemma sets_write w (set : list Z -> Z -> Z -> outcome (list Z)) :
  (forall m i v, set m i v = write m i (be_bytes w v)) -> sets w set.
Proof.
  intros Hset m i v Hi Hl. rewrite Hset.
  destruct (write_in_bounds m i (be_bytes w v)) as (m' & Hm'); [done|by rewrite zlen_be_bytes|].
  exists m'. split; [done|]. rewrite <- (zlen_be_bytes w v). split_and!.
  - by apply same_except_write.
  - intros Hm. by eapply bytes_write; [|apply bytes_be_bytes|].
  - by eapply slice_write_same.
Qed.

Lemma sets_Set2Bytes : sets 2 Set2Bytes.
Proof. apply sets_write. intros. apply Set2Bytes_spec. Qed.
Lemma sets_Set3Bytes : sets 3 Set3Bytes.
Proof. apply sets_write. intros. apply Set3Bytes_spec. Qed.
Lemma sets_Set4Bytes : sets 4 Set4Bytes.
Proof. apply sets_write. intros. apply Set4Bytes_spec. Qed.
Lemma sets_Set8Bytes : sets 8 Set8Bytes.
Proof. apply sets_write. intros. apply Set8Bytes_spec. Qed.
End frames.

(** Consecutive writes are one write. *)
Lemma write_app m off a b m1 m2 :
  write m off a = Ok m1 -> write m1 (off + zlen a) b = Ok m2 -> write m off (a ++ b) = Ok m2.
Proof.
  intros H1 H2. pose proof (zlen_write _ _ _ _ H1) as L1. pose proof (zlen_write _ _ _ _ H2) as L2.
  pose proof (proj1 (write_Ok _ _ _ _) H1) as (? & ? & _).
  pose proof (proj1 (write_Ok _ _ _ _) H2) as (? & ? & _).
  pose proof (zlen_nonneg a). pose proof (zlen_nonneg b).
  destruct (write_in_bounds m off (a ++ b)) as (m' & Hm'); [done|rewrite zlen_app; lia|].
  rewrite Hm'. f_equal. pose proof (zlen_write _ _ _ _ Hm') as L.
  apply buffer_ext; [lia|]. intros i Hi.
  rewrite (get1_write _ _ _ _ i Hm'), (get1_write _ _ _ _ i H2), (get1_write _ _ _ _ i H1), zlen_app.
  assert (forall j, 0 <= j -> get1 (a ++ b) j = if j <? zlen a then get1 a j else get1 b (j - zlen a))
    as Happ.
  { intros j Hj. unfold get1, zlen.
    destruct (Z.ltb_spec j 0), (Z.ltb_spec j (Z.of_nat (length a))); try lia.
    - by rewrite lookup_app_l by lia.
    - destruct (Z.ltb_spec (j - Z.of_nat (length a)) 0); [lia|].
      rewrite lookup_app_r by lia.
      by replace (Z.to_nat j - length a)%nat with (Z.to_nat (j - Z.of_nat (length a))) by lia. }
  destruct (Z.leb_spec off i), (Z.ltb_spec i (off + (zlen a + zlen b))),
    (Z.leb_spec (off + zlen a) i), (Z.ltb_spec i (off + zlen a + zlen b)),
    (Z.ltb_spec i (off + zlen a)); cbn [andb]; try lia; try done;
    rewrite Happ by lia.
  - rewrite (proj2 (Z.ltb_ge _ _)) by lia. f_equal. lia.
  - by rewrite (proj2 (Z.ltb_lt _ _)) by lia.
Qed.

Lemma write_nil m off : 0 <= off <= zlen m -> write m off [] = Ok m.
Proof.
  intros Hoff. apply write_Ok. change (zlen (@nil Z)) with 0. split_and!; [lia|lia|].
  cbn. rewrite Nat.add_0_r. by rewrite take_drop.
Qed.

(** Reads inside the buffer. *)
Lemma Get2Bytes_in_bounds m i : 0 <= i -> i + 2 <= zlen m -> exists v, Get2Bytes m i = Ok v /\ in_uint 16 v.
Proof.
  intros ? ?. unfold Get2Bytes.
  destruct (get1_in_bounds m (i + 1)) as [b1 ->]; [lia|].
  destruct (get1_in_bounds m i) as [b0 ->]; [lia|]. ostep.
  eexists. split; [done|]. apply wrap_range. lia.
Qed.

Lemma Get4Bytes_in_bounds m i : 0 <= i -> i + 4 <= zlen m -> exists v, Get4Bytes m i = Ok v /\ in_uint 32 v.
Proof.
  intros ? ?. unfold Get4Bytes.
  destruct (get1_in_bounds m (i + 3)) as [b3 ->]; [lia|].
  destruct (get1_in_bounds m (i + 2)) as [b2 ->]; [lia|].
  destruct (get1_in_bounds m (i + 1)) as [b1 ->]; [lia|].
  destruct (get1_in_bounds m i) as [b0 ->]; [lia|]. ostep.
  eexists. split; [done|]. apply wrap_range. lia.
Qed.

Lemma Get8Bytes_in_bounds m i : 0 <= i -> i + 8 <= zlen m -> exists v, Get8Bytes m i = Ok v /\ in_uint 64 v.
Proof.
  intros ? ?. unfold Get8Bytes.
  destruct (Get4Bytes_in_bounds m i) as (hi & -> & _); [lia..|].
  destruct (Get4Bytes_in_bounds m (i + 4)) as (lo & -> & _); [lia..|]. ostep.
  eexists. split; [done|]. apply wrap_range. lia.
Qed.
