(* ===== verification/Readers.v ===== *)
(** Readers of buffers: outcomes that return, or reject, and what they return. *)

From S2P Require Export Bytes.

Lemma bind_assoc {A B C} (m : outcome A) (f : A -> outcome B) (g : B -> outcome C) :
  ((m ≫= f) ≫= g) = (m ≫= fun x => f x ≫= g).
Proof. by destruct m. Qed.

(** [o] returns, and what it returns has [P]. *)
Definition returns {A} (P : A -> Prop) (o : outcome A) : Prop := exists a, o = Ok a /\ P a.

(** [o] returns what has [P], or is [nullptr]. *)
Definition yields {A} (P : A -> Prop) (o : outcome A) : Prop := match o with Ok a => P a | Err e => e = Rejected end.

Lemma returns_Ok {A} (P : A -> Prop) a : P a -> returns P (Ok a).
Proof. by exists a. Qed.

Lemma returns_bind {A B} (P : A -> Prop) (Q : B -> Prop) o f :
  returns P o -> (forall a, P a -> returns Q (f a)) -> returns Q (o ≫= f).
Proof. intros (a & -> & Ha) Hf. by apply Hf. Qed.

Lemma returns_weaken {A} (P Q : A -> Prop) o : (forall a, P a -> Q a) -> returns P o -> returns Q o.
Proof. intros H (a & -> & Ha). exists a. auto. Qed.

Lemma yields_bind {A B} (P : A -> Prop) (Q : B -> Prop) o f :
  yields P o -> (forall a, P a -> yields Q (f a)) -> yields Q (o ≫= f).
Proof. destruct o as [a|e]; cbn; [by auto|done]. Qed.

Lemma returns_yields {A} (P : A -> Prop) o : returns P o -> yields P o.
Proof. by intros (a & -> & Ha). Qed.

Lemma yields_require {A} (P : A -> Prop) b f : (b = true -> yields P (f ())) -> yields P (require Rejected b ≫= f).
Proof. destruct b; cbn; auto. Qed.

Lemma yields_cases {A} (P : A -> Prop) o : yields P o -> (exists a, o = Ok a /\ P a) \/ o = Err Rejected.
Proof. destruct o as [a|e]; cbn; [eauto|intros ->; auto]. Qed.

Section reads.
Context {A : Type} (P : A -> Prop) (m : list Z) (i : Z).
Hypothesis Hi : 0 <= i.

Lemma read1 f : bytes m -> i + 1 <= zlen m -> (forall v, in_uint 8 v -> returns P (f v)) -> returns P (get1 m i ≫= f).
Proof.
  intros Hm H Hf. destruct (get1_in_bounds m i) as [b E]; [lia|]. rewrite E. apply Hf. by eapply get1_byte.
Qed.

Lemma read2 f : i + 2 <= zlen m -> (forall v, in_uint 16 v -> returns P (f v)) -> returns P (Get2Bytes m i ≫= f).
Proof. intros H Hf. destruct (Get2Bytes_in_bounds m i) as (v & -> & Hv); [done..|]. by apply Hf. Qed.

Lemma read3 f : bytes m -> i + 3 <= zlen m -> (forall v, in_uint 24 v -> returns P (f v)) -> returns P (Get3Bytes m i ≫= f).
Proof.
  intros Hm H Hf. rewrite Get3Bytes_spec by done.
  destruct (slice_in_bounds m i 3) as [s E]; [lia..|]. rewrite E. apply Hf.
  pose proof (be_val_range s (bytes_slice _ _ _ _ Hm E)) as Hr. by rewrite (zlen_slice _ _ _ _ E) in Hr.
Qed.

Lemma read4 f : i + 4 <= zlen m -> (forall v, in_uint 32 v -> returns P (f v)) -> returns P (Get4Bytes m i ≫= f).
Proof. intros H Hf. destruct (Get4Bytes_in_bounds m i) as (v & -> & Hv); [done..|]. by apply Hf. Qed.

Lemma read_slice n f : bytes m -> 0 <= n -> i + n <= zlen m -> (forall s, zlen s = n -> bytes s -> returns P (f s)) ->
  returns P (slice m i n ≫= f).
Proof.
  intros Hm Hn H Hf. destruct (slice_in_bounds m i n) as [s E]; [done..|]. rewrite E.
  apply Hf; [by eapply zlen_slice|by eapply bytes_slice].
Qed.
End reads.

(** Reads the fields there are. *)
Ltac reads :=
  repeat first
    [ apply read1; [lia|done|lia|intros ? ?]
    | apply read2; [lia|lia|intros ? ?]
    | apply read3; [lia|done|lia|intros ? ?]
    | apply read4; [lia|lia|intros ? ?] ].

(** * Bytes at a place *)

(** The bytes [bs] are at [off]. *)
Definition at_ (m : list Z) (off : Z) (bs : list Z) : Prop := slice m off (zlen bs) = Ok bs.

Lemma at_app m off a b : at_ m off (a ++ b) <-> at_ m off a /\ at_ m (off + zlen a) b.
Proof.
  unfold at_. rewrite zlen_app, slice_split by apply zlen_nonneg. split.
  - intros (s1 & E1 & H)%bind_Ok. apply bind_Ok in H as (s2 & E2 & [= H]).
    pose proof (zlen_slice _ _ _ _ E1) as L1. unfold zlen in L1.
    apply app_inj_1 in H as [-> ->]; [done|]. lia.
  - intros [-> ->]. done.
Qed.

Lemma at_whole bs : at_ bs 0 bs.
Proof.
  apply slice_Ok. pose proof (zlen_nonneg bs). split_and!; [lia|lia|lia|].
  rewrite drop_0. unfold zlen. rewrite Nat2Z.id. symmetry. by apply take_ge.
Qed.

Lemma at_get1 m off x : at_ m off [x] -> get1 m off = Ok x.
Proof.
  unfold at_. rewrite zlen_one. change 1 with (1 + 0). rewrite slice_cons by lia.
  intros (b & E & H)%bind_Ok. rewrite E. apply bind_Ok in H as (s & Es & [= -> _]). done.
Qed.

Lemma at_nil m off : 0 <= off <= zlen m -> at_ m off [].
Proof. intros H. apply slice_Ok. change (zlen (@nil Z)) with 0. by split_and!; [lia|lia|lia|]. Qed.

Lemma at_cons m off x l : 0 <= off -> get1 m off = Ok x -> at_ m (off + 1) l -> at_ m off (x :: l).
Proof.
  intros H0 Hx Hl. change (x :: l) with ([x] ++ l). apply at_app. rewrite zlen_one. split; [|done].
  unfold at_. rewrite zlen_one. change 1 with (1 + 0). rewrite slice_cons by lia. rewrite Hx. ostep.
  pose proof Hl as (? & ? & ? & _)%slice_Ok. pose proof (zlen_nonneg l).
  destruct (slice_in_bounds m (off + 1) 0) as [s E]; [lia..|]. rewrite E. pose proof (zlen_slice _ _ _ _ E) as Hs.
  destruct s; [done|]. rewrite zlen_cons in Hs. pose proof (zlen_nonneg s). lia.
Qed.

Section be.
Context (m : list Z) (Hm : bytes m).

Lemma at_Get2Bytes off v : at_ m off (be_bytes 2 v) -> Get2Bytes m off = Ok (u16 v).
Proof.
  unfold at_. rewrite zlen_be_bytes, Get2Bytes_spec by done. change (Z.of_nat 2) with 2. intros ->. ostep.
  by rewrite be_val_wrap.
Qed.

Lemma at_Get3Bytes off v : at_ m off (be_bytes 3 v) -> Get3Bytes m off = Ok (wrap 24 v).
Proof.
  unfold at_. rewrite zlen_be_bytes, Get3Bytes_spec by done. change (Z.of_nat 3) with 3. intros ->. ostep.
  by rewrite be_val_wrap.
Qed.

Lemma at_Get4Bytes off v : at_ m off (be_bytes 4 v) -> Get4Bytes m off = Ok (u32 v).
Proof.
  unfold at_. rewrite zlen_be_bytes, Get4Bytes_spec by done. change (Z.of_nat 4) with 4. intros ->. ostep.
  by rewrite be_val_wrap.
Qed.
End be.

Lemma get1_app (a b : list Z) i : 0 <= i -> get1 (a ++ b) i = if i <? zlen a then get1 a i else get1 b (i - zlen a).
Proof.
  intros Hi. unfold get1, zlen. rewrite (proj2 (Z.ltb_ge i 0)) by done. destruct (Z.ltb_spec i (Z.of_nat (length a))).
  - by rewrite lookup_app_l by lia.
  - rewrite (proj2 (Z.ltb_ge _ 0)), lookup_app_r by lia.
    by replace (Z.to_nat i - length a)%nat with (Z.to_nat (i - Z.of_nat (length a))) by lia.
Qed.

(** * Patching what was written *)

Lemma write_patch m off pre a a' post m1 : zlen a' = zlen a -> write m off (pre ++ a ++ post) = Ok m1 ->
  write m1 (off + zlen pre) a' = write m off (pre ++ a' ++ post).
Proof.
  intros Ha W. pose proof W as (H0 & Hl & _)%write_Ok. rewrite !zlen_app in Hl.
  pose proof (zlen_nonneg pre). pose proof (zlen_nonneg a). pose proof (zlen_nonneg post).
  pose proof (zlen_write _ _ _ _ W) as L.
  destruct (write_in_bounds m1 (off + zlen pre) a') as (m2 & W2); [lia|lia|].
  destruct (write_in_bounds m off (pre ++ a' ++ post)) as (m3 & W3); [done|rewrite !zlen_app; lia|].
  rewrite W2, W3. f_equal. apply buffer_ext.
  { by rewrite (zlen_write _ _ _ _ W2), (zlen_write _ _ _ _ W3). }
  intros i _. rewrite (get1_write _ _ _ _ _ W2), (get1_write _ _ _ _ _ W3), (get1_write _ _ _ _ _ W). rewrite !zlen_app.
  unfold get1.
  destruct (Z.leb_spec (off + zlen pre) i), (Z.ltb_spec i (off + zlen pre + zlen a')), (Z.leb_spec off i),
    (Z.ltb_spec i (off + (zlen pre + (zlen a' + zlen post)))), (Z.ltb_spec i (off + (zlen pre + (zlen a + zlen post))));
    cbn [andb]; try lia; try done;
    destruct (Z.ltb_spec (i - off) 0), (Z.ltb_spec (i - (off + zlen pre)) 0); try lia; unfold zlen in *.
  - rewrite (lookup_app_r pre) by lia. rewrite lookup_app_l by lia.
    by replace (Z.to_nat (i - off) - length pre)%nat with (Z.to_nat (i - (off + Z.of_nat (length pre)))) by lia.
  - rewrite !(lookup_app_r pre) by lia. by rewrite !lookup_app_r, (Nat2Z.inj _ _ Ha) by lia.
  - by rewrite !lookup_app_l by lia.
Qed.
