(* ===== verification/OrdSet.v ===== *)
(** [std::set] and [std::map] with a user comparator.

    The worker orders sequence numbers with a comparator that wraps around, so
    the order of the container is not the numeric one.  A container is the
    list of its elements in iteration order; [lower_bound], [find], [insert]
    and [erase] are the operations the worker uses, all driven by the
    comparator alone, as in C++.  A set has its elements as keys, a map
    compares the first component of its entries.

    The comparator of sequence numbers is only an order on numbers that lie
    within half of the number space.  The lemmas are therefore relative to an
    embedding [pos] of the keys of interest into the integers. *)

From S2P Require Export Prelude.
From Stdlib Require Import Sorted.

Section operations.
Context {E K : Type} (key : E -> K) (lt : K -> K -> bool).

(** The elements before [lower_bound(k)]. *)
Fixpoint below (k : K) (s : list E) : list E :=
  match s with
  | [] => []
  | e :: s' => if lt (key e) k then e :: below k s' else []
  end.

(** The elements from [lower_bound(k)] on. *)
Fixpoint lower_bound (k : K) (s : list E) : list E :=
  match s with
  | [] => []
  | e :: s' => if lt (key e) k then lower_bound k s' else s
  end.

Definition find (k : K) (s : list E) : option E :=
  match lower_bound k s with
  | e :: _ => if lt k (key e) then None else Some e
  | [] => None
  end.

(** No effect when an equivalent element is already there. *)
Definition insert (e : E) (s : list E) : list E :=
  match find (key e) s with
  | Some _ => s
  | None => below (key e) s ++ e :: lower_bound (key e) s
  end.

(** [erase(it)] of the element found under [k]. *)
Definition erase (k : K) (s : list E) : list E :=
  match find k s with
  | Some _ => below k s ++ tail (lower_bound k s)
  | None => s
  end.
End operations.

Section structure.
Context {E K : Type} (key : E -> K) (lt : K -> K -> bool).

Lemma below_lower_bound k s : below key lt k s ++ lower_bound key lt k s = s.
Proof. induction s as [|e s IH]; cbn; [done|]. case_match; cbn; congruence. Qed.

Lemma length_lower_bound k s :
  (length (below key lt k s) + length (lower_bound key lt k s) = length s)%nat.
Proof. by rewrite <- length_app, below_lower_bound. Qed.

Lemma lower_bound_suffix k s : lower_bound key lt k s `suffix_of` s.
Proof. exists (below key lt k s). by rewrite below_lower_bound. Qed.

Lemma lower_bound_sublist k s : lower_bound key lt k s `sublist_of` s.
Proof.
  rewrite <- (below_lower_bound k s) at 2. by apply sublist_inserts_l.
Qed.

Lemma find_elem_of k s e : find key lt k s = Some e -> e ∈ s.
Proof.
  unfold find. destruct (lower_bound key lt k s) as [|x l] eqn:El; [done|].
  case_match; [done|]. intros [= ->].
  rewrite <- (below_lower_bound k s), El. set_solver.
Qed.

Lemma erase_sublist k s : erase key lt k s `sublist_of` s.
Proof.
  unfold erase. case_match; [|done].
  rewrite <- (below_lower_bound k s) at 3. apply sublist_app; [done|].
  destruct (lower_bound key lt k s); cbn; [done|]. by constructor.
Qed.

(** An element above all the others goes to the end. *)
Lemma insert_last e s :
  Forall (fun x => lt (key x) (key e) = true) s -> insert key lt e s = s ++ [e].
Proof.
  intros Hs. unfold insert, find.
  assert (below key lt (key e) s = s /\ lower_bound key lt (key e) s = []) as [-> ->]; [|done].
  induction Hs as [|x s Hx Hs [IH1 IH2]]; [done|]. cbn. by rewrite Hx, IH1, IH2.
Qed.
End structure.

(** ** Sorted containers *)

Section sorted.
Context {E K : Type} (key : E -> K) (lt : K -> K -> bool).
Context (dom : K -> Prop) (pos : K -> Z).
Context (lt_pos : forall a b, dom a -> dom b -> lt a b = (pos a <? pos b)).
Context (pos_inj : forall a b, dom a -> dom b -> pos a = pos b -> a = b).

Definition ordered (s : list E) : Prop :=
  Forall (fun e => dom (key e)) s /\
  StronglySorted (fun a b => pos (key a) < pos (key b)) s.

Lemma ordered_nil : ordered [].
Proof. split; constructor. Qed.

Lemma ordered_cons_inv e s :
  ordered (e :: s) ->
  dom (key e) /\ ordered s /\ Forall (fun x => pos (key e) < pos (key x)) s.
Proof.
  intros [[He Hs]%Forall_cons Hst]. apply StronglySorted_inv in Hst as [??].
  by repeat split.
Qed.

Lemma ordered_cons e s :
  dom (key e) -> ordered s -> Forall (fun x => pos (key e) < pos (key x)) s ->
  ordered (e :: s).
Proof. intros ? [??] ?. split; constructor; done. Qed.

Lemma ordered_sublist s s' : s `sublist_of` s' -> ordered s' -> ordered s.
Proof.
  induction 1 as [|x l k Hs IH|x l k Hs IH]; [done|..];
    intros (?&?&Hall)%ordered_cons_inv; [|auto].
  apply ordered_cons; [done|auto|].
  rewrite Forall_forall in Hall |- *. intros y Hy. apply Hall.
  by eapply elem_of_sublist.
Qed.

(** [lower_bound] splits a sorted container by position. *)
Lemma below_filter k s :
  dom k -> ordered s ->
  below key lt k s = filter (fun e => pos (key e) < pos k) s.
Proof.
  intros Hk. induction s as [|e s IH]; [done|]. intros (He&Hs&Hall)%ordered_cons_inv.
  cbn [below]. rewrite lt_pos by done. rewrite filter_cons.
  destruct (Z.ltb_spec (pos (key e)) (pos k)); case_decide; try lia.
  - by rewrite IH.
  - symmetry. clear IH Hs. induction Hall as [|x s Hx Hall IH]; [done|].
    rewrite filter_cons_False by lia. exact IH.
Qed.

Lemma lower_bound_filter k s :
  dom k -> ordered s ->
  lower_bound key lt k s = filter (fun e => pos k <= pos (key e)) s.
Proof.
  intros Hk. induction s as [|e s IH]; [done|]. intros (He&Hs&Hall)%ordered_cons_inv.
  cbn [lower_bound]. rewrite lt_pos by done. rewrite filter_cons.
  destruct (Z.ltb_spec (pos (key e)) (pos k)); case_decide; try lia.
  - by rewrite IH.
  - f_equal. symmetry. clear IH Hs. induction Hall as [|x s Hx Hall IH]; [done|].
    rewrite filter_cons_True by lia. by rewrite IH.
Qed.

Lemma elem_of_below k s e :
  dom k -> ordered s ->
  e ∈ below key lt k s <-> e ∈ s /\ pos (key e) < pos k.
Proof. intros. rewrite below_filter, list_elem_of_filter by done. naive_solver. Qed.

Lemma elem_of_lower_bound k s e :
  dom k -> ordered s ->
  e ∈ lower_bound key lt k s <-> e ∈ s /\ pos k <= pos (key e).
Proof. intros. rewrite lower_bound_filter, list_elem_of_filter by done. naive_solver. Qed.

Lemma ordered_key_inj s a b :
  ordered s -> a ∈ s -> b ∈ s -> key a = key b -> a = b.
Proof.
  intros Hs. induction s as [|e s IH]; [set_solver|].
  apply ordered_cons_inv in Hs as (He&Hs&Hall). rewrite Forall_forall in Hall.
  rewrite !elem_of_cons. intros [->|Ha] [->|Hb] Heq; auto.
  - specialize (Hall b Hb). rewrite Heq in Hall. lia.
  - specialize (Hall a Ha). rewrite Heq in Hall. lia.
Qed.

Lemma find_Some k s e :
  dom k -> ordered s -> find key lt k s = Some e <-> e ∈ s /\ key e = k.
Proof.
  intros Hk Hs. pose proof (lower_bound_filter k s Hk Hs) as Hlb.
  assert (Hord : ordered (lower_bound key lt k s)).
  { eapply ordered_sublist; [apply lower_bound_sublist|done]. }
  unfold find. destruct (lower_bound key lt k s) as [|x l] eqn:El.
  - split; [done|]. intros [Hin <-].
    assert (e ∈ ([] : list E)); [|set_solver].
    rewrite Hlb, list_elem_of_filter. split; [lia|done].
  - apply ordered_cons_inv in Hord as (Hx&_&Hall).
    assert (x ∈ s /\ pos k <= pos (key x)) as [Hxs Hxp].
    { rewrite <- elem_of_lower_bound, El by done. set_solver. }
    rewrite lt_pos by done. destruct (Z.ltb_spec (pos k) (pos (key x))).
    + split; [done|]. intros [Hin <-].
      assert (e ∈ x :: l) as [->|Hel]%elem_of_cons; [|lia|].
      * rewrite <- El, elem_of_lower_bound by done. split; [done|lia].
      * rewrite Forall_forall in Hall. specialize (Hall _ Hel). lia.
    + assert (key x = k) by (apply pos_inj; [done..|lia]).
      split; [naive_solver|]. intros [Hin Heq]. f_equal.
      eapply ordered_key_inj; eauto. congruence.
Qed.

Lemma find_None k s :
  dom k -> ordered s -> find key lt k s = None <-> (forall e, e ∈ s -> key e <> k).
Proof.
  intros Hk Hs. destruct (find key lt k s) as [e|] eqn:Ef.
  - apply find_Some in Ef as [??]; [|done..]. split; [done|]. intros Hne.
    by destruct (Hne e).
  - split; [|done]. intros _ e He Heq.
    assert (find key lt k s = Some e); [by apply find_Some|congruence].
Qed.

Lemma ordered_app l k :
  ordered l -> ordered k ->
  (forall a b, a ∈ l -> b ∈ k -> pos (key a) < pos (key b)) -> ordered (l ++ k).
Proof.
  intros Hl Hk Hlk. induction l as [|e l IH]; [done|].
  apply ordered_cons_inv in Hl as (He&Hl&Hall). cbn. apply ordered_cons; [done|..].
  - apply IH; [done|]. intros a b Ha. apply Hlk. set_solver.
  - rewrite Forall_app. split; [done|]. apply Forall_forall. intros b Hb.
    apply Hlk; set_solver.
Qed.

Lemma ordered_insert e s : dom (key e) -> ordered s -> ordered (insert key lt e s).
Proof.
  intros He Hs. unfold insert.
  destruct (find key lt (key e) s) as [x|] eqn:Ef; [done|].
  apply ordered_app.
  - rewrite below_filter by done. eapply ordered_sublist; [apply sublist_filter|done].
  - apply ordered_cons; [done|..].
    + eapply ordered_sublist; [apply lower_bound_sublist|done].
    + apply Forall_forall. intros x Hx.
      apply elem_of_lower_bound in Hx as [Hx Hp]; [|done..].
      assert (pos (key e) <> pos (key x)); [|lia].
      intros Heq%pos_inj; [|done|]; [|destruct Hs as [Hd _];
        by rewrite Forall_forall in Hd; auto].
      rewrite find_None in Ef by done. by apply (Ef x).
  - intros a b Ha%elem_of_below; [|done..]. rewrite elem_of_cons.
    intros [->|Hb]; [lia|]. apply elem_of_lower_bound in Hb; [lia|done..].
Qed.

Lemma elem_of_insert e s x :
  dom (key e) -> ordered s ->
  (forall y, y ∈ s -> key y <> key e) ->
  x ∈ insert key lt e s <-> x = e \/ x ∈ s.
Proof.
  intros He Hs Hnew. unfold insert.
  rewrite (proj2 (find_None _ _ He Hs) Hnew).
  rewrite <- (below_lower_bound key lt (key e) s) at 3. set_solver.
Qed.

Lemma elem_of_insert_sub e s x : x ∈ insert key lt e s -> x = e \/ x ∈ s.
Proof.
  unfold insert. case_match; [by right|].
  rewrite <- (below_lower_bound key lt (key e) s) at 3. set_solver.
Qed.

Lemma ordered_erase k s : ordered s -> ordered (erase key lt k s).
Proof. intros. eapply ordered_sublist; [apply erase_sublist|done]. Qed.

(** Erasing a key removes the element with that key and no other. *)
Lemma elem_of_erase k s x :
  dom k -> ordered s -> x ∈ erase key lt k s <-> x ∈ s /\ key x <> k.
Proof.
  intros Hk Hs. unfold erase. destruct (find key lt k s) as [e|] eqn:Ef.
  - pose proof Ef as Ef'. apply find_Some in Ef as [He Hek]; [|done..].
    assert (exists l, lower_bound key lt k s = e :: l) as [l El].
    { unfold find in Ef'. repeat case_match; simplify_eq. eauto. }
    rewrite El. cbn [tail].
    assert (Hspl : s = below key lt k s ++ e :: l).
    { by rewrite <- El, below_lower_bound. }
    assert (Hone : forall y, y ∈ below key lt k s ++ l -> y ∈ s /\ key y <> k).
    { intros y Hy. split; [rewrite Hspl; set_solver|]. intros Heq.
      assert (Hord : ordered (e :: l)).
      { rewrite <- El. eapply ordered_sublist; [apply lower_bound_sublist|done]. }
      apply ordered_cons_inv in Hord as (_&_&Hall). rewrite Forall_forall in Hall.
      apply elem_of_app in Hy as [Hy|Hy].
      - apply elem_of_below in Hy; [|done..]. rewrite Heq in Hy. lia.
      - specialize (Hall y Hy). rewrite Heq, <- Hek in Hall. lia. }
    split; [apply Hone|]. intros [Hx Hxk]. rewrite Hspl in Hx. set_solver.
  - rewrite find_None in Ef by done. naive_solver.
Qed.

Lemma NoDup_ordered s : ordered s -> NoDup (key <$> s).
Proof.
  induction s as [|e s IH]; [constructor|]. intros (He&Hs&Hall)%ordered_cons_inv.
  cbn. constructor; [|auto]. rewrite list_elem_of_fmap. intros (y & Heq & Hy).
  rewrite Forall_forall in Hall. specialize (Hall y Hy). rewrite Heq in Hall. lia.
Qed.
End sorted.
