(* ===== verification/Utils.v ===== *)
(** [Utils] (worker/include/Utils.hpp, worker/src/Utils/Crypto.cpp,
    worker/src/Utils/String.cpp): the bit count, the random numbers and the
    CRC-32 of [Crypto], the timestamps of [Time] and the Base64 coding of
    [String].  The byte accessors and [PadTo4Bytes] are in Bytes.

    Doubles are the binary64 values of SpecFloat, which rounds to nearest as
    the C++ code does. *)

From S2P Require Export Bytes.
From Stdlib Require Import SpecFloat.

(** * [Utils::Bits] *)

Definition CountSetBits (mask : Z) : Z :=
  Z.of_nat (length (List.filter (fun i => Z.testbit mask (Z.of_nat i)) (seq 0 16))).

(** * [Utils::Crypto] *)

Definition next_seed (seed : Z) : Z := u32 (214013 * seed + 2531011).

(** The number and the next seed. *)
Definition GetRandomUInt (seed min max : Z) : Z * Z :=
  let seed := next_seed seed in
  let max := if max =? 4294967295 then max - 1 else max in
  let min := if max <? min then max else min in
  (u32 (Z.land (Z.shiftr seed 4) 2147450879 `mod` u32 (max - min + 1) + min), seed).

Definition random_chars : list Z :=
  [48; 49; 50; 51; 52; 53; 54; 55; 56; 57; 97; 98; 99; 100; 101; 102; 103; 104;
   105; 106; 107; 108; 109; 110; 111; 112; 113; 114; 115; 116; 117; 118; 119; 120; 121; 122].

Fixpoint random_loop (n : nat) (seed : Z) : outcome (list Z * Z) :=
  match n with
  | O => Ok ([], seed)
  | S n =>
      let '(i, seed) := GetRandomUInt seed 0 (zlen random_chars - 1) in
      c ← get1 random_chars i;
      '(cs, seed) ← random_loop n seed;
      Ok (c :: cs, seed)
  end.

Definition GetRandomString (seed len : Z) : outcome (list Z * Z) :=
  random_loop (Z.to_nat (if 64 <? len then 64 else len)) seed.

Definition crc32Table : list Z :=
  [0; 1996959894; 3993919788; 2567524794; 124634137; 1886057615; 3915621685;
   2657392035; 249268274; 2044508324; 3772115230; 2547177864; 162941995; 2125561021;
   3887607047; 2428444049; 498536548; 1789927666; 4089016648; 2227061214; 450548861;
   1843258603; 4107580753; 2211677639; 325883990; 1684777152; 4251122042; 2321926636;
   335633487; 1661365465; 4195302755; 2366115317; 997073096; 1281953886; 3579855332;
   2724688242; 1006888145; 1258607687; 3524101629; 2768942443; 901097722; 1119000684;
   3686517206; 2898065728; 853044451; 1172266101; 3705015759; 2882616665; 651767980;
   1373503546; 3369554304; 3218104598; 565507253; 1454621731; 3485111705; 3099436303;
   671266974; 1594198024; 3322730930; 2970347812; 795835527; 1483230225; 3244367275;
   3060149565; 1994146192; 31158534; 2563907772; 4023717930; 1907459465; 112637215;
   2680153253; 3904427059; 2013776290; 251722036; 2517215374; 3775830040; 2137656763;
   141376813; 2439277719; 3865271297; 1802195444; 476864866; 2238001368; 4066508878;
   1812370925; 453092731; 2181625025; 4111451223; 1706088902; 314042704; 2344532202;
   4240017532; 1658658271; 366619977; 2362670323; 4224994405; 1303535960; 984961486;
   2747007092; 3569037538; 1256170817; 1037604311; 2765210733; 3554079995; 1131014506;
   879679996; 2909243462; 3663771856; 1141124467; 855842277; 2852801631; 3708648649;
   1342533948; 654459306; 3188396048; 3373015174; 1466479909; 544179635; 3110523913;
   3462522015; 1591671054; 702138776; 2966460450; 3352799412; 1504918807; 783551873;
   3082640443; 3233442989; 3988292384; 2596254646; 62317068; 1957810842; 3939845945;
   2647816111; 81470997; 1943803523; 3814918930; 2489596804; 225274430; 2053790376;
   3826175755; 2466906013; 167816743; 2097651377; 4027552580; 2265490386; 503444072;
   1762050814; 4150417245; 2154129355; 426522225; 1852507879; 4275313526; 2312317920;
   282753626; 1742555852; 4189708143; 2394877945; 397917763; 1622183637; 3604390888;
   2714866558; 953729732; 1340076626; 3518719985; 2797360999; 1068828381; 1219638859;
   3624741850; 2936675148; 906185462; 1090812512; 3747672003; 2825379669; 829329135;
   1181335161; 3412177804; 3160834842; 628085408; 1382605366; 3423369109; 3138078467;
   570562233; 1426400815; 3317316542; 2998733608; 733239954; 1555261956; 3268935591;
   3050360625; 752459403; 1541320221; 2607071920; 3965973030; 1969922972; 40735498;
   2617837225; 3943577151; 1913087877; 83908371; 2512341634; 3803740692; 2075208622;
   213261112; 2463272603; 3855990285; 2094854071; 198958881; 2262029012; 4057260610;
   1759359992; 534414190; 2176718541; 4139329115; 1873836001; 414664567; 2282248934;
   4279200368; 1711684554; 285281116; 2405801727; 4167216745; 1634467795; 376229701;
   2685067896; 3608007406; 1308918612; 956543938; 2808555105; 3495958263; 1231636301;
   1047427035; 2932959818; 3654703836; 1088359270; 936918000; 2847714899; 3736837829;
   1202900863; 817233897; 3183342108; 3401237130; 1404277552; 615818150; 3134207493;
   3453421203; 1423857449; 601450431; 3009837614; 3294710456; 1567103746; 711928724;
   3020668471; 3272380065; 1510334235; 755167117].

Fixpoint crc32_loop (crc : Z) (data : list Z) : outcome Z :=
  match data with
  | [] => Ok crc
  | b :: data =>
      t ← get1 crc32Table (Z.land (Z.lxor crc b) 255);
      crc32_loop (Z.lxor t (Z.shiftr crc 8)) data
  end.

Definition GetCRC32 (data : list Z) (size : Z) : outcome Z :=
  d ← slice data 0 size;
  crc ← crc32_loop 4294967295 d;
  Ok (Z.lxor crc 4294967295).

(** The definition of the CRC of RFC 5389: one bit at a time. *)
Definition crc_bit (c : Z) : Z :=
  Z.lxor (Z.shiftr c 1) (if Z.testbit c 0 then 3988292384 (* 0xEDB88320 *) else 0).

Fixpoint crc_bits (n : nat) (c : Z) : Z :=
  match n with
  | O => c
  | S n => crc_bits n (crc_bit c)
  end.

Definition crc_byte (crc b : Z) : Z := crc_bits 8 (Z.lxor crc b).

Definition crc32_reference (data : list Z) : Z :=
  Z.lxor (fold_left crc_byte data 4294967295) 4294967295.

(** * [Utils::Time] *)

Definition UnixNtpOffset : Z := 2208988800.

Definition IsNewerTimestamp (timestamp prevTimestamp : Z) : bool :=
  if u32 (timestamp - prevTimestamp) =? 2147483648 then prevTimestamp <? timestamp
  else negb (timestamp =? prevTimestamp)
       && (u32 (timestamp - prevTimestamp) <? 2147483648).

Definition LatestTimestamp (timestamp1 timestamp2 : Z) : Z :=
  if IsNewerTimestamp timestamp1 timestamp2 then timestamp1 else timestamp2.

Definition TimeMsToAbsSendTime (ms : Z) : Z :=
  Z.land (u32 (u64 (u64 (Z.shiftl ms 18) + 500) / 1000)) 16777215.

Abbreviation double := spec_float.

Definition double_of_Z (z : Z) : double := binary_normalize 53 1024 z 0 false.

(** Conversion of a finite double to an integer, and [std::round]. *)
Definition double_trunc (d : double) : Z :=
  match d with
  | S754_finite s m e =>
      let v := if 0 <=? e then Z.pos m * 2 ^ e else Z.pos m / 2 ^ (- e) in
      if s then - v else v
  | _ => 0
  end.

Definition double_round (d : double) : Z :=
  match d with
  | S754_finite s m e =>
      let v := if 0 <=? e then Z.pos m * 2 ^ e
               else (Z.pos m + 2 ^ (- e - 1)) / 2 ^ (- e) in
      if s then - v else v
  | _ => 0
  end.

Definition NtpFractionalUnit : Z := 4294967296.

(** Seconds and fractions. *)
Definition TimeMs2Ntp (ms : Z) : Z * Z :=
  (u32 (ms / 1000),
   u32 (double_trunc
          (SFmul 53 1024 (SFdiv 53 1024 (double_of_Z (ms `mod` 1000)) (double_of_Z 1000))
             (double_of_Z NtpFractionalUnit)))).

Definition Ntp2TimeMs (ntp : Z * Z) : Z :=
  let '(seconds, fractions) := ntp in
  u64 (seconds * 1000
       + u64 (double_round
                (SFdiv 53 1024 (SFmul 53 1024 (double_of_Z fractions) (double_of_Z 1000))
                   (double_of_Z NtpFractionalUnit)))).

(** * [Utils::String]: Base64

    A string is the list of its characters' codes. *)

Definition BufferOutSize : Z := 65536.

Definition Base64Table : list Z :=
  [65; 66; 67; 68; 69; 70; 71; 72; 73; 74; 75; 76; 77; 78; 79; 80; 81; 82; 83; 84; 85; 86;
   87; 88; 89; 90; 97; 98; 99; 100; 101; 102; 103; 104; 105; 106; 107; 108; 109; 110; 111;
   112; 113; 114; 115; 116; 117; 118; 119; 120; 121; 122; 48; 49; 50; 51; 52; 53; 54; 55;
   56; 57; 43; 47].

Fixpoint encode_loop (data : list Z) : outcome (list Z) :=
  match data with
  | a :: b :: c :: data =>
      c0 ← get1 Base64Table (Z.shiftr a 2);
      c1 ← get1 Base64Table (Z.lor (Z.shiftl (Z.land a 3) 4) (Z.shiftr b 4));
      c2 ← get1 Base64Table (Z.lor (Z.shiftl (Z.land b 15) 2) (Z.shiftr c 6));
      c3 ← get1 Base64Table (Z.land c 63);
      rest ← encode_loop data;
      Ok (c0 :: c1 :: c2 :: c3 :: rest)
  | [a; b] =>
      c0 ← get1 Base64Table (Z.shiftr a 2);
      c1 ← get1 Base64Table (Z.lor (Z.shiftl (Z.land a 3) 4) (Z.shiftr b 4));
      c2 ← get1 Base64Table (Z.shiftl (Z.land b 15) 2);
      Ok [c0; c1; c2; 61]
  | [a] =>
      c0 ← get1 Base64Table (Z.shiftr a 2);
      c1 ← get1 Base64Table (Z.shiftl (Z.land a 3) 4);
      Ok [c0; c1; 61; 61]
  | [] => Ok []
  end.

Definition Base64Encode (data : list Z) : outcome (list Z) :=
  let len := zlen data in
  let olen := u64 (u64 (len * 4) / 3 + 4) in
  if olen <? len then Err Thrown
  else if BufferOutSize - 1 <? olen then Err Thrown
  else encode_loop data.

(** [dtable[c]] *)
Fixpoint table_index (c : Z) (table : list Z) (i : Z) : Z :=
  match table with
  | [] => 128
  | x :: table => if x =? c then i else table_index c table (i + 1)
  end.

Definition dtable (c : Z) : Z := if c =? 61 then 0 else table_index c Base64Table 0.

(** The block read so far, the padding, the output so far (reversed). *)
Fixpoint decode_loop (data block : list Z) (pad : Z) (out : list Z) : outcome (list Z) :=
  match data with
  | [] => Ok (rev out)
  | c :: data =>
      let tmp := dtable c in
      if tmp =? 128 then decode_loop data block pad out
      else
        let pad := if c =? 61 then pad + 1 else pad in
        match block ++ [tmp] with
        | [b0; b1; b2; b3] =>
            let out := u8 (Z.lor (Z.shiftl b2 6) b3)
                       :: u8 (Z.lor (Z.shiftl b1 4) (Z.shiftr b2 2))
                       :: u8 (Z.lor (Z.shiftl b0 2) (Z.shiftr b1 4)) :: out in
            if pad =? 0 then decode_loop data [] pad out
            else if pad =? 1 then Ok (rev (tail out))
            else if pad =? 2 then Ok (rev (tail (tail out)))
            else Err Thrown
        | block => decode_loop data block pad out
        end
  end.

Definition Base64Decode (data : list Z) : outcome (list Z) :=
  if BufferOutSize - 1 <? zlen data then Err Thrown
  else
    let count := zlen (List.filter (fun c => negb (dtable c =? 128)) data) in
    if (count =? 0) || negb (count `mod` 4 =? 0) then Err Thrown
    else decode_loop data [] 0 [].

(** * The CRC table against the bitwise definition *)

Section crc.
Implicit Types c a b : Z.

Lemma crc_bit_lxor a b : crc_bit (Z.lxor a b) = Z.lxor (crc_bit a) (crc_bit b).
Proof.
  unfold crc_bit. rewrite Z.shiftr_lxor, Z.lxor_spec.
  apply Z.bits_inj'. intros i _.
  destruct (Z.testbit a 0), (Z.testbit b 0); cbn [xorb]; rewrite !Z.lxor_spec, ?Z.bits_0;
    destruct (Z.testbit (Z.shiftr a 1) i), (Z.testbit (Z.shiftr b 1) i),
      (Z.testbit 3988292384 i); reflexivity.
Qed.

Lemma crc_iter_lxor n a b :
  crc_bits n (Z.lxor a b) = Z.lxor (crc_bits n a) (crc_bits n b).
Proof.
  revert a b. induction n as [|n IH]; intros a b; [done|]. cbn [crc_bits]. by rewrite crc_bit_lxor, IH.
Qed.

Lemma crc_iter_shift n a : crc_bits n (Z.shiftl a (Z.of_nat n)) = a.
Proof.
  revert a. induction n as [|n IH]; intros a; [apply Z.shiftl_0_r|].
  cbn [crc_bits]. rewrite <- (IH a) at 2. f_equal.
  unfold crc_bit. rewrite Z.shiftl_spec_low, Z.lxor_0_r by lia.
  rewrite Z.shiftr_shiftl_l by lia. f_equal. lia.
Qed.

Lemma crc32Table_entries :
  forallb (fun i => match get1 crc32Table i with Ok t => t =? crc_bits 8 i | Err _ => false end)
    (seqZ 0 256) = true.
Proof. vm_compute. reflexivity. Qed.

(** Eight bits at a time, with the table. *)
Lemma crc_byte_table crc b :
  exists t, get1 crc32Table (Z.land (Z.lxor crc b) 255) = Ok t /\
    (in_uint 8 b -> 0 <= crc -> Z.lxor t (Z.shiftr crc 8) = crc_byte crc b).
Proof.
  set (i := Z.land (Z.lxor crc b) 255).
  assert (0 <= i < 256) as Hi.
  { subst i. change 255 with (Z.ones 8). rewrite Z.land_ones by lia. apply Z.mod_pos_bound. lia. }
  assert (get1 crc32Table i = Ok (crc_bits 8 i)) as Ht.
  { pose proof (forall_below 256 _ crc32Table_entries i Hi) as Hb. cbn beta in Hb.
    destruct (get1 crc32Table i); [|done]. f_equal. lia. }
  exists (crc_bits 8 i). split; [done|]. intros Hb Hc. unfold crc_byte.
  assert (Z.lxor crc b = Z.lxor i (Z.shiftl (Z.shiftr crc 8) (Z.of_nat 8))) as ->.
  { apply Z.bits_inj'. intros k Hk. subst i. change 255 with (Z.ones 8).
    rewrite !Z.lxor_spec, Z.land_spec, Z.lxor_spec, Z.testbit_ones_nonneg by lia.
    rewrite Z.shiftl_spec by done. destruct (Z.ltb_spec k 8).
    - rewrite andb_true_r, (Z.testbit_neg_r _ (k - Z.of_nat 8)) by lia. by rewrite xorb_false_r.
    - rewrite andb_false_r, Z.shiftr_spec by lia. rewrite (testbit_above 8 b) by done.
      rewrite xorb_false_r, xorb_false_l. f_equal. lia. }
  by rewrite crc_iter_lxor, crc_iter_shift.
Qed.

Lemma crc_byte_nonneg crc b : 0 <= crc -> 0 <= b -> 0 <= crc_byte crc b.
Proof.
  intros Hc Hb. unfold crc_byte.
  enough (forall n x, 0 <= x -> 0 <= crc_bits n x) as H.
  { apply H. by apply Z.lxor_nonneg. }
  induction n as [|n IH]; intros x Hx; [done|]. cbn [crc_bits]. apply IH. unfold crc_bit.
  apply Z.lxor_nonneg. split; intros _; [by destruct (Z.testbit _ 0)|].
  by apply Z.shiftr_nonneg.
Qed.

Lemma crc32_loop_reference data crc : bytes data -> 0 <= crc ->
  crc32_loop crc data = Ok (fold_left crc_byte data crc).
Proof.
  intros Hd. revert crc. induction Hd as [|b data Hb Hd IH]; intros crc Hc; [done|].
  cbn [crc32_loop fold_left]. destruct (crc_byte_table crc b) as (t & -> & Ht). ostep.
  rewrite Ht by done. apply IH. apply crc_byte_nonneg; [done|apply Hb].
Qed.
End crc.

(** * Base64 *)

Section base64.
Implicit Types a b c : Z.

Lemma Base64Table_entries :
  forallb (fun i => match get1 Base64Table i with
                    | Ok c => (dtable c =? i) && negb (c =? 61) | Err _ => false end)
    (seqZ 0 64) = true.
Proof. vm_compute. reflexivity. Qed.

Lemma table_char i : 0 <= i < 64 ->
  exists c, get1 Base64Table i = Ok c /\ dtable c = i /\ c <> 61.
Proof.
  intros Hi. pose proof (forall_below 64 _ Base64Table_entries i Hi) as Hc. cbn beta in Hc.
  destruct (get1 Base64Table i) as [c|]; [|done]. exists c.
  apply andb_true_iff in Hc as [Hd Hc]. split; [done|]. split; [lia|].
  by destruct (Z.eqb_spec c 61).
Qed.

(** The six-bit groups of three bytes. *)
Definition group0 a := Z.shiftr a 2.
Definition group1 a hb := Z.lor (Z.shiftl (Z.land a 3) 4) hb.
Definition group2 b hc := Z.lor (Z.shiftl (Z.land b 15) 2) hc.
Definition group3 c := Z.land c 63.

Lemma byte0 a hb : 0 <= a < 256 -> 0 <= hb < 16 ->
  0 <= group0 a < 64 /\ 0 <= group1 a hb < 64 /\
  u8 (Z.lor (Z.shiftl (group0 a) 2) (Z.shiftr (group1 a hb) 4)) = a.
Proof.
  intros Ha Hh.
  assert (forallb (fun a => forallb (fun hb => (0 <=? group0 a) && (group0 a <? 64)
    && (0 <=? group1 a hb) && (group1 a hb <? 64)
    && (u8 (Z.lor (Z.shiftl (group0 a) 2) (Z.shiftr (group1 a hb) 4)) =? a)) (seqZ 0 16))
    (seqZ 0 256) = true) as Hall by (vm_compute; reflexivity).
  pose proof (forall_below2 256 16 _ Hall a hb Ha Hh) as Hb. cbn beta in Hb.
  apply andb_true_iff in Hb as [[[[? ?]%andb_true_iff ?]%andb_true_iff ?]%andb_true_iff ?]. lia.
Qed.

Lemma byte1 x b hc : 0 <= x < 4 -> 0 <= b < 256 -> 0 <= hc < 4 ->
  0 <= Z.shiftr b 4 < 16 /\ 0 <= group2 b hc < 64 /\
  u8 (Z.lor (Z.shiftl (Z.lor (Z.shiftl x 4) (Z.shiftr b 4)) 4) (Z.shiftr (group2 b hc) 2)) = b.
Proof.
  intros Hx Hb Hc.
  assert (forallb (fun b => forallb (fun y => let x := y / 4 in let hc := y `mod` 4 in
    (0 <=? Z.shiftr b 4) && (Z.shiftr b 4 <? 16) && (0 <=? group2 b hc) && (group2 b hc <? 64)
    && (u8 (Z.lor (Z.shiftl (Z.lor (Z.shiftl x 4) (Z.shiftr b 4)) 4)
              (Z.shiftr (group2 b hc) 2)) =? b)) (seqZ 0 16))
    (seqZ 0 256) = true) as Hall by (vm_compute; reflexivity).
  pose proof (forall_below2 256 16 _ Hall b (x * 4 + hc) Hb ltac:(lia)) as Hd.
  cbn beta zeta in Hd.
  rewrite Z.div_add_l, Z.div_small, Z.add_0_r in Hd by lia.
  rewrite Z.add_comm, Z.mod_add, Z.mod_small in Hd by lia.
  apply andb_true_iff in Hd as [[[[? ?]%andb_true_iff ?]%andb_true_iff ?]%andb_true_iff ?]. lia.
Qed.

Lemma byte2 y c : 0 <= y < 16 -> 0 <= c < 256 ->
  0 <= Z.shiftr c 6 < 4 /\ 0 <= group3 c < 64 /\
  u8 (Z.lor (Z.shiftl (Z.lor (Z.shiftl y 2) (Z.shiftr c 6)) 6) (group3 c)) = c.
Proof.
  intros Hy Hc.
  assert (forallb (fun y => forallb (fun c => (0 <=? Z.shiftr c 6) && (Z.shiftr c 6 <? 4)
    && (0 <=? group3 c) && (group3 c <? 64)
    && (u8 (Z.lor (Z.shiftl (Z.lor (Z.shiftl y 2) (Z.shiftr c 6)) 6) (group3 c)) =? c))
    (seqZ 0 256)) (seqZ 0 16) = true) as Hall by (vm_compute; reflexivity).
  pose proof (forall_below2 16 256 _ Hall y c Hy Hc) as Hd. cbn beta in Hd.
  apply andb_true_iff in Hd as [[[[? ?]%andb_true_iff ?]%andb_true_iff ?]%andb_true_iff ?]. lia.
Qed.

Lemma land_ones_range a k : 0 <= k -> 0 <= Z.land a (2 ^ k - 1) < 2 ^ k.
Proof. intros Hk. rewrite land_low_ones by done. apply Z.mod_pos_bound. lia. Qed.

(** Four characters of the table are read as a block. *)
Lemma decode_block c0 c1 c2 c3 i0 i1 i2 i3 rest out :
  dtable c0 = i0 -> dtable c1 = i1 -> dtable c2 = i2 -> dtable c3 = i3 ->
  c0 <> 61 -> c1 <> 61 -> 0 <= i0 < 64 -> 0 <= i1 < 64 -> 0 <= i2 < 64 -> 0 <= i3 < 64 ->
  decode_loop (c0 :: c1 :: c2 :: c3 :: rest) [] 0 out =
  let b0 := u8 (Z.lor (Z.shiftl i0 2) (Z.shiftr i1 4)) in
  let b1 := u8 (Z.lor (Z.shiftl i1 4) (Z.shiftr i2 2)) in
  let b2 := u8 (Z.lor (Z.shiftl i2 6) i3) in
  let pad := (if c2 =? 61 then 1 else 0) + (if c3 =? 61 then 1 else 0) in
  if pad =? 0 then decode_loop rest [] 0 (b2 :: b1 :: b0 :: out)
  else if pad =? 1 then Ok (rev (b1 :: b0 :: out))
  else Ok (rev (b0 :: out)).
Proof.
  intros <- <- <- <- H0 H1 R0 R1 R2 R3. cbn [decode_loop app].
  rewrite !(proj2 (Z.eqb_neq _ 128)) by lia.
  rewrite (proj2 (Z.eqb_neq c0 61)), (proj2 (Z.eqb_neq c1 61)) by done.
  by destruct (c2 =? 61), (c3 =? 61).
Qed.

(** What the encoder writes: characters of the alphabet, four for each group of
    three bytes begun, which the decoder reads back. *)
Lemma encode_loop_spec n data : (length data <= n)%nat -> bytes data ->
  exists s, encode_loop data = Ok s /\
    (forall out, decode_loop s [] 0 out = Ok (rev out ++ data)) /\
    Forall (fun c => dtable c <> 128) s /\ zlen s = 4 * ((zlen data + 2) / 3).
Proof.
  revert data. induction n as [|n IH]; intros data Hn Hd.
  { destruct data; [|cbn in Hn; lia]. exists []. cbn. split_and!; try done.
    intros out. by rewrite app_nil_r. }
  destruct data as [|a [|b [|c data]]].
  - exists []. cbn. split_and!; try done. intros out. by rewrite app_nil_r.
  - apply Forall_cons in Hd as [Ha _].
    destruct (byte0 a 0 Ha ltac:(lia)) as (R0 & R1 & E0).
    unfold group0, group1 in *. rewrite Z.lor_0_r in *.
    destruct (table_char _ R0) as (c0 & T0 & D0 & N0). destruct (table_char _ R1) as (c1 & T1 & D1 & N1).
    cbn [encode_loop]. rewrite T0. ostep. rewrite T1. ostep. eexists. split; [done|].
    split_and!; [|repeat constructor; try lia; done|done].
    intros out. rewrite (decode_block c0 c1 61 61 _ _ 0 0 [] out D0 D1 eq_refl eq_refl N0 N1 R0 R1)
      by lia. cbv zeta. rewrite E0. cbn. done.
  - apply Forall_cons in Hd as [Ha Hd]. apply Forall_cons in Hd as [Hb _].
    pose proof (land_ones_range a 2 ltac:(lia)) as Hx.
    destruct (byte1 (Z.land a 3) b 0 Hx Hb ltac:(lia)) as (Rh & R2 & E1).
    destruct (byte0 a (Z.shiftr b 4) Ha Rh) as (R0 & R1 & E0).
    unfold group0, group1, group2 in *. rewrite Z.lor_0_r in R2, E1.
    destruct (table_char _ R0) as (c0 & T0 & D0 & N0). destruct (table_char _ R1) as (c1 & T1 & D1 & N1).
    destruct (table_char _ R2) as (c2 & T2 & D2 & N2).
    cbn [encode_loop]. rewrite T0. ostep. rewrite T1. ostep. rewrite T2. ostep. eexists. split; [done|].
    split_and!; [|repeat constructor; try lia; done|done].
    intros out. rewrite (decode_block c0 c1 c2 61 _ _ _ 0 [] out D0 D1 D2 eq_refl N0 N1 R0 R1 R2)
      by lia. cbv zeta. rewrite E0, E1. rewrite (proj2 (Z.eqb_neq c2 61)) by done.
    change (Z.eqb 61 61) with true. cbn [Z.add Z.eqb Pos.eqb rev]. by rewrite <- app_assoc.
  - apply Forall_cons in Hd as [Ha Hd]. apply Forall_cons in Hd as [Hb Hd].
    apply Forall_cons in Hd as [Hc Hd].
    pose proof (land_ones_range a 2 ltac:(lia)) as Hx. pose proof (land_ones_range b 4 ltac:(lia)) as Hy.
    destruct (byte2 (Z.land b 15) c Hy Hc) as (Rc & R3 & E2).
    destruct (byte1 (Z.land a 3) b (Z.shiftr c 6) Hx Hb Rc) as (Rh & R2 & E1).
    destruct (byte0 a (Z.shiftr b 4) Ha Rh) as (R0 & R1 & E0).
    unfold group0, group1, group2, group3 in *.
    destruct (table_char _ R0) as (c0 & T0 & D0 & N0). destruct (table_char _ R1) as (c1 & T1 & D1 & N1).
    destruct (table_char _ R2) as (c2 & T2 & D2 & N2). destruct (table_char _ R3) as (c3 & T3 & D3 & N3).
    destruct (IH data) as (s & Es & Hdec & Hall & Hlen); [cbn in Hn; lia|done|].
    cbn [encode_loop]. rewrite T0. ostep. rewrite T1. ostep. rewrite T2. ostep. rewrite T3. ostep.
    rewrite Es. ostep. eexists. split; [done|]. split_and!.
    + intros out. rewrite (decode_block c0 c1 c2 c3 _ _ _ _ s out D0 D1 D2 D3 N0 N1 R0 R1 R2 R3).
      cbv zeta. rewrite E0, E1, E2.
      rewrite (proj2 (Z.eqb_neq c2 61)), (proj2 (Z.eqb_neq c3 61)) by done. cbn [Z.add Z.eqb].
      rewrite Hdec. cbn [rev]. by rewrite <- !app_assoc.
    + constructor; [lia|]. constructor; [lia|]. constructor; [lia|]. constructor; [lia|done].
    + rewrite !zlen_cons, Hlen.
      replace (1 + (1 + (1 + zlen data)) + 2) with (zlen data + 2 + 1 * 3) by lia.
      rewrite Z.div_add by lia. lia.
Qed.

Lemma filter_all (P : Z -> bool) (l : list Z) : Forall (fun c => P c = true) l -> List.filter P l = l.
Proof. induction 1 as [|c l Hc Hl IH]; [done|]. cbn. by rewrite Hc, IH. Qed.
End base64.

(** * Properties *)

(** Base64 is lossless: every non-empty string of bytes that the encoder
    accepts is decoded to itself, and the encoder accepts all strings whose
    encoding fits the static buffer. *)
Theorem base64_round_trip data :
  bytes data -> 0 < zlen data <= 49147 ->
  exists s, Base64Encode data = Ok s /\ Base64Decode s = Ok data.
Proof.
  intros Hd Hlen. destruct (encode_loop_spec (length data) data ltac:(lia) Hd)
    as (s & Hs & Hdec & Hall & Hzs).
  pose proof (Z.div_mod (zlen data * 4) 3) as Hdm. pose proof (Z.mod_pos_bound (zlen data * 4) 3) as Hdb.
  pose proof (Z.div_mod (zlen data + 2) 3) as Hdm2. pose proof (Z.mod_pos_bound (zlen data + 2) 3) as Hdb2.
  exists s. split.
  - unfold Base64Encode, BufferOutSize. rewrite (wrap_small 64 (zlen data * 4)) by (unfold in_uint; lia).
    rewrite (wrap_small 64) by (unfold in_uint; lia).
    rewrite (proj2 (Z.ltb_ge _ (zlen data))), (proj2 (Z.ltb_ge (65536 - 1) _)) by lia. done.
  - unfold Base64Decode, BufferOutSize. rewrite (proj2 (Z.ltb_ge (65536 - 1) (zlen s))) by lia.
    rewrite filter_all.
    + rewrite (proj2 (Z.eqb_neq (zlen s) 0)) by lia. rewrite Hzs at 1.
      rewrite Z.mul_comm, Z.mod_mul by lia. cbn [orb negb Z.eqb]. by rewrite Hdec.
    + eapply Forall_impl; [exact Hall|]. cbn. intros c Hc. by rewrite (proj2 (Z.eqb_neq _ _)).
Qed.

Lemma base64_round_trip_witness :
  exists s, Base64Encode [109; 101; 100; 105; 97] = Ok s /\
    Base64Decode s = Ok [109; 101; 100; 105; 97].
Proof.
  apply base64_round_trip.
  - unfold bytes. repeat (apply Forall_cons; split; [vm_compute; split; [discriminate|reflexivity]|]).
    apply Forall_nil. exact I.
  - vm_compute. split; [reflexivity|discriminate].
Defined.

(** The empty string is the exception: it is encoded to itself, and the
    decoder throws on it. *)
Theorem base64_empty : Base64Encode [] = Ok [] /\ Base64Decode [] = Err Thrown.
Proof. split; reflexivity. Qed.

(** The table-driven CRC-32 is the bit-by-bit CRC of its polynomial on all
    data, and reads nothing but the [size] bytes it is given. *)
Theorem GetCRC32_reference data size d :
  bytes data -> slice data 0 size = Ok d -> GetCRC32 data size = Ok (crc32_reference d).
Proof.
  intros Hd Hs. unfold GetCRC32, crc32_reference. rewrite Hs. ostep.
  rewrite crc32_loop_reference by (by eapply bytes_slice || lia). done.
Qed.

Lemma GetCRC32_reference_witness :
  GetCRC32 [49; 50; 51; 52; 53; 54; 55; 56; 57] 9 = Ok 3421780262.
Proof.
  apply (GetCRC32_reference _ 9 [49; 50; 51; 52; 53; 54; 55; 56; 57]); [|reflexivity].
  unfold bytes. repeat (apply Forall_cons; split; [vm_compute; split; [discriminate|reflexivity]|]).
  apply Forall_nil. exact I.
Defined.

(** A random number is between the bounds asked for (the largest maximum is
    lowered by one, and a minimum above the maximum is lowered to it), for every
    seed; in particular the divisor is never zero. *)
Theorem GetRandomUInt_bounds seed min max :
  in_uint 32 min -> in_uint 32 max ->
  let max' := Z.min max 4294967294 in
  let min' := Z.min min max' in
  min' <= (GetRandomUInt seed min max).1 <= max' /\ u32 (max' - min' + 1) <> 0.
Proof.
  intros Hmin Hmax max' min'. unfold in_uint in *. unfold GetRandomUInt. cbn [fst].
  assert ((if max =? 4294967295 then max - 1 else max) = max') as ->
    by (unfold max'; destruct (Z.eqb_spec max 4294967295); lia).
  assert ((if max' <? min then max' else min) = min') as ->
    by (unfold min'; destruct (Z.ltb_spec max' min); lia).
  rewrite (wrap_small 32 (max' - min' + 1)) by (unfold in_uint, min', max'; lia).
  split; [|unfold min'; lia].
  set (x := Z.land _ _). pose proof (Z.mod_pos_bound x (max' - min' + 1)).
  rewrite wrap_small by (unfold in_uint, min', max' in *; lia). unfold min', max' in *. lia.
Qed.

Lemma GetRandomUInt_bounds_witness :
  3 <= (GetRandomUInt 12345 3 7).1 <= 7 /\ u32 (7 - 3 + 1) <> 0.
Proof. apply (GetRandomUInt_bounds 12345 3 7); vm_compute; split; [discriminate|reflexivity|discriminate|reflexivity]. Defined.

(** Of two different RTP timestamps exactly one is newer than the other,
    those exactly half of the number space apart included. *)
Theorem IsNewerTimestamp_total t1 t2 :
  in_uint 32 t1 -> in_uint 32 t2 -> t1 <> t2 ->
  IsNewerTimestamp t1 t2 = negb (IsNewerTimestamp t2 t1).
Proof.
  unfold in_uint. change (2 ^ 32) with 4294967296. intros H1 H2 Hne. unfold IsNewerTimestamp, wrap.
  change (2 ^ 32) with 4294967296.
  rewrite (proj2 (Z.eqb_neq t1 t2)), (proj2 (Z.eqb_neq t2 t1)) by lia. cbn [negb andb].
  destruct (Z.lt_ge_cases t1 t2).
  - rewrite <- (Z_mod_plus_full (t1 - t2) 1), !Z.mod_small by lia.
    destruct (Z.eqb_spec (t1 - t2 + 1 * 4294967296) 2147483648),
      (Z.eqb_spec (t2 - t1) 2147483648), (Z.ltb_spec t2 t1), (Z.ltb_spec t1 t2),
      (Z.ltb_spec (t1 - t2 + 1 * 4294967296) 2147483648), (Z.ltb_spec (t2 - t1) 2147483648);
      cbn; try done; lia.
  - rewrite <- (Z_mod_plus_full (t2 - t1) 1), !Z.mod_small by lia.
    destruct (Z.eqb_spec (t2 - t1 + 1 * 4294967296) 2147483648),
      (Z.eqb_spec (t1 - t2) 2147483648), (Z.ltb_spec t2 t1), (Z.ltb_spec t1 t2),
      (Z.ltb_spec (t2 - t1 + 1 * 4294967296) 2147483648), (Z.ltb_spec (t1 - t2) 2147483648);
      cbn; try done; lia.
Qed.

Lemma IsNewerTimestamp_total_witness :
  IsNewerTimestamp 5 4294967290 = negb (IsNewerTimestamp 4294967290 5).
Proof. apply IsNewerTimestamp_total; [vm_compute; split; [discriminate|reflexivity]..|discriminate]. Defined.

(** A time in milliseconds converted to NTP and back is unchanged, in spite
    of the rounding of the doubles, as long as its seconds fit 32 bits. *)
Theorem ntp_round_trip ms :
  0 <= ms < 4294967296 * 1000 -> Ntp2TimeMs (TimeMs2Ntp ms) = ms.
Proof.
  intros Hms. pose proof (Z.div_mod ms 1000) as Hdm. pose proof (Z.mod_pos_bound ms 1000) as Hmod.
  unfold TimeMs2Ntp, Ntp2TimeMs.
  set (f := fun r => u64 (double_round (SFdiv 53 1024 (SFmul 53 1024 (double_of_Z
      (u32 (double_trunc (SFmul 53 1024 (SFdiv 53 1024 (double_of_Z r) (double_of_Z 1000))
         (double_of_Z NtpFractionalUnit))))) (double_of_Z 1000)) (double_of_Z NtpFractionalUnit)))).
  assert (forallb (fun r => f r =? r) (seqZ 0 1000) = true) as Hall by (vm_compute; reflexivity).
  pose proof (forall_below 1000 _ Hall (ms `mod` 1000) ltac:(lia)) as Hf. cbn beta in Hf.
  apply Z.eqb_eq in Hf. fold (f (ms `mod` 1000)). rewrite Hf.
  assert (0 <= ms / 1000 < 4294967296) by (split; [apply Z.div_pos; lia|apply Z.div_lt_upper_bound; lia]).
  rewrite (wrap_small 32) by (unfold in_uint; lia). rewrite wrap_small by (unfold in_uint; lia). lia.
Qed.

Lemma ntp_round_trip_witness : Ntp2TimeMs (TimeMs2Ntp 1700000000123) = 1700000000123.
Proof. apply ntp_round_trip. lia. Defined.
