(* ===== verification/IP.v ===== *)
(** Socket addresses: the [sockaddr] values the worker keeps, and the
    comparison of [Utils::IP] (worker/include/Utils.hpp).

    Ports and addresses are the bytes in memory, in network order.  The flow
    information and the scope of an IPv6 address are read nowhere. *)

From S2P Require Export Bytes.

Inductive sockaddr : Type :=
| sockaddr_in (sin_port sin_addr : list Z)
| sockaddr_in6 (sin6_port sin6_addr : list Z)
| sockaddr_other (sa_family : Z).

#[export] Instance sockaddr_eq_dec : EqDecision sockaddr.
Proof. solve_decision. Defined.

Definition CompareAddresses (addr1 addr2 : sockaddr) : bool :=
  match addr1, addr2 with
  | sockaddr_in port1 ip1, sockaddr_in port2 ip2 =>
      if bool_decide (port1 <> port2) then false else bool_decide (ip1 = ip2)
  | sockaddr_in6 port1 ip1, sockaddr_in6 port2 ip2 =>
      if bool_decide (port1 <> port2) then false else bool_decide (ip1 = ip2)
  | _, _ => false
  end.

(** An address of a family the worker speaks, of the lengths of the families. *)
Definition inet (a : sockaddr) : Prop :=
  match a with
  | sockaddr_in port ip => zlen port = 2 /\ zlen ip = 4 /\ bytes port /\ bytes ip
  | sockaddr_in6 port ip => zlen port = 2 /\ zlen ip = 16 /\ bytes port /\ bytes ip
  | sockaddr_other _ => False
  end.

#[export] Instance inet_dec a : Decision (inet a).
Proof. destruct a; cbn; apply _. Defined.

(** On the families the worker speaks the comparison decides equality. *)
Lemma CompareAddresses_eq a b : inet a -> CompareAddresses a b = bool_decide (a = b).
Proof.
  intros Ha. destruct a as [p1 i1|p1 i1|f], b as [p2 i2|p2 i2|f2]; cbn in *; try done;
    try (symmetry; apply bool_decide_eq_false; congruence);
    destruct (decide (p1 = p2)) as [->|Hp];
    repeat case_bool_decide; try done; congruence.
Qed.

Lemma CompareAddresses_sound a b : CompareAddresses a b = true -> a = b.
Proof.
  destruct a as [p1 i1|p1 i1|f], b as [p2 i2|p2 i2|f2]; cbn; try done;
    destruct (decide (p1 = p2)) as [->|Hp];
    repeat case_bool_decide; try done; congruence.
Qed.

Lemma CompareAddresses_sym a b : CompareAddresses a b = CompareAddresses b a.
Proof.
  destruct a as [p1 i1|p1 i1|f], b as [p2 i2|p2 i2|f2]; cbn; try done;
    repeat case_bool_decide; try done; congruence.
Qed.
