(* ===== verification/TcpConnection.v ===== *)
(** [RTC::TcpConnection] (worker/src/RTC/TcpConnection.cpp) and the [TcpConnection]
    it extends (worker/src/handles/TcpConnection.cpp): packets over TCP, framed
    as RFC 4571 tells.

    The socket belongs to libuv: what its functions return is an argument of the
    operations that call them ([uv_results]; an operation closes the connection,
    hence shuts its stream down, at most once), and so is what the listener does
    with the connection while it is given a packet ([reaction]).  The bytes that
    libuv takes, at once or in a request, are events; it sends requests in order,
    and takes nothing at once while there are any. *)

From S2P Require Export Bytes Effects.

(** * Definitions *)

Record tcp_connection : Type := TcpConnection {
  bufferSize : Z;
  buffer : option (list Z);
  bufferDataLen : Z;
  frameStart : Z;
  closed : bool;
  isClosedByPeer : bool;
  hasError : bool;
  recvBytes : Z;
  sentBytes : Z
}.

Inductive tcp_event : Type :=
| OnTcpConnectionPacketReceived (packet : list Z)
| OnTcpConnectionClosed
| uv_read_stop | uv_shutdown | uv_close
| uv_try_write (taken : list Z)
| uv_write (store : list Z)
| onSend (sent : bool).

Definition tcp A : Type := act tcp_connection tcp_event A.

Record uv_results : Type := UvResults {
  uv_read_stop_err : Z;
  uv_shutdown_err : Z
}.

(** [UV_EOF] is libuv's own, the others are those of Linux. *)
Definition UV_EOF : Z := -4095.
Definition UV_ECONNRESET : Z := -104.
Definition UV_EAGAIN : Z := -11.
Definition UV_ENOSYS : Z := -38.
Definition UV_EPIPE : Z := -32.
Definition UV_ENOTCONN : Z := -107.

Definition ReadBufferSize : Z := 65536.

Definition new_TcpConnection (size : Z) : tcp_connection :=
  TcpConnection size None 0 0 false false false 0 0.

Definition set_buffer (s : tcp_connection) (b : list Z) (dataLen start : Z) : tcp_connection :=
  TcpConnection (bufferSize s) (Some b) dataLen start (closed s) (isClosedByPeer s) (hasError s)
    (recvBytes s) (sentBytes s).

Definition set_position (s : tcp_connection) (dataLen start : Z) : tcp_connection :=
  TcpConnection (bufferSize s) (buffer s) dataLen start (closed s) (isClosedByPeer s) (hasError s)
    (recvBytes s) (sentBytes s).

Definition set_closed (s : tcp_connection) : tcp_connection :=
  TcpConnection (bufferSize s) (buffer s) (bufferDataLen s) (frameStart s) true (isClosedByPeer s)
    (hasError s) (recvBytes s) (sentBytes s).

Definition set_flags (s : tcp_connection) (byPeer error : bool) : tcp_connection :=
  TcpConnection (bufferSize s) (buffer s) (bufferDataLen s) (frameStart s) (closed s)
    (isClosedByPeer s || byPeer) (hasError s || error) (recvBytes s) (sentBytes s).

Definition add_recvBytes (s : tcp_connection) (n : Z) : tcp_connection :=
  TcpConnection (bufferSize s) (buffer s) (bufferDataLen s) (frameStart s) (closed s)
    (isClosedByPeer s) (hasError s) (u64 (recvBytes s + n)) (sentBytes s).

Definition add_sentBytes (s : tcp_connection) (n : Z) : tcp_connection :=
  TcpConnection (bufferSize s) (buffer s) (bufferDataLen s) (frameStart s) (closed s)
    (isClosedByPeer s) (hasError s) (recvBytes s) (u64 (sentBytes s + n)).

(** ** Sending *)

(** The callback, when there is a callback. *)
Definition call_back (cb sent : bool) : tcp unit := if cb then emit (onSend sent) else skip.

(** The request of what was not written at once. *)
Definition write_rest (store : list Z) (err : Z) (cb : bool) : tcp unit :=
  if truthy err then call_back cb false
  else
    emit (uv_write store);;
    modify (fun s => add_sentBytes s (zlen store)).

(** [Write] of one buffer; [written] and [err] are what [uv_try_write] and
    [uv_write] return. *)
Definition Write (data : list Z) (written err : Z) (cb : bool) : tcp unit :=
  s ← get;
  if closed s then call_back cb false
  else if zlen data =? 0 then call_back cb false
  else
    emit (uv_try_write (take (Z.to_nat written) data));;
    if written =? swrap 32 (zlen data) then
      modify (fun s => add_sentBytes s written);;
      call_back cb true
    else
      let written := if written <? 0 then 0 else written in
      rest ← lift (slice data written (u64 (zlen data - written)));
      write_rest rest err cb.

(** [Write] of two buffers. *)
Definition Write2 (data1 data2 : list Z) (written err : Z) (cb : bool) : tcp unit :=
  s ← get;
  if closed s then call_back cb false
  else if (zlen data1 =? 0) && (zlen data2 =? 0) then call_back cb false
  else
    let totalLen := zlen data1 + zlen data2 in
    emit (uv_try_write (take (Z.to_nat written) (data1 ++ data2)));;
    if written =? swrap 32 totalLen then
      modify (fun s => add_sentBytes s written);;
      call_back cb true
    else
      let written := if written <? 0 then 0 else written in
      rest ← lift (
        if written <? zlen data1 then
          r ← slice data1 written (zlen data1 - written);
          Ok (r ++ data2)
        else slice data2 (written - zlen data1) (u64 (zlen data2 - (written - zlen data1))));
      write_rest rest err cb.

Definition Send (data : list Z) (written err : Z) (cb : bool) : tcp unit :=
  frameLen ← lift (Set2Bytes [0; 0] 0 (zlen data));
  Write2 frameLen data written err cb.

(** ** Closing *)

(** What a listener does with the connection while it is called. *)
Inductive tcp_call : Type :=
| CallClose
| CallSend (data : list Z) (written err : Z) (cb : bool).

(** The calls on each of the next packets; none on those after. *)
Abbreviation reactions := (list (list tcp_call)).

Section uv.
Context (uv : uv_results).

(** [MS_ABORT] on an error of libuv. *)
Definition Close : tcp unit :=
  s ← get;
  if closed s then skip
  else
    put (set_closed s);;
    emit uv_read_stop;;
    lift (require AssertFailed (uv_read_stop_err uv =? 0));;
    if negb (hasError s) && negb (isClosedByPeer s) then
      emit uv_shutdown;;
      lift (require AssertFailed (uv_shutdown_err uv =? 0))
    else emit uv_close.

Definition ErrorReceiving : tcp unit := Close;; emit OnTcpConnectionClosed.

Definition OnUvWrite (status : Z) (cb : bool) : tcp unit :=
  if status =? 0 then call_back cb true
  else
    modify (fun s => set_flags s false (negb (status =? UV_EPIPE) && negb (status =? UV_ENOTCONN)));;
    call_back cb false;;
    Close;;
    emit OnTcpConnectionClosed.

(** ** Receiving *)

Definition run_call (c : tcp_call) : tcp unit :=
  match c with
  | CallClose => Close
  | CallSend data written err cb => Send data written err cb
  end.

Fixpoint run_calls (cs : list tcp_call) : tcp unit :=
  match cs with
  | [] => skip
  | c :: cs => run_call c;; run_calls cs
  end.

Definition the_buffer : tcp (list Z) :=
  s ← get; lift (match buffer s with Some b => Ok b | None => Err OutOfBounds end).

(** A packet is copied into [ReadBuffer] and given to the listener. *)
Definition notify_packet (start packetLen : Z) (rs : reactions) : tcp reactions :=
  if truthy packetLen then
    b ← the_buffer;
    packet ← lift (slice b start packetLen);
    lift (require OutOfBounds (packetLen <=? ReadBufferSize));;
    emit (OnTcpConnectionPacketReceived packet);;
    run_calls (hd [] rs);;
    mret (tl rs)
  else mret rs.

Definition frame_done (s : tcp_connection) (packetLen : Z) : tcp_connection :=
  if frameStart s + 2 + packetLen =? bufferSize s then set_position s 0 0
  else set_position s (bufferDataLen s) (frameStart s + 2 + packetLen).

(** The frame is not complete: room is made for it, or there is none. *)
Definition incomplete_packet : tcp unit :=
  s ← get;
  if bufferDataLen s =? bufferSize s then
    if negb (frameStart s =? 0) then
      b ← the_buffer;
      b ← lift (memmove b 0 (frameStart s) (bufferSize s - frameStart s));
      put (set_buffer s b (bufferSize s - frameStart s) 0)
    else ErrorReceiving
  else skip.

Fixpoint parse_loop (fuel : nat) (rs : reactions) : tcp unit :=
  match fuel with
  | O => lift (Err OutOfFuel)
  | S fuel =>
      s ← get;
      if closed s then skip
      else
        let dataLen := bufferDataLen s - frameStart s in
        packetLen ← (if 2 <=? dataLen then b ← the_buffer; lift (Get2Bytes b (frameStart s))
                     else mret 0);
        if (2 <=? dataLen) && (2 + packetLen <=? dataLen) then
          rs ← notify_packet (frameStart s + 2) packetLen rs;
          modify (fun s => frame_done s packetLen);;
          s ← get;
          if frameStart s <? bufferDataLen s then parse_loop fuel rs else skip
        else incomplete_packet
  end.

Definition UserOnTcpConnectionRead (rs : reactions) : tcp unit :=
  s ← get; parse_loop (S (Z.to_nat (bufferDataLen s - frameStart s))) rs.

(** Where libuv may write, and how much; [heap] is what new memory holds. *)
Definition OnUvReadAlloc (heap : list Z) : tcp (Z * Z) :=
  s ← get;
  (match buffer s with
   | Some _ => skip
   | None =>
       let size := Z.to_nat (bufferSize s) in
       put (set_buffer s (take size (heap ++ replicate size 0)) (bufferDataLen s) (frameStart s))
   end);;
  mret (bufferDataLen s, if bufferDataLen s <? bufferSize s then bufferSize s - bufferDataLen s else 0).

Definition OnUvRead (nread : Z) (rs : reactions) : tcp unit :=
  if nread =? 0 then skip
  else if 0 <? nread then
    modify (fun s => set_position (add_recvBytes s nread) (bufferDataLen s + nread) (frameStart s));;
    UserOnTcpConnectionRead rs
  else if (nread =? UV_EOF) || (nread =? UV_ECONNRESET) then
    modify (fun s => set_flags s true false);;
    Close;;
    emit OnTcpConnectionClosed
  else
    modify (fun s => set_flags s false true);;
    Close;;
    emit OnTcpConnectionClosed.

(** libuv reads the bytes [bs]: [onAlloc], the bytes are stored, [onRead]; the
    callbacks do nothing once the connection is closed. *)
Definition uv_read (heap bs : list Z) (rs : reactions) : tcp unit :=
  s ← get;
  if closed s then skip
  else
    p ← OnUvReadAlloc heap;
    b ← the_buffer;
    b ← lift (write b p.1 bs);
    modify (fun s => set_buffer s b (bufferDataLen s) (frameStart s));;
    OnUvRead (zlen bs) rs.

(** [onRead] of an error, or of nothing. *)
Definition uv_read_error (nread : Z) : tcp unit :=
  s ← get; if closed s then skip else OnUvRead nread [].

Definition onWrite (status : Z) (cb : bool) : tcp unit :=
  s ← get; if closed s then skip else OnUvWrite status cb.
End uv.

(** * The frames of a stream *)

(** RFC 4571: the length of a packet, and the packet. *)
Definition frame (packet : list Z) : list Z := be_bytes 2 (zlen packet) ++ packet.

Definition frames (packets : list (list Z)) : list Z := concat (frame <$> packets).

(** A length can be told with 16 bits. *)
Definition short (packet : list Z) : Prop := zlen packet < 65536.

(** No complete frame begins the bytes; one that does cannot fit [size] bytes. *)
Definition incomplete (q : list Z) : bool :=
  match q with b1 :: b0 :: r => zlen r <? be_val [b1; b0] | _ => true end.

Definition too_big (size : Z) (q : list Z) : bool :=
  match q with b1 :: b0 :: _ => size <? 2 + be_val [b1; b0] | _ => false end.

Definition nonempty (packet : list Z) : bool := negb (zlen packet =? 0).

(** The packets of the stream that the listener gets. *)
Definition told (packets : list (list Z)) : list (list Z) := filter (fun p => nonempty p = true) packets.

Definition delivered (es : list tcp_event) : list (list Z) :=
  omap (fun e => match e with OnTcpConnectionPacketReceived p => Some p | _ => None end) es.

(** What the socket was given. *)
Definition wire (es : list tcp_event) : list Z :=
  concat (omap (fun e => match e with uv_try_write bs | uv_write bs => Some bs | _ => None end) es).

Lemma told_cons p ps : told (p :: ps) = (if zlen p =? 0 then [] else [p]) ++ told ps.
Proof.
  unfold told. rewrite filter_cons. destruct (decide _) as [E|E]; unfold nonempty in E; destruct (zlen p =? 0); done.
Qed.

Lemma delivered_app es es' : delivered (es ++ es') = delivered es ++ delivered es'.
Proof. apply omap_app. Qed.

Lemma wire_app es es' : wire (es ++ es') = wire es ++ wire es'.
Proof. unfold wire. by rewrite omap_app, concat_app. Qed.

Lemma frames_app ps qs : frames (ps ++ qs) = frames ps ++ frames qs.
Proof. unfold frames. by rewrite fmap_app, concat_app. Qed.

Lemma frames_cons p ps : frames (p :: ps) = frame p ++ frames ps.
Proof. done. Qed.

Lemma zlen_frame p : zlen (frame p) = 2 + zlen p.
Proof. unfold frame. by rewrite zlen_app, zlen_be_bytes. Qed.

Lemma frame_length p : short p -> exists b1 b0, frame p = b1 :: b0 :: p /\ be_val [b1; b0] = zlen p.
Proof.
  intros Hp. pose proof (zlen_nonneg p). unfold frame. cbn [be_bytes app]. do 2 eexists. split; [done|].
  change (be_val (be_bytes 2 (zlen p)) = zlen p). rewrite be_val_be_bytes. apply Z.mod_small. unfold short in Hp.
  change (2 ^ _) with 65536. lia.
Qed.

Lemma incomplete_frame p r : short p -> incomplete (frame p ++ r) = false.
Proof.
  intros (b1 & b0 & -> & E)%frame_length. cbn -[be_val]. rewrite E, zlen_app. pose proof (zlen_nonneg r). lia.
Qed.

Lemma next_frame q : bytes q -> incomplete q = false -> exists p r, q = frame p ++ r /\ short p.
Proof.
  destruct q as [|b1 [|b0 r]]; try done. intros Hq Hi. cbn -[be_val] in Hi. apply Z.ltb_ge in Hi.
  assert (bytes [b1; b0]) as Hb.
  { apply Forall_cons in Hq as [? [? _]%Forall_cons]. apply Forall_cons_2; [done|]. by apply Forall_singleton. }
  pose proof (be_val_range _ Hb) as Hr. unfold in_uint in Hr. change (2 ^ _) with 65536 in Hr.
  set (n := be_val [b1; b0]) in *. exists (take (Z.to_nat n) r), (drop (Z.to_nat n) r).
  assert (zlen (take (Z.to_nat n) r) = n) as E by (unfold zlen in *; rewrite length_take; lia).
  unfold short, frame. rewrite E. split; [|lia]. unfold n. rewrite (be_bytes_be_val _ Hb : be_bytes 2 _ = _).
  cbn [app]. by rewrite take_drop.
Qed.

(** A stream of frames is cut in one way only. *)
Lemma frames_prefix ps qs r :
  Forall short ps -> Forall short qs -> frames ps ++ r = frames qs ->
  exists qs', qs = ps ++ qs' /\ r = frames qs'.
Proof.
  intros Hps. revert qs. induction Hps as [|p ps Hp Hps IH]; intros qs Hqs E; [by exists qs|].
  destruct Hqs as [|q qs Hq Hqs].
  { apply (f_equal zlen) in E. rewrite frames_cons, !zlen_app, zlen_frame in E.
    change (zlen (frames [])) with 0 in E. pose proof (zlen_nonneg p). pose proof (zlen_nonneg (frames ps)).
    pose proof (zlen_nonneg r). lia. }
  rewrite !frames_cons, <- app_assoc in E.
  destruct (frame_length p Hp) as (b1 & b0 & Ep & Lp), (frame_length q Hq) as (c1 & c0 & Eq & Lq).
  rewrite Ep, Eq in E. cbn [app] in E. injection E as <- <- E. rewrite Lp in Lq.
  apply app_inj_1 in E as [-> E]; [|unfold zlen in Lq; lia].
  destruct (IH _ Hqs E) as (qs' & -> & ->). by exists qs'.
Qed.

(** ** Frames in a buffer *)

Lemma slice_joined b o x y :
  slice b o (zlen (x ++ y)) = Ok (x ++ y) -> slice b o (zlen x) = Ok x /\ slice b (o + zlen x) (zlen y) = Ok y.
Proof.
  rewrite zlen_app, slice_split by apply zlen_nonneg.
  intros (s1 & H1 & (s2 & H2 & [= E])%bind_Ok)%bind_Ok.
  apply app_inj_1 in E as [-> ->]; [done|]. apply zlen_slice in H1. unfold zlen in H1. lia.
Qed.

Lemma slice_framed b o p r :
  bytes b -> short p -> slice b o (zlen (frame p ++ r)) = Ok (frame p ++ r) ->
  Get2Bytes b o = Ok (zlen p) /\ slice b (o + 2) (zlen p) = Ok p
  /\ slice b (o + 2 + zlen p) (zlen r) = Ok r.
Proof.
  intros Hb Hp [Hf Hr]%slice_joined. rewrite zlen_frame in Hr. pose proof Hf as [H2 H3]%slice_joined.
  rewrite zlen_be_bytes in H2, H3. rewrite Get2Bytes_spec by done. change 2 with (Z.of_nat 2). rewrite H2, H3. ostep.
  split_and!; [|done|by rewrite <- Z.add_assoc].
  rewrite be_val_be_bytes. f_equal. apply Z.mod_small. pose proof (zlen_nonneg p). unfold short in Hp.
  change (2 ^ _) with 65536. lia.
Qed.

Lemma slice_length b o b1 b0 r :
  bytes b -> slice b o (zlen (b1 :: b0 :: r)) = Ok (b1 :: b0 :: r) -> Get2Bytes b o = Ok (be_val [b1; b0]).
Proof.
  intros Hb [H _]%(slice_joined b o [b1; b0] r). rewrite Get2Bytes_spec by done.
  change (zlen [b1; b0]) with 2 in H. by rewrite H.
Qed.

(** * Sending and closing *)

(** What libuv documents: [uv_read_stop] returns 0; [uv_shutdown] does on a stream
    that is connected and was not shut down.  At most all bytes are taken. *)
Definition uv_fine (uv : uv_results) : Prop := uv_read_stop_err uv = 0 /\ uv_shutdown_err uv = 0.

Definition call_fine (c : tcp_call) : Prop :=
  match c with
  | CallClose => True
  | CallSend data written _ _ => zlen data < 2 ^ 30 /\ written <= 2 + zlen data
  end.

Definition is_close (c : tcp_call) : bool := match c with CallClose => true | _ => false end.

(** What is told of the stream that is read does not change. *)
Definition same_reading (s s' : tcp_connection) : Prop :=
  bufferSize s' = bufferSize s /\ buffer s' = buffer s
  /\ bufferDataLen s' = bufferDataLen s /\ frameStart s' = frameStart s.

Lemma same_reading_refl s : same_reading s s.
Proof. done. Qed.

Lemma same_reading_trans s1 s2 s3 : same_reading s1 s2 -> same_reading s2 s3 -> same_reading s1 s3.
Proof. intros (?&?&?&?) (?&?&?&?). repeat split; congruence. Qed.

(** The calls that give no packet to the listener, and what they do to [closed]. *)
Definition aside (closes : bool) (s : tcp_connection) (s' : tcp_connection) (es : list tcp_event) : Prop :=
  delivered es = [] /\ same_reading s s' /\ closed s' = closed s || closes.

Lemma does_Close uv s : uv_fine uv -> does (Close uv) (fun _ s' es => aside true s s' es) s.
Proof.
  intros [Hr Hs]. unfold Close. apply does_bind, does_get. cbv beta.
  destruct (closed s) eqn:Ec; repeat does_step.
  { unfold aside. rewrite Ec. done. }
  rewrite Hr. apply does_lift with (x := ()); [done|]. cbv beta.
  destruct (_ && _); repeat does_step.
  - rewrite Hs. apply does_lift with (x := ()); [done|]. unfold aside. by rewrite orb_true_r.
  - unfold aside. by rewrite orb_true_r.
Qed.

Lemma slice_drop l n m : 0 <= n -> n + m = zlen l -> 0 <= m -> slice l n m = Ok (drop (Z.to_nat n) l).
Proof.
  intros. apply slice_Ok. split_and!; [done..|lia|]. rewrite firstn_all2; [done|].
  unfold zlen in *. rewrite length_drop. lia.
Qed.

Lemma u64_small z : 0 <= z < 2 ^ 32 -> u64 z = z.
Proof. intros. apply wrap_small. unfold in_uint. lia. Qed.

Lemma swrap32_small z : 0 <= z < 2 ^ 31 -> swrap 32 z = z.
Proof. intros. unfold swrap. rewrite Z.mod_small; lia. Qed.

(** What is left to be written is the rest of the two buffers. *)
Lemma rest_of_two data1 data2 w :
  0 <= w -> w <= zlen data1 + zlen data2 -> zlen data1 + zlen data2 < 2 ^ 31 ->
  (if w <? zlen data1 then r ← slice data1 w (zlen data1 - w); Ok (r ++ data2)
   else slice data2 (w - zlen data1) (u64 (zlen data2 - (w - zlen data1))))
  = Ok (drop (Z.to_nat w) (data1 ++ data2)).
Proof.
  intros Hw Ht Hs. destruct (Z.ltb_spec w (zlen data1)).
  - rewrite slice_drop by lia. ostep. rewrite drop_app. unfold zlen in *.
    by replace (Z.to_nat w - length data1)%nat with 0%nat by lia.
  - pose proof (zlen_nonneg data1). pose proof (zlen_nonneg data2).
    rewrite u64_small by lia. rewrite slice_drop by lia. rewrite drop_app.
    rewrite (drop_ge data1) by (unfold zlen in *; lia). cbn [app].
    do 2 f_equal. unfold zlen in *. lia.
Qed.

Lemma does_tcp_call_back cb sent s (Q : unit -> tcp_connection -> list tcp_event -> Prop) :
  (forall es, wire es = [] -> delivered es = [] -> Q () s es) -> does (call_back cb sent) Q s.
Proof. intros H. unfold call_back. destruct cb; does_step; by apply H. Qed.

(** Two buffers are taken whole, at once or in a request, unless the connection
    is closed or the request fails. *)
Lemma does_Write2 data1 data2 written err cb s :
  zlen data1 + zlen data2 < 2 ^ 31 -> written <= zlen data1 + zlen data2 ->
  does (Write2 data1 data2 written err cb)
    (fun _ s' es => aside false s s' es /\ (closed s = false -> err = 0 -> wire es = data1 ++ data2)) s.
Proof.
  intros Hs Hw. pose proof (zlen_nonneg data1). pose proof (zlen_nonneg data2).
  assert (forall d : list Z, (zlen d =? 0) = true -> d = []) as Hnil.
  { intros [|x d]; [done|]. rewrite zlen_cons. pose proof (zlen_nonneg d). intros E%Z.eqb_eq. lia. }
  unfold Write2. apply does_bind, does_get. cbv beta.
  destruct (closed s) eqn:Ec.
  { apply does_tcp_call_back. intros es _ E. unfold aside. by rewrite Ec. }
  destruct (_ && _) eqn:E0.
  { apply does_tcp_call_back. intros es Ew E. apply andb_true_iff in E0 as [->%Hnil ->%Hnil].
    unfold aside. by rewrite Ec. }
  apply does_bind, does_emit. cbv beta. rewrite swrap32_small by lia.
  destruct (Z.eqb_spec written (zlen data1 + zlen data2)) as [->|Hne].
  - apply does_bind, does_modify. cbv beta. apply does_tcp_call_back. intros es Ew Ed.
    unfold aside. rewrite !wire_app, !delivered_app, Ew, Ed. cbn -[zlen]. rewrite Ec. split; [done|]. intros _ _.
    rewrite firstn_all2; [by rewrite !app_nil_r|]. rewrite length_app. unfold zlen in *. lia.
  - eapply does_bind, does_lift.
    { apply rest_of_two; [|destruct (Z.ltb_spec written 0); lia|done].
      destruct (Z.ltb_spec written 0); lia. }
    cbv beta. unfold write_rest. destruct (truthy err) eqn:Ee.
    + apply does_tcp_call_back. intros es Ew Ed. unfold aside. rewrite !delivered_app, Ed. cbn. rewrite Ec.
      split; [done|]. intros _ ->. done.
    + apply does_bind, does_emit, does_modify. unfold aside. cbn -[zlen]. rewrite Ec. split; [done|]. intros _ _.
      unfold wire. cbn. rewrite app_nil_r.
      destruct (Z.ltb_spec written 0); [|by rewrite take_drop].
      replace (Z.to_nat written) with 0%nat by lia. done.
Qed.

Lemma Set2Bytes_frame (p : list Z) : Set2Bytes [0; 0] 0 (zlen p) = Ok (be_bytes 2 (zlen p)).
Proof. rewrite Set2Bytes_spec. done. Qed.

Lemma does_Send data written err cb s :
  zlen data < 2 ^ 30 -> written <= 2 + zlen data ->
  does (Send data written err cb)
    (fun _ s' es => aside false s s' es /\ (closed s = false -> err = 0 -> wire es = frame data)) s.
Proof.
  intros Hs Hw. unfold Send. eapply does_bind, does_lift; [apply Set2Bytes_frame|]. cbv beta.
  apply does_Write2; change (zlen (be_bytes 2 (zlen data))) with 2; lia.
Qed.

Lemma aside_trans c c' s s1 s' es es' : aside c s s1 es -> aside c' s1 s' es' -> aside (c || c') s s' (es ++ es').
Proof.
  intros (D & R & C) (D' & R' & C'). unfold aside. rewrite delivered_app, D, D', C', C, orb_assoc.
  split_and!; [done| |done]. by eapply same_reading_trans.
Qed.

Lemma does_run_call uv c s :
  uv_fine uv -> call_fine c -> does (run_call uv c) (fun _ s' es => aside (is_close c) s s' es) s.
Proof.
  intros Huv Hc. destruct c as [|data written err cb]; cbn; [by apply does_Close|].
  destruct Hc as [Hc1 Hc2]. eapply does_weaken; [exact (does_Send data written err cb s Hc1 Hc2)|].
  intros u s1 es1 Ha. exact (proj1 Ha).
Qed.

Lemma does_run_calls uv cs s :
  uv_fine uv -> Forall call_fine cs ->
  does (run_calls uv cs) (fun _ s' es => aside (existsb is_close cs) s s' es) s.
Proof.
  intros Huv Hcs. revert s. induction Hcs as [|c cs Hc Hcs IH]; intros s; cbn [run_calls existsb].
  { apply does_skip. unfold aside. by rewrite orb_false_r. }
  apply does_bind. eapply does_weaken; [by apply does_run_call|].
  intros u s1 es1 H1. eapply does_weaken; [apply IH|]. intros u' s' es'. by apply aside_trans.
Qed.

(** * Receiving *)

(** The bytes of the stream in the buffer that are not parsed yet. *)
Record reading (N : Z) (s : tcp_connection) (q : list Z) : Prop := Reading {
  rd_size : bufferSize s = N;
  rd_start : 0 <= frameStart s;
  rd_len : bufferDataLen s = frameStart s + zlen q;
  rd_fits : bufferDataLen s <= N;
  rd_bytes : bytes q;
  rd_buffer : match buffer s with
              | Some b => bytes b /\ zlen b = N /\ slice b (frameStart s) (zlen q) = Ok q
              | None => bufferDataLen s = 0
              end
}.

Lemma reading_same N s s' q : reading N s q -> same_reading s s' -> reading N s' q.
Proof. intros [] (E1 & E2 & E3 & E4). split; rewrite ?E1, ?E2, ?E3, ?E4; done. Qed.

Definition allocated (s : tcp_connection) : Prop := is_Some (buffer s).

Lemma does_the_buffer s b (Q : list Z -> tcp_connection -> list tcp_event -> Prop) :
  buffer s = Some b -> Q b s [] -> does the_buffer Q s.
Proof. intros E H. unfold the_buffer. apply does_bind, does_get. cbv beta. rewrite E. by apply does_lift with b. Qed.

(** Whether the listener closes the connection. *)
Definition closing (rs : reactions) : bool := existsb (existsb is_close) rs.

Definition fine (rs : reactions) : Prop := Forall (Forall call_fine) rs.

Lemma closing_cons cs rs : closing (cs :: rs) = existsb is_close cs || closing rs.
Proof. done. Qed.

(** A packet is given to the listener, unless it is empty. *)
Lemma does_notify_packet uv start p rs s b :
  uv_fine uv -> fine rs -> buffer s = Some b -> slice b start (zlen p) = Ok p -> short p ->
  does (notify_packet uv start (zlen p) rs)
    (fun rs' s' es => delivered es = told [p] /\ same_reading s s' /\ fine rs'
       /\ (closed s = true -> closed s' = true)
       /\ (closing rs = false -> closed s' = closed s /\ closing rs' = false)) s.
Proof.
  intros Huv Hrs Eb Es Hp. rewrite told_cons. unfold notify_packet, truthy.
  destruct (Z.eqb_spec (zlen p) 0) as [E|E].
  { by apply does_ret. }
  cbn [negb]. apply does_bind. apply (does_the_buffer _ b); [done|]. cbv beta.
  apply does_bind, (does_lift _ p); [done|]. cbv beta.
  apply does_bind, (does_lift _ ()).
  { apply require_true. unfold short, ReadBufferSize in *. lia. }
  cbv beta. apply does_bind, does_emit. cbv beta. apply does_bind.
  destruct rs as [|cs rs]; cbn [hd tl run_calls].
  { apply does_skip, does_ret. cbn. done. }
  apply Forall_cons in Hrs as [Hcs Hrs].
  eapply does_weaken; [apply (does_run_calls _ _ _ Huv Hcs)|]. intros u s' es (D & R & C). apply does_ret.
  rewrite !delivered_app, D, C, closing_cons. cbn.
  split_and!; [done..|by intros ->|]. intros [-> ->]%orb_false_iff. by rewrite orb_false_r.
Qed.

(** The next frame begins after the one parsed; the buffer is emptied at its end. *)
Lemma reading_frame_done N s s' p r b :
  buffer s = Some b -> reading N s (frame p ++ r) -> short p -> same_reading s s' ->
  reading N (frame_done s' (zlen p)) r /\ allocated (frame_done s' (zlen p))
  /\ closed (frame_done s' (zlen p)) = closed s'
  /\ (r = [] -> 0 < N -> bufferDataLen (frame_done s' (zlen p)) < N).
Proof.
  intros Eb [E1 E2 E3 E4 E5 E6] Hp (F1 & F2 & F3 & F4). rewrite Eb in E6. destruct E6 as (Hb & Lb & Sl).
  destruct (slice_framed _ _ _ _ Hb Hp Sl) as (_ & _ & Sr).
  apply Forall_app in E5 as [_ Hr]. rewrite zlen_app, zlen_frame in E3.
  pose proof (zlen_nonneg r). pose proof (zlen_nonneg p).
  assert (zlen r = 0 -> r = []) as Hnil by (destruct r; [done|rewrite zlen_cons; pose proof (zlen_nonneg r); lia]).
  unfold frame_done, allocated. rewrite F4, F1, E1. destruct (Z.eqb_spec (frameStart s + 2 + zlen p) N) as [E|E].
  - assert (r = []) as -> by (apply Hnil; lia). split_and!; cbn; rewrite ?F2, ?Eb; [|done..].
    split; cbn; rewrite ?F1, ?F2, ?Eb; try done; [lia|]. split_and!; [done..|]. apply slice_0. lia.
  - split_and!; cbn; rewrite ?F2, ?Eb; [|done..|].
    + split; cbn; rewrite ?F1, ?F2, ?F3, ?Eb; try done; lia.
    + intros -> HN. rewrite F3. change (zlen []) with 0 in *. lia.
Qed.

(** What a run over the bytes [q] does: the frames in them are taken off, and
    their packets given to the listener. *)
Definition parsed (N : Z) (q : list Z) (open closes : bool) (s' : tcp_connection) (es : list tcp_event) : Prop :=
  exists ps r, q = frames ps ++ r /\ Forall short ps /\ delivered es = told ps
    /\ reading N s' r /\ allocated s'
    /\ (closed s' = false -> incomplete r = true /\ bufferDataLen s' < N)
    /\ (open = true -> closes = false -> closed s' = true -> too_big N r = true).

Lemma parsed_none N q open closes s' es :
  delivered es = [] -> reading N s' q -> allocated s' ->
  (closed s' = false -> incomplete q = true /\ bufferDataLen s' < N) ->
  (open = true -> closes = false -> closed s' = true -> too_big N q = true) -> parsed N q open closes s' es.
Proof. intros. by exists [], q. Qed.

Lemma does_ErrorReceiving uv s :
  uv_fine uv -> does (ErrorReceiving uv) (fun _ s' es => aside true s s' es) s.
Proof.
  intros Huv. unfold ErrorReceiving. apply does_bind. eapply does_weaken; [by apply does_Close|].
  intros u s' es (D & H). apply does_emit. unfold aside. rewrite delivered_app, D. done.
Qed.

(** A frame that does not fit is one that is longer than the buffer. *)
Lemma full_too_big N q : 2 <= N -> zlen q = N -> incomplete q = true -> too_big N q = true.
Proof.
  intros HN Hq. destruct q as [|b1 [|b0 r]]; [rewrite (eq_refl : zlen [] = 0) in Hq; lia|rewrite zlen_one in Hq; lia|].
  rewrite !zlen_cons in Hq. cbn -[be_val]. lia.
Qed.

Lemma does_incomplete_packet uv N q rs s :
  uv_fine uv -> 2 <= N -> reading N s q -> allocated s -> incomplete q = true -> closed s = false ->
  does (incomplete_packet uv) (fun _ s' es => parsed N q true (closing rs) s' es) s.
Proof.
  intros Huv HN R [b Eb] Hi Ho. pose proof R as [E1 E2 E3 E4 E5 E6]. rewrite Eb in E6. destruct E6 as (Hb & Lb & Sl).
  pose proof (zlen_nonneg q). unfold incomplete_packet. apply does_bind, does_get. cbv beta.
  destruct (Z.eqb_spec (bufferDataLen s) (bufferSize s)) as [Ef|Ef].
  2:{ apply does_skip, parsed_none; [done|done|by exists b| |congruence]. intros _. split; [done|lia]. }
  destruct (Z.eqb_spec (frameStart s) 0) as [E0|E0]; cbn [negb].
  - eapply does_weaken; [by apply does_ErrorReceiving|]. intros u s' es (D & Rs & C). apply parsed_none; [done|..].
    + by eapply reading_same.
    + destruct Rs as (_ & Eb' & _). exists b. congruence.
    + rewrite C, orb_true_r. done.
    + intros _ _ _. apply full_too_big; [done|lia|done].
  - apply does_bind. apply (does_the_buffer _ b); [done|]. cbv beta.
    destruct (memmove_in_bounds b 0 (frameStart s) (bufferSize s - frameStart s)) as [b' Eb']; [lia..|].
    apply does_bind. apply (does_lift _ b'); [done|]. apply does_put. cbv beta.
    pose proof (zlen_memmove _ _ _ _ _ Eb') as L'. pose proof (slice_memmove _ _ _ _ _ Eb') as S'.
    replace (bufferSize s - frameStart s) with (zlen q) in * by lia. rewrite Sl in S'.
    apply parsed_none; [done| |by eexists| |cbn; congruence].
    + split; cbn; try done; [lia|]. split_and!; [by eapply bytes_memmove|lia|done].
    + cbn. intros _. split; [done|lia].
Qed.

(** A frame at the head of the bytes, and then the rest. *)
Lemma parsed_frame N p r open open' closes closes' s' es es' :
  short p -> delivered es = told [p] -> parsed N r open' closes' s' es' ->
  (open = true -> closes = false -> open' = true /\ closes' = false) ->
  parsed N (frame p ++ r) open closes s' (es ++ es').
Proof.
  intros Hp D (ps & q & -> & Hps & D' & R & A & Ho & Hc) H. exists (p :: ps), q.
  rewrite frames_cons, <- app_assoc, delivered_app, D, D', !told_cons, app_nil_r. split_and!; try done.
  - by constructor.
  - intros H1 H2. by apply Hc; apply H.
Qed.

Lemma does_parse_loop uv N fuel q rs s :
  uv_fine uv -> 2 <= N -> fine rs -> reading N s q -> allocated s -> (length q < fuel)%nat ->
  does (parse_loop uv fuel rs) (fun _ s' es => parsed N q (negb (closed s)) (closing rs) s' es) s.
Proof.
  intros Huv HN. revert q rs s. induction fuel as [|fuel IH]; intros q rs s Hrs R [b Eb] Hf; [lia|].
  cbn [parse_loop]. apply does_bind, does_get. cbv beta. destruct (closed s) eqn:Ec.
  { apply does_skip, parsed_none; [done|done|by exists b|congruence|done]. }
  pose proof R as [E1 E2 E3 E4 E5 E6]. rewrite Eb in E6. destruct E6 as (Hb & Lb & Sl).
  replace (bufferDataLen s - frameStart s) with (zlen q) by lia. cbn [app].
  destruct (incomplete q) eqn:Ei.
  - (* the frame is not complete *)
    apply does_bind, does_weaken with (Q := fun n s' es =>
      s' = s /\ es = [] /\ (2 <=? zlen q) && (2 + n <=? zlen q) = false).
    { destruct (Z.leb_spec 2 (zlen q)) as [Hl|Hl]; [|by apply does_ret].
      apply does_bind. apply (does_the_buffer _ b); [done|]. cbv beta.
      destruct q as [|b1 [|b0 r]]; [unfold zlen in Hl; cbn in Hl; lia..|].
      eapply does_lift; [by eapply slice_length|]. rewrite !zlen_cons. cbn -[be_val] in *. split_and!; [done..|lia]. }
    intros n s' es (-> & -> & ->). eapply does_weaken; [by apply (does_incomplete_packet uv N q rs); [..|exists b| |]|]. by intros u s' es' H.
  - (* a frame *)
    destruct (next_frame q E5 Ei) as (p & r & -> & Hp). destruct (slice_framed _ _ _ _ Hb Hp Sl) as (Gl & Sp & _).
    pose proof (zlen_nonneg p). pose proof (zlen_nonneg r).
    apply does_bind, does_weaken with (Q := fun n s' es => n = zlen p /\ s' = s /\ es = []).
    { rewrite zlen_app, zlen_frame, (proj2 (Z.leb_le _ _)) by lia.
      apply does_bind. apply (does_the_buffer _ b); [done|]. cbv beta. by eapply does_lift. }
    intros n s0 es0 (-> & -> & ->). rewrite zlen_app, zlen_frame, !(proj2 (Z.leb_le _ _)) by lia. cbn [andb app].
    apply does_bind. eapply does_weaken; [by eapply does_notify_packet|].
    intros rs' s1 es1 (D & Rs & Hrs' & _ & Hcl).
    apply does_bind, does_modify. cbv beta. apply does_bind, does_get. cbv beta. cbn [app].
    destruct (reading_frame_done N s s1 p r b Eb R Hp Rs) as (R2 & A2 & C2 & Hend).
    destruct (Z.ltb_spec (frameStart (frame_done s1 (zlen p))) (bufferDataLen (frame_done s1 (zlen p)))) as [Hm|Hm].
    + eapply does_weaken; [apply IH; [done..|]|].
      { rewrite length_app in Hf. unfold frame in Hf. rewrite length_app, length_be_bytes in Hf. lia. }
      intros u s' es' P. eapply parsed_frame; [done|done|exact P|]. rewrite C2. intros _ Hr.
      destruct (Hcl Hr) as [-> ->]. by rewrite Ec.
    + pose proof (rd_len _ _ _ R2) as L2.
      assert (r = []) as -> by (destruct r; [done|rewrite zlen_cons in L2; pose proof (zlen_nonneg r); lia]).
      apply does_skip. eapply (parsed_frame N p [] _ (negb (closed s1)) _ (closing rs')); [done|done| |].
      * apply parsed_none; [done|done|done| |].
        -- intros _. split; [done|apply Hend; [done|lia]].
        -- rewrite C2. intros H1 _ H2. rewrite H2 in H1. done.
      * intros _ Hr. destruct (Hcl Hr) as [-> ->]. by rewrite Ec.
Qed.

(** ** One read *)

Lemma reading_alloc N s q heap size :
  reading N s q -> 0 <= N -> bytes heap -> size = Z.to_nat (bufferSize s) -> buffer s = None ->
  reading N (set_buffer s (take size (heap ++ replicate size 0)) (bufferDataLen s) (frameStart s)) q.
Proof.
  intros [E1 E2 E3 E4 E5 E6] HN Hh -> Eb. rewrite Eb in E6. pose proof (zlen_nonneg q). rewrite E1.
  assert (q = []) as -> by (destruct q; [done|rewrite zlen_cons in *; pose proof (zlen_nonneg q); lia]).
  assert (zlen (take (Z.to_nat N) (heap ++ replicate (Z.to_nat N) 0)) = N) as L.
  { unfold zlen. rewrite length_take, length_app, length_replicate. lia. }
  split; cbn -[zlen]; try done. split_and!; [|done|apply slice_0; lia].
  apply Forall_take, Forall_app. split; [done|]. by apply Forall_replicate.
Qed.

Lemma reading_append N s q b bs :
  buffer s = Some b -> reading N s q -> bytes bs -> zlen bs <= N - bufferDataLen s ->
  exists b', write b (bufferDataLen s) bs = Ok b'
    /\ reading N (set_buffer s b' (bufferDataLen s + zlen bs) (frameStart s)) (q ++ bs).
Proof.
  intros Eb [E1 E2 E3 E4 E5 E6] Hbs Hl. rewrite Eb in E6. destruct E6 as (Hb & Lb & Sl).
  pose proof (zlen_nonneg q). pose proof (zlen_nonneg bs).
  destruct (write_in_bounds b (bufferDataLen s) bs) as [b' Hw]; [lia..|]. exists b'. split; [done|].
  split; cbn -[zlen]; rewrite ?zlen_app; try done; [lia..| |].
  - by apply Forall_app.
  - split_and!; [by eapply bytes_write; [exact Hb|exact Hbs|exact Hw]|by rewrite (zlen_write _ _ _ _ Hw)|].
    rewrite slice_split by lia. rewrite (slice_write_other _ _ _ _ (frameStart s) (zlen q) Hw), Sl by lia. ostep.
    rewrite <- E3, (slice_write_same _ _ _ _ Hw). done.
Qed.

Lemma does_uv_read uv N q heap bs rs s :
  uv_fine uv -> 2 <= N -> fine rs -> reading N s q -> closed s = false -> bytes heap -> bytes bs ->
  0 < zlen bs <= N - bufferDataLen s ->
  does (uv_read uv heap bs rs) (fun _ s' es => parsed N (q ++ bs) true (closing rs) s' es) s.
Proof.
  intros Huv HN Hrs R Ho Hh Hbs Hl. unfold uv_read. apply does_bind, does_get. cbv beta. rewrite Ho.
  apply does_bind, does_weaken with (Q := fun p s1 es =>
    es = [] /\ p.1 = bufferDataLen s1 /\ allocated s1 /\ reading N s1 q /\ closed s1 = false
    /\ bufferDataLen s1 = bufferDataLen s).
  { unfold OnUvReadAlloc. apply does_bind, does_get. cbv beta. apply does_bind.
    destruct (buffer s) as [b|] eqn:Eb.
    - apply does_skip, does_ret. split_and!; try done. by exists b.
    - apply does_put, does_ret. split_and!; try done; [by eexists|]. apply reading_alloc; [done|lia|done..]. }
  intros p s1 es1 (-> & Ep & [b Eb] & R1 & Ho1 & El). apply does_bind. apply (does_the_buffer _ b); [done|]. cbv beta.
  destruct (reading_append N s1 q b bs Eb R1 Hbs) as (b' & Hw & R2); [lia|].
  rewrite Ep. apply does_bind, (does_lift _ b'); [done|]. cbv beta. apply does_bind, does_modify. cbv beta.
  unfold OnUvRead. rewrite (proj2 (Z.eqb_neq _ _)), (proj2 (Z.ltb_lt _ _)) by lia.
  apply does_bind, does_modify. cbv beta. unfold UserOnTcpConnectionRead. apply does_bind, does_get. cbv beta.
  set (s2 := set_position _ _ _) in *.
  assert (reading N s2 (q ++ bs)) as R3 by (destruct R2; by split).
  eapply does_weaken; [apply (does_parse_loop uv N _ (q ++ bs) rs)|]; [done..|by exists b'| |].
  - pose proof (rd_len _ _ _ R3) as L3. unfold zlen in L3. lia.
  - intros u s' es' P. cbn in P. by rewrite Ho1 in P.
Qed.

(** ** Runs *)

(** What can happen to a connection; a call is the server's or the transport's. *)
Inductive tcp_op : Type :=
| ReadOp (heap bs : list Z) (rs : list (list tcp_call))
| ReadErrorOp (nread : Z)
| WrittenOp (status : Z) (cb : bool)
| CallOp (c : tcp_call).

Definition run_op (uv : uv_results) (op : tcp_op) : tcp unit :=
  match op with
  | ReadOp heap bs rs => uv_read uv heap bs rs
  | ReadErrorOp nread => uv_read_error uv nread
  | WrittenOp status cb => onWrite uv status cb
  | CallOp c => run_call uv c
  end.

(** libuv reads some bytes, as many as fit the room it was told of, as long as
    the connection is open. *)
Definition op_fine (s : tcp_connection) (op : tcp_op) : Prop :=
  match op with
  | ReadOp heap bs rs =>
      closed s = false /\ bytes heap /\ bytes bs /\ 0 < zlen bs <= bufferSize s - bufferDataLen s /\ fine rs
  | ReadErrorOp nread => nread <= 0
  | WrittenOp _ _ => True
  | CallOp c => call_fine c
  end.

Definition op_bytes (op : tcp_op) : list Z := match op with ReadOp _ bs _ => bs | _ => [] end.

(** The listener, the peer or the system closes the connection. *)
Definition op_closes (op : tcp_op) : bool :=
  match op with
  | ReadOp _ _ rs => closing rs
  | ReadErrorOp nread => negb (nread =? 0)
  | WrittenOp status _ => negb (status =? 0)
  | CallOp c => is_close c
  end.

(** A connection with a buffer of [N] bytes, the stream it was given so far,
    whether it was asked to close, and what it did. *)
Inductive tcp_run (N : Z) : tcp_connection -> list Z -> bool -> list tcp_event -> Prop :=
| tcp_new : tcp_run N (new_TcpConnection N) [] false []
| tcp_step s stream asked es uv op s' es' :
    tcp_run N s stream asked es -> uv_fine uv -> op_fine s op -> run_op uv op s = Ok ((), s', es') ->
    tcp_run N s' (stream ++ op_bytes op) (asked || op_closes op) (es ++ es').

(** What the listener got are the packets of the stream's frames. *)
Definition framed (N : Z) (s : tcp_connection) (stream : list Z) (asked : bool) (es : list tcp_event) : Prop :=
  exists ps r, stream = frames ps ++ r /\ Forall short ps /\ delivered es = told ps
    /\ reading N s r
    /\ (closed s = false -> incomplete r = true /\ bufferDataLen s < N)
    /\ (asked = false -> closed s = true -> too_big N r = true).

Lemma tcp_told_app ps qs : told (ps ++ qs) = told ps ++ told qs.
Proof. apply filter_app. Qed.

Lemma framed_aside N s stream asked es c s' es' :
  framed N s stream asked es -> aside c s s' es' -> framed N s' stream (asked || c) (es ++ es').
Proof.
  intros (ps & r & -> & Hps & D & R & Ho & Hc) (D' & Rs & C). exists ps, r.
  rewrite delivered_app, D, D', app_nil_r, C. split_and!; [done..|by eapply reading_same| |].
  - intros [H _]%orb_false_iff. destruct (Ho H) as [Hi Hl]. destruct Rs as (_ & _ & -> & _). done.
  - intros [-> ->]%orb_false_iff. rewrite orb_false_r. by apply Hc.
Qed.

Lemma framed_read N s stream asked es bs closes (m : tcp unit) :
  framed N s stream asked es ->
  (forall r, reading N s r -> does m (fun _ s' es' => parsed N (r ++ bs) true closes s' es') s) ->
  does m (fun _ s' es' => framed N s' (stream ++ bs) (asked || closes) (es ++ es')) s.
Proof.
  intros (ps & r & -> & Hps & D & R & Ho & Hc) Hm. eapply does_weaken; [by apply Hm|].
  intros u s' es' (qs & r' & Er & Hqs & D' & R' & _ & Ho' & Hc'). exists (ps ++ qs), r'.
  rewrite frames_app, <- !app_assoc, Er, delivered_app, D, D', tcp_told_app.
  split_and!; try done; [by apply Forall_app|]. intros [_ H]%orb_false_iff. by apply Hc'.
Qed.

(** A callback for an error closes the connection and tells the server. *)
Lemma does_set_closing uv s b b' :
  uv_fine uv -> does (ErrorReceiving uv) (fun _ s' es => aside true s s' es) (set_flags s b b').
Proof.
  intros Huv. eapply does_weaken; [by apply does_ErrorReceiving|]. by intros u s' es H.
Qed.

Lemma aside_quiet s es : delivered es = [] -> aside false s s es.
Proof. intros D. unfold aside. by rewrite orb_false_r. Qed.

Lemma aside_closed c s : closed s = true -> aside c s s [].
Proof. intros E. unfold aside. by rewrite E. Qed.

Lemma does_tcp_op uv op N s stream asked es :
  uv_fine uv -> 2 <= N -> framed N s stream asked es -> op_fine s op ->
  does (run_op uv op)
    (fun _ s' es' => framed N s' (stream ++ op_bytes op) (asked || op_closes op) (es ++ es')) s.
Proof.
  intros Huv HN F Hop.
  assert (forall c (m : tcp unit), does m (fun _ s' es' => aside c s s' es') s ->
    does m (fun _ s' es' => framed N s' (stream ++ []) (asked || c) (es ++ es')) s) as Haside.
  { intros c m Hm. rewrite app_nil_r. eapply does_weaken; [exact Hm|]. intros u s' es'. by apply framed_aside. }
  destruct op as [heap bs rs|nread|status cb|c]; cbn [run_op op_bytes op_closes] in *.
  - destruct Hop as (Ho & Hh & Hbs & Hl & Hrs). apply framed_read; [done|]. intros r R.
    apply does_uv_read; try done. by rewrite (rd_size _ _ _ R) in Hl.
  - apply Haside. unfold uv_read_error. apply does_bind, does_get. cbv beta.
    destruct (closed s) eqn:Ec; [by apply does_skip, aside_closed|]. unfold OnUvRead.
    destruct (nread =? 0); [by apply does_skip, aside_quiet|]. rewrite (proj2 (Z.ltb_ge _ _)) by done.
    destruct (_ || _); apply does_bind, does_modify; by apply does_set_closing.
  - apply Haside. unfold onWrite. apply does_bind, does_get. cbv beta.
    destruct (closed s) eqn:Ec; [by apply does_skip, aside_closed|]. unfold OnUvWrite.
    destruct (status =? 0); cbn [negb].
    + apply does_tcp_call_back. intros es' _ D. by apply aside_quiet.
    + apply does_bind, does_modify. cbv beta. apply does_bind, does_tcp_call_back. intros es' _ D.
      eapply does_weaken; [by apply does_set_closing|]. intros u s' es2 H.
      apply (aside_trans false true s s s' es' es2); [by apply aside_quiet|exact H].
  - apply Haside. by apply does_run_call.
Qed.

Lemma new_framed N : 2 <= N -> framed N (new_TcpConnection N) [] false [].
Proof.
  intros HN. exists [], []. split_and!; try done; cbn.
  - split; cbn; first [lia|done|apply Forall_nil_2].
  - intros _. split; [done|lia].
Qed.

Lemma tcp_run_framed N s stream asked es : 2 <= N -> tcp_run N s stream asked es -> framed N s stream asked es.
Proof.
  intros HN. induction 1 as [|s stream asked es uv op s' es' Hrun IH Huv Hop Hrun']; [by apply new_framed|].
  exact (does_run _ _ _ _ _ _ (does_tcp_op uv op N s stream asked es Huv HN IH Hop) Hrun').
Qed.

(** * Theorems *)

(** C30: however a stream is cut into reads, and whatever else happens to the
    connection, every callback returns, and the listener has been given the
    packets of the complete frames of the stream, in order, but the empty ones.
    While the connection is open no complete frame waits in the buffer and there
    is room for more bytes; unless it was asked to close, it closes only on a
    frame that is longer than the buffer. *)
Theorem tcp_delivers_frames N s stream asked es :
  2 <= N -> tcp_run N s stream asked es ->
  (exists ps r, stream = frames ps ++ r /\ Forall short ps /\ delivered es = told ps
     /\ (closed s = false -> incomplete r = true /\ zlen r <= bufferDataLen s < N)
     /\ (asked = false -> closed s = true -> too_big N r = true))
  /\ (forall uv op, uv_fine uv -> op_fine s op -> exists s' es', run_op uv op s = Ok ((), s', es')).
Proof.
  intros HN H%tcp_run_framed; [|done]. split.
  - destruct H as (ps & r & -> & Hps & D & R & Ho & Hc). exists ps, r. split_and!; try done.
    intros (Hi & Hl)%Ho. pose proof (rd_len _ _ _ R). pose proof (rd_start _ _ _ R). split; [done|lia].
  - intros uv op Huv Hop. destruct (does_tcp_op uv op N s stream asked es Huv HN H Hop) as (u & s' & es' & E & _).
    destruct u. by exists s', es'.
Qed.

(** The packets that calls of [Send] send. *)
Definition packets_of (cs : list tcp_call) : list (list Z) :=
  omap (fun c => match c with CallSend data _ _ _ => Some data | _ => None end) cs.

(** A packet of at most 65535 bytes, and no error of [uv_write]. *)
Definition sends (c : tcp_call) : Prop :=
  match c with CallSend data written err _ => short data /\ written <= 2 + zlen data /\ err = 0 | _ => False end.

Lemma does_sends uv cs s :
  Forall sends cs -> closed s = false ->
  does (run_calls uv cs) (fun _ s' es => wire es = frames (packets_of cs) /\ closed s' = false) s.
Proof.
  intros Hcs. revert s. induction Hcs as [|c cs Hc Hcs IH]; intros s Ho; cbn [run_calls]; [by apply does_skip|].
  destruct c as [|data written err cb]; [done|]. destruct Hc as (Hd & Hw & ->). cbn [run_call].
  apply does_bind. eapply does_weaken; [apply does_Send; [unfold short in Hd; lia|done]|].
  intros u s1 es1 [(_ & _ & C) W]. rewrite Ho in C, W. eapply does_weaken; [by apply IH|].
  intros u' s' es' [W' C']. split; [|done]. rewrite wire_app, W, W' by done. done.
Qed.

(** What is sent and fits the buffer is all that is received. *)
Lemma framed_all N s qs asked es :
  Forall short qs -> Forall (fun p => 2 + zlen p <= N) qs -> framed N s (frames qs) asked es -> asked = false ->
  delivered es = told qs /\ closed s = false /\ frameStart s = bufferDataLen s.
Proof.
  intros Hqs Hfit (ps & r & E & Hps & D & R & Ho & Hc) Ha.
  destruct (frames_prefix ps qs r) as (qs' & -> & ->); [done..|].
  apply Forall_app in Hqs as [_ Hqs]. apply Forall_app in Hfit as [_ Hfit].
  assert (closed s = false) as Hop.
  { destruct (closed s) eqn:Ec; [|done]. specialize (Hc Ha eq_refl). destruct Hqs as [|p qs' Hp Hqs]; [done|].
    destruct (frame_length p Hp) as (b1 & b0 & Ef & Lf). rewrite frames_cons, Ef in Hc. cbn -[be_val] in Hc.
    apply Forall_cons in Hfit as [Hfit _]. lia. }
  destruct (Ho Hop) as [Hi _]. destruct Hqs as [|p qs' Hp Hqs].
  - rewrite app_nil_r. pose proof (rd_len _ _ _ R) as L. change (zlen (frames [])) with 0 in L. split_and!; [done..|lia].
  - rewrite frames_cons, incomplete_frame in Hi; done.
Qed.

(** C31: packets that are sent, however little of them the socket takes at once,
    are received whatever reads the stream comes in: the receiver gets them all, in
    order, but the empty ones, stays open, and has nothing left. *)
Theorem tcp_round_trip uv cs sender sender' sent N receiver received :
  Forall sends cs -> closed sender = false -> run_calls uv cs sender = Ok ((), sender', sent) ->
  2 <= N -> Forall (fun p => 2 + zlen p <= N) (packets_of cs) ->
  tcp_run N receiver (wire sent) false received ->
  delivered received = told (packets_of cs) /\ closed receiver = false
  /\ frameStart receiver = bufferDataLen receiver.
Proof.
  intros Hcs Ho Hrun HN Hfit H%tcp_run_framed; [|done].
  destruct (does_run _ _ _ _ _ _ (does_sends uv cs sender Hcs Ho) Hrun) as [W _]. rewrite W in H.
  apply (framed_all N receiver (packets_of cs) false received); [|done..].
  clear -Hcs. induction Hcs as [|[|data written err cb] cs Hc _ IH]; cbn; [constructor|done|].
  constructor; [apply Hc|done].
Qed.

(** * Witnesses *)

Definition no_error : uv_results := UvResults 0 0.

(** Two packets and an empty one, with a buffer of eight bytes, in three reads. *)
Definition w_sends : list tcp_call :=
  [CallSend [7; 9] 3 0 false; CallSend [] 2 0 true; CallSend [1; 2; 3; 4; 5] UV_EAGAIN 0 true].

Definition w_sent : list tcp_event :=
  match run_calls no_error w_sends (new_TcpConnection 8) with Ok (_, _, es) => es | Err _ => [] end.

(** The stream in given chunks; whether libuv may give them so. *)
Fixpoint run_reads (chunks : list (list Z)) : tcp unit :=
  match chunks with [] => skip | bs :: chunks => uv_read no_error [] bs [];; run_reads chunks end.

Fixpoint reads_fine (chunks : list (list Z)) (s : tcp_connection) : bool :=
  match chunks with
  | [] => true
  | bs :: chunks =>
      negb (closed s) && bool_decide (bytes bs) && (0 <? zlen bs) && (zlen bs <=? bufferSize s - bufferDataLen s)
      && match uv_read no_error [] bs [] s with Ok (_, s', _) => reads_fine chunks s' | Err _ => false end
  end.

Lemma run_reads_run N chunks s stream es s' es' :
  tcp_run N s stream false es -> reads_fine chunks s = true -> run_reads chunks s = Ok ((), s', es') ->
  tcp_run N s' (stream ++ concat chunks) false (es ++ es').
Proof.
  revert s stream es es'. induction chunks as [|bs chunks IH]; intros s stream es es' H Hc; cbn [run_reads].
  { intros [= -> <-]. cbn. by rewrite !app_nil_r. }
  cbn [reads_fine] in Hc. rewrite !andb_true_iff, negb_true_iff, bool_decide_eq_true in Hc.
  destruct Hc as [[[[Ho Hbs] H0%Z.ltb_lt] Hl%Z.leb_le] Hc]. unfold mbind, act_bind.
  destruct (uv_read no_error [] bs [] s) as [[[[] s1] es1]|] eqn:E1; [|done].
  destruct (run_reads chunks s1) as [[[[] s2] es2]|] eqn:E2; [|done]. intros [= -> <-].
  cbn [concat]. rewrite !app_assoc. apply (IH s1); [|done..].
  apply (tcp_step N s stream false es no_error (ReadOp [] bs []) s1 es1 H); [by split| |exact E1].
  by split_and!; [|constructor| | | |constructor].
Qed.

Lemma w_run : exists s es, tcp_run 8 s (wire w_sent) false es.
Proof.
  eexists _, _. eapply (run_reads_run 8 [[0; 2; 7]; [9; 0; 0; 0; 5]; [1; 2; 3; 4; 5]] _ [] []);
    [apply tcp_new|vm_compute; reflexivity..].
Qed.

Example tcp_round_trip_witness :
  Forall sends w_sends /\ exists s es, tcp_run 8 s (wire w_sent) false es /\ delivered es = told [[7; 9]; []; [1; 2; 3; 4; 5]].
Proof.
  destruct w_run as (s & es & H).
  assert (Forall sends w_sends) as Hs by (repeat constructor; vm_compute; congruence).
  split; [exact Hs|]. exists s, es. split; [exact H|].
  eapply (tcp_round_trip no_error w_sends (new_TcpConnection 8) _ w_sent 8 s es);
    [exact Hs|reflexivity|vm_compute; reflexivity|lia| |exact H].
  repeat constructor; vm_compute; congruence.
Defined.

Example tcp_delivers_frames_witness :
  exists s es, tcp_run 8 s (wire w_sent) false es
    /\ exists ps r, wire w_sent = frames ps ++ r /\ delivered es = told ps.
Proof.
  destruct w_run as (s & es & H). exists s, es. split; [exact H|].
  destruct (tcp_delivers_frames 8 s (wire w_sent) false es ltac:(lia) H) as ((ps & r & E & _ & D & _) & _).
  by exists ps, r.
Defined.

(** A frame with the largest length does not fit the buffer the server gives a
    connection (worker/src/RTC/TcpServer.cpp): the connection is closed, with
    nothing delivered. *)
Example largest_frame_closes :
  too_big 65536 (255 :: 255 :: replicate 65534 0) = true /\ incomplete (255 :: 255 :: replicate 65534 0) = true.
Proof. split; vm_compute; reflexivity. Qed.
