(* ===== verification/StunPacket.v ===== *)
(** [RTC::StunPacket] (worker/src/RTC/StunPacket.cpp,
    worker/include/RTC/StunPacket.hpp): parsing, authentication and
    serialization of STUN messages.

    A packet keeps the buffer it was parsed from or written to.  Its pointer to
    MESSAGE-INTEGRITY is an offset in that buffer; the transaction id is the
    twelve bytes pointed at, which no operation changes.  HMAC-SHA1 belongs to
    OpenSSL: it is the operation of the class [HmacSha1]. *)

From S2P Require Export Bytes Utils IP.

Class HmacSha1 : Type := HMAC : list Z -> list Z -> list Z.

(** What the digest is: twenty bytes. *)
Class HmacLaws `{HmacSha1} : Prop := {
  HMAC_length key d : zlen (HMAC key d) = 20;
  HMAC_bytes key d : bytes (HMAC key d)
}.

(** [Utils::Crypto::GetHmacShA1]. *)
Definition GetHmacShA1 `{HmacSha1} (key data : list Z) (len : Z) : outcome (list Z) :=
  d ← slice data 0 len;
  let r := HMAC key d in
  _ ← require AssertFailed (zlen r =? 20);
  Ok r.

(** * Data *)

Definition magicCookie : list Z := [33; 18; 164; 66].

Inductive Class_ : Type := REQUEST | INDICATION | SUCCESS_RESPONSE | ERROR_RESPONSE.

Definition class_of (n : Z) : Class_ :=
  if n =? 0 then REQUEST else if n =? 1 then INDICATION
  else if n =? 2 then SUCCESS_RESPONSE else ERROR_RESPONSE.

Definition class_z (c : Class_) : Z :=
  match c with
  | REQUEST => 0 | INDICATION => 1 | SUCCESS_RESPONSE => 2 | ERROR_RESPONSE => 3
  end.

#[export] Instance Class_eq_dec : EqDecision Class_.
Proof. solve_decision. Defined.

Definition BINDING : Z := 1.

Definition USERNAME : Z := 6.
Definition MESSAGE_INTEGRITY : Z := 8.
Definition ERROR_CODE : Z := 9.
Definition XOR_MAPPED_ADDRESS : Z := 32.
Definition PRIORITY : Z := 36.
Definition USE_CANDIDATE : Z := 37.
Definition FINGERPRINT : Z := 32808.
Definition ICE_CONTROLLED : Z := 32809.
Definition ICE_CONTROLLING : Z := 32810.

Inductive Authentication : Type := OK | UNAUTHORIZED | BAD_REQUEST.

#[export] Instance Authentication_eq_dec : EqDecision Authentication.
Proof. solve_decision. Defined.

Record stun_packet : Type := StunPacket {
  klass : Class_;
  method : Z;
  transactionId : list Z;
  data : list Z;
  size : Z;
  username : list Z;
  priority : Z;
  iceControlling : Z;
  iceControlled : Z;
  hasUseCandidate : bool;
  messageIntegrity : option Z;
  hasFingerprint : bool;
  xorMappedAddress : option sockaddr;
  errorCode : Z;
  password : list Z
}.

Definition new_StunPacket (klass : Class_) (method : Z) (transactionId data : list Z) (size : Z)
  : stun_packet :=
  StunPacket klass method transactionId data size [] 0 0 0 false None false None 0 [].

Definition SetUsername (p : stun_packet) (u : list Z) : stun_packet :=
  StunPacket (klass p) (method p) (transactionId p) (data p) (size p) u (priority p)
    (iceControlling p) (iceControlled p) (hasUseCandidate p) (messageIntegrity p)
    (hasFingerprint p) (xorMappedAddress p) (errorCode p) (password p).
Definition SetPriority (p : stun_packet) (x : Z) : stun_packet :=
  StunPacket (klass p) (method p) (transactionId p) (data p) (size p) (username p) x
    (iceControlling p) (iceControlled p) (hasUseCandidate p) (messageIntegrity p)
    (hasFingerprint p) (xorMappedAddress p) (errorCode p) (password p).
Definition SetIceControlling (p : stun_packet) (x : Z) : stun_packet :=
  StunPacket (klass p) (method p) (transactionId p) (data p) (size p) (username p) (priority p)
    x (iceControlled p) (hasUseCandidate p) (messageIntegrity p)
    (hasFingerprint p) (xorMappedAddress p) (errorCode p) (password p).
Definition SetIceControlled (p : stun_packet) (x : Z) : stun_packet :=
  StunPacket (klass p) (method p) (transactionId p) (data p) (size p) (username p) (priority p)
    (iceControlling p) x (hasUseCandidate p) (messageIntegrity p)
    (hasFingerprint p) (xorMappedAddress p) (errorCode p) (password p).
Definition SetUseCandidate (p : stun_packet) : stun_packet :=
  StunPacket (klass p) (method p) (transactionId p) (data p) (size p) (username p) (priority p)
    (iceControlling p) (iceControlled p) true (messageIntegrity p)
    (hasFingerprint p) (xorMappedAddress p) (errorCode p) (password p).
Definition SetMessageIntegrity (p : stun_packet) (x : option Z) : stun_packet :=
  StunPacket (klass p) (method p) (transactionId p) (data p) (size p) (username p) (priority p)
    (iceControlling p) (iceControlled p) (hasUseCandidate p) x
    (hasFingerprint p) (xorMappedAddress p) (errorCode p) (password p).
Definition SetFingerprint (p : stun_packet) : stun_packet :=
  StunPacket (klass p) (method p) (transactionId p) (data p) (size p) (username p) (priority p)
    (iceControlling p) (iceControlled p) (hasUseCandidate p) (messageIntegrity p)
    true (xorMappedAddress p) (errorCode p) (password p).
Definition SetXorMappedAddress (p : stun_packet) (x : option sockaddr) : stun_packet :=
  StunPacket (klass p) (method p) (transactionId p) (data p) (size p) (username p) (priority p)
    (iceControlling p) (iceControlled p) (hasUseCandidate p) (messageIntegrity p)
    (hasFingerprint p) x (errorCode p) (password p).
Definition SetErrorCode (p : stun_packet) (x : Z) : stun_packet :=
  StunPacket (klass p) (method p) (transactionId p) (data p) (size p) (username p) (priority p)
    (iceControlling p) (iceControlled p) (hasUseCandidate p) (messageIntegrity p)
    (hasFingerprint p) (xorMappedAddress p) x (password p).
Definition set_password (p : stun_packet) (x : list Z) : stun_packet :=
  StunPacket (klass p) (method p) (transactionId p) (data p) (size p) (username p) (priority p)
    (iceControlling p) (iceControlled p) (hasUseCandidate p) (messageIntegrity p)
    (hasFingerprint p) (xorMappedAddress p) (errorCode p) x.
Definition set_data (p : stun_packet) (d : list Z) : stun_packet :=
  StunPacket (klass p) (method p) (transactionId p) d (size p) (username p) (priority p)
    (iceControlling p) (iceControlled p) (hasUseCandidate p) (messageIntegrity p)
    (hasFingerprint p) (xorMappedAddress p) (errorCode p) (password p).
Definition set_buffer (p : stun_packet) (d : list Z) (sz : Z) : stun_packet :=
  StunPacket (klass p) (method p) (transactionId p) d sz (username p) (priority p)
    (iceControlling p) (iceControlled p) (hasUseCandidate p) (messageIntegrity p)
    (hasFingerprint p) (xorMappedAddress p) (errorCode p) (password p).

Definition HasMessageIntegrity (p : stun_packet) : bool :=
  match messageIntegrity p with Some _ => true | None => false end.

Definition empty (s : list Z) : bool := match s with [] => true | _ => false end.

(** * Parsing *)

Definition IsStun (data : list Z) (len : Z) : outcome bool :=
  if negb (20 <=? len) then Ok false
  else
    b0 ← get1 data 0;
    if negb (b0 <? 3) then Ok false
    else
      c ← slice data 4 4;
      Ok (bool_decide (c = magicCookie)).

(** The variables of the loop over the attributes. *)
Record parse_state : Type := ParseState {
  packet : stun_packet;
  seenMessageIntegrity : bool;   (** [hasMessageIntegrity] *)
  seenFingerprint : bool;        (** [hasFingerprint] *)
  fingerprintAttrPos : Z;
  fingerprint : Z
}.

Definition set_packet (ps : parse_state) (p : stun_packet) : parse_state :=
  ParseState p (seenMessageIntegrity ps) (seenFingerprint ps) (fingerprintAttrPos ps)
    (fingerprint ps).

(** [switch (attrType)]. *)
Definition on_attribute (ps : parse_state) (data : list Z) (pos attrType attrLength : Z)
  : outcome parse_state :=
  let attrValuePos := pos + 4 in
  let p := packet ps in
  if attrType =? USERNAME then
    u ← slice data attrValuePos attrLength;
    Ok (set_packet ps (SetUsername p u))
  else if attrType =? PRIORITY then
    _ ← require Rejected (attrLength =? 4);
    x ← Get4Bytes data attrValuePos;
    Ok (set_packet ps (SetPriority p x))
  else if attrType =? ICE_CONTROLLING then
    _ ← require Rejected (attrLength =? 8);
    x ← Get8Bytes data attrValuePos;
    Ok (set_packet ps (SetIceControlling p x))
  else if attrType =? ICE_CONTROLLED then
    _ ← require Rejected (attrLength =? 8);
    x ← Get8Bytes data attrValuePos;
    Ok (set_packet ps (SetIceControlled p x))
  else if attrType =? USE_CANDIDATE then
    _ ← require Rejected (attrLength =? 0);
    Ok (set_packet ps (SetUseCandidate p))
  else if attrType =? MESSAGE_INTEGRITY then
    _ ← require Rejected (attrLength =? 20);
    Ok (ParseState (SetMessageIntegrity p (Some attrValuePos)) true (seenFingerprint ps)
          (fingerprintAttrPos ps) (fingerprint ps))
  else if attrType =? FINGERPRINT then
    _ ← require Rejected (attrLength =? 4);
    x ← Get4Bytes data attrValuePos;
    Ok (ParseState (SetFingerprint p) (seenMessageIntegrity ps) true pos x)
  else if attrType =? ERROR_CODE then
    _ ← require Rejected (4 <=? attrLength);
    errorClass ← Get1Byte data (attrValuePos + 2);
    errorNumber ← Get1Byte data (attrValuePos + 3);
    Ok (set_packet ps (SetErrorCode p (u16 (errorClass * 100 + errorNumber))))
  else Ok ps.

(** [while (pos + 4 <= len)].  The next position goes through [uint16_t]. *)
Fixpoint parse_loop (fuel : nat) (data : list Z) (len pos : Z) (ps : parse_state)
  : outcome (Z * parse_state) :=
  if pos + 4 <=? len then
    match fuel with
    | O => Err OutOfFuel
    | S fuel =>
        attrType ← Get2Bytes data pos;
        attrLength ← Get2Bytes data (pos + 2);
        _ ← require Rejected (negb (len <? pos + 4 + attrLength));
        _ ← require Rejected (negb (seenFingerprint ps));
        _ ← require Rejected (negb (seenMessageIntegrity ps && negb (attrType =? FINGERPRINT)));
        ps ← on_attribute ps data pos attrType attrLength;
        parse_loop fuel data len (PadTo4Bytes16 (u16 (pos + 4 + attrLength))) ps
    end
  else Ok (pos, ps).

(** Fuel: each turn goes four bytes further. *)
Definition parse_fuel (len : Z) : nat := Z.to_nat len.

Definition Parse (data : list Z) (len : Z) : outcome stun_packet :=
  stun ← IsStun data len;
  _ ← require Rejected stun;
  msgType ← Get2Bytes data 0;
  msgLength ← Get2Bytes data 2;
  _ ← require Rejected (negb (negb (msgLength =? len - 20) || truthy (Z.land msgLength 3)));
  b0 ← get1 data 0;
  b1 ← get1 data 1;
  let msgMethod := Z.lor (Z.lor (Z.land msgType 15) (Z.shiftr (Z.land msgType 224) 1))
                     (Z.shiftr (Z.land msgType 15872) 2) in
  let msgClass := Z.lor (Z.shiftl (Z.land b0 1) 1) (Z.shiftr (Z.land b1 16) 4) in
  tid ← slice data 8 12;
  let p := new_StunPacket (class_of msgClass) msgMethod tid data len in
  r ← parse_loop (parse_fuel len) data len 20 (ParseState p false false 0 0);
  let '(pos, ps) := r in
  _ ← require Rejected (pos =? len);
  if seenFingerprint ps then
    crc ← GetCRC32 data (fingerprintAttrPos ps);
    let computedFingerprint := Z.lxor crc 1398035790 (* 0x5354554e *) in
    _ ← require Rejected (fingerprint ps =? computedFingerprint);
    Ok (packet ps)
  else Ok (packet ps).

(** * Responses *)

Definition CreateSuccessResponse (p : stun_packet) : outcome stun_packet :=
  _ ← require AssertFailed (bool_decide (klass p = REQUEST));
  Ok (new_StunPacket SUCCESS_RESPONSE (method p) (transactionId p) [] 0).

Definition CreateErrorResponse (p : stun_packet) (code : Z) : outcome stun_packet :=
  _ ← require AssertFailed (bool_decide (klass p = REQUEST));
  let response := new_StunPacket ERROR_RESPONSE (method p) (transactionId p) [] 0 in
  Ok (SetErrorCode response code).

Definition Authenticate (p : stun_packet) (pw : list Z) : stun_packet :=
  if bool_decide (klass p = ERROR_RESPONSE) then p else set_password p pw.

(** * Authentication *)

(** The condition on USERNAME; 58 is the colon. *)
Definition username_matches (p : stun_packet) (localUsername : list Z) : bool :=
  let n := length localUsername in
  negb ((zlen (username p) <=? zlen localUsername)
        || negb (bool_decide (username p !! n = Some 58))
        || negb (bool_decide (take n (username p) = localUsername))).

Definition CheckAuthentication `{HmacSha1} (p : stun_packet) (localUsername localPassword : list Z)
  : outcome (Authentication * stun_packet) :=
  match klass p with
  | REQUEST | INDICATION =>
      match messageIntegrity p with
      | None => Ok (BAD_REQUEST, p)
      | Some mi =>
          if empty (username p) then Ok (BAD_REQUEST, p)
          else if negb (username_matches p localUsername) then Ok (UNAUTHORIZED, p)
          else
            d ← (if hasFingerprint p then Set2Bytes (data p) 2 (u16 (size p - 20 - 8))
                 else Ok (data p));
            computedMessageIntegrity ← GetHmacShA1 localPassword d (mi - 4);
            m ← slice d mi 20;
            let result := if bool_decide (m = computedMessageIntegrity) then OK
                          else UNAUTHORIZED in
            d ← (if hasFingerprint p then Set2Bytes d 2 (u16 (size p - 20)) else Ok d);
            Ok (result, set_data p d)
      end
  | SUCCESS_RESPONSE | ERROR_RESPONSE => Ok (BAD_REQUEST, p)
  end.

(** * Serialization *)

(** The family of XOR-MAPPED-ADDRESS: the length of the attribute, or none. *)
Definition xorMappedAddressPaddedLen (p : stun_packet) : option Z :=
  match xorMappedAddress p with
  | Some a =>
      if (method p =? BINDING) && bool_decide (klass p = SUCCESS_RESPONSE) then
        match a with
        | sockaddr_in _ _ => Some 8
        | sockaddr_in6 _ _ => Some 20
        | sockaddr_other _ => None
        end
      else None
  | None => None
  end.

Definition addErrorCode (p : stun_packet) : bool :=
  truthy (errorCode p) && bool_decide (klass p = ERROR_RESPONSE).

Definition addMessageIntegrity (p : stun_packet) : bool :=
  negb (bool_decide (klass p = ERROR_RESPONSE)) && negb (empty (password p)).

Definition usernamePaddedLen (p : stun_packet) : Z :=
  if empty (username p) then 0 else PadTo4Bytes16 (u16 (zlen (username p))).

Definition total_size (p : stun_packet) : Z :=
  let size := 20 in
  let size := if empty (username p) then size else size + (4 + usernamePaddedLen p) in
  let size := if truthy (priority p) then size + (4 + 4) else size in
  let size := if truthy (iceControlling p) then size + (4 + 8) else size in
  let size := if truthy (iceControlled p) then size + (4 + 8) else size in
  let size := if hasUseCandidate p then size + 4 else size in
  let size := match xorMappedAddressPaddedLen p with Some n => size + (4 + n) | None => size end in
  let size := if addErrorCode p then size + (4 + 4) else size in
  let size := if addMessageIntegrity p then size + (4 + 20) else size in
  size + (4 + 4).

Definition typeField (p : stun_packet) : Z :=
  let m := method p in
  let k := class_z (klass p) in
  let t := u16 (Z.shiftl (Z.land m 3968) 2) in
  let t := u16 (Z.lor t (Z.shiftl (Z.land m 112) 1)) in
  let t := u16 (Z.lor t (Z.land m 15)) in
  let t := u16 (Z.lor t (Z.shiftl (Z.land k 2) 7)) in
  u16 (Z.lor t (Z.shiftl (Z.land k 1) 4)).

(** [buffer[i + k] ^= vs[k]] for every [k]. *)
Fixpoint xor_bytes (buffer : list Z) (i : Z) (vs : list Z) : outcome (list Z) :=
  match vs with
  | [] => Ok buffer
  | v :: vs =>
      b ← get1 buffer i;
      buffer ← set1 buffer i (u8 (Z.lxor b v));
      xor_bytes buffer (i + 1) vs
  end.

Definition add_header (p : stun_packet) (sz : Z) (buffer : list Z) : outcome (list Z) :=
  buffer ← Set2Bytes buffer 0 (typeField p);
  buffer ← Set2Bytes buffer 2 (u16 (u16 sz - 20));
  buffer ← write buffer 4 magicCookie;
  write buffer 8 (transactionId p).

Definition add_username (p : stun_packet) (st : list Z * Z) : outcome (list Z * Z) :=
  let '(buffer, pos) := st in
  if truthy (usernamePaddedLen p) then
    buffer ← Set2Bytes buffer pos USERNAME;
    buffer ← Set2Bytes buffer (pos + 2) (u16 (zlen (username p)));
    buffer ← write buffer (pos + 4) (username p);
    Ok (buffer, pos + (4 + usernamePaddedLen p))
  else Ok (buffer, pos).

Definition add_priority (p : stun_packet) (st : list Z * Z) : outcome (list Z * Z) :=
  let '(buffer, pos) := st in
  if truthy (priority p) then
    buffer ← Set2Bytes buffer pos PRIORITY;
    buffer ← Set2Bytes buffer (pos + 2) 4;
    buffer ← Set4Bytes buffer (pos + 4) (priority p);
    Ok (buffer, pos + (4 + 4))
  else Ok (buffer, pos).

Definition add_ice_controlling (p : stun_packet) (st : list Z * Z) : outcome (list Z * Z) :=
  let '(buffer, pos) := st in
  if truthy (iceControlling p) then
    buffer ← Set2Bytes buffer pos ICE_CONTROLLING;
    buffer ← Set2Bytes buffer (pos + 2) 8;
    buffer ← Set8Bytes buffer (pos + 4) (iceControlling p);
    Ok (buffer, pos + (4 + 8))
  else Ok (buffer, pos).

Definition add_ice_controlled (p : stun_packet) (st : list Z * Z) : outcome (list Z * Z) :=
  let '(buffer, pos) := st in
  if truthy (iceControlled p) then
    buffer ← Set2Bytes buffer pos ICE_CONTROLLED;
    buffer ← Set2Bytes buffer (pos + 2) 8;
    buffer ← Set8Bytes buffer (pos + 4) (iceControlled p);
    Ok (buffer, pos + (4 + 8))
  else Ok (buffer, pos).

Definition add_use_candidate (p : stun_packet) (st : list Z * Z) : outcome (list Z * Z) :=
  let '(buffer, pos) := st in
  if hasUseCandidate p then
    buffer ← Set2Bytes buffer pos USE_CANDIDATE;
    buffer ← Set2Bytes buffer (pos + 2) 0;
    Ok (buffer, pos + 4)
  else Ok (buffer, pos).

(** The value of XOR-MAPPED-ADDRESS at [attrValue]; the transaction id is read
    from the buffer, where the header has been written. *)
Definition add_address (a : sockaddr) (buffer : list Z) (attrValue : Z) : outcome (list Z) :=
  match a with
  | sockaddr_in port addr =>
      buffer ← set1 buffer attrValue 0;
      buffer ← set1 buffer (attrValue + 1) 1;
      buffer ← write buffer (attrValue + 2) port;
      buffer ← xor_bytes buffer (attrValue + 2) (take 2 magicCookie);
      buffer ← write buffer (attrValue + 4) addr;
      xor_bytes buffer (attrValue + 4) magicCookie
  | sockaddr_in6 port addr =>
      buffer ← set1 buffer attrValue 0;
      buffer ← set1 buffer (attrValue + 1) 2;
      buffer ← write buffer (attrValue + 2) port;
      buffer ← xor_bytes buffer (attrValue + 2) (take 2 magicCookie);
      buffer ← write buffer (attrValue + 4) addr;
      buffer ← xor_bytes buffer (attrValue + 4) magicCookie;
      tid ← slice buffer 8 12;
      xor_bytes buffer (attrValue + 8) tid
  | sockaddr_other _ => Ok buffer
  end.

Definition add_xor_mapped_address (p : stun_packet) (st : list Z * Z) : outcome (list Z * Z) :=
  let '(buffer, pos) := st in
  match xorMappedAddressPaddedLen p, xorMappedAddress p with
  | Some n, Some a =>
      buffer ← Set2Bytes buffer pos XOR_MAPPED_ADDRESS;
      buffer ← Set2Bytes buffer (pos + 2) n;
      buffer ← add_address a buffer (pos + 4);
      Ok (buffer, pos + (4 + n))
  | _, _ => Ok (buffer, pos)
  end.

Definition codeClass (code : Z) : Z := u8 (code / 100).
Definition codeNumber (code : Z) : Z := u8 (u8 code - codeClass code * 100).

Definition add_error_code (p : stun_packet) (st : list Z * Z) : outcome (list Z * Z) :=
  let '(buffer, pos) := st in
  if addErrorCode p then
    buffer ← Set2Bytes buffer pos ERROR_CODE;
    buffer ← Set2Bytes buffer (pos + 2) 4;
    buffer ← Set2Bytes buffer (pos + 4) 0;
    buffer ← Set1Byte buffer (pos + 6) (codeClass (errorCode p));
    buffer ← Set1Byte buffer (pos + 7) (codeNumber (errorCode p));
    Ok (buffer, pos + (4 + 4))
  else Ok (buffer, pos).

Definition add_message_integrity `{HmacSha1} (p : stun_packet) (sz : Z) (st : list Z * Z)
  : outcome (list Z * Z * option Z) :=
  let '(buffer, pos) := st in
  if addMessageIntegrity p then
    buffer ← Set2Bytes buffer 2 (u16 (sz - 20 - 8));
    computedMessageIntegrity ← GetHmacShA1 (password p) buffer pos;
    buffer ← Set2Bytes buffer pos MESSAGE_INTEGRITY;
    buffer ← Set2Bytes buffer (pos + 2) 20;
    buffer ← write buffer (pos + 4) computedMessageIntegrity;
    buffer ← Set2Bytes buffer 2 (u16 (sz - 20));
    Ok (buffer, pos + (4 + 20), Some (pos + 4))
  else Ok (buffer, pos, None).

Definition add_fingerprint (st : list Z * Z) : outcome (list Z * Z) :=
  let '(buffer, pos) := st in
  crc ← GetCRC32 buffer pos;
  let computedFingerprint := Z.lxor crc 1398035790 (* 0x5354554e *) in
  buffer ← Set2Bytes buffer pos FINGERPRINT;
  buffer ← Set2Bytes buffer (pos + 2) 4;
  buffer ← Set4Bytes buffer (pos + 4) computedFingerprint;
  Ok (buffer, pos + (4 + 4)).

Definition Serialize `{HmacSha1} (p : stun_packet) (buffer : list Z) : outcome stun_packet :=
  let sz := total_size p in
  buffer ← add_header p sz buffer;
  st ← add_username p (buffer, 20);
  st ← add_priority p st;
  st ← add_ice_controlling p st;
  st ← add_ice_controlled p st;
  st ← add_use_candidate p st;
  st ← add_xor_mapped_address p st;
  st ← add_error_code p st;
  r ← add_message_integrity p sz st;
  let '(st, mi) := r in
  st ← add_fingerprint st;
  let '(buffer, pos) := st in
  _ ← require AssertFailed (pos =? sz);
  Ok (SetFingerprint (SetMessageIntegrity (set_buffer p buffer sz) mi)).
