(* ===== verification/StunFacts.v ===== *)
(** STUN messages as received: what [Parse] accepts, and what
    [CheckAuthentication] decides. *)

From S2P Require Export StunPacket.

(** * Messages *)

(** Position of MESSAGE-INTEGRITY: the last attribute before FINGERPRINT. *)
Definition integrity_at (p : stun_packet) (last : Z) : Prop :=
  forall mi, messageIntegrity p = Some mi ->
    24 <= mi /\ mi + 20 + (if hasFingerprint p then 8 else 0) = last.

Record stun_wf (p : stun_packet) : Prop := {
  wf_bytes : bytes (data p);
  wf_size : 20 <= size p <= zlen (data p);
  wf_size_max : size p <= 65535;
  wf_length : Get2Bytes (data p) 2 = Ok (size p - 20);
  wf_tid : slice (data p) 8 12 = Ok (transactionId p);
  wf_method : in_uint 12 (method p);
  wf_username : bytes (username p);
  wf_integrity : integrity_at p (size p);
  wf_fingerprint : hasFingerprint p = true ->
    exists crc, GetCRC32 (data p) (size p - 8) = Ok crc /\
      Get4Bytes (data p) (size p - 4) = Ok (Z.lxor crc 1398035790)
}.

(** * The loop over the attributes *)

(** What every turn of the loop keeps: the header, and where the special
    attributes are. *)
Definition same_header (p q : stun_packet) : Prop :=
  klass q = klass p /\ method q = method p /\ transactionId q = transactionId p /\
  data q = data p /\ size q = size p.

Record loop_inv (p : stun_packet) (m : list Z) (pos : Z) (ps : parse_state) : Prop := {
  li_header : same_header p (packet ps);
  li_username : bytes (username (packet ps));
  li_seen_mi : seenMessageIntegrity ps = HasMessageIntegrity (packet ps);
  li_seen_fp : seenFingerprint ps = hasFingerprint (packet ps);
  li_integrity : integrity_at (packet ps) pos;
  li_fingerprint : seenFingerprint ps = true ->
    fingerprintAttrPos ps = pos - 8 /\ 20 <= pos - 8 /\
    Get4Bytes m (pos - 4) = Ok (fingerprint ps)
}.

Definition ends_in {A} (P : A -> Prop) (o : outcome A) : Prop :=
  match o with Ok x => P x | Err e => e = Rejected end.

Lemma ends_in_bind {A B} (P : A -> Prop) (Q : B -> Prop) (o : outcome A) (f : A -> outcome B) :
  ends_in P o -> (forall x, P x -> ends_in Q (f x)) -> ends_in Q (o ≫= f).
Proof. destruct o; cbn; auto. Qed.

Lemma ends_in_require {B} (Q : B -> Prop) b (f : unit -> outcome B) :
  (b = true -> ends_in Q (f ())) -> ends_in Q (require Rejected b ≫= f).
Proof. destruct b; cbn; auto. Qed.

Lemma ends_in_require_last b : ends_in (fun _ => True) (require Rejected b).
Proof. by destruct b. Qed.

Definition padded (n : Z) : Z := 4 * ((n + 3) / 4).

(** Every attribute that does not set a flag. *)
Lemma loop_inv_plain p m pos next ps q :
  loop_inv p m pos ps -> seenFingerprint ps = false -> seenMessageIntegrity ps = false ->
  same_header p q -> bytes (username q) ->
  messageIntegrity q = messageIntegrity (packet ps) ->
  hasFingerprint q = hasFingerprint (packet ps) ->
  loop_inv p m next (set_packet ps q).
Proof.
  intros [Hh Hu Hm Hf Hi Hp] Hsf Hsm Hq Huq Eq1 Eq2.
  split; cbn [set_packet packet seenMessageIntegrity seenFingerprint fingerprintAttrPos fingerprint];
    [done|done| | | |congruence].
  - unfold HasMessageIntegrity in *. by rewrite Eq1.
  - by rewrite Eq2.
  - intros mi Hmi. exfalso. rewrite Hm in Hsm. unfold HasMessageIntegrity in Hsm.
    by rewrite <- Eq1, Hmi in Hsm.
Qed.

Lemma on_attribute_inv p m pos ps t n :
  bytes m -> 20 <= pos -> pos + 4 + n <= zlen m -> 0 <= n ->
  loop_inv p m pos ps -> seenFingerprint ps = false ->
  (seenMessageIntegrity ps && negb (t =? FINGERPRINT)) = false ->
  ends_in (loop_inv p m (pos + 4 + padded n)) (on_attribute ps m pos t n).
Proof.
  intros Hm Hpos Hlen Hn Hinv Hf Hsm. pose proof Hinv as [Hh Hu Hmi Hfp Hi Hp].
  assert (t <> FINGERPRINT -> seenMessageIntegrity ps = false) as Hplain.
  { intros Ht. destruct (seenMessageIntegrity ps); [|done]. cbn in Hsm.
    by rewrite (proj2 (Z.eqb_neq _ _) Ht) in Hsm. }
  unfold on_attribute.
  destruct (Z.eqb_spec t USERNAME) as [->|_].
  { destruct (slice_in_bounds m (pos + 4) n) as [u Eu]; [lia..|]. rewrite Eu. ostep.
    apply (loop_inv_plain _ _ pos); try done; [by apply Hplain|].
    exact (bytes_slice _ _ _ _ Hm Eu). }
  destruct (Z.eqb_spec t PRIORITY) as [->|_].
  { apply ends_in_require. intros ->%Z.eqb_eq.
    destruct (Get4Bytes_in_bounds m (pos + 4)) as (x & -> & _); [lia..|]. ostep.
    apply (loop_inv_plain _ _ pos); try done. by apply Hplain. }
  destruct (Z.eqb_spec t ICE_CONTROLLING) as [->|_].
  { apply ends_in_require. intros ->%Z.eqb_eq.
    destruct (Get8Bytes_in_bounds m (pos + 4)) as (x & -> & _); [lia..|]. ostep.
    apply (loop_inv_plain _ _ pos); try done. by apply Hplain. }
  destruct (Z.eqb_spec t ICE_CONTROLLED) as [->|_].
  { apply ends_in_require. intros ->%Z.eqb_eq.
    destruct (Get8Bytes_in_bounds m (pos + 4)) as (x & -> & _); [lia..|]. ostep.
    apply (loop_inv_plain _ _ pos); try done. by apply Hplain. }
  destruct (Z.eqb_spec t USE_CANDIDATE) as [->|_].
  { apply ends_in_require. intros ->%Z.eqb_eq.
    apply (loop_inv_plain _ _ pos); try done. by apply Hplain. }
  destruct (Z.eqb_spec t MESSAGE_INTEGRITY) as [->|_].
  { apply ends_in_require. intros ->%Z.eqb_eq. cbn [ends_in].
    split; cbn [packet seenMessageIntegrity seenFingerprint fingerprintAttrPos fingerprint];
      [done|done|done|done| |congruence].
    intros mi [= <-]. cbn. rewrite <- Hfp, Hf. change (padded 20) with 20. lia. }
  destruct (Z.eqb_spec t FINGERPRINT) as [->|Ht].
  { apply ends_in_require. intros ->%Z.eqb_eq.
    destruct (Get4Bytes_in_bounds m (pos + 4)) as (x & Ex & _); [lia..|]. rewrite Ex. ostep.
    cbn [ends_in]. change (padded 4) with 4.
    split; cbn [packet seenMessageIntegrity seenFingerprint fingerprintAttrPos fingerprint];
      [done|done|done|done| |].
    - intros mi Hmi'. destruct (Hi mi Hmi') as [? E]. rewrite <- Hfp, Hf in E.
      split; [done|]. cbn. lia.
    - intros _. replace (pos + 4 + 4 - 4) with (pos + 4) by lia. split_and!; [lia|lia|done]. }
  destruct (Z.eqb_spec t ERROR_CODE) as [->|_].
  { apply ends_in_require. intros H4%Z.leb_le. unfold Get1Byte.
    destruct (get1_in_bounds m (pos + 4 + 2)) as [b2 ->]; [lia|].
    destruct (get1_in_bounds m (pos + 4 + 3)) as [b3 ->]; [lia|]. ostep.
    apply (loop_inv_plain _ _ pos); try done. by apply Hplain. }
  cbn [ends_in]. replace ps with (set_packet ps (packet ps)) by by destruct ps.
  apply (loop_inv_plain _ _ pos); try done. by apply Hplain.
Qed.

Lemma parse_loop_inv p m len : bytes m -> len <= zlen m -> len <= 65535 -> len mod 4 = 0 ->
  forall fuel pos ps, len - pos <= Z.of_nat fuel -> 20 <= pos <= len -> pos mod 4 = 0 ->
  loop_inv p m pos ps ->
  ends_in (fun r => loop_inv p m r.1 r.2) (parse_loop fuel m len pos ps).
Proof.
  intros Hm Hlen Hmax Hal. induction fuel as [|fuel IH]; intros pos ps Hfuel Hpos Hpal Hinv; cbn [parse_loop].
  { destruct (Z.leb_spec (pos + 4) len); [lia|done]. }
  destruct (Z.leb_spec (pos + 4) len) as [H4|]; [|done].
  destruct (Get2Bytes_in_bounds m pos) as (t & -> & _); [lia..|].
  destruct (Get2Bytes_in_bounds m (pos + 2)) as (n & -> & [Hn _]); [lia..|]. ostep.
  apply ends_in_require. intros Hfit%negb_true_iff%Z.ltb_ge.
  apply ends_in_require. intros Hfp%negb_true_iff.
  apply ends_in_require. intros Hmi%negb_true_iff.
  assert (PadTo4Bytes16 (u16 (pos + 4 + n)) = pos + 4 + padded n) as ->.
  { rewrite wrap_small by (unfold in_uint; lia). unfold padded.
    rewrite PadTo4Bytes16_spec; Z.div_mod_to_equations; lia. }
  eapply ends_in_bind; [apply on_attribute_inv; done || lia|]. intros ps' Hinv'.
  unfold padded in *. apply IH; [| | |done]; Z.div_mod_to_equations; lia.
Qed.

Lemma land3 n : Z.land n 3 = n mod 4.
Proof. apply (land_low_ones 2). lia. Qed.

Lemma land_in_uint w a b : 0 <= w -> in_uint w b -> in_uint w (Z.land a b).
Proof.
  intros Hw Hb. rewrite <- (wrap_small w b Hb). unfold wrap.
  rewrite <- Z.land_ones by done. rewrite Z.land_assoc, Z.land_ones by done.
  by apply wrap_range.
Qed.

Lemma lor_in_uint w a b : 0 <= w -> in_uint w a -> in_uint w b -> in_uint w (Z.lor a b).
Proof.
  intros Hw Ha Hb. rewrite <- (wrap_small w a Ha), <- (wrap_small w b Hb). unfold wrap.
  rewrite <- !Z.land_ones by done. rewrite <- Z.land_lor_distr_l, Z.land_ones by done.
  by apply wrap_range.
Qed.

(** The method field of the message type. *)
Definition method_bits (t : Z) : Z :=
  Z.lor (Z.lor (Z.land t 15) (Z.shiftr (Z.land t 224) 1)) (Z.shiftr (Z.land t 15872) 2).

Lemma method_bits_range t : in_uint 12 (method_bits t).
Proof.
  unfold method_bits. rewrite !Z.shiftr_land.
  repeat apply lor_in_uint; try lia; apply land_in_uint; done.
Qed.

Lemma IsStun_total m len : len <= zlen m -> exists b, IsStun m len = Ok b /\ (b = true -> 20 <= len).
Proof.
  intros Hlen. unfold IsStun. destruct (Z.leb_spec 20 len); [|by exists false]. cbn [negb].
  destruct (get1_in_bounds m 0) as [b0 ->]; [lia|]. ostep.
  destruct (b0 <? 3); [|by exists false]. cbn [negb].
  destruct (slice_in_bounds m 4 4) as [c ->]; [lia..|]. ostep. by eexists.
Qed.

Lemma GetCRC32_total m n : bytes m -> 0 <= n <= zlen m -> exists crc, GetCRC32 m n = Ok crc.
Proof.
  intros Hm Hn. destruct (slice_in_bounds m 0 n) as [d Hd]; [lia..|].
  unfold GetCRC32. rewrite Hd. ostep.
  rewrite crc32_loop_reference by (by eapply bytes_slice || lia). ostep. by eexists.
Qed.

(** Parsing any bytes as a STUN message, up to the 65535 bytes a datagram or
    a TCP frame can have, stays inside the buffer, ends, and either rejects
    them or returns a message that spans the buffer: its length field and
    transaction id are those of the buffer, MESSAGE-INTEGRITY is followed by
    nothing but FINGERPRINT, and the fingerprint is the CRC of what precedes. *)
Theorem StunParse_safe m len :
  bytes m -> len <= zlen m -> len <= 65535 ->
  match Parse m len with
  | Ok p => stun_wf p /\ data p = m /\ size p = len
  | Err e => e = Rejected
  end.
Proof.
  intros Hm Hlen Hmax. change (ends_in (fun p => stun_wf p /\ data p = m /\ size p = len) (Parse m len)).
  unfold Parse. destruct (IsStun_total m len Hlen) as (b & -> & Hb). ostep.
  apply ends_in_require. intros ->. specialize (Hb eq_refl).
  destruct (Get2Bytes_in_bounds m 0) as (t & -> & _); [lia..|].
  destruct (Get2Bytes_in_bounds m 2) as (l & El & Hl); [lia..|]. rewrite El. ostep.
  apply ends_in_require. intros [Hlen' Hal]%negb_true_iff%orb_false_iff.
  apply negb_false_iff, Z.eqb_eq in Hlen'. unfold truthy in Hal.
  apply negb_false_iff in Hal. rewrite land3 in Hal. apply Z.eqb_eq in Hal. subst l.
  destruct (get1_in_bounds m 0) as [b0 ->]; [lia|].
  destruct (get1_in_bounds m 1) as [b1 ->]; [lia|].
  destruct (slice_in_bounds m 8 12) as [tid Htid]; [lia..|]. rewrite Htid. ostep.
  change (Z.lor (Z.lor (Z.land t 15) _) _) with (method_bits t).
  set (p := new_StunPacket _ _ _ _ _).
  eapply ends_in_bind; [apply (parse_loop_inv p); try done|].
  - clear -Hal. Z.div_mod_to_equations; lia.
  - unfold parse_fuel. lia.
  - apply (Build_loop_inv p m 20); cbn; try done. by apply Forall_nil.
  - intros [pos ps] [(Hk & Hme & Ht & Hd & Hs) Hu Hmi Hfp Hi Hp]. cbn [fst snd] in *. cbn beta iota.
    apply ends_in_require. intros ->%Z.eqb_eq.
    assert (wf_rest : (hasFingerprint (packet ps) = true ->
      exists crc, GetCRC32 (data (packet ps)) (size (packet ps) - 8) = Ok crc /\
        Get4Bytes (data (packet ps)) (size (packet ps) - 4) = Ok (Z.lxor crc 1398035790)) ->
      stun_wf (packet ps) /\ data (packet ps) = m /\ size (packet ps) = len).
    { intros Hcrc. split; [|done]. pose proof (method_bits_range t).
      split; try done; rewrite ?Hd, ?Hs, ?Ht, ?Hme; cbn; try done; lia. }
    rewrite Hfp in *. destruct (hasFingerprint (packet ps)) eqn:Ef; [|by apply wf_rest].
    destruct (Hp eq_refl) as (-> & ? & E4).
    destruct (GetCRC32_total m (len - 8)) as [crc Ecrc]; [done|lia|]. rewrite Ecrc. ostep.
    apply ends_in_require. intros Hc%Z.eqb_eq. apply wf_rest. intros _.
    exists crc. rewrite Hd, Hs. cbn. by rewrite Ecrc, E4, Hc.
Qed.

(** * Authentication *)

Lemma write_over m off a b m1 :
  write m off a = Ok m1 -> zlen b = zlen a -> slice m off (zlen b) = Ok b -> write m1 off b = Ok m.
Proof.
  intros Hw Hl Hs. pose proof (zlen_write _ _ _ _ Hw) as Hlen.
  pose proof (proj1 (write_Ok _ _ _ _) Hw) as (? & ? & _).
  destruct (write_in_bounds m1 off b) as [m2 Hm2]; [done|lia|].
  rewrite Hm2. f_equal. apply buffer_ext; [rewrite (zlen_write _ _ _ _ Hm2); lia|].
  intros i Hi. rewrite (get1_write _ _ _ _ _ Hm2), (get1_write _ _ _ _ _ Hw), <- Hl.
  destruct (Z.leb_spec off i); cbn [andb]; [|done].
  destruct (Z.ltb_spec i (off + zlen b)); [|done].
  rewrite (get1_slice _ _ _ _ (i - off) Hs) by lia. f_equal. lia.
Qed.

Lemma Get2Bytes_slice m i v : bytes m -> Get2Bytes m i = Ok v -> slice m i 2 = Ok (be_bytes 2 v).
Proof.
  intros Hm Hg. rewrite Get2Bytes_spec in Hg by done.
  destruct (slice m i 2) as [s|] eqn:Es; [|done]. cbn in Hg. injection Hg as <-.
  pose proof (zlen_slice _ _ _ _ Es) as Hl. f_equal.
  replace 2%nat with (length s) by (unfold zlen in Hl; lia).
  symmetry. apply be_bytes_be_val. by eapply bytes_slice.
Qed.

(** The message HMAC-SHA1 is computed over, for an attribute MESSAGE-INTEGRITY
    whose value is at [mi]: everything before the attribute, with the length
    field it would have if the attribute were the last one. *)
Definition signed_part (m : list Z) (mi : Z) : outcome (list Z) :=
  ty ← slice m 0 2;
  body ← slice m 4 (mi - 8);
  Ok (ty ++ be_bytes 2 mi ++ body).

(** The message carries the digest of its signed part under the key [pw]. *)
Definition integrity_valid `{HmacSha1} (p : stun_packet) (pw : list Z) : bool :=
  match messageIntegrity p with
  | None => false
  | Some mi =>
      match slice (data p) mi 20, signed_part (data p) mi with
      | Ok m, Ok d => bool_decide (m = HMAC pw d)
      | _, _ => false
      end
  end.

Section authentication.
Context `{HmacLaws}.

Lemma username_matches_spec p u :
  username_matches p u = true <-> exists rest, username p = u ++ 58 :: rest.
Proof.
  unfold username_matches. rewrite negb_true_iff, !orb_false_iff, !negb_false_iff, Z.leb_gt.
  rewrite !bool_decide_eq_true. unfold zlen. split.
  - intros [[Hl Hc] Ht]. exists (drop (S (length u)) (username p)).
    rewrite <- (take_drop (length u) (username p)) at 1. rewrite Ht. f_equal.
    by apply drop_S.
  - intros [rest ->]. rewrite length_app. cbn. split_and!; [lia| |].
    + by rewrite lookup_app_r, Nat.sub_diag.
    + apply take_app_length.
Qed.

(** The digest the code compares with, and the buffer afterwards. *)
Lemma signed_spec p mi : stun_wf p -> messageIntegrity p = Some mi ->
  exists d m s, (if hasFingerprint p then Set2Bytes (data p) 2 (u16 (size p - 20 - 8)) else Ok (data p)) = Ok d /\
    slice d 0 (mi - 4) = Ok s /\ signed_part (data p) mi = Ok s /\
    slice d mi 20 = Ok m /\ slice (data p) mi 20 = Ok m /\
    (if hasFingerprint p then Set2Bytes d 2 (u16 (size p - 20)) else Ok d) = Ok (data p).
Proof.
  intros [Hb Hs Hmax Hl _ _ _ Hmi _] E. destruct (Hmi mi E) as [Hmi24 Hlast].
  pose proof (Get2Bytes_slice _ _ _ Hb Hl) as Hlb.
  destruct (slice_in_bounds (data p) 0 2) as [ty Hty]; [lia..|].
  assert (mi + 20 <= zlen (data p)) by (destruct (hasFingerprint p); lia).
  destruct (slice_in_bounds (data p) 4 (mi - 8)) as [body Hbody]; [lia..|].
  destruct (slice_in_bounds (data p) mi 20) as [mm Hmm]; [lia..|].
  assert (Hsplit : forall d l, slice d 0 2 = Ok ty -> slice d 2 2 = Ok l -> slice d 4 (mi - 8) = Ok body ->
    slice d 0 (mi - 4) = Ok (ty ++ l ++ body)).
  { intros d l E1 E2 E3. replace (mi - 4) with (2 + (2 + (mi - 8))) by lia.
    rewrite !slice_split by lia. change (0 + 2) with 2. change (2 + 2) with 4.
    rewrite E1, E2, E3. done. }
  unfold signed_part. rewrite Hty, Hbody. ostep.
  destruct (hasFingerprint p) eqn:Ef.
  - rewrite !Set2Bytes_spec.
    destruct (write_in_bounds (data p) 2 (be_bytes 2 (u16 (size p - 20 - 8)))) as [d Hd];
      [lia|rewrite zlen_be_bytes; lia|].
    assert (u16 (size p - 20 - 8) = mi) as Emi by (rewrite wrap_small; unfold in_uint; lia).
    exists d, mm, (ty ++ be_bytes 2 mi ++ body). split; [done|].
    rewrite !(slice_write_other _ _ _ _ mi 20 Hd) by (rewrite zlen_be_bytes; lia).
    split_and!; try done.
    + apply Hsplit.
      * by rewrite (slice_write_other _ _ _ _ 0 2 Hd) by (rewrite zlen_be_bytes; lia).
      * rewrite <- Emi. exact (slice_write_same _ _ _ _ Hd).
      * by rewrite (slice_write_other _ _ _ _ 4 (mi - 8) Hd) by (rewrite zlen_be_bytes; lia).
    + rewrite Set2Bytes_spec. eapply write_over; [exact Hd|by rewrite !zlen_be_bytes|].
      rewrite zlen_be_bytes. rewrite wrap_small by (unfold in_uint; lia). exact Hlb.
  - exists (data p), mm, (ty ++ be_bytes 2 mi ++ body). split_and!; try done.
    apply Hsplit; [done| |done]. by replace mi with (size p - 20) by lia.
Qed.

Definition is_request (p : stun_packet) : Prop := klass p = REQUEST \/ klass p = INDICATION.

Lemma CheckAuthentication_unfold p u pw : stun_wf p -> is_request p ->
  CheckAuthentication p u pw = Ok (
    match messageIntegrity p with
    | None => BAD_REQUEST
    | Some mi =>
        if empty (username p) then BAD_REQUEST
        else if username_matches p u && integrity_valid p pw then OK else UNAUTHORIZED
    end, p).
Proof.
  intros Hwf Hreq. unfold CheckAuthentication.
  assert (forall (A : Type) (x y : A), match klass p with
    | REQUEST | INDICATION => x | SUCCESS_RESPONSE | ERROR_RESPONSE => y end = x) as ->
    by (intros; destruct Hreq as [-> | ->]; done).
  destruct (messageIntegrity p) as [mi|] eqn:Emi; [|done].
  destruct (empty (username p)); [done|].
  destruct (username_matches p u); [|done]. cbn [negb andb].
  destruct (signed_spec p mi Hwf Emi) as (d & m & s & -> & Hs & Hsp & Hm & Hm' & Hrest).
  ostep. unfold GetHmacShA1, integrity_valid. rewrite Hs, Emi, Hm', Hsp. ostep.
  rewrite HMAC_length. cbn [Z.eqb Pos.eqb]. ostep. rewrite Hm. ostep. rewrite Hrest. ostep.
  assert (set_data p (data p) = p) as -> by by destruct p.
  by case_bool_decide.
Qed.

(** C39: A received message is authenticated exactly when it is a request or an
    indication whose USERNAME starts with the local user name and a colon, and
    whose MESSAGE-INTEGRITY is the HMAC under the local password of all that
    precedes it, with the length field that ends at it.  In every case the
    check ends without failure and leaves the message as it was. *)
Theorem authentication_exact p u pw :
  stun_wf p ->
  exists r, CheckAuthentication p u pw = Ok (r, p) /\
    (r = OK <-> is_request p /\ (exists rest, username p = u ++ 58 :: rest) /\
                integrity_valid p pw = true).
Proof.
  intros Hwf. destruct (decide (klass p = REQUEST \/ klass p = INDICATION)) as [Hr|Hr].
  - rewrite (CheckAuthentication_unfold p u pw Hwf Hr). eexists. split; [done|].
    rewrite <- username_matches_spec.
    destruct (messageIntegrity p) as [mi|] eqn:Emi.
    + destruct (empty (username p)) eqn:Eu.
      * split; [done|]. intros (_ & [rest Hu]%username_matches_spec & _).
        rewrite Hu in Eu. by destruct u.
      * destruct (username_matches p u), (integrity_valid p pw); naive_solver.
    + unfold integrity_valid. rewrite Emi. naive_solver.
  - exists BAD_REQUEST. split.
    + unfold CheckAuthentication. destruct (klass p) eqn:E; naive_solver.
    + split; [done|]. intros (Hr' & _). by destruct Hr.
Qed.
End authentication.

(** A digest to compute with: not a secure one. *)
Definition sum_hmac (key d : list Z) : list Z :=
  replicate 20 (u8 (foldr Z.add 0 key + foldr Z.add 0 d)).

#[export] Instance sum_HmacSha1 : HmacSha1 := sum_hmac.

#[export] Instance sum_HmacLaws : HmacLaws.
Proof.
  split; [done|]. intros key d. unfold HMAC, sum_HmacSha1, sum_hmac.
  apply Forall_replicate. apply wrap_range. lia.
Qed.

Definition sample_request : list Z := Eval vm_compute in
  let p := StunPacket REQUEST BINDING (seqZ 1 12) [] 0 [97; 98; 58; 99] 7 0 5 true None false None 0 [1; 2] in
  match Serialize p (replicate 200 255) with Ok q => take (Z.to_nat (size q)) (data q) | Err _ => [] end.

Definition sample_stun : stun_packet := Eval vm_compute in
  match Parse sample_request (zlen sample_request) with
  | Ok p => p
  | Err _ => new_StunPacket REQUEST 0 [] [] 0
  end.

Ltac check_bytes := apply (bool_decide_unpack _); vm_compute; exact I.

Lemma StunParse_safe_witness :
  Parse sample_request 84 = Ok sample_stun /\ stun_wf sample_stun.
Proof.
  assert (bytes sample_request) as Hb by check_bytes.
  pose proof (StunParse_safe sample_request 84 Hb) as Hs.
  assert (Parse sample_request 84 = Ok sample_stun) as E by (vm_compute; reflexivity).
  rewrite E in Hs. split; [done|]. apply Hs; vm_compute; discriminate.
Defined.

Lemma sample_stun_wf : stun_wf sample_stun.
Proof.
  split; try (vm_compute; reflexivity || (split; congruence) || congruence).
  - check_bytes.
  - check_bytes.
  - intros mi [= <-]. vm_compute. split; [discriminate|reflexivity].
  - intros _. eexists. split; vm_compute; reflexivity.
Qed.

Lemma authentication_exact_witness :
  exists r, CheckAuthentication sample_stun [97; 98] [1; 2] = Ok (r, sample_stun) /\ r = OK.
Proof.
  destruct (authentication_exact sample_stun [97; 98] [1; 2] sample_stun_wf) as (r & Hr & Hiff).
  exists r. split; [exact Hr|]. apply Hiff. split; [left; reflexivity|].
  split; [exists [99]; reflexivity|vm_compute; reflexivity].
Defined.

(** * The position of the next attribute goes through 16 bits *)

(** A message of 65552 bytes, more than any transport of the worker delivers:
    an attribute that ends at its end, after a transaction id that reads as an
    empty attribute. *)
Definition long_message : list Z :=
  [0; 1; 255; 252] ++ magicCookie ++ replicate 12 0 ++ [0; 0; 255; 248]
    ++ replicate (Z.to_nat 65528) 0.

Lemma parse_loop_stuck m : Get2Bytes m 20 = Ok 0 -> Get2Bytes m (20 + 2) = Ok 65528 ->
  Get2Bytes m 16 = Ok 0 -> Get2Bytes m (16 + 2) = Ok 0 ->
  forall fuel ps, seenFingerprint ps = false -> seenMessageIntegrity ps = false ->
  parse_loop fuel m 65552 20 ps = Err OutOfFuel.
Proof.
  intros G1 G2 G3 G4 fuel ps Hf Hm. induction fuel as [fuel IH] using lt_wf_ind.
  destruct fuel as [|fuel]; [done|]. cbn [parse_loop]. rewrite G1, G2.
  rewrite Hf, Hm. cbn [Z.leb Z.ltb Z.compare Pos.compare Pos.compare_cont Z.add Pos.add negb andb].
  ostep. change (on_attribute ps m 20 0 65528) with (Ok ps). ostep.
  change (PadTo4Bytes16 _) with 16.
  destruct fuel as [|fuel]; [done|]. cbn [parse_loop]. rewrite G3, G4.
  rewrite Hf, Hm. cbn [Z.leb Z.ltb Z.compare Pos.compare Pos.compare_cont Z.add Pos.add negb andb].
  ostep. change (on_attribute ps m 16 0 0) with (Ok ps). ostep.
  change (PadTo4Bytes16 _) with 20. apply IH. lia.
Qed.

Lemma Parse_stuck m tid : IsStun m 65552 = Ok true -> Get2Bytes m 0 = Ok 1 -> Get2Bytes m 2 = Ok 65532 ->
  get1 m 0 = Ok 0 -> get1 m 1 = Ok 1 -> slice m 8 12 = Ok tid ->
  (forall fuel ps, seenFingerprint ps = false -> seenMessageIntegrity ps = false ->
    parse_loop fuel m 65552 20 ps = Err OutOfFuel) ->
  Parse m 65552 = Err OutOfFuel.
Proof.
  intros G1 G2 G3 G4 G5 G6 Hloop. unfold Parse. rewrite G1, G2, G3, G4, G5, G6. ostep.
  replace (65532 =? 65552 - 20) with true by reflexivity.
  replace (truthy (Z.land 65532 3)) with false by reflexivity. cbn [negb orb]. ostep.
  by rewrite Hloop.
Qed.

(** Without the bound on the length the loop over the attributes need not
    end: the position is truncated to 16 bits, so that for this message it goes
    back to the transaction id, for ever. *)
Theorem StunParse_long_diverges :
  zlen long_message = 65552 /\ bytes long_message /\
  Parse long_message 65552 = Err OutOfFuel /\
  forall fuel ps, seenFingerprint ps = false -> seenMessageIntegrity ps = false ->
    parse_loop fuel long_message 65552 20 ps = Err OutOfFuel.
Proof.
  assert (Hloop : forall fuel ps, seenFingerprint ps = false -> seenMessageIntegrity ps = false ->
    parse_loop fuel long_message 65552 20 ps = Err OutOfFuel).
  { apply parse_loop_stuck; vm_compute; reflexivity. }
  split; [vm_compute; reflexivity|]. split; [check_bytes|]. split; [|exact Hloop].
  apply (Parse_stuck long_message (replicate 12 0)); [vm_compute; reflexivity..|exact Hloop].
Qed.
