(* ===== verification/StunRoundTrip.v ===== *)
(** STUN messages as sent: what [Serialize] writes is a list of attributes
    behind a header, and [Parse] gives the message back.

    STUN messages: [Parse] of what [Serialize] wrote. *)

From S2P Require Export StunFacts.

(** * Lists of attributes in a buffer *)

Definition attr_at (m : list Z) (pos t : Z) (v : list Z) : Prop :=
  Get2Bytes m pos = Ok t /\ Get2Bytes m (pos + 2) = Ok (zlen v) /\
  slice m (pos + 4) (zlen v) = Ok v.

Fixpoint attrs_size (l : list (Z * list Z)) : Z :=
  match l with
  | [] => 0
  | (_, v) :: l => 4 + padded (zlen v) + attrs_size l
  end.

Fixpoint attrs_at (m : list Z) (pos : Z) (l : list (Z * list Z)) : Prop :=
  match l with
  | [] => True
  | (t, v) :: l => attr_at m pos t v /\ attrs_at m (pos + (4 + padded (zlen v))) l
  end.

Lemma padded_ge n : 0 <= n -> n <= padded n < n + 4.
Proof. unfold padded. intros. Z.div_mod_to_equations. lia. Qed.

Lemma padded_mod n : padded n mod 4 = 0.
Proof. unfold padded. rewrite Z.mul_comm. apply Z_mod_mult. Qed.

Lemma attrs_size_nonneg l : 0 <= attrs_size l.
Proof.
  induction l as [|[t v] l IH]; cbn; [lia|].
  pose proof (padded_ge (zlen v) (zlen_nonneg v)). pose proof (zlen_nonneg v). lia.
Qed.

Lemma attrs_size_length l : 4 * zlen l <= attrs_size l.
Proof.
  induction l as [|[t v] l IH]; [done|]. rewrite zlen_cons. cbn [attrs_size].
  pose proof (padded_ge (zlen v) (zlen_nonneg v)). pose proof (zlen_nonneg v). lia.
Qed.

Lemma attrs_size_app l k : attrs_size (l ++ k) = attrs_size l + attrs_size k.
Proof. induction l as [|[t v] l IH]; cbn; [done|]. rewrite IH. lia. Qed.

Lemma attrs_at_app m pos l k :
  attrs_at m pos (l ++ k) <-> attrs_at m pos l /\ attrs_at m (pos + attrs_size l) k.
Proof.
  revert pos. induction l as [|[t v] l IH]; intros pos; cbn [app attrs_at attrs_size].
  - rewrite Z.add_0_r. tauto.
  - rewrite IH. replace (pos + (4 + padded (zlen v) + attrs_size l))
      with (pos + (4 + padded (zlen v)) + attrs_size l) by lia. tauto.
Qed.

Lemma attr_at_frame m m' lo hi pos t v :
  attr_at m pos t v -> same_except lo hi m m' -> pos + 4 + zlen v <= lo \/ hi <= pos -> attr_at m' pos t v.
Proof.
  intros (H1 & H2 & H3) [Hl Hs] Hpos. pose proof (zlen_nonneg v). unfold attr_at.
  rewrite (Get2Bytes_ext m m' pos), (Get2Bytes_ext m m' (pos + 2)), (slice_ext m m') by
    (done || intros; apply Hs; lia). done.
Qed.

Lemma attrs_at_frame m m' lo hi l : forall pos,
  attrs_at m pos l -> same_except lo hi m m' -> pos + attrs_size l <= lo \/ hi <= pos ->
  attrs_at m' pos l.
Proof.
  induction l as [|[t v] l IH]; intros pos; cbn [attrs_at attrs_size]; [done|].
  intros [Ha Hl] Hs Hpos. pose proof (zlen_nonneg v). pose proof (padded_ge (zlen v) (zlen_nonneg v)). pose proof (attrs_size_nonneg l).
  split; [apply (attr_at_frame m m' lo hi); [done|done|lia]|apply IH; [done|done|lia]].
Qed.

(** * Steps that write attributes *)

(** [f] writes the attributes [l] at its position; [tid] is the transaction id
    of the header. *)
Definition adds (tid : list Z) (f : list Z * Z -> outcome (list Z * Z)) (l : list (Z * list Z)) : Prop :=
  forall m pos, bytes m -> 20 <= pos -> pos + attrs_size l <= zlen m -> slice m 8 12 = Ok tid ->
  exists m', f (m, pos) = Ok (m', pos + attrs_size l) /\ bytes m' /\
    same_except pos (pos + attrs_size l) m m' /\ attrs_at m' pos l.

Lemma slice_frame m m' lo hi off n :
  same_except lo hi m m' -> off + n <= lo \/ hi <= off -> slice m' off n = slice m off n.
Proof. intros [Hl Hs] Hoff. apply slice_ext; [done|]. intros i Hi. apply Hs. lia. Qed.

Lemma adds_nil tid f : (forall m pos, f (m, pos) = Ok (m, pos)) -> adds tid f [].
Proof.
  intros Hf m pos Hm Hpos Hl _. exists m. cbn [attrs_size attrs_at]. rewrite Hf, Z.add_0_r. done.
Qed.

Lemma adds_app tid f g l k :
  adds tid f l -> adds tid g k -> adds tid (fun st => st ← f st; g st) (l ++ k).
Proof.
  intros Hf Hg m pos Hm Hpos Hl Ht. rewrite attrs_size_app in *.
  pose proof (attrs_size_nonneg l). pose proof (attrs_size_nonneg k).
  destruct (Hf m pos Hm Hpos) as (m1 & -> & Hm1 & Hs1 & Ha1); [lia|done|]. ostep.
  destruct (Hg m1 (pos + attrs_size l)) as (m2 & E2 & Hm2 & Hs2 & Ha2).
  - done.
  - lia.
  - rewrite (proj1 Hs1). lia.
  - rewrite (slice_frame _ _ _ _ _ _ Hs1) by lia. done.
  - exists m2. rewrite E2, Z.add_assoc. split; [done|]. split; [done|]. split.
    + eapply same_except_trans; eapply same_except_weaken; try eassumption; lia.
    + apply attrs_at_app. split; [|done].
      apply (attrs_at_frame m1 m2 _ _ _ _ Ha1 Hs2). lia.
Qed.

(** One attribute: type, length, and a value written at once. *)
Lemma adds_one tid t v :
  in_uint 16 t -> bytes v -> in_uint 16 (zlen v) ->
  adds tid (fun st => let '(m, pos) := st in
    m ← Set2Bytes m pos t;
    m ← Set2Bytes m (pos + 2) (zlen v);
    m ← write m (pos + 4) v;
    Ok (m, pos + (4 + padded (zlen v)))) [(t, v)].
Proof.
  intros Ht Hv Hn m pos Hm Hpos Hl Htid. cbn [attrs_size attrs_at] in *. rewrite Z.add_0_r in *.
  pose proof (padded_ge (zlen v) (zlen_nonneg v)) as Hpad. pose proof (zlen_nonneg v) as Hv0.
  destruct (sets_Set2Bytes m pos t) as (m1 & E1 & Hs1 & Hm1 & _); [lia..|]. rewrite E1. ostep.
  specialize (Hm1 Hm).
  destruct (sets_Set2Bytes m1 (pos + 2) (zlen v)) as (m2 & E2 & Hs2 & Hm2 & _);
    [lia|rewrite (proj1 Hs1); lia|]. rewrite E2. ostep. specialize (Hm2 Hm1).
  destruct (write_in_bounds m2 (pos + 4) v) as [m3 E3]; [lia|rewrite (proj1 Hs2), (proj1 Hs1); lia|].
  rewrite E3. ostep. pose proof (same_except_write _ _ _ _ E3) as Hs3.
  pose proof (bytes_write _ _ _ _ Hm2 Hv E3) as Hm3.
  exists m3. split; [done|]. split; [done|]. split.
  - eapply same_except_trans; [eapply same_except_weaken; [exact Hs1|lia..]|].
    eapply same_except_trans; eapply same_except_weaken; try eassumption; lia.
  - split; [|done]. split; [|split].
    + rewrite (Get2Bytes_ext m2 m3) by (intros; apply Hs3; lia).
      rewrite (Get2Bytes_ext m1 m2) by (intros; apply Hs2; lia).
      rewrite (Set2Bytes_read _ _ _ _ Hm1 E1). by rewrite wrap_small.
    + rewrite (Get2Bytes_ext m2 m3) by (intros; apply Hs3; lia).
      rewrite (Set2Bytes_read _ _ _ _ Hm2 E2). by rewrite wrap_small.
    + exact (slice_write_same _ _ _ _ E3).
Qed.

Definition opt (b : bool) (t : Z) (v : list Z) : list (Z * list Z) := if b then [(t, v)] else [].

(** An optional attribute whose code is that of [adds_one] when it is there. *)
Lemma adds_opt tid f (b : bool) t v :
  (b = true -> in_uint 16 t /\ bytes v /\ in_uint 16 (zlen v)) ->
  (b = true -> forall m pos, 20 <= pos -> pos + 4 + zlen v <= zlen m -> slice m 8 12 = Ok tid ->
     f (m, pos) = (m ← Set2Bytes m pos t; m ← Set2Bytes m (pos + 2) (zlen v);
                   m ← write m (pos + 4) v; Ok (m, pos + (4 + padded (zlen v))))) ->
  (b = false -> forall m pos, f (m, pos) = Ok (m, pos)) ->
  adds tid f (opt b t v).
Proof.
  intros Hv Ht Hf. destruct b; cbn [opt].
  - destruct (Hv eq_refl) as (? & ? & ?).
    intros m pos Hm Hpos Hl Htid. rewrite (Ht eq_refl m pos Hpos); [by apply (adds_one tid t v)| |done].
    cbn [attrs_size] in Hl. pose proof (padded_ge (zlen v) (zlen_nonneg v)). lia.
  - apply adds_nil. by apply Hf.
Qed.

(** * XOR-MAPPED-ADDRESS *)

Definition xor8 (b v : Z) : Z := u8 (Z.lxor b v).

Lemma write_total m off bs : write m off bs = Err OutOfBounds \/ exists m', write m off bs = Ok m'.
Proof. unfold write. destruct (_ && _); eauto. Qed.

Lemma write_fuse {A} m off off' a b (f : list Z -> outcome A) :
  off' = off + zlen a ->
  (m1 ← write m off a; m2 ← write m1 off' b; f m2) = (m2 ← write m off (a ++ b); f m2).
Proof.
  intros ->. pose proof (zlen_nonneg a). pose proof (zlen_nonneg b).
  destruct (write_total m off a) as [E|[m1 E]]; rewrite E; ostep.
  - destruct (write_total m off (a ++ b)) as [E'|[m2 E']]; rewrite E'; [done|]. exfalso.
    apply write_Ok in E' as (? & Hl & _). rewrite zlen_app in Hl.
    destruct (write_in_bounds m off a) as [m1 E1]; [lia..|]. congruence.
  - destruct (write_total m1 (off + zlen a) b) as [E1|[m2 E1]]; rewrite E1; ostep.
    + destruct (write_total m off (a ++ b)) as [E'|[m2 E']]; rewrite E'; [done|]. exfalso.
      apply write_Ok in E' as (? & Hl & _). rewrite zlen_app in Hl.
      destruct (write_in_bounds m1 (off + zlen a) b) as [m3 E3];
        [lia|rewrite (zlen_write _ _ _ _ E); lia|]. congruence.
    + by rewrite (write_app _ _ _ _ _ _ E E1).
Qed.

Lemma bind_last {A} (o : outcome A) : o = (x ← o; Ok x).
Proof. by destruct o. Qed.

Lemma xor_bytes_spec vs : forall m i s m', 0 <= i -> i + zlen vs <= zlen m ->
  slice m i (zlen vs) = Ok s -> write m i (zip_with xor8 s vs) = Ok m' -> xor_bytes m i vs = Ok m'.
Proof.
  induction vs as [|v vs IH]; intros m i s m' Hi Hl Hs Hw; cbn [xor_bytes].
  - change (zlen (@nil Z)) with 0 in *. rewrite slice_0 in Hs by lia.
    injection Hs as <-. cbn in Hw. rewrite write_nil in Hw by lia. done.
  - rewrite zlen_cons in *. pose proof (zlen_nonneg vs).
    destruct (get1_in_bounds m i) as [b Hb]; [lia|]. rewrite slice_cons in Hs by lia.
    rewrite Hb in *. ostep. cbn [mbind outcome_bind] in Hs.
    destruct (slice m (i + 1) (zlen vs)) as [s'|] eqn:Es; [|done]. cbn in Hs. injection Hs as <-.
    cbn [zip_with] in Hw. change (u8 (Z.lxor b v)) with (xor8 b v).
    destruct (write_in_bounds m i [xor8 b v]) as [m1 E1]; [done|rewrite zlen_one; lia|].
    change (set1 m i (xor8 b v)) with (write m i [xor8 b v]).
    pose proof (write_fuse m i (i + 1) [xor8 b v] (zip_with xor8 s' vs) Ok eq_refl) as Hf.
    cbn [app] in Hf. rewrite Hw, E1 in Hf. rewrite E1. ostep. cbn [mbind outcome_bind] in Hf.
    destruct (write m1 (i + 1) (zip_with xor8 s' vs)) as [m2|] eqn:E2; [|done].
    cbn in Hf. injection Hf as ->.
    apply (IH m1 (i + 1) s'); [lia| | |done].
    + rewrite (zlen_write _ _ _ _ E1). lia.
    + rewrite <- Es. apply (slice_write_other _ _ _ _ _ _ E1). rewrite zlen_one. lia.
Qed.

Lemma zlen_zip_xor s vs : zlen s = zlen vs -> zlen (zip_with xor8 s vs) = zlen vs.
Proof. unfold zlen. intros. rewrite length_zip_with. lia. Qed.

Lemma write_xor {A} m off v vs (f : list Z -> outcome A) : zlen v = zlen vs ->
  (m1 ← write m off v; m2 ← xor_bytes m1 off vs; f m2) = (m2 ← write m off (zip_with xor8 v vs); f m2).
Proof.
  intros Hlen. pose proof (zlen_zip_xor v vs Hlen) as Hz.
  destruct (write_total m off v) as [E|[m1 E]]; rewrite E; ostep.
  - destruct (write_total m off (zip_with xor8 v vs)) as [->|[m2 E']]; [done|]. exfalso.
    apply write_Ok in E' as (? & Hl & _).
    destruct (write_in_bounds m off v) as [m1 E1]; [lia..|]. congruence.
  - pose proof (proj1 (write_Ok _ _ _ _) E) as (? & ? & _).
    destruct (write_in_bounds m off (zip_with xor8 v vs)) as [m2 E2]; [lia..|]. rewrite E2. ostep.
    erewrite xor_bytes_spec; [reflexivity|done| | |].
    + rewrite (zlen_write _ _ _ _ E). lia.
    + rewrite <- Hlen. by apply (slice_write_same m).
    + destruct (write_in_bounds m1 off (zip_with xor8 v vs)) as [m3 E3];
        [lia|rewrite (zlen_write _ _ _ _ E); lia|]. rewrite E3. f_equal.
      pose proof (zlen_write _ _ _ _ E). pose proof (zlen_write _ _ _ _ E2). pose proof (zlen_write _ _ _ _ E3).
      apply buffer_ext; [lia|]. intros i Hi.
      rewrite (get1_write _ _ _ _ _ E3), (get1_write _ _ _ _ _ E2), (get1_write _ _ _ _ _ E), Hz, Hlen.
      by destruct (_ && _).
Qed.

Lemma xor_bytes_app u : forall m i v,
  xor_bytes m i (u ++ v) = (m ← xor_bytes m i u; xor_bytes m (i + zlen u) v).
Proof.
  induction u as [|x u IH]; intros m i v; cbn [app xor_bytes].
  - ostep. cbn. by rewrite Z.add_0_r.
  - rewrite zlen_cons. destruct (get1 m i); ostep; [|done].
    destruct (set1 m i _); ostep; [|done]. rewrite IH. by rewrite Z.add_assoc.
Qed.

Lemma xor_bytes_frame vs : forall m i m', xor_bytes m i vs = Ok m' -> same_except i (i + zlen vs) m m'.
Proof.
  induction vs as [|v vs IH]; intros m i m'; cbn [xor_bytes].
  - intros [= <-]. by split.
  - intros H. ok_inv. rewrite zlen_cons. pose proof (zlen_nonneg vs).
    match goal with Hs : set1 _ _ _ = Ok _ |- _ => pose proof (same_except_write _ _ _ _ Hs) as Hse end.
    rewrite zlen_one in Hse. apply IH in H.
    eapply same_except_trans; eapply same_except_weaken; try eassumption; lia.
Qed.

(** The address as it travels: port and address masked with the magic cookie
    and the transaction id. *)
Definition xored_address (a : sockaddr) (tid : list Z) : list Z :=
  match a with
  | sockaddr_in port addr =>
      0 :: 1 :: zip_with xor8 port (take 2 magicCookie) ++ zip_with xor8 addr magicCookie
  | sockaddr_in6 port addr =>
      0 :: 2 :: zip_with xor8 port (take 2 magicCookie) ++ zip_with xor8 addr (magicCookie ++ tid)
  | sockaddr_other _ => []
  end.

Lemma zlen_xored_address a tid : inet a -> zlen tid = 12 ->
  zlen (xored_address a tid) = match a with sockaddr_in _ _ => 8 | _ => 20 end.
Proof.
  intros Ha Ht. destruct a as [port ip|port ip|f]; cbn in Ha; [| |done]; destruct Ha as (Hp & Hi & _);
    cbn [xored_address]; rewrite !zlen_cons, zlen_app, !zlen_zip_xor; rewrite ?zlen_app; rewrite ?Ht; done.
Qed.

Lemma bytes_xored_address a tid : bytes (xored_address a tid).
Proof.
  assert (forall s vs, bytes (zip_with xor8 s vs)) as Hz.
  { induction s as [|x s IH]; intros [|v vs]; cbn; try by apply Forall_nil.
    apply Forall_cons. split; [apply wrap_range; lia|apply IH]. }
  destruct a; cbn [xored_address]; [| |by apply Forall_nil];
    repeat (apply Forall_cons; split; [done|]); apply Forall_app; split; apply Hz.
Qed.

(** The end of an IPv6 address: the transaction id is read from the header. *)
Lemma add_address6_tail m off addr tid :
  20 <= off -> zlen addr = 16 -> zlen tid = 12 -> slice m 8 12 = Ok tid ->
  (m1 ← write m off addr; m2 ← xor_bytes m1 off magicCookie; t ← slice m2 8 12; xor_bytes m2 (off + 4) t)
  = write m off (zip_with xor8 addr (magicCookie ++ tid)).
Proof.
  intros Hoff Ha Ht Hs. rewrite (bind_last (write m off (zip_with _ _ _))).
  rewrite <- (write_xor m off addr (magicCookie ++ tid)) by (rewrite zlen_app, Ht, Ha; done).
  destruct (write m off addr) as [m1|] eqn:E1; ostep; [|done].
  rewrite xor_bytes_app. change (zlen magicCookie) with 4.
  destruct (xor_bytes m1 off magicCookie) as [m2|] eqn:E2; ostep; [|done].
  rewrite (slice_frame _ _ _ _ 8 12 (xor_bytes_frame _ _ _ _ E2)) by lia.
  rewrite (slice_frame _ _ _ _ 8 12 (same_except_write _ _ _ _ E1)) by lia. rewrite Hs. ostep.
  by destruct (xor_bytes m2 (off + 4) tid).
Qed.

Lemma add_address_spec a m at_ tid :
  20 <= at_ -> inet a -> zlen tid = 12 -> slice m 8 12 = Ok tid ->
  add_address a m at_ = write m at_ (xored_address a tid).
Proof.
  intros Hat Ha Ht Hs. unfold add_address, set1.
  destruct a as [port addr|port addr|f]; cbn in Ha; [| |done]; destruct Ha as (Hp & Hi & _);
    rewrite (write_fuse m at_ (at_ + 1)) by done; cbn [xored_address].
  - set (P := zip_with xor8 port (take 2 magicCookie)).
    assert (zlen P = 2) as HP by (apply zlen_zip_xor; by rewrite Hp).
    set (A := zip_with xor8 addr magicCookie).
    transitivity (m2 ← write m at_ ([0; 1] ++ (P ++ A)); Ok m2); [|symmetry; apply bind_last].
    rewrite <- (write_fuse m at_ (at_ + 2) [0; 1] (P ++ A) Ok eq_refl). change ([0] ++ [1]) with [0; 1].
    destruct (write m at_ [0; 1]) as [m1|]; ostep; [|done].
    rewrite write_xor by (rewrite Hp; done). fold P.
    rewrite <- (write_fuse m1 (at_ + 2) (at_ + 4) P A Ok) by lia.
    destruct (write m1 (at_ + 2) P) as [m2|]; ostep; [|done].
    unfold A. rewrite <- (write_xor m2 (at_ + 4) addr magicCookie Ok) by (rewrite Hi; done).
    destruct (write m2 (at_ + 4) addr); ostep; [|done]. apply bind_last.
  - set (P := zip_with xor8 port (take 2 magicCookie)).
    assert (zlen P = 2) as HP by (apply zlen_zip_xor; by rewrite Hp).
    set (A := zip_with xor8 addr (magicCookie ++ tid)).
    transitivity (m2 ← write m at_ ([0; 2] ++ (P ++ A)); Ok m2); [|symmetry; apply bind_last].
    rewrite <- (write_fuse m at_ (at_ + 2) [0; 2] (P ++ A) Ok eq_refl). change ([0] ++ [2]) with [0; 2].
    destruct (write m at_ [0; 2]) as [m1|] eqn:E1; ostep; [|done].
    rewrite write_xor by (rewrite Hp; done). fold P.
    rewrite <- (write_fuse m1 (at_ + 2) (at_ + 4) P A Ok) by lia.
    destruct (write m1 (at_ + 2) P) as [m2|] eqn:E2; ostep; [|done].
    rewrite <- bind_last. replace (at_ + 8) with (at_ + 4 + 4) by lia.
    apply add_address6_tail; [lia|done|done|].
    rewrite (slice_frame _ _ _ _ 8 12 (same_except_write _ _ _ _ E2)) by lia.
    by rewrite (slice_frame _ _ _ _ 8 12 (same_except_write _ _ _ _ E1)) by lia.
Qed.

(** * The attributes of a message *)

(** What can be sent: the fields have the widths of their types, the transaction
    id its length, and the user name fits a message. *)
Record serializable (p : stun_packet) : Prop := {
  sz_tid : zlen (transactionId p) = 12;
  sz_tid_bytes : bytes (transactionId p);
  sz_username : zlen (username p) <= 65000;
  sz_username_bytes : bytes (username p);
  sz_priority : in_uint 32 (priority p);
  sz_controlling : in_uint 64 (iceControlling p);
  sz_controlled : in_uint 64 (iceControlled p);
  sz_error : in_uint 16 (errorCode p);
  sz_address : forall a, xorMappedAddressPaddedLen p <> None -> xorMappedAddress p = Some a -> inet a
}.

Definition address_value (p : stun_packet) : list Z :=
  match xorMappedAddress p with Some a => xored_address a (transactionId p) | None => [] end.

Definition has_address (p : stun_packet) : bool :=
  match xorMappedAddressPaddedLen p with Some _ => true | None => false end.

Definition attrs_of (p : stun_packet) : list (Z * list Z) :=
  opt (negb (empty (username p))) USERNAME (username p)
  ++ opt (truthy (priority p)) PRIORITY (be_bytes 4 (priority p))
  ++ opt (truthy (iceControlling p)) ICE_CONTROLLING (be_bytes 8 (iceControlling p))
  ++ opt (truthy (iceControlled p)) ICE_CONTROLLED (be_bytes 8 (iceControlled p))
  ++ opt (hasUseCandidate p) USE_CANDIDATE []
  ++ opt (has_address p) XOR_MAPPED_ADDRESS (address_value p)
  ++ opt (addErrorCode p) ERROR_CODE [0; 0; codeClass (errorCode p); codeNumber (errorCode p)].

Definition integrity_size (p : stun_packet) : Z := if addMessageIntegrity p then 24 else 0.

Section steps.
Context (p : stun_packet) (Hp : serializable p).

Lemma username_len : empty (username p) = false ->
  usernamePaddedLen p = padded (zlen (username p)) /\ 0 < zlen (username p).
Proof.
  intros He. unfold usernamePaddedLen. rewrite He. pose proof (sz_username p Hp).
  assert (0 < zlen (username p)).
  { destruct (username p); [done|]. rewrite zlen_cons. pose proof (zlen_nonneg l). lia. }
  split; [|done]. rewrite wrap_small by (unfold in_uint; lia). unfold padded.
  apply PadTo4Bytes16_spec. lia.
Qed.

Lemma add_username_adds : adds (transactionId p) (add_username p)
  (opt (negb (empty (username p))) USERNAME (username p)).
Proof.
  pose proof (sz_username p Hp). pose proof (zlen_nonneg (username p)).
  apply adds_opt.
  - intros _. split; [done|]. split; [apply Hp|]. unfold in_uint. lia.
  - intros He%negb_true_iff m pos _ _ _. destruct (username_len He) as [El Hpos].
    pose proof (padded_ge (zlen (username p))) as Hpad. unfold add_username. rewrite El. unfold truthy.
    destruct (Z.eqb_spec (padded (zlen (username p))) 0); [lia|]. cbn [negb].
    by rewrite wrap_small by (unfold in_uint; lia).
  - intros He%negb_false_iff m pos. unfold add_username, usernamePaddedLen. by rewrite He.
Qed.

Lemma add_priority_adds : adds (transactionId p) (add_priority p)
  (opt (truthy (priority p)) PRIORITY (be_bytes 4 (priority p))).
Proof.
  apply adds_opt.
  - intros _. split; [done|]. split; [apply bytes_be_bytes|done].
  - intros E m pos _ _ _. unfold add_priority. rewrite E, zlen_be_bytes.
    destruct (Set2Bytes m pos PRIORITY); ostep; [|done].
    destruct (Set2Bytes _ (pos + 2) _); ostep; [|done]. by rewrite Set4Bytes_spec.
  - intros E m pos. unfold add_priority. by rewrite E.
Qed.

Lemma add_ice_controlling_adds : adds (transactionId p) (add_ice_controlling p)
  (opt (truthy (iceControlling p)) ICE_CONTROLLING (be_bytes 8 (iceControlling p))).
Proof.
  apply adds_opt.
  - intros _. split; [done|]. split; [apply bytes_be_bytes|done].
  - intros E m pos _ _ _. unfold add_ice_controlling. rewrite E, zlen_be_bytes.
    destruct (Set2Bytes m pos ICE_CONTROLLING); ostep; [|done].
    destruct (Set2Bytes _ (pos + 2) _); ostep; [|done]. by rewrite Set8Bytes_spec.
  - intros E m pos. unfold add_ice_controlling. by rewrite E.
Qed.

Lemma add_ice_controlled_adds : adds (transactionId p) (add_ice_controlled p)
  (opt (truthy (iceControlled p)) ICE_CONTROLLED (be_bytes 8 (iceControlled p))).
Proof.
  apply adds_opt.
  - intros _. split; [done|]. split; [apply bytes_be_bytes|done].
  - intros E m pos _ _ _. unfold add_ice_controlled. rewrite E, zlen_be_bytes.
    destruct (Set2Bytes m pos ICE_CONTROLLED); ostep; [|done].
    destruct (Set2Bytes _ (pos + 2) _); ostep; [|done]. by rewrite Set8Bytes_spec.
  - intros E m pos. unfold add_ice_controlled. by rewrite E.
Qed.

Lemma zlen_Set2Bytes m i v m' : Set2Bytes m i v = Ok m' -> zlen m' = zlen m.
Proof. rewrite Set2Bytes_spec. apply zlen_write. Qed.

Lemma add_use_candidate_adds : adds (transactionId p) (add_use_candidate p)
  (opt (hasUseCandidate p) USE_CANDIDATE []).
Proof.
  apply adds_opt.
  - intros _. split; [done|]. split; [by apply Forall_nil|done].
  - intros E m pos Hpos Hl _. change (zlen (@nil Z)) with 0 in *. unfold add_use_candidate. rewrite E.
    destruct (Set2Bytes m pos USE_CANDIDATE) as [m1|] eqn:E1; ostep; [|done].
    destruct (Set2Bytes m1 (pos + 2) 0) as [m2|] eqn:E2; ostep; [|done].
    rewrite write_nil; [done|]. rewrite (zlen_Set2Bytes _ _ _ _ E2), (zlen_Set2Bytes _ _ _ _ E1). lia.
  - intros E m pos. unfold add_use_candidate. by rewrite E.
Qed.

Lemma address_len a n : xorMappedAddressPaddedLen p = Some n -> xorMappedAddress p = Some a ->
  inet a /\ zlen (xored_address a (transactionId p)) = n /\ padded n = n /\ in_uint 16 n.
Proof.
  intros Hn Ha. assert (inet a) as Hi by (apply (sz_address p Hp a); congruence).
  split; [done|]. rewrite zlen_xored_address by (done || apply Hp).
  unfold xorMappedAddressPaddedLen in Hn. rewrite Ha in Hn.
  destruct (_ && _); [|done]. destruct a; simplify_eq; done.
Qed.

Lemma add_xor_mapped_address_adds : adds (transactionId p) (add_xor_mapped_address p)
  (opt (has_address p) XOR_MAPPED_ADDRESS (address_value p)).
Proof.
  unfold has_address, address_value.
  destruct (xorMappedAddressPaddedLen p) as [n|] eqn:En; cycle 1.
  { apply adds_nil. intros m pos. unfold add_xor_mapped_address. by rewrite En. }
  destruct (xorMappedAddress p) as [a|] eqn:Ea; cycle 1.
  { unfold xorMappedAddressPaddedLen in En. by rewrite Ea in En. }
  destruct (address_len a n En Ea) as (Hi & Hl & Hpad & Hn).
  apply adds_opt; [| |done].
  - intros _. rewrite Hl. split; [done|]. split; [apply bytes_xored_address|done].
  - intros _ m pos Hpos Hlen Htid. unfold add_xor_mapped_address.
    rewrite Hl in Hlen. rewrite En, Ea, Hl, Hpad. unfold in_uint in Hn.
    destruct (sets_Set2Bytes m pos XOR_MAPPED_ADDRESS) as (m1 & E1 & Hs1 & _); [lia..|].
    rewrite E1. ostep.
    destruct (sets_Set2Bytes m1 (pos + 2) n) as (m2 & E2 & Hs2 & _); [lia|rewrite (proj1 Hs1); lia|].
    rewrite E2. ostep. rewrite (add_address_spec _ _ _ (transactionId p)); [done|lia|done|apply Hp|].
    rewrite (slice_frame _ _ _ _ 8 12 Hs2) by lia. by rewrite (slice_frame _ _ _ _ 8 12 Hs1) by lia.
Qed.

Lemma add_error_code_adds : adds (transactionId p) (add_error_code p)
  (opt (addErrorCode p) ERROR_CODE [0; 0; codeClass (errorCode p); codeNumber (errorCode p)]).
Proof.
  apply adds_opt.
  - intros _. split; [done|]. split; [|done].
    repeat (apply Forall_cons; split; [done || (apply wrap_range; lia)|]). by apply Forall_nil.
  - intros E m pos _ _ _. unfold add_error_code. rewrite E. change (zlen [_; _; _; _]) with 4.
    destruct (Set2Bytes m pos ERROR_CODE) as [m1|]; ostep; [|done].
    destruct (Set2Bytes m1 (pos + 2) 4) as [m2|]; ostep; [|done].
    rewrite Set2Bytes_spec. unfold Set1Byte, set1.
    change (be_bytes 2 0) with [0; 0]. rewrite (write_fuse m2 (pos + 4) (pos + 6)) by (change (zlen [0; 0]) with 2; lia).
    cbn [app].
    by rewrite (write_fuse m2 (pos + 4) (pos + 7)) by (rewrite !zlen_cons; change (zlen (@nil Z)) with 0; lia).
  - intros E m pos. unfold add_error_code. by rewrite E.
Qed.

(** All the attributes before MESSAGE-INTEGRITY. *)
Definition add_attributes (st : list Z * Z) : outcome (list Z * Z) :=
  st ← add_username p st;
  st ← add_priority p st;
  st ← add_ice_controlling p st;
  st ← add_ice_controlled p st;
  st ← add_use_candidate p st;
  st ← add_xor_mapped_address p st;
  add_error_code p st.

Lemma add_attributes_adds : adds (transactionId p) add_attributes (attrs_of p).
Proof.
  unfold attrs_of. repeat (apply adds_app; [first
    [ apply add_username_adds | apply add_priority_adds | apply add_ice_controlling_adds
    | apply add_ice_controlled_adds | apply add_use_candidate_adds
    | apply add_xor_mapped_address_adds ]|]).
  apply add_error_code_adds.
Qed.

Lemma total_size_spec : total_size p = 20 + attrs_size (attrs_of p) + integrity_size p + 8.
Proof.
  unfold attrs_of. rewrite !attrs_size_app.
  assert (Hopt : forall b t v, attrs_size (opt b t v) = if b then 4 + padded (zlen v) else 0).
  { intros [] t v; cbn; lia. }
  rewrite !Hopt, !zlen_be_bytes. unfold total_size, integrity_size, has_address, address_value.
  assert ((if empty (username p) then 20 else 20 + (4 + usernamePaddedLen p)) =
          20 + (if negb (empty (username p)) then 4 + padded (zlen (username p)) else 0)) as ->.
  { destruct (empty (username p)) eqn:E; [done|]. destruct (username_len E) as [-> _]. cbn [negb]. lia. }
  destruct (xorMappedAddressPaddedLen p) as [n|] eqn:En.
  - destruct (xorMappedAddress p) as [a|] eqn:Ea;
      [|unfold xorMappedAddressPaddedLen in En; by rewrite Ea in En].
    destruct (address_len a n En Ea) as (_ & -> & -> & _).
    change (zlen (@nil Z)) with 0. change (zlen [_; _; _; _]) with 4.
    change (padded (Z.of_nat 4)) with 4. change (padded (Z.of_nat 8)) with 8.
    change (padded 4) with 4. change (padded 0) with 0.
    destruct (truthy (priority p)), (truthy (iceControlling p)), (truthy (iceControlled p)),
      (hasUseCandidate p), (addErrorCode p), (addMessageIntegrity p); lia.
  - change (zlen (@nil Z)) with 0. change (zlen [_; _; _; _]) with 4.
    change (padded (Z.of_nat 4)) with 4. change (padded (Z.of_nat 8)) with 8.
    change (padded 4) with 4. change (padded 0) with 0.
    destruct (truthy (priority p)), (truthy (iceControlling p)), (truthy (iceControlled p)),
      (hasUseCandidate p), (addErrorCode p), (addMessageIntegrity p); lia.
Qed.
End steps.

(** * The end of a message *)

Lemma lxor_in_uint w a b : 0 <= w -> in_uint w a -> in_uint w b -> in_uint w (Z.lxor a b).
Proof.
  intros Hw Ha Hb.
  assert (Z.lxor a b = Z.lxor a b `mod` 2 ^ w) as ->; [|by apply wrap_range].
  rewrite <- Z.land_ones by done. apply Z.bits_inj'. intros i Hi.
  rewrite Z.land_spec, Z.lxor_spec, Z.testbit_ones by done.
  destruct (Z.leb_spec 0 i), (Z.ltb_spec i w); try lia; cbn [andb]; rewrite ?andb_true_r; [done|].
  by rewrite (testbit_above w a), (testbit_above w b).
Qed.

Lemma shiftr_in_uint w a k : 0 <= k -> in_uint w a -> in_uint w (Z.shiftr a k).
Proof.
  intros Hk [H0 Ha]. split; [by apply Z.shiftr_nonneg|]. rewrite Z.shiftr_div_pow2 by done.
  apply Z.le_lt_trans with a; [|done]. apply Z.div_le_upper_bound; [lia|].
  assert (0 < 2 ^ k) by lia. nia.
Qed.

Lemma crc_bits_range n : forall c, in_uint 32 c -> in_uint 32 (crc_bits n c).
Proof.
  induction n as [|n IH]; intros c Hc; [done|]. cbn [crc_bits]. apply IH. unfold crc_bit.
  apply lxor_in_uint; [done|by apply shiftr_in_uint|]. by destruct (Z.testbit c 0).
Qed.

Lemma fold_left_cons {A B} (f : A -> B -> A) b d c : fold_left f (b :: d) c = fold_left f d (f c b).
Proof. reflexivity. Qed.

Lemma crc_fold_range d : bytes d -> forall c, in_uint 32 c -> in_uint 32 (fold_left crc_byte d c).
Proof.
  induction 1 as [|b d Hb Hd IH]; intros c Hc; [exact Hc|]. rewrite fold_left_cons. apply IH.
  unfold crc_byte. apply crc_bits_range, lxor_in_uint; [done|done|].
  by apply (in_uint_weaken 8).
Qed.

Lemma crc32_reference_range d : bytes d -> in_uint 32 (crc32_reference d).
Proof.
  intros Hd. apply lxor_in_uint; [done| |done]. apply (crc_fold_range d Hd). done.
Qed.

Lemma GetCRC32_range m n crc : bytes m -> GetCRC32 m n = Ok crc -> in_uint 32 crc.
Proof.
  intros Hm Hc. unfold GetCRC32 in Hc. destruct (slice m 0 n) as [d|] eqn:Es; [|done].
  assert (bytes d) as Hd by by eapply bytes_slice.
  cbn [mbind outcome_bind] in Hc. rewrite crc32_loop_reference in Hc by (done || lia).
  cbn [mbind outcome_bind] in Hc. injection Hc as <-. by apply crc32_reference_range.
Qed.

Lemma GetCRC32_ext m m' n : slice m' 0 n = slice m 0 n -> GetCRC32 m' n = GetCRC32 m n.
Proof. unfold GetCRC32. by intros ->. Qed.

Lemma add_fingerprint_spec m pos : bytes m -> 20 <= pos -> pos + 8 <= zlen m ->
  exists m' crc, add_fingerprint (m, pos) = Ok (m', pos + 8) /\ bytes m' /\
    same_except pos (pos + 8) m m' /\ GetCRC32 m' pos = Ok crc /\
    attr_at m' pos FINGERPRINT (be_bytes 4 (Z.lxor crc 1398035790)) /\
    in_uint 32 (Z.lxor crc 1398035790).
Proof.
  intros Hm Hpos Hl. destruct (GetCRC32_total m pos) as [crc Hcrc]; [done|lia|].
  assert (Hr : in_uint 32 (Z.lxor crc 1398035790)).
  { apply lxor_in_uint; [done|by eapply GetCRC32_range|done]. }
  destruct (sets_Set2Bytes m pos FINGERPRINT) as (m1 & E1 & Hs1 & Hm1 & _); [lia..|].
  destruct (sets_Set2Bytes m1 (pos + 2) 4) as (m2 & E2 & Hs2 & Hm2 & _);
    [lia|rewrite (proj1 Hs1); lia|].
  destruct (sets_Set4Bytes m2 (pos + 4) (Z.lxor crc 1398035790)) as (m3 & E3 & Hs3 & Hm3 & Hv);
    [lia|rewrite (proj1 Hs2), (proj1 Hs1); lia|].
  assert (Hs : same_except pos (pos + 8) m m3).
  { eapply same_except_trans; [eapply same_except_weaken; [exact Hs1|lia..]|].
    eapply same_except_trans; eapply same_except_weaken; try eassumption; lia. }
  exists m3, crc. unfold add_fingerprint. rewrite Hcrc. ostep. rewrite E1. ostep. rewrite E2. ostep.
  rewrite E3. ostep. split; [done|]. split; [auto|]. split; [done|]. split.
  { rewrite <- Hcrc. apply GetCRC32_ext. apply (slice_frame _ _ _ _ _ _ Hs). lia. }
  split; [|done]. unfold attr_at. rewrite zlen_be_bytes. split; [|split; [|exact Hv]].
  - rewrite (Get2Bytes_ext m2 m3), (Get2Bytes_ext m1 m2) by (intros; (apply Hs3 || apply Hs2); lia).
    rewrite (Set2Bytes_read _ _ _ _ (Hm1 Hm) E1). done.
  - rewrite (Get2Bytes_ext m2 m3) by (intros; apply Hs3; lia).
    rewrite (Set2Bytes_read _ _ _ _ (Hm2 (Hm1 Hm)) E2). done.
Qed.

(** A write undone by another one of the same range: only what lies between
    them remains. *)
Lemma same_except_restore lo hi m0 m1 m2 m3 off x y :
  slice m0 off (zlen y) = Ok y -> zlen x = zlen y ->
  write m0 off x = Ok m1 -> same_except lo hi m1 m2 -> write m2 off y = Ok m3 ->
  off + zlen y <= lo -> same_except lo hi m0 m3.
Proof.
  intros Hy Hxy H1 Hs H3 Hlo. split.
  - rewrite (zlen_write _ _ _ _ H3), (proj1 Hs). by eapply zlen_write.
  - intros i Hi. rewrite (get1_write _ _ _ _ _ H3).
    destruct (Z.leb_spec off i); cbn [andb].
    + destruct (Z.ltb_spec i (off + zlen y)).
      * rewrite (get1_slice _ _ _ _ (i - off) Hy) by lia. f_equal. lia.
      * rewrite (proj2 Hs i Hi). eapply get1_write_other; [exact H1|lia].
    + rewrite (proj2 Hs i Hi). eapply get1_write_other; [exact H1|lia].
Qed.

Section integrity.
Context `{HmacLaws}.

Lemma add_message_integrity_spec p m pos sz :
  addMessageIntegrity p = true -> bytes m -> 20 <= pos -> pos + 24 <= zlen m ->
  sz = pos + 32 -> sz <= 65535 -> Get2Bytes m 2 = Ok (sz - 20) ->
  exists m' s, add_message_integrity p sz (m, pos) = Ok (m', pos + 24, Some (pos + 4)) /\
    bytes m' /\ same_except pos (pos + 24) m m' /\ signed_part m' (pos + 4) = Ok s /\
    attr_at m' pos MESSAGE_INTEGRITY (HMAC (password p) s).
Proof.
  intros Hadd Hm Hpos Hl Hsz Hmax Hlen.
  assert (Hlb := Get2Bytes_slice _ _ _ Hm Hlen).
  destruct (slice_in_bounds m 0 2) as [ty Hty]; [lia..|].
  destruct (slice_in_bounds m 4 (pos - 4)) as [body Hbody]; [lia..|].
  destruct (write_in_bounds m 2 (be_bytes 2 (u16 (sz - 20 - 8)))) as [m1 E1];
    [lia|rewrite zlen_be_bytes; lia|].
  assert (u16 (sz - 20 - 8) = pos + 4) as Emi by (rewrite wrap_small; unfold in_uint; lia).
  pose proof (same_except_write _ _ _ _ E1) as Hs1. rewrite zlen_be_bytes in Hs1.
  set (s := ty ++ be_bytes 2 (pos + 4) ++ body).
  assert (Hsl : slice m1 0 pos = Ok s).
  { replace pos with (2 + (2 + (pos - 4))) at 1 by lia.
    rewrite !slice_split by lia. change (0 + 2) with 2. change (2 + 2) with 4.
    rewrite (slice_frame _ _ _ _ 0 2 Hs1), (slice_frame _ _ _ _ 4 _ Hs1) by lia.
    rewrite Hty, Hbody. pose proof (slice_write_same _ _ _ _ E1) as Hw. rewrite zlen_be_bytes in Hw.
    change (Z.of_nat 2) with 2 in Hw. rewrite Hw, Emi. done. }
  set (d := HMAC (password p) s).
  assert (zlen d = 20) as Hd by apply HMAC_length.
  assert (Hm1 : bytes m1) by (eapply bytes_write; [exact Hm|apply bytes_be_bytes|exact E1]).
  destruct (slice_in_bounds m1 8 12) as [tid Htid]; [lia|lia|rewrite (proj1 Hs1); lia|].
  destruct (adds_one tid MESSAGE_INTEGRITY d) with (m := m1) (pos := pos)
    as (m2 & E2 & Hm2 & Hs2 & Ha2 & _); [done|apply HMAC_bytes|by rewrite Hd|done|done| |done|].
  { cbn [attrs_size]. rewrite Hd, (proj1 Hs1). change (padded 20) with 20. lia. }
  cbn [attrs_size] in *. rewrite Hd in *. change (padded 20) with 20 in *.
  destruct (write_in_bounds m2 2 (be_bytes 2 (u16 (sz - 20)))) as [m3 E3];
    [lia|rewrite zlen_be_bytes, (proj1 Hs2), (proj1 Hs1); lia|].
  assert (Hs : same_except pos (pos + 24) m m3).
  { eapply (same_except_restore _ _ m m1 m2); [| |exact E1| |exact E3|].
    - rewrite zlen_be_bytes. rewrite wrap_small by (unfold in_uint; lia). exact Hlb.
    - by rewrite !zlen_be_bytes.
    - eapply same_except_weaken; [exact Hs2|lia..].
    - rewrite zlen_be_bytes. lia. }
  exists m3, s. split; [|split; [|split; [exact Hs|split]]].
  - unfold add_message_integrity. rewrite Hadd, Set2Bytes_spec, E1. ostep.
    unfold GetHmacShA1. rewrite Hsl. ostep. fold d. rewrite Hd. cbn [Z.eqb Pos.eqb]. ostep.
    destruct (Set2Bytes m1 pos MESSAGE_INTEGRITY) as [ma|]; cbn [mbind outcome_bind] in E2 |- *; [|done].
    destruct (Set2Bytes ma (pos + 2) 20) as [mb|]; cbn [mbind outcome_bind] in E2 |- *; [|done].
    destruct (write mb (pos + 4) d) as [mc|]; cbn [mbind outcome_bind] in E2 |- *; [|done].
    injection E2 as ->. rewrite Set2Bytes_spec, E3. ostep. done.
  - eapply bytes_write; [exact Hm2|apply bytes_be_bytes|exact E3].
  - unfold signed_part. rewrite (slice_frame _ _ _ _ 0 2 Hs), (slice_frame _ _ _ _ 4 _ Hs) by lia.
    replace (pos + 4 - 8) with (pos - 4) by lia. by rewrite Hty, Hbody.
  - apply (attr_at_frame m2 m3 2 4); [done| |lia].
    pose proof (same_except_write _ _ _ _ E3) as Hs3. by rewrite zlen_be_bytes in Hs3.
Qed.
End integrity.

(** * The whole message *)

Definition header_at (p : stun_packet) (sz : Z) (m : list Z) : Prop :=
  slice m 0 2 = Ok (be_bytes 2 (typeField p)) /\ Get2Bytes m 2 = Ok (sz - 20) /\
  slice m 4 4 = Ok magicCookie /\ slice m 8 12 = Ok (transactionId p).

Lemma header_at_frame p sz m m' lo hi :
  header_at p sz m -> same_except lo hi m m' -> 20 <= lo -> header_at p sz m'.
Proof.
  intros (H1 & H2 & H3 & H4) Hs Hlo. unfold header_at.
  rewrite (slice_frame _ _ _ _ 0 2 Hs), (slice_frame _ _ _ _ 4 4 Hs), (slice_frame _ _ _ _ 8 12 Hs) by lia.
  rewrite (Get2Bytes_ext m m') by (intros; apply Hs; lia). done.
Qed.

Lemma slice_app m off a b : slice m off (zlen a + zlen b) = Ok (a ++ b) ->
  slice m off (zlen a) = Ok a /\ slice m (off + zlen a) (zlen b) = Ok b.
Proof.
  pose proof (zlen_nonneg a). pose proof (zlen_nonneg b). rewrite slice_split by done.
  destruct (slice m off (zlen a)) as [s1|] eqn:E1; cbn [mbind outcome_bind]; [|done].
  destruct (slice m (off + zlen a) (zlen b)) as [s2|] eqn:E2; cbn [mbind outcome_bind]; [|done].
  intros [= Heq]. apply zlen_slice in E1, E2. unfold zlen in *.
  apply app_inj_1 in Heq as [-> ->]; [done|lia].
Qed.

Lemma add_header_spec p sz m : serializable p -> bytes m -> 20 <= zlen m -> 20 <= sz <= 65535 ->
  exists m', add_header p sz m = Ok m' /\ bytes m' /\ same_except 0 20 m m' /\ header_at p sz m'.
Proof.
  intros Hp Hm Hl Hsz. pose proof (sz_tid p Hp) as Ht.
  set (h := be_bytes 2 (typeField p) ++ be_bytes 2 (u16 (u16 sz - 20)) ++ magicCookie ++ transactionId p).
  assert (zlen h = 20) as Hh by (unfold h; rewrite !zlen_app, !zlen_be_bytes, Ht; done).
  destruct (write_in_bounds m 0 h) as [m' Hm']; [lia|lia|].
  assert (bytes m') as Hb.
  { eapply bytes_write; [exact Hm| |exact Hm']. unfold bytes, h. rewrite !Forall_app.
    split; [apply bytes_be_bytes|]. split; [apply bytes_be_bytes|]. split; [|apply Hp].
    repeat (apply Forall_cons; split; [done|]). by apply Forall_nil. }
  exists m'. split; [|split; [done|split]].
  - unfold add_header. rewrite <- Hm'.
    transitivity (m2 ← write m 0 h; Ok m2); [|symmetry; apply bind_last]. unfold h.
    rewrite <- (write_fuse m 0 2 (be_bytes 2 (typeField p)) _ Ok) by done.
    rewrite Set2Bytes_spec. destruct (write m 0 (be_bytes 2 (typeField p))) as [m1|]; ostep; [|done].
    rewrite <- (write_fuse m1 2 4 (be_bytes 2 (u16 (u16 sz - 20))) _ Ok) by done.
    rewrite Set2Bytes_spec. destruct (write m1 2 (be_bytes 2 (u16 (u16 sz - 20)))) as [m2|]; ostep; [|done].
    rewrite <- (write_fuse m2 4 8 magicCookie _ Ok) by done.
    destruct (write m2 4 magicCookie) as [m3|]; ostep; [|done]. apply bind_last.
  - pose proof (same_except_write _ _ _ _ Hm') as Hs. by rewrite Hh in Hs.
  - pose proof (slice_write_same _ _ _ _ Hm') as Hs. unfold h in Hs. rewrite zlen_app in Hs.
    apply slice_app in Hs as [H1 Hs]. rewrite zlen_app in Hs.
    apply slice_app in Hs as [H2 Hs]. rewrite zlen_app in Hs.
    apply slice_app in Hs as [H3 Hs]. rewrite !zlen_be_bytes in *. rewrite Ht in Hs.
    split; [exact H1|]. split; [|split; [exact H3|exact Hs]].
    rewrite Get2Bytes_spec by done. change (slice m' 2 2) with (slice m' (0 + Z.of_nat 2) (Z.of_nat 2)).
    rewrite H2. cbn [mbind outcome_bind]. rewrite be_val_wrap. change (8 * Z.of_nat 2) with 16.
    rewrite (wrap_small 16 sz) by (unfold in_uint; lia).
    rewrite !wrap_small; [done|unfold in_uint; lia..|].
    rewrite wrap_small; unfold in_uint; lia.
Qed.

Definition sent (p : stun_packet) (m : list Z) (mi : option Z) : stun_packet :=
  SetFingerprint (SetMessageIntegrity (set_buffer p m (total_size p)) mi).

Lemma Serialize_attributes `{HmacSha1} p m :
  Serialize p m =
    (m ← add_header p (total_size p) m;
     st ← add_attributes p (m, 20);
     r ← add_message_integrity p (total_size p) st;
     let '(st, mi) := r in
     st ← add_fingerprint st;
     let '(buffer, pos) := st in
     _ ← require AssertFailed (pos =? total_size p);
     Ok (sent p buffer mi)).
Proof.
  unfold Serialize, add_attributes. destruct (add_header _ _ _) as [m1|]; ostep; [|done].
  destruct (add_username _ _) as [s1|]; ostep; [|done].
  destruct (add_priority _ _) as [s2|]; ostep; [|done].
  destruct (add_ice_controlling _ _) as [s3|]; ostep; [|done].
  destruct (add_ice_controlled _ _) as [s4|]; ostep; [|done].
  destruct (add_use_candidate _ _) as [s5|]; ostep; [|done].
  destruct (add_xor_mapped_address _ _) as [s6|]; ostep; [|done].
  done.
Qed.

(** The buffer holds the message [p]: header, attributes, digest and
    fingerprint. *)
Record written `{HmacSha1} (p : stun_packet) (m : list Z) (mi : option Z) (fp : Z) : Prop := {
  wr_bytes : bytes m;
  wr_header : header_at p (total_size p) m;
  wr_attrs : attrs_at m 20 (attrs_of p);
  wr_mi : mi = if addMessageIntegrity p then Some (20 + attrs_size (attrs_of p) + 4) else None;
  wr_integrity : addMessageIntegrity p = true ->
    exists s, signed_part m (20 + attrs_size (attrs_of p) + 4) = Ok s /\
      attr_at m (20 + attrs_size (attrs_of p)) MESSAGE_INTEGRITY (HMAC (password p) s);
  wr_fingerprint : attr_at m (total_size p - 8) FINGERPRINT (be_bytes 4 fp);
  wr_crc : in_uint 32 fp /\
    exists crc, GetCRC32 m (total_size p - 8) = Ok crc /\ fp = Z.lxor crc 1398035790
}.

Lemma signed_part_frame m m' mi lo hi : same_except lo hi m m' -> 8 <= mi -> mi - 4 <= lo ->
  signed_part m' mi = signed_part m mi.
Proof.
  intros Hs Hmi Hlo. unfold signed_part.
  by rewrite (slice_frame _ _ _ _ 0 2 Hs), (slice_frame _ _ _ _ 4 _ Hs) by lia.
Qed.

Lemma if_bounds (b : bool) k : 0 <= k -> 0 <= (if b then k else 0) <= k.
Proof. destruct b; lia. Qed.

Lemma attrs_size_mod l : attrs_size l mod 4 = 0.
Proof.
  induction l as [|[t v] l IH]; [done|]. cbn [attrs_size]. pose proof (padded_mod (zlen v)) as Hp.
  clear -IH Hp. Z.div_mod_to_equations; lia.
Qed.

Lemma total_size_bounds p : serializable p ->
  28 <= total_size p <= 65535 /\ total_size p mod 4 = 0.
Proof.
  intros Hp. pose proof (attrs_size_mod (attrs_of p)) as Hm.
  rewrite (total_size_spec p Hp). split.
  - unfold attrs_of. rewrite !attrs_size_app.
    assert (Hopt : forall b t v, attrs_size (opt b t v) = if b then 4 + padded (zlen v) else 0).
    { intros [] t v; cbn; lia. }
    rewrite !Hopt, !zlen_be_bytes.
    pose proof (sz_username p Hp). pose proof (zlen_nonneg (username p)).
    pose proof (padded_ge (zlen (username p))).
    assert (Ha : 0 <= (if has_address p then 4 + padded (zlen (address_value p)) else 0) <= 24).
    { unfold has_address, address_value. destruct (xorMappedAddressPaddedLen p) as [n|] eqn:En; [|done].
      destruct (xorMappedAddress p) as [a|] eqn:Ea; [|done].
      destruct (address_len p Hp a n En Ea) as (_ & -> & -> & _).
      unfold xorMappedAddressPaddedLen in En. rewrite Ea in En.
      destruct (_ && _); [|done]. destruct a; simplify_eq; lia. }
    unfold integrity_size.
    pose proof (if_bounds (negb (empty (username p))) (4 + padded (zlen (username p))) ltac:(lia)).
    pose proof (if_bounds (truthy (priority p)) (4 + padded 4) ltac:(done)).
    pose proof (if_bounds (truthy (iceControlling p)) (4 + padded 8) ltac:(done)).
    pose proof (if_bounds (truthy (iceControlled p)) (4 + padded 8) ltac:(done)).
    pose proof (if_bounds (hasUseCandidate p) (4 + padded 0) ltac:(done)).
    pose proof (if_bounds (addErrorCode p) (4 + padded 4) ltac:(done)).
    pose proof (if_bounds (addMessageIntegrity p) 24 ltac:(done)).
    change (zlen (@nil Z)) with 0. change (zlen [_; _; _; _]) with 4.
    change (Z.of_nat 4) with 4. change (Z.of_nat 8) with 8.
    change (padded 4) with 4 in *. change (padded 8) with 8 in *. change (padded 0) with 0 in *. lia.
  - unfold integrity_size. clear -Hm.
    destruct (addMessageIntegrity p); Z.div_mod_to_equations; lia.
Qed.

Section serialize.
Context `{HmacLaws}.

Lemma Serialize_written p m : serializable p -> bytes m -> total_size p <= zlen m ->
  exists m' mi fp, Serialize p m = Ok (sent p m' mi) /\ zlen m' = zlen m /\
    same_except 0 (total_size p) m m' /\ written p m' mi fp.
Proof.
  intros Hp Hm Hl. destruct (total_size_bounds p Hp) as [Hb _]. pose proof (total_size_spec p Hp) as Hsz.
  pose proof (attrs_size_nonneg (attrs_of p)) as Ha0.
  rewrite Serialize_attributes. set (sz := total_size p) in *. set (pos := 20 + attrs_size (attrs_of p)) in *.
  assert (Hi0 : 0 <= integrity_size p) by (unfold integrity_size; destruct (addMessageIntegrity p); lia).
  destruct (add_header_spec p sz m Hp Hm) as (m1 & E1 & Hm1 & Hs1 & Hh1); [lia..|].
  rewrite E1. ostep.
  destruct (add_attributes_adds p Hp m1 20) as (m2 & E2 & Hm2 & Hs2 & Ha2);
    [done|lia|rewrite (proj1 Hs1); lia|apply Hh1|].
  rewrite E2. ostep. fold pos in E2, Hs2 |- *.
  pose proof (header_at_frame _ _ _ _ _ _ Hh1 Hs2 ltac:(lia)) as Hh2.
  assert (exists m3 mi, add_message_integrity p sz (m2, pos) = Ok (m3, pos + integrity_size p, mi) /\
    bytes m3 /\ same_except pos (pos + integrity_size p) m2 m3 /\
    mi = (if addMessageIntegrity p then Some (pos + 4) else None) /\
    (addMessageIntegrity p = true -> exists s, signed_part m3 (pos + 4) = Ok s /\
       attr_at m3 pos MESSAGE_INTEGRITY (HMAC (password p) s))) as (m3 & mi & E3 & Hm3 & Hs3 & Emi & Hi3).
  { unfold integrity_size in *. destruct (addMessageIntegrity p) eqn:Ei.
    - destruct (add_message_integrity_spec p m2 pos sz Ei Hm2) as (m3 & s & E & ? & ? & ? & ?);
        [lia|rewrite (proj1 Hs2), (proj1 Hs1); lia|lia|lia|apply Hh2|].
      exists m3, (Some (pos + 4)). split; [done|]. split; [done|]. split; [done|]. split; [done|].
      intros _. by exists s.
    - exists m2, None. unfold add_message_integrity. rewrite Ei, Z.add_0_r. by split. }
  rewrite E3. cbn [mbind outcome_bind].
  destruct (add_fingerprint_spec m3 (pos + integrity_size p) Hm3) as (m4 & crc & E4 & Hm4 & Hs4 & Hcrc & Hat & Hfp);
    [lia|rewrite (proj1 Hs3), (proj1 Hs2), (proj1 Hs1); lia|].
  rewrite E4. cbn [mbind outcome_bind].
  rewrite require_true by (apply Z.eqb_eq; lia). ostep.
  exists m4, mi, (Z.lxor crc 1398035790). split; [done|].
  split; [rewrite (proj1 Hs4), (proj1 Hs3), (proj1 Hs2), (proj1 Hs1); done|]. split.
  { eapply same_except_trans; [eapply same_except_weaken; [exact Hs1|lia..]|].
    eapply same_except_trans; [eapply same_except_weaken; [exact Hs2|lia..]|].
    eapply same_except_trans; eapply same_except_weaken; try eassumption; lia. }
  pose proof (header_at_frame _ _ _ _ _ _ Hh2 Hs3 ltac:(lia)) as Hh3.
  pose proof (header_at_frame _ _ _ _ _ _ Hh3 Hs4 ltac:(lia)) as Hh4.
  fold sz pos in Ha2 |- *.
  split; fold sz pos; [done|done| |done| | |].
  - apply (attrs_at_frame _ _ _ _ _ _ (attrs_at_frame _ _ _ _ _ _ Ha2 Hs3 ltac:(lia)) Hs4). lia.
  - intros Ei. destruct (Hi3 Ei) as (s & Hsp & Hat'). exists s. split.
    + rewrite (signed_part_frame m3 m4 _ _ _ Hs4); [done|lia..].
    + apply (attr_at_frame _ _ _ _ _ _ _ Hat' Hs4). left. rewrite HMAC_length.
      unfold integrity_size. rewrite Ei. lia.
  - replace (sz - 8) with (pos + integrity_size p) by lia. done.
  - split; [done|]. exists crc. split; [|done]. by replace (sz - 8) with (pos + integrity_size p) by lia.
Qed.
End serialize.

(** * The loop over the attributes of a written message *)

Definition parses (m : list Z) (pos : Z) (ps : parse_state) (l : list (Z * list Z)) (ps' : parse_state) : Prop :=
  forall len fuel, pos + attrs_size l <= len -> len <= 65535 ->
    parse_loop (length l + fuel) m len pos ps = parse_loop fuel m len (pos + attrs_size l) ps'.

Lemma parses_nil m pos ps : parses m pos ps [] ps.
Proof. intros len fuel _ _. cbn. by rewrite Z.add_0_r. Qed.

Lemma parses_app m pos l k ps ps1 ps2 :
  parses m pos ps l ps1 -> parses m (pos + attrs_size l) ps1 k ps2 -> parses m pos ps (l ++ k) ps2.
Proof.
  intros H1 H2 len fuel Hl Hmax. rewrite attrs_size_app in *. pose proof (attrs_size_nonneg k).
  rewrite length_app, <- Nat.add_assoc, H1, H2 by lia. by rewrite Z.add_assoc.
Qed.

Lemma parses_one m pos t v ps ps' :
  20 <= pos -> pos mod 4 = 0 -> attr_at m pos t v -> seenFingerprint ps = false ->
  (seenMessageIntegrity ps && negb (t =? FINGERPRINT)) = false ->
  on_attribute ps m pos t (zlen v) = Ok ps' -> parses m pos ps [(t, v)] ps'.
Proof.
  intros Hpos Hal (Ht & Hn & _) Hf Hm Hon len fuel Hl Hmax. cbn [attrs_size length Nat.add] in *.
  rewrite Z.add_0_r in *. pose proof (zlen_nonneg v) as Hv. pose proof (padded_ge (zlen v) Hv).
  cbn [parse_loop]. destruct (Z.leb_spec (pos + 4) len); [|lia]. rewrite Ht, Hn. ostep.
  destruct (Z.ltb_spec len (pos + 4 + zlen v)); [lia|]. rewrite Hf, Hm. cbn [negb]. ostep.
  rewrite Hon. ostep. f_equal. rewrite wrap_small by (unfold in_uint; lia). unfold padded in *.
    rewrite PadTo4Bytes16_spec; Z.div_mod_to_equations; lia.
Qed.

Definition plain (ps : parse_state) : Prop := seenFingerprint ps = false /\ seenMessageIntegrity ps = false.

(** An optional attribute that sets a field of the packet. *)
Lemma parses_opt m pos (b : bool) t v ps q :
  20 <= pos -> pos mod 4 = 0 -> attrs_at m pos (opt b t v) -> plain ps ->
  (b = true -> attr_at m pos t v -> on_attribute ps m pos t (zlen v) = Ok (set_packet ps q)) ->
  (b = false -> q = packet ps) ->
  parses m pos ps (opt b t v) (set_packet ps q).
Proof.
  intros Hpos Hal Ha [Hf Hm] Hon Hq. destruct b; cbn [opt] in *.
  - destruct Ha as [Ha _]. apply parses_one; [done|done|done|done| |by apply Hon].
    by rewrite Hm.
  - rewrite Hq by done. destruct ps. apply parses_nil.
Qed.

Lemma attr_be4 m pos t x : bytes m -> in_uint 32 x -> attr_at m pos t (be_bytes 4 x) ->
  Get4Bytes m (pos + 4) = Ok x.
Proof.
  intros Hm Hx (_ & _ & Hs). rewrite zlen_be_bytes in Hs. rewrite Get4Bytes_spec by done.
  change 4 with (Z.of_nat 4) at 2. rewrite Hs. ostep. rewrite be_val_wrap. by rewrite wrap_small.
Qed.

Lemma attr_be8 m pos t x : bytes m -> in_uint 64 x -> attr_at m pos t (be_bytes 8 x) ->
  Get8Bytes m (pos + 4) = Ok x.
Proof.
  intros Hm Hx (_ & _ & Hs). rewrite zlen_be_bytes in Hs. rewrite Get8Bytes_spec by done.
  change 8 with (Z.of_nat 8). rewrite Hs. ostep. rewrite be_val_wrap. by rewrite wrap_small.
Qed.

Lemma truthy_false z : truthy z = false -> z = 0.
Proof. unfold truthy. intros H%negb_false_iff. by apply Z.eqb_eq. Qed.

Lemma attr_get1 m pos t v i : attr_at m pos t v -> 0 <= i < zlen v -> get1 m (pos + 4 + i) = get1 v i.
Proof. intros (_ & _ & Hs) Hi. symmetry. by apply (get1_slice _ _ _ _ _ Hs). Qed.

(** The error code of an error response, whatever its value below 25600. *)
Lemma error_code_value code : 0 <= code < 25600 ->
  u16 (codeClass code * 100 + codeNumber code) = code.
Proof.
  intros Hc. unfold codeNumber, codeClass.
  assert (0 <= code / 100 < 256) by (split; [apply Z.div_pos|apply Z.div_lt_upper_bound]; lia).
  rewrite (wrap_small 8 (code / 100)) by (unfold in_uint; lia).
  rewrite wrap_sub_l. assert (code - code / 100 * 100 = code mod 100) as -> by (Z.div_mod_to_equations; lia).
  pose proof (Z.mod_pos_bound code 100).
  rewrite (wrap_small 8) by (unfold in_uint; lia). rewrite wrap_small; [|unfold in_uint; Z.div_mod_to_equations; lia].
  Z.div_mod_to_equations; lia.
Qed.

(** The fields the attributes set, from those of a new packet. *)
Definition code_read (p : stun_packet) : Z := if addErrorCode p then errorCode p else 0.

Definition fields_of (p q : stun_packet) : stun_packet :=
  SetErrorCode
    ((if hasUseCandidate p then SetUseCandidate else id)
      (SetIceControlled (SetIceControlling (SetPriority (SetUsername q (username p)) (priority p))
        (iceControlling p)) (iceControlled p)))
    (code_read p).

Lemma attr_aligned pos l : pos mod 4 = 0 -> (pos + attrs_size l) mod 4 = 0.
Proof.
  intros Hp. pose proof (attrs_size_mod l) as Hl. clear -Hp Hl. Z.div_mod_to_equations; lia.
Qed.

(** One optional attribute, then the others. *)
Lemma parses_chain m pos ps q q' q'' (b : bool) t v l :
  20 <= pos -> pos mod 4 = 0 -> plain ps -> attrs_at m pos (opt b t v ++ l) ->
  (b = true -> attr_at m pos t v ->
     on_attribute (set_packet ps q) m pos t (zlen v) = Ok (set_packet ps q')) ->
  (b = false -> q' = q) ->
  (forall pos', 20 <= pos' -> pos' mod 4 = 0 -> attrs_at m pos' l ->
     parses m pos' (set_packet ps q') l (set_packet ps q'')) ->
  parses m pos (set_packet ps q) (opt b t v ++ l) (set_packet ps q'').
Proof.
  intros Hpos Hal Hps [Ha Hl]%attrs_at_app Hon Hq Hrest.
  pose proof (attrs_size_nonneg (opt b t v)).
  eapply parses_app; [|apply Hrest; [lia|by apply attr_aligned|done]].
  by apply (parses_opt m pos b t v (set_packet ps q) q').
Qed.

Section attributes.
Context (p : stun_packet) (Hp : serializable p) (Hcode : 0 <= errorCode p < 25600).
Context (m : list Z) (Hm : bytes m).

(** The state of the loop at its start. *)
Definition start (k : Class_) (me : Z) (tid : list Z) (len : Z) : parse_state :=
  ParseState (new_StunPacket k me tid m len) false false 0 0.

Lemma parses_attrs k me tid len :
  attrs_at m 20 (attrs_of p) ->
  parses m 20 (start k me tid len) (attrs_of p)
    (set_packet (start k me tid len) (fields_of p (new_StunPacket k me tid m len))).
Proof.
  intros Ha. unfold attrs_of, fields_of in *. set (ps := start k me tid len).
  change ps with (set_packet ps (new_StunPacket k me tid m len)) at 1.
  assert (plain ps) as Hps by done.
  apply (parses_chain m 20 ps _ (SetUsername (new_StunPacket k me tid m len) (username p))); try done.
  { intros _ (_ & _ & Hs). cbn. by rewrite Hs. }
  { intros E. by destruct (username p). }
  intros p1 Hp1 Hal1 Ha1. set (q1 := SetUsername _ _) in *.
  apply (parses_chain m p1 ps _ (SetPriority q1 (priority p))); try done.
  { intros _ Hat. cbn. rewrite (attr_be4 _ _ _ _ Hm (sz_priority p Hp) Hat). done. }
  { intros ->%truthy_false. done. }
  intros p2 Hp2 Hal2 Ha2. set (q2 := SetPriority _ _) in *.
  apply (parses_chain m p2 ps _ (SetIceControlling q2 (iceControlling p))); try done.
  { intros _ Hat. cbn. rewrite (attr_be8 _ _ _ _ Hm (sz_controlling p Hp) Hat). done. }
  { intros ->%truthy_false. done. }
  intros p3 Hp3 Hal3 Ha3. set (q3 := SetIceControlling _ _) in *.
  apply (parses_chain m p3 ps _ (SetIceControlled q3 (iceControlled p))); try done.
  { intros _ Hat. cbn. rewrite (attr_be8 _ _ _ _ Hm (sz_controlled p Hp) Hat). done. }
  { intros ->%truthy_false. done. }
  intros p4 Hp4 Hal4 Ha4. set (q4 := SetIceControlled _ _) in *.
  apply (parses_chain m p4 ps _ ((if hasUseCandidate p then SetUseCandidate else id) q4)); try done.
  { intros -> _. done. }
  { by intros ->. }
  intros p5 Hp5 Hal5 Ha5. set (q5 := (if hasUseCandidate p then SetUseCandidate else id) q4) in *.
  apply (parses_chain m p5 ps _ q5); try done.
  intros p6 Hp6 Hal6 Ha6. unfold code_read.
  apply (parses_opt m p6 _ _ _ (set_packet ps q5)
    (SetErrorCode q5 (if addErrorCode p then errorCode p else 0))); try done.
  - intros -> Hat. cbn. unfold Get1Byte.
    rewrite (attr_get1 _ _ _ _ 2 Hat), (attr_get1 _ _ _ _ 3 Hat) by (change (zlen [_; _; _; _]) with 4; lia).
    change (get1 [0; 0; codeClass (errorCode p); codeNumber (errorCode p)] 2) with (Ok (codeClass (errorCode p))).
    change (get1 [0; 0; codeClass (errorCode p); codeNumber (errorCode p)] 3) with (Ok (codeNumber (errorCode p))).
    ostep. by rewrite error_code_value.
  - intros ->. unfold q5. by destruct (hasUseCandidate p).
Qed.
End attributes.

(** * The header *)

Definition type_ok (k : Class_) (me : Z) (bs : list Z) : bool :=
  match bs with
  | [b0; b1] =>
      (b0 <? 3) && (method_bits (be_val [b0; b1]) =? me)
      && bool_decide (class_of (Z.lor (Z.shiftl (Z.land b0 1) 1) (Z.shiftr (Z.land b1 16) 4)) = k)
  | _ => false
  end.

Lemma type_ok_all k me : in_uint 7 me ->
  type_ok k me (be_bytes 2 (typeField (new_StunPacket k me [] [] 0))) = true.
Proof.
  intros Hme. assert (0 <= me < 128) as Hr by (unfold in_uint in Hme; lia).
  clear Hme. revert me Hr. apply forall_below. destruct k; vm_compute; reflexivity.
Qed.

Lemma typeField_eq p k me : k = klass p -> me = method p ->
  typeField (new_StunPacket k me [] [] 0) = typeField p.
Proof. intros -> ->. reflexivity. Qed.

(** A method of more than seven bits makes a first byte that [IsStun] does not
    take for STUN. *)
Lemma type_bytes p : in_uint 7 (method p) ->
  exists b0 b1, be_bytes 2 (typeField p) = [b0; b1] /\ (b0 <? 3) = true /\
    method_bits (be_val [b0; b1]) = method p /\
    class_of (Z.lor (Z.shiftl (Z.land b0 1) 1) (Z.shiftr (Z.land b1 16) 4)) = klass p.
Proof.
  intros Hp. pose proof (type_ok_all (klass p) (method p) Hp) as Hok.
  rewrite (typeField_eq p) in Hok by done. revert Hok. generalize (be_bytes 2 (typeField p)).
  intros [|b0 [|b1 [|]]] Hok; try discriminate. unfold type_ok in Hok.
  apply andb_true_iff in Hok as [[H0 Hme]%andb_true_iff Hk].
  exists b0, b1. apply Z.eqb_eq in Hme. apply bool_decide_eq_true in Hk. done.
Qed.

Lemma header_decoded p m sz : in_uint 7 (method p) -> bytes m -> header_at p sz m -> 28 <= sz <= zlen m ->
  exists b0 b1 t, get1 m 0 = Ok b0 /\ get1 m 1 = Ok b1 /\ Get2Bytes m 0 = Ok t /\
    IsStun m sz = Ok true /\ method_bits t = method p /\
    class_of (Z.lor (Z.shiftl (Z.land b0 1) 1) (Z.shiftr (Z.land b1 16) 4)) = klass p.
Proof.
  intros Hp Hm (H1 & _ & H3 & _) Hsz.
  destruct (type_bytes p Hp) as (b0 & b1 & Eb & H0 & Hme & Hk). rewrite Eb in H1. clear Eb.
  assert (get1 m 0 = Ok b0) as E0 by exact (eq_sym (get1_slice _ _ _ _ 0 H1 ltac:(lia))).
  assert (get1 m 1 = Ok b1) as E1 by exact (eq_sym (get1_slice _ _ _ _ 1 H1 ltac:(lia))).
  exists b0, b1, (be_val [b0; b1]). split; [done|]. split; [done|]. split.
  { rewrite Get2Bytes_spec by done. by rewrite H1. }
  split; [|done].
  unfold IsStun. destruct (Z.leb_spec 20 sz); [|lia]. cbn [negb]. rewrite E0. ostep.
  rewrite H0. cbn [negb]. rewrite H3. ostep. by rewrite bool_decide_eq_true_2.
Qed.

(** * Round trip *)

(** The packet a receiver makes of the message [p] sent in the buffer of [q]:
    neither XOR-MAPPED-ADDRESS nor the password is kept. *)
Definition received (p q : stun_packet) : stun_packet :=
  StunPacket (klass p) (method p) (transactionId p) (data q) (size q) (username p) (priority p)
    (iceControlling p) (iceControlled p) (hasUseCandidate p) (messageIntegrity q) true None
    (code_read p) [].

Section round_trip.
Context `{HmacLaws}.

(** The last two attributes. *)
Lemma parses_end p m mi fp ps :
  serializable p -> written p m mi fp -> plain ps -> messageIntegrity (packet ps) = None ->
  exists l, attrs_size l = total_size p - (20 + attrs_size (attrs_of p)) /\
    parses m (20 + attrs_size (attrs_of p)) ps l
      (ParseState (SetFingerprint (SetMessageIntegrity (packet ps) mi)) (addMessageIntegrity p) true
        (total_size p - 8) fp).
Proof.
  intros Hp [Hm Hh Ha Hmi Hi Hf [Hfr _]] [Hpf Hpm] Hnone. pose proof (total_size_spec p Hp) as Hsz.
  set (pos := 20 + attrs_size (attrs_of p)) in *.
  assert (20 <= pos) as Hpos by (pose proof (attrs_size_nonneg (attrs_of p)); lia).
  assert (pos mod 4 = 0) as Hal by by apply attr_aligned.
  assert (Hfp : forall ps1, seenFingerprint ps1 = false ->
    parses m (total_size p - 8) ps1 [(FINGERPRINT, be_bytes 4 fp)]
      (ParseState (SetFingerprint (packet ps1)) (seenMessageIntegrity ps1) true (total_size p - 8) fp)).
  { intros ps1 H1. destruct (total_size_bounds p Hp) as [? Hal'].
    apply parses_one; [lia| |done|done|by rewrite andb_false_r|].
    - clear -Hal'. Z.div_mod_to_equations; lia.
    - unfold on_attribute. rewrite zlen_be_bytes. rewrite (attr_be4 _ _ _ _ Hm Hfr Hf). done. }
  destruct (addMessageIntegrity p) eqn:Eadd.
  - destruct (Hi eq_refl) as (s & _ & Hat). assert (integrity_size p = 24) as Es by (unfold integrity_size; by rewrite Eadd).
    exists [(MESSAGE_INTEGRITY, HMAC (password p) s); (FINGERPRINT, be_bytes 4 fp)].
    cbn [attrs_size]. rewrite HMAC_length, zlen_be_bytes. split; [change (padded 20) with 20; change (padded _) with 4; lia|].
    change [?x; ?y] with ([x] ++ [y]). eapply parses_app.
    + apply parses_one; [done|done|exact Hat|done|by rewrite Hpm|].
      unfold on_attribute. rewrite HMAC_length. reflexivity.
    + cbn [attrs_size]. rewrite HMAC_length. change (padded 20) with 20.
      replace (pos + (4 + 20 + 0)) with (total_size p - 8) by lia.
      specialize (Hfp (ParseState (SetMessageIntegrity (packet ps) (Some (pos + 4))) true
        (seenFingerprint ps) (fingerprintAttrPos ps) (fingerprint ps)) Hpf).
      rewrite Hmi. exact Hfp.
  - assert (integrity_size p = 0) as Es by (unfold integrity_size; by rewrite Eadd).
    exists [(FINGERPRINT, be_bytes 4 fp)]. cbn [attrs_size]. rewrite zlen_be_bytes.
    split; [change (padded _) with 4; lia|]. replace pos with (total_size p - 8) by lia.
    specialize (Hfp ps Hpf). rewrite Hpm in Hfp. rewrite Hmi.
    assert (SetMessageIntegrity (packet ps) None = packet ps) as ->; [|exact Hfp].
    rewrite <- Hnone. by destruct (packet ps).
Qed.

Lemma land_mod4 z : z mod 4 = 0 -> truthy (Z.land z 3) = false.
Proof. intros Hz. by rewrite land3, Hz. Qed.

Lemma Parse_written p m mi fp :
  serializable p -> in_uint 7 (method p) -> 0 <= errorCode p < 25600 -> total_size p <= zlen m -> written p m mi fp ->
  Parse m (total_size p) = Ok (received p (sent p m mi)).
Proof.
  intros Hp Hmet Hcode Hl Hw. destruct (total_size_bounds p Hp) as [Hsz Hal].
  pose proof Hw as [Hm Hh Ha Hmi Hi Hf [Hfr (crc & Hcrc & Efp)]].
  destruct (header_decoded p m _ Hmet Hm Hh ltac:(lia)) as (b0 & b1 & t & E0 & E1 & Et & Est & Hme & Hk).
  pose proof Hh as (_ & Hlen & _ & Htid).
  unfold Parse. rewrite Est. ostep. rewrite Et, Hlen. ostep. rewrite Z.eqb_refl. cbn [negb orb].
  rewrite land_mod4; cycle 1. { clear -Hal. Z.div_mod_to_equations; lia. }
  cbn [negb]. ostep. rewrite E0, E1, Htid. ostep. rewrite Hk.
  change (Z.lor (Z.lor (Z.land t 15) _) _) with (method_bits t). rewrite Hme.
  change (ParseState _ false false 0 0) with (start m (klass p) (method p) (transactionId p) (total_size p)).
  pose proof (parses_attrs p Hp Hcode m Hm (klass p) (method p) (transactionId p) (total_size p) Ha) as Hpa.
  destruct (parses_end p m mi fp (set_packet (start m (klass p) (method p) (transactionId p) (total_size p))
    (fields_of p (new_StunPacket (klass p) (method p) (transactionId p) m (total_size p)))) Hp Hw)
    as (l & Hls & Hpe); [done|unfold fields_of; by destruct (hasUseCandidate p)|].
  pose proof (parses_app _ _ _ _ _ _ _ Hpa Hpe) as Hall.
  pose proof (attrs_size_length (attrs_of p ++ l)) as Hn. rewrite attrs_size_app, Hls in Hn.
  assert (parse_fuel (total_size p) = (length (attrs_of p ++ l) +
    (parse_fuel (total_size p) - length (attrs_of p ++ l)))%nat) as ->.
  { unfold parse_fuel, zlen in *. pose proof (attrs_size_nonneg (attrs_of p)). lia. }
  rewrite (Hall (total_size p)) by (rewrite ?attrs_size_app, ?Hls; lia).
  rewrite attrs_size_app, Hls.
  replace (20 + (attrs_size (attrs_of p) + (total_size p - (20 + attrs_size (attrs_of p)))))
    with (total_size p) by lia.
  assert (forall fuel ps, parse_loop fuel m (total_size p) (total_size p) ps = Ok (total_size p, ps)) as ->.
  { intros fuel ps. destruct fuel; cbn [parse_loop]; destruct (Z.leb_spec (total_size p + 4) (total_size p)); done || lia. }
  cbn [mbind outcome_bind]. rewrite Z.eqb_refl. ostep. cbn [seenFingerprint fingerprintAttrPos fingerprint packet].
  rewrite Hcrc. ostep. rewrite Efp, Z.eqb_refl. ostep. f_equal.
  unfold received, fields_of. by destruct (hasUseCandidate p).
Qed.

(** C38: A message written into any buffer that is large enough is parsed back:
    class, method, transaction id and all the attributes are those that were
    set, and MESSAGE-INTEGRITY is where the writer left it and valid under its
    password; the buffer is changed inside the message only. *)
Theorem stun_round_trip p m :
  serializable p -> in_uint 7 (method p) -> 0 <= errorCode p < 25600 -> bytes m -> total_size p <= zlen m ->
  exists q, Serialize p m = Ok q /\ size q = total_size p /\ same_except 0 (size q) m (data q) /\
    Parse (data q) (size q) = Ok (received p q) /\
    HasMessageIntegrity q = addMessageIntegrity p /\
    (addMessageIntegrity p = true -> integrity_valid (received p q) (password p) = true).
Proof.
  intros Hp Hmet Hcode Hm Hl. destruct (Serialize_written p m Hp Hm Hl) as (m' & mi & fp & Es & Hz & Hs & Hw).
  exists (sent p m' mi). split; [done|]. split; [done|]. split; [done|].
  split; [apply (Parse_written p m' mi fp Hp Hmet Hcode); [lia|done]|].
  destruct Hw as [_ _ _ Hmi Hi _ _]. subst mi. split.
  - cbn. by destruct (addMessageIntegrity p).
  - intros E. destruct (Hi E) as (s & Hsp & _ & _ & Hd). rewrite HMAC_length in Hd.
    unfold integrity_valid. cbn. rewrite E, Hd, Hsp. by apply bool_decide_eq_true.
Qed.

(** A request sent with a user name of the form local:remote and a password
    is authenticated by the peer that has that user name and that password. *)
Theorem authenticated_request p m local remote :
  serializable p -> in_uint 7 (method p) -> 0 <= errorCode p < 25600 -> bytes m -> total_size p <= zlen m ->
  klass p = REQUEST -> username p = local ++ 58 :: remote -> password p <> [] ->
  exists q r, Serialize p m = Ok q /\ Parse (data q) (size q) = Ok r /\
    CheckAuthentication r local (password p) = Ok (OK, r).
Proof.
  intros Hp Hmet Hcode Hm Hl Hk Hu Hpw.
  destruct (Serialize_written p m Hp Hm Hl) as (m' & mi & fp & Es & Hz & Hs & Hw).
  exists (sent p m' mi), (received p (sent p m' mi)). split; [done|].
  pose proof (Parse_written p m' mi fp Hp Hmet Hcode ltac:(lia) Hw) as Hparse. split; [done|].
  assert (stun_wf (received p (sent p m' mi))) as Hwf.
  { destruct (total_size_bounds p Hp). pose proof (StunParse_safe m' (total_size p) (wr_bytes _ _ _ _ Hw)) as Hsafe.
    rewrite Hparse in Hsafe. apply Hsafe; lia. }
  assert (addMessageIntegrity p = true) as Eadd.
  { unfold addMessageIntegrity. rewrite Hk, bool_decide_eq_false_2 by done.
    by destruct (password p). }
  rewrite (CheckAuthentication_unfold _ _ _ Hwf) by by left.
  pose proof (wr_mi _ _ _ _ Hw) as Hmi. rewrite Eadd in Hmi. subst mi.
  cbn [messageIntegrity received sent SetFingerprint SetMessageIntegrity].
  replace (empty (username (received p _))) with false by (cbn; rewrite Hu; by destruct local).
  destruct (wr_integrity _ _ _ _ Hw Eadd) as (s & Hsp & _ & _ & Hd). rewrite HMAC_length in Hd.
  rewrite (proj2 (username_matches_spec _ _)) by (exists remote; done). cbn [andb].
  assert (integrity_valid (received p (sent p m' (Some (20 + attrs_size (attrs_of p) + 4)))) (password p) = true) as Ev.
  { unfold integrity_valid. cbn. rewrite Hd, Hsp. by apply bool_decide_eq_true. }
  rewrite Ev. done.
Qed.
End round_trip.

(** * XOR-MAPPED-ADDRESS at the receiver *)

(** RFC 5389: the address masked by XOR-MAPPED-ADDRESS [v] in a message with
    the transaction id [tid]. *)
Definition unmask (v tid : list Z) : option sockaddr :=
  match v with
  | 0 :: 1 :: v =>
      Some (sockaddr_in (zip_with xor8 (take 2 v) (take 2 magicCookie))
              (zip_with xor8 (drop 2 v) magicCookie))
  | 0 :: 2 :: v =>
      Some (sockaddr_in6 (zip_with xor8 (take 2 v) (take 2 magicCookie))
              (zip_with xor8 (drop 2 v) (magicCookie ++ tid)))
  | _ => None
  end.

Lemma xor8_twice b v : in_uint 8 b -> in_uint 8 v -> xor8 (xor8 b v) v = b.
Proof.
  intros Hb Hv. unfold xor8. rewrite (wrap_small 8 (Z.lxor b v)) by (by apply lxor_in_uint).
  rewrite Z.lxor_assoc, Z.lxor_nilpotent, Z.lxor_0_r. by apply wrap_small.
Qed.

Lemma zip_xor_twice s : forall vs, bytes s -> bytes vs -> zlen s = zlen vs ->
  zip_with xor8 (zip_with xor8 s vs) vs = s.
Proof.
  unfold zlen. induction s as [|x s IH]; intros [|v vs] Hs Hv Hl; cbn in *; try lia; [done|].
  apply Forall_cons in Hs as [Hx Hs]. apply Forall_cons in Hv as [Hv Hvs].
  rewrite xor8_twice by done. f_equal. apply IH; [done|done|lia].
Qed.

Lemma unmask_xored a tid : inet a -> zlen tid = 12 -> bytes tid -> unmask (xored_address a tid) tid = Some a.
Proof.
  intros Ha Ht Hb. assert (bytes magicCookie) as Hc by check_bytes.
  assert (bytes (take 2 magicCookie)) as Hc2 by check_bytes.
  destruct a as [port ip|port ip|f]; cbn in Ha; [| |done]; destruct Ha as (Hp & Hi & Bp & Bi);
    cbn [xored_address unmask];
    (assert (length (zip_with xor8 port (take 2 magicCookie)) = 2%nat) as Hl
       by (pose proof (zlen_zip_xor port (take 2 magicCookie) Hp) as E; unfold zlen in E;
           change (length (take 2 magicCookie)) with 2%nat in E; lia));
    rewrite take_app_length', drop_app_length' by done;
    rewrite !zip_xor_twice; try done; rewrite ?zlen_app, ?Ht, ?Hi; try done.
  unfold bytes. rewrite Forall_app. by split.
Qed.

Section address.
Context `{HmacLaws}.

(** A success response to a binding request carries the address it was given:
    a receiver that unmasks XOR-MAPPED-ADDRESS with the transaction id of the
    message finds it. *)
Theorem mapped_address_sent p m a :
  serializable p -> bytes m -> total_size p <= zlen m -> klass p = SUCCESS_RESPONSE ->
  method p = BINDING -> xorMappedAddress p = Some a -> inet a ->
  exists q pos v, Serialize p m = Ok q /\ slice (data q) 8 12 = Ok (transactionId p) /\
    20 <= pos /\ attr_at (data q) pos XOR_MAPPED_ADDRESS v /\ unmask v (transactionId p) = Some a.
Proof.
  intros Hp Hm Hl Hk Hme Ha Hi. destruct (Serialize_written p m Hp Hm Hl) as (m' & mi & fp & Es & _ & _ & Hw).
  pose proof (wr_attrs _ _ _ _ Hw) as Hat.
  assert (has_address p = true) as Hh.
  { unfold has_address, xorMappedAddressPaddedLen. rewrite Ha, Hme, Hk. by destruct a. }
  assert (exists l k, attrs_of p = l ++ (XOR_MAPPED_ADDRESS, address_value p) :: k) as (l & k & El).
  { unfold attrs_of. rewrite Hh. rewrite !app_assoc. rewrite <- app_assoc. cbn [opt app]. by do 2 eexists. }
  rewrite El in Hat. apply attrs_at_app in Hat as [_ [Hat _]].
  exists (sent p m' mi), (20 + attrs_size l), (address_value p). split; [done|].
  pose proof (wr_header _ _ _ _ Hw) as (_ & _ & _ & Htid). pose proof (attrs_size_nonneg l).
  split; [done|]. split; [lia|]. split; [done|].
  unfold address_value. rewrite Ha. by apply unmask_xored; [|apply Hp..].
Qed.
End address.

(** * Witnesses *)

Definition sample_sent : stun_packet :=
  StunPacket REQUEST BINDING (seqZ 1 12) [] 0 [97; 98; 58; 99] 7 0 5 true None false None 0 [1; 2].

Definition sample_response : stun_packet :=
  StunPacket SUCCESS_RESPONSE BINDING (seqZ 1 12) [] 0 [] 0 0 0 false None false
    (Some (sockaddr_in [4; 210] [192; 168; 1; 2])) 0 [1; 2].

Lemma sample_serializable : serializable sample_sent /\ serializable sample_response.
Proof.
  split; split; try (vm_compute; (reflexivity || discriminate || (split; [discriminate|reflexivity])));
    try check_bytes; intros a _ [= <-]; apply (bool_decide_unpack _); vm_compute; exact I.
Qed.

Lemma stun_round_trip_witness :
  exists q, Serialize sample_sent (replicate 200 255) = Ok q /\ Parse (data q) 84 = Ok (received sample_sent q).
Proof.
  destruct (stun_round_trip sample_sent (replicate 200 255) (proj1 sample_serializable)) as (q & Hq & Hs & _ & Hr & _).
  - split; vm_compute; congruence.
  - split; vm_compute; congruence.
  - check_bytes.
  - vm_compute. congruence.
  - exists q. split; [exact Hq|]. rewrite Hs in Hr. exact Hr.
Defined.

Lemma authenticated_request_witness :
  exists q r, Serialize sample_sent (replicate 200 255) = Ok q /\ Parse (data q) (size q) = Ok r /\
    CheckAuthentication r [97; 98] [1; 2] = Ok (OK, r).
Proof.
  apply (authenticated_request sample_sent (replicate 200 255) [97; 98] [99] (proj1 sample_serializable)).
  - split; vm_compute; congruence.
  - split; vm_compute; congruence.
  - check_bytes.
  - vm_compute. congruence.
  - reflexivity.
  - reflexivity.
  - discriminate.
Defined.

Lemma mapped_address_sent_witness :
  exists q pos v, Serialize sample_response (replicate 200 255) = Ok q /\
    slice (data q) 8 12 = Ok (seqZ 1 12) /\ 20 <= pos /\
    attr_at (data q) pos XOR_MAPPED_ADDRESS v /\
    unmask v (seqZ 1 12) = Some (sockaddr_in [4; 210] [192; 168; 1; 2]).
Proof.
  apply (mapped_address_sent sample_response (replicate 200 255) (sockaddr_in [4; 210] [192; 168; 1; 2])
    (proj2 sample_serializable)).
  - check_bytes.
  - vm_compute. congruence.
  - reflexivity.
  - reflexivity.
  - reflexivity.
  - apply (bool_decide_unpack _). vm_compute. exact I.
Defined.
