(* ===== verification/IceServer.v ===== *)
(** [RTC::IceServer] (worker/src/RTC/IceServer.cpp,
    worker/include/RTC/IceServer.hpp) and the tuples it keeps
    (worker/include/RTC/TransportTuple.hpp).

    The list of tuples owns its elements and the rest of the code points at
    them: an element is stored with an address of its own, which the selected
    tuple refers to.  The calls of the listener are the events the server
    emits, in their order; the listener does not call back. *)

From S2P Require Export StunPacket.

(** * [TransportTuple] *)

(** A socket and a connection are known by their addresses; a connection knows
    the address of its peer. *)
Inductive tuple : Type :=
| UDP (udpSocket : Z) (udpRemoteAddr : sockaddr) (localAnnouncedIp : list Z)
| TCP (tcpConnection : Z) (peerAddress : sockaddr) (localAnnouncedIp : list Z).

Definition Compare (t1 t2 : tuple) : bool :=
  match t1, t2 with
  | UDP s1 a1 _, UDP s2 a2 _ => (s1 =? s2) && CompareAddresses a1 a2
  | TCP c1 _ _, TCP c2 _ _ => c1 =? c2
  | _, _ => false
  end.

Definition GetRemoteAddress (t : tuple) : sockaddr :=
  match t with UDP _ a _ => a | TCP _ a _ => a end.

(** * State *)

Inductive IceState : Type := NEW | CONNECTED | COMPLETED | DISCONNECTED.

#[export] Instance IceState_eq_dec : EqDecision IceState.
Proof. solve_decision. Defined.

Inductive event : Type :=
| OnIceServerSendStunPacket (packet : stun_packet) (t : tuple)
| OnIceServerSelectedTuple (addr : nat)
| OnIceServerConnected
| OnIceServerCompleted
| OnIceServerDisconnected.

Record ice_server : Type := IceServer {
  usernameFragment : list Z;
  password : list Z;
  oldUsernameFragment : list Z;
  oldPassword : list Z;
  state : IceState;
  tuples : list (nat * tuple);
  selectedTuple : option nat;
  nextAddress : nat;             (** the address of the next element *)
  StunSerializeBuffer : list Z;  (** a static buffer of the file *)
  emitted : list event           (** calls of the listener so far *)
}.

Definition StunSerializeBufferSize : Z := 65536.

Definition new_IceServer (u pw buffer : list Z) : ice_server :=
  IceServer u pw [] [] NEW [] None 0 buffer [].

Definition emit (s : ice_server) (e : event) : ice_server :=
  IceServer (usernameFragment s) (password s) (oldUsernameFragment s) (oldPassword s) (state s)
    (tuples s) (selectedTuple s) (nextAddress s) (StunSerializeBuffer s) (emitted s ++ [e]).

Definition set_state (s : ice_server) (st : IceState) : ice_server :=
  IceServer (usernameFragment s) (password s) (oldUsernameFragment s) (oldPassword s) st
    (tuples s) (selectedTuple s) (nextAddress s) (StunSerializeBuffer s) (emitted s).

Definition set_tuples (s : ice_server) (l : list (nat * tuple)) (sel : option nat) (next : nat)
  : ice_server :=
  IceServer (usernameFragment s) (password s) (oldUsernameFragment s) (oldPassword s) (state s)
    l sel next (StunSerializeBuffer s) (emitted s).

Definition set_old (s : ice_server) (u pw : list Z) : ice_server :=
  IceServer (usernameFragment s) (password s) u pw (state s)
    (tuples s) (selectedTuple s) (nextAddress s) (StunSerializeBuffer s) (emitted s).

Definition set_serialize_buffer (s : ice_server) (b : list Z) : ice_server :=
  IceServer (usernameFragment s) (password s) (oldUsernameFragment s) (oldPassword s) (state s)
    (tuples s) (selectedTuple s) (nextAddress s) b (emitted s).

Definition SetUsernameFragment (s : ice_server) (u : list Z) : ice_server :=
  IceServer u (password s) (usernameFragment s) (oldPassword s) (state s)
    (tuples s) (selectedTuple s) (nextAddress s) (StunSerializeBuffer s) (emitted s).

Definition SetPassword (s : ice_server) (pw : list Z) : ice_server :=
  IceServer (usernameFragment s) pw (oldUsernameFragment s) (password s) (state s)
    (tuples s) (selectedTuple s) (nextAddress s) (StunSerializeBuffer s) (emitted s).

(** * Tuples *)

(** The tuple at an address. *)
Fixpoint deref (l : list (nat * tuple)) (addr : nat) : option tuple :=
  match l with
  | [] => None
  | (a, t) :: l => if Nat.eqb a addr then Some t else deref l addr
  end.

(** The first element that compares. *)
Fixpoint find_tuple (l : list (nat * tuple)) (t : tuple) : option nat :=
  match l with
  | [] => None
  | (a, t') :: l => if Compare t' t then Some a else find_tuple l t
  end.

(** [erase] at the element that compares. *)
Fixpoint erase_tuple (l : list (nat * tuple)) (addr : nat) : list (nat * tuple) :=
  match l with
  | [] => []
  | (a, t) :: l => if Nat.eqb a addr then l else (a, t) :: erase_tuple l addr
  end.

(** A stored UDP tuple gets a copy of the remote address, which is the value the
    tuple of the model has. *)
Definition AddTuple (s : ice_server) (t : tuple) : ice_server * nat :=
  (set_tuples s ((nextAddress s, t) :: tuples s) (selectedTuple s) (S (nextAddress s)),
   nextAddress s).

Definition HasTuple (s : ice_server) (t : tuple) : outcome (option nat) :=
  match selectedTuple s with
  | None => Ok None
  | Some a =>
      match deref (tuples s) a with
      | None => Err OutOfBounds   (** a pointer to an element that is gone *)
      | Some t' => if Compare t' t then Ok (Some a) else Ok (find_tuple (tuples s) t)
      end
  end.

Definition SetSelectedTuple (s : ice_server) (storedTuple : nat) : ice_server :=
  if bool_decide (selectedTuple s = Some storedTuple) then s
  else emit (set_tuples s (tuples s) (Some storedTuple) (nextAddress s))
         (OnIceServerSelectedTuple storedTuple).

Definition IsValidTuple (s : ice_server) (t : tuple) : outcome bool :=
  r ← HasTuple s t; Ok (match r with Some _ => true | None => false end).

(** [!this->tuples.empty()] and [this->selectedTuple] as conditions. *)
Definition has_tuples (s : ice_server) : bool := match tuples s with [] => false | _ => true end.
Definition has_selected (s : ice_server) : bool :=
  match selectedTuple s with Some _ => true | None => false end.

Definition RemoveTuple (s : ice_server) (t : tuple) : ice_server :=
  match find_tuple (tuples s) t with
  | None => s
  | Some removed =>
      let l := erase_tuple (tuples s) removed in
      let s := set_tuples s l (selectedTuple s) (nextAddress s) in
      if negb (bool_decide (selectedTuple s = Some removed)) then s
      else
        let s := set_tuples s l None (nextAddress s) in
        match l with
        | (first, _) :: _ => SetSelectedTuple s first
        | [] => emit (set_state s DISCONNECTED) OnIceServerDisconnected
        end
  end.

Definition ForceSelectedTuple (s : ice_server) (t : tuple) : outcome ice_server :=
  _ ← require AssertFailed (has_selected s);
  storedTuple ← HasTuple s t;
  match storedTuple with
  | None => Err AssertFailed
  | Some a => Ok (SetSelectedTuple s a)
  end.

(** The cases [NEW] and [DISCONNECTED]. *)
Definition first_tuple (s : ice_server) (t : tuple) (hasUseCandidate : bool) : outcome ice_server :=
  _ ← require AssertFailed (negb (has_tuples s));
  _ ← require AssertFailed (negb (has_selected s));
  let '(s, storedTuple) := AddTuple s t in
  let s := SetSelectedTuple s storedTuple in
  if negb hasUseCandidate then Ok (emit (set_state s CONNECTED) OnIceServerConnected)
  else Ok (emit (set_state s COMPLETED) OnIceServerCompleted).

(** [auto* storedTuple = HasTuple(tuple); if (!storedTuple) storedTuple = AddTuple(tuple);] *)
Definition stored_tuple (s : ice_server) (t : tuple) : outcome (ice_server * nat) :=
  r ← HasTuple s t;
  Ok (match r with Some a => (s, a) | None => AddTuple s t end).

(** The cases [CONNECTED] and [COMPLETED]. *)
Definition other_tuple (s : ice_server) (t : tuple) (hasUseCandidate : bool) : outcome ice_server :=
  _ ← require AssertFailed (has_tuples s);
  _ ← require AssertFailed (has_selected s);
  r ← stored_tuple s t;
  let '(s, storedTuple) := r in
  if negb hasUseCandidate then Ok s
  else
    let s := SetSelectedTuple s storedTuple in
    match state s with
    | CONNECTED => Ok (emit (set_state s COMPLETED) OnIceServerCompleted)
    | _ => Ok s
    end.

Definition HandleTuple (s : ice_server) (t : tuple) (hasUseCandidate : bool) : outcome ice_server :=
  match state s with
  | NEW | DISCONNECTED => first_tuple s t hasUseCandidate
  | CONNECTED | COMPLETED => other_tuple s t hasUseCandidate
  end.

(** * STUN messages *)

Section process.
Context `{HmacSha1}.

(** [response->Serialize(StunSerializeBuffer); OnIceServerSendStunPacket(...)]. *)
Definition send_response (s : ice_server) (response : stun_packet) (t : tuple) : outcome ice_server :=
  response ← Serialize response (StunSerializeBuffer s);
  Ok (emit (set_serialize_buffer s (data response)) (OnIceServerSendStunPacket response t)).

Definition reply_error (s : ice_server) (p : stun_packet) (t : tuple) (code : Z) : outcome ice_server :=
  response ← CreateErrorResponse p code;
  send_response s response t.

Definition reply_success (s : ice_server) (p : stun_packet) (t : tuple) : outcome ice_server :=
  response ← CreateSuccessResponse p;
  let response := SetXorMappedAddress response (Some (GetRemoteAddress t)) in
  let response := Authenticate response (if empty (oldPassword s) then password s else oldPassword s) in
  send_response s response t.

(** The credentials: an error to answer, or the server and packet to go on
    with. *)
Definition check_credentials (s : ice_server) (p : stun_packet)
  : outcome (ice_server * stun_packet * option Z) :=
  r ← CheckAuthentication p (usernameFragment s) (password s);
  let '(a, p) := r in
  match a with
  | OK => Ok (if negb (empty (oldPassword s)) then set_old s [] [] else s, p, None)
  | UNAUTHORIZED =>
      if negb (empty (oldUsernameFragment s)) && negb (empty (oldPassword s)) then
        r ← CheckAuthentication p (oldUsernameFragment s) (oldPassword s);
        let '(a, p) := r in
        if bool_decide (a = OK) then Ok (s, p, None) else Ok (s, p, Some 401)
      else Ok (s, p, Some 401)
  | BAD_REQUEST => Ok (s, p, Some 400)
  end.

Definition process_request (s : ice_server) (p : stun_packet) (t : tuple) : outcome ice_server :=
  if negb (HasMessageIntegrity p) || (priority p =? 0) || empty (username p) then reply_error s p t 400
  else
    r ← check_credentials s p;
    let '(s, p, code) := r in
    match code with
    | Some code => reply_error s p t code
    | None =>
        if truthy (iceControlled p) then reply_error s p t 487
        else
          s ← reply_success s p t;
          HandleTuple s t (hasUseCandidate p)
    end.

Definition ProcessStunPacket (s : ice_server) (p : stun_packet) (t : tuple) : outcome ice_server :=
  if negb (method p =? BINDING) then
    if bool_decide (klass p = REQUEST) then reply_error s p t 400 else Ok s
  else if negb (hasFingerprint p) && negb (bool_decide (klass p = INDICATION)) then
    if bool_decide (klass p = REQUEST) then reply_error s p t 400 else Ok s
  else
    match klass p with
    | REQUEST => process_request s p t
    | INDICATION | SUCCESS_RESPONSE | ERROR_RESPONSE => Ok s
    end.
End process.
