(* ===== verification/IceFacts.v ===== *)
(** The ICE server: its invariant, and that no operation breaks it or fails an
    assertion. *)

From S2P Require Export StunRoundTrip IceServer.

#[local] Arguments SetSelectedTuple : simpl never.

(** * Invariant *)

(** Two tuples of the list never compare; the newest is the first. *)
Fixpoint distinct (l : list (nat * tuple)) : Prop :=
  match l with
  | [] => True
  | (_, t) :: l => (forall a t', (a, t') ∈ l -> Compare t' t = false) /\ distinct l
  end.

Definition idle (s : ice_server) : Prop := state s = NEW \/ state s = DISCONNECTED.

#[export] Instance idle_dec s : Decision (idle s).
Proof. unfold idle. apply _. Defined.

Record ice_inv (s : ice_server) : Prop := {
  inv_nodup : NoDup (tuples s).*1;
  inv_fresh : forall a, a ∈ (tuples s).*1 -> (a < nextAddress s)%nat;
  inv_selected : match selectedTuple s with
                 | Some a => a ∈ (tuples s).*1
                 | None => tuples s = []
                 end;
  inv_state : tuples s = [] <-> idle s;
  inv_distinct : distinct (tuples s);
  inv_buffer : bytes (StunSerializeBuffer s) /\ zlen (StunSerializeBuffer s) = StunSerializeBufferSize
}.

(** A tuple whose remote address has the lengths of its family. *)
Definition tuple_ok (t : tuple) : Prop :=
  match GetRemoteAddress t with sockaddr_other _ => True | a => inet a end.

(** * The list of tuples *)

Lemma deref_elem l a t : NoDup l.*1 -> (a, t) ∈ l -> deref l a = Some t.
Proof.
  induction l as [|[b u] l IH]; intros Hn Hin; [by apply not_elem_of_nil in Hin|].
  cbn in Hn. apply NoDup_cons in Hn as [Hb Hn]. cbn.
  apply elem_of_cons in Hin as [[= -> ->]|Hin]; [by rewrite Nat.eqb_refl|].
  destruct (Nat.eqb_spec b a) as [->|]; [|by apply IH].
  destruct Hb. by apply (list_elem_of_fmap_2 fst _ (a, t)).
Qed.

Lemma deref_some l a t : deref l a = Some t -> (a, t) ∈ l.
Proof.
  induction l as [|[b u] l IH]; cbn; [done|]. destruct (Nat.eqb_spec b a) as [->|].
  - intros [= ->]. apply elem_of_cons. by left.
  - intros Hd. apply elem_of_cons. right. by apply IH.
Qed.

Lemma elem_fst (l : list (nat * tuple)) a : a ∈ l.*1 -> exists t, (a, t) ∈ l.
Proof. intros ((b & t) & -> & Hin)%list_elem_of_fmap. by exists t. Qed.

Lemma fst_elem (l : list (nat * tuple)) a t : (a, t) ∈ l -> a ∈ l.*1.
Proof. apply (list_elem_of_fmap_2 fst l (a, t)). Qed.

Lemma find_tuple_some l t a : find_tuple l t = Some a -> exists t', (a, t') ∈ l /\ Compare t' t = true.
Proof.
  induction l as [|[b u] l IH]; cbn; [done|]. destruct (Compare u t) eqn:E.
  - intros [= ->]. exists u. split; [apply elem_of_cons; by left|done].
  - intros (t' & Hin & Hc)%IH. exists t'. split; [apply elem_of_cons; by right|done].
Qed.

Lemma find_tuple_none l t : find_tuple l t = None -> forall a t', (a, t') ∈ l -> Compare t' t = false.
Proof.
  induction l as [|[b u] l IH]; cbn; intros Hf a t' Hin; [by apply not_elem_of_nil in Hin|].
  destruct (Compare u t) eqn:E; [done|].
  apply elem_of_cons in Hin as [[= -> ->]|Hin]; [done|by eapply IH].
Qed.

Lemma erase_elem l a x : NoDup l.*1 -> x ∈ erase_tuple l a <-> x ∈ l /\ x.1 <> a.
Proof.
  induction l as [|[b u] l IH]; intros Hn; [set_solver|]. cbn in Hn.
  apply NoDup_cons in Hn as [Hb Hn]. cbn. destruct (Nat.eqb_spec b a) as [->|Hne].
  - split.
    + intros Hin. split; [apply elem_of_cons; by right|]. intros E. destruct Hb.
      rewrite <- E. destruct x. by eapply fst_elem.
    + intros [[->|Hin]%elem_of_cons Hx]; [done|done].
  - rewrite !elem_of_cons, IH by done. split.
    + intros [->|[Hin Hx]]; [split; [by left|done]|split; [by right|done]].
    + intros [[->|Hin] Hx]; [by left|right; done].
Qed.

Lemma erase_sub l a b : b ∈ (erase_tuple l a).*1 -> b ∈ l.*1.
Proof.
  induction l as [|[c u] l IH]; [done|]. cbn. destruct (Nat.eqb c a); cbn; [set_solver|].
  rewrite !elem_of_cons. intros [->|Hb]; [by left|right; by apply IH].
Qed.

Lemma erase_nodup l a : NoDup l.*1 -> NoDup (erase_tuple l a).*1.
Proof.
  induction l as [|[c u] l IH]; [done|]. cbn. intros [Hc Hn]%NoDup_cons.
  destruct (Nat.eqb c a); [done|]. cbn. apply NoDup_cons. split; [|by apply IH].
  intros Hin. by apply Hc, (erase_sub _ a).
Qed.

Lemma erase_distinct l a : NoDup l.*1 -> distinct l -> distinct (erase_tuple l a).
Proof.
  induction l as [|[c u] l IH]; [done|]. cbn. intros [Hc Hn]%NoDup_cons [Hu Hl].
  destruct (Nat.eqb c a); [done|]. cbn. split; [|by apply IH].
  intros b t' Hin. apply (Hu b). by apply (erase_elem l a (b, t') Hn) in Hin as [? _].
Qed.

(** * [HasTuple] *)

Definition stores (s : ice_server) (a : nat) (t : tuple) : Prop :=
  exists t', deref (tuples s) a = Some t' /\ Compare t' t = true.

Lemma HasTuple_spec s t : ice_inv s ->
  exists r, HasTuple s t = Ok r /\
    match r with
    | Some a => a ∈ (tuples s).*1 /\ stores s a t
    | None => forall a t', (a, t') ∈ tuples s -> Compare t' t = false
    end.
Proof.
  intros [Hn _ Hsel _ _ _]. unfold HasTuple. destruct (selectedTuple s) as [a|].
  - destruct (elem_fst _ _ Hsel) as [u Hu]. rewrite (deref_elem _ _ _ Hn Hu).
    destruct (Compare u t) eqn:E.
    + exists (Some a). split; [done|]. split; [done|]. exists u. split; [by apply deref_elem|done].
    + destruct (find_tuple (tuples s) t) as [b|] eqn:Ef.
      * exists (Some b). split; [done|]. destruct (find_tuple_some _ _ _ Ef) as (t' & Hin & Hc).
        split; [by eapply fst_elem|]. exists t'. split; [by apply deref_elem|done].
      * exists None. split; [done|]. by apply find_tuple_none.
  - exists None. split; [done|]. rewrite Hsel. intros a t' Hin. by apply not_elem_of_nil in Hin.
Qed.

(** * The operations on tuples *)

Lemma SetSelected_tuples s a : tuples (SetSelectedTuple s a) = tuples s.
Proof. unfold SetSelectedTuple. by case_bool_decide. Qed.

Lemma SetSelected_selected s a : selectedTuple (SetSelectedTuple s a) = Some a.
Proof. unfold SetSelectedTuple. by case_bool_decide. Qed.

Lemma SetSelected_state s a : state (SetSelectedTuple s a) = state s.
Proof. unfold SetSelectedTuple. by case_bool_decide. Qed.

Lemma SetSelected_next s a : nextAddress (SetSelectedTuple s a) = nextAddress s.
Proof. unfold SetSelectedTuple. by case_bool_decide. Qed.

Lemma SetSelected_buffer s a : StunSerializeBuffer (SetSelectedTuple s a) = StunSerializeBuffer s.
Proof. unfold SetSelectedTuple. by case_bool_decide. Qed.

(** The invariant speaks of these fields only. *)
Lemma ice_inv_build s st l sel next s' :
  ice_inv s -> tuples s' = l -> selectedTuple s' = sel -> state s' = st -> nextAddress s' = next ->
  StunSerializeBuffer s' = StunSerializeBuffer s ->
  NoDup l.*1 -> (forall a, a ∈ l.*1 -> (a < next)%nat) ->
  match sel with Some a => a ∈ l.*1 | None => l = [] end ->
  (l = [] <-> st = NEW \/ st = DISCONNECTED) -> distinct l -> ice_inv s'.
Proof.
  intros Hi El Esel Est En Eb Hn Hf Hs Hst Hd.
  split; unfold idle; rewrite ?El, ?Esel, ?Est, ?En, ?Eb; try done. apply Hi.
Qed.

Lemma add_inv_parts s t : ice_inv s -> (forall a t', (a, t') ∈ tuples s -> Compare t' t = false) ->
  NoDup (nextAddress s :: (tuples s).*1) /\
  (forall a, a ∈ nextAddress s :: (tuples s).*1 -> (a < S (nextAddress s))%nat) /\
  distinct ((nextAddress s, t) :: tuples s).
Proof.
  intros [Hn Hf _ _ Hd _] Hnew. split; [|split].
  - apply NoDup_cons. split; [|done]. intros Hin%Hf. lia.
  - intros a [->|Hin]%elem_of_cons; [lia|]. apply Hf in Hin. lia.
  - cbn. by split.
Qed.

Lemma first_tuple_spec s t uc : ice_inv s -> idle s ->
  exists s', first_tuple s t uc = Ok s' /\ ice_inv s' /\
    state s' = (if uc then COMPLETED else CONNECTED) /\ selectedTuple s' = Some (nextAddress s) /\
    tuples s' = [(nextAddress s, t)] /\
    emitted s' = emitted s ++ [OnIceServerSelectedTuple (nextAddress s);
                               if uc then OnIceServerCompleted else OnIceServerConnected].
Proof.
  intros Hi Hidle. pose proof (proj2 (inv_state s Hi) Hidle) as Hl.
  pose proof (inv_selected s Hi) as Hsel. rewrite Hl in Hsel.
  destruct (selectedTuple s) as [a|] eqn:Es; [by apply not_elem_of_nil in Hsel|].
  destruct (add_inv_parts s t Hi) as (Hn & Hf & Hd).
  { rewrite Hl. intros a t' Hin. by apply not_elem_of_nil in Hin. }
  unfold first_tuple, has_tuples, has_selected, AddTuple. rewrite Hl, Es. cbn [negb]. ostep.
  unfold SetSelectedTuple. cbn [selectedTuple set_tuples]. rewrite bool_decide_eq_false_2 by done.
  rewrite Hl in Hn, Hf, Hd.
  destruct uc; cbn [negb]; (eexists; split; [done|]); (split; [|split; [done|split; [done|split; [done|]]]]).
  1, 3: eapply (ice_inv_build s); try reflexivity; [done|exact Hn|exact Hf| | |exact Hd]; cbn;
    [set_solver|split; [done|by intros [?|?]]].
  all: cbn; by rewrite <- app_assoc.
Qed.

Lemma stored_tuple_spec s t : ice_inv s ->
  exists s1 a, stored_tuple s t = Ok (s1, a) /\ (idle s \/ ice_inv s1) /\ a ∈ (tuples s1).*1 /\
    NoDup (tuples s1).*1 /\
    (exists t', deref (tuples s1) a = Some t' /\ (t' = t \/ Compare t' t = true)) /\
    selectedTuple s1 = selectedTuple s /\ state s1 = state s /\ emitted s1 = emitted s /\
    StunSerializeBuffer s1 = StunSerializeBuffer s /\
    (tuples s1 = tuples s \/ tuples s1 = (nextAddress s, t) :: tuples s).
Proof.
  intros Hi. unfold stored_tuple. destruct (HasTuple_spec s t Hi) as (r & -> & Hr). ostep.
  destruct r as [a|].
  - destruct Hr as (Hin & t' & Hd & Hc). exists s, a. split; [done|]. split; [by right|].
    split; [done|]. split; [apply Hi|]. split; [exists t'; by auto|]. do 4 (split; [done|]). by left.
  - destruct (add_inv_parts s t Hi Hr) as (Hn & Hf & Hd).
    exists (set_tuples s ((nextAddress s, t) :: tuples s) (selectedTuple s) (S (nextAddress s))), (nextAddress s).
    split; [done|]. split.
    { destruct (decide (idle s)) as [|Hni]; [by left|]. right.
      eapply (ice_inv_build s); try reflexivity; [done|exact Hn|exact Hf| | |exact Hd]; cbn.
      - pose proof (inv_selected s Hi) as Hs. destruct (selectedTuple s) as [b|].
        + apply elem_of_cons. by right.
        + destruct Hni. by apply (inv_state s Hi).
      - split; [done|]. intros Hst. by destruct Hni. }
    cbn. split; [apply elem_of_cons; by left|]. split; [done|].
    split; [exists t; rewrite Nat.eqb_refl; by auto|]. do 4 (split; [done|]). by right.
Qed.

(** * The listener's view *)

(** The state and the selected tuple as the calls of the listener tell them;
    [None] when a call comes out of order. *)
Definition hear (v : option (IceState * option nat)) (e : event) : option (IceState * option nat) :=
  v ← v;
  let '(st, sel) := v in
  match e with
  | OnIceServerSendStunPacket _ _ => Some v
  | OnIceServerSelectedTuple a => Some (st, Some a)
  | OnIceServerConnected =>
      match st, sel with
      | (NEW | DISCONNECTED), Some _ => Some (CONNECTED, sel)
      | _, _ => None
      end
  | OnIceServerCompleted =>
      match st, sel with
      | (NEW | DISCONNECTED | CONNECTED), Some _ => Some (COMPLETED, sel)
      | _, _ => None
      end
  | OnIceServerDisconnected =>
      match st, sel with
      | (CONNECTED | COMPLETED), Some _ => Some (DISCONNECTED, None)
      | _, _ => None
      end
  end.

Definition view (s : ice_server) : option (IceState * option nat) := Some (state s, selectedTuple s).

(** From [s] to [s'] the listener is told [evs], which is what has changed. *)
Definition tells (s : ice_server) (evs : list event) (s' : ice_server) : Prop :=
  emitted s' = emitted s ++ evs /\ foldl hear (view s) evs = view s'.

Lemma tells_nil s s' : emitted s' = emitted s -> state s' = state s -> selectedTuple s' = selectedTuple s ->
  tells s [] s'.
Proof. unfold tells, view. intros -> -> ->. by rewrite app_nil_r. Qed.

Lemma tells_trans s1 e1 s2 e2 s3 : tells s1 e1 s2 -> tells s2 e2 s3 -> tells s1 (e1 ++ e2) s3.
Proof.
  intros [E1 H1] [E2 H2]. split; [by rewrite E2, E1, app_assoc|]. by rewrite foldl_app, H1.
Qed.

Definition is_send (e : event) : Prop :=
  match e with OnIceServerSendStunPacket _ _ => True | _ => False end.

Definition busy (s : ice_server) : Prop := state s = CONNECTED \/ state s = COMPLETED.

Lemma busy_not_idle s : busy s <-> ~ idle s.
Proof. unfold busy, idle. destruct (state s); naive_solver. Qed.

Lemma busy_selected s : ice_inv s -> busy s ->
  exists a, selectedTuple s = Some a /\ a ∈ (tuples s).*1 /\ tuples s <> [].
Proof.
  intros Hi Hb%busy_not_idle. assert (tuples s <> []) as Hne by (intros E; by apply Hb, (inv_state s Hi)).
  pose proof (inv_selected s Hi) as Hs. destruct (selectedTuple s) as [a|]; [by exists a|done].
Qed.

Lemma SetSelected_tells s a : tells s (if bool_decide (selectedTuple s = Some a) then []
  else [OnIceServerSelectedTuple a]) (SetSelectedTuple s a).
Proof.
  unfold SetSelectedTuple. case_bool_decide; [by apply tells_nil|]. by split.
Qed.

Lemma SetSelected_inv s a : ice_inv s -> a ∈ (tuples s).*1 -> ice_inv (SetSelectedTuple s a).
Proof.
  intros Hi Ha. pose proof Hi as [Hn Hf Hsel Hst Hd _].
  apply (ice_inv_build s (state s) (tuples s) (Some a) (nextAddress s));
    rewrite ?SetSelected_tuples, ?SetSelected_selected, ?SetSelected_state, ?SetSelected_next,
      ?SetSelected_buffer; done.
Qed.

(** What [HandleTuple] does to the server: the tuple is stored, it is selected
    when it is the first one or nominated, and the state follows. *)
Record handled (s : ice_server) (t : tuple) (uc : bool) (s' : ice_server) (a : nat) : Prop := {
  h_inv : ice_inv s';
  h_stored : exists t', deref (tuples s') a = Some t' /\ (t' = t \/ Compare t' t = true);
  h_selected : selectedTuple s' = if uc then Some a
                                  else match selectedTuple s with None => Some a | sel => sel end;
  h_state : state s' = if uc then COMPLETED else match state s with COMPLETED => COMPLETED | _ => CONNECTED end;
  h_tells : exists evs, tells s evs s' /\ Forall (fun e => ~ is_send e) evs;
  h_buffer : StunSerializeBuffer s' = StunSerializeBuffer s;
  h_tuples : tuples s' = tuples s \/ tuples s' = (nextAddress s, t) :: tuples s
}.

Lemma first_tuple_buffer s t uc s' : first_tuple s t uc = Ok s' -> StunSerializeBuffer s' = StunSerializeBuffer s.
Proof.
  unfold first_tuple, AddTuple. intros H. ok_inv. destruct uc; cbn [negb] in H; ok_inv; cbn; by rewrite SetSelected_buffer.
Qed.

Lemma HandleTuple_first s t uc : ice_inv s -> idle s ->
  exists s', HandleTuple s t uc = Ok s' /\ handled s t uc s' (nextAddress s).
Proof.
  intros Hi Hidle. destruct (first_tuple_spec s t uc Hi Hidle) as (s' & E & Hi' & Est & Esel & Et & Ee).
  assert (selectedTuple s = None) as En.
  { pose proof (inv_selected s Hi) as Hs. rewrite (proj2 (inv_state s Hi) Hidle) in Hs.
    destruct (selectedTuple s); [by apply not_elem_of_nil in Hs|done]. }
  exists s'. split; [unfold HandleTuple; by destruct Hidle as [-> | ->]|].
  split; [done| | | | | |].
  - exists t. rewrite Et. cbn. rewrite Nat.eqb_refl. by auto.
  - rewrite Esel, En. by destruct uc.
  - rewrite Est. destruct uc; [done|]. by destruct Hidle as [-> | ->].
  - eexists. split; [split; [exact Ee|]|].
    + unfold view. rewrite En, Est, Esel. cbn. destruct Hidle as [-> | ->], uc; done.
    + destruct uc; repeat (apply Forall_cons; split; [by intros ?|]); by apply Forall_nil.
  - by eapply first_tuple_buffer.
  - rewrite Et, (proj2 (inv_state s Hi) Hidle). by right.
Qed.

Lemma HandleTuple_other s t uc : ice_inv s -> busy s ->
  exists s' a, HandleTuple s t uc = Ok s' /\ handled s t uc s' a.
Proof.
  intros Hi Hb. destruct (busy_selected s Hi Hb) as (b & Eb & _ & Hne).
  destruct (stored_tuple_spec s t Hi) as (s1 & a & E1 & Hi1 & Ha & _ & Hst & Esel & Est & Ee & Ebuf & Et).
  destruct Hi1 as [Hidle|Hi1]; [by apply busy_not_idle in Hb|].
  assert (HandleTuple s t uc = other_tuple s t uc) as -> by (unfold HandleTuple; by destruct Hb as [-> | ->]).
  unfold other_tuple, has_tuples, has_selected. rewrite Eb. destruct (tuples s) as [|x l] eqn:El; [done|]. ostep.
  rewrite E1. ostep. destruct uc; cbn [negb].
  - pose proof (SetSelected_inv s1 a Hi1 Ha) as Hi2. pose proof (SetSelected_tells s1 a) as Ht2.
    set (s2 := SetSelectedTuple s1 a) in *.
    assert (state s2 = state s) as Es2 by (unfold s2; by rewrite SetSelected_state).
    assert (tuples s2 = tuples s1) as Et2 by apply SetSelected_tuples.
    assert (selectedTuple s2 = Some a) as Esel2 by apply SetSelected_selected.
    assert (StunSerializeBuffer s2 = StunSerializeBuffer s) as Eb2 by (unfold s2; by rewrite SetSelected_buffer).
    set (evs := if bool_decide (selectedTuple s1 = Some a) then [] else [OnIceServerSelectedTuple a]) in *.
    assert (Forall (fun e => ~ is_send e) evs) as Hns.
    { unfold evs. case_bool_decide; [by apply Forall_nil|]. apply Forall_cons. split; [by intros ?|by apply Forall_nil]. }
    assert (tells s ([] ++ evs) s2) as Hts by (eapply tells_trans; [by apply (tells_nil s s1)|done]).
    cbn [app] in Hts. rewrite Es2. destruct Hb as [E|E]; rewrite E.
    + exists (emit (set_state s2 COMPLETED) OnIceServerCompleted), a. split; [done|].
      split; cbn; try done.
      * eapply (ice_inv_build s2 COMPLETED); try reflexivity; [done|..]; try apply Hi2. cbn.
        split; [|by intros [?|?]]. intros Hnil. exfalso. rewrite <- Et2 in Ha. cbn in Hnil. rewrite Hnil in Ha.
        by apply not_elem_of_nil in Ha.
      * rewrite Et2. exact Hst.
      * exists (evs ++ [OnIceServerCompleted]). split.
        -- eapply tells_trans; [exact Hts|]. split; [done|]. unfold view. cbn. by rewrite Es2, E, Esel2.
        -- apply Forall_app. split; [done|]. apply Forall_cons. split; [by intros ?|by apply Forall_nil].
      * rewrite Et2, El. destruct Et as [-> | ->]; [by left|by right].
    + exists s2, a. split; [done|]. split; [done| |done|by rewrite Es2| |done|].
      * rewrite Et2. exact Hst.
      * by exists evs.
      * rewrite Et2, El. exact Et.
  - exists s1, a. split; [done|]. split; [done|done|by rewrite Esel, Eb| | |done|by rewrite El].
    + rewrite Est. by destruct Hb as [-> | ->].
    + exists []. split; [by apply tells_nil|by apply Forall_nil].
Qed.

Lemma HandleTuple_spec s t uc : ice_inv s -> exists s' a, HandleTuple s t uc = Ok s' /\ handled s t uc s' a.
Proof.
  intros Hi. destruct (decide (idle s)) as [H|H].
  - destruct (HandleTuple_first s t uc Hi H) as (s' & ? & ?). by exists s', (nextAddress s).
  - apply HandleTuple_other; [done|by apply busy_not_idle].
Qed.

(** * Removal and forced selection *)

Lemma erase_nil_or_first l a : erase_tuple l a = [] \/ exists f t k, erase_tuple l a = (f, t) :: k.
Proof. destruct (erase_tuple l a) as [|[f t] k]; [by left|right; by do 3 eexists]. Qed.

(** Exactly the first tuple that compares goes; the selection moves to the first
    of the others, and without any other the server is disconnected. *)
Record removed (s : ice_server) (t : tuple) (s' : ice_server) : Prop := {
  r_inv : ice_inv s';
  r_tuples : tuples s' = match find_tuple (tuples s) t with
                         | Some a => erase_tuple (tuples s) a
                         | None => tuples s
                         end;
  r_state : state s' = match tuples s, tuples s' with
                       | _ :: _, [] => DISCONNECTED
                       | _, _ => state s
                       end;
  r_tells : exists evs, tells s evs s' /\ Forall (fun e => ~ is_send e) evs
}.

Lemma RemoveTuple_spec s t : ice_inv s -> removed s t (RemoveTuple s t).
Proof.
  intros Hi. pose proof Hi as [Hn Hf Hsel Hst Hd Hbuf]. unfold RemoveTuple.
  destruct (find_tuple (tuples s) t) as [a|] eqn:Ef; cycle 1.
  { split; [done|by rewrite Ef|by destruct (tuples s)|]. exists []. split; [by apply tells_nil|by apply Forall_nil]. }
  destruct (find_tuple_some _ _ _ Ef) as (u & Hu & _).
  assert (tuples s <> []) as Hne by (intros E; rewrite E in Hu; by apply not_elem_of_nil in Hu).
  assert (busy s) as Hb by (apply busy_not_idle; intros Hidle; by apply Hne, Hst).
  destruct (selectedTuple s) as [b|] eqn:Es; [|done].
  set (l := erase_tuple (tuples s) a). cbn [set_tuples selectedTuple nextAddress].
  assert (NoDup l.*1) as Hnl by by apply erase_nodup.
  assert (forall c, c ∈ l.*1 -> (c < nextAddress s)%nat) as Hfl.
  { intros c Hc. by eapply Hf, erase_sub. }
  assert (distinct l) as Hdl by by apply erase_distinct.
  assert (l <> [] -> (l = [] <-> state s = NEW \/ state s = DISCONNECTED)) as Hstl.
  { intros Hl. split; [done|]. intros Hidle. by apply busy_not_idle in Hb. }
  case_bool_decide as Esel; cbn [negb].
  - injection Esel as ->.
    destruct (erase_nil_or_first (tuples s) a) as [El | (f & w & k & El)]; fold l in El; rewrite El.
    + split; cbn; [|by rewrite Ef|by destruct (tuples s)|].
      * eapply (ice_inv_build s DISCONNECTED [] None (nextAddress s)); try reflexivity; try done.
        -- by apply NoDup_nil_2.
        -- intros c Hc. by apply not_elem_of_nil in Hc.
        -- split; [by right|done].
      * exists [OnIceServerDisconnected]. split; [|apply Forall_cons; split; [by intros ?|by apply Forall_nil]].
        split; [done|]. unfold view. cbn. rewrite Es. by destruct Hb as [-> | ->].
    + unfold SetSelectedTuple. cbn [set_tuples selectedTuple tuples nextAddress].
      rewrite bool_decide_eq_false_2 by done. rewrite <- El.
      split; cbn; [|by rewrite Ef|rewrite El; by destruct (tuples s)|].
      * eapply (ice_inv_build s (state s) l (Some f) (nextAddress s)); try reflexivity; try done.
        -- rewrite El. cbn. set_solver.
        -- apply Hstl. by rewrite El.
      * exists [OnIceServerSelectedTuple f]. split; [|apply Forall_cons; split; [by intros ?|by apply Forall_nil]].
        split; [done|done].
  - assert (b ∈ l.*1) as Hbl.
    { destruct (elem_fst _ _ Hsel) as [v Hv]. apply (fst_elem l b v).
      apply erase_elem; [done|]. split; [done|]. cbn. congruence. }
    assert (l <> []) as Hl by (intros E; rewrite E in Hbl; by apply not_elem_of_nil in Hbl).
    split; cbn; [|by rewrite Ef| |].
    + eapply (ice_inv_build s (state s) l (Some b) (nextAddress s)); try reflexivity; try done. by apply Hstl.
    + destruct (tuples s); [done|]. by destruct l.
    + exists []. split; [by apply tells_nil|by apply Forall_nil].
Qed.

(** Forced on a stored tuple of a server that has a selected one, the selection
    moves there; otherwise the process is aborted. *)
Lemma ForceSelectedTuple_spec s t : ice_inv s ->
  match ForceSelectedTuple s t with
  | Ok s' => ice_inv s' /\ (exists a, stores s a t /\ selectedTuple s' = Some a) /\
             state s' = state s /\ tuples s' = tuples s /\
             exists evs, tells s evs s' /\ Forall (fun e => ~ is_send e) evs
  | Err e => e = AssertFailed /\ IsValidTuple s t = Ok false
  end.
Proof.
  intros Hi. unfold ForceSelectedTuple, has_selected, IsValidTuple.
  destruct (selectedTuple s) as [b|] eqn:Es; ostep; cycle 1.
  { unfold HasTuple. rewrite Es. done. }
  destruct (HasTuple_spec s t Hi) as (r & -> & Hr). ostep. destruct r as [a|]; [|done].
  destruct Hr as [Ha Hst]. pose proof (SetSelected_tells s a) as Ht.
  split; [by apply SetSelected_inv|]. split; [exists a; split; [done|apply SetSelected_selected]|].
  rewrite SetSelected_state, SetSelected_tuples. split; [done|]. split; [done|].
  eexists. split; [exact Ht|]. case_bool_decide; [by apply Forall_nil|].
  apply Forall_cons. split; [by intros ?|by apply Forall_nil].
Qed.

Lemma IsValidTuple_spec s t : ice_inv s ->
  exists b, IsValidTuple s t = Ok b /\ (b = true <-> exists a, stores s a t).
Proof.
  intros Hi. unfold IsValidTuple. destruct (HasTuple_spec s t Hi) as (r & -> & Hr). ostep.
  eexists. split; [done|]. destruct r as [a|]; split; try done.
  - intros _. exists a. apply Hr.
  - intros (a & t' & Hd%deref_some & Hc). by rewrite (Hr a t' Hd) in Hc.
Qed.
