(* ===== verification/IceProps.v ===== *)
(** The ICE server: what it does with a STUN message, and what holds in every
    state it can reach. *)

From S2P Require Export IceFacts.

#[local] Arguments SetSelectedTuple : simpl never.

(** * Specification of the handling of a message *)

Inductive verdict : Type :=
| Ignored
| Refused (code : Z)
| Accepted (key : list Z).

Section spec.
Context `{HmacLaws}.

(** The message is authentic under a user name and a password. *)
Definition accepts (p : stun_packet) (u pw : list Z) : bool :=
  username_matches p u && integrity_valid p pw.

(** What ICE asks of a binding request, in the order of the answers. *)
Definition judge (s : ice_server) (p : stun_packet) : verdict :=
  if negb (bool_decide (klass p = REQUEST)) then Ignored
  else if negb (method p =? BINDING) || negb (hasFingerprint p) || negb (HasMessageIntegrity p)
          || (priority p =? 0) || empty (username p) then Refused 400
  else if accepts p (usernameFragment s) (password s) then
    if truthy (iceControlled p) then Refused 487 else Accepted (password s)
  else if negb (empty (oldUsernameFragment s)) && negb (empty (oldPassword s))
          && accepts p (oldUsernameFragment s) (oldPassword s) then
    if truthy (iceControlled p) then Refused 487 else Accepted (oldPassword s)
  else Refused 401.

(** The response [q] answers [p]: it has its transaction id, and a receiver
    reads in it what the server meant. *)
Definition answers (p q : stun_packet) (k : Class_) (code : Z) (key : list Z) : Prop :=
  klass q = k /\ transactionId q = transactionId p /\
  (in_uint 7 (method p) -> exists r, Parse (data q) (size q) = Ok r /\ klass r = k /\
     transactionId r = transactionId p /\ errorCode r = code /\
     (key <> [] -> integrity_valid r key = true)).

(** ** Responses *)

Lemma wf_tid_ok p : stun_wf p -> zlen (transactionId p) = 12 /\ bytes (transactionId p).
Proof.
  intros [Hb _ _ _ Ht _ _ _ _]. split; [by eapply zlen_slice|by eapply bytes_slice].
Qed.

(** The server after a response: nothing but the buffer and the log. *)
Definition responded (s : ice_server) (q : stun_packet) (t : tuple) : ice_server :=
  emit (set_serialize_buffer s (data q)) (OnIceServerSendStunPacket q t).

Lemma total_size_small p : serializable p -> username p = [] -> total_size p <= 200.
Proof.
  intros Hp Hu. rewrite (total_size_spec p Hp). unfold attrs_of. rewrite !attrs_size_app, Hu.
  assert (Hopt : forall b t v, attrs_size (opt b t v) = if b then 4 + padded (zlen v) else 0).
  { intros [] t v; cbn; lia. }
  rewrite !Hopt, !zlen_be_bytes. cbn [empty negb].
  assert (Ha : 0 <= (if has_address p then 4 + padded (zlen (address_value p)) else 0) <= 24).
  { unfold has_address, address_value. destruct (xorMappedAddressPaddedLen p) as [n|] eqn:En; [|done].
    destruct (xorMappedAddress p) as [a|] eqn:Ea; [|done].
    destruct (address_len p Hp a n En Ea) as (_ & -> & -> & _).
    unfold xorMappedAddressPaddedLen in En. rewrite Ea in En.
    destruct (_ && _); [|done]. destruct a; simplify_eq; lia. }
  unfold integrity_size.
  pose proof (if_bounds (truthy (priority p)) (4 + padded 4) ltac:(done)).
  pose proof (if_bounds (truthy (iceControlling p)) (4 + padded 8) ltac:(done)).
  pose proof (if_bounds (truthy (iceControlled p)) (4 + padded 8) ltac:(done)).
  pose proof (if_bounds (hasUseCandidate p) (4 + padded 0) ltac:(done)).
  pose proof (if_bounds (addErrorCode p) (4 + padded 4) ltac:(done)).
  pose proof (if_bounds (addMessageIntegrity p) 24 ltac:(done)).
  change (zlen (@nil Z)) with 0. change (zlen [_; _; _; _]) with 4.
  change (Z.of_nat 4) with 4. change (Z.of_nat 8) with 8.
  change (padded 4) with 4 in *. change (padded 8) with 8 in *. change (padded 0) with 0 in *. lia.
Qed.

Lemma send_response_spec s r p t :
  ice_inv s -> serializable r -> username r = [] -> 0 <= errorCode r < 25600 ->
  method r = method p -> transactionId r = transactionId p ->
  exists q, send_response s r t = Ok (responded s q t) /\ ice_inv (responded s q t) /\
    answers p q (klass r) (code_read r) (if addMessageIntegrity r then StunPacket.password r else []) /\
    errorCode q = errorCode r /\ xorMappedAddress q = xorMappedAddress r /\
    StunPacket.password q = StunPacket.password r.
Proof.
  intros Hi Hr Hu Hc Hm Ht. destruct (inv_buffer s Hi) as [Hb Hl]. unfold StunSerializeBufferSize in Hl.
  pose proof (total_size_small r Hr Hu).
  destruct (Serialize_written r (StunSerializeBuffer s) Hr Hb) as (m' & mi & fp & Es & Hz & _ & Hw); [lia|].
  exists (sent r m' mi). unfold send_response. rewrite Es. ostep. split; [done|]. split; [|split; [|done]].
  - pose proof Hi as [Hn Hf Hsel Hst Hd _]. split; try done. cbn. split; [apply Hw|]. by rewrite Hz.
  - split; [done|]. split; [done|]. intros Hme. rewrite <- Hm in Hme.
    eexists. split; [apply (Parse_written r m' mi fp Hr Hme Hc); [lia|done]|].
    split; [done|]. split; [done|]. split; [done|]. intros Hkey.
    destruct (addMessageIntegrity r) eqn:Ea; [|done].
    destruct Hw as [_ _ _ Hmi Hint _ _]. rewrite Ea in Hmi. subst mi.
    destruct (Hint Ea) as (x & Hsp & _ & _ & Hd). rewrite HMAC_length in Hd.
    unfold integrity_valid. cbn. rewrite Hd, Hsp. by apply bool_decide_eq_true.
Qed.

Definition refused_code (code : Z) : Prop := code = 400 \/ code = 401 \/ code = 487.

Lemma reply_error_spec s p t code :
  ice_inv s -> stun_wf p -> klass p = REQUEST -> refused_code code ->
  exists q, reply_error s p t code = Ok (responded s q t) /\ ice_inv (responded s q t) /\
    answers p q ERROR_RESPONSE code [] /\ errorCode q = code.
Proof.
  intros Hi Hp Hk Hc. unfold reply_error, CreateErrorResponse. rewrite Hk, bool_decide_eq_true_2 by done.
  ostep. destruct (wf_tid_ok p Hp) as [Ht Hb].
  set (r := SetErrorCode (new_StunPacket ERROR_RESPONSE (method p) (transactionId p) [] 0) code).
  assert (400 <= code < 500) as Hcode by (destruct Hc as [-> | [-> | ->]]; lia).
  destruct (send_response_spec s r p t) as (q & E & Hi' & Ha & Ee & _); try done.
  - split; cbn; try done; try (unfold in_uint; lia). by apply Forall_nil.
  - cbn. lia.
  - exists q. split; [done|]. split; [done|]. split; [|done].
    assert (addMessageIntegrity r = false) as Em by done. rewrite Em in Ha.
    assert (code_read r = code) as Ec; [|by rewrite Ec in Ha].
    unfold code_read, addErrorCode. cbn. rewrite andb_true_r. unfold truthy.
    by rewrite (proj2 (Z.eqb_neq code 0)) by lia.
Qed.

(** The success response carries the remote address of the tuple and is signed
    with the key. *)
Lemma reply_success_spec s p t key :
  ice_inv s -> stun_wf p -> klass p = REQUEST -> tuple_ok t ->
  key = (if empty (oldPassword s) then password s else oldPassword s) ->
  exists q, reply_success s p t = Ok (responded s q t) /\ ice_inv (responded s q t) /\
    answers p q SUCCESS_RESPONSE 0 key /\ xorMappedAddress q = Some (GetRemoteAddress t) /\
    StunPacket.password q = key.
Proof.
  intros Hi Hp Hk Ht ->. unfold reply_success, CreateSuccessResponse.
  rewrite Hk, bool_decide_eq_true_2 by done. ostep. destruct (wf_tid_ok p Hp) as [Hl Hb].
  set (key := if empty (oldPassword s) then password s else oldPassword s).
  set (r := Authenticate _ key).
  assert (r = set_password (SetXorMappedAddress (new_StunPacket SUCCESS_RESPONSE (method p) (transactionId p) [] 0)
    (Some (GetRemoteAddress t))) key) as Er.
  { unfold r, Authenticate. by rewrite bool_decide_eq_false_2. }
  clearbody r.
  destruct (send_response_spec s r p t) as (q & E & Hi' & Ha & Ee & Ex & Epw); try (subst r; done).
  - subst r. split; cbn; try done; [by apply Forall_nil|].
    intros a Hne [= <-]. unfold tuple_ok in Ht. unfold xorMappedAddressPaddedLen in Hne. cbn in Hne.
    destruct (GetRemoteAddress t); [done|done|]. by destruct (_ && _).
  - exists q. split; [done|]. split; [done|]. rewrite Ex, Epw. subst r. split; [|done].
    unfold answers in *. destruct Ha as (? & ? & Ha). split; [done|]. split; [done|].
    intros Hme. destruct (Ha Hme) as (x & ? & ? & ? & ? & Hv). exists x. do 4 (split; [done|]).
    intros Hkey. unfold addMessageIntegrity in Hv. cbn in Hv. destruct key eqn:Ek; [done|]. by apply Hv.
Qed.

(** ** The request *)

(** Handling of the credentials: the current ones, which make the old ones
    obsolete, or the old ones. *)
Lemma check_credentials_spec s p :
  stun_wf p -> klass p = REQUEST -> HasMessageIntegrity p = true -> empty (username p) = false ->
  check_credentials s p = Ok (
    if accepts p (usernameFragment s) (password s) then
      (if negb (empty (oldPassword s)) then set_old s [] [] else s, p, None)
    else if negb (empty (oldUsernameFragment s)) && negb (empty (oldPassword s))
            && accepts p (oldUsernameFragment s) (oldPassword s) then (s, p, None)
    else (s, p, Some 401)).
Proof.
  intros Hp Hk Hmi Hu. unfold check_credentials, HasMessageIntegrity in *.
  destruct (messageIntegrity p) as [mi|] eqn:Em; [|done].
  rewrite CheckAuthentication_unfold by (done || by left). rewrite Em, Hu. ostep.
  change (username_matches p ?u && integrity_valid p ?pw) with (accepts p u pw).
  destruct (accepts p (usernameFragment s) (password s)); [done|].
  destruct (negb (empty (oldUsernameFragment s)) && negb (empty (oldPassword s))); [|done].
  rewrite CheckAuthentication_unfold by (done || by left). rewrite Em, Hu. ostep.
  change (username_matches p ?u && integrity_valid p ?pw) with (accepts p u pw).
  by destruct (accepts p (oldUsernameFragment s) (oldPassword s)).
Qed.

Lemma set_old_inv s u pw : ice_inv s -> ice_inv (set_old s u pw).
Proof. intros Hi. by apply (ice_inv_build s (state s) (tuples s) (selectedTuple s) (nextAddress s)); try apply Hi. Qed.

(** What becomes of the server, by verdict. *)
Definition outcome_of (s : ice_server) (p : stun_packet) (t : tuple) (s' : ice_server) : Prop :=
  match judge s p with
  | Ignored => s' = s
  | Refused code =>
      exists q, tells s [OnIceServerSendStunPacket q t] s' /\ answers p q ERROR_RESPONSE code [] /\
        tuples s' = tuples s /\ state s' = state s /\ selectedTuple s' = selectedTuple s
  | Accepted key =>
      exists q evs a, tells s (OnIceServerSendStunPacket q t :: evs) s' /\
        Forall (fun e => ~ is_send e) evs /\
        answers p q SUCCESS_RESPONSE 0 key /\ xorMappedAddress q = Some (GetRemoteAddress t) /\
        (exists t', deref (tuples s') a = Some t' /\ (t' = t \/ Compare t' t = true)) /\
        selectedTuple s' = (if hasUseCandidate p then Some a
                            else match selectedTuple s with None => Some a | sel => sel end) /\
        state s' = (if hasUseCandidate p then COMPLETED
                    else match state s with COMPLETED => COMPLETED | _ => CONNECTED end) /\
        (tuples s' = tuples s \/ tuples s' = (nextAddress s, t) :: tuples s)
  end.

Lemma refuse s0 s p t code : ice_inv s -> stun_wf p -> klass p = REQUEST -> refused_code code ->
  judge s0 p = Refused code -> emitted s = emitted s0 -> view s = view s0 -> tuples s = tuples s0 ->
  exists s', reply_error s p t code = Ok s' /\ ice_inv s' /\ outcome_of s0 p t s'.
Proof.
  intros Hi Hp Hk Hc Hj He Hv Ht. unfold outcome_of. rewrite Hj.
  destruct (reply_error_spec s p t code Hi Hp Hk Hc) as (q & -> & Hi' & Ha & _).
  eexists. split; [done|]. split; [done|]. exists q. unfold view in Hv. injection Hv as Est Esel.
  split; [|split; [done|split; [done|split; done]]].
  split; cbn; [by rewrite He|]. unfold view. cbn. congruence.
Qed.

Lemma accept s0 s p t key : ice_inv s -> stun_wf p -> klass p = REQUEST -> tuple_ok t ->
  key = (if empty (oldPassword s) then password s else oldPassword s) ->
  judge s0 p = Accepted key -> emitted s = emitted s0 -> view s = view s0 -> tuples s = tuples s0 ->
  nextAddress s = nextAddress s0 ->
  exists s', (s1 ← reply_success s p t; HandleTuple s1 t (hasUseCandidate p)) = Ok s' /\
    ice_inv s' /\ outcome_of s0 p t s'.
Proof.
  intros Hi Hp Hk Ht Hkey Hj He Hv Htu Hn. unfold outcome_of. rewrite Hj.
  unfold view in Hv. injection Hv as Est Esel.
  destruct (reply_success_spec s p t key Hi Hp Hk Ht Hkey) as (q & -> & Hi' & Ha & Hx & _). ostep.
  destruct (HandleTuple_spec (responded s q t) t (hasUseCandidate p) Hi') as (s' & a & -> & [H1 H2 H3 H4 H5 _ H7]).
  destruct H5 as (evs & Htell & Hns).
  exists s'. split; [done|]. split; [done|]. exists q, evs, a. cbn in H3, H4, H7. rewrite <- Est, <- Esel, <- Htu, <- Hn.
  split; [|do 6 (split; [done|]); done].
  assert (tells s0 [OnIceServerSendStunPacket q t] (responded s q t)) as Ht0.
  { split; cbn; [by rewrite He|]. unfold view. cbn. congruence. }
  exact (tells_trans _ _ _ _ _ Ht0 Htell).
Qed.

Lemma ProcessStunPacket_outcome s p t :
  ice_inv s -> stun_wf p -> tuple_ok t ->
  exists s', ProcessStunPacket s p t = Ok s' /\ ice_inv s' /\ outcome_of s p t s'.
Proof.
  intros Hi Hp Ht. unfold ProcessStunPacket.
  destruct (decide (klass p = REQUEST)) as [Hk|Hk]; cycle 1.
  { assert (judge s p = Ignored) as Ej by (unfold judge; by rewrite bool_decide_eq_false_2).
    exists s. split; [|split; [done|unfold outcome_of; by rewrite Ej]].
    rewrite (bool_decide_eq_false_2 (klass p = REQUEST)) by done.
    destruct (negb (method p =? BINDING)); [done|]. destruct (negb (hasFingerprint p) && _); [done|].
    by destruct (klass p). }
  rewrite Hk, (bool_decide_eq_true_2 (REQUEST = REQUEST)), (bool_decide_eq_false_2 (REQUEST = INDICATION)) by done.
  cbn [negb]. rewrite andb_true_r.
  assert (judge s p = judge s p) as Ej by done. unfold judge in Ej at 2.
  rewrite Hk, bool_decide_eq_true_2 in Ej by done. cbn [negb] in Ej.
  destruct (method p =? BINDING); cbn [negb orb] in Ej |- *; [|by apply (refuse s); try done; left].
  destruct (hasFingerprint p); cbn [negb orb] in Ej |- *; [|by apply (refuse s); try done; left].
  unfold process_request.
  destruct (HasMessageIntegrity p) eqn:Emi; cbn [negb orb] in Ej |- *; [|by apply (refuse s); try done; left].
  destruct (priority p =? 0); cbn [negb orb] in Ej |- *; [by apply (refuse s); try done; left|].
  destruct (empty (username p)) eqn:Eu; [by apply (refuse s); try done; left|].
  rewrite (check_credentials_spec s p Hp Hk Emi Eu). ostep.
  destruct (accepts p (usernameFragment s) (password s)).
  - set (s1 := if negb (empty (oldPassword s)) then set_old s [] [] else s).
    assert (ice_inv s1) as Hi1 by (unfold s1; destruct (negb _); [by apply set_old_inv|done]).
    assert (emitted s1 = emitted s /\ view s1 = view s /\ tuples s1 = tuples s /\ nextAddress s1 = nextAddress s) as (?&?&?&?).
    { unfold s1. by destruct (negb _). }
    destruct (truthy (iceControlled p)).
    + apply (refuse s); try done. by right; right.
    + apply (accept s s1 p t (password s)); try done.
      unfold s1. destruct (empty (oldPassword s)) eqn:Eo; cbn [negb]; [by rewrite Eo|done].
  - destruct (negb (empty (oldUsernameFragment s)) && negb (empty (oldPassword s))) eqn:Eold; cbn [andb] in Ej |- *;
      [|by apply (refuse s); try done; right; left].
    apply andb_true_iff in Eold as [_ Eo%negb_true_iff].
    destruct (accepts p (oldUsernameFragment s) (oldPassword s)); [|by apply (refuse s); try done; right; left].
    destruct (truthy (iceControlled p)).
    + apply (refuse s); try done. by right; right.
    + apply (accept s s p t (oldPassword s)); try done. by rewrite Eo.
Qed.

(** C27: Every well-formed STUN message is handled without failure of an
    assertion and without leaving a buffer, and by the verdict that ICE asks
    for: what is not a request is ignored; a request gets exactly one response,
    which its sender can parse; an error response leaves the tuples alone; after
    a success response, signed with the password that authenticated the request
    and carrying the address it came from, the tuple is stored, and it is
    selected when it is the first one or nominated. *)
Theorem ProcessStunPacket_judged s p t :
  ice_inv s -> stun_wf p -> tuple_ok t ->
  exists s', ProcessStunPacket s p t = Ok s' /\ ice_inv s' /\ outcome_of s p t s'.
Proof. apply ProcessStunPacket_outcome. Qed.
End spec.

(** * Consequences *)

Section runs.
Context `{HmacLaws}.

(** A STUN message changes the tuples, the selected one or the state only
    when it is a binding request with a fingerprint, a priority and no
    ICE-CONTROLLED, whose USERNAME starts with the current or the previous
    user name and whose MESSAGE-INTEGRITY is valid under the password that goes
    with it. *)
Theorem change_is_authentic s p t s' :
  ice_inv s -> stun_wf p -> tuple_ok t -> ProcessStunPacket s p t = Ok s' ->
  tuples s' <> tuples s \/ view s' <> view s ->
  klass p = REQUEST /\ method p = BINDING /\ hasFingerprint p = true /\ priority p <> 0 /\
  iceControlled p = 0 /\
  exists u pw rest, username p = u ++ 58 :: rest /\ integrity_valid p pw = true /\
    (u = usernameFragment s /\ pw = password s \/
     u = oldUsernameFragment s /\ pw = oldPassword s /\ pw <> []).
Proof.
  intros Hi Hp Ht E Hch. destruct (ProcessStunPacket_outcome s p t Hi Hp Ht) as (s1 & E1 & _ & Ho).
  rewrite E in E1. injection E1 as <-. unfold outcome_of in Ho.
  destruct (judge s p) as [|code|key] eqn:Ej.
  { subst s'. by destruct Hch. }
  { destruct Ho as (q & _ & _ & Etu & Est & Esel). destruct Hch as [Hc|Hc]; [done|].
    destruct Hc. unfold view. by rewrite Est, Esel. }
  clear Ho E Hch. unfold judge in Ej.
  destruct (decide (klass p = REQUEST)) as [Hk|Hk]; [|by rewrite bool_decide_eq_false_2 in Ej].
  rewrite bool_decide_eq_true_2 in Ej by done. cbn [negb] in Ej.
  destruct (Z.eqb_spec (method p) BINDING) as [Hm|]; [|done].
  destruct (hasFingerprint p); [|done]. destruct (HasMessageIntegrity p); [|done].
  destruct (Z.eqb_spec (priority p) 0) as [|Hpr]; [done|].
  destruct (empty (username p)); [done|]. cbn [negb orb] in Ej.
  do 4 (split; [done|]).
  destruct (accepts p (usernameFragment s) (password s)) eqn:Ea.
  - destruct (truthy (iceControlled p)) eqn:Ec; [done|]. apply truthy_false in Ec. split; [done|].
    unfold accepts in Ea. apply andb_true_iff in Ea as [[rest Hu]%username_matches_spec Hv].
    exists (usernameFragment s), (password s), rest. by auto.
  - destruct (empty (oldUsernameFragment s)); [done|].
    destruct (oldPassword s) as [|x pw] eqn:Eo; [done|]. cbn [negb andb empty] in Ej.
    destruct (accepts p (oldUsernameFragment s) (x :: pw)) eqn:Ea'; [|done].
    destruct (truthy (iceControlled p)) eqn:Ec; [done|]. apply truthy_false in Ec. split; [done|].
    unfold accepts in Ea'. apply andb_true_iff in Ea' as [[rest Hu]%username_matches_spec Hv].
    exists (oldUsernameFragment s), (x :: pw), rest. split; [done|]. split; [done|]. by right.
Qed.

(** The operations of the server, as its owner calls them. *)
Inductive ice_step (s : ice_server) : ice_server -> Prop :=
| step_stun p t s' : stun_wf p -> tuple_ok t -> ProcessStunPacket s p t = Ok s' -> ice_step s s'
| step_remove t : ice_step s (RemoveTuple s t)
| step_force t s' : ForceSelectedTuple s t = Ok s' -> ice_step s s'
| step_username u : ice_step s (SetUsernameFragment s u)
| step_password pw : ice_step s (SetPassword s pw).

Lemma ice_step_keeps s s' : ice_inv s -> ice_step s s' -> ice_inv s' /\ exists evs, tells s evs s'.
Proof.
  intros Hi [p t s1 Hp Ht E|t|t s1 E|u|pw].
  - destruct (ProcessStunPacket_outcome s p t Hi Hp Ht) as (s2 & E2 & Hi2 & Ho).
    rewrite E in E2. injection E2 as <-. split; [done|]. unfold outcome_of in Ho.
    destruct (judge s p).
    + subst s1. exists []. by apply tells_nil.
    + destruct Ho as (q & Ht' & _). by eexists.
    + destruct Ho as (q & evs & a & Ht' & _). by eexists.
  - destruct (RemoveTuple_spec s t Hi) as [Hi' _ _ (evs & Ht & _)]. split; [done|]. by exists evs.
  - pose proof (ForceSelectedTuple_spec s t Hi) as Hf. rewrite E in Hf.
    destruct Hf as (Hi' & _ & _ & _ & evs & Ht & _). split; [done|]. by exists evs.
  - split; [|exists []; by apply tells_nil].
    by apply (ice_inv_build s (state s) (tuples s) (selectedTuple s) (nextAddress s)); try apply Hi.
  - split; [|exists []; by apply tells_nil].
    by apply (ice_inv_build s (state s) (tuples s) (selectedTuple s) (nextAddress s)); try apply Hi.
Qed.

Lemma new_inv u pw b : bytes b -> zlen b = StunSerializeBufferSize -> ice_inv (new_IceServer u pw b).
Proof.
  intros Hb Hl. split; cbn; try done.
  - apply NoDup_nil_2.
  - intros a Ha. by apply not_elem_of_nil in Ha.
  - split; [|done]. by left.
Qed.

(** C28: In every state the server can reach, the invariant holds -- the selected
    tuple is one of the list, the list is empty exactly when the state is new or
    disconnected, no two tuples are the same -- and the calls of the listener,
    in order, tell the state and the selected tuple exactly: connected comes
    from new or disconnected only, completed is not left but for disconnected. *)
Theorem listener_knows u pw b s :
  bytes b -> zlen b = StunSerializeBufferSize -> rtc ice_step (new_IceServer u pw b) s ->
  ice_inv s /\ foldl hear (Some (NEW, None)) (emitted s) = Some (state s, selectedTuple s).
Proof.
  intros Hb Hl Hr. revert s Hr. apply rtc_ind_r; [split; [by apply new_inv|done]|].
  intros s1 s2 _ Hstep [Hi Hv].
  destruct (ice_step_keeps s1 s2 Hi Hstep) as (Hi2 & evs & Et & Hf). split; [done|].
  by rewrite Et, foldl_app, Hv.
Qed.

(** Removing a tuple removes the first one it compares with, and nothing when
    there is none; the server is disconnected exactly when its last tuple goes,
    and otherwise keeps a selected tuple and its state. *)
Theorem RemoveTuple_exact s t : ice_inv s -> removed s t (RemoveTuple s t).
Proof. apply RemoveTuple_spec. Qed.

(** [IsValidTuple] decides whether a stored tuple compares with the given
    one, and forcing the selection on a valid tuple selects it, without a change
    of state; on any other it aborts the process. *)
Theorem forced_selection s t : ice_inv s ->
  exists b, IsValidTuple s t = Ok b /\ (b = true <-> exists a, stores s a t) /\
    if b then exists s' a, ForceSelectedTuple s t = Ok s' /\ stores s a t /\
                selectedTuple s' = Some a /\ state s' = state s /\ tuples s' = tuples s
    else ForceSelectedTuple s t = Err AssertFailed.
Proof.
  intros Hi. destruct (IsValidTuple_spec s t Hi) as (b & Eb & Hb). exists b. split; [done|]. split; [done|].
  pose proof (ForceSelectedTuple_spec s t Hi) as Hf. destruct b.
  - destruct (ForceSelectedTuple s t) as [s'|e]; [|destruct Hf; congruence].
    destruct Hf as (_ & (a & Hs & Esel) & Est & Et & _). by exists s', a.
  - destruct (ForceSelectedTuple s t) as [s'|e] eqn:E; [|by destruct Hf as [-> _]].
    exfalso. unfold ForceSelectedTuple, IsValidTuple in *.
    destruct (require AssertFailed (has_selected s)); [|done]. cbn [mbind outcome_bind] in E.
    destruct (HasTuple s t) as [[a|]|]; done.
Qed.
End runs.

(** * Witnesses *)

Definition sample_tuple : tuple := UDP 1 (sockaddr_in [4; 210] [192; 168; 1; 2]) [].

(** A server with the credentials of [sample_request]: nominated at once. *)
Definition sample_server : ice_server :=
  new_IceServer [97; 98] [1; 2] (replicate (Z.to_nat StunSerializeBufferSize) 0).

Lemma sample_server_inv : ice_inv sample_server.
Proof.
  apply new_inv; [|vm_compute; reflexivity].
  apply Forall_replicate. split; [discriminate|reflexivity].
Qed.

(** A request whose sender is controlling. *)
Definition sample_nomination : stun_packet := Eval vm_compute in
  let p := StunPacket REQUEST BINDING (seqZ 1 12) [] 0 [97; 98; 58; 99] 7 9 0 true None false None 0 [1; 2] in
  match Serialize p (replicate 84 255) with
  | Ok q => match Parse (data q) 84 with Ok r => r | Err _ => p end
  | Err _ => p
  end.

Lemma sample_nomination_wf : stun_wf sample_nomination.
Proof.
  split; try (vm_compute; reflexivity || (split; congruence) || congruence).
  - check_bytes.
  - check_bytes.
  - intros mi [= <-]. vm_compute. split; [discriminate|reflexivity].
  - intros _. eexists. split; vm_compute; reflexivity.
Qed.

Lemma sample_tuple_ok : tuple_ok sample_tuple.
Proof. apply (bool_decide_unpack _). vm_compute. exact I. Qed.

Lemma ProcessStunPacket_judged_witness :
  judge sample_server sample_nomination = Accepted [1; 2] /\
  exists s', ProcessStunPacket sample_server sample_nomination sample_tuple = Ok s' /\
    state s' = COMPLETED /\ selectedTuple s' = Some 0%nat.
Proof.
  split; [vm_compute; reflexivity|].
  destruct (ProcessStunPacket_judged sample_server sample_nomination sample_tuple sample_server_inv
    sample_nomination_wf sample_tuple_ok) as (s' & E & Hi & Ho).
  exists s'. split; [exact E|]. unfold outcome_of in Ho.
  replace (judge sample_server sample_nomination) with (Accepted [1; 2]) in Ho by (vm_compute; reflexivity).
  destruct Ho as (q & evs & a & _ & _ & _ & _ & (t' & Hd & _) & Hsel & Hst & Htu).
  split; [exact Hst|]. rewrite Hsel. cbn. f_equal.
  destruct Htu as [Htu|Htu]; rewrite Htu in Hd; [discriminate|].
  cbn in Hd. destruct a; [reflexivity|discriminate].
Defined.

Lemma change_is_authentic_witness :
  exists u pw rest, username sample_nomination = u ++ 58 :: rest /\
    integrity_valid sample_nomination pw = true /\
    (u = [97; 98] /\ pw = [1; 2] \/ u = [] /\ pw = [] /\ pw <> []).
Proof.
  destruct (ProcessStunPacket_outcome sample_server sample_nomination sample_tuple sample_server_inv
    sample_nomination_wf sample_tuple_ok) as (s' & E & Hi & Ho).
  destruct (change_is_authentic sample_server sample_nomination sample_tuple s' sample_server_inv
    sample_nomination_wf sample_tuple_ok E) as (_ & _ & _ & _ & _ & Hex); [|exact Hex].
  left. unfold outcome_of in Ho.
  replace (judge sample_server sample_nomination) with (Accepted [1; 2]) in Ho by (vm_compute; reflexivity).
  destruct Ho as (q & evs & a & _ & _ & _ & _ & (t' & Hd & _) & _).
  intros Hnil. rewrite Hnil in Hd. discriminate.
Defined.

Lemma listener_knows_witness :
  ice_inv (RemoveTuple sample_server sample_tuple) /\
  foldl hear (Some (NEW, None)) (emitted (RemoveTuple sample_server sample_tuple)) = Some (NEW, None).
Proof.
  apply (listener_knows [97; 98] [1; 2] (replicate (Z.to_nat StunSerializeBufferSize) 0)).
  - apply Forall_replicate. split; [discriminate|reflexivity].
  - vm_compute. reflexivity.
  - apply rtc_once. apply step_remove.
Defined.

(** Two tuples, the older one selected. *)
Definition sample_busy : ice_server :=
  IceServer [97; 98] [1; 2] [] [] CONNECTED
    [(1%nat, UDP 1 (sockaddr_in [4; 211] [192; 168; 1; 2]) []); (0%nat, sample_tuple)] (Some 0%nat) 2
    (replicate (Z.to_nat StunSerializeBufferSize) 0) [].

Lemma sample_busy_inv : ice_inv sample_busy.
Proof.
  split.
  - apply (bool_decide_unpack _). vm_compute. exact I.
  - cbn. intros a [->|[->|Ha]%elem_of_cons]%elem_of_cons; [lia|lia|by apply not_elem_of_nil in Ha].
  - apply (bool_decide_unpack _). vm_compute. exact I.
  - split; [done|by intros [?|?]].
  - cbn. split; [|split; [|done]]; intros a t'.
    + intros [[= -> ->]|Ha]%elem_of_cons; [done|by apply not_elem_of_nil in Ha].
    + intros Ha. by apply not_elem_of_nil in Ha.
  - split; [|vm_compute; reflexivity]. apply Forall_replicate. split; [discriminate|reflexivity].
Qed.

Lemma RemoveTuple_exact_witness :
  tuples (RemoveTuple sample_busy sample_tuple) = [(1%nat, UDP 1 (sockaddr_in [4; 211] [192; 168; 1; 2]) [])] /\
  state (RemoveTuple sample_busy sample_tuple) = CONNECTED.
Proof.
  destruct (RemoveTuple_exact sample_busy sample_tuple sample_busy_inv) as [_ Ht Hs _].
  split; [rewrite Ht; reflexivity|rewrite Hs, Ht; reflexivity].
Defined.

Lemma forced_selection_witness :
  exists b, IsValidTuple sample_busy (UDP 1 (sockaddr_in [4; 211] [192; 168; 1; 2]) []) = Ok b /\ b = true.
Proof.
  destruct (forced_selection sample_busy (UDP 1 (sockaddr_in [4; 211] [192; 168; 1; 2]) []) sample_busy_inv)
    as (b & Hb & _). exists b. split; [exact Hb|]. vm_compute in Hb. congruence.
Defined.
