(* ===== verification/Timer.v ===== *)
(** [Timer] (worker/src/handles/Timer.cpp, worker/include/handles/Timer.hpp):
    the one-shot and repeating timers of the worker.

    The clock and the handle belong to libuv, which is not part of the
    repository: they are the operations of the class [UvTimer], and [UvLaws]
    states the part of libuv's documentation the worker relies on.  A component
    that owns a timer is modelled and proved against this interface. *)

From S2P Require Export Prelude.

Class UvTimer (H : Type) : Type := {
  uv_timer_init : H;
  uv_timer_start : H -> Z -> Z -> H * Z;   (** handle, timeout, repeat; error *)
  uv_timer_stop : H -> H * Z;
  uv_is_active : H -> bool;
  uv_timer_fire : H -> H   (** the state of the handle in its own callback *)
}.

(** What libuv documents: a handle starts inactive; starting makes it active,
    stopping and the expiry of a handle without repeat make it inactive. *)
Class UvLaws (H : Type) `{UvTimer H} : Prop := {
  uv_init_inactive : uv_is_active uv_timer_init = false;
  uv_start_ok h timeout repeat : (uv_timer_start h timeout repeat).2 = 0;
  uv_start_active h timeout repeat :
    uv_is_active (uv_timer_start h timeout repeat).1 = true;
  uv_stop_ok h : (uv_timer_stop h).2 = 0;
  uv_stop_inactive h : uv_is_active (uv_timer_stop h).1 = false;
  uv_fire_once h h' timeout :
    h = (uv_timer_start h' timeout 0).1 -> uv_is_active (uv_timer_fire h) = false
}.

Section timer.
Context {H : Type} `{UvTimer H}.

Record timer : Type := Timer {
  uvHandle : H;
  closed : bool;
  timeout : Z;
  repeat : Z
}.

Definition timer_new : timer := Timer uv_timer_init false 0 0.

(** [Close]: [uv_close] also stops the handle. *)
Definition Close (t : timer) : timer :=
  if closed t then t
  else Timer (uv_timer_stop (uvHandle t)).1 true (timeout t) (repeat t).

Definition Stop (t : timer) : outcome timer :=
  if closed t then Err Thrown
  else
    let '(h, err) := uv_timer_stop (uvHandle t) in
    _ ← require Thrown (err =? 0);
    Ok (Timer h (closed t) (timeout t) (repeat t)).

Definition Start (t : timer) (timeout repeat : Z) : outcome timer :=
  if closed t then Err Thrown
  else
    let t := Timer (uvHandle t) (closed t) timeout repeat in
    t ← (if uv_is_active (uvHandle t) then Stop t else Ok t);
    let '(h, err) := uv_timer_start (uvHandle t) timeout repeat in
    _ ← require Thrown (err =? 0);
    Ok (Timer h (closed t) timeout repeat).

Definition Reset (t : timer) : outcome timer :=
  if closed t then Err Thrown
  else if negb (uv_is_active (uvHandle t)) then Ok t
  else if repeat t =? 0 then Ok t
  else
    let '(h, err) := uv_timer_start (uvHandle t) (repeat t) (repeat t) in
    _ ← require Thrown (err =? 0);
    Ok (Timer h (closed t) (timeout t) (repeat t)).

Definition Restart (t : timer) : outcome timer :=
  if closed t then Err Thrown
  else
    t ← (if uv_is_active (uvHandle t) then Stop t else Ok t);
    let '(h, err) := uv_timer_start (uvHandle t) (timeout t) (repeat t) in
    _ ← require Thrown (err =? 0);
    Ok (Timer h (closed t) (timeout t) (repeat t)).

Definition GetTimeout (t : timer) : Z := timeout t.
Definition GetRepeat (t : timer) : Z := repeat t.
Definition IsActive (t : timer) : bool := uv_is_active (uvHandle t).

(** The timer as the listener's [OnTimer] finds it. *)
Definition fired (t : timer) : timer :=
  Timer (uv_timer_fire (uvHandle t)) (closed t) (timeout t) (repeat t).
End timer.
Arguments timer H : clear implicits.
Arguments Start : simpl never.
Arguments Stop : simpl never.
Arguments Restart : simpl never.

(** * What an owner of a timer uses *)

Section laws.
Context {H : Type} `{UvLaws H}.
Implicit Types t : timer H.

Lemma Stop_open t : closed t = false ->
  exists t', Stop t = Ok t' /\ IsActive t' = false /\ closed t' = false.
Proof.
  intros Ho. unfold Stop, IsActive. rewrite Ho.
  pose proof (uv_stop_ok (uvHandle t)) as He. pose proof (uv_stop_inactive (uvHandle t)) as Hi.
  destruct (uv_timer_stop (uvHandle t)) as [h err]. cbn in *. subst err. cbn. by eexists.
Qed.

(** A one-shot timer that runs, as [fired] will find it. *)
Definition one_shot t : Prop :=
  closed t = false /\ repeat t = 0 /\
  exists h, uvHandle t = (uv_timer_start h (timeout t) 0).1.

Lemma Start_open t n : closed t = false ->
  exists t', Start t n 0 = Ok t' /\ IsActive t' = true /\ one_shot t' /\ timeout t' = n.
Proof.
  intros Ho. unfold Start, IsActive. rewrite Ho.
  set (t1 := Timer _ _ _ _).
  assert (exists t2, (if uv_is_active (uvHandle t1) then Stop t1 else Ok t1) = Ok t2 /\
                     closed t2 = false) as (t2 & -> & Ho2).
  { destruct (uv_is_active _).
    - destruct (Stop_open t1) as (t2 & ? & _ & ?); [by subst t1|by exists t2].
    - by exists t1. }
  cbn. pose proof (uv_start_ok (uvHandle t2) n 0) as He.
  pose proof (uv_start_active (uvHandle t2) n 0) as Ha.
  destruct (uv_timer_start (uvHandle t2) n 0) as [h err] eqn:E. cbn in *. subst err.
  cbn. eexists. split_and!; [done|done| |done].
  unfold one_shot. cbn. split_and!; [done|done|]. exists (uvHandle t2). by rewrite E.
Qed.

Lemma Restart_open t : closed t = false -> repeat t = 0 ->
  exists t', Restart t = Ok t' /\ IsActive t' = true /\ one_shot t' /\ timeout t' = timeout t.
Proof.
  intros Ho Hr. destruct t as [h c n r]. cbn in *. subst c r.
  assert (Restart (Timer h false n 0) = Start (Timer h false n 0) n 0) as ->.
  { unfold Restart, Start, Stop. cbn. destruct (uv_is_active h); [|done].
    destruct (uv_timer_stop h) as [h' e]. cbn. by destruct (e =? 0). }
  by apply Start_open.
Qed.

Lemma fired_one_shot t : one_shot t ->
  IsActive (fired t) = false /\ closed (fired t) = false /\ repeat (fired t) = 0.
Proof.
  intros (Hc & Hr & h & Hh). unfold IsActive, fired. cbn.
  split_and!; [|done|done]. by eapply uv_fire_once.
Qed.
End laws.

(** * A handle: what remains of a running timer is its timeout and repeat *)

#[export] Instance simple_uv : UvTimer (option (Z * Z)) := {
  uv_timer_init := None;
  uv_timer_start h timeout repeat := (Some (timeout, repeat), 0);
  uv_timer_stop h := (None, 0);
  uv_is_active h := match h with Some _ => true | None => false end;
  uv_timer_fire h := match h with
                     | Some (_, repeat) => if repeat =? 0 then None else Some (repeat, repeat)
                     | None => None
                     end
}.

#[export] Instance simple_uv_laws : UvLaws (option (Z * Z)).
Proof. split; try done. by intros h h' timeout ->. Qed.
