(* ===== verification/SeqManager.v ===== *)
(** [RTC::SeqManager<T>] (worker/include/RTC/SeqManager.hpp,
    worker/src/RTC/SeqManager.cpp): the wrap-around comparison of sequence
    numbers, and the rewriting of a stream of sequence numbers from which
    packets are dropped.

    The specification is a stream of unbounded numbers: a forwarded number is
    shifted by a constant and lowered by the count of the numbers dropped so
    far.  The machine works on numbers of [w] bits ([w] is 8, 16 or 32). *)

From S2P Require Export Prelude OrdSet.

Section definitions.
Context (w : Z).

Definition MaxValue : Z := 2 ^ w - 1.

(** [SeqLowerThan::operator()] *)
Definition IsSeqLowerThan (lhs rhs : Z) : bool :=
  ((lhs <? rhs) && (rhs - lhs <=? MaxValue / 2))
  || ((rhs <? lhs) && (MaxValue / 2 <? lhs - rhs)).

(** [SeqHigherThan::operator()] *)
Definition IsSeqHigherThan (lhs rhs : Z) : bool :=
  ((rhs <? lhs) && (lhs - rhs <=? MaxValue / 2))
  || ((lhs <? rhs) && (MaxValue / 2 <? rhs - lhs)).

Record seq_manager : Type := SeqMgr {
  base : Z;
  maxOutput : Z;
  maxInput : Z;
  dropped : list Z   (** [std::set<T, SeqLowerThan>] *)
}.

Definition seq_manager_init : seq_manager := SeqMgr 0 0 0 [].

Definition Sync (s : seq_manager) (input : Z) : seq_manager :=
  SeqMgr (wrap w (maxOutput s - input)) (maxOutput s) input [].

Definition Drop (s : seq_manager) (input : Z) : seq_manager :=
  if IsSeqHigherThan input (maxInput s)
  then SeqMgr (base s) (maxOutput s) (maxInput s)
         (insert (fun x : Z => x) IsSeqLowerThan input (dropped s))
  else s.

Definition Offset (s : seq_manager) (offset : Z) : seq_manager :=
  SeqMgr (wrap w (base s + offset)) (maxOutput s) (maxInput s) (dropped s).

(** The end of [Input]: compute the output with [b] and update the maxima. *)
Definition accept (s : seq_manager) (input b : Z) : seq_manager * option Z :=
  let output := wrap w (input + b) in
  let idelta := wrap w (input - maxInput s) in
  let odelta := wrap w (output - maxOutput s) in
  (SeqMgr (base s)
     (if odelta <? MaxValue / 2 then output else maxOutput s)
     (if idelta <? MaxValue / 2 then input else maxInput s)
     (dropped s),
   Some output).

(** [Input]: [None] when the C++ method returns [false]. *)
Definition Input (s : seq_manager) (input : Z) : seq_manager * option Z :=
  match dropped s with
  | [] => accept s input (base s)
  | _ =>
      let kept := lower_bound (fun x : Z => x) IsSeqLowerThan
                    (wrap w (input - MaxValue / 2)) (dropped s) in
      let base1 := wrap w (base s - (Z.of_nat (length (dropped s))
                                     - Z.of_nat (length kept))) in
      let s1 := SeqMgr base1 (maxOutput s) (maxInput s) kept in
      let rest := lower_bound (fun x : Z => x) IsSeqLowerThan input kept in
      let count := Z.of_nat (length kept) - Z.of_nat (length rest) in
      match rest with
      | d :: _ => if d =? input then (s1, None)
                  else accept s1 input (wrap w (base1 - count))
      | [] => accept s1 input (wrap w (base1 - count))
      end
  end.

Definition GetMaxInput (s : seq_manager) : Z := maxInput s.
Definition GetMaxOutput (s : seq_manager) : Z := maxOutput s.

(** ** Streams of operations *)

Inductive seq_op : Type :=
| OpInput (seq : Z)
| OpDrop (seq : Z).

Definition seq_step (s : seq_manager) (o : seq_op) : seq_manager * option Z :=
  match o with
  | OpInput i => Input s (wrap w i)
  | OpDrop d => (Drop s (wrap w d), None)
  end.

Fixpoint seq_run (s : seq_manager) (ops : list seq_op) : seq_manager * list (option Z) :=
  match ops with
  | [] => (s, [])
  | o :: ops =>
      let '(s1, out) := seq_step s o in
      let '(s2, outs) := seq_run s1 ops in (s2, out :: outs)
  end.

(** The specification's state: the shift from input to output, the last
    number seen, the last one forwarded, and every number dropped. *)
Record seq_spec : Type := SeqSpec {
  sp_shift : Z;
  sp_last : Z;
  sp_max : Z;
  sp_drops : list Z
}.

Definition half_space : Z := 2 ^ (w - 1).

(** In order, less than half of the number space ahead of the last forwarded
    number, and no drop still remembered half of the space behind. *)
Definition spec_step (t : seq_spec) (o : seq_op) : option (seq_spec * option Z) :=
  match o with
  | OpInput i =>
      if (sp_last t <? i) && (i - sp_max t <? half_space - 1)
      then Some (SeqSpec (sp_shift t) i i (sp_drops t),
                 Some (i + sp_shift t - Z.of_nat (length (sp_drops t))))
      else None
  | OpDrop d =>
      if (sp_last t <? d) && (d - sp_max t <? half_space - 1)
         && forallb (fun x => (x <? sp_max t - (half_space - 1)) || (d - x <? half_space))
              (sp_drops t)
      then Some (SeqSpec (sp_shift t) d (sp_max t) (sp_drops t ++ [d]), None)
      else None
  end.

Fixpoint spec_run (t : seq_spec) (ops : list seq_op)
  : option (seq_spec * list (option Z)) :=
  match ops with
  | [] => Some (t, [])
  | o :: ops =>
      '(t1, out) ← spec_step t o;
      '(t2, outs) ← spec_run t1 ops;
      Some (t2, out :: outs)
  end.

(** The numbers after [i], one after the other: forwarded or dropped. *)
Fixpoint consecutive (i : Z) (keep : list bool) : list seq_op :=
  match keep with
  | [] => []
  | k :: keep => (if k then OpInput (i + 1) else OpDrop (i + 1)) :: consecutive (i + 1) keep
  end.

(** The numbers given to the forwarded packets. *)
Definition forwarded (outs : list (option Z)) : list Z := omap (fun o => o) outs.
End definitions.

(** * The comparison of sequence numbers *)

Section order.
Context (w : Z) (Hw : 1 <= w).
Implicit Types a b : Z.

Lemma two_halves : 2 ^ w = 2 * half_space w.
Proof. unfold half_space. rewrite <- Z.pow_succ_r by lia. f_equal. lia. Qed.

Lemma half_pos : 0 < half_space w.
Proof. unfold half_space. lia. Qed.

Lemma half_MaxValue : MaxValue w / 2 = half_space w - 1.
Proof.
  unfold MaxValue. rewrite two_halves.
  replace (2 * half_space w - 1) with (1 + (half_space w - 1) * 2) by lia.
  rewrite Z.div_add by lia. reflexivity.
Qed.

Lemma wrap_decompose a : exists q, wrap w a = a + q * (2 * half_space w) /\
  0 <= wrap w a < 2 * half_space w.
Proof.
  exists (- (a / 2 ^ w)). pose proof (wrap_range w a ltac:(lia)) as Hr.
  unfold in_uint, wrap in *. rewrite <- two_halves.
  pose proof (Z.div_mod a (2 ^ w)). lia.
Qed.

Lemma IsSeqLowerThan_wrap a b :
  - half_space w < a - b < half_space w ->
  IsSeqLowerThan w (wrap w a) (wrap w b) = (a <? b).
Proof.
  intros Hab. unfold IsSeqLowerThan. rewrite half_MaxValue. pose proof half_pos.
  destruct (wrap_decompose a) as (qa & Ha & Ra).
  destruct (wrap_decompose b) as (qb & Hb & Rb).
  assert (qa - qb = -1 \/ qa - qb = 0 \/ qa - qb = 1) as Hq by nia.
  assert (wrap w a - wrap w b = a - b + (qa - qb) * (2 * half_space w)) as Hd by lia.
  clear Ha Hb. destruct Hq as [Hq|[Hq|Hq]]; rewrite Hq in Hd;
    destruct (Z.ltb_spec a b), (Z.ltb_spec (wrap w a) (wrap w b)),
      (Z.leb_spec (wrap w b - wrap w a) (half_space w - 1)),
      (Z.ltb_spec (wrap w b) (wrap w a)),
      (Z.ltb_spec (half_space w - 1) (wrap w a - wrap w b)); cbn; lia.
Qed.

Lemma IsSeqHigherThan_swap a b : IsSeqHigherThan w a b = IsSeqLowerThan w b a.
Proof. reflexivity. Qed.

Lemma IsSeqHigherThan_wrap a b :
  - half_space w < a - b < half_space w ->
  IsSeqHigherThan w (wrap w a) (wrap w b) = (b <? a).
Proof. intros. rewrite IsSeqHigherThan_swap. apply IsSeqLowerThan_wrap. lia. Qed.

Lemma lower_bound_wrap b l :
  Forall (fun d => - half_space w < d - b < half_space w) l ->
  lower_bound (fun x : Z => x) (IsSeqLowerThan w) (wrap w b) (wrap w <$> l)
  = wrap w <$> lower_bound (fun x : Z => x) Z.ltb b l.
Proof.
  induction 1 as [|d l Hd Hl IH]; [done|]. cbn.
  rewrite IsSeqLowerThan_wrap by done. by case_match.
Qed.
End order.

(** * The stream refines its specification *)

Section refinement.
Context (w : Z) (Hw : 2 <= w).
Local Abbreviation ord := (ordered (fun x : Z => x) (fun _ => True) (fun x => x)).
Local Abbreviation lb := (lower_bound (fun x : Z => x) Z.ltb).

Definition refines (t : seq_spec) (s : seq_manager) : Prop :=
  exists old live pend,
    sp_drops t = old ++ live /\
    dropped s = wrap w <$> live /\
    base s = wrap w (sp_shift t - Z.of_nat (length old)) /\
    maxInput s = wrap w (sp_max t) /\
    maxOutput s = wrap w (sp_max t + sp_shift t
                          - (Z.of_nat (length (sp_drops t)) - pend)) /\
    0 <= pend <= sp_last t - sp_max t /\
    sp_last t - sp_max t < half_space w - 1 /\
    ord live /\
    Forall (fun d => sp_max t - (half_space w - 1) <= d <= sp_last t) live /\
    (forall a b, a ∈ live -> b ∈ live -> a - b < half_space w).

Lemma refines_Sync s i o :
  maxOutput s = wrap w o ->
  refines (SeqSpec (o - i) i i []) (Sync w s (wrap w i)).
Proof.
  intros Ho. pose proof (half_pos w ltac:(lia)).
  assert (2 <= half_space w).
  { unfold half_space. change 2 with (2 ^ 1) at 1. apply Z.pow_le_mono_r; lia. }
  exists [], [], 0. cbn. unfold Sync. cbn. rewrite Ho.
  repeat split; try lia; try constructor; try set_solver.
  - wrap_simp.
  - wrap_simp.
Qed.

Lemma lb_split b l :
  ord l ->
  l = below (fun x : Z => x) Z.ltb b l ++ lb b l /\
  (forall d, d ∈ lb b l <-> d ∈ l /\ b <= d) /\ ord (lb b l).
Proof.
  intros Hl. split; [by rewrite below_lower_bound|]. split.
  - intros d. by rewrite (elem_of_lower_bound _ _ (fun _ => True) (fun x => x)).
  - eapply ordered_sublist; [apply lower_bound_sublist|done].
Qed.

Lemma lb_above b l : Forall (fun d => d < b) l -> lb b l = [].
Proof.
  induction 1 as [|d l Hd Hl IH]; [done|]. cbn.
  by destruct (Z.ltb_spec d b); [|lia].
Qed.

(** The end of [Input], with the base of the specification's shift. *)
Lemma accept_refines t s i b :
  let n := Z.of_nat (length (sp_drops t)) in
  maxInput s = wrap w (sp_max t) ->
  (exists pend, maxOutput s = wrap w (sp_max t + sp_shift t - (n - pend)) /\
     0 <= pend <= sp_last t - sp_max t) ->
  sp_last t < i -> sp_max t <= sp_last t -> i - sp_max t < half_space w - 1 ->
  b = wrap w (sp_shift t - n) ->
  accept w s (wrap w i) b
  = (SeqMgr (base s) (wrap w (i + sp_shift t - n)) (wrap w i) (dropped s),
     Some (wrap w (i + sp_shift t - n))).
Proof.
  intros n Hmax (pend & Hout & Hpend) Hi Hle Hfar ->. unfold accept.
  pose proof (half_pos w ltac:(lia)). pose proof (two_halves w ltac:(lia)) as H2.
  rewrite (half_MaxValue w) by lia. rewrite Hmax, Hout.
  rewrite wrap_add_l, wrap_add_r. autorewrite with wrap.
  replace (i + (sp_shift t - n)) with (i + sp_shift t - n) by lia.
  rewrite (wrap_small w (i - sp_max t)) by (unfold in_uint; lia).
  replace (i + sp_shift t - n - (sp_max t + sp_shift t - (n - pend)))
    with (i - sp_max t - pend) by lia.
  rewrite (wrap_small w (i - sp_max t - pend)) by (unfold in_uint; lia).
  by destruct (Z.ltb_spec (i - sp_max t - pend) (half_space w - 1)),
    (Z.ltb_spec (i - sp_max t) (half_space w - 1)); try lia.
Qed.

Lemma Input_refines t t' s i out :
  refines t s -> spec_step w t (OpInput i) = Some (t', Some out) ->
  exists s', Input w s (wrap w i) = (s', Some (wrap w out)) /\ refines t' s'.
Proof.
  intros (old & live & pend & Hd & Hdr & Hb & Hmi & Hmo & Hp & Hfar & Hord & Hwin & Hdiam).
  cbn [spec_step]. destruct (_ && _) eqn:E; [|done]. intros [= <- <-].
  apply andb_true_iff in E as [E1%Z.ltb_lt E2%Z.ltb_lt].
  pose proof (half_pos w ltac:(lia)). rewrite Forall_forall in Hwin.
  set (b := i - (half_space w - 1)).
  destruct (lb_split b live Hord) as (Hsplit & Hkept & Hkord).
  remember (below (fun x : Z => x) Z.ltb b live) as gone eqn:Egone.
  remember (lb b live) as kept eqn:Ekept.
  assert (Hrest : lb i kept = []).
  { apply lb_above, Forall_forall. intros d [Hd' _]%Hkept. specialize (Hwin d Hd'). lia. }
  exists (SeqMgr (wrap w (sp_shift t - Z.of_nat (length (old ++ gone))))
            (wrap w (i + sp_shift t - Z.of_nat (length (sp_drops t))))
            (wrap w i) (wrap w <$> kept)).
  split.
  - unfold Input. rewrite Hdr. destruct (list_eq_dec live []) as [El|El].
    + assert (gone = [] /\ kept = []) as [-> ->]
        by (rewrite Egone, Ekept, El; done).
      clear Egone Ekept Hsplit. subst live. cbn. rewrite (accept_refines t).
      * rewrite Hb, Hdr, app_nil_r in *. by rewrite Hd.
      * done.
      * eauto.
      * lia.
      * lia.
      * lia.
      * rewrite Hb, Hd, app_nil_r. done.
    + assert (exists d0 l0, wrap w <$> live = d0 :: l0) as (d0 & l0 & Hcons)
        by (destruct live; [done|cbn; eauto]).
      rewrite Hcons at 1.
      rewrite (half_MaxValue w) by lia.
      replace (wrap w (wrap w i - (half_space w - 1))) with (wrap w b)
        by (symmetry; unfold b; wrap_simp).
      rewrite (lower_bound_wrap w) by
        (try lia; apply Forall_forall; intros d Hd'; specialize (Hwin d Hd'); unfold b; lia).
      rewrite <- Ekept. rewrite (lower_bound_wrap w) by
        (try lia; apply Forall_forall; intros d [Hd' ?]%Hkept; specialize (Hwin d Hd');
           unfold b in *; lia).
      rewrite Hrest. cbn [fmap list_fmap]. rewrite !length_fmap.
      rewrite (accept_refines t); cbn [base maxOutput maxInput dropped].
      * do 2 f_equal. rewrite Hb, Hsplit, !length_app. wrap_simp.
      * done.
      * eauto.
      * lia.
      * lia.
      * lia.
      * rewrite Hb, Hd, Hsplit, !length_app. cbn [length]. wrap_simp.
  - exists (old ++ gone), kept, 0. cbn.
    split_and!; try done; try lia.
    + by rewrite Hd, Hsplit, app_assoc.
    + wrap_simp.
    + apply Forall_forall. intros d [Hd' ?]%Hkept. specialize (Hwin d Hd').
      unfold b in *. lia.
    + intros x y [? ?]%Hkept [? ?]%Hkept. by apply Hdiam.
Qed.

Lemma Drop_refines t t' s d :
  refines t s -> spec_step w t (OpDrop d) = Some (t', None) ->
  refines t' (Drop w s (wrap w d)).
Proof.
  intros (old & live & pend & Hd & Hdr & Hb & Hmi & Hmo & Hp & Hfar & Hord & Hwin & Hdiam).
  cbn [spec_step]. destruct (_ && _) eqn:E; [|done]. intros [= <-].
  apply andb_true_iff in E as [[E1%Z.ltb_lt E2%Z.ltb_lt]%andb_true_iff E3].
  rewrite forallb_forall in E3. rewrite Forall_forall in Hwin.
  pose proof (half_pos w ltac:(lia)).
  assert (Hnear : forall x, x ∈ live -> d - x < half_space w).
  { intros x Hx. specialize (Hwin x Hx).
    assert (x ∈ sp_drops t) as Hx' by (rewrite Hd; set_solver).
    apply list_elem_of_In, E3 in Hx'. bool_cases; lia. }
  unfold Drop. rewrite Hmi, IsSeqHigherThan_wrap by lia.
  destruct (Z.ltb_spec (sp_max t) d); [|lia].
  exists old, (live ++ [d]), (pend + 1). cbn [sp_drops sp_shift sp_last sp_max dropped base
    maxInput maxOutput].
  assert (insert (fun x : Z => x) (IsSeqLowerThan w) (wrap w d) (dropped s)
          = wrap w <$> (live ++ [d])) as ->.
  { rewrite Hdr, fmap_app. cbn [fmap list_fmap]. apply insert_last, Forall_forall.
    intros ? (x & -> & Hx)%list_elem_of_fmap. specialize (Hwin x Hx). specialize (Hnear x Hx).
    rewrite IsSeqLowerThan_wrap by lia. lia. }
  split_and!; try done; try lia.
  - by rewrite Hd, app_assoc.
  - rewrite Hmo, Hd, !length_app. cbn [length]. wrap_simp.
  - apply (ordered_app _ Z.ltb); [by intros ????; lia|done|done|..].
    + by apply ordered_cons; [|apply ordered_nil|].
    + intros x y Hx ->%list_elem_of_singleton. specialize (Hwin x Hx). lia.
  - apply Forall_forall. intros x [Hx|Hx%list_elem_of_singleton]%elem_of_app.
    + specialize (Hwin x Hx). lia.
    + lia.
  - intros x y [Hx|Hx%list_elem_of_singleton]%elem_of_app
      [Hy|Hy%list_elem_of_singleton]%elem_of_app; subst.
    + by apply Hdiam.
    + specialize (Hwin x Hx). lia.
    + by apply Hnear.
    + lia.
Qed.

Lemma seq_run_refines_from ops t t' s outs :
  refines t s -> spec_run w t ops = Some (t', outs) ->
  exists s', seq_run w s ops = (s', map (option_map (wrap w)) outs) /\ refines t' s'.
Proof.
  revert t s outs. induction ops as [|o ops IH]; intros t s outs Hr Hrun.
  - injection Hrun as <- <-. by exists s.
  - cbn [spec_run] in Hrun.
    destruct (spec_step w t o) as [[t1 out]|] eqn:Hstep; [|done]. cbn in Hrun.
    destruct (spec_run w t1 ops) as [[t2 outs1]|] eqn:Hrun1; [|done].
    injection Hrun as <- <-.
    assert (exists s1, seq_step w s o = (s1, option_map (wrap w) out) /\ refines t1 s1)
      as (s1 & Hs1 & Hr1).
    { destruct o as [i|d]; cbn [seq_step].
      - destruct out as [out|]; [by eapply Input_refines|].
        cbn in Hstep. by destruct (_ && _).
      - destruct out as [out|]; [cbn in Hstep; by destruct (_ && _)|].
        eexists. split; [done|]. by eapply Drop_refines. }
    destruct (IH t1 s1 outs1 Hr1 Hrun1) as (s2 & Hs2 & Hr2).
    exists s2. cbn [seq_run]. by rewrite Hs1, Hs2.
Qed.
End refinement.

Lemma forwarded_map f outs : forwarded (map (option_map f) outs) = f <$> forwarded outs.
Proof.
  unfold forwarded. induction outs as [|o outs IH]; [done|].
  destruct o; cbn; [f_equal|]; exact IH.
Qed.

Lemma spec_run_consecutive w t keep t' outs :
  spec_run w t (consecutive (sp_last t) keep) = Some (t', outs) ->
  forwarded outs
  = seqZ (sp_last t + sp_shift t - Z.of_nat (length (sp_drops t)) + 1)
         (Z.of_nat (length (List.filter (fun k => k) keep))).
Proof.
  revert t outs. induction keep as [|k keep IH]; intros t outs Hrun.
  { injection Hrun as <- <-. done. }
  assert (exists t1 out outs1,
    spec_step w t (if k then OpInput (sp_last t + 1) else OpDrop (sp_last t + 1))
      = Some (t1, out) /\
    spec_run w t1 (consecutive (sp_last t + 1) keep) = Some (t', outs1) /\
    outs = out :: outs1) as (t1 & out & outs1 & Hstep & Hrest & ->).
  { cbn [consecutive spec_run] in Hrun. destruct (spec_step _ _ _) as [[t1 out]|]; [|done].
    cbn in Hrun. destruct (spec_run w t1 _) as [[t2 outs1]|] eqn:?; [|done].
    injection Hrun as <- <-. by exists t1, out, outs1. }
  destruct k; cbn [spec_step] in Hstep; destruct (_ && _); try done;
    injection Hstep as <- <-; specialize (IH _ _ Hrest);
    unfold forwarded in *; cbn [omap list_omap List.filter length sp_shift sp_last sp_drops] in *;
    rewrite IH.
  - rewrite (seqZ_cons _ (Z.of_nat (S _))) by lia.
    rewrite Nat2Z.inj_succ, Z.pred_succ. f_equal; [lia|]. f_equal; lia.
  - rewrite length_app. cbn [length]. f_equal. lia.
Qed.

(** * Properties *)

(** C40: from [Sync] on, a stream of packets and drops whose numbers increase,
    stay within half of the number space of the last forwarded one and keep the
    remembered drops within half of it, is rewritten exactly as the unbounded
    specification says: every forwarded number is its input shifted by the
    synchronisation offset, minus the count of the drops before it, reduced to
    the width of the machine. *)
Theorem seq_run_refines w ops s o i t' outs :
  2 <= w -> maxOutput s = wrap w o ->
  spec_run w (SeqSpec (o - i) i i []) ops = Some (t', outs) ->
  exists s', seq_run w (Sync w s (wrap w i)) ops = (s', map (option_map (wrap w)) outs).
Proof.
  intros Hw Ho Hrun.
  destruct (seq_run_refines_from w Hw _ _ _ _ _ (refines_Sync w Hw s i o Ho) Hrun)
    as (s' & Hs' & _).
  by exists s'.
Qed.

Lemma seq_run_refines_witness :
  exists s', seq_run 16 (Sync 16 (SeqMgr 0 65534 0 []) 65533)
               [OpInput 65534; OpDrop 65535; OpInput 65537; OpDrop 65538; OpInput 65539]
             = (s', [Some 65535; None; Some 1; None; Some 2]).
Proof.
  apply (seq_run_refines 16 [OpInput 65534; OpDrop 65535; OpInput 65537; OpDrop 65538;
           OpInput 65539] (SeqMgr 0 65534 0 []) 65534 65533
           (SeqSpec 1 65539 65539 [65535; 65538])
           [Some 65535; None; Some 65537; None; Some 65538]);
    [lia|vm_compute; reflexivity|vm_compute; reflexivity].
Defined.

(** Dropping packets leaves no hole: when consecutive numbers arrive in
    order, whichever of them are dropped, the forwarded packets are numbered
    one after the other from the last number sent before [Sync]. *)
Theorem forwarded_consecutive w keep s o i t' outs :
  2 <= w -> maxOutput s = wrap w o ->
  spec_run w (SeqSpec (o - i) i i []) (consecutive i keep) = Some (t', outs) ->
  forwarded (seq_run w (Sync w s (wrap w i)) (consecutive i keep)).2
  = wrap w <$> seqZ (o + 1) (Z.of_nat (length (List.filter (fun k => k) keep))).
Proof.
  intros Hw Ho Hrun.
  destruct (seq_run_refines_from w Hw _ _ _ _ _ (refines_Sync w Hw s i o Ho) Hrun)
    as (s' & -> & _).
  cbn. rewrite forwarded_map. f_equal.
  rewrite (spec_run_consecutive w _ keep t' outs Hrun). cbn [sp_last sp_shift sp_drops].
  f_equal. cbn. lia.
Qed.

Lemma forwarded_consecutive_witness :
  forwarded (seq_run 16 (Sync 16 (SeqMgr 0 65534 0 []) 7)
               (consecutive 7 [true; false; false; true; false; true])).2
  = [65535; 0; 1].
Proof.
  apply (forwarded_consecutive 16 [true; false; false; true; false; true]
           (SeqMgr 0 65534 0 []) 65534 7 (SeqSpec 65527 13 13 [9; 10; 12])
           [Some 65535; None; None; Some 65536; None; Some 65537]);
    [lia|vm_compute; reflexivity|vm_compute; reflexivity].
Defined.

(** A packet that arrives after a drop of a later one can be given the
    number of a packet sent before: [Input] takes the remembered drop for one
    older than half of the number space, and lowers the base for good. *)
Theorem Input_late_packet_duplicates :
  (seq_run 16 seq_manager_init [OpInput 1; OpDrop 4; OpInput 2]).2
  = [Some 1; None; Some 1].
Proof. vm_compute. reflexivity. Qed.
