(* ===== verification/KeyFrame.v ===== *)
(** [RTC::KeyFrameRequestManager] (worker/src/RTC/KeyFrameRequestManager.cpp,
    worker/include/RTC/KeyFrameRequestManager.hpp): when a producer's stream is
    asked for a key frame, when the request is repeated, and when it is held
    back.

    The two maps are kept as finite maps of the objects they own; an object's
    timer is a [Timer.timer].  An operation returns the SSRCs for which the
    listener's [OnKeyFrameNeeded] is called, in order.  For one SSRC the manager
    refines a small automaton, and the SSRCs do not influence each other. *)

From S2P Require Export Timer.

Section definitions.
Context {H : Type} `{UvTimer H}.

Definition KeyFrameRetransmissionWaitTime : Z := 1000.

Record pending_key_frame_info : Type := PendingKeyFrameInfo {
  pk_timer : timer H;
  retryOnTimeout : bool
}.

Definition new_PendingKeyFrameInfo : outcome pending_key_frame_info :=
  t ← Start timer_new KeyFrameRetransmissionWaitTime 0;
  Ok (PendingKeyFrameInfo t true).

Definition delete_PendingKeyFrameInfo (p : pending_key_frame_info) : outcome (timer H) :=
  t ← Stop (pk_timer p); Ok (Close t).

Definition SetRetryOnTimeout (notify : bool) (p : pending_key_frame_info)
  : pending_key_frame_info := PendingKeyFrameInfo (pk_timer p) notify.

Definition Restart_pending (p : pending_key_frame_info) : outcome pending_key_frame_info :=
  t ← Restart (pk_timer p); Ok (PendingKeyFrameInfo t (retryOnTimeout p)).

Record key_frame_request_delayer : Type := KeyFrameRequestDelayer {
  dl_timer : timer H;
  keyFrameRequested : bool
}.

Definition new_KeyFrameRequestDelayer (delay : Z) : outcome key_frame_request_delayer :=
  t ← Start timer_new delay 0;
  Ok (KeyFrameRequestDelayer t false).

Definition delete_KeyFrameRequestDelayer (d : key_frame_request_delayer) : outcome (timer H) :=
  t ← Stop (dl_timer d); Ok (Close t).

Definition SetKeyFrameRequested (flag : bool) (d : key_frame_request_delayer)
  : key_frame_request_delayer := KeyFrameRequestDelayer (dl_timer d) flag.

Record key_frame_request_manager : Type := KeyFrameRequestManager {
  keyFrameRequestDelay : Z;
  mapSsrcPendingKeyFrameInfo : gmap Z pending_key_frame_info;
  mapSsrcKeyFrameRequestDelayer : gmap Z key_frame_request_delayer
}.

Definition set_pending (s : key_frame_request_manager) m :=
  KeyFrameRequestManager (keyFrameRequestDelay s) m (mapSsrcKeyFrameRequestDelayer s).

Definition set_delayer (s : key_frame_request_manager) m :=
  KeyFrameRequestManager (keyFrameRequestDelay s) (mapSsrcPendingKeyFrameInfo s) m.

(** The part of [KeyFrameNeeded] after the delayer let the request through. *)
Definition request_key_frame (s : key_frame_request_manager) (ssrc : Z)
  : outcome (key_frame_request_manager * list Z) :=
  match mapSsrcPendingKeyFrameInfo s !! ssrc with
  | Some p =>
      Ok (set_pending s (<[ssrc := SetRetryOnTimeout true p]> (mapSsrcPendingKeyFrameInfo s)), [])
  | None =>
      p ← new_PendingKeyFrameInfo;
      Ok (set_pending s (<[ssrc := p]> (mapSsrcPendingKeyFrameInfo s)), [ssrc])
  end.

Definition KeyFrameNeeded (s : key_frame_request_manager) (ssrc : Z)
  : outcome (key_frame_request_manager * list Z) :=
  if 0 <? keyFrameRequestDelay s then
    match mapSsrcKeyFrameRequestDelayer s !! ssrc with
    | Some d =>
        Ok (set_delayer s
              (<[ssrc := SetKeyFrameRequested true d]> (mapSsrcKeyFrameRequestDelayer s)), [])
    | None =>
        d ← new_KeyFrameRequestDelayer (keyFrameRequestDelay s);
        request_key_frame
          (set_delayer s (<[ssrc := d]> (mapSsrcKeyFrameRequestDelayer s))) ssrc
    end
  else request_key_frame s ssrc.

Definition ForceKeyFrameNeeded (s : key_frame_request_manager) (ssrc : Z)
  : outcome (key_frame_request_manager * list Z) :=
  s ← (if 0 <? keyFrameRequestDelay s then
         _ ← match mapSsrcKeyFrameRequestDelayer s !! ssrc with
             | Some d => _ ← delete_KeyFrameRequestDelayer d; Ok ()
             | None => Ok ()
             end;
         d ← new_KeyFrameRequestDelayer (keyFrameRequestDelay s);
         Ok (set_delayer s (<[ssrc := d]> (mapSsrcKeyFrameRequestDelayer s)))
       else Ok s);
  p ← match mapSsrcPendingKeyFrameInfo s !! ssrc with
      | Some p => Restart_pending (SetRetryOnTimeout true p)
      | None => new_PendingKeyFrameInfo
      end;
  Ok (set_pending s (<[ssrc := p]> (mapSsrcPendingKeyFrameInfo s)), [ssrc]).

Definition KeyFrameReceived (s : key_frame_request_manager) (ssrc : Z)
  : outcome (key_frame_request_manager * list Z) :=
  match mapSsrcPendingKeyFrameInfo s !! ssrc with
  | None => Ok (s, [])
  | Some p =>
      _ ← delete_PendingKeyFrameInfo p;
      Ok (set_pending s (delete ssrc (mapSsrcPendingKeyFrameInfo s)), [])
  end.

(** The callback of the object stored under [ssrc], its timer having fired. *)
Definition OnKeyFrameRequestTimeout (s : key_frame_request_manager) (ssrc : Z)
  : outcome (key_frame_request_manager * list Z) :=
  match mapSsrcPendingKeyFrameInfo s !! ssrc with
  | None => Err AssertFailed
  | Some p =>
      let p := PendingKeyFrameInfo (fired (pk_timer p)) (retryOnTimeout p) in
      if negb (retryOnTimeout p) then
        _ ← delete_PendingKeyFrameInfo p;
        Ok (set_pending s (delete ssrc (mapSsrcPendingKeyFrameInfo s)), [])
      else
        p ← Restart_pending (SetRetryOnTimeout false p);
        Ok (set_pending s (<[ssrc := p]> (mapSsrcPendingKeyFrameInfo s)), [ssrc])
  end.

Definition OnKeyFrameDelayTimeout (s : key_frame_request_manager) (ssrc : Z)
  : outcome (key_frame_request_manager * list Z) :=
  match mapSsrcKeyFrameRequestDelayer s !! ssrc with
  | None => Err AssertFailed
  | Some d =>
      let d := KeyFrameRequestDelayer (fired (dl_timer d)) (keyFrameRequested d) in
      _ ← delete_KeyFrameRequestDelayer d;
      let s := set_delayer s (delete ssrc (mapSsrcKeyFrameRequestDelayer s)) in
      if keyFrameRequested d then KeyFrameNeeded s ssrc else Ok (s, [])
  end.

(** ** Runs *)

Inductive kf_event : Type :=
| Needed
| Forced
| Received
| RequestTimeout
| DelayTimeout.

Definition kf_step (s : key_frame_request_manager) (ssrc : Z) (e : kf_event)
  : outcome (key_frame_request_manager * list Z) :=
  match e with
  | Needed => KeyFrameNeeded s ssrc
  | Forced => ForceKeyFrameNeeded s ssrc
  | Received => KeyFrameReceived s ssrc
  | RequestTimeout => OnKeyFrameRequestTimeout s ssrc
  | DelayTimeout => OnKeyFrameDelayTimeout s ssrc
  end.

(** A timer fires only when it belongs to a live object and runs. *)
Definition kf_enabled (s : key_frame_request_manager) (ssrc : Z) (e : kf_event) : Prop :=
  match e with
  | RequestTimeout =>
      exists p, mapSsrcPendingKeyFrameInfo s !! ssrc = Some p /\ IsActive (pk_timer p) = true
  | DelayTimeout =>
      exists d, mapSsrcKeyFrameRequestDelayer s !! ssrc = Some d /\ IsActive (dl_timer d) = true
  | _ => True
  end.

Inductive kf_run : key_frame_request_manager -> list (Z * kf_event) -> list Z ->
                   key_frame_request_manager -> Prop :=
| kf_run_nil s : kf_run s [] [] s
| kf_run_cons s ssrc e s1 out evs outs s2 :
    kf_enabled s ssrc e -> kf_step s ssrc e = Ok (s1, out) ->
    kf_run s1 evs outs s2 -> kf_run s ((ssrc, e) :: evs) (out ++ outs) s2.

Definition kf_init (delay : Z) : key_frame_request_manager :=
  KeyFrameRequestManager delay ∅ ∅.

(** ** The automaton of one SSRC

    Whether a request is pending and will be repeated, whether a delayer is
    running and has been asked for another key frame. *)
Definition kf_auto : Type := option bool * option bool.

Definition auto_request (a : kf_auto) : kf_auto * nat :=
  match a.1 with
  | Some _ => ((Some true, a.2), 0%nat)
  | None => ((Some true, a.2), 1%nat)
  end.

Definition auto_needed (delayed : bool) (a : kf_auto) : kf_auto * nat :=
  if delayed then
    match a.2 with
    | Some _ => ((a.1, Some true), 0%nat)
    | None => auto_request (a.1, Some false)
    end
  else auto_request a.

Definition auto_step (delayed : bool) (a : kf_auto) (e : kf_event) : kf_auto * nat :=
  match e with
  | Needed => auto_needed delayed a
  | Forced => ((Some true, if delayed then Some false else a.2), 1%nat)
  | Received => ((None, a.2), 0%nat)
  | RequestTimeout =>
      match a.1 with
      | Some true => ((Some false, a.2), 1%nat)
      | _ => ((None, a.2), 0%nat)
      end
  | DelayTimeout =>
      match a.2 with
      | Some true => auto_needed delayed (a.1, None)
      | _ => ((a.1, None), 0%nat)
      end
  end.

Definition project (s : key_frame_request_manager) (ssrc : Z) : kf_auto :=
  (retryOnTimeout <$> mapSsrcPendingKeyFrameInfo s !! ssrc,
   keyFrameRequested <$> mapSsrcKeyFrameRequestDelayer s !! ssrc).
End definitions.
Arguments key_frame_request_manager H : clear implicits.
Arguments pending_key_frame_info H : clear implicits.
Arguments key_frame_request_delayer H : clear implicits.

(** * Every step succeeds and follows the automaton *)

Section proofs.
Context {H : Type} `{UvLaws H}.
Implicit Types (s : key_frame_request_manager H) (t : timer H).

Definition running (n : Z) (t : timer H) : Prop :=
  one_shot t /\ IsActive t = true /\ timeout t = n.

Definition kf_inv s : Prop :=
  map_Forall (fun _ p => running KeyFrameRetransmissionWaitTime (pk_timer p))
    (mapSsrcPendingKeyFrameInfo s) /\
  map_Forall (fun _ d => running (keyFrameRequestDelay s) (dl_timer d))
    (mapSsrcKeyFrameRequestDelayer s).

(** What a step does, seen from the SSRC it is about and from the others. *)
Definition kf_post s ssrc (r : outcome (key_frame_request_manager H * list Z))
    (a : kf_auto * nat) : Prop :=
  exists s', r = Ok (s', replicate a.2 ssrc) /\ kf_inv s' /\
    keyFrameRequestDelay s' = keyFrameRequestDelay s /\
    project s' ssrc = a.1 /\
    forall other, other <> ssrc -> project s' other = project s other.

Lemma new_running n : exists t, Start timer_new n 0 = Ok t /\ running n t.
Proof. destruct (Start_open timer_new n eq_refl) as (t & ? & ? & ? & ?). by exists t. Qed.

Lemma Restart_running n t : closed t = false -> repeat t = 0 -> timeout t = n ->
  exists t', Restart t = Ok t' /\ running n t'.
Proof. intros Hc Hr <-. destruct (Restart_open t Hc Hr) as (t' & ? & ? & ? & ?). by exists t'. Qed.

Lemma Stop_Ok t : closed t = false -> exists t', Stop t = Ok t'.
Proof. intros Hc. destruct (Stop_open t Hc) as (t' & ? & _). by exists t'. Qed.

Lemma running_open n t : running n t -> closed t = false /\ repeat t = 0 /\ timeout t = n.
Proof. by intros ((? & ? & _) & _ & ?). Qed.

Lemma running_fired n t : running n t ->
  closed (fired t) = false /\ repeat (fired t) = 0 /\ timeout (fired t) = n.
Proof. intros ((? & ? & _) & _ & ?). done. Qed.

Lemma request_key_frame_post s ssrc : kf_inv s ->
  kf_post s ssrc (request_key_frame s ssrc) (auto_request (project s ssrc)).
Proof.
  intros [Hp Hd]. unfold request_key_frame, auto_request, kf_post, project. cbn.
  destruct (mapSsrcPendingKeyFrameInfo s !! ssrc) as [p|] eqn:E; cbn.
  - eexists. split_and!; [done| |done| |].
    + split; [|done]. cbn. apply map_Forall_insert_2; [|done]. exact (Hp _ _ E).
    + cbn. by rewrite lookup_insert_eq.
    + intros other Hne. cbn. by rewrite lookup_insert_ne.
  - unfold new_PendingKeyFrameInfo.
    destruct (new_running KeyFrameRetransmissionWaitTime) as (t & -> & Ht). cbn.
    eexists. split_and!; [done| |done| |].
    + split; [|done]. cbn. by apply map_Forall_insert_2.
    + cbn. by rewrite lookup_insert_eq.
    + intros other Hne. cbn. by rewrite lookup_insert_ne.
Qed.

Lemma KeyFrameNeeded_post s ssrc : kf_inv s ->
  kf_post s ssrc (KeyFrameNeeded s ssrc)
    (auto_needed (0 <? keyFrameRequestDelay s) (project s ssrc)).
Proof.
  intros [Hp Hd]. unfold KeyFrameNeeded, auto_needed.
  destruct (0 <? keyFrameRequestDelay s); [|by apply request_key_frame_post].
  unfold project at 1. cbn.
  destruct (mapSsrcKeyFrameRequestDelayer s !! ssrc) as [d|] eqn:E; cbn.
  - eexists. split_and!; [done| |done| |].
    + split; [done|]. cbn. apply map_Forall_insert_2; [|done]. exact (Hd _ _ E).
    + unfold project. cbn. by rewrite lookup_insert_eq.
    + intros other Hne. unfold project. cbn. by rewrite lookup_insert_ne.
  - unfold new_KeyFrameRequestDelayer.
    destruct (new_running (keyFrameRequestDelay s)) as (t & -> & Ht). cbn.
    set (s1 := set_delayer s _).
    destruct (request_key_frame_post s1 ssrc) as (s' & Hs' & Hinv & Hk & Hproj & Hoth).
    { split; [done|]. cbn. by apply map_Forall_insert_2. }
    assert (project s1 ssrc = (retryOnTimeout <$> mapSsrcPendingKeyFrameInfo s !! ssrc, Some false))
      as Hs1 by (unfold project; cbn; by rewrite lookup_insert_eq).
    rewrite Hs1 in *. exists s'. split_and!; [done..|].
    intros other Hne. rewrite Hoth by done. unfold project. cbn. by rewrite lookup_insert_ne.
Qed.

Lemma ForceKeyFrameNeeded_post s ssrc : kf_inv s ->
  kf_post s ssrc (ForceKeyFrameNeeded s ssrc)
    (auto_step (0 <? keyFrameRequestDelay s) (project s ssrc) Forced).
Proof.
  intros [Hp Hd]. unfold ForceKeyFrameNeeded. cbn [auto_step].
  set (m := (if 0 <? keyFrameRequestDelay s then _ else Ok s)).
  assert (exists s1, m = Ok s1 /\ kf_inv s1 /\
    keyFrameRequestDelay s1 = keyFrameRequestDelay s /\
    mapSsrcPendingKeyFrameInfo s1 = mapSsrcPendingKeyFrameInfo s /\
    (project s1 ssrc).2 = (if 0 <? keyFrameRequestDelay s then Some false else (project s ssrc).2) /\
    (forall other, other <> ssrc -> project s1 other = project s other))
    as (s1 & -> & [Hp1 Hd1] & Hk & Hpend & Hdel & Hoth).
  { subst m. destruct (0 <? keyFrameRequestDelay s); [|by exists s].
    set (mm := match _ with Some d => _ | None => Ok () end).
    assert (mm = Ok ()) as ->.
    { subst mm. destruct (mapSsrcKeyFrameRequestDelayer s !! ssrc) as [d|] eqn:E; [|done].
      unfold delete_KeyFrameRequestDelayer.
      by destruct (Stop_Ok (dl_timer d)) as (? & ->); [eapply running_open, (Hd _ _ E)|]. }
    unfold new_KeyFrameRequestDelayer. cbn.
    destruct (new_running (keyFrameRequestDelay s)) as (t & -> & Ht). cbn.
    eexists. split_and!; [done| |done|done| |].
    - split; [done|]. cbn. by apply map_Forall_insert_2.
    - unfold project. cbn. by rewrite lookup_insert_eq.
    - intros other Hne. unfold project. cbn. by rewrite lookup_insert_ne. }
  cbn. set (m1 := match _ with Some p => _ | None => _ end).
  assert (exists p, m1 = Ok p /\ retryOnTimeout p = true /\
    running KeyFrameRetransmissionWaitTime (pk_timer p)) as (p & -> & Hr & Hrun).
  { subst m1. destruct (mapSsrcPendingKeyFrameInfo s1 !! ssrc) as [p|] eqn:E.
    - unfold Restart_pending. destruct (running_open _ _ (Hp1 _ _ E)) as (? & ? & ?).
      destruct (Restart_running KeyFrameRetransmissionWaitTime (pk_timer p)) as (t & Ht & ?);
        [done..|].
      cbn. rewrite Ht. cbn. by eexists.
    - unfold new_PendingKeyFrameInfo.
      destruct (new_running KeyFrameRetransmissionWaitTime) as (t & -> & Ht). cbn. by eexists. }
  cbn. eexists. split_and!; [done| |done| |].
  - split; [|done]. cbn. by apply map_Forall_insert_2.
  - unfold project in *. cbn in *. by rewrite lookup_insert_eq, Hdel; cbn; rewrite Hr.
  - intros other Hne. rewrite <- Hoth by done. unfold project. cbn.
    by rewrite lookup_insert_ne.
Qed.

Lemma KeyFrameReceived_post s ssrc : kf_inv s ->
  kf_post s ssrc (KeyFrameReceived s ssrc)
    (auto_step (0 <? keyFrameRequestDelay s) (project s ssrc) Received).
Proof.
  intros [Hp Hd]. unfold KeyFrameReceived. cbn [auto_step].
  destruct (mapSsrcPendingKeyFrameInfo s !! ssrc) as [p|] eqn:E.
  - unfold delete_PendingKeyFrameInfo.
    destruct (Stop_Ok (pk_timer p)) as (? & ->); [eapply running_open, (Hp _ _ E)|]. cbn.
    eexists. split_and!; [done| |done| |].
    + split; [|done]. cbn. by apply map_Forall_delete.
    + unfold project. cbn. by rewrite lookup_delete_eq.
    + intros other Hne. unfold project. cbn. by rewrite lookup_delete_ne.
  - exists s. split_and!; try done. unfold project. cbn. by rewrite E.
Qed.

Lemma OnKeyFrameRequestTimeout_post s ssrc : kf_inv s -> kf_enabled s ssrc RequestTimeout ->
  kf_post s ssrc (OnKeyFrameRequestTimeout s ssrc)
    (auto_step (0 <? keyFrameRequestDelay s) (project s ssrc) RequestTimeout).
Proof.
  intros [Hp Hd] (p & E & _). unfold OnKeyFrameRequestTimeout. rewrite E.
  destruct (running_fired _ _ (Hp _ _ E)) as (Hc & Hr & Ht).
  cbn [auto_step project fst snd]. rewrite E. cbn. destruct (retryOnTimeout p) eqn:Eretry; cbn.
  - unfold Restart_pending.
    destruct (Restart_running KeyFrameRetransmissionWaitTime (fired (pk_timer p)))
      as (t & Hres & ?); [done..|].
    cbn. rewrite Hres. cbn. eexists. split_and!; [done| |done| |].
    + split; [|done]. cbn. by apply map_Forall_insert_2.
    + unfold project. cbn. by rewrite lookup_insert_eq.
    + intros other Hne. unfold project. cbn. by rewrite lookup_insert_ne.
  - unfold delete_PendingKeyFrameInfo. cbn [pk_timer].
    destruct (Stop_Ok (fired (pk_timer p))) as (? & ->); [done|]. cbn.
    eexists. split_and!; [done| |done| |].
    + split; [|done]. cbn. by apply map_Forall_delete.
    + unfold project. cbn. by rewrite lookup_delete_eq.
    + intros other Hne. unfold project. cbn. by rewrite lookup_delete_ne.
Qed.

Lemma OnKeyFrameDelayTimeout_post s ssrc : kf_inv s -> kf_enabled s ssrc DelayTimeout ->
  kf_post s ssrc (OnKeyFrameDelayTimeout s ssrc)
    (auto_step (0 <? keyFrameRequestDelay s) (project s ssrc) DelayTimeout).
Proof.
  intros [Hp Hd] (d & E & _). unfold OnKeyFrameDelayTimeout. rewrite E.
  destruct (running_fired _ _ (Hd _ _ E)) as (Hc & _ & _).
  unfold delete_KeyFrameRequestDelayer. cbn [dl_timer].
  destruct (Stop_Ok (fired (dl_timer d))) as (? & ->); [done|].
  cbn [auto_step project fst snd]. rewrite E. cbn.
  set (s1 := set_delayer s _).
  assert (kf_inv s1) as Hinv1 by (split; [done|]; cbn; by apply map_Forall_delete).
  assert (project s1 ssrc = (retryOnTimeout <$> mapSsrcPendingKeyFrameInfo s !! ssrc, None))
    as Hproj1 by (unfold project; cbn; by rewrite lookup_delete_eq).
  assert (forall other, other <> ssrc -> project s1 other = project s other) as Hoth1
    by (intros; unfold project; cbn; by rewrite lookup_delete_ne).
  destruct (keyFrameRequested d).
  - destruct (KeyFrameNeeded_post s1 ssrc Hinv1) as (s' & Hs' & Hinv & Hk & Hproj & Hoth).
    rewrite Hproj1 in *. exists s'. split_and!; [done..|].
    intros. by rewrite Hoth, Hoth1.
  - by exists s1.
Qed.

Lemma kf_step_post s ssrc e : kf_inv s -> kf_enabled s ssrc e ->
  kf_post s ssrc (kf_step s ssrc e)
    (auto_step (0 <? keyFrameRequestDelay s) (project s ssrc) e).
Proof.
  intros Hinv Hen. destruct e.
  - by apply KeyFrameNeeded_post.
  - by apply ForceKeyFrameNeeded_post.
  - by apply KeyFrameReceived_post.
  - by apply OnKeyFrameRequestTimeout_post.
  - by apply OnKeyFrameDelayTimeout_post.
Qed.

Lemma kf_inv_init delay : kf_inv (kf_init delay).
Proof. split; apply map_Forall_empty. Qed.
End proofs.

(** * The requests of one SSRC *)

Section counting.
Context {H : Type} `{UvLaws H}.
Implicit Types s : key_frame_request_manager H.

Definition requests (ssrc : Z) (outs : list Z) : nat :=
  length (List.filter (Z.eqb ssrc) outs).

(** The events of [ssrc] after which another request is expected. *)
Definition renewals (ssrc : Z) (evs : list (Z * kf_event)) : nat :=
  length (List.filter (fun '(x, e) =>
    (x =? ssrc) && match e with Received | RequestTimeout => true | _ => false end) evs).

Definition no_force (ssrc : Z) (evs : list (Z * kf_event)) : bool :=
  forallb (fun '(x, e) => negb ((x =? ssrc) && match e with Forced => true | _ => false end)) evs.

(** A request that may be sent without another renewal. *)
Definition spare (a : kf_auto) : nat := match a.1 with None => 1%nat | Some _ => 0%nat end.

Lemma requests_app ssrc a b : requests ssrc (a ++ b) = (requests ssrc a + requests ssrc b)%nat.
Proof. unfold requests. by rewrite List.filter_app, length_app. Qed.

Lemma requests_replicate ssrc x n :
  requests ssrc (replicate n x) = if ssrc =? x then n else 0%nat.
Proof.
  unfold requests. induction n as [|n IH]; cbn; [by case_match|].
  destruct (ssrc =? x) eqn:E; cbn; [by rewrite IH|done].
Qed.

Lemma auto_step_spare delayed a e : e <> Forced ->
  ((auto_step delayed a e).2 + spare (auto_step delayed a e).1
   <= spare a + match e with Received | RequestTimeout => 1 | _ => 0 end)%nat.
Proof.
  destruct a as [[[]|] [[]|]], delayed, e; intros He; try done; cbn; lia.
Qed.

Lemma kf_run_reachable s evs outs s' : kf_inv s -> kf_run s evs outs s' -> kf_inv s'.
Proof.
  intros Hinv Hrun. induction Hrun as [|s ssrc e s1 out evs outs s2 Hen Hstep Hrun IH]; [done|].
  destruct (kf_step_post s ssrc e Hinv Hen) as (s1' & Heq & Hinv1 & _).
  rewrite Heq in Hstep. injection Hstep as <- <-. by apply IH.
Qed.

Lemma requests_bound ssrc s evs outs s' :
  kf_inv s -> kf_run s evs outs s' -> no_force ssrc evs = true ->
  (requests ssrc outs + spare (project s' ssrc)
   <= renewals ssrc evs + spare (project s ssrc))%nat.
Proof.
  intros Hinv Hrun. induction Hrun as [|s x e s1 out evs outs s2 Hen Hstep Hrun IH]; [cbn; lia|].
  intros [He Hf]%andb_true_iff.
  destruct (kf_step_post s x e Hinv Hen) as (s1' & Heq & Hinv1 & _ & Hproj & Hoth).
  rewrite Heq in Hstep. injection Hstep as <- <-. specialize (IH Hinv1 Hf).
  rewrite requests_app, requests_replicate. unfold renewals in *. cbn [List.filter].
  destruct (Z.eqb_spec ssrc x) as [->|Hne].
  - rewrite Z.eqb_refl in *. cbn [andb] in *.
    pose proof (auto_step_spare (0 <? keyFrameRequestDelay s) (project s x) e) as Hsp.
    rewrite Hproj in IH. destruct e; cbn in He; try done; cbn [length];
      specialize (Hsp ltac:(done)); lia.
  - destruct (Z.eqb_spec x ssrc); [congruence|]. cbn [andb]. rewrite Hoth in IH by done. lia.
Qed.
End counting.

(** * Properties *)

(** No operation and no timer of the key frame request manager ever fails:
    after any run, every operation and every timer that can fire returns, the
    listener is called exactly as the automaton of the SSRC says, and no other
    SSRC is affected. *)
Theorem kf_refines_automaton {H} `{UvLaws H} delay evs outs (s : key_frame_request_manager H)
    ssrc e :
  kf_run (kf_init delay) evs outs s -> kf_enabled s ssrc e ->
  let a := auto_step (0 <? keyFrameRequestDelay s) (project s ssrc) e in
  exists s', kf_step s ssrc e = Ok (s', replicate a.2 ssrc) /\
    project s' ssrc = a.1 /\
    forall other, other <> ssrc -> project s' other = project s other.
Proof.
  intros Hrun Hen a.
  pose proof (kf_run_reachable _ _ _ _ (kf_inv_init delay) Hrun) as Hinv.
  destruct (kf_step_post s ssrc e Hinv Hen) as (s' & ? & _ & _ & ? & ?). by exists s'.
Qed.

(** One request pending for the SSRC 7. *)
Definition one_needed : key_frame_request_manager (option (Z * Z)) :=
  KeyFrameRequestManager 0
    {[ 7 := PendingKeyFrameInfo (Timer (Some (1000, 0)) false 1000 0) true ]} ∅.

Lemma kf_refines_automaton_witness :
  exists s' : key_frame_request_manager (option (Z * Z)),
    OnKeyFrameRequestTimeout one_needed 7 = Ok (s', [7]) /\
    project s' 7 = (Some false, None) /\
    forall other, other <> 7 -> project s' other = project one_needed other.
Proof.
  apply (kf_refines_automaton 0 [(7, Needed)] [7] one_needed 7 RequestTimeout).
  - apply (kf_run_cons _ 7 Needed one_needed [7] [] []); [done|reflexivity|constructor].
  - by eexists.
Defined.

(** Key frame requests are limited: unless they are forced, an SSRC is
    asked for at most one key frame more than the key frames received and the
    one-second request timers expired for it, however often one is needed. *)
Theorem kf_rate_limited {H} `{UvLaws H} delay evs outs (s : key_frame_request_manager H) ssrc :
  kf_run (kf_init delay) evs outs s -> no_force ssrc evs = true ->
  (requests ssrc outs <= renewals ssrc evs + 1)%nat.
Proof.
  intros Hrun Hf.
  pose proof (requests_bound ssrc _ _ _ _ (kf_inv_init delay) Hrun Hf) as Hb.
  unfold project at 2, kf_init, spare in Hb. cbn in Hb. rewrite lookup_empty in Hb. cbn in Hb. lia.
Qed.

Lemma kf_rate_limited_witness : (requests 7%Z [7%Z] <= 0 + 1)%nat.
Proof.
  apply (kf_rate_limited 0 [(7, Needed); (7, Needed)] [7] one_needed 7); [|reflexivity].
  apply (kf_run_cons _ 7 Needed one_needed [7] _ []); [done|reflexivity|].
  apply (kf_run_cons _ 7 Needed one_needed [] [] []); [done|reflexivity|constructor].
Defined.
