(* ===== verification/NackGenerator.v ===== *)
(** [RTC::NackGenerator] (worker/src/RTC/NackGenerator.cpp,
    worker/include/RTC/NackGenerator.hpp): the list of the packets missing from
    a received stream, and the requests sent for them.

    A packet is given by what the generator asks it: its sequence number and
    whether it is a key frame.  The listener's calls are returned in order.
    [std::map] and [std::set] ordered by [SeqLowerThan] are the lists of their
    elements in iteration order (OrdSet). *)

From Stdlib Require Import Sorted.
From S2P Require Export SeqManager Timer.

Section definitions.
Context {H : Type} `{UvTimer H}.

Definition MaxPacketAge : Z := 10000.
Definition MaxNackPackets : Z := 1000.
Definition DefaultRtt : Z := 100.
Definition MaxNackRetries : Z := 10.
Definition TimerInterval : Z := 40.

Record nack_info : Type := NackInfo {
  ni_seq : Z;
  sendAtSeq : Z;
  sentAtMs : Z;
  retries : Z
}.

Inductive nack_filter : Type := SEQ | TIME.

(** The calls of the listener. *)
Inductive nack_call : Type :=
| OnNackGeneratorNackRequired (seqNumbers : list Z)
| OnNackGeneratorKeyFrameRequired.

Record nack_generator : Type := NackGenerator {
  nackList : list (Z * nack_info);
  keyFrameList : list Z;
  recoveredList : list Z;
  started : bool;
  lastSeq : Z;
  rtt : Z;
  ng_timer : timer H
}.

Definition new_NackGenerator : nack_generator :=
  NackGenerator [] [] [] false 0 DefaultRtt timer_new.

Local Abbreviation lt := (IsSeqLowerThan 16).
Local Abbreviation id_key := (fun x : Z => x).

Definition GetNackListLength (s : nack_generator) : Z := Z.of_nat (length (nackList s)).

Definition UpdateRtt (s : nack_generator) (rtt : Z) : nack_generator :=
  NackGenerator (nackList s) (keyFrameList s) (recoveredList s) (started s) (lastSeq s) rtt
    (ng_timer s).

Definition set_lists (s : nack_generator) nl kfl rl last : nack_generator :=
  NackGenerator nl kfl rl (started s) last (rtt s) (ng_timer s).

Definition set_timer (s : nack_generator) t : nack_generator :=
  NackGenerator (nackList s) (keyFrameList s) (recoveredList s) (started s) (lastSeq s) (rtt s) t.

(** The lists of NACKs and key frames after the call, and its result. *)
Fixpoint RemoveNackItemsUntilKeyFrame (nl : list (Z * nack_info)) (kfl : list Z)
  : list (Z * nack_info) * list Z * bool :=
  match kfl with
  | [] => (nl, [], false)
  | kf :: kfl' =>
      let kept := lower_bound fst lt kf nl in
      if (length kept =? length nl)%nat
      then RemoveNackItemsUntilKeyFrame nl kfl'
      else (kept, kfl, true)
  end.

(** The [while] of [AddPacketsToNackList]. *)
Fixpoint remove_while (fuel : nat) (nl : list (Z * nack_info)) (kfl : list Z) (numNewNacks : Z)
  : outcome (list (Z * nack_info) * list Z) :=
  match fuel with
  | O => Err OutOfFuel
  | S fuel =>
      let '(nl, kfl, found) := RemoveNackItemsUntilKeyFrame nl kfl in
      if found && (MaxNackPackets <? Z.of_nat (length nl) + numNewNacks)
      then remove_while fuel nl kfl numNewNacks
      else Ok (nl, kfl)
  end.

(** The [for] of [AddPacketsToNackList]. *)
Fixpoint add_loop (fuel : nat) (nl : list (Z * nack_info)) (rl : list Z) (seq seqEnd : Z)
  : outcome (list (Z * nack_info)) :=
  if seq =? seqEnd then Ok nl
  else
    match fuel with
    | O => Err OutOfFuel
    | S fuel =>
        match OrdSet.find fst lt seq nl with
        | Some _ => Err AssertFailed
        | None =>
            match OrdSet.find id_key lt seq rl with
            | Some _ => add_loop fuel nl rl (u16 (seq + 1)) seqEnd
            | None =>
                add_loop fuel (OrdSet.insert fst lt (seq, NackInfo seq seq 0 0) nl) rl
                  (u16 (seq + 1)) seqEnd
            end
        end
    end.

Definition AddPacketsToNackList (s : nack_generator) (seqStart seqEnd : Z)
  : outcome (nack_generator * list nack_call) :=
  let nl := lower_bound fst lt (u16 (seqEnd - MaxPacketAge)) (nackList s) in
  let numNewNacks := u16 (seqEnd - seqStart) in
  '(nl, kfl) ← (if MaxNackPackets <? Z.of_nat (length nl) + numNewNacks
                then remove_while (S (length nl)) nl (keyFrameList s) numNewNacks
                else Ok (nl, keyFrameList s));
  if MaxNackPackets <? Z.of_nat (length nl) + numNewNacks
  then Ok (set_lists s [] kfl (recoveredList s) (lastSeq s), [OnNackGeneratorKeyFrameRequired])
  else
    nl ← add_loop (Z.to_nat numNewNacks) nl (recoveredList s) seqStart seqEnd;
    Ok (set_lists s nl kfl (recoveredList s) (lastSeq s), []).

(** Whether [GetNackBatch] requests the packet now. *)
Definition due (filter : nack_filter) (nowMs last rtt : Z) (i : nack_info) : bool :=
  match filter with
  | SEQ =>
      (sentAtMs i =? 0)
      && ((sendAtSeq i =? last) || IsSeqHigherThan 16 last (sendAtSeq i))
  | TIME => rtt <=? u64 (nowMs - sentAtMs i)
  end.

(** The loop of [GetNackBatch]: the batch, and the list it leaves. *)
Fixpoint nack_batch (filter : nack_filter) (nowMs last rtt : Z) (nl : list (Z * nack_info))
  : list Z * list (Z * nack_info) :=
  match nl with
  | [] => ([], [])
  | (k, i) :: nl =>
      let '(batch, rest) := nack_batch filter nowMs last rtt nl in
      if due filter nowMs last rtt i then
        let r := u8 (retries i + 1) in
        (ni_seq i :: batch,
         if MaxNackRetries <=? r then rest
         else (k, NackInfo (ni_seq i) (sendAtSeq i) nowMs r) :: rest)
      else (batch, (k, i) :: rest)
  end.

Definition GetNackBatch (s : nack_generator) (filter : nack_filter) (nowMs : Z)
  : nack_generator * list Z :=
  let '(batch, nl) := nack_batch filter nowMs (lastSeq s) (rtt s) (nackList s) in
  (set_lists s nl (keyFrameList s) (recoveredList s) (lastSeq s), batch).

Definition MayRunTimer (s : nack_generator) : outcome nack_generator :=
  match nackList s with
  | [] => Ok s
  | _ => t ← Start (ng_timer s) TimerInterval 0; Ok (set_timer s t)
  end.

Definition nack_required (batch : list Z) : list nack_call :=
  match batch with
  | [] => []
  | _ => [OnNackGeneratorNackRequired batch]
  end.

Definition ReceivePacket (s : nack_generator) (seq : Z) (isKeyFrame isRecovered : bool) (nowMs : Z)
  : outcome (nack_generator * list nack_call * bool) :=
  if negb (started s) then
    Ok (NackGenerator (nackList s)
          (if isKeyFrame then OrdSet.insert id_key lt seq (keyFrameList s) else keyFrameList s)
          (recoveredList s) true seq (rtt s) (ng_timer s), [], false)
  else if seq =? lastSeq s then Ok (s, [], false)
  else if lt seq (lastSeq s) then
    match OrdSet.find fst lt seq (nackList s) with
    | Some _ =>
        Ok (set_lists s (OrdSet.erase fst lt seq (nackList s)) (keyFrameList s) (recoveredList s)
              (lastSeq s), [], true)
    | None => Ok (s, [], false)
    end
  else
    let kfl := if isKeyFrame then OrdSet.insert id_key lt seq (keyFrameList s) else keyFrameList s in
    let kfl := lower_bound id_key lt (u16 (seq - MaxPacketAge)) kfl in
    if isRecovered then
      let rl := OrdSet.insert id_key lt seq (recoveredList s) in
      let rl := lower_bound id_key lt (u16 (seq - MaxPacketAge)) rl in
      Ok (set_lists s (nackList s) kfl rl (lastSeq s), [], false)
    else
      let s := set_lists s (nackList s) kfl (recoveredList s) (lastSeq s) in
      '(s, calls) ← AddPacketsToNackList s (u16 (lastSeq s + 1)) seq;
      let s := set_lists s (nackList s) (keyFrameList s) (recoveredList s) seq in
      let '(s, batch) := GetNackBatch s SEQ nowMs in
      s ← (if IsActive (ng_timer s) then Ok s else MayRunTimer s);
      Ok (s, calls ++ nack_required batch, false).

Definition Reset (s : nack_generator) : nack_generator :=
  NackGenerator [] [] [] false 0 (rtt s) (ng_timer s).

Definition OnTimer (s : nack_generator) (nowMs : Z)
  : outcome (nack_generator * list nack_call) :=
  let s := set_timer s (fired (ng_timer s)) in
  let '(s, batch) := GetNackBatch s TIME nowMs in
  s ← MayRunTimer s;
  Ok (s, nack_required batch).

(** ** Runs *)

Inductive nack_event : Type :=
| PacketReceived (seq : Z) (isKeyFrame isRecovered : bool) (nowMs : Z)
| TimerFired (nowMs : Z)
| RttUpdated (rtt : Z)
| WasReset.

Definition nack_event_ok (s : nack_generator) (e : nack_event) : Prop :=
  match e with
  | PacketReceived seq _ _ nowMs => in_uint 16 seq /\ 0 < nowMs < 2 ^ 64
  | TimerFired nowMs => IsActive (ng_timer s) = true /\ 0 < nowMs < 2 ^ 64
  | RttUpdated rtt => in_uint 32 rtt
  | WasReset => True
  end.

Definition nack_step (s : nack_generator) (e : nack_event)
  : outcome (nack_generator * list nack_call) :=
  match e with
  | PacketReceived seq isKeyFrame isRecovered nowMs =>
      '(s, calls, _) ← ReceivePacket s seq isKeyFrame isRecovered nowMs; Ok (s, calls)
  | TimerFired nowMs => OnTimer s nowMs
  | RttUpdated rtt => Ok (UpdateRtt s rtt, [])
  | WasReset => Ok (Reset s, [])
  end.

Inductive nack_reachable : nack_generator -> Prop :=
| nack_reachable_new : nack_reachable new_NackGenerator
| nack_reachable_step s e s' calls :
    nack_reachable s -> nack_event_ok s e -> nack_step s e = Ok (s', calls) ->
    nack_reachable s'.
End definitions.
Arguments nack_generator H : clear implicits.

(** * The order of the NACK list

    A missing packet is placed by its age: how far behind the last sequence
    number it is.  As long as all ages stay under half of the number space,
    [SeqLowerThan] is the order of decreasing ages. *)

Section ages.
Implicit Types last k : Z.

Definition age last k : Z := u16 (last - k).
Definition in_list last k : Prop := in_uint 16 k /\ 1 <= age last k <= 20000.
Definition place last k : Z := - age last k.

Lemma key_of_age last k : in_uint 16 k -> k = u16 (last - age last k).
Proof.
  intros Hk. unfold age. rewrite wrap_sub_r.
  replace (last - (last - k)) with k by lia. by rewrite wrap_small.
Qed.

Lemma age_of last j : in_uint 16 j -> age last (u16 (last - j)) = j.
Proof.
  intros Hj. unfold age. rewrite wrap_sub_r.
  replace (last - (last - j)) with j by lia. by rewrite wrap_small.
Qed.

Lemma lt_place last a b : in_list last a -> in_list last b ->
  IsSeqLowerThan 16 a b = (place last a <? place last b).
Proof.
  intros [Ha Hra] [Hb Hrb]. unfold place.
  replace (IsSeqLowerThan 16 a b)
    with (IsSeqLowerThan 16 (u16 (last - age last a)) (u16 (last - age last b)))
    by by rewrite <- !key_of_age.
  rewrite IsSeqLowerThan_wrap by (try change (half_space 16) with 32768; lia).
  destruct (Z.ltb_spec (last - age last a) (last - age last b)),
    (Z.ltb_spec (- age last a) (- age last b)); lia.
Qed.

Lemma place_inj last a b : in_list last a -> in_list last b ->
  place last a = place last b -> a = b.
Proof.
  intros [Ha _] [Hb _] Heq. rewrite (key_of_age last a), (key_of_age last b) by done.
  unfold place in Heq. f_equal. lia.
Qed.

(** Ages grow by the advance of the last sequence number. *)
Lemma age_advance last d k : in_uint 16 k -> in_uint 16 (age last k + d) ->
  age (u16 (last + d)) k = age last k + d.
Proof.
  intros Hk Hd. rewrite <- (wrap_small 16 (age last k + d)) by done.
  unfold age. wrap_simp.
Qed.
End ages.

Abbreviation by_age last := (ordered (@fst Z nack_info) (in_list last) (place last)).

(** The numbers of the [n] packets before [e]. *)
Definition missing (e n : Z) : list Z := u16 <$> seqZ (e - n) n.

Definition recovered (rl : list Z) (q : Z) : bool :=
  match OrdSet.find (fun x : Z => x) (IsSeqLowerThan 16) q rl with Some _ => true | None => false end.

Definition unrecovered (rl : list Z) (qs : list Z) : list Z :=
  List.filter (fun q => negb (recovered rl q)) qs.

Section lists.
Implicit Types (nl : list (Z * nack_info)) (last e n : Z).

Definition entry_ok last (e : Z * nack_info) : Prop :=
  age last e.1 <= MaxPacketAge /\ ni_seq e.2 = e.1 /\ sendAtSeq e.2 = e.1 /\
  0 <= retries e.2 < MaxNackRetries /\ 0 < sentAtMs e.2.

Definition nl_ok last nl : Prop :=
  by_age last nl /\ Forall (entry_ok last) nl /\ Z.of_nat (length nl) <= MaxNackPackets.

Lemma RemoveNackItems_sublist nl kfl nl' kfl' found :
  RemoveNackItemsUntilKeyFrame nl kfl = (nl', kfl', found) ->
  nl' `sublist_of` nl /\ (found = true -> (length nl' < length nl)%nat).
Proof.
  revert nl. induction kfl as [|kf kfl IH]; intros nl; cbn.
  - by intros [= <- <- <-].
  - destruct (length _ =? length nl)%nat eqn:E; [by apply IH|].
    intros [= <- <- <-]. apply Nat.eqb_neq in E.
    pose proof (lower_bound_sublist fst (IsSeqLowerThan 16) kf nl) as Hs.
    split; [done|]. intros _. apply sublist_length in Hs. lia.
Qed.

Lemma remove_while_Ok fuel nl kfl n :
  (length nl < fuel)%nat ->
  exists nl' kfl', remove_while fuel nl kfl n = Ok (nl', kfl') /\ nl' `sublist_of` nl.
Proof.
  revert nl kfl. induction fuel as [|fuel IH]; intros nl kfl Hf; [lia|]. cbn.
  destruct (RemoveNackItemsUntilKeyFrame nl kfl) as [[nl1 kfl1] found] eqn:E.
  destruct (RemoveNackItems_sublist _ _ _ _ _ E) as [Hsub Hlt].
  destruct found; cbn; [|by eexists _, _].
  destruct (MaxNackPackets <? _); [|by eexists _, _].
  destruct (IH nl1 kfl1) as (nl' & kfl' & ? & ?); [specialize (Hlt eq_refl); lia|].
  eexists _, _. split; [done|]. by etrans.
Qed.

(** What the loop adds: an entry for each number not recovered. *)
Lemma add_loop_Ok e n nl rl :
  in_uint 16 e -> 0 <= n <= 1000 ->
  by_age e nl -> Forall (fun x => n < age e x.1) nl ->
  add_loop (Z.to_nat n) nl rl (u16 (e - n)) e
  = Ok (nl ++ ((fun q => (q, NackInfo q q 0 0)) <$> unrecovered rl (missing e n))).
Proof.
  intros He. remember (Z.to_nat n) as fuel eqn:Hfuel.
  revert n nl Hfuel. induction fuel as [|fuel IH]; intros n nl Hfuel Hn Hord Hage; cbn [add_loop].
  - assert (n = 0) as -> by lia. rewrite Z.sub_0_r, wrap_small, Z.eqb_refl by done.
    by rewrite app_nil_r.
  - pose proof (age_of e n ltac:(unfold in_uint; lia)) as Hq.
    set (q := u16 (e - n)) in *.
    assert (in_list e q) as Hdom.
    { split; [apply wrap_range; lia|]. rewrite Hq. lia. }
    destruct (Z.eqb_spec q e) as [Heq|_].
    { rewrite Heq in Hq. unfold age in Hq. rewrite Z.sub_diag in Hq. vm_compute in Hq. lia. }
    rewrite (proj2 (find_None fst _ (in_list e) (place e) (lt_place e) (place_inj e) q nl Hdom Hord)).
    2:{ rewrite Forall_forall in Hage. intros x Hx Heq. specialize (Hage x Hx).
        rewrite Heq, Hq in Hage. lia. }
    assert (u16 (q + 1) = u16 (e - (n - 1))) as -> by (subst q; wrap_simp).
    assert (missing e n = q :: missing e (n - 1)) as ->.
    { unfold missing. rewrite seqZ_cons by lia. cbn. do 2 f_equal. f_equal; lia. }
    assert (Forall (fun x : Z * nack_info => n - 1 < age e x.1) nl) as Hage'.
    { eapply Forall_impl; [exact Hage|]. cbn. lia. }
    unfold unrecovered. cbn [List.filter]. unfold recovered at 1.
    destruct (OrdSet.find _ _ q rl); cbn [negb].
    + apply IH; [lia|lia|done|done].
    + rewrite insert_last.
      2:{ destruct Hord as [Hdoms _]. rewrite Forall_forall in Hdoms, Hage |- *.
          intros x Hx. rewrite (lt_place e) by (done || by apply Hdoms).
          cbn [fst]. unfold place. rewrite Hq. specialize (Hage x Hx). lia. }
      cbn [fmap list_fmap]. rewrite (cons_middle _ nl (_ <$> _)), app_assoc. apply IH; [lia|lia|..].
      * apply (ordered_app _ _ _ _ (lt_place e) (place_inj e)); [done|..].
        -- apply ordered_cons; [done|apply ordered_nil|constructor].
        -- intros a b Ha ->%list_elem_of_singleton. cbn. rewrite Forall_forall in Hage.
           specialize (Hage a Ha). unfold place. rewrite Hq. lia.
      * apply Forall_app. split; [done|]. constructor; [|constructor]. cbn. rewrite Hq. lia.
Qed.
End lists.

(** * The operations keep the list in order *)

Section operations.
Context {H : Type} `{UvLaws H}.
Implicit Types (s : nack_generator H) (nl : list (Z * nack_info)).

(** The entries of the packets just found missing, before and after they are
    requested. *)
Definition fresh (q : Z) : Z * nack_info := (q, NackInfo q q 0 0).
Definition stamped (nowMs q : Z) : Z * nack_info := (q, NackInfo q q nowMs 1).

(** The entries not too old once the last number is [e]. *)
Definition pruned (e : Z) nl : list (Z * nack_info) :=
  lower_bound fst (IsSeqLowerThan 16) (u16 (e - MaxPacketAge)) nl.

Lemma by_age_advance last d nl :
  in_uint 16 last -> 0 <= d <= 10000 -> Forall (fun x => age last x.1 <= 10000) nl ->
  by_age last nl -> by_age (u16 (last + d)) nl.
Proof.
  intros Hlast Hd Hage. induction nl as [|x nl IH]; [intros; apply ordered_nil|].
  apply Forall_cons in Hage as [Hx Hage].
  intros ([Hk Hr] & Hord & Hall)%ordered_cons_inv.
  assert (forall k, in_uint 16 k -> age last k <= 10000 ->
            age (u16 (last + d)) k = age last k + d) as Hadv.
  { intros k ? ?. pose proof (wrap_range 16 (last - k) ltac:(lia)) as Hr0.
    apply age_advance; [done|]. unfold age, in_uint in *. lia. }
  apply ordered_cons; [|by apply IH|].
  - split; [done|]. rewrite Hadv by done. lia.
  - rewrite Forall_forall in Hall, Hage |- *. intros y Hy.
    specialize (Hall y Hy). specialize (Hage y Hy). unfold place in *.
    destruct Hord as [Hdoms _]. rewrite Forall_forall in Hdoms. destruct (Hdoms y Hy) as [Hky _].
    rewrite !Hadv by done. lia.
Qed.

Lemma pruned_spec last d nl :
  in_uint 16 last -> 0 <= d <= 10000 -> nl_ok last nl ->
  let e := u16 (last + d) in
  by_age e (pruned e nl) /\ pruned e nl `sublist_of` nl /\
  Forall (fun x => d < age e x.1 <= MaxPacketAge) (pruned e nl).
Proof.
  intros Hlast Hd (Hord & Hok & Hlen) e.
  assert (Forall (fun x => age last x.1 <= 10000) nl) as Hage.
  { eapply Forall_impl; [exact Hok|]. by intros x [? _]. }
  pose proof (by_age_advance last d nl Hlast Hd Hage Hord) as Hord'. fold e in Hord'.
  assert (in_list e (u16 (e - MaxPacketAge)) /\ age e (u16 (e - MaxPacketAge)) = 10000)
    as [Hb Hab].
  { unfold in_list. rewrite age_of by (unfold in_uint, MaxPacketAge; lia).
    split; [|done]. split; [apply wrap_range; lia|unfold MaxPacketAge; lia]. }
  pose proof (lower_bound_sublist fst (IsSeqLowerThan 16) (u16 (e - MaxPacketAge)) nl) as Hsub.
  split_and!; [by eapply ordered_sublist|done|].
  apply Forall_forall. intros x Hx.
  apply (elem_of_lower_bound _ _ (in_list e) (place e) (lt_place e)) in Hx
    as [Hx Hpos]; [|done..].
  unfold place in Hpos. rewrite Hab in Hpos.
  split; [|unfold MaxPacketAge; lia].
  destruct Hord as [Hdoms _]. rewrite Forall_forall in Hdoms, Hage.
  destruct (Hdoms x Hx) as [Hk Hr]. specialize (Hage x Hx).
  unfold e. rewrite age_advance; [lia|done|unfold in_uint; lia].
Qed.

Lemma AddPacketsToNackList_post s d :
  in_uint 16 (lastSeq s) -> 1 <= d <= 32768 -> nl_ok (lastSeq s) (nackList s) ->
  let e := u16 (lastSeq s + d) in
  let room nl := Z.of_nat (length nl) + (d - 1) <= MaxNackPackets in
  exists nl kfl calls,
    AddPacketsToNackList s (u16 (lastSeq s + 1)) e
    = Ok (set_lists s nl kfl (recoveredList s) (lastSeq s), calls) /\
    ((nl = [] /\ calls = [OnNackGeneratorKeyFrameRequired]) \/
     (exists old, old `sublist_of` pruned e (nackList s) /\ room old /\ calls = [] /\
        nl = old ++ (fresh <$> unrecovered (recoveredList s) (missing e (d - 1))))) /\
    (room (pruned e (nackList s)) ->
     nl = pruned e (nackList s) ++ (fresh <$> unrecovered (recoveredList s) (missing e (d - 1)))
     /\ calls = []).
Proof.
  intros Hlast Hd Hok e room. unfold AddPacketsToNackList. fold (pruned e (nackList s)).
  set (nl0 := pruned e (nackList s)).
  assert (u16 (e - u16 (lastSeq s + 1)) = d - 1) as Hnum.
  { rewrite <- (wrap_small 16 (d - 1)) by (unfold in_uint; lia). subst e. wrap_simp. }
  rewrite Hnum. set (m := (if MaxNackPackets <? _ then _ else _) : outcome (_ * _)).
  assert (exists nl1 kfl1, m = Ok (nl1, kfl1) /\ nl1 `sublist_of` nl0 /\
            (room nl0 -> nl1 = nl0)) as (nl1 & kfl1 & -> & Hsub1 & Hroom1).
  { subst m. destruct (Z.ltb_spec MaxNackPackets (Z.of_nat (length nl0) + (d - 1))).
    - destruct (remove_while_Ok (S (length nl0)) nl0 (keyFrameList s) (d - 1))
        as (nl1 & kfl1 & ? & ?); [lia|].
      exists nl1, kfl1. split_and!; [done..|]. unfold room. lia.
    - by exists nl0, (keyFrameList s). }
  cbn [mbind outcome_bind].
  destruct (Z.ltb_spec MaxNackPackets (Z.of_nat (length nl1) + (d - 1))) as [Hfull|Hfit].
  { exists [], kfl1, [OnNackGeneratorKeyFrameRequired].
    split_and!; [done|by left|]. intros Hr. rewrite Hroom1 in Hfull by done. unfold room in Hr. lia. }
  assert (d <= 1001) as Hd' by (unfold MaxNackPackets in Hfit; lia).
  destruct (pruned_spec (lastSeq s) d (nackList s)) as (Hord & Hsub & Hages); [done|lia|done|].
  fold e in Hord, Hages. fold nl0 in Hord, Hages.
  assert (u16 (lastSeq s + 1) = u16 (e - (d - 1))) as -> by (subst e; wrap_simp).
  rewrite (add_loop_Ok e (d - 1) nl1).
  - cbn. eexists _, _, _. split_and!; [done| |].
    + right. exists nl1. by split_and!.
    + intros Hr. by rewrite Hroom1.
  - apply wrap_range. lia.
  - lia.
  - by eapply ordered_sublist.
  - rewrite Forall_forall in Hages |- *. intros x Hx. eapply elem_of_sublist in Hx; [|done].
    specialize (Hages x Hx). cbn in Hages. lia.
Qed.

Lemma nack_batch_app f now last r a b :
  nack_batch f now last r (a ++ b)
  = ((nack_batch f now last r a).1 ++ (nack_batch f now last r b).1,
     (nack_batch f now last r a).2 ++ (nack_batch f now last r b).2).
Proof.
  induction a as [|[k i] a IH]; [cbn; by destruct (nack_batch f now last r b)|].
  cbn [app nack_batch]. rewrite IH.
  destruct (nack_batch f now last r a), (nack_batch f now last r b).
  by destruct (due f now last r i), (MaxNackRetries <=? u8 (retries i + 1)).
Qed.

Lemma nack_batch_not_due f now last r nl :
  Forall (fun x => due f now last r x.2 = false) nl ->
  nack_batch f now last r nl = ([], nl).
Proof.
  induction 1 as [|[k i] nl Hi Hnl IH]; [done|]. cbn [nack_batch]. cbn [snd] in Hi.
  by rewrite IH, Hi.
Qed.

(** The packets just found missing are all requested. *)
Lemma nack_batch_fresh now last r qs :
  Forall (fun q => in_uint 16 q /\ 1 <= age last q <= 20000) qs -> in_uint 16 last ->
  nack_batch SEQ now last r (fresh <$> qs) = (qs, stamped now <$> qs).
Proof.
  intros Hqs Hlast. induction Hqs as [|q qs [Hq Hage] Hqs IH]; [done|].
  change (fresh <$> q :: qs) with ((q, NackInfo q q 0 0) :: (fresh <$> qs)).
  cbn [nack_batch]. rewrite IH.
  assert (due SEQ now last r (NackInfo q q 0 0) = true) as ->; [|done].
  unfold due. cbn. rewrite IsSeqHigherThan_swap.
  rewrite <- (wrap_small 16 last) by done.
  rewrite (key_of_age last q) at 2 by done. rewrite IsSeqLowerThan_wrap.
  - rewrite (proj2 (Z.ltb_lt _ _)) by lia. apply orb_true_r.
  - lia.
  - change (half_space 16) with 32768. lia.
Qed.

(** What a batch leaves: the entries not requested and those requested fewer
    than ten times, in order. *)
Lemma nack_batch_keys f now last r nl :
  fst <$> (nack_batch f now last r nl).2 `sublist_of` fst <$> nl.
Proof.
  induction nl as [|[k i] nl IH]; [done|]. cbn [nack_batch].
  destruct (nack_batch f now last r nl) as [b rest]. destruct (due f now last r i); [destruct (MaxNackRetries <=? u8 (retries i + 1))|];
    by constructor.
Qed.

Lemma by_age_fst last nl :
  by_age last nl <-> ordered (fun x : Z => x) (in_list last) (place last) (fst <$> nl).
Proof.
  unfold ordered. rewrite Forall_fmap.
  enough (Sorted.StronglySorted (fun a b : Z * nack_info => place last a.1 < place last b.1) nl
          <-> Sorted.StronglySorted (fun a b => place last a < place last b) (fst <$> nl))
    by (cbn; tauto).
  induction nl as [|x l IH]; [split; constructor|].
  cbn. split; intros [Hl Hx]%Sorted.StronglySorted_inv; constructor; try by apply IH.
  - by rewrite Forall_fmap.
  - by rewrite Forall_fmap in Hx.
Qed.

Lemma by_age_keys last nl nl' :
  fst <$> nl' `sublist_of` fst <$> nl -> by_age last nl -> by_age last nl'.
Proof. rewrite !by_age_fst. intros. by eapply ordered_sublist. Qed.

Lemma missing_ordered e n :
  in_uint 16 e -> 0 <= n <= 1000 ->
  ordered (fun x : Z => x) (in_list e) (place e) (missing e n) /\
  Forall (fun q => in_uint 16 q /\ 1 <= age e q <= n) (missing e n).
Proof.
  intros He Hn. replace n with (Z.of_nat (Z.to_nat n)) in * by lia.
  generalize dependent (Z.to_nat n). clear n. intros n. induction n as [|n IH]; intros Hn.
  { split; [apply ordered_nil|constructor]. }
  assert (missing e (Z.of_nat (S n)) = u16 (e - Z.of_nat (S n)) :: missing e (Z.of_nat n)) as ->.
  { unfold missing. rewrite seqZ_cons by lia. cbn. do 2 f_equal. f_equal; lia. }
  destruct IH as [IH1 IH2]; [lia|].
  assert (age e (u16 (e - Z.of_nat (S n))) = Z.of_nat (S n)) as Hage
    by (apply age_of; unfold in_uint; lia).
  assert (in_uint 16 (u16 (e - Z.of_nat (S n)))) as Hr by (apply wrap_range; lia).
  split.
  - apply ordered_cons; [split; [done|lia]|done|].
    eapply Forall_impl; [exact IH2|]. intros q [_ Hq]. unfold place. lia.
  - constructor; [split; [done|lia]|]. eapply Forall_impl; [exact IH2|]. cbn. intros q [? ?].
    split; [done|lia].
Qed.

Lemma unrecovered_sublist rl qs : unrecovered rl qs `sublist_of` qs.
Proof.
  unfold unrecovered. induction qs as [|q qs IH]; [done|]. cbn.
  destruct (negb _); by constructor.
Qed.

Lemma nl_ok_sublist last nl nl' : nl' `sublist_of` nl -> nl_ok last nl -> nl_ok last nl'.
Proof.
  intros Hsub (Hord & Hok & Hlen). split_and!; [by eapply ordered_sublist| |].
  - rewrite Forall_forall in Hok |- *. intros x Hx. apply Hok. by eapply elem_of_sublist.
  - apply sublist_length in Hsub. lia.
Qed.

(** The list after a newer packet: entries not too old, then the packets just
    found missing. *)
Lemma nl_ok_extend last d nl old rl now r :
  in_uint 16 last -> 1 <= d <= 1001 -> 0 < now -> nl_ok last nl ->
  let e := u16 (last + d) in
  let new := unrecovered rl (missing e (d - 1)) in
  old `sublist_of` pruned e nl -> Z.of_nat (length old) + (d - 1) <= MaxNackPackets ->
  nl_ok e (old ++ (stamped now <$> new)) /\
  nack_batch SEQ now e r (old ++ (fresh <$> new)) = (new, old ++ (stamped now <$> new)).
Proof.
  intros Hlast Hd Hnow Hok e new Hold Hroom.
  destruct (pruned_spec last d nl Hlast ltac:(lia) Hok) as (Hpord & Hpsub & Hpages).
  fold e in Hpord, Hpages.
  assert (in_uint 16 e) as He by (apply wrap_range; lia).
  destruct (missing_ordered e (d - 1) He ltac:(lia)) as [Hmord Hmages].
  pose proof (unrecovered_sublist rl (missing e (d - 1))) as Hnew. fold new in Hnew.
  assert (Forall (fun q => in_uint 16 q /\ 1 <= age e q <= d - 1) new) as Hnages.
  { rewrite Forall_forall in Hmages |- *. intros q Hq. apply Hmages. by eapply elem_of_sublist. }
  assert (Forall (fun x => d < age e x.1 <= MaxPacketAge) old) as Hoages.
  { rewrite Forall_forall in Hpages |- *. intros x Hx. apply Hpages. by eapply elem_of_sublist. }
  assert (Forall (entry_ok last) old) as Holdok.
  { destruct Hok as (_ & Hok & _). rewrite Forall_forall in Hok |- *. intros x Hx. apply Hok.
    eapply elem_of_sublist; [exact Hx|by etrans]. }
  split.
  - split_and!.
    + rewrite by_age_fst, fmap_app, <- list_fmap_compose.
      change (fst ∘ stamped now) with (fun q : Z => q). rewrite list_fmap_id.
      apply (ordered_app _ _ _ _ (lt_place e) (place_inj e)).
      * rewrite <- by_age_fst. by eapply ordered_sublist.
      * by eapply ordered_sublist.
      * intros a b (x & -> & Hx)%list_elem_of_fmap Hb.
        pose proof (proj1 (Forall_forall _ _) Hoages x Hx) as Hax.
        destruct (proj1 (Forall_forall _ _) Hnages b Hb). unfold place. cbn in *. lia.
    + apply Forall_app. split.
      * rewrite Forall_forall in Holdok, Hoages |- *. intros x Hx.
        destruct (Holdok x Hx) as (_ & ?). destruct (Hoages x Hx). done.
      * rewrite Forall_fmap. eapply Forall_impl; [exact Hnages|].
        intros q [? ?]. unfold entry_ok, MaxPacketAge, MaxNackRetries. cbn.
        split_and!; try done; lia.
    + rewrite length_app, length_fmap. apply sublist_length in Hnew.
      unfold missing in Hnew. rewrite length_fmap, length_seqZ in Hnew. lia.
  - rewrite nack_batch_app, (nack_batch_not_due _ _ _ _ old), nack_batch_fresh; [done| |done|].
    + eapply Forall_impl; [exact Hnages|]. cbn. intros q [? ?]. split; [done|lia].
    + eapply Forall_impl; [exact Holdok|]. intros [k i] (_ & _ & _ & _ & Hsent). cbn in *.
      unfold due. by destruct (Z.eqb_spec (sentAtMs i) 0); [lia|].
Qed.

Lemma nack_batch_ok f now last r nl :
  0 < now -> nl_ok last nl -> nl_ok last (nack_batch f now last r nl).2.
Proof.
  intros Hnow (Hord & Hok & Hlen). pose proof (nack_batch_keys f now last r nl) as Hsub.
  split; [by eapply by_age_keys|]. split.
  - clear Hord Hlen Hsub. induction Hok as [|[k i] nl (Ha & Hs & Hsa & Hr & Ht) Hok IH]; [constructor|].
    cbn [nack_batch]. destruct (nack_batch f now last r nl) as [b rest]. cbn [snd] in *.
    destruct (due f now last r i); [|by constructor].
    cbn [fst snd] in *.
    assert (u8 (retries i + 1) = retries i + 1) as ->
      by (apply wrap_small; unfold in_uint, MaxNackRetries in *; lia).
    destruct (Z.leb_spec MaxNackRetries (retries i + 1)); [done|].
    constructor; [|done]. unfold entry_ok. cbn. split_and!; try done; lia.
  - apply sublist_length in Hsub. rewrite !length_fmap in Hsub. lia.
Qed.

(** What the listener is asked for: distinct sequence numbers, not too many. *)
Definition batch_ok (batch : list Z) : Prop :=
  batch <> [] /\ NoDup batch /\ Forall (in_uint 16) batch /\ Z.of_nat (length batch) <= MaxNackPackets.

Definition call_ok (c : nack_call) : Prop :=
  match c with
  | OnNackGeneratorNackRequired batch => batch_ok batch
  | OnNackGeneratorKeyFrameRequired => True
  end.

Lemma by_age_NoDup last nl : by_age last nl -> NoDup (fst <$> nl).
Proof.
  induction nl as [|x nl IH]; [constructor|]. intros (_ & Hord & Hall)%ordered_cons_inv.
  rewrite fmap_cons. apply NoDup_cons. split; [|by apply IH].
  intros (y & E & Hy)%list_elem_of_fmap. rewrite Forall_forall in Hall. specialize (Hall y Hy).
  rewrite E in Hall. lia.
Qed.

Lemma batch_calls last nl batch : nl_ok last nl -> batch `sublist_of` (fst <$> nl) ->
  Forall call_ok (nack_required batch).
Proof.
  intros (Hord & _ & Hlen) Hsub. unfold nack_required. destruct batch as [|q qs]; [constructor|].
  constructor; [|constructor]. split; [done|]. split; [eapply sublist_NoDup; [by apply (by_age_NoDup last)|exact Hsub]|].
  split.
  - apply Forall_forall. intros x Hx. eapply elem_of_sublist in Hsub; [|exact Hx].
    apply list_elem_of_fmap in Hsub as (y & -> & Hy). destruct Hord as [Hdom _].
    rewrite Forall_forall in Hdom. by destruct (Hdom y Hy).
  - apply sublist_length in Hsub. rewrite length_fmap in Hsub. lia.
Qed.

Lemma nack_batch_requests f now last r nl : nl_ok last nl ->
  (nack_batch f now last r nl).1 `sublist_of` (fst <$> nl).
Proof.
  intros (_ & Hok & _). induction Hok as [|[k i] nl (_ & Hs & _) Hok IH]; [done|].
  cbn [nack_batch]. destruct (nack_batch f now last r nl) as [b rest]. cbn [fst snd] in *.
  rewrite fmap_cons. cbn [fst]. destruct (due f now last r i); [|by constructor].
  rewrite Hs. by constructor.
Qed.
End operations.

(** * The invariant of the generator *)

Section invariant.
Context {H : Type} `{UvLaws H}.
Implicit Types (s : nack_generator H) (nl : list (Z * nack_info)).

Definition timer_ok (t : timer H) nl : Prop :=
  closed t = false /\ (IsActive t = true -> one_shot t) /\ (nl <> [] -> IsActive t = true).

Definition ng_inv s : Prop :=
  in_uint 16 (lastSeq s) /\ nl_ok (lastSeq s) (nackList s) /\
  (started s = false -> nackList s = []) /\ timer_ok (ng_timer s) (nackList s).

Lemma nl_ok_nil last : nl_ok last [].
Proof. split_and!; [apply ordered_nil|constructor|unfold MaxNackPackets; cbn; lia]. Qed.

Lemma MayRunTimer_post s : closed (ng_timer s) = false -> IsActive (ng_timer s) = false ->
  exists t, MayRunTimer s = Ok (set_timer s t) /\ timer_ok t (nackList s) /\
    (nackList s = [] -> IsActive t = false).
Proof.
  intros Hc Ha. unfold MayRunTimer. destruct (nackList s) eqn:E.
  - exists (ng_timer s). split; [by destruct s|]. split; [|done]. split_and!; [done| |done].
    intros Hact. congruence.
  - destruct (Start_open (ng_timer s) TimerInterval Hc) as (t & -> & Hact & Hone & _).
    cbn. exists t. split; [done|]. split; [|done]. split_and!; [apply Hone|done|done].
Qed.

(** A newer number is ahead by at most half of the number space. *)
Lemma newer_distance seq last :
  in_uint 16 seq -> in_uint 16 last -> seq <> last -> IsSeqLowerThan 16 seq last = false ->
  let d := u16 (seq - last) in 1 <= d <= 32768 /\ seq = u16 (last + d).
Proof.
  intros Hs Hl Hne Hlt d.
  split; [|subst d; rewrite <- (wrap_small 16 seq) at 1 by done; wrap_simp].
  unfold IsSeqLowerThan in Hlt. change (MaxValue 16 / 2) with 32767 in Hlt.
  unfold d, wrap, in_uint in *. change (2 ^ 16) with 65536 in *.
  destruct (Z.ltb_spec seq last).
  - rewrite <- (Z_mod_plus_full _ 1), Z.mod_small by lia. lia.
  - rewrite Z.mod_small by lia. lia.
Qed.

(** The newer packet: what becomes of the list, and what the listener gets. *)
Lemma ReceivePacket_newer s seq isKeyFrame now :
  started s = true -> in_uint 16 (lastSeq s) -> nl_ok (lastSeq s) (nackList s) ->
  timer_ok (ng_timer s) (nackList s) ->
  in_uint 16 seq -> 0 < now -> seq <> lastSeq s -> IsSeqLowerThan 16 seq (lastSeq s) = false ->
  let new := unrecovered (recoveredList s) (missing seq (u16 (seq - lastSeq s) - 1)) in
  let kept := pruned seq (nackList s) in
  exists s' calls,
    ReceivePacket s seq isKeyFrame false now = Ok (s', calls, false) /\
    lastSeq s' = seq /\ started s' = true /\ nl_ok seq (nackList s') /\
    timer_ok (ng_timer s') (nackList s') /\ Forall call_ok calls /\
    (Z.of_nat (length kept) + (u16 (seq - lastSeq s) - 1) <= MaxNackPackets ->
     nackList s' = kept ++ (stamped now <$> new) /\ calls = nack_required new).
Proof.
  intros Hst Hlast Hok Ht Hseq Hnow Hne Hlt new kept.
  destruct (newer_distance _ _ Hseq Hlast Hne Hlt) as [Hd Heq].
  set (d := u16 (seq - lastSeq s)) in *. unfold ReceivePacket.
  rewrite Hst, Hlt, (proj2 (Z.eqb_neq _ _)) by done. cbn [negb].
  set (kfl := lower_bound _ _ _ _). set (s1 := set_lists s _ kfl _ _).
  destruct (AddPacketsToNackList_post s1 d Hlast Hd Hok) as (nl & kfl1 & calls & Hadd & Hcase & Hroom).
  change (lastSeq s1) with (lastSeq s) in *. rewrite <- Heq in Hadd, Hcase, Hroom.
  change (recoveredList s1) with (recoveredList s) in *. change (nackList s1) with (nackList s) in *.
  fold new kept in Hcase, Hroom. rewrite Hadd. cbn [mbind outcome_bind].
  assert (forall old, old `sublist_of` kept ->
    Z.of_nat (length old) + (d - 1) <= MaxNackPackets ->
    nl_ok seq (old ++ (stamped now <$> new)) /\
    nack_batch SEQ now seq (rtt s) (old ++ (fresh <$> new)) = (new, old ++ (stamped now <$> new)))
    as Hext.
  { intros old Hold Hfit.
    assert (d <= 1001) by (unfold MaxNackPackets in Hfit; lia).
    destruct (nl_ok_extend (lastSeq s) d (nackList s) old (recoveredList s) now (rtt s) Hlast)
      as [Hx1 Hx2]; rewrite <- ?Heq in *; try done; lia. }
  assert (exists old new', nl = old ++ (fresh <$> new') /\
    nl_ok seq (old ++ (stamped now <$> new')) /\
    nack_batch SEQ now seq (rtt s) nl = (new', old ++ (stamped now <$> new')))
    as (old & new' & Hnl & Hok' & Hbatch).
  { destruct Hcase as [[-> ->]|(old & Hold & Hfit & -> & ->)].
    - exists [], []. split_and!; [done|apply nl_ok_nil|done].
    - exists old, new. by destruct (Hext old Hold Hfit). }
  set (s2 := set_lists _ _ _ _ seq).
  assert (GetNackBatch s2 SEQ now
          = (set_lists s (old ++ (stamped now <$> new')) kfl1 (recoveredList s) seq, new')) as ->.
  { unfold GetNackBatch. cbn [nackList lastSeq rtt s2 set_lists s1]. by rewrite Hbatch. }
  set (s3 := set_lists s _ kfl1 _ seq).
  assert (exists t, (if IsActive (ng_timer s3) then Ok s3 else MayRunTimer s3)
            = Ok (set_timer s3 t) /\ timer_ok t (nackList s3)) as (t & -> & Ht').
  { destruct Ht as (Hc & Hone & Hact). destruct (IsActive (ng_timer s3)) eqn:Ea.
    - exists (ng_timer s3). split; [done|]. by split_and!.
    - destruct (MayRunTimer_post s3) as (t & ? & ? & _); [done..|]. by exists t. }
  cbn [mbind outcome_bind]. eexists _, _. split_and!; [done|done|done|done|done| |].
  { apply Forall_app. split; [|apply (batch_calls seq (old ++ (stamped now <$> new')))]; [|done|].
    - destruct Hcase as [[_ ->]|(? & _ & _ & -> & _)]; [by apply Forall_singleton|constructor].
    - rewrite fmap_app, <- list_fmap_compose. change (fst ∘ stamped now) with (fun q : Z => q).
      rewrite list_fmap_id. by apply sublist_inserts_l. }
  intros Hfit. destruct (Hroom Hfit) as [Hnl' ->].
  destruct (Hext kept) as [_ Hbatch']; [done|done|].
  rewrite Hnl', Hbatch' in Hbatch. injection Hbatch as <- Ho.
  cbn. by rewrite Ho.
Qed.

Lemma ng_inv_intro s :
  in_uint 16 (lastSeq s) -> nl_ok (lastSeq s) (nackList s) ->
  (started s = false -> nackList s = []) -> timer_ok (ng_timer s) (nackList s) -> ng_inv s.
Proof. done. Qed.

Lemma OnTimer_post s now : ng_inv s -> IsActive (ng_timer s) = true -> 0 < now ->
  exists s' calls, OnTimer s now = Ok (s', calls) /\ ng_inv s' /\ Forall call_ok calls /\
    nackList s' = (nack_batch TIME now (lastSeq s) (rtt s) (nackList s)).2 /\
    rtt s' = rtt s /\ (nackList s' = [] -> IsActive (ng_timer s') = false).
Proof.
  intros (Hlast & Hok & Hst & Ht) Hact Hnow. unfold OnTimer. set (s1 := set_timer s _).
  unfold GetNackBatch. change (nackList s1) with (nackList s).
  change (lastSeq s1) with (lastSeq s). change (rtt s1) with (rtt s).
  destruct (nack_batch _ _ _ _ (nackList s)) as [batch nl] eqn:Eb.
  destruct Ht as (Hc & Hone & _). destruct (fired_one_shot (ng_timer s) (Hone Hact)) as (Hf & Hfc & _).
  set (s2 := set_lists s1 nl _ _ _).
  destruct (MayRunTimer_post s2) as (t & -> & Ht & Hidle); [done|done|].
  eexists _, _. split; [done|]. split; [|split; [|by split_and!]].
  2: { apply (batch_calls (lastSeq s) (nackList s)); [done|].
    change batch with (batch, nl).1. rewrite <- Eb. by apply nack_batch_requests. }
  apply ng_inv_intro; cbn; [done| | |done].
  - replace nl with (nack_batch TIME now (lastSeq s) (rtt s) (nackList s)).2 by by rewrite Eb.
    by apply nack_batch_ok.
  - intros Hs. rewrite Hst in Eb by done. by injection Eb.
Qed.

Lemma nack_step_inv s e : ng_inv s -> nack_event_ok s e ->
  exists s' calls, nack_step s e = Ok (s', calls) /\ ng_inv s' /\ Forall call_ok calls.
Proof.
  intros (Hlast & Hok & Hst & Ht) He. destruct e as [seq kf rec now|now|r|]; cbn in He |- *.
  - destruct He as [Hseq Hnow]. unfold ReceivePacket.
    destruct (started s) eqn:Es; cbn [negb].
    2:{ rewrite (Hst eq_refl) in *. eexists _, _. split; [done|]. split; [|constructor].
      apply ng_inv_intro; [done|apply nl_ok_nil|done|done]. }
    rewrite <- Es in Hst.
    destruct (Z.eqb_spec seq (lastSeq s)); [eexists _, _; split; [done|]; split; [by apply ng_inv_intro|constructor]|].
    destruct (IsSeqLowerThan 16 seq (lastSeq s)) eqn:Elt.
    { destruct (OrdSet.find _ _ _ _); [|eexists _, _; split; [done|]; split; [by apply ng_inv_intro|constructor]].
      eexists _, _. split; [done|]. split; [|constructor].
      pose proof (erase_sublist fst (IsSeqLowerThan 16) seq (nackList s)) as Hsub.
      apply ng_inv_intro; cbn; [done|by eapply nl_ok_sublist|congruence|].
      destruct Ht as (? & ? & Hact). split_and!; [done|done|]. intros Hne. apply Hact.
      intros Hnil. rewrite Hnil in *. done. }
    destruct rec; [eexists _, _; split; [done|]; split; [by apply ng_inv_intro|constructor]|].
    destruct (ReceivePacket_newer s seq kf now) as (s' & calls & Heq & ? & ? & ? & ? & ? & _);
      [done..|lia|done|done|].
    unfold ReceivePacket in Heq. rewrite Es, Elt, (proj2 (Z.eqb_neq _ _)) in Heq by done.
    cbn [negb] in Heq. rewrite Heq. eexists _, _. split; [done|]. split; [|done]. apply ng_inv_intro; congruence || done.
  - destruct He as [Hact Hnow].
    destruct (OnTimer_post s now) as (s' & calls & ? & ? & ? & _); [by apply ng_inv_intro|done|lia|].
    by exists s', calls.
  - eexists _, _. split; [done|]. split; [by apply ng_inv_intro|constructor].
  - eexists _, _. split; [done|]. split; [|constructor]. destruct Ht as (? & ? & ?).
    apply ng_inv_intro; [done|apply nl_ok_nil|done|]. by split_and!.
Qed.

Lemma nack_reachable_inv s : nack_reachable s -> ng_inv s.
Proof.
  induction 1 as [|s e s' calls Hs IH He Hstep].
  - apply ng_inv_intro; [done|apply nl_ok_nil|done|]. unfold timer_ok, IsActive. cbn.
    rewrite uv_init_inactive. split_and!; done.
  - destruct (nack_step_inv s e IH He) as (s1 & calls1 & Heq & Hinv & _).
    rewrite Heq in Hstep. by injection Hstep as <- <-.
Qed.
End invariant.

(** * The end of the requests *)

Section rounds.
Context {H : Type} `{UvLaws H}.
Implicit Types (s : nack_generator H) (nl : list (Z * nack_info)).

(** The timer, as long as it runs, fires at each of the times, and no packet
    arrives in between. *)
Fixpoint timer_rounds s (nows : list Z) : outcome (nack_generator H) :=
  match nows with
  | [] => Ok s
  | now :: nows =>
      if IsActive (ng_timer s) then '(s, _) ← OnTimer s now; timer_rounds s nows
      else Ok s
  end.

(** Times at least [rtt] apart, from [prev] on. *)
Fixpoint spaced (rtt prev : Z) (nows : list Z) : bool :=
  match nows with
  | [] => true
  | now :: nows => (prev + rtt <=? now) && (now <? 2 ^ 64) && spaced rtt now nows
  end.

Lemma nack_batch_round now last r prev m nl :
  0 <= r -> prev + r <= now < 2 ^ 64 -> 0 <= m ->
  Forall (fun x => 0 < sentAtMs x.2 <= prev /\ m <= retries x.2 < MaxNackRetries) nl ->
  Forall (fun x => 0 < sentAtMs x.2 <= now /\ m + 1 <= retries x.2 < MaxNackRetries)
    (nack_batch TIME now last r nl).2.
Proof.
  intros Hr Hnow Hm Hall. induction Hall as [|[k i] nl [Hsent Hret] Hall IH]; [constructor|].
  cbn [nack_batch fst snd] in *. destruct (nack_batch TIME now last r nl) as [b rest].
  cbn [snd] in IH. unfold due.
  rewrite (wrap_small 64) by (unfold in_uint; lia). rewrite (proj2 (Z.leb_le r _)) by lia.
  rewrite (wrap_small 8) by (unfold in_uint, MaxNackRetries in *; lia). cbn [snd].
  destruct (Z.leb_spec MaxNackRetries (retries i + 1)); [done|].
  constructor; [|done]. cbn. lia.
Qed.

Lemma timer_rounds_Ok nows s prev m :
  ng_inv s -> 0 <= rtt s -> 0 <= m -> 0 < prev ->
  Forall (fun x => 0 < sentAtMs x.2 <= prev /\ m <= retries x.2 < MaxNackRetries) (nackList s) ->
  spaced (rtt s) prev nows = true -> MaxNackRetries <= m + Z.of_nat (length nows) ->
  exists s', timer_rounds s nows = Ok s' /\ nackList s' = [] /\
    (nows <> [] -> IsActive (ng_timer s') = false).
Proof.
  revert s prev m. induction nows as [|now nows IH]; intros s prev m Hinv Hr Hm Hprev Hall Hsp Hlen;
    cbn [timer_rounds spaced length] in *.
  { exists s. split_and!; [done| |done]. destruct (nackList s) as [|x nl]; [done|].
    apply Forall_cons in Hall as [Hx _]. lia. }
  apply andb_true_iff in Hsp as [[Hn1%Z.leb_le Hn2%Z.ltb_lt]%andb_true_iff Hsp].
  destruct (IsActive (ng_timer s)) eqn:Eact.
  - destruct (OnTimer_post s now) as (s1 & calls & -> & Hinv1 & _ & Hnl & Hrtt & Hidle); [done|done|lia|].
    cbn [mbind outcome_bind]. destruct (IH s1 now (m + 1)) as (s' & Hs' & Hnil & Hact).
    + done.
    + lia.
    + lia.
    + lia.
    + rewrite Hnl. by apply (nack_batch_round now _ _ prev).
    + by rewrite Hrtt.
    + lia.
    + exists s'. split_and!; [done|done|]. intros _.
      destruct nows as [|n nows]; [|by apply Hact].
      injection Hs' as ->. by apply Hidle.
  - exists s. split_and!; [done| |done]. destruct Hinv as (_ & _ & _ & _ & _ & Hact).
    destruct (nackList s); [done|]. rewrite Eact in Hact. by discriminate Hact.
Qed.
End rounds.

(** * Properties *)

(** A generator that has received the packets 10 and 13 of a stream. *)
Definition ng_two_missing : nack_generator (option (Z * Z)) :=
  NackGenerator [stamped 5 11; stamped 5 12] [] [] true 13 100
    (Timer (Some (40, 0)) false 40 0).

Lemma ng_two_missing_reachable : nack_reachable ng_two_missing.
Proof.
  apply (nack_reachable_step
           (NackGenerator [] [] [] true 10 100 timer_new)
           (PacketReceived 13 false false 5) _ [OnNackGeneratorNackRequired [11; 12]]).
  - apply (nack_reachable_step new_NackGenerator (PacketReceived 10 false false 4) _ []).
    + constructor.
    + done.
    + reflexivity.
  - done.
  - vm_compute. reflexivity.
Qed.

Lemma sorted_ages last (nl : list (Z * nack_info)) :
  StronglySorted (fun x y => place last x.1 < place last y.1) nl -> StronglySorted (fun x y => age last y.1 < age last x.1) nl.
Proof.
  induction 1 as [|x nl Hnl IH Hx]; constructor; [done|]. eapply Forall_impl; [exact Hx|]. intros y. unfold place. cbn. lia.
Qed.

(** C16: after any sequence of packets, timer expirations, round-trip updates and
    resets, the next one returns: the assertion that a missing packet is not
    yet in the NACK list never fails and every loop ends.  The list stays within
    1000 entries at most 10000 behind the last packet, in the order of their age
    (the oldest first, so that none is there twice), each requested fewer than
    ten times, and the timer runs as long as the list is not empty. *)
Theorem nack_step_total {H} `{UvLaws H} (s : nack_generator H) e :
  nack_reachable s -> nack_event_ok s e ->
  exists s' calls, nack_step s e = Ok (s', calls) /\
    GetNackListLength s' <= MaxNackPackets /\
    Forall (fun '(k, i) => ni_seq i = k /\ 1 <= age (lastSeq s') k <= MaxPacketAge /\
                           0 <= retries i < MaxNackRetries) (nackList s') /\
    StronglySorted (fun x y => age (lastSeq s') y.1 < age (lastSeq s') x.1) (nackList s') /\
    (nackList s' <> [] -> IsActive (ng_timer s') = true).
Proof.
  intros Hs He. apply nack_reachable_inv in Hs.
  destruct (nack_step_inv s e Hs He) as (s' & calls & Hstep & (_ & (Hord & Hok & Hlen) & _ & Ht) & _).
  exists s', calls. split_and!; [done|done| | |apply Ht]; destruct Hord as [Hdoms Hsorted].
  2: { by apply sorted_ages. }
  rewrite Forall_forall in Hdoms, Hok |- *.
  intros [k i] Hx. destruct (Hdoms _ Hx) as [_ Hage]. destruct (Hok _ Hx) as (? & ? & _ & ? & _).
  cbn in *. lia.
Qed.

Lemma nack_step_total_witness :
  exists (s' : nack_generator (option (Z * Z))) calls,
    nack_step ng_two_missing (TimerFired 105) = Ok (s', calls) /\
    GetNackListLength s' <= MaxNackPackets /\
    Forall (fun '(k, i) => ni_seq i = k /\ 1 <= age (lastSeq s') k <= MaxPacketAge /\
                           0 <= retries i < MaxNackRetries) (nackList s') /\
    StronglySorted (fun x y => age (lastSeq s') y.1 < age (lastSeq s') x.1) (nackList s') /\
    (nackList s' <> [] -> IsActive (ng_timer s') = true).
Proof. apply (nack_step_total ng_two_missing); [apply ng_two_missing_reachable|done]. Defined.

(** C26: lost packets are requested at once: when a packet arrives newer than
    the last one and there is room for the packets in between, exactly those of
    them not already recovered are requested, in order, in one call, and are
    put at the end of the list; the older entries stay unless too old. *)
Theorem loss_is_requested {H} `{UvLaws H} (s : nack_generator H) seq isKeyFrame now :
  nack_reachable s -> started s = true -> in_uint 16 seq -> 0 < now ->
  seq <> lastSeq s -> IsSeqLowerThan 16 seq (lastSeq s) = false ->
  let new := unrecovered (recoveredList s) (missing seq (u16 (seq - lastSeq s) - 1)) in
  let kept := pruned seq (nackList s) in
  Z.of_nat (length kept) + (u16 (seq - lastSeq s) - 1) <= MaxNackPackets ->
  exists s', ReceivePacket s seq isKeyFrame false now = Ok (s', nack_required new, false) /\
    lastSeq s' = seq /\ nackList s' = kept ++ (stamped now <$> new).
Proof.
  intros Hs Hst Hseq Hnow Hne Hlt new kept Hfit. apply nack_reachable_inv in Hs.
  destruct Hs as (Hlast & Hok & _ & Ht).
  destruct (ReceivePacket_newer s seq isKeyFrame now Hst Hlast Hok Ht Hseq Hnow Hne Hlt)
    as (s' & calls & Heq & ? & _ & _ & _ & _ & Hroom).
  destruct (Hroom Hfit) as [Hnl ->]. by exists s'.
Qed.

Lemma loss_is_requested_witness :
  exists s' : nack_generator (option (Z * Z)),
    ReceivePacket ng_two_missing 16 false false 7
    = Ok (s', [OnNackGeneratorNackRequired [14; 15]], false) /\
    lastSeq s' = 16 /\
    nackList s' = [stamped 5 11; stamped 5 12] ++ [stamped 7 14; stamped 7 15].
Proof.
  apply (loss_is_requested ng_two_missing 16 false 7);
    [apply ng_two_missing_reachable|done|done|done|done|done|].
  vm_compute. discriminate.
Defined.

(** A packet older than the last one is reported as a requested packet
    exactly when it is in the NACK list; it is then the only entry removed, and
    the listener is not called. *)
Theorem late_packet_found {H} `{UvLaws H} (s : nack_generator H) seq isKeyFrame isRecovered now :
  nack_reachable s -> started s = true -> in_uint 16 seq ->
  1 <= age (lastSeq s) seq <= MaxPacketAge ->
  exists s', ReceivePacket s seq isKeyFrame isRecovered now
             = Ok (s', [], bool_decide (seq ∈ fst <$> nackList s)) /\
    lastSeq s' = lastSeq s /\
    forall x, x ∈ nackList s' <-> x ∈ nackList s /\ x.1 <> seq.
Proof.
  intros Hs Hst Hseq Hage. apply nack_reachable_inv in Hs. destruct Hs as (Hlast & Hok & _ & _).
  destruct Hok as (Hord & _ & _). unfold MaxPacketAge in Hage.
  assert (in_list (lastSeq s) seq) as Hdom by (split; [done|lia]).
  unfold ReceivePacket. rewrite Hst. cbn [negb].
  destruct (Z.eqb_spec seq (lastSeq s)) as [->|_].
  { unfold age in Hage. rewrite Z.sub_diag in Hage. change (u16 0) with 0 in Hage. lia. }
  assert (IsSeqLowerThan 16 seq (lastSeq s) = true) as ->.
  { rewrite <- (wrap_small 16 (lastSeq s)) by done. rewrite (key_of_age (lastSeq s) seq Hseq).
    rewrite IsSeqLowerThan_wrap; [lia|lia|]. change (half_space 16) with 32768. lia. }
  destruct (OrdSet.find fst (IsSeqLowerThan 16) seq (nackList s)) as [x|] eqn:Ef.
  - apply (find_Some fst _ _ _ (lt_place (lastSeq s)) (place_inj (lastSeq s))) in Ef as [Hx Hkey]; [|done..].
    rewrite bool_decide_true by (apply list_elem_of_fmap; by exists x).
    eexists. split; [done|]. split; [done|]. intros y. cbn.
    by apply (elem_of_erase fst _ _ _ (lt_place (lastSeq s)) (place_inj (lastSeq s))).
  - pose proof (proj1 (find_None fst _ _ _ (lt_place (lastSeq s)) (place_inj (lastSeq s)) _ _ Hdom Hord) Ef) as Hno.
    rewrite bool_decide_false
      by (intros (y & -> & Hy)%list_elem_of_fmap; by apply (Hno y)).
    exists s. split; [done|]. split; [done|]. intros y. split; [|by intros []].
    intros Hy. split; [done|]. by apply Hno.
Qed.

Lemma late_packet_found_witness :
  exists s' : nack_generator (option (Z * Z)),
    ReceivePacket ng_two_missing 11 false false 9 = Ok (s', [], true) /\
    lastSeq s' = 13 /\
    forall x, x ∈ nackList s' <-> x ∈ [stamped 5 11; stamped 5 12] /\ x.1 <> 11.
Proof.
  apply (late_packet_found ng_two_missing 11 false false 9);
    [apply ng_two_missing_reachable|done|done|].
  vm_compute. split; discriminate.
Defined.

(** Requests do not go on for ever: if no packet arrives, ten expirations of
    the timer, each at least a round trip after the last, empty the NACK list,
    and the timer is not started again. *)
Theorem nack_requests_end {H} `{UvLaws H} (s : nack_generator H) prev nows :
  nack_reachable s -> 0 <= rtt s -> 0 < prev ->
  Forall (fun x => sentAtMs x.2 <= prev) (nackList s) ->
  spaced (rtt s) prev nows = true -> (10 <= length nows)%nat ->
  exists s', timer_rounds s nows = Ok s' /\ nackList s' = [] /\ IsActive (ng_timer s') = false.
Proof.
  intros Hs Hr Hprev Hsent Hsp Hlen. apply nack_reachable_inv in Hs.
  destruct (timer_rounds_Ok nows s prev 0) as (s' & ? & ? & Hidle); try done.
  - destruct Hs as (_ & (_ & Hok & _) & _). rewrite Forall_forall in Hok, Hsent |- *.
    intros x Hx. destruct (Hok x Hx) as (_ & _ & _ & ? & ?). specialize (Hsent x Hx). cbn in *. lia.
  - unfold MaxNackRetries. lia.
  - exists s'. split_and!; [done|done|]. apply Hidle. destruct nows; [cbn in Hlen; lia|done].
Qed.

Lemma nack_requests_end_witness :
  exists s' : nack_generator (option (Z * Z)),
    timer_rounds ng_two_missing [105; 205; 305; 405; 505; 605; 705; 805; 905; 1005] = Ok s' /\
    nackList s' = [] /\ IsActive (ng_timer s') = false.
Proof.
  apply (nack_requests_end ng_two_missing 5);
    [apply ng_two_missing_reachable|done|done|by repeat constructor|reflexivity|cbn; lia].
Defined.
