(* ===== verification/RtpPacket.v ===== *)
(** [RTC::RtpPacket] (worker/src/RTC/RtpPacket.cpp,
    worker/include/RTC/RtpPacket.hpp): the view of an RTP packet over the buffer
    that holds it.

    A packet keeps its buffer (which may be longer than the packet: the worker
    leaves room to grow) and, for each pointer of the C++ object, an offset in
    it.  Every read and write of the code is one of the buffer, so a packet
    whose pointers leave the buffer fails with [OutOfBounds].  The bit fields
    are those of a little-endian build. *)

From S2P Require Export Bytes Utils.

Definition HeaderSize : Z := 12.
Definition MidMaxLength : Z := 8.

(** Bit field of [n] bits from bit [lo] of the byte at [off]. *)
Definition get_bits (mem : list Z) (off lo n : Z) : outcome Z :=
  b ← get1 mem off; Ok (Z.land (Z.shiftr b lo) (2 ^ n - 1)).

Definition set_bits (mem : list Z) (off lo n v : Z) : outcome (list Z) :=
  b ← get1 mem off;
  set1 mem off (Z.lor (Z.ldiff b (Z.shiftl (2 ^ n - 1) lo))
                  (Z.shiftl (Z.land v (2 ^ n - 1)) lo)).

(** * Data *)

Record extension_ids : Type := ExtensionIds {
  midExtensionId : Z;
  ridExtensionId : Z;
  rridExtensionId : Z;
  absSendTimeExtensionId : Z;
  transportWideCc01ExtensionId : Z;
  frameMarking07ExtensionId : Z;
  frameMarkingExtensionId : Z;
  ssrcAudioLevelExtensionId : Z;
  videoOrientationExtensionId : Z
}.

Definition no_ids : extension_ids := ExtensionIds 0 0 0 0 0 0 0 0 0.

Record rtp_packet : Type := RtpPacket {
  mem : list Z;
  csrcList : option Z;
  headerExtension : option Z;
  mapOneByteExtensions : gmap Z Z;
  mapTwoBytesExtensions : gmap Z Z;
  ids : extension_ids;
  payload : Z;
  payloadLength : Z;
  payloadPadding : Z;
  size : Z
}.

Record generic_extension : Type := GenericExtension {
  ge_id : Z;
  ge_len : Z;
  ge_value : list Z
}.

Definition set_mem (p : rtp_packet) (m : list Z) : rtp_packet :=
  RtpPacket m (csrcList p) (headerExtension p) (mapOneByteExtensions p)
    (mapTwoBytesExtensions p) (ids p) (payload p) (payloadLength p) (payloadPadding p) (size p).

Definition set_maps (p : rtp_packet) m1 m2 : rtp_packet :=
  RtpPacket (mem p) (csrcList p) (headerExtension p) m1 m2 (ids p)
    (payload p) (payloadLength p) (payloadPadding p) (size p).

Definition set_ids (p : rtp_packet) i : rtp_packet :=
  RtpPacket (mem p) (csrcList p) (headerExtension p) (mapOneByteExtensions p)
    (mapTwoBytesExtensions p) i (payload p) (payloadLength p) (payloadPadding p) (size p).

Definition set_payload (p : rtp_packet) pl len pad sz : rtp_packet :=
  RtpPacket (mem p) (csrcList p) (headerExtension p) (mapOneByteExtensions p)
    (mapTwoBytesExtensions p) (ids p) pl len pad sz.

Definition set_header_extension (p : rtp_packet) h : rtp_packet :=
  RtpPacket (mem p) (csrcList p) h (mapOneByteExtensions p)
    (mapTwoBytesExtensions p) (ids p) (payload p) (payloadLength p) (payloadPadding p) (size p).

(** * The fixed header *)

Definition header_csrcCount (m : list Z) : outcome Z := get_bits m 0 0 4.
Definition header_extension (m : list Z) : outcome Z := get_bits m 0 4 1.
Definition header_padding (m : list Z) : outcome Z := get_bits m 0 5 1.
Definition header_version (m : list Z) : outcome Z := get_bits m 0 6 2.

Definition GetPayloadType (p : rtp_packet) : outcome Z := get_bits (mem p) 1 0 7.
Definition HasMarker (p : rtp_packet) : outcome bool :=
  b ← get_bits (mem p) 1 7 1; Ok (truthy b).
Definition GetSequenceNumber (p : rtp_packet) : outcome Z := Get2Bytes (mem p) 2.
Definition GetTimestamp (p : rtp_packet) : outcome Z := Get4Bytes (mem p) 4.
Definition GetSsrc (p : rtp_packet) : outcome Z := Get4Bytes (mem p) 8.
Definition GetSize (p : rtp_packet) : Z := size p.

Definition SetPayloadType (p : rtp_packet) (payloadType : Z) : outcome rtp_packet :=
  m ← set_bits (mem p) 1 0 7 payloadType; Ok (set_mem p m).
Definition SetMarker (p : rtp_packet) (marker : bool) : outcome rtp_packet :=
  m ← set_bits (mem p) 1 7 1 (b2z marker); Ok (set_mem p m).
Definition SetPayloadPaddingFlag (p : rtp_packet) (flag : bool) : outcome rtp_packet :=
  m ← set_bits (mem p) 0 5 1 (b2z flag); Ok (set_mem p m).
Definition SetSequenceNumber (p : rtp_packet) (seq : Z) : outcome rtp_packet :=
  m ← Set2Bytes (mem p) 2 seq; Ok (set_mem p m).
Definition SetTimestamp (p : rtp_packet) (timestamp : Z) : outcome rtp_packet :=
  m ← Set4Bytes (mem p) 4 timestamp; Ok (set_mem p m).
Definition SetSsrc (p : rtp_packet) (ssrc : Z) : outcome rtp_packet :=
  m ← Set4Bytes (mem p) 8 ssrc; Ok (set_mem p m).

(** * The header extension *)

Definition HasHeaderExtension (p : rtp_packet) : bool := bool_decide (is_Some (headerExtension p)).

Definition GetHeaderExtensionId (p : rtp_packet) : outcome Z :=
  match headerExtension p with
  | None => Ok 0
  | Some h => Get2Bytes (mem p) h
  end.

Definition GetHeaderExtensionLength (p : rtp_packet) : outcome Z :=
  match headerExtension p with
  | None => Ok 0
  | Some h => n ← Get2Bytes (mem p) (h + 2); Ok (n * 4)
  end.

Definition HasOneByteExtensions (p : rtp_packet) : outcome bool :=
  i ← GetHeaderExtensionId p; Ok (i =? 48862 (* 0xBEDE *)).

Definition HasTwoBytesExtensions (p : rtp_packet) : outcome bool :=
  i ← GetHeaderExtensionId p; Ok (Z.land i 65520 =? 4096).

(** [while ((ptr < extensionEnd) && ( *ptr == 0)) ++ptr;] *)
Fixpoint skip_zeros (fuel : nat) (m : list Z) (ptr extensionEnd : Z) : outcome Z :=
  if ptr <? extensionEnd then
    b ← get1 m ptr;
    if b =? 0 then
      match fuel with
      | O => Err OutOfFuel
      | S fuel => skip_zeros fuel m (ptr + 1) extensionEnd
      end
    else Ok ptr
  else Ok ptr.

(** The loop over the One-Byte extensions: it fills the map. *)
Fixpoint one_byte_loop (fuel : nat) (m : list Z) (ptr extensionEnd : Z) (map : gmap Z Z)
  : outcome (gmap Z Z) :=
  if ptr <? extensionEnd then
    match fuel with
    | O => Err OutOfFuel
    | S fuel =>
        b ← get1 m ptr;
        let id := Z.shiftr (Z.land b 240) 4 in
        let len := Z.land b 15 + 1 in
        if id =? 15 then Ok map
        else if negb (id =? 0) then
          if extensionEnd <? ptr + 1 + len then Ok map
          else
            ptr' ← skip_zeros fuel m (ptr + (1 + len)) extensionEnd;
            one_byte_loop fuel m ptr' extensionEnd (<[id := ptr]> map)
        else
          ptr' ← skip_zeros fuel m (ptr + 1) extensionEnd;
          one_byte_loop fuel m ptr' extensionEnd map
    end
  else Ok map.

Fixpoint two_bytes_loop (fuel : nat) (m : list Z) (ptr extensionEnd : Z) (map : gmap Z Z)
  : outcome (gmap Z Z) :=
  if ptr + 1 <? extensionEnd then
    match fuel with
    | O => Err OutOfFuel
    | S fuel =>
        id ← get1 m ptr;
        len ← get1 m (ptr + 1);
        if negb (id =? 0) then
          if extensionEnd <? ptr + 2 + len then Ok map
          else
            ptr' ← skip_zeros fuel m (ptr + (2 + len)) extensionEnd;
            two_bytes_loop fuel m ptr' extensionEnd (<[id := ptr]> map)
        else
          ptr' ← skip_zeros fuel m (ptr + 1) extensionEnd;
          two_bytes_loop fuel m ptr' extensionEnd map
    end
  else Ok map.

Definition ParseExtensions (p : rtp_packet) : outcome rtp_packet :=
  one ← HasOneByteExtensions p;
  if one : bool then
    len ← GetHeaderExtensionLength p;
    let start := default 0 (headerExtension p) + 4 in
    m ← one_byte_loop (Z.to_nat len) (mem p) start (start + len) ∅;
    Ok (set_maps p m (mapTwoBytesExtensions p))
  else
    two ← HasTwoBytesExtensions p;
    if two : bool then
      len ← GetHeaderExtensionLength p;
      let start := default 0 (headerExtension p) + 4 in
      m ← two_bytes_loop (Z.to_nat len) (mem p) start (start + len) ∅;
      Ok (set_maps p (mapOneByteExtensions p) m)
    else Ok p.

(** The constructor. *)
Definition new_RtpPacket (m : list Z) (headerExtension : option Z)
    (payload payloadLength payloadPadding size : Z) : outcome rtp_packet :=
  count ← header_csrcCount m;
  ParseExtensions
    (RtpPacket m (if truthy count then Some HeaderSize else None) headerExtension ∅ ∅ no_ids
       payload payloadLength payloadPadding size).

Definition IsRtp (data : list Z) (len : Z) : outcome bool :=
  if HeaderSize <=? len then
    b0 ← get1 data 0;
    if (127 <? b0) && (b0 <? 192) then
      version ← header_version data; Ok (version =? 2)
    else Ok false
  else Ok false.

Definition Parse (data : list Z) (len : Z) : outcome rtp_packet :=
  rtp ← IsRtp data len;
  _ ← require Rejected rtp;
  let ptr := HeaderSize in
  csrcCount ← header_csrcCount data;
  let csrcListSize := csrcCount * 4 in
  _ ← require Rejected (negb (truthy csrcCount) || (ptr + csrcListSize <=? len));
  let ptr := ptr + csrcListSize in
  extension ← header_extension data;
  '(headerExtension, extensionSize, ptr) ←
    (if extension =? 1 then
       _ ← require Rejected (ptr + 4 <=? len);
       n ← Get2Bytes data (ptr + 2);
       let extensionValueSize := n * 4 in
       _ ← require Rejected (ptr + 4 + extensionValueSize <=? len);
       Ok (Some ptr, 4 + extensionValueSize, ptr + 4 + extensionValueSize)
     else Ok (None, 0, ptr));
  let payload := ptr in
  let payloadLength := len - ptr in
  _ ← require AssertFailed (ptr <=? len);
  padding ← header_padding data;
  '(payloadLength, payloadPadding) ←
    (if truthy padding then
       _ ← require Rejected (negb (payloadLength =? 0));
       payloadPadding ← get1 data (len - 1);
       _ ← require Rejected (negb (payloadPadding =? 0));
       _ ← require Rejected (payloadPadding <=? payloadLength);
       Ok (payloadLength - payloadPadding, payloadPadding)
     else Ok (payloadLength, 0));
  _ ← require AssertFailed
        (len =? HeaderSize + csrcListSize + extensionSize + payloadLength + payloadPadding);
  new_RtpPacket data headerExtension payload payloadLength payloadPadding len.

(** * Extensions of a packet

    [GetExtension] returns the offset and the length of a value, or nothing. *)

Definition HasExtension (p : rtp_packet) (id : Z) : outcome bool :=
  if id =? 0 then Ok false
  else
    one ← HasOneByteExtensions p;
    if one : bool then Ok (bool_decide (is_Some (mapOneByteExtensions p !! id)))
    else
      two ← HasTwoBytesExtensions p;
      if two : bool then
        match mapTwoBytesExtensions p !! id with
        | None => Ok false
        | Some e => len ← get1 (mem p) (e + 1); Ok (truthy len)
        end
      else Ok false.

Definition GetExtension (p : rtp_packet) (id : Z) : outcome (option (Z * Z)) :=
  if id =? 0 then Ok None
  else
    one ← HasOneByteExtensions p;
    if one : bool then
      match mapOneByteExtensions p !! id with
      | None => Ok None
      | Some e => len ← get_bits (mem p) e 0 4; Ok (Some (e + 1, len + 1))
      end
    else
      two ← HasTwoBytesExtensions p;
      if two : bool then
        match mapTwoBytesExtensions p !! id with
        | None => Ok None
        | Some e =>
            len ← get1 (mem p) (e + 1);
            if len =? 0 then Ok None else Ok (Some (e + 2, len))
        end
      else Ok None.

Definition SetExtensionLength (p : rtp_packet) (id len : Z) : outcome (rtp_packet * bool) :=
  if len =? 0 then Ok (p, false)
  else if id =? 0 then Ok (p, false)
  else
    one ← HasOneByteExtensions p;
    if one : bool then
      match mapOneByteExtensions p !! id with
      | None => Ok (p, false)
      | Some e =>
          cur ← get_bits (mem p) e 0 4;
          let currentLen := cur + 1 in
          m ← (if len <? currentLen
               then memset (mem p) (e + 1 + len) 0 (currentLen - len) else Ok (mem p));
          m ← set_bits m e 0 4 (len - 1);
          Ok (set_mem p m, true)
      end
    else
      two ← HasTwoBytesExtensions p;
      if two : bool then
        match mapTwoBytesExtensions p !! id with
        | None => Ok (p, false)
        | Some e =>
            currentLen ← get1 (mem p) (e + 1);
            m ← (if len <? currentLen
                 then memset (mem p) (e + 2 + len) 0 (currentLen - len) else Ok (mem p));
            m ← set1 m (e + 1) len;
            Ok (set_mem p m, true)
        end
      else Ok (p, false).

Definition ReadMid (p : rtp_packet) : outcome (option (list Z)) :=
  e ← GetExtension p (midExtensionId (ids p));
  match e with
  | Some (value, len) =>
      if len =? 0 then Ok None else s ← slice (mem p) value len; Ok (Some s)
  | None => Ok None
  end.

Definition UpdateMid (p : rtp_packet) (mid : list Z) : outcome (rtp_packet * bool) :=
  e ← GetExtension p (midExtensionId (ids p));
  match e with
  | None => Ok (p, false)
  | Some (value, _) =>
      if MidMaxLength <? zlen mid then Ok (p, false)
      else
        m ← write (mem p) value mid;
        '(p, _) ← SetExtensionLength (set_mem p m) (midExtensionId (ids p)) (u8 (zlen mid));
        Ok (p, true)
  end.

(** A value that is there and not empty. *)
Definition nonempty (e : option (Z * Z)) : option (Z * Z) :=
  match e with
  | Some (value, len) => if 0 <? len then Some (value, len) else None
  | None => None
  end.

Definition ReadRid (p : rtp_packet) : outcome (option (list Z)) :=
  e ← GetExtension p (ridExtensionId (ids p));
  match nonempty e with
  | Some (value, len) => s ← slice (mem p) value len; Ok (Some s)
  | None =>
      e ← GetExtension p (rridExtensionId (ids p));
      match nonempty e with
      | Some (value, len) => s ← slice (mem p) value len; Ok (Some s)
      | None => Ok None
      end
  end.

(** A value of exactly [n] bytes. *)
Definition extension_of_length (p : rtp_packet) (id n : Z) : outcome (option Z) :=
  e ← GetExtension p id;
  match e with
  | Some (value, len) => Ok (if len =? n then Some value else None)
  | None => Ok None
  end.

Definition ReadAbsSendTime (p : rtp_packet) : outcome (option Z) :=
  e ← extension_of_length p (absSendTimeExtensionId (ids p)) 3;
  match e with
  | Some value => v ← Get3Bytes (mem p) value; Ok (Some v)
  | None => Ok None
  end.

Definition UpdateAbsSendTime (p : rtp_packet) (ms : Z) : outcome (rtp_packet * bool) :=
  e ← extension_of_length p (absSendTimeExtensionId (ids p)) 3;
  match e with
  | Some value =>
      m ← Set3Bytes (mem p) value (TimeMsToAbsSendTime ms); Ok (set_mem p m, true)
  | None => Ok (p, false)
  end.

Definition ReadTransportWideCc01 (p : rtp_packet) : outcome (option Z) :=
  e ← extension_of_length p (transportWideCc01ExtensionId (ids p)) 2;
  match e with
  | Some value => v ← Get2Bytes (mem p) value; Ok (Some v)
  | None => Ok None
  end.

Definition UpdateTransportWideCc01 (p : rtp_packet) (wideSeqNumber : Z)
  : outcome (rtp_packet * bool) :=
  e ← extension_of_length p (transportWideCc01ExtensionId (ids p)) 2;
  match e with
  | Some value => m ← Set2Bytes (mem p) value wideSeqNumber; Ok (set_mem p m, true)
  | None => Ok (p, false)
  end.

(** The offset of the frame marking and its length. *)
Definition ReadFrameMarking (p : rtp_packet) : outcome (option (Z * Z)) :=
  e ← GetExtension p (frameMarkingExtensionId (ids p));
  e ← match e with
      | Some _ => Ok e
      | None => GetExtension p (frameMarking07ExtensionId (ids p))
      end;
  match e with
  | Some (value, len) => Ok (if 3 <? len then None else Some (value, len))
  | None => Ok None
  end.

Definition ReadSsrcAudioLevel (p : rtp_packet) : outcome (option (Z * bool)) :=
  e ← extension_of_length p (ssrcAudioLevelExtensionId (ids p)) 1;
  match e with
  | Some value =>
      volume ← Get1Byte (mem p) value;
      Ok (Some (Z.ldiff volume 128, truthy (Z.land volume 128)))
  | None => Ok None
  end.

Definition ReadVideoOrientation (p : rtp_packet) : outcome (option (bool * bool * Z)) :=
  e ← extension_of_length p (videoOrientationExtensionId (ids p)) 1;
  match e with
  | Some value =>
      cvoByte ← Get1Byte (mem p) value;
      let cameraValue := Z.shiftr (Z.land cvoByte 8) 3 in
      let flipValue := Z.shiftr (Z.land cvoByte 4) 2 in
      let rotationValue := Z.land cvoByte 3 in
      Ok (Some (truthy cameraValue, truthy flipValue,
                if rotationValue =? 3 then 270
                else if rotationValue =? 2 then 180
                else if rotationValue =? 1 then 90 else 0))
  | None => Ok None
  end.

(** * Rewriting the packet *)

(** The elements [SetExtensions] writes for a type. *)
Definition extension_kept (type : Z) (e : generic_extension) : bool :=
  if type =? 1
  then negb ((ge_id e =? 0) || (14 <? ge_id e) || (ge_len e =? 0) || (16 <? ge_len e))
  else negb (ge_id e =? 0).

Definition extension_size (type : Z) (e : generic_extension) : Z :=
  if type =? 1 then 1 + ge_len e else 2 + ge_len e.

Fixpoint extensions_size (type : Z) (extensions : list generic_extension) : Z :=
  match extensions with
  | [] => 0
  | e :: extensions =>
      (if extension_kept type e then extension_size type e else 0)
      + extensions_size type extensions
  end.

(** The loop that writes the elements: buffer, pointer and map. *)
Fixpoint write_extensions (type : Z) (extensions : list generic_extension)
    (m : list Z) (ptr : Z) (map : gmap Z Z) : outcome (list Z * Z * gmap Z Z) :=
  match extensions with
  | [] => Ok (m, ptr, map)
  | e :: extensions =>
      if extension_kept type e then
        value ← slice (ge_value e) 0 (ge_len e);
        if type =? 1 then
          m ← set1 m ptr (u8 (Z.lor (Z.shiftl (ge_id e) 4) (Z.land (ge_len e - 1) 15)));
          m ← write m (ptr + 1) value;
          write_extensions type extensions m (ptr + 1 + ge_len e) (<[ge_id e := ptr]> map)
        else
          m ← set1 m ptr (ge_id e);
          m ← set1 m (ptr + 1) (ge_len e);
          m ← write m (ptr + 2) value;
          write_extensions type extensions m (ptr + 2 + ge_len e) (<[ge_id e := ptr]> map)
      else write_extensions type extensions m ptr map
  end.

Definition type_id (type : Z) : Z := if type =? 1 then 48862 (* 0xBEDE *) else 4096 (* 0x1000 *).

(** [this->payload += shift], with the memory move and the packet's size. *)
Definition shift_payload_by (p : rtp_packet) (shift : Z) : outcome rtp_packet :=
  m ← memmove (mem p) (payload p + shift) (payload p) (payloadLength p + payloadPadding p);
  Ok (set_payload (set_mem p m) (payload p + shift) (payloadLength p) (payloadPadding p)
        (u64 (size p + shift))).

(** Keep the id of an extension of the requested type, rewrite another one. *)
Definition set_extension_type (p : rtp_packet) (type : Z) : outcome rtp_packet :=
  one ← HasOneByteExtensions p;
  two ← HasTwoBytesExtensions p;
  if (type =? 1) && one then Ok p
  else if (type =? 2) && two then Ok p
  else
    match headerExtension p with
    | Some h => m ← Set2Bytes (mem p) h (type_id type); Ok (set_mem p m)
    | None => Ok p
    end.

(** Make room for [extensionsTotalSize] bytes of elements: the offset of the
    header extension, and the packet with its payload moved. *)
Definition resize_extension (p : rtp_packet) (type extensionsTotalSize : Z)
  : outcome (Z * rtp_packet) :=
  oldLength ← GetHeaderExtensionLength p;
  match headerExtension p with
  | Some h =>
      let shift := swrap 16 (u64 (extensionsTotalSize - oldLength)) in
      if negb (shift =? 0) then
        p ← shift_payload_by p shift;
        m ← Set2Bytes (mem p) (h + 2) (u16 (extensionsTotalSize / 4));
        Ok (h, set_mem p m)
      else Ok (h, p)
  | None =>
      let shift := swrap 16 (4 + swrap 16 extensionsTotalSize) in
      m ← set_bits (mem p) 0 4 1 1;
      let h := payload p in
      p ← shift_payload_by (set_header_extension (set_mem p m) (Some h)) shift;
      m ← Set2Bytes (mem p) h (type_id type);
      m ← Set2Bytes m (h + 2) (u16 (extensionsTotalSize / 4));
      Ok (h, set_mem p m)
  end.

Definition SetExtensions (p : rtp_packet) (type : Z) (extensions : list generic_extension)
  : outcome rtp_packet :=
  _ ← require AssertFailed ((type =? 1) || (type =? 2));
  p ← set_extension_type (set_maps (set_ids p no_ids) ∅ ∅) type;
  let unpadded := extensions_size type extensions in
  let extensionsTotalSize := PadTo4Bytes16 (u16 unpadded) in
  let padding := u64 (extensionsTotalSize - unpadded) in
  '(h, p) ← resize_extension p type extensionsTotalSize;
  '(m, ptr, map) ← write_extensions type extensions (mem p) (h + 4) ∅;
  m ← memset m ptr 0 padding;
  _ ← require AssertFailed (ptr + padding =? payload p);
  Ok (set_maps (set_mem p m) (if type =? 1 then map else ∅) (if type =? 1 then ∅ else map)).

Definition SetPayloadLength (p : rtp_packet) (length : Z) : outcome rtp_packet :=
  let length := PadTo4Bytes16 (u16 length) in
  SetPayloadPaddingFlag
    (set_payload p (payload p) length 0
       (u64 (size p - payloadLength p - payloadPadding p + length))) false.

Definition Clone (p : rtp_packet) (buffer : list Z) : outcome rtp_packet :=
  header ← slice (mem p) 0 HeaderSize;
  b ← write buffer 0 header;
  let ptr := HeaderSize in
  '(b, ptr) ←
    (match csrcList p with
     | Some c =>
         count ← header_csrcCount (mem p);
         l ← slice (mem p) c (count * 4);
         b ← write b ptr l;
         Ok (b, ptr + count * 4)
     | None => Ok (b, ptr)
     end);
  '(b, newHeaderExtension, ptr) ←
    (match headerExtension p with
     | Some h =>
         len ← GetHeaderExtensionLength p;
         e ← slice (mem p) h (4 + len);
         b ← write b ptr e;
         Ok (b, Some ptr, ptr + (4 + len))
     | None => Ok (b, None, ptr)
     end);
  let newPayload := ptr in
  '(b, ptr) ←
    (if truthy (payloadLength p) then
       pl ← slice (mem p) (payload p) (payloadLength p);
       b ← write b ptr pl;
       Ok (b, ptr + payloadLength p)
     else Ok (b, ptr));
  '(b, ptr) ←
    (if truthy (payloadPadding p) then
       b ← set1 b (ptr + payloadPadding p - 1) (payloadPadding p);
       Ok (b, ptr + payloadPadding p)
     else Ok (b, ptr));
  _ ← require AssertFailed (ptr =? size p);
  packet ← new_RtpPacket b newHeaderExtension newPayload (payloadLength p) (payloadPadding p)
             (size p);
  Ok (set_ids packet (ids p)).

(** The end of [RtxEncode] and [RtxDecode]. *)
Definition remove_padding (p : rtp_packet) : outcome rtp_packet :=
  if truthy (payloadPadding p) then
    p ← SetPayloadPaddingFlag p false;
    Ok (set_payload p (payload p) (payloadLength p) 0 (u64 (size p - payloadPadding p)))
  else Ok p.

Definition RtxEncode (p : rtp_packet) (payloadType ssrc seq : Z) : outcome rtp_packet :=
  p ← SetPayloadType p payloadType;
  p ← SetSsrc p ssrc;
  m ← memmove (mem p) (payload p + 2) (payload p) (payloadLength p);
  s ← GetSequenceNumber (set_mem p m);
  m ← Set2Bytes m (payload p) s;
  p ← SetSequenceNumber (set_mem p m) seq;
  remove_padding
    (set_payload p (payload p) (u64 (payloadLength p + 2)) (payloadPadding p) (u64 (size p + 2))).

Definition RtxDecode (p : rtp_packet) (payloadType ssrc : Z) : outcome (rtp_packet * bool) :=
  if payloadLength p <? 2 then Ok (p, false)
  else
    p ← SetPayloadType p payloadType;
    s ← Get2Bytes (mem p) (payload p);
    p ← SetSequenceNumber p s;
    p ← SetSsrc p ssrc;
    m ← memmove (mem p) (payload p) (payload p + 2) (payloadLength p - 2);
    let p := set_mem p m in
    p ← remove_padding
          (set_payload p (payload p) (u64 (payloadLength p - 2)) (payloadPadding p)
             (u64 (size p - 2)));
    Ok (p, true).

Definition ShiftPayload (p : rtp_packet) (payloadOffset shift : Z) (expand : bool)
  : outcome rtp_packet :=
  if shift =? 0 then Ok p
  else
    _ ← require AssertFailed (payloadOffset <? payloadLength p);
    _ ← require AssertFailed (expand || (shift <=? payloadLength p - payloadOffset));
    let ptr := payload p + payloadOffset in
    if expand then
      m ← memmove (mem p) (ptr + shift) ptr
            (payloadLength p + payloadPadding p - payloadOffset);
      Ok (set_payload (set_mem p m) (payload p) (u64 (payloadLength p + shift))
            (payloadPadding p) (u64 (size p + shift)))
    else
      m ← memmove (mem p) ptr (ptr + shift)
            (payloadLength p + payloadPadding p - payloadOffset - shift);
      Ok (set_payload (set_mem p m) (payload p) (u64 (payloadLength p - shift))
            (payloadPadding p) (u64 (size p - shift))).
