(* ===== verification/RtpPacketFacts.v ===== *)
(** Facts about the packet's buffer that the theorems on [RTC::RtpPacket]
    share: bit fields, well-formed packets, and what the setters keep. *)

From S2P Require Export RtpPacket.

(** * Bit fields *)

Section bit_fields.
Implicit Types m : list Z.

Lemma ones_pow n : 0 <= n -> 2 ^ n - 1 = Z.ones n.
Proof. intros. rewrite Z.ones_equiv. lia. Qed.

Lemma byte_below b i : in_uint 8 b -> 8 <= i -> Z.testbit b i = false.
Proof. apply testbit_above. Qed.

Lemma set_bits_value b lo n v i : 0 <= lo -> 0 <= n -> 0 <= i ->
  Z.testbit (Z.lor (Z.ldiff b (Z.shiftl (2 ^ n - 1) lo))
               (Z.shiftl (Z.land v (2 ^ n - 1)) lo)) i
  = if (lo <=? i) && (i <? lo + n) then Z.testbit v (i - lo) else Z.testbit b i.
Proof.
  intros Hlo Hn Hi. rewrite !ones_pow by done.
  rewrite Z.lor_spec, Z.ldiff_spec, !Z.shiftl_spec, Z.land_spec by done.
  destruct (Z.leb_spec lo i); cbn [andb].
  - rewrite !Z.testbit_ones_nonneg by lia.
    destruct (Z.ltb_spec i (lo + n)), (Z.ltb_spec (i - lo) n); try lia; cbn.
    + by rewrite andb_false_r, andb_true_r.
    + by rewrite andb_true_r, andb_false_r, orb_false_r.
  - assert (forall a, Z.testbit a (i - lo) = false) as Hneg
      by (intros; apply Z.testbit_neg_r; lia).
    rewrite !Hneg. cbn. by rewrite andb_true_r, orb_false_r.
Qed.

Lemma set_bits_Ok m off lo n v m' : set_bits m off lo n v = Ok m' ->
  exists b, get1 m off = Ok b /\
    write m off [Z.lor (Z.ldiff b (Z.shiftl (2 ^ n - 1) lo))
                   (Z.shiftl (Z.land v (2 ^ n - 1)) lo)] = Ok m'.
Proof. unfold set_bits, set1. intros (b & ? & ?)%bind_Ok. by exists b. Qed.

Lemma set_bits_byte b lo n v : in_uint 8 b -> 0 <= lo -> 0 <= n -> lo + n <= 8 ->
  in_uint 8 (Z.lor (Z.ldiff b (Z.shiftl (2 ^ n - 1) lo))
               (Z.shiftl (Z.land v (2 ^ n - 1)) lo)).
Proof.
  intros Hb Hlo Hn Hs. set (r := Z.lor _ _).
  enough (r = r `mod` 2 ^ 8) as -> by (apply Z.mod_pos_bound; lia).
  apply Z.bits_inj'. intros i Hi. destruct (Z.lt_ge_cases i 8).
  - by rewrite Z.mod_pow2_bits_low.
  - rewrite Z.mod_pow2_bits_high by lia. unfold r. rewrite set_bits_value by done.
    destruct (Z.ltb_spec i (lo + n)); [lia|]. rewrite andb_false_r. by apply byte_below.
Qed.

Lemma bytes_set_bits m off lo n v m' : bytes m -> 0 <= lo -> 0 <= n -> lo + n <= 8 ->
  set_bits m off lo n v = Ok m' -> bytes m'.
Proof.
  intros Hm Hlo Hn Hs (b & Hb & Hw)%set_bits_Ok. eapply bytes_write; [done| |done].
  constructor; [|constructor]. apply set_bits_byte; try done. by eapply get1_byte.
Qed.

Lemma zlen_set_bits m off lo n v m' : set_bits m off lo n v = Ok m' -> zlen m' = zlen m.
Proof. intros (b & _ & Hw)%set_bits_Ok. by eapply zlen_write. Qed.

Lemma set_bits_in_bounds m off lo n v : 0 <= off < zlen m ->
  exists m', set_bits m off lo n v = Ok m'.
Proof.
  intros Hoff. unfold set_bits. destruct (get1_in_bounds m off Hoff) as (b & ->). cbn.
  apply write_in_bounds; rewrite ?zlen_one; lia.
Qed.

Lemma get_bits_in_bounds m off lo n : 0 <= off < zlen m ->
  exists v, get_bits m off lo n = Ok v.
Proof.
  intros Hoff. unfold get_bits. destruct (get1_in_bounds m off Hoff) as (b & ->).
  cbn. by eexists.
Qed.

Lemma get_bits_range m off lo n v : 0 <= n -> get_bits m off lo n = Ok v -> 0 <= v < 2 ^ n.
Proof.
  intros Hn. unfold get_bits. intros (b & _ & [= <-])%bind_Ok.
  rewrite ones_pow, Z.land_ones by done. apply Z.mod_pos_bound. lia.
Qed.

(** A written field is read back; the other fields of the byte, and of the
    other bytes, keep their value. *)
Lemma get_bits_set_same m off lo n v m' : 0 <= lo -> 0 <= n ->
  set_bits m off lo n v = Ok m' -> get_bits m' off lo n = Ok (Z.land v (2 ^ n - 1)).
Proof.
  intros Hlo Hn (b & Hb & Hw)%set_bits_Ok. apply get1_bounds in Hb.
  unfold get_bits. rewrite (get1_write _ _ _ _ _ Hw).
  rewrite zlen_one, (proj2 (Z.leb_le _ _)), (proj2 (Z.ltb_lt _ _)) by lia.
  rewrite Z.sub_diag, get1_one. cbn [andb mbind outcome_bind]. f_equal. apply Z.bits_inj'. intros i Hi.
  rewrite !ones_pow, !Z.land_spec, Z.shiftr_spec by done.
  rewrite <- ones_pow, set_bits_value by lia. rewrite ones_pow by done.
  rewrite Z.testbit_ones_nonneg by lia.
  destruct (Z.ltb_spec i n); [|by rewrite !andb_false_r].
  rewrite (proj2 (Z.leb_le _ _)), (proj2 (Z.ltb_lt _ _)) by lia. cbn.
  by replace (i + lo - lo) with i by lia.
Qed.

Lemma get_bits_set_other m off lo n v m' off' lo' n' :
  0 <= lo -> 0 <= n -> 0 <= lo' -> 0 <= n' ->
  off <> off' \/ lo' + n' <= lo \/ lo + n <= lo' ->
  set_bits m off lo n v = Ok m' -> get_bits m' off' lo' n' = get_bits m off' lo' n'.
Proof.
  intros Hlo Hn Hlo' Hn' Hdisj (b & Hb & Hw)%set_bits_Ok. unfold get_bits.
  destruct (Z.eq_dec off off') as [<-|Hne].
  - rewrite Hb. apply get1_bounds in Hb. rewrite (get1_write _ _ _ _ _ Hw).
    rewrite zlen_one, (proj2 (Z.leb_le _ _)), (proj2 (Z.ltb_lt _ _)) by lia.
    rewrite Z.sub_diag, get1_one. cbn [andb mbind outcome_bind]. f_equal. apply Z.bits_inj'. intros i Hi.
    rewrite !(ones_pow n'), !Z.land_spec, !Z.shiftr_spec by done.
    rewrite set_bits_value by lia. rewrite Z.testbit_ones_nonneg by lia.
    destruct (Z.ltb_spec i n'); [|by rewrite !andb_false_r].
    destruct (Z.leb_spec lo (i + lo')), (Z.ltb_spec (i + lo') (lo + n)); cbn; try done. lia.
  - rewrite (get1_write_other _ _ _ _ _ Hw); [done|]. rewrite zlen_one. lia.
Qed.

Lemma slice_set_bits m off lo n v m' off' k : set_bits m off lo n v = Ok m' ->
  off' + k <= off \/ off < off' -> slice m' off' k = slice m off' k.
Proof.
  intros (b & _ & Hw)%set_bits_Ok Hd. eapply slice_write_other; [exact Hw|].
  rewrite zlen_one. lia.
Qed.

Lemma get1_set_bits_other m off lo n v m' i : set_bits m off lo n v = Ok m' ->
  i <> off -> get1 m' i = get1 m i.
Proof.
  intros (b & _ & Hw)%set_bits_Ok Hd. eapply get1_write_other; [exact Hw|].
  rewrite zlen_one. lia.
Qed.
End bit_fields.

(** * The extension loops *)

Section loops.
Context (m : list Z) (Hm : bytes m) (start extensionEnd : Z).
Context (Hstart : 0 <= start) (Hend : extensionEnd <= zlen m).
Implicit Types map : gmap Z Z.

(** The entries point to elements that lie inside the extension. *)
Definition one_byte_entries map : Prop :=
  map_Forall (fun id o => 1 <= id <= 14 /\ start <= o /\
    exists b, get1 m o = Ok b /\ Z.shiftr (Z.land b 240) 4 = id /\
      o + 2 + Z.land b 15 <= extensionEnd) map.

Definition two_bytes_entries map : Prop :=
  map_Forall (fun id o => 1 <= id <= 255 /\ start <= o /\
    exists len, get1 m o = Ok id /\ get1 m (o + 1) = Ok len /\ 0 <= len /\
      o + 2 + len <= extensionEnd) map.

Lemma skip_zeros_Ok fuel ptr :
  start <= ptr -> extensionEnd - ptr <= Z.of_nat fuel ->
  exists ptr', skip_zeros fuel m ptr extensionEnd = Ok ptr' /\ ptr <= ptr'.
Proof.
  revert ptr. induction fuel as [|fuel IH]; intros ptr Hp Hf; cbn [skip_zeros];
    (destruct (Z.ltb_spec ptr extensionEnd); [|by exists ptr]).
  - lia.
  - destruct (get1_in_bounds m ptr) as (b & ->); [lia|]. cbn.
    destruct (b =? 0); [|by exists ptr].
    destruct (IH (ptr + 1)) as (ptr' & ? & ?); [lia..|]. exists ptr'. split; [done|lia].
Qed.

Lemma one_byte_loop_Ok fuel ptr map :
  start <= ptr -> extensionEnd - ptr <= Z.of_nat fuel -> one_byte_entries map ->
  exists map', one_byte_loop fuel m ptr extensionEnd map = Ok map' /\ one_byte_entries map'.
Proof.
  revert ptr map. induction fuel as [|fuel IH]; intros ptr map Hp Hf Hmap; cbn [one_byte_loop];
    (destruct (Z.ltb_spec ptr extensionEnd); [|by exists map]); [lia|].
  destruct (get1_in_bounds m ptr) as (b & Hb); [lia|]. rewrite Hb. ostep.
  pose proof (get1_byte _ _ _ Hm Hb) as Hbyte.
  set (id := Z.shiftr (Z.land b 240) 4).
  assert (0 <= id <= 15) as Hid.
  { subst id. rewrite Z.shiftr_land. change (Z.shiftr 240 4) with (Z.ones 4).
    rewrite Z.land_ones by lia. pose proof (Z.mod_pos_bound (Z.shiftr b 4) (2 ^ 4)). lia. }
  assert (0 <= Z.land b 15) as Hlen by (apply Z.land_nonneg; lia).
  destruct (Z.eqb_spec id 15); [by exists map|].
  destruct (Z.eqb_spec id 0) as [Hz|Hnz]; cbn [negb].
  - destruct (skip_zeros_Ok fuel (ptr + 1)) as (ptr' & -> & ?); [lia..|]. cbn.
    apply IH; [lia|lia|done].
  - destruct (Z.ltb_spec extensionEnd (ptr + 1 + (Z.land b 15 + 1))); [by exists map|].
    destruct (skip_zeros_Ok fuel (ptr + (1 + (Z.land b 15 + 1)))) as (ptr' & -> & ?); [lia..|].
    cbn. apply IH; [lia|lia|]. apply map_Forall_insert_2; [|done].
    split_and!; [lia|lia|lia|]. exists b. split_and!; [done|done|lia].
Qed.

Lemma two_bytes_loop_Ok fuel ptr map :
  start <= ptr -> extensionEnd - ptr <= Z.of_nat fuel -> two_bytes_entries map ->
  exists map', two_bytes_loop fuel m ptr extensionEnd map = Ok map' /\ two_bytes_entries map'.
Proof.
  revert ptr map. induction fuel as [|fuel IH]; intros ptr map Hp Hf Hmap; cbn [two_bytes_loop];
    (destruct (Z.ltb_spec (ptr + 1) extensionEnd); [|by exists map]); [lia|].
  destruct (get1_in_bounds m ptr) as (id & Hid); [lia|].
  destruct (get1_in_bounds m (ptr + 1)) as (len & Hlen); [lia|].
  rewrite Hid, Hlen. ostep.
  pose proof (get1_byte _ _ _ Hm Hid) as Hidb. pose proof (get1_byte _ _ _ Hm Hlen) as Hlenb.
  unfold in_uint in Hidb, Hlenb.
  destruct (Z.eqb_spec id 0) as [Hz|Hnz]; cbn [negb].
  - destruct (skip_zeros_Ok fuel (ptr + 1)) as (ptr' & -> & ?); [lia..|]. cbn.
    apply IH; [lia|lia|done].
  - destruct (Z.ltb_spec extensionEnd (ptr + 2 + len)); [by exists map|].
    destruct (skip_zeros_Ok fuel (ptr + (2 + len))) as (ptr' & -> & ?); [lia..|].
    cbn. apply IH; [lia|lia|]. apply map_Forall_insert_2; [|done].
    split_and!; [lia|lia|lia|]. exists len. split_and!; [done|done|lia|lia].
Qed.
End loops.

(** [ParseExtensions] of a packet whose extension lies in the buffer. *)
Definition extension_in_buffer (p : rtp_packet) : Prop :=
  match headerExtension p with
  | None => True
  | Some h => 0 <= h /\ h + 4 <= zlen (mem p) /\
      exists n, Get2Bytes (mem p) (h + 2) = Ok n /\ h + 4 + n * 4 <= zlen (mem p)
  end.

(** Where the maps of a packet point to. *)
Definition maps_ok (p : rtp_packet) : Prop :=
  match headerExtension p with
  | None => mapOneByteExtensions p = ∅ /\ mapTwoBytesExtensions p = ∅
  | Some h => forall n, Get2Bytes (mem p) (h + 2) = Ok n ->
      one_byte_entries (mem p) (h + 4) (h + 4 + n * 4) (mapOneByteExtensions p) /\
      two_bytes_entries (mem p) (h + 4) (h + 4 + n * 4) (mapTwoBytesExtensions p)
  end.

Lemma Get2Bytes_range m i n : bytes m -> Get2Bytes m i = Ok n -> in_uint 16 n.
Proof.
  intros Hm. unfold Get2Bytes. intros (b1 & _ & H)%bind_Ok. apply bind_Ok in H as (b0 & _ & [= <-]).
  apply wrap_range. lia.
Qed.

Lemma ParseExtensions_Ok p :
  bytes (mem p) -> extension_in_buffer p ->
  mapOneByteExtensions p = ∅ -> mapTwoBytesExtensions p = ∅ ->
  exists m1 m2, ParseExtensions p = Ok (set_maps p m1 m2) /\ maps_ok (set_maps p m1 m2).
Proof.
  intros Hm Hext He1 He2. unfold ParseExtensions, HasOneByteExtensions, HasTwoBytesExtensions,
    GetHeaderExtensionId, GetHeaderExtensionLength, extension_in_buffer, maps_ok in *.
  cbn [set_maps headerExtension mem mapOneByteExtensions mapTwoBytesExtensions].
  destruct (headerExtension p) as [h|] eqn:Eh.
  - destruct Hext as (Hh & Hh4 & n & Hn & Hfit).
    destruct (Get2Bytes_in_bounds (mem p) h) as (i & -> & _); [lia|lia|].
    pose proof (Get2Bytes_range _ _ _ Hm Hn) as [Hn0 _]. rewrite Hn. cbn [mbind outcome_bind default].
    assert (one_byte_entries (mem p) (h + 4) (h + 4 + n * 4) ∅) as E1 by apply map_Forall_empty.
    assert (two_bytes_entries (mem p) (h + 4) (h + 4 + n * 4) ∅) as E2 by apply map_Forall_empty.
    destruct (i =? 48862); [|destruct (Z.land i 65520 =? 4096)].
    + destruct (one_byte_loop_Ok (mem p) Hm (h + 4) (h + 4 + n * 4) ltac:(lia) Hfit
                  (Z.to_nat (n * 4)) (h + 4) ∅) as (m' & Hm' & ?); [lia|lia|done|].
      cbn. rewrite Hm'. cbn. rewrite He2. exists m', ∅. split; [done|]. by intros ? [= <-].
    + destruct (two_bytes_loop_Ok (mem p) Hm (h + 4) (h + 4 + n * 4) ltac:(lia) Hfit
                  (Z.to_nat (n * 4)) (h + 4) ∅) as (m' & Hm' & ?); [lia|lia|done|].
      cbn. rewrite Hm'. cbn. rewrite He1. exists ∅, m'. split; [done|]. by intros ? [= <-].
    + exists ∅, ∅. split; [|by intros ? [= <-]]. destruct p. cbn in *. by subst.
  - cbn. exists ∅, ∅. split; [|done]. destruct p. cbn in *. by subst.
Qed.

(** * Well-formed packets

    The pointers of the object agree with what its buffer says. *)
Record rtp_wf (p : rtp_packet) : Prop := RtpWf {
  wf_bytes : bytes (mem p);
  wf_fits : 0 <= size p <= zlen (mem p);
  wf_rtp : IsRtp (mem p) (size p) = Ok true;
  wf_layout : exists count, header_csrcCount (mem p) = Ok count /\
    csrcList p = (if truthy count then Some HeaderSize else None) /\
    match headerExtension p with
    | None => header_extension (mem p) = Ok 0 /\ payload p = HeaderSize + count * 4
    | Some h => header_extension (mem p) = Ok 1 /\ h = HeaderSize + count * 4 /\
        exists n, Get2Bytes (mem p) (h + 2) = Ok n /\ payload p = h + 4 + n * 4
    end;
  wf_lengths : 0 <= payloadLength p /\ 0 <= payloadPadding p < 256 /\
    payload p + payloadLength p + payloadPadding p = size p;
  wf_padding : header_padding (mem p) = Ok (b2z (truthy (payloadPadding p))) /\
    (payloadPadding p <> 0 -> get1 (mem p) (size p - 1) = Ok (payloadPadding p))
}.

(** The same view of the same buffer, extension ids apart. *)
Definition same_view (p q : rtp_packet) : Prop :=
  mem q = mem p /\ csrcList q = csrcList p /\ headerExtension q = headerExtension p /\
  payload q = payload p /\ payloadLength q = payloadLength p /\
  payloadPadding q = payloadPadding p /\ size q = size p.

Lemma IsRtp_true m len : IsRtp m len = Ok true ->
  HeaderSize <= len /\ exists b, get1 m 0 = Ok b /\ 127 < b < 192.
Proof.
  unfold IsRtp. destruct (Z.leb_spec HeaderSize len); [|discriminate].
  intros (b & Hb & Hrest)%bind_Ok. split; [done|]. exists b. split; [done|].
  destruct (Z.ltb_spec 127 b), (Z.ltb_spec b 192); try discriminate Hrest. lia.
Qed.

Lemma IsRtp_Ok m len : bytes m -> len <= zlen m -> exists r, IsRtp m len = Ok r.
Proof.
  intros Hm Hlen. unfold IsRtp. destruct (Z.leb_spec HeaderSize len); [|by eexists].
  unfold HeaderSize in *. destruct (get1_in_bounds m 0) as (b & ->); [lia|]. ostep.
  destruct ((127 <? b) && (b <? 192)); [|by eexists].
  destruct (get_bits_in_bounds m 0 6 2) as (v & Hv); [lia|]. unfold header_version.
  rewrite Hv. by eexists.
Qed.

Lemma get_bits_1 m off lo v : get_bits m off lo 1 = Ok v -> v = 0 \/ v = 1.
Proof. intros Hv. apply get_bits_range in Hv; [|lia]. change (2 ^ 1) with 2 in Hv. lia. Qed.

(** The end of [Parse]: the object is built and its extensions are read. *)
Lemma new_RtpPacket_Ok m h pl len pad sz count :
  bytes m -> header_csrcCount m = Ok count ->
  extension_in_buffer (RtpPacket m None h ∅ ∅ no_ids pl len pad sz) ->
  exists p, new_RtpPacket m h pl len pad sz = Ok p /\ maps_ok p /\ ids p = no_ids /\
    same_view (RtpPacket m (if truthy count then Some HeaderSize else None) h ∅ ∅ no_ids
                 pl len pad sz) p.
Proof.
  intros Hm Hc Hext. unfold new_RtpPacket. rewrite Hc. ostep.
  destruct (ParseExtensions_Ok
              (RtpPacket m (if truthy count then Some HeaderSize else None) h ∅ ∅ no_ids pl len pad sz))
    as (m1 & m2 & -> & Hok); [done|exact Hext|done|done|].
  eexists. split; [done|]. split; [done|]. by split_and!.
Qed.

Lemma Parse_cases data len :
  bytes data -> 0 <= len <= zlen data ->
  match Parse data len with
  | Ok p => rtp_wf p /\ maps_ok p /\ mem p = data /\ size p = len /\ ids p = no_ids
  | Err e => e = Rejected
  end.
Proof.
  intros Hm Hlen. unfold Parse.
  destruct (IsRtp_Ok data len Hm ltac:(lia)) as (rtp & Hrtp). rewrite Hrtp. ostep.
  destruct rtp; [|done]. ostep.
  destruct (IsRtp_true _ _ Hrtp) as (H12 & b0 & Hb0 & _). unfold HeaderSize in *.
  destruct (get_bits_in_bounds data 0 0 4) as (count & Hcount); [lia|].
  pose proof (get_bits_range data 0 0 4 count ltac:(lia) Hcount) as Hcr. change (2 ^ 4) with 16 in Hcr.
  unfold header_csrcCount at 1. rewrite Hcount. ostep.
  destruct (negb (truthy count) || (12 + count * 4 <=? len)) eqn:Ecsrc; [|done].
  assert (12 + count * 4 <= len) as Hcsrc.
  { unfold truthy in Ecsrc. destruct (Z.eqb_spec count 0); cbn in Ecsrc; lia. }
  clear Ecsrc. ostep.
  destruct (get_bits_in_bounds data 0 4 1) as (x & Hx); [lia|].
  unfold header_extension at 1. rewrite Hx. ostep.
  destruct (get_bits_in_bounds data 0 5 1) as (pad & Hpad); [lia|].
  set (ext := (if x =? 1 then _ else _)).
  assert (ext = Err Rejected \/
    exists h e ptr, ext = Ok (h, e, ptr) /\ (12 + count * 4 + e = ptr /\ ptr <= len) /\
      extension_in_buffer (RtpPacket data None h ∅ ∅ no_ids ptr 0 0 len) /\
      match h with
      | None => x = 0 /\ ptr = 12 + count * 4
      | Some h => x = 1 /\ h = 12 + count * 4 /\
          exists n, Get2Bytes data (h + 2) = Ok n /\ ptr = h + 4 + n * 4
      end) as [->|(h & e & ptr & -> & Hptr & Hin & Hlay)].
  { subst ext. apply get_bits_1 in Hx as [->| ->]; cbn [Z.eqb].
    - right. exists None, 0, (12 + count * 4). split_and!; done || lia.
    - destruct (Z.leb_spec (12 + count * 4 + 4) len); [|by left]. ostep.
      destruct (Get2Bytes_in_bounds data (12 + count * 4 + 2)) as (n & Hn & _); [lia|lia|].
      pose proof (Get2Bytes_range _ _ _ Hm Hn) as [Hn0 _].
      rewrite Hn. ostep.
      destruct (Z.leb_spec (12 + count * 4 + 4 + n * 4) len); [|by left].
      right. cbn. eexists (Some _), _, _. split; [done|]. split; [lia|]. split.
      + cbn. split_and!; try lia. exists n. split; [done|lia].
      + split_and!; [done|done|]. by exists n. }
  { done. }
  ostep. rewrite (proj2 (Z.leb_le ptr len)) by lia. ostep.
  unfold header_padding. rewrite Hpad. ostep.
  set (padding := (if truthy pad then _ else _)).
  assert (padding = Err Rejected \/
    exists l k, padding = Ok (l, k) /\ 0 <= l /\ 0 <= k < 256 /\ ptr + l + k = len /\
      pad = b2z (truthy k) /\ (k <> 0 -> get1 data (len - 1) = Ok k)) as [->|(l & k & -> & Hl & Hk & Hsum & Hflag & Hbyte)].
  { subst padding. apply get_bits_1 in Hpad as [->| ->]; cbn [truthy Z.eqb negb].
    - right. exists (len - ptr), 0. split_and!; done || lia.
    - destruct (Z.eqb_spec (len - ptr) 0); [by left|]. cbn [negb require mbind outcome_bind].
      destruct (get1_in_bounds data (len - 1)) as (k & Hk); [lia|].
      pose proof (get1_byte _ _ _ Hm Hk) as Hkr. unfold in_uint in Hkr.
      rewrite Hk. ostep.
      destruct (Z.eqb_spec k 0); [by left|]. cbn [negb require mbind outcome_bind].
      destruct (Z.leb_spec k (len - ptr)); [|by left]. cbn.
      right. exists (len - ptr - k), k. split_and!; try lia; try done.
      unfold truthy. by destruct (Z.eqb_spec k 0). }
  { done. }
  ostep.
  rewrite (proj2 (Z.eqb_eq len (12 + count * 4 + e + l + k))) by lia. ostep.
  destruct (new_RtpPacket_Ok data h ptr l k len count Hm Hcount Hin) as (p & -> & Hmaps & Hids & Hview).
  destruct Hview as (Hmem & Hcs & Hhe & Hpl & Hpll & Hpp & Hsz). cbn in Hmem, Hcs, Hhe, Hpl, Hpll, Hpp, Hsz.
  split; [|by split_and!]. split; rewrite ?Hmem, ?Hsz; try done.
  - exists count. split; [done|]. split; [done|]. rewrite Hhe, Hpl. unfold header_extension.
    destruct h as [h|].
    + destruct Hlay as (-> & -> & n & ? & ?). split; [done|]. split; [done|]. by exists n.
    + by destruct Hlay as (-> & ->).
  - rewrite Hpl, Hpll, Hpp. split_and!; lia.
  - rewrite Hpp. unfold header_padding. by rewrite Hpad, Hflag.
Qed.

Lemma wf_payload p : rtp_wf p ->
  HeaderSize <= payload p /\ payload p + payloadLength p + payloadPadding p <= zlen (mem p) /\
  exists count, header_csrcCount (mem p) = Ok count /\ 0 <= count < 16 /\
    match headerExtension p with
    | None => payload p = HeaderSize + count * 4
    | Some h => h = HeaderSize + count * 4 /\
        exists n, Get2Bytes (mem p) (h + 2) = Ok n /\ in_uint 16 n /\ payload p = h + 4 + n * 4
    end.
Proof.
  intros [Hm Hfit _ (count & Hc & _ & Hlay) (Hl & Hk & Hsum) _].
  pose proof (get_bits_range _ _ _ 4 count ltac:(lia) Hc) as Hcr. change (2 ^ 4) with 16 in Hcr.
  destruct (headerExtension p) as [h|].
  - destruct Hlay as (_ & -> & n & Hn & Hp). pose proof (Get2Bytes_range _ _ _ Hm Hn) as Hnr.
    assert (0 <= n) by apply Hnr. split_and!; [lia|lia|]. exists count. split_and!; [done|lia|lia|done|].
    by exists n.
  - destruct Hlay as (_ & Hp). split_and!; [lia|lia|]. by exists count.
Qed.

(** [Parse] accepts what a well-formed packet holds, and sees the same packet. *)
Lemma Parse_wf p : rtp_wf p ->
  exists q, Parse (mem p) (size p) = Ok q /\ same_view p q /\ maps_ok q /\
    new_RtpPacket (mem p) (headerExtension p) (payload p) (payloadLength p) (payloadPadding p)
      (size p) = Ok q.
Proof.
  intros Hwf. destruct (wf_payload p Hwf) as (Hpl & _ & _).
  destruct Hwf as [Hm Hfit Hrtp (count & Hc & Hcs & Hlay) (Hl & Hk & Hsum) (Hpad & Hpb)].
  pose proof (get_bits_range _ _ _ 4 count ltac:(lia) Hc) as Hcr. change (2 ^ 4) with 16 in Hcr.
  unfold Parse. rewrite Hrtp. ostep. rewrite Hc. ostep. unfold HeaderSize in *.
  assert (exists e, 12 + count * 4 + e = payload p /\ 0 <= e /\
    extension_in_buffer (RtpPacket (mem p) None (headerExtension p) ∅ ∅ no_ids
       (payload p) (payloadLength p) (payloadPadding p) (size p)) /\
    exists x, header_extension (mem p) = Ok x /\
    (if x =? 1 then
       _ ← require Rejected (12 + count * 4 + 4 <=? size p);
       n ← Get2Bytes (mem p) (12 + count * 4 + 2);
       _ ← require Rejected (12 + count * 4 + 4 + n * 4 <=? size p);
       Ok (Some (12 + count * 4), 4 + n * 4, 12 + count * 4 + 4 + n * 4)
     else Ok (None, 0, 12 + count * 4)) = Ok (headerExtension p, e, payload p))
    as (e & He & He0 & Hin & x & Hx & Hext).
  { destruct (headerExtension p) as [h|] eqn:Eh.
    - destruct Hlay as (Hx & -> & n & Hn & Hp). pose proof (Get2Bytes_range _ _ _ Hm Hn) as [Hn0 _].
      exists (4 + n * 4). split; [lia|]. split; [lia|]. split.
      + unfold extension_in_buffer. cbn [headerExtension mem]. split_and!; try lia.
        exists n. split; [done|lia].
      + exists 1. split; [done|]. cbn [Z.eqb Pos.eqb].
        rewrite (proj2 (Z.leb_le (12 + count * 4 + 4) (size p))) by lia. ostep. rewrite Hn. ostep.
        rewrite (proj2 (Z.leb_le _ (size p))) by lia. ostep. by rewrite Hp.
    - destruct Hlay as (Hx & Hp). exists 0. split_and!; [lia|lia|done|].
      exists 0. split; [done|]. cbn. by rewrite Hp. }
  assert (negb (truthy count) || (12 + count * 4 <=? size p) = true) as ->.
  { rewrite (proj2 (Z.leb_le (12 + count * 4) (size p))) by lia. apply orb_true_r. }
  ostep. rewrite Hx. ostep. rewrite Hext. ostep.
  rewrite (proj2 (Z.leb_le (payload p) (size p))) by lia. ostep. rewrite Hpad. ostep.
  assert ((if truthy (b2z (truthy (payloadPadding p))) then
       _ ← require Rejected (negb (size p - payload p =? 0));
       payloadPadding0 ← get1 (mem p) (size p - 1);
       _ ← require Rejected (negb (payloadPadding0 =? 0));
       _ ← require Rejected (payloadPadding0 <=? size p - payload p);
       Ok (size p - payload p - payloadPadding0, payloadPadding0)
     else Ok (size p - payload p, 0)) = Ok (payloadLength p, payloadPadding p)) as ->.
  { unfold truthy. destruct (Z.eqb_spec (payloadPadding p) 0) as [Hz|Hnz]; cbn [negb b2z Z.eqb].
    - rewrite Hz. do 2 f_equal. lia.
    - rewrite (proj2 (Z.eqb_neq (size p - payload p) 0)) by lia. cbn [negb]. ostep.
      rewrite Hpb by done. ostep. rewrite (proj2 (Z.eqb_neq (payloadPadding p) 0)) by done.
      cbn [negb]. ostep. rewrite (proj2 (Z.leb_le (payloadPadding p) _)) by lia. ostep.
      do 2 f_equal. lia. }
  ostep. rewrite (proj2 (Z.eqb_eq (size p) _)) by lia. ostep.
  destruct (new_RtpPacket_Ok (mem p) (headerExtension p) (payload p) (payloadLength p)
              (payloadPadding p) (size p) count Hm Hc Hin) as (q & Hq & Hmaps & _ & Hview).
  rewrite Hq. exists q. split; [done|]. split; [|done].
  destruct Hview as (H1 & H2 & H3 & H4 & H5 & H6 & H7). cbn in H1, H2, H3, H4, H5, H6, H7.
  unfold HeaderSize in H2. rewrite <- Hcs in H2. by split_and!.
Qed.

(** * Rebuilding well-formedness after a change of the buffer *)

Lemma IsRtp_version m len : bytes m ->
  IsRtp m len = Ok true <-> HeaderSize <= len /\ header_version m = Ok 2.
Proof.
  intros Hm. unfold IsRtp, header_version, get_bits.
  destruct (Z.leb_spec HeaderSize len); [|split; [discriminate|lia]].
  destruct (get1 m 0) as [b|] eqn:Hb; ostep; [|split; [discriminate|intros []; discriminate]].
  pose proof (get1_byte _ _ _ Hm Hb) as Hbr. unfold in_uint in Hbr. change (2 ^ 2 - 1) with (Z.ones 2).
  rewrite Z.land_ones, Z.shiftr_div_pow2 by lia. change (2 ^ 6) with 64. change (2 ^ 2) with 4.
  pose proof (Z.div_mod b 64). pose proof (Z.mod_pos_bound b 64).
  assert ((b / 64) `mod` 4 = b / 64) as ->.
  { apply Z.mod_small. split; [apply Z.div_pos; lia|apply Z.div_lt_upper_bound; lia]. }
  destruct (Z.ltb_spec 127 b), (Z.ltb_spec b 192); cbn [andb].
  - assert (b / 64 = 2) as -> by lia. by split.
  - split; [discriminate|]. intros [_ [= ?]]. lia.
  - split; [discriminate|]. intros [_ [= ?]]. lia.
  - split; [discriminate|]. intros [_ [= ?]]. lia.
Qed.

Lemma wf_rebuild_extension p q :
  rtp_wf p -> bytes (mem q) -> size q <= zlen (mem q) ->
  header_version (mem q) = header_version (mem p) ->
  header_csrcCount (mem q) = header_csrcCount (mem p) ->
  csrcList q = csrcList p ->
  HeaderSize <= payload q -> 0 <= payloadLength q -> 0 <= payloadPadding q < 256 ->
  payload q + payloadLength q + payloadPadding q = size q ->
  header_padding (mem q) = Ok (b2z (truthy (payloadPadding q))) ->
  (payloadPadding q <> 0 -> get1 (mem q) (size q - 1) = Ok (payloadPadding q)) ->
  (forall count, header_csrcCount (mem p) = Ok count ->
     match headerExtension q with
     | None => header_extension (mem q) = Ok 0 /\ payload q = HeaderSize + count * 4
     | Some h => header_extension (mem q) = Ok 1 /\ h = HeaderSize + count * 4 /\
         exists n, Get2Bytes (mem q) (h + 2) = Ok n /\ payload q = h + 4 + n * 4
     end) ->
  rtp_wf q.
Proof.
  intros Hwf Hm Hfit Hver Hcount Hcs Hp Hl Hk Hsum Hpad Hpb Hext.
  destruct Hwf as [Hmp _ Hrtp (count & Hc & Hcsp & _) _ _]. unfold HeaderSize in *.
  split; try done.
  - lia.
  - apply (IsRtp_version _ _ Hmp) in Hrtp as [_ Hv]. apply (IsRtp_version _ _ Hm).
    unfold HeaderSize. split; [lia|]. by rewrite Hver.
  - exists count. split; [by rewrite Hcount|]. split; [by rewrite Hcs|]. by apply Hext.
Qed.

Lemma wf_rebuild p q :
  rtp_wf p -> bytes (mem q) -> size q <= zlen (mem q) ->
  header_version (mem q) = header_version (mem p) ->
  header_csrcCount (mem q) = header_csrcCount (mem p) ->
  header_extension (mem q) = header_extension (mem p) ->
  (forall i, HeaderSize <= i < payload p -> get1 (mem q) i = get1 (mem p) i) ->
  csrcList q = csrcList p -> headerExtension q = headerExtension p -> payload q = payload p ->
  0 <= payloadLength q -> 0 <= payloadPadding q < 256 ->
  payload q + payloadLength q + payloadPadding q = size q ->
  header_padding (mem q) = Ok (b2z (truthy (payloadPadding q))) ->
  (payloadPadding q <> 0 -> get1 (mem q) (size q - 1) = Ok (payloadPadding q)) ->
  rtp_wf q.
Proof.
  intros Hwf Hm Hfit Hver Hcount Hext Hsame Hcs Hhe Hpl Hl Hk Hsum Hpad Hpb.
  destruct (wf_payload p Hwf) as (Hp12 & _ & _).
  apply (wf_rebuild_extension p); try done; [by rewrite Hpl|].
  intros count Hc. destruct Hwf as [Hmp _ _ (count' & Hc' & _ & Hlay) _ _].
  assert (count' = count) as -> by congruence.
  pose proof (get_bits_range _ _ _ 4 count ltac:(lia) Hc) as Hcr.
  rewrite Hhe, Hext, Hpl. destruct (headerExtension p) as [h|]; [|done].
  destruct Hlay as (Hx & -> & n & Hn & Hp). split; [done|]. split; [done|]. exists n.
  split; [|done]. rewrite <- Hn. apply Get2Bytes_ext. intros j Hj. apply Hsame.
  pose proof (Get2Bytes_range _ _ _ Hmp Hn) as [Hn0 _]. lia.
Qed.

(** * The payload of a packet *)

Definition payload_bytes (p : rtp_packet) : outcome (list Z) :=
  slice (mem p) (payload p) (payloadLength p).

(** Both packets have the pointers of [p]. *)
Definition same_shape (p q : rtp_packet) : Prop :=
  csrcList q = csrcList p /\ headerExtension q = headerExtension p /\ payload q = payload p /\
  mapOneByteExtensions q = mapOneByteExtensions p /\
  mapTwoBytesExtensions q = mapTwoBytesExtensions p /\ ids q = ids p /\
  zlen (mem q) = zlen (mem p).

Lemma get_bits_ext m m' off lo n : get1 m' off = get1 m off ->
  get_bits m' off lo n = get_bits m off lo n.
Proof. unfold get_bits. by intros ->. Qed.

Lemma slice_app_last m off n k s : 0 <= n -> 0 <= k ->
  slice m off (n + k) = Ok s ->
  exists s1 s2, s = s1 ++ s2 /\ slice m off n = Ok s1 /\ slice m (off + n) k = Ok s2.
Proof.
  intros Hn Hk Hs. rewrite slice_split in Hs by done.
  apply bind_Ok in Hs as (s1 & Hs1 & Hs). apply bind_Ok in Hs as (s2 & Hs2 & [= <-]).
  by exists s1, s2.
Qed.

Lemma Parse_Ok_wf data len p : bytes data -> 0 <= len <= zlen data ->
  Parse data len = Ok p -> rtp_wf p.
Proof. intros Hm Hl Hp. pose proof (Parse_cases data len Hm Hl) as Hc. rewrite Hp in Hc. apply Hc. Qed.

(** The value of an extension is in the buffer. *)
Lemma GetExtension_in_buffer p (Hwf : rtp_wf p) (Hmaps : maps_ok p) id : exists r, GetExtension p id = Ok r /\
  forall value len, r = Some (value, len) -> 0 <= value /\ 0 < len /\ value + len <= zlen (mem p).
Proof.
  unfold GetExtension. destruct (id =? 0); [by eexists|].
  unfold HasOneByteExtensions, HasTwoBytesExtensions, GetHeaderExtensionId.
  destruct Hwf as [Hb [Hs0 Hs] _ (count & Hcount & _ & Hlay) (Hl1 & Hl2 & Hl3) _]. unfold maps_ok in Hmaps.
  apply get_bits_range in Hcount; [|lia].
  destruct (headerExtension p) as [h|]; [|cbn; by eexists].
  destruct Hlay as (_ & Hh & n & Hn & Hpay). destruct (Hmaps n Hn) as [M1 M2].
  pose proof (Get2Bytes_range _ _ _ Hb Hn) as [Hn0 _]. unfold HeaderSize in Hh.
  destruct (Get2Bytes_in_bounds (mem p) h) as (i & -> & _); [lia|lia|]. ostep. destruct (i =? 48862).
  - destruct (mapOneByteExtensions p !! id) as [e|] eqn:E; [|by eexists].
    destruct (M1 id e E) as (_ & He & b & Hget & _ & Hend). unfold get_bits. rewrite Hget. ostep.
    rewrite Z.shiftr_0_r. change (2 ^ 4 - 1) with 15. eexists. split; [done|].
    pose proof (get1_byte _ _ _ Hb Hget) as [Hb0 _]. pose proof (Z.land_nonneg b 15). intros v l [= <- <-]. lia.
  - cbn. destruct (Z.land i 65520 =? 4096); [|by eexists].
    destruct (mapTwoBytesExtensions p !! id) as [e|] eqn:E; [|by eexists].
    destruct (M2 id e E) as (_ & He & len & _ & Hget & Hlen & Hend). rewrite Hget. ostep.
    destruct (Z.eqb_spec len 0); [by eexists|]. eexists. split; [done|]. intros v l [= <- <-]. lia.
Qed.

(** * A packet to try things on

    One CSRC, a One-Byte header extension with the element 3 = [7, 8], three
    bytes of payload and two of padding, in a buffer of 64 bytes. *)
Definition sample_data : list Z :=
  [177; 224; 0; 10; 0; 0; 0; 100; 0; 0; 3; 232;  1; 2; 3; 4;
   190; 222; 0; 1;  49; 7; 8; 0;  65; 66; 67;  0; 2]
  ++ replicate 35 0.

Definition sample_packet : rtp_packet :=
  RtpPacket sample_data (Some 12) (Some 16) {[ 3 := 20 ]} ∅ no_ids 24 3 2 29.

Lemma sample_parsed : Parse sample_data 29 = Ok sample_packet.
Proof. vm_compute. reflexivity. Qed.

Lemma sample_wf : rtp_wf sample_packet.
Proof.
  apply (Parse_Ok_wf sample_data 29).
  - apply (bool_decide_unpack _). vm_compute. exact I.
  - vm_compute. split; discriminate.
  - apply sample_parsed.
Qed.
