(* ===== verification/RtpPacketProps.v ===== *)
(** Theorems on [RTC::RtpPacket]: parsing is safe and complete, retransmission
    encoding and its inverse, shifting of the payload, and the rewriting of the
    header extensions. *)

From S2P Require Export RtpPacketFacts.

(** * Retransmission *)

Section rtx.
Implicit Types p q : rtp_packet.

(** [remove_padding] only clears the padding bit and the padding. *)
Lemma remove_padding_Ok p :
  bytes (mem p) -> 0 < zlen (mem p) -> 0 <= payloadPadding p <= size p -> size p < 2 ^ 64 ->
  (payloadPadding p = 0 -> header_padding (mem p) = Ok 0) ->
  exists q, remove_padding p = Ok q /\ bytes (mem q) /\ same_shape p q /\
    payloadLength q = payloadLength p /\ payloadPadding q = 0 /\
    size q = size p - payloadPadding p /\ header_padding (mem q) = Ok 0 /\
    (forall i, i <> 0 -> get1 (mem q) i = get1 (mem p) i) /\
    (forall lo n, 0 <= lo -> 0 <= n -> lo + n <= 5 \/ 6 <= lo ->
       get_bits (mem q) 0 lo n = get_bits (mem p) 0 lo n).
Proof.
  intros Hm Hlen Hpad Hsize Hflag. unfold remove_padding, truthy.
  destruct (Z.eqb_spec (payloadPadding p) 0) as [Hz|Hnz]; cbn [negb].
  - exists p. split_and!; try done; [lia|by apply Hflag].
  - unfold SetPayloadPaddingFlag. destruct (set_bits_in_bounds (mem p) 0 5 1 (b2z false))
      as (m' & Hm'); [lia|]. rewrite Hm'. ostep. eexists. split; [done|].
    cbn [mem set_mem set_payload payloadLength payloadPadding size].
    pose proof (zlen_set_bits _ _ _ _ _ _ Hm').
    split; [|split; [|split; [|split; [|split; [|split; [|split]]]]]]; try done.
    + by eapply (bytes_set_bits (mem p) 0 5 1).
    + rewrite wrap_small by (unfold in_uint; lia). done.
    + unfold header_padding. erewrite get_bits_set_same by (done || lia). done.
    + intros i Hi. by eapply get1_set_bits_other.
    + intros lo n Hlo Hn Hd. eapply get_bits_set_other; try exact Hm'; lia.
Qed.

Lemma RtxEncode_spec p pt ssrc seq pl sq :
  rtp_wf p -> payload p + payloadLength p + 2 <= zlen (mem p) -> zlen (mem p) < 2 ^ 32 ->
  payload_bytes p = Ok pl -> GetSequenceNumber p = Ok sq ->
  exists q, RtxEncode p pt ssrc seq = Ok q /\ rtp_wf q /\ same_shape p q /\
    payload_bytes q = Ok (be_bytes 2 sq ++ pl) /\
    payloadLength q = payloadLength p + 2 /\ payloadPadding q = 0 /\
    GetPayloadType q = Ok (Z.land pt 127) /\ HasMarker q = HasMarker p /\
    GetSequenceNumber q = Ok (u16 seq) /\ GetTimestamp q = GetTimestamp p /\
    GetSsrc q = Ok (u32 ssrc).
Proof.
  intros Hwf Hroom Hsmall Hpl Hsq. destruct (wf_payload p Hwf) as (Hp12 & _ & _).
  pose proof Hwf as [Hm Hfit _ _ (Hl & Hk & Hsum) (Hpad & _)].
  unfold HeaderSize in Hp12. unfold RtxEncode, SetPayloadType.
  destruct (set_bits_in_bounds (mem p) 1 0 7 pt) as (m1 & E1); [lia|]. rewrite E1. ostep.
  pose proof (bytes_set_bits _ _ 0 7 _ _ Hm ltac:(lia) ltac:(lia) ltac:(lia) E1) as B1.
  pose proof (zlen_set_bits _ _ _ _ _ _ E1) as L1.
  assert (forall i, i <> 1 -> get1 m1 i = get1 (mem p) i) as F1
    by (intros; by eapply get1_set_bits_other).
  unfold SetSsrc. cbn [mem set_mem].
  destruct (sets_Set4Bytes m1 8 ssrc) as (m2 & E2 & [L2 F2] & B2 & _); [lia|lia|].
  rewrite E2. ostep. specialize (B2 B1). cbn [mem set_mem payload payloadLength].
  destruct (memmove_in_bounds m2 (payload p + 2) (payload p) (payloadLength p)) as (m3 & E3); [lia..|].
  rewrite E3. ostep. pose proof (bytes_memmove _ _ _ _ _ B2 E3) as B3.
  destruct (same_except_memmove _ _ _ _ _ E3) as [L3 F3].
  unfold GetSequenceNumber in *. cbn [mem set_mem].
  assert (Get2Bytes m3 2 = Ok sq) as ->.
  { rewrite <- Hsq. apply Get2Bytes_ext. intros j Hj. by rewrite F3, F2, F1 by lia. }
  ostep. destruct (sets_Set2Bytes m3 (payload p) sq) as (m4 & E4 & [L4 F4] & B4 & S4); [lia|lia|].
  rewrite E4. ostep. specialize (B4 B3). change (Z.of_nat 2) with 2 in *. change (Z.of_nat 4) with 4 in *.
  unfold SetSequenceNumber. cbn [mem set_mem].
  destruct (sets_Set2Bytes m4 2 seq) as (m5 & E5 & [L5 F5] & B5 & _); [lia|lia|].
  rewrite E5. ostep. specialize (B5 B4). change (Z.of_nat 2) with 2 in *.
  cbn [mem set_mem payload payloadLength payloadPadding size].
  rewrite !(wrap_small 64) by (unfold in_uint; lia).
  set (p5 := set_payload _ _ _ _ _).
  assert (get1 m5 0 = get1 (mem p) 0) as G0 by (by rewrite F5, F4, F3, F2, F1 by lia).
  destruct (remove_padding_Ok p5) as (q & Hq & Bq & Hsh & Hlq & Hkq & Hszq & Hpq & Fq & Gq).
  - done.
  - cbn. lia.
  - cbn. lia.
  - cbn. lia.
  - cbn [p5 set_payload set_mem payloadPadding mem]. intros Hz. rewrite Hz in Hpad.
    transitivity (header_padding (mem p)); [by apply get_bits_ext|done].
  - destruct Hsh as (Hs1 & Hs2 & Hs3 & Hs4 & Hs5 & Hs6 & Hs7).
    cbn [p5 set_payload set_mem mem payload payloadLength payloadPadding size csrcList
         headerExtension mapOneByteExtensions mapTwoBytesExtensions ids] in *.
    exists q. split; [done|].
    assert (forall lo n, 0 <= lo -> 0 <= n -> lo + n <= 5 \/ 6 <= lo ->
              get_bits (mem q) 0 lo n = get_bits (mem p) 0 lo n) as G.
    { intros. rewrite Gq by done. by apply get_bits_ext. }
    split.
    { apply (wf_rebuild p); rewrite ?Hkq, ?Hpq, ?Hs3; try done; try lia.
      - apply G; lia.
      - apply G; lia.
      - apply G; lia.
      - intros i Hi. unfold HeaderSize in Hi. by rewrite Fq, F5, F4, F3, F2, F1 by lia. }
    split; [split_and!; try done; congruence|]. split.
    { unfold payload_bytes. rewrite Hs3, Hlq. rewrite Z.add_comm, slice_split by lia.
      assert (slice (mem q) (payload p) 2 = Ok (be_bytes 2 sq)) as ->.
      { rewrite <- S4. apply slice_ext; [lia|]. intros i Hi. by rewrite Fq, F5 by lia. }
      assert (slice (mem q) (payload p + 2) (payloadLength p) = Ok pl) as ->; [|done].
      rewrite <- Hpl. unfold payload_bytes.
      transitivity (slice m2 (payload p) (payloadLength p)).
      - rewrite <- (slice_memmove _ _ _ _ _ E3). apply slice_ext; [lia|].
        intros i Hi. by rewrite Fq, F5, F4 by lia.
      - apply slice_ext; [lia|]. intros i Hi. by rewrite F2, F1 by lia. }
    split; [done|]. split; [done|]. unfold GetPayloadType, HasMarker, GetTimestamp, GetSsrc.
    assert (get1 (mem q) 1 = get1 m1 1) as G1 by (by rewrite Fq, F5, F4, F3, F2 by lia).
    split; [|split; [|split; [|split]]].
    + rewrite (get_bits_ext m1) by done. by apply (get_bits_set_same (mem p) 1 0 7 pt m1 ltac:(lia) ltac:(lia) E1).
    + rewrite (get_bits_ext m1) by done.
      rewrite (get_bits_set_other (mem p) 1 0 7 pt m1 1 7 1 ltac:(lia) ltac:(lia) ltac:(lia) ltac:(lia)
                 ltac:(lia) E1). done.
    + rewrite <- (Set2Bytes_read _ _ _ _ B5 E5). apply Get2Bytes_ext. intros. by rewrite Fq by lia.
    + apply Get4Bytes_ext. intros j Hj. by rewrite Fq, F5, F4, F3, F2, F1 by lia.
    + rewrite <- (Set4Bytes_read _ _ _ _ B2 E2). apply Get4Bytes_ext. intros j Hj.
      by rewrite Fq, F5, F4, F3 by lia.
Qed.

Lemma RtxDecode_spec p pt ssrc pl sq :
  rtp_wf p -> zlen (mem p) < 2 ^ 32 -> payload_bytes p = Ok (be_bytes 2 sq ++ pl) ->
  exists q, RtxDecode p pt ssrc = Ok (q, true) /\ rtp_wf q /\ same_shape p q /\
    payload_bytes q = Ok pl /\
    payloadLength q = payloadLength p - 2 /\ payloadPadding q = 0 /\
    GetPayloadType q = Ok (Z.land pt 127) /\ HasMarker q = HasMarker p /\
    GetSequenceNumber q = Ok (u16 sq) /\ GetTimestamp q = GetTimestamp p /\
    GetSsrc q = Ok (u32 ssrc).
Proof.
  intros Hwf Hsmall Hpl. destruct (wf_payload p Hwf) as (Hp12 & _ & _).
  pose proof Hwf as [Hm Hfit _ _ (Hl & Hk & Hsum) (Hpad & _)].
  assert (2 <= payloadLength p) as Hl2.
  { apply zlen_slice in Hpl. rewrite zlen_app, zlen_be_bytes in Hpl.
    pose proof (zlen_nonneg pl). lia. }
  unfold payload_bytes in Hpl. replace (payloadLength p) with (2 + (payloadLength p - 2)) in Hpl by lia.
  apply slice_app_last in Hpl as (s1 & s2 & Heq & Hs1 & Hs2); [|lia|lia].
  apply app_inj_1 in Heq as [<- <-].
  2: { apply zlen_slice in Hs1. unfold zlen in Hs1. rewrite length_be_bytes. lia. }
  unfold HeaderSize in Hp12. unfold RtxDecode, SetPayloadType.
  rewrite (proj2 (Z.ltb_ge (payloadLength p) 2)) by lia.
  destruct (set_bits_in_bounds (mem p) 1 0 7 pt) as (m1 & E1); [lia|]. rewrite E1. ostep.
  pose proof (bytes_set_bits _ _ 0 7 _ _ Hm ltac:(lia) ltac:(lia) ltac:(lia) E1) as B1.
  pose proof (zlen_set_bits _ _ _ _ _ _ E1) as L1.
  assert (forall i, i <> 1 -> get1 m1 i = get1 (mem p) i) as F1
    by (intros; by eapply get1_set_bits_other).
  cbn [mem set_mem payload].
  assert (Get2Bytes m1 (payload p) = Ok (u16 sq)) as ->.
  { rewrite (Get2Bytes_ext (mem p)) by (intros; apply F1; lia).
    rewrite Get2Bytes_spec, Hs1 by done. ostep. by rewrite be_val_wrap. }
  ostep. unfold SetSequenceNumber. cbn [mem set_mem].
  destruct (sets_Set2Bytes m1 2 (u16 sq)) as (m2 & E2 & [L2 F2] & B2 & _); [lia|lia|].
  rewrite E2. ostep. specialize (B2 B1). change (Z.of_nat 2) with 2 in *.
  unfold SetSsrc. cbn [mem set_mem].
  destruct (sets_Set4Bytes m2 8 ssrc) as (m3 & E3 & [L3 F3] & B3 & _); [lia|lia|].
  rewrite E3. ostep. specialize (B3 B2). change (Z.of_nat 4) with 4 in *.
  cbn [mem set_mem payload payloadLength payloadPadding size].
  destruct (memmove_in_bounds m3 (payload p) (payload p + 2) (payloadLength p - 2)) as (m4 & E4); [lia..|].
  rewrite E4. ostep. pose proof (bytes_memmove _ _ _ _ _ B3 E4) as B4.
  destruct (same_except_memmove _ _ _ _ _ E4) as [L4 F4].
  cbn [mem set_mem payload payloadLength payloadPadding size].
  rewrite !(wrap_small 64) by (unfold in_uint; lia).
  set (p5 := set_payload _ _ _ _ _).
  assert (get1 m4 0 = get1 (mem p) 0) as G0 by (by rewrite F4, F3, F2, F1 by lia).
  destruct (remove_padding_Ok p5) as (q & Hq & Bq & Hsh & Hlq & Hkq & Hszq & Hpq & Fq & Gq).
  - done.
  - cbn. lia.
  - cbn. lia.
  - cbn. lia.
  - cbn [p5 set_payload set_mem payloadPadding mem]. intros Hz. rewrite Hz in Hpad.
    transitivity (header_padding (mem p)); [by apply get_bits_ext|done].
  - destruct Hsh as (Hs1' & Hs2' & Hs3 & Hs4 & Hs5 & Hs6 & Hs7).
    cbn [p5 set_payload set_mem mem payload payloadLength payloadPadding size csrcList
         headerExtension mapOneByteExtensions mapTwoBytesExtensions ids] in *.
    exists q. rewrite Hq. ostep. split; [done|].
    assert (forall lo n, 0 <= lo -> 0 <= n -> lo + n <= 5 \/ 6 <= lo ->
              get_bits (mem q) 0 lo n = get_bits (mem p) 0 lo n) as G.
    { intros. rewrite Gq by done. by apply get_bits_ext. }
    split.
    { apply (wf_rebuild p); rewrite ?Hkq, ?Hpq, ?Hs3; try done; try lia.
      - apply G; lia.
      - apply G; lia.
      - apply G; lia.
      - intros i Hi. unfold HeaderSize in Hi. by rewrite Fq, F4, F3, F2, F1 by lia. }
    split; [split_and!; try done; congruence|]. split.
    { unfold payload_bytes. rewrite Hs3, Hlq.
      transitivity (slice m3 (payload p + 2) (payloadLength p - 2)).
      - rewrite <- (slice_memmove _ _ _ _ _ E4). apply slice_ext; [lia|].
        intros i Hi. by rewrite Fq by lia.
      - rewrite <- Hs2. apply slice_ext; [lia|]. intros i Hi. by rewrite F3, F2, F1 by lia. }
    split; [done|]. split; [done|]. unfold GetPayloadType, HasMarker, GetSequenceNumber, GetTimestamp,
      GetSsrc.
    assert (get1 (mem q) 1 = get1 m1 1) as G1 by (by rewrite Fq, F4, F3, F2 by lia).
    split; [|split; [|split; [|split]]].
    + rewrite (get_bits_ext m1) by done.
      by apply (get_bits_set_same (mem p) 1 0 7 pt m1 ltac:(lia) ltac:(lia) E1).
    + rewrite (get_bits_ext m1) by done.
      by rewrite (get_bits_set_other (mem p) 1 0 7 pt m1 1 7 1 ltac:(lia) ltac:(lia) ltac:(lia)
                    ltac:(lia) ltac:(lia) E1).
    + rewrite <- (wrap_wrap 16 sq), <- (Set2Bytes_read _ _ _ _ B2 E2). apply Get2Bytes_ext.
      intros. by rewrite Fq, F4, F3 by lia.
    + apply Get4Bytes_ext. intros j Hj. by rewrite Fq, F4, F3, F2, F1 by lia.
    + rewrite <- (Set4Bytes_read _ _ _ _ B3 E3). apply Get4Bytes_ext. intros j Hj.
      by rewrite Fq, F4 by lia.
Qed.
End rtx.

(** * Shifting the payload *)

Section shift.
Implicit Types p q : rtp_packet.

(** A change of the buffer from the payload on, header included in nothing. *)
Lemma wf_payload_change p q :
  rtp_wf p -> bytes (mem q) -> size q <= zlen (mem q) ->
  (forall i, i < payload p -> get1 (mem q) i = get1 (mem p) i) ->
  csrcList q = csrcList p -> headerExtension q = headerExtension p -> payload q = payload p ->
  payloadPadding q = payloadPadding p -> 0 <= payloadLength q ->
  payload q + payloadLength q + payloadPadding q = size q ->
  (payloadPadding p <> 0 -> get1 (mem q) (size q - 1) = Ok (payloadPadding p)) ->
  rtp_wf q.
Proof.
  intros Hwf Hm Hfit Hsame Hcs Hhe Hpl Hpp Hl Hsum Hpb.
  destruct (wf_payload p Hwf) as (Hp12 & _ & _). unfold HeaderSize in Hp12.
  assert (get1 (mem q) 0 = get1 (mem p) 0) as G0 by (apply Hsame; lia).
  pose proof Hwf as [_ _ _ _ (_ & Hk & _) (Hpad & _)].
  apply (wf_rebuild p); rewrite ?Hpp; try done.
  - by apply get_bits_ext.
  - by apply get_bits_ext.
  - by apply get_bits_ext.
  - intros i Hi. apply Hsame. lia.
  - lia.
  - rewrite <- Hpad. by apply get_bits_ext.
Qed.

Lemma ShiftPayload_expand_spec p off k a b :
  rtp_wf p -> size p + k <= zlen (mem p) -> zlen (mem p) < 2 ^ 32 -> 0 <= off -> 0 < k ->
  payload_bytes p = Ok (a ++ b) -> zlen a = off -> b <> [] ->
  exists q g, ShiftPayload p off k true = Ok q /\ rtp_wf q /\ same_shape p q /\
    payload_bytes q = Ok (a ++ g ++ b) /\ zlen g = k /\ size q = size p + k /\
    forall i, i < payload p -> get1 (mem q) i = get1 (mem p) i.
Proof.
  intros Hwf Hroom Hsmall Hoff Hk Hpl Ha Hb. destruct (wf_payload p Hwf) as (Hp12 & _ & _).
  unfold HeaderSize in Hp12. pose proof Hwf as [Hm Hfit _ _ (Hl & Hkk & Hsum) (_ & Hpb)].
  pose proof (zlen_slice _ _ _ _ Hpl) as Hlen. rewrite zlen_app in Hlen.
  assert (0 < zlen b) by (destruct b; [done|rewrite zlen_cons; pose proof (zlen_nonneg b); lia]).
  unfold ShiftPayload. rewrite (proj2 (Z.eqb_neq k 0)) by lia.
  rewrite (proj2 (Z.ltb_lt off (payloadLength p))) by lia. ostep. cbn [orb]. ostep.
  set (n := payloadLength p + payloadPadding p - off).
  destruct (memmove_in_bounds (mem p) (payload p + off + k) (payload p + off) n) as (m & E); [lia..|].
  rewrite E. ostep. rewrite !wrap_small by (unfold in_uint; lia).
  pose proof (bytes_memmove _ _ _ _ _ Hm E) as Bm.
  destruct (same_except_memmove _ _ _ _ _ E) as [Lm Fm].
  set (q := set_payload _ _ _ _ _). exists q.
  unfold payload_bytes in Hpl. replace (payloadLength p) with (off + zlen b) in Hpl by lia.
  apply slice_app_last in Hpl as (s1 & s2 & Heq & Hs1 & Hs2); [|lia|lia].
  pose proof (zlen_slice _ _ _ _ Hs1) as Hls1.
  apply app_inj_1 in Heq as [<- <-]; [|unfold zlen in *; lia].
  destruct (slice_in_bounds m (payload p + off) k) as (g & Hg); [lia..|].
  exists g. split; [done|]. split; [|split; [done|split; [|split; [by eapply zlen_slice|]]]].
  - apply (wf_payload_change p); cbn [q set_payload set_mem mem size csrcList headerExtension
      payload payloadPadding payloadLength]; try done; try lia.
    + intros i Hi. apply Fm. lia.
    + intros Hnz. rewrite (get1_memmove (mem p) _ _ n m _ ltac:(lia) E).
      rewrite (proj2 (Z.leb_le _ _)), (proj2 (Z.ltb_lt _ _)) by lia. cbn [andb].
      rewrite <- (Hpb Hnz). f_equal. lia.
  - unfold payload_bytes. cbn [q set_payload set_mem mem payload payloadLength].
    replace (payloadLength p + k) with (off + (k + zlen b)) by lia.
    rewrite !slice_split by lia.
    rewrite (slice_ext (mem p) m (payload p) off) by (done || (intros; apply Fm; lia)).
    rewrite Hs1. ostep. rewrite Hg. ostep.
    assert (slice m (payload p + off + k) (zlen b) = Ok b) as ->; [|done].
    rewrite <- Hs2. pose proof (slice_memmove _ _ _ _ _ E) as Hmv.
    replace n with (zlen b + payloadPadding p) in Hmv by lia.
    rewrite !slice_split in Hmv by lia.
    destruct (slice_in_bounds m (payload p + off + k) (zlen b)) as (x & Hx); [lia..|].
    destruct (slice_in_bounds m (payload p + off + k + zlen b) (payloadPadding p)) as (y & Hy); [lia..|].
    destruct (slice_in_bounds (mem p) (payload p + off + zlen b) (payloadPadding p)) as (z & Hz); [lia..|].
    rewrite Hx, Hy, Hs2, Hz in Hmv. cbn in Hmv. injection Hmv as Hmv.
    apply app_inj_1 in Hmv as [-> _]; [by rewrite Hx|].
    apply zlen_slice in Hx. unfold zlen in *. lia.
  - split; [done|]. intros i Hi. apply Fm. lia.
Qed.

Lemma ShiftPayload_shrink_spec p off k a g b :
  rtp_wf p -> zlen (mem p) < 2 ^ 32 -> 0 < k ->
  payload_bytes p = Ok (a ++ g ++ b) -> zlen a = off -> zlen g = k ->
  exists q, ShiftPayload p off k false = Ok q /\ rtp_wf q /\ same_shape p q /\
    payload_bytes q = Ok (a ++ b) /\ size q = size p - k /\
    forall i, i < payload p -> get1 (mem q) i = get1 (mem p) i.
Proof.
  intros Hwf Hsmall Hk Hpl Ha Hg. destruct (wf_payload p Hwf) as (Hp12 & _ & _).
  unfold HeaderSize in Hp12. pose proof Hwf as [Hm Hfit _ _ (Hl & Hkk & Hsum) (_ & Hpb)].
  pose proof (zlen_slice _ _ _ _ Hpl) as Hlen. rewrite !zlen_app in Hlen.
  pose proof (zlen_nonneg a). pose proof (zlen_nonneg b).
  unfold ShiftPayload. rewrite (proj2 (Z.eqb_neq k 0)) by lia.
  rewrite (proj2 (Z.ltb_lt off (payloadLength p))) by lia. ostep. cbn [orb].
  rewrite (proj2 (Z.leb_le k _)) by lia. ostep.
  set (n := payloadLength p + payloadPadding p - off - k).
  destruct (memmove_in_bounds (mem p) (payload p + off) (payload p + off + k) n) as (m & E); [lia..|].
  rewrite E. ostep. rewrite !wrap_small by (unfold in_uint; lia).
  pose proof (bytes_memmove _ _ _ _ _ Hm E) as Bm.
  destruct (same_except_memmove _ _ _ _ _ E) as [Lm Fm].
  set (q := set_payload _ _ _ _ _). exists q.
  unfold payload_bytes in Hpl. replace (payloadLength p) with (off + (k + zlen b)) in Hpl by lia.
  rewrite !slice_split in Hpl by lia.
  apply bind_Ok in Hpl as (s1 & Hs1 & Hpl). apply bind_Ok in Hpl as (s23 & Hpl & [= Heq]).
  apply bind_Ok in Hpl as (s2 & Hs2 & Hpl). apply bind_Ok in Hpl as (s3 & Hs3 & [= <-]).
  pose proof (zlen_slice _ _ _ _ Hs1) as L1. pose proof (zlen_slice _ _ _ _ Hs2) as L2.
  apply app_inj_1 in Heq as [-> Heq]; [|unfold zlen in *; lia].
  apply app_inj_1 in Heq as [-> ->]; [|unfold zlen in *; lia].
  split; [done|]. split; [|split; [done|split]].
  - apply (wf_payload_change p); cbn [q set_payload set_mem mem size csrcList headerExtension
      payload payloadPadding payloadLength]; try done; try lia.
    + intros i Hi. apply Fm. lia.
    + intros Hnz. rewrite (get1_memmove (mem p) _ _ n m _ ltac:(lia) E).
      rewrite (proj2 (Z.leb_le _ _)), (proj2 (Z.ltb_lt _ _)) by lia. cbn [andb].
      rewrite <- (Hpb Hnz). f_equal. lia.
  - unfold payload_bytes. cbn [q set_payload set_mem mem payload payloadLength].
    replace (payloadLength p - k) with (off + zlen b) by lia.
    rewrite slice_split by lia.
    rewrite (slice_ext (mem p) m (payload p) off) by (done || (intros; apply Fm; lia)).
    rewrite Hs1. ostep.
    assert (slice m (payload p + off) (zlen b) = Ok b) as ->; [|done].
    rewrite <- Hs3. pose proof (slice_memmove _ _ _ _ _ E) as Hmv.
    replace n with (zlen b + payloadPadding p) in Hmv by lia.
    rewrite !slice_split in Hmv by lia.
    destruct (slice_in_bounds m (payload p + off) (zlen b)) as (x & Hx); [lia..|].
    destruct (slice_in_bounds m (payload p + off + zlen b) (payloadPadding p)) as (y & Hy); [lia..|].
    destruct (slice_in_bounds (mem p) (payload p + off + k + zlen b) (payloadPadding p)) as (z & Hz); [lia..|].
    rewrite Hx, Hy, Hs3, Hz in Hmv. cbn in Hmv. injection Hmv as Hmv.
    apply app_inj_1 in Hmv as [-> _]; [by rewrite Hx|].
    apply zlen_slice in Hx. unfold zlen in *. lia.
  - split; [done|]. intros i Hi. apply Fm. lia.
Qed.
End shift.

(** * Properties *)

(** C32: parsing is safe for every input: whatever the bytes, [Parse] never
    reads outside the [len] bytes of the buffer, never fails an assertion and
    always ends; it either rejects the packet or returns one whose pointers,
    lengths and extension elements agree with the bytes. *)
Theorem Parse_safe data len :
  bytes data -> 0 <= len <= zlen data ->
  match Parse data len with
  | Ok p => rtp_wf p /\ maps_ok p /\ mem p = data /\ size p = len /\ ids p = no_ids
  | Err e => e = Rejected
  end.
Proof. apply Parse_cases. Qed.

Lemma Parse_safe_witness :
  rtp_wf sample_packet /\ maps_ok sample_packet /\ mem sample_packet = sample_data /\
  size sample_packet = 29 /\ ids sample_packet = no_ids.
Proof.
  pose proof (Parse_safe sample_data 29) as Hsafe. rewrite sample_parsed in Hsafe. apply Hsafe.
  - apply (wf_bytes _ sample_wf).
  - vm_compute. split; discriminate.
Defined.

(** Retransmission is lossless: a packet encoded for RTX is a well-formed
    RTP packet with the RTX payload type, SSRC and sequence number; a receiver
    that parses it and decodes it gets the payload, the sequence number, the
    timestamp and the marker of the original packet back, without its padding. *)
Theorem rtx_round_trip p pt ssrc seq pl sq pt0 ssrc0 :
  rtp_wf p -> payload p + payloadLength p + 2 <= zlen (mem p) -> zlen (mem p) < 2 ^ 32 ->
  payload_bytes p = Ok pl -> GetSequenceNumber p = Ok sq ->
  exists q r d, RtxEncode p pt ssrc seq = Ok q /\
    GetPayloadType q = Ok (Z.land pt 127) /\ GetSsrc q = Ok (u32 ssrc) /\
    GetSequenceNumber q = Ok (u16 seq) /\
    Parse (mem q) (size q) = Ok r /\ RtxDecode r pt0 ssrc0 = Ok (d, true) /\ rtp_wf d /\
    payload_bytes d = Ok pl /\ GetSequenceNumber d = Ok sq /\
    GetTimestamp d = GetTimestamp p /\ HasMarker d = HasMarker p /\
    GetPayloadType d = Ok (Z.land pt0 127) /\ GetSsrc d = Ok (u32 ssrc0) /\ payloadPadding d = 0.
Proof.
  intros Hwf Hroom Hsmall Hpl Hsq.
  destruct (RtxEncode_spec p pt ssrc seq pl sq Hwf Hroom Hsmall Hpl Hsq)
    as (q & Hq & Hwfq & Hshape & Hplq & _ & _ & Hpt & Hmk & Hseq & Hts & Hssrc).
  destruct (Parse_wf q Hwfq) as (r & Hr & (V1 & V2 & V3 & V4 & V5 & V6 & V7) & _).
  assert (rtp_wf r) as Hwfr
    by (eapply Parse_Ok_wf; [apply (wf_bytes q Hwfq)|apply (wf_fits q Hwfq)|exact Hr]).
  assert (payload_bytes r = Ok (be_bytes 2 sq ++ pl)) as Hplr
    by (unfold payload_bytes in *; by rewrite V1, V4, V5).
  destruct Hshape as (_ & _ & _ & _ & _ & _ & Hlen).
  destruct (RtxDecode_spec r pt0 ssrc0 pl sq Hwfr) as
    (d & Hd & Hwfd & _ & Hpld & _ & Hpad & Hptd & Hmkd & Hseqd & Htsd & Hssrcd);
    [by rewrite V1, Hlen|done|].
  exists q, r, d. split_and!; try done.
  - rewrite Hseqd. f_equal. apply wrap_small. eapply Get2Bytes_range; [apply (wf_bytes p Hwf)|exact Hsq].
  - rewrite Htsd, <- Hts. unfold GetTimestamp. by rewrite V1.
  - rewrite Hmkd, <- Hmk. unfold HasMarker. by rewrite V1.
Qed.

Lemma rtx_round_trip_witness :
  exists q r d, RtxEncode sample_packet 97 5555 65535 = Ok q /\
    GetPayloadType q = Ok 97 /\ GetSsrc q = Ok 5555 /\ GetSequenceNumber q = Ok 65535 /\
    Parse (mem q) (size q) = Ok r /\ RtxDecode r 96 1000 = Ok (d, true) /\ rtp_wf d /\
    payload_bytes d = Ok [65; 66; 67] /\ GetSequenceNumber d = Ok 10 /\
    GetTimestamp d = GetTimestamp sample_packet /\ HasMarker d = HasMarker sample_packet /\
    GetPayloadType d = Ok 96 /\ GetSsrc d = Ok 1000 /\ payloadPadding d = 0.
Proof.
  apply (rtx_round_trip sample_packet 97 5555 65535 [65; 66; 67] 10 96 1000);
    [apply sample_wf|vm_compute; discriminate|reflexivity|reflexivity|reflexivity].
Defined.

(** Room made in the payload and taken away again leaves the payload as it
    was, padding included, and both packets are well formed. *)
Theorem ShiftPayload_round_trip p off k a b :
  rtp_wf p -> size p + k <= zlen (mem p) -> zlen (mem p) < 2 ^ 32 -> 0 < k ->
  payload_bytes p = Ok (a ++ b) -> zlen a = off -> b <> [] ->
  exists q r, ShiftPayload p off k true = Ok q /\ rtp_wf q /\ size q = size p + k /\
    ShiftPayload q off k false = Ok r /\ rtp_wf r /\
    payload_bytes r = payload_bytes p /\ size r = size p.
Proof.
  intros Hwf Hroom Hsmall Hk Hpl Ha Hb.
  destruct (ShiftPayload_expand_spec p off k a b Hwf Hroom Hsmall
              ltac:(pose proof (zlen_nonneg a); lia) Hk Hpl Ha Hb)
    as (q & g & Hq & Hwfq & Hshape & Hplq & Hg & Hsz & _).
  destruct Hshape as (_ & _ & _ & _ & _ & _ & Hlen).
  destruct (ShiftPayload_shrink_spec q off k a g b Hwfq ltac:(by rewrite Hlen) Hk Hplq Ha Hg)
    as (r & Hr & Hwfr & _ & Hplr & Hszr & _).
  exists q, r. split_and!; try done; [congruence|lia].
Qed.

Lemma ShiftPayload_round_trip_witness :
  exists q r, ShiftPayload sample_packet 1 4 true = Ok q /\ rtp_wf q /\ size q = 33 /\
    ShiftPayload q 1 4 false = Ok r /\ rtp_wf r /\
    payload_bytes r = payload_bytes sample_packet /\ size r = 29.
Proof.
  apply (ShiftPayload_round_trip sample_packet 1 4 [65] [66; 67]);
    [apply sample_wf|vm_compute; discriminate|reflexivity|lia|reflexivity|reflexivity|done].
Defined.
