(* ===== verification/Codecs.v ===== *)
(** The payload descriptors of the video codecs (worker/src/RTC/Codecs/VP8.cpp,
    VP9.cpp, H264.cpp, H265.cpp and worker/include/RTC/Codecs/): how they are
    parsed from a payload, and which packets an encoding context lets through.

    A descriptor is read from the buffer of its packet, [ptr] being the position
    of the payload; [Err Rejected] stands for the [nullptr] of the parser.  The
    1-bit fields are 0 or 1. *)

From S2P Require Export SeqManager RtpPacketProps.

Definition bit (byte n : Z) : Z := Z.land (Z.shiftr byte n) 1.

(** [if (len < ++offset + 1) return nullptr; data\[offset\]]. *)
Definition byte_at (m : list Z) (ptr len offset : Z) : outcome Z :=
  _ ← require Rejected (offset + 1 <=? len);
  get1 m (ptr + offset).

(** * Encoding contexts *)

Record context_params : Type := ContextParams {
  spatialLayers : Z;
  temporalLayers : Z;
  ksvc : bool
}.

Record encoding_context : Type := EncodingContext {
  params : context_params;
  targetSpatialLayer : Z;
  targetTemporalLayer : Z;
  currentSpatialLayer : Z;
  currentTemporalLayer : Z
}.

Definition new_EncodingContext (params : context_params) : encoding_context := EncodingContext params (-1) (-1) (-1) (-1).

Definition SetTargetSpatialLayer (c : encoding_context) (l : Z) : encoding_context :=
  EncodingContext (params c) l (targetTemporalLayer c) (currentSpatialLayer c) (currentTemporalLayer c).
Definition SetTargetTemporalLayer (c : encoding_context) (l : Z) : encoding_context :=
  EncodingContext (params c) (targetSpatialLayer c) l (currentSpatialLayer c) (currentTemporalLayer c).
Definition SetCurrentSpatialLayer (c : encoding_context) (l : Z) : encoding_context :=
  EncodingContext (params c) (targetSpatialLayer c) (targetTemporalLayer c) l (currentTemporalLayer c).
Definition SetCurrentTemporalLayer (c : encoding_context) (l : Z) : encoding_context :=
  EncodingContext (params c) (targetSpatialLayer c) (targetTemporalLayer c) (currentSpatialLayer c) l.

(** * VP8 *)

Record vp8_descriptor : Type := VP8Descriptor {
  vp8_extended : Z;
  vp8_nonReference : Z;
  vp8_start : Z;
  vp8_partitionIndex : Z;
  vp8_i : Z;
  vp8_l : Z;
  vp8_t : Z;
  vp8_k : Z;
  vp8_pictureId : Z;
  vp8_tl0PictureIndex : Z;
  vp8_tlIndex : Z;
  vp8_y : Z;
  vp8_keyIndex : Z;
  vp8_isKeyFrame : bool;
  vp8_hasPictureId : bool;
  vp8_hasOneBytePictureId : bool;
  vp8_hasTwoBytesPictureId : bool;
  vp8_hasTl0PictureIndex : bool;
  vp8_hasTlIndex : bool
}.

(** The picture id, whether it has one or two bytes, and the offset of its last byte.
    [offset] is that of the byte before it. *)
Definition parse_picture_id (m : list Z) (ptr len offset : Z) : outcome (Z * Z * bool * bool) :=
  byte ← byte_at m ptr len (offset + 1);
  if truthy (bit byte 7) then
    byte2 ← byte_at m ptr len (offset + 2);
    Ok (offset + 2, u16 (Z.shiftl (Z.land byte 127) 8 + byte2), false, true)
  else Ok (offset + 1, Z.land byte 127, true, false).

Definition ParseVP8 (m : list Z) (ptr len : Z) : outcome vp8_descriptor :=
  _ ← require Rejected (1 <=? len);
  byte ← get1 m ptr;
  let extended := bit byte 7 in
  let nonReference := bit byte 5 in
  let start := bit byte 4 in
  let partitionIndex := Z.land byte 7 in
  if negb (truthy extended) then Err Rejected
  else
    byte ← byte_at m ptr len 1;
    let i := bit byte 7 in
    let l := bit byte 6 in
    let t := bit byte 5 in
    let k := bit byte 4 in
    '(offset, pictureId, hasOneByte, hasTwoBytes) ←
      (if truthy i then parse_picture_id m ptr len 1 else Ok (1, 0, false, false));
    '(offset, tl0PictureIndex) ←
      (if truthy l then byte ← byte_at m ptr len (offset + 1); Ok (offset + 1, byte) else Ok (offset, 0));
    '(offset, byte) ←
      (if truthy t || truthy k then byte ← byte_at m ptr len (offset + 1); Ok (offset + 1, byte) else Ok (offset, 0));
    let offset := offset + 1 in
    isKeyFrame ←
      (if (offset + 1 <=? len) && truthy start && (partitionIndex =? 0) then
         byte ← get1 m (ptr + offset); Ok (negb (truthy (Z.land byte 1)))
       else Ok false);
    Ok (VP8Descriptor extended nonReference start partitionIndex i l t k pictureId tl0PictureIndex
          (Z.land (Z.shiftr byte 6) 3) (bit byte 5) (Z.land byte 31)
          isKeyFrame (truthy i) hasOneByte hasTwoBytes (truthy l) (truthy t || truthy k)).

(** The descriptor once its picture id has two bytes. *)
Definition two_bytes (d : vp8_descriptor) : vp8_descriptor :=
  VP8Descriptor (vp8_extended d) (vp8_nonReference d) (vp8_start d) (vp8_partitionIndex d) (vp8_i d) (vp8_l d) (vp8_t d)
    (vp8_k d) (vp8_pictureId d) (vp8_tl0PictureIndex d) (vp8_tlIndex d) (vp8_y d) (vp8_keyIndex d) (vp8_isKeyFrame d)
    (vp8_hasPictureId d) false true (vp8_hasTl0PictureIndex d) (vp8_hasTlIndex d).

(** [VP8::ProcessRtpPacket]: the packet, and its descriptor if there is one. *)
Definition ProcessRtpPacketVP8 (p : rtp_packet) : outcome (rtp_packet * option vp8_descriptor) :=
  match ParseVP8 (mem p) (payload p) (payloadLength p) with
  | Ok d =>
      if vp8_hasOneBytePictureId d then
        p ← ShiftPayload p 2 1 true;
        m ← set1 (mem p) (payload p + 2) 128;
        Ok (set_mem p m, Some (two_bytes d))
      else Ok (p, Some d)
  | Err Rejected => Ok (p, None)
  | Err e => Err e
  end.

(** [PayloadDescriptor::Encode] into the payload at [ptr]. *)
Definition EncodeVP8 (d : vp8_descriptor) (m : list Z) (ptr pictureId tl0PictureIndex : Z) : outcome (list Z) :=
  if negb (truthy (vp8_extended d)) then Ok m
  else
    let data := ptr + 2 in
    '(m, data) ←
      (if truthy (vp8_i d) then
         if vp8_hasTwoBytesPictureId d then
           m ← Set2Bytes m data pictureId;
           byte ← get1 m data;
           m ← set1 m data (Z.lor byte 128);
           Ok (m, data + 2)
         else if vp8_hasOneBytePictureId d then
           m ← set1 m data (u8 pictureId);
           Ok (m, data + 1)
         else Ok (m, data)
       else Ok (m, data));
    if truthy (vp8_l d) then set1 m data tl0PictureIndex else Ok m.

Record vp8_context : Type := VP8Context {
  vp8_base : encoding_context;
  vp8_pictureIdManager : seq_manager;              (** of 16 bits *)
  vp8_tl0PictureIndexManager : seq_manager;        (** of 8 bits *)
  vp8_syncRequired : bool
}.

Definition new_VP8Context (params : context_params) : vp8_context :=
  VP8Context (new_EncodingContext params) seq_manager_init seq_manager_init false.

(** The synchronization of the managers with the packet, when it is required. *)
Definition sync_vp8 (d : vp8_descriptor) (c : vp8_context) : vp8_context :=
  if vp8_syncRequired c && vp8_hasPictureId d && vp8_hasTl0PictureIndex d then
    VP8Context (vp8_base c) (Sync 16 (vp8_pictureIdManager c) (u16 (vp8_pictureId d - 1)))
      (Sync 8 (vp8_tl0PictureIndexManager c) (u8 (vp8_tl0PictureIndex d - 1))) false
  else c.

(** A packet newer than those seen whose layer is too high, or is to be entered
    with another packet. *)
Definition filtered_vp8 (d : vp8_descriptor) (c : vp8_context) : bool :=
  vp8_hasPictureId d && vp8_hasTlIndex d && vp8_hasTl0PictureIndex d &&
  negb (IsSeqLowerThan 16 (vp8_pictureId d) (GetMaxInput (vp8_pictureIdManager c))) &&
  ((targetTemporalLayer (vp8_base c) <? vp8_tlIndex d)
   || ((currentTemporalLayer (vp8_base c) <? vp8_tlIndex d) && negb (truthy (vp8_y d)))).

(** The layer in force after a packet that is let through. *)
Definition update_layer (hasLayer : bool) (layer : Z) (c : encoding_context) : encoding_context :=
  let c := if hasLayer && (currentTemporalLayer c <? layer) then SetCurrentTemporalLayer c layer
           else if negb hasLayer then SetCurrentTemporalLayer c 0 else c in
  if targetTemporalLayer c <? currentTemporalLayer c then SetCurrentTemporalLayer c (targetTemporalLayer c) else c.

(** The number given to a packet by a manager, unless it has none: [None] when it
    was dropped. *)
Definition input_if (w : Z) (present : bool) (s : seq_manager) (n : Z) : seq_manager * option Z :=
  if present then Input w s n else (s, Some 0).

(** [PayloadDescriptorHandler::Process]. *)
Definition ProcessVP8 (d : vp8_descriptor) (c : vp8_context) (m : list Z) (ptr : Z) : outcome (vp8_context * list Z * bool) :=
  _ ← require AssertFailed (0 <=? targetTemporalLayer (vp8_base c));
  let c := sync_vp8 d c in
  if filtered_vp8 d c then
    Ok (VP8Context (vp8_base c) (Drop 16 (vp8_pictureIdManager c) (vp8_pictureId d))
          (Drop 8 (vp8_tl0PictureIndexManager c) (vp8_tl0PictureIndex d)) (vp8_syncRequired c), m, false)
  else
    let '(pictureIds, pictureId) := input_if 16 (vp8_hasPictureId d) (vp8_pictureIdManager c) (vp8_pictureId d) in
    match pictureId with
    | None => Ok (VP8Context (vp8_base c) pictureIds (vp8_tl0PictureIndexManager c) (vp8_syncRequired c), m, false)
    | Some pictureId =>
        let '(tl0s, tl0PictureIndex) :=
          input_if 8 (vp8_hasTl0PictureIndex d) (vp8_tl0PictureIndexManager c) (vp8_tl0PictureIndex d) in
        match tl0PictureIndex with
        | None => Ok (VP8Context (vp8_base c) pictureIds tl0s (vp8_syncRequired c), m, false)
        | Some tl0PictureIndex =>
            let base := update_layer (vp8_hasTlIndex d) (vp8_tlIndex d) (vp8_base c) in
            m ← (if vp8_hasPictureId d && vp8_hasTl0PictureIndex d
                 then EncodeVP8 d m ptr pictureId tl0PictureIndex else Ok m);
            Ok (VP8Context base pictureIds tl0s (vp8_syncRequired c), m, true)
        end
    end.

(** [PayloadDescriptorHandler::Restore]. *)
Definition RestoreVP8 (d : vp8_descriptor) (m : list Z) (ptr : Z) : outcome (list Z) :=
  if vp8_hasPictureId d && vp8_hasTl0PictureIndex d
  then EncodeVP8 d m ptr (vp8_pictureId d) (vp8_tl0PictureIndex d) else Ok m.

(** * VP9 *)

Record vp9_descriptor : Type := VP9Descriptor {
  vp9_i : Z;
  vp9_p : Z;
  vp9_l : Z;
  vp9_f : Z;
  vp9_b : Z;
  vp9_e : Z;
  vp9_v : Z;
  vp9_pictureId : Z;
  vp9_slIndex : Z;
  vp9_tlIndex : Z;
  vp9_tl0PictureIndex : Z;
  vp9_switchingUpPoint : Z;
  vp9_interLayerDependency : Z;
  vp9_isKeyFrame : bool;
  vp9_hasPictureId : bool;
  vp9_hasOneBytePictureId : bool;
  vp9_hasTwoBytesPictureId : bool;
  vp9_hasSlIndex : bool;
  vp9_hasTl0PictureIndex : bool;
  vp9_hasTlIndex : bool
}.

Definition ParseVP9 (m : list Z) (ptr len : Z) : outcome vp9_descriptor :=
  _ ← require Rejected (1 <=? len);
  byte ← get1 m ptr;
  let i := bit byte 7 in
  let p := bit byte 6 in
  let l := bit byte 5 in
  let f := bit byte 4 in
  let b := bit byte 3 in
  let e := bit byte 2 in
  let v := bit byte 1 in
  '(offset, pictureId, hasOneByte, hasTwoBytes) ←
    (if truthy i then parse_picture_id m ptr len 0 else Ok (0, 0, false, false));
  '(byte, tl0PictureIndex, hasTl0) ←
    (if truthy l then
       byte ← byte_at m ptr len (offset + 1);
       _ ← require Rejected (offset + 2 + 1 <=? len);
       if negb (truthy f) then tl0 ← get1 m (ptr + (offset + 2)); Ok (byte, tl0, true)
       else Ok (byte, 0, false)
     else Ok (0, 0, false));
  let slIndex := Z.land (Z.shiftr byte 1) 7 in
  let isKeyFrame := negb (truthy p) && truthy b && (slIndex =? 0) in
  Ok (VP9Descriptor i p l f b e v pictureId slIndex (Z.land (Z.shiftr byte 5) 7) tl0PictureIndex
        (bit byte 4) (Z.land byte 1) isKeyFrame (truthy i) hasOneByte hasTwoBytes (truthy l) hasTl0 (truthy l)).

Definition ProcessRtpPacketVP9 (p : rtp_packet) : outcome (rtp_packet * option vp9_descriptor) :=
  match ParseVP9 (mem p) (payload p) (payloadLength p) with
  | Ok d => Ok (p, Some d)
  | Err Rejected => Ok (p, None)
  | Err e => Err e
  end.

Definition vp9_spatialLayer (d : vp9_descriptor) : Z := if vp9_hasSlIndex d then vp9_slIndex d else 0.
Definition vp9_temporalLayer (d : vp9_descriptor) : Z := if vp9_hasTlIndex d then vp9_tlIndex d else 0.

Record vp9_context : Type := VP9Context {
  vp9_base : encoding_context;
  vp9_pictureIdManager : seq_manager;              (** of 16 bits *)
  vp9_syncRequired : bool
}.

Definition new_VP9Context (params : context_params) : vp9_context :=
  VP9Context (new_EncodingContext params) seq_manager_init false.

Definition sync_vp9 (d : vp9_descriptor) (c : vp9_context) : vp9_context :=
  if vp9_syncRequired c && vp9_hasPictureId d then
    VP9Context (vp9_base c) (Sync 16 (vp9_pictureIdManager c) (u16 (vp9_pictureId d - 1))) false
  else c.

(** [isOldPacket]. *)
Definition old_vp9 (d : vp9_descriptor) (c : vp9_context) : bool :=
  vp9_hasPictureId d && IsSeqLowerThan 16 (vp9_pictureId d) (GetMaxInput (vp9_pictureIdManager c)).

(** [tmpSpatialLayer] and [tmpTemporalLayer] after the change of spatial layer. *)
Definition spatial_vp9 (d : vp9_descriptor) (c : encoding_context) : Z * Z :=
  let change := (targetSpatialLayer c, 0) in
  let keep := (currentSpatialLayer c, currentTemporalLayer c) in
  if currentSpatialLayer c <? targetSpatialLayer c then
    if vp9_isKeyFrame d then change else keep
  else if targetSpatialLayer c <? currentSpatialLayer c then
    if ksvc (params c) then
      if vp9_isKeyFrame d then change else keep
    else
      if (vp9_spatialLayer d =? targetSpatialLayer c) && truthy (vp9_e d) then change else keep
  else keep.

(** [tmpTemporalLayer] after the change of temporal layer. *)
Definition temporal_vp9 (d : vp9_descriptor) (c : encoding_context) (tmpTemporalLayer : Z) : Z :=
  let layer := vp9_temporalLayer d in
  let current := currentTemporalLayer c in
  if current <? targetTemporalLayer c then
    if (current + 1 <=? layer) && ((current =? -1) || truthy (vp9_switchingUpPoint d)) && truthy (vp9_b d)
    then layer else tmpTemporalLayer
  else if targetTemporalLayer c <? current then
    if (layer =? targetTemporalLayer c) && truthy (vp9_e d) then targetTemporalLayer c else tmpTemporalLayer
  else tmpTemporalLayer.

(** [PayloadDescriptorHandler::Process]: the context, whether the packet is let
    through, and whether it gets the marker. *)
Definition ProcessVP9 (d : vp9_descriptor) (c : vp9_context) : outcome (vp9_context * bool * bool) :=
  _ ← require AssertFailed (0 <=? targetSpatialLayer (vp9_base c));
  _ ← require AssertFailed (0 <=? targetTemporalLayer (vp9_base c));
  let spatial := vp9_spatialLayer d in
  let temporal := vp9_temporalLayer d in
  if (spatialLayers (params (vp9_base c)) <=? spatial) || (temporalLayers (params (vp9_base c)) <=? temporal)
  then Ok (c, false, false)
  else
    let c := sync_vp9 d c in
    let isOldPacket := old_vp9 d c in
    let '(tmpSpatialLayer, tmpTemporalLayer) := spatial_vp9 d (vp9_base c) in
    if (tmpSpatialLayer <? spatial) && negb isOldPacket then Ok (c, false, false)
    else
      let tmpTemporalLayer :=
        if isOldPacket then tmpTemporalLayer else temporal_vp9 d (vp9_base c) tmpTemporalLayer in
      if negb isOldPacket && (tmpTemporalLayer <? temporal) then Ok (c, false, false)
      else
        let marker := (spatial =? tmpSpatialLayer) && truthy (vp9_e d) in
        let pictureIds := (input_if 16 (vp9_hasPictureId d) (vp9_pictureIdManager c) (vp9_pictureId d)).1 in
        Ok (VP9Context (SetCurrentTemporalLayer (SetCurrentSpatialLayer (vp9_base c) tmpSpatialLayer) tmpTemporalLayer)
              pictureIds (vp9_syncRequired c), true, marker).

(** * H264 and H265 *)

Record h26x_descriptor : Type := H26xDescriptor {
  h_s : Z;
  h_e : Z;
  h_i : Z;
  h_d : Z;
  h_b : Z;
  h_tid : Z;
  h_lid : Z;
  h_tl0picidx : Z;
  h_hasLid : bool;
  h_hasTid : bool;
  h_hasTl0picidx : bool;
  h_isKeyFrame : bool
}.

(** The fields in the frame marking extension at [ptr], of [len] bytes. *)
Definition read_frame_marking (m : list Z) (fm : option (Z * Z)) : outcome h26x_descriptor :=
  match fm with
  | None => Ok (H26xDescriptor 0 0 0 0 0 0 0 0 false false false false)
  | Some (ptr, len) =>
      byte ← get1 m ptr;
      lid ← (if 2 <=? len then get1 m (ptr + 1) else Ok 0);
      tl0picidx ← (if len =? 3 then get1 m (ptr + 2) else Ok 0);
      Ok (H26xDescriptor (bit byte 7) (bit byte 6) (bit byte 5) (bit byte 4) (bit byte 3) (Z.land byte 7) lid tl0picidx
            (2 <=? len) true (len =? 3) (truthy (bit byte 7) && truthy (bit byte 5)))
  end.

Definition set_key_frame (d : h26x_descriptor) (isKeyFrame : bool) : h26x_descriptor :=
  H26xDescriptor (h_s d) (h_e d) (h_i d) (h_d d) (h_b d) (h_tid d) (h_lid d) (h_tl0picidx d) (h_hasLid d) (h_hasTid d)
    (h_hasTl0picidx d) isKeyFrame.

(** The loop over the NAL units of an aggregation packet: whether one that
    [is_key] accepts, by its first byte, is met. *)
Fixpoint nal_units_loop (is_key : Z -> bool) (fuel : nat) (m : list Z) (ptr offset len : Z) : outcome bool :=
  if 3 <=? len then
    match fuel with
    | O => Err OutOfFuel
    | S fuel =>
        naluSize ← Get2Bytes m (ptr + offset);
        subnal ← get1 m (ptr + offset + 2);
        if is_key subnal then Ok true
        else if len <? naluSize + 2 then Ok false
        else nal_units_loop is_key fuel m ptr (offset + (naluSize + 2)) (len - (naluSize + 2))
    end
  else Ok false.

Definition h264_is_key (byte : Z) : bool := Z.land byte 31 =? 7.

(** Whether the payload starts a key frame, by its NAL unit type. *)
Definition key_frame_h264 (m : list Z) (ptr len : Z) : outcome bool :=
  byte ← get1 m ptr;
  let nal := Z.land byte 31 in
  if nal =? 7 then Ok true
  else if nal =? 24 then nal_units_loop h264_is_key (Z.to_nat len) m ptr 1 (len - 1)
  else if (nal =? 28) || (nal =? 29) then
    byte ← get1 m (ptr + 1);
    Ok ((Z.land byte 31 =? 7) && (Z.land byte 128 =? 128))
  else Ok false.

Definition h265_is_key (byte : Z) : bool :=
  let subnal := Z.shiftr (Z.land byte 126) 1 in (subnal =? 32) || (subnal =? 33).

Definition key_frame_h265 (m : list Z) (ptr len : Z) : outcome bool :=
  byte ← get1 m ptr;
  let nal := Z.shiftr (Z.land byte 126) 1 in
  if (nal =? 32) || (nal =? 33) then Ok true
  else if nal =? 48 then nal_units_loop h265_is_key (Z.to_nat len) m ptr 1 (len - 1)
  else if nal =? 49 then
    byte ← get1 m (ptr + 1);
    let subnal := Z.land byte 63 in
    Ok (((subnal =? 32) || (subnal =? 33)) && (Z.land byte 128 =? 128))
  else Ok false.

(** [Parse] of H264 and H265, which differ in how the payload is looked at. *)
Definition ParseH26x (key_frame : list Z -> Z -> Z -> outcome bool) (m : list Z) (ptr len : Z) (fm : option (Z * Z))
  : outcome h26x_descriptor :=
  _ ← require Rejected (2 <=? len);
  d ← read_frame_marking m fm;
  if h_isKeyFrame d then Ok d
  else isKeyFrame ← key_frame m ptr len; Ok (set_key_frame d isKeyFrame).

Definition ParseH264 := ParseH26x key_frame_h264.
Definition ParseH265 := ParseH26x key_frame_h265.

Definition ProcessRtpPacketH26x (key_frame : list Z -> Z -> Z -> outcome bool) (p : rtp_packet)
  : outcome (rtp_packet * option h26x_descriptor) :=
  fm ← ReadFrameMarking p;
  match ParseH26x key_frame (mem p) (payload p) (payloadLength p) fm with
  | Ok d => Ok (p, Some d)
  | Err Rejected => Ok (p, None)
  | Err e => Err e
  end.

(** [PayloadDescriptorHandler::Process], the same for both. *)
Definition ProcessH26x (d : h26x_descriptor) (c : encoding_context) : outcome (encoding_context * bool) :=
  _ ← require AssertFailed (0 <=? targetTemporalLayer c);
  if h_hasTid d && (targetTemporalLayer c <? h_tid d) then Ok (c, false)
  else if h_hasTid d && (currentTemporalLayer c <? h_tid d) && negb (truthy (h_b d)) then Ok (c, false)
  else Ok (update_layer (h_hasTid d) (h_tid d) c, true).

(** * Packets with their descriptors *)

Inductive codec : Type := VP8 | VP9 | H264 | H265.

Inductive descriptor : Type :=
| DescVP8 (d : vp8_descriptor)
| DescVP9 (d : vp9_descriptor)
| DescH26x (d : h26x_descriptor).

(** A packet and its payload descriptor handler. *)
Record video_packet : Type := VideoPacket { vp_packet : rtp_packet; vp_handler : option descriptor }.

Inductive codec_context : Type :=
| CtxVP8 (c : vp8_context)
| CtxVP9 (c : vp9_context)
| CtxH26x (c : encoding_context).

(** [Tools::ProcessRtpPacket], of a codec that has descriptors or another. *)
Definition ProcessRtpPacket (codec : option codec) (p : rtp_packet) : outcome video_packet :=
  match codec with
  | Some VP8 => '(p, d) ← ProcessRtpPacketVP8 p; Ok (VideoPacket p (DescVP8 <$> d))
  | Some VP9 => '(p, d) ← ProcessRtpPacketVP9 p; Ok (VideoPacket p (DescVP9 <$> d))
  | Some H264 => '(p, d) ← ProcessRtpPacketH26x key_frame_h264 p; Ok (VideoPacket p (DescH26x <$> d))
  | Some H265 => '(p, d) ← ProcessRtpPacketH26x key_frame_h265 p; Ok (VideoPacket p (DescH26x <$> d))
  | None => Ok (VideoPacket p None)
  end.

(** [Tools::CanBeKeyFrame]. *)
Definition CanBeKeyFrame (codec : option codec) : bool := bool_decide (is_Some codec).

(** [Tools::GetEncodingContext]. *)
Definition GetEncodingContext (codec : option codec) (params : context_params) : option codec_context :=
  match codec with
  | Some VP8 => Some (CtxVP8 (new_VP8Context params))
  | Some VP9 => Some (CtxVP9 (new_VP9Context params))
  | Some H264 | Some H265 => Some (CtxH26x (new_EncodingContext params))
  | None => None
  end.

Definition IsKeyFrame (p : video_packet) : bool :=
  match vp_handler p with
  | None => false
  | Some (DescVP8 d) => vp8_isKeyFrame d
  | Some (DescVP9 d) => vp9_isKeyFrame d
  | Some (DescH26x d) => h_isKeyFrame d
  end.

Definition GetSpatialLayer (p : video_packet) : Z :=
  match vp_handler p with Some (DescVP9 d) => vp9_spatialLayer d | _ => 0 end.

Definition GetTemporalLayer (p : video_packet) : Z :=
  match vp_handler p with
  | None => 0
  | Some (DescVP8 d) => if vp8_hasTlIndex d then vp8_tlIndex d else 0
  | Some (DescVP9 d) => vp9_temporalLayer d
  | Some (DescH26x d) => h_tid d
  end.

(** [SyncRequired] of a context: nothing for H264 and H265. *)
Definition SyncRequired (c : codec_context) : codec_context :=
  match c with
  | CtxVP8 c => CtxVP8 (VP8Context (vp8_base c) (vp8_pictureIdManager c) (vp8_tl0PictureIndexManager c) true)
  | CtxVP9 c => CtxVP9 (VP9Context (vp9_base c) (vp9_pictureIdManager c) true)
  | CtxH26x c => CtxH26x c
  end.

(** [RtpPacket::ProcessPayload].  The context is that of the codec of the packet:
    [static_cast] would not notice another. *)
Definition ProcessPayload (p : video_packet) (c : codec_context) : outcome (video_packet * codec_context * bool) :=
  match vp_handler p, c with
  | None, _ => Ok (p, c, true)
  | Some (DescVP8 d), CtxVP8 c =>
      '(c, m, ok) ← ProcessVP8 d c (mem (vp_packet p)) (payload (vp_packet p));
      Ok (VideoPacket (set_mem (vp_packet p) m) (vp_handler p), CtxVP8 c, ok)
  | Some (DescVP9 d), CtxVP9 c =>
      '(c, ok, marker) ← ProcessVP9 d c;
      q ← (if ok && marker then SetMarker (vp_packet p) true else Ok (vp_packet p));
      Ok (VideoPacket q (vp_handler p), CtxVP9 c, ok)
  | Some (DescH26x d), CtxH26x c => '(c, ok) ← ProcessH26x d c; Ok (p, CtxH26x c, ok)
  | Some _, _ => Err OutOfBounds
  end.

(** [RtpPacket::RestorePayload]. *)
Definition RestorePayload (p : video_packet) : outcome video_packet :=
  match vp_handler p with
  | Some (DescVP8 d) =>
      m ← RestoreVP8 d (mem (vp_packet p)) (payload (vp_packet p));
      Ok (VideoPacket (set_mem (vp_packet p) m) (vp_handler p))
  | _ => Ok p
  end.
