(* ===== verification/CodecsFacts.v ===== *)
(** Facts about payload descriptors: the parsers stay within the payload, and
    what a VP8 descriptor writes is what it was read from.

    VP8: the numbers of the pictures are rewritten for each consumer, and put
    back afterwards. *)

From S2P Require Export Readers Codecs.

#[local] Arguments truthy : simpl never.
#[local] Arguments bit : simpl never.

(** * Bits *)

Lemma bit_testbit byte n : 0 <= n -> bit byte n = b2z (Z.testbit byte n).
Proof.
  intros Hn. unfold bit. change 1 with (2 ^ 1 - 1). rewrite land_low_ones by done.
  rewrite Z.testbit_spec' by done. rewrite <- Z.shiftr_div_pow2 by done. change (2 ^ 1) with 2.
  rewrite Zmod_odd. rewrite <- Z.bit0_odd, Z.shiftr_spec by done. by destruct (Z.testbit byte (0 + n)) eqn:E; rewrite Z.add_0_l in E; rewrite ?E.
Qed.

Lemma bit_range byte n : 0 <= n -> in_uint 1 (bit byte n).
Proof. intros Hn. rewrite bit_testbit by done. by destruct (Z.testbit byte n). Qed.

Lemma land_range byte k : 0 <= k -> in_uint k (Z.land byte (2 ^ k - 1)).
Proof. intros Hk. rewrite land_low_ones by done. apply Z.mod_pos_bound. lia. Qed.

(** * Parsing stays within the payload *)

Section parse.
Context (m : list Z) (ptr len : Z).
Hypothesis Hm : bytes m.
Hypothesis Hptr : 0 <= ptr.
Hypothesis Hlen : ptr + len <= zlen m.

Lemma yields_get1 {A} (P : A -> Prop) i f : 0 <= i < zlen m ->
  (forall v, in_uint 8 v -> get1 m i = Ok v -> yields P (f v)) -> yields P (get1 m i ≫= f).
Proof. intros Hi Hf. destruct (get1_in_bounds m i Hi) as [v E]. rewrite E. apply Hf; [by eapply get1_byte|done]. Qed.

Lemma yields_byte_at {A} (P : A -> Prop) offset f : 0 <= offset ->
  (forall v, in_uint 8 v -> offset + 1 <= len -> get1 m (ptr + offset) = Ok v -> yields P (f v)) ->
  yields P (byte_at m ptr len offset ≫= f).
Proof.
  intros Ho Hf. unfold byte_at. rewrite bind_assoc. apply yields_require. intros Hb%Z.leb_le.
  apply yields_get1; [lia|]. intros v Hv E. by apply Hf.
Qed.

(** A picture id that has been read: its value, and where its bytes are. *)
Definition picture_id_read (offset : Z) (r : Z * Z * bool * bool) : Prop :=
  let '(o, pictureId, one, two) := r in
  o + 1 <= len /\
  ((one = true /\ two = false /\ o = offset + 1 /\ in_uint 7 pictureId /\ get1 m (ptr + offset + 1) = Ok pictureId)
   \/ (one = false /\ two = true /\ o = offset + 2 /\ in_uint 15 pictureId /\
       get1 m (ptr + offset + 1) = Ok (Z.lor (pictureId / 256) 128) /\ get1 m (ptr + offset + 2) = Ok (pictureId `mod` 256))).

Lemma high_byte b : in_uint 8 b -> bit b 7 = 1 -> b = Z.lor (Z.land b 127) 128.
Proof.
  assert (forallb (fun b => negb (bit b 7 =? 1) || (b =? Z.lor (Z.land b 127) 128)) (seqZ 0 256) = true) as Hall by by vm_compute.
  intros Hb H1. pose proof (forall_below 256 _ Hall b Hb) as H. cbn beta in H. rewrite H1 in H. by apply Z.eqb_eq in H.
Qed.

Lemma low_byte b : in_uint 8 b -> bit b 7 = 0 -> b = Z.land b 127.
Proof.
  assert (forallb (fun b => negb (bit b 7 =? 0) || (b =? Z.land b 127)) (seqZ 0 256) = true) as Hall by by vm_compute.
  intros Hb H1. pose proof (forall_below 256 _ Hall b Hb) as H. cbn beta in H. rewrite H1 in H. by apply Z.eqb_eq in H.
Qed.

Lemma truthy_bit b n : 0 <= n -> (truthy (bit b n) = true /\ bit b n = 1) \/ (truthy (bit b n) = false /\ bit b n = 0).
Proof. intros Hn. rewrite bit_testbit by done. destruct (Z.testbit b n); auto. Qed.

Lemma parse_picture_id_yields offset : 0 <= offset -> yields (picture_id_read offset) (parse_picture_id m ptr len offset).
Proof.
  intros Ho. unfold parse_picture_id. apply yields_byte_at; [lia|]. intros b Hb Hl E.
  replace (ptr + (offset + 1)) with (ptr + offset + 1) in E by lia.
  pose proof (land_range b 7 ltac:(done)) as Hr. change (2 ^ 7 - 1) with 127 in Hr.
  destruct (truthy_bit b 7) as [[-> H1]|[-> H0]]; [done| |].
  - apply yields_byte_at; [lia|]. intros b2 Hb2 Hl2 E2. split; [lia|]. right.
    replace (ptr + (offset + 2)) with (ptr + offset + 2) in E2 by lia.
    assert (Z.shiftl (Z.land b 127) 8 = Z.land b 127 * 256) as -> by by rewrite Z.shiftl_mul_pow2.
    unfold in_uint in *. change (2 ^ 7) with 128 in Hr. change (2 ^ 8) with 256 in Hb2.
    rewrite wrap_small by (unfold in_uint; lia).
    rewrite (high_byte b Hb H1) in E. rewrite E, E2.
    rewrite Z.div_add_l, (Z.div_small b2), Z.add_0_r by lia.
    replace ((Z.land b 127 * 256 + b2) `mod` 256) with b2 by (Z.div_mod_to_equations; lia).
    split_and!; try done; lia.
  - split; [lia|]. left. rewrite (low_byte b Hb H0) in E. split_and!; done.
Qed.

(** ** VP8 *)

(** What [Encode] writes, at the third byte of the payload. *)
Definition vp8_fields (d : vp8_descriptor) (pictureId tl0PictureIndex : Z) : list Z :=
  (if truthy (vp8_i d) then
     if vp8_hasTwoBytesPictureId d then [Z.lor (u8 (pictureId / 256)) 128; pictureId `mod` 256]
     else if vp8_hasOneBytePictureId d then [u8 pictureId] else []
   else []) ++ (if truthy (vp8_l d) then [tl0PictureIndex] else []).

Record vp8_ok (d : vp8_descriptor) : Prop := {
  vp8_ok_extended : vp8_extended d = 1;
  vp8_ok_pictureId : vp8_hasPictureId d = truthy (vp8_i d);
  vp8_ok_size : vp8_hasPictureId d = xorb (vp8_hasOneBytePictureId d) (vp8_hasTwoBytesPictureId d);
  vp8_ok_not_both : vp8_hasOneBytePictureId d && vp8_hasTwoBytesPictureId d = false;
  vp8_ok_tl0 : vp8_hasTl0PictureIndex d = truthy (vp8_l d);
  vp8_ok_pictureId_range : in_uint 15 (vp8_pictureId d);
  vp8_ok_one : vp8_hasOneBytePictureId d = true -> in_uint 7 (vp8_pictureId d);
  vp8_ok_tl0_range : in_uint 8 (vp8_tl0PictureIndex d);
  vp8_ok_tlIndex : in_uint 2 (vp8_tlIndex d)
}.

(** The descriptor is that of the payload: its fields are there. *)
Definition vp8_read (d : vp8_descriptor) : Prop :=
  vp8_ok d /\ 2 + zlen (vp8_fields d (vp8_pictureId d) (vp8_tl0PictureIndex d)) <= len /\
  at_ m (ptr + 2) (vp8_fields d (vp8_pictureId d) (vp8_tl0PictureIndex d)).

Lemma yields_field {A B} (P : B -> Prop) (b : bool) (o : outcome A) (d : A) (R : A -> Prop) f :
  (b = true -> yields R o) -> (forall a, (b = true /\ R a) \/ (b = false /\ a = d) -> yields P (f a)) ->
  yields P ((if b then o else Ok d) ≫= f).
Proof.
  intros Ho Hf. destruct b; [|by apply Hf; right].
  eapply yields_bind; [by apply Ho|]. intros a Ha. apply Hf. by left.
Qed.

(** The byte after [offset], with the offset moved to it. *)
Definition byte_read (offset : Z) (r : Z * Z) : Prop :=
  r.1 = offset + 1 /\ r.1 + 1 <= len /\ in_uint 8 r.2 /\ get1 m (ptr + offset + 1) = Ok r.2.

Lemma yields_next offset : 0 <= offset ->
  yields (byte_read offset) (byte ← byte_at m ptr len (offset + 1); Ok (offset + 1, byte)).
Proof.
  intros Ho. apply yields_byte_at; [lia|]. intros v Hv Hl E. split_and!; [done|cbn; lia|done|].
  cbn. rewrite <- E. f_equal. lia.
Qed.

Lemma in_uint_0 k : 0 <= k -> in_uint k 0.
Proof. intros. unfold in_uint. lia. Qed.

Lemma ParseVP8_yields : yields vp8_read (ParseVP8 m ptr len).
Proof.
  unfold ParseVP8. apply yields_require. intros H1%Z.leb_le. apply yields_get1; [lia|]. intros b0 Hb0 E0.
  destruct (truthy_bit b0 7) as [[-> Hext]|[-> _]]; [done| |done]. cbn [negb].
  apply yields_byte_at; [done|]. intros b1 Hb1 Hl1 E1.
  apply (yields_field _ _ _ _ (picture_id_read 1)); [intros _; by apply parse_picture_id_yields|].
  intros [[[o pid] one] two] Hpid.
  assert (1 <= o /\ o + 1 <= len) as [Ho Hol].
  { destruct Hpid as [[_ [? Hpid]]|[_ [= -> _ _ _]]]; [|done]. split; [|done]. destruct Hpid as [(_ & _ & -> & _)|(_ & _ & -> & _)]; lia. }
  apply (yields_field _ _ _ _ (byte_read o)); [intros _; apply yields_next; lia|]. intros [o1 tl0] Htl0.
  assert (1 <= o1 /\ o1 + 1 <= len /\ in_uint 8 tl0) as (Ho1 & Ho1l & Htl0r).
  { destruct Htl0 as [[_ (H & ? & ? & _)]|[_ [= -> ->]]]; [cbn in *; split_and!; [lia|done|done]|]. split_and!; [lia|done|by apply in_uint_0]. }
  apply (yields_field _ _ _ _ (byte_read o1)); [intros _; apply yields_next; lia|]. intros [o2 b2] Hb2.
  assert (1 <= o2 /\ o2 + 1 <= len) as [Ho2 Ho2l].
  { destruct Hb2 as [[_ (H & ? & ? & _)]|[_ [= -> ->]]]; cbn in *; lia. }
  eapply (yields_bind (fun _ => True)).
  { destruct (Z.leb_spec (o2 + 1 + 1) len); [|done]. cbn [andb]. destruct (truthy _ && _); [|done].
    apply yields_get1; [lia|]. done. }
  intros key _. cbn [yields]. split; [|split].
  - constructor; cbn; try done.
    + by destruct Hpid as [[-> [_ [(-> & -> & _)|(-> & -> & _)]]]|[-> [= _ _ -> ->]]].
    + by destruct Hpid as [[_ [_ [(-> & -> & _)|(-> & -> & _)]]]|[_ [= _ _ -> ->]]].
    + destruct Hpid as [[_ [_ [(_ & _ & _ & ? & _)|(_ & _ & _ & ? & _)]]]|[_ [= _ -> _ _]]];
        [by apply (in_uint_weaken 7)|done|by apply in_uint_0].
    + by destruct Hpid as [[_ [_ [(_ & _ & _ & ? & _)|(-> & _)]]]|[_ [= _ _ -> _]]].
    + apply (land_range _ 2). done.
  - cbn [vp8_pictureId vp8_tl0PictureIndex]. unfold vp8_fields.
    cbn [vp8_i vp8_l vp8_hasTwoBytesPictureId vp8_hasOneBytePictureId].
    destruct Hpid as [[-> [_ [(-> & -> & -> & _)|(-> & -> & -> & _)]]]|[-> [= -> -> -> ->]]],
      Htl0 as [[-> (H & ? & _)]|[-> [= -> ->]]]; cbn in *; unfold zlen; cbn; lia.
  - cbn [vp8_pictureId vp8_tl0PictureIndex]. unfold vp8_fields.
    cbn [vp8_i vp8_l vp8_hasTwoBytesPictureId vp8_hasOneBytePictureId].
    assert (ptr + 2 = ptr + 1 + 1) as -> by lia.
    destruct Hpid as [[-> [_ [(-> & -> & -> & Hr & E)|(-> & -> & -> & Hr & E & E')]]]|[-> [= -> -> -> ->]]],
      Htl0 as [[-> (Eo1 & _ & _ & Et)]|[-> [= -> ->]]]; cbn [app fst snd] in *;
      replace (ptr + (1 + 2) + 1) with (ptr + 1 + 1 + 1 + 1) in * by lia;
      replace (ptr + (1 + 1) + 1) with (ptr + 1 + 1 + 1) in * by lia; replace (ptr + 1 + 2) with (ptr + 1 + 1 + 1) in * by lia.
    all: try (rewrite (wrap_small 8 pid) by by apply (in_uint_weaken 7)).
    all: try (rewrite (wrap_small 8 (pid / 256)) by
      (unfold in_uint in *; change (2 ^ 15) with (128 * 256) in Hr; change (2 ^ 8) with 256; Z.div_mod_to_equations; lia)).
    all: repeat (apply at_cons; [lia|assumption|]); apply at_nil; lia.
Qed.
(** ** VP9 *)

Record vp9_ok (d : vp9_descriptor) : Prop := {
  vp9_ok_pictureId : in_uint 15 (vp9_pictureId d);
  vp9_ok_layers : in_uint 3 (vp9_slIndex d) /\ in_uint 3 (vp9_tlIndex d);
  vp9_ok_tl0 : in_uint 8 (vp9_tl0PictureIndex d);
  vp9_ok_e : in_uint 1 (vp9_e d)
}.

Lemma picture_id_range offset o pid one two : picture_id_read offset (o, pid, one, two) ->
  offset < o /\ o + 1 <= len /\ in_uint 15 pid.
Proof.
  intros [? [(_ & _ & -> & Hr & _)|(_ & _ & -> & Hr & _)]]; split_and!; try lia; [by apply (in_uint_weaken 7)|done].
Qed.

Lemma ParseVP9_yields : yields vp9_ok (ParseVP9 m ptr len).
Proof.
  unfold ParseVP9. apply yields_require. intros H1%Z.leb_le. apply yields_get1; [lia|]. intros b0 Hb0 E0. cbv zeta.
  apply (yields_field _ _ _ _ (picture_id_read 0)); [intros _; by apply parse_picture_id_yields|].
  intros [[[o pid] one] two] Hpid.
  assert (0 <= o /\ in_uint 15 pid) as [Ho Hr].
  { destruct Hpid as [[_ H%picture_id_range]|[_ [= -> -> _ _]]]; [split; [lia|apply H]|]. split; [done|by apply in_uint_0]. }
  apply (yields_field _ _ _ _ (fun '(byte, tl0, _) => in_uint 8 byte /\ in_uint 8 tl0)).
  { intros _. apply yields_byte_at; [lia|]. intros b1 Hb1 Hl1 _. apply yields_require. intros Hl2%Z.leb_le.
    destruct (negb _).
    - apply yields_get1; [lia|]. intros tl0 Htl0 _. done.
    - split; [done|by apply in_uint_0]. }
  intros [[b1 tl0] has] Hl.
  assert (in_uint 8 b1 /\ in_uint 8 tl0) as [Hb1 Htl0].
  { destruct Hl as [[_ H]|[_ [= -> -> _]]]; [done|]. split; by apply in_uint_0. }
  constructor; cbn; [done| |done|by apply bit_range]. split; by apply (land_range _ 3).
Qed.

(** ** H264 and H265 *)

Definition h26x_ok (d : h26x_descriptor) : Prop := in_uint 3 (h_tid d).

Definition marking_in_buffer (fm : option (Z * Z)) : Prop :=
  match fm with Some (p, l) => 0 <= p /\ 0 < l /\ p + l <= zlen m | None => True end.

Lemma read_frame_marking_yields fm : marking_in_buffer fm -> yields h26x_ok (read_frame_marking m fm).
Proof.
  destruct fm as [[p l]|]; cbn; [|intros _; by apply in_uint_0]. intros (Hp & Hl & Hend).
  apply yields_get1; [lia|]. intros b Hb _.
  eapply (yields_bind (fun _ => True)).
  { destruct (Z.leb_spec 2 l); [|done]. destruct (get1_in_bounds m (p + 1)) as [v ->]; [lia|done]. }
  intros lid _. eapply (yields_bind (fun _ => True)).
  { destruct (Z.eqb_spec l 3); [|done]. destruct (get1_in_bounds m (p + 2)) as [v ->]; [lia|done]. }
  intros tl0 _. by apply (land_range _ 3).
Qed.

Lemma nal_units_loop_yields is_key fuel offset n : 0 <= offset -> ptr + offset + n <= zlen m -> n <= Z.of_nat fuel ->
  yields (fun _ => True) (nal_units_loop is_key fuel m ptr offset n).
Proof.
  revert offset n. induction fuel as [|fuel IH]; intros offset n Ho Hn Hf; cbn [nal_units_loop];
    (destruct (Z.leb_spec 3 n); [|done]); [lia|].
  destruct (Get2Bytes_in_bounds m (ptr + offset)) as (v & -> & Hv); [lia|lia|]. unfold in_uint in Hv. cbn [mbind outcome_bind].
  apply yields_get1; [lia|]. intros b _ _. destruct (is_key b); [done|].
  destruct (Z.ltb_spec n (v + 2)); [done|]. apply IH; lia.
Qed.

Lemma key_frame_h264_yields : 2 <= len -> yields (fun _ => True) (key_frame_h264 m ptr len).
Proof.
  intros Hl. unfold key_frame_h264. apply yields_get1; [lia|]. intros b _ _. cbv zeta.
  destruct (_ =? 7); [done|]. destruct (_ =? 24); [apply nal_units_loop_yields; lia|].
  destruct (_ || _); [|done]. apply yields_get1; [lia|]. done.
Qed.

Lemma key_frame_h265_yields : 2 <= len -> yields (fun _ => True) (key_frame_h265 m ptr len).
Proof.
  intros Hl. unfold key_frame_h265. apply yields_get1; [lia|]. intros b _ _. cbv zeta.
  destruct (_ || _); [done|]. destruct (_ =? 48); [apply nal_units_loop_yields; lia|].
  destruct (_ =? 49); [|done]. apply yields_get1; [lia|]. done.
Qed.

Lemma ParseH26x_yields key_frame fm : (2 <= len -> yields (fun _ => True) (key_frame m ptr len)) -> marking_in_buffer fm ->
  yields h26x_ok (ParseH26x key_frame m ptr len fm).
Proof.
  intros Hkey Hfm. unfold ParseH26x. apply yields_require. intros Hl%Z.leb_le.
  eapply yields_bind; [by apply read_frame_marking_yields|]. intros d Hd. destruct (h_isKeyFrame d); [done|].
  eapply yields_bind; [by apply Hkey|]. intros k _. exact Hd.
Qed.
End parse.


(** * Encoding is one write *)

Lemma EncodeVP8_spec d m ptr pid tl0 : vp8_extended d = 1 -> 0 <= ptr ->
  ptr + 2 + zlen (vp8_fields d pid tl0) <= zlen m ->
  EncodeVP8 d m ptr pid tl0 = write m (ptr + 2) (vp8_fields d pid tl0).
Proof.
  intros Hext Hptr Hl. unfold EncodeVP8, vp8_fields in *. rewrite Hext. change (negb (truthy 1)) with false. cbn iota zeta.
  rewrite zlen_app in Hl.
  set (ids := if truthy (vp8_i d) then _ else []) in *.
  set (tl := if truthy (vp8_l d) then [tl0] else []) in *.
  pose proof (zlen_nonneg ids). pose proof (zlen_nonneg tl). assert (0 <= ptr + 2 <= zlen m) as Hin by lia.
  destruct (write_in_bounds m (ptr + 2) ids) as (m1 & W1); [lia|lia|].
  transitivity ('(m, data) ← Ok (m1, ptr + 2 + zlen ids); if truthy (vp8_l d) then set1 m data tl0 else Ok m).
  - f_equal. unfold ids in *. destruct (truthy (vp8_i d)); [|].
    2: { rewrite write_nil in W1 by done. injection W1 as <-. change (zlen (@nil Z)) with 0. by rewrite Z.add_0_r. }
    destruct (vp8_hasTwoBytesPictureId d).
    + rewrite Set2Bytes_spec. unfold be_bytes. change (2 ^ (8 * Z.of_nat 1)) with 256. change (2 ^ (8 * Z.of_nat 0)) with 1.
      set (hi := u8 (pid / 256)) in *. set (lo := u8 (pid / 1)).
      assert (lo = pid `mod` 256) as Hlo by (unfold lo; by rewrite Z.div_1_r). rewrite <- Hlo in W1.
      destruct (write_in_bounds m (ptr + 2) [hi; lo]) as (m2 & W2); [lia|unfold zlen in *; cbn in *; lia|].
      rewrite W2. cbn [mbind outcome_bind]. rewrite (get1_write _ _ _ _ _ W2), Z.sub_diag.
      rewrite (proj2 (Z.leb_le _ _)), (proj2 (Z.ltb_lt _ _)) by (unfold zlen; cbn; lia).
      change (get1 [hi; lo] 0) with (@Ok Z hi). cbn [andb mbind outcome_bind]. rewrite set1_write.
      pose proof (write_patch m (ptr + 2) [] [hi] [Z.lor hi 128] [lo] m2 eq_refl W2) as Hp.
      cbn [app] in Hp. change (zlen (@nil Z)) with 0 in Hp. rewrite Z.add_0_r in Hp. rewrite Hp, W1. done.
    + destruct (vp8_hasOneBytePictureId d).
      * rewrite set1_write, W1. done.
      * rewrite write_nil in W1 by done. injection W1 as <-. change (zlen (@nil Z)) with 0. by rewrite Z.add_0_r.
  - cbn [mbind outcome_bind]. pose proof (zlen_write _ _ _ _ W1) as L1. unfold tl in *. destruct (truthy (vp8_l d)).
    + rewrite set1_write. destruct (write_in_bounds m1 (ptr + 2 + zlen ids) [tl0]) as (m2 & W2); [lia|lia|].
      rewrite W2. symmetry. by apply (write_app m _ ids [tl0] m1 m2).
    + by rewrite app_nil_r, W1.
Qed.

(** ** Putting the numbers back *)

Lemma write_same m off a : at_ m off a -> write m off a = Ok m.
Proof.
  intros Ha. pose proof Ha as (? & ? & ? & _)%slice_Ok. destruct (write_in_bounds m off a) as (m1 & W); [lia|lia|].
  rewrite W. f_equal. pose proof (zlen_write _ _ _ _ W) as L. apply buffer_ext; [done|]. intros i Hi.
  rewrite (get1_write _ _ _ _ _ W). destruct (Z.leb_spec off i), (Z.ltb_spec i (off + zlen a)); cbn [andb]; try done.
  replace i with (off + (i - off)) at 2 by lia. apply (get1_slice _ _ _ _ _ Ha). lia.
Qed.

Lemma write_back m off a b m1 : zlen a = zlen b -> at_ m off a -> write m off b = Ok m1 -> write m1 off a = Ok m.
Proof.
  intros Hl Ha W. pose proof W as (H0 & Hend & _)%write_Ok. pose proof (zlen_write _ _ _ _ W) as L.
  destruct (write_in_bounds m1 off a) as (m2 & W2); [lia|lia|]. rewrite W2. f_equal.
  pose proof (zlen_write _ _ _ _ W2) as L2. apply buffer_ext; [lia|]. intros i Hi.
  rewrite (get1_write _ _ _ _ _ W2). destruct (Z.leb_spec off i), (Z.ltb_spec i (off + zlen a)); cbn [andb].
  - replace i with (off + (i - off)) at 2 by lia. apply (get1_slice _ _ _ _ _ Ha). lia.
  - eapply get1_write_other; [exact W|lia].
  - eapply get1_write_other; [exact W|lia].
  - eapply get1_write_other; [exact W|lia].
Qed.

Lemma zlen_fields d pid tl0 pid' tl0' : zlen (vp8_fields d pid tl0) = zlen (vp8_fields d pid' tl0').
Proof. unfold vp8_fields. by destruct (truthy (vp8_i d)), (vp8_hasTwoBytesPictureId d), (vp8_hasOneBytePictureId d), (truthy (vp8_l d)). Qed.

(** The descriptor with other numbers. *)
Definition renumbered (d : vp8_descriptor) (pid tl0 : Z) : vp8_descriptor :=
  VP8Descriptor (vp8_extended d) (vp8_nonReference d) (vp8_start d) (vp8_partitionIndex d) (vp8_i d) (vp8_l d) (vp8_t d)
    (vp8_k d) pid tl0 (vp8_tlIndex d) (vp8_y d) (vp8_keyIndex d) (vp8_isKeyFrame d)
    (vp8_hasPictureId d) (vp8_hasOneBytePictureId d) (vp8_hasTwoBytesPictureId d) (vp8_hasTl0PictureIndex d) (vp8_hasTlIndex d).

Section restore.
Context (m : list Z) (ptr len : Z) (d : vp8_descriptor).
Hypothesis Hptr : 0 <= ptr.
Hypothesis Hlen : ptr + len <= zlen m.
Hypothesis Hread : vp8_read m ptr len d.

Lemma fields_in_buffer pid tl0 : ptr + 2 + zlen (vp8_fields d pid tl0) <= zlen m.
Proof. destruct Hread as (_ & Hl & _). rewrite (zlen_fields _ _ _ (vp8_pictureId d) (vp8_tl0PictureIndex d)). lia. Qed.

Lemma encode_written pid tl0 : exists m', EncodeVP8 d m ptr pid tl0 = Ok m' /\ write m (ptr + 2) (vp8_fields d pid tl0) = Ok m'.
Proof.
  pose proof (fields_in_buffer pid tl0) as Hin. destruct Hread as ([Hext _ _ _ _ _ _ _ _] & _ & _).
  rewrite EncodeVP8_spec by (done || lia).
  destruct (write_in_bounds m (ptr + 2) (vp8_fields d pid tl0)) as (m' & ->); [lia|lia|]. eauto.
Qed.

Lemma restore_written pid tl0 m' : write m (ptr + 2) (vp8_fields d pid tl0) = Ok m' ->
  vp8_hasPictureId d && vp8_hasTl0PictureIndex d = true -> RestoreVP8 d m' ptr = Ok m.
Proof.
  intros W Hboth. unfold RestoreVP8. rewrite Hboth. pose proof (zlen_write _ _ _ _ W) as L.
  pose proof (fields_in_buffer (vp8_pictureId d) (vp8_tl0PictureIndex d)) as Hin.
  destruct Hread as ([Hext _ _ _ _ _ _ _ _] & _ & Hat). rewrite EncodeVP8_spec by (done || lia).
  eapply write_back; [apply zlen_fields|exact Hat|exact W].
Qed.

Lemma restore_unchanged : RestoreVP8 d m ptr = Ok m.
Proof.
  pose proof (fields_in_buffer (vp8_pictureId d) (vp8_tl0PictureIndex d)) as Hin.
  destruct Hread as ([Hext _ _ _ _ _ _ _ _] & _ & Hat). unfold RestoreVP8. destruct (_ && _); [|done].
  rewrite EncodeVP8_spec by (done || lia).
  by apply write_same.
Qed.
End restore.

(** ** What a receiver reads then *)

Section renumber.
Context (m m' : list Z) (ptr len : Z) (d : vp8_descriptor) (pid tl0 : Z).
Hypothesis Hptr : 0 <= ptr.
Hypothesis Hparse : ParseVP8 m ptr len = Ok d.
Hypothesis Htwo : vp8_hasTwoBytesPictureId d = true.
Hypothesis Hboth : vp8_hasPictureId d && vp8_hasTl0PictureIndex d = true.
Hypothesis Hpid : in_uint 16 pid.
Hypothesis Htl0 : in_uint 8 tl0.
Hypothesis Hwrite : write m (ptr + 2) [Z.lor (u8 (pid / 256)) 128; pid `mod` 256; tl0] = Ok m'.

Lemma byte_at_other o : o < 2 \/ 5 <= o -> byte_at m' ptr len o = byte_at m ptr len o.
Proof.
  intros Ho. unfold byte_at. assert (get1 m' (ptr + o) = get1 m (ptr + o)) as ->; [|done].
  eapply get1_write_other; [exact Hwrite|]. change (zlen [_; _; _]) with 3. lia.
Qed.

Lemma get1_written k x : [Z.lor (u8 (pid / 256)) 128; pid `mod` 256; tl0] !! k = Some x ->
  get1 m' (ptr + (2 + Z.of_nat k)) = Ok x.
Proof.
  intros Hk. pose proof (lookup_lt_Some _ _ _ Hk) as Hlt. cbn [length] in Hlt.
  rewrite (get1_write _ _ _ _ _ Hwrite). change (zlen [_; _; _]) with 3.
  rewrite (proj2 (Z.leb_le _ _)), (proj2 (Z.ltb_lt _ _)) by lia. cbn [andb]. unfold get1.
  rewrite (proj2 (Z.ltb_ge _ _)) by lia. replace (Z.to_nat (ptr + (2 + Z.of_nat k) - (ptr + 2))) with k by lia. by rewrite Hk.
Qed.

Lemma marked_byte b : in_uint 8 b -> bit (Z.lor b 128) 7 = 1 /\ Z.land (Z.lor b 128) 127 = b `mod` 128.
Proof.
  intros Hb.
  assert (forallb (fun b => (bit (Z.lor b 128) 7 =? 1) && (Z.land (Z.lor b 128) 127 =? b `mod` 128)) (seqZ 0 256) = true)
    as Hall by by vm_compute.
  pose proof (forall_below 256 _ Hall b Hb) as H. cbn beta in H. by apply andb_true_iff in H as [H1%Z.eqb_eq H2%Z.eqb_eq].
Qed.

Lemma picture_id_written : 4 <= len -> parse_picture_id m' ptr len 1 = Ok (3, pid `mod` 2 ^ 15, false, true).
Proof.
  intros Hl. unfold parse_picture_id, byte_at.
  rewrite (proj2 (Z.leb_le (1 + 1 + 1) len)), (proj2 (Z.leb_le (1 + 2 + 1) len)) by lia. ostep.
  pose proof (get1_written 0 _ eq_refl) as E0. pose proof (get1_written 1 _ eq_refl) as E1. 
  change (2 + Z.of_nat 0) with (1 + 1) in E0. change (2 + Z.of_nat 1) with (1 + 2) in E1. rewrite E0. ostep.
  destruct (marked_byte (u8 (pid / 256))) as [-> ->]; [by apply wrap_range|].
  change (truthy 1) with true. cbn iota.
  rewrite E1. ostep. do 4 f_equal.
  rewrite Z.shiftl_mul_pow2 by done. unfold in_uint in Hpid. unfold wrap. change (2 ^ 8) with 256. change (2 ^ 16) with 65536 in *.
  change (2 ^ 15) with 32768. Z.div_mod_to_equations. lia.
Qed.

Lemma ParseVP8_renumbered : ParseVP8 m' ptr len = Ok (renumbered d (pid `mod` 2 ^ 15) tl0).
Proof.
  pose proof Hparse as H. unfold ParseVP8 in H |- *.
  apply bind_Ok in H as ([] & Hr & H). rewrite Hr. ostep.
  assert (get1 m' ptr = get1 m ptr) as -> by (eapply get1_write_other; [exact Hwrite|lia]).
  apply bind_Ok in H as (b0 & -> & H). ostep. destruct (negb _); [done|].
  rewrite byte_at_other by lia. apply bind_Ok in H as (b1 & -> & H). ostep.
  apply bind_Ok in H as ([[[o pid0] one] two] & E1 & H). apply bind_Ok in H as ([o1 tl00] & E2 & H).
  apply bind_Ok in H as ([o2 b2] & E3 & H). apply bind_Ok in H as (key & E4 & [= <-]).
  cbn [vp8_hasTwoBytesPictureId vp8_hasPictureId vp8_hasTl0PictureIndex] in Htwo, Hboth. subst two.
  apply andb_true_iff in Hboth as [Hi Hl]. rewrite Hi in *. rewrite Hl in *.
  unfold parse_picture_id in E1. apply bind_Ok in E1 as (b & _ & E1). destruct (truthy (bit b 7)); [|done].
  apply bind_Ok in E1 as (b' & Hb' & [= <- _ <-]). change (1 + 2) with 3 in *.
  apply bind_Ok in E2 as (t & Ht & [= <- <-]). unfold byte_at in Ht. apply bind_Ok in Ht as ([] & Hl5%require_Ok & _).
  apply Z.leb_le in Hl5. rewrite picture_id_written by lia. ostep.
  assert (byte_at m' ptr len (3 + 1) = Ok tl0) as ->.
  { unfold byte_at. rewrite (proj2 (Z.leb_le _ _)) by done. ostep. exact (get1_written 2 _ eq_refl). }
  ostep. rewrite byte_at_other by lia. rewrite E3. ostep.
  assert (4 <= o2) as Ho2.
  { destruct (_ || _); [|injection E3 as <- _; lia]. apply bind_Ok in E3 as (? & _ & [= <- _]). lia. }
  assert (get1 m' (ptr + (o2 + 1)) = get1 m (ptr + (o2 + 1))) as ->.
  { eapply get1_write_other; [exact Hwrite|]. change (zlen [_; _; _]) with 3. lia. }
  rewrite E4. ostep. reflexivity.
Qed.
End renumber.

(** * The picture id gets two bytes *)

Section widen.
Context (m m' : list Z) (ptr len : Z) (d : vp8_descriptor).
Hypothesis Hparse : ParseVP8 m ptr len = Ok d.
Hypothesis Hone : vp8_hasOneBytePictureId d = true.
Hypothesis Hm : bytes m.
Hypothesis Hfirst : get1 m' ptr = get1 m ptr.
Hypothesis Hsecond : get1 m' (ptr + 1) = get1 m (ptr + 1).
Hypothesis Hmark : get1 m' (ptr + 2) = Ok 128.
Hypothesis Hrest : forall o, 2 <= o < len -> get1 m' (ptr + (o + 1)) = get1 m (ptr + o).

Lemma byte_at_shifted o : 2 <= o -> byte_at m' ptr (len + 1) (o + 1) = byte_at m ptr len o.
Proof.
  intros Ho. unfold byte_at. destruct (Z.leb_spec (o + 1) len).
  - rewrite (proj2 (Z.leb_le (o + 1 + 1) _)) by lia. ostep. apply Hrest. lia.
  - by rewrite (proj2 (Z.leb_gt (o + 1 + 1) _)) by lia.
Qed.

Lemma ParseVP8_widened : ParseVP8 m' ptr (len + 1) = Ok (two_bytes d).
Proof.
  pose proof Hparse as H. unfold ParseVP8 in H |- *.
  apply bind_Ok in H as ([] & Hr%require_Ok & H). apply Z.leb_le in Hr. rewrite (proj2 (Z.leb_le 1 (len + 1))) by lia. ostep.
  rewrite Hfirst. apply bind_Ok in H as (b0 & -> & H). ostep. destruct (negb _); [done|].
  apply bind_Ok in H as (b1 & Hb1 & H). unfold byte_at in Hb1. apply bind_Ok in Hb1 as ([] & Hl2%require_Ok & Hb1).
  apply Z.leb_le in Hl2. assert (byte_at m' ptr (len + 1) 1 = Ok b1) as ->.
  { unfold byte_at. by rewrite (proj2 (Z.leb_le (1 + 1) _)), Hsecond, Hb1 by lia. }
  ostep.
  apply bind_Ok in H as ([[[o pid] one] two] & E1 & H). apply bind_Ok in H as ([o1 tl0] & E2 & H).
  apply bind_Ok in H as ([o2 b2] & E3 & H). apply bind_Ok in H as (key & E4 & [= <-]).
  cbn [vp8_hasOneBytePictureId] in Hone. subst one.
  destruct (truthy (bit b1 7)) eqn:Hi; [|done].
  unfold parse_picture_id in E1. apply bind_Ok in E1 as (b & Hb & E1). change (1 + 1) with 2 in *.
  destruct (truthy (bit b 7)) eqn:Ht.
  { by apply bind_Ok in E1 as (? & _ & [= _ _ ? _]). }
  injection E1 as <- <- <-.
  pose proof Hb as Hb'. unfold byte_at in Hb'. apply bind_Ok in Hb' as ([] & Hl3%require_Ok & Hb'). apply Z.leb_le in Hl3.
  pose proof (get1_byte _ _ _ Hm Hb') as Hbr.
  destruct (truthy_bit b 7) as [[? _]|[_ Hz]]; [done|congruence|]. rewrite <- (low_byte b Hbr Hz) in *.
  assert (parse_picture_id m' ptr (len + 1) 1 = Ok (3, b, false, true)) as ->.
  { unfold parse_picture_id, byte_at. change (1 + 1) with 2. rewrite (proj2 (Z.leb_le (2 + 1) (len + 1))), Hmark by lia. ostep.
    change (truthy (bit 128 7)) with true. cbn iota. fold (byte_at m' ptr (len + 1) (1 + 2)). change (1 + 2) with (2 + 1).
    rewrite byte_at_shifted, Hb by lia. ostep. change (Z.shiftl (Z.land 128 127) 8 + b) with b. do 4 f_equal.
    rewrite wrap_small; [done|]. apply (in_uint_weaken 8); [done|exact Hbr]. }
  ostep. change 3 with (2 + 1).
  set (bump := fun '((o, x) : Z * Z) => (o + 1, x)).
  assert (forall (c : bool) o v r, 2 <= o -> (if c then byte ← byte_at m ptr len (o + 1); Ok (o + 1, byte) else Ok (o, v)) = Ok r ->
    (if c then byte ← byte_at m' ptr (len + 1) (o + 1 + 1); Ok (o + 1 + 1, byte) else Ok (o + 1, v)) = Ok (bump r) /\ 2 <= r.1) as Hnext.
  { intros [] o v r Ho Hrd; [|injection Hrd as <-; by split].
    apply bind_Ok in Hrd as (x & Hx & [= <-]). rewrite byte_at_shifted, Hx by lia. ostep. split; [done|cbn; lia]. }
  destruct (Hnext _ _ _ _ (Z.le_refl 2) E2) as [-> Ho1]. ostep. cbn [bump fst] in *.
  destruct (Hnext _ _ _ _ Ho1 E3) as [-> Ho2]. ostep. cbn [bump fst] in *.
  replace (o2 + 1 + 1 + 1 <=? len + 1) with (o2 + 1 + 1 <=? len) by (destruct (Z.leb_spec (o2 + 1 + 1) len), (Z.leb_spec (o2 + 1 + 1 + 1) (len + 1)); lia).
  destruct (Z.leb_spec (o2 + 1 + 1) len); cbn [andb] in *.
  - rewrite Hrest by lia. rewrite E4. reflexivity.
  - injection E4 as <-. reflexivity.
Qed.
End widen.

(** * Processing a packet that arrives *)

(** The packet with its descriptor, if it has one: well-formed, with the header
    it had; the descriptor is that of the payload, and its picture id, if there
    is one, has two bytes. *)
Definition vp8_processed (p q : rtp_packet) (o : option vp8_descriptor) : Prop :=
  rtp_wf q /\ same_shape p q /\ (forall i, i < payload p -> get1 (mem q) i = get1 (mem p) i) /\
  match o with
  | None => q = p
  | Some d => ParseVP8 (mem q) (payload q) (payloadLength q) = Ok d /\
      vp8_read (mem q) (payload q) (payloadLength q) d /\ vp8_hasOneBytePictureId d = false
  end.

Lemma vp8_of_parsed m ptr len d : bytes m -> 0 <= ptr -> ptr + len <= zlen m -> ParseVP8 m ptr len = Ok d -> vp8_read m ptr len d.
Proof. intros Hm Hp Hl E. pose proof (ParseVP8_yields m ptr len Hm Hp Hl) as H. by rewrite E in H. Qed.

Lemma ProcessRtpPacketVP8_spec p : rtp_wf p -> size p + 1 <= zlen (mem p) -> zlen (mem p) < 2 ^ 32 ->
  exists q o, ProcessRtpPacketVP8 p = Ok (q, o) /\ vp8_processed p q o.
Proof.
  intros Hwf Hroom Hsmall. destruct (wf_payload p Hwf) as (Hp12 & _ & _). unfold HeaderSize in Hp12.
  pose proof Hwf as [Hm Hfit _ _ (Hl0 & Hk & Hsum) _].
  pose proof (ParseVP8_yields (mem p) (payload p) (payloadLength p) Hm ltac:(lia) ltac:(lia)) as Hy.
  unfold ProcessRtpPacketVP8. destruct (ParseVP8 _ _ _) as [d|e] eqn:E; cbn in Hy; [|subst e; exists p, None; by split_and!].
  destruct (vp8_hasOneBytePictureId d) eqn:Hone; [|by exists p, (Some d)].
  destruct Hy as (Hok & Hfl & Hfat). pose proof (vp8_ok_one d Hok Hone) as Hpid.
  assert (exists l, vp8_fields d (vp8_pictureId d) (vp8_tl0PictureIndex d) = vp8_pictureId d :: l) as [l Hfields].
  { unfold vp8_fields. pose proof (vp8_ok_size d Hok) as Hx. pose proof (vp8_ok_not_both d Hok) as Hnb.
    rewrite Hone in Hx, Hnb |- *. destruct (vp8_hasTwoBytesPictureId d); [done|].
    rewrite <- (vp8_ok_pictureId d Hok), Hx. cbn [xorb app]. eexists. rewrite wrap_small; [done|]. by apply (in_uint_weaken 7). }
  rewrite Hfields, zlen_cons in *. pose proof (zlen_nonneg l).
  destruct (slice_in_bounds (mem p) (payload p) (payloadLength p)) as [s Hs]; [lia..|].
  pose proof (zlen_slice _ _ _ _ Hs) as Hls.
  destruct (ShiftPayload_expand_spec p 2 1 (take 2 s) (drop 2 s)) as (q & g & -> & Hwfq & Hsh & Hpl & Hg & Hsz & Hhead);
    [done|lia|done|lia|lia|unfold payload_bytes; by rewrite take_drop|unfold zlen in *; rewrite length_take; lia| |].
  { intros Hd. apply (f_equal length) in Hd. rewrite length_drop in Hd. unfold zlen in *. cbn in Hd. lia. }
  ostep. pose proof Hsh as (Hc1 & Hc2 & Hpay & Hc3 & Hc4 & Hc5 & Hlm). rewrite Hpay.
  destruct (write_in_bounds (mem q) (payload p + 2) [128]) as (m & W); [lia|change (zlen [128]) with 1; lia|].
  rewrite set1_write, W. ostep. eexists _, _. split; [done|].
  assert (forall i, i < payload p + 2 \/ payload p + 3 <= i -> get1 m i = get1 (mem q) i) as Hother.
  { intros i Hi. eapply get1_write_other; [exact W|]. change (zlen [128]) with 1. lia. }
  pose proof (zlen_slice _ _ _ _ Hpl) as Hlq. rewrite !zlen_app, Hg in Hlq.
  assert (zlen (take 2 s) = 2) as Ht2 by (unfold zlen in *; rewrite length_take; lia).
  assert (zlen (drop 2 s) = payloadLength p - 2) as Hd2 by (unfold zlen in *; rewrite length_drop; lia).
  assert (forall i, 0 <= i < 2 -> get1 m (payload p + i) = get1 (mem p) (payload p + i)) as Hlow.
  { intros i Hi. rewrite Hother by lia. rewrite <- Hpay at 1. rewrite <- (get1_slice _ _ _ _ i Hpl) by lia.
    rewrite <- (get1_slice _ _ _ _ i Hs) by lia. rewrite get1_app by lia. rewrite (proj2 (Z.ltb_lt _ _)) by lia.
    rewrite <- (take_drop 2 s) at 2. rewrite get1_app by lia. by rewrite (proj2 (Z.ltb_lt _ _)) by lia. }
  assert (forall o, 2 <= o < payloadLength p -> get1 m (payload p + (o + 1)) = get1 (mem p) (payload p + o)) as Hhigh.
  { intros i Hi. rewrite Hother by lia. rewrite <- Hpay at 1. rewrite <- (get1_slice _ _ _ _ (i + 1) Hpl) by lia.
    rewrite <- (get1_slice _ _ _ _ i Hs) by lia. rewrite !get1_app by lia. rewrite Ht2, Hg.
    rewrite (proj2 (Z.ltb_ge _ _)), (proj2 (Z.ltb_ge _ _)) by lia.
    rewrite <- (take_drop 2 s) at 2. rewrite get1_app by lia. rewrite Ht2, (proj2 (Z.ltb_ge _ _)) by lia. f_equal. lia. }
  assert (ParseVP8 m (payload p) (payloadLength q) = Ok (two_bytes d)) as Eq.
  { replace (payloadLength q) with (payloadLength p + 1) by lia.
    apply (ParseVP8_widened (mem p)); [exact E|done|done| |by apply Hlow| |done].
    - specialize (Hlow 0). rewrite !Z.add_0_r in Hlow. by apply Hlow.
    - rewrite (get1_write _ _ _ _ _ W), Z.sub_diag. rewrite (proj2 (Z.leb_le _ _)), (proj2 (Z.ltb_lt _ _)) by (change (zlen [128]) with 1; lia). done. }
  assert (bytes m) as Hbm by (eapply bytes_write; [exact (wf_bytes q Hwfq)| |exact W]; by repeat constructor).
  pose proof (zlen_write _ _ _ _ W) as Hzm. pose proof (wf_fits q Hwfq).
  assert (rtp_wf (set_mem q m)) as Hwfm.
  { apply (wf_payload_change q); cbn; try done; try lia; try apply (wf_lengths q Hwfq).
    - intros i Hi. apply Hother. lia.
    - intros Hnz. destruct (wf_padding q Hwfq) as [_ Hpb]. rewrite <- (Hpb Hnz). apply Hother.
      pose proof (wf_lengths q Hwfq). lia. }
  split; [done|]. split; [unfold same_shape; cbn; by rewrite Hzm, Hlm|]. split.
  { cbn. intros i Hi. rewrite Hother by lia. by apply Hhead. }
  cbn. rewrite Hpay. split; [done|]. split; [apply vp8_of_parsed; [done|lia|lia|done]|done].
Qed.
