(* ===== verification/CodecsProps.v ===== *)
(** Payload descriptors: what a consumer lets through, what it rewrites, and
    that nothing of it is left in the packet, which the other consumers share. *)

From S2P Require Export CodecsFacts.

#[local] Arguments truthy : simpl never.
#[local] Arguments bit : simpl never.

(** * Numbers given by the managers *)

Lemma accept_range w s i b s' n : 0 <= w -> accept w s i b = (s', Some n) -> in_uint w n.
Proof. intros Hw [= _ <-]. by apply wrap_range. Qed.

Lemma Input_range w s i s' n : 0 <= w -> Input w s i = (s', Some n) -> in_uint w n.
Proof.
  intros Hw. unfold Input. destruct (dropped s); [by apply accept_range|]. cbv zeta.
  destruct (lower_bound _ _ i _) as [|x r]; [by apply accept_range|]. destruct (x =? i); [done|by apply accept_range].
Qed.

Lemma input_if_range w b s i s' n : 0 <= w -> input_if w b s i = (s', Some n) -> in_uint w n.
Proof. intros Hw. unfold input_if. destruct b; [by apply Input_range|]. intros [= _ <-]. by apply in_uint_0. Qed.

(** * Contexts and descriptors of a codec *)

Definition handler_of (codec : option codec) (h : option descriptor) : Prop :=
  match codec, h with
  | _, None => True
  | Some VP8, Some (DescVP8 _) | Some VP9, Some (DescVP9 _) | Some H264, Some (DescH26x _) | Some H265, Some (DescH26x _) => True
  | _, _ => False
  end.

(** The context of a consumer: target layers are set before a packet is processed. *)
Definition context_of (codec : option codec) (c : codec_context) : Prop :=
  match codec, c with
  | Some VP8, CtxVP8 c => 0 <= targetTemporalLayer (vp8_base c)
  | Some VP9, CtxVP9 c => 0 <= targetSpatialLayer (vp9_base c) /\ 0 <= targetTemporalLayer (vp9_base c)
  | Some H264, CtxH26x c | Some H265, CtxH26x c => 0 <= targetTemporalLayer c
  | None, _ => True
  | _, _ => False
  end.

(** A packet that arrived: parsed, in a buffer with room for one more byte. *)
Definition arrived (p : rtp_packet) : Prop :=
  rtp_wf p /\ maps_ok p /\ size p + 1 <= zlen (mem p) /\ zlen (mem p) < 2 ^ 32.

(** The packet in [p] is well-formed and its descriptor that of its payload. *)
Definition handled (p : video_packet) : Prop :=
  rtp_wf (vp_packet p) /\
  match vp_handler p with
  | Some (DescVP8 d) => vp8_read (mem (vp_packet p)) (payload (vp_packet p)) (payloadLength (vp_packet p)) d /\
      ParseVP8 (mem (vp_packet p)) (payload (vp_packet p)) (payloadLength (vp_packet p)) = Ok d /\
      vp8_hasOneBytePictureId d = false
  | Some (DescVP9 d) => vp9_ok d
  | Some (DescH26x d) => h26x_ok d
  | None => True
  end.

(** ** What arrives gets its descriptor *)

Lemma ReadFrameMarking_in_buffer p : rtp_wf p -> maps_ok p ->
  exists fm, ReadFrameMarking p = Ok fm /\ marking_in_buffer (mem p) fm.
Proof.
  intros Hwf Hmaps. unfold ReadFrameMarking.
  assert (forall e, (forall v l, e = Some (v, l) -> 0 <= v /\ 0 < l /\ v + l <= zlen (mem p)) ->
    exists fm, match e with Some (value, len) => Ok (if 3 <? len then None else Some (value, len)) | None => Ok None end = Ok fm /\
      marking_in_buffer (mem p) fm) as H.
  { intros [[v l]|] He; [|by exists None]. eexists. split; [done|]. destruct (3 <? l); [done|]. by apply He. }
  destruct (GetExtension_in_buffer p Hwf Hmaps (frameMarkingExtensionId (ids p))) as ([e|] & -> & He); ostep; [exact (H (Some e) He)|].
  destruct (GetExtension_in_buffer p Hwf Hmaps (frameMarking07ExtensionId (ids p))) as (e & -> & He'). ostep. by apply H.
Qed.

Lemma ProcessRtpPacket_handled codec p : arrived p ->
  exists q, ProcessRtpPacket codec p = Ok q /\ handled q /\ handler_of codec (vp_handler q) /\ same_shape p (vp_packet q) /\
    (forall i, i < payload p -> get1 (mem (vp_packet q)) i = get1 (mem p) i) /\ (vp_handler q = None -> vp_packet q = p).
Proof.
  intros (Hwf & Hmaps & Hroom & Hsmall). destruct (wf_payload p Hwf) as (Hp12 & _ & _). unfold HeaderSize in Hp12.
  pose proof Hwf as [Hm Hfit _ _ (Hl0 & Hk & Hsum) _].
  assert (forall kf, (2 <= payloadLength p -> yields (fun _ => True) (kf (mem p) (payload p) (payloadLength p))) ->
    exists o, ProcessRtpPacketH26x kf p = Ok (p, o) /\ match o with Some d => h26x_ok d | None => True end) as H26.
  { intros kf Hkf. unfold ProcessRtpPacketH26x. destruct (ReadFrameMarking_in_buffer p Hwf Hmaps) as (fm & -> & Hfm). ostep.
    assert (yields h26x_ok (ParseH26x kf (mem p) (payload p) (payloadLength p) fm)) as Hy by by apply ParseH26x_yields.
    destruct (ParseH26x _ _ _ _ _) as [d|e]; cbn in Hy; [by exists (Some d)|subst e; by exists None]. }
  destruct codec as [[]|]; cbn [ProcessRtpPacket].
  - destruct (ProcessRtpPacketVP8_spec p Hwf Hroom Hsmall) as (q & o & -> & Hwfq & Hsh & Hhead & Ho). ostep.
    eexists. split; [done|]. destruct o as [d|]; cbn.
    + destruct Ho as (E & Hr & H1). by split_and!.
    + subst q. by split_and!.
  - unfold ProcessRtpPacketVP9.
    pose proof (ParseVP9_yields (mem p) (payload p) (payloadLength p) Hm ltac:(lia) ltac:(lia)) as Hy.
    destruct (ParseVP9 _ _ _) as [d|e]; cbn in Hy; [|subst e]; ostep; eexists; (split; [done|]); by split_and!.
  - destruct (H26 key_frame_h264) as (o & -> & Ho); [apply key_frame_h264_yields; done || lia|]. ostep.
    eexists. split; [done|]. destruct o; by split_and!.
  - destruct (H26 key_frame_h265) as (o & -> & Ho); [apply key_frame_h265_yields; done || lia|]. ostep.
    eexists. split; [done|]. destruct o; by split_and!.
  - eexists. split; [done|]. by split_and!.
Qed.

(** ** VP8: either the payload is as it was, or its numbers are written *)

Lemma ProcessVP8_cases d c m ptr len : 0 <= ptr -> ptr + len <= zlen m -> vp8_read m ptr len d ->
  0 <= targetTemporalLayer (vp8_base c) ->
  exists c' m' ok, ProcessVP8 d c m ptr = Ok (c', m', ok) /\
    (m' = m \/ (ok = true /\ vp8_hasPictureId d && vp8_hasTl0PictureIndex d = true)) /\
    (ok = true -> vp8_hasPictureId d && vp8_hasTl0PictureIndex d = true ->
      exists pids pid tl0s tl0, Input 16 (vp8_pictureIdManager (sync_vp8 d c)) (vp8_pictureId d) = (pids, Some pid) /\
        Input 8 (vp8_tl0PictureIndexManager (sync_vp8 d c)) (vp8_tl0PictureIndex d) = (tl0s, Some tl0) /\
        in_uint 16 pid /\ in_uint 8 tl0 /\ write m (ptr + 2) (vp8_fields d pid tl0) = Ok m').
Proof.
  intros Hptr Hlen Hread Ht. unfold ProcessVP8. rewrite (proj2 (Z.leb_le _ _)) by done. ostep. cbv zeta.
  set (c1 := sync_vp8 d c). destruct (filtered_vp8 d c1); [eexists _, _, false; by split_and!; [|left|]|].
  destruct (input_if 16 _ _ _) as [pids [pid|]] eqn:E1; [|eexists _, _, false; by split_and!; [|left|]].
  destruct (input_if 8 _ _ _) as [tl0s [tl0|]] eqn:E2; [|eexists _, _, false; by split_and!; [|left|]].
  pose proof (input_if_range 16 _ _ _ _ _ ltac:(done) E1) as R1. pose proof (input_if_range 8 _ _ _ _ _ ltac:(done) E2) as R2.
  destruct (vp8_hasPictureId d && vp8_hasTl0PictureIndex d) eqn:Eb.
  - destruct (encode_written m ptr len d Hptr Hlen Hread pid tl0) as (m' & -> & W). ostep.
    eexists _, _, true. split; [done|]. split; [by right|]. intros _ _. apply andb_true_iff in Eb as [Ep Et].
    unfold input_if in E1, E2. rewrite Ep in E1. rewrite Et in E2. by eexists _, _, _, _.
  - ostep. eexists _, _, true. split; [done|]. split; [by left|done].
Qed.

(** ** What processing keeps *)

Lemma update_layer_targets b l c :
  targetTemporalLayer (update_layer b l c) = targetTemporalLayer c /\ targetSpatialLayer (update_layer b l c) = targetSpatialLayer c.
Proof. unfold update_layer. destruct b, (currentTemporalLayer c <? l); cbn; case_match; done. Qed.

Lemma sync_vp8_base d c : vp8_base (sync_vp8 d c) = vp8_base c.
Proof. unfold sync_vp8. by case_match. Qed.

Lemma sync_vp9_base d c : vp9_base (sync_vp9 d c) = vp9_base c.
Proof. unfold sync_vp9. by case_match. Qed.

Lemma ProcessVP8_target d c m ptr c' m' ok : ProcessVP8 d c m ptr = Ok (c', m', ok) ->
  targetTemporalLayer (vp8_base c') = targetTemporalLayer (vp8_base c).
Proof.
  unfold ProcessVP8. intros (_ & _ & H)%bind_Ok. cbv zeta in H. rewrite <- (sync_vp8_base d c). set (c1 := sync_vp8 d c) in *.
  destruct (filtered_vp8 d c1); [by injection H as <- _ _|]. destruct (input_if 16 _ _ _) as [pids [pid|]]; [|by injection H as <- _ _].
  destruct (input_if 8 _ _ _) as [tl0s [tl0|]]; [|by injection H as <- _ _].
  apply bind_Ok in H as (m1 & _ & [= <- _ _]). apply update_layer_targets.
Qed.

Lemma ProcessVP9_total d c : 0 <= targetSpatialLayer (vp9_base c) -> 0 <= targetTemporalLayer (vp9_base c) ->
  exists c' ok marker, ProcessVP9 d c = Ok (c', ok, marker) /\
    targetSpatialLayer (vp9_base c') = targetSpatialLayer (vp9_base c) /\
    targetTemporalLayer (vp9_base c') = targetTemporalLayer (vp9_base c).
Proof.
  intros Hs Ht. unfold ProcessVP9. rewrite !(proj2 (Z.leb_le 0 _)) by done. ostep. cbv zeta.
  pose proof (sync_vp9_base d c) as Hb. destruct (_ || _); [by eexists _, _, _|]. destruct (spatial_vp9 _ _) as [s t].
  destruct (_ && _); [by eexists _, _, _; rewrite Hb|].
  destruct (_ && _); eexists _, _, _; (split; [done|]); cbn; by rewrite Hb.
Qed.

Lemma ProcessH26x_total d c : 0 <= targetTemporalLayer c ->
  exists c' ok, ProcessH26x d c = Ok (c', ok) /\ targetTemporalLayer c' = targetTemporalLayer c.
Proof.
  intros Ht. unfold ProcessH26x. rewrite (proj2 (Z.leb_le 0 _)) by done. ostep.
  destruct (_ && _); [by eexists _, _|]. destruct (_ && _ && _); [by eexists _, _|]. eexists _, _. split; [done|]. apply update_layer_targets.
Qed.

Lemma set_mem_same p : set_mem p (mem p) = p.
Proof. by destruct p. Qed.

Lemma SetMarker_Ok p marker : rtp_wf p -> exists q, SetMarker p marker = Ok q.
Proof.
  intros Hwf. destruct (wf_payload p Hwf) as (Hp12 & _ & _). unfold HeaderSize in Hp12. destruct Hwf as [_ ? _ _ (? & ? & ?) _].
  unfold SetMarker. destruct (set_bits_in_bounds (mem p) 1 7 1 (b2z marker)) as [m ->]; [lia|]. ostep. by eexists.
Qed.

(** Writing in the payload, or the marker, leaves a packet well-formed. *)
Lemma write_payload_wf p off bs m : rtp_wf p -> payload p <= off -> off + zlen bs <= payload p + payloadLength p -> bytes bs ->
  write (mem p) off bs = Ok m -> rtp_wf (set_mem p m).
Proof.
  intros Hwf Hlo Hhi Hbs W. destruct (wf_payload p Hwf) as (H12 & _ & _). unfold HeaderSize in H12.
  pose proof (same_except_write _ _ _ _ W) as [L F]. pose proof (zlen_nonneg bs).
  pose proof Hwf as [Hm Hfit _ _ (? & ? & ?) (Hpad & Hpadb)].
  assert (forall lo n, get_bits m 0 lo n = get_bits (mem p) 0 lo n) as G by (intros; apply get_bits_ext, F; lia).
  apply (wf_rebuild p); cbn [mem set_mem csrcList headerExtension payload payloadLength payloadPadding size]; try done; try lia.
  - by eapply bytes_write; [| |exact W].
  - apply G.
  - apply G.
  - apply G.
  - intros i Hi. unfold HeaderSize in Hi. apply F. lia.
  - rewrite <- Hpad. apply G.
  - intros Hz. rewrite F by lia. by apply Hpadb.
Qed.

Lemma SetMarker_wf p marker q : rtp_wf p -> SetMarker p marker = Ok q ->
  rtp_wf q /\ exists m, q = set_mem p m /\ forall i, i <> 1 -> get1 m i = get1 (mem p) i.
Proof.
  intros Hwf. destruct (wf_payload p Hwf) as (H12 & _ & _). unfold HeaderSize in H12.
  pose proof Hwf as [Hm Hfit _ _ (? & ? & ?) (Hpad & Hpadb)].
  unfold SetMarker. intros (m & E & [= <-])%bind_Ok. pose proof E as (b & Eb & W)%set_bits_Ok.
  pose proof (same_except_write _ _ _ _ W) as [L F]. change (zlen [_]) with 1 in F.
  assert (forall lo n, get_bits m 0 lo n = get_bits (mem p) 0 lo n) as G by (intros; apply get_bits_ext, F; lia).
  split; [|exists m; split; [done|]; intros i Hi; apply F; lia].
  apply (wf_rebuild p); cbn [mem set_mem csrcList headerExtension payload payloadLength payloadPadding size]; try done; try lia.
  - by eapply (bytes_set_bits _ _ 7 1).
  - apply G.
  - apply G.
  - apply G.
  - intros i Hi. unfold HeaderSize in Hi. apply F. lia.
  - rewrite <- Hpad. apply G.
  - intros Hz. rewrite F by lia. by apply Hpadb.
Qed.

(** What is let through is [q] but for the numbers in its payload, or its marker. *)
Definition processed (q q' : video_packet) : Prop :=
  rtp_wf (vp_packet q') /\ vp_handler q' = vp_handler q /\
  exists m, vp_packet q' = set_mem (vp_packet q) m /\
    forall i, i = 0 \/ 2 <= i < payload (vp_packet q) -> get1 m i = get1 (mem (vp_packet q)) i.

Lemma processed_same q : rtp_wf (vp_packet q) -> processed q q.
Proof. intros Hwf. split; [done|]. split; [done|]. exists (mem (vp_packet q)). split; [|done]. by rewrite set_mem_same. Qed.

(** The packet that comes back. *)
Definition given_back (codec : option codec) (q r : video_packet) : Prop :=
  vp_handler r = vp_handler q /\
  (vp_packet r = vp_packet q \/ (codec = Some VP9 /\ SetMarker (vp_packet q) true = Ok (vp_packet r))).

Lemma lor_byte a b : in_uint 8 a -> in_uint 8 b -> in_uint 8 (Z.lor a b).
Proof.
  intros Ha Hb. unfold in_uint in *. rewrite <- (Z.mod_small a (2 ^ 8)), <- (Z.mod_small b (2 ^ 8)) by done.
  rewrite <- !(Z.land_ones _ 8), <- Z.land_lor_distr_l, Z.land_ones by done. by apply Z.mod_pos_bound.
Qed.

Lemma vp8_fields_bytes d pid tl0 : in_uint 16 pid -> in_uint 8 tl0 -> bytes (vp8_fields d pid tl0).
Proof.
  intros Hp Ht. unfold vp8_fields. apply Forall_app. split.
  - destruct (truthy (vp8_i d)); [|by apply Forall_nil_2]. destruct (vp8_hasTwoBytesPictureId d).
    + apply Forall_cons_2; [|apply Forall_singleton].
      * apply lor_byte; [by apply wrap_range|done].
      * by apply (wrap_range 8).
    + destruct (vp8_hasOneBytePictureId d); [|by apply Forall_nil_2]. apply Forall_singleton. by apply wrap_range.
  - destruct (truthy (vp8_l d)); [|by apply Forall_nil_2]. by apply Forall_singleton.
Qed.

Lemma ProcessPayload_spec codec q c : handled q -> handler_of codec (vp_handler q) -> context_of codec c ->
  exists q' c' ok r, ProcessPayload q c = Ok (q', c', ok) /\ context_of codec c' /\ (ok = false -> q' = q) /\ processed q q' /\
    RestorePayload q' = Ok r /\ given_back codec q r.
Proof.
  intros Hq Hof Hc. pose proof (proj1 Hq) as Hwf.
  destruct q as [q [d|]].
  2: { exists (VideoPacket q None), c, true, (VideoPacket q None). do 3 (split; [done|]). split; [by apply processed_same|].
    split; [done|]. split; [done|by left]. }
  destruct Hq as [_ Hd]. cbn [vp_packet] in Hwf.
  destruct codec as [[]|], d as [d|d|d], c as [c|c|c]; cbn [handler_of context_of vp_handler vp_packet] in *; try done.
  - destruct Hd as (Hr & _). pose proof Hwf as [_ ? _ _ (? & ? & ?) _]. destruct (wf_payload q Hwf) as (? & _ & _). unfold HeaderSize in *.
    destruct (ProcessVP8_cases d c (mem q) (payload q) (payloadLength q)) as (c' & m' & ok & E & Hm' & Hw); [lia|lia|done|done|].
    unfold ProcessPayload. cbn [vp_handler vp_packet]. rewrite E. ostep.
    assert (RestoreVP8 d m' (payload q) = Ok (mem q)) as Hback.
    { destruct Hm' as [->|[-> Hb]]; [apply (restore_unchanged _ _ (payloadLength q)); [lia|lia|done]|].
      destruct (Hw eq_refl Hb) as (? & pid & ? & tl0 & _ & _ & _ & _ & W).
      eapply (restore_written (mem q) (payload q) (payloadLength q)); [lia|lia|done|exact W|done]. }
    eexists _, _, _, (VideoPacket q (Some (DescVP8 d))). split; [done|]. split; [by rewrite (ProcessVP8_target _ _ _ _ _ _ _ E)|].
    split; [|split; [|split; [|split; [done|by left]]]].
    + intros ->. destruct Hm' as [->|[? _]]; [|done]. by rewrite set_mem_same.
    + destruct Hm' as [->|[-> Hb]]; [rewrite set_mem_same; by apply processed_same|].
      destruct (Hw eq_refl Hb) as (? & pid & ? & tl0 & _ & _ & Hpid & Htl0 & W).
      pose proof (proj1 (proj2 Hr)) as Hfields. rewrite (zlen_fields _ _ _ pid tl0) in Hfields.
      pose proof (same_except_write _ _ _ _ W) as [_ F]. split; [|split; [done|]].
      * cbn [vp_packet]. eapply write_payload_wf; [done| | |by apply vp8_fields_bytes|exact W]; [lia|]. lia.
      * exists m'. split; [done|]. cbn [vp_packet]. intros i Hi. apply F. lia.
    + unfold RestorePayload. cbn [vp_handler vp_packet set_mem mem payload]. rewrite Hback. ostep. by destruct q.
  - destruct Hc as [Hs Ht]. destruct (ProcessVP9_total d c Hs Ht) as (c' & ok & marker & E & Es & Et).
    unfold ProcessPayload. cbn [vp_handler vp_packet]. rewrite E. ostep. destruct (ok && marker) eqn:Eok.
    + destruct (SetMarker_Ok q true Hwf) as [r Er]. rewrite Er. ostep. apply andb_true_iff in Eok as [-> _].
      destruct (SetMarker_wf _ _ _ Hwf Er) as (Hwfr & m & -> & F).
      eexists _, _, _, _. split; [done|]. split; [by rewrite Es, Et|]. split; [done|].
      split; [split; [done|]; split; [done|]; exists m; split; [done|]; intros i Hi; apply F; cbn in *; lia|].
      split; [done|]. split; [done|]. by right.
    + ostep. eexists _, _, _, _. split; [done|]. split; [by rewrite Es, Et|]. split; [done|]. split; [by apply processed_same|].
      split; [done|]. split; [done|]. by left.
  - destruct (ProcessH26x_total d c Hc) as (c' & ok & E & Et). unfold ProcessPayload. cbn [vp_handler vp_packet]. rewrite E. ostep.
    eexists _, _, _, _. split; [done|]. split; [by rewrite Et|]. split; [done|]. split; [by apply processed_same|].
    split; [done|]. split; [done|]. by left.
  - destruct (ProcessH26x_total d c Hc) as (c' & ok & E & Et). unfold ProcessPayload. cbn [vp_handler vp_packet]. rewrite E. ostep.
    eexists _, _, _, _. split; [done|]. split; [by rewrite Et|]. split; [done|]. split; [by apply processed_same|].
    split; [done|]. split; [done|]. by left.
Qed.

(** * Properties *)

(** C13: a consumer leaves nothing in a packet.  The payload of whatever
    packet of whatever codec is looked at within its bounds.  When a consumer
    processes it for its target layers, no assertion fails, and restoring the
    payload gives the packet as it was, but for the marker that a VP9 packet
    may have been given; a packet that is not let through is not changed. *)
Theorem payload_restored codec p c : arrived p -> context_of codec c ->
  exists q, ProcessRtpPacket codec p = Ok q /\ handled q /\
  exists q' c' ok r, ProcessPayload q c = Ok (q', c', ok) /\ context_of codec c' /\ (ok = false -> q' = q) /\
    RestorePayload q' = Ok r /\ vp_handler r = vp_handler q /\
    (vp_packet r = vp_packet q \/ (codec = Some VP9 /\ SetMarker (vp_packet q) true = Ok (vp_packet r))).
Proof.
  intros Hp Hc. destruct (ProcessRtpPacket_handled codec p Hp) as (q & -> & Hq & Hof & _). exists q. split; [done|]. split; [done|].
  destruct (ProcessPayload_spec codec q c Hq Hof Hc) as (q' & c' & ok & r & ? & ? & ? & _ & ? & ? & ?). by exists q', c', ok, r.
Qed.

(** A packet's numbers, both there. *)
Definition numbered (d : vp8_descriptor) : Prop := vp8_hasPictureId d && vp8_hasTl0PictureIndex d = true.

Lemma vp8_fields_numbered d pid tl0 : vp8_ok d -> numbered d -> vp8_hasOneBytePictureId d = false ->
  vp8_hasTwoBytesPictureId d = true /\ vp8_fields d pid tl0 = [Z.lor (u8 (pid / 256)) 128; pid `mod` 256; tl0].
Proof.
  intros Hok [Hp Ht]%andb_true_iff H1. pose proof (vp8_ok_size d Hok) as Hx. rewrite Hp, H1 in Hx.
  destruct (vp8_hasTwoBytesPictureId d) eqn:H2; [|done]. split; [done|]. unfold vp8_fields.
  by rewrite <- (vp8_ok_pictureId d Hok), <- (vp8_ok_tl0 d Hok), Hp, Ht, H2.
Qed.

(** C14: the receiver of a consumer reads the consumer's numbers.  When a VP8
    packet with both numbers is let through, its payload is read as the same
    descriptor, but for the picture id, which is the one the manager gave modulo
    32768, and the index, which is the one given; nothing after them changes. *)
Theorem vp8_renumbered p q d c q' c' : arrived p -> ProcessRtpPacket (Some VP8) p = Ok q -> vp_handler q = Some (DescVP8 d) ->
  numbered d -> 0 <= targetTemporalLayer (vp8_base c) -> ProcessPayload q (CtxVP8 c) = Ok (q', c', true) ->
  exists pid tl0,
    (Input 16 (vp8_pictureIdManager (sync_vp8 d c)) (vp8_pictureId d)).2 = Some pid /\
    (Input 8 (vp8_tl0PictureIndexManager (sync_vp8 d c)) (vp8_tl0PictureIndex d)).2 = Some tl0 /\
    ParseVP8 (mem (vp_packet q')) (payload (vp_packet q')) (payloadLength (vp_packet q')) =
      Ok (renumbered d (pid `mod` 2 ^ 15) tl0) /\
    forall i, payload (vp_packet q) + 5 <= i -> get1 (mem (vp_packet q')) i = get1 (mem (vp_packet q)) i.
Proof.
  intros Hp Hproc Hd Hn Ht Hpay.
  destruct (ProcessRtpPacket_handled (Some VP8) p Hp) as (q1 & E1 & [Hwf Hh] & _). rewrite Hproc in E1. injection E1 as <-.
  rewrite Hd in Hh. destruct Hh as (Hr & Hparse & H1). pose proof Hwf as [_ ? _ _ (? & ? & ?) _].
  destruct (wf_payload _ Hwf) as (? & _ & _). unfold HeaderSize in *.
  destruct (ProcessVP8_cases d c (mem (vp_packet q)) (payload (vp_packet q)) (payloadLength (vp_packet q)))
    as (c1 & m' & ok & E & _ & Hw); [lia|lia|done|done|].
  unfold ProcessPayload in Hpay. rewrite Hd, E in Hpay. cbn in Hpay. injection Hpay as <- _ ->.
  destruct (Hw eq_refl Hn) as (pids & pid & tl0s & tl0 & I1 & I2 & R1 & R2 & W).
  destruct (vp8_fields_numbered d pid tl0 (proj1 Hr) Hn H1) as [Htwo Hf]. rewrite Hf in W.
  exists pid, tl0. rewrite I1, I2. split; [done|]. split; [done|]. cbn [vp_packet set_mem mem payload payloadLength]. split.
  - apply (ParseVP8_renumbered (mem (vp_packet q))); done || lia.
  - intros i Hi. eapply get1_write_other; [exact W|]. change (zlen [_; _; _]) with 3. lia.
Qed.

(** ** Layers *)

(** The packet is not older than those that have been let through. *)
Definition newer_vp8 (d : vp8_descriptor) (c : vp8_context) : bool :=
  vp8_hasPictureId d && vp8_hasTlIndex d && vp8_hasTl0PictureIndex d &&
  negb (IsSeqLowerThan 16 (vp8_pictureId d) (GetMaxInput (vp8_pictureIdManager (sync_vp8 d c)))).

(** The temporal layer [t] in force after a VP9 packet: it changes only to 0 with the
    spatial layer, down to the target with a packet that ends a frame of the
    target's layer, or, below the target, up to that of a packet that starts a
    frame and may be switched to. *)
Definition vp9_temporal_moves (d : vp9_descriptor) (c : encoding_context) (old : bool) (s t : Z) : Prop :=
  let current := currentTemporalLayer c in
  let target := targetTemporalLayer c in
  t = current
  \/ currentSpatialLayer c <> targetSpatialLayer c /\ s = targetSpatialLayer c /\ t = 0
  \/ old = false /\ target < current /\ t = target /\ vp9_temporalLayer d = target /\ truthy (vp9_e d) = true
  \/ old = false /\ current < target /\ current < t /\ t = vp9_temporalLayer d /\
     (current = -1 \/ truthy (vp9_switchingUpPoint d) = true) /\ truthy (vp9_b d) = true.

(** The layers of a packet that is let through, and those in force then. *)
Definition layers_respected (q : video_packet) (c c' : codec_context) : Prop :=
  match vp_handler q, c, c' with
  | Some (DescVP8 d), CtxVP8 c, CtxVP8 c' =>
      currentTemporalLayer (vp8_base c') <= targetTemporalLayer (vp8_base c) /\
      (newer_vp8 d c = true -> vp8_tlIndex d <= currentTemporalLayer (vp8_base c'))
  | Some (DescVP9 d), CtxVP9 c, CtxVP9 c' =>
      (currentSpatialLayer (vp9_base c') = currentSpatialLayer (vp9_base c) \/
       currentSpatialLayer (vp9_base c') = targetSpatialLayer (vp9_base c)) /\
      vp9_temporal_moves d (vp9_base c) (old_vp9 d (sync_vp9 d c)) (currentSpatialLayer (vp9_base c'))
        (currentTemporalLayer (vp9_base c')) /\
      vp9_spatialLayer d < spatialLayers (params (vp9_base c)) /\
      vp9_temporalLayer d < temporalLayers (params (vp9_base c)) /\
      (old_vp9 d (sync_vp9 d c) = false ->
        vp9_spatialLayer d <= currentSpatialLayer (vp9_base c') /\ vp9_temporalLayer d <= currentTemporalLayer (vp9_base c'))
  | Some (DescH26x d), CtxH26x c, CtxH26x c' =>
      currentTemporalLayer c' <= targetTemporalLayer c /\ (h_hasTid d = true -> h_tid d <= currentTemporalLayer c')
  | None, _, _ => c' = c
  | _, _, _ => False
  end.

Lemma update_layer_current b l c : 0 <= targetTemporalLayer c ->
  currentTemporalLayer (update_layer b l c) <= targetTemporalLayer c /\
  (b = true -> l <= targetTemporalLayer c -> l <= currentTemporalLayer (update_layer b l c)).
Proof.
  intros Ht. unfold update_layer. destruct b; cbn [andb negb].
  - destruct (Z.ltb_spec (currentTemporalLayer c) l); cbn; case_match; cbn; bool_cases; lia.
  - cbn. case_match; cbn; bool_cases; (split; [lia|done]).
Qed.

Lemma spatial_vp9_cases d c : (spatial_vp9 d c).1 = currentSpatialLayer c \/ (spatial_vp9 d c).1 = targetSpatialLayer c.
Proof. unfold spatial_vp9. repeat case_match; cbn; auto. Qed.

Lemma vp9_moves d c (old : bool) :
  vp9_temporal_moves d c old (spatial_vp9 d c).1
    (if old then (spatial_vp9 d c).2 else temporal_vp9 d c (spatial_vp9 d c).2).
Proof.
  assert (Hsp : (spatial_vp9 d c).2 = currentTemporalLayer c \/
    currentSpatialLayer c <> targetSpatialLayer c /\ (spatial_vp9 d c).1 = targetSpatialLayer c /\ (spatial_vp9 d c).2 = 0).
  { unfold spatial_vp9. repeat case_match; cbn; bool_cases; (by left) || (right; split_and!; done || lia). }
  assert (Hkeep : vp9_temporal_moves d c old (spatial_vp9 d c).1 (spatial_vp9 d c).2).
  { unfold vp9_temporal_moves. destruct Hsp as [E|Hch]; [by left|right; by left]. }
  destruct old; [done|]. unfold temporal_vp9. cbv zeta.
  destruct (Z.ltb_spec (currentTemporalLayer c) (targetTemporalLayer c)) as [Hup|Hup].
  - destruct (_ && _) eqn:E; [|done]. apply andb_true_iff in E as [[Hl%Z.leb_le Hs]%andb_true_iff Hb].
    apply orb_true_iff in Hs. unfold vp9_temporal_moves. cbv zeta. right. right. right.
    split_and!; [done|done|lia|done| |done]. destruct Hs as [Hm%Z.eqb_eq|Hm]; [by left|by right].
  - destruct (Z.ltb_spec (targetTemporalLayer c) (currentTemporalLayer c)); [|done].
    destruct (_ && _) eqn:E; [|done]. apply andb_true_iff in E as [Hl%Z.eqb_eq He].
    unfold vp9_temporal_moves. cbv zeta. right. right. left. done.
Qed.

(** C15: what is let through is of the layers in force, and how these follow
    the target.  Of VP8, H264 and H265 the temporal layer in force is never above
    the target after a packet was let through, and a packet that is not late is not above it.
    Of VP9 the spatial layer in force is the one before or the target; the
    temporal one changes only to 0 with the spatial layer, to the target
    when it is lowered, or, while it is below the target, up to that of a packet
    one may switch to, which may be above the target ([vp9_temporal_moves]); the packet
    is below the layers announced and, when it is not late, in the layers in force. *)
Theorem layers_in_force q c q' c' : ProcessPayload q c = Ok (q', c', true) -> layers_respected q c c'.
Proof.
  unfold ProcessPayload, layers_respected. destruct (vp_handler q) as [[d|d|d]|]; [| | |by intros [= _ <-]]; destruct c as [c|c|c]; try done;
    intros ([[c1 x] y] & E & H)%bind_Ok || intros ([c1 x] & E & H)%bind_Ok.
  - injection H as _ <- ->. unfold ProcessVP8 in E. apply bind_Ok in E as (_ & Ht%require_Ok & E). apply Z.leb_le in Ht.
    cbv zeta in E. unfold newer_vp8, filtered_vp8 in *. pose proof (sync_vp8_base d c) as Hb. set (c2 := sync_vp8 d c) in *.
    set (newer := _ && _ && _ && negb _) in *.
    destruct (newer && _) eqn:Ef in E; [done|]. destruct (input_if 16 _ _ _) as [pids [pid|]]; [|done].
    destruct (input_if 8 _ _ _) as [tl0s [tl0|]]; [|done]. apply bind_Ok in E as (m1 & _ & [= <- _]). cbn [vp8_base].
    rewrite Hb in *. destruct (update_layer_current (vp8_hasTlIndex d) (vp8_tlIndex d) (vp8_base c) Ht) as [H1 H2].
    split; [done|]. intros Hn. rewrite Hn in Ef. cbn [andb] in Ef. apply orb_false_iff in Ef as [Ef _]. apply Z.ltb_ge in Ef.
    apply H2; [|done]. unfold newer in Hn. rewrite !andb_true_iff in Hn. apply Hn.
  - apply bind_Ok in H as (r & _ & [= _ <- ->]). unfold ProcessVP9 in E.
    apply bind_Ok in E as (_ & Hs%require_Ok & E). apply bind_Ok in E as (_ & Ht%require_Ok & E). cbv zeta in E.
    destruct (_ || _) eqn:Em in E; [done|]. apply orb_false_iff in Em as [Em1%Z.leb_gt Em2%Z.leb_gt].
    pose proof (sync_vp9_base d c) as Hb. set (c2 := sync_vp9 d c) in *. pose proof (spatial_vp9_cases d (vp9_base c2)) as Hsp.
    pose proof (vp9_moves d (vp9_base c2) (old_vp9 d c2)) as Hmv.
    destruct (spatial_vp9 d (vp9_base c2)) as [s t]. cbn [fst snd] in Hsp, Hmv. rewrite Hb in *.
    destruct (_ && _) eqn:E1 in E; [done|]. destruct (_ && _) eqn:E2 in E; [done|]. injection E as <- _. cbn.
    split; [done|]. split; [exact Hmv|]. split; [done|]. split; [done|]. intros Hold. rewrite Hold in *. cbn [negb] in *. rewrite andb_true_r in E1.
    cbn [andb] in E2. by apply Z.ltb_ge in E1, E2.
  - injection H as _ <- ->. unfold ProcessH26x in E. apply bind_Ok in E as (_ & Ht%require_Ok & E). apply Z.leb_le in Ht.
    destruct (h_hasTid d && _) eqn:E1 in E; [done|]. destruct (_ && _) eqn:E2 in E; [done|]. injection E as <-.
    destruct (update_layer_current (h_hasTid d) (h_tid d) c Ht) as [H1 H2]. split; [done|]. intros Hd. apply H2; [done|].
    rewrite Hd in E1. by apply Z.ltb_ge in E1.
Qed.

(** ** Picture ids have 15 bits, the managers count in 16 *)

(** The last picture id before the wrap-around has been seen, and nothing is
    remembered as dropped. *)
Definition wrapped_manager (s : seq_manager) : Prop := maxInput s = 32767 /\ dropped s = [].

Lemma wrapped_lower s pid : wrapped_manager s -> in_uint 15 pid -> pid <> 32767 -> IsSeqLowerThan 16 pid (GetMaxInput s) = true.
Proof.
  intros [Hm _] Hr Hne. unfold GetMaxInput. rewrite Hm. unfold in_uint in Hr. change (2 ^ 15) with 32768 in Hr.
  unfold IsSeqLowerThan, MaxValue. change ((2 ^ 16 - 1) / 2) with 32767.
  rewrite (proj2 (Z.ltb_lt _ _)), (proj2 (Z.leb_le _ _)) by lia. done.
Qed.

Lemma wrapped_Input s pid : wrapped_manager s -> in_uint 15 pid -> pid <> 32767 ->
  exists s' n, Input 16 s pid = (s', Some n) /\ wrapped_manager s'.
Proof.
  intros [Hm Hd] Hr Hne. unfold Input. rewrite Hd. unfold accept. rewrite Hd, Hm. change (MaxValue 16 / 2) with 32767.
  eexists _, _. split; [done|]. split; [|done]. cbn. unfold in_uint in Hr. change (2 ^ 15) with 32768 in Hr.
  rewrite (proj2 (Z.ltb_ge _ _)); [done|]. unfold wrap. change (2 ^ 16) with 65536. Z.div_mod_to_equations. lia.
Qed.

Lemma Input_none_dropped w s i : dropped s = [] -> exists s' n, Input w s i = (s', Some n) /\ dropped s' = [].
Proof. intros Hd. unfold Input. rewrite Hd. unfold accept. rewrite Hd. by eexists _, _. Qed.

Definition wrapped_vp8 (c : vp8_context) : Prop :=
  wrapped_manager (vp8_pictureIdManager c) /\ dropped (vp8_tl0PictureIndexManager c) = [] /\
  vp8_syncRequired c = false /\ 0 <= targetTemporalLayer (vp8_base c).

Definition wrapped_vp9 (c : vp9_context) : Prop :=
  wrapped_manager (vp9_pictureIdManager c) /\ vp9_syncRequired c = false /\
  0 <= targetSpatialLayer (vp9_base c) /\ 0 <= targetTemporalLayer (vp9_base c).

(** Layers are not filtered after picture id 32767.  Picture ids go
    from 32767 to 0, but the managers take 0 to be older than 32767 and keep
    32767 as the newest: from then on every packet, of whatever layer, counts as
    late, and is let through, VP8 and VP9 alike; and so it stays. *)
Theorem picture_ids_wrap :
  (forall d c m ptr len, wrapped_vp8 c -> 0 <= ptr -> ptr + len <= zlen m -> vp8_read m ptr len d -> vp8_pictureId d <> 32767 ->
     exists c' m', ProcessVP8 d c m ptr = Ok (c', m', true) /\ wrapped_vp8 c') /\
  (forall d c, wrapped_vp9 c -> vp9_ok d -> vp9_hasPictureId d = true -> vp9_pictureId d <> 32767 ->
     vp9_spatialLayer d < spatialLayers (params (vp9_base c)) -> vp9_temporalLayer d < temporalLayers (params (vp9_base c)) ->
     exists c' marker, ProcessVP9 d c = Ok (c', true, marker) /\ wrapped_vp9 c').
Proof.
  split.
  - intros d c m ptr len (Hw & Htl & Hsync & Ht) Hptr Hlen Hr Hne. pose proof (vp8_ok_pictureId_range d (proj1 Hr)) as Hrange.
    unfold ProcessVP8. rewrite (proj2 (Z.leb_le _ _)) by done. ostep. cbv zeta.
    unfold sync_vp8. rewrite Hsync. cbn [andb]. unfold filtered_vp8. rewrite wrapped_lower by done. cbn [negb]. rewrite andb_false_r.
    cbn [andb].
    assert (exists s n, input_if 16 (vp8_hasPictureId d) (vp8_pictureIdManager c) (vp8_pictureId d) = (s, Some n) /\ wrapped_manager s)
      as (s1 & n1 & -> & Hw1) by (unfold input_if; destruct (vp8_hasPictureId d); [by apply wrapped_Input|by eexists _, _]).
    assert (exists s n, input_if 8 (vp8_hasTl0PictureIndex d) (vp8_tl0PictureIndexManager c) (vp8_tl0PictureIndex d) = (s, Some n) /\
      dropped s = []) as (s2 & n2 & -> & Hw2).
    { unfold input_if. destruct (vp8_hasTl0PictureIndex d); [by apply Input_none_dropped|by eexists _, _]. }
    destruct (encode_written m ptr len d Hptr Hlen Hr n1 n2) as (m' & Hm' & _).
    assert (exists m', (if vp8_hasPictureId d && vp8_hasTl0PictureIndex d then EncodeVP8 d m ptr n1 n2 else Ok m) = Ok m')
      as (m'' & ->) by (destruct (_ && _); eauto).
    ostep. eexists _, _. split; [done|]. split_and!; cbn; try done.
    by rewrite (proj1 (update_layer_targets _ _ _)).
  - intros d c (Hw & Hsync & Hs & Ht) Hok Hp Hne Hsl Htl. pose proof (vp9_ok_pictureId d Hok) as Hrange.
    unfold ProcessVP9. rewrite !(proj2 (Z.leb_le 0 _)) by done. ostep. cbv zeta.
    rewrite !(proj2 (Z.leb_gt _ _)) by done. cbn [orb]. unfold sync_vp9. rewrite Hsync. cbn [andb].
    unfold old_vp9. rewrite Hp, wrapped_lower by done. cbn [andb negb]. destruct (spatial_vp9 _ _) as [s t].
    rewrite andb_false_r. unfold input_if. destruct (wrapped_Input (vp9_pictureIdManager c) (vp9_pictureId d)) as (s1 & n1 & -> & Hw1);
      [done|done|done|]. eexists _, _. split; [done|]. by split_and!.
Qed.

(** ** Temporal layers of VP9 *)

(** A packet of a layer above the target that may be switched to is let through, and its layer is
    in force then: the target is not compared with. *)
Lemma vp9_above_target d c : 0 <= targetSpatialLayer (vp9_base c) -> vp9_syncRequired c = false -> old_vp9 d c = false ->
  vp9_spatialLayer d <= currentSpatialLayer (vp9_base c) -> currentSpatialLayer (vp9_base c) = targetSpatialLayer (vp9_base c) ->
  currentSpatialLayer (vp9_base c) < spatialLayers (params (vp9_base c)) ->
  vp9_temporalLayer d < temporalLayers (params (vp9_base c)) -> 0 <= currentTemporalLayer (vp9_base c) ->
  currentTemporalLayer (vp9_base c) < targetTemporalLayer (vp9_base c) < vp9_temporalLayer d ->
  vp9_switchingUpPoint d = 1 -> vp9_b d = 1 ->
  exists c' marker, ProcessVP9 d c = Ok (c', true, marker) /\ currentTemporalLayer (vp9_base c') = vp9_temporalLayer d.
Proof.
  intros Hs Hsync Hold Hsp Heq Hsl Htl Hc Ht Hsw Hb. unfold ProcessVP9. rewrite !(proj2 (Z.leb_le 0 _)) by lia. ostep. cbv zeta.
  rewrite !(proj2 (Z.leb_gt _ _)) by lia. cbn [orb]. unfold sync_vp9. rewrite Hsync. cbn [andb]. rewrite Hold. cbn [negb].
  unfold spatial_vp9. rewrite Heq, Z.ltb_irrefl. rewrite Heq in Hsp. rewrite (proj2 (Z.ltb_ge _ _)) by done. cbn [andb].
  assert (forall t, temporal_vp9 d (vp9_base c) t = vp9_temporalLayer d) as ->.
  { intros t. unfold temporal_vp9. cbv zeta. rewrite (proj2 (Z.ltb_lt _ _)) by lia.
    rewrite (proj2 (Z.leb_le _ _)), Hsw, Hb by lia. change (truthy 1) with true. by rewrite orb_true_r. }
  rewrite Z.ltb_irrefl. by eexists _, _.
Qed.

(** ** Fragments of H265 *)

(** A fragment of any NAL unit, of layer 0, does not start a key frame: the
    second byte of the payload header is taken for the header of the fragment. *)
Lemma h265_fragments_missed m ptr len b0 b1 : get1 m ptr = Ok b0 -> Z.shiftr (Z.land b0 126) 1 = 49 ->
  get1 m (ptr + 1) = Ok b1 -> 0 <= b1 < 8 -> key_frame_h265 m ptr len = Ok false.
Proof.
  intros E0 Hn E1 Hb. unfold key_frame_h265. rewrite E0. ostep. cbv zeta. rewrite Hn. change (49 =? 32) with false.
  change (49 =? 33) with false. change (49 =? 48) with false. change (49 =? 49) with true. cbn [orb]. cbn iota. rewrite E1. ostep.
  assert (forallb (fun b => negb (((Z.land b 63 =? 32) || (Z.land b 63 =? 33)) && (Z.land b 128 =? 128))) (seqZ 0 8) = true)
    as Hall by by vm_compute.
  pose proof (forall_below 8 _ Hall b1 Hb) as H. cbn beta in H. apply negb_true_iff in H. by rewrite H.
Qed.

(** * Concrete packets *)

(** A VP8 packet: picture id 5 in one byte, index 7, temporal layer 0, the start of a key frame. *)
Definition vp8_data : list Z :=
  [128; 96; 0; 10; 0; 0; 0; 100; 0; 0; 3; 232; 144; 224; 5; 7; 32; 0; 1; 2] ++ replicate 20 0.

Definition vp8_packet : rtp_packet := RtpPacket vp8_data None None ∅ ∅ no_ids 12 8 0 20.

Lemma vp8_packet_arrived : arrived vp8_packet.
Proof.
  assert (bytes vp8_data) as Hb by (apply (bool_decide_unpack _); vm_compute; exact I).
  assert (Parse vp8_data 20 = Ok vp8_packet) as E by (vm_compute; reflexivity).
  pose proof (Parse_cases vp8_data 20 Hb) as H. rewrite E in H.
  destruct H as (Hwf & Hmaps & _); [by vm_compute|]. by split_and!.
Qed.

Definition vp8_consumer : vp8_context :=
  VP8Context (EncodingContext (ContextParams 1 3 false) 0 1 (-1) (-1)) (SeqMgr 0 40000 0 []) (SeqMgr 0 99 0 []) true.

Lemma payload_restored_witness :
  exists q, ProcessRtpPacket (Some VP8) vp8_packet = Ok q /\ handled q /\
  exists q' c' ok r, ProcessPayload q (CtxVP8 vp8_consumer) = Ok (q', c', ok) /\ context_of (Some VP8) c' /\ (ok = false -> q' = q) /\
    RestorePayload q' = Ok r /\ vp_handler r = vp_handler q /\
    (vp_packet r = vp_packet q \/ (Some VP8 = Some VP9 /\ SetMarker (vp_packet q) true = Ok (vp_packet r))).
Proof. apply (payload_restored (Some VP8) vp8_packet (CtxVP8 vp8_consumer) vp8_packet_arrived). by vm_compute. Defined.

Definition vp8_handled : video_packet := Eval vm_compute in
  match ProcessRtpPacket (Some VP8) vp8_packet with Ok q => q | Err _ => VideoPacket vp8_packet None end.

Definition vp8_read_first : vp8_descriptor := VP8Descriptor 1 0 1 0 1 1 1 0 5 7 0 1 0 true true false true true true.

Definition vp8_sent : video_packet * codec_context := Eval vm_compute in
  match ProcessPayload vp8_handled (CtxVP8 vp8_consumer) with Ok (q, c, _) => (q, c) | Err _ => (vp8_handled, CtxVP8 vp8_consumer) end.

Lemma vp8_renumbered_witness :
  exists pid tl0,
    (Input 16 (vp8_pictureIdManager (sync_vp8 vp8_read_first vp8_consumer)) 5).2 = Some pid /\
    (Input 8 (vp8_tl0PictureIndexManager (sync_vp8 vp8_read_first vp8_consumer)) 7).2 = Some tl0 /\
    ParseVP8 (mem (vp_packet vp8_sent.1)) 12 9 = Ok (renumbered vp8_read_first (pid `mod` 2 ^ 15) tl0) /\
    forall i, 17 <= i -> get1 (mem (vp_packet vp8_sent.1)) i = get1 (mem (vp_packet vp8_handled)) i.
Proof.
  apply (vp8_renumbered vp8_packet vp8_handled vp8_read_first vp8_consumer vp8_sent.1 vp8_sent.2 vp8_packet_arrived);
    first [vm_compute; reflexivity|by vm_compute].
Defined.

Lemma layers_in_force_witness : layers_respected vp8_handled (CtxVP8 vp8_consumer) vp8_sent.2.
Proof. apply (layers_in_force vp8_handled (CtxVP8 vp8_consumer) vp8_sent.1 vp8_sent.2). vm_compute. reflexivity. Defined.

(** A consumer of layer 0 that has seen picture 32767: a packet of layer 2 is let through. *)
Definition vp8_wrapped : vp8_context :=
  VP8Context (EncodingContext (ContextParams 1 3 false) 0 0 0 0) (SeqMgr 0 32767 32767 []) (SeqMgr 0 0 0 []) false.

Definition vp8_layer_2 : vp8_descriptor := VP8Descriptor 1 0 1 0 1 1 1 0 5 7 2 0 0 false true false true true true.

Definition vp9_wrapped : vp9_context :=
  VP9Context (EncodingContext (ContextParams 3 3 false) 0 0 0 0) (SeqMgr 0 32767 32767 []) false.

Definition vp9_layer_2 : vp9_descriptor := VP9Descriptor 1 1 1 0 1 1 0 100 2 2 9 0 0 false true false true true true true.

Lemma picture_ids_wrap_witness :
  (exists c' m', ProcessVP8 vp8_layer_2 vp8_wrapped [144; 224; 128; 5; 7; 128] 0 = Ok (c', m', true) /\ wrapped_vp8 c') /\
  (exists c' marker, ProcessVP9 vp9_layer_2 vp9_wrapped = Ok (c', true, marker) /\ wrapped_vp9 c').
Proof.
  destruct picture_ids_wrap as [H8 H9]. split.
  - apply (H8 vp8_layer_2 vp8_wrapped [144; 224; 128; 5; 7; 128] 0 6); try done; by split_and!.
  - apply (H9 vp9_layer_2 vp9_wrapped); try done; by split_and!.
Defined.
