(* ===== verification/RtpExtensions.v ===== *)
(** [RtpPacket::SetExtensions] against [RtpPacket::ParseExtensions]: what is
    written is what a receiver parses. *)

From S2P Require Export RtpPacketFacts.

(** * The encoding of the elements *)

Section encoding.
Context (type : Z).

Definition element_bytes (e : generic_extension) : list Z :=
  (if type =? 1 then [ge_id e * 16 + (ge_len e - 1)] else [ge_id e; ge_len e])
  ++ take (Z.to_nat (ge_len e)) (ge_value e).

Fixpoint elements_bytes (es : list generic_extension) : list Z :=
  match es with
  | [] => []
  | e :: es => (if extension_kept type e then element_bytes e else []) ++ elements_bytes es
  end.

(** The map of the elements written from [ptr] on. *)
Fixpoint elements_map (es : list generic_extension) (ptr : Z) (map : gmap Z Z) : gmap Z Z :=
  match es with
  | [] => map
  | e :: es =>
      if extension_kept type e
      then elements_map es (ptr + extension_size type e) (<[ge_id e := ptr]> map)
      else elements_map es ptr map
  end.

(** An extension handed to [SetExtensions]: bytes, and a value long enough. *)
Definition element_ok (e : generic_extension) : Prop :=
  in_uint 8 (ge_id e) /\ in_uint 8 (ge_len e) /\ bytes (ge_value e) /\ ge_len e <= zlen (ge_value e).

Lemma zlen_element e : element_ok e -> zlen (element_bytes e) = extension_size type e.
Proof.
  intros (_ & [Hl _] & _ & Hv). unfold element_bytes, extension_size, zlen in *.
  rewrite length_app, length_take. destruct (type =? 1); cbn [length]; lia.
Qed.

Lemma zlen_elements es : Forall element_ok es -> zlen (elements_bytes es) = extensions_size type es.
Proof.
  induction 1 as [|e es He Hes IH]; [done|]. cbn [elements_bytes extensions_size].
  rewrite zlen_app, IH. destruct (extension_kept type e); [by rewrite zlen_element|done].
Qed.

Lemma kept_one_byte e : type = 1 -> element_ok e -> extension_kept type e = true ->
  1 <= ge_id e <= 14 /\ 1 <= ge_len e <= 16.
Proof.
  intros -> ([??] & [??] & _). unfold extension_kept. cbn [Z.eqb Pos.eqb].
  destruct (Z.eqb_spec (ge_id e) 0), (Z.ltb_spec 14 (ge_id e)), (Z.eqb_spec (ge_len e) 0),
    (Z.ltb_spec 16 (ge_len e)); cbn; intros; try done; lia.
Qed.

Lemma kept_nonzero e : element_ok e -> extension_kept type e = true -> 1 <= ge_id e < 256.
Proof.
  intros ([??] & _). unfold extension_kept. destruct (type =? 1);
    destruct (Z.eqb_spec (ge_id e) 0); cbn; try done; intros; lia.
Qed.

Lemma bytes_element e : element_ok e -> extension_kept type e = true -> bytes (element_bytes e).
Proof.
  intros He Hk. pose proof He as (Hid & Hlen & Hval & _). apply Forall_app. split.
  - destruct (Z.eqb_spec type 1) as [Ht|Ht].
    + destruct (kept_one_byte e Ht He Hk). constructor; [unfold in_uint; lia|constructor].
    + constructor; [done|constructor; [done|constructor]].
  - by apply Forall_take.
Qed.

Lemma bytes_elements es : Forall element_ok es -> bytes (elements_bytes es).
Proof.
  induction 1 as [|e es He Hes IH]; [constructor|]. cbn. apply Forall_app. split; [|done].
  destruct (extension_kept type e) eqn:Hk; [by apply bytes_element|constructor].
Qed.

Lemma first_byte e : type = 1 -> 1 <= ge_id e <= 14 -> 1 <= ge_len e <= 16 ->
  u8 (Z.lor (Z.shiftl (ge_id e) 4) (Z.land (ge_len e - 1) 15)) = ge_id e * 16 + (ge_len e - 1).
Proof.
  intros _ Hid Hlen. change 15 with (2 ^ 4 - 1). rewrite land_low_ones by lia.
  rewrite (Z.mod_small (ge_len e - 1)) by lia.
  rewrite Z.lor_comm, lor_shiftl_add by (unfold in_uint; lia).
  change (2 ^ 4) with 16. rewrite wrap_small; [done|unfold in_uint; lia].
Qed.

Lemma write_extensions_spec es m ptr map :
  Forall element_ok es -> 0 <= ptr -> ptr + extensions_size type es <= zlen m ->
  exists m', write_extensions type es m ptr map
             = Ok (m', ptr + extensions_size type es, elements_map es ptr map) /\
    write m ptr (elements_bytes es) = Ok m'.
Proof.
  intros Hes. revert m ptr map. induction Hes as [|e es He Hes IH]; intros m ptr map Hptr Hfit.
  { cbn in *. exists m. rewrite Z.add_0_r. split; [done|]. apply write_nil. lia. }
  cbn [write_extensions extensions_size elements_bytes elements_map] in *.
  destruct (extension_kept type e) eqn:Hk; [|by apply IH].
  pose proof (zlen_element e He) as Hze. pose proof (zlen_elements es Hes) as Hzs.
  pose proof (zlen_nonneg (elements_bytes es)).
  pose proof He as (_ & Hlen & _ & Hval). unfold in_uint in Hlen.
  rewrite (proj2 (slice_Ok (ge_value e) 0 (ge_len e) (take (Z.to_nat (ge_len e)) (ge_value e))))
    by (rewrite drop_0; split_and!; lia || done).
  ostep. set (v := take _ _).
  assert (zlen v = ge_len e) as Hzv by (unfold v, zlen in *; rewrite length_take; lia).
  unfold element_bytes, extension_size in *. fold v in Hze |- *.
  destruct (Z.eqb_spec type 1) as [Ht|Ht].
  - destruct (kept_one_byte e Ht He Hk) as [Hid Hl]. rewrite (first_byte e) by done.
    set (b := ge_id e * 16 + (ge_len e - 1)). destruct (write_in_bounds m ptr [b]) as (m1 & E1); [done|rewrite zlen_one; lia|].
    unfold set1. rewrite E1. ostep. pose proof (zlen_write _ _ _ _ E1) as L1.
    destruct (write_in_bounds m1 (ptr + 1) v) as (m2 & E2); [lia|lia|]. rewrite E2. ostep.
    pose proof (zlen_write _ _ _ _ E2) as L2.
    pose proof (write_app _ _ [b] v _ _ E1 E2) as E12.
    destruct (IH m2 (ptr + 1 + ge_len e) (<[ge_id e:=ptr]> map)) as (m3 & E3 & W3); [lia|lia|].
    exists m3. split.
    + rewrite E3. replace (ptr + (1 + ge_len e)) with (ptr + 1 + ge_len e) by lia.
      do 3 f_equal. lia.
    + eapply write_app; [exact E12|]. rewrite zlen_app, zlen_one, Hzv.
      by replace (ptr + (1 + ge_len e)) with (ptr + 1 + ge_len e) by lia.
  - destruct (write_in_bounds m ptr [ge_id e]) as (m1 & E1); [done|rewrite zlen_one; lia|].
    unfold set1. rewrite E1. ostep. pose proof (zlen_write _ _ _ _ E1) as L1.
    destruct (write_in_bounds m1 (ptr + 1) [ge_len e]) as (m2 & E2); [lia|rewrite zlen_one; lia|].
    rewrite E2. ostep. pose proof (zlen_write _ _ _ _ E2) as L2.
    destruct (write_in_bounds m2 (ptr + 2) v) as (m3 & E3); [lia|lia|]. rewrite E3. ostep.
    pose proof (zlen_write _ _ _ _ E3) as L3.
    pose proof (write_app _ _ [ge_id e] [ge_len e] _ _ E1 E2) as E12.
    pose proof (write_app _ _ ([ge_id e] ++ [ge_len e]) v _ _ E12 E3) as E123.
    destruct (IH m3 (ptr + 2 + ge_len e) (<[ge_id e:=ptr]> map)) as (m4 & E4 & W4); [lia|lia|].
    exists m4. split.
    + rewrite E4. replace (ptr + (2 + ge_len e)) with (ptr + 2 + ge_len e) by lia.
      do 3 f_equal. lia.
    + eapply write_app; [exact E123|]. rewrite zlen_app, Hzv.
      change (zlen [ge_id e; ge_len e]) with 2.
      by replace (ptr + (2 + ge_len e)) with (ptr + 2 + ge_len e) by lia.
Qed.
End encoding.

(** * Parsing the elements back *)

Section parsing.
Context (type : Z) (m : list Z) (extensionEnd : Z).
Implicit Types es : list generic_extension.

(** From [ptr] on the buffer holds the elements, then zeros up to the end. *)
Definition holds_elements (es : list generic_extension) (ptr : Z) : Prop :=
  0 <= ptr /\ ptr + zlen (elements_bytes type es) <= extensionEnd /\
  slice m ptr (zlen (elements_bytes type es)) = Ok (elements_bytes type es) /\
  forall i, ptr + zlen (elements_bytes type es) <= i < extensionEnd -> get1 m i = Ok 0.

Lemma skip_zeros_zeros fuel ptr :
  (forall i, ptr <= i < extensionEnd -> get1 m i = Ok 0) -> ptr <= extensionEnd ->
  extensionEnd - ptr <= Z.of_nat fuel -> skip_zeros fuel m ptr extensionEnd = Ok extensionEnd.
Proof.
  revert ptr. induction fuel as [|fuel IH]; intros ptr Hz Hp Hf; cbn [skip_zeros];
    destruct (Z.ltb_spec ptr extensionEnd); try (f_equal; lia); try lia.
  rewrite Hz by lia. ostep. cbn [Z.eqb]. apply IH; [|lia|lia]. intros i Hi. apply Hz. lia.
Qed.

Lemma skip_zeros_nonzero fuel ptr b : get1 m ptr = Ok b -> b <> 0 ->
  skip_zeros fuel m ptr extensionEnd = Ok ptr.
Proof.
  intros Hb Hnz. destruct fuel; cbn [skip_zeros]; destruct (ptr <? extensionEnd); try done;
    rewrite Hb; ostep; by rewrite (proj2 (Z.eqb_neq b 0)).
Qed.

Lemma elements_first es x l : Forall element_ok es -> elements_bytes type es = x :: l -> x <> 0.
Proof.
  induction 1 as [|e es He Hes IH]; [discriminate|]. cbn [elements_bytes].
  destruct (extension_kept type e) eqn:Hk; [|by cbn].
  pose proof (kept_nonzero type e He Hk). pose proof He as (_ & [??] & _).
  unfold element_bytes. destruct (Z.eqb_spec type 1) as [Ht|Ht]; cbn; intros [= <- _]; [|lia].
  destruct (kept_one_byte type e Ht He Hk). lia.
Qed.

Lemma elements_map_nil es ptr map : elements_bytes type es = [] -> elements_map type es ptr map = map.
Proof.
  revert ptr. induction es as [|e es IH]; intros ptr; [done|]. cbn [elements_bytes elements_map].
  destruct (extension_kept type e).
  - unfold element_bytes. destruct (type =? 1); discriminate.
  - by apply IH.
Qed.

(** Skipping zeros before further elements stays there or reaches the end. *)
Lemma skip_zeros_elements fuel es ptr :
  Forall element_ok es -> holds_elements es ptr -> extensionEnd - ptr <= Z.of_nat fuel ->
  exists ptr', skip_zeros fuel m ptr extensionEnd = Ok ptr' /\
    (ptr' = ptr \/ ptr' = extensionEnd /\ elements_bytes type es = []).
Proof.
  intros Hes (Hp & Hfit & Hs & Hz) Hf. destruct (elements_bytes type es) as [|x l] eqn:E.
  - change (zlen []) with 0 in *. exists extensionEnd. split; [|by right].
    apply skip_zeros_zeros; [|lia|lia]. intros i Hi. apply Hz. lia.
  - exists ptr. split; [|by left]. eapply skip_zeros_nonzero; [|by eapply elements_first].
    pose proof (zlen_nonneg l).
    rewrite <- (Z.add_0_r ptr), <- (get1_slice _ _ _ _ 0 Hs) by (rewrite zlen_cons; lia). done.
Qed.

Lemma holds_tail e es ptr : extension_kept type e = true -> element_ok e ->
  holds_elements (e :: es) ptr -> holds_elements es (ptr + extension_size type e) /\
  slice m ptr (extension_size type e) = Ok (element_bytes type e) /\
  ptr + extension_size type e <= extensionEnd.
Proof.
  intros Hk He (Hp & Hfit & Hs & Hz). cbn [elements_bytes] in *. rewrite Hk, zlen_app in *.
  pose proof (zlen_element type e He) as Hze. rewrite Hze in *.
  pose proof (zlen_nonneg (elements_bytes type es)).
  assert (0 <= extension_size type e) by (rewrite <- Hze; apply zlen_nonneg).
  rewrite slice_split in Hs by done.
  apply bind_Ok in Hs as (s1 & Hs1 & Hs). apply bind_Ok in Hs as (s2 & Hs2 & [= Heq]).
  pose proof (zlen_slice _ _ _ _ Hs1) as L1.
  apply app_inj_1 in Heq as [-> ->]; [|unfold zlen in *; lia].
  split_and!; [|done|lia]. split_and!; [lia|lia|done|]. intros i Hi. apply Hz. lia.
Qed.

Lemma holds_skip e es ptr : extension_kept type e = false ->
  holds_elements (e :: es) ptr -> holds_elements es ptr.
Proof. intros Hk. unfold holds_elements. cbn [elements_bytes]. by rewrite Hk. Qed.

Lemma one_byte_loop_end fuel ptr map : extensionEnd <= ptr ->
  one_byte_loop fuel m ptr extensionEnd map = Ok map.
Proof. intros. destruct fuel; cbn [one_byte_loop]; by rewrite (proj2 (Z.ltb_ge _ _)). Qed.

Lemma two_bytes_loop_end fuel ptr map : extensionEnd <= ptr + 1 ->
  two_bytes_loop fuel m ptr extensionEnd map = Ok map.
Proof. intros. destruct fuel; cbn [two_bytes_loop]; by rewrite (proj2 (Z.ltb_ge _ _)). Qed.

Lemma one_byte_decode i n : 0 <= n < 16 -> 0 <= i < 16 ->
  Z.shiftr (Z.land (i * 16 + n) 240) 4 = i /\ Z.land (i * 16 + n) 15 = n.
Proof.
  intros Hn Hi. split.
  - rewrite Z.shiftr_land, Z.shiftr_div_pow2 by lia. change (2 ^ 4) with 16.
    rewrite Z.div_add_l, Z.div_small, Z.add_0_r by lia.
    change (Z.shiftr 240 4) with (2 ^ 4 - 1). rewrite land_low_ones by lia.
    by rewrite Z.mod_small.
  - change 15 with (2 ^ 4 - 1). rewrite land_low_ones by lia. change (2 ^ 4) with 16.
    rewrite Z.add_comm, Z.mod_add by lia. by rewrite Z.mod_small.
Qed.

Lemma one_byte_loop_elements es fuel ptr map : type = 1 ->
  Forall element_ok es -> holds_elements es ptr -> extensionEnd - ptr <= Z.of_nat fuel ->
  one_byte_loop fuel m ptr extensionEnd map = Ok (elements_map type es ptr map).
Proof.
  intros Ht Hes. revert fuel ptr map. induction Hes as [|e es He Hes IH]; intros fuel ptr map Hh Hf.
  - destruct (Z.le_gt_cases extensionEnd ptr); [by apply one_byte_loop_end|].
    destruct fuel as [|fuel]; [lia|]. cbn [one_byte_loop].
    rewrite (proj2 (Z.ltb_lt ptr extensionEnd)) by lia.
    destruct Hh as (_ & _ & _ & Hz). change (zlen (elements_bytes type [])) with 0 in Hz.
    rewrite Hz by lia. ostep. change (Z.shiftr (Z.land 0 240) 4) with 0. cbn [Z.eqb negb].
    rewrite skip_zeros_zeros; [|intros; apply Hz; lia|lia|lia].
    ostep. by apply one_byte_loop_end.
  - cbn [elements_map]. destruct (extension_kept type e) eqn:Hk.
    2: { apply IH; [by eapply holds_skip|lia]. }
    destruct (kept_one_byte type e Ht He Hk) as [Hid Hlen].
    destruct (holds_tail e es ptr Hk He Hh) as (Hh' & Hs & Hfit).
    assert (extension_size type e = 1 + ge_len e) as Hsize by (unfold extension_size; by rewrite Ht).
    rewrite Hsize in *. destruct fuel as [|fuel]; [lia|]. cbn [one_byte_loop].
    rewrite (proj2 (Z.ltb_lt ptr extensionEnd)) by lia.
    assert (get1 m ptr = Ok (ge_id e * 16 + (ge_len e - 1))) as ->.
    { rewrite <- (Z.add_0_r ptr), <- (get1_slice _ _ _ _ 0 Hs) by lia.
      unfold element_bytes. by rewrite Ht. }
    ostep. destruct (one_byte_decode (ge_id e) (ge_len e - 1)) as [-> ->]; [lia|lia|].
    rewrite (proj2 (Z.eqb_neq (ge_id e) 15)), (proj2 (Z.eqb_neq (ge_id e) 0)) by lia. cbn [negb].
    replace (ge_len e - 1 + 1) with (ge_len e) by lia.
    rewrite (proj2 (Z.ltb_ge extensionEnd (ptr + 1 + ge_len e))) by lia.
    destruct (skip_zeros_elements fuel es (ptr + (1 + ge_len e)) Hes Hh') as (ptr' & -> & Hcase);
      [lia|]. ostep.
    destruct Hcase as [-> |[-> Hnil]]; [apply IH; [done|lia]|].
    rewrite (elements_map_nil es) by done. by apply one_byte_loop_end.
Qed.

Lemma two_bytes_loop_elements es fuel ptr map : type = 2 ->
  Forall element_ok es -> holds_elements es ptr -> extensionEnd - ptr <= Z.of_nat fuel ->
  two_bytes_loop fuel m ptr extensionEnd map = Ok (elements_map type es ptr map).
Proof.
  intros Ht Hes. revert fuel ptr map. induction Hes as [|e es He Hes IH]; intros fuel ptr map Hh Hf.
  - destruct (Z.le_gt_cases extensionEnd (ptr + 1)); [by apply two_bytes_loop_end|].
    destruct fuel as [|fuel]; [lia|]. cbn [two_bytes_loop].
    rewrite (proj2 (Z.ltb_lt (ptr + 1) extensionEnd)) by lia.
    destruct Hh as (_ & _ & _ & Hz). change (zlen (elements_bytes type [])) with 0 in Hz.
    rewrite !Hz by lia. ostep. cbn [Z.eqb negb].
    rewrite skip_zeros_zeros; [|intros; apply Hz; lia|lia|lia].
    ostep. apply two_bytes_loop_end. lia.
  - cbn [elements_map]. destruct (extension_kept type e) eqn:Hk.
    2: { apply IH; [by eapply holds_skip|lia]. }
    pose proof (kept_nonzero type e He Hk) as Hid. pose proof He as (_ & [Hl0 _] & _).
    destruct (holds_tail e es ptr Hk He Hh) as (Hh' & Hs & Hfit).
    assert (extension_size type e = 2 + ge_len e) as Hsize by (unfold extension_size; by rewrite Ht).
    rewrite Hsize in *. destruct fuel as [|fuel]; [lia|]. cbn [two_bytes_loop].
    rewrite (proj2 (Z.ltb_lt (ptr + 1) extensionEnd)) by lia.
    assert (get1 m ptr = Ok (ge_id e)) as ->.
    { rewrite <- (Z.add_0_r ptr), <- (get1_slice _ _ _ _ 0 Hs) by lia.
      unfold element_bytes. by rewrite Ht. }
    assert (get1 m (ptr + 1) = Ok (ge_len e)) as ->.
    { rewrite <- (get1_slice _ _ _ _ 1 Hs) by lia. unfold element_bytes. by rewrite Ht. }
    ostep. rewrite (proj2 (Z.eqb_neq (ge_id e) 0)) by lia. cbn [negb].
    rewrite (proj2 (Z.ltb_ge extensionEnd (ptr + 2 + ge_len e))) by lia.
    destruct (skip_zeros_elements fuel es (ptr + (2 + ge_len e)) Hes Hh') as (ptr' & -> & Hcase);
      [lia|]. ostep.
    destruct Hcase as [-> |[-> Hnil]]; [apply IH; [done|lia]|].
    rewrite (elements_map_nil es) by done. apply two_bytes_loop_end. lia.
Qed.

(** The map points to the elements, when no two of them have the same id. *)
Lemma elements_map_other es ptr map i :
  (forall e, e ∈ es -> extension_kept type e = true -> ge_id e <> i) ->
  elements_map type es ptr map !! i = map !! i.
Proof.
  revert ptr map. induction es as [|e es IH]; intros ptr map Hne; [done|]. cbn [elements_map].
  destruct (extension_kept type e) eqn:Hk.
  - rewrite IH by (intros; apply Hne; [by apply elem_of_cons; right|done]).
    apply lookup_insert_ne. apply Hne; [by apply elem_of_cons; left|done].
  - apply IH. intros; apply Hne; [by apply elem_of_cons; right|done].
Qed.

Lemma elements_map_lookup es ptr map e :
  Forall element_ok es -> holds_elements es ptr -> NoDup (ge_id <$> es) ->
  e ∈ es -> extension_kept type e = true ->
  exists o, elements_map type es ptr map !! ge_id e = Some o /\
    slice m o (extension_size type e) = Ok (element_bytes type e) /\
    ptr <= o /\ o + extension_size type e <= extensionEnd.
Proof.
  intros Hes. revert ptr map. induction Hes as [|x es Hx Hes IH]; intros ptr map Hh Hnd Hin Hk;
    [set_solver|].
  cbn [fmap list_fmap] in Hnd. apply NoDup_cons in Hnd as [Hni Hnd]. cbn [elements_map].
  assert (0 <= extension_size type x) as Hsz
    by (rewrite <- (zlen_element type x Hx); apply zlen_nonneg).
  apply elem_of_cons in Hin as [->|Hin].
  - rewrite Hk. destruct (holds_tail x es ptr Hk Hx Hh) as (_ & Hs & Hfit). exists ptr.
    rewrite elements_map_other.
    + rewrite lookup_insert_eq. split_and!; [done|done|lia|done].
    + intros y Hy _ Heq. apply Hni. rewrite <- Heq. by apply list_elem_of_fmap_2.
  - destruct (extension_kept type x) eqn:Hkx.
    + destruct (holds_tail x es ptr Hkx Hx Hh) as (Hh' & _ & _).
      destruct (IH _ (<[ge_id x:=ptr]> map) Hh' Hnd Hin Hk) as (o & ? & ? & ? & ?).
      exists o. split_and!; [done|done|lia|done].
    + apply IH; [by eapply holds_skip|done..].
Qed.
End parsing.

(** * The steps of [SetExtensions] *)

Section steps.
Implicit Types p q : rtp_packet.

Definition type_matches (type i : Z) : Prop :=
  if type =? 1 then i = 48862 else Z.land i 65520 = 4096.

Lemma type_matches_type_id type : type = 1 \/ type = 2 -> type_matches type (type_id type).
Proof. by intros [->| ->]. Qed.

Lemma set_extension_type_spec p type : rtp_wf p -> type = 1 \/ type = 2 ->
  exists q, set_extension_type p type = Ok q /\ rtp_wf q /\
    same_shape p q /\ payloadLength q = payloadLength p /\ payloadPadding q = payloadPadding p /\
    size q = size p /\ payload_bytes q = payload_bytes p /\
    (forall i, i < HeaderSize -> get1 (mem q) i = get1 (mem p) i) /\
    match headerExtension p with
    | Some h => exists i, Get2Bytes (mem q) h = Ok i /\ type_matches type i
    | None => q = p
    end.
Proof.
  intros Hwf Ht. destruct (wf_payload p Hwf) as (Hp12 & Hfit & count & Hc & Hcr & Hlay).
  unfold set_extension_type, HasTwoBytesExtensions, HasOneByteExtensions, GetHeaderExtensionId.
  destruct (headerExtension p) as [h|] eqn:Eh.
  2: { ostep. exists p. split.
       - by destruct (type =? 1), (type =? 2).
       - split_and!; done. }
  destruct Hlay as (-> & n & Hn & [Hn0 _] & Hpl). unfold HeaderSize in *.
  set (h := 12 + count * 4) in *. pose proof Hwf as [Hm Hsz _ _ (Hl & Hk & Hsum) (Hpad & Hpb)].
  destruct (Get2Bytes_in_bounds (mem p) h) as (i & Hi & _); [lia|lia|]. rewrite Hi. ostep.
  destruct ((type =? 1) && (i =? 48862) || (type =? 2) && (Z.land i 65520 =? 4096)) eqn:Ematch.
  - exists p. split; [by destruct ((type =? 1) && (i =? 48862)), ((type =? 2) && (Z.land i 65520 =? 4096))|].
    split_and!; try done. exists i. split; [done|]. unfold type_matches.
    destruct Ht as [->| ->]; cbn in Ematch |- *; lia.
  - apply orb_false_iff in Ematch as [-> ->].
    destruct (sets_Set2Bytes (mem p) h (type_id type)) as (m & E & [Lm Fm] & Bm & Sm); [lia|lia|].
    change (Z.of_nat 2) with 2 in *. specialize (Bm Hm). rewrite E. ostep.
    exists (set_mem p m). split; [done|].
    assert (forall i, i < h -> get1 m i = get1 (mem p) i) as Flow by (intros; apply Fm; lia).
    assert (forall i, h + 2 <= i -> get1 m i = get1 (mem p) i) as Fhigh by (intros; apply Fm; lia).
    split; [|split; [split_and!; done|split; [done|split; [done|split; [done|split; [|split]]]]]].
    + assert (forall lo k, get_bits m 0 lo k = get_bits (mem p) 0 lo k) as G
        by (intros; apply get_bits_ext, Flow; lia).
      apply (wf_rebuild_extension p); cbn [set_mem mem size csrcList payload payloadLength
        payloadPadding headerExtension]; try done; try (unfold HeaderSize; lia).
      * apply G.
      * apply G.
      * rewrite <- Hpad. apply G.
      * intros Hnz. rewrite Fhigh by lia. by apply Hpb.
      * intros count' Hc'. rewrite Eh. assert (count' = count) as -> by congruence.
        pose proof (wf_layout p Hwf) as (count'' & _ & _ & Hlay). rewrite Eh in Hlay.
        destruct Hlay as (Hx & _). split; [rewrite <- Hx; apply G|]. split; [done|].
        exists n. split; [|done]. rewrite <- Hn. apply Get2Bytes_ext. intros; apply Fhigh; lia.
    + unfold payload_bytes. cbn [set_mem mem payload payloadLength].
      apply slice_ext; [done|]. intros; apply Fhigh; lia.
    + intros j Hj. cbn [set_mem mem]. apply Flow. lia.
    + exists (u16 (type_id type)). split; [by apply (Set2Bytes_read (mem p))|].
      destruct Ht as [->| ->]; by vm_compute.
Qed.

Lemma swrap16_u64 z : - 32768 <= z < 32768 -> swrap 16 (u64 z) = z.
Proof.
  intros Hz. unfold swrap, wrap. change (2 ^ (16 - 1)) with 32768. change (2 ^ 16) with 65536.
  change (2 ^ 64) with (65536 * 281474976710656).
  rewrite <- Zplus_mod_idemp_l, Z.mod_mod_divide by by exists 281474976710656.
  rewrite Zplus_mod_idemp_l, Z.mod_small by lia. lia.
Qed.

Lemma swrap16_small z : - 32768 <= z < 32768 -> swrap 16 z = z.
Proof.
  intros Hz. unfold swrap. change (2 ^ (16 - 1)) with 32768. change (2 ^ 16) with 65536.
  rewrite Z.mod_small by lia. lia.
Qed.

(** The length of the header extension, id and length fields included. *)
Definition extension_length p : Z :=
  match headerExtension p with
  | None => 0
  | Some h => payload p - h
  end.

(** The payload and its padding after they were moved by [shift]. *)
Lemma shift_payload_by_spec p shift :
  bytes (mem p) -> 0 <= payload p + shift -> 0 <= payload p ->
  0 <= payloadLength p -> 0 <= payloadPadding p ->
  payload p + payloadLength p + payloadPadding p = size p -> size p <= zlen (mem p) ->
  size p + shift <= zlen (mem p) -> zlen (mem p) < 2 ^ 32 ->
  exists m, shift_payload_by p shift
    = Ok (set_payload (set_mem p m) (payload p + shift) (payloadLength p) (payloadPadding p)
            (size p + shift)) /\
    bytes m /\ zlen m = zlen (mem p) /\
    (forall i, i < payload p + shift -> get1 m i = get1 (mem p) i) /\
    slice m (payload p + shift) (payloadLength p) = payload_bytes p /\
    (payloadPadding p <> 0 -> get1 m (size p + shift - 1) = get1 (mem p) (size p - 1)).
Proof.
  intros Hm Hps Hp0 Hl Hk Hsum Hfit Hroom Hsmall. unfold shift_payload_by.
  set (n := payloadLength p + payloadPadding p).
  destruct (memmove_in_bounds (mem p) (payload p + shift) (payload p) n) as (m & E); [lia..|].
  rewrite E. ostep. exists m. rewrite wrap_small by (unfold in_uint; lia).
  destruct (same_except_memmove _ _ _ _ _ E) as [Lm Fm].
  split; [done|]. split; [by eapply bytes_memmove|]. split; [done|]. split; [|split].
  - intros i Hi. apply Fm. lia.
  - pose proof (slice_memmove _ _ _ _ _ E) as Hmv. unfold n in Hmv. rewrite !slice_split in Hmv by done.
    unfold payload_bytes.
    destruct (slice_in_bounds m (payload p + shift) (payloadLength p)) as (x & Hx); [lia..|].
    destruct (slice_in_bounds (mem p) (payload p) (payloadLength p)) as (y & Hy); [lia..|].
    destruct (slice_in_bounds m (payload p + shift + payloadLength p) (payloadPadding p)) as (u & Hu); [lia..|].
    destruct (slice_in_bounds (mem p) (payload p + payloadLength p) (payloadPadding p)) as (v & Hv); [lia..|].
    rewrite Hx, Hy, Hu, Hv in Hmv. cbn in Hmv. injection Hmv as Hmv.
    apply app_inj_1 in Hmv as [-> _]; [congruence|].
    apply zlen_slice in Hx. apply zlen_slice in Hy. unfold zlen in *. lia.
  - intros Hnz. rewrite (get1_memmove (mem p) _ _ n m _ ltac:(lia) E).
    rewrite (proj2 (Z.leb_le _ _)), (proj2 (Z.ltb_lt _ _)) by lia. cbn [andb]. f_equal. lia.
Qed.

Lemma resize_extension_spec p type T :
  rtp_wf p -> type = 1 \/ type = 2 -> 0 <= T <= 32000 -> T `mod` 4 = 0 ->
  extension_length p <= 32000 ->
  size p - extension_length p + 4 + T <= zlen (mem p) -> zlen (mem p) < 2 ^ 32 ->
  match headerExtension p with
  | Some h => exists i, Get2Bytes (mem p) h = Ok i /\ type_matches type i
  | None => True
  end ->
  exists h q, resize_extension p type T = Ok (h, q) /\ rtp_wf q /\
    headerExtension q = Some h /\ HeaderSize <= h /\ payload q = h + 4 + T /\
    csrcList q = csrcList p /\ ids q = ids p /\ zlen (mem q) = zlen (mem p) /\
    payloadLength q = payloadLength p /\ payloadPadding q = payloadPadding p /\
    payload_bytes q = payload_bytes p /\
    (forall i, 1 <= i < HeaderSize -> get1 (mem q) i = get1 (mem p) i) /\
    Get2Bytes (mem q) (h + 2) = Ok (T / 4) /\
    exists i, Get2Bytes (mem q) h = Ok i /\ type_matches type i.
Proof.
  intros Hwf Ht HT Hmod Hold Hroom Hsmall Hid.
  destruct (wf_payload p Hwf) as (Hp12 & Hfit & count & Hc & Hcr & Hlay).
  pose proof Hwf as [Hm Hsz _ (count' & Hc' & _ & Hlay') (Hl & Hk & Hsum) (Hpad & Hpb)].
  assert (count' = count) as -> by congruence. clear Hc'.
  pose proof (Z.div_mod T 4) as HT4. assert (0 <= T / 4 < 65536) as HTr
    by (split; [apply Z.div_pos; lia|apply Z.div_lt_upper_bound; lia]).
  unfold resize_extension, GetHeaderExtensionLength, extension_length, HeaderSize in *.
  destruct (headerExtension p) as [h|] eqn:Eh.
  - destruct Hlay as (-> & n & Hn & [Hn0 _] & Hpl). set (h := 12 + count * 4) in *.
    destruct Hlay' as (Hx & _). rewrite Hn. ostep.
    rewrite swrap16_u64 by lia.
    destruct (Z.eqb_spec (T - n * 4) 0) as [Hz|Hnz]; cbn [negb].
    + exists h, p. split; [done|]. split_and!; try done; try lia. rewrite Hn. f_equal. lia.
    + destruct (shift_payload_by_spec p (T - n * 4)) as (m & -> & Bm & Lm & Fm & Sm & Pm);
        [done|lia..|]. ostep. cbn [mem set_payload set_mem].
      destruct (sets_Set2Bytes m (h + 2) (u16 (T / 4))) as (m2 & E2 & [L2 F2] & B2 & _); [lia|lia|].
      change (Z.of_nat 2) with 2 in *. specialize (B2 Bm). rewrite E2. ostep.
      set (q := set_mem _ m2). exists h, q. split; [done|].
      assert (forall i, i < h + 2 -> get1 m2 i = get1 (mem p) i) as Flow
        by (intros; rewrite F2, Fm by lia; done).
      assert (forall lo k, get_bits m2 0 lo k = get_bits (mem p) 0 lo k) as G
        by (intros; apply get_bits_ext, Flow; lia).
      assert (Get2Bytes m2 (h + 2) = Ok (T / 4)) as Hlen2.
      { rewrite (Set2Bytes_read _ _ _ _ B2 E2), wrap_wrap, wrap_small by (unfold in_uint; lia). done. }
      subst q. cbn [mem set_payload set_mem headerExtension payload csrcList ids payloadLength
        payloadPadding]. split.
      { apply (wf_rebuild_extension p); cbn [mem set_payload set_mem headerExtension payload csrcList
          ids payloadLength payloadPadding size]; try done; try (unfold HeaderSize; lia).
        - apply G.
        - apply G.
        - rewrite <- Hpad. apply G.
        - intros Hnzp. rewrite F2 by lia. rewrite Pm by done. by apply Hpb.
        - intros c Hcc. rewrite Eh. assert (c = count) as -> by congruence.
          split; [rewrite <- Hx; apply G|]. split; [done|]. exists (T / 4). split; [done|]. lia. }
      split_and!; try done; try lia; try congruence.
      * unfold payload_bytes. cbn [mem set_payload set_mem payload payloadLength].
        transitivity (slice m (payload p + (T - n * 4)) (payloadLength p)); [|exact Sm].
        apply slice_ext; [done|]. intros; apply F2; lia.
      * intros i Hi. apply Flow. lia.
      * destruct Hid as (i & Hi & ?). exists i. split; [|done]. rewrite <- Hi.
        apply Get2Bytes_ext. intros; apply Flow; lia.
  - destruct Hlay' as (Hx & _). ostep.
    rewrite (swrap16_small T), swrap16_small by lia.
    destruct (set_bits_in_bounds (mem p) 0 4 1 1) as (m0 & E0); [lia|]. rewrite E0. ostep.
    pose proof (zlen_set_bits _ _ _ _ _ _ E0) as L0.
    pose proof (bytes_set_bits (mem p) 0 4 1 1 m0 Hm ltac:(lia) ltac:(lia) ltac:(lia) E0) as B0.
    set (p0 := set_header_extension _ _).
    assert (forall i, i <> 0 -> get1 m0 i = get1 (mem p) i) as F0
      by (intros; by eapply get1_set_bits_other).
    destruct (shift_payload_by_spec p0 (4 + T)) as (m & -> & Bm & Lm & Fm & Sm & Pm);
      cbn [p0 set_header_extension set_mem mem payload payloadLength payloadPadding size]; try done; try lia.
    ostep. cbn [p0 set_header_extension set_mem set_payload mem payload payloadLength payloadPadding
      size] in *.
    destruct (sets_Set2Bytes m (payload p) (type_id type)) as (m1 & E1 & [L1 F1] & B1 & _); [lia|lia|].
    change (Z.of_nat 2) with 2 in *. specialize (B1 Bm). rewrite E1. ostep.
    destruct (sets_Set2Bytes m1 (payload p + 2) (u16 (T / 4))) as (m2 & E2 & [L2 F2] & B2 & _); [lia|lia|].
    change (Z.of_nat 2) with 2 in *. specialize (B2 B1). rewrite E2. ostep.
    exists (payload p). eexists. split; [done|].
    assert (forall lo k, 0 <= lo -> 0 <= k -> lo + k <= 4 \/ 5 <= lo ->
              get_bits m2 0 lo k = get_bits (mem p) 0 lo k) as G.
    { intros lo k Hlo Hkk Hd. transitivity (get_bits m0 0 lo k).
      - apply get_bits_ext. by rewrite F2, F1, Fm by lia.
      - eapply get_bits_set_other; [..|exact E0]; lia. }
    assert (get_bits m2 0 4 1 = Ok 1) as Hx1.
    { transitivity (get_bits m0 0 4 1).
      - apply get_bits_ext. by rewrite F2, F1, Fm by lia.
      - by rewrite (get_bits_set_same (mem p) 0 4 1 1 m0 ltac:(lia) ltac:(lia) E0). }
    assert (Get2Bytes m2 (payload p + 2) = Ok (T / 4)) as Hlen2.
    { rewrite (Set2Bytes_read _ _ _ _ B2 E2), wrap_wrap, wrap_small by (unfold in_uint; lia). done. }
    cbn [mem set_payload set_mem set_header_extension headerExtension payload csrcList ids
      payloadLength payloadPadding]. split.
    { apply (wf_rebuild_extension p); cbn [mem set_payload set_mem headerExtension payload csrcList
        ids payloadLength payloadPadding size]; try done; try (unfold HeaderSize; lia).
      - apply G; lia.
      - apply G; lia.
      - rewrite <- Hpad. apply G; lia.
      - intros Hnzp. rewrite F2, F1 by lia. rewrite Pm by done. rewrite F0 by lia. by apply Hpb.
      - intros c Hcc. assert (c = count) as -> by congruence. split; [done|].
        split; [done|]. exists (T / 4). split; [done|]. lia. }
    split_and!; try done; try lia; try congruence.
    + unfold payload_bytes in *. cbn [mem set_payload set_mem payload payloadLength] in *.
      transitivity (slice m0 (payload p) (payloadLength p)).
      * transitivity (slice m (payload p + (4 + T)) (payloadLength p)); [|exact Sm].
        apply slice_ext; [congruence|]. intros; by rewrite F2, F1 by lia.
      * apply slice_ext; [done|]. intros; apply F0; lia.
    + intros i Hi. by rewrite F2, F1, Fm, F0 by lia.
    + exists (u16 (type_id type)). split; [|by destruct Ht as [->| ->]; vm_compute].
      rewrite <- (Set2Bytes_read _ _ _ _ B1 E1). apply Get2Bytes_ext. intros; apply F2; lia.
Qed.
End steps.

(** * [SetExtensions] *)

Section set_extensions.
Implicit Types p q : rtp_packet.

Definition padded (type : Z) (es : list generic_extension) : Z :=
  4 * ((extensions_size type es + 3) / 4).

Lemma extensions_size_nonneg type es : Forall element_ok es -> 0 <= extensions_size type es.
Proof. intros Hes. rewrite <- zlen_elements by done. apply zlen_nonneg. Qed.

Lemma padded_bounds type es : 0 <= extensions_size type es ->
  extensions_size type es <= padded type es <= extensions_size type es + 3 /\
  padded type es `mod` 4 = 0.
Proof.
  intros Hs. unfold padded. pose proof (Z.div_mod (extensions_size type es + 3) 4).
  pose proof (Z.mod_pos_bound (extensions_size type es + 3) 4).
  split; [lia|]. rewrite Z.mul_comm. apply Z.mod_mul. lia.
Qed.

(** The elements and their padding, written at once. *)
Lemma write_elements type es m ptr :
  Forall element_ok es -> bytes m -> 0 <= ptr -> ptr + padded type es <= zlen m ->
  exists m1 m2, write_extensions type es m ptr ∅
      = Ok (m1, ptr + extensions_size type es, elements_map type es ptr ∅) /\
    memset m1 (ptr + extensions_size type es) 0 (padded type es - extensions_size type es) = Ok m2 /\
    bytes m2 /\ same_except ptr (ptr + padded type es) m m2 /\
    holds_elements type m2 (ptr + padded type es) es ptr.
Proof.
  intros Hes Hm Hptr Hfit. pose proof (extensions_size_nonneg type es Hes) as Hs0.
  destruct (padded_bounds type es Hs0) as [Hpb _].
  destruct (write_extensions_spec type es m ptr ∅) as (m1 & E1 & W1); [done|done|lia|].
  pose proof (zlen_elements type es Hes) as Hze.
  pose proof (zlen_write _ _ _ _ W1) as L1. rewrite E1.
  set (z := replicate (Z.to_nat (padded type es - extensions_size type es)) 0).
  assert (zlen z = padded type es - extensions_size type es) as Hz
    by (unfold z, zlen; rewrite length_replicate; lia).
  destruct (write_in_bounds m1 (ptr + extensions_size type es) z) as (m2 & W2); [lia|lia|].
  exists m1, m2. split; [done|]. split; [exact W2|]. rewrite <- Hze in W2.
  pose proof (write_app _ _ _ _ _ _ W1 W2) as W.
  assert (bytes z) as Bz by (apply Forall_replicate; unfold in_uint; lia).
  assert (zlen (elements_bytes type es ++ z) = padded type es) as Hlen by (rewrite zlen_app; lia).
  split; [|split].
  - eapply bytes_write; [exact Hm| |exact W]. apply Forall_app. by split; [apply bytes_elements|].
  - rewrite <- Hlen. by apply same_except_write.
  - split_and!; [done|lia| |].
    + apply slice_write_same in W. rewrite zlen_app, slice_split in W by apply zlen_nonneg.
      apply bind_Ok in W as (s1 & Hs1 & W). apply bind_Ok in W as (s2 & Hs2 & [= Heq]).
      apply app_inj_1 in Heq as [-> _]; [done|]. apply zlen_slice in Hs1. unfold zlen in *. lia.
    + intros i Hi. rewrite (get1_write _ _ _ _ i W2), Hze in *.
      rewrite (proj2 (Z.leb_le _ _)), (proj2 (Z.ltb_lt _ _)) by lia. cbn [andb].
      apply get1_Ok. split; [lia|]. unfold z. apply lookup_replicate_2. lia.
Qed.

Definition fits_extensions (p : rtp_packet) (type : Z) (es : list generic_extension) : Prop :=
  Forall element_ok es /\ extensions_size type es <= 30000 /\ extension_length p <= 32000 /\
  size p - extension_length p + 4 + padded type es <= zlen (mem p) /\ zlen (mem p) < 2 ^ 32.

Lemma SetExtensions_spec p type es :
  rtp_wf p -> type = 1 \/ type = 2 -> fits_extensions p type es ->
  exists q h, SetExtensions p type es = Ok q /\ rtp_wf q /\
    headerExtension q = Some h /\ payload q = h + 4 + padded type es /\
    ids q = no_ids /\ zlen (mem q) = zlen (mem p) /\
    payloadLength q = payloadLength p /\ payloadPadding q = payloadPadding p /\
    payload_bytes q = payload_bytes p /\
    (forall i, 1 <= i < HeaderSize -> get1 (mem q) i = get1 (mem p) i) /\
    (exists i, Get2Bytes (mem q) h = Ok i /\ type_matches type i) /\
    Get2Bytes (mem q) (h + 2) = Ok (padded type es / 4) /\ 0 <= h /\
    holds_elements type (mem q) (payload q) es (h + 4) /\
    mapOneByteExtensions q = (if type =? 1 then elements_map type es (h + 4) ∅ else ∅) /\
    mapTwoBytesExtensions q = (if type =? 1 then ∅ else elements_map type es (h + 4) ∅).
Proof.
  intros Hwf Ht (Hes & Hsize & Hold & Hroom & Hsmall). unfold SetExtensions.
  assert ((type =? 1) || (type =? 2) = true) as -> by (destruct Ht as [->| ->]; done). ostep.
  set (p0 := set_maps (set_ids p no_ids) ∅ ∅).
  assert (rtp_wf p0) as Hwf0 by (destruct Hwf; by split).
  destruct (set_extension_type_spec p0 type Hwf0 Ht)
    as (p1 & -> & Hwf1 & (Hs1 & Hs2 & Hs3 & _ & _ & Hs6 & Hs7) & Hl1 & Hk1 & Hz1 & Hb1 & Fh1 & Hid1).
  ostep. pose proof (extensions_size_nonneg type es Hes) as Hs0.
  destruct (padded_bounds type es Hs0) as [Hpb Hmod].
  assert (PadTo4Bytes16 (u16 (extensions_size type es)) = padded type es) as ->.
  { rewrite wrap_small by (unfold in_uint; lia). apply PadTo4Bytes16_spec. lia. }
  assert (u64 (padded type es - extensions_size type es) = padded type es - extensions_size type es)
    as -> by (apply wrap_small; unfold in_uint; lia).
  assert (extension_length p1 = extension_length p) as He1
    by (unfold extension_length; by rewrite Hs2, Hs3).
  cbn [p0 set_maps set_ids mem ids headerExtension payload payloadLength payloadPadding size] in *.
  destruct (resize_extension_spec p1 type (padded type es)) as
    (h & p2 & -> & Hwf2 & Hh2 & Hh12 & Hpl2 & Hc2 & Hi2 & Hzl2 & Hl2 & Hk2 & Hb2 & Fh2 & Hn2 & Hid2);
    [done|done|lia|done|lia|lia|lia| |].
  { rewrite Hs2. by destruct (headerExtension p). }
  ostep. unfold HeaderSize in *. pose proof Hwf2 as [Hm2 Hf2 _ (count & Hcc2 & _ & Hlay2) (? & ? & Hsum2) (Hpad2 & Hpb2)].
  destruct (write_elements type es (mem p2) (h + 4)) as (m1 & m2 & -> & Hset & Bm & [Lm Fm] & Hholds);
    [done|done|lia|lia|].
  ostep. rewrite Hset. ostep.
  rewrite (proj2 (Z.eqb_eq _ (payload p2))) by lia. ostep.
  eexists. exists h. split; [done|].
  cbn [set_maps set_mem mem headerExtension payload ids payloadLength payloadPadding
       mapOneByteExtensions mapTwoBytesExtensions].
  assert (forall i, i < h + 4 -> get1 m2 i = get1 (mem p2) i) as Flow by (intros; apply Fm; lia).
  assert (forall i, payload p2 <= i -> get1 m2 i = get1 (mem p2) i) as Fhigh by (intros; apply Fm; lia).
  split.
  { assert (forall lo k, get_bits m2 0 lo k = get_bits (mem p2) 0 lo k) as G
      by (intros; apply get_bits_ext, Flow; lia).
    apply (wf_rebuild_extension p2); cbn [set_maps set_mem mem headerExtension payload csrcList
      payloadLength payloadPadding size]; try done; try (unfold HeaderSize; lia).
    - apply G.
    - apply G.
    - rewrite <- Hpad2. apply G.
    - intros Hnz. rewrite Fhigh by lia. by apply Hpb2.
    - intros c Hc. assert (c = count) as -> by congruence. rewrite Hh2 in *.
      destruct Hlay2 as (Hx & Hh & n & Hn & Hp). split; [rewrite <- Hx; apply G|]. split; [done|].
      exists n. split; [|done]. rewrite <- Hn. apply Get2Bytes_ext. intros; apply Flow; lia. }
  split; [done|]. split; [done|]. split; [congruence|]. split; [congruence|].
  split; [congruence|]. split; [congruence|]. split.
  { transitivity (payload_bytes p2); [|rewrite Hb2; exact Hb1]. unfold payload_bytes.
    cbn [set_maps set_mem mem payload payloadLength]. apply slice_ext; [congruence|].
    intros; apply Fhigh; lia. }
  split.
  { intros i Hi. rewrite Flow, Fh2, Fh1 by lia. done. }
  split.
  { destruct Hid2 as (i & Hi & ?). exists i. split; [|done]. rewrite <- Hi.
    apply Get2Bytes_ext. intros; apply Flow; lia. }
  split.
  { rewrite <- Hn2. apply Get2Bytes_ext. intros; apply Flow; lia. }
  split; [lia|]. rewrite Hpl2. split; [done|].
  destruct Ht as [->| ->]; done.
Qed.
End set_extensions.

(** * Properties *)

Lemma get_extension_parsed type r e o :
  type = 1 \/ type = 2 -> element_ok e -> extension_kept type e = true -> 0 < ge_len e ->
  bytes (mem r) -> (exists h i, headerExtension r = Some h /\ Get2Bytes (mem r) h = Ok i /\
                                type_matches type i) ->
  (if type =? 1 then mapOneByteExtensions r else mapTwoBytesExtensions r) !! ge_id e = Some o ->
  slice (mem r) o (extension_size type e) = Ok (element_bytes type e) ->
  exists v, GetExtension r (ge_id e) = Ok (Some (v, ge_len e)) /\
    slice (mem r) v (ge_len e) = Ok (take (Z.to_nat (ge_len e)) (ge_value e)).
Proof.
  intros Ht He Hk Hlen Hm (h & i & Hh & Hi & Hmatch) Hmap Hs.
  pose proof (kept_nonzero type e He Hk) as Hid. unfold GetExtension.
  rewrite (proj2 (Z.eqb_neq (ge_id e) 0)) by lia.
  unfold HasTwoBytesExtensions, HasOneByteExtensions, GetHeaderExtensionId. rewrite Hh, Hi. ostep.
  unfold type_matches in Hmatch. unfold extension_size in Hs. destruct Ht as [->| ->].
  - cbn [Z.eqb Pos.eqb] in *. subst i. cbn [Z.eqb Pos.eqb]. rewrite Hmap.
    destruct (kept_one_byte 1 e eq_refl He Hk) as [Hid' Hl'].
    rewrite slice_cons in Hs by lia. apply bind_Ok in Hs as (b & Hb & Hs).
    apply bind_Ok in Hs as (v & Hv & [= Hbv Hvv]). subst b v.
    unfold get_bits. rewrite Hb. ostep. rewrite Z.shiftr_0_r. change (2 ^ 4 - 1) with 15.
    destruct (one_byte_decode (ge_id e) (ge_len e - 1)) as [_ ->]; [lia|lia|].
    exists (o + 1). split; [do 3 f_equal; lia|exact Hv].
  - cbn [Z.eqb Pos.eqb] in *.
    rewrite (proj2 (Z.eqb_neq i 48862)) by (intros ->; by vm_compute in Hmatch). ostep.
    rewrite Hmatch. cbn [Z.eqb Pos.eqb]. rewrite Hmap.
    replace (2 + ge_len e) with (1 + (1 + ge_len e)) in Hs by lia.
    rewrite !slice_cons in Hs by lia. apply bind_Ok in Hs as (b & Hb & Hs).
    apply bind_Ok in Hs as (v & Hv & [= Hbv Hvv]). subst b v.
    apply bind_Ok in Hv as (b & Hb2 & Hv). apply bind_Ok in Hv as (v & Hv & [= Hbv Hvv]). subst b v.
    rewrite Hb2. ostep. rewrite (proj2 (Z.eqb_neq (ge_len e) 0)) by lia.
    exists (o + 2). split; [done|]. by replace (o + 2) with (o + 1 + 1) by lia.
Qed.

(** The parser's maps of a packet that [SetExtensions] has written. *)
Lemma parsed_maps type es q r h :
  type = 1 \/ type = 2 -> Forall element_ok es -> bytes (mem q) ->
  headerExtension q = Some h -> payload q = h + 4 + padded type es ->
  Get2Bytes (mem q) (h + 2) = Ok (padded type es / 4) ->
  (exists i, Get2Bytes (mem q) h = Ok i /\ type_matches type i) ->
  holds_elements type (mem q) (payload q) es (h + 4) ->
  new_RtpPacket (mem q) (headerExtension q) (payload q) (payloadLength q) (payloadPadding q)
    (size q) = Ok r ->
  (if type =? 1 then mapOneByteExtensions r else mapTwoBytesExtensions r)
  = elements_map type es (h + 4) ∅.
Proof.
  intros Ht Hes Hm Hh Hpl Hlen (i & Hi & Hmatch) Hholds Hnew.
  destruct (padded_bounds type es (extensions_size_nonneg type es Hes)) as [_ Hmod].
  pose proof (Z.div_mod (padded type es) 4).
  assert (padded type es / 4 * 4 = padded type es) as Hmul by lia.
  unfold new_RtpPacket in Hnew. apply bind_Ok in Hnew as (c & _ & Hnew).
  unfold ParseExtensions, HasTwoBytesExtensions, HasOneByteExtensions, GetHeaderExtensionId,
    GetHeaderExtensionLength in Hnew. cbn [headerExtension mem] in Hnew.
  rewrite Hh, Hi, Hlen in Hnew. revert Hnew. ostep. change (default 0 (Some h)) with h. cbn [headerExtension mem].
  rewrite Hmul, <- Hpl. unfold type_matches in Hmatch. destruct Ht as [->| ->];
    cbn [Z.eqb Pos.eqb] in *.
  - subst i. cbn [Z.eqb Pos.eqb]. cbn [mem].
    rewrite (one_byte_loop_elements 1 (mem q) (payload q) es); [|done..|lia]. by intros [= <-].
  - rewrite (proj2 (Z.eqb_neq i 48862)) by (intros ->; by vm_compute in Hmatch). ostep.
    rewrite Hmatch. cbn [Z.eqb Pos.eqb]. cbn [mem].
    rewrite (two_bytes_loop_elements 2 (mem q) (payload q) es); [|done..|lia]. by intros [= <-].
Qed.

(** C37: rewriting the header extensions of a packet keeps its payload, and a
    receiver that parses the packet finds every extension that was set, with
    its value: for the One-Byte and the Two-Bytes format, whether or not the
    packet had a header extension before and whatever its size was. *)
Theorem SetExtensions_parsed p type es e :
  rtp_wf p -> type = 1 \/ type = 2 -> fits_extensions p type es ->
  NoDup (ge_id <$> es) -> e ∈ es -> extension_kept type e = true -> 0 < ge_len e ->
  exists q r v, SetExtensions p type es = Ok q /\ Parse (mem q) (size q) = Ok r /\
    payload_bytes r = payload_bytes p /\ GetExtension r (ge_id e) = Ok (Some (v, ge_len e)) /\
    slice (mem r) v (ge_len e) = Ok (take (Z.to_nat (ge_len e)) (ge_value e)).
Proof.
  intros Hwf Ht Hfits Hnd Hin Hk Hlen. pose proof Hfits as (Hes & _).
  destruct (SetExtensions_spec p type es Hwf Ht Hfits)
    as (q & h & -> & Hwfq & Hh & Hpl & _ & _ & Hpll & Hpp & Hpay & _ & Hid & Hn & _ & Hholds & _ & _).
  pose proof (wf_bytes q Hwfq) as Hm.
  destruct (Parse_wf q Hwfq) as (r & Hr & Hview & _ & Hnew).
  pose proof (parsed_maps type es q r h Ht Hes Hm Hh Hpl Hn Hid Hholds Hnew) as Hmaps.
  destruct Hview as (V1 & V2 & V3 & V4 & V5 & V6 & V7).
  destruct (elements_map_lookup type (mem q) (payload q) es (h + 4) ∅ e Hes Hholds Hnd Hin Hk)
    as (o & Ho & Hs & _). rewrite <- Hmaps in Ho.
  destruct (get_extension_parsed type r e o) as (v & Hv & Hval);
    [done|by eapply Forall_forall|done|done|by rewrite V1| |done|by rewrite V1|].
  { destruct Hid as (i & ? & ?). exists h, i. rewrite V1, V3. done. }
  exists q, r, v. split_and!; try done. unfold payload_bytes in *. by rewrite V1, V4, V5.
Qed.

Definition sample_extensions : list generic_extension :=
  [GenericExtension 5 3 [1; 2; 3]; GenericExtension 9 1 [77]].

Lemma SetExtensions_parsed_witness :
  exists q r v, SetExtensions sample_packet 1 sample_extensions = Ok q /\
    Parse (mem q) (size q) = Ok r /\
    payload_bytes r = Ok [65; 66; 67] /\ GetExtension r 5 = Ok (Some (v, 3)) /\
    slice (mem r) v 3 = Ok [1; 2; 3].
Proof.
  apply (SetExtensions_parsed sample_packet 1 sample_extensions (GenericExtension 5 3 [1; 2; 3])).
  - apply sample_wf.
  - by left.
  - unfold fits_extensions, sample_extensions, element_ok, bytes.
    split; [repeat constructor|]; vm_compute; repeat split; discriminate.
  - apply (bool_decide_unpack _). vm_compute. exact I.
  - by left.
  - reflexivity.
  - cbn. lia.
Defined.
