(* ===== verification/RtpClone.v ===== *)
(** [RtpPacket::Clone]: the copy of a packet into another buffer. *)

From S2P Require Export RtpPacketFacts.

(** The first [n] bytes agree. *)
Definition agree (n : Z) (m b : list Z) : Prop := forall i, 0 <= i < n -> get1 b i = get1 m i.

(** One step of the copy: [n] more bytes at [ptr]. *)
Lemma copy_step m b ptr n : bytes m -> bytes b -> agree ptr m b -> 0 <= ptr -> 0 <= n ->
  ptr + n <= zlen m -> ptr + n <= zlen b ->
  exists s b', slice m ptr n = Ok s /\ write b ptr s = Ok b' /\ agree (ptr + n) m b' /\
    zlen b' = zlen b /\ bytes b'.
Proof.
  intros Hm Hb Ha Hp Hn Hlm Hlb. destruct (slice_in_bounds m ptr n) as [s Hs]; [lia..|].
  pose proof (zlen_slice _ _ _ _ Hs) as Hls.
  destruct (write_in_bounds b ptr s) as [b' Hw]; [lia..|].
  exists s, b'. split; [done|]. split; [done|]. split; [|split].
  - intros i Hi. rewrite (get1_write _ _ _ _ _ Hw), Hls.
    destruct (Z.leb_spec ptr i), (Z.ltb_spec i (ptr + n)); cbn [andb]; try lia; [|apply Ha; lia].
    rewrite (get1_slice _ _ _ _ _ Hs) by lia. f_equal. lia.
  - by eapply zlen_write.
  - eapply bytes_write; [exact Hb| |exact Hw]. exact (bytes_slice _ _ _ _ Hm Hs).
Qed.

(** The copy is well formed and has the pointers, the header, the extensions and
    the payload of the packet; of the padding only the last byte is written. *)
Lemma Clone_spec p store :
  rtp_wf p -> bytes store -> size p <= zlen store ->
  exists c, Clone p store = Ok c /\ rtp_wf c /\ zlen (mem c) = zlen store /\
    agree (payload p + payloadLength p) (mem p) (mem c) /\
    csrcList c = csrcList p /\ headerExtension c = headerExtension p /\ payload c = payload p /\
    payloadLength c = payloadLength p /\ payloadPadding c = payloadPadding p /\ size c = size p /\
    ids c = ids p.
Proof.
  intros Hwf Hst Hfit. destruct (wf_payload p Hwf) as (H12 & Hend & count & Hc & Hcr & Hpl).
  pose proof Hwf as [Hm [Hs0 Hsz] _ (count' & Hc' & Hcs & Hlay) (Hl & Hk & Hsum) (Hpadf & Hpadb)].
  assert (count' = count) as -> by congruence. unfold HeaderSize in *.
  assert (0 <= payload p) as Hp0 by lia.
  assert (12 + count * 4 <= payload p) as Hcp.
  { destruct (headerExtension p); [|lia]. destruct Hpl as (-> & n & _ & [? _] & ?). lia. }
  unfold Clone, HeaderSize.
  destruct (copy_step (mem p) store 0 12) as (s1 & b1 & E1 & W1 & A1 & L1 & B1); try done; try lia.
  { intros i Hi. lia. }
  rewrite E1. ostep. rewrite W1. ostep.
  (* the list of CSRCs *)
  assert (exists b2, (match csrcList p with
     | Some c => count ← header_csrcCount (mem p); l ← slice (mem p) c (count * 4);
                 b ← write b1 12 l; Ok (b, 12 + count * 4)
     | None => Ok (b1, 12) end) = Ok (b2, 12 + count * 4) /\
     agree (12 + count * 4) (mem p) b2 /\ zlen b2 = zlen store /\ bytes b2) as (b2 & -> & A2 & L2 & B2).
  { rewrite Hcs. unfold truthy. destruct (Z.eqb_spec count 0) as [->|]; cbn [negb].
    - exists b1. split; [done|]. by split_and!.
    - destruct (copy_step (mem p) b1 12 (count * 4)) as (s & b2 & E & W & A & L & B); try done; try lia.
      rewrite Hc. ostep. rewrite E. ostep. rewrite W. ostep. exists b2. split; [done|]. split_and!; try done. lia. }
  ostep.
  (* the header extension *)
  set (ext := match headerExtension p with Some _ => _ | None => _ end).
  assert (exists b3, ext = Ok (b3, headerExtension p, payload p) /\
    agree (payload p) (mem p) b3 /\ zlen b3 = zlen store /\ bytes b3) as (b3 & -> & A3 & L3 & B3).
  { unfold ext, GetHeaderExtensionLength. destruct (headerExtension p) as [h|].
    - destruct Hpl as (-> & n & Hn & [Hn0 _] & Hp). rewrite Hn. ostep.
      destruct (copy_step (mem p) b2 (12 + count * 4) (4 + n * 4)) as (s & b3 & E & W & A & L & B); try done; try lia.
      rewrite E. ostep. rewrite W. ostep. exists b3.
      replace (payload p) with (12 + count * 4 + (4 + n * 4)) by lia. split; [done|]. split_and!; try done. lia.
    - exists b2. rewrite Hpl. by split_and!. }
  ostep.
  (* the payload *)
  assert (exists b4, (if truthy (payloadLength p) then pl ← slice (mem p) (payload p) (payloadLength p);
      b ← write b3 (payload p) pl; Ok (b, payload p + payloadLength p) else Ok (b3, payload p))
      = Ok (b4, payload p + payloadLength p) /\
    agree (payload p + payloadLength p) (mem p) b4 /\ zlen b4 = zlen store /\ bytes b4) as (b4 & -> & A4 & L4 & B4).
  { unfold truthy. destruct (Z.eqb_spec (payloadLength p) 0) as [->|]; cbn [negb].
    - exists b3. rewrite Z.add_0_r. by split_and!.
    - destruct (copy_step (mem p) b3 (payload p) (payloadLength p)) as (s & b4 & E & W & A & L & B); try done; try lia.
      rewrite E. ostep. rewrite W. ostep. exists b4. split; [done|]. split_and!; try done. lia. }
  ostep.
  (* the padding *)
  assert (exists b5, (if truthy (payloadPadding p) then
      b ← set1 b4 (payload p + payloadLength p + payloadPadding p - 1) (payloadPadding p);
      Ok (b, payload p + payloadLength p + payloadPadding p) else Ok (b4, payload p + payloadLength p))
      = Ok (b5, size p) /\
    agree (payload p + payloadLength p) (mem p) b5 /\ zlen b5 = zlen store /\ bytes b5 /\
    (payloadPadding p <> 0 -> get1 b5 (size p - 1) = Ok (payloadPadding p)))
    as (b5 & -> & A5 & L5 & B5 & P5).
  { unfold truthy. destruct (Z.eqb_spec (payloadPadding p) 0) as [E0|Hne]; cbn [negb].
    - exists b4. split; [do 2 f_equal; lia|]. by split_and!.
    - destruct (write_in_bounds b4 (payload p + payloadLength p + payloadPadding p - 1) [payloadPadding p])
        as [b5 W]; [lia|rewrite zlen_one; lia|].
      unfold set1. rewrite W. ostep. exists b5. pose proof (same_except_write _ _ _ _ W) as [Ls Fs].
      rewrite zlen_one in Fs. split; [do 2 f_equal; lia|]. split_and!.
      + intros i Hi. rewrite Fs by lia. by apply A4.
      + lia.
      + eapply bytes_write; [exact B4| |exact W]. apply Forall_singleton. unfold in_uint. lia.
      + intros _. rewrite (get1_write _ _ _ _ _ W), zlen_one.
        destruct (Z.leb_spec (payload p + payloadLength p + payloadPadding p - 1) (size p - 1)),
          (Z.ltb_spec (size p - 1) (payload p + payloadLength p + payloadPadding p - 1 + 1)); try lia. cbn [andb].
        replace (size p - 1 - (payload p + payloadLength p + payloadPadding p - 1)) with 0 by lia. done. }
  ostep. rewrite require_true by apply Z.eqb_refl. ostep.
  assert (A0 : get1 b5 0 = get1 (mem p) 0) by (apply A5; lia).
  assert (header_csrcCount b5 = header_csrcCount (mem p)) as Ecc by (by apply get_bits_ext).
  destruct (new_RtpPacket_Ok b5 (headerExtension p) (payload p) (payloadLength p) (payloadPadding p) (size p) count)
    as (q & -> & _ & _ & (V1 & V2 & V3 & V4 & V5 & V6 & V7)); [done|by rewrite Ecc| |].
  { unfold extension_in_buffer. cbn. destruct (headerExtension p) as [h|]; [|done].
    destruct Hpl as (-> & n & Hn & [Hn0 _] & Hp). split; [lia|]. split; [lia|]. exists n.
    split; [|lia]. rewrite <- Hn. apply Get2Bytes_ext. intros j Hj. apply A5. lia. }
  ostep. exists (set_ids q (ids p)).
  cbn [mem set_ids csrcList headerExtension payload payloadLength payloadPadding size ids] in V1, V2, V3, V4, V5, V6, V7 |- *.
  rewrite V1, V2, V3, V4, V5, V6, V7. split; [done|]. split; [|by split_and!].
  apply (wf_rebuild p);
    cbn [mem set_ids csrcList headerExtension payload payloadLength payloadPadding size ids];
    rewrite ?V1, ?V2, ?V3, ?V4, ?V5, ?V6, ?V7; try done; try lia.
  - by apply get_bits_ext.
  - by apply get_bits_ext.
  - intros i Hi. apply A5. unfold HeaderSize in Hi. lia.
  - rewrite <- Hpadf. by apply get_bits_ext.
Qed.

(** Bytes of the copied part, by slices: both buffers hold it. *)
Lemma agree_slice n m b off k : agree n m b -> n <= zlen m -> n <= zlen b ->
  0 <= off -> off + k <= n -> slice b off k = slice m off k.
Proof.
  intros Ha Hm Hb Ho Hn. destruct (Z.ltb_spec k 0) as [Hk|Hk].
  { unfold slice. destruct (Z.leb_spec 0 off), (Z.leb_spec 0 k); done || lia. }
  destruct (slice_in_bounds m off k) as [s Hs]; [lia..|].
  destruct (slice_in_bounds b off k) as [s' Hs']; [lia..|].
  rewrite Hs, Hs'. f_equal. pose proof (zlen_slice _ _ _ _ Hs). pose proof (zlen_slice _ _ _ _ Hs').
  apply buffer_ext; [lia|]. intros i Hi.
  rewrite (get1_slice _ _ _ _ _ Hs), (get1_slice _ _ _ _ _ Hs') by lia. apply Ha. lia.
Qed.

(** A packet cloned into a buffer that can hold it is a well-formed packet
    with the same fixed header, CSRCs, header extension, payload, padding length
    and extension ids. *)
Theorem Clone_copies p store pl :
  rtp_wf p -> bytes store -> size p <= zlen store -> payload_bytes p = Ok pl ->
  exists c, Clone p store = Ok c /\ rtp_wf c /\ size c = size p /\ payload_bytes c = Ok pl /\
    slice (mem c) 0 (payload p) = slice (mem p) 0 (payload p) /\
    payloadPadding c = payloadPadding p /\ ids c = ids p /\
    GetSequenceNumber c = GetSequenceNumber p /\ GetTimestamp c = GetTimestamp p /\
    GetSsrc c = GetSsrc p.
Proof.
  intros Hwf Hst Hfit Hpl.
  destruct (Clone_spec p store Hwf Hst Hfit) as (c & E & Hc & Hz & Ha & _ & _ & Ep & El & Ek & Es & Ei).
  destruct (wf_payload p Hwf) as (H12 & Hend & _). unfold HeaderSize in H12.
  pose proof (wf_lengths p Hwf) as (Hl & Hk & Hsum).
  assert (Hsl : forall off n, 0 <= off -> off + n <= payload p + payloadLength p ->
    slice (mem c) off n = slice (mem p) off n).
  { intros off n Ho Hn. by apply (agree_slice (payload p + payloadLength p)); try lia. }
  assert (agree 12 (mem p) (mem c)) as A12 by (intros i Hi; apply Ha; lia).
  exists c. split; [done|]. split; [done|]. split; [done|].
  split; [unfold payload_bytes in *; rewrite Ep, El, Hsl by lia; done|].
  split; [apply Hsl; lia|]. split; [done|]. split; [done|].
  unfold GetSequenceNumber, GetTimestamp, GetSsrc.
  split; [|split]; [apply Get2Bytes_ext|apply Get4Bytes_ext..]; intros j Hj; apply A12; lia.
Qed.

Lemma Clone_copies_witness :
  exists c pl, Clone sample_packet (replicate 100 255) = Ok c /\ payload_bytes c = Ok pl /\
    payload_bytes sample_packet = Ok pl.
Proof.
  destruct (payload_bytes sample_packet) as [pl|] eqn:Epl; [|discriminate].
  destruct (Clone_copies sample_packet (replicate 100 255) pl sample_wf) as (c & E & _ & _ & Hpl & _).
  - apply (bool_decide_unpack _). vm_compute. exact I.
  - vm_compute. discriminate.
  - exact Epl.
  - exists c, pl. split; [exact E|]. split; [exact Hpl|reflexivity].
Defined.
