(* ===== verification/RtpStream.v ===== *)
(** [RTC::RtpStream] (worker/src/RTC/RtpStream.cpp,
    worker/include/RTC/RtpStream.hpp): the sequence numbers of a stream of RTP
    packets, after RFC 3550 appendix A.1, and its score.

    The clock is an argument; the calls of [OnRtpStreamScore] are returned. *)

From Stdlib Require Import Floats.SpecFloat.
From S2P Require Export RtpPacketFacts SeqManager.

Definition MaxDropout : Z := 3000.
Definition MaxMisorder : Z := 1500.
Definition RtpSeqMod : Z := 65536.
Definition ScoreHistogramLength : nat := 24.

(** The parameters the modelled operations read. *)
Record params : Type := Params {
  par_ssrc : Z;
  par_clockRate : Z;
  par_rtxSsrc : Z;
  par_rtxPayloadType : Z;
  par_useNack : bool
}.

Record rtp_stream : Type := RtpStream {
  par : params;
  maxSeq : Z;
  cycles : Z;
  baseSeq : Z;
  badSeq : Z;
  maxPacketTs : Z;
  maxPacketMs : Z;
  packetsDiscarded : Z;
  packetsRetransmitted : Z;
  packetsRepaired : Z;
  hasRtxStream : bool;   (** [rtxStream != nullptr] *)
  score : Z;
  scores : list Z;
  started : bool;
  activeSinceMs : Z
}.

Definition new_RtpStream (par : params) (initialScore now : Z) : rtp_stream :=
  RtpStream par 0 0 0 0 0 0 0 0 0 false initialScore [] false now.

Definition set_seq (s : rtp_stream) (max cyc base bad : Z) : rtp_stream :=
  RtpStream (par s) max cyc base bad (maxPacketTs s) (maxPacketMs s) (packetsDiscarded s)
    (packetsRetransmitted s) (packetsRepaired s) (hasRtxStream s) (score s) (scores s) (started s)
    (activeSinceMs s).

Definition set_max_packet (s : rtp_stream) (ts ms : Z) : rtp_stream :=
  RtpStream (par s) (maxSeq s) (cycles s) (baseSeq s) (badSeq s) ts ms (packetsDiscarded s)
    (packetsRetransmitted s) (packetsRepaired s) (hasRtxStream s) (score s) (scores s) (started s)
    (activeSinceMs s).

Definition set_started (s : rtp_stream) : rtp_stream :=
  RtpStream (par s) (maxSeq s) (cycles s) (baseSeq s) (badSeq s) (maxPacketTs s) (maxPacketMs s)
    (packetsDiscarded s) (packetsRetransmitted s) (packetsRepaired s) (hasRtxStream s) (score s)
    (scores s) true (activeSinceMs s).

Definition set_discarded (s : rtp_stream) (n : Z) : rtp_stream :=
  RtpStream (par s) (maxSeq s) (cycles s) (baseSeq s) (badSeq s) (maxPacketTs s) (maxPacketMs s)
    n (packetsRetransmitted s) (packetsRepaired s) (hasRtxStream s) (score s)
    (scores s) (started s) (activeSinceMs s).

Definition set_resent (s : rtp_stream) (retransmitted repaired : Z) : rtp_stream :=
  RtpStream (par s) (maxSeq s) (cycles s) (baseSeq s) (badSeq s) (maxPacketTs s) (maxPacketMs s)
    (packetsDiscarded s) retransmitted repaired (hasRtxStream s) (score s)
    (scores s) (started s) (activeSinceMs s).

Definition set_score (s : rtp_stream) (x : Z) (l : list Z) (since : Z) : rtp_stream :=
  RtpStream (par s) (maxSeq s) (cycles s) (baseSeq s) (badSeq s) (maxPacketTs s) (maxPacketMs s)
    (packetsDiscarded s) (packetsRetransmitted s) (packetsRepaired s) (hasRtxStream s) x
    l (started s) since.

Definition SetRtx (s : rtp_stream) (payloadType ssrc : Z) : rtp_stream :=
  RtpStream (Params (par_ssrc (par s)) (par_clockRate (par s)) ssrc payloadType (par_useNack (par s)))
    (maxSeq s) (cycles s) (baseSeq s) (badSeq s) (maxPacketTs s) (maxPacketMs s)
    (packetsDiscarded s) (packetsRetransmitted s) (packetsRepaired s) true (score s)
    (scores s) (started s) (activeSinceMs s).

Definition HasRtx (s : rtp_stream) : bool := hasRtxStream s.

(** * Sequence numbers *)

Definition InitSeq (s : rtp_stream) (seq : Z) : rtp_stream :=
  set_seq s seq (cycles s) seq (RtpSeqMod + 1).

Definition UpdateSeq (s : rtp_stream) (seq timestamp now : Z) : rtp_stream * bool :=
  let udelta := u16 (seq - maxSeq s) in
  if udelta <? MaxDropout then
    let cyc := if seq <? maxSeq s then u32 (cycles s + RtpSeqMod) else cycles s in
    (set_seq s seq cyc (baseSeq s) (badSeq s), true)
  else if udelta <=? RtpSeqMod - MaxMisorder then
    if seq =? badSeq s then
      (set_max_packet (InitSeq s seq) timestamp now, true)
    else
      let s := set_seq s (maxSeq s) (cycles s) (baseSeq s) (Z.land (seq + 1) (RtpSeqMod - 1)) in
      (set_discarded s (u64 (packetsDiscarded s + 1)), false)
  else (s, true).

Definition ReceivePacket (s : rtp_stream) (p : rtp_packet) (now : Z) : outcome (rtp_stream * bool) :=
  seq ← GetSequenceNumber p;
  ts ← GetTimestamp p;
  let s := if started s then s
           else
             let s := set_started (InitSeq s seq) in
             let s := set_seq s (u16 (seq - 1)) (cycles s) (baseSeq s) (badSeq s) in
             set_max_packet s ts now in
  let '(s, ok) := UpdateSeq s seq ts now in
  if negb ok then Ok (s, false)
  else if IsSeqHigherThan 32 ts (maxPacketTs s) then Ok (set_max_packet s ts now, true)
  else Ok (s, true).

Definition GetExpectedPackets (s : rtp_stream) : Z :=
  u32 (u32 (u32 (cycles s + maxSeq s) - baseSeq s) + 1).

Definition PacketRetransmitted (s : rtp_stream) : rtp_stream :=
  set_resent s (u64 (packetsRetransmitted s + 1)) (packetsRepaired s).

Definition PacketRepaired (s : rtp_stream) : rtp_stream :=
  set_resent s (packetsRetransmitted s) (u64 (packetsRepaired s + 1)).

(** * Score *)

(** A call of [OnRtpStreamScore]: the new score and the previous one. *)
Definition score_event : Type := option (Z * Z).

Definition ResetScore (s : rtp_stream) (x : Z) (notify : bool) (now : Z) : rtp_stream * score_event :=
  if negb (score s =? x) then
    let since := if score s =? 0 then now else activeSinceMs s in
    (set_score s x [] since, if notify then Some (x, score s) else None)
  else (set_score s (score s) [] (activeSinceMs s), None).

(** The loop over the histogram: weight, samples and total. *)
Fixpoint score_loop (l : list Z) (weight samples total : Z) : Z * Z :=
  match l with
  | [] => (samples, total)
  | x :: l =>
      let weight := u64 (weight + 1) in
      score_loop l weight (u64 (samples + weight)) (u64 (total + u64 (weight * x)))
  end.

Definition UpdateScore (s : rtp_stream) (x now : Z) : rtp_stream * score_event :=
  let l := if bool_decide (length (scores s) = ScoreHistogramLength) then tail (scores s)
           else scores s in
  let l := l ++ [x] in
  let '(samples, total) := score_loop l 0 0 0 in
  let new := u8 (double_round (SFdiv 53 1024 (double_of_Z total) (double_of_Z samples))) in
  if negb (new =? score s) then
    let since := if score s =? 0 then now else activeSinceMs s in
    (set_score s new l since, Some (new, score s))
  else (set_score s new l (activeSinceMs s), None).
