(* ===== verification/RtpStreamFacts.v ===== *)
(** A stream of RTP packets: the extended sequence numbers it tracks, and the
    average that is its score. *)

From Stdlib Require Import Floats.SpecFloat.
From S2P Require Export RtpStream.

(** * Sequence numbers *)

(** A first packet with the sequence number 0 counts as a wrap-around: the code
    starts from the number before, 65535. *)
Definition first_wrap (base : Z) : Z := if u16 base =? 0 then 1 else 0.

(** The stream has seen the unbounded numbers from [base] to [max]. *)
Record tracks (s : rtp_stream) (base max : Z) : Prop := {
  tr_started : started s = true;
  tr_range : 0 <= base <= max;
  tr_base : baseSeq s = u16 base;
  tr_max : maxSeq s = u16 max;
  tr_cycles : cycles s = u32 (65536 * (max / 65536 - base / 65536 + first_wrap base))
}.

Lemma u16_div z : z = 65536 * (z / 65536) + u16 z /\ 0 <= u16 z < 65536.
Proof.
  unfold wrap. change (2 ^ 16) with 65536. split; [apply Z.div_mod; lia|apply Z.mod_pos_bound; lia].
Qed.

Lemma u16_of q r : 0 <= r < 65536 -> u16 (65536 * q + r) = r.
Proof.
  intros Hr. unfold wrap. change (2 ^ 16) with 65536. rewrite Z.add_comm, Z.mul_comm, Z_mod_plus_full.
  by apply Z.mod_small.
Qed.

(** The distance the code computes, for numbers less than 65536 apart. *)
Lemma udelta_spec a b : - 65536 < a - b < 65536 ->
  u16 (u16 a - u16 b) = if b <=? a then a - b else 65536 + (a - b).
Proof.
  intros Hab. rewrite wrap_sub_l, wrap_sub_r. destruct (Z.leb_spec b a).
  - apply wrap_small. unfold in_uint. lia.
  - replace (a - b) with (65536 * (-1) + (65536 + (a - b))) at 1 by lia. apply u16_of. lia.
Qed.

Lemma UpdateSeq_near s base max n ts now :
  tracks s base max -> 0 <= n -> - MaxMisorder < n - max < MaxDropout ->
  exists s', UpdateSeq s (u16 n) ts now = (s', true) /\ tracks s' base (Z.max max n) /\
    (max < n \/ s' = s \/ n = max) /\ maxPacketTs s' = maxPacketTs s /\ par s' = par s.
Proof.
  intros [Hst Hr Hb Hm Hc] Hn0 Hn. unfold MaxMisorder, MaxDropout in Hn. unfold UpdateSeq.
  rewrite Hm, udelta_spec by lia. destruct (Z.leb_spec max n) as [Hle|Hlt].
  - rewrite (proj2 (Z.ltb_lt (n - max) MaxDropout)) by (unfold MaxDropout; lia).
    eexists. split; [done|]. rewrite Z.max_r by done. split; [|split; [lia|done]].
    split; cbn; [done|lia|done|done|]. rewrite Hc.
    destruct (u16_div n) as [En Rn], (u16_div max) as [Em Rm].
    destruct (Z.ltb_spec (u16 n) (u16 max)).
    + rewrite wrap_add_l. f_equal. unfold RtpSeqMod. lia.
    + do 2 f_equal. lia.
  - rewrite (proj2 (Z.ltb_ge (65536 + (n - max)) MaxDropout)) by (unfold MaxDropout; lia).
    rewrite (proj2 (Z.leb_gt (65536 + (n - max)) (RtpSeqMod - MaxMisorder)))
      by (unfold RtpSeqMod, MaxMisorder; lia).
    exists s. rewrite Z.max_l by lia. split; [done|]. split; [by split|]. split; [by right; left|done].
Qed.

(** A packet that carries the unbounded sequence number [n]. *)
Definition carries (p : rtp_packet) (n ts : Z) : Prop :=
  GetSequenceNumber p = Ok (u16 n) /\ GetTimestamp p = Ok ts.

Lemma ReceivePacket_near s base max p n ts now :
  tracks s base max -> carries p n ts -> 0 <= n -> - MaxMisorder < n - max < MaxDropout ->
  exists s', ReceivePacket s p now = Ok (s', true) /\ tracks s' base (Z.max max n) /\ par s' = par s /\
    (maxPacketTs s' = maxPacketTs s \/ maxPacketTs s' = ts).
Proof.
  intros Ht [Hseq Hts] Hn0 Hn. unfold ReceivePacket. rewrite Hseq, Hts. ostep.
  rewrite (tr_started _ _ _ Ht).
  destruct (UpdateSeq_near s base max n ts now Ht Hn0 Hn) as (s' & -> & [? ? ? ? ?] & _ & Hmts & Hpar). cbn [negb].
  destruct (IsSeqHigherThan _ _ _); eexists; (split; [done|]); (split; [by split|]); (split; [done|]); by auto.
Qed.

Lemma ReceivePacket_first par0 sc t0 p n ts now : carries p n ts -> 0 <= n ->
  exists s', ReceivePacket (new_RtpStream par0 sc t0) p now = Ok (s', true) /\ tracks s' n n /\
    par s' = par0 /\ maxPacketTs s' = ts.
Proof.
  intros [Hseq Hts] Hn. unfold ReceivePacket. rewrite Hseq, Hts. ostep.
  destruct (u16_div n) as [En Rn].
  cbn [new_RtpStream started set_started InitSeq set_seq set_max_packet cycles baseSeq badSeq].
  unfold UpdateSeq. cbn [maxSeq cycles baseSeq badSeq set_max_packet set_seq].
  assert (u16 (u16 n - u16 (u16 n - 1)) = 1) as ->.
  { rewrite wrap_sub_r. by replace (u16 n - (u16 n - 1)) with 1 by lia. }
  change (1 <? MaxDropout) with true. cbn [negb].
  assert (forall b, (if b : bool then u32 (0 + RtpSeqMod) else 0) = u32 (65536 * (if b then 1 else 0))) as Hb
    by by intros [].
  assert (u16 n <? u16 (u16 n - 1) = (u16 n =? 0)) as ->.
  { destruct (Z.eqb_spec (u16 n) 0) as [->|]; [done|]. apply Z.ltb_ge.
    rewrite wrap_small by (unfold in_uint; lia). lia. }
  assert (IsSeqHigherThan 32 ts ts = false) as Hirr.
  { unfold IsSeqHigherThan. by rewrite Z.ltb_irrefl. }
  cbn [maxPacketTs set_seq set_max_packet]. rewrite Hirr.
  eexists. split; [done|]. split; [|done]. split; cbn; [done|lia|done|done|].
  rewrite Hb. unfold first_wrap. f_equal. destruct (u16 n =? 0); lia.
Qed.

(** The packets of a stream as they arrive, each with its arrival time. *)
Fixpoint receive_all (s : rtp_stream) (l : list (rtp_packet * Z)) : outcome (rtp_stream * list bool) :=
  match l with
  | [] => Ok (s, [])
  | (p, now) :: l =>
      '(s, ok) ← ReceivePacket s p now;
      '(s, oks) ← receive_all s l;
      Ok (s, ok :: oks)
  end.

(** Gaps shorter than [MaxDropout], packets late by less than [MaxMisorder]. *)
Fixpoint near (max : Z) (ns : list Z) : Prop :=
  match ns with
  | [] => True
  | n :: ns => 0 <= n /\ - MaxMisorder < n - max < MaxDropout /\ near (Z.max max n) ns
  end.

Definition carry (l : list (rtp_packet * Z)) (ns : list Z) : Prop :=
  Forall2 (fun x n => exists ts, carries x.1 n ts) l ns.

Lemma receive_all_near l : forall s base max ns,
  tracks s base max -> near max ns -> carry l ns ->
  exists s', receive_all s l = Ok (s', replicate (length l) true) /\
    tracks s' base (fold_left Z.max ns max).
Proof.
  induction l as [|[p now] l IH]; intros s base max ns Ht Hn Hc.
  - apply Forall2_nil_inv_l in Hc as ->. by exists s.
  - apply Forall2_cons_inv_l in Hc as (n & ns' & (ts & Hp) & Hc & ->). destruct Hn as (Hn0 & Hn & Hns).
    destruct (ReceivePacket_near s base max p n ts now Ht Hp Hn0 Hn) as (s1 & E1 & Ht1 & _).
    destruct (IH s1 base (Z.max max n) ns' Ht1 Hns Hc) as (s2 & E2 & Ht2).
    exists s2. cbn [receive_all]. rewrite E1. ostep. rewrite E2. ostep. done.
Qed.

Lemma expected_tracks s base max : tracks s base max ->
  GetExpectedPackets s = u32 (max - base + 1 + 65536 * first_wrap base).
Proof.
  intros [_ Hr Hb Hm Hc]. unfold GetExpectedPackets. rewrite Hb, Hm, Hc.
  destruct (u16_div max) as [Em _], (u16_div base) as [Eb _].
  assert (u32 (u32 (65536 * (max / 65536 - base / 65536 + first_wrap base)) + u16 max) =
          u32 (max + 65536 * (first_wrap base - base / 65536))) as -> by (rewrite wrap_add_l; f_equal; lia).
  rewrite wrap_sub_l, wrap_add_l. f_equal. lia.
Qed.

(** In a stream whose packets come with gaps and misorder within the allowed
    ones, whatever the number of wrap-arounds, every packet is accepted, the
    highest number is tracked, and the count of expected packets is the
    distance from the first number to the highest one, modulo 2^32 -- but when
    the first number is 0 modulo 65536: then it is 65536 too many. *)
Theorem expected_packets par0 sc t0 p now l n ns ts :
  carries p n ts -> 0 <= n -> near n ns -> carry l ns ->
  exists s, receive_all (new_RtpStream par0 sc t0) ((p, now) :: l) = Ok (s, true :: replicate (length l) true) /\
    let max := fold_left Z.max ns n in
    maxSeq s = u16 max /\
    GetExpectedPackets s = u32 (max - n + 1 + (if u16 n =? 0 then 65536 else 0)).
Proof.
  intros Hp Hn Hns Hc. destruct (ReceivePacket_first par0 sc t0 p n ts now Hp Hn) as (s1 & E1 & Ht1 & _).
  destruct (receive_all_near l s1 n n ns Ht1 Hns Hc) as (s2 & E2 & Ht2).
  exists s2. cbn [receive_all]. rewrite E1. ostep. rewrite E2. ostep. split; [done|]. split; [apply Ht2|].
  rewrite (expected_tracks _ _ _ Ht2). unfold first_wrap. by destruct (u16 n =? 0).
Qed.

(** A packet too far from the highest number is refused and counted; when the
    next one follows it the stream starts again there: the base and the highest
    number are its number, and only the count of cycles stays what it was. *)
Theorem resync s seq ts ts' now now' :
  in_uint 16 seq -> u16 (seq - maxSeq s) < RtpSeqMod - MaxMisorder ->
  MaxDropout <= u16 (seq - maxSeq s) -> seq <> badSeq s -> in_uint 16 (maxSeq s) ->
  exists s1 s2, UpdateSeq s seq ts now = (s1, false) /\ maxSeq s1 = maxSeq s /\
    packetsDiscarded s1 = u64 (packetsDiscarded s + 1) /\
    UpdateSeq s1 (u16 (seq + 1)) ts' now' = (s2, true) /\
    maxSeq s2 = u16 (seq + 1) /\ baseSeq s2 = u16 (seq + 1) /\ cycles s2 = cycles s /\
    maxPacketTs s2 = ts'.
Proof.
  intros Hseq Hhi Hlo Hbad Hmax. unfold UpdateSeq at 1.
  rewrite (proj2 (Z.ltb_ge _ _) Hlo), (proj2 (Z.leb_le _ _)) by lia.
  rewrite (proj2 (Z.eqb_neq _ _) Hbad). do 2 eexists. split; [done|]. cbn. split; [done|]. split; [done|].
  unfold UpdateSeq. cbn.
  assert (u16 (u16 (seq + 1) - maxSeq s) = u16 (seq - maxSeq s) + 1) as ->.
  { rewrite wrap_sub_l. replace (seq + 1 - maxSeq s) with (seq - maxSeq s + 1) by lia.
    rewrite <- wrap_add_l. apply wrap_small. unfold in_uint, RtpSeqMod, MaxMisorder, MaxDropout in *. lia. }
  rewrite (proj2 (Z.ltb_ge _ _)) by lia. rewrite (proj2 (Z.leb_le _ _)) by lia.
  assert (Z.land (seq + 1) (RtpSeqMod - 1) = u16 (seq + 1)) as ->.
  { unfold RtpSeqMod. change (65536 - 1) with (2 ^ 16 - 1). by apply land_low_ones. }
  rewrite Z.eqb_refl. split; [done|]. cbn. done.
Qed.

(** * Score *)

(** Weights and weighted total of a histogram, the oldest score first. *)
Fixpoint weigh (l : list Z) (weight : Z) : Z * Z :=
  match l with
  | [] => (0, 0)
  | x :: l => let '(s, t) := weigh l (weight + 1) in (weight + 1 + s, (weight + 1) * x + t)
  end.

Lemma weigh_samples l : forall w, 0 <= w ->
  2 * (weigh l w).1 = zlen l * (2 * w + zlen l + 1).
Proof.
  induction l as [|x l IH]; intros w Hw; [done|]. cbn [weigh]. specialize (IH (w + 1)).
  destruct (weigh l (w + 1)) as [s t]. cbn [fst] in *. rewrite zlen_cons. nia.
Qed.

Lemma weigh_bounds l lo hi : Forall (fun x => lo <= x <= hi) l -> 0 <= lo ->
  forall w, 0 <= w -> lo * (weigh l w).1 <= (weigh l w).2 <= hi * (weigh l w).1 /\ 0 <= (weigh l w).1.
Proof.
  intros Hl Hlo. induction Hl as [|x l Hx Hl IH]; intros w Hw; [cbn; lia|]. cbn [weigh].
  specialize (IH (w + 1)). destruct (weigh l (w + 1)) as [s t]. cbn [fst snd] in *. nia.
Qed.

Lemma score_loop_spec l : forall w s t, Forall (fun x => 0 <= x <= 10) l ->
  0 <= w -> w + zlen l <= 24 -> 0 <= s <= 10000 -> 0 <= t <= 100000 ->
  s + (weigh l w).1 <= 10000 -> t + (weigh l w).2 <= 100000 ->
  score_loop l w s t = (s + (weigh l w).1, t + (weigh l w).2).
Proof.
  induction l as [|x l IH]; intros w s t Hl Hw Hlen Hs Ht Hs' Ht'; cbn [score_loop weigh] in *.
  - by rewrite !Z.add_0_r.
  - apply Forall_cons in Hl as [Hx Hl]. rewrite zlen_cons in Hlen. pose proof (zlen_nonneg l).
    pose proof (weigh_bounds l 0 10 Hl ltac:(lia) (w + 1) ltac:(lia)) as Hb.
    destruct (weigh l (w + 1)) as [s' t'] eqn:E. cbn [fst snd] in *.
    assert (0 <= (w + 1) * x <= 240) by nia.
    rewrite (wrap_small 64 (w + 1)) by (unfold in_uint; lia).
    rewrite (wrap_small 64 ((w + 1) * x)) by (unfold in_uint; lia).
    rewrite !wrap_small by (unfold in_uint; lia).
    rewrite IH; [|done|lia|lia|lia|lia|rewrite E; cbn; lia|rewrite E; cbn; lia].
    rewrite E. cbn [fst snd]. f_equal; lia.
Qed.

(** [std::round] of the quotient of two doubles, for the quotients there are. *)
Definition rounds (samples total : Z) : bool :=
  double_round (SFdiv 53 1024 (double_of_Z total) (double_of_Z samples)) =? (2 * total + samples) / (2 * samples).

Lemma rounds_all : forallb (fun n => let s := n * (n + 1) / 2 in forallb (rounds s) (seqZ 0 (10 * s + 1))) (seqZ 1 24) = true.
Proof. vm_compute. reflexivity. Qed.

Lemma rounds_to n total : 1 <= n <= 24 -> 0 <= total <= 10 * (n * (n + 1) / 2) ->
  double_round (SFdiv 53 1024 (double_of_Z total) (double_of_Z (n * (n + 1) / 2)))
  = (2 * total + n * (n + 1) / 2) / (2 * (n * (n + 1) / 2)).
Proof.
  intros Hn Ht. pose proof rounds_all as Hall. rewrite forallb_forall in Hall.
  assert (In n (seqZ 1 24)) as Hin by (apply list_elem_of_In, elem_of_seqZ; lia).
  specialize (Hall n Hin). cbn zeta beta in Hall.
  apply Z.eqb_eq. exact (forall_below _ _ Hall total ltac:(lia)).
Qed.

(** The scores the average is taken of. *)
Definition histogram (s : rtp_stream) (x : Z) : list Z :=
  (if bool_decide (length (scores s) = ScoreHistogramLength) then tail (scores s) else scores s) ++ [x].

Definition weighted_mean (l : list Z) : Z :=
  let '(samples, total) := weigh l 0 in (2 * total + samples) / (2 * samples).

Lemma zlen_histogram s x : (length (scores s) <= ScoreHistogramLength)%nat ->
  1 <= zlen (histogram s x) <= 24 /\ (length (histogram s x) <= ScoreHistogramLength)%nat.
Proof.
  unfold histogram, zlen, ScoreHistogramLength. intros Hl. rewrite length_app. cbn [length].
  case_bool_decide; [rewrite length_tl|]; lia.
Qed.

Lemma mean_bounds l lo hi : l <> [] -> 0 <= lo -> Forall (fun x => lo <= x <= hi) l ->
  lo <= weighted_mean l <= hi.
Proof.
  intros Hne Hlo Hl. unfold weighted_mean. pose proof (weigh_samples l 0 ltac:(lia)) as Hs.
  destruct (weigh_bounds l lo hi Hl Hlo 0 ltac:(lia)) as [Ht _]. destruct (weigh l 0) as [s t]. cbn [fst snd] in *.
  assert (0 < zlen l) by (destruct l; [done|rewrite zlen_cons; pose proof (zlen_nonneg l); lia]).
  assert (0 < s) by nia. split.
  - apply Z.div_le_lower_bound; nia.
  - apply Z.lt_succ_r. apply Z.div_lt_upper_bound; nia.
Qed.

(** The score after a report is the average of the last 24 scores, the n-th of
    them with weight n, rounded half up: floating point changes nothing.  It is
    between the lowest and the highest of them, and the listener is called
    exactly when it changed. *)
Theorem UpdateScore_mean s x now :
  Forall (fun x => 0 <= x <= 10) (scores s) -> 0 <= x <= 10 ->
  (length (scores s) <= ScoreHistogramLength)%nat ->
  exists s' e, UpdateScore s x now = (s', e) /\ scores s' = histogram s x /\
    score s' = weighted_mean (histogram s x) /\
    (forall lo hi, 0 <= lo -> Forall (fun x => lo <= x <= hi) (histogram s x) -> lo <= score s' <= hi) /\
    e = (if score s' =? score s then None else Some (score s', score s)).
Proof.
  intros Hs Hx Hlen. destruct (zlen_histogram s x Hlen) as [Hl _].
  assert (Forall (fun x => 0 <= x <= 10) (histogram s x)) as Hh.
  { unfold histogram. apply Forall_app. split; [|by apply Forall_singleton].
    case_bool_decide; [|done]. destruct (scores s); [done|]. by apply Forall_cons in Hs as [_ Hs]. }
  assert (histogram s x <> []) as Hne by (unfold histogram; by destruct (if bool_decide _ then _ else _)).
  pose proof (weigh_samples (histogram s x) 0 ltac:(lia)) as Hsm.
  pose proof (weigh_bounds (histogram s x) 0 10 Hh ltac:(lia) 0 ltac:(lia)) as Hwb.
  pose proof (mean_bounds (histogram s x) 0 10 Hne ltac:(lia) Hh) as Hmb.
  assert (Hmean : forall lo hi, 0 <= lo -> Forall (fun x => lo <= x <= hi) (histogram s x) ->
    lo <= weighted_mean (histogram s x) <= hi) by (intros; by apply mean_bounds).
  unfold UpdateScore. change (_ ++ [x]) with (histogram s x).
  rewrite score_loop_spec; try done; try lia; try nia.
  unfold weighted_mean in *. destruct (weigh (histogram s x) 0) as [sm t]. cbn [fst snd] in *. rewrite !Z.add_0_l.
  assert (sm = zlen (histogram s x) * (zlen (histogram s x) + 1) / 2) as Esm.
  { apply (Z.div_unique _ _ _ 0); lia. }
  assert (double_round (SFdiv 53 1024 (double_of_Z t) (double_of_Z sm)) = (2 * t + sm) / (2 * sm)) as ->.
  { rewrite Esm. apply rounds_to; [lia|]. rewrite <- Esm. lia. }
  rewrite (wrap_small 8) by (unfold in_uint; lia).
  set (m := (2 * t + sm) / (2 * sm)) in *.
  destruct (Z.eqb_spec m (score s)) as [E|E]; cbn [negb]; do 2 eexists; (split; [done|]);
    (split; [done|]); (split; [done|]); (split; [done|]); cbn.
  - by rewrite E, Z.eqb_refl.
  - by rewrite (proj2 (Z.eqb_neq _ _) E).
Qed.

(** * Examples *)

Definition sample_params : params := Params 1000 90000 0 0 true.

Lemma expected_packets_witness :
  exists s, receive_all (new_RtpStream sample_params 10 0) [(sample_packet, 5); (sample_packet, 6)]
      = Ok (s, [true; true]) /\ GetExpectedPackets s = 1.
Proof.
  destruct (expected_packets sample_params 10 0 sample_packet 5 [(sample_packet, 6)] 10 [10] 100)
    as (s & E & _ & H).
  - vm_compute. split; reflexivity.
  - lia.
  - vm_compute. split; [discriminate|]. split; [split; reflexivity|exact I].
  - constructor; [|constructor]. exists 100. vm_compute. split; reflexivity.
  - exists s. split; [exact E|]. rewrite H. vm_compute. reflexivity.
Defined.

Lemma resync_witness :
  let s := InitSeq (new_RtpStream sample_params 10 0) 100 in
  exists s1 s2, UpdateSeq s 20000 0 1 = (s1, false) /\ UpdateSeq s1 20001 5 2 = (s2, true) /\ baseSeq s2 = 20001.
Proof.
  intros s. destruct (resync s 20000 0 5 1 2) as (s1 & s2 & E1 & _ & _ & E2 & _ & Eb & _).
  - by compute.
  - by compute.
  - by compute.
  - by compute.
  - by compute.
  - exists s1, s2. split; [exact E1|]. split; [exact E2|exact Eb].
Defined.

Lemma UpdateScore_mean_witness :
  exists s' e, UpdateScore (new_RtpStream sample_params 10 0) 3 1 = (s', e) /\ score s' = 3 /\ e = Some (3, 10).
Proof.
  destruct (UpdateScore_mean (new_RtpStream sample_params 10 0) 3 1) as (s' & e & E & _ & Hs & _ & He).
  - constructor.
  - lia.
  - cbn. unfold ScoreHistogramLength. lia.
  - exists s', e. split; [exact E|]. assert (score s' = 3) as -> by (rewrite Hs; vm_compute; reflexivity).
    split; [reflexivity|]. assert (score s' = 3) as H3 by (rewrite Hs; vm_compute; reflexivity).
    rewrite He, H3. reflexivity.
Defined.
