(* ===== verification/RtpStreamSend.v ===== *)
(** [RTC::RtpStreamSend] (worker/src/RTC/RtpStreamSend.cpp,
    worker/include/RTC/RtpStreamSend.hpp): a stream of RTP packets sent to an
    endpoint, which keeps the last ones to send them again on request.

    The vector [buffer] maps each of the 65536 sequence numbers to an item of
    the vector [storage], or to none: a pointer to an item is its index.  The
    packet of an item lives in the memory [store] of the item.  The clock is an
    argument, and the random first RTX sequence number too.  The packets handed
    to [OnRtpStreamRetransmitRtpPacket] are returned. *)

From Stdlib Require Import Floats.SpecFloat.
From S2P Require Export RtpStream RtpClone.

Definition MaxRequestedPackets : nat := 17.
Definition MaxRetransmissionDelay : Z := 2000.
Definition DefaultRtt : Z := 100.
Definition MtuSize : Z := 1500.

(** * Data *)

Record storage_item : Type := StorageItem {
  packet : option rtp_packet;
  store : list Z;
  resentAtMs : Z;
  sentTimes : Z;
  rtxEncoded : bool
}.

Definition StoreSize : Z := MtuSize + 100.

(** The counters that [RtpStream] declares and only this class uses are here. *)
Record rtp_stream_send : Type := RtpStreamSend {
  stream : rtp_stream;
  rtt : spec_float;            (** [float] *)
  hasRtt : bool;
  packetsLost : Z;
  fractionLost : Z;
  nackCount : Z;
  nackPacketCount : Z;
  pliCount : Z;
  firCount : Z;
  bufferLen : Z;               (** [buffer.size()] *)
  buffer : gmap Z nat;
  bufferStartIdx : Z;
  bufferSize : nat;
  storage : list storage_item;
  rtxSeq : Z
}.

Definition new_item : storage_item := StorageItem None (replicate (Z.to_nat StoreSize) 0) 0 0 false.

(** The contents of a new [store] are not initialised: any bytes will do. *)
Definition new_RtpStreamSend (par : params) (bufferSize : nat) (now : Z) : rtp_stream_send :=
  RtpStreamSend (new_RtpStream par 10 now) (S754_zero false) false 0 0 0 0 0 0
    (if (0 <? bufferSize)%nat then 65536 else 0) ∅ 0 0 (replicate bufferSize new_item) 0.

Definition set_stream (s : rtp_stream_send) (st : rtp_stream) : rtp_stream_send :=
  RtpStreamSend st (rtt s) (hasRtt s) (packetsLost s) (fractionLost s) (nackCount s)
    (nackPacketCount s) (pliCount s) (firCount s) (bufferLen s) (buffer s) (bufferStartIdx s)
    (bufferSize s) (storage s) (rtxSeq s).

Definition set_buffer (s : rtp_stream_send) (b : gmap Z nat) (start : Z) (n : nat) : rtp_stream_send :=
  RtpStreamSend (stream s) (rtt s) (hasRtt s) (packetsLost s) (fractionLost s) (nackCount s)
    (nackPacketCount s) (pliCount s) (firCount s) (bufferLen s) b start n (storage s) (rtxSeq s).

Definition set_storage (s : rtp_stream_send) (l : list storage_item) : rtp_stream_send :=
  RtpStreamSend (stream s) (rtt s) (hasRtt s) (packetsLost s) (fractionLost s) (nackCount s)
    (nackPacketCount s) (pliCount s) (firCount s) (bufferLen s) (buffer s) (bufferStartIdx s)
    (bufferSize s) l (rtxSeq s).

Definition set_rtxSeq (s : rtp_stream_send) (x : Z) : rtp_stream_send :=
  RtpStreamSend (stream s) (rtt s) (hasRtt s) (packetsLost s) (fractionLost s) (nackCount s)
    (nackPacketCount s) (pliCount s) (firCount s) (bufferLen s) (buffer s) (bufferStartIdx s)
    (bufferSize s) (storage s) x.

Definition set_nacks (s : rtp_stream_send) (n k : Z) : rtp_stream_send :=
  RtpStreamSend (stream s) (rtt s) (hasRtt s) (packetsLost s) (fractionLost s) n
    k (pliCount s) (firCount s) (bufferLen s) (buffer s) (bufferStartIdx s)
    (bufferSize s) (storage s) (rtxSeq s).

Definition set_report (s : rtp_stream_send) (r : spec_float) (has : bool) (lost fraction : Z)
  : rtp_stream_send :=
  RtpStreamSend (stream s) r has lost fraction (nackCount s)
    (nackPacketCount s) (pliCount s) (firCount s) (bufferLen s) (buffer s) (bufferStartIdx s)
    (bufferSize s) (storage s) (rtxSeq s).

(** [SetRtx]; the random number is the result of [GetRandomUInt(0, 0xFFFF)]. *)
Definition SetRtx (s : rtp_stream_send) (payloadType ssrc random : Z) : rtp_stream_send :=
  set_rtxSeq (set_stream s (RtpStream.SetRtx (stream s) payloadType ssrc)) random.

(** * Memory *)

(** [buffer[seq]], read and written. *)
Definition buffer_get (s : rtp_stream_send) (seq : Z) : outcome (option nat) :=
  if (0 <=? seq) && (seq <? bufferLen s) then Ok (buffer s !! seq) else Err OutOfBounds.

Definition buffer_set (s : rtp_stream_send) (seq : Z) (i : nat) : rtp_stream_send :=
  set_buffer s (<[seq := i]> (buffer s)) (bufferStartIdx s) (bufferSize s).

Definition buffer_unset (s : rtp_stream_send) (seq : Z) : rtp_stream_send :=
  set_buffer s (delete seq (buffer s)) (bufferStartIdx s) (bufferSize s).

(** The item at a pointer, and its packet. *)
Definition item_at (s : rtp_stream_send) (i : nat) : outcome storage_item :=
  match storage s !! i with Some it => Ok it | None => Err OutOfBounds end.

Definition packet_of (it : storage_item) : outcome rtp_packet :=
  match packet it with Some p => Ok p | None => Err OutOfBounds end.

Definition set_item (s : rtp_stream_send) (i : nat) (it : storage_item) : rtp_stream_send :=
  set_storage s (<[i := it]> (storage s)).

(** [resetStorageItem]: the memory of the packet stays as it is. *)
Definition resetStorageItem (s : rtp_stream_send) (storageItem : option nat) : outcome rtp_stream_send :=
  match storageItem with
  | None => Err AssertFailed
  | Some i =>
      it ← item_at s i;
      let memory := match packet it with Some p => mem p | None => store it end in
      Ok (set_item s i (StorageItem None memory 0 0 false))
  end.

(** * The buffer *)

(** The next used number after [seq], among [n] of them. *)
Fixpoint next_used (n : nat) (b : gmap Z nat) (seq : Z) : option Z :=
  match n with
  | O => None
  | S n => if bool_decide (is_Some (b !! seq)) then Some seq else next_used n b (u16 (seq + 1))
  end.

Definition UpdateBufferStartIdx (s : rtp_stream_send) : rtp_stream_send :=
  match next_used (Z.to_nat (bufferLen s)) (buffer s) (u16 (bufferStartIdx s + 1)) with
  | Some seq => set_buffer s (buffer s) seq (bufferSize s)
  | None => s
  end.

(** The item the packet goes to: the cases of [StorePacket]; [None] for a packet
    that is there already. *)
Definition find_storage (s : rtp_stream_send) (p : rtp_packet) (seq : Z)
  : outcome (rtp_stream_send * option nat) :=
  storageItem ← buffer_get s seq;
  if (bufferSize s =? 0)%nat then
    _ ← item_at s 0;
    let s := buffer_set s seq 0 in
    Ok (set_buffer s (buffer s) seq (bufferSize s + 1), Some 0%nat)
  else
    match storageItem with
    | Some i =>
        it ← item_at s i;
        storedPacket ← packet_of it;
        ts ← GetTimestamp p;
        storedTs ← GetTimestamp storedPacket;
        if ts =? storedTs then Ok (s, None)
        else
          s ← resetStorageItem s storageItem;
          Ok (if bufferStartIdx s =? seq then UpdateBufferStartIdx s else s, Some i)
    | None =>
        if (bufferSize s <? length (storage s))%nat then
          let i := bufferSize s in
          let s := buffer_set s seq i in
          Ok (set_buffer s (buffer s) (bufferStartIdx s) (bufferSize s + 1), Some i)
        else
          firstStorageItem ← buffer_get s (bufferStartIdx s);
          s ← resetStorageItem s firstStorageItem;
          let s := buffer_unset s (bufferStartIdx s) in
          let s := UpdateBufferStartIdx s in
          match firstStorageItem with
          | Some i => Ok (buffer_set s seq i, Some i)
          | None => Err AssertFailed
          end
    end.

Definition StorePacket (s : rtp_stream_send) (p : rtp_packet) : outcome rtp_stream_send :=
  if MtuSize <? GetSize p then Ok s
  else
    seq ← GetSequenceNumber p;
    '(s, storageItem) ← find_storage s p seq;
    match storageItem with
    | None => Ok s
    | Some i =>
        it ← item_at s i;
        c ← Clone p (store it);
        Ok (set_item s i (StorageItem (Some c) (store it) (resentAtMs it) (sentTimes it) (rtxEncoded it)))
    end.

Fixpoint clear_loop (n : nat) (idx : Z) (s : rtp_stream_send) : outcome rtp_stream_send :=
  match n with
  | O => Ok s
  | S n =>
      storageItem ← buffer_get s idx;
      match storageItem with
      | None => clear_loop n (idx + 1) s
      | Some _ =>
          s ← resetStorageItem s storageItem;
          clear_loop n (idx + 1) (buffer_unset s idx)
      end
  end.

Definition ClearBuffer (s : rtp_stream_send) : outcome rtp_stream_send :=
  match storage s with
  | [] => Ok s
  | _ =>
      s ← clear_loop (Z.to_nat (bufferLen s)) 0 s;
      Ok (set_buffer s (buffer s) 0 0)
  end.

Definition Pause (s : rtp_stream_send) : outcome rtp_stream_send := ClearBuffer s.

Definition ReceivePacket (s : rtp_stream_send) (p : rtp_packet) (now : Z)
  : outcome (rtp_stream_send * bool) :=
  '(st, ok) ← RtpStream.ReceivePacket (stream s) p now;
  let s := set_stream s st in
  if negb ok then Ok (s, false)
  else
    s ← match storage s with [] => Ok s | _ => StorePacket s p end;
    Ok (s, true).

(** * Round trip time *)

Definition float_of_Z (z : Z) : spec_float := binary_normalize 24 128 z 0 false.

(** The conversion of a positive [float] to [uint16_t], defined when it fits. *)
Definition float_to_u16 (f : spec_float) : outcome Z :=
  let v := match f with
           | S754_finite false m e => Some (if 0 <=? e then Z.pos m * 2 ^ e else Z.pos m / 2 ^ (- e))
           | S754_zero _ => Some 0
           | _ => None
           end in
  match v with
  | Some v => if v <? 65536 then Ok v else Err OutOfBounds
  | None => Err OutOfBounds
  end.

(** [this->rtt != 0u ? this->rtt : DefaultRtt], as a [uint16_t]. *)
Definition rtt_or_default (s : rtp_stream_send) : outcome Z :=
  if SFeqb (rtt s) (S754_zero false) then Ok DefaultRtt else float_to_u16 (rtt s).

(** [ReceiveRtcpReceiverReport] up to the score. *)
Definition update_rtt (s : rtp_stream_send) (lastSr dlsr totalLost fraction nowMs : Z) : rtp_stream_send :=
  let '(seconds, fractions) := TimeMs2Ntp nowMs in
  let compactNtp := u32 (Z.shiftl (Z.land seconds 65535) 16) in
  let compactNtp := Z.lor compactNtp (Z.shiftr (Z.land fractions 4294901760) 16) in
  let r := if truthy lastSr && truthy dlsr && (u32 (dlsr + lastSr) <? compactNtp)
           then u32 (compactNtp - dlsr - lastSr) else 0 in
  let ms := SFmul 24 128 (float_of_Z (Z.shiftr r 16)) (float_of_Z 1000) in
  let ms := SFadd 24 128 ms
              (SFmul 24 128 (SFdiv 24 128 (float_of_Z (Z.land r 65535)) (float_of_Z 65536)) (float_of_Z 1000)) in
  set_report s ms (hasRtt s || SFltb (S754_zero false) ms) (u32 totalLost) fraction.

(** * Retransmission *)

(** The packet as it goes out: encoded for RTX if there is an RTX stream, with the
    next number of that stream. *)
Definition encode_outgoing (s : rtp_stream_send) (it : storage_item) (p : rtp_packet)
  : outcome (rtp_stream_send * rtp_packet * bool) :=
  if HasRtx (stream s) then
    let s := set_rtxSeq s (u16 (rtxSeq s + 1)) in
    if negb (rtxEncoded it) then
      p ← RtxEncode p (par_rtxPayloadType (par (stream s))) (par_rtxSsrc (par (stream s))) (rtxSeq s);
      Ok (s, p, true)
    else
      p ← SetSequenceNumber p (rtxSeq s);
      Ok (s, p, rtxEncoded it)
  else Ok (s, p, rtxEncoded it).

(** The body of the loop for a requested packet: the index of the item when the
    packet is to be sent again. *)
Definition resend_packet (s : rtp_stream_send) (currentSeq nowMs rtt16 : Z)
  : outcome (rtp_stream_send * option nat) :=
  storageItem ← buffer_get s currentSeq;
  match storageItem with
  | None => Ok (s, None)
  | Some i =>
      it ← item_at s i;
      p ← packet_of it;
      ts ← GetTimestamp p;
      let diffTs := u32 (maxPacketTs (stream s) - ts) in
      _ ← require OutOfBounds (truthy (par_clockRate (par (stream s))));
      let diffMs := u32 (diffTs * 1000) / par_clockRate (par (stream s)) in
      if MaxRetransmissionDelay <? diffMs then Ok (s, None)
      else if truthy (resentAtMs it) && (u64 (nowMs - resentAtMs it) <=? rtt16) then Ok (s, None)
      else
        '(s, p, encoded) ← encode_outgoing s it p;
        Ok (set_item s i (StorageItem (Some p) (store it) nowMs (u8 (sentTimes it + 1)) encoded), Some i)
  end.

(** [while (requested || bitmask != 0)]: the items of [RetransmissionContainer],
    which has room for [MaxRequestedPackets + 1]. *)
Fixpoint fill_loop (fuel : nat) (s : rtp_stream_send) (currentSeq : Z) (requested : bool)
    (bitmask nowMs rtt16 : Z) (container : list nat) : outcome (rtp_stream_send * list nat) :=
  if requested || truthy bitmask then
    match fuel with
    | O => Err OutOfFuel
    | S fuel =>
        '(s, sent) ← (if requested : bool then resend_packet s currentSeq nowMs rtt16 else Ok (s, None));
        container ← match sent with
                    | Some i =>
                        _ ← require OutOfBounds (length container <? MaxRequestedPackets + 1)%nat;
                        Ok (container ++ [i])
                    | None => Ok container
                    end;
        fill_loop fuel s (u16 (currentSeq + 1)) (truthy (Z.land bitmask 1)) (Z.shiftr bitmask 1)
          nowMs rtt16 container
    end
  else
    (* RetransmissionContainer[containerIdx] = nullptr *)
    _ ← require OutOfBounds (length container <? MaxRequestedPackets + 1)%nat;
    Ok (s, container).

Definition FillRetransmissionContainer (s : rtp_stream_send) (seq bitmask nowMs : Z)
  : outcome (rtp_stream_send * list nat) :=
  if negb (par_useNack (par (stream s))) then Ok (s, [])
  else
    rtt16 ← rtt_or_default s;
    fill_loop MaxRequestedPackets s seq true bitmask nowMs rtt16 [].

(** The loop over the container: the packets handed to the listener. *)
Fixpoint retransmit (s : rtp_stream_send) (container : list nat) : outcome (rtp_stream_send * list rtp_packet) :=
  match container with
  | [] => Ok (s, [])
  | i :: container =>
      it ← item_at s i;
      p ← packet_of it;
      let s := set_stream s (PacketRetransmitted (stream s)) in
      let s := if sentTimes it =? 1 then set_stream s (PacketRepaired (stream s)) else s in
      '(s, ps) ← retransmit s container;
      Ok (s, p :: ps)
  end.

(** The items of a NACK packet: packet id and bitmask. *)
Fixpoint nack_loop (s : rtp_stream_send) (items : list (Z * Z)) (nowMs : Z)
  : outcome (rtp_stream_send * list rtp_packet) :=
  match items with
  | [] => Ok (s, [])
  | (packetId, lostPacketBitmask) :: items =>
      let s := set_nacks s (nackCount s) (u64 (nackPacketCount s + (CountSetBits lostPacketBitmask + 1))) in
      '(s, container) ← FillRetransmissionContainer s packetId lostPacketBitmask nowMs;
      '(s, ps) ← retransmit s container;
      '(s, ps') ← nack_loop s items nowMs;
      Ok (s, ps ++ ps')
  end.

Definition ReceiveNack (s : rtp_stream_send) (items : list (Z * Z)) (nowMs : Z)
  : outcome (rtp_stream_send * list rtp_packet) :=
  nack_loop (set_nacks s (u64 (nackCount s + 1)) (nackPacketCount s)) items nowMs.

(** [messageType]: PLI is 1 and FIR is 4. *)
Definition ReceiveKeyFrameRequest (s : rtp_stream_send) (messageType : Z) : rtp_stream_send :=
  let pli := if messageType =? 1 then u64 (pliCount s + 1) else pliCount s in
  let fir := if messageType =? 4 then u64 (firCount s + 1) else firCount s in
  RtpStreamSend (stream s) (rtt s) (hasRtt s) (packetsLost s) (fractionLost s) (nackCount s)
    (nackPacketCount s) pli fir (bufferLen s) (buffer s) (bufferStartIdx s)
    (bufferSize s) (storage s) (rtxSeq s).
