(* ===== verification/SendFacts.v ===== *)
(** The retransmission buffer of a sent stream: its invariant, and what storing,
    clearing and looking up do to it. *)

From S2P Require Export RtpPacketProps RtpStreamFacts RtpStreamSend.

(** * What an item holds *)

(** The packet [p] carries the payload [pl] of the packet numbered [sq]: as it
    was, or encoded for RTX. *)
Definition sends (encoded : bool) (p : rtp_packet) (sq : Z) (pl : list Z) : Prop :=
  if encoded then payload_bytes p = Ok (be_bytes 2 sq ++ pl)
  else payload_bytes p = Ok pl /\ GetSequenceNumber p = Ok sq.

Definition packet_ok (encoded : bool) (p : rtp_packet) : Prop :=
  rtp_wf p /\ zlen (mem p) = StoreSize /\
  payload p + payloadLength p <= MtuSize + (if encoded then 2 else 0).

Definition holds (it : storage_item) (sq : Z) (pl : list Z) (ts : Z) : Prop :=
  exists p, packet it = Some p /\ packet_ok (rtxEncoded it) p /\ sends (rtxEncoded it) p sq pl /\
    GetTimestamp p = Ok ts.

(** The memory a packet is cloned into. *)
Definition memory_ok (it : storage_item) : Prop := bytes (store it) /\ zlen (store it) = StoreSize.

Definition fresh (it : storage_item) : Prop :=
  packet it = None /\ resentAtMs it = 0 /\ sentTimes it = 0 /\ rtxEncoded it = false.

(** The packet numbered [sq] is in the buffer. *)
Definition stored (s : rtp_stream_send) (sq : Z) (pl : list Z) (ts : Z) : Prop :=
  exists i it, buffer s !! sq = Some i /\ storage s !! i = Some it /\ holds it sq pl ts.

(** * Invariant

    [buffer] and the used items of [storage] are in bijection, and
    [bufferStartIdx] is a used number.  A storage of one item is excluded: there
    the start index is not moved when its item is replaced. *)
Record send_inv (s : rtp_stream_send) : Prop := {
  si_len : bufferLen s = match storage s with [] => 0 | _ => 65536 end;
  si_capacity : length (storage s) <> 1%nat;
  si_size : (bufferSize s <= length (storage s))%nat;
  si_range : forall q i, buffer s !! q = Some i -> in_uint 16 q /\ (i < bufferSize s)%nat;
  si_inj : forall q1 q2 i, buffer s !! q1 = Some i -> buffer s !! q2 = Some i -> q1 = q2;
  si_onto : forall i, (i < bufferSize s)%nat -> exists q, buffer s !! q = Some i;
  si_start : (0 < bufferSize s)%nat -> is_Some (buffer s !! bufferStartIdx s);
  si_memory : forall i it, storage s !! i = Some it -> memory_ok it;
  si_used : forall q i, buffer s !! q = Some i -> exists it pl ts, storage s !! i = Some it /\ holds it q pl ts;
  si_free : forall i it, (bufferSize s <= i)%nat -> storage s !! i = Some it -> fresh it
}.

Lemma new_send_inv par n now : n <> 1%nat -> send_inv (new_RtpStreamSend par n now).
Proof.
  intros Hn. split; cbn.
  - destruct n; done.
  - by rewrite length_replicate.
  - lia.
  - intros q i Hq. by rewrite lookup_empty in Hq.
  - intros q1 q2 i Hq. by rewrite lookup_empty in Hq.
  - lia.
  - lia.
  - intros i it Hi. apply lookup_replicate in Hi as [-> _]. split; [|done].
    apply Forall_replicate. done.
  - intros q i Hq. by rewrite lookup_empty in Hq.
  - intros i it _ Hi. by apply lookup_replicate in Hi as [-> _].
Qed.

(** The rest of the stream plays no part. *)
Lemma send_inv_ext s s' : bufferLen s' = bufferLen s -> buffer s' = buffer s ->
  bufferStartIdx s' = bufferStartIdx s -> bufferSize s' = bufferSize s -> storage s' = storage s ->
  send_inv s -> send_inv s'.
Proof. intros E1 E2 E3 E4 E5 []. split; rewrite ?E1, ?E2, ?E3, ?E4, ?E5; assumption. Qed.

(** * Memory *)

Lemma stored_seq_range s q pl ts : send_inv s -> stored s q pl ts -> in_uint 16 q.
Proof. intros Hi (i & it & Hb & _). by apply (si_range s Hi) in Hb as [? _]. Qed.

Lemma buffer_get_Ok s q : send_inv s -> storage s <> [] -> in_uint 16 q -> buffer_get s q = Ok (buffer s !! q).
Proof.
  intros Hi Hne [H0 Hq]. unfold buffer_get. rewrite (si_len s Hi). destruct (storage s); [done|].
  destruct (Z.leb_spec 0 q), (Z.ltb_spec q 65536); done || lia.
Qed.

Lemma item_at_Ok s i it : storage s !! i = Some it -> item_at s i = Ok it.
Proof. unfold item_at. by intros ->. Qed.

Lemma storage_set_item s i it j :
  (i < length (storage s))%nat ->
  storage (set_item s i it) !! j = if decide (j = i) then Some it else storage s !! j.
Proof.
  intros Hi. cbn. destruct (decide (j = i)) as [->|Hne].
  - by apply list_lookup_insert_eq.
  - by apply list_lookup_insert_ne.
Qed.

(** * The start index *)

Lemma next_used_found b : forall n q k, (k < n)%nat -> is_Some (b !! u16 (q + Z.of_nat k)) -> in_uint 16 q ->
  exists r, next_used n b q = Some r /\ is_Some (b !! r).
Proof.
  induction n as [|n IH]; intros q k Hk Hb Hq; [lia|]. cbn [next_used].
  case_bool_decide as Hc; [by exists q|]. destruct k as [|k].
  - rewrite Z.add_0_r, wrap_small in Hb by done. done.
  - apply (IH (u16 (q + 1)) k); [lia| |apply wrap_range; lia].
    rewrite wrap_add_l. replace (q + 1 + Z.of_nat k) with (q + Z.of_nat (S k)) by lia. done.
Qed.

Lemma UpdateBufferStartIdx_spec s q :
  bufferLen s = 65536 -> in_uint 16 q -> is_Some (buffer s !! q) ->
  exists r, UpdateBufferStartIdx s = set_buffer s (buffer s) r (bufferSize s) /\ is_Some (buffer s !! r).
Proof.
  intros Hlen Hq Hb. unfold UpdateBufferStartIdx. rewrite Hlen.
  set (q0 := u16 (bufferStartIdx s + 1)).
  assert (in_uint 16 q0) as Hq0 by (apply wrap_range; lia).
  assert (in_uint 16 (u16 (q - q0))) as [Hk0 Hk] by (apply wrap_range; lia).
  destruct (next_used_found (buffer s) (Z.to_nat 65536) q0 (Z.to_nat (u16 (q - q0)))) as (r & -> & Hr).
  - lia.
  - rewrite Z2Nat.id by done. rewrite wrap_add_r. replace (q0 + (q - q0)) with q by lia. by rewrite wrap_small.
  - done.
  - by exists r.
Qed.

(** * Packets *)

Lemma wf_reads p : rtp_wf p ->
  exists sq ts, GetSequenceNumber p = Ok sq /\ in_uint 16 sq /\ GetTimestamp p = Ok ts /\ in_uint 32 ts.
Proof.
  intros Hwf. destruct (wf_payload p Hwf) as (H12 & Hend & _). unfold HeaderSize in H12.
  pose proof (wf_lengths p Hwf) as (? & ? & ?). unfold GetSequenceNumber, GetTimestamp.
  destruct (Get2Bytes_in_bounds (mem p) 2) as (sq & -> & Hs); [lia..|].
  destruct (Get4Bytes_in_bounds (mem p) 4) as (ts & -> & Ht); [lia..|]. by exists sq, ts.
Qed.

Lemma wf_payload_bytes p : rtp_wf p -> exists pl, payload_bytes p = Ok pl.
Proof.
  intros Hwf. destruct (wf_payload p Hwf) as (H12 & Hend & _). unfold HeaderSize in H12.
  pose proof (wf_lengths p Hwf) as (? & ? & ?). unfold payload_bytes. apply slice_in_bounds; lia.
Qed.

(** The clone of a packet in the memory of an item holds it. *)
Lemma clone_holds p it pl sq ts :
  rtp_wf p -> size p <= MtuSize -> memory_ok it -> rtxEncoded it = false ->
  payload_bytes p = Ok pl -> GetSequenceNumber p = Ok sq -> GetTimestamp p = Ok ts ->
  exists c, Clone p (store it) = Ok c /\
    holds (StorageItem (Some c) (store it) (resentAtMs it) (sentTimes it) (rtxEncoded it)) sq pl ts.
Proof.
  intros Hwf Hsz [Hb Hl] Henc Hpl Hsq Hts.
  assert (size p <= zlen (store it)) as Hfit by (rewrite Hl; unfold StoreSize; lia).
  destruct (Clone_spec p (store it) Hwf Hb Hfit)
    as (c & E & Hc & Hz & Ha & _ & _ & Ep & El & _ & _ & _).
  destruct (wf_payload p Hwf) as (H12 & Hend & _). unfold HeaderSize in H12.
  pose proof (wf_lengths p Hwf) as (Hpl0 & Hk & Hsum).
  assert (agree 12 (mem p) (mem c)) as A12 by (intros i Hi; apply Ha; lia).
  exists c. split; [done|]. exists c. cbn. rewrite Henc. split; [done|]. split; [|split; [split|]].
  - split; [done|]. split; [congruence|]. lia.
  - unfold payload_bytes in *. rewrite Ep, El, <- Hpl.
    apply (agree_slice _ _ _ _ _ Ha); rewrite ?Hz; lia.
  - rewrite <- Hsq. apply Get2Bytes_ext. intros j Hj. apply A12. lia.
  - rewrite <- Hts. apply Get4Bytes_ext. intros j Hj. apply A12. lia.
Qed.

(** * Room for a packet *)

(** The item [i] is set aside for the number [seq]; everything else is as the
    invariant wants it. *)
Record prepared (s : rtp_stream_send) (seq : Z) (i : nat) : Prop := {
  pr_len : bufferLen s = 65536;
  pr_capacity : (2 <= length (storage s))%nat;
  pr_size : (bufferSize s <= length (storage s))%nat;
  pr_range : forall q i, buffer s !! q = Some i -> in_uint 16 q /\ (i < bufferSize s)%nat;
  pr_inj : forall q1 q2 i, buffer s !! q1 = Some i -> buffer s !! q2 = Some i -> q1 = q2;
  pr_onto : forall i, (i < bufferSize s)%nat -> exists q, buffer s !! q = Some i;
  pr_start : is_Some (buffer s !! bufferStartIdx s);
  pr_memory : forall i it, storage s !! i = Some it -> memory_ok it;
  pr_used : forall q j, buffer s !! q = Some j -> q <> seq ->
    exists it pl ts, storage s !! j = Some it /\ holds it q pl ts;
  pr_free : forall i it, (bufferSize s <= i)%nat -> storage s !! i = Some it -> fresh it;
  pr_item : buffer s !! seq = Some i /\ exists it, storage s !! i = Some it /\ fresh it
}.

Lemma prepared_store s seq i it pl ts : prepared s seq i -> memory_ok it -> holds it seq pl ts ->
  send_inv (set_item s i it) /\ stored (set_item s i it) seq pl ts /\
  forall q pl ts, q <> seq -> stored (set_item s i it) q pl ts <-> stored s q pl ts.
Proof.
  intros [Hl Hc Hsz Hr Hinj Hon Hst Hme Hus Hfr (Hb & it0 & Hi0 & _)] Hm Hh.
  assert (i < length (storage s))%nat as Hil by by eapply lookup_lt_Some.
  pose proof (storage_set_item s i it) as Hset.
  assert (Hother : forall q j, buffer s !! q = Some j -> q <> seq -> j <> i).
  { intros q j Hq Hne ->. by apply Hne, (Hinj q seq i). }
  split; [|split].
  - split; try done.
    + cbn. destruct (<[i := it]> (storage s)) eqn:E; [|done].
      apply (f_equal length) in E. rewrite length_insert in E. cbn in E. lia.
    + cbn. rewrite length_insert. lia.
    + cbn. by rewrite length_insert.
    + intros j it' Hj. rewrite Hset in Hj by done. destruct (decide (j = i)); [by simplify_eq|by eapply Hme].
    + intros q j Hq. cbn in Hq. rewrite Hset by done. destruct (decide (q = seq)) as [->|Hne].
      * assert (j = i) as -> by congruence. rewrite decide_True by done. by exists it, pl, ts.
      * rewrite decide_False by by eapply Hother. by apply Hus.
    + intros j it' Hj Hj'. cbn in Hj. rewrite Hset in Hj' by done. destruct (decide (j = i)) as [->|].
      * apply Hr in Hb. lia.
      * by eapply Hfr.
  - exists i, it. cbn -[storage set_item]. rewrite Hset by done. rewrite decide_True by done. done.
  - intros q pl' ts' Hne. unfold stored. cbn -[storage set_item]. split; intros (j & it' & Hq & Hj & Hh');
      exists j, it'; (split; [done|]); (split; [|done]); pose proof (Hother q j Hq Hne); rewrite Hset in * by done;
      [by rewrite decide_False in Hj|by rewrite decide_False].
Qed.

Lemma reset_spec s i it pl q ts : storage s !! i = Some it -> memory_ok it -> holds it q pl ts ->
  exists it', resetStorageItem s (Some i) = Ok (set_item s i it') /\ fresh it' /\ memory_ok it'.
Proof.
  intros Hi Hm (p & Hp & (Hwf & Hz & _) & _). unfold resetStorageItem. rewrite (item_at_Ok _ _ _ Hi). ostep.
  rewrite Hp. eexists. split; [done|]. split; [done|]. split; [apply Hwf|done].
Qed.

Section find_storage.
Context (s : rtp_stream_send) (Hinv : send_inv s) (Hcap : (2 <= length (storage s))%nat).
Context (seq : Z) (Hseq : in_uint 16 seq).

Lemma storage_nonempty : storage s <> [].
Proof. destruct (storage s); cbn in *; [lia|done]. Qed.

Lemma inv_len : bufferLen s = 65536.
Proof. rewrite (si_len s Hinv). pose proof storage_nonempty. by destruct (storage s). Qed.

(** An item of the storage that a number uses is within it. *)
Lemma used_item q i : buffer s !! q = Some i ->
  exists it pl ts, storage s !! i = Some it /\ memory_ok it /\ holds it q pl ts /\ (i < length (storage s))%nat.
Proof.
  intros Hq. destruct (si_used s Hinv q i Hq) as (it & pl & ts & Hi & Hh). exists it, pl, ts.
  split; [done|]. split; [by eapply (si_memory s Hinv)|]. split; [done|by eapply lookup_lt_Some].
Qed.

(** The others, but for what the storage has no room for. *)
Definition keeps (s1 : rtp_stream_send) : Prop :=
  forall q pl ts, q <> seq ->
    (stored s1 q pl ts -> stored s q pl ts) /\
    (stored s q pl ts -> stored s1 q pl ts \/
       q = bufferStartIdx s /\ bufferSize s = length (storage s) /\ buffer s !! seq = None).

Lemma find_first : bufferSize s = 0%nat -> exists s1,
  (_ ← item_at s 0; let s := buffer_set s seq 0 in
   Ok (set_buffer s (buffer s) seq (bufferSize s + 1), Some 0%nat)) = Ok (s1, Some 0%nat) /\
  prepared s1 seq 0 /\ keeps s1.
Proof.
  intros H0. destruct (lookup_lt_is_Some_2 (storage s) 0%nat) as [it Hit]; [lia|].
  rewrite (item_at_Ok _ _ _ Hit). ostep. eexists. split; [done|].
  assert (Hnone : forall q, buffer s !! q = None).
  { intros q. destruct (buffer s !! q) as [i|] eqn:E; [|done]. apply (si_range s Hinv) in E. lia. }
  assert (Hsome : forall q i, <[seq := 0%nat]> (buffer s) !! q = Some i -> q = seq /\ i = 0%nat).
  { intros q i. destruct (decide (q = seq)) as [->|Hne].
    - rewrite lookup_insert_eq. by intros [= <-].
    - rewrite lookup_insert_ne by done. by rewrite Hnone. }
  split.
  - split; cbn; rewrite ?H0; cbn; try done.
    + apply inv_len.
    + lia.
    + intros q i [-> ->]%Hsome. split; [done|lia].
    + intros q1 q2 i [-> _]%Hsome [-> _]%Hsome. done.
    + intros i Hi. exists seq. rewrite lookup_insert_eq. f_equal. lia.
    + rewrite lookup_insert_eq. by eexists.
    + apply (si_memory s Hinv).
    + intros q j [-> _]%Hsome. done.
    + intros i it' Hi. apply (si_free s Hinv). lia.
    + split; [apply lookup_insert_eq|]. exists it. split; [done|]. by apply (si_free s Hinv 0 it); [lia|].
  - intros q pl ts Hne. split; intros (i & it' & Hq & _).
    + cbn in Hq. apply Hsome in Hq as [? _]. done.
    + by rewrite Hnone in Hq.
Qed.

Lemma find_next : buffer s !! seq = None -> (bufferSize s < length (storage s))%nat ->
  (0 < bufferSize s)%nat ->
  let s0 := buffer_set s seq (bufferSize s) in
  let s1 := set_buffer s0 (buffer s0) (bufferStartIdx s0) (bufferSize s0 + 1) in
  prepared s1 seq (bufferSize s) /\ keeps s1.
Proof.
  intros Hnone Hlt Hpos s0 s1. destruct (lookup_lt_is_Some_2 (storage s) (bufferSize s)) as [it Hit]; [lia|].
  assert (Hlook : forall q, buffer s1 !! q = if decide (q = seq) then Some (bufferSize s) else buffer s !! q).
  { intros q. cbn. destruct (decide (q = seq)) as [->|]; [apply lookup_insert_eq|by apply lookup_insert_ne]. }
  split.
  - split; try done; cbn -[buffer].
    + apply inv_len.
    + lia.
    + intros q i. rewrite Hlook. destruct (decide (q = seq)) as [->|].
      * intros [= <-]. split; [done|lia].
      * intros Hq. apply (si_range s Hinv) in Hq as [? ?]. split; [done|lia].
    + intros q1 q2 i. rewrite !Hlook. destruct (decide (q1 = seq)), (decide (q2 = seq)); try congruence.
      * intros [= <-] Hq%(si_range s Hinv). lia.
      * intros Hq%(si_range s Hinv) [= <-]. lia.
      * apply (si_inj s Hinv).
    + intros i Hi. destruct (decide (i = bufferSize s)) as [->|].
      * exists seq. rewrite Hlook. by rewrite decide_True.
      * destruct (si_onto s Hinv i) as [q Hq]; [lia|]. exists q. rewrite Hlook.
        destruct (decide (q = seq)); [congruence|done].
    + rewrite Hlook. destruct (decide _); [by eexists|]. by apply (si_start s Hinv).
    + apply (si_memory s Hinv).
    + intros q j. rewrite Hlook. intros Hq Hne. rewrite decide_False in Hq by done. by apply (si_used s Hinv).
    + intros i it' Hi. apply (si_free s Hinv). lia.
    + rewrite Hlook, decide_True by done. split; [done|]. exists it. split; [done|].
      by apply (si_free s Hinv (bufferSize s) it).
  - intros q pl ts Hne. unfold stored. rewrite Hlook, decide_False by done. split; [done|]. by left.
Qed.

Lemma prepared_start s1 i r : prepared s1 seq i -> is_Some (buffer s1 !! r) ->
  prepared (set_buffer s1 (buffer s1) r (bufferSize s1)) seq i.
Proof. intros [] Hr. by split. Qed.

(** Another item than the one at [i] is as it was. *)
Lemma stored_set_item i it q pl ts : buffer s !! q <> Some i ->
  stored (set_item s i it) q pl ts <-> stored s q pl ts.
Proof.
  intros Hne. unfold stored. cbn.
  split; intros (j & it' & Hq & Hj & Hh); exists j, it'; (split; [done|]); (split; [|done]);
    [rewrite list_lookup_insert_ne in Hj by congruence|rewrite list_lookup_insert_ne by congruence]; done.
Qed.

Lemma find_existing i : buffer s !! seq = Some i -> exists s0,
  resetStorageItem s (Some i) = Ok s0 /\
  let s1 := if bufferStartIdx s0 =? seq then UpdateBufferStartIdx s0 else s0 in
  prepared s1 seq i /\ keeps s1.
Proof.
  intros Hb. destruct (used_item seq i Hb) as (it & pl & ts & Hi & Hm & Hh & Hlt).
  destruct (reset_spec s i it pl seq ts Hi Hm Hh) as (it' & E & Hf & Hm').
  exists (set_item s i it'). split; [done|]. pose proof (storage_set_item s i it') as Hset.
  assert (Hother : forall q j, buffer s !! q = Some j -> q <> seq -> j <> i).
  { intros q j Hq Hne ->. by apply Hne, (si_inj s Hinv q seq i). }
  assert (prepared (set_item s i it') seq i) as Hp.
  { split; try done.
    - apply inv_len.
    - cbn. by rewrite length_insert.
    - cbn. rewrite length_insert. apply (si_size s Hinv).
    - apply (si_range s Hinv).
    - apply (si_inj s Hinv).
    - apply (si_onto s Hinv).
    - apply (si_start s Hinv). apply (si_range s Hinv) in Hb. lia.
    - intros j itj. rewrite Hset by done. destruct (decide (j = i)); [by intros [= <-]|apply (si_memory s Hinv)].
    - intros q j Hq Hne. rewrite Hset, decide_False by (done || by eapply Hother). by apply (si_used s Hinv).
    - intros j itj Hj. rewrite Hset by done. destruct (decide (j = i)); [by intros [= <-]|].
      by apply (si_free s Hinv).
    - split; [done|]. exists it'. by rewrite Hset, decide_True. }
  assert (keeps (set_item s i it')) as Hk.
  { intros q plq tsq Hne. rewrite stored_set_item by (intros Hq; by apply (Hother q i Hq Hne)). by split; [|left]. }
  destruct (bufferStartIdx _ =? seq); [|done].
  destruct (UpdateBufferStartIdx_spec (set_item s i it') seq) as (r & -> & Hr);
    [apply inv_len|done|by exists i|].
  split; [by apply prepared_start|done].
Qed.

(** A number in use that is not the first. *)
Lemma another_used i : bufferSize s = length (storage s) -> buffer s !! bufferStartIdx s = Some i ->
  exists q, in_uint 16 q /\ q <> bufferStartIdx s /\ is_Some (buffer s !! q).
Proof.
  intros Hfull Hb. set (j := if decide (i = 0%nat) then 1%nat else 0%nat).
  assert (j <> i /\ (j < bufferSize s)%nat) as [Hne Hj] by (unfold j; destruct (decide (i = 0%nat)); lia).
  destruct (si_onto s Hinv j Hj) as [q Hq]. exists q.
  split; [by apply (si_range s Hinv) in Hq as [? _]|]. split; [congruence|by exists j].
Qed.

Lemma find_full : buffer s !! seq = None -> bufferSize s = length (storage s) -> exists i s0,
  buffer_get s (bufferStartIdx s) = Ok (Some i) /\ resetStorageItem s (Some i) = Ok s0 /\
  let s1 := buffer_set (UpdateBufferStartIdx (buffer_unset s0 (bufferStartIdx s0))) seq i in
  prepared s1 seq i /\ keeps s1.
Proof.
  intros Hnone Hfull. destruct (si_start s Hinv) as [i Hb]; [lia|].
  destruct (si_range s Hinv _ _ Hb) as [Hst Hi0].
  destruct (used_item _ i Hb) as (it & pl & ts & Hi & Hm & Hh & Hlt).
  destruct (reset_spec s i it pl _ ts Hi Hm Hh) as (it' & E & Hf & Hm').
  exists i, (set_item s i it'). split; [rewrite buffer_get_Ok, Hb by (done || apply storage_nonempty); done|].
  split; [done|]. pose proof (storage_set_item s i it') as Hset.
  destruct (another_used i Hfull Hb) as (q' & Hq' & Hne' & Hs').
  destruct (UpdateBufferStartIdx_spec (buffer_unset (set_item s i it') (bufferStartIdx (set_item s i it'))) q')
    as (r & -> & Hr); [apply inv_len|done|cbn; by rewrite lookup_delete_ne|].
  set (s1 := buffer_set _ _ _).
  assert (Hstart : bufferStartIdx s <> seq) by congruence.
  assert (Hlook : forall q, buffer s1 !! q = if decide (q = seq) then Some i
            else if decide (q = bufferStartIdx s) then None else buffer s !! q).
  { intros q. cbn. destruct (decide (q = seq)) as [->|]; [apply lookup_insert_eq|].
    rewrite lookup_insert_ne by done. destruct (decide (q = bufferStartIdx s)) as [->|].
    - apply lookup_delete_eq.
    - by apply lookup_delete_ne. }
  assert (Hold : forall q j, q <> seq -> buffer s1 !! q = Some j ->
            buffer s !! q = Some j /\ q <> bufferStartIdx s /\ j <> i).
  { intros q j Hne. rewrite Hlook, decide_False by done. destruct (decide _) as [|Hn]; [done|].
    intros Hq. split; [done|]. split; [done|]. intros ->. by apply Hn, (si_inj s Hinv q _ i). }
  assert (Hseqi : buffer s1 !! seq = Some i) by (by rewrite Hlook, decide_True).
  split.
  - split; try done.
    + apply inv_len.
    + cbn. by rewrite length_insert.
    + cbn. rewrite length_insert. apply (si_size s Hinv).
    + intros q j. destruct (decide (q = seq)) as [->|Hne].
      * rewrite Hseqi. intros [= <-]. done.
      * intros (Hq & _)%Hold; [|done]. by apply (si_range s Hinv) in Hq.
    + intros q1 q2 j. destruct (decide (q1 = seq)) as [->|Hn1], (decide (q2 = seq)) as [->|Hn2]; try done.
      * rewrite Hseqi. intros [= <-] (_ & _ & ?)%Hold; done.
      * rewrite Hseqi. intros (_ & _ & ?)%Hold [= <-]; done.
      * intros (H1 & _)%Hold (H2 & _)%Hold; [|done..]. by apply (si_inj s Hinv q1 q2 j).
    + intros j Hj. destruct (decide (j = i)) as [->|Hne]; [by exists seq|].
      destruct (si_onto s Hinv j Hj) as [q Hq]. exists q.
      rewrite Hlook, !decide_False by congruence. done.
    + destruct (decide (r = seq)) as [->|Hn]; [by exists i|]. cbn [bufferStartIdx s1 buffer_set set_buffer].
      cbn in Hr. rewrite Hlook, decide_False by done. destruct (decide _) as [->|].
      * by rewrite lookup_delete_eq in Hr.
      * by rewrite lookup_delete_ne in Hr.
    + intros j itj. cbn -[set_item storage]. change (storage s1) with (storage (set_item s i it')).
      rewrite Hset by done. destruct (decide (j = i)); [by intros [= <-]|apply (si_memory s Hinv)].
    + intros q j Hq Hne. apply Hold in Hq as (Hq & _ & Hj); [|done].
      change (storage s1) with (storage (set_item s i it')). rewrite Hset, decide_False by done.
      by apply (si_used s Hinv).
    + intros j itj Hj. change (storage s1) with (storage (set_item s i it')). rewrite Hset by done.
      destruct (decide (j = i)); [by intros [= <-]|]. by apply (si_free s Hinv).
    + split; [done|]. exists it'. change (storage s1) with (storage (set_item s i it')).
      by rewrite Hset, decide_True.
  - intros q plq tsq Hne. unfold stored. change (storage s1) with (storage (set_item s i it')). split.
    + intros (j & itj & (Hq & _ & Hj)%Hold & Hl & Hh'); [|done]. rewrite Hset, decide_False in Hl by done.
      by exists j, itj.
    + intros (j & itj & Hq & Hl & Hh'). destruct (decide (q = bufferStartIdx s)) as [->|Hn]; [by right|].
      left. exists j, itj. rewrite Hlook, !decide_False by done. split; [done|].
      rewrite Hset by done. rewrite decide_False; [done|]. intros ->. by apply Hn, (si_inj s Hinv q _ i).
Qed.
End find_storage.

(** * Storing *)

Lemma holds_timestamp it q pl ts : holds it q pl ts ->
  exists p, packet it = Some p /\ packet_of it = Ok p /\ GetTimestamp p = Ok ts.
Proof. intros (p & Hp & _ & _ & Ht). exists p. unfold packet_of. by rewrite Hp. Qed.

(** The packet is in the buffer, and has not been sent again. *)
Definition just_stored (s : rtp_stream_send) (q : Z) (pl : list Z) (ts : Z) : Prop :=
  exists i it, buffer s !! q = Some i /\ storage s !! i = Some it /\ holds it q pl ts /\
    resentAtMs it = 0 /\ rtxEncoded it = false.

(** What [StorePacket] does with the packet numbered [q] with timestamp [ts]. *)
Definition stores (s : rtp_stream_send) (q : Z) (pl : list Z) (ts : Z) (s' : rtp_stream_send) : Prop :=
  (forall pl', stored s q pl' ts -> s' = s) /\
  ((forall pl', ~ stored s q pl' ts) ->
   just_stored s' q pl ts /\
   forall q' pl' ts', q' <> q ->
     (stored s' q' pl' ts' -> stored s q' pl' ts') /\
     (stored s q' pl' ts' -> stored s' q' pl' ts' \/
        q' = bufferStartIdx s /\ bufferSize s = length (storage s) /\ buffer s !! q = None)).

Lemma find_storage_spec s p q ts : send_inv s -> storage s <> [] -> in_uint 16 q -> GetTimestamp p = Ok ts ->
  (exists pl, stored s q pl ts) /\ find_storage s p q = Ok (s, None) \/
  (forall pl, ~ stored s q pl ts) /\
  exists s1 i, find_storage s p q = Ok (s1, Some i) /\ prepared s1 q i /\ keeps s q s1.
Proof.
  intros Hinv Hne Hq Ht.
  assert (2 <= length (storage s))%nat as Hcap.
  { pose proof (si_capacity s Hinv). destruct (storage s) as [|? [|? ?]]; cbn in *; congruence || lia. }
  unfold find_storage. rewrite (buffer_get_Ok s q Hinv Hne Hq). ostep.
  destruct (Nat.eqb_spec (bufferSize s) 0) as [H0|H0].
  - right. split.
    + intros pl (i & it & Hi & _). apply (si_range s Hinv) in Hi. lia.
    + destruct (find_first s Hinv Hcap q Hq H0) as (s1 & E & Hp & Hk). by exists s1, 0%nat.
  - destruct (buffer s !! q) as [i|] eqn:Hb.
    + destruct (used_item s Hinv q i Hb) as (it & pl & ts' & Hi & Hm & Hh & _).
      destruct (holds_timestamp _ _ _ _ Hh) as (sp & Hp & Hpk & Ht').
      rewrite (item_at_Ok _ _ _ Hi). ostep. rewrite Hpk. ostep. rewrite Ht. ostep. rewrite Ht'. ostep.
      destruct (Z.eqb_spec ts ts') as [->|Hts].
      * left. split; [|done]. by exists pl, i, it.
      * right. split.
        { intros pl' (i' & it' & Hb' & Hi' & p' & Hp' & _ & _ & Ht''). simplify_eq. congruence. }
        destruct (find_existing s Hinv Hcap q Hq i Hb) as (s0 & -> & Hpr & Hk). ostep.
        eexists _, i. split; [done|]. by split.
    + right. split; [intros pl (i & it & Hi & _); congruence|].
      destruct (Nat.ltb_spec (bufferSize s) (length (storage s))).
      * destruct (find_next s Hinv Hcap q Hq Hb) as [Hp Hk]; [done|lia|]. by eexists _, _.
      * pose proof (si_size s Hinv).
        destruct (find_full s Hinv Hcap q Hq Hb) as (i & s0 & -> & E & Hp & Hk); [lia|].
        ostep. rewrite E. ostep. by eexists _, i.
Qed.

Lemma StorePacket_spec s p q pl ts :
  send_inv s -> storage s <> [] -> rtp_wf p -> size p <= MtuSize ->
  payload_bytes p = Ok pl -> GetSequenceNumber p = Ok q -> GetTimestamp p = Ok ts ->
  exists s', StorePacket s p = Ok s' /\ send_inv s' /\ stores s q pl ts s'.
Proof.
  intros Hinv Hne Hwf Hsz Hpl Hsq Hts.
  assert (in_uint 16 q) as Hq by (destruct (wf_reads p Hwf) as (? & ? & ? & ? & _); congruence).
  unfold StorePacket, GetSize. rewrite (proj2 (Z.ltb_ge _ _)) by done. rewrite Hsq. ostep.
  destruct (find_storage_spec s p q ts Hinv Hne Hq Hts) as [[(pl0 & H0) ->]|(Hno & s1 & i & -> & Hp & Hk)]; ostep.
  - exists s. split; [done|]. split; [done|]. split; [done|]. intros H. by destruct (H pl0).
  - destruct (pr_item _ _ _ Hp) as (_ & it & Hi & Hf0 & Hf1 & Hf2 & Hf3).
    pose proof (pr_memory _ _ _ Hp _ _ Hi) as Hm. rewrite (item_at_Ok _ _ _ Hi). ostep.
    destruct (clone_holds p it pl q ts Hwf Hsz Hm Hf3 Hpl Hsq Hts) as (c & -> & Hh). ostep.
    set (it' := StorageItem _ _ _ _ _) in *.
    destruct (prepared_store s1 q i it' pl ts Hp Hm Hh) as (Hinv' & Hst & Hoth).
    eexists. split; [done|]. split; [done|]. split; [intros pl' H; by destruct (Hno pl')|].
    intros _. split.
    { exists i, it'. split; [apply (pr_item _ _ _ Hp)|]. split; [|done].
      rewrite storage_set_item, decide_True; [done..|by eapply lookup_lt_Some]. }
    intros q' pl' ts' Hn. rewrite Hoth by done. by apply Hk.
Qed.

Lemma StorePacket_too_big s p : MtuSize < size p -> StorePacket s p = Ok s.
Proof. intros H. unfold StorePacket, GetSize. by rewrite (proj2 (Z.ltb_lt _ _)). Qed.

(** * What storing changes *)

(** [r] is the first number in use after [start], going up and around. *)
Definition next_after (b : gmap Z nat) (start r : Z) : Prop :=
  exists k, (k < Z.to_nat 65536)%nat /\ r = u16 (start + 1 + Z.of_nat k) /\ is_Some (b !! r) /\
    forall j, (j < k)%nat -> b !! u16 (start + 1 + Z.of_nat j) = None.

Lemma next_used_first b : forall n q r, next_used n b q = Some r -> in_uint 16 q ->
  exists k, (k < n)%nat /\ r = u16 (q + Z.of_nat k) /\ is_Some (b !! r) /\
    forall j, (j < k)%nat -> b !! u16 (q + Z.of_nat j) = None.
Proof.
  induction n as [|n IH]; intros q r E Hq; cbn [next_used] in E; [done|]. case_bool_decide as Hc.
  - injection E as <-. exists 0%nat. rewrite Z.add_0_r, wrap_small by done. split_and!; [lia|done|done|lia].
  - destruct (IH _ _ E) as (k & Hk & -> & Hu & Hn); [apply wrap_range; lia|]. exists (S k).
    rewrite wrap_add_l in *. replace (q + Z.of_nat (S k)) with (q + 1 + Z.of_nat k) by lia. split_and!; [lia|done|done|].
    intros [|j] Hj.
    + rewrite Z.add_0_r, wrap_small by done. by apply eq_None_not_Some.
    + specialize (Hn j ltac:(lia)). rewrite wrap_add_l in Hn.
      by replace (q + Z.of_nat (S j)) with (q + 1 + Z.of_nat j) by lia.
Qed.

(** The offset of a number from another. *)
Lemma offset_small x q : in_uint 16 (u16 (q - x)) /\ 0 <= u16 (q - x) < 65536.
Proof. assert (in_uint 16 (u16 (q - x))) as H by (apply wrap_range; lia). split; [done|exact H]. Qed.

Lemma offset_back x q : in_uint 16 q -> u16 (x + u16 (q - x)) = q.
Proof. intros Hq. rewrite wrap_add_r. replace (x + (q - x)) with q by lia. by apply wrap_small. Qed.

Lemma offset_forth x k : 0 <= k < 65536 -> u16 (u16 (x + k) - x) = k.
Proof. intros Hk. rewrite wrap_sub_l. replace (x + k - x) with k by lia. by apply wrap_small. Qed.

Lemma offset_zero x q : in_uint 16 x -> in_uint 16 q -> u16 (q - x) = 0 -> q = x.
Proof. intros Hx Hq H0. rewrite <- (offset_back x q Hq), H0, Z.add_0_r. by apply wrap_small. Qed.

Lemma UpdateBufferStartIdx_next s q :
  bufferLen s = 65536 -> in_uint 16 q -> is_Some (buffer s !! q) ->
  exists r, UpdateBufferStartIdx s = set_buffer s (buffer s) r (bufferSize s) /\ next_after (buffer s) (bufferStartIdx s) r.
Proof.
  intros Hlen Hq Hb. destruct (UpdateBufferStartIdx_spec s q Hlen Hq Hb) as (r & E & Hr).
  exists r. split; [done|]. unfold UpdateBufferStartIdx in E. rewrite Hlen in E. set (st := bufferStartIdx s) in *.
  destruct (next_used _ _ _) as [r0|] eqn:En.
  - assert (r0 = r) as -> by (apply (f_equal bufferStartIdx) in E; exact E).
    destruct (next_used_first _ _ _ _ En) as (k & Hk & -> & Hu & Hn); [apply wrap_range; lia|].
    rewrite wrap_add_l in *. exists k. split_and!; [done..|]. intros i Hi. rewrite <- (Hn i Hi), wrap_add_l. done.
  - exfalso. pose proof (offset_small (u16 (st + 1)) q) as [_ Hd].
    destruct (next_used_found (buffer s) (Z.to_nat 65536) (u16 (st + 1)) (Z.to_nat (u16 (q - u16 (st + 1))))) as (r0 & E0 & _).
    + lia.
    + rewrite Z2Nat.id by lia. by rewrite offset_back.
    + apply wrap_range. lia.
    + congruence.
Qed.

(** What [StorePacket] does to the buffer, for the packet numbered [q]: nothing (a
    duplicate, or too big), or it puts it in the item [i], which was the first,
    that of another packet with the number, a free one, or that of the start. *)
Definition buffer_step (s : rtp_stream_send) (q : Z) (i : nat) (s' : rtp_stream_send) : Prop :=
  bufferSize s = 0%nat /\ buffer s' = <[q := i]> (buffer s) /\ bufferStartIdx s' = q /\ bufferSize s' = 1%nat
  \/ buffer s !! q = Some i /\ buffer s' = buffer s /\ bufferSize s' = bufferSize s /\
     (if bufferStartIdx s =? q then next_after (buffer s) q (bufferStartIdx s') else bufferStartIdx s' = bufferStartIdx s)
  \/ buffer s !! q = None /\ (0 < bufferSize s < length (storage s))%nat /\ i = bufferSize s /\
     buffer s' = <[q := i]> (buffer s) /\ bufferSize s' = S (bufferSize s) /\ bufferStartIdx s' = bufferStartIdx s
  \/ buffer s !! q = None /\ bufferSize s = length (storage s) /\ buffer s !! bufferStartIdx s = Some i /\
     buffer s' = <[q := i]> (delete (bufferStartIdx s) (buffer s)) /\ bufferSize s' = bufferSize s /\
     next_after (delete (bufferStartIdx s) (buffer s)) (bufferStartIdx s) (bufferStartIdx s').

Lemma item_at_inv s i it : item_at s i = Ok it -> storage s !! i = Some it.
Proof. unfold item_at. destruct (storage s !! i); congruence. Qed.

Lemma buffer_step_set s q i s' it : buffer_step s q i s' -> buffer_step s q i (set_item s' i it).
Proof. done. Qed.

Lemma reset_only s i s' : resetStorageItem s (Some i) = Ok s' -> exists it, s' = set_item s i it.
Proof. intros (it & _ & [= <-])%bind_Ok. by eexists. Qed.

Lemma storage_others s i it j : j <> i -> storage (set_item s i it) !! j = storage s !! j.
Proof. intros Hj. cbn. by apply list_lookup_insert_ne. Qed.

(** A number in use other than the start. *)
Lemma other_used s : send_inv s -> (2 <= bufferSize s)%nat ->
  exists q, in_uint 16 q /\ q <> bufferStartIdx s /\ is_Some (buffer s !! q).
Proof.
  intros Hinv H2. destruct (si_start s Hinv) as [i Hb]; [lia|].
  set (j := if decide (i = 0%nat) then 1%nat else 0%nat).
  assert (j <> i /\ (j < bufferSize s)%nat) as [Hne Hj] by (unfold j; destruct (decide (i = 0%nat)); lia).
  destruct (si_onto s Hinv j Hj) as [q Hq]. exists q.
  split; [by apply (si_range s Hinv) in Hq as [? _]|]. split; [congruence|by exists j].
Qed.

Lemma find_storage_step s p q s1 i : send_inv s -> (2 <= length (storage s))%nat -> in_uint 16 q ->
  find_storage s p q = Ok (s1, Some i) ->
  buffer_step s q i s1 /\ forall j, j <> i -> storage s1 !! j = storage s !! j.
Proof.
  intros Hinv Hcap Hq. unfold find_storage.
  rewrite (buffer_get_Ok s q Hinv (storage_nonempty s Hcap) Hq). ostep. pose proof (inv_len s Hinv Hcap) as Hlen.
  destruct (Nat.eqb_spec (bufferSize s) 0) as [H0|H0].
  { intros (it & _ & [= <- <-])%bind_Ok. split; [|done]. left. cbn. by rewrite H0. }
  destruct (buffer s !! q) as [j|] eqn:Hb.
  - intros (it & _ & H)%bind_Ok. apply bind_Ok in H as (sp & _ & H). apply bind_Ok in H as (ts & _ & H).
    apply bind_Ok in H as (ts' & _ & H). destruct (ts =? ts'); [done|].
    apply bind_Ok in H as (s0 & (it' & ->)%reset_only & [= <- <-]). split.
    + right. left. split; [done|]. change (bufferStartIdx (set_item s j it')) with (bufferStartIdx s).
      destruct (Z.eqb_spec (bufferStartIdx s) q) as [Heq|]; [|done].
      destruct (UpdateBufferStartIdx_next (set_item s j it') q) as (r & -> & Hn); [done|done|by exists j|].
      split; [done|]. split; [done|]. cbn in Hn. by rewrite Heq in Hn.
    + intros k Hk. destruct (_ =? q); [|by apply storage_others].
      destruct (UpdateBufferStartIdx_next (set_item s j it') q) as (r & -> & _); [done|done|by exists j|].
      by apply storage_others.
  - pose proof (si_size s Hinv). destruct (Nat.ltb_spec (bufferSize s) (length (storage s))) as [Hlt|Hge].
    { intros [= <- <-]. split; [|done]. right. right. left. cbn. split_and!; try done; lia. }
    destruct (si_start s Hinv) as [j Hj]; [lia|]. destruct (si_range s Hinv _ _ Hj) as [Hst _].
    rewrite (buffer_get_Ok s _ Hinv (storage_nonempty s Hcap) Hst), Hj. ostep.
    intros (s0 & (it' & ->)%reset_only & H1)%bind_Ok. change (bufferStartIdx (set_item s j it')) with (bufferStartIdx s) in H1.
    destruct (other_used s Hinv) as (q' & Hq' & Hne & Hu); [lia|].
    destruct (UpdateBufferStartIdx_next (buffer_unset (set_item s j it') (bufferStartIdx s)) q') as (r & Er & Hn);
      [done|done|cbn; by rewrite lookup_delete_ne|].
    rewrite Er in H1. injection H1 as <- <-. split; [|intros k Hk; by apply storage_others].
    right. right. right. split_and!; [done|lia|done..].
Qed.

(** Storing puts the packet in one item, and leaves the others. *)
Lemma StorePacket_step s p q s' : send_inv s -> (2 <= length (storage s))%nat -> GetSequenceNumber p = Ok q ->
  in_uint 16 q -> StorePacket s p = Ok s' ->
  s' = s \/ exists i, buffer_step s q i s' /\ forall j, j <> i -> storage s' !! j = storage s !! j.
Proof.
  intros Hinv Hcap Hsq Hq. unfold StorePacket. destruct (_ <? _); [by intros [= <-]; left|]. rewrite Hsq. ostep.
  intros ([s1 [i|]] & E & H)%bind_Ok.
  - right. exists i. destruct (find_storage_step s p q s1 i Hinv Hcap Hq E) as [Hs Ho].
    apply bind_Ok in H as (it & _ & H). apply bind_Ok in H as (c & _ & [= <-]). split; [done|].
    intros j Hj. rewrite storage_others by done. by apply Ho.
  - left. injection H as <-. unfold find_storage in E. apply bind_Ok in E as (o & _ & E).
    destruct (_ =? 0)%nat; [by apply bind_Ok in E as (? & _ & [=])|]. destruct o as [j|].
    + apply bind_Ok in E as (it & _ & E). apply bind_Ok in E as (sp & _ & E). apply bind_Ok in E as (ts & _ & E).
      apply bind_Ok in E as (ts' & _ & E). destruct (ts =? ts'); [by injection E as <-|]. by apply bind_Ok in E as (? & _ & [=]).
    + destruct (_ <? _)%nat; [done|]. apply bind_Ok in E as (o & _ & E). apply bind_Ok in E as (s2 & _ & E). by destruct o.
Qed.

(** * The buffer as a queue *)

(** The numbers in use, from the start, going up. *)
Definition numbers (x : Z) (n : nat) : list Z := (fun k : nat => u16 (x + Z.of_nat k)) <$> seq 0 n.

Definition in_use (b : gmap Z nat) (l : list Z) : list Z := filter (fun q => is_Some (b !! q)) l.

Definition queue (s : rtp_stream_send) : list Z := in_use (buffer s) (numbers (bufferStartIdx s) (Z.to_nat 65536)).

(** How many there are before a number. *)
Fixpoint before (q : Z) (l : list Z) : nat :=
  match l with [] => 0 | x :: l => if decide (x = q) then 0 else S (before q l) end.

(** How many more packets are sure to leave a packet in the buffer: as many as there
    are before it, and as there is room for. *)
Definition room (s : rtp_stream_send) (q : Z) : nat := before q (queue s) + (length (storage s) - bufferSize s).

#[global] Strategy expand [room].

(** The number is ahead of all those in use, as the numbers of packets in order are. *)
Definition newest (s : rtp_stream_send) (q : Z) : Prop :=
  forall r, is_Some (buffer s !! r) -> u16 (r - bufferStartIdx s) < u16 (q - bufferStartIdx s).

(** The numbers but one. *)
Definition but (q : Z) (l : list Z) : list Z := filter (fun x => x <> q) l.

(** What is left in the queue when there is no room for the packet numbered [q]. *)
Definition room_made (s : rtp_stream_send) (q : Z) : list Z :=
  if bool_decide (buffer s !! q = None /\ bufferSize s = length (storage s)) then tail (queue s) else queue s.

Lemma numbers_app x a b : numbers x (a + b) = numbers x a ++ numbers (u16 (x + Z.of_nat a)) b.
Proof.
  unfold numbers. rewrite seq_app, fmap_app. f_equal. cbn [plus].
  rewrite <- (Nat.add_0_r a) at 1. rewrite <- fmap_add_seq, <- list_fmap_compose. apply list_fmap_ext.
  intros _ k _. cbn. rewrite wrap_add_l. f_equal. lia.
Qed.

Lemma elem_of_numbers x n q : in_uint 16 q -> Z.of_nat n <= 65536 -> q ∈ numbers x n <-> u16 (q - x) < Z.of_nat n.
Proof.
  intros Hq Hn. unfold numbers. rewrite list_elem_of_fmap. split.
  - intros (k & -> & Hk%elem_of_seq). rewrite offset_forth by lia. lia.
  - intros Hd. pose proof (offset_small x q) as [_ ?]. exists (Z.to_nat (u16 (q - x))).
    rewrite Z2Nat.id, offset_back by (done || lia). split; [done|]. apply elem_of_seq. lia.
Qed.

Lemma numbers_in_uint x n : Forall (in_uint 16) (numbers x n).
Proof. apply Forall_fmap, Forall_true. intros k. apply wrap_range. lia. Qed.

Lemma NoDup_numbers x n : Z.of_nat n <= 65536 -> NoDup (numbers x n).
Proof.
  intros Hn. apply NoDup_fmap_2_strong; [|apply NoDup_seq]. intros a b Ha%elem_of_seq Hb%elem_of_seq E.
  apply wrap_inj_near in E; [lia..|]. change (2 ^ 16) with 65536. lia.
Qed.

Lemma in_use_app b l l' : in_use b (l ++ l') = in_use b l ++ in_use b l'.
Proof. apply filter_app. Qed.

Lemma in_use_none b l : (forall q, q ∈ l -> b !! q = None) -> in_use b l = [].
Proof.
  intros H. unfold in_use. induction l as [|q l IH]; [done|]. rewrite filter_cons, decide_False.
  - apply IH. intros r Hr. apply H. by right.
  - rewrite (H q) by left. by intros [? ?].
Qed.

Lemma in_use_ext b b' l : (forall q, q ∈ l -> is_Some (b !! q) <-> is_Some (b' !! q)) -> in_use b l = in_use b' l.
Proof.
  intros H. unfold in_use. induction l as [|q l IH]; [done|]. rewrite !filter_cons.
  rewrite IH by (intros r Hr; apply H; by right). pose proof (H q (list_elem_of_here _ _)).
  do 2 destruct (decide _); tauto || done.
Qed.

Lemma but_in_use q b l : but q (in_use b l) = in_use (delete q b) l.
Proof.
  unfold but, in_use. rewrite list_filter_filter. induction l as [|x l IH]; [done|]. rewrite !filter_cons, IH.
  destruct (decide (x = q)) as [->|Hne].
  - rewrite decide_False by tauto. rewrite decide_False; [done|]. rewrite lookup_delete_eq. by intros [? ?].
  - assert (delete q b !! x = b !! x) as -> by by apply lookup_delete_ne.
    do 2 destruct (decide _); tauto || done.
Qed.

Lemma but_absent q l : q ∉ l -> but q l = l.
Proof.
  induction l as [|x l IH]; [done|]. intros [Hx Hl]%not_elem_of_cons. unfold but. rewrite filter_cons, decide_True by done. f_equal. by apply IH.
Qed.

Lemma delete_insert_again (b : gmap Z nat) q i : delete q (<[q := i]> b) = delete q b.
Proof. by rewrite delete_insert_eq. Qed.

Lemma numbers_one x : in_uint 16 x -> numbers x 1 = [x].
Proof. intros Hx. unfold numbers. cbn. by rewrite Z.add_0_r, wrap_small. Qed.

Lemma numbers_cons x n : in_uint 16 x -> numbers x (S n) = x :: numbers (u16 (x + 1)) n.
Proof. intros Hx. change (S n) with (1 + n)%nat. by rewrite numbers_app, numbers_one. Qed.

Lemma in_use_cons b x l : in_use b (x :: l) = in_use b [x] ++ in_use b l.
Proof. apply (in_use_app b [x] l). Qed.

(** All numbers, from the next start. *)
Lemma rotate b st r : in_uint 16 st -> next_after b st r ->
  in_use b (numbers r (Z.to_nat 65536)) = in_use b (numbers (u16 (st + 1)) (Z.to_nat 65535)) ++ in_use b [st].
Proof.
  intros Hst (k & Hk & -> & _ & Hn). set (m := (Z.to_nat 65535 - k)%nat). set (r := u16 (st + 1 + Z.of_nat k)).
  assert (in_use b (numbers (u16 (st + 1)) k) = []) as Hnone.
  { apply in_use_none. intros q (j & -> & Hj%elem_of_seq)%list_elem_of_fmap. rewrite wrap_add_l. apply Hn. lia. }
  assert (numbers (u16 (st + 1)) (Z.to_nat 65535) = numbers (u16 (st + 1)) k ++ numbers r m) as ->.
  { replace (Z.to_nat 65535) with (k + m)%nat by lia. by rewrite numbers_app, wrap_add_l. }
  assert (numbers r (Z.to_nat 65536) = numbers r m ++ st :: numbers (u16 (st + 1)) k) as ->.
  { replace (Z.to_nat 65536) with (m + S k)%nat by lia. rewrite numbers_app. f_equal. unfold r. rewrite wrap_add_l.
    replace (st + 1 + Z.of_nat k + Z.of_nat m) with (st + 1 * 2 ^ 16) by (change (2 ^ 16) with 65536; lia).
    rewrite wrap_add_period, wrap_small by done. by apply numbers_cons. }
  rewrite !in_use_app, (in_use_cons b st (numbers _ k)), Hnone. cbn [app]. by rewrite app_nil_r.
Qed.

Lemma queue_start s : in_uint 16 (bufferStartIdx s) ->
  queue s = in_use (buffer s) [bufferStartIdx s] ++ in_use (buffer s) (numbers (u16 (bufferStartIdx s + 1)) (Z.to_nat 65535)).
Proof.
  intros Hst. unfold queue. replace (Z.to_nat 65536) with (S (Z.to_nat 65535)) by lia.
  rewrite numbers_cons by done. apply in_use_cons.
Qed.

Lemma in_use_one b q : is_Some (b !! q) -> in_use b [q] = [q].
Proof. intros Hq. unfold in_use. by rewrite filter_cons, decide_True. Qed.

Lemma queue_head s : in_uint 16 (bufferStartIdx s) -> is_Some (buffer s !! bufferStartIdx s) ->
  exists l, queue s = bufferStartIdx s :: l.
Proof.
  intros Hst Hu. rewrite queue_start, in_use_one by done. generalize (in_use (buffer s) (numbers (u16 (bufferStartIdx s + 1)) (Z.to_nat 65535))).
  intros l. by exists l.
Qed.

Lemma elem_of_queue s q : in_uint 16 q -> q ∈ queue s <-> is_Some (buffer s !! q).
Proof.
  intros Hq. unfold queue, in_use. rewrite list_elem_of_filter, elem_of_numbers by (done || lia).
  pose proof (offset_small (bufferStartIdx s) q) as [_ ?]. split; [tauto|]. intros ?. split; [done|]. lia.
Qed.

Lemma queue_elem s q : q ∈ queue s -> in_uint 16 q /\ is_Some (buffer s !! q).
Proof.
  unfold queue, in_use. intros [Hb Hn]%list_elem_of_filter. split; [|done].
  exact (proj1 (Forall_forall _ _) (numbers_in_uint _ _) q Hn).
Qed.

Lemma queue_NoDup s : NoDup (queue s).
Proof. unfold queue, in_use. apply NoDup_filter, NoDup_numbers. lia. Qed.

Lemma queue_length s : send_inv s -> length (queue s) = bufferSize s.
Proof.
  intros Hinv. assert ((fun q => buffer s !! q) <$> queue s ≡ₚ Some <$> seq 0 (bufferSize s)) as HP.
  { apply NoDup_Permutation.
    - apply NoDup_fmap_2_strong; [|apply queue_NoDup]. intros x y Hx Hy E.
      apply queue_elem in Hx as [_ [i Hi]]. apply (si_inj s Hinv x y i); congruence.
    - apply NoDup_fmap_2; [congruence|apply NoDup_seq].
    - intros o. rewrite !list_elem_of_fmap. split.
      + intros (q & -> & [_ [i Hi]]%queue_elem). exists i. split; [done|]. apply elem_of_seq.
        apply (si_range s Hinv) in Hi. lia.
      + intros (i & -> & Hi%elem_of_seq). destruct (si_onto s Hinv i) as [q Hq]; [lia|]. exists q. split; [done|].
        apply elem_of_queue; [by apply (si_range s Hinv) in Hq as [? _]|by exists i]. }
  apply Permutation_length in HP. by rewrite !length_fmap, length_seq in HP.
Qed.

Lemma but_but q l : but q (but q l) = but q l.
Proof. unfold but. rewrite list_filter_filter. apply list_filter_iff. naive_solver. Qed.

(** The others stay in their order, but for the first when there is no room. *)
Lemma queue_step s q i s' : send_inv s -> (2 <= length (storage s))%nat -> in_uint 16 q -> buffer_step s q i s' ->
  but q (queue s') = but q (room_made s q).
Proof.
  intros Hinv Hcap Hq. unfold room_made.
  intros [(H0 & Eb & _)|[(Hb & Eb & _ & Est)|[(Hb & Hsz & _ & Eb & _ & Est)|(Hb & Hfull & Hi & Eb & _ & Hn)]]].
  - rewrite bool_decide_false by lia. unfold queue at 1. rewrite Eb, but_in_use, delete_insert_again.
    assert (forall r, buffer s !! r = None) as Hnone.
    { intros r. destruct (buffer s !! r) eqn:E; [|done]. apply (si_range s Hinv) in E. lia. }
    unfold queue. rewrite but_in_use, !in_use_none; [done| |]; intros r _; apply lookup_delete_None; auto.
  - rewrite bool_decide_false by (intros [? _]; congruence). destruct (Z.eqb_spec (bufferStartIdx s) q) as [Hs|].
    + unfold queue at 1. rewrite Eb, (rotate _ q) by done. rewrite queue_start by by rewrite Hs. rewrite Hs.
      unfold but. rewrite !filter_app. fold (but q (in_use (buffer s) [q])).
      rewrite (but_in_use q _ [q]), (in_use_none _ [q]); [by rewrite app_nil_r|]. intros r ->%list_elem_of_singleton. apply lookup_delete_eq.
    + unfold queue. by rewrite Eb, Est.
  - rewrite bool_decide_false by lia. unfold queue. by rewrite Eb, Est, !but_in_use, delete_insert_again.
  - rewrite bool_decide_true by done. destruct (si_range s Hinv _ _ Hi) as [Hst _]. set (st := bufferStartIdx s) in *.
    unfold queue at 1. rewrite Eb, but_in_use, delete_insert_again, <- but_in_use.
    rewrite (rotate _ st) by done. rewrite (in_use_none _ [st]), app_nil_r.
    2: { intros r ->%list_elem_of_singleton. apply lookup_delete_eq. }
    rewrite queue_start by done. fold st. 
    rewrite in_use_one by by exists i. cbn [app tail]. f_equal. apply in_use_ext. intros r Hr. rewrite lookup_delete_ne; [done|]. intros <-.
    apply elem_of_numbers in Hr; [|done|lia]. revert Hr. replace (st - u16 (st + 1)) with (st + - u16 (st + 1)) by lia.
    rewrite Z.add_opp_r, wrap_sub_r. replace (st - (st + 1)) with (65535 + -1 * 2 ^ 16) by (change (2 ^ 16) with 65536; lia).
    rewrite wrap_add_period, wrap_small by (unfold in_uint; lia). lia.
Qed.

(** ** Before a number *)

Lemma before_but_le q r l : q <> r -> (before q (but r l) <= before q l)%nat.
Proof.
  intros Hne. unfold but. induction l as [|x l IH]; [done|]. rewrite filter_cons. cbn [before].
  destruct (decide (x <> r)) as [Hx|Hx]; cbn [before]; destruct (decide (x = q)); lia.
Qed.

Lemma before_but q r l : q <> r -> NoDup l -> (before q l <= S (before q (but r l)))%nat.
Proof.
  intros Hne. unfold but. induction 1 as [|x l Hx Hl IH]; [cbn; lia|]. rewrite filter_cons. cbn [before].
  destruct (decide (x <> r)) as [Hxr|Hxr]; cbn [before]; destruct (decide (x = q)); try lia.
  assert (x = r) as -> by (destruct (decide (x = r)); tauto). pose proof (but_absent r l Hx) as E. unfold but in E. rewrite E. lia.
Qed.

Lemma before_last q l : q ∉ l -> before q (l ++ [q]) = length l.
Proof.
  induction l as [|x l IH]; [intros _; cbn; by rewrite decide_True|]. intros [Hx Hl]%not_elem_of_cons. cbn.
  rewrite decide_False by done. by rewrite IH.
Qed.

(** A packet with room to spare stays, and loses one of it at most. *)
Lemma room_step s q i s' q0 j : send_inv s -> (2 <= length (storage s))%nat -> in_uint 16 q -> buffer_step s q i s' ->
  length (storage s') = length (storage s) -> q0 <> q -> buffer s !! q0 = Some j -> (0 < room s q0)%nat ->
  buffer s' !! q0 = Some j /\ j <> i /\ (room s q0 <= S (room s' q0))%nat.
Proof.
  intros Hinv Hcap Hq Hstep Hlen Hne Hj Hroom. pose proof (queue_step s q i s' Hinv Hcap Hq Hstep) as HQ.
  assert (Hle : (before q0 (but q (room_made s q)) <= before q0 (queue s'))%nat) by (rewrite <- HQ; by apply before_but_le).
  pose proof (queue_NoDup s) as Hnd. pose proof (queue_elem s q) as Hel. pose proof (queue_head s) as Hhead.
  unfold room, room_made in *. rewrite Hlen. clear HQ. revert Hle Hnd Hel Hhead Hroom.
  generalize (queue s') as l', (queue s) as l0. intros l' l0 Hle Hnd Hel Hhead Hroom.
  destruct Hstep as [(H0 & _)|[(Hb & Eb & Esz & _)|[(Hb & Hsz & -> & Eb & Esz & _)|(Hb & Hfull & Hi & Eb & Esz & _)]]].
  - apply (si_range s Hinv) in Hj. lia.
  - rewrite bool_decide_false in Hle by (intros [? _]; congruence). rewrite Eb, Esz. split; [done|]. split.
    + intros ->. by apply Hne, (si_inj s Hinv q0 q i).
    + pose proof (before_but q0 q l0 Hne Hnd). lia.
  - rewrite bool_decide_false in Hle by lia. rewrite Eb, Esz, lookup_insert_ne by done. split; [done|]. split.
    + apply (si_range s Hinv) in Hj. lia.
    + rewrite but_absent in Hle; [lia|]. intros Hin. destruct (Hel Hin) as [_ [? ?]]. congruence.
  - rewrite bool_decide_true in Hle by done. destruct (si_range s Hinv _ _ Hi) as [Hst _].
    destruct (Hhead Hst) as [l ->]; [by exists i|].
    cbn [tail before] in *. destruct (decide (bufferStartIdx s = q0)) as [Hq0|Hq0]; [lia|].
    rewrite Eb, Esz, lookup_insert_ne, lookup_delete_ne by done. split; [done|]. split.
    + intros ->. by apply Hq0, (si_inj s Hinv _ _ i).
    + rewrite but_absent in Hle; [lia|]. intros Hin. destruct Hel as [_ [? ?]]; [by right|congruence].
Qed.

Lemma queue_ext s s' : buffer s' = buffer s -> bufferStartIdx s' = bufferStartIdx s -> queue s' = queue s.
Proof. intros Eb Est. unfold queue. by rewrite Eb, Est. Qed.

Lemma room_set_stream s st q : room (set_stream s st) q = room s q.
Proof. unfold room. by rewrite (queue_ext s (set_stream s st)). Qed.

(** ** Packets in order *)

Lemma newest_new s q : newest s q -> buffer s !! q = None.
Proof. intros Hn. destruct (buffer s !! q) eqn:E; [|done]. specialize (Hn q ltac:(by eexists)). lia. Qed.

(** A number that all others in use are behind is the last of the queue. *)
Lemma queue_last s q : in_uint 16 q -> is_Some (buffer s !! q) ->
  (forall r, in_uint 16 r -> is_Some (buffer s !! r) -> r <> q -> u16 (r - bufferStartIdx s) < u16 (q - bufferStartIdx s)) ->
  queue s = but q (queue s) ++ [q].
Proof.
  intros Hq Hu Hlast. set (d := Z.to_nat (u16 (q - bufferStartIdx s))). pose proof (offset_small (bufferStartIdx s) q) as [_ Hd].
  assert (queue s = in_use (buffer s) (numbers (bufferStartIdx s) d) ++ [q]) as E.
  { unfold queue. replace (Z.to_nat 65536) with (d + S (Z.to_nat 65535 - d))%nat by lia.
    rewrite numbers_app, in_use_app. f_equal. unfold d at 1. rewrite Z2Nat.id, offset_back by (done || lia).
    rewrite numbers_cons, in_use_cons by done. rewrite (in_use_none _ (numbers _ _)), app_nil_r.
    { by rewrite in_use_one. }
    intros r (k & -> & Hk%elem_of_seq)%list_elem_of_fmap. rewrite wrap_add_l.
    set (r := u16 (q + 1 + Z.of_nat k)). destruct (buffer s !! r) as [i|] eqn:Er; [exfalso|done].
    assert (u16 (r - bufferStartIdx s) = Z.of_nat d + 1 + Z.of_nat k) as Ed.
    { unfold r. rewrite <- (offset_back (bufferStartIdx s) q Hq) at 1. rewrite <- (Z.add_assoc (u16 _)), wrap_add_l.
      rewrite <- Z.add_assoc. rewrite offset_forth by lia. lia. }
    assert (Z.of_nat d = u16 (q - bufferStartIdx s)) as Edd by (apply Z2Nat.id; lia).
    assert (r <> q) as Hrq by (intros Hrq; rewrite Hrq in Ed; lia). assert (in_uint 16 r) as Hr by (apply wrap_range; lia).
    specialize (Hlast r Hr ltac:(by eexists) Hrq). lia. }
  rewrite E at 2. unfold but. rewrite filter_app, (filter_cons (fun x => x <> q) q), decide_False by tauto.
  rewrite app_nil_r. rewrite E at 1. f_equal. symmetry. apply but_absent. intros Hin.
  pose proof (queue_NoDup s) as Hnd. rewrite E in Hnd. apply NoDup_app in Hnd as (_ & Hnd & _). apply (Hnd q Hin). by left.
Qed.

Lemma next_after_newest b st r q : in_uint 16 st -> next_after b st r -> b !! st = None ->
  (forall x, is_Some (b !! x) -> u16 (x - st) < u16 (q - st)) ->
  forall x, in_uint 16 x -> is_Some (b !! x) -> u16 (x - r) < u16 (q - r).
Proof.
  intros Hst (k & Hk & -> & Hu & Hn) Hb Hnew x Hx Hbx.
  assert (Hoff : forall y, 1 + Z.of_nat k <= u16 (y - st) -> u16 (y - u16 (st + 1 + Z.of_nat k)) = u16 (y - st) - 1 - Z.of_nat k).
  { intros y Hy. pose proof (offset_small st y) as [_ ?]. rewrite wrap_sub_r.
    replace (y - (st + 1 + Z.of_nat k)) with (y - st - (1 + Z.of_nat k)) by lia. rewrite <- wrap_sub_l.
    rewrite wrap_small; [lia|]. unfold in_uint. change (2 ^ 16) with 65536. lia. }
  assert (1 + Z.of_nat k <= u16 (x - st)) as Hkx.
  { pose proof (offset_small st x) as [_ ?]. destruct (Z.le_gt_cases (1 + Z.of_nat k) (u16 (x - st))) as [|Hlt]; [done|exfalso].
    assert (u16 (x - st) <> 0) as H0 by (intros H0; apply offset_zero in H0; [subst; destruct Hbx; congruence|done..]).
    specialize (Hn (Z.to_nat (u16 (x - st) - 1)) ltac:(lia)). revert Hn.
    replace (st + 1 + Z.of_nat (Z.to_nat (u16 (x - st) - 1))) with (st + u16 (x - st)) by lia.
    rewrite offset_back by done. destruct Hbx. congruence. }
  specialize (Hnew x Hbx). rewrite !Hoff by lia. lia.
Qed.

(** Packets in order come out in the order they went in. *)
Lemma queue_newest s q i s' : send_inv s -> (2 <= length (storage s))%nat -> in_uint 16 q -> buffer_step s q i s' ->
  newest s q -> queue s' = room_made s q ++ [q].
Proof.
  intros Hinv Hcap Hq Hstep Hnew. pose proof (newest_new s q Hnew) as Hnone.
  pose proof (queue_step s q i s' Hinv Hcap Hq Hstep) as HQ. rewrite (queue_last s' q Hq).
  - rewrite HQ. f_equal. apply but_absent. unfold room_made. intros Hin.
    assert (q ∈ queue s) as [_ [? ?]]%queue_elem; [|congruence]. case_bool_decide; [|done]. destruct (queue s); [done|by right].
  - destruct Hstep as [(_ & -> & _)|[(? & _)|[(_ & _ & _ & -> & _)|(_ & _ & _ & -> & _)]]]; [|congruence|..]; rewrite lookup_insert_eq; by eexists.
  - intros r Hr Hu Hne.
    destruct Hstep as [(H0 & Eb & _)|[(? & _)|[(_ & _ & _ & Eb & _ & ->)|(_ & _ & Hi & Eb & _ & Hn)]]]; [|congruence|..];
      rewrite Eb, lookup_insert_ne in Hu by done.
    + destruct Hu as [j Hj]. apply (si_range s Hinv) in Hj. lia.
    + by apply Hnew.
    + destruct (si_range s Hinv _ _ Hi) as [Hst _]. apply (next_after_newest _ _ _ q Hst Hn); [apply lookup_delete_eq| |done..].
      intros x Hx. apply Hnew. destruct (decide (x = bufferStartIdx s)) as [->|]; [by eexists|]. by rewrite lookup_delete_ne in Hx.
Qed.

(** A packet newer than all others stays for as many more as the storage has room for. *)
Lemma room_newest s q i s' : send_inv s -> send_inv s' -> (2 <= length (storage s))%nat -> in_uint 16 q -> buffer_step s q i s' ->
  length (storage s') = length (storage s) -> newest s q -> room s' q = (length (storage s) - 1)%nat.
Proof.
  intros Hinv Hinv' Hcap Hq Hstep Hlen Hnew. pose proof (queue_newest s q i s' Hinv Hcap Hq Hstep Hnew) as E.
  pose proof (queue_length s' Hinv') as HL. unfold room. rewrite E in *. rewrite Hlen.
  rewrite before_last.
  - rewrite length_app in HL. cbn in HL. pose proof (si_size s' Hinv'). lia.
  - pose proof (queue_NoDup s') as Hnd. rewrite E in Hnd. apply NoDup_app in Hnd as (_ & Hnd & _). intros Hin. apply (Hnd q Hin). by left.
Qed.

(** * Clearing *)

(** Part of the invariant, which emptying the buffer keeps. *)
Record clearing (s s' : rtp_stream_send) (idx : Z) : Prop := {
  cl_len : bufferLen s' = bufferLen s;
  cl_storage : length (storage s') = length (storage s);
  cl_gone : forall q, q < idx -> buffer s' !! q = None;
  cl_rest : forall q, idx <= q -> buffer s' !! q = buffer s !! q;
  cl_memory : forall i it, storage s' !! i = Some it -> memory_ok it;
  cl_used : forall q i, idx <= q -> buffer s !! q = Some i -> storage s' !! i = storage s !! i;
  cl_fresh : forall i it, (forall q, idx <= q -> buffer s !! q <> Some i) -> storage s' !! i = Some it -> fresh it
}.

Lemma clearing_start s : send_inv s -> clearing s s 0.
Proof.
  intros Hinv. split; try done.
  - intros q Hq. destruct (buffer s !! q) eqn:Hb; [|done]. apply (si_range s Hinv) in Hb as [[] _]. lia.
  - apply (si_memory s Hinv).
  -   intros i it Hno Hi. apply (si_free s Hinv i it); [|done].
  destruct (Nat.le_gt_cases (bufferSize s) i) as [|Hlt]; [done|].
  destruct (si_onto s Hinv i Hlt) as [q Hq]. destruct (si_range s Hinv q i Hq) as [[] _].
  by destruct (Hno q).
Qed.

Lemma clear_loop_spec s n : forall idx s', send_inv s -> clearing s s' idx -> storage s <> [] ->
  0 <= idx -> idx + Z.of_nat n = bufferLen s ->
  exists s2, clear_loop n idx s' = Ok s2 /\ clearing s s2 (bufferLen s).
Proof.
  induction n as [|n IH]; intros idx s' Hinv Hc Hne H0 Hn.
  { exists s'. split; [done|]. by replace (bufferLen s) with idx by lia. }
  cbn [clear_loop]. unfold buffer_get. rewrite (cl_len _ _ _ Hc).
  rewrite (proj2 (Z.leb_le 0 idx)), (proj2 (Z.ltb_lt idx _)) by lia. cbn [andb]. ostep.
  rewrite (cl_rest _ _ _ Hc) by lia. destruct (buffer s !! idx) as [i|] eqn:Hb.
  - destruct (si_used s Hinv idx i Hb) as (it & pl & ts & Hi & Hh).
    rewrite <- (cl_used _ _ _ Hc idx i) in Hi by (done || lia).
    destruct (reset_spec s' i it pl idx ts Hi (cl_memory _ _ _ Hc _ _ Hi) Hh) as (it' & -> & Hf & Hm). ostep.
    assert (i < length (storage s'))%nat as Hlt by by eapply lookup_lt_Some.
    pose proof (storage_set_item s' i it') as Hset.
    apply IH; try done; [|lia..]. split; cbn -[set_item storage].
    + apply (cl_len _ _ _ Hc).
    + cbn. rewrite length_insert. apply (cl_storage _ _ _ Hc).
    + intros q Hq. cbn. destruct (decide (q = idx)) as [->|]; [apply lookup_delete_eq|].
      rewrite lookup_delete_ne by done. apply (cl_gone _ _ _ Hc). lia.
    + intros q Hq. cbn. rewrite lookup_delete_ne by lia. apply (cl_rest _ _ _ Hc). lia.
    + intros j itj. change (storage (buffer_unset ?a idx)) with (storage a). rewrite Hset by done.
      destruct (decide _); [by intros [= <-]|apply (cl_memory _ _ _ Hc)].
    + intros q j Hq Hj. change (storage (buffer_unset ?a idx)) with (storage a). rewrite Hset by done.
      rewrite decide_False; [apply (cl_used _ _ _ Hc q); [lia|done]|].
      intros ->. pose proof (si_inj s Hinv _ _ _ Hb Hj). lia.
    + intros j itj Hno. change (storage (buffer_unset ?a idx)) with (storage a). rewrite Hset by done.
      destruct (decide _) as [|Hj]; [by intros [= <-]|]. apply (cl_fresh _ _ _ Hc).
      intros q Hq Hbq. destruct (decide (q = idx)) as [->|]; [congruence|]. apply (Hno q); [lia|done].
  - apply IH; try done; [|lia..]. destruct Hc as [C1 C2 C3 C4 C5 C6 C7].
    assert (Hidx : buffer s' !! idx = None) by (rewrite C4 by lia; done).
    split; try done.
    + intros q Hq. destruct (decide (q = idx)) as [->|]; [done|]. apply C3. lia.
    + intros q Hq. apply C4. lia.
    + intros q i Hq. apply C6. lia.
    + intros i it Hno. apply C7. intros q Hq. destruct (decide (q = idx)) as [->|]; [congruence|]. apply Hno. lia.
Qed.

Lemma ClearBuffer_spec s : send_inv s ->
  exists s', ClearBuffer s = Ok s' /\ send_inv s' /\ bufferSize s' = 0%nat /\
    length (storage s') = length (storage s) /\ forall q, buffer s' !! q = None.
Proof.
  intros Hinv. unfold ClearBuffer. pose proof (si_len s Hinv) as Hlen.
  destruct (decide (storage s = [])) as [E|Hne].
  { assert (bufferSize s = 0%nat) as H0 by (pose proof (si_size s Hinv) as Hz; rewrite E in Hz; cbn in Hz; lia).
    rewrite E. exists s. split_and!; try done; [by rewrite E|]. intros q.
    destruct (buffer s !! q) eqn:Hq; [|done]. apply (si_range s Hinv) in Hq. lia. }
  assert (bufferLen s = 65536) as Hl by (rewrite Hlen; by destruct (storage s)).
  destruct (clear_loop_spec s (Z.to_nat (bufferLen s)) 0 s) as (s2 & E & Hc); try done; try lia.
  { by apply clearing_start. }
  assert (exists s3, match storage s with [] => Ok s | _ => s0 ← clear_loop (Z.to_nat (bufferLen s)) 0 s;
            Ok (set_buffer s0 (buffer s0) 0 0) end = Ok s3 /\ s3 = set_buffer s2 (buffer s2) 0 0)
    as (s3 & -> & ->).
  { destruct (storage s); [done|]. rewrite E. ostep. by eexists. }
  eexists. split; [done|]. destruct Hc as [C1 C2 C3 C4 C5 C6 C7].
  assert (Hnone : forall q, buffer s2 !! q = None).
  { intros q. destruct (Z.lt_ge_cases q (bufferLen s)) as [Hq|Hq]; [by apply C3|].
    rewrite C4 by done. destruct (buffer s !! q) eqn:Hb; [|done]. apply (si_range s Hinv) in Hb as [[] _]. lia. }
  assert (Hnouse : forall i q, bufferLen s <= q -> buffer s !! q <> Some i).
  { intros i q Hq Hb. rewrite <- C4, Hnone in Hb by done. done. }
  split; [|done]. split; cbn; try done; try lia.
  - rewrite C1, Hlen. destruct (storage s); [done|]. by destruct (storage s2).
  - rewrite C2. apply (si_capacity s Hinv).
  - intros q i. by rewrite Hnone.
  - intros q1 q2 i. by rewrite Hnone.
  - intros q i. by rewrite Hnone.
  - intros i it _ Hi. exact (C7 i it (Hnouse i) Hi).
Qed.

(** * Sending a packet *)

Lemma ReceivePacket_params s p now s' b : RtpStream.ReceivePacket s p now = Ok (s', b) ->
  par s' = par s /\ HasRtx s' = HasRtx s.
Proof.
  unfold RtpStream.ReceivePacket. intros H.
  apply bind_Ok in H as (q & _ & H). apply bind_Ok in H as (ts & _ & H).
  set (s0 := if started s then s else _) in H.
  assert (par s0 = par s /\ HasRtx s0 = HasRtx s) as [<- <-] by (unfold s0; by destruct (started s)).
  assert (par (UpdateSeq s0 q ts now).1 = par s0 /\ HasRtx (UpdateSeq s0 q ts now).1 = HasRtx s0) as [<- <-].
  { unfold UpdateSeq. destruct (_ <? MaxDropout); [done|]. destruct (_ <=? _); [|done].
    by destruct (q =? badSeq s0). }
  destruct (UpdateSeq s0 q ts now) as [s1 ok]. destruct ok; cbn [negb] in H; [|by injection H as <- <-].
  destruct (IsSeqHigherThan 32 ts (maxPacketTs s1)); by injection H as <- <-.
Qed.

Lemma ReceivePacket_Ok s p now : rtp_wf p -> exists r, RtpStream.ReceivePacket s p now = Ok r.
Proof.
  intros Hwf. destruct (wf_reads p Hwf) as (q & ts & Hq & _ & Ht & _). unfold RtpStream.ReceivePacket.
  rewrite Hq, Ht. ostep. set (s0 := if started s then s else _). destruct (UpdateSeq s0 q ts now) as [s1 ok].
  destruct ok; cbn [negb]; [|by eexists]. destruct (IsSeqHigherThan _ _ _); by eexists.
Qed.

(** Storing only changes the buffer. *)
Definition buffer_only (s s' : rtp_stream_send) : Prop :=
  stream s' = stream s /\ rtt s' = rtt s /\ length (storage s') = length (storage s).

Lemma reset_buffer_only s i s' : resetStorageItem s i = Ok s' -> buffer_only s s'.
Proof.
  destruct i as [i|]; [|discriminate]. intros (it & _ & [= <-])%bind_Ok.
  split; [done|]. split; [done|]. apply length_insert.
Qed.

Lemma start_buffer_only s : buffer_only s (UpdateBufferStartIdx s).
Proof. unfold UpdateBufferStartIdx. by destruct (next_used _ _ _). Qed.

Lemma find_storage_buffer_only s p q s' i : find_storage s p q = Ok (s', i) -> buffer_only s s'.
Proof.
  unfold find_storage. intros (item & _ & H)%bind_Ok. destruct (bufferSize s =? 0)%nat.
  { apply bind_Ok in H as (it & _ & [= <- _]). done. }
  destruct item as [j|].
  - ok_inv. destruct (_ =? _); [by injection H as <- _|].
    apply bind_Ok in H as (s1 & E%reset_buffer_only & [= <- _]).
    destruct (_ =? _); [|done]. pose proof (start_buffer_only s1) as (E1 & E2 & E3).
    destruct E as (F1 & F2 & F3). split_and!; congruence.
  - destruct (_ <? _)%nat; [by injection H as <- _|].
    apply bind_Ok in H as (first & _ & H). apply bind_Ok in H as (s1 & E%reset_buffer_only & H).
    destruct first as [j|]; [|discriminate H]. injection H as <- _.
    pose proof (start_buffer_only (buffer_unset s1 (bufferStartIdx s1))) as (E1 & E2 & E3).
    destruct E as (F1 & F2 & F3).
    unfold buffer_only. cbn -[UpdateBufferStartIdx buffer_unset]. rewrite E1, E2, E3. by split_and!.
Qed.

Lemma StorePacket_buffer_only s p s' : StorePacket s p = Ok s' -> buffer_only s s'.
Proof.
  unfold StorePacket. destruct (_ <? _); [by intros [= <-]|].
  intros (q & _ & ([s1 i] & E%find_storage_buffer_only & H)%bind_Ok)%bind_Ok.
  destruct i as [i|]; [|by injection H as <-].
  apply bind_Ok in H as (it & _ & H). apply bind_Ok in H as (c & _ & [= <-]).
  destruct E as (F1 & F2 & F3). split; [done|]. split; [done|]. cbn. by rewrite length_insert.
Qed.

(** [ReceivePacket] stores the packets whose number is accepted. *)
Lemma Send_ReceivePacket_spec s p q pl ts now :
  send_inv s -> storage s <> [] -> rtp_wf p -> size p <= MtuSize ->
  payload_bytes p = Ok pl -> GetSequenceNumber p = Ok q -> GetTimestamp p = Ok ts ->
  exists st b s', RtpStream.ReceivePacket (stream s) p now = Ok (st, b) /\ ReceivePacket s p now = Ok (s', b) /\
    stream s' = st /\ rtt s' = rtt s /\ length (storage s') = length (storage s) /\ send_inv s' /\
    if b then stores (set_stream s st) q pl ts s' else s' = set_stream s st.
Proof.
  intros Hinv Hne Hwf Hsz Hpl Hq Ht. unfold ReceivePacket.
  destruct (ReceivePacket_Ok (stream s) p now Hwf) as [[st b] E]. rewrite E. ostep. exists st, b.
  assert (send_inv (set_stream s st)) as Hinv1 by by apply (send_inv_ext s).
  destruct b; cbn [negb]; [|by exists (set_stream s st)].
  destruct (StorePacket_spec (set_stream s st) p q pl ts) as (s1 & Es & Hinv2 & Hst); try done.
  exists s1. destruct (StorePacket_buffer_only _ _ _ Es) as (E1 & E2 & E3).
  split; [done|]. split; [|by split_and!]. cbn [storage set_stream].
  destruct (storage s); [done|]. rewrite Es. done.
Qed.
