(* ===== verification/Retransmission.v ===== *)
(** Answering a NACK: which of the requested packets [RtpStreamSend] sends
    again, and what they carry. *)

From Stdlib Require Import Floats.SpecFloat.
From S2P Require Export SendFacts.

(** * The packets asked for, and those due *)

(** The numbers a NACK item asks for: the packet id, and [k + 1] after it for
    each bit [k] of the bitmask. *)
Definition following (n : nat) (q bitmask : Z) : list Z :=
  (fun k => u16 (q + 1 + k)) <$> filter (fun k => Z.testbit bitmask k = true) (seqZ 0 (Z.of_nat n)).

Definition requested (item : Z * Z) : list Z := item.1 :: following 16 item.1 item.2.

(** The item of a sequence number. *)
Definition item_of (s : rtp_stream_send) (q : Z) : option storage_item :=
  i ← buffer s !! q; storage s !! i.

(** The packet is in the buffer, is not too old, and has not been sent again
    within the round trip time. *)
Definition due (s : rtp_stream_send) (nowMs rtt16 q : Z) : bool :=
  match item_of s q with
  | None => false
  | Some it =>
      match (p ← packet_of it; GetTimestamp p) with
      | Ok ts =>
          let age := u32 (u32 (maxPacketTs (stream s) - ts) * 1000) / par_clockRate (par (stream s)) in
          (age <=? MaxRetransmissionDelay) &&
          ((resentAtMs it =? 0) || (rtt16 <? u64 (nowMs - resentAtMs it)))
      | Err _ => false
      end
  end.

(** The packet goes out as it came, or encoded when there is an RTX stream. *)
Definition resent_as (s : rtp_stream_send) (q : Z) (p : rtp_packet) : Prop :=
  exists it pl ts, item_of s q = Some it /\ holds it q pl ts /\
    sends (HasRtx (stream s) || rtxEncoded it) p q pl /\ GetTimestamp p = Ok ts.

(** [s'] is [s] after the packets numbered [qs] have been sent again. *)
Record resent (now : Z) (s : rtp_stream_send) (qs : list Z) (s' : rtp_stream_send) : Prop := {
  re_inv : send_inv s';
  re_buffer : buffer s' = buffer s /\ bufferStartIdx s' = bufferStartIdx s /\ bufferSize s' = bufferSize s;
  re_storage : length (storage s') = length (storage s);
  re_stream : par (stream s') = par (stream s) /\ HasRtx (stream s') = HasRtx (stream s) /\
    maxPacketTs (stream s') = maxPacketTs (stream s);
  re_rtt : rtt s' = rtt s;
  re_others : forall q, q ∉ qs -> item_of s' q = item_of s q;
  re_sent : forall q, q ∈ qs -> exists it it' p pl ts, item_of s q = Some it /\ item_of s' q = Some it' /\
    resentAtMs it' = now /\ packet it' = Some p /\ holds it q pl ts /\ holds it' q pl ts /\
    rtxEncoded it' = HasRtx (stream s) || rtxEncoded it
}.

Lemma resent_nil now s : send_inv s -> resent now s [] s.
Proof. intros Hinv. split; try done. intros q Hq. by apply elem_of_nil in Hq. Qed.

Lemma resent_trans now s qs1 s1 qs2 s2 : (forall q, q ∈ qs1 -> q ∉ qs2) ->
  resent now s qs1 s1 -> resent now s1 qs2 s2 -> resent now s (qs1 ++ qs2) s2.
Proof.
  intros Hdis [I1 (B1 & B1' & B1'') L1 (P1 & H1 & M1) R1 O1 S1] [I2 (B2 & B2' & B2'') L2 (P2 & H2 & M2) R2 O2 S2].
  split; try done.
  - by rewrite B2, B2', B2''.
  - congruence.
  - by rewrite P2, H2, M2.
  - congruence.
  - intros q [Hn1 Hn2]%not_elem_of_app. rewrite (O2 q Hn2). by apply O1.
  - intros q [Hq|Hq]%elem_of_app.
    + destruct (S1 q Hq) as (it & it' & p & pl & ts & ?). exists it, it', p, pl, ts.
      rewrite (O2 q (Hdis q Hq)). done.
    + destruct (S2 q Hq) as (it & it' & p & pl & ts & Hi & ?). exists it, it', p, pl, ts.
      rewrite O1 in Hi by (intros Hq1; by apply (Hdis q)). by rewrite <- H1.
Qed.

(** Counters play no part. *)
Lemma resent_counters now s qs s' a b n k : resent now s qs s' ->
  resent now s qs (set_nacks (set_stream s' (set_resent (stream s') a b)) n k).
Proof. intros [I B L P R O S]. split; try done. by apply (send_inv_ext s'). Qed.

Lemma due_ext s s' now rtt16 q :
  par (stream s') = par (stream s) -> maxPacketTs (stream s') = maxPacketTs (stream s) ->
  item_of s' q = item_of s q -> due s' now rtt16 q = due s now rtt16 q.
Proof. unfold due. by intros -> -> ->. Qed.

(** A packet just sent again is not due. *)
Lemma due_resent now s qs s' rtt16 q : resent now s qs s' -> now <> 0 -> 0 <= rtt16 ->
  due s' now rtt16 q = due s now rtt16 q && bool_decide (q ∉ qs).
Proof.
  intros Hre Hnow Hr. pose proof Hre as [I B L (P & H & M) R O S].
  destruct (decide (q ∈ qs)) as [Hq|Hq].
  - rewrite (bool_decide_false (q ∉ qs)), andb_false_r by (intros H'; by apply H').
    destruct (S q Hq) as (it & it' & p & pl & ts & _ & Hi & Hres & Hp & _). unfold due. rewrite Hi.
    unfold packet_of. rewrite Hp. ostep. destruct (GetTimestamp p); [|done]. rewrite Hres, Z.sub_diag.
    rewrite (proj2 (Z.eqb_neq now 0)), (proj2 (Z.ltb_ge rtt16 _)) by done. by rewrite andb_false_r.
  - rewrite bool_decide_true, andb_true_r by done. apply due_ext; [done..|]. by apply O.
Qed.

(** The items [following] lists. *)
Lemma following_S n q bitmask :
  following (S n) q bitmask =
  (if Z.testbit bitmask 0 then [u16 (q + 1)] else []) ++ following n (u16 (q + 1)) (Z.shiftr bitmask 1).
Proof.
  unfold following. rewrite seqZ_cons by lia. rewrite filter_cons.
  replace (Z.pred (Z.of_nat (S n))) with (Z.of_nat n) by lia. change (Z.succ 0) with 1.
  assert (forall l : list Z, (forall k, k ∈ l -> 0 <= k) ->
    (fun k => u16 (q + 1 + k)) <$> filter (fun k => Z.testbit bitmask k = true) (Z.add 1 <$> l) =
    (fun k => u16 (u16 (q + 1) + 1 + k)) <$> filter (fun k => Z.testbit (Z.shiftr bitmask 1) k = true) l) as H.
  { induction l as [|k l IH]; intros Hl; [done|]. rewrite fmap_cons, !filter_cons.
    pose proof (IH (fun k' Hk' => Hl k' (list_elem_of_further _ _ _ Hk'))) as IH'.
    pose proof (Z.shiftr_spec bitmask 1 k (Hl k (list_elem_of_here _ _))) as Hb.
    rewrite (Z.add_comm k 1) in Hb.
    destruct (decide _) as [Hd|Hd], (decide _) as [Hd'|Hd']; try congruence.
    rewrite !fmap_cons. f_equal; [|exact IH']. rewrite <- (Z.add_assoc (u16 (q + 1))), wrap_add_l. f_equal; lia. }
  assert (Hsh : seqZ 1 (Z.of_nat n) = Z.add 1 <$> seqZ 0 (Z.of_nat n)) by (by rewrite (fmap_add_seqZ 1 0)).
  assert (forall k, k ∈ seqZ 0 (Z.of_nat n) -> 0 <= k) as Hpos by (intros k [? _]%elem_of_seqZ; done).
  rewrite Hsh. specialize (H _ Hpos). destruct (decide _) as [->|Hd%not_true_is_false].
  - rewrite fmap_cons, Z.add_0_r. cbn [app]. f_equal. exact H.
  - rewrite Hd. exact H.
Qed.

Lemma elem_of_following n q bitmask x :
  x ∈ following n q bitmask <-> exists k, x = u16 (q + 1 + k) /\ Z.testbit bitmask k = true /\ 0 <= k < Z.of_nat n.
Proof.
  unfold following. rewrite list_elem_of_fmap. split.
  - intros (k & -> & [Hk Hs]%list_elem_of_filter). exists k. apply elem_of_seqZ in Hs. split_and!; try done; lia.
  - intros (k & -> & Hb & Hk). exists k. split; [done|]. apply list_elem_of_filter. split; [done|].
    apply elem_of_seqZ. lia.
Qed.

Lemma following_fresh n q bitmask : in_uint 16 q -> Z.of_nat n < 65535 -> q ∉ following n q bitmask.
Proof.
  intros Hq Hn (k & E & _ & Hk)%elem_of_following.
  assert (u16 q = u16 (q + 1 + k)) as E' by (rewrite wrap_small; done).
  apply wrap_inj_near in E'; [lia..|]. change (2 ^ 16) with 65536. lia.
Qed.

Lemma following_range n q bitmask : Forall (in_uint 16) (following n q bitmask).
Proof. apply Forall_forall. intros x (k & -> & _)%elem_of_following. apply wrap_range. lia. Qed.

Lemma length_following n q bitmask : (length (following n q bitmask) <= n)%nat.
Proof.
  unfold following. rewrite length_fmap. etrans; [apply length_filter|]. rewrite length_seqZ. lia.
Qed.

(** * Sending one packet again *)

Lemma item_of_stored s q i it : buffer s !! q = Some i -> storage s !! i = Some it -> item_of s q = Some it.
Proof. intros Hb Hi. unfold item_of. rewrite Hb. done. Qed.

Lemma SetSequenceNumber_sends p seq q pl : rtp_wf p -> sends true p q pl ->
  exists p', SetSequenceNumber p seq = Ok p' /\ rtp_wf p' /\ zlen (mem p') = zlen (mem p) /\
    payload p' = payload p /\ payloadLength p' = payloadLength p /\
    sends true p' q pl /\ GetTimestamp p' = GetTimestamp p.
Proof.
  intros Hwf Hs. destruct (wf_payload p Hwf) as (H12 & Hend & _). unfold HeaderSize in H12.
  pose proof (wf_lengths p Hwf) as (? & ? & ?). pose proof Hwf as [Hm Hfit _ _ _ (Hpad & Hpadb)].
  unfold SetSequenceNumber. destruct (sets_Set2Bytes (mem p) 2 seq) as (m & E & [L F] & B & _); [lia..|].
  rewrite E. ostep. eexists. split; [done|]. change (Z.of_nat 2) with 2 in *. specialize (B Hm).
  assert (forall lo n, get_bits m 0 lo n = get_bits (mem p) 0 lo n) as G
    by (intros; apply get_bits_ext; by rewrite F by lia).
  split.
  { apply (wf_rebuild p); cbn [mem set_mem csrcList headerExtension payload payloadLength payloadPadding size
      mapOneByteExtensions mapTwoBytesExtensions ids]; try done; try lia.
    - apply G.
    - apply G.
    - apply G.
    - intros i Hi. unfold HeaderSize in Hi. by rewrite F by lia.
    - rewrite <- Hpad. apply G.
    - intros Hz. rewrite F by lia. by apply Hpadb. }
  split; [done|]. split; [done|]. split; [done|]. split.
  - unfold sends, payload_bytes in *. rewrite <- Hs. apply slice_ext; [exact L|].
    intros i Hi. cbn [mem set_mem]. by rewrite F by lia.
  - apply Get4Bytes_ext. intros j Hj. cbn [mem set_mem]. by rewrite F by lia.
Qed.

(** The item a packet is in once it is sent again. *)
Lemma item_of_set_item s q i it q' : send_inv s -> buffer s !! q = Some i ->
  item_of (set_item s i it) q' = if decide (q' = q) then Some it else item_of s q'.
Proof.
  intros Hinv Hb. destruct (si_used s Hinv q i Hb) as (it0 & _ & _ & Hi & _).
  assert (i < length (storage s))%nat as Hlt by by eapply lookup_lt_Some.
  unfold item_of. change (buffer (set_item s i it)) with (buffer s). destruct (decide (q' = q)) as [->|Hne].
  - rewrite Hb. cbn [mbind option_bind]. by rewrite storage_set_item, decide_True.
  - destruct (buffer s !! q') as [j|] eqn:Hj; [|done]. cbn [mbind option_bind].
    rewrite storage_set_item, decide_False; [done| |done]. intros ->. by apply Hne, (si_inj s Hinv q' q i).
Qed.

(** Replacing the packet of a used item by another holding the same. *)
Lemma send_inv_set_item s q i it pl ts : send_inv s -> buffer s !! q = Some i ->
  memory_ok it -> holds it q pl ts -> send_inv (set_item s i it).
Proof.
  intros Hinv Hb Hm Hh. destruct (si_used s Hinv q i Hb) as (it0 & _ & _ & Hi & _).
  assert (i < length (storage s))%nat as Hlt by by eapply lookup_lt_Some.
  pose proof (storage_set_item s i it) as Hset. destruct Hinv as [I1 I2 I3 I4 I5 I6 I7 I8 I9 I10].
  split; try done.
  - cbn. rewrite I1. destruct (storage s); [done|]. by destruct i.
  - cbn. by rewrite length_insert.
  - cbn. by rewrite length_insert.
  - intros j itj. rewrite Hset by done. destruct (decide _); [by intros [= <-]|apply I8].
  - intros q' j Hj. cbn in Hj. rewrite Hset by done. destruct (decide (j = i)) as [->|]; [|by apply I9].
    assert (q' = q) as -> by by apply (I5 q' q i). by exists it, pl, ts.
  - intros j itj Hj. cbn in Hj. rewrite Hset by done. destruct (decide (j = i)) as [->|]; [|by apply I10].
    apply I4 in Hb. lia.
Qed.

Lemma outgoing_spec s it p q pl ts :
  packet it = Some p -> packet_ok (rtxEncoded it) p -> sends (rtxEncoded it) p q pl -> GetTimestamp p = Ok ts ->
  let encoded := HasRtx (stream s) || rtxEncoded it in
  exists r p', encode_outgoing s it p = Ok (set_rtxSeq s r, p', encoded) /\
    packet_ok encoded p' /\ sends encoded p' q pl /\ GetTimestamp p' = Ok ts.
Proof.
  intros Hp Hok Hs Ht encoded. unfold encode_outgoing. subst encoded. destruct (HasRtx (stream s)).
  2: { exists (rtxSeq s), p. by destruct s. }
  cbn [orb]. destruct (rtxEncoded it); cbn [negb].
  - destruct Hok as (Hwf & Hz & Hl).
    destruct (SetSequenceNumber_sends p (u16 (rtxSeq s + 1)) q pl Hwf Hs)
      as (p' & E & Hwf' & Hz' & Ep & El & Hs' & Ht').
    cbn [rtxSeq set_rtxSeq]. rewrite E. ostep. eexists _, p'. split; [done|].
    split; [|by rewrite Ht']. split; [done|]. split; [congruence|]. by rewrite Ep, El.
  - destruct Hok as (Hwf & Hz & Hl). destruct Hs as [Hs Hq].
    destruct (RtxEncode_spec p (par_rtxPayloadType (par (stream s))) (par_rtxSsrc (par (stream s)))
      (u16 (rtxSeq s + 1)) pl q Hwf) as (p' & E & Hwf' & Hsh & Hpb & Hl' & _ & _ & _ & _ & Ht' & _);
      rewrite ?Hz; try done; try (unfold StoreSize, MtuSize in *; lia).
    cbn [rtxSeq set_rtxSeq stream]. rewrite E. ostep. eexists _, p'. split; [done|].
    destruct Hsh as (_ & _ & Hpl & _ & _ & _ & Hz'). split; [|by rewrite Ht'].
    split; [done|]. split; [congruence|]. rewrite Hpl, Hl'. lia.
Qed.

(** The packet of an item goes out. *)
Lemma send_item s q i it p pl ts now :
  send_inv s -> buffer s !! q = Some i -> storage s !! i = Some it ->
  packet it = Some p -> packet_ok (rtxEncoded it) p -> sends (rtxEncoded it) p q pl -> GetTimestamp p = Ok ts ->
  exists s', ('(s, p, encoded) ← encode_outgoing s it p;
    Ok (set_item s i (StorageItem (Some p) (store it) now (u8 (sentTimes it + 1)) encoded), Some i))
    = Ok (s', Some i) /\ resent now s [q] s'.
Proof.
  intros Hinv Hb Hi Hp Hok Hs Ht.
  destruct (outgoing_spec s it p q pl ts Hp Hok Hs Ht) as (r & p' & -> & Hok' & Hs' & Ht'). ostep.
  set (it' := StorageItem _ _ _ _ _). eexists. split; [done|].
  assert (holds it' q pl ts) as Hh' by (by exists p').
  assert (memory_ok it') as Hm' by exact (si_memory s Hinv i it Hi).
  assert (send_inv (set_rtxSeq s r)) as Hinv1 by (by apply (send_inv_ext s)).
  pose proof (fun q' => item_of_set_item (set_rtxSeq s r) q i it' q' Hinv1 Hb) as Hitem.
  split; try done.
  - by apply (send_inv_set_item _ q i it' pl ts).
  - cbn. by rewrite length_insert.
  - intros q' Hn. rewrite list_elem_of_singleton in Hn. by rewrite Hitem, decide_False.
  - intros q' ->%list_elem_of_singleton. exists it, it', p', pl, ts. rewrite Hitem, decide_True by done.
    split; [by apply (item_of_stored s q i)|]. split; [done|]. split; [done|]. split; [done|].
    split; [by exists p|done].
Qed.

(** One round of the loop. *)
Lemma resend_packet_spec s q now rtt16 :
  send_inv s -> storage s <> [] -> par_clockRate (par (stream s)) <> 0 -> in_uint 16 q ->
  if due s now rtt16 q
  then exists s' i, resend_packet s q now rtt16 = Ok (s', Some i) /\ resent now s [q] s' /\ buffer s !! q = Some i
  else resend_packet s q now rtt16 = Ok (s, None).
Proof.
  intros Hinv Hne Hclk Hq. unfold resend_packet, due.
  rewrite (buffer_get_Ok s q Hinv Hne Hq). ostep.
  destruct (buffer s !! q) as [i|] eqn:Hb; [|unfold item_of; rewrite Hb; exact eq_refl].
  destruct (si_used s Hinv q i Hb) as (it & pl & ts & Hi & (p & Hp & Hok & Hs & Ht)).
  destruct (send_item s q i it p pl ts now Hinv Hb Hi Hp Hok Hs Ht) as (s' & Hsend & Hre).
  rewrite (item_of_stored s q i it Hb Hi), (item_at_Ok _ _ _ Hi). ostep.
  assert (packet_of it = Ok p) as -> by (unfold packet_of; by rewrite Hp). ostep.
  rewrite Ht. ostep. unfold truthy. rewrite (proj2 (Z.eqb_neq _ 0) Hclk). cbn [negb]. ostep.
  set (age := u32 (u32 _ * 1000) / _). rewrite (Z.ltb_antisym age).
  destruct (age <=? MaxRetransmissionDelay); cbn [negb andb]; [|done].
  rewrite (Z.ltb_antisym (u64 _)). destruct (resentAtMs it =? 0); cbn [negb andb orb]; [by exists s', i|].
  destruct (u64 (now - resentAtMs it) <=? rtt16); cbn [negb]; [done|]. by exists s', i.
Qed.

(** * The loop over the requested packets *)

(** Those of the packets [l] that are due. *)
Definition due_of (s : rtp_stream_send) (now rtt16 : Z) (l : list Z) : list Z :=
  filter (fun q => due s now rtt16 q = true) l.

Lemma due_of_ext s s' now rtt16 l : (forall q, q ∈ l -> due s' now rtt16 q = due s now rtt16 q) ->
  due_of s' now rtt16 l = due_of s now rtt16 l.
Proof.
  intros H. unfold due_of. induction l as [|q l IH]; [done|].
  assert (due s' now rtt16 q = due s now rtt16 q) as E by (apply H; left).
  rewrite !filter_cons, IH by (intros q' Hq'; apply H; by right).
  destruct (decide _), (decide _); congruence.
Qed.

(** The rest of the loop after the packets in [qs]. *)
Lemma due_of_resent s s' now rtt16 qs l : resent now s qs s' -> (forall q, q ∈ l -> q ∉ qs) ->
  due_of s' now rtt16 l = due_of s now rtt16 l.
Proof.
  intros [_ _ _ (P & _ & M) _ O _] Hl. apply due_of_ext. intros q Hq. apply due_ext; [done..|].
  by apply O, Hl.
Qed.

Lemma resent_same now s s' qs : resent now s qs s' -> storage s <> [] -> par_clockRate (par (stream s)) <> 0 ->
  storage s' <> [] /\ par_clockRate (par (stream s')) <> 0.
Proof.
  intros [_ _ L (-> & _) _ _ _] Hne Hc. split; [|done]. intros E. rewrite E in L.
  by destruct (storage s).
Qed.

Lemma following_none n q : following n q 0 = [].
Proof.
  unfold following. induction (seqZ 0 (Z.of_nat n)) as [|k l IH]; [done|].
  rewrite filter_cons, Z.bits_0. by rewrite decide_False.
Qed.

Lemma fill_loop_done fuel s q now rtt16 container : (length container < 18)%nat ->
  fill_loop fuel s q false 0 now rtt16 container = Ok (s, container).
Proof. intros Hl. destruct fuel; cbn [fill_loop]; by rewrite (proj2 (Nat.ltb_lt _ _)). Qed.

(** One of the numbers, if it is asked for. *)
Lemma fill_loop_step fuel s q (req : bool) bitmask now rtt16 container :
  send_inv s -> storage s <> [] -> par_clockRate (par (stream s)) <> 0 -> in_uint 16 q ->
  (length container < 18)%nat -> req || truthy bitmask = true ->
  exists s1 idx, fill_loop (S fuel) s q req bitmask now rtt16 container =
      fill_loop fuel s1 (u16 (q + 1)) (truthy (Z.land bitmask 1)) (Z.shiftr bitmask 1) now rtt16 (container ++ idx) /\
    let qs := due_of s now rtt16 (if req then [q] else []) in
    resent now s qs s1 /\ Forall2 (fun q i => buffer s !! q = Some i) qs idx /\ (length idx <= 1)%nat.
Proof.
  intros Hinv Hne Hc Hq Hlen Hgo. cbn [fill_loop]. rewrite Hgo. destruct req.
  2: { exists s, []. rewrite app_nil_r. split; [done|]. split; [by apply resent_nil|]. split; [constructor|cbn; lia]. }
  pose proof (resend_packet_spec s q now rtt16 Hinv Hne Hc Hq) as H. unfold due_of. rewrite filter_cons.
  destruct (due s now rtt16 q).
  - destruct H as (s1 & i & -> & Hre & Hb). ostep.
    rewrite (proj2 (Nat.ltb_lt _ _)) by (unfold MaxRequestedPackets; lia). ostep.
    exists s1, [i]. split; [done|]. split; [done|]. split; [by constructor|cbn; lia].
  - rewrite H. ostep. exists s, []. rewrite app_nil_r. split; [done|].
    split; [by apply resent_nil|]. split; [constructor|cbn; lia].
Qed.

Lemma due_of_app s now rtt16 l1 l2 : due_of s now rtt16 (l1 ++ l2) = due_of s now rtt16 l1 ++ due_of s now rtt16 l2.
Proof. apply filter_app. Qed.

Lemma due_of_sub s now rtt16 l q : q ∈ due_of s now rtt16 l -> q ∈ l.
Proof. by intros [_ ?]%list_elem_of_filter. Qed.

Lemma truthy_bit0 b : truthy (Z.land b 1) = Z.testbit b 0.
Proof.
  unfold truthy. change 1 with (Z.ones 1). rewrite Z.land_ones, Z.bit0_odd by lia. change (2 ^ 1) with 2.
  rewrite Zmod_odd. by destruct (Z.odd b).
Qed.

Lemma fill_loop_spec n : forall s q (req : bool) bitmask now rtt16 container,
  send_inv s -> storage s <> [] -> par_clockRate (par (stream s)) <> 0 -> in_uint 16 q ->
  Z.of_nat n < 65535 -> in_uint (Z.of_nat n) bitmask -> (length container + S n <= 17)%nat ->
  exists s' idx, fill_loop (S n) s q req bitmask now rtt16 container = Ok (s', container ++ idx) /\
    let qs := due_of s now rtt16 ((if req then [q] else []) ++ following n q bitmask) in
    resent now s qs s' /\ Forall2 (fun q i => buffer s !! q = Some i) qs idx.
Proof.
  induction n as [|n IH]; intros s q req bitmask now rtt16 container Hinv Hne Hc Hq Hn Hb Hlen.
  all: destruct (req || truthy bitmask) eqn:Hgo.
  2, 4: apply orb_false_iff in Hgo as [-> Hz%negb_false_iff]; apply Z.eqb_eq in Hz as ->;
    exists s, []; rewrite fill_loop_done, following_none, app_nil_r by lia;
    split; [done|]; split; [by apply resent_nil|constructor].
  - assert (bitmask = 0) as -> by (destruct Hb; change (2 ^ Z.of_nat 0) with 1 in *; lia).
    destruct (fill_loop_step 0 s q req 0 now rtt16 container) as (s1 & idx & -> & Hre & Hidx & Hl);
      [done..|lia|done|].
    exists s1, idx. change (Z.shiftr 0 1) with 0. change (truthy (Z.land 0 1)) with false.
    rewrite following_none, app_nil_r, fill_loop_done by (rewrite length_app; lia). done.
  - destruct (fill_loop_step (S n) s q req bitmask now rtt16 container) as (s1 & idx & -> & Hre & Hidx & Hl);
      [done..|lia|done|].
    destruct (resent_same now s s1 _ Hre Hne Hc) as [Hne1 Hc1].
    destruct (IH s1 (u16 (q + 1)) (truthy (Z.land bitmask 1)) (Z.shiftr bitmask 1) now rtt16 (container ++ idx))
      as (s' & idx' & -> & Hre' & Hidx').
    + apply Hre.
    + done.
    + done.
    + apply wrap_range. lia.
    + lia.
    + destruct Hb as [Hb0 Hb1]. rewrite Nat2Z.inj_succ, Z.pow_succ_r in Hb1 by lia.
      unfold in_uint. rewrite Z.shiftr_div_pow2 by lia. change (2 ^ 1) with 2. split; [by apply Z.div_pos|].
      apply Z.div_lt_upper_bound; lia.
    + rewrite length_app. lia.
    + set (l := (if truthy (Z.land bitmask 1) then _ else _) ++ _) in *.
      assert (following (S n) q bitmask = l) as Hl' by (unfold l; by rewrite following_S, truthy_bit0).
      assert (forall x, x ∈ l -> x ∉ due_of s now rtt16 (if req then [q] else [])) as Hfresh.
      { intros x Hx Hd%due_of_sub. destruct req; [|by apply elem_of_nil in Hd].
        apply list_elem_of_singleton in Hd as ->. rewrite <- Hl' in Hx. revert Hx. by apply following_fresh. }
      rewrite (due_of_resent s s1 now rtt16 _ l Hre Hfresh) in *.
      exists s', (idx ++ idx'). rewrite app_assoc, Hl', due_of_app. split; [done|]. split.
      * apply (resent_trans now s _ s1); [|done..]. intros x Hx Hx'%due_of_sub. by apply (Hfresh x).
      * apply Forall2_app; [done|]. destruct Hre as [_ (<- & _) _ _ _ _ _]. done.
Qed.

(** * The packets handed on *)

Lemma retransmit_spec qs idx : forall s, send_inv s -> Forall2 (fun q i => buffer s !! q = Some i) qs idx ->
  exists a b ps, retransmit s idx = Ok (set_stream s (set_resent (stream s) a b), ps) /\
    Forall2 (fun q p => exists it, item_of s q = Some it /\ packet it = Some p) qs ps.
Proof.
  revert qs. induction idx as [|i idx IH]; intros qs s Hinv Hall; cbn [retransmit].
  { apply Forall2_nil_inv_r in Hall as ->. exists (packetsRetransmitted (stream s)), (packetsRepaired (stream s)), [].
    split; [|done]. by destruct s as [[]]. }
  apply Forall2_cons_inv_r in Hall as (q & qs' & Hb & Hall & ->).
  destruct (si_used s Hinv q i Hb) as (it & pl & ts & Hi & (p & Hp & _)).
  rewrite (item_at_Ok _ _ _ Hi). ostep. unfold packet_of. rewrite Hp. ostep.
  set (s1 := if sentTimes it =? 1 then _ else _).
  assert (exists a b, s1 = set_stream s (set_resent (stream s) a b)) as (a1 & b1 & E1).
  { unfold s1. destruct (sentTimes it =? 1); by eexists _, _. }
  rewrite E1. destruct (IH qs' (set_stream s (set_resent (stream s) a1 b1))) as (a & b & ps & -> & Hps);
    [by apply (send_inv_ext s)|done|]. ostep.
  exists a, b, (p :: ps). split; [done|]. constructor; [|done]. exists it. split; [|done].
  by apply (item_of_stored s q i).
Qed.

Lemma rtt_or_default_nonneg s r : rtt_or_default s = Ok r -> 0 <= r.
Proof.
  unfold rtt_or_default. destruct (SFeqb _ _); [intros [= <-]; by compute|].
  unfold float_to_u16. destruct (rtt s) as [b|b| |[] m e]; try discriminate; [by intros [= <-]|].
  destruct (_ <? 65536); [|discriminate]. intros [= <-].
  destruct (Z.leb_spec 0 e); [apply Z.mul_nonneg_nonneg|apply Z.div_pos]; try lia.
Qed.

Lemma rtt_or_default_ext s s' : rtt s' = rtt s -> rtt_or_default s' = rtt_or_default s.
Proof. unfold rtt_or_default. by intros ->. Qed.

(** The packet of an item after the loops is what the item held before. *)
Lemma resent_packets now s qs s' ps l : resent now s qs s' -> (forall q, q ∈ l -> q ∈ qs) ->
  Forall2 (fun q p => exists it, item_of s' q = Some it /\ packet it = Some p) l ps ->
  Forall2 (resent_as s) l ps.
Proof.
  intros [_ _ _ _ _ _ S] Hsub Hps. induction Hps as [|q p l ps (it2 & Hi2 & Hp2) _ IH]; constructor.
  - destruct (S q) as (it & it' & p' & pl & ts & Hi & Hi' & _ & Hp & Hh & (p'' & Hp'' & _ & Hs & Ht) & He).
    { apply Hsub. left. }
    exists it, pl, ts. assert (p'' = p) as -> by congruence. by rewrite <- He.
  - apply IH. intros q' Hq'. apply Hsub. by right.
Qed.

Lemma resent_as_before now s qs s1 l ps : resent now s qs s1 -> (forall q, q ∈ l -> q ∉ qs) ->
  Forall2 (resent_as s1) l ps -> Forall2 (resent_as s) l ps.
Proof.
  intros [_ _ _ (_ & Hr & _) _ O _] Hl Hps.
  induction Hps as [|q p l ps (it & pl & ts & Hi & Hh & Hs & Ht) _ IH]; constructor.
  - exists it, pl, ts. rewrite <- (O q) by (apply Hl; left). by rewrite <- Hr.
  - apply IH. intros q' Hq'. apply Hl. by right.
Qed.

(** What a stream needs to answer a NACK. *)
Record answers_nacks (s : rtp_stream_send) (rtt16 : Z) : Prop := {
  an_inv : send_inv s;
  an_storage : storage s <> [];
  an_clock : par_clockRate (par (stream s)) <> 0;
  an_nack : par_useNack (par (stream s)) = true;
  an_rtt : rtt_or_default s = Ok rtt16
}.

Lemma answers_resent now s qs s' rtt16 : answers_nacks s rtt16 -> resent now s qs s' -> answers_nacks s' rtt16.
Proof.
  intros [I Ne C N R] Hre. destruct (resent_same now s s' qs Hre Ne C). destruct Hre as [I' _ _ (P & _) Hr _ _].
  split; try done; [by rewrite P|]. by rewrite (rtt_or_default_ext s).
Qed.

Lemma nack_item s item now rtt16 : answers_nacks s rtt16 -> in_uint 16 item.1 -> in_uint 16 item.2 ->
  let qs := due_of s now rtt16 (requested item) in
  exists s' ps, ('(s, container) ← FillRetransmissionContainer s item.1 item.2 now; retransmit s container)
    = Ok (s', ps) /\ resent now s qs s' /\ Forall2 (resent_as s) qs ps.
Proof.
  intros [Hinv Hne Hc Hnack Hrtt] Hq Hb qs. unfold FillRetransmissionContainer. rewrite Hnack, Hrtt. ostep.
  destruct (fill_loop_spec 16 s item.1 true item.2 now rtt16 []) as (s1 & idx & E & Hre & Hidx);
    [done..|cbn; lia|]. unfold MaxRequestedPackets. cbn [negb]. rewrite E. ostep. cbn [app] in *.
  destruct (retransmit_spec qs idx s1) as (a & b & ps & -> & Hps).
  { apply Hre. }
  { destruct Hre as [_ (-> & _) _ _ _ _ _]. exact Hidx. }
  eexists _, ps. split; [done|]. split.
  - pose proof (resent_counters now s qs s1 a b (nackCount s1) (nackPacketCount s1) Hre) as H.
    by destruct s1.
  - by apply (resent_packets now s qs s1).
Qed.

(** The numbers asked for by some item. *)
Definition asked (items : list (Z * Z)) (q : Z) : Prop := exists item, item ∈ items /\ q ∈ requested item.

Lemma requested_NoDup item : in_uint 16 item.1 -> NoDup (requested item).
Proof.
  intros Hq. constructor; [by apply following_fresh|]. unfold following.
  apply NoDup_fmap_2_strong; [|apply NoDup_filter, NoDup_seqZ].
  intros x y [_ Hx%elem_of_seqZ]%list_elem_of_filter [_ Hy%elem_of_seqZ]%list_elem_of_filter E.
  apply wrap_inj_near in E; lia.
Qed.

Lemma nack_loop_spec items now rtt16 : forall s, answers_nacks s rtt16 -> now <> 0 ->
  Forall (fun item => in_uint 16 item.1 /\ in_uint 16 item.2) items ->
  exists s' ps qs, nack_loop s items now = Ok (s', ps) /\ resent now s qs s' /\ NoDup qs /\
    (forall q, q ∈ qs <-> due s now rtt16 q = true /\ asked items q) /\ Forall2 (resent_as s) qs ps.
Proof.
  induction items as [|[pid blp] items IH]; intros s Ha Hnow Hall.
  { exists s, [], []. split; [done|]. split; [apply resent_nil, Ha|]. split; [constructor|]. split; [|constructor].
    intros q. split; [by intros ?%elem_of_nil|]. by intros (_ & ? & ?%elem_of_nil & _). }
  apply Forall_cons in Hall as [[Hpid Hblp] Hall]. cbn [nack_loop]. set (s0 := set_nacks _ _ _).
  assert (answers_nacks s0 rtt16) as Ha0.
  { destruct Ha as [I Ne C N R]. split; try done. by apply (send_inv_ext s). }
  destruct (nack_item s0 (pid, blp) now rtt16 Ha0 Hpid Hblp) as (s1 & ps1 & E & Hre1 & Hps1).
  apply bind_Ok in E as ([s1' container] & E1 & E2). cbn [fst snd] in E1. rewrite E1. ostep. rewrite E2. ostep.
  set (qs1 := due_of _ _ _ _) in *.
  assert (resent now s qs1 s1) as Hre by (destruct Hre1 as [I B L P R O S]; by split).
  destruct (IH s1) as (s2 & ps2 & qs2 & -> & Hre2 & Hnd & Hin & Hps2); [by apply (answers_resent now s qs1)|done..|].
  ostep. pose proof (rtt_or_default_nonneg s rtt16 (an_rtt _ _ Ha)) as Hr.
  assert (forall q, due s1 now rtt16 q = due s now rtt16 q && bool_decide (q ∉ qs1)) as Hdue
    by (intros q; by apply due_resent).
  assert (forall q, q ∈ qs1 <-> due s now rtt16 q = true /\ q ∈ requested (pid, blp)) as Hin1.
  { intros q. unfold qs1, due_of. by rewrite list_elem_of_filter. }
  assert (forall q, q ∈ qs2 <-> (due s now rtt16 q = true /\ q ∉ qs1) /\ asked items q) as Hin2.
  { intros q. rewrite Hin, Hdue, andb_true_iff, bool_decide_eq_true. done. }
  exists s2, (ps1 ++ ps2), (qs1 ++ qs2). split; [done|]. split; [|split; [|split]].
  - apply (resent_trans now s qs1 s1); try done. intros q Hq1 Hq2. apply Hin2 in Hq2. tauto.
  - apply NoDup_app. split; [by apply NoDup_filter, requested_NoDup|]. split; [|done].
    intros q Hq1 Hq2. apply Hin2 in Hq2. tauto.
  - intros q. rewrite elem_of_app, Hin1, Hin2. unfold asked. split.
    + intros [[Hd Hq]|[[Hd _] (item & Hi & Hq)]]; (split; [done|]); [exists (pid, blp)|exists item];
        (split; [|done]); [left|by right].
    + intros (Hd & item & [->|Hi]%elem_of_cons & Hq); [by left|].
      destruct (decide (q ∈ qs1)) as [H1|H1]; [left; by apply Hin1|]. right. split; [done|]. by exists item.
  - apply Forall2_app; [done|]. apply (resent_as_before now s qs1 s1); [done| |done].
    intros q Hq. apply Hin2 in Hq. tauto.
Qed.

Lemma ReceiveNack_spec s items now rtt16 :
  answers_nacks s rtt16 -> now <> 0 -> Forall (fun item => in_uint 16 item.1 /\ in_uint 16 item.2) items ->
  exists s' ps qs, ReceiveNack s items now = Ok (s', ps) /\ send_inv s' /\ NoDup qs /\
    (forall q, q ∈ qs <-> due s now rtt16 q = true /\ asked items q) /\ Forall2 (resent_as s) qs ps.
Proof.
  intros Ha Hnow Hall. destruct (nack_loop_spec items now rtt16 (set_nacks s (u64 (nackCount s + 1)) (nackPacketCount s)))
    as (s' & ps & qs & E & Hre & Hnd & Hin & Hps); try done.
  { destruct Ha as [I Ne C N R]. split; try done. by apply (send_inv_ext s). }
  exists s', ps, qs. split; [done|]. split; [apply Hre|]. by split.
Qed.

(** C22: answering a NACK never fails, and sends exactly the packets that are
    asked for and due, each once however often it is asked for, with the
    payload, timestamp and number they were stored with (encoded for RTX when
    there is an RTX stream). *)
Theorem ReceiveNack_answers s items now rtt16 :
  answers_nacks s rtt16 -> now <> 0 -> Forall (fun item => in_uint 16 item.1 /\ in_uint 16 item.2) items ->
  exists s' ps qs, ReceiveNack s items now = Ok (s', ps) /\ send_inv s' /\ NoDup qs /\
    (forall q, q ∈ qs <-> due s now rtt16 q = true /\ asked items q) /\ Forall2 (resent_as s) qs ps.
Proof. apply ReceiveNack_spec. Qed.

(** Within the round trip time after a NACK, the packets sent then are not
    sent again, whoever asks. *)
Theorem ReceiveNack_quiet s items items' now now' rtt16 :
  answers_nacks s rtt16 -> 0 < now <= now' -> now' < 2 ^ 64 -> now' - now <= rtt16 ->
  Forall (fun item => in_uint 16 item.1 /\ in_uint 16 item.2) (items ++ items') ->
  exists s1 ps qs s2 ps' qs', ReceiveNack s items now = Ok (s1, ps) /\ ReceiveNack s1 items' now' = Ok (s2, ps') /\
    Forall2 (resent_as s) qs ps /\ Forall2 (resent_as s1) qs' ps' /\ forall q, q ∈ qs -> q ∉ qs'.
Proof.
  intros Ha Hnow Hlt Hr [H1 H2]%Forall_app.
  set (count s := set_nacks s (u64 (nackCount s + 1)) (nackPacketCount s)).
  assert (forall s, answers_nacks s rtt16 -> answers_nacks (count s) rtt16) as Hcount.
  { intros s0 [I Ne C N R]. split; try done. by apply (send_inv_ext s0). }
  destruct (nack_loop_spec items now rtt16 (count s)) as (s1 & ps & qs & E & Hre & _ & _ & Hps);
    [by apply Hcount|lia|done|].
  pose proof (answers_resent now _ qs s1 rtt16 (Hcount s Ha) Hre) as Ha1.
  destruct (nack_loop_spec items' now' rtt16 (count s1)) as (s2 & ps' & qs' & E' & _ & _ & Hin & Hps');
    [by apply Hcount|lia|done|].
  exists s1, ps, qs, s2, ps', qs'. split; [done|]. split; [done|]. split; [done|]. split; [done|].
  intros q Hq Hq'. apply Hin in Hq' as [Hd _].
  destruct (re_sent _ _ _ _ Hre q Hq) as (it & it' & p & pl & ts & _ & Hi & Hres & Hp & _).
  unfold due in Hd. change (item_of (count s1) q) with (item_of s1 q) in Hd. rewrite Hi in Hd.
  unfold packet_of in Hd. rewrite Hp in Hd. revert Hd. ostep. destruct (GetTimestamp p); [|done].
  rewrite Hres, (wrap_small 64 (now' - now)) by (unfold in_uint; lia). rewrite (proj2 (Z.eqb_neq now 0)), (proj2 (Z.ltb_ge rtt16 _)) by lia. by rewrite andb_false_r.
Qed.

(** ** Packets in between *)

Fixpoint receive_all (s : rtp_stream_send) (arrivals : list (rtp_packet * Z)) : outcome rtp_stream_send :=
  match arrivals with
  | [] => Ok s
  | (p, now) :: arrivals => '(s, _) ← ReceivePacket s p now; receive_all s arrivals
  end.

(** Any packet but another with the number [q]: the same again changes nothing. *)
Definition arrives (q ts : Z) (p : rtp_packet) : Prop :=
  rtp_wf p /\ (GetSequenceNumber p = Ok q -> GetTimestamp p = Ok ts).

(** What stays the same of a stream that answers NACKs. *)
Record goes_on (s s' : rtp_stream_send) (rtt16 : Z) : Prop := {
  go_answers : answers_nacks s' rtt16;
  go_par : par (stream s') = par (stream s);
  go_rtx : HasRtx (stream s') = HasRtx (stream s);
  go_length : length (storage s') = length (storage s)
}.

Lemma answers_capacity s rtt16 : answers_nacks s rtt16 -> (2 <= length (storage s))%nat.
Proof.
  intros [I Ne _ _ _]. pose proof (si_capacity s I). destruct (storage s) as [|? [|? ?]]; cbn in *; congruence || lia.
Qed.

Lemma goes_on_buffer s st s' rtt16 : answers_nacks s rtt16 -> par st = par (stream s) -> HasRtx st = HasRtx (stream s) ->
  buffer_only (set_stream s st) s' -> send_inv s' -> goes_on s s' rtt16.
Proof.
  intros [I Ne C N R] Ep Eh (E1 & E2 & E3) I'. cbn in E1, E2, E3. split; rewrite ?E1; try done. split; rewrite ?E1, ?Ep; try done.
  - intros E0. rewrite E0 in E3. by destruct (storage s).
  - by rewrite (rtt_or_default_ext s).
Qed.

(** A packet that arrives leaves an item with room to spare. *)
Lemma receive_keeps s p now rtt16 q ts pl j it : answers_nacks s rtt16 -> arrives q ts p ->
  buffer s !! q = Some j -> storage s !! j = Some it -> holds it q pl ts -> (0 < room s q)%nat ->
  exists s' b, ReceivePacket s p now = Ok (s', b) /\ goes_on s s' rtt16 /\
    buffer s' !! q = Some j /\ storage s' !! j = Some it /\ (room s q <= S (room s' q))%nat.
Proof.
  intros Ha [Hwf Hdup] Hj Hit Hh Hroom. pose proof (answers_capacity s rtt16 Ha) as Hcap. pose proof Ha as [I Ne C N R].
  destruct (ReceivePacket_Ok (stream s) p now Hwf) as [[st b] E]. destruct (ReceivePacket_params _ _ _ _ _ E) as [Ep Eh].
  unfold ReceivePacket. rewrite E. ostep. set (s0 := set_stream s st).
  assert (send_inv s0) as I0 by by apply (send_inv_ext s).
  assert (goes_on s s0 rtt16) as G0 by by apply (goes_on_buffer s st).
  pose proof (room_set_stream s st q : room s0 q = room s q) as Er0.
  destruct b; cbn [negb].
  2: { exists s0, false. rewrite Er0. split; [done|]. split; [done|]. split; [done|]. split; [done|lia]. }
  destruct (wf_reads p Hwf) as (q' & ts' & Hq' & Hr' & Hts' & _). destruct (wf_payload_bytes p Hwf) as (pl' & Hpl').
  assert (exists s1, StorePacket s0 p = Ok s1 /\ send_inv s1 /\ (s1 = s0 \/ q' <> q)) as (s1 & E1 & I1 & Hq).
  { destruct (Z.lt_ge_cases MtuSize (size p)) as [Hbig|Hsz].
    - exists s0. split; [by apply StorePacket_too_big|]. split; [done|by left].
    - destruct (StorePacket_spec s0 p q' pl' ts') as (s1 & E1 & I1 & Hst & _); try done. exists s1. split_and!; try done.
      destruct (decide (q' = q)) as [->|]; [left|by right]. apply (Hst pl). specialize (Hdup Hq').
      assert (ts' = ts) as -> by congruence. by exists j, it. }
  assert (exists s2, match storage s0 with [] => Ok s0 | _ => StorePacket s0 p end = Ok s2 /\ s2 = s1) as (s2 & -> & ->).
  { exists s1. split; [|done]. change (storage s0) with (storage s). destruct (storage s); done. }
  ostep. exists s1, true. split; [done|]. split.
  { apply (goes_on_buffer s st); try done. by apply (StorePacket_buffer_only s0 p). }
  assert (forall s3, s3 = s0 -> buffer s3 !! q = Some j /\ storage s3 !! j = Some it /\ (room s q <= S (room s3 q))%nat) as Hsame.
  { intros s3 ->. rewrite Er0. split; [done|]. split; [done|lia]. }
  destruct Hq as [->|Hne]; [by apply Hsame|].
  destruct (StorePacket_step s0 p q' s1 I0 Hcap Hq' Hr' E1) as [->|(i & Hstep & Hother)]; [by apply Hsame|].
  destruct (StorePacket_buffer_only _ _ _ E1) as (_ & _ & Hlen).
  destruct (room_step s0 q' i s1 q j I0 Hcap Hr' Hstep Hlen) as (Hb & Hji & Hle); [congruence|done|by rewrite Er0|].
  rewrite Er0 in Hle. split; [done|]. split; [by rewrite Hother|done].
Qed.

Lemma receive_all_keeps rtt16 q ts pl j it arrivals : forall s, answers_nacks s rtt16 ->
  Forall (fun a => arrives q ts a.1) arrivals -> buffer s !! q = Some j -> storage s !! j = Some it -> holds it q pl ts ->
  (length arrivals <= room s q)%nat ->
  exists s', receive_all s arrivals = Ok s' /\ goes_on s s' rtt16 /\ buffer s' !! q = Some j /\ storage s' !! j = Some it.
Proof.
  induction arrivals as [|[p now] arrivals IH]; intros s Ha Hall Hj Hit Hh Hlen; cbn [receive_all].
  { exists s. split_and!; try done. }
  apply Forall_cons in Hall as [Hp Hall]. cbn in Hlen.
  destruct (receive_keeps s p now rtt16 q ts pl j it) as (s1 & b & -> & G1 & Hj1 & Hit1 & Hr); try done; [lia|]. ostep.
  destruct (IH s1) as (s2 & -> & G2 & Hj2 & Hit2); try done; [apply G1|lia|].
  exists s2. split; [done|]. split; [|done]. destruct G1, G2. split; congruence || done.
Qed.

(** A NACK gets a packet that is in the buffer and young enough. *)
Lemma nack_gets s items now rtt16 q pl ts j it : answers_nacks s rtt16 -> now <> 0 ->
  Forall (fun item => in_uint 16 item.1 /\ in_uint 16 item.2) items -> asked items q ->
  buffer s !! q = Some j -> storage s !! j = Some it -> holds it q pl ts -> resentAtMs it = 0 -> rtxEncoded it = false ->
  u32 (u32 (maxPacketTs (stream s) - ts) * 1000) / par_clockRate (par (stream s)) <= MaxRetransmissionDelay ->
  exists s' ps r, ReceiveNack s items now = Ok (s', ps) /\ r ∈ ps /\ sends (HasRtx (stream s)) r q pl /\ GetTimestamp r = Ok ts.
Proof.
  intros Ha Hnow Hall Hask Hb Hi Hh Hres Henc Hage. pose proof (item_of_stored s q j it Hb Hi) as Hit.
  destruct (ReceiveNack_spec s items now rtt16 Ha Hnow Hall) as (s2 & ps & qs & -> & _ & _ & Hin & Hps).
  assert (q ∈ qs) as Hqin.
  { apply Hin. split; [|done]. unfold due. rewrite Hit. destruct (holds_timestamp _ _ _ _ Hh) as (p' & _ & -> & Ht').
    ostep. rewrite Ht'. rewrite (proj2 (Z.leb_le _ _)) by done. by rewrite Hres. }
  exists s2, ps. apply list_elem_of_lookup in Hqin as [k Hk].
  destruct (Forall2_lookup_l _ _ _ _ _ Hps Hk) as (r & Hkr & (it' & pl' & ts' & Hit' & Hh' & Hs' & Hts')).
  exists r. split; [done|]. split; [by eapply list_elem_of_lookup_2|].
  rewrite Hit in Hit'. injection Hit' as <-. clear Hin. destruct Hh as (p1 & Hp1 & _ & Hs1 & Ht1), Hh' as (p2 & Hp2 & _ & Hs2 & Ht2). simplify_eq.
  rewrite Henc in *. rewrite orb_false_r in Hs'. destruct Hs1 as [Hs1 _], Hs2 as [Hs2 _].
  assert (pl' = pl) as -> by congruence. split; [done|]. congruence.
Qed.

(** C23: a lost packet is recovered.  Once a packet has been sent and stored, whatever
    packets are sent after it, as many as there is room for ([room]: those before
    it in the queue, and the free items; when it was the newest, all items but
    its own), a NACK that asks for it while it is not too old, and has not been
    sent again, gets it, with its payload and timestamp. *)
Theorem lost_packet_recovered s p q pl ts now items now' rtt16 :
  answers_nacks s rtt16 -> rtp_wf p -> size p <= MtuSize ->
  payload_bytes p = Ok pl -> GetSequenceNumber p = Ok q -> GetTimestamp p = Ok ts ->
  (forall pl', ~ stored s q pl' ts) ->
  now' <> 0 -> Forall (fun item => in_uint 16 item.1 /\ in_uint 16 item.2) items -> asked items q ->
  exists s1 b, ReceivePacket s p now = Ok (s1, b) /\
    (b = true ->
     (newest s q -> room s1 q = (length (storage s) - 1)%nat) /\
     forall arrivals, Forall (fun a => arrives q ts a.1) arrivals -> (length arrivals <= room s1 q)%nat ->
       exists s2, receive_all s1 arrivals = Ok s2 /\
         (u32 (u32 (maxPacketTs (stream s2) - ts) * 1000) / par_clockRate (par (stream s)) <= MaxRetransmissionDelay ->
          exists s3 ps r, ReceiveNack s2 items now' = Ok (s3, ps) /\ r ∈ ps /\
            sends (HasRtx (stream s)) r q pl /\ GetTimestamp r = Ok ts)).
Proof.
  intros Ha Hwf Hsz Hpl Hq Ht Hnew Hnow Hall Hask. pose proof (answers_capacity s rtt16 Ha) as Hcap. pose proof Ha as [I Ne C N R].
  assert (in_uint 16 q) as Hqr by (destruct (wf_reads p Hwf) as (? & ? & ? & ? & _); congruence).
  destruct (Send_ReceivePacket_spec s p q pl ts now I Ne Hwf Hsz Hpl Hq Ht)
    as (st & b & s1 & E & Er & Est & Hr & Hl & I1 & Hst).
  exists s1, b. split; [done|]. intros ->. destruct (ReceivePacket_params _ _ _ _ _ E) as [Hpar Hrtx].
  assert (goes_on s s1 rtt16) as G1 by by apply (goes_on_buffer s st).
  destruct Hst as [_ Hst]. destruct Hst as [(i & it & Hb & Hi & Hh & Hres & Henc) _]; [exact Hnew|]. split.
  - intros Hnewest. unfold ReceivePacket in Er. rewrite E in Er. revert Er. ostep. cbn [negb].
    intros (s1' & Es & [= ->])%bind_Ok. assert (StorePacket (set_stream s st) p = Ok s1) as Es1.
    { change (storage (set_stream s st)) with (storage s) in Es. by destruct (storage s). }
    assert (send_inv (set_stream s st)) as I0 by by apply (send_inv_ext s).
    destruct (StorePacket_step (set_stream s st) p q s1 I0 Hcap Hq Hqr Es1) as [->|(k & Hstep & _)].
    { exfalso. apply (newest_new s q) in Hnewest. cbn in Hb. congruence. }
    by apply (room_newest (set_stream s st) q k s1).
  - intros arrivals Harr Hlen. destruct G1 as [Ha1 Ep1 Eh1 _].
    destruct (receive_all_keeps rtt16 q ts pl i it arrivals s1 Ha1 Harr Hb Hi Hh Hlen) as (s2 & -> & [Ha2 Ep2 Eh2 _] & Hb2 & Hi2).
    exists s2. split; [done|]. intros Hage. rewrite <- Eh1, <- Eh2. eapply (nack_gets s2); try done. by rewrite Ep2, Ep1.
Qed.

(** C24: storing keeps the buffer consistent.  A packet with the number and the
    timestamp of one in the buffer changes nothing; any other is in the buffer
    afterwards, not yet sent again, and of the others only the one at the start
    index is given up, and that only when all the storage is taken.  The numbers in
    use, from the start index going up, are a queue: the others stay in their
    order, less the first when there is no room, and a packet newer than all
    of them is put at the end; so the one given up is the oldest of packets
    that come in order. *)
Theorem StorePacket_stores s p q pl ts :
  send_inv s -> storage s <> [] -> rtp_wf p -> size p <= MtuSize ->
  payload_bytes p = Ok pl -> GetSequenceNumber p = Ok q -> GetTimestamp p = Ok ts ->
  exists s', StorePacket s p = Ok s' /\ send_inv s' /\ stores s q pl ts s' /\
    ((forall pl', ~ stored s q pl' ts) ->
     but q (queue s') = but q (room_made s q) /\ (newest s q -> queue s' = room_made s q ++ [q])).
Proof.
  intros I Ne Hwf Hsz Hpl Hq Ht. destruct (StorePacket_spec s p q pl ts I Ne Hwf Hsz Hpl Hq Ht) as (s' & E & I' & Hst).
  exists s'. split_and!; [done..|]. intros Hno.
  assert (in_uint 16 q) as Hqr by (destruct (wf_reads p Hwf) as (? & ? & ? & ? & _); congruence).
  assert (2 <= length (storage s))%nat as Hcap.
  { pose proof (si_capacity s I). destruct (storage s) as [|? [|? ?]]; cbn in *; congruence || lia. }
  destruct (StorePacket_step s p q s' I Hcap Hq Hqr E) as [->|(i & Hstep & _)].
  - destruct Hst as [_ Hst]. destruct (Hst Hno) as [(i & it & Hb & Hi & Hh & _) _]. destruct (Hno pl). by exists i, it.
  - split; [by apply (queue_step s q i)|]. by apply (queue_newest s q i).
Qed.

(** * Examples *)

Definition sample_send : rtp_stream_send := new_RtpStreamSend sample_params 2 0.

Definition sample_payload : list Z := [65; 66; 67].

Lemma sample_reads : payload_bytes sample_packet = Ok sample_payload /\ GetSequenceNumber sample_packet = Ok 10 /\
  GetTimestamp sample_packet = Ok 100.
Proof. repeat split. Qed.

Lemma sample_send_inv : send_inv sample_send.
Proof. by apply new_send_inv. Qed.

Lemma sample_answers : answers_nacks sample_send 100.
Proof. split; [apply sample_send_inv|discriminate|discriminate|reflexivity|reflexivity]. Qed.

Lemma sample_unused q : buffer sample_send !! q = None.
Proof. apply lookup_empty. Qed.

Lemma sample_not_stored q pl ts : ~ stored sample_send q pl ts.
Proof. intros (i & it & Hb & _). rewrite sample_unused in Hb. discriminate Hb. Qed.

Lemma sample_newest q : newest sample_send q.
Proof. intros r [i Hr]. rewrite sample_unused in Hr. discriminate Hr. Qed.

(** The packet after [sample_packet]. *)
Definition second_packet : rtp_packet :=
  match Parse (<[3%nat := 11]> sample_data) 29 with Ok p => p | Err _ => sample_packet end.

Lemma second_parsed : Parse (<[3%nat := 11]> sample_data) 29 = Ok second_packet.
Proof. vm_compute. reflexivity. Qed.

Lemma second_wf : rtp_wf second_packet.
Proof.
  apply (Parse_Ok_wf (<[3%nat := 11]> sample_data) 29).
  - apply (bool_decide_unpack _). vm_compute. exact I.
  - vm_compute. split; discriminate.
  - apply second_parsed.
Qed.

Lemma second_arrives : arrives 10 100 second_packet.
Proof.
  split; [apply second_wf|]. intros H. exfalso.
  assert (GetSequenceNumber second_packet = Ok 11) as H' by (vm_compute; reflexivity). rewrite H' in H. discriminate H.
Qed.

Lemma StorePacket_stores_witness :
  exists s', StorePacket sample_send sample_packet = Ok s' /\ send_inv s' /\ just_stored s' 10 sample_payload 100 /\
    queue s' = room_made sample_send 10 ++ [10].
Proof.
  destruct sample_reads as (Hpl & Hq & Ht).
  destruct (StorePacket_stores sample_send sample_packet 10 sample_payload 100 sample_send_inv)
    as (s' & E & Hinv & [_ Hst] & Hqu).
  - discriminate.
  - exact sample_wf.
  - vm_compute. discriminate.
  - exact Hpl.
  - exact Hq.
  - exact Ht.
  - exists s'. split; [exact E|]. split; [exact Hinv|]. split.
    + apply Hst. intros pl'. apply sample_not_stored.
    + apply Hqu; [intros pl'; apply sample_not_stored|apply sample_newest].
Defined.

Lemma ReceiveNack_answers_witness :
  exists s' ps qs, ReceiveNack sample_send [(10, 5)] 1000 = Ok (s', ps) /\ NoDup qs /\ Forall2 (resent_as sample_send) qs ps.
Proof.
  destruct (ReceiveNack_answers sample_send [(10, 5)] 1000 100 sample_answers) as (s' & ps & qs & E & _ & H & _ & F).
  - discriminate.
  - constructor; [|constructor]. split; by compute.
  - exists s', ps, qs. split; [exact E|]. split; [exact H|exact F].
Defined.

Lemma ReceiveNack_quiet_witness :
  exists s1 ps qs s2 ps' qs', ReceiveNack sample_send [(10, 5)] 1000 = Ok (s1, ps) /\
    ReceiveNack s1 [(10, 0)] 1050 = Ok (s2, ps') /\ Forall2 (resent_as sample_send) qs ps /\
    Forall2 (resent_as s1) qs' ps' /\ forall q, q ∈ qs -> q ∉ qs'.
Proof.
  apply (ReceiveNack_quiet sample_send [(10, 5)] [(10, 0)] 1000 1050 100 sample_answers).
  - lia.
  - by compute.
  - lia.
  - constructor; [split; by compute|]. constructor; [split; by compute|constructor].
Defined.

Lemma lost_packet_recovered_witness :
  exists s1 s2 s3 ps r, ReceivePacket sample_send sample_packet 7 = Ok (s1, true) /\
    receive_all s1 [(second_packet, 8)] = Ok s2 /\
    ReceiveNack s2 [(10, 0)] 1000 = Ok (s3, ps) /\ r ∈ ps /\ sends false r 10 sample_payload.
Proof.
  destruct sample_reads as (Hpl & Hq & Ht).
  destruct (lost_packet_recovered sample_send sample_packet 10 sample_payload 100 7 [(10, 0)] 1000 100 sample_answers)
    as (s1 & b & E & H).
  - exact sample_wf.
  - vm_compute. discriminate.
  - exact Hpl.
  - exact Hq.
  - exact Ht.
  - intros pl'. apply sample_not_stored.
  - discriminate.
  - constructor; [|constructor]. split; by compute.
  - exists (10, 0). split; [left|left].
  - assert (match ReceivePacket sample_send sample_packet 7 with
            | Ok (s, b) => b && match receive_all s [(second_packet, 8)] with
                                | Ok s => maxPacketTs (stream s) =? 100 | Err _ => false end
            | Err _ => false end = true) as Hrun by (vm_compute; reflexivity).
    rewrite E in Hrun. apply andb_true_iff in Hrun as [-> Hts].
    destruct (H eq_refl) as [Hroom Hrec]. destruct (Hrec [(second_packet, 8)]) as (s2 & E2 & Hage).
    + constructor; [apply second_arrives|constructor].
    + rewrite Hroom by apply sample_newest. reflexivity.
    + rewrite E2 in Hts. apply Z.eqb_eq in Hts.
      destruct Hage as (s3 & ps & r & E3 & Hin & Hs & _).
      * rewrite Hts. vm_compute. discriminate.
      * exists s1, s2, s3, ps, r. split; [exact E|]. split; [exact E2|]. split; [exact E3|]. split; [exact Hin|exact Hs].
Defined.
