(* ===== verification/Consumer.v ===== *)
(** [RTC::Consumer] (worker/src/RTC/Consumer.cpp, worker/include/RTC/Consumer.hpp):
    what the kinds of consumers share.

    The streams of the producer are known by the class [ProducerStream]; the
    virtual methods of a consumer by the class [ConsumerKind].  The calls a
    consumer makes on its listener, and the notifications it sends, are
    [consumer_event]s. *)

From Stdlib Require Import Floats.SpecFloat.
From S2P Require Export Effects Codecs RtpStreamSend.

(** * The streams of the producer *)

(** What a consumer asks of an [RtpStreamRecv].  Times are in milliseconds; the
    bitrates are those at the given time. *)
Class ProducerStream (S : Type) : Type := {
  GetScore : S -> Z;
  GetActiveMs : S -> Z -> Z;
  GetSenderReportNtpMs : S -> Z;
  GetSenderReportTs : S -> Z;
  GetSpatialLayers : S -> Z;
  GetTemporalLayers : S -> Z;
  GetBitrate : S -> Z -> Z;
  GetSpatialLayerBitrate : S -> Z -> Z -> outcome Z;
  GetLayerBitrate : S -> Z -> Z -> Z -> outcome Z
}.

(** What it promises: layers that exist have a bitrate, of 32 bits. *)
Class ProducerStreamLaws (S : Type) `{ProducerStream S} : Prop := {
  score_range s : in_uint 8 (GetScore s);
  bitrate_range s now : in_uint 32 (GetBitrate s now);
  spatial_bitrate s now l : 0 <= l < GetSpatialLayers s ->
    exists b, GetSpatialLayerBitrate s now l = Ok b /\ in_uint 32 b;
  layer_bitrate s now l t : 0 <= l < GetSpatialLayers s -> 0 <= t < GetTemporalLayers s ->
    exists b, GetLayerBitrate s now l t = Ok b /\ in_uint 32 b
}.

(** * The base class *)

Record consumer_base : Type := ConsumerBase {
  video : bool;                              (** [kind == VIDEO] *)
  ssrc : Z;                                  (** [rtpParameters.encodings\[0\].ssrc] *)
  maxBitrate : Z;                            (** of that encoding *)
  streamSpatialLayers : Z;                   (** of that encoding, and of [rtpStream] *)
  streamTemporalLayers : Z;
  mappedSsrcs : list Z;                      (** of [consumableRtpEncodings] *)
  supportedCodecPayloadTypes : list Z;
  scoresSet : bool;                          (** [producerRtpStreamScores != nullptr] *)
  externallyManagedBitrate : bool;
  priority : Z;
  transportConnected : bool;
  paused : bool;
  producerPaused : bool;
  producerClosed : bool
}.

Definition set_scoresSet (c : consumer_base) (b : bool) : consumer_base :=
  ConsumerBase (video c) (ssrc c) (maxBitrate c) (streamSpatialLayers c) (streamTemporalLayers c) (mappedSsrcs c)
    (supportedCodecPayloadTypes c) b (externallyManagedBitrate c) (priority c) (transportConnected c)
    (paused c) (producerPaused c) (producerClosed c).

(** [externallyManagedBitrate] and [priority]. *)
Definition set_managed (c : consumer_base) (managed : bool) (p : Z) : consumer_base :=
  ConsumerBase (video c) (ssrc c) (maxBitrate c) (streamSpatialLayers c) (streamTemporalLayers c) (mappedSsrcs c)
    (supportedCodecPayloadTypes c) (scoresSet c) managed p (transportConnected c)
    (paused c) (producerPaused c) (producerClosed c).

Definition set_flags (c : consumer_base) (connected isPaused prodPaused prodClosed : bool) : consumer_base :=
  ConsumerBase (video c) (ssrc c) (maxBitrate c) (streamSpatialLayers c) (streamTemporalLayers c) (mappedSsrcs c)
    (supportedCodecPayloadTypes c) (scoresSet c) (externallyManagedBitrate c) (priority c) connected
    isPaused prodPaused prodClosed.

(** [Consumer::IsActive]. *)
Definition base_IsActive (c : consumer_base) : bool :=
  transportConnected c && negb (paused c) && negb (producerPaused c) && negb (producerClosed c).

Definition IsPaused (c : consumer_base) : bool := paused c.
Definition IsProducerPaused (c : consumer_base) : bool := producerPaused c.

Definition supported (c : consumer_base) (payloadType : Z) : bool :=
  bool_decide (payloadType ∈ supportedCodecPayloadTypes c).

Inductive consumer_event : Type :=
| SendRtp (p : rtp_packet)                   (** [OnConsumerSendRtpPacket] *)
| RetransmitRtp (p : rtp_packet)             (** [OnConsumerRetransmitRtpPacket] *)
| KeyFrameRequested (mappedSsrc : Z)         (** [OnConsumerKeyFrameRequested] *)
| NeedBitrateChange                          (** [OnConsumerNeedBitrateChange] *)
| NeedZeroBitrate                            (** [OnConsumerNeedZeroBitrate] *)
| ProducerCloseEvent                         (** "producerclose" and [OnConsumerProducerClosed] *)
| ProducerPauseEvent                         (** "producerpause" *)
| ProducerResumeEvent                        (** "producerresume" *)
| ScoreEvent (score producerScore : Z)       (** "score" *)
| LayersChangeEvent (layers : option (Z * Z)). (** "layerschange": spatial and temporal *)

(** The virtual methods the base class calls. *)
Class ConsumerKind (C : Type) : Type := {
  base : C -> consumer_base;
  set_base : C -> consumer_base -> C;
  IsActive : C -> bool;
  UserOnTransportConnected : Z -> act C consumer_event unit;
  UserOnTransportDisconnected : Z -> act C consumer_event unit;
  UserOnPaused : Z -> act C consumer_event unit;
  UserOnResumed : Z -> act C consumer_event unit
}.

Section base.
Context {C : Type} `{ConsumerKind C}.

Notation op := (act C consumer_event).

Definition modify_base (f : consumer_base -> consumer_base) : op unit := modify (fun c => set_base c (f (base c))).

Definition with_connected (b : bool) (c : consumer_base) : consumer_base := set_flags c b (paused c) (producerPaused c) (producerClosed c).
Definition with_paused (b : bool) (c : consumer_base) : consumer_base := set_flags c (transportConnected c) b (producerPaused c) (producerClosed c).
Definition with_producerPaused (b : bool) (c : consumer_base) : consumer_base := set_flags c (transportConnected c) (paused c) b (producerClosed c).
Definition with_producerClosed (b : bool) (c : consumer_base) : consumer_base := set_flags c (transportConnected c) (paused c) (producerPaused c) b.

(** [CONSUMER_PAUSE] of [Consumer::HandleRequest]. *)
Definition ConsumerPause (now : Z) : op unit :=
  c ← get;
  if paused (base c) then skip
  else
    let wasActive := IsActive c in
    _ ← modify_base (with_paused true);
    if wasActive then UserOnPaused now else skip.

(** [CONSUMER_RESUME]. *)
Definition ConsumerResume (now : Z) : op unit :=
  c ← get;
  if negb (paused (base c)) then skip
  else
    _ ← modify_base (with_paused false);
    c ← get;
    if IsActive c then UserOnResumed now else skip.

(** [CONSUMER_SET_PRIORITY]: [data] is the number given, if there is one. *)
Definition ConsumerSetPriority (data : option Z) : op unit :=
  match data with
  | None => lift (Err Thrown)
  | Some p =>
      let p := u8 p in
      _ ← lift (require Thrown (1 <=? p));
      modify_base (fun b => set_managed b (externallyManagedBitrate b) p)
  end.

Definition TransportConnected (now : Z) : op unit :=
  _ ← modify_base (with_connected true);
  UserOnTransportConnected now.

Definition TransportDisconnected (now : Z) : op unit :=
  _ ← modify_base (with_connected false);
  UserOnTransportDisconnected now.

Definition ProducerPaused (now : Z) : op unit :=
  c ← get;
  if producerPaused (base c) then skip
  else
    let wasActive := IsActive c in
    _ ← modify_base (with_producerPaused true);
    _ ← (if wasActive then UserOnPaused now else skip);
    emit ProducerPauseEvent.

Definition ProducerResumed (now : Z) : op unit :=
  c ← get;
  if negb (producerPaused (base c)) then skip
  else
    _ ← modify_base (with_producerPaused false);
    c ← get;
    _ ← (if IsActive c then UserOnResumed now else skip);
    emit ProducerResumeEvent.

Definition ProducerRtpStreamScores : op unit := modify_base (fun b => set_scoresSet b true).

Definition ProducerClosed : op unit :=
  _ ← modify_base (with_producerClosed true);
  emit ProducerCloseEvent.

Definition SetExternallyManagedBitrate : op unit := modify_base (fun b => set_managed b true (priority b)).
End base.

(** * What the kinds share *)

(** The end of [SendRtpPacket]: the packet is rewritten, handed to the stream and
    to the listener, and its fields are restored. *)
Definition forward (now newSsrc seq : Z) (timestamp : option Z) (s : rtp_stream_send) (p : rtp_packet)
  : outcome (rtp_stream_send * rtp_packet * list consumer_event) :=
  origSsrc ← GetSsrc p;
  origSeq ← GetSequenceNumber p;
  origTimestamp ← GetTimestamp p;
  p ← SetSsrc p newSsrc;
  p ← SetSequenceNumber p seq;
  p ← match timestamp with Some ts => SetTimestamp p ts | None => Ok p end;
  '(s, ok) ← RtpStreamSend.ReceivePacket s p now;
  let es := if ok : bool then [SendRtp p] else [] in
  p ← SetSsrc p origSsrc;
  p ← SetSequenceNumber p origSeq;
  p ← match timestamp with Some _ => SetTimestamp p origTimestamp | None => Ok p end;
  Ok (s, p, es).

(** The number [Input] gives; the variable keeps what it held when there is none. *)
Definition input_seq (s : seq_manager) (seq indeterminate : Z) : seq_manager * Z :=
  let '(s, n) := Input 16 s seq in (s, default indeterminate n).

(** Synchronization with the packet, before its number is given to the manager. *)
Definition sync_seq (s : seq_manager) (seq : Z) : seq_manager := Sync 16 s (u16 (seq - 1)).

(** The packet in its descriptor. *)
Definition with_packet (p : video_packet) (q : rtp_packet) : video_packet := VideoPacket q (vp_handler p).

(** The base of the encoding context. *)
Definition ctx_base (c : codec_context) : encoding_context :=
  match c with CtxVP8 c => vp8_base c | CtxVP9 c => vp9_base c | CtxH26x c => c end.

Definition map_ctx (f : encoding_context -> encoding_context) (c : codec_context) : codec_context :=
  match c with
  | CtxVP8 c => CtxVP8 (VP8Context (f (vp8_base c)) (vp8_pictureIdManager c) (vp8_tl0PictureIndexManager c) (vp8_syncRequired c))
  | CtxVP9 c => CtxVP9 (VP9Context (f (vp9_base c)) (vp9_pictureIdManager c) (vp9_syncRequired c))
  | CtxH26x c => CtxH26x (f c)
  end.

Definition send_GetActiveMs (s : rtp_stream_send) (now : Z) : Z := u64 (now - activeSinceMs (stream s)).

(** [RtpParameters::Type], and the codecs [Tools::IsValidTypeForCodec] allows in it. *)
Inductive rtp_type : Type := NONE | SIMPLE | SIMULCAST | SVC | PIPE.

Definition IsValidTypeForCodec (type : rtp_type) (codec : option codec) : bool :=
  match type with
  | NONE => false
  | SIMPLE => true
  | SIMULCAST => match codec with Some VP8 | Some H264 => true | _ => false end
  | SVC => match codec with Some VP9 => true | _ => false end
  | PIPE => true
  end.

(** [json.get<int16_t>()] of a layer, lowered to the highest there is. *)
Definition wanted_layer (given count : Z) : Z :=
  let layer := swrap 16 given in if count - 1 <? layer then count - 1 else layer.

(** The preferred layers: those of the request, if it has a spatial layer, or the highest. *)
Definition preferred_layers (b : consumer_base) (preferred : option (option Z * option Z)) : outcome (Z * Z) :=
  match preferred with
  | Some (None, _) => Err Thrown
  | Some (Some spatial, temporal) =>
      Ok (wanted_layer spatial (streamSpatialLayers b),
          match temporal with
          | Some t => wanted_layer t (streamTemporalLayers b)
          | None => streamTemporalLayers b - 1
          end)
  | None => Ok (streamSpatialLayers b - 1, streamTemporalLayers b - 1)
  end.

(** ** The virtual bitrate of [IncreaseLayer] *)

(** The conversion of a positive [double] to [uint32_t], defined when it fits. *)
Definition double_to_u32 (f : spec_float) : outcome Z :=
  let v := match f with
           | S754_finite false m e => Some (if 0 <=? e then Z.pos m * 2 ^ e else Z.pos m / 2 ^ (- e))
           | S754_zero _ => Some 0
           | _ => None
           end in
  match v with
  | Some v => if v <? 2 ^ 32 then Ok v else Err OutOfBounds
  | None => Err OutOfBounds
  end.

(** The constants 1.08 and 0.5. *)
Definition double_1_08 : spec_float := SFdiv 53 1024 (double_of_Z 108) (double_of_Z 100).
Definition double_0_5 : spec_float := SFdiv 53 1024 (double_of_Z 1) (double_of_Z 2).

Definition float_to_double (f : spec_float) : spec_float :=
  match f with
  | S754_finite s m e => binary_normalize 53 1024 (if s then Z.neg m else Z.pos m) e s
  | _ => f
  end.

(** [GetLossPercentage], a [float]. *)
Definition GetLossPercentage (s : rtp_stream_send) : spec_float :=
  SFdiv 24 128 (SFmul 24 128 (float_of_Z (fractionLost s)) (float_of_Z 100)) (float_of_Z 256).

Definition virtual_bitrate (s : rtp_stream_send) (bitrate : Z) (considerLoss : bool) : outcome Z :=
  if considerLoss then
    let lossPercentage := GetLossPercentage s in
    if SFltb lossPercentage (float_of_Z 2) then double_to_u32 (SFmul 53 1024 double_1_08 (double_of_Z bitrate))
    else if SFltb (float_of_Z 10) lossPercentage then
      double_to_u32 (SFmul 53 1024
        (SFsub 53 1024 (double_of_Z 1) (SFmul 53 1024 double_0_5 (float_to_double (SFdiv 24 128 lossPercentage (float_of_Z 100)))))
        (double_of_Z bitrate))
    else Ok bitrate
  else Ok bitrate.

(** The bitrate [IncreaseLayer] says it uses. *)
Definition used_bitrate (required virtual bitrate : Z) : Z :=
  if required <=? bitrate then required else if required <=? virtual then bitrate else required.

Definition BweDowngradeConservativeMs : Z := 10000.
Definition BweDowngradeMinActiveMs : Z := 8000.
