(* ===== verification/SimulcastConsumer.v ===== *)
(** [RTC::SimulcastConsumer] (worker/src/RTC/SimulcastConsumer.cpp,
    worker/include/RTC/SimulcastConsumer.hpp): a consumer that sends one of the
    streams of its producer, its spatial layers, and switches among them.

    A pointer to a stream of the producer is the stream as it is now; when the
    producer changes the stream, [producerRtpStreams] changes with it.  The clock
    is an argument. *)

From S2P Require Export Consumer.

Definition StreamGoodScore : Z := 5.
Definition StreamMinActiveMs : Z := 2000.
Definition MaxExtraOffsetMs : Z := 75.
Definition MsOffset : Z := 33.

Section simulcast.
Context {S : Type} `{ProducerStream S}.

(** The members that tell layers. *)
Record layers : Type := Layers {
  preferredSpatialLayer : Z;
  preferredTemporalLayer : Z;
  provisionalTargetSpatialLayer : Z;
  provisionalTargetTemporalLayer : Z;
  targetSpatialLayer : Z;
  targetTemporalLayer : Z;
  currentSpatialLayer : Z;
  tsReferenceSpatialLayer : Z;
  lastBweDowngradeAtMs : Z
}.

Record simulcast_consumer : Type := SimulcastConsumer {
  sm_base : consumer_base;
  mapMappedSsrcSpatialLayer : gmap Z Z;
  producerRtpStreams : list (option S);
  sm_layers : layers;
  syncRequired : bool;
  rtpSeqManager : seq_manager;
  encodingContext : codec_context;
  tsOffset : Z;
  keyFrameForTsOffsetRequested : bool;
  rtpStream : rtp_stream_send
}.

Notation op := (act simulcast_consumer consumer_event).

Definition sm_set_base (c : simulcast_consumer) (b : consumer_base) : simulcast_consumer :=
  SimulcastConsumer b (mapMappedSsrcSpatialLayer c) (producerRtpStreams c) (sm_layers c) (syncRequired c)
    (rtpSeqManager c) (encodingContext c) (tsOffset c) (keyFrameForTsOffsetRequested c) (rtpStream c).
Definition set_producerRtpStreams (c : simulcast_consumer) (l : list (option S)) : simulcast_consumer :=
  SimulcastConsumer (sm_base c) (mapMappedSsrcSpatialLayer c) l (sm_layers c) (syncRequired c)
    (rtpSeqManager c) (encodingContext c) (tsOffset c) (keyFrameForTsOffsetRequested c) (rtpStream c).
Definition set_layers (c : simulcast_consumer) (l : layers) : simulcast_consumer :=
  SimulcastConsumer (sm_base c) (mapMappedSsrcSpatialLayer c) (producerRtpStreams c) l (syncRequired c)
    (rtpSeqManager c) (encodingContext c) (tsOffset c) (keyFrameForTsOffsetRequested c) (rtpStream c).
Definition set_syncRequired (c : simulcast_consumer) (b : bool) : simulcast_consumer :=
  SimulcastConsumer (sm_base c) (mapMappedSsrcSpatialLayer c) (producerRtpStreams c) (sm_layers c) b
    (rtpSeqManager c) (encodingContext c) (tsOffset c) (keyFrameForTsOffsetRequested c) (rtpStream c).
Definition set_rtpSeqManager (c : simulcast_consumer) (s : seq_manager) : simulcast_consumer :=
  SimulcastConsumer (sm_base c) (mapMappedSsrcSpatialLayer c) (producerRtpStreams c) (sm_layers c) (syncRequired c)
    s (encodingContext c) (tsOffset c) (keyFrameForTsOffsetRequested c) (rtpStream c).
Definition set_encodingContext (c : simulcast_consumer) (x : codec_context) : simulcast_consumer :=
  SimulcastConsumer (sm_base c) (mapMappedSsrcSpatialLayer c) (producerRtpStreams c) (sm_layers c) (syncRequired c)
    (rtpSeqManager c) x (tsOffset c) (keyFrameForTsOffsetRequested c) (rtpStream c).
Definition set_tsOffset (c : simulcast_consumer) (z : Z) : simulcast_consumer :=
  SimulcastConsumer (sm_base c) (mapMappedSsrcSpatialLayer c) (producerRtpStreams c) (sm_layers c) (syncRequired c)
    (rtpSeqManager c) (encodingContext c) z (keyFrameForTsOffsetRequested c) (rtpStream c).
Definition set_keyFrameForTsOffsetRequested (c : simulcast_consumer) (b : bool) : simulcast_consumer :=
  SimulcastConsumer (sm_base c) (mapMappedSsrcSpatialLayer c) (producerRtpStreams c) (sm_layers c) (syncRequired c)
    (rtpSeqManager c) (encodingContext c) (tsOffset c) b (rtpStream c).
Definition set_rtpStream (c : simulcast_consumer) (s : rtp_stream_send) : simulcast_consumer :=
  SimulcastConsumer (sm_base c) (mapMappedSsrcSpatialLayer c) (producerRtpStreams c) (sm_layers c) (syncRequired c)
    (rtpSeqManager c) (encodingContext c) (tsOffset c) (keyFrameForTsOffsetRequested c) s.

Definition set_preferred (c : simulcast_consumer) (spatial temporal : Z) : simulcast_consumer :=
  let l := sm_layers c in
  set_layers c (Layers spatial temporal (provisionalTargetSpatialLayer l) (provisionalTargetTemporalLayer l)
    (targetSpatialLayer l) (targetTemporalLayer l) (currentSpatialLayer l) (tsReferenceSpatialLayer l) (lastBweDowngradeAtMs l)).
Definition set_provisional (c : simulcast_consumer) (spatial temporal : Z) : simulcast_consumer :=
  let l := sm_layers c in
  set_layers c (Layers (preferredSpatialLayer l) (preferredTemporalLayer l) spatial temporal
    (targetSpatialLayer l) (targetTemporalLayer l) (currentSpatialLayer l) (tsReferenceSpatialLayer l) (lastBweDowngradeAtMs l)).
Definition set_target (c : simulcast_consumer) (spatial temporal : Z) : simulcast_consumer :=
  let l := sm_layers c in
  set_layers c (Layers (preferredSpatialLayer l) (preferredTemporalLayer l) (provisionalTargetSpatialLayer l)
    (provisionalTargetTemporalLayer l) spatial temporal (currentSpatialLayer l) (tsReferenceSpatialLayer l) (lastBweDowngradeAtMs l)).
Definition set_currentSpatialLayer (c : simulcast_consumer) (spatial : Z) : simulcast_consumer :=
  let l := sm_layers c in
  set_layers c (Layers (preferredSpatialLayer l) (preferredTemporalLayer l) (provisionalTargetSpatialLayer l)
    (provisionalTargetTemporalLayer l) (targetSpatialLayer l) (targetTemporalLayer l) spatial (tsReferenceSpatialLayer l)
    (lastBweDowngradeAtMs l)).
Definition set_tsReferenceSpatialLayer (c : simulcast_consumer) (spatial : Z) : simulcast_consumer :=
  let l := sm_layers c in
  set_layers c (Layers (preferredSpatialLayer l) (preferredTemporalLayer l) (provisionalTargetSpatialLayer l)
    (provisionalTargetTemporalLayer l) (targetSpatialLayer l) (targetTemporalLayer l) (currentSpatialLayer l) spatial
    (lastBweDowngradeAtMs l)).
Definition set_lastBweDowngradeAtMs (c : simulcast_consumer) (ms : Z) : simulcast_consumer :=
  let l := sm_layers c in
  set_layers c (Layers (preferredSpatialLayer l) (preferredTemporalLayer l) (provisionalTargetSpatialLayer l)
    (provisionalTargetTemporalLayer l) (targetSpatialLayer l) (targetTemporalLayer l) (currentSpatialLayer l)
    (tsReferenceSpatialLayer l) ms).

(** * Streams of the producer *)

(** [producerRtpStreams.at(layer)]; the pointer may be null. *)
Definition stream_at (c : simulcast_consumer) (layer : Z) : outcome (option S) :=
  if (0 <=? layer) && (layer <? Z.of_nat (length (producerRtpStreams c)))
  then match producerRtpStreams c !! Z.to_nat layer with Some s => Ok s | None => Err Thrown end
  else Err Thrown.

(** [->]. *)
Definition pointed (s : option S) : outcome S := match s with Some s => Ok s | None => Err OutOfBounds end.

Definition GetProducerCurrentRtpStream (c : simulcast_consumer) : outcome (option S) :=
  if currentSpatialLayer (sm_layers c) =? -1 then Ok None else stream_at c (currentSpatialLayer (sm_layers c)).
Definition GetProducerTargetRtpStream (c : simulcast_consumer) : outcome (option S) :=
  if targetSpatialLayer (sm_layers c) =? -1 then Ok None else stream_at c (targetSpatialLayer (sm_layers c)).
Definition GetProducerTsReferenceRtpStream (c : simulcast_consumer) : outcome (option S) :=
  if tsReferenceSpatialLayer (sm_layers c) =? -1 then Ok None else stream_at c (tsReferenceSpatialLayer (sm_layers c)).

Definition sm_IsActive (c : simulcast_consumer) : bool :=
  base_IsActive (sm_base c) &&
  existsb (fun s => match s with Some s => 0 <? GetScore s | None => false end) (producerRtpStreams c).

(** [consumableRtpEncodings\[layer\].ssrc]. *)
Definition mapped_ssrc (c : simulcast_consumer) (layer : Z) : outcome Z :=
  match mappedSsrcs (sm_base c) !! Z.to_nat layer with Some s => Ok s | None => Err OutOfBounds end.

(** * Notifications *)

Definition EmitScore : op unit :=
  c ← get;
  _ ← lift (require AssertFailed (scoresSet (sm_base c)));
  current ← lift (GetProducerCurrentRtpStream c);
  emit (ScoreEvent (score (stream (rtpStream c))) (match current with Some s => GetScore s | None => 0 end)).

Definition EmitLayersChange : op unit :=
  c ← get;
  let spatial := currentSpatialLayer (sm_layers c) in
  emit (LayersChangeEvent (if 0 <=? spatial then Some (spatial, currentTemporalLayer (ctx_base (encodingContext c))) else None)).

(** * Requests for key frames *)

Definition RequestKeyFrameForTargetSpatialLayer : op unit :=
  c ← get;
  if negb (video (sm_base c)) then skip
  else
    target ← lift (GetProducerTargetRtpStream c);
    match target with
    | None => skip
    | Some _ => ssrc ← lift (mapped_ssrc c (targetSpatialLayer (sm_layers c))); emit (KeyFrameRequested ssrc)
    end.

Definition RequestKeyFrameForCurrentSpatialLayer : op unit :=
  c ← get;
  if negb (video (sm_base c)) then skip
  else
    current ← lift (GetProducerCurrentRtpStream c);
    match current with
    | None => skip
    | Some _ => ssrc ← lift (mapped_ssrc c (currentSpatialLayer (sm_layers c))); emit (KeyFrameRequested ssrc)
    end.

(** Pointers are compared: the streams of two layers are two streams. *)
Definition RequestKeyFrames : op unit :=
  c ← get;
  if negb (video (sm_base c)) then skip
  else
    target ← lift (GetProducerTargetRtpStream c);
    current ← lift (GetProducerCurrentRtpStream c);
    _ ← match target with
        | None => skip
        | Some _ => ssrc ← lift (mapped_ssrc c (targetSpatialLayer (sm_layers c))); emit (KeyFrameRequested ssrc)
        end;
    match current with
    | None => skip
    | Some _ =>
        if currentSpatialLayer (sm_layers c) =? targetSpatialLayer (sm_layers c) then skip
        else ssrc ← lift (mapped_ssrc c (currentSpatialLayer (sm_layers c))); emit (KeyFrameRequested ssrc)
    end.

(** * Target layers *)

Definition CanSwitchToSpatialLayer (c : simulcast_consumer) (layer : Z) : outcome bool :=
  p ← stream_at c layer;
  s ← match p with Some s => Ok s | None => Err AssertFailed end;
  let reference := tsReferenceSpatialLayer (sm_layers c) in
  if (reference =? -1) || (layer =? reference) then Ok true
  else
    r ← GetProducerTsReferenceRtpStream c;
    r ← pointed r;
    Ok (truthy (GetSenderReportNtpMs r) && truthy (GetSenderReportNtpMs s)).

(** The loop over the streams: [newTargetSpatialLayer] and [maxProducerScore]. *)
Fixpoint recalculate_loop (c : simulcast_consumer) (now layer : Z) (streams : list (option S)) (newTarget maxScore : Z)
  : outcome Z :=
  match streams with
  | [] => Ok newTarget
  | s :: rest =>
      let producerScore := match s with Some s => GetScore s | None => 0 end in
      let next := recalculate_loop c now (layer + 1) rest in
      if (u64 (now - lastBweDowngradeAtMs (sm_layers c)) <? BweDowngradeConservativeMs)
         && (-1 <? newTarget) && (currentSpatialLayer (sm_layers c) <? layer)
      then next newTarget maxScore
      else if producerScore =? 0 then next newTarget maxScore
      else
        s ← pointed s;
        if externallyManagedBitrate (sm_base c) && negb (newTarget =? -1) && (GetActiveMs s now <? StreamMinActiveMs)
        then next newTarget maxScore
        else
          can ← CanSwitchToSpatialLayer c layer;
          if negb can then next newTarget maxScore
          else if (producerScore <? maxScore) && (producerScore <? StreamGoodScore) then next newTarget maxScore
          else if (preferredSpatialLayer (sm_layers c) <=? layer) && (StreamGoodScore <=? producerScore) then Ok layer
          else next layer producerScore
  end.

(** The new target layers, and whether they differ from those in force. *)
Definition RecalculateTargetLayers (c : simulcast_consumer) (now : Z) : outcome (Z * Z * bool) :=
  newSpatial ← recalculate_loop c now 0 (producerRtpStreams c) (-1) 0;
  let preferred := preferredSpatialLayer (sm_layers c) in
  let newTemporal :=
    if newSpatial =? -1 then -1
    else if newSpatial =? preferred then preferredTemporalLayer (sm_layers c)
    else if newSpatial <? preferred then streamTemporalLayers (sm_base c) - 1
    else 0 in
  Ok (newSpatial, newTemporal,
      negb (newSpatial =? targetSpatialLayer (sm_layers c)) || negb (newTemporal =? targetTemporalLayer (sm_layers c))).

Definition UpdateTargetLayers (newSpatial newTemporal : Z) : op unit :=
  _ ← modify (fun c => if negb (newSpatial =? -1) && (tsReferenceSpatialLayer (sm_layers c) =? -1)
                       then set_tsReferenceSpatialLayer c newSpatial else c);
  if newSpatial =? -1 then
    _ ← modify (fun c => set_currentSpatialLayer (set_target c (-1) (-1)) (-1));
    _ ← modify (fun c => set_encodingContext c
          (map_ctx (fun x => SetCurrentTemporalLayer (SetTargetTemporalLayer x (-1)) (-1)) (encodingContext c)));
    EmitLayersChange
  else
    _ ← modify (fun c => set_target c newSpatial newTemporal);
    _ ← modify (fun c => if newSpatial =? currentSpatialLayer (sm_layers c)
          then set_encodingContext c (map_ctx (fun x => SetTargetTemporalLayer x newTemporal) (encodingContext c)) else c);
    c ← get;
    if negb (newSpatial =? currentSpatialLayer (sm_layers c)) then RequestKeyFrameForTargetSpatialLayer else skip.

Definition MayChangeLayers (now : Z) (force : bool) : op unit :=
  c ← get;
  '(newSpatial, newTemporal, changed) ← lift (RecalculateTargetLayers c now);
  if changed : bool then
    if externallyManagedBitrate (sm_base c) then
      if negb (newSpatial =? targetSpatialLayer (sm_layers c)) || force then emit NeedBitrateChange else skip
    else UpdateTargetLayers newSpatial newTemporal
  else skip.

(** * Bandwidth *)

(** The bitrate of the temporal layers tried, in order: the first that is not below
    the provisional ones, unless it has no bitrate. *)
Fixpoint temporal_loop (c : simulcast_consumer) (now layer : Z) (s : S) (temporals : list Z) : outcome (option (Z * Z)) :=
  match temporals with
  | [] => Ok None
  | temporal :: rest =>
      let provisional := provisionalTargetSpatialLayer (sm_layers c) in
      if (layer =? provisional) && (temporal <=? provisionalTargetTemporalLayer (sm_layers c))
      then temporal_loop c now layer s rest
      else
        required ← GetLayerBitrate s now 0 temporal;
        required ←
          (if truthy required && (temporal =? 0) && (-1 <? provisional) && (provisional <? layer) then
             p ← stream_at c provisional;
             p ← pointed p;
             provisionalRequired ← GetLayerBitrate p now 0 (provisionalTargetTemporalLayer (sm_layers c));
             Ok (if provisionalRequired <? required then required - provisionalRequired else 1)
           else Ok required);
        Ok (if truthy required then Some (temporal, required) else None)
  end.

(** The loop over the spatial layers: the layers found and the bitrate they take. *)
Fixpoint increase_loop (c : simulcast_consumer) (now layer : Z) (streams : list (option S)) : outcome (option (Z * Z * Z)) :=
  match streams with
  | [] => Ok None
  | s :: rest =>
      let provisional := provisionalTargetSpatialLayer (sm_layers c) in
      let next := increase_loop c now (layer + 1) rest in
      if (u64 (now - lastBweDowngradeAtMs (sm_layers c)) <? BweDowngradeConservativeMs)
         && (-1 <? provisional) && (currentSpatialLayer (sm_layers c) <? layer)
      then Ok None
      else if layer <? provisional then next
      else
        match s with
        | None => next
        | Some s =>
            if GetScore s <? StreamGoodScore then next
            else
              move ← (if negb (layer =? provisional) && negb (provisional =? -1) && (GetActiveMs s now <? StreamMinActiveMs)
                      then p ← stream_at c provisional; p ← pointed p; Ok (StreamMinActiveMs <=? GetActiveMs p now)
                      else Ok false);
              if move : bool then next
              else
                can ← CanSwitchToSpatialLayer c layer;
                if negb can then next
                else
                  found ← temporal_loop c now layer s (seqZ 0 (GetTemporalLayers s));
                  match found with
                  | Some (temporal, required) => Ok (Some (layer, temporal, required))
                  | None => if preferredSpatialLayer (sm_layers c) <=? layer then Ok None else next
                  end
        end
  end.

Definition GetBitratePriority (c : simulcast_consumer) : outcome Z :=
  _ ← require AssertFailed (externallyManagedBitrate (sm_base c));
  Ok (if sm_IsActive c then priority (sm_base c) else 0).

Definition IncreaseLayer (now bitrate : Z) (considerLoss : bool) : op Z :=
  c ← get;
  _ ← lift (require AssertFailed (externallyManagedBitrate (sm_base c)));
  _ ← lift (require AssertFailed (sm_IsActive c));
  if (provisionalTargetSpatialLayer (sm_layers c) =? preferredSpatialLayer (sm_layers c))
     && (provisionalTargetTemporalLayer (sm_layers c) =? preferredTemporalLayer (sm_layers c))
  then mret 0
  else
    virtual ← lift (virtual_bitrate (rtpStream c) bitrate considerLoss);
    found ← lift (increase_loop c now 0 (producerRtpStreams c));
    match found with
    | None => mret 0
    | Some (spatial, temporal, required) =>
        if virtual <? required then mret 0
        else
          _ ← modify (fun c => set_provisional c spatial temporal);
          mret (used_bitrate required virtual bitrate)
    end.

Definition ApplyLayers (now : Z) : op unit :=
  c ← get;
  _ ← lift (require AssertFailed (externallyManagedBitrate (sm_base c)));
  _ ← lift (require AssertFailed (sm_IsActive c));
  let spatial := provisionalTargetSpatialLayer (sm_layers c) in
  let temporal := provisionalTargetTemporalLayer (sm_layers c) in
  _ ← modify (fun c => set_provisional c (-1) (-1));
  if negb (spatial =? targetSpatialLayer (sm_layers c)) || negb (temporal =? targetTemporalLayer (sm_layers c)) then
    _ ← UpdateTargetLayers spatial temporal;
    modify (fun c =>
      if (BweDowngradeMinActiveMs <? send_GetActiveMs (rtpStream c) now)
         && (targetSpatialLayer (sm_layers c) <? currentSpatialLayer (sm_layers c))
         && (currentSpatialLayer (sm_layers c) <=? preferredSpatialLayer (sm_layers c))
      then set_lastBweDowngradeAtMs c now else c)
  else skip.

(** The bitrate of the highest stream that has one. *)
Definition desired_bitrate (streams : list (option S)) (now : Z) : Z :=
  foldl (fun desired s => match s with
                          | Some s => if truthy (GetBitrate s now) then GetBitrate s now else desired
                          | None => desired
                          end) 0 streams.

Definition GetDesiredBitrate (c : simulcast_consumer) (now : Z) : outcome Z :=
  _ ← require AssertFailed (externallyManagedBitrate (sm_base c));
  Ok (if sm_IsActive c then Z.max (maxBitrate (sm_base c)) (desired_bitrate (producerRtpStreams c) now) else 0).

(** * Sending *)

(** The offset of the timestamps of the layer of a packet to those of the layer of
    reference, by the sender reports of both streams. *)
Definition ntp_offset (c : simulcast_consumer) (layer : Z) : outcome Z :=
  if layer =? tsReferenceSpatialLayer (sm_layers c) then Ok 0
  else
    r ← GetProducerTsReferenceRtpStream c;
    t ← GetProducerTargetRtpStream c;
    r ← pointed r;
    let ntpMs1 := GetSenderReportNtpMs r in
    _ ← require AssertFailed (truthy ntpMs1);
    t ← pointed t;
    let ntpMs2 := GetSenderReportNtpMs t in
    _ ← require AssertFailed (truthy ntpMs2);
    let diffMs := if ntpMs1 <=? ntpMs2 then swrap 64 (ntpMs2 - ntpMs1) else swrap 64 (u64 (-1 * (ntpMs1 - ntpMs2))) in
    let product := diffMs * par_clockRate (par (stream (rtpStream c))) in
    _ ← require OutOfBounds ((- 2 ^ 63 <=? product) && (product <? 2 ^ 63));
    let diffTs := Z.quot product 1000 in
    let newTs2 := u32 (GetSenderReportTs t - diffTs) in
    Ok (u32 (newTs2 - GetSenderReportTs r)).

(** The extra offset when switching to the stream of a packet with the given
    timestamp: [None] when a key frame is to be asked for instead. *)
Definition extra_offset (c : simulcast_consumer) (timestamp offset : Z) : option Z :=
  let clockRate := par_clockRate (par (stream (rtpStream c))) in
  let maxTs := maxPacketTs (stream (rtpStream c)) in
  if u32 (timestamp - offset) <=? maxTs then
    let maxTsExtraOffset := u32 (MaxExtraOffsetMs * clockRate) / 1000 in
    let tsExtraOffset := u32 (maxTs - timestamp + offset) in
    if keyFrameForTsOffsetRequested c then
      Some (if maxTsExtraOffset <? tsExtraOffset then 1 else tsExtraOffset)
    else if maxTsExtraOffset <? tsExtraOffset then None
    else if tsExtraOffset =? 0 then Some (u32 (MsOffset * clockRate) / 1000)
    else Some tsExtraOffset
  else Some 0.

(** The synchronization with a packet; whether to go on with it. *)
Definition sync_with (p : rtp_packet) (layer : Z) (switch : bool) : op bool :=
  c ← get;
  offset ← lift (ntp_offset c layer);
  timestamp ← lift (GetTimestamp p);
  match (if switch then extra_offset c timestamp offset else Some 0) with
  | None =>
      _ ← RequestKeyFrameForTargetSpatialLayer;
      _ ← modify (fun c => set_keyFrameForTsOffsetRequested c true);
      mret false
  | Some extra =>
      seq ← lift (GetSequenceNumber p);
      _ ← modify (fun c => set_tsOffset c (u32 (offset - extra)));
      _ ← modify (fun c => set_rtpSeqManager c (sync_seq (rtpSeqManager c) seq));
      _ ← modify (fun c => set_encodingContext c (SyncRequired (encodingContext c)));
      _ ← modify (fun c => set_keyFrameForTsOffsetRequested (set_syncRequired c false) false);
      mret true
  end.

(** The layers and the payload; [None] when the packet is dropped. *)
Definition process_layers (now : Z) (p : video_packet) (switch : bool) : op (option video_packet) :=
  if switch then
    _ ← modify (fun c => set_currentSpatialLayer c (targetSpatialLayer (sm_layers c)));
    _ ← modify (fun c => set_encodingContext c
          (map_ctx (fun x => SetCurrentTemporalLayer (SetTargetTemporalLayer x (targetTemporalLayer (sm_layers c))) (GetTemporalLayer p))
            (encodingContext c)));
    _ ← modify (fun c => set_rtpStream c (set_stream (rtpStream c) (ResetScore (stream (rtpStream c)) 10 false now).1));
    _ ← EmitLayersChange;
    _ ← EmitScore;
    c ← get;
    '(p, x, _) ← lift (ProcessPayload p (encodingContext c));
    _ ← modify (fun c => set_encodingContext c x);
    mret (Some p)
  else
    c ← get;
    let previousTemporalLayer := currentTemporalLayer (ctx_base (encodingContext c)) in
    '(p, x, ok) ← lift (ProcessPayload p (encodingContext c));
    _ ← modify (fun c => set_encodingContext c x);
    if negb ok then
      seq ← lift (GetSequenceNumber (vp_packet p));
      _ ← modify (fun c => set_rtpSeqManager c (Drop 16 (rtpSeqManager c) seq));
      mret None
    else
      _ ← (if negb (previousTemporalLayer =? currentTemporalLayer (ctx_base x)) then EmitLayersChange else skip);
      mret (Some p).

(** The packet is rewritten, sent and restored. *)
Definition send_restored (now indeterminate : Z) (p : video_packet) : op video_packet :=
  c ← get;
  timestamp ← lift (GetTimestamp (vp_packet p));
  seq ← lift (GetSequenceNumber (vp_packet p));
  let '(manager, newSeq) := input_seq (rtpSeqManager c) seq indeterminate in
  _ ← modify (fun c => set_rtpSeqManager c manager);
  '(st, q, es) ← lift (forward now (ssrc (sm_base c)) newSeq (Some (u32 (timestamp - tsOffset c))) (rtpStream c) (vp_packet p));
  _ ← modify (fun c => set_rtpStream c st);
  _ ← emits es;
  lift (RestorePayload (with_packet p q)).

(** [SendRtpPacket]: the packet when it returns.  [indeterminate] is what the
    variable of the sequence number holds before it is set. *)
Definition SendRtpPacket (now indeterminate : Z) (p : video_packet) : op video_packet :=
  c ← get;
  if negb (sm_IsActive c) then mret p
  else if targetTemporalLayer (sm_layers c) =? -1 then mret p
  else
    payloadType ← lift (GetPayloadType (vp_packet p));
    if negb (supported (sm_base c) payloadType) then mret p
    else
      mappedSsrc ← lift (GetSsrc (vp_packet p));
      layer ← lift (match mapMappedSsrcSpatialLayer c !! mappedSsrc with Some l => Ok l | None => Err Thrown end);
      let current := currentSpatialLayer (sm_layers c) in
      let target := targetSpatialLayer (sm_layers c) in
      let awaited := negb (current =? target) && (layer =? target) in
      if awaited && negb (IsKeyFrame p) then mret p
      else if negb awaited && negb (layer =? current) then mret p
      else
        _ ← (if awaited then modify (fun c => set_syncRequired c true) else skip);
        c ← get;
        if syncRequired c && negb (IsKeyFrame p) then mret p
        else
          go ← (if syncRequired c then sync_with (vp_packet p) layer awaited else mret true);
          if negb go then mret p
          else
            r ← process_layers now p awaited;
            match r with
            | None => mret p
            | Some p => send_restored now indeterminate p
            end.

(** * Requests and events *)

(** [CONSUMER_SET_PREFERRED_LAYERS]: the layers given, nonnegative integers, if they are. *)
Definition SetPreferredLayers (now : Z) (spatial temporal : option Z) : op unit :=
  c ← get;
  '(newSpatial, newTemporal) ← lift (preferred_layers (sm_base c) (Some (spatial, temporal)));
  let changed := negb (newSpatial =? preferredSpatialLayer (sm_layers c))
                 || negb (newTemporal =? preferredTemporalLayer (sm_layers c)) in
  _ ← modify (fun c => set_preferred c newSpatial newTemporal);
  if sm_IsActive c && changed then MayChangeLayers now true else skip.

(** [CONSUMER_REQUEST_KEY_FRAME]. *)
Definition ConsumerRequestKeyFrame : op unit :=
  c ← get; if sm_IsActive c then RequestKeyFrames else skip.

(** [producerRtpStreams\[spatialLayer\] = rtpStream]. *)
Definition ProducerRtpStream (s : S) (mappedSsrc : Z) : op unit :=
  c ← get;
  layer ← lift (match mapMappedSsrcSpatialLayer c !! mappedSsrc with Some l => Ok l | None => Err Thrown end);
  put (set_producerRtpStreams c (<[Z.to_nat layer := Some s]> (producerRtpStreams c))).

Definition ProducerNewRtpStream (now : Z) (s : S) (mappedSsrc : Z) : op unit :=
  _ ← ProducerRtpStream s mappedSsrc;
  _ ← EmitScore;
  c ← get;
  if sm_IsActive c then MayChangeLayers now false else skip.

Definition ProducerRtpStreamScore (now score previousScore : Z) : op unit :=
  _ ← EmitScore;
  c ← get;
  if base_IsActive (sm_base c)
  then if negb (externallyManagedBitrate (sm_base c)) || (score =? 0) || (previousScore =? 0)
       then MayChangeLayers now false else skip
  else skip.

Definition ProducerRtcpSenderReport (now : Z) (first : bool) : op unit :=
  if negb first then skip
  else
    c ← get;
    current ← lift (GetProducerCurrentRtpStream c);
    match current with
    | None => skip
    | Some s =>
        if negb (truthy (GetSenderReportNtpMs s)) then skip
        else if sm_IsActive c then MayChangeLayers now false else skip
    end.

Definition NeedWorstRemoteFractionLost (c : simulcast_consumer) (worst : Z) : Z :=
  if sm_IsActive c && (worst <? fractionLost (rtpStream c)) then fractionLost (rtpStream c) else worst.

(** The trace events are left out: they change nothing. *)
Definition ReceiveNack (now : Z) (items : list (Z * Z)) : op unit :=
  c ← get;
  if negb (sm_IsActive c) then skip
  else
    '(st, ps) ← lift (RtpStreamSend.ReceiveNack (rtpStream c) items now);
    _ ← modify (fun c => set_rtpStream c st);
    emits (map RetransmitRtp ps).

Definition ReceiveKeyFrameRequest (messageType : Z) : op unit :=
  _ ← modify (fun c => set_rtpStream c (RtpStreamSend.ReceiveKeyFrameRequest (rtpStream c) messageType));
  c ← get;
  if sm_IsActive c then RequestKeyFrameForCurrentSpatialLayer else skip.

(** [rtpStream->Pause()]. *)
Definition pause_stream : op unit :=
  c ← get;
  st ← lift (RtpStreamSend.Pause (rtpStream c));
  modify (fun c => set_rtpStream c st).

Definition sm_UserOnTransportConnected (now : Z) : op unit :=
  _ ← modify (fun c => set_keyFrameForTsOffsetRequested (set_syncRequired c true) false);
  c ← get;
  if sm_IsActive c then MayChangeLayers now false else skip.

Definition sm_UserOnTransportDisconnected (now : Z) : op unit :=
  _ ← modify (fun c => set_lastBweDowngradeAtMs c 0);
  _ ← pause_stream;
  UpdateTargetLayers (-1) (-1).

Definition sm_UserOnPaused (now : Z) : op unit :=
  _ ← modify (fun c => set_lastBweDowngradeAtMs c 0);
  _ ← pause_stream;
  _ ← UpdateTargetLayers (-1) (-1);
  c ← get;
  if externallyManagedBitrate (sm_base c) then emit NeedZeroBitrate else skip.

Definition sm_UserOnResumed (now : Z) : op unit := sm_UserOnTransportConnected now.

(** [OnRtpStreamScore], of the stream that is sent. *)
Definition OnRtpStreamScore (now : Z) : op unit :=
  _ ← EmitScore;
  c ← get;
  if sm_IsActive c && negb (externallyManagedBitrate (sm_base c)) then MayChangeLayers now false else skip.

#[export] Instance simulcast_kind : ConsumerKind simulcast_consumer := {
  base := sm_base;
  set_base := sm_set_base;
  IsActive := sm_IsActive;
  UserOnTransportConnected := sm_UserOnTransportConnected;
  UserOnTransportDisconnected := sm_UserOnTransportDisconnected;
  UserOnPaused := sm_UserOnPaused;
  UserOnResumed := sm_UserOnResumed
}.

(** The constructor, given the base, the codec, the layers of [preferredLayers] if
    it is there, and the stream [CreateRtpStream] creates. *)
Definition new_SimulcastConsumer (b : consumer_base) (codec : option codec) (preferred : option (option Z * option Z))
    (st : rtp_stream_send) : outcome simulcast_consumer :=
  _ ← require Thrown (1 <? Z.of_nat (length (mappedSsrcs b)));
  _ ← require Thrown (streamSpatialLayers b =? Z.of_nat (length (mappedSsrcs b)));
  '(spatial, temporal) ← preferred_layers b preferred;
  _ ← require Thrown (IsValidTypeForCodec SIMULCAST codec);
  match GetEncodingContext codec (ContextParams (streamSpatialLayers b) (streamTemporalLayers b) false) with
  | None => Err AssertFailed
  | Some x =>
      Ok (SimulcastConsumer b
            (foldl (fun m e => <[e.2 := Z.of_nat e.1]> m) ∅ (imap pair (mappedSsrcs b)))
            (replicate (length (mappedSsrcs b)) None)
            (Layers spatial temporal (-1) (-1) (-1) (-1) (-1) (-1) 0)
            false seq_manager_init x 0 false st)
  end.
End simulcast.

Arguments simulcast_consumer S : clear implicits.
