(* ===== verification/SvcConsumer.v ===== *)
(** [RTC::SvcConsumer] (worker/src/RTC/SvcConsumer.cpp,
    worker/include/RTC/SvcConsumer.hpp): a consumer of a stream with several
    spatial and temporal layers, which drops those above its target. *)

From S2P Require Export Consumer.

Section svc.
Context {S : Type} `{ProducerStream S}.

Record svc_consumer : Type := SvcConsumer {
  sv_base : consumer_base;
  producerRtpStream : option S;
  syncRequired : bool;
  rtpSeqManager : seq_manager;
  preferredSpatialLayer : Z;
  preferredTemporalLayer : Z;
  provisionalTargetSpatialLayer : Z;
  provisionalTargetTemporalLayer : Z;
  encodingContext : codec_context;
  lastBweDowngradeAtMs : Z;
  rtpStream : rtp_stream_send
}.

Notation op := (act svc_consumer consumer_event).

Definition sv_set_base (c : svc_consumer) (b : consumer_base) : svc_consumer :=
  SvcConsumer b (producerRtpStream c) (syncRequired c) (rtpSeqManager c) (preferredSpatialLayer c) (preferredTemporalLayer c)
    (provisionalTargetSpatialLayer c) (provisionalTargetTemporalLayer c) (encodingContext c) (lastBweDowngradeAtMs c) (rtpStream c).
Definition set_producerRtpStream (c : svc_consumer) (s : option S) : svc_consumer :=
  SvcConsumer (sv_base c) s (syncRequired c) (rtpSeqManager c) (preferredSpatialLayer c) (preferredTemporalLayer c)
    (provisionalTargetSpatialLayer c) (provisionalTargetTemporalLayer c) (encodingContext c) (lastBweDowngradeAtMs c) (rtpStream c).
Definition set_sync (c : svc_consumer) (b : bool) (m : seq_manager) : svc_consumer :=
  SvcConsumer (sv_base c) (producerRtpStream c) b m (preferredSpatialLayer c) (preferredTemporalLayer c)
    (provisionalTargetSpatialLayer c) (provisionalTargetTemporalLayer c) (encodingContext c) (lastBweDowngradeAtMs c) (rtpStream c).
Definition set_preferred (c : svc_consumer) (spatial temporal : Z) : svc_consumer :=
  SvcConsumer (sv_base c) (producerRtpStream c) (syncRequired c) (rtpSeqManager c) spatial temporal
    (provisionalTargetSpatialLayer c) (provisionalTargetTemporalLayer c) (encodingContext c) (lastBweDowngradeAtMs c) (rtpStream c).
Definition set_provisional (c : svc_consumer) (spatial temporal : Z) : svc_consumer :=
  SvcConsumer (sv_base c) (producerRtpStream c) (syncRequired c) (rtpSeqManager c) (preferredSpatialLayer c) (preferredTemporalLayer c)
    spatial temporal (encodingContext c) (lastBweDowngradeAtMs c) (rtpStream c).
Definition set_encodingContext (c : svc_consumer) (x : codec_context) : svc_consumer :=
  SvcConsumer (sv_base c) (producerRtpStream c) (syncRequired c) (rtpSeqManager c) (preferredSpatialLayer c) (preferredTemporalLayer c)
    (provisionalTargetSpatialLayer c) (provisionalTargetTemporalLayer c) x (lastBweDowngradeAtMs c) (rtpStream c).
Definition set_lastBweDowngradeAtMs (c : svc_consumer) (ms : Z) : svc_consumer :=
  SvcConsumer (sv_base c) (producerRtpStream c) (syncRequired c) (rtpSeqManager c) (preferredSpatialLayer c) (preferredTemporalLayer c)
    (provisionalTargetSpatialLayer c) (provisionalTargetTemporalLayer c) (encodingContext c) ms (rtpStream c).
Definition set_rtpStream (c : svc_consumer) (s : rtp_stream_send) : svc_consumer :=
  SvcConsumer (sv_base c) (producerRtpStream c) (syncRequired c) (rtpSeqManager c) (preferredSpatialLayer c) (preferredTemporalLayer c)
    (provisionalTargetSpatialLayer c) (provisionalTargetTemporalLayer c) (encodingContext c) (lastBweDowngradeAtMs c) s.

(** The layers of the encoding context. *)
Definition ctx (c : svc_consumer) : encoding_context := ctx_base (encodingContext c).
Definition map_context (f : encoding_context -> encoding_context) : op unit :=
  modify (fun c => set_encodingContext c (map_ctx f (encodingContext c))).

Definition sv_IsActive (c : svc_consumer) : bool :=
  base_IsActive (sv_base c) && match producerRtpStream c with Some s => 0 <? GetScore s | None => false end.

(** [producerRtpStream->]. *)
Definition pointed (s : option S) : outcome S := match s with Some s => Ok s | None => Err OutOfBounds end.

(** * Notifications and key frames *)

Definition EmitScore : op unit :=
  c ← get;
  _ ← lift (require AssertFailed (scoresSet (sv_base c)));
  emit (ScoreEvent (score (stream (rtpStream c))) (match producerRtpStream c with Some s => GetScore s | None => 0 end)).

Definition EmitLayersChange : op unit :=
  c ← get;
  emit (LayersChangeEvent (if 0 <=? currentSpatialLayer (ctx c)
    then Some (currentSpatialLayer (ctx c), currentTemporalLayer (ctx c)) else None)).

Definition RequestKeyFrame : op unit :=
  c ← get;
  if negb (video (sv_base c)) then skip
  else
    ssrc ← lift (match mappedSsrcs (sv_base c) with s :: _ => Ok s | [] => Err OutOfBounds end);
    emit (KeyFrameRequested ssrc).

(** * Target layers *)

Fixpoint recalculate_loop (c : svc_consumer) (s : S) (now : Z) (spatials : list Z) (newTarget : Z) : outcome Z :=
  match spatials with
  | [] => Ok newTarget
  | layer :: rest =>
      if (u64 (now - lastBweDowngradeAtMs c) <? BweDowngradeConservativeMs)
         && (-1 <? newTarget) && (currentSpatialLayer (ctx c) <? layer)
      then recalculate_loop c s now rest newTarget
      else
        bitrate ← GetSpatialLayerBitrate s now layer;
        if negb (truthy bitrate) then recalculate_loop c s now rest newTarget
        else if preferredSpatialLayer c <=? layer then Ok layer
        else recalculate_loop c s now rest layer
  end.

Definition RecalculateTargetLayers (c : svc_consumer) (now : Z) : outcome (Z * Z * bool) :=
  '(newSpatial, newTemporal) ←
    match producerRtpStream c with
    | None => Ok (-1, -1)
    | Some s =>
        if GetScore s =? 0 then Ok (-1, -1)
        else
          newSpatial ← recalculate_loop c s now (seqZ 0 (GetSpatialLayers s)) (-1);
          Ok (newSpatial,
              if newSpatial =? -1 then -1
              else if newSpatial =? preferredSpatialLayer c then preferredTemporalLayer c
              else if newSpatial <? preferredSpatialLayer c then streamTemporalLayers (sv_base c) - 1
              else 0)
    end;
  Ok (newSpatial, newTemporal,
      negb (newSpatial =? targetSpatialLayer (ctx c)) || negb (newTemporal =? targetTemporalLayer (ctx c))).

Definition UpdateTargetLayers (newSpatial newTemporal : Z) : op unit :=
  if newSpatial =? -1 then
    _ ← map_context (fun x => SetCurrentSpatialLayer (SetTargetSpatialLayer x (-1)) (-1));
    _ ← map_context (fun x => SetCurrentTemporalLayer (SetTargetTemporalLayer x (-1)) (-1));
    EmitLayersChange
  else
    _ ← map_context (fun x => SetTargetTemporalLayer (SetTargetSpatialLayer x newSpatial) newTemporal);
    c ← get;
    if negb (newSpatial =? currentSpatialLayer (ctx c)) then
      if ksvc (Codecs.params (ctx c)) then RequestKeyFrame
      else if currentSpatialLayer (ctx c) <? newSpatial then RequestKeyFrame
      else skip
    else skip.

Definition MayChangeLayers (now : Z) (force : bool) : op unit :=
  c ← get;
  '(newSpatial, newTemporal, changed) ← lift (RecalculateTargetLayers c now);
  if changed : bool then
    if externallyManagedBitrate (sv_base c) then
      if negb (newSpatial =? targetSpatialLayer (ctx c)) || force then emit NeedBitrateChange else skip
    else UpdateTargetLayers newSpatial newTemporal
  else skip.

(** * Bandwidth *)

Fixpoint temporal_loop (c : svc_consumer) (s : S) (now layer : Z) (temporals : list Z) : outcome (option (Z * Z)) :=
  match temporals with
  | [] => Ok None
  | temporal :: rest =>
      if (layer =? provisionalTargetSpatialLayer c) && (temporal <=? provisionalTargetTemporalLayer c)
      then temporal_loop c s now layer rest
      else
        required ← GetLayerBitrate s now layer temporal;
        Ok (if truthy required then Some (temporal, required) else None)
  end.

Fixpoint increase_loop (c : svc_consumer) (s : S) (now : Z) (spatials : list Z) : outcome (option (Z * Z * Z)) :=
  match spatials with
  | [] => Ok None
  | layer :: rest =>
      if (u64 (now - lastBweDowngradeAtMs c) <? BweDowngradeConservativeMs)
         && (-1 <? provisionalTargetSpatialLayer c) && (currentSpatialLayer (ctx c) <? layer)
      then Ok None
      else if layer <? provisionalTargetSpatialLayer c then increase_loop c s now rest
      else
        found ← temporal_loop c s now layer (seqZ 0 (GetTemporalLayers s));
        match found with
        | Some (temporal, required) => Ok (Some (layer, temporal, required))
        | None => if preferredSpatialLayer c <=? layer then Ok None else increase_loop c s now rest
        end
  end.

Definition GetBitratePriority (c : svc_consumer) : outcome Z :=
  _ ← require AssertFailed (externallyManagedBitrate (sv_base c));
  Ok (if sv_IsActive c then priority (sv_base c) else 0).

Definition IncreaseLayer (now bitrate : Z) (considerLoss : bool) : op Z :=
  c ← get;
  _ ← lift (require AssertFailed (externallyManagedBitrate (sv_base c)));
  _ ← lift (require AssertFailed (sv_IsActive c));
  s ← lift (pointed (producerRtpStream c));
  if GetScore s =? 0 then mret 0
  else if (provisionalTargetSpatialLayer c =? preferredSpatialLayer c)
          && (provisionalTargetTemporalLayer c =? preferredTemporalLayer c)
  then mret 0
  else
    virtual ← lift (virtual_bitrate (rtpStream c) bitrate considerLoss);
    found ← lift (increase_loop c s now (seqZ 0 (GetSpatialLayers s)));
    match found with
    | None => mret 0
    | Some (spatial, temporal, required) =>
        if virtual <? required then mret 0
        else
          _ ← modify (fun c => set_provisional c spatial temporal);
          mret (used_bitrate required virtual bitrate)
    end.

Definition ApplyLayers (now : Z) : op unit :=
  c ← get;
  _ ← lift (require AssertFailed (externallyManagedBitrate (sv_base c)));
  _ ← lift (require AssertFailed (sv_IsActive c));
  let spatial := provisionalTargetSpatialLayer c in
  let temporal := provisionalTargetTemporalLayer c in
  _ ← modify (fun c => set_provisional c (-1) (-1));
  if negb (spatial =? targetSpatialLayer (ctx c)) || negb (temporal =? targetTemporalLayer (ctx c)) then
    _ ← UpdateTargetLayers spatial temporal;
    modify (fun c =>
      if (BweDowngradeMinActiveMs <? send_GetActiveMs (rtpStream c) now)
         && (targetSpatialLayer (ctx c) <? currentSpatialLayer (ctx c))
         && (currentSpatialLayer (ctx c) <=? preferredSpatialLayer c)
      then set_lastBweDowngradeAtMs c now else c)
  else skip.

Definition GetDesiredBitrate (c : svc_consumer) (now : Z) : outcome Z :=
  _ ← require AssertFailed (externallyManagedBitrate (sv_base c));
  if sv_IsActive c then
    s ← pointed (producerRtpStream c);
    Ok (Z.max (maxBitrate (sv_base c)) (GetBitrate s now))
  else Ok 0.

(** * Sending *)

(** The packet is rewritten, sent and restored: but for the marker. *)
Definition send_restored (now indeterminate : Z) (p : video_packet) : op video_packet :=
  c ← get;
  seq ← lift (GetSequenceNumber (vp_packet p));
  let '(manager, newSeq) := input_seq (rtpSeqManager c) seq indeterminate in
  _ ← modify (fun c => set_sync c (syncRequired c) manager);
  '(st, q, es) ← lift (forward now (ssrc (sv_base c)) newSeq None (rtpStream c) (vp_packet p));
  _ ← modify (fun c => set_rtpStream c st);
  _ ← emits es;
  lift (RestorePayload (with_packet p q)).

Definition SendRtpPacket (now indeterminate : Z) (p : video_packet) : op video_packet :=
  c ← get;
  if negb (sv_IsActive c) then mret p
  else if (targetSpatialLayer (ctx c) =? -1) || (targetTemporalLayer (ctx c) =? -1) then mret p
  else
    payloadType ← lift (GetPayloadType (vp_packet p));
    if negb (supported (sv_base c) payloadType) then mret p
    else if syncRequired c && negb (IsKeyFrame p) then mret p
    else
      seq ← lift (GetSequenceNumber (vp_packet p));
      _ ← (if syncRequired c then modify (fun c => set_sync c false (sync_seq (rtpSeqManager c) seq)) else skip);
      let previousSpatialLayer := currentSpatialLayer (ctx c) in
      let previousTemporalLayer := currentTemporalLayer (ctx c) in
      '(p, x, ok) ← lift (ProcessPayload p (encodingContext c));
      _ ← modify (fun c => set_encodingContext c x);
      if negb ok then
        _ ← modify (fun c => set_sync c (syncRequired c) (Drop 16 (rtpSeqManager c) seq));
        mret p
      else
        _ ← (if negb (previousSpatialLayer =? currentSpatialLayer (ctx_base x))
                || negb (previousTemporalLayer =? currentTemporalLayer (ctx_base x))
             then EmitLayersChange else skip);
        send_restored now indeterminate p.

(** * Requests and events *)

Definition SetPreferredLayers (now : Z) (spatial temporal : option Z) : op unit :=
  c ← get;
  '(newSpatial, newTemporal) ← lift (preferred_layers (sv_base c) (Some (spatial, temporal)));
  let changed := negb (newSpatial =? preferredSpatialLayer c) || negb (newTemporal =? preferredTemporalLayer c) in
  _ ← modify (fun c => set_preferred c newSpatial newTemporal);
  if sv_IsActive c && changed then MayChangeLayers now true else skip.

Definition ConsumerRequestKeyFrame : op unit :=
  c ← get; if sv_IsActive c then RequestKeyFrame else skip.

Definition ProducerRtpStream (s : S) : op unit := modify (fun c => set_producerRtpStream c (Some s)).

Definition ProducerNewRtpStream (now : Z) (s : S) : op unit :=
  _ ← ProducerRtpStream s;
  _ ← EmitScore;
  c ← get;
  if sv_IsActive c then MayChangeLayers now false else skip.

Definition ProducerRtpStreamScore (now score previousScore : Z) : op unit :=
  _ ← EmitScore;
  c ← get;
  if base_IsActive (sv_base c)
  then if negb (externallyManagedBitrate (sv_base c)) || (score =? 0) || (previousScore =? 0)
       then MayChangeLayers now false else skip
  else skip.

Definition ReceiveNack (now : Z) (items : list (Z * Z)) : op unit :=
  c ← get;
  if negb (sv_IsActive c) then skip
  else
    '(st, ps) ← lift (RtpStreamSend.ReceiveNack (rtpStream c) items now);
    _ ← modify (fun c => set_rtpStream c st);
    emits (map RetransmitRtp ps).

Definition ReceiveKeyFrameRequest (messageType : Z) : op unit :=
  _ ← modify (fun c => set_rtpStream c (RtpStreamSend.ReceiveKeyFrameRequest (rtpStream c) messageType));
  c ← get;
  if sv_IsActive c then RequestKeyFrame else skip.

Definition NeedWorstRemoteFractionLost (c : svc_consumer) (worst : Z) : Z :=
  if sv_IsActive c && (worst <? fractionLost (rtpStream c)) then fractionLost (rtpStream c) else worst.

Definition pause_stream : op unit :=
  c ← get;
  st ← lift (RtpStreamSend.Pause (rtpStream c));
  modify (fun c => set_rtpStream c st).

Definition sv_UserOnTransportConnected (now : Z) : op unit :=
  _ ← modify (fun c => set_sync c true (rtpSeqManager c));
  c ← get;
  if sv_IsActive c then MayChangeLayers now false else skip.

Definition sv_UserOnTransportDisconnected (now : Z) : op unit :=
  _ ← modify (fun c => set_lastBweDowngradeAtMs c 0);
  _ ← pause_stream;
  UpdateTargetLayers (-1) (-1).

Definition sv_UserOnPaused (now : Z) : op unit :=
  _ ← modify (fun c => set_lastBweDowngradeAtMs c 0);
  _ ← pause_stream;
  _ ← UpdateTargetLayers (-1) (-1);
  c ← get;
  if externallyManagedBitrate (sv_base c) then emit NeedZeroBitrate else skip.

Definition sv_UserOnResumed (now : Z) : op unit := sv_UserOnTransportConnected now.

Definition OnRtpStreamScore (now : Z) : op unit :=
  _ ← EmitScore;
  c ← get;
  if sv_IsActive c && negb (externallyManagedBitrate (sv_base c)) then MayChangeLayers now false else skip.

#[export] Instance svc_kind : ConsumerKind svc_consumer := {
  base := sv_base;
  set_base := sv_set_base;
  IsActive := sv_IsActive;
  UserOnTransportConnected := sv_UserOnTransportConnected;
  UserOnTransportDisconnected := sv_UserOnTransportDisconnected;
  UserOnPaused := sv_UserOnPaused;
  UserOnResumed := sv_UserOnResumed
}.

Definition new_SvcConsumer (b : consumer_base) (codec : option codec) (isKSvc : bool) (preferred : option (option Z * option Z))
    (st : rtp_stream_send) : outcome svc_consumer :=
  _ ← require Thrown (Z.of_nat (length (mappedSsrcs b)) =? 1);
  _ ← require Thrown (negb ((streamSpatialLayers b <? 2) && (streamTemporalLayers b <? 2)));
  '(spatial, temporal) ← preferred_layers b preferred;
  _ ← require Thrown (IsValidTypeForCodec SVC codec);
  match GetEncodingContext codec (ContextParams (streamSpatialLayers b) (streamTemporalLayers b) isKSvc) with
  | None => Err AssertFailed
  | Some x => Ok (SvcConsumer b None false seq_manager_init spatial temporal (-1) (-1) x 0 st)
  end.
End svc.

Arguments svc_consumer S : clear implicits.
