(* ===== verification/SimpleConsumer.v ===== *)
(** [RTC::SimpleConsumer] (worker/src/RTC/SimpleConsumer.cpp,
    worker/include/RTC/SimpleConsumer.hpp): a consumer of one stream, audio or
    video, which forwards all of it. *)

From S2P Require Export Consumer.

Section simple.
Context {S : Type} `{ProducerStream S}.

Record simple_consumer : Type := SimpleConsumer {
  si_base : consumer_base;
  producerRtpStream : option S;
  keyFrameSupported : bool;
  syncRequired : bool;
  rtpSeqManager : seq_manager;
  managingBitrate : bool;
  rtpStream : rtp_stream_send
}.

Notation op := (act simple_consumer consumer_event).

Definition si_set_base (c : simple_consumer) (b : consumer_base) : simple_consumer :=
  SimpleConsumer b (producerRtpStream c) (keyFrameSupported c) (syncRequired c) (rtpSeqManager c) (managingBitrate c) (rtpStream c).
Definition set_producerRtpStream (c : simple_consumer) (s : option S) : simple_consumer :=
  SimpleConsumer (si_base c) s (keyFrameSupported c) (syncRequired c) (rtpSeqManager c) (managingBitrate c) (rtpStream c).
Definition set_sync (c : simple_consumer) (b : bool) (m : seq_manager) : simple_consumer :=
  SimpleConsumer (si_base c) (producerRtpStream c) (keyFrameSupported c) b m (managingBitrate c) (rtpStream c).
Definition set_managingBitrate (c : simple_consumer) (b : bool) : simple_consumer :=
  SimpleConsumer (si_base c) (producerRtpStream c) (keyFrameSupported c) (syncRequired c) (rtpSeqManager c) b (rtpStream c).
Definition set_rtpStream (c : simple_consumer) (s : rtp_stream_send) : simple_consumer :=
  SimpleConsumer (si_base c) (producerRtpStream c) (keyFrameSupported c) (syncRequired c) (rtpSeqManager c) (managingBitrate c) s.

Definition si_IsActive (c : simple_consumer) : bool :=
  base_IsActive (si_base c) && match producerRtpStream c with Some s => 0 <? GetScore s | None => false end.

Definition EmitScore : op unit :=
  c ← get;
  _ ← lift (require AssertFailed (scoresSet (si_base c)));
  emit (ScoreEvent (score (stream (rtpStream c))) (match producerRtpStream c with Some s => GetScore s | None => 0 end)).

Definition RequestKeyFrame : op unit :=
  c ← get;
  if negb (video (si_base c)) then skip
  else
    ssrc ← lift (match mappedSsrcs (si_base c) with s :: _ => Ok s | [] => Err OutOfBounds end);
    emit (KeyFrameRequested ssrc).

(** * Bandwidth *)

Definition GetBitratePriority (c : simple_consumer) : outcome Z :=
  _ ← require AssertFailed (externallyManagedBitrate (si_base c));
  Ok (if negb (video (si_base c)) then 0 else if si_IsActive c then priority (si_base c) else 0).

(** [producerRtpStream->GetBitrate(nowMs)]. *)
Definition producer_bitrate (c : simple_consumer) (now : Z) : outcome Z :=
  match producerRtpStream c with Some s => Ok (GetBitrate s now) | None => Err OutOfBounds end.

Definition IncreaseLayer (now bitrate : Z) (considerLoss : bool) : op Z :=
  c ← get;
  _ ← lift (require AssertFailed (externallyManagedBitrate (si_base c)));
  _ ← lift (require AssertFailed (video (si_base c)));
  _ ← lift (require AssertFailed (si_IsActive c));
  if managingBitrate c then mret 0
  else
    _ ← modify (fun c => set_managingBitrate c true);
    desired ← lift (producer_bitrate c now);
    mret (if desired <? bitrate then desired else bitrate).

Definition ApplyLayers (now : Z) : op unit :=
  c ← get;
  _ ← lift (require AssertFailed (externallyManagedBitrate (si_base c)));
  _ ← lift (require AssertFailed (video (si_base c)));
  _ ← lift (require AssertFailed (si_IsActive c));
  modify (fun c => set_managingBitrate c false).

Definition GetDesiredBitrate (c : simple_consumer) (now : Z) : outcome Z :=
  _ ← require AssertFailed (externallyManagedBitrate (si_base c));
  if negb (video (si_base c)) then Ok 0
  else if si_IsActive c then desired ← producer_bitrate c now; Ok (Z.max (maxBitrate (si_base c)) desired)
  else Ok 0.

(** * Sending *)

Definition SendRtpPacket (now indeterminate : Z) (p : video_packet) : op video_packet :=
  c ← get;
  if negb (si_IsActive c) then mret p
  else
    payloadType ← lift (GetPayloadType (vp_packet p));
    if negb (supported (si_base c) payloadType) then mret p
    else if syncRequired c && keyFrameSupported c && negb (IsKeyFrame p) then mret p
    else
      seq ← lift (GetSequenceNumber (vp_packet p));
      let manager := if syncRequired c then sync_seq (rtpSeqManager c) seq else rtpSeqManager c in
      let '(manager, newSeq) := input_seq manager seq indeterminate in
      _ ← modify (fun c => set_sync c false manager);
      '(st, q, es) ← lift (forward now (ssrc (si_base c)) newSeq None (rtpStream c) (vp_packet p));
      _ ← modify (fun c => set_rtpStream c st);
      _ ← emits es;
      mret (with_packet p q).

(** * Requests and events *)

Definition ConsumerRequestKeyFrame : op unit :=
  c ← get; if si_IsActive c then RequestKeyFrame else skip.

Definition ProducerRtpStream (s : S) : op unit := modify (fun c => set_producerRtpStream c (Some s)).

Definition ProducerNewRtpStream (s : S) : op unit :=
  _ ← ProducerRtpStream s;
  EmitScore.

Definition ProducerRtpStreamScore : op unit := EmitScore.

Definition ReceiveNack (now : Z) (items : list (Z * Z)) : op unit :=
  c ← get;
  if negb (si_IsActive c) then skip
  else
    '(st, ps) ← lift (RtpStreamSend.ReceiveNack (rtpStream c) items now);
    _ ← modify (fun c => set_rtpStream c st);
    emits (map RetransmitRtp ps).

Definition ReceiveKeyFrameRequest (messageType : Z) : op unit :=
  _ ← modify (fun c => set_rtpStream c (RtpStreamSend.ReceiveKeyFrameRequest (rtpStream c) messageType));
  c ← get;
  if si_IsActive c then RequestKeyFrame else skip.

Definition NeedWorstRemoteFractionLost (c : simple_consumer) (worst : Z) : Z :=
  if si_IsActive c && (worst <? fractionLost (rtpStream c)) then fractionLost (rtpStream c) else worst.

Definition pause_stream : op unit :=
  c ← get;
  st ← lift (RtpStreamSend.Pause (rtpStream c));
  modify (fun c => set_rtpStream c st).

Definition si_UserOnTransportConnected (now : Z) : op unit :=
  _ ← modify (fun c => set_sync c true (rtpSeqManager c));
  c ← get;
  if si_IsActive c then RequestKeyFrame else skip.

Definition si_UserOnTransportDisconnected (now : Z) : op unit := pause_stream.

Definition si_UserOnPaused (now : Z) : op unit :=
  _ ← pause_stream;
  c ← get;
  if externallyManagedBitrate (si_base c) && video (si_base c) then emit NeedZeroBitrate else skip.

Definition si_UserOnResumed (now : Z) : op unit := si_UserOnTransportConnected now.

(** [OnRtpStreamScore], of the stream that is sent. *)
Definition OnRtpStreamScore : op unit := EmitScore.

#[export] Instance simple_kind : ConsumerKind simple_consumer := {
  base := si_base;
  set_base := si_set_base;
  IsActive := si_IsActive;
  UserOnTransportConnected := si_UserOnTransportConnected;
  UserOnTransportDisconnected := si_UserOnTransportDisconnected;
  UserOnPaused := si_UserOnPaused;
  UserOnResumed := si_UserOnResumed
}.

Definition new_SimpleConsumer (b : consumer_base) (codec : option codec) (st : rtp_stream_send) : outcome simple_consumer :=
  _ ← require Thrown (Z.of_nat (length (mappedSsrcs b)) =? 1);
  Ok (SimpleConsumer b None (CanBeKeyFrame codec) false seq_manager_init false st).
End simple.

Arguments simple_consumer S : clear implicits.
