(* ===== verification/PipeConsumer.v ===== *)
(** [RTC::PipeConsumer] (worker/src/RTC/PipeConsumer.cpp,
    worker/include/RTC/PipeConsumer.hpp): a consumer that forwards all the streams
    of a producer to another router.

    A stream that is sent is known by its index in [rtpStreams]; what the maps
    from it hold is kept with it. *)

From S2P Require Export Consumer.

Record pipe_stream : Type := PipeStream {
  pp_rtpStream : rtp_stream_send;
  pp_syncRequired : bool;
  pp_rtpSeqManager : seq_manager
}.

Record pipe_consumer : Type := PipeConsumer {
  pi_base : consumer_base;
  rtpStreams : list pipe_stream;
  mapMappedSsrcSsrc : gmap Z Z;
  mapSsrcRtpStream : gmap Z nat;
  keyFrameSupported : bool
}.

#[local] Notation op := (act pipe_consumer consumer_event).

Definition pi_set_base (c : pipe_consumer) (b : consumer_base) : pipe_consumer :=
  PipeConsumer b (rtpStreams c) (mapMappedSsrcSsrc c) (mapSsrcRtpStream c) (keyFrameSupported c).
Definition set_rtpStreams (c : pipe_consumer) (l : list pipe_stream) : pipe_consumer :=
  PipeConsumer (pi_base c) l (mapMappedSsrcSsrc c) (mapSsrcRtpStream c) (keyFrameSupported c).

Definition pi_IsActive (c : pipe_consumer) : bool := base_IsActive (pi_base c).

(** A pipe consumer takes no part in the distribution of the bitrate. *)
Definition GetBitratePriority (c : pipe_consumer) : outcome Z := Ok 0.
Definition IncreaseLayer (now bitrate : Z) (considerLoss : bool) : op Z := mret 0.
Definition ApplyLayers (now : Z) : op unit := skip.
Definition GetDesiredBitrate (c : pipe_consumer) (now : Z) : outcome Z := Ok 0.

(** [mapSsrcRtpStream.at(ssrc)]. *)
Definition stream_of (c : pipe_consumer) (ssrc : Z) : outcome (nat * pipe_stream) :=
  match mapSsrcRtpStream c !! ssrc with
  | None => Err Thrown
  | Some i => match rtpStreams c !! i with Some s => Ok (i, s) | None => Err OutOfBounds end
  end.

Definition set_pipe_stream (i : nat) (s : pipe_stream) : op unit :=
  modify (fun c => set_rtpStreams c (<[i := s]> (rtpStreams c))).

Definition RequestKeyFrame : op unit :=
  c ← get;
  if negb (video (pi_base c)) then skip else emits (map KeyFrameRequested (mappedSsrcs (pi_base c))).

Definition SendRtpPacket (now indeterminate : Z) (p : video_packet) : op video_packet :=
  c ← get;
  if negb (pi_IsActive c) then mret p
  else
    payloadType ← lift (GetPayloadType (vp_packet p));
    if negb (supported (pi_base c) payloadType) then mret p
    else
      mappedSsrc ← lift (GetSsrc (vp_packet p));
      newSsrc ← lift (match mapMappedSsrcSsrc c !! mappedSsrc with Some s => Ok s | None => Err Thrown end);
      '(i, s) ← lift (stream_of c newSsrc);
      if pp_syncRequired s && keyFrameSupported c && negb (IsKeyFrame p) then mret p
      else
        seq ← lift (GetSequenceNumber (vp_packet p));
        let manager := if pp_syncRequired s then sync_seq (pp_rtpSeqManager s) seq else pp_rtpSeqManager s in
        let '(manager, newSeq) := input_seq manager seq indeterminate in
        '(st, q, es) ← lift (forward now newSsrc newSeq None (pp_rtpStream s) (vp_packet p));
        _ ← set_pipe_stream i (PipeStream st false manager);
        _ ← emits es;
        mret (with_packet p q).

Definition ConsumerRequestKeyFrame : op unit :=
  c ← get; if pi_IsActive c then RequestKeyFrame else skip.

(** [ReceiveNack] of a packet for [mediaSsrc]. *)
Definition ReceiveNack (now mediaSsrc : Z) (items : list (Z * Z)) : op unit :=
  c ← get;
  if negb (pi_IsActive c) then skip
  else
    '(i, s) ← lift (stream_of c mediaSsrc);
    '(st, ps) ← lift (RtpStreamSend.ReceiveNack (pp_rtpStream s) items now);
    _ ← set_pipe_stream i (PipeStream st (pp_syncRequired s) (pp_rtpSeqManager s));
    emits (map RetransmitRtp ps).

Definition ReceiveKeyFrameRequest (messageType ssrc : Z) : op unit :=
  c ← get;
  '(i, s) ← lift (stream_of c ssrc);
  _ ← set_pipe_stream i (PipeStream (RtpStreamSend.ReceiveKeyFrameRequest (pp_rtpStream s) messageType)
        (pp_syncRequired s) (pp_rtpSeqManager s));
  if pi_IsActive c then RequestKeyFrame else skip.

Definition NeedWorstRemoteFractionLost (c : pipe_consumer) (worst : Z) : Z :=
  if pi_IsActive c
  then foldl (fun w s => if w <? fractionLost (pp_rtpStream s) then fractionLost (pp_rtpStream s) else w) worst (rtpStreams c)
  else worst.

(** The streams with sync required; [Resume] does nothing. *)
Definition pi_UserOnTransportConnected (now : Z) : op unit :=
  _ ← modify (fun c => set_rtpStreams c ((fun s => PipeStream (pp_rtpStream s) true (pp_rtpSeqManager s)) <$> rtpStreams c));
  c ← get;
  if pi_IsActive c then RequestKeyFrame else skip.

Fixpoint pause_all (l : list pipe_stream) : outcome (list pipe_stream) :=
  match l with
  | [] => Ok []
  | s :: l =>
      st ← RtpStreamSend.Pause (pp_rtpStream s);
      l ← pause_all l;
      Ok (PipeStream st (pp_syncRequired s) (pp_rtpSeqManager s) :: l)
  end.

Definition pi_UserOnPaused (now : Z) : op unit :=
  c ← get;
  l ← lift (pause_all (rtpStreams c));
  put (set_rtpStreams c l).

Definition pi_UserOnTransportDisconnected (now : Z) : op unit := pi_UserOnPaused now.
Definition pi_UserOnResumed (now : Z) : op unit := pi_UserOnTransportConnected now.

#[export] Instance pipe_kind : ConsumerKind pipe_consumer := {
  base := pi_base;
  set_base := pi_set_base;
  IsActive := pi_IsActive;
  UserOnTransportConnected := pi_UserOnTransportConnected;
  UserOnTransportDisconnected := pi_UserOnTransportDisconnected;
  UserOnPaused := pi_UserOnPaused;
  UserOnResumed := pi_UserOnResumed
}.

(** The loop of [CreateRtpStreams]: the SSRCs of the encodings, consumable and
    sent, and the streams created for them. *)
Fixpoint create_loop (c : pipe_consumer) (encodings : list (Z * Z * rtp_stream_send)) : pipe_consumer :=
  match encodings with
  | [] => c
  | (mappedSsrc, newSsrc, st) :: rest =>
      create_loop (PipeConsumer (pi_base c) (rtpStreams c ++ [PipeStream st false seq_manager_init])
        (<[mappedSsrc := newSsrc]> (mapMappedSsrcSsrc c)) (<[newSsrc := length (rtpStreams c)]> (mapSsrcRtpStream c))
        (keyFrameSupported c)) rest
  end.

Definition new_PipeConsumer (b : consumer_base) (codec : option codec) (encodings : list (Z * rtp_stream_send)) : outcome pipe_consumer :=
  _ ← require Thrown (bool_decide (length encodings = length (mappedSsrcs b)));
  Ok (create_loop (PipeConsumer b [] ∅ ∅ (CanBeKeyFrame codec))
        (zip_with (fun m e => (m, e.1, e.2)) (mappedSsrcs b) encodings)).
