(* ===== verification/ConsumerFacts.v ===== *)
(** What the kinds of consumers share, proved: a packet whose header is rewritten
    for a consumer is sent as such and comes back as it was, and the stream it
    is handed to keeps its invariant. *)

From S2P Require Export CodecsProps SendFacts Retransmission Consumer.

Lemma truthy_true z : truthy z = true <-> z <> 0.
Proof. unfold truthy. by rewrite negb_true_iff, Z.eqb_neq. Qed.

(** * The fields of a header *)

(** The sequence number, the timestamp and the SSRC, as they lie in the header. *)
Definition header_bytes (seq ts ssrc : Z) : list Z := be_bytes 2 seq ++ be_bytes 4 ts ++ be_bytes 4 ssrc.

(** [m'] is [m] with these fields. *)
Definition rewritten (m : list Z) (seq ts ssrc : Z) (m' : list Z) : Prop := write m 2 (header_bytes seq ts ssrc) = Ok m'.

Section rewritten.
Context (m : list Z) (seq ts ssrc : Z) (m1 : list Z).
Hypothesis Hw : rewritten m seq ts ssrc m1.

Lemma rewritten_length : 12 <= zlen m /\ zlen m1 = zlen m.
Proof. pose proof Hw as (_ & Hl & _)%write_Ok. split; [|by eapply zlen_write]. exact Hl. Qed.

Lemma rewritten_frame i : ~ (2 <= i < 12) -> get1 m1 i = get1 m i.
Proof. apply (same_except_write m 2 _ m1 Hw). Qed.

Lemma rewritten_bytes : bytes m -> bytes m1.
Proof. intros Hm. eapply bytes_write; [done| |exact Hw]. unfold header_bytes, bytes. rewrite !Forall_app. split_and!; apply bytes_be_bytes. Qed.

Lemma rewritten_at : at_ m1 2 (be_bytes 2 seq) /\ at_ m1 4 (be_bytes 4 ts) /\ at_ m1 8 (be_bytes 4 ssrc).
Proof.
  pose proof (slice_write_same _ _ _ _ Hw) as H. unfold header_bytes in H. apply at_app in H as [H1 H].
  rewrite zlen_be_bytes in H. apply at_app in H as [H2 H3]. rewrite zlen_be_bytes in H3.
  split; [exact H1|]. split; [exact H2|exact H3].
Qed.

Lemma rewritten_reads : bytes m -> Get2Bytes m1 2 = Ok (u16 seq) /\ Get4Bytes m1 4 = Ok (u32 ts) /\ Get4Bytes m1 8 = Ok (u32 ssrc).
Proof.
  intros Hm. pose proof (rewritten_bytes Hm) as Hm1. destruct rewritten_at as (H1 & H2 & H3).
  split; [by apply at_Get2Bytes|split; by apply at_Get4Bytes].
Qed.

Lemma set_seq_rewritten seq' : exists m2, Set2Bytes m1 2 seq' = Ok m2 /\ rewritten m seq' ts ssrc m2.
Proof.
  destruct rewritten_length as [L1 L2]. destruct (sets_Set2Bytes m1 2 seq') as (m2 & E & _); [lia..|]. exists m2. split; [done|].
  unfold rewritten. rewrite <- E, Set2Bytes_spec. symmetry.
  exact (write_patch m 2 [] (be_bytes 2 seq) (be_bytes 2 seq') _ m1 eq_refl Hw).
Qed.

Lemma set_ts_rewritten ts' : exists m2, Set4Bytes m1 4 ts' = Ok m2 /\ rewritten m seq ts' ssrc m2.
Proof.
  destruct rewritten_length as [L1 L2]. destruct (sets_Set4Bytes m1 4 ts') as (m2 & E & _); [lia..|]. exists m2. split; [done|].
  unfold rewritten. rewrite <- E, Set4Bytes_spec. symmetry.
  exact (write_patch m 2 (be_bytes 2 seq) (be_bytes 4 ts) (be_bytes 4 ts') (be_bytes 4 ssrc) m1 eq_refl Hw).
Qed.

Lemma set_ssrc_rewritten ssrc' : exists m2, Set4Bytes m1 8 ssrc' = Ok m2 /\ rewritten m seq ts ssrc' m2.
Proof.
  destruct rewritten_length as [L1 L2]. destruct (sets_Set4Bytes m1 8 ssrc') as (m2 & E & _); [lia..|]. exists m2. split; [done|].
  unfold rewritten. rewrite <- E, Set4Bytes_spec. symmetry.
  pose proof (write_patch m 2 (be_bytes 2 seq ++ be_bytes 4 ts) (be_bytes 4 ssrc) (be_bytes 4 ssrc') [] m1 eq_refl) as H.
  rewrite !app_nil_r, <- !app_assoc in H. exact (H Hw).
Qed.
End rewritten.

Lemma rewritten_inj m seq ts ssrc m1 m2 : rewritten m seq ts ssrc m1 -> rewritten m seq ts ssrc m2 -> m1 = m2.
Proof. unfold rewritten. intros -> [= ->]. done. Qed.

Lemma be_bytes_of_val n bs : bytes bs -> zlen bs = Z.of_nat n -> be_bytes n (be_val bs) = bs.
Proof. intros Hb Hl. replace n with (length bs) by (unfold zlen in Hl; lia). by apply be_bytes_be_val. Qed.

(** The fields a packet has. *)
Lemma header_read p : rtp_wf p -> exists seq ts ssrc,
  GetSequenceNumber p = Ok seq /\ GetTimestamp p = Ok ts /\ GetSsrc p = Ok ssrc /\
  in_uint 16 seq /\ in_uint 32 ts /\ in_uint 32 ssrc /\ rewritten (mem p) seq ts ssrc (mem p).
Proof.
  intros Hwf. destruct (wf_payload p Hwf) as (H12 & Hend & _). unfold HeaderSize in H12.
  pose proof (wf_lengths p Hwf) as (? & ? & ?). pose proof (wf_bytes p Hwf) as Hm.
  unfold GetSequenceNumber, GetTimestamp, GetSsrc. rewrite Get2Bytes_spec, !Get4Bytes_spec by done.
  destruct (slice_in_bounds (mem p) 2 2) as [a Ea]; [lia..|]. destruct (slice_in_bounds (mem p) 4 4) as [b Eb]; [lia..|].
  destruct (slice_in_bounds (mem p) 8 4) as [c Ec]; [lia..|]. rewrite Ea, Eb, Ec. ostep.
  pose proof (bytes_slice _ _ _ _ Hm Ea) as Ba. pose proof (bytes_slice _ _ _ _ Hm Eb) as Bb. pose proof (bytes_slice _ _ _ _ Hm Ec) as Bc.
  pose proof (zlen_slice _ _ _ _ Ea) as La. pose proof (zlen_slice _ _ _ _ Eb) as Lb. pose proof (zlen_slice _ _ _ _ Ec) as Lc.
  pose proof (be_val_range a Ba) as Ra. pose proof (be_val_range b Bb) as Rb. pose proof (be_val_range c Bc) as Rc.
  rewrite La in Ra. rewrite Lb in Rb. rewrite Lc in Rc.
  exists (be_val a), (be_val b), (be_val c). do 6 (split; [done|]).
  assert (header_bytes (be_val a) (be_val b) (be_val c) = a ++ b ++ c) as E.
  { unfold header_bytes. by rewrite !be_bytes_of_val. }
  unfold rewritten. rewrite E. apply write_same. apply at_app. rewrite La. split; [by unfold at_; rewrite La|].
  apply at_app. rewrite Lb. split; [by unfold at_; rewrite Lb|by unfold at_; rewrite Lc].
Qed.

(** A packet with its header rewritten is as well-formed as before. *)
Lemma rewritten_wf p seq ts ssrc m : rtp_wf p -> rewritten (mem p) seq ts ssrc m -> rtp_wf (set_mem p m).
Proof.
  intros Hwf Hw. destruct (wf_payload p Hwf) as (H12 & _ & _). unfold HeaderSize in H12. pose proof (rewritten_length _ _ _ _ _ Hw) as [L1 L2].
  pose proof Hwf as [Hm Hfit _ _ (? & ? & ?) (Hpad & Hpadb)].
  assert (forall lo n, get_bits m 0 lo n = get_bits (mem p) 0 lo n) as G
    by (intros; apply get_bits_ext, (rewritten_frame _ _ _ _ _ Hw); lia).
  apply (wf_rebuild p); cbn [mem set_mem csrcList headerExtension payload payloadLength payloadPadding size]; try done; try lia.
  - by apply (rewritten_bytes _ _ _ _ _ Hw).
  - apply G.
  - apply G.
  - apply G.
  - intros i Hi. unfold HeaderSize in Hi. apply (rewritten_frame _ _ _ _ _ Hw). lia.
  - rewrite <- Hpad. apply G.
  - intros Hz. rewrite (rewritten_frame _ _ _ _ _ Hw) by lia. by apply Hpadb.
Qed.

(** * The stream that sends *)

Lemma Send_ReceivePacket_total s p now : send_inv s -> rtp_wf p ->
  exists s' b, RtpStreamSend.ReceivePacket s p now = Ok (s', b) /\ send_inv s' /\
    par (stream s') = par (stream s) /\ rtt s' = rtt s /\ length (storage s') = length (storage s).
Proof.
  intros Hinv Hwf. destruct (wf_reads p Hwf) as (q & ts & Hq & _ & Ht & _).
  destruct (ReceivePacket_Ok (stream s) p now Hwf) as [[st b] E].
  pose proof (ReceivePacket_params _ _ _ _ _ E) as [Hpar _].
  assert (send_inv (set_stream s st)) as Hinv1 by by apply (send_inv_ext s).
  unfold RtpStreamSend.ReceivePacket. rewrite E. ostep. destruct b; cbn [negb]; [|by eexists _, _].
  destruct (storage (set_stream s st)) as [|it l] eqn:Es; [ostep; by eexists _, _|].
  destruct (Z.ltb_spec MtuSize (size p)) as [Hbig|Hsmall].
  { unfold StorePacket, GetSize. rewrite (proj2 (Z.ltb_lt MtuSize (size p))) by done. ostep. by eexists _, _. }
  destruct (wf_payload p Hwf) as (H12 & Hend & _). unfold HeaderSize in H12. pose proof (wf_lengths p Hwf) as (? & ? & ?).
  destruct (slice_in_bounds (mem p) (payload p) (payloadLength p)) as [pl Hpl]; [lia..|].
  destruct (StorePacket_spec (set_stream s st) p q pl ts) as (s1 & E1 & Hinv2 & _); try done; [by rewrite Es|].
  rewrite E1. ostep. destruct (StorePacket_buffer_only _ _ _ E1) as (E2 & E3 & E4). eexists _, _. split; [done|]. split; [done|].
  rewrite E2. by split.
Qed.

Lemma clear_loop_stream n : forall idx s s', clear_loop n idx s = Ok s' -> stream s' = stream s.
Proof.
  induction n as [|n IH]; intros idx s s'; cbn [clear_loop]; [by intros [= <-]|]. intros (o & _ & H)%bind_Ok.
  destruct o as [i|]; [|by apply IH in H]. apply bind_Ok in H as (s1 & (E & _)%reset_buffer_only & H). apply IH in H. by rewrite H.
Qed.

Lemma ClearBuffer_stream s s' : ClearBuffer s = Ok s' -> stream s' = stream s.
Proof.
  unfold ClearBuffer. destruct (storage s); [by intros [= <-]|]. intros (s1 & E%clear_loop_stream & [= <-])%bind_Ok. exact E.
Qed.

(** What a stream needs to answer: it answers, and stays as it is. *)
Lemma ReceiveNack_total s items now rtt16 : answers_nacks s rtt16 -> now <> 0 ->
  Forall (fun item => in_uint 16 item.1 /\ in_uint 16 item.2) items ->
  exists s' ps, RtpStreamSend.ReceiveNack s items now = Ok (s', ps) /\ send_inv s' /\ par (stream s') = par (stream s).
Proof.
  intros Ha Hnow Hall. destruct (nack_loop_spec items now rtt16 (set_nacks s (u64 (nackCount s + 1)) (nackPacketCount s)))
    as (s' & ps & qs & E & [Hinv _ _ (Hp & _) _ _ _] & _); try done.
  { destruct Ha as [I Ne C N R]. split; try done. by apply (send_inv_ext s). }
  by exists s', ps.
Qed.

Lemma input_seq_range m seq indeterminate : in_uint 16 indeterminate -> in_uint 16 (input_seq m seq indeterminate).2.
Proof.
  intros Hi. unfold input_seq. destruct (Input 16 m seq) as [m' [n|]] eqn:E; [|done]. by eapply Input_range.
Qed.

Lemma ResetScore_par s x notify now : par (ResetScore s x notify now).1 = par s.
Proof. unfold ResetScore. by destruct (negb _). Qed.

Lemma GetPayloadType_Ok p : rtp_wf p -> exists t, GetPayloadType p = Ok t.
Proof.
  intros Hwf. destruct (wf_payload p Hwf) as (H12 & Hend & _). unfold HeaderSize in H12. pose proof (wf_lengths p Hwf) as (? & ? & ?).
  unfold GetPayloadType, get_bits. destruct (get1_in_bounds (mem p) 1) as [b ->]; [lia|]. ostep. by eexists.
Qed.

(** ** A packet is sent and comes back *)

(** [q] is [p] with the fields of a consumer: same bytes but for those. *)
Definition sent_as (p : rtp_packet) (seq ts ssrc : Z) (q : rtp_packet) : Prop :=
  exists m, q = set_mem p m /\ rewritten (mem p) seq ts ssrc m.

Lemma sent_as_reads p seq ts ssrc q : rtp_wf p -> in_uint 16 seq -> in_uint 32 ts -> in_uint 32 ssrc -> sent_as p seq ts ssrc q ->
  rtp_wf q /\ GetSequenceNumber q = Ok seq /\ GetTimestamp q = Ok ts /\ GetSsrc q = Ok ssrc /\
  payload_bytes q = payload_bytes p /\ (forall i, ~ (2 <= i < 12) -> get1 (mem q) i = get1 (mem p) i).
Proof.
  intros Hwf H1 H2 H3 (m & -> & Hw). destruct (rewritten_reads _ _ _ _ _ Hw (wf_bytes p Hwf)) as (E1 & E2 & E3).
  rewrite !wrap_small in E1, E2, E3 by done. split; [by eapply rewritten_wf|].
  pose proof (rewritten_frame _ _ _ _ _ Hw) as F. destruct (wf_payload p Hwf) as (H12 & _ & _). unfold HeaderSize in H12.
  split; [done|]. split; [done|]. split; [done|]. split; [|exact F].
  apply slice_ext; [apply (rewritten_length _ _ _ _ _ Hw)|]. intros i Hi. apply F. cbn [payload set_mem] in Hi. lia.
Qed.

Lemma set_mem_twice p m m' : set_mem (set_mem p m) m' = set_mem p m'.
Proof. done. Qed.

Lemma forward_spec now newSsrc seq timestamp s p ts0 : rtp_wf p -> send_inv s -> GetTimestamp p = Ok ts0 ->
  exists s' q b, forward now newSsrc seq timestamp s p = Ok (s', p, if b : bool then [SendRtp q] else []) /\
    sent_as p seq (default ts0 timestamp) newSsrc q /\ RtpStreamSend.ReceivePacket s q now = Ok (s', b) /\
    send_inv s' /\ par (stream s') = par (stream s) /\ rtt s' = rtt s /\ length (storage s') = length (storage s).
Proof.
  intros Hwf Hinv H2. destruct (header_read p Hwf) as (seq1 & ts1 & ssrc1 & E1 & E2 & E3 & _ & _ & _ & Hw0).
  assert (ts0 = ts1) as -> by congruence.
  unfold forward. rewrite E1, E2, E3. ostep. unfold SetSsrc, SetSequenceNumber, SetTimestamp.
  destruct (set_ssrc_rewritten _ _ _ _ _ Hw0 newSsrc) as (m1 & -> & W1). ostep.
  destruct (set_seq_rewritten _ _ _ _ _ W1 seq) as (m2 & Es & W2). cbn [mem set_mem]. rewrite Es. ostep.
  assert (exists m3, rewritten (mem p) seq (default ts1 timestamp) newSsrc m3 /\
    (match timestamp with Some ts => m ← Set4Bytes m2 4 ts; Ok (set_mem (set_mem (set_mem p m1) m2) m)
      | None => Ok (set_mem (set_mem p m1) m2) end) = Ok (set_mem p m3)) as (m3 & W3 & E).
  { destruct timestamp as [ts|]; [|by exists m2]. destruct (set_ts_rewritten _ _ _ _ _ W2 ts) as (m3 & -> & W3). by exists m3. }
  cbn [mem set_mem] in E |- *. rewrite E. ostep.
  destruct (Send_ReceivePacket_total s (set_mem p m3) now Hinv) as (s' & b & ER & Hs); [by eapply rewritten_wf|]. rewrite ER. ostep.
  cbn [mem set_mem]. destruct (set_ssrc_rewritten _ _ _ _ _ W3 ssrc1) as (m4 & -> & W4). ostep. cbn [mem set_mem].
  destruct (set_seq_rewritten _ _ _ _ _ W4 seq1) as (m5 & -> & W5). ostep.
  assert ((match timestamp with Some _ => m ← Set4Bytes m5 4 ts1; Ok (set_mem (set_mem (set_mem (set_mem p m3) m4) m5) m)
      | None => Ok (set_mem (set_mem (set_mem p m3) m4) m5) end) = Ok p) as E'.
  { destruct timestamp as [ts|].
    - destruct (set_ts_rewritten _ _ _ _ _ W5 ts1) as (m6 & -> & W6). ostep. rewrite (rewritten_inj _ _ _ _ _ _ W6 Hw0). by destruct p.
    - cbn [default] in W5. rewrite (rewritten_inj _ _ _ _ _ _ W5 Hw0). by destruct p. }
  cbn [mem set_mem] in E' |- *. rewrite E'. ostep. exists s', (set_mem p m3), b. split; [done|]. split; [by exists m3|]. split; [done|exact Hs].
Qed.

(** ** Packets with their descriptor *)

(** A packet of the producer, with its descriptor. *)
Definition described (codec : option codec) (p : video_packet) : Prop := handled p /\ handler_of codec (vp_handler p).

Lemma processed_reads p p' : handled p -> processed p p' ->
  GetSequenceNumber (vp_packet p') = GetSequenceNumber (vp_packet p) /\ GetTimestamp (vp_packet p') = GetTimestamp (vp_packet p).
Proof.
  intros [Hwf _] (_ & _ & m & E & F). destruct (wf_payload _ Hwf) as (H12 & _ & _). unfold HeaderSize in H12.
  unfold GetSequenceNumber, GetTimestamp. rewrite E. cbn [mem set_mem]. unfold Get4Bytes, Get2Bytes.
  split; rewrite !F by lia; done.
Qed.
