(* ===== verification/ConsumerProps.v ===== *)
(** The other kinds of consumers: what they send of a packet, and what is left of
    it for those that come after. *)

From S2P Require Export ConsumerFacts.
From S2P Require SimpleConsumer PipeConsumer SvcConsumer.

(** What is sent of the packet [p], whose payload became that of [p']: the SSRC of
    the consumer, the number its manager gives, and the rest as it is. *)
Definition renumbered_as (newSsrc : Z) (m m' : seq_manager) (indeterminate : Z) (p p' q : rtp_packet) : Prop :=
  exists manager seq, GetSequenceNumber p = Ok seq /\ (manager = m \/ manager = sync_seq m seq) /\
    m' = (input_seq manager seq indeterminate).1 /\ GetSequenceNumber q = Ok (input_seq manager seq indeterminate).2 /\
    GetSsrc q = Ok newSsrc /\ GetTimestamp q = GetTimestamp p /\ rtp_wf q /\ payload_bytes q = payload_bytes p'.

Lemma sent_renumbered newSsrc m m' manager indeterminate p p' seq ts q :
  in_uint 16 indeterminate -> in_uint 32 newSsrc -> rtp_wf p' ->
  GetSequenceNumber p = Ok seq -> GetTimestamp p = Ok ts -> in_uint 32 ts ->
  (manager = m \/ manager = sync_seq m seq) -> m' = (input_seq manager seq indeterminate).1 ->
  sent_as p' (input_seq manager seq indeterminate).2 ts newSsrc q -> renumbered_as newSsrc m m' indeterminate p p' q.
Proof.
  intros Hi Hs Hwf Es Et Ht Hm Hm' Hq. exists manager, seq. split; [done|]. split; [done|]. split; [done|].
  destruct (sent_as_reads _ _ _ _ _ Hwf (input_seq_range _ _ _ Hi) Ht Hs Hq) as (Hwfq & E1 & E2 & E3 & E4 & _).
  split; [done|]. split; [done|]. split; [congruence|]. by split.
Qed.

Lemma elem_of_sent (b : bool) q q' : SendRtp q ∈ (if b then [SendRtp q'] else []) ++ [] -> q = q'.
Proof. rewrite app_nil_r. destruct b; [|by intros ?%not_elem_of_nil]. by intros [= ->]%list_elem_of_singleton. Qed.

(** * Simple consumers *)

Section simple.
Import SimpleConsumer.
Context {S : Type} `{ProducerStream S}.

Lemma simple_SendRtpPacket (c : simple_consumer S) now indeterminate p :
  send_inv (rtpStream c) -> rtp_wf (vp_packet p) -> in_uint 16 indeterminate -> in_uint 32 (ssrc (si_base c)) ->
  does (SendRtpPacket now indeterminate p) (fun r c' es => r = p /\ send_inv (rtpStream c') /\
    forall q, SendRtp q ∈ es ->
      renumbered_as (ssrc (si_base c)) (rtpSeqManager c) (rtpSeqManager c') indeterminate (vp_packet p) (vp_packet p) q) c.
Proof.
  intros Hinv Hwf Hind Hssrc.
  assert (does (mret p) (fun r c' es => r = p /\ send_inv (rtpStream c') /\ forall q, SendRtp q ∈ es ->
    renumbered_as (ssrc (si_base c)) (rtpSeqManager c) (rtpSeqManager c') indeterminate (vp_packet p) (vp_packet p) q) c) as Hret.
  { apply does_ret. split; [done|]. split; [done|]. by intros q ?%not_elem_of_nil. }
  unfold SendRtpPacket. repeat does_step. destruct (si_IsActive c); cbn [negb]; [|exact Hret].
  destruct (GetPayloadType_Ok _ Hwf) as [t Ept]. repeat does_step. does_by Ept.
  destruct (supported _ _); cbn [negb]; [|exact Hret]. destruct (syncRequired c && _ && _); [exact Hret|].
  destruct (wf_reads _ Hwf) as (seq & ts & Es & _ & Et & Ht). repeat does_step. does_by Es.
  set (manager := if syncRequired c then _ else _). destruct (input_seq manager seq indeterminate) as [m' n] eqn:Ei. repeat does_step.
  destruct (forward_spec now (ssrc (si_base c)) n None (rtpStream c) (vp_packet p) ts Hwf Hinv Et) as (st & q & b & E & Hq & _ & Hst & _).
  does_by E. split; [by destruct p|]. split; [done|]. intros q' ->%elem_of_sent.
  apply (sent_renumbered _ _ _ manager _ _ _ seq ts); rewrite ?Ei; try done. unfold manager. destruct (syncRequired c); [by right|by left].
Qed.
End simple.

(** * Pipe consumers *)

Section pipe.
Import PipeConsumer.

(** Every SSRC of the producer has its stream. *)
Record pipe_inv (c : pipe_consumer) : Prop := {
  pi_streams : forall mappedSsrc newSsrc, mapMappedSsrcSsrc c !! mappedSsrc = Some newSsrc ->
    in_uint 32 newSsrc /\ exists i s, mapSsrcRtpStream c !! newSsrc = Some i /\ rtpStreams c !! i = Some s;
  pi_send : forall i s, rtpStreams c !! i = Some s -> send_inv (pp_rtpStream s)
}.

Lemma pipe_inv_set c i st b m : pipe_inv c -> send_inv st ->
  pipe_inv (set_rtpStreams c (<[i := PipeStream st b m]> (rtpStreams c))).
Proof.
  intros [H1 H2] Hst. split; cbn.
  - intros ms ns Hm. destruct (H1 ms ns Hm) as (Hr & j & s & Hj & Hs). split; [done|]. destruct (decide (i = j)) as [->|Hne].
    + eexists j, _. split; [done|]. apply list_lookup_insert_eq. by eapply lookup_lt_Some.
    + exists j, s. split; [done|]. by rewrite list_lookup_insert_ne.
  - intros j s [(<- & <- & _)|[_ ?]]%list_lookup_insert_Some; [done|by eapply H2].
Qed.

Lemma pipe_SendRtpPacket c now indeterminate p mappedSsrc newSsrc :
  pipe_inv c -> rtp_wf (vp_packet p) -> in_uint 16 indeterminate ->
  GetSsrc (vp_packet p) = Ok mappedSsrc -> mapMappedSsrcSsrc c !! mappedSsrc = Some newSsrc ->
  does (SendRtpPacket now indeterminate p) (fun r c' es => r = p /\ pipe_inv c' /\
    forall q, SendRtp q ∈ es -> exists i s s', rtpStreams c !! i = Some s /\ rtpStreams c' = <[i := s']> (rtpStreams c) /\
      renumbered_as newSsrc (pp_rtpSeqManager s) (pp_rtpSeqManager s') indeterminate (vp_packet p) (vp_packet p) q) c.
Proof.
  intros Hc Hwf Hind Hssrc Hmap.
  assert (does (mret p) (fun r c' es => r = p /\ pipe_inv c' /\ forall q, SendRtp q ∈ es ->
    exists i s s', rtpStreams c !! i = Some s /\ rtpStreams c' = <[i := s']> (rtpStreams c) /\
      renumbered_as newSsrc (pp_rtpSeqManager s) (pp_rtpSeqManager s') indeterminate (vp_packet p) (vp_packet p) q) c) as Hret.
  { apply does_ret. split; [done|]. split; [done|]. by intros q ?%not_elem_of_nil. }
  destruct (pi_streams _ Hc _ _ Hmap) as (Hr & i & s & Hi & Hs).
  unfold SendRtpPacket. repeat does_step. destruct (pi_IsActive c); cbn [negb]; [|exact Hret].
  destruct (GetPayloadType_Ok _ Hwf) as [t Ept]. repeat does_step. does_by Ept.
  destruct (supported _ _); cbn [negb]; [|exact Hret]. repeat does_step. does_by Hssrc. rewrite Hmap. does_by (eq_refl (Ok newSsrc)).
  assert (stream_of c newSsrc = Ok (i, s)) as Eo by (unfold stream_of; by rewrite Hi, Hs). does_by Eo.
  destruct (pp_syncRequired s && _ && _); [exact Hret|].
  destruct (wf_reads _ Hwf) as (seq & ts & Es & _ & Et & Ht). repeat does_step. does_by Es.
  set (manager := if pp_syncRequired s then _ else _). destruct (input_seq manager seq indeterminate) as [m' n] eqn:Ei. repeat does_step.
  destruct (forward_spec now newSsrc n None (pp_rtpStream s) (vp_packet p) ts Hwf (pi_send _ Hc _ _ Hs) Et) as (st & q & b & E & Hq & _ & Hst & _).
  does_by E. unfold set_pipe_stream. repeat does_step. split; [by destruct p|]. split; [by apply pipe_inv_set|].
  intros q' ->%elem_of_sent. eexists i, s, _. split; [done|]. split; [done|].
  apply (sent_renumbered _ _ _ manager _ _ _ seq ts); rewrite ?Ei; try done. unfold manager. destruct (pp_syncRequired s); [by right|by left].
Qed.
End pipe.

(** * SVC consumers *)

Section svc.
Import SvcConsumer.
Context {S : Type} `{ProducerStream S}.

(** The context is that of VP9, and its layers are set together. *)
Record svc_inv (c : svc_consumer S) : Prop := {
  sv_kind : match encodingContext c with CtxVP9 _ => True | _ => False end;
  sv_targets : -1 <= Codecs.targetSpatialLayer (ctx c) /\ -1 <= Codecs.targetTemporalLayer (ctx c);
  sv_send : send_inv (rtpStream c)
}.

Lemma svc_inv_set c c' x : svc_inv c -> context_of (Some VP9) x -> encodingContext c' = x -> rtpStream c' = rtpStream c -> svc_inv c'.
Proof.
  intros [_ _ Hs] Hx E1 E2. destruct x as [x|x|x]; try done. destruct Hx. split; rewrite ?E1, ?E2; try done.
  unfold ctx. rewrite E1. cbn. lia.
Qed.

Lemma svc_send_restored c m now indeterminate p p' r : svc_inv c -> rtp_wf (vp_packet p) -> processed p p' -> RestorePayload p' = Ok r ->
  handled p -> in_uint 16 indeterminate -> in_uint 32 (ssrc (sv_base c)) ->
  (rtpSeqManager c = m \/ exists seq, GetSequenceNumber (vp_packet p) = Ok seq /\ rtpSeqManager c = sync_seq m seq) ->
  does (send_restored now indeterminate p') (fun r' c' es => r' = r /\ svc_inv c' /\
    forall q, SendRtp q ∈ es ->
      renumbered_as (ssrc (sv_base c)) m (rtpSeqManager c') indeterminate (vp_packet p) (vp_packet p') q) c.
Proof.
  intros Hc Hwf Hp Hr Hh Hind Hssrc Hm. unfold send_restored. destruct (processed_reads _ _ Hh Hp) as [Es Et].
  destruct (wf_reads _ Hwf) as (seq & ts & Es' & _ & Et' & Ht). rewrite Es' in Es. rewrite Et' in Et.
  does_by Es. destruct (input_seq (rtpSeqManager c) seq indeterminate) as [m' n] eqn:Ei. repeat does_step.
  destruct (forward_spec now (ssrc (sv_base c)) n None (rtpStream c) (vp_packet p') ts (proj1 Hp) (sv_send _ Hc) Et)
    as (st & q & b & E & Hq & _ & Hst & _).
  does_by E. assert (with_packet p' (vp_packet p') = p') as -> by by destruct p'. does_by Hr. split; [done|].
  split; [destruct Hc; by split|]. intros q' ->%elem_of_sent.
  apply (sent_renumbered _ _ _ (rtpSeqManager c) _ _ _ seq ts); rewrite ?Ei; try done; [apply Hp|].
  destruct Hm as [?|(seq' & E' & ?)]; [by left|right]. congruence.
Qed.

(** The layers are told when they change; nothing is sent. *)
Lemma svc_tell (c : svc_consumer S) (b : bool) :
  does (if b then EmitLayersChange else skip) (fun _ c' es => c' = c /\ forall q, SendRtp q ∉ es) c.
Proof.
  destruct b; unfold EmitLayersChange; repeat does_step; (split; [done|]); intros q; [by intros [=]%list_elem_of_singleton|].
  by intros ?%not_elem_of_nil.
Qed.

Lemma svc_sync (c : svc_consumer S) (seq : Z) (b : bool) :
  does (E:=consumer_event) (if b then modify (fun c => set_sync c false (sync_seq (rtpSeqManager c) seq)) else skip)
    (fun _ c' es => es = [] /\ sv_base c' = sv_base c /\ encodingContext c' = encodingContext c /\ rtpStream c' = rtpStream c /\
       rtpSeqManager c' = if b then sync_seq (rtpSeqManager c) seq else rtpSeqManager c) c.
Proof. by destruct b; repeat does_step. Qed.

Lemma svc_SendRtpPacket c now indeterminate p :
  svc_inv c -> described (Some VP9) p -> in_uint 16 indeterminate -> in_uint 32 (ssrc (sv_base c)) ->
  does (SendRtpPacket now indeterminate p) (fun r c' es => given_back (Some VP9) p r /\ svc_inv c' /\
    forall q, SendRtp q ∈ es -> exists p', processed p p' /\
      renumbered_as (ssrc (sv_base c)) (rtpSeqManager c) (rtpSeqManager c') indeterminate (vp_packet p) (vp_packet p') q) c.
Proof.
  intros Hc [Hh Hof] Hind Hssrc. pose proof (proj1 Hh) as Hwf.
  assert (does (mret p) (fun r c' es => given_back (Some VP9) p r /\ svc_inv c' /\
    forall q, SendRtp q ∈ es -> exists p', processed p p' /\
      renumbered_as (ssrc (sv_base c)) (rtpSeqManager c) (rtpSeqManager c') indeterminate (vp_packet p) (vp_packet p') q) c) as Hret.
  { apply does_ret. split; [by split; [|left]|]. split; [done|]. by intros q ?%not_elem_of_nil. }
  unfold SendRtpPacket. repeat does_step. destruct (sv_IsActive c); cbn [negb]; [|exact Hret].
  destruct (_ || _) eqn:Etargets; [exact Hret|]. apply orb_false_iff in Etargets as [E1%Z.eqb_neq E2%Z.eqb_neq].
  destruct (GetPayloadType_Ok _ Hwf) as [t Ept]. repeat does_step. does_by Ept.
  destruct (supported _ _); cbn [negb]; [|exact Hret]. destruct (syncRequired c && _); [exact Hret|].
  destruct (wf_reads _ Hwf) as (seq & ts & Es & _ & Et & Ht). repeat does_step. does_by Es.
  assert (context_of (Some VP9) (encodingContext c)) as Hx.
  { destruct Hc as [Hk Ht' _]. unfold ctx in *. destruct (encodingContext c); try done. cbn in *. lia. }
  destruct (ProcessPayload_spec (Some VP9) p _ Hh Hof Hx) as (p' & x & ok & r & E & Hx' & Hno & Hpr & Er & Hb).
  eapply does_weaken; [apply svc_sync|]. intros [] c0 ? (-> & Eb & Ec & Est & Em). does_by E.
  assert (svc_inv (set_encodingContext c0 x)) as Hc0 by (apply (svc_inv_set c _ x); done).
  destruct ok; cbn [negb].
  - repeat does_step. eapply does_weaken; [apply svc_tell|]. intros [] ? es1 [-> Hes].
    eapply does_weaken; [apply (svc_send_restored _ (rtpSeqManager c) now indeterminate p p' r); try done; cbn; rewrite ?Eb, ?Em; try done|].
    { destruct (syncRequired c); [right; by exists seq|by left]. }
    intros r' c' es (-> & Hc' & Hq). split; [done|]. split; [done|]. intros q [?%Hes|Hin]%elem_of_app; [done|]. exists p'. split; [done|].
    specialize (Hq q Hin). cbn in Hq. by rewrite Eb in Hq.
  - repeat does_step. rewrite Hno by done. split; [by split; [|left]|]. split; [destruct Hc0; by split|]. by intros q ?%not_elem_of_nil.
Qed.
End svc.

(** C11: what the other consumers do with a packet.  A simple consumer and each
    stream of a pipe consumer send it with their SSRC and the number of their
    manager, and give it back as it was; so does an SVC consumer, of the layers it
    lets through, but for the marker it may have set, which it leaves set.  None
    of them fails. *)
Theorem consumers_forward :
  (forall S (PS : ProducerStream S) (c : SimpleConsumer.simple_consumer S) now indeterminate p,
     send_inv (SimpleConsumer.rtpStream c) -> rtp_wf (vp_packet p) -> in_uint 16 indeterminate -> in_uint 32 (ssrc (SimpleConsumer.si_base c)) ->
     exists c' es, SimpleConsumer.SendRtpPacket now indeterminate p c = Ok (p, c', es) /\ send_inv (SimpleConsumer.rtpStream c') /\
       forall q, SendRtp q ∈ es -> renumbered_as (ssrc (SimpleConsumer.si_base c)) (SimpleConsumer.rtpSeqManager c)
         (SimpleConsumer.rtpSeqManager c') indeterminate (vp_packet p) (vp_packet p) q) /\
  (forall c now indeterminate p mappedSsrc newSsrc,
     pipe_inv c -> rtp_wf (vp_packet p) -> in_uint 16 indeterminate ->
     GetSsrc (vp_packet p) = Ok mappedSsrc -> PipeConsumer.mapMappedSsrcSsrc c !! mappedSsrc = Some newSsrc ->
     exists c' es, PipeConsumer.SendRtpPacket now indeterminate p c = Ok (p, c', es) /\ pipe_inv c' /\
       forall q, SendRtp q ∈ es -> exists i s s', PipeConsumer.rtpStreams c !! i = Some s /\
         PipeConsumer.rtpStreams c' = <[i := s']> (PipeConsumer.rtpStreams c) /\
         renumbered_as newSsrc (PipeConsumer.pp_rtpSeqManager s) (PipeConsumer.pp_rtpSeqManager s') indeterminate
           (vp_packet p) (vp_packet p) q) /\
  (forall S (PS : ProducerStream S) (c : SvcConsumer.svc_consumer S) now indeterminate p,
     svc_inv c -> described (Some VP9) p -> in_uint 16 indeterminate -> in_uint 32 (ssrc (SvcConsumer.sv_base c)) ->
     exists r c' es, SvcConsumer.SendRtpPacket now indeterminate p c = Ok (r, c', es) /\ svc_inv c' /\
       (vp_packet r = vp_packet p \/ SetMarker (vp_packet p) true = Ok (vp_packet r)) /\
       forall q, SendRtp q ∈ es -> exists p', processed p p' /\
         renumbered_as (ssrc (SvcConsumer.sv_base c)) (SvcConsumer.rtpSeqManager c) (SvcConsumer.rtpSeqManager c') indeterminate
           (vp_packet p) (vp_packet p') q).
Proof.
  split; [|split].
  - intros S PS c now indeterminate p H1 H2 H3 H4.
    destruct (simple_SendRtpPacket c now indeterminate p H1 H2 H3 H4) as (r & c' & es & E & -> & ? & ?). by exists c', es.
  - intros c now indeterminate p ms ns H1 H2 H3 H4 H5.
    destruct (pipe_SendRtpPacket c now indeterminate p ms ns H1 H2 H3 H4 H5) as (r & c' & es & E & -> & ? & ?). by exists c', es.
  - intros S PS c now indeterminate p H1 H2 H3 H4.
    destruct (svc_SendRtpPacket c now indeterminate p H1 H2 H3 H4) as (r & c' & es & E & [_ Hb] & ? & ?). exists r, c', es.
    split; [done|]. split; [done|]. split; [|done]. destruct Hb as [?|[_ ?]]; [by left|by right].
Qed.

(** * Concrete consumers *)

Definition pipe_base : consumer_base := ConsumerBase true 0 0 1 1 [1000] [96] true false 1 true false false false.

Definition sample_pipe : PipeConsumer.pipe_consumer :=
  PipeConsumer.PipeConsumer pipe_base [PipeConsumer.PipeStream (new_RtpStreamSend (RtpStream.Params 7000 90000 0 0 false) 0 0) true seq_manager_init]
    (<[1000 := 7000]> ∅) (<[7000 := 0%nat]> ∅) true.

Lemma sample_pipe_inv : pipe_inv sample_pipe.
Proof.
  split.
  - intros ms ns Hl. change (<[1000 := 7000]> (∅ : gmap Z Z) !! ms = Some ns) in Hl. apply lookup_insert_Some in Hl as [[_ <-]|[_ Hn]]; [|by rewrite lookup_empty in Hn]. split; [by vm_compute|]. eexists 0%nat, _. by split.
  - intros [|i] s Hs; [|by destruct i]. injection Hs as <-. by apply new_send_inv.
Qed.

Lemma consumers_forward_witness :
  exists c' es, PipeConsumer.SendRtpPacket 5 0 vp8_handled sample_pipe = Ok (vp8_handled, c', es) /\ pipe_inv c' /\
    exists q, es = [SendRtp q] /\ GetSsrc q = Ok 7000.
Proof.
  assert (rtp_wf (vp_packet vp8_handled)) as Hwf.
  { destruct (ProcessRtpPacket_handled (Some VP8) vp8_packet vp8_packet_arrived) as (q & E & [Hq _] & _).
    assert (ProcessRtpPacket (Some VP8) vp8_packet = Ok vp8_handled) as E' by by vm_compute. congruence. }
  destruct (proj1 (proj2 consumers_forward) sample_pipe 5 0 vp8_handled 1000 7000 sample_pipe_inv Hwf)
    as (c' & es & E & Hc' & _); [by vm_compute|vm_compute; reflexivity..|]. exists c', es. split; [exact E|]. split; [exact Hc'|].
  vm_compute in E. injection E as _ <-. eexists. split; [reflexivity|vm_compute; reflexivity].
Defined.
