(* ===== verification/SimulcastFacts.v ===== *)
(** What a simulcast consumer keeps true of itself, whatever it is told, and
    what it sends.

    What a simulcast consumer sends: each packet with its own SSRC, number and
    timestamp, the packet of the producer being left as it was. *)

From S2P Require Export ConsumerFacts SimulcastConsumer.

Section facts.
Context {S : Type} `{ProducerStreamLaws S}.

Notation consumer := (simulcast_consumer S).

(** * Layers that can be sent *)

Definition stream_is (streams : list (option S)) (layer : Z) (s : S) : Prop :=
  0 <= layer /\ streams !! Z.to_nat layer = Some (Some s).

Definition exists_at (streams : list (option S)) (layer : Z) : Prop := exists s, stream_is streams layer s.

(** A sender report was received for the stream of the layer. *)
Definition reported (streams : list (option S)) (layer : Z) : Prop :=
  exists s, stream_is streams layer s /\ GetSenderReportNtpMs s <> 0.

(** The stream is there, and its timestamps can be compared to those of reference. *)
Definition switchable (streams : list (option S)) (reference layer : Z) : Prop :=
  exists_at streams layer /\ (reference = -1 \/ layer = reference \/ (reported streams reference /\ reported streams layer)).

(** The layers of a consumer: its preferred ones, those it tries, those it wants
    and those it sends. *)
Record layers_inv (streams : list (option S)) (l : layers) (ctxTemporal : Z) (managed : bool) : Prop := {
  li_preferred : 0 <= preferredTemporalLayer l;
  li_reference : tsReferenceSpatialLayer l = -1 \/ exists_at streams (tsReferenceSpatialLayer l);
  li_provisional : (provisionalTargetSpatialLayer l = -1 /\ provisionalTargetTemporalLayer l = -1) \/
    (managed = true /\ switchable streams (tsReferenceSpatialLayer l) (provisionalTargetSpatialLayer l) /\
     exists s, stream_is streams (provisionalTargetSpatialLayer l) s /\ 0 <= provisionalTargetTemporalLayer l < GetTemporalLayers s);
  li_target : (targetSpatialLayer l = -1 /\ targetTemporalLayer l = -1) \/
    (tsReferenceSpatialLayer l <> -1 /\ switchable streams (tsReferenceSpatialLayer l) (targetSpatialLayer l) /\
     0 <= targetTemporalLayer l);
  li_current : currentSpatialLayer l = -1 \/
    (targetSpatialLayer l <> -1 /\ switchable streams (tsReferenceSpatialLayer l) (currentSpatialLayer l) /\ 0 <= ctxTemporal)
}.

(** The context of a simulcast consumer is that of its codec. *)
Definition context_kind (codec : option codec) (x : codec_context) : Prop :=
  match codec, x with
  | Some VP8, CtxVP8 _ | Some H264, CtxH26x _ => True
  | _, _ => False
  end.

Definition ctx_temporal (c : consumer) : Z := Codecs.targetTemporalLayer (ctx_base (encodingContext c)).

Record sm_inv (codec : option codec) (c : consumer) : Prop := {
  sm_streams : length (producerRtpStreams c) = length (mappedSsrcs (sm_base c));
  sm_mapped : forall mappedSsrc layer, mapMappedSsrcSpatialLayer c !! mappedSsrc = Some layer ->
    0 <= layer < Z.of_nat (length (producerRtpStreams c));
  sm_spatial : forall i s, producerRtpStreams c !! i = Some (Some s) -> 1 <= GetSpatialLayers s;
  sm_scores : scoresSet (sm_base c) = true;
  sm_temporal : 1 <= streamTemporalLayers (sm_base c) /\ 1 <= streamSpatialLayers (sm_base c);
  sm_kind : context_kind codec (encodingContext c);
  sm_layers_inv : layers_inv (producerRtpStreams c) (sm_layers c) (ctx_temporal c) (externallyManagedBitrate (sm_base c));
  sm_send : send_inv (rtpStream c);
  sm_clock : 0 <= par_clockRate (par (stream (rtpStream c))) < 2 ^ 20;
  sm_ntp : forall i s, producerRtpStreams c !! i = Some (Some s) -> 0 <= GetSenderReportNtpMs s < 2 ^ 43
}.

(** ** Reading streams *)

Lemma stream_is_range streams layer s : stream_is streams layer s -> 0 <= layer < Z.of_nat (length streams).
Proof. intros [Hge Hl]. apply lookup_lt_Some in Hl. lia. Qed.

Lemma stream_is_inj streams layer s s' : stream_is streams layer s -> stream_is streams layer s' -> s = s'.
Proof. intros [_ H1] [_ H2]. congruence. Qed.

Lemma exists_at_not_none streams layer : exists_at streams layer -> layer <> -1.
Proof. intros (s & Hs & _). lia. Qed.

Lemma stream_at_is c layer s : stream_is (producerRtpStreams c) layer s -> stream_at c layer = Ok (Some s).
Proof.
  intros Hs. pose proof (stream_is_range _ _ _ Hs). unfold stream_at. rewrite (proj2 (andb_true_iff _ _)) by (split; lia).
  by rewrite (proj2 Hs).
Qed.

(** A pointer is null when the layer is not set. *)
Definition points_to (streams : list (option S)) (layer : Z) (o : option S) : Prop :=
  match o with Some s => stream_is streams layer s | None => layer = -1 end.

Lemma pointer_spec c layer : layer = -1 \/ exists_at (producerRtpStreams c) layer ->
  exists o, (if layer =? -1 then Ok None else stream_at c layer) = Ok o /\ points_to (producerRtpStreams c) layer o.
Proof.
  intros [->|(s & Hs)]; [by exists None|]. exists (Some s). split; [|done]. pose proof (stream_is_range _ _ _ Hs).
  rewrite (proj2 (Z.eqb_neq layer (-1))) by lia. by apply stream_at_is.
Qed.

Section inv.
Context (codec : option codec) (c : consumer).
Hypothesis Hc : sm_inv codec c.

Lemma current_exists : currentSpatialLayer (sm_layers c) = -1 \/ exists_at (producerRtpStreams c) (currentSpatialLayer (sm_layers c)).
Proof. destruct (li_current _ _ _ _ (sm_layers_inv _ _ Hc)) as [->|(_ & [? _] & _)]; [by left|by right]. Qed.

Lemma target_exists : targetSpatialLayer (sm_layers c) = -1 \/ exists_at (producerRtpStreams c) (targetSpatialLayer (sm_layers c)).
Proof. destruct (li_target _ _ _ _ (sm_layers_inv _ _ Hc)) as [[-> _]|(_ & [? _] & _)]; [by left|by right]. Qed.

Lemma provisional_exists : provisionalTargetSpatialLayer (sm_layers c) = -1 \/
  exists_at (producerRtpStreams c) (provisionalTargetSpatialLayer (sm_layers c)).
Proof. destruct (li_provisional _ _ _ _ (sm_layers_inv _ _ Hc)) as [[-> _]|(_ & [? _] & _)]; [by left|by right]. Qed.

Lemma mapped_ssrc_exists layer : exists_at (producerRtpStreams c) layer -> exists ssrc, mapped_ssrc c layer = Ok ssrc.
Proof.
  intros (s & Hs%stream_is_range). unfold mapped_ssrc. rewrite (sm_streams _ _ Hc) in Hs.
  destruct (lookup_lt_is_Some_2 (mappedSsrcs (sm_base c)) (Z.to_nat layer)) as [x ->]; [lia|by exists x].
Qed.

(** ** Operations that only tell *)

(** The operation does not change the consumer, and sends no packet. *)
Definition quiet (es : list consumer_event) : Prop := forall p, SendRtp p ∉ es.

Lemma quiet_nil : quiet [].
Proof. intros p Hp. by apply not_elem_of_nil in Hp. Qed.

Lemma quiet_one e : match e with SendRtp _ => False | _ => True end -> quiet [e].
Proof. intros He p <-%list_elem_of_singleton. done. Qed.

Lemma quiet_app es es' : quiet es -> quiet es' -> quiet (es ++ es').
Proof. intros H1 H2 p [Hp|Hp]%elem_of_app; [by apply (H1 p)|by apply (H2 p)]. Qed.

Lemma EmitScore_quiet : does EmitScore (fun _ c' es => c' = c /\ quiet es) c.
Proof.
  unfold EmitScore. repeat does_step. rewrite (sm_scores _ _ Hc). does_by (eq_refl (Ok ())).
  destruct (pointer_spec c _ current_exists) as (o & E & _). does_by E. split; [done|]. by apply quiet_one.
Qed.

Lemma EmitLayersChange_quiet : does EmitLayersChange (fun _ c' es => c' = c /\ quiet es) c.
Proof. unfold EmitLayersChange. repeat does_step. split; [done|]. by apply quiet_one. Qed.

(** A key frame of a layer is asked for when its stream is there. *)
Lemma request_quiet layer o : points_to (producerRtpStreams c) layer o ->
  does (match o with
        | None => skip
        | Some _ => ssrc ← lift (mapped_ssrc c layer); emit (KeyFrameRequested ssrc)
        end) (fun _ c' es => c' = c /\ quiet es) c.
Proof.
  destruct o as [s|]; intros Hs; repeat does_step; [|split; [done|apply quiet_nil]].
  destruct (mapped_ssrc_exists _ (ex_intro _ s Hs)) as [ssrc Es]. does_by Es. split; [done|by apply quiet_one].
Qed.

Lemma RequestTarget_quiet : does RequestKeyFrameForTargetSpatialLayer (fun _ c' es => c' = c /\ quiet es) c.
Proof.
  unfold RequestKeyFrameForTargetSpatialLayer. repeat does_step. destruct (video _); repeat does_step; [|split; [done|apply quiet_nil]].
  destruct (pointer_spec c _ target_exists) as (o & E & Ho). does_by E. by apply request_quiet.
Qed.

Lemma RequestCurrent_quiet : does RequestKeyFrameForCurrentSpatialLayer (fun _ c' es => c' = c /\ quiet es) c.
Proof.
  unfold RequestKeyFrameForCurrentSpatialLayer. repeat does_step. destruct (video _); repeat does_step; [|split; [done|apply quiet_nil]].
  destruct (pointer_spec c _ current_exists) as (o & E & Ho). does_by E. by apply request_quiet.
Qed.

Lemma RequestKeyFrames_quiet : does RequestKeyFrames (fun _ c' es => c' = c /\ quiet es) c.
Proof.
  unfold RequestKeyFrames. repeat does_step. destruct (video _); repeat does_step; [|split; [done|apply quiet_nil]].
  destruct (pointer_spec c _ target_exists) as (t & E & Ht). does_by E.
  destruct (pointer_spec c _ current_exists) as (u & E' & Hu). does_by E'. does_call (request_quiet _ _ Ht).
  intros [] c' es [-> Hes]. destruct (currentSpatialLayer (sm_layers c) =? targetSpatialLayer (sm_layers c)).
  - destruct u; repeat does_step; (split; [done|]); by apply quiet_app, quiet_nil.
  - eapply does_weaken; [by apply request_quiet|]. intros [] c' es' [-> Hes']. split; [done|]. by apply quiet_app.
Qed.
End inv.

(** ** Switching *)

Lemma CanSwitch_spec c layer s : stream_is (producerRtpStreams c) layer s ->
  tsReferenceSpatialLayer (sm_layers c) = -1 \/ exists_at (producerRtpStreams c) (tsReferenceSpatialLayer (sm_layers c)) ->
  exists b, CanSwitchToSpatialLayer c layer = Ok b /\
    (b = true -> switchable (producerRtpStreams c) (tsReferenceSpatialLayer (sm_layers c)) layer).
Proof.
  intros Hs Href. unfold CanSwitchToSpatialLayer. rewrite (stream_at_is _ _ _ Hs). ostep. cbv zeta.
  destruct (tsReferenceSpatialLayer (sm_layers c) =? -1) eqn:E1; cbn [orb].
  { exists true. split; [done|]. intros _. split; [by exists s|]. left. lia. }
  destruct (layer =? tsReferenceSpatialLayer (sm_layers c)) eqn:E2.
  { exists true. split; [done|]. intros _. split; [by exists s|]. right. left. lia. }
  destruct Href as [Href|(r & Hr)]; [lia|]. unfold GetProducerTsReferenceRtpStream. rewrite E1, (stream_at_is _ _ _ Hr). ostep. cbn [pointed]. ostep.
  eexists. split; [done|]. intros [H1 H2]%andb_true_iff. apply truthy_true in H1, H2.
  split; [by exists s|]. right. right. split; by eexists.
Qed.

Lemma streams_suffix (l : list (option S)) layer s rest : 0 <= layer -> drop (Z.to_nat layer) l = s :: rest ->
  l !! Z.to_nat layer = Some s /\ drop (Z.to_nat (layer + 1)) l = rest.
Proof.
  intros Hl Hd. split.
  - rewrite <- (Nat.add_0_r (Z.to_nat layer)), <- lookup_drop, Hd. done.
  - replace (Z.to_nat (layer + 1)) with (Z.to_nat layer + 1)%nat by lia. by rewrite <- drop_drop, Hd.
Qed.

Section layers.
Context (codec : option codec) (c : consumer).
Hypothesis Hc : sm_inv codec c.
Let streams := producerRtpStreams c.
Let reference := tsReferenceSpatialLayer (sm_layers c).

Lemma recalculate_loop_spec now rest : forall layer newTarget maxScore, 0 <= layer -> drop (Z.to_nat layer) streams = rest ->
  newTarget = -1 \/ switchable streams reference newTarget ->
  exists r, recalculate_loop c now layer rest newTarget maxScore = Ok r /\ (r = -1 \/ switchable streams reference r).
Proof.
  induction rest as [|s rest IH]; intros layer newTarget maxScore Hl Hd Ht; [by exists newTarget|].
  destruct (streams_suffix _ _ _ _ Hl Hd) as [Hs Hd']. cbn [recalculate_loop]. cbv zeta.
  assert (forall newTarget maxScore, newTarget = -1 \/ switchable streams reference newTarget ->
    exists r, recalculate_loop c now (layer + 1) rest newTarget maxScore = Ok r /\ (r = -1 \/ switchable streams reference r)) as Hnext
    by (intros; apply IH; done || lia).
  destruct (_ && _ && _); [by apply Hnext|]. destruct s as [s|]; [|by apply Hnext].
  destruct (GetScore s =? 0); [by apply Hnext|]. cbn [pointed]. ostep. destruct (_ && _ && _); [by apply Hnext|].
  destruct (CanSwitch_spec c layer s) as (b & -> & Hb); [by split|apply (li_reference _ _ _ _ (sm_layers_inv _ _ Hc))|]. ostep.
  destruct b; cbn [negb]; [|by apply Hnext]. specialize (Hb eq_refl).
  destruct ((_ <? _) && _); [by apply Hnext|]. destruct ((_ <=? _) && _); [|by apply Hnext; right]. exists layer. split; [done|by right].
Qed.

Lemma Recalculate_spec now : exists spatial temporal changed, RecalculateTargetLayers c now = Ok (spatial, temporal, changed) /\
  ((spatial = -1 /\ temporal = -1) \/ (switchable streams reference spatial /\ 0 <= temporal)).
Proof.
  unfold RecalculateTargetLayers. destruct (recalculate_loop_spec now streams 0 (-1) 0) as (r & E & Hr); [done|done|by left|].
  unfold streams in E at 1. rewrite E. ostep. eexists _, _, _. split; [done|].
  pose proof (sm_temporal _ _ Hc) as [Ht _]. pose proof (li_preferred _ _ _ _ (sm_layers_inv _ _ Hc)) as Hp.
  destruct Hr as [->|Hr]; [by left|]. right. split; [done|]. pose proof (exists_at_not_none _ _ (proj1 Hr)).
  rewrite (proj2 (Z.eqb_neq r (-1))) by done. destruct (_ =? _); [done|]. destruct (_ <? _); lia.
Qed.

(** The temporal layers tried: the one found is one of the stream. *)
Lemma temporal_loop_spec now layer s temporals : stream_is streams layer s ->
  Forall (fun t => 0 <= t < GetTemporalLayers s) temporals ->
  exists r, temporal_loop c now layer s temporals = Ok r /\ forall t b, r = Some (t, b) -> 0 <= t < GetTemporalLayers s /\ 0 < b.
Proof.
  intros Hs. induction temporals as [|t rest IH]; intros Ht; [by exists None|]. apply Forall_cons in Ht as [Ht Hrest].
  cbn [temporal_loop]. cbv zeta. destruct (_ && _); [by apply IH|].
  pose proof (sm_spatial _ _ Hc _ _ (proj2 Hs)) as H1. destruct (layer_bitrate s now 0 t) as (b & -> & Hb); [lia|done|]. ostep.
  assert (forall x y b1 t1 : Z, 0 <= x -> (if truthy x then Some (y, x) else None) = Some (t1, b1) -> y = t1 /\ 0 < b1) as Hsome.
  { intros x y b1 t1 Hx. destruct (truthy x) eqn:Ex; [|done]. apply truthy_true in Ex. intros [= -> ->]. lia. }
  destruct (truthy b && (t =? 0) && (-1 <? _) && _) eqn:Eb.
  - destruct (li_provisional _ _ _ _ (sm_layers_inv _ _ Hc)) as [[E _]|(_ & _ & p & Hp & Hpt)].
    { rewrite E in Eb. cbn in Eb. by rewrite !andb_false_r in Eb. }
    rewrite (stream_at_is _ _ _ Hp). ostep. cbn [pointed]. ostep. pose proof (sm_spatial _ _ Hc _ _ (proj2 Hp)).
    destruct (layer_bitrate p now 0 (provisionalTargetTemporalLayer (sm_layers c))) as (b' & -> & Hb'); [lia|done|]. ostep.
    eexists. split; [done|]. intros t1 b1 E. apply Hsome in E as [-> ?]; [done|]. unfold in_uint in *. destruct (Z.ltb_spec b' b); lia.
  - ostep. eexists. split; [done|]. intros t1 b1 E. apply Hsome in E as [-> ?]; [done|]. unfold in_uint in *. lia.
Qed.

Lemma increase_loop_spec now rest : forall layer, 0 <= layer -> drop (Z.to_nat layer) streams = rest ->
  exists r, increase_loop c now layer rest = Ok r /\ forall spatial temporal b, r = Some (spatial, temporal, b) ->
    0 < b /\ switchable streams reference spatial /\ exists s, stream_is streams spatial s /\ 0 <= temporal < GetTemporalLayers s.
Proof.
  induction rest as [|s rest IH]; intros layer Hl Hd; [by exists None|].
  destruct (streams_suffix _ _ _ _ Hl Hd) as [Hs Hd']. cbn [increase_loop]. cbv zeta.
  specialize (IH (layer + 1) ltac:(lia) Hd'). destruct (_ && _ && _); [by exists None|]. destruct (layer <? _); [done|].
  destruct s as [s|]; [|done]. destruct (GetScore s <? _); [done|].
  assert (stream_is streams layer s) as His by done.
  assert (exists move, (if negb (layer =? provisionalTargetSpatialLayer (sm_layers c))
      && negb (provisionalTargetSpatialLayer (sm_layers c) =? -1) && (GetActiveMs s now <? StreamMinActiveMs)
    then p ← stream_at c (provisionalTargetSpatialLayer (sm_layers c)); p ← pointed p; Ok (StreamMinActiveMs <=? GetActiveMs p now)
    else Ok false) = Ok move) as (move & ->).
  { destruct (provisional_exists _ _ Hc) as [->|(p & Hp)]; [rewrite andb_false_r; by eexists|].
    destruct (_ && _ && _); [|by eexists]. rewrite (stream_at_is _ _ _ Hp). ostep. cbn [pointed]. ostep. by eexists. }
  ostep. destruct move; [done|]. destruct (CanSwitch_spec c layer s) as (b & -> & Hb); [done|apply (li_reference _ _ _ _ (sm_layers_inv _ _ Hc))|].
  ostep. destruct b; cbn [negb]; [|done].
  destruct (temporal_loop_spec now layer s (seqZ 0 (GetTemporalLayers s))) as (r & -> & Hr); [done|..].
  { apply Forall_forall. intros t Ht%elem_of_seqZ. lia. }
  ostep. destruct r as [[t b]|].
  - eexists. split; [done|]. intros ? ? ? [= <- <- <-]. destruct (Hr _ _ eq_refl) as [Ht Hpos]. split; [done|]. split; [by apply Hb|]. by exists s.
  - destruct (_ <=? _); [by exists None|done].
Qed.
End layers.

(** ** Changing layers *)

Lemma ctx_base_map f x : ctx_base (map_ctx f x) = f (ctx_base x).
Proof. by destruct x. Qed.

Lemma context_kind_map codec f x : context_kind codec x -> context_kind codec (map_ctx f x).
Proof. by destruct codec as [[]|], x. Qed.

Lemma sm_inv_change codec c c' : sm_inv codec c -> sm_base c' = sm_base c ->
  mapMappedSsrcSpatialLayer c' = mapMappedSsrcSpatialLayer c -> producerRtpStreams c' = producerRtpStreams c ->
  rtpStream c' = rtpStream c -> context_kind codec (encodingContext c') ->
  layers_inv (producerRtpStreams c) (sm_layers c') (ctx_temporal c') (externallyManagedBitrate (sm_base c)) -> sm_inv codec c'.
Proof. intros [] E1 E2 E3 E4 Hk Hl. by split; rewrite ?E1, ?E2, ?E3, ?E4. Qed.

(** The operation succeeds, keeps the invariant, and sends no packet. *)
Definition keeps {A} (codec : option codec) (m : act consumer consumer_event A) (c : consumer) : Prop :=
  does m (fun _ c' es => sm_inv codec c' /\ quiet es) c.

Lemma keeps_quiet {A} codec (m : act consumer consumer_event A) c : sm_inv codec c ->
  does m (fun _ c' es => c' = c /\ quiet es) c -> keeps codec m c.
Proof. intros Hc Hm. eapply does_weaken; [exact Hm|]. by intros a c' es [-> ?]. Qed.

Lemma keeps_bind {A B} codec (m : act consumer consumer_event A) (k : A -> act consumer consumer_event B) c :
  keeps codec m c -> (forall a c', sm_inv codec c' -> keeps codec (k a) c') -> keeps codec (m ≫= k) c.
Proof.
  intros Hm Hk. apply does_bind. eapply does_weaken; [exact Hm|]. intros a c' es [Hc' Hes].
  eapply does_weaken; [by apply Hk|]. intros b c'' es' [? ?]. split; [done|]. by apply quiet_app.
Qed.

Lemma keeps_skip codec c : sm_inv codec c -> keeps codec skip c.
Proof. intros Hc. apply does_skip. split; [done|apply quiet_nil]. Qed.

(** Members that play no part. *)
Lemma sm_inv_lastBwe codec c ms : sm_inv codec c -> sm_inv codec (set_lastBweDowngradeAtMs c ms).
Proof. intros Hc. eapply sm_inv_change; [exact Hc|done..|apply Hc|]. by destruct (sm_layers_inv _ _ Hc). Qed.

(** Layers that may be wanted. *)
Definition may_target (streams : list (option S)) (l : layers) (spatial temporal : Z) : Prop :=
  (spatial = -1 /\ temporal = -1) \/
  (switchable streams (tsReferenceSpatialLayer l) spatial /\ 0 <= temporal /\
   provisionalTargetSpatialLayer l = -1 /\ provisionalTargetTemporalLayer l = -1).

(** The layers when others are wanted. *)
Definition retargeted (l : layers) (spatial temporal : Z) : layers :=
  Layers (preferredSpatialLayer l) (preferredTemporalLayer l) (provisionalTargetSpatialLayer l) (provisionalTargetTemporalLayer l)
    spatial temporal (if spatial =? -1 then -1 else currentSpatialLayer l)
    (if negb (spatial =? -1) && (tsReferenceSpatialLayer l =? -1) then spatial else tsReferenceSpatialLayer l) (lastBweDowngradeAtMs l).

Lemma retargeted_inv streams l ctxT ctxT' managed spatial temporal : layers_inv streams l ctxT managed ->
  may_target streams l spatial temporal -> (ctxT' = ctxT \/ ctxT' = temporal \/ spatial = -1) ->
  layers_inv streams (retargeted l spatial temporal) ctxT' managed.
Proof.
  intros [Hpref Href Hprov Htgt Hcur] [[-> ->]|(Hsw & Ht & Hp1 & Hp2)] Hctx; [split; cbn; try done; by left|].
  pose proof (exists_at_not_none _ _ (proj1 Hsw)) as Hn. unfold retargeted. rewrite (proj2 (Z.eqb_neq spatial (-1))) by done. cbn [negb andb].
  destruct (tsReferenceSpatialLayer l =? -1) eqn:E.
  - apply Z.eqb_eq in E. assert (targetSpatialLayer l = -1) as Et by (destruct Htgt as [[]|[]]; done).
    split; cbn; try done; [right; apply Hsw|by left| |].
    + right. split; [done|]. split; [|done]. split; [apply Hsw|by right; left].
    + left. destruct Hcur as [?|[? _]]; done.
  - apply Z.eqb_neq in E. split; cbn; try done; [by right|]. destruct Hcur as [|(? & ? & ?)]; [by left|right].
    split; [done|]. split; [done|]. destruct Hctx as [->|[->|]]; done.
Qed.

(** Only the layers change. *)
Definition same_but_layers (c c' : consumer) : Prop :=
  sm_base c' = sm_base c /\ producerRtpStreams c' = producerRtpStreams c /\ rtpStream c' = rtpStream c.

Lemma UpdateTargetLayers_spec codec c spatial temporal : sm_inv codec c -> may_target (producerRtpStreams c) (sm_layers c) spatial temporal ->
  does (UpdateTargetLayers spatial temporal) (fun _ c' es => (sm_inv codec c' /\ quiet es) /\ same_but_layers c c') c.
Proof.
  intros Hc Hmay. pose proof (fun x => retargeted_inv _ _ _ x _ _ _ (sm_layers_inv _ _ Hc) Hmay) as Hl.
  unfold UpdateTargetLayers. destruct (spatial =? -1) eqn:E.
  - repeat does_step. match goal with |- does _ _ ?x => set (c1 := x) end. assert (sm_inv codec c1) as Hc1.
    { apply (sm_inv_change codec c); try done; [by apply context_kind_map, Hc|]. apply Z.eqb_eq in E as ->.
      specialize (Hl (ctx_temporal c1)). unfold retargeted in Hl. destruct Hmay as [[_ ->]|([? _] & _)]; [|by apply exists_at_not_none in H1].
      apply Hl. by right; right. }
    eapply does_weaken; [by apply (EmitLayersChange_quiet c1)|]. by intros [] c' es [-> Hes].
  - repeat does_step. match goal with |- does _ _ ?x => set (c1 := x) end.
    assert (same_but_layers c c1) as Hsame.
    { unfold c1. by destruct (tsReferenceSpatialLayer (sm_layers c) =? -1), (spatial =? currentSpatialLayer _). }
    assert (sm_inv codec c1) as Hc1.
    { assert (forall c2, sm_base c2 = sm_base c -> mapMappedSsrcSpatialLayer c2 = mapMappedSsrcSpatialLayer c ->
        producerRtpStreams c2 = producerRtpStreams c -> rtpStream c2 = rtpStream c ->
        (encodingContext c2 = encodingContext c \/ encodingContext c2 = map_ctx (fun x => SetTargetTemporalLayer x temporal) (encodingContext c)) ->
        sm_layers c2 = retargeted (sm_layers c) spatial temporal -> sm_inv codec c2) as Hgen.
      { intros c2 E1 E2 E3 E4 E5 E6. apply (sm_inv_change codec c); try done.
        - destruct E5 as [->| ->]; [apply Hc|by apply context_kind_map, Hc].
        - rewrite E6. apply Hl. unfold ctx_temporal. destruct E5 as [->| ->]; [by left|]. rewrite ctx_base_map. by right; left. }
      unfold retargeted in Hgen. rewrite E in Hgen. cbn [negb andb] in *. unfold c1.
      destruct (tsReferenceSpatialLayer (sm_layers c) =? -1), (spatial =? currentSpatialLayer _) eqn:E'; cbn in E';
        apply Hgen; try done; [by right|by left|by right|by left]. }
    destruct (negb _); repeat does_step; [|split; [split; [done|apply quiet_nil]|done]].
    eapply does_weaken; [by apply (RequestTarget_quiet codec)|]. by intros [] c' es [-> Hes].
Qed.

Lemma UpdateTargetLayers_keeps codec c spatial temporal : sm_inv codec c -> may_target (producerRtpStreams c) (sm_layers c) spatial temporal ->
  keeps codec (UpdateTargetLayers spatial temporal) c.
Proof. intros Hc Hmay. eapply does_weaken; [by apply (UpdateTargetLayers_spec codec)|]. by intros [] c' es [? _]. Qed.

Lemma MayChangeLayers_keeps codec c now force : sm_inv codec c -> keeps codec (MayChangeLayers now force) c.
Proof.
  intros Hc. unfold keeps, MayChangeLayers. repeat does_step.
  destruct (Recalculate_spec codec c Hc now) as (spatial & temporal & changed & E & Hr). does_by E.
  destruct changed; repeat does_step; [|by split; [|apply quiet_nil]].
  destruct (externallyManagedBitrate (sm_base c)) eqn:Em.
  - destruct (_ || _); repeat does_step; (split; [done|]); [by apply quiet_one|apply quiet_nil].
  - apply UpdateTargetLayers_keeps; [done|]. pose proof (li_provisional _ _ _ _ (sm_layers_inv _ _ Hc)) as Hp. rewrite Em in Hp.
    destruct Hr as [?|[? ?]]; [by left|right]. destruct Hp as [[? ?]|[? _]]; done.
Qed.

(** ** Bandwidth *)

Lemma no_provisional_inv codec c : sm_inv codec c -> sm_inv codec (set_provisional c (-1) (-1)).
Proof.
  intros Hc. apply (sm_inv_change codec c); try done; [apply Hc|]. destruct (sm_layers_inv _ _ Hc). split; cbn; try done. by left.
Qed.

Lemma ApplyLayers_spec codec c now : sm_inv codec c -> externallyManagedBitrate (sm_base c) = true -> sm_IsActive c = true ->
  does (ApplyLayers now) (fun _ c' es => (sm_inv codec c' /\ quiet es) /\ same_but_layers c c') c.
Proof.
  intros Hc Em Ea. unfold ApplyLayers. repeat does_step. rewrite Em, Ea. does_by (eq_refl (Ok ())). does_by (eq_refl (Ok ())).
  destruct (_ || _); repeat does_step; [|by split; [split; [apply no_provisional_inv|apply quiet_nil]|]].
  eapply does_weaken; [apply (UpdateTargetLayers_spec codec); [by apply no_provisional_inv|]|].
  - pose proof (li_provisional _ _ _ _ (sm_layers_inv _ _ Hc)) as [Hp|(_ & Hsw & s & _ & [Ht _])]; [by left|by right].
  - intros [] c' es [[Hc' Hes] Hsame]. repeat does_step. rewrite app_nil_r. destruct (_ && _ && _); split; try done.
    split; [by apply sm_inv_lastBwe|done].
Qed.

Lemma used_bitrate_range required virtual bitrate : 0 < required -> 0 <= bitrate -> required <= virtual ->
  0 <= used_bitrate required virtual bitrate <= bitrate.
Proof. intros. unfold used_bitrate. destruct (Z.leb_spec required bitrate); [lia|]. destruct (Z.leb_spec required virtual); lia. Qed.

Lemma IncreaseLayer_spec codec c now bitrate considerLoss virtual : sm_inv codec c ->
  externallyManagedBitrate (sm_base c) = true -> sm_IsActive c = true -> 0 <= bitrate ->
  virtual_bitrate (rtpStream c) bitrate considerLoss = Ok virtual ->
  does (IncreaseLayer now bitrate considerLoss) (fun used c' es => (sm_inv codec c' /\ quiet es) /\ same_but_layers c c' /\
    0 <= used <= bitrate /\ (used = 0 -> c' = c \/ bitrate = 0)) c.
Proof.
  intros Hc Em Ea Hb Ev. unfold IncreaseLayer. repeat does_step. rewrite Em, Ea. does_by (eq_refl (Ok ())). does_by (eq_refl (Ok ())).
  assert ((sm_inv codec c /\ quiet []) /\ same_but_layers c c /\ 0 <= 0 <= bitrate /\ (0 = 0 -> c = c \/ bitrate = 0)) as Hnone.
  { split; [split; [done|apply quiet_nil]|]. split; [done|]. split; [lia|by left]. }
  destruct (_ && _); repeat does_step; [exact Hnone|]. does_by Ev.
  destruct (increase_loop_spec codec c Hc now (producerRtpStreams c) 0) as (r & E & Hr); [done|done|]. does_by E.
  destruct r as [[[spatial temporal] required]|]; repeat does_step; [|exact Hnone].
  destruct (Hr _ _ _ eq_refl) as (Hpos & Hsw & s & Hs & Ht). destruct (Z.ltb_spec virtual required); repeat does_step; [exact Hnone|].
  split; [split; [|apply quiet_nil]|split; [done|split; [apply used_bitrate_range; lia|]]].
  - apply (sm_inv_change codec c); try done; [apply Hc|]. destruct (sm_layers_inv _ _ Hc).
    split; cbn; try done. right. split; [done|]. split; [done|]. by exists s.
  - intros Hz. right. unfold used_bitrate in Hz. destruct (Z.leb_spec required bitrate); [lia|]. destruct (Z.leb_spec required virtual); lia.
Qed.

(** ** Requests and events *)

Lemma preferred_layers_spec b spatial temporal : 1 <= streamTemporalLayers b /\ 1 <= streamSpatialLayers b ->
  0 <= spatial < 2 ^ 15 -> (forall t, temporal = Some t -> 0 <= t < 2 ^ 15) ->
  exists s t, preferred_layers b (Some (Some spatial, temporal)) = Ok (s, t) /\ 0 <= s < streamSpatialLayers b /\ 0 <= t < streamTemporalLayers b.
Proof.
  intros [Hb1 Hb2] Hs Ht.
  assert (forall given count, 0 <= given < 2 ^ 15 -> 1 <= count -> 0 <= wanted_layer given count < count) as Hw.
  { intros given count Hg Hcount. unfold wanted_layer, swrap. rewrite Z.mod_small by (change (2 ^ 16) with 65536; change (2 ^ (16 - 1)) with 32768; lia).
    cbv zeta. rewrite Z.add_simpl_r. destruct (Z.ltb_spec (count - 1) given); lia. }
  eexists _, _. split; [done|]. split; [by apply Hw|]. destruct temporal as [t|]; [by apply Hw; [apply Ht|]|lia].
Qed.

Lemma SetPreferredLayers_keeps codec c now spatial temporal : sm_inv codec c -> 0 <= spatial < 2 ^ 15 ->
  (forall t, temporal = Some t -> 0 <= t < 2 ^ 15) -> keeps codec (SetPreferredLayers now (Some spatial) temporal) c.
Proof.
  intros Hc Hs Ht. unfold keeps, SetPreferredLayers. repeat does_step.
  destruct (preferred_layers_spec _ spatial temporal (sm_temporal _ _ Hc) Hs Ht) as (s & t & E & _ & Ht'). does_by E.
  match goal with |- does _ _ ?x => set (c1 := x) end. assert (sm_inv codec c1) as Hc1.
  { apply (sm_inv_change codec c); try done; [apply Hc|]. destruct (sm_layers_inv _ _ Hc). split; try done. cbn. lia. }
  destruct (_ && _); [by apply MayChangeLayers_keeps|by apply keeps_skip].
Qed.

Lemma RequestKeyFrame_keeps codec c : sm_inv codec c -> keeps codec ConsumerRequestKeyFrame c.
Proof.
  intros Hc. unfold keeps, ConsumerRequestKeyFrame. repeat does_step. destruct (sm_IsActive c); [|by apply keeps_skip].
  by apply keeps_quiet, (RequestKeyFrames_quiet codec).
Qed.

(** ** The stream that sends *)

Lemma sm_inv_stream codec c st : sm_inv codec c -> send_inv st -> par (stream st) = par (stream (rtpStream c)) ->
  sm_inv codec (set_rtpStream c st).
Proof. intros [] Hst Hp. split; try done. cbn. by rewrite Hp. Qed.

Lemma sm_inv_flags codec c b k : sm_inv codec c -> sm_inv codec (set_keyFrameForTsOffsetRequested (set_syncRequired c b) k).
Proof. intros Hc. apply (sm_inv_change codec c); try done; apply Hc. Qed.

Lemma pause_keeps codec c : sm_inv codec c -> keeps codec pause_stream c.
Proof.
  intros Hc. unfold keeps, pause_stream. repeat does_step. destruct (ClearBuffer_spec _ (sm_send _ _ Hc)) as (st & E & Hst & _ & _).
  pose proof E as Ep%ClearBuffer_stream. does_by E. split; [|apply quiet_nil]. apply sm_inv_stream; [done|done|by rewrite Ep].
Qed.

Lemma connected_keeps codec c now : sm_inv codec c -> keeps codec (sm_UserOnTransportConnected now) c.
Proof.
  intros Hc. unfold keeps, sm_UserOnTransportConnected. repeat does_step. destruct (sm_IsActive _).
  - by apply MayChangeLayers_keeps, sm_inv_flags.
  - by apply keeps_skip, sm_inv_flags.
Qed.

Lemma no_target_keeps codec c : sm_inv codec c -> keeps codec (UpdateTargetLayers (-1) (-1)) c.
Proof. intros Hc. apply UpdateTargetLayers_keeps; [done|]. by left. Qed.

Lemma disconnected_keeps codec c now : sm_inv codec c -> keeps codec (sm_UserOnTransportDisconnected now) c.
Proof.
  intros Hc. unfold sm_UserOnTransportDisconnected. apply keeps_bind; [|intros _ c1 Hc1; apply keeps_bind; [by apply pause_keeps|]].
  - apply does_modify. split; [by apply sm_inv_lastBwe|apply quiet_nil].
  - intros _ c2 Hc2. by apply no_target_keeps.
Qed.

Lemma paused_keeps codec c now : sm_inv codec c -> keeps codec (sm_UserOnPaused now) c.
Proof.
  intros Hc. unfold sm_UserOnPaused. apply keeps_bind; [|intros _ c1 Hc1; apply keeps_bind; [by apply pause_keeps|]].
  - apply does_modify. split; [by apply sm_inv_lastBwe|apply quiet_nil].
  - intros _ c2 Hc2. apply keeps_bind; [by apply no_target_keeps|]. intros _ c3 Hc3. unfold keeps. repeat does_step.
    destruct (externallyManagedBitrate _); repeat does_step; (split; [done|]); [by apply quiet_one|apply quiet_nil].
Qed.
End facts.

Section sending.
Context {S : Type} `{ProducerStreamLaws S}.

Notation consumer := (simulcast_consumer S).

#[local] Hint Resolve quiet_nil quiet_app : core.

(** * Synchronization *)

Lemma reported_is streams layer s : reported streams layer -> stream_is streams layer s -> GetSenderReportNtpMs s <> 0.
Proof. intros (s' & Hs' & Hn) Hs. by rewrite (stream_is_inj _ _ _ _ Hs Hs'). Qed.

Lemma ntp_offset_spec codec c layer : sm_inv codec c -> targetSpatialLayer (sm_layers c) <> -1 ->
  switchable (producerRtpStreams c) (tsReferenceSpatialLayer (sm_layers c)) layer ->
  exists offset, ntp_offset c layer = Ok offset.
Proof.
  intros Hc Hn [Hex Hsw]. unfold ntp_offset. destruct (layer =? _) eqn:E; [by exists 0|]. apply Z.eqb_neq in E.
  destruct (li_target _ _ _ _ (sm_layers_inv _ _ Hc)) as [[? _]|(Hr & [(t & Ht) Htsw] & _)]; [done|].
  destruct Hsw as [?|[?|[Hrr Hrl]]]; [done..|]. pose proof Hrr as (r & Hris & Hrn).
  unfold GetProducerTsReferenceRtpStream, GetProducerTargetRtpStream.
  rewrite (proj2 (Z.eqb_neq (tsReferenceSpatialLayer _) (-1))), (proj2 (Z.eqb_neq (targetSpatialLayer _) (-1))) by done.
  rewrite (stream_at_is _ _ _ Hris), (stream_at_is _ _ _ Ht). repeat (ostep; cbn [pointed]).
  rewrite (proj2 (truthy_true _) Hrn). ostep. cbn [pointed]. ostep.
  assert (GetSenderReportNtpMs t <> 0) as Htn.
  { destruct Htsw as [?|[Et|[_ Htr]]]; [done| |by apply (reported_is _ _ _ Htr)]. rewrite Et in Ht. by apply (reported_is _ _ _ Hrr). }
  rewrite (proj2 (truthy_true _) Htn). ostep.
  pose proof (sm_ntp _ _ Hc _ _ (proj2 Hris)) as B1. pose proof (sm_ntp _ _ Hc _ _ (proj2 Ht)) as B2. pose proof (sm_clock _ _ Hc) as B3.
  match goal with |- context [(- 2 ^ 63 <=? ?d * ?k) && _] => assert (- 2 ^ 43 <= d <= 2 ^ 43) as Hd; [|assert ((- 2 ^ 63 <=? d * k) && (d * k <? 2 ^ 63) = true) as ->] end.
  - destruct (_ <=? _) eqn:Ele; unfold swrap, wrap; change (2 ^ (64 - 1)) with (2 ^ 63); [apply Z.leb_le in Ele|apply Z.leb_gt in Ele].
    + rewrite Z.mod_small; lia.
    + replace ((-1 * (GetSenderReportNtpMs r - GetSenderReportNtpMs t)) mod 2 ^ 64) with (2 ^ 64 - (GetSenderReportNtpMs r - GetSenderReportNtpMs t))
        by (apply (Z.mod_unique _ _ (-1)); lia).
      rewrite (Z.add_comm _ (2 ^ 63)), <- (Z_mod_plus_full _ (-1)), Z.mod_small; lia.
  - apply andb_true_iff. split; [apply Z.leb_le|apply Z.ltb_lt]; nia.
  - ostep. by eexists.
Qed.

Lemma SyncRequired_base x : ctx_base (SyncRequired x) = ctx_base x.
Proof. by destruct x. Qed.

Lemma SyncRequired_kind codec x : context_kind codec x -> context_kind codec (SyncRequired x).
Proof. by destruct codec as [[]|], x. Qed.

(** What synchronization leaves as it is. *)
Definition same_but_sync (c c' : consumer) : Prop :=
  sm_base c' = sm_base c /\ sm_layers c' = sm_layers c /\ producerRtpStreams c' = producerRtpStreams c /\
  rtpStream c' = rtpStream c /\ ctx_temporal c' = ctx_temporal c.

Lemma sync_with_spec codec c p layer switch : sm_inv codec c -> rtp_wf p -> targetSpatialLayer (sm_layers c) <> -1 ->
  switchable (producerRtpStreams c) (tsReferenceSpatialLayer (sm_layers c)) layer ->
  does (sync_with p layer switch) (fun _ c' es => sm_inv codec c' /\ quiet es /\ same_but_sync c c' /\
    (rtpSeqManager c' = rtpSeqManager c \/ exists seq, GetSequenceNumber p = Ok seq /\ rtpSeqManager c' = sync_seq (rtpSeqManager c) seq)) c.
Proof.
  intros Hc Hwf Hn Hsw. unfold sync_with. destruct (ntp_offset_spec codec c layer Hc Hn Hsw) as [offset Eo]. does_by Eo.
  destruct (wf_reads p Hwf) as (seq & ts & Es & _ & Et & _). does_by Et.
  destruct (if switch then _ else _) as [extra|] eqn:Ex.
  - repeat does_step. does_by Es. match goal with |- context [sm_inv codec ?x] => set (c1 := x) end.
    assert (ctx_temporal c1 = ctx_temporal c) as Ec by (unfold ctx_temporal; cbn -[SyncRequired]; by rewrite SyncRequired_base).
    split; [|split; [apply quiet_nil|]].
    + apply (sm_inv_change codec c); try done; [by apply SyncRequired_kind, Hc|]. rewrite Ec. apply Hc.
    + split; [by repeat split|]. right. by exists seq.
  - repeat does_step. eapply does_weaken; [by apply (RequestTarget_quiet codec)|]. intros [] c' es [-> Hes]. repeat does_step.
    split; [|split; [by rewrite app_nil_r|]]; [|split; [by repeat (split; [done|])|by left]].
    apply (sm_inv_change codec c); try done; apply Hc.
Qed.

(** * The payload *)

Lemma context_kind_of codec x : context_kind codec x -> 0 <= Codecs.targetTemporalLayer (ctx_base x) -> context_of codec x.
Proof. by destruct codec as [[]|], x. Qed.

Lemma context_of_kind codec x x' : context_kind codec x -> context_of codec x' ->
  context_kind codec x' /\ 0 <= Codecs.targetTemporalLayer (ctx_base x').
Proof. by destruct codec as [[]|], x, x'. Qed.

Lemma given_back_same codec x p r : context_kind codec x -> given_back codec p r -> r = p.
Proof.
  intros Hk [Eh Ep]. assert (vp_packet r = vp_packet p) as E by (destruct Ep as [?|[-> _]]; [done|by destruct x]).
  destruct r, p. cbn in *. congruence.
Qed.

Lemma ProcessPayload_simulcast codec c p : sm_inv codec c -> described codec p -> 0 <= ctx_temporal c ->
  exists p' x ok, ProcessPayload p (encodingContext c) = Ok (p', x, ok) /\ processed p p' /\ RestorePayload p' = Ok p /\
    (ok = false -> p' = p) /\ sm_inv codec (set_encodingContext c x).
Proof.
  intros Hc [Hp Hof] Ht. pose proof (sm_kind _ _ Hc) as Hk.
  destruct (ProcessPayload_spec codec p _ Hp Hof (context_kind_of _ _ Hk Ht)) as (p' & x & ok & r & E & Hx & Hno & Hpr & Er & Hb).
  exists p', x, ok. split; [done|]. split; [done|]. rewrite Er, (given_back_same _ _ _ _ Hk Hb). split; [done|]. split; [done|].
  destruct (context_of_kind _ _ _ Hk Hx) as [Hk' Ht']. apply (sm_inv_change codec c); try done.
  destruct (sm_layers_inv _ _ Hc) as [? ? ? ? Hcur]. split; try done. destruct Hcur as [|(? & ? & _)]; [by left|by right].
Qed.

(** The layers of a packet that is let through; [None] when it is dropped. *)
Definition passes (c : consumer) (p : video_packet) (o : option video_packet) (c' : consumer) : Prop :=
  sm_base c' = sm_base c /\ tsOffset c' = tsOffset c /\
  match o with Some p' => processed p p' /\ RestorePayload p' = Ok p /\ rtpSeqManager c' = rtpSeqManager c | None => True end.

Lemma process_switch codec c now p : sm_inv codec c -> described codec p -> targetSpatialLayer (sm_layers c) <> -1 ->
  does (process_layers now p true) (fun o c' es => sm_inv codec c' /\ quiet es /\ passes c p o c') c.
Proof.
  intros Hc Hp Hn. unfold process_layers. repeat does_step. match goal with |- does _ _ ?x => set (c1 := x) end.
  assert (sm_inv codec c1 /\ 0 <= ctx_temporal c1) as [Hc1 Ht].
  { apply and_wlog_l.
    - intros Ht. unfold c1. apply sm_inv_stream; [|by apply (send_inv_ext (rtpStream c)), Hc|cbn; by rewrite ResetScore_par].
      apply (sm_inv_change codec c); try done; [by apply context_kind_map, Hc|]. destruct (sm_layers_inv _ _ Hc) as [? ? ? Htgt ?].
      split; try done. right. destruct Htgt as [[? _]|(? & ? & ?)]; done.
    - unfold c1, ctx_temporal. cbn -[map_ctx ctx_base]. rewrite ctx_base_map. cbn.
      destruct (li_target _ _ _ _ (sm_layers_inv _ _ Hc)) as [[? _]|(_ & _ & ?)]; done. }
  eapply does_weaken; [by apply (EmitLayersChange_quiet c1)|]. intros [] ? es1 [-> Hes1]. repeat does_step.
  eapply does_weaken; [by apply (EmitScore_quiet codec)|]. intros [] ? es2 [-> Hes2].
  destruct (ProcessPayload_simulcast codec c1 p Hc1 Hp Ht) as (p' & x & ok & E & Hpr & Er & _ & Hc2). does_by E.
  split; [done|]. split; [|by repeat (split; [done|])]. auto.
Qed.

Lemma process_current codec c now p : sm_inv codec c -> described codec p -> 0 <= ctx_temporal c ->
  does (process_layers now p false) (fun o c' es => sm_inv codec c' /\ quiet es /\ passes c p o c') c.
Proof.
  intros Hc Hp Ht. unfold process_layers. repeat does_step.
  destruct (ProcessPayload_simulcast codec c p Hc Hp Ht) as (p' & x & ok & E & Hpr & Er & Hno & Hc2). does_by E.
  destruct ok; repeat does_step.
  - destruct (negb _); [eapply does_weaken; [by apply (EmitLayersChange_quiet (set_encodingContext c x))|]; intros [] ? es [-> Hes]|];
      repeat does_step; (split; [done|]; split; [|by repeat (split; [done|])]); auto.
  - rewrite Hno by done. destruct (wf_reads (vp_packet p) (proj1 (proj1 Hp))) as (seq & ts & Es & _). does_by Es.
    split; [|split; [apply quiet_nil|by repeat (split; [done|])]]. apply (sm_inv_change codec _ _ Hc2); try done; apply Hc2.
Qed.

(** * Sending *)

(** What is sent for a packet: [p'] after its payload was processed, with the SSRC
    of the consumer, a number given by its manager and the timestamp less its offset. *)
Definition sent_by (c c' : consumer) (indeterminate : Z) (p : video_packet) (r : rtp_packet) : Prop :=
  exists p' manager seq ts, processed p p' /\ GetSequenceNumber (vp_packet p) = Ok seq /\ GetTimestamp (vp_packet p) = Ok ts /\
    (manager = rtpSeqManager c \/ manager = sync_seq (rtpSeqManager c) seq) /\
    rtpSeqManager c' = (input_seq manager seq indeterminate).1 /\
    sent_as (vp_packet p') (input_seq manager seq indeterminate).2 (u32 (ts - tsOffset c')) (ssrc (sm_base c)) r.

Lemma send_restored_spec codec c now indeterminate p p' : sm_inv codec c -> handled p -> processed p p' -> RestorePayload p' = Ok p ->
  does (send_restored now indeterminate p') (fun r c' es => sm_inv codec c' /\ r = p /\
    forall q, SendRtp q ∈ es -> exists seq ts, GetSequenceNumber (vp_packet p) = Ok seq /\ GetTimestamp (vp_packet p) = Ok ts /\
      rtpSeqManager c' = (input_seq (rtpSeqManager c) seq indeterminate).1 /\ tsOffset c' = tsOffset c /\
      sent_as (vp_packet p') (input_seq (rtpSeqManager c) seq indeterminate).2 (u32 (ts - tsOffset c)) (ssrc (sm_base c)) q) c.
Proof.
  intros Hc Hh Hp Hr. unfold send_restored. destruct (processed_reads _ _ Hh Hp) as [Es Et].
  destruct (wf_reads (vp_packet p) (proj1 Hh)) as (seq & ts & Es' & _ & Et' & _). rewrite Es' in Es. rewrite Et' in Et.
  does_by Et. does_by Es. destruct (input_seq (rtpSeqManager c) seq indeterminate) as [manager n] eqn:Ei. repeat does_step.
  destruct (forward_spec now (ssrc (sm_base c)) n (Some (u32 (ts - tsOffset c))) (rtpStream c) (vp_packet p') ts)
    as (st & q & b & E & Hq & _ & Hst & Hpar & _); [apply Hp|apply Hc|done|].
  does_by E. assert (with_packet p' (vp_packet p') = p') as -> by by destruct p'. does_by Hr.
  split; [|split; [done|]].
  - apply sm_inv_stream; [|done|done]. apply (sm_inv_change codec c); try done; apply Hc.
  - intros q' Hin. exists seq, ts. rewrite Ei. split; [done|]. split; [done|]. split; [done|]. split; [done|].
    destruct b; [|by apply not_elem_of_nil in Hin]. cbn in Hin. apply list_elem_of_singleton in Hin as [= ->]. exact Hq.
Qed.

(** The packet goes on: its layers, its payload, and out. *)
Lemma go_on codec c0 c now indeterminate p (switch : bool) : sm_inv codec c -> described codec p ->
  (if switch then targetSpatialLayer (sm_layers c) <> -1 else 0 <= ctx_temporal c) ->
  sm_base c = sm_base c0 -> (rtpSeqManager c = rtpSeqManager c0 \/
    exists seq, GetSequenceNumber (vp_packet p) = Ok seq /\ rtpSeqManager c = sync_seq (rtpSeqManager c0) seq) ->
  does (r ← process_layers now p switch;
        match r with None => mret p | Some p => send_restored now indeterminate p end)
    (fun r c' es => sm_inv codec c' /\ r = p /\ forall q, SendRtp q ∈ es -> sent_by c0 c' indeterminate p q) c.
Proof.
  intros Hc Hp Hl Hbase Hman. does_step.
  assert (does (process_layers now p switch) (fun o c' es => sm_inv codec c' /\ quiet es /\ passes c p o c') c) as Hproc
    by (destruct switch; [by apply process_switch|by apply process_current]).
  eapply does_weaken; [exact Hproc|]. intros o c1 es1 (Hc1 & Hes1 & Hb & Hoff & Ho). destruct o as [p'|]; repeat does_step.
  2: { split; [done|]. split; [done|]. intros q Hq. rewrite app_nil_r in Hq. by apply Hes1 in Hq. }
  destruct Ho as (Hpr & Hr & Hm). eapply does_weaken; [apply (send_restored_spec codec _ _ _ p); try done; apply Hp|].
  intros r c2 es2 (Hc2 & -> & Hsent). split; [done|]. split; [done|]. intros q [Hq|Hq]%elem_of_app; [by apply Hes1 in Hq|].
  destruct (Hsent q Hq) as (seq & ts & Es & Et & E1 & E2 & Hq'). exists p', (rtpSeqManager c1), seq, ts.
  split; [done|]. split; [done|]. split; [done|]. split; [|split; [done|]].
  - rewrite Hm. destruct Hman as [?|(seq' & Es' & ?)]; [by left|right]. congruence.
  - by rewrite E2, <- Hbase, <- Hb.
Qed.

Lemma returns_packet codec c indeterminate p : sm_inv codec c ->
  does (mret p) (fun r c' es => sm_inv codec c' /\ r = p /\ forall q, SendRtp q ∈ es -> sent_by c c' indeterminate p q) c.
Proof. intros Hc. apply does_ret. split; [done|]. split; [done|]. by intros q ?%not_elem_of_nil. Qed.

(** The packet whose key frame is awaited, or of the layer sent: synchronized if need be. *)
Lemma selected codec c now indeterminate p layer (switch delta : bool) : sm_inv codec c -> described codec p ->
  targetSpatialLayer (sm_layers c) <> -1 ->
  layer = (if switch then targetSpatialLayer (sm_layers c) else currentSpatialLayer (sm_layers c)) -> 0 <= layer ->
  does (c ← get;
        if syncRequired c && delta then mret p
        else
          go ← (if syncRequired c then sync_with (vp_packet p) layer switch else mret true);
          if negb go then mret p
          else
            r ← process_layers now p switch;
            match r with
            | None => mret p
            | Some p => send_restored now indeterminate p
            end)
    (fun r c' es => sm_inv codec c' /\ r = p /\ forall q, SendRtp q ∈ es -> sent_by c c' indeterminate p q) c.
Proof.
  intros Hc Hp Hn Hlayer Hge. destruct (sm_layers_inv _ _ Hc) as [_ _ _ Htgt Hcur].
  assert (switch = true \/ switch = false /\ 0 <= ctx_temporal c) as Hsw.
  { destruct switch; [by left|right; split; [done|]]. destruct Hcur as [|(_ & _ & ?)]; [lia|done]. }
  repeat does_step. destruct (syncRequired c) eqn:Es; cbn [andb].
  - destruct delta; [by apply returns_packet|]. repeat does_step.
    eapply does_weaken; [apply (sync_with_spec codec)|]; [done|apply Hp|done| |].
    + destruct switch; rewrite Hlayer; [destruct Htgt as [[? _]|(_ & ? & _)]; done|destruct Hcur as [|(_ & ? & _)]; [lia|done]].
    + intros go c1 es1 (Hc1 & Hes1 & (Eb & El & _ & _ & Et) & Hm). destruct go; cbn [negb].
      * eapply does_weaken; [apply (go_on codec c c1); try done; destruct Hsw as [->|[-> ?]]; [by rewrite El|by rewrite Et]|].
        intros r c2 es2 (Hc2 & -> & Hq). split; [done|]. split; [done|]. intros q [H1%Hes1|H1]%elem_of_app; [done|by apply Hq].
      * apply does_ret. split; [done|]. split; [done|]. intros q Hq. rewrite app_nil_r in Hq. by apply Hes1 in Hq.
  - do 3 does_step. apply go_on; try done; [destruct Hsw as [->|[-> ?]]; done|by left].
Qed.

Lemma SendRtpPacket_spec codec c now indeterminate p mappedSsrc : sm_inv codec c -> described codec p ->
  GetSsrc (vp_packet p) = Ok mappedSsrc -> is_Some (mapMappedSsrcSpatialLayer c !! mappedSsrc) ->
  does (SendRtpPacket now indeterminate p)
    (fun r c' es => sm_inv codec c' /\ r = p /\ forall q, SendRtp q ∈ es -> sent_by c c' indeterminate p q) c.
Proof.
  intros Hc Hp Hssrc [layer Hlayer]. unfold SendRtpPacket. repeat does_step.
  destruct (sm_IsActive c); cbn [negb]; [|by apply returns_packet].
  destruct (targetTemporalLayer (sm_layers c) =? -1) eqn:Et; [by apply returns_packet|]. apply Z.eqb_neq in Et.
  assert (targetSpatialLayer (sm_layers c) <> -1) as Hn.
  { destruct (li_target _ _ _ _ (sm_layers_inv _ _ Hc)) as [[_ ?]|(_ & [? _] & _)]; [done|by eapply exists_at_not_none]. }
  destruct (GetPayloadType_Ok _ (proj1 (proj1 Hp))) as [t Ept]. repeat does_step. does_by Ept.
  destruct (supported _ _); cbn [negb]; [|by apply returns_packet]. repeat does_step. does_by Hssrc.
  rewrite Hlayer. does_by (eq_refl (Ok layer)). pose proof (sm_mapped _ _ Hc _ _ Hlayer) as [Hge _].
  destruct (negb (currentSpatialLayer _ =? _) && _) eqn:Ea; cbn [negb andb].
  - apply andb_true_iff in Ea as [_ Ea%Z.eqb_eq]. destruct (IsKeyFrame p) eqn:Ek; cbn [negb]; [|by apply returns_packet].
    does_step. does_step. eapply does_weaken; [apply (selected codec _ now indeterminate p layer true _)|]; try done.
    apply (sm_inv_change codec c); try done; apply Hc.
  - destruct (layer =? currentSpatialLayer (sm_layers c)) eqn:El; cbn [negb]; [|by apply returns_packet]. apply Z.eqb_eq in El.
    does_step. does_step. eapply does_weaken; [by apply (selected codec _ now indeterminate p layer false _)|]. done.
Qed.
End sending.
