(* ===== verification/SimulcastProps.v ===== *)
(** The life of a simulcast consumer: whatever happens to it, it never stops the
    worker, and its layers stay those of streams that exist. *)

From S2P Require Export SimulcastFacts.

#[local] Arguments truthy : simpl never.

Section props.
Context {S : Type} `{ProducerStreamLaws S}.

Notation consumer := (simulcast_consumer S).
Notation op := (act consumer consumer_event).

#[local] Hint Resolve quiet_nil quiet_app : core.

(** * What can happen *)

Inductive sm_input : Type :=
| RtpIn (indeterminate : Z) (p : video_packet)
| NackIn (items : list (Z * Z))
| KeyFrameRequestIn (messageType : Z)
| SendScoreIn
| PauseIn | ResumeIn | RequestKeyFrameIn
| PriorityIn (p : Z)
| PreferredLayersIn (spatial : Z) (temporal : option Z)
| ConnectedIn | DisconnectedIn
| ProducerPausedIn | ProducerResumedIn | ProducerClosedIn
| NewStreamIn (s : S) (mappedSsrc : Z)
| StreamScoreIn (score previousScore : Z)
| SenderReportIn (first : bool)
| StreamsIn (streams : list (option S))        (** the streams of the producer as they are now *)
| ManagedIn
| IncreaseIn (bitrate : Z) (considerLoss : bool)
| ApplyIn.

Definition ignoring {A} (m : op A) : op unit := _ ← m; skip.

Definition sm_handle (now : Z) (i : sm_input) : op unit :=
  match i with
  | RtpIn indeterminate p => ignoring (SendRtpPacket now indeterminate p)
  | NackIn items => ReceiveNack now items
  | KeyFrameRequestIn t => ReceiveKeyFrameRequest t
  | SendScoreIn => OnRtpStreamScore now
  | PauseIn => ConsumerPause now
  | ResumeIn => ConsumerResume now
  | RequestKeyFrameIn => ConsumerRequestKeyFrame
  | PriorityIn p => ConsumerSetPriority (Some p)
  | PreferredLayersIn spatial temporal => SetPreferredLayers now (Some spatial) temporal
  | ConnectedIn => TransportConnected now
  | DisconnectedIn => TransportDisconnected now
  | ProducerPausedIn => ProducerPaused now
  | ProducerResumedIn => ProducerResumed now
  | ProducerClosedIn => ProducerClosed
  | NewStreamIn s mappedSsrc => ProducerNewRtpStream now s mappedSsrc
  | StreamScoreIn score previousScore => ProducerRtpStreamScore now score previousScore
  | SenderReportIn first => ProducerRtcpSenderReport now first
  | StreamsIn streams => modify (fun c => set_producerRtpStreams c streams)
  | ManagedIn => SetExternallyManagedBitrate
  | IncreaseIn bitrate considerLoss => ignoring (IncreaseLayer now bitrate considerLoss)
  | ApplyIn => ApplyLayers now
  end.

(** A stream keeps its layers, and that a sender report was received for it. *)
Definition evolves (s s' : S) : Prop :=
  GetSpatialLayers s' = GetSpatialLayers s /\ GetTemporalLayers s' = GetTemporalLayers s /\
  (GetSenderReportNtpMs s <> 0 -> GetSenderReportNtpMs s' <> 0).

Definition streams_evolve (l l' : list (option S)) : Prop :=
  length l' = length l /\
  (forall i s, l !! i = Some (Some s) -> exists s', l' !! i = Some (Some s') /\ evolves s s').

(** A stream of the producer: it has layers, and the time of its reports is that of 32-bit seconds. *)
Definition stream_ok (s : S) : Prop := 1 <= GetSpatialLayers s /\ 0 <= GetSenderReportNtpMs s < 2 ^ 43.

(** What the rest of the worker sees to. *)
Definition allowed (codec : option codec) (now : Z) (c : consumer) (i : sm_input) : Prop :=
  match i with
  | RtpIn _ p => described codec p /\
      exists mappedSsrc, GetSsrc (vp_packet p) = Ok mappedSsrc /\ is_Some (mapMappedSsrcSpatialLayer c !! mappedSsrc)
  | NackIn items => now <> 0 /\ Forall (fun item => in_uint 16 item.1 /\ in_uint 16 item.2) items /\
      exists rtt16, answers_nacks (rtpStream c) rtt16
  | PriorityIn p => 1 <= u8 p
  | PreferredLayersIn spatial temporal => 0 <= spatial < 2 ^ 15 /\ forall t, temporal = Some t -> 0 <= t < 2 ^ 15
  | NewStreamIn s mappedSsrc => stream_ok s /\
      exists layer, mapMappedSsrcSpatialLayer c !! mappedSsrc = Some layer /\ producerRtpStreams c !! Z.to_nat layer = Some None
  | StreamsIn streams => streams_evolve (producerRtpStreams c) streams /\ Forall (fun o => match o with Some s => stream_ok s | None => True end) streams
  | IncreaseIn bitrate considerLoss => externallyManagedBitrate (sm_base c) = true /\ sm_IsActive c = true /\ 0 <= bitrate /\
      exists virtual, virtual_bitrate (rtpStream c) bitrate considerLoss = Ok virtual
  | ApplyIn => externallyManagedBitrate (sm_base c) = true /\ sm_IsActive c = true
  | _ => True
  end.

(** * Streams that change *)

Lemma evolve_exists l l' layer : streams_evolve l l' -> exists_at l layer -> exists_at l' layer.
Proof. intros [_ He] (s & Hge & Hs). destruct (He _ _ Hs) as (s' & Hs' & _). by exists s'. Qed.

Lemma evolve_reported l l' layer : streams_evolve l l' -> reported l layer -> reported l' layer.
Proof. intros [_ He] (s & [Hge Hs] & Hn). destruct (He _ _ Hs) as (s' & Hs' & _ & _ & Hn'). exists s'. split; [done|]. by apply Hn'. Qed.

Lemma evolve_switchable l l' r layer : streams_evolve l l' -> switchable l r layer -> switchable l' r layer.
Proof.
  intros He [Hex [Hr|[Hr|[H1 H2]]]]; (split; [by eapply evolve_exists|]); [by left|by right; left|right; right].
  split; by eapply evolve_reported.
Qed.

Lemma evolve_layers l l' ls x m : streams_evolve l l' -> layers_inv l ls x m -> layers_inv l' ls x m.
Proof.
  intros He [Hpref Href Hprov Htgt Hcur]. split; [done|..].
  - destruct Href as [|Href]; [by left|right; by eapply evolve_exists].
  - destruct Hprov as [|(? & Hsw & s & [Hge Hs] & Ht)]; [by left|right]. split; [done|]. split; [by eapply evolve_switchable|].
    destruct (proj2 He _ _ Hs) as (s' & Hs' & _ & E & _). exists s'. rewrite E. split; [by split|done].
  - destruct Htgt as [|(? & Hsw & ?)]; [by left|right]. split; [done|]. split; [by eapply evolve_switchable|done].
  - destruct Hcur as [|(? & Hsw & ?)]; [by left|right]. split; [done|]. split; [by eapply evolve_switchable|done].
Qed.

Lemma sm_inv_streams codec c l : sm_inv codec c -> streams_evolve (producerRtpStreams c) l ->
  Forall (fun o => match o with Some s => stream_ok s | None => True end) l -> sm_inv codec (set_producerRtpStreams c l).
Proof.
  intros [] He Hl. assert (forall i s, l !! i = Some (Some s) -> stream_ok s) as Hok
    by (intros i s Hi; exact (proj1 (Forall_lookup _ _) Hl _ _ Hi)).
  split; try done; cbn; [by rewrite (proj1 He)|by rewrite (proj1 He)|by intros i s Hi; apply (Hok i s)|by eapply evolve_layers|].
  intros i s Hi. by apply (Hok i s).
Qed.

(** * Events of the base class *)

Lemma sm_inv_base codec c b : sm_inv codec c -> mappedSsrcs b = mappedSsrcs (sm_base c) -> scoresSet b = true ->
  streamTemporalLayers b = streamTemporalLayers (sm_base c) -> streamSpatialLayers b = streamSpatialLayers (sm_base c) ->
  (externallyManagedBitrate b = externallyManagedBitrate (sm_base c) \/ externallyManagedBitrate b = true) -> sm_inv codec (sm_set_base c b).
Proof.
  intros [] E1 E2 E3 E4 E5. split; try done; cbn; [by rewrite E1|by rewrite E3, E4|].
  destruct sm_layers_inv as [Hpref Href Hprov Htgt Hcur]. split; try done.
  destruct Hprov as [|(Hm & ?)]; [by left|right]. split; [destruct E5 as [->| ->]; done|done].
Qed.

Lemma sm_inv_flags_base codec c b1 b2 b3 b4 : sm_inv codec c -> sm_inv codec (sm_set_base c (set_flags (sm_base c) b1 b2 b3 b4)).
Proof. intros Hc. apply sm_inv_base; try done; [apply Hc|by left]. Qed.

Lemma pause_request_keeps codec c now : sm_inv codec c -> keeps codec (ConsumerPause now) c.
Proof.
  intros Hc. unfold keeps, ConsumerPause. repeat does_step. destruct (paused _); [by apply keeps_skip|]. unfold modify_base. repeat does_step.
  destruct (IsActive c); [apply (paused_keeps codec)|apply (keeps_skip codec)]; by apply sm_inv_flags_base.
Qed.

Lemma resume_request_keeps codec c now : sm_inv codec c -> keeps codec (ConsumerResume now) c.
Proof.
  intros Hc. unfold keeps, ConsumerResume. repeat does_step. destruct (paused _); cbn [negb]; [|by apply keeps_skip]. unfold modify_base.
  repeat does_step. destruct (IsActive _); [apply (connected_keeps codec)|apply (keeps_skip codec)]; by apply sm_inv_flags_base.
Qed.

Lemma producer_paused_keeps codec c now : sm_inv codec c -> keeps codec (ProducerPaused now) c.
Proof.
  intros Hc. unfold keeps, ProducerPaused. repeat does_step. destruct (producerPaused _); [by apply keeps_skip|]. unfold modify_base.
  repeat does_step. eapply (does_weaken _ (fun _ c' es => sm_inv codec c' /\ quiet es)).
  - destruct (IsActive c); [apply (paused_keeps codec)|apply (keeps_skip codec)]; by apply sm_inv_flags_base.
  - intros [] c' es [Hc' Hes]. repeat does_step. split; [done|]. apply quiet_app; [done|by apply quiet_one].
Qed.

Lemma producer_resumed_keeps codec c now : sm_inv codec c -> keeps codec (ProducerResumed now) c.
Proof.
  intros Hc. unfold keeps, ProducerResumed. repeat does_step. destruct (producerPaused _); cbn [negb]; [|by apply keeps_skip]. unfold modify_base.
  repeat does_step. eapply (does_weaken _ (fun _ c' es => sm_inv codec c' /\ quiet es)).
  - destruct (IsActive _); [apply (connected_keeps codec)|apply (keeps_skip codec)]; by apply sm_inv_flags_base.
  - intros [] c' es [Hc' Hes]. repeat does_step. split; [done|]. apply quiet_app; [done|by apply quiet_one].
Qed.

(** * Any event *)

Lemma new_stream_keeps codec c s mappedSsrc layer : sm_inv codec c -> stream_ok s ->
  mapMappedSsrcSpatialLayer c !! mappedSsrc = Some layer -> producerRtpStreams c !! Z.to_nat layer = Some None ->
  keeps codec (ProducerRtpStream s mappedSsrc) c.
Proof.
  intros Hc Hs Hl Hnone. unfold keeps, ProducerRtpStream. repeat does_step. rewrite Hl. does_by (eq_refl (Ok layer)).
  split; [|apply quiet_nil]. apply sm_inv_streams; [done| |].
  - split; [by rewrite length_insert|]. intros i x Hi. destruct (decide (i = Z.to_nat layer)) as [->|Hne]; [congruence|].
    exists x. rewrite list_lookup_insert_ne by done. by repeat split.
  - apply Forall_insert; [|done]. apply Forall_lookup. intros i [x|] Hi; [|done].
    split; [by apply (sm_spatial _ _ Hc i)|by apply (sm_ntp _ _ Hc i)].
Qed.

Lemma score_keeps codec c (m : op unit) : sm_inv codec c ->
  (forall c, sm_inv codec c -> keeps codec m c) -> keeps codec (_ ← EmitScore; m) c.
Proof. intros Hc Hm. apply keeps_bind; [by apply keeps_quiet, (EmitScore_quiet codec)|]. intros _ c' Hc'. by apply Hm. Qed.

Lemma handle_inv codec now c i : sm_inv codec c -> allowed codec now c i ->
  does (sm_handle now i) (fun _ c' _ => sm_inv codec c') c.
Proof.
  intros Hc Hal.
  assert (keeps codec (sm_handle now i) c -> does (sm_handle now i) (fun _ c' _ => sm_inv codec c') c) as Hk
    by (intros Hk; eapply does_weaken; [exact Hk|]; by intros [] c' es [? _]).
  assert (forall (test : consumer -> bool) force c, sm_inv codec c ->
    keeps codec (c ← get; if test c then MayChangeLayers now force else skip) c) as Hmay.
  { intros test force c1 Hc1. unfold keeps. repeat does_step. destruct (test c1); [by apply MayChangeLayers_keeps|by apply keeps_skip]. }
  destruct i; cbn [sm_handle allowed] in *.
  - destruct Hal as (Hp & mappedSsrc & Hs & Hm). unfold ignoring. repeat does_step.
    eapply does_weaken; [by apply (SendRtpPacket_spec codec c now indeterminate p mappedSsrc)|]. intros r c' es (Hc' & _). by repeat does_step.
  - apply Hk. destruct Hal as (Hnow & Hall & rtt16 & Ha). unfold keeps, ReceiveNack. repeat does_step.
    destruct (sm_IsActive c); cbn [negb]; [|by apply keeps_skip]. repeat does_step.
    destruct (ReceiveNack_total _ items now rtt16 Ha Hnow Hall) as (st & ps & E & Hst & Hpar). does_by E.
    split; [by apply sm_inv_stream|]. intros q (p & ? & _)%list_elem_of_In%in_map_iff. done.
  - apply Hk. unfold keeps, ReceiveKeyFrameRequest. repeat does_step. match goal with |- context [sm_IsActive ?x] => set (c1 := x) end.
    assert (sm_inv codec c1) as Hc1 by (apply sm_inv_stream; [done|by apply (send_inv_ext (rtpStream c)), Hc|done]).
    destruct (sm_IsActive c1); [by apply keeps_quiet, (RequestCurrent_quiet codec)|by apply keeps_skip].
  - apply Hk. apply score_keeps; [done|]. intros c1 Hc1. by apply (Hmay (fun c => sm_IsActive c && negb (externallyManagedBitrate (sm_base c)))).
  - by apply Hk, pause_request_keeps.
  - by apply Hk, resume_request_keeps.
  - by apply Hk, RequestKeyFrame_keeps.
  - apply Hk. unfold keeps, ConsumerSetPriority, modify_base. repeat does_step. rewrite (proj2 (Z.leb_le 1 (u8 p))) by done.
    does_by (eq_refl (Ok ())). split; [|apply quiet_nil]. apply sm_inv_base; try done; [apply Hc|by left].
  - apply Hk. destruct Hal. by apply SetPreferredLayers_keeps.
  - apply Hk. unfold keeps, TransportConnected, modify_base. repeat does_step. by apply connected_keeps, sm_inv_flags_base.
  - apply Hk. unfold keeps, TransportDisconnected, modify_base. repeat does_step. by apply disconnected_keeps, sm_inv_flags_base.
  - by apply Hk, producer_paused_keeps.
  - by apply Hk, producer_resumed_keeps.
  - unfold ProducerClosed, modify_base. repeat does_step. by apply sm_inv_flags_base.
  - apply Hk. destruct Hal as (Hs & layer & Hl & Hnone). unfold ProducerNewRtpStream.
    apply keeps_bind; [by apply (new_stream_keeps codec c s mappedSsrc layer)|]. intros _ c1 Hc1.
    apply score_keeps; [done|]. intros c2 Hc2. by apply Hmay.
  - apply Hk. apply score_keeps; [done|]. intros c1 Hc1. unfold keeps. repeat does_step.
    destruct (base_IsActive _); [|by apply keeps_skip]. destruct (_ || _); [by apply MayChangeLayers_keeps|by apply keeps_skip].
  - apply Hk. unfold keeps, ProducerRtcpSenderReport. destruct first; cbn [negb]; [|by apply keeps_skip]. repeat does_step.
    destruct (pointer_spec c _ (current_exists _ _ Hc)) as (o & E & _). does_by E. destruct o as [s|]; [|by apply keeps_skip].
    destruct (truthy _); cbn [negb]; [|by apply keeps_skip]. destruct (sm_IsActive c); [by apply MayChangeLayers_keeps|by apply keeps_skip].
  - destruct Hal as [He Hall]. repeat does_step. by apply sm_inv_streams.
  - unfold SetExternallyManagedBitrate, modify_base. repeat does_step. apply sm_inv_base; try done; [apply Hc|by right].
  - destruct Hal as (Em & Ea & Hb & virtual & Ev). unfold ignoring. repeat does_step.
    eapply does_weaken; [by apply (IncreaseLayer_spec codec c now bitrate considerLoss virtual)|]. intros x c' es [[? _] _]. by repeat does_step.
  - destruct Hal as [Em Ea]. eapply does_weaken; [by apply (ApplyLayers_spec codec)|]. by intros [] c' es [[? _] _].
Qed.

(** * From the constructor on *)

(** The layers of [preferredLayers] fit in an [int16_t]. *)
Definition layers_given (preferred : option (option Z * option Z)) : Prop :=
  match preferred with
  | Some (Some spatial, temporal) => 0 <= spatial < 2 ^ 15 /\ forall t, temporal = Some t -> 0 <= t < 2 ^ 15
  | _ => True
  end.

(** A consumer just created, once it was told the scores of the streams of its producer. *)
Definition sm_created (codec : option codec) (b : consumer_base) (preferred : option (option Z * option Z)) (st : rtp_stream_send)
    (c : consumer) : Prop :=
  1 <= streamTemporalLayers b /\ layers_given preferred /\ send_inv st /\ 0 <= par_clockRate (par (stream st)) < 2 ^ 20 /\
  exists c0 es, new_SimulcastConsumer b codec preferred st = Ok c0 /\ ProducerRtpStreamScores c0 = Ok ((), c, es).

Inductive sm_reachable (codec : option codec) (c0 : consumer) : consumer -> Prop :=
| sm_reachable_start : sm_reachable codec c0 c0
| sm_reachable_step now c i c' es : sm_reachable codec c0 c -> allowed codec now c i ->
    sm_handle now i c = Ok ((), c', es) -> sm_reachable codec c0 c'.

Lemma preferred_temporal b preferred spatial temporal : 1 <= streamTemporalLayers b -> layers_given preferred ->
  preferred_layers b preferred = Ok (spatial, temporal) -> 0 <= temporal.
Proof.
  intros Hb Hgiven. unfold preferred_layers. destruct preferred as [[[s|] t]|]; [|discriminate|intros [= _ <-]; lia].
  intros [= _ <-]. destruct Hgiven as [_ Ht]. destruct t as [t|]; [|lia]. specialize (Ht t eq_refl).
  unfold wanted_layer, swrap. rewrite Z.mod_small by (change (2 ^ 16) with 65536; change (2 ^ (16 - 1)) with 32768; lia).
  cbv zeta. rewrite Z.add_simpl_r. destruct (_ <? _); lia.
Qed.

Lemma ssrc_map_range (l : list (nat * Z)) n : forall m : gmap Z Z, (forall k v, m !! k = Some v -> 0 <= v < n) ->
  Forall (fun e => Z.of_nat e.1 < n) l ->
  forall k v, foldl (fun (m : gmap Z Z) e => <[e.2 := Z.of_nat e.1]> m) m l !! k = Some v -> 0 <= v < n.
Proof.
  induction l as [|e l IH]; intros m Hm Hl; [exact Hm|]. apply Forall_cons in Hl as [He Hl]. apply IH; [|done].
  intros k v [[_ <-]|[_ ?]]%lookup_insert_Some; [lia|by apply (Hm k)].
Qed.

Lemma created_inv codec b preferred st c : sm_created codec b preferred st c -> sm_inv codec c.
Proof.
  intros (Ht & Hgiven & Hst & Hclock & c0 & es & E & Es).
  unfold new_SimulcastConsumer in E. apply bind_Ok in E as (_ & H1%require_Ok & E). apply bind_Ok in E as (_ & H2%require_Ok & E).
  apply bind_Ok in E as ([spatial temporal] & Ep & E). apply bind_Ok in E as (_ & H3%require_Ok & E).
  destruct (GetEncodingContext _ _) as [x|] eqn:Ex; [|done]. injection E as <-. injection Es as <- _.
  assert (length (mappedSsrcs b) = length (replicate (A:=option S) (length (mappedSsrcs b)) None)) as El by by rewrite length_replicate.
  split; cbn.
  - done.
  - rewrite <- El. apply ssrc_map_range; [intros k v Hk; by rewrite lookup_empty in Hk|]. apply Forall_lookup. intros i e Hi.
    rewrite list_lookup_imap in Hi. destruct (mappedSsrcs b !! i) eqn:Eb; [|done]. injection Hi as <-. apply lookup_lt_Some in Eb. cbn. lia.
  - intros i s [Hi _]%lookup_replicate. done.
  - done.
  - split; [done|]. lia.
  - destruct codec as [[]|]; try done; by injection Ex as <-.
  - split; cbn; try by left. by eapply preferred_temporal.
  - done.
  - done.
  - intros i s [Hi _]%lookup_replicate. done.
Qed.

Lemma reachable_inv codec c0 c : sm_inv codec c0 -> sm_reachable codec c0 c -> sm_inv codec c.
Proof.
  intros Hc0. induction 1 as [|now c i c' es _ IH Hal E]; [done|]. exact (does_run _ _ _ _ _ _ (handle_inv codec now c i IH Hal) E).
Qed.

(** C9: a simulcast consumer handles packets, NACKs, requests, streams, scores, sender
    reports and bitrates in any order, as long as each keeps the conditions of [allowed]
    and the layers it was created with are below 2^15.  The conditions: packets and new
    streams have an SSRC of the consumer; once a stream has a sender report whose NTP time
    is not 0, so have its later ones; streams have a layer at least and times below 2^43
    ms; preferred layers are below 2^15 and priorities at least 1; NACKs come when the
    clock is not 0 and the round trip time is defined; and the transport offers bitrate
    only to an active consumer whose bitrate it manages, for which the virtual bitrate
    fits.  Then no assertion of the consumer fails, no map or vector is read out of range,
    and its layers stay as they should: the one it sends and the one it wants are those of
    streams that exist, with timestamps that can be compared to those of the stream of
    reference.  A sender report whose NTP time goes back to 0 does make an assertion
    fail ([zero_report_aborts]). *)
Theorem simulcast_safe codec b preferred st c0 c now i : sm_created codec b preferred st c0 -> sm_reachable codec c0 c ->
  allowed codec now c i ->
  exists c' es, sm_handle now i c = Ok ((), c', es) /\ sm_inv codec c'.
Proof.
  intros Hc0%created_inv Hr Hal. pose proof (reachable_inv _ _ _ Hc0 Hr) as Hc.
  destruct (handle_inv codec now c i Hc Hal) as ([] & c' & es & E & Hc'). by exists c', es.
Qed.

(** C10: what a simulcast consumer sends of a packet has the consumer's SSRC, the
    number its manager gives, and the timestamp less the offset in force; its
    payload is that of the packet once processed; and the packet, which the other
    consumers share, comes back as it was. *)
Theorem simulcast_forwards codec b preferred st c0 c now indeterminate p mappedSsrc :
  sm_created codec b preferred st c0 -> sm_reachable codec c0 c -> described codec p ->
  GetSsrc (vp_packet p) = Ok mappedSsrc -> is_Some (mapMappedSsrcSpatialLayer c !! mappedSsrc) ->
  in_uint 16 indeterminate -> in_uint 32 (ssrc (sm_base c)) ->
  exists c' es, SendRtpPacket now indeterminate p c = Ok (p, c', es) /\
    forall q, SendRtp q ∈ es -> exists p' manager seq ts, processed p p' /\
      GetSequenceNumber (vp_packet p) = Ok seq /\ GetTimestamp (vp_packet p) = Ok ts /\
      (manager = rtpSeqManager c \/ manager = sync_seq (rtpSeqManager c) seq) /\
      rtpSeqManager c' = (input_seq manager seq indeterminate).1 /\
      rtp_wf q /\ GetSsrc q = Ok (ssrc (sm_base c)) /\ GetSequenceNumber q = Ok (input_seq manager seq indeterminate).2 /\
      GetTimestamp q = Ok (u32 (ts - tsOffset c')) /\ payload_bytes q = payload_bytes (vp_packet p').
Proof.
  intros Hc0%created_inv Hr Hp Hs Hm Hind Hssrc. pose proof (reachable_inv _ _ _ Hc0 Hr) as Hc.
  destruct (SendRtpPacket_spec codec c now indeterminate p mappedSsrc Hc Hp Hs Hm) as (r & c' & es & E & _ & -> & Hsent).
  exists c', es. split; [done|]. intros q Hq. destruct (Hsent q Hq) as (p' & manager & seq & ts & Hpr & Es & Et & Hman & Em & Has).
  exists p', manager, seq, ts. split; [done|]. split; [done|]. split; [done|]. split; [done|]. split; [done|].
  destruct (sent_as_reads _ _ _ _ _ (proj1 Hpr) (input_seq_range manager seq indeterminate Hind) ltac:(by apply wrap_range) Hssrc Has)
    as (? & ? & ? & ? & ? & _). done.
Qed.

(** * Switching *)

Definition max_extra_offset (c : consumer) : Z := MaxExtraOffsetMs * par_clockRate (par (stream (rtpStream c))) / 1000.

(** C35: the timestamp of the key frame a consumer switches with.  With [t] the one
    its sender reports tell and [m] the highest sent: [t] when it is higher;
    [m] itself, not more, when [t] is at most 75 ms lower; 33 ms more than [m] when
    they are the same; and when [t] is lower than that, a key frame is asked for,
    once, and then [t + 1] is sent, lower than [m]. *)
Theorem switch_timestamps c timestamp offset :
  let t := u32 (timestamp - offset) in
  let m := maxPacketTs (stream (rtpStream c)) in
  let requested := keyFrameForTsOffsetRequested c in
  0 <= par_clockRate (par (stream (rtpStream c))) < 2 ^ 20 -> in_uint 32 m ->
  match extra_offset c timestamp offset with
  | None => requested = false /\ t <= m /\ max_extra_offset c < m - t
  | Some extra =>
      let sent := u32 (timestamp - u32 (offset - extra)) in
      (m < t /\ sent = t) \/
      (t < m /\ m - t <= max_extra_offset c /\ sent = m) \/
      (t = m /\ sent = if requested then m else u32 (m + MsOffset * par_clockRate (par (stream (rtpStream c))) / 1000)) \/
      (requested = true /\ max_extra_offset c < m - t /\ sent = u32 (t + 1))
  end.
Proof.
  cbv zeta. unfold max_extra_offset. set (t := u32 (timestamp - offset)). set (m := maxPacketTs _). set (k := par_clockRate _).
  intros Hk Hm. pose proof (wrap_range 32 (timestamp - offset) ltac:(done)) as Ht. fold t in Ht. unfold in_uint in Ht, Hm.
  assert (forall e, u32 (timestamp - u32 (offset - e)) = u32 (t + e)) as Hsent.
  { intros e. unfold t. rewrite wrap_sub_r, wrap_add_l. f_equal. lia. }
  unfold extra_offset. fold m t k. cbv zeta. destruct (Z.leb_spec t m) as [Hle|Hgt].
  2: { rewrite Hsent, Z.add_0_r. left. split; [done|]. by apply wrap_small. }
  assert (u32 (MaxExtraOffsetMs * k) = MaxExtraOffsetMs * k) as -> by (apply wrap_small; unfold in_uint, MaxExtraOffsetMs; lia).
  assert (u32 (m - timestamp + offset) = m - t) as ->.
  { rewrite <- (wrap_small 32 (m - t)) by (unfold in_uint; lia). unfold t. rewrite wrap_sub_r. f_equal. lia. }
  assert (u32 (MsOffset * k) = MsOffset * k) as -> by (apply wrap_small; unfold in_uint, MsOffset; lia).
  assert (u32 (t + (m - t)) = m) as Eq by (rewrite Z.add_sub_assoc, Z.add_simpl_l; by apply wrap_small).
  assert (0 <= MaxExtraOffsetMs * k / 1000) as Hpos by (apply Z.div_pos; unfold MaxExtraOffsetMs; lia).
  destruct (keyFrameForTsOffsetRequested c).
  - destruct (Z.ltb_spec (MaxExtraOffsetMs * k / 1000) (m - t)) as [Hb|Hb]; rewrite Hsent.
    + by right; right; right.
    + rewrite Eq. destruct (Z.eq_dec t m); [by right; right; left|]. right; left. split; [lia|]. by split.
  - destruct (Z.ltb_spec (MaxExtraOffsetMs * k / 1000) (m - t)) as [Hb|Hb]; [by split|].
    destruct (Z.eqb_spec (m - t) 0) as [Hz|Hz]; rewrite Hsent.
    + right; right; left. assert (t = m) as -> by lia. by split.
    + rewrite Eq. right; left. split; [lia|]. by split.
Qed.

(** A sender report whose time is zero stops the worker.  RTP allows a sender
    without a clock to send it; the timestamps of the stream cannot then be
    compared to those of reference, and the key frame that was awaited to switch
    to it makes an assertion fail. *)
Theorem zero_report_aborts c now indeterminate p payloadType mappedSsrc s r :
  sm_IsActive c = true -> GetPayloadType (vp_packet p) = Ok payloadType -> supported (sm_base c) payloadType = true ->
  GetSsrc (vp_packet p) = Ok mappedSsrc -> mapMappedSsrcSpatialLayer c !! mappedSsrc = Some (targetSpatialLayer (sm_layers c)) ->
  targetTemporalLayer (sm_layers c) <> -1 -> targetSpatialLayer (sm_layers c) <> currentSpatialLayer (sm_layers c) ->
  targetSpatialLayer (sm_layers c) <> tsReferenceSpatialLayer (sm_layers c) -> IsKeyFrame p = true ->
  stream_is (producerRtpStreams c) (tsReferenceSpatialLayer (sm_layers c)) r ->
  stream_is (producerRtpStreams c) (targetSpatialLayer (sm_layers c)) s -> GetSenderReportNtpMs s = 0 ->
  SendRtpPacket now indeterminate p c = Err AssertFailed.
Proof.
  intros Ha Ept Esup Es Em Htt Hcur Href Hk Hr Hs Hz.
  assert (forall c' layer, producerRtpStreams c' = producerRtpStreams c -> sm_layers c' = sm_layers c -> layer = targetSpatialLayer (sm_layers c) ->
    ntp_offset c' layer = Err AssertFailed) as Hn.
  { intros c' layer E1 E2 ->. unfold ntp_offset, GetProducerTsReferenceRtpStream, GetProducerTargetRtpStream. rewrite E2.
    pose proof (stream_is_range _ _ _ Hr). pose proof (stream_is_range _ _ _ Hs).
    rewrite (proj2 (Z.eqb_neq (targetSpatialLayer _) (tsReferenceSpatialLayer _))) by done.
    rewrite (proj2 (Z.eqb_neq (tsReferenceSpatialLayer _) (-1))), (proj2 (Z.eqb_neq (targetSpatialLayer _) (-1))) by lia.
    rewrite (stream_at_is c' (tsReferenceSpatialLayer (sm_layers c)) r), (stream_at_is c' (targetSpatialLayer (sm_layers c)) s) by by rewrite E1.
    do 2 (ostep; cbn [pointed]).
    destruct (truthy (GetSenderReportNtpMs r)); [|done]. ostep. cbn [pointed]. ostep. by rewrite Hz. }
  unfold SendRtpPacket. cbv [mbind act_bind get lift mret act_ret modify skip]. rewrite Ha. cbn [negb].
  rewrite (proj2 (Z.eqb_neq _ _) Htt), Ept. ostep. rewrite Esup. cbn [negb]. rewrite Es. ostep. rewrite Em. ostep.
  rewrite (proj2 (Z.eqb_neq (currentSpatialLayer _) (targetSpatialLayer _))), Z.eqb_refl by done. cbn [negb andb]. rewrite Hk. cbn [negb].
  cbn [syncRequired set_syncRequired andb]. unfold sync_with. cbv [mbind act_bind get lift mret act_ret].
  rewrite Hn by done. done.
Qed.
End props.

(** * A concrete life *)

(** A producer's stream of two temporal layers and a score of 10, known by the time of its sender report. *)
Record sample_stream : Type := SampleStream { report_ms : Z }.

#[export] Instance sample_producer_stream : ProducerStream sample_stream := {
  GetScore _ := 10;
  GetActiveMs _ _ := 5000;
  GetSenderReportNtpMs s := report_ms s;
  GetSenderReportTs s := u32 (report_ms s * 90);
  GetSpatialLayers _ := 1;
  GetTemporalLayers _ := 2;
  GetBitrate _ _ := 500000;
  GetSpatialLayerBitrate _ _ _ := Ok 500000;
  GetLayerBitrate _ _ _ t := Ok (250000 * (t + 1))
}.

#[export] Instance sample_producer_laws : ProducerStreamLaws sample_stream.
Proof.
  split; cbn; try done.
  - intros s now l Hl. by exists 500000.
  - intros s now l t Hl Ht. exists (250000 * (t + 1)). split; [done|]. unfold in_uint. change (2 ^ 32) with 4294967296. lia.
Qed.

Definition sample_base : consumer_base :=
  ConsumerBase true 5555 0 2 2 [1000; 2000] [96] false false 1 true false false false.

Definition sample_send_stream : rtp_stream_send := new_RtpStreamSend (RtpStream.Params 5555 90000 0 0 false) 0 0.

Definition sm_state (o : outcome (unit * simulcast_consumer sample_stream * list consumer_event)) (c : simulcast_consumer sample_stream) :=
  match o with Ok (_, c, _) => c | Err _ => c end.

(** The consumer when it has just been created, and when the first stream came. *)
Definition sample_created : simulcast_consumer sample_stream :=
  SimulcastConsumer (set_scoresSet sample_base true) (<[2000 := 1]> (<[1000 := 0]> ∅)) [None; None] (Layers 1 1 (-1) (-1) (-1) (-1) (-1) (-1) 0)
    false seq_manager_init (CtxVP8 (new_VP8Context (ContextParams 2 2 false))) 0 false sample_send_stream.

Definition sample_with_stream : simulcast_consumer sample_stream :=
  sm_state (sm_handle 100 (NewStreamIn (SampleStream 5000) 1000) sample_created) sample_created.

Lemma sample_is_created : sm_created (Some VP8) sample_base None sample_send_stream sample_created.
Proof.
  split; [done|]. split; [done|]. split; [by apply new_send_inv|]. split; [by vm_compute|]. by eexists _, [].
Qed.

Lemma sample_reachable : sm_reachable (Some VP8) sample_created sample_with_stream.
Proof.
  apply (sm_reachable_step _ _ 100 sample_created (NewStreamIn (SampleStream 5000) 1000) _
    [ScoreEvent 10 0; KeyFrameRequested 1000] (sm_reachable_start _ _)).
  - split; [by vm_compute|]. exists 0. split; vm_compute; reflexivity.
  - vm_compute. reflexivity.
Qed.

Lemma vp8_described : described (Some VP8) vp8_handled.
Proof.
  destruct (ProcessRtpPacket_handled (Some VP8) vp8_packet vp8_packet_arrived) as (q & E & Hq & Hof & _).
  assert (q = vp8_handled) as <-; [|done]. assert (ProcessRtpPacket (Some VP8) vp8_packet = Ok vp8_handled) as E' by by vm_compute. congruence.
Qed.

Lemma simulcast_safe_witness :
  exists c' es, sm_handle 200 (RtpIn 0 vp8_handled) sample_with_stream = Ok ((), c', es) /\ sm_inv (Some VP8) c'.
Proof.
  apply (simulcast_safe (Some VP8) sample_base None sample_send_stream sample_created _ _ _ sample_is_created sample_reachable).
  split; [exact vp8_described|]. exists 1000. split; [vm_compute; reflexivity|]. exists 0. vm_compute. reflexivity.
Defined.

Lemma simulcast_forwards_witness :
  exists c' es, SendRtpPacket 200 0 vp8_handled sample_with_stream = Ok (vp8_handled, c', es) /\
    (exists q, es = [LayersChangeEvent (Some (0, 0)); ScoreEvent 10 10; SendRtp q]) /\
    forall q, SendRtp q ∈ es -> exists p' manager seq ts, processed vp8_handled p' /\
      GetSequenceNumber (vp_packet vp8_handled) = Ok seq /\ GetTimestamp (vp_packet vp8_handled) = Ok ts /\
      (manager = rtpSeqManager sample_with_stream \/ manager = sync_seq (rtpSeqManager sample_with_stream) seq) /\
      rtpSeqManager c' = (input_seq manager seq 0).1 /\
      rtp_wf q /\ GetSsrc q = Ok 5555 /\ GetSequenceNumber q = Ok (input_seq manager seq 0).2 /\
      GetTimestamp q = Ok (u32 (ts - tsOffset c')) /\ payload_bytes q = payload_bytes (vp_packet p').
Proof.
  destruct (simulcast_forwards (Some VP8) sample_base None sample_send_stream sample_created sample_with_stream 200 0 vp8_handled 1000
    sample_is_created sample_reachable vp8_described ltac:(vm_compute; reflexivity)
    ltac:(exists 0; vm_compute; reflexivity) ltac:(by vm_compute) ltac:(by vm_compute)) as (c' & es & E & Hq).
  exists c', es. split; [exact E|]. split; [|exact Hq]. vm_compute in E. injection E as _ <-. eexists. reflexivity.
Defined.

(** A consumer that sent up to timestamp 5000 switches with the key frame of timestamp 100. *)
Definition sample_sent : simulcast_consumer sample_stream :=
  set_rtpStream sample_with_stream (set_stream sample_send_stream
    (RtpStream (RtpStream.Params 5555 90000 0 0 false) 0 0 0 0 5000 0 0 0 0 false 10 [] true 0)).

Lemma switch_timestamps_witness :
  extra_offset sample_sent 100 (u32 (-4000)) = Some 900 /\ u32 (100 - u32 (u32 (-4000) - 900)) = 5000 /\
  (5000 < 4100 /\ 5000 = 4100 \/ 4100 < 5000 /\ 5000 - 4100 <= max_extra_offset sample_sent /\ 5000 = 5000 \/
   4100 = 5000 /\ 5000 = u32 (5000 + MsOffset * 90000 / 1000) \/ false = true /\ max_extra_offset sample_sent < 5000 - 4100 /\ 5000 = u32 (4100 + 1)).
Proof.
  split; [vm_compute; reflexivity|]. split; [vm_compute; reflexivity|].
  exact (switch_timestamps sample_sent 100 (u32 (-4000)) ltac:(by vm_compute) ltac:(by vm_compute)).
Defined.

(** A consumer that waits for a key frame of layer 1, whose stream has no time in its reports. *)
Definition sample_waiting : simulcast_consumer sample_stream :=
  SimulcastConsumer (set_scoresSet sample_base true) (<[2000 := 0]> (<[1000 := 1]> ∅)) [Some (SampleStream 5000); Some (SampleStream 0)]
    (Layers 1 1 (-1) (-1) 1 1 0 0 0) false seq_manager_init (CtxVP8 (new_VP8Context (ContextParams 2 2 false))) 0 false sample_send_stream.

Lemma zero_report_aborts_witness : SendRtpPacket 200 0 vp8_handled sample_waiting = Err AssertFailed.
Proof.
  apply (zero_report_aborts sample_waiting 200 0 vp8_handled 96 1000 (SampleStream 0) (SampleStream 5000));
    first [vm_compute; reflexivity|done].
Defined.
