(* ===== verification/Bitrate.v ===== *)
(** The distribution of the available outgoing bitrate among the consumers of a
    transport (worker/src/RTC/Transport.cpp, DistributeAvailableOutgoingBitrate and
    ComputeOutgoingDesiredBitrate).

    Any kind of consumer takes part, known by the class [BitrateConsumer]; the
    consumers are listed in the order of the iteration over [mapConsumers]. *)

From S2P Require Export Consumer SimulcastConsumer.
From S2P Require SimpleConsumer PipeConsumer SvcConsumer.

(** * What the transport asks of a consumer *)

Class BitrateConsumer (C : Type) : Type := {
  GetBitratePriority : C -> outcome Z;
  IncreaseLayer : Z -> Z -> bool -> act C consumer_event Z;
  ApplyLayers : Z -> act C consumer_event unit;
  GetDesiredBitrate : C -> Z -> outcome Z
}.

Section distribute.
Context {C : Type} `{BitrateConsumer C}.

(** A [std::multimap] from priorities to consumers, known by their index: [emplace]
    inserts after those of the same priority. *)
Fixpoint emplace (priority : Z) (consumer : nat) (m : list (Z * nat)) : list (Z * nat) :=
  match m with
  | [] => [(priority, consumer)]
  | (p, k) :: m' => if p <=? priority then (p, k) :: emplace priority consumer m' else (priority, consumer) :: m
  end.

Fixpoint fill_map (consumers : list C) (idx : nat) (m : list (Z * nat)) : outcome (list (Z * nat)) :=
  match consumers with
  | [] => Ok m
  | c :: rest =>
      priority ← GetBitratePriority c;
      fill_map rest (S idx) (if 0 <? priority then emplace priority idx m else m)
  end.

Notation op := (act (list C) consumer_event).

(** An operation on the consumer of the given index. *)
Definition on_consumer {A} (idx : nat) (m : act C consumer_event A) : op A := fun l =>
  match l !! idx with
  | None => Err OutOfBounds
  | Some c => match m c with Ok (a, c', es) => Ok (a, <[idx := c']> l, es) | Err e => Err e end
  end.

(** [for (uint8_t i{ 1u }; i <= priority; ++i)]: the bitrate left. *)
Fixpoint offer_loop (fuel : nat) (now : Z) (considerLoss : bool) (idx : nat) (priority i available : Z) : op Z :=
  if i <=? priority then
    match fuel with
    | O => lift (Err OutOfFuel)
    | S fuel =>
        used ← on_consumer idx (IncreaseLayer now available considerLoss);
        _ ← lift (require AssertFailed (used <=? available));
        if used =? 0 then mret (available - used)
        else offer_loop fuel now considerLoss idx priority (u8 (i + 1)) (available - used)
    end
  else mret available.

(** A pass over the map, in reverse order. *)
Fixpoint offer_all (fuel : nat) (now : Z) (considerLoss : bool) (m : list (Z * nat)) (available : Z) : op Z :=
  match m with
  | [] => mret available
  | (priority, idx) :: m =>
      available ← offer_loop fuel now considerLoss idx priority 1 available;
      offer_all fuel now considerLoss m available
  end.

(** [while (availableBitrate > 0u)]. *)
Fixpoint share_loop (fuel : nat) (now : Z) (considerLoss : bool) (m : list (Z * nat)) (available : Z) : op Z :=
  if 0 <? available then
    match fuel with
    | O => lift (Err OutOfFuel)
    | S fuel =>
        left ← offer_all (S fuel) now considerLoss m available;
        if left =? available then mret left else share_loop fuel now considerLoss m left
    end
  else mret available.

Fixpoint apply_all (now : Z) (m : list (Z * nat)) : op unit :=
  match m with
  | [] => skip
  | (_, idx) :: m => _ ← on_consumer idx (ApplyLayers now); apply_all now m
  end.

(** [DistributeAvailableOutgoingBitrate], with the bitrate the congestion controller
    says is available ([considerLoss] when it goes by REMB): what is left of it,
    if anyone wanted any. *)
Definition DistributeAvailableOutgoingBitrate (fuel : nat) (now : Z) (considerLoss : bool) (available : Z) : op (option Z) :=
  consumers ← get;
  m ← lift (fill_map consumers 0 []);
  match m with
  | [] => mret None
  | _ =>
      let m := reverse m in
      left ← share_loop fuel now considerLoss m available;
      _ ← apply_all now m;
      mret (Some left)
  end.

(** [ComputeOutgoingDesiredBitrate]: the bitrate given to [SetDesiredBitrate]. *)
Fixpoint ComputeOutgoingDesiredBitrate (now : Z) (consumers : list C) (total : Z) : outcome Z :=
  match consumers with
  | [] => Ok total
  | c :: consumers =>
      desired ← GetDesiredBitrate c now;
      ComputeOutgoingDesiredBitrate now consumers (u32 (total + desired))
  end.
End distribute.

(** * Consumers of any kind *)

Inductive any_consumer (S : Type) : Type :=
| Simple (c : SimpleConsumer.simple_consumer S)
| Simulcast (c : simulcast_consumer S)
| Svc (c : SvcConsumer.svc_consumer S)
| Pipe (c : PipeConsumer.pipe_consumer).

Arguments Simple {S} c.
Arguments Simulcast {S} c.
Arguments Svc {S} c.
Arguments Pipe {S} c.

(** An operation of a kind, as one of any kind. *)
Definition as_any {S D A} (f : D -> any_consumer S) (m : act D consumer_event A) (d : D)
  : outcome (A * any_consumer S * list consumer_event) :=
  match m d with Ok (a, d', es) => Ok (a, f d', es) | Err e => Err e end.

#[export] Instance any_bitrate {S} `{ProducerStream S} : BitrateConsumer (any_consumer S) := {
  GetBitratePriority c :=
    match c with
    | Simple c => SimpleConsumer.GetBitratePriority c
    | Simulcast c => SimulcastConsumer.GetBitratePriority c
    | Svc c => SvcConsumer.GetBitratePriority c
    | Pipe c => PipeConsumer.GetBitratePriority c
    end;
  IncreaseLayer now bitrate considerLoss c :=
    match c with
    | Simple c => as_any Simple (SimpleConsumer.IncreaseLayer now bitrate considerLoss) c
    | Simulcast c => as_any Simulcast (SimulcastConsumer.IncreaseLayer now bitrate considerLoss) c
    | Svc c => as_any Svc (SvcConsumer.IncreaseLayer now bitrate considerLoss) c
    | Pipe c => as_any Pipe (PipeConsumer.IncreaseLayer now bitrate considerLoss) c
    end;
  ApplyLayers now c :=
    match c with
    | Simple c => as_any Simple (SimpleConsumer.ApplyLayers now) c
    | Simulcast c => as_any Simulcast (SimulcastConsumer.ApplyLayers now) c
    | Svc c => as_any Svc (SvcConsumer.ApplyLayers now) c
    | Pipe c => as_any Pipe (PipeConsumer.ApplyLayers now) c
    end;
  GetDesiredBitrate c now :=
    match c with
    | Simple c => SimpleConsumer.GetDesiredBitrate c now
    | Simulcast c => SimulcastConsumer.GetDesiredBitrate c now
    | Svc c => SvcConsumer.GetDesiredBitrate c now
    | Pipe c => PipeConsumer.GetDesiredBitrate c now
    end
}.
