(* ===== verification/BitrateProps.v ===== *)
(** The distribution of the bitrate, for any consumers that keep to the laws of
    [BitrateLaws]: it ends, takes no more than there is, and leaves something
    only when nobody wants it.

    The kinds of consumers keep to the laws of the distribution. *)

From S2P Require Export Bitrate.

(** * What the transport relies on *)

Class BitrateLaws (C : Type) `{BitrateConsumer C} (inv : C -> Prop) (considerLoss : bool) (limit : Z) : Prop := {
  law_priority c : inv c -> exists p, GetBitratePriority c = Ok p /\ in_uint 8 p;
  law_increase c now bitrate p : inv c -> 0 <= bitrate <= limit -> GetBitratePriority c = Ok p -> 0 < p ->
    does (IncreaseLayer now bitrate considerLoss) (fun used c' _ => inv c' /\ 0 <= used <= bitrate /\ GetBitratePriority c' = Ok p) c;
  law_nothing c now bitrate p c' es : inv c -> 0 < bitrate <= limit -> GetBitratePriority c = Ok p -> 0 < p ->
    IncreaseLayer now bitrate considerLoss c = Ok (0, c', es) ->
    exists c'' es', IncreaseLayer now bitrate considerLoss c' = Ok (0, c'', es');
  law_apply c now p : inv c -> GetBitratePriority c = Ok p -> 0 < p ->
    does (ApplyLayers now) (fun _ c' _ => inv c' /\ GetBitratePriority c' = Ok p) c
}.

Section facts.
Context {C : Type} `{BitrateConsumer C} (inv : C -> Prop) (considerLoss : bool) (limit : Z).
Context `{!BitrateLaws C inv considerLoss limit}.

(** The consumers are as they should, and those of the map have the priority it tells. *)
Definition listed (m : list (Z * nat)) (l : list C) : Prop :=
  Forall inv l /\ forall p k, (p, k) ∈ m -> exists c, l !! k = Some c /\ GetBitratePriority c = Ok p /\ 0 < p.

(** The consumer takes nothing of the bitrate. *)
Definition declines (now bitrate : Z) (k : nat) (l : list C) : Prop :=
  exists c c' es, l !! k = Some c /\ IncreaseLayer now bitrate considerLoss c = Ok (0, c', es).

Lemma listed_insert m l k c c' p : listed m l -> (p, k) ∈ m -> l !! k = Some c -> inv c' -> GetBitratePriority c' = Ok p ->
  listed m (<[k := c']> l).
Proof.
  intros [Hall Hm] Hin Hk Hc' Hp. split; [by apply Forall_insert|]. intros q j Hj. destruct (Hm q j Hj) as (d & Hd & Hq & Hpos).
  destruct (decide (k = j)) as [<-|Hne].
  - exists c'. split; [apply list_lookup_insert_eq; by eapply lookup_lt_Some|]. split; [|done].
    destruct (Hm p k Hin) as (c0 & Hc0 & Hp0 & _). rewrite Hp. congruence.
  - exists d. by rewrite list_lookup_insert_ne.
Qed.

(** The others are as they were. *)
Definition only (k : nat) (l l' : list C) : Prop := forall j, j <> k -> l' !! j = l !! j.

Lemma increase_on m l k p now bitrate : listed m l -> (p, k) ∈ m -> 0 <= bitrate <= limit ->
  does (on_consumer k (IncreaseLayer now bitrate considerLoss))
    (fun used l' _ => listed m l' /\ only k l l' /\ 0 <= used <= bitrate /\ (used = 0 -> 0 < bitrate -> declines now bitrate k l')) l.
Proof.
  intros Hl Hin Hb. destruct (proj2 Hl p k Hin) as (c & Hk & Hp & Hpos).
  pose proof (proj1 (Forall_lookup _ _) (proj1 Hl) _ _ Hk) as Hc.
  destruct (law_increase c now bitrate p Hc Hb Hp Hpos) as (used & c' & es & E & Hc' & Hu & Hp').
  exists used, (<[k := c']> l), es. split; [unfold on_consumer; by rewrite Hk, E|].
  split; [by apply (listed_insert m l k c c' p)|]. split; [intros j Hj; by rewrite list_lookup_insert_ne|]. split; [done|].
  intros -> Hpos'. destruct (law_nothing c now bitrate p c' es Hc (conj Hpos' (proj2 Hb)) Hp Hpos E) as (c'' & es' & E'). exists c', c'', es'.
  split; [apply list_lookup_insert_eq; by eapply lookup_lt_Some|done].
Qed.

Lemma only_trans k l l1 l2 : only k l l1 -> only k l1 l2 -> only k l l2.
Proof. intros H1 H2 j Hj. rewrite H2, H1; done. Qed.

Lemma offer_loop_spec m k p now fuel : forall i available l, listed m l -> (p, k) ∈ m -> 0 <= available <= limit ->
  (Z.to_nat available < fuel)%nat ->
  does (offer_loop fuel now considerLoss k p i available)
    (fun left l' _ => listed m l' /\ only k l l' /\ 0 <= left <= available /\ (left = available -> i <= p -> 0 < available -> declines now available k l')) l.
Proof.
  induction fuel as [|fuel IH]; intros i available l Hl Hin Hb Hf; [lia|]. cbn [offer_loop].
  destruct (Z.leb_spec i p) as [Hi|Hi]; [|apply does_ret; split; [done|]; split; [done|]; split; [lia|]; lia].
  does_step. eapply does_weaken; [by apply (increase_on m l k p)|]. intros used l1 es1 (Hl1 & Ho1 & Hu & Hz).
  repeat does_step. rewrite (proj2 (Z.leb_le used available)) by lia. does_by (eq_refl (Ok ())).
  destruct (Z.eqb_spec used 0) as [->|Hne].
  - apply does_ret. rewrite Z.sub_0_r. split; [done|]. split; [done|]. split; [lia|]. intros _ _ ?. by apply Hz.
  - eapply does_weaken; [apply (IH (u8 (i + 1)) (available - used) l1); [done|done|lia|lia]|].
    intros left l2 es2 (Hl2 & Ho2 & Hleft & _). split; [done|]. split; [by eapply only_trans|]. split; [lia|]. lia.
Qed.

Lemma declines_only now bitrate k j l l' : declines now bitrate j l -> only k l l' -> j <> k -> declines now bitrate j l'.
Proof. intros (c & c' & es & Hk & E) Ho Hne. exists c, c', es. by rewrite Ho. Qed.

Lemma offer_all_spec m now fuel : forall m' available l, listed m l -> (forall e, e ∈ m' -> e ∈ m) -> NoDup (snd <$> m') ->
  0 <= available <= limit -> (Z.to_nat available < fuel)%nat ->
  does (offer_all fuel now considerLoss m' available)
    (fun left l' _ => listed m l' /\ (forall j, j ∉ snd <$> m' -> l' !! j = l !! j) /\ 0 <= left <= available /\
       (left = available -> 0 < available -> forall p k, (p, k) ∈ m' -> declines now available k l')) l.
Proof.
  induction m' as [|[p k] m' IH]; intros available l Hl Hsub Hnd Hb Hf; cbn [offer_all].
  { apply does_ret. split; [done|]. split; [done|]. split; [lia|]. intros _ _ p k Hin. by apply not_elem_of_nil in Hin. }
  apply NoDup_cons in Hnd as [Hnk Hnd]. does_step.
  eapply does_weaken; [apply (offer_loop_spec m k p now fuel 1 available l); [done|apply Hsub; left|done|done]|].
  intros left1 l1 es1 (Hl1 & Ho1 & Hb1 & Hd1).
  eapply does_weaken; [apply (IH left1 l1); [done|intros e He; apply Hsub; by right|done|lia|lia]|].
  intros left2 l2 es2 (Hl2 & Ho2 & Hb2 & Hd2). split; [done|]. split; [|split; [lia|]].
  - intros j [Hjk Hj]%not_elem_of_cons. rewrite Ho2 by done. by apply Ho1.
  - intros Heq Hpos q j [[= -> ->]|Hin]%elem_of_cons.
    + assert (1 <= p) as Hp by (destruct (proj2 Hl p k (Hsub _ (list_elem_of_here _ _))) as (? & _ & _ & ?); lia).
      destruct (Hd1 ltac:(lia) Hp Hpos) as (c & c' & es & Hk & E). exists c, c', es. by rewrite Ho2.
    + assert (left1 = available) as E1 by lia. rewrite <- E1. apply (Hd2 ltac:(lia) ltac:(lia) q j Hin).
Qed.

Lemma share_loop_spec m now fuel : forall available l, listed m l -> NoDup (snd <$> m) -> 0 <= available <= limit ->
  (Z.to_nat available < fuel)%nat ->
  does (share_loop fuel now considerLoss m available)
    (fun left l' _ => listed m l' /\ 0 <= left <= available /\
       (left = 0 \/ forall p k, (p, k) ∈ m -> declines now left k l')) l.
Proof.
  induction fuel as [|fuel IH]; intros available l Hl Hnd Hb Hf; [lia|]. cbn [share_loop].
  destruct (Z.ltb_spec 0 available) as [Hpos|Hpos]; [|apply does_ret; split; [done|]; split; [lia|left; lia]].
  does_step. eapply does_weaken; [apply (offer_all_spec m now (Datatypes.S fuel) m available l); done|].
  intros left l1 es1 (Hl1 & _ & Hleft & Hd). destruct (Z.eqb_spec left available) as [->|Hne].
  - apply does_ret. split; [done|]. split; [lia|]. right. by apply Hd.
  - eapply does_weaken; [apply (IH left l1); [done|done|lia|lia]|]. intros left' l2 es2 (? & ? & ?). split; [done|]. split; [lia|done].
Qed.

Lemma apply_all_spec m now : forall m' l, listed m l -> (forall e, e ∈ m' -> e ∈ m) ->
  does (apply_all now m') (fun _ l' _ => listed m l') l.
Proof.
  induction m' as [|[p k] m' IH]; intros l Hl Hsub; cbn [apply_all]; [by apply does_skip|]. does_step.
  destruct (proj2 Hl p k (Hsub _ (list_elem_of_here _ _))) as (c & Hk & Hp & Hpos).
  pose proof (proj1 (Forall_lookup _ _) (proj1 Hl) _ _ Hk) as Hc.
  destruct (law_apply c now p Hc Hp Hpos) as ([] & c' & es & E & Hc' & Hp').
  exists (), (<[k := c']> l), es. split; [unfold on_consumer; by rewrite Hk, E|].
  eapply does_weaken; [apply IH; [apply (listed_insert m l k c c' p); try done; apply Hsub; left|intros e He; apply Hsub; by right]|].
  by intros [] l' es' Hl'.
Qed.

(** ** The map *)

Lemma emplace_perm p k m : emplace p k m ≡ₚ (p, k) :: m.
Proof.
  induction m as [|[q j] m IH]; [done|]. cbn [emplace]. destruct (q <=? p); [|done]. rewrite IH. apply Permutation_swap.
Qed.

Lemma fill_map_spec (all : list C) l : forall idx m, drop idx all = l -> Forall inv all -> listed m all -> NoDup (snd <$> m) ->
  (forall p k, (p, k) ∈ m -> (k < idx)%nat) ->
  exists m', fill_map l idx m = Ok m' /\ listed m' all /\ NoDup (snd <$> m') /\
    (forall k c p, (idx <= k)%nat -> all !! k = Some c -> GetBitratePriority c = Ok p -> 0 < p -> (p, k) ∈ m') /\ (forall e, e ∈ m -> e ∈ m').
Proof.
  induction l as [|c l IH]; intros idx m Hd Hall Hl Hnd Hlt; cbn [fill_map].
  { exists m. split; [done|]. split; [done|]. split; [done|]. split; [|done]. intros k c p Hk Hc. apply lookup_lt_Some in Hc.
    apply (f_equal length) in Hd. rewrite length_drop in Hd. cbn in Hd. lia. }
  assert (all !! idx = Some c) as Hc by by rewrite <- (Nat.add_0_r idx), <- lookup_drop, Hd.
  pose proof (proj1 (Forall_lookup _ _) Hall _ _ Hc) as Hic. destruct (law_priority c Hic) as (p & Hp & _). rewrite Hp. ostep.
  assert (drop (Datatypes.S idx) all = l) as Hd' by (replace (Datatypes.S idx) with (idx + 1)%nat by lia; by rewrite <- drop_drop, Hd).
  set (m1 := if 0 <? p then emplace p idx m else m).
  assert (forall e, e ∈ m1 <-> (0 < p /\ e = (p, idx)) \/ e ∈ m) as Hm1.
  { intros e. unfold m1. destruct (Z.ltb_spec 0 p) as [Hpos|Hneg].
    - rewrite (emplace_perm p idx m), elem_of_cons. tauto.
    - split; [by right|]. intros [[? _]|?]; [lia|done]. }
  destruct (IH (Datatypes.S idx) m1) as (m' & E & Hl' & Hnd' & Hin' & Hsub'); try done.
  - split; [done|]. intros q k [[Hpos [= -> ->]]|Hin]%Hm1; [by exists c|by apply Hl].
  - unfold m1. destruct (0 <? p); [|done]. rewrite (emplace_perm p idx m). cbn. apply NoDup_cons. split; [|done].
    intros ([q k] & -> & Hin)%list_elem_of_fmap. apply Hlt in Hin. cbn in Hin. lia.
  - intros q k [[_ [= _ ->]]|Hin]%Hm1; [lia|]. apply Hlt in Hin. lia.
  - exists m'. split; [done|]. split; [done|]. split; [done|]. split.
    + intros k d q Hk Hd2 Hq Hpos. destruct (decide (k = idx)) as [->|Hne]; [|apply (Hin' k d q); done || lia].
      apply Hsub', Hm1. left. rewrite Hc in Hd2. injection Hd2 as ->. rewrite Hp in Hq. injection Hq as ->. done.
    + intros e He. apply Hsub', Hm1. by right.
Qed.

(** The two phases: the consumers propose layers (state [proposed]) until the
    bitrate left is [n], and then apply them. *)
Definition shared_out fuel now available l n (proposed l' : list C) : Prop :=
  exists m es1 es2, fill_map l 0 [] = Ok m /\
    share_loop fuel now considerLoss (reverse m) available l = Ok (n, proposed, es1) /\
    apply_all now (reverse m) proposed = Ok ((), l', es2).

Lemma distribute_spec fuel now available l : Forall inv l -> 0 <= available <= limit -> (Z.to_nat available < fuel)%nat ->
  does (DistributeAvailableOutgoingBitrate fuel now considerLoss available)
    (fun left l' _ => Forall inv l' /\
       match left with
       | Some n => 0 <= n <= available /\ exists proposed, shared_out fuel now available l n proposed l' /\
           (n = 0 \/ forall k c p, l !! k = Some c -> GetBitratePriority c = Ok p -> 0 < p -> declines now n k proposed)
       | None => l' = l /\ forall c, c ∈ l -> GetBitratePriority c = Ok 0
       end) l.
Proof.
  intros Hl Hb Hf. unfold DistributeAvailableOutgoingBitrate. repeat does_step.
  destruct (fill_map_spec l l 0 [] eq_refl Hl) as (m & E & Hm & Hnd & Hin & _).
  { split; [done|]. by intros p k ?%not_elem_of_nil. }
  { constructor. }
  { by intros p k ?%not_elem_of_nil. }
  does_by E. destruct m as [|e m0].
  { repeat does_step. split; [done|]. split; [done|]. intros c (k & Hk)%list_elem_of_lookup.
    destruct (law_priority c (proj1 (Forall_lookup _ _) Hl _ _ Hk)) as (p & Hp & Hr). destruct (Z.eq_dec p 0) as [->|Hne]; [done|].
    unfold in_uint in Hr. by pose proof (Hin k c p ltac:(lia) Hk Hp ltac:(lia)) as ?%not_elem_of_nil. }
  set (m := e :: m0) in *. repeat does_step.
  assert (listed (reverse m) l) as Hrev by (split; [done|]; intros p k Hpk; apply Hm; by rewrite elem_of_reverse in Hpk).
  assert (NoDup (snd <$> reverse m)) as Hndr.
  { by rewrite fmap_reverse, (reverse_Permutation (snd <$> m)). }
  destruct (share_loop_spec (reverse m) now fuel available l Hrev Hndr Hb Hf) as (left & l1 & es1 & E1 & Hl1 & Hleft & Hd).
  exists left, l1, es1. split; [exact E1|].
  destruct (apply_all_spec (reverse m) now (reverse m) l1 Hl1) as ([] & l2 & es2 & E2 & Hl2); [done|].
  apply does_bind. exists (), l2, es2. split; [exact E2|]. repeat does_step. split; [apply Hl2|]. split; [done|].
  exists l1. split; [by exists m, es1, es2|]. destruct Hd as [?|Hd]; [by left|right]. intros k c p Hk Hp Hpos.
  apply (Hd p). rewrite elem_of_reverse. by apply (Hin k c p); [lia|..].
Qed.
End facts.

From S2P Require Export SimulcastProps.

#[local] Arguments truthy : simpl never.

(** * Any kind *)

(** The virtual bitrate can be computed for what is available. *)
Definition virtual_ok (considerLoss : bool) (limit : Z) (st : rtp_stream_send) : Prop :=
  forall bitrate, 0 <= bitrate <= limit -> exists v, virtual_bitrate st bitrate considerLoss = Ok v.

Lemma virtual_without_loss limit st : virtual_ok false limit st.
Proof. intros bitrate _. by exists bitrate. Qed.

Definition managed (b : consumer_base) : Prop := externallyManagedBitrate b = true /\ in_uint 8 (priority b).

Section any.
Context {S : Type} `{ProducerStreamLaws S} (considerLoss : bool) (limit : Z).

(** A consumer whose bitrate the transport manages. *)
Definition any_inv (c : any_consumer S) : Prop :=
  match c with
  | Simple c => managed (SimpleConsumer.si_base c)
  | Simulcast c => managed (sm_base c) /\ virtual_ok considerLoss limit (rtpStream c) /\ exists codec, sm_inv codec c
  | Svc c => managed (SvcConsumer.sv_base c) /\ virtual_ok considerLoss limit (SvcConsumer.rtpStream c) /\
      mappedSsrcs (SvcConsumer.sv_base c) <> []
  | Pipe _ => True
  end.

(** What an operation of a kind does, as one of any kind. *)
Lemma as_any_does {A D} (f : D -> any_consumer S) (m : act D consumer_event A) (Q : A -> any_consumer S -> list consumer_event -> Prop) d :
  does m (fun a d' es => Q a (f d') es) d -> exists a c' es, as_any f m d = Ok (a, c', es) /\ Q a c' es.
Proof. intros (a & d' & es & E & HQ). exists a, (f d'), es. unfold as_any. by rewrite E. Qed.

(** ** Simple consumers *)

Section simple.
Import SimpleConsumer.

Lemma simple_priority (c : simple_consumer S) p : GetBitratePriority c = Ok p -> 0 < p ->
  externallyManagedBitrate (si_base c) = true /\ video (si_base c) = true /\ si_IsActive c = true /\
  exists s, producerRtpStream c = Some s.
Proof.
  unfold GetBitratePriority. destruct (externallyManagedBitrate _) eqn:E1; [|done]. ostep. destruct (video _) eqn:E2; cbn [negb]; [|intros [= <-]; lia].
  destruct (si_IsActive c) eqn:E3; [|intros [= <-]; lia]. intros _ _. do 3 (split; [done|]).
  unfold si_IsActive in E3. apply andb_true_iff in E3 as [_ E3]. destruct (producerRtpStream c) as [s|]; [by exists s|done].
Qed.

Lemma simple_increase c now bitrate p : managed (si_base c) -> 0 <= bitrate -> GetBitratePriority c = Ok p -> 0 < p ->
  does (IncreaseLayer now bitrate considerLoss)
    (fun used c' _ => managed (si_base c') /\ 0 <= used <= bitrate /\ GetBitratePriority c' = Ok p) c.
Proof.
  intros Hm Hb Hp Hpos. destruct (simple_priority c p Hp Hpos) as (E1 & E2 & E3 & s & E4).
  unfold IncreaseLayer. repeat does_step. rewrite E1, E2, E3. do 3 does_by (eq_refl (Ok ())).
  destruct (managingBitrate c); repeat does_step; [split; [done|]; split; [lia|done]|].
  unfold producer_bitrate. rewrite E4. does_by (eq_refl (Ok (GetBitrate s now))).
  split; [done|]. pose proof (bitrate_range s now) as Hr. unfold in_uint in Hr. split; [destruct (Z.ltb_spec (GetBitrate s now) bitrate); lia|done].
Qed.

Lemma simple_nothing c now bitrate c' es : IncreaseLayer now bitrate considerLoss c = Ok (0, c', es) ->
  exists c'' es', IncreaseLayer now bitrate considerLoss c' = Ok (0, c'', es').
Proof.
  unfold IncreaseLayer. cbv [mbind act_bind get lift mret act_ret modify]. intros E.
  destruct (externallyManagedBitrate (si_base c)) eqn:E1; [|done]. destruct (video (si_base c)) eqn:E2; [|done].
  destruct (si_IsActive c) eqn:E3; [|done]. cbn in E. destruct (managingBitrate c) eqn:E4.
  - injection E as <- _. rewrite E1, E2, E3. cbn. rewrite E4. by eexists _, _.
  - destruct (producer_bitrate c now) as [d|]; [|done]. cbn in E. injection E as _ <- _.
    assert (si_IsActive (set_managingBitrate c true) = true) as -> by exact E3. cbn. rewrite E1, E2. cbn. by eexists _, _.
Qed.

Lemma simple_apply c now p : managed (si_base c) -> GetBitratePriority c = Ok p -> 0 < p ->
  does (ApplyLayers now) (fun _ c' _ => managed (si_base c') /\ GetBitratePriority c' = Ok p) c.
Proof.
  intros Hm Hp Hpos. destruct (simple_priority c p Hp Hpos) as (E1 & E2 & E3 & _).
  unfold ApplyLayers. repeat does_step. rewrite E1, E2, E3. do 3 does_by (eq_refl (Ok ())). by split.
Qed.
End simple.

(** ** Simulcast consumers *)

Definition simulcast_ready (c : simulcast_consumer S) : Prop :=
  managed (sm_base c) /\ virtual_ok considerLoss limit (rtpStream c) /\ exists codec, sm_inv codec c.

Lemma simulcast_priority (c : simulcast_consumer S) p : SimulcastConsumer.GetBitratePriority c = Ok p -> 0 < p ->
  externallyManagedBitrate (sm_base c) = true /\ sm_IsActive c = true.
Proof.
  unfold SimulcastConsumer.GetBitratePriority. destruct (externallyManagedBitrate _); [|done]. ostep.
  destruct (sm_IsActive c); [done|]. intros [= <-]. lia.
Qed.

Lemma simulcast_same (c c' : simulcast_consumer S) p : same_but_layers c c' -> SimulcastConsumer.GetBitratePriority c = Ok p ->
  SimulcastConsumer.GetBitratePriority c' = Ok p.
Proof. unfold SimulcastConsumer.GetBitratePriority, sm_IsActive. by intros (-> & -> & _). Qed.

Lemma simulcast_ready_same codec c c' : simulcast_ready c -> sm_inv codec c' -> same_but_layers c c' -> simulcast_ready c'.
Proof. intros (Hm & Hv & _) Hc' (Eb & _ & Es). unfold simulcast_ready. rewrite Eb, Es. split; [done|]. split; [done|]. by exists codec. Qed.

Lemma simulcast_increase c now bitrate p : simulcast_ready c -> 0 <= bitrate <= limit ->
  SimulcastConsumer.GetBitratePriority c = Ok p -> 0 < p ->
  does (SimulcastConsumer.IncreaseLayer now bitrate considerLoss)
    (fun used c' _ => simulcast_ready c' /\ 0 <= used <= bitrate /\ SimulcastConsumer.GetBitratePriority c' = Ok p) c.
Proof.
  intros Hready Hb Hp Hpos. pose proof Hready as (_ & Hv & codec & Hc). destruct (simulcast_priority c p Hp Hpos) as [Em Ea].
  destruct (Hv bitrate Hb) as [virtual Ev]. eapply does_weaken; [apply (IncreaseLayer_spec codec c now bitrate considerLoss virtual); done || lia|].
  intros used c' es ([Hc' _] & Hsame & Hu & _). split; [by eapply simulcast_ready_same|]. split; [lia|by eapply simulcast_same].
Qed.

Lemma simulcast_nothing c now bitrate p c' es : simulcast_ready c -> 0 < bitrate <= limit ->
  SimulcastConsumer.GetBitratePriority c = Ok p -> 0 < p ->
  SimulcastConsumer.IncreaseLayer now bitrate considerLoss c = Ok (0, c', es) ->
  exists c'' es', SimulcastConsumer.IncreaseLayer now bitrate considerLoss c' = Ok (0, c'', es').
Proof.
  intros (_ & Hv & codec & Hc) Hb Hp Hpos E. destruct (simulcast_priority c p Hp Hpos) as [Em Ea].
  destruct (Hv bitrate ltac:(lia)) as [virtual Ev].
  destruct (does_run _ _ _ _ _ _ (IncreaseLayer_spec codec c now bitrate considerLoss virtual Hc Em Ea ltac:(lia) Ev) E) as (_ & _ & _ & [->|?]);
    [done|by exists c, es|lia].
Qed.

Lemma simulcast_apply c now p : simulcast_ready c -> SimulcastConsumer.GetBitratePriority c = Ok p -> 0 < p ->
  does (SimulcastConsumer.ApplyLayers now) (fun _ c' _ => simulcast_ready c' /\ SimulcastConsumer.GetBitratePriority c' = Ok p) c.
Proof.
  intros Hready Hp Hpos. pose proof Hready as (_ & _ & codec & Hc). destruct (simulcast_priority c p Hp Hpos) as [Em Ea].
  eapply does_weaken; [by apply (ApplyLayers_spec codec)|]. intros [] c' es [[Hc' _] Hsame].
  split; [by eapply simulcast_ready_same|by eapply simulcast_same].
Qed.

(** ** SVC consumers *)

Section svc.
Import SvcConsumer.

Definition svc_ready (c : svc_consumer S) : Prop :=
  managed (sv_base c) /\ virtual_ok considerLoss limit (rtpStream c) /\ mappedSsrcs (sv_base c) <> [].

Lemma svc_priority (c : svc_consumer S) p : GetBitratePriority c = Ok p -> 0 < p ->
  externallyManagedBitrate (sv_base c) = true /\ sv_IsActive c = true /\ exists s, producerRtpStream c = Some s /\ 0 < GetScore s.
Proof.
  unfold GetBitratePriority. destruct (externallyManagedBitrate _); [|done]. ostep.
  destruct (sv_IsActive c) eqn:E; [|intros [= <-]; lia]. intros _ _. do 2 (split; [done|]).
  unfold sv_IsActive in E. apply andb_true_iff in E as [_ E]. destruct (producerRtpStream c) as [s|]; [|done]. exists s. split; [done|]. lia.
Qed.

Lemma svc_temporal_loop c s now layer temporals : 0 <= layer < GetSpatialLayers s ->
  Forall (fun t => 0 <= t < GetTemporalLayers s) temporals ->
  exists r, temporal_loop c s now layer temporals = Ok r /\ forall t b, r = Some (t, b) -> 0 < b.
Proof.
  intros Hl. induction temporals as [|t rest IH]; intros Ht; [by exists None|]. apply Forall_cons in Ht as [Ht Hrest].
  cbn [temporal_loop]. destruct (_ && _); [by apply IH|]. destruct (layer_bitrate s now layer t Hl Ht) as (b & -> & Hb). ostep.
  eexists. split; [done|]. intros t' b'. destruct (truthy b) eqn:Eb; [|done]. apply truthy_true in Eb. intros [= _ <-].
  unfold in_uint in Hb. lia.
Qed.

Lemma svc_increase_loop c s now spatials : Forall (fun l => 0 <= l < GetSpatialLayers s) spatials ->
  exists r, increase_loop c s now spatials = Ok r /\ forall l t b, r = Some (l, t, b) -> 0 < b.
Proof.
  induction spatials as [|l rest IH]; intros Hl; [by exists None|]. apply Forall_cons in Hl as [Hl Hrest].
  cbn [increase_loop]. destruct (_ && _ && _); [by exists None|]. destruct (l <? _); [by apply IH|].
  destruct (svc_temporal_loop c s now l (seqZ 0 (GetTemporalLayers s)) Hl) as (r & -> & Hr).
  { apply Forall_forall. intros t Ht%elem_of_seqZ. lia. }
  ostep. destruct r as [[t b]|].
  - eexists. split; [done|]. intros l' t' b' [= _ _ <-]. by eapply Hr.
  - destruct (_ <=? _); [by exists None|by apply IH].
Qed.

Lemma svc_increase_spec c now bitrate p : svc_ready c -> 0 <= bitrate <= limit -> GetBitratePriority c = Ok p -> 0 < p ->
  does (IncreaseLayer now bitrate considerLoss) (fun used c' _ => svc_ready c' /\ 0 <= used <= bitrate /\ GetBitratePriority c' = Ok p /\
    (used = 0 -> c' = c \/ bitrate = 0)) c.
Proof.
  intros Hready Hb Hp Hpos. pose proof Hready as (_ & Hv & _). destruct (svc_priority c p Hp Hpos) as (E1 & E2 & s & Es & Hscore).
  assert (svc_ready c /\ 0 <= 0 <= bitrate /\ GetBitratePriority c = Ok p /\ (0 = 0 -> c = c \/ bitrate = 0)) as Hnone.
  { split; [done|]. split; [lia|]. split; [done|by left]. }
  unfold IncreaseLayer. repeat does_step. rewrite E1, E2, Es. do 2 does_by (eq_refl (Ok ())). does_by (eq_refl (Ok s)).
  destruct (GetScore s =? 0); repeat does_step; [exact Hnone|]. destruct (_ && _); repeat does_step; [exact Hnone|].
  destruct (Hv bitrate Hb) as [virtual Ev]. does_by Ev.
  destruct (svc_increase_loop c s now (seqZ 0 (GetSpatialLayers s))) as (r & E & Hr).
  { apply Forall_forall. intros l Hl%elem_of_seqZ. lia. }
  does_by E. destruct r as [[[l t] required]|]; repeat does_step; [|exact Hnone].
  pose proof (Hr _ _ _ eq_refl) as Hreq. destruct (Z.ltb_spec virtual required); repeat does_step; [exact Hnone|].
  split; [exact Hready|]. split; [apply used_bitrate_range; lia|]. split; [exact Hp|]. intros Hz. right.
  unfold used_bitrate in Hz. destruct (Z.leb_spec required bitrate); [lia|]. destruct (Z.leb_spec required virtual); lia.
Qed.

Lemma svc_nothing c now bitrate p c' es : svc_ready c -> 0 < bitrate <= limit -> GetBitratePriority c = Ok p -> 0 < p ->
  IncreaseLayer now bitrate considerLoss c = Ok (0, c', es) -> exists c'' es', IncreaseLayer now bitrate considerLoss c' = Ok (0, c'', es').
Proof.
  intros Hready Hb Hp Hpos E.
  destruct (does_run _ _ _ _ _ _ (svc_increase_spec c now bitrate _ Hready ltac:(lia) Hp Hpos) E) as (_ & _ & _ & [->|?]);
    [done|by exists c, es|lia].
Qed.

(** Only the layers of the context change. *)
Lemma svc_update (c : svc_consumer S) spatial temporal : mappedSsrcs (sv_base c) <> [] ->
  does (UpdateTargetLayers spatial temporal) (fun _ c' _ => sv_base c' = sv_base c /\ producerRtpStream c' = producerRtpStream c /\
    rtpStream c' = rtpStream c) c.
Proof.
  intros Hne. assert (forall c1 : svc_consumer S, sv_base c1 = sv_base c -> producerRtpStream c1 = producerRtpStream c -> rtpStream c1 = rtpStream c ->
    does RequestKeyFrame (fun _ c' _ => sv_base c' = sv_base c /\ producerRtpStream c' = producerRtpStream c /\ rtpStream c' = rtpStream c) c1) as Hreq.
  { intros c1 E1 E2 E3. unfold RequestKeyFrame. repeat does_step. rewrite E1. destruct (video _); repeat does_step; [|done].
    destruct (mappedSsrcs (sv_base c)) as [|ssrc l]; [done|]. by does_by (eq_refl (Ok ssrc)). }
  unfold UpdateTargetLayers, map_context, EmitLayersChange. destruct (spatial =? -1); repeat does_step; [done|].
  destruct (negb _); repeat does_step; [|done]. destruct (ksvc _); [by apply Hreq|]. destruct (_ <? _); [by apply Hreq|by repeat does_step].
Qed.

Lemma svc_apply c now p : svc_ready c -> GetBitratePriority c = Ok p -> 0 < p ->
  does (ApplyLayers now) (fun _ c' _ => svc_ready c' /\ GetBitratePriority c' = Ok p) c.
Proof.
  intros Hready Hp Hpos. destruct (svc_priority c p Hp Hpos) as (E1 & E2 & _).
  assert (forall c', sv_base c' = sv_base c -> producerRtpStream c' = producerRtpStream c -> rtpStream c' = rtpStream c ->
    svc_ready c' /\ GetBitratePriority c' = Ok p) as Hsame.
  { intros c' F1 F2 F3. unfold svc_ready, GetBitratePriority, sv_IsActive in *. by rewrite F1, F2, F3. }
  unfold ApplyLayers. repeat does_step. rewrite E1, E2. do 2 does_by (eq_refl (Ok ())).
  destruct (_ || _); repeat does_step; [|by apply Hsame]. eapply does_weaken; [apply svc_update, Hready|].
  intros [] c1 es (F1 & F2 & F3). repeat does_step. destruct (_ && _ && _); by apply Hsame.
Qed.
End svc.

(** * The laws *)

#[export] Instance any_laws : BitrateLaws (any_consumer S) any_inv considerLoss limit.
Proof.
  split.
  - intros [c|c|c|c] Hc; cbn in *.
    + destruct Hc as [Em Hp]. unfold SimpleConsumer.GetBitratePriority. rewrite Em. ostep.
      eexists. split; [done|]. by destruct (video _), (SimpleConsumer.si_IsActive c).
    + destruct Hc as ([Em Hp] & _). unfold SimulcastConsumer.GetBitratePriority. rewrite Em. ostep.
      eexists. split; [done|]. by destruct (sm_IsActive c).
    + destruct Hc as ([Em Hp] & _). unfold SvcConsumer.GetBitratePriority. rewrite Em. ostep.
      eexists. split; [done|]. by destruct (SvcConsumer.sv_IsActive c).
    + by exists 0.
  - intros [c|c|c|c] now bitrate p Hc Hb Hp Hpos; cbn in *.
    + apply as_any_does. by apply simple_increase; [|lia|..].
    + apply as_any_does. by apply simulcast_increase.
    + apply as_any_does. eapply does_weaken; [by apply (svc_increase_spec c now bitrate p)|]. by intros used c' es (? & ? & ? & _).
    + injection Hp as <-. lia.
  - intros [c|c|c|c] now bitrate p c' es Hc Hb Hp Hpos E; cbn in *; unfold as_any in E.
    + destruct (SimpleConsumer.IncreaseLayer _ _ _ c) as [[[u d] es1]|] eqn:E1; [|done]. injection E as -> <- <-.
      destruct (simple_nothing c now bitrate d es1 E1) as (d' & es' & E'). exists (Simple d'), es'. unfold as_any. by rewrite E'.
    + destruct (SimulcastConsumer.IncreaseLayer _ _ _ c) as [[[u d] es1]|] eqn:E1; [|done]. injection E as -> <- <-.
      destruct (simulcast_nothing c now bitrate p d es1 Hc Hb Hp Hpos E1) as (d' & es' & E'). exists (Simulcast d'), es'. unfold as_any. by rewrite E'.
    + destruct (SvcConsumer.IncreaseLayer _ _ _ c) as [[[u d] es1]|] eqn:E1; [|done]. injection E as -> <- <-.
      destruct (svc_nothing c now bitrate p d es1 Hc Hb Hp Hpos E1) as (d' & es' & E'). exists (Svc d'), es'. unfold as_any. by rewrite E'.
    + injection Hp as <-. lia.
  - intros [c|c|c|c] now p Hc Hp Hpos; cbn in *.
    + apply as_any_does. by apply simple_apply.
    + apply as_any_does. by apply simulcast_apply.
    + apply as_any_does. by apply svc_apply.
    + injection Hp as <-. lia.
Qed.

(** C12: the distribution of the bitrate ends, whatever the priorities, and no
    assertion fails.  The consumers together take at most what is available.  What
    is left when the loop ends is left because each consumer that asked for some,
    as it stands then (with the layers it has proposed and is about to apply),
    takes none of it; and when nobody asks, nothing changes. *)
Theorem bitrate_distributed now available (consumers : list (any_consumer S)) : Forall any_inv consumers -> 0 <= available <= limit ->
  let fuel := Datatypes.S (Z.to_nat available) in
  exists r consumers' es,
    DistributeAvailableOutgoingBitrate fuel now considerLoss available consumers = Ok (r, consumers', es) /\
    Forall any_inv consumers' /\
    match r with
    | Some n => 0 <= n <= available /\ exists proposed, shared_out considerLoss fuel now available consumers n proposed consumers' /\
        (n = 0 \/ forall k c p, consumers !! k = Some c -> Bitrate.GetBitratePriority c = Ok p -> 0 < p ->
           declines considerLoss now n k proposed)
    | None => consumers' = consumers /\ forall c, c ∈ consumers -> Bitrate.GetBitratePriority c = Ok 0
    end.
Proof.
  intros Hc Hb fuel. destruct (distribute_spec any_inv considerLoss limit fuel now available consumers Hc Hb)
    as (r & l' & es & E & Hl' & Hr); [lia|]. by exists r, l', es.
Qed.
End any.

(** * A concrete distribution *)

(** A simulcast consumer whose streams both have sender reports, and a simple one, share 700000 bits per second. *)
Definition sample_managed : simulcast_consumer sample_stream :=
  SimulcastConsumer (set_managed (set_scoresSet sample_base true) true 2) (<[2000 := 1]> (<[1000 := 0]> ∅))
    [Some (SampleStream 5000); Some (SampleStream 6000)] (Layers 1 1 (-1) (-1) (-1) (-1) (-1) (-1) 0) false seq_manager_init
    (CtxVP8 (new_VP8Context (ContextParams 2 2 false))) 0 false sample_send_stream.

Definition sample_simple : SimpleConsumer.simple_consumer sample_stream :=
  SimpleConsumer.SimpleConsumer (set_managed (set_scoresSet sample_base true) true 1) (Some (SampleStream 5000)) true false seq_manager_init
    false sample_send_stream.

Lemma sample_managed_inv : sm_inv (Some VP8) sample_managed.
Proof.
  split.
  - reflexivity.
  - intros ms l Hl. change (<[2000 := 1]> (<[1000 := 0]> (∅ : gmap Z Z)) !! ms = Some l) in Hl. change (0 <= l < 2).
    apply lookup_insert_Some in Hl as [[_ <-]|[_ [[_ <-]|[_ Hn]]%lookup_insert_Some]]; [lia..|by rewrite lookup_empty in Hn].
  - intros i s _. by vm_compute.
  - reflexivity.
  - by split.
  - exact I.
  - split; cbn; [lia|by left..].
  - by apply new_send_inv.
  - by split.
  - intros [|[|i]] s Hs; [injection Hs as <-; by split..|by destruct i].
Qed.

Lemma sample_any_inv : Forall (any_inv false (2 ^ 31)) [Simulcast sample_managed; Simple sample_simple].
Proof.
  apply Forall_cons_2; [|apply Forall_singleton; by split]. split; [by split|]. split; [apply virtual_without_loss|].
  exists (Some VP8). exact sample_managed_inv.
Qed.

(** Layer 0:0 of the simulcast consumer, then 0:1, and what is left for the simple one. *)
Lemma bitrate_distributed_witness :
  exists consumers' es,
    DistributeAvailableOutgoingBitrate (Datatypes.S (Z.to_nat 1000000)) 20000 false 1000000 [Simulcast sample_managed; Simple sample_simple] =
      Ok (Some 0, consumers', es) /\
    Forall (any_inv false (2 ^ 31)) consumers' /\ es = [KeyFrameRequested 1000].
Proof.
  destruct (bitrate_distributed false (2 ^ 31) 20000 1000000 _ sample_any_inv) as (r & l' & es & E & Hl' & _); [lia|].
  exists l', es. assert (match DistributeAvailableOutgoingBitrate (Datatypes.S (Z.to_nat 1000000)) 20000 false 1000000
    [Simulcast sample_managed; Simple sample_simple] with Ok (r, _, es) => Some (r, es) | Err _ => None end = Some (Some 0, [KeyFrameRequested 1000]))
    as Er by (vm_compute; reflexivity).
  rewrite E in Er. injection Er as -> ->. split; [exact E|]. split; [exact Hl'|reflexivity].
Defined.
