(* ===== verification/Rtcp.v ===== *)
(** What RTCP packets have in common (worker/src/RTC/RTCP/Packet.cpp,
    Feedback.cpp, FeedbackRtp.cpp and worker/include/RTC/RTCP/Packet.hpp,
    Feedback.hpp, FeedbackItem.hpp): the common header, the header of feedback
    packets, and packets that are a list of items.

    A packet is parsed from the bytes of a datagram from its common header on,
    with the length that [Packet::Parse] has taken from that header. *)

From S2P Require Export Readers.

(** * The common header *)

Definition CommonHeaderSize : Z := 4.
Definition FeedbackHeaderSize : Z := 8.
Definition BufferSize : Z := 65536.

Definition header_count (m : list Z) : outcome Z := b ← get1 m 0; Ok (Z.land b 31).
Definition header_version (m : list Z) : outcome Z := b ← get1 m 0; Ok (Z.shiftr b 6).
Definition header_packetType (m : list Z) : outcome Z := get1 m 1.
Definition header_length (m : list Z) : outcome Z := Get2Bytes m 2.

(** [static_cast<size_t>(ntohs(header->length) + 1) * 4]. *)
Definition packet_length (m : list Z) : outcome Z := length ← header_length m; Ok ((length + 1) * 4).

Definition IsRtcp (m : list Z) (len : Z) : outcome bool :=
  if len <? CommonHeaderSize then Ok false
  else
    b ← get1 m 0;
    if negb ((127 <? b) && (b <? 192)) then Ok false
    else
      version ← header_version m;
      if negb (version =? 2) then Ok false
      else
        packetType ← header_packetType m;
        Ok ((192 <=? packetType) && (packetType <=? 223)).

(** [Packet::Serialize]: [count], [type] and [size] are what [GetCount], [GetType]
    and [GetSize] return.  The buffer, and the offset after what was written. *)
Definition SerializeCommon (count type size : Z) (m : list Z) (off : Z) : outcome (list Z * Z) :=
  let length := size / 4 - 1 in
  m ← set1 m off (Z.lor (Z.shiftl 2 6) (Z.land (u8 count) 31));
  m ← set1 m (off + 1) (u8 type);
  m ← Set2Bytes m (off + 2) length;
  Ok (m, off + CommonHeaderSize).

(** * Feedback packets *)

Definition RTPFB : Z := 205.
Definition PSFB : Z := 206.

Record feedback_header : Type := FeedbackHeader {
  messageType : Z;
  senderSsrc : Z;
  mediaSsrc : Z
}.

(** The constructor from a common header that is followed by a feedback header. *)
Definition ParseFeedbackHeader (m : list Z) : outcome feedback_header :=
  count ← header_count m;
  sender ← Get4Bytes m 4;
  media ← Get4Bytes m 8;
  Ok (FeedbackHeader count sender media).

Definition SerializeFeedback (h : feedback_header) (type size : Z) (m : list Z) (off : Z) : outcome (list Z * Z) :=
  '(m, off) ← SerializeCommon (messageType h) type size m off;
  m ← Set4Bytes m off (senderSsrc h);
  m ← Set4Bytes m (off + 4) (mediaSsrc h);
  Ok (m, off + FeedbackHeaderSize).

(** * Packets of items *)

Section items.
(** An item: how it is read from the given offset on with the bytes that are
    left, how many bytes it takes, and how it is written. *)
Context {A : Type}.
Variable ParseItem : list Z -> Z -> Z -> outcome (option A).
Variable ItemSize : A -> Z.
Variable SerializeItem : A -> list Z -> Z -> outcome (list Z * Z).

(** [while (len > offset)]: stops at the first item that is not there. *)
Fixpoint parse_items (fuel : nat) (m : list Z) (len offset : Z) : outcome (list A) :=
  if offset <? len then
    match fuel with
    | O => Err OutOfFuel
    | S fuel =>
        item ← ParseItem m offset (len - offset);
        match item with
        | None => Ok []
        | Some item => items ← parse_items fuel m len (offset + ItemSize item); Ok (item :: items)
        end
    end
  else Ok [].

Definition ParseItems (m : list Z) (len : Z) : outcome (feedback_header * list A) :=
  if len <? CommonHeaderSize + FeedbackHeaderSize then Err Rejected
  else
    h ← ParseFeedbackHeader m;
    items ← parse_items (Z.to_nat len) m len (CommonHeaderSize + FeedbackHeaderSize);
    Ok (h, items).

Definition ItemsSize (items : list A) : Z :=
  CommonHeaderSize + FeedbackHeaderSize + foldr (fun i n => ItemSize i + n) 0 items.

Fixpoint serialize_items (items : list A) (m : list Z) (off : Z) : outcome (list Z * Z) :=
  match items with
  | [] => Ok (m, off)
  | i :: items => '(m, off) ← SerializeItem i m off; serialize_items items m off
  end.

Definition SerializeItems (h : feedback_header) (type : Z) (items : list A) (m : list Z) (off : Z)
  : outcome (list Z * Z) :=
  '(m, off) ← SerializeFeedback h type (ItemsSize items) m off;
  serialize_items items m off.
End items.

(** * What a serializer writes *)

(** [f] writes the bytes [bs] wherever there is room for them. *)
Definition emits (f : list Z -> Z -> outcome (list Z * Z)) (bs : list Z) : Prop :=
  forall m off, 0 <= off -> off + zlen bs <= zlen m ->
    exists m', f m off = Ok (m', off + zlen bs) /\ write m off bs = Ok m'.

Lemma emits_nil : emits (fun m off => Ok (m, off)) [].
Proof.
  intros m off H0 H. change (zlen (@nil Z)) with 0 in *. exists m. rewrite Z.add_0_r. split; [done|].
  apply write_nil. lia.
Qed.

Lemma emits_app f g a b : emits f a -> emits g b ->
  emits (fun m off => '(m, off) ← f m off; g m off) (a ++ b).
Proof.
  intros Hf Hg m off H0 H. rewrite zlen_app in *. pose proof (zlen_nonneg b). pose proof (zlen_nonneg a).
  destruct (Hf m off H0) as (m1 & E1 & W1); [lia|]. rewrite E1. ostep.
  pose proof (zlen_write _ _ _ _ W1) as L.
  destruct (Hg m1 (off + zlen a)) as (m2 & E2 & W2); [lia|lia|]. exists m2. rewrite E2. split; [|by eapply write_app].
  do 2 f_equal. lia.
Qed.

Lemma emits_set n (set : list Z -> Z -> Z -> outcome (list Z)) v :
  (forall m i v, set m i v = write m i (be_bytes n v)) ->
  emits (fun m off => m ← set m off v; Ok (m, off + Z.of_nat n)) (be_bytes n v).
Proof.
  intros Hset m off H0 H. rewrite zlen_be_bytes in *. rewrite Hset.
  destruct (write_in_bounds m off (be_bytes n v)) as (m' & Hm'); [done|by rewrite zlen_be_bytes|].
  exists m'. rewrite Hm'. by ostep.
Qed.

Lemma emits_set1 v : emits (fun m off => m ← set1 m off v; Ok (m, off + 1)) [v].
Proof.
  intros m off H0 H. rewrite zlen_one in *. unfold set1.
  destruct (write_in_bounds m off [v]) as (m' & Hm'); [done|by rewrite zlen_one|].
  exists m'. rewrite Hm'. by ostep.
Qed.

Lemma emits_ext f g bs : (forall m off, f m off = g m off) -> emits g bs -> emits f bs.
Proof. intros E H m off H0 Hl. rewrite E. by apply H. Qed.

(** The bytes of the headers. *)
Definition common_bytes (count type size : Z) : list Z :=
  [Z.lor 128 (Z.land (u8 count) 31); u8 type] ++ be_bytes 2 (size / 4 - 1).

Definition feedback_bytes (h : feedback_header) (type size : Z) : list Z :=
  common_bytes (messageType h) type size ++ be_bytes 4 (senderSsrc h) ++ be_bytes 4 (mediaSsrc h).

Lemma SerializeCommon_emits count type size : emits (SerializeCommon count type size) (common_bytes count type size).
Proof.
  unfold common_bytes. set (b := Z.lor _ _).
  apply (emits_ext _ (fun m off => '(m, off) ← (m ← set1 m off b; Ok (m, off + 1));
    '(m, off) ← (m ← set1 m off (u8 type); Ok (m, off + 1));
    m ← Set2Bytes m off (size / 4 - 1); Ok (m, off + Z.of_nat 2))).
  - intros m off. unfold SerializeCommon. change (Z.shiftl 2 6) with 128. fold b. cbv zeta. destruct (set1 m off b) as [m1|]; [|done]. ostep.
    destruct (set1 m1 _ _) as [m2|]; [|done]. ostep. replace (off + 1 + 1) with (off + 2) by lia.
    destruct (Set2Bytes m2 _ _) as [m3|]; [|done]. ostep. unfold CommonHeaderSize. do 2 f_equal. lia.
  - apply (emits_app _ _ [b] ([u8 type] ++ be_bytes 2 (size / 4 - 1))); [apply emits_set1|].
    apply emits_app; [apply emits_set1|]. apply emits_set. intros. apply Set2Bytes_spec.
Qed.

Lemma SerializeFeedback_emits h type size : emits (SerializeFeedback h type size) (feedback_bytes h type size).
Proof.
  unfold feedback_bytes.
  apply (emits_ext _ (fun m off => '(m, off) ← SerializeCommon (messageType h) type size m off;
    '(m, off) ← (m ← Set4Bytes m off (senderSsrc h); Ok (m, off + Z.of_nat 4));
    m ← Set4Bytes m off (mediaSsrc h); Ok (m, off + Z.of_nat 4))).
  - intros m off. unfold SerializeFeedback. destruct (SerializeCommon _ _ _ _ _) as [[m1 o1]|]; [|done]. ostep.
    destruct (Set4Bytes m1 _ _) as [m2|]; [|done]. ostep. change (o1 + Z.of_nat 4) with (o1 + 4).
    destruct (Set4Bytes m2 _ _) as [m3|]; [|done]. ostep. unfold FeedbackHeaderSize. do 2 f_equal. lia.
  - apply emits_app; [apply SerializeCommon_emits|].
    apply emits_app; apply emits_set; intros; apply Set4Bytes_spec.
Qed.

Lemma zlen_replicate {A} (n : Z) (x : A) : 0 <= n -> zlen (replicate (Z.to_nat n) x) = n.
Proof. intros. unfold zlen. rewrite length_replicate. lia. Qed.

(** The zeros after [n] bytes, up to a multiple of 4. *)
Definition padding (n : Z) : list Z := replicate (Z.to_nat (Z.land (- n) 3)) 0.

Lemma land3_mod4 n : Z.land n 3 = n `mod` 4.
Proof. pose proof (land_low_ones 2 n ltac:(lia)) as E. exact E. Qed.

Lemma zlen_padding n : zlen (padding n) = Z.land (- n) 3.
Proof.
  unfold padding. apply zlen_replicate. rewrite land3_mod4. by apply Z.mod_pos_bound.
Qed.

Lemma be_bytes_wrap n v : be_bytes n (wrap (8 * Z.of_nat n) v) = be_bytes n v.
Proof.
  pose proof (be_bytes_be_val (be_bytes n v) (bytes_be_bytes n v)) as E.
  by rewrite length_be_bytes, be_val_be_bytes in E.
Qed.

(** * Reading what was written *)

Lemma rtcp_first_byte count : in_uint 5 count ->
  Z.land (Z.lor 128 count) 31 = count /\ Z.shiftr (Z.lor 128 count) 6 = 2.
Proof.
  intros Hc. unfold in_uint in Hc. change (2 ^ 5) with 32 in Hc.
  assert (forallb (fun c => (Z.land (Z.lor 128 c) 31 =? c) && (Z.shiftr (Z.lor 128 c) 6 =? 2)) (seqZ 0 32) = true) as H
    by by vm_compute.
  rewrite forallb_forall in H. specialize (H count). rewrite andb_true_iff, !Z.eqb_eq in H. apply H.
  apply list_elem_of_In, elem_of_seqZ. lia.
Qed.

Section be.
Context (m : list Z) (Hm : bytes m).

Lemma at_header count type size : in_uint 5 count -> at_ m 0 (common_bytes count type size) ->
  header_count m = Ok count /\ header_version m = Ok 2 /\ header_packetType m = Ok (u8 type) /\
  header_length m = Ok (u16 (size / 4 - 1)).
Proof.
  intros Hc. assert (Z.land (u8 count) 31 = count) as Hcount.
  { change 31 with (2 ^ 5 - 1). rewrite land_low_ones by lia. unfold in_uint in Hc. change (2 ^ 5) with 32 in *.
    unfold wrap. change (2 ^ 8) with 256. rewrite (Z.mod_small count 256), Z.mod_small by lia. done. }
  unfold common_bytes. rewrite Hcount.
  change ([?a; ?b] ++ ?l) with ([a] ++ [b] ++ l). rewrite !at_app. intros (H0 & H1 & H2).
  apply at_get1 in H0, H1. unfold header_count, header_version, header_packetType, header_length. rewrite H0.
  rewrite !zlen_one in *. change (0 + 1) with 1 in *. change (1 + 1) with 2 in *. rewrite H1, (at_Get2Bytes m Hm _ _ H2).
  destruct (rtcp_first_byte count Hc) as [E1 E2]. ostep. by rewrite E1, E2.
Qed.

Lemma at_feedback h type size : in_uint 5 (messageType h) -> in_uint 32 (senderSsrc h) -> in_uint 32 (mediaSsrc h) ->
  at_ m 0 (feedback_bytes h type size) -> ParseFeedbackHeader m = Ok h.
Proof.
  intros Ht Hs Hme. unfold feedback_bytes. rewrite !at_app. intros (H1 & H2 & H3).
  destruct (at_header _ _ _ Ht H1) as (E & _). unfold ParseFeedbackHeader. rewrite E. ostep.
  change (zlen (common_bytes (messageType h) type size)) with 4 in *.
  change (zlen (be_bytes 4 (senderSsrc h))) with 4 in *. change (0 + 4) with 4 in *. change (4 + 4) with 8 in *.
  rewrite (at_Get4Bytes m Hm _ _ H2), (at_Get4Bytes m Hm _ _ H3). ostep.
  rewrite !wrap_small by done. by destruct h.
Qed.

(** The header announces the size, and the packet is seen to be RTCP. *)
Lemma at_packet count type size : in_uint 5 count -> 192 <= type <= 223 -> (4 | size) -> 0 < size <= 262144 ->
  at_ m 0 (common_bytes count type size) ->
  (forall len, 4 <= len -> IsRtcp m len = Ok true) /\ packet_length m = Ok size /\
  header_packetType m = Ok type /\ header_count m = Ok count.
Proof.
  intros Ht Htype [k Hk] Hsize Hc.
  pose proof (at_header _ _ _ Ht Hc) as (E1 & E2 & E3 & E4).
  unfold common_bytes in Hc. apply at_app in Hc as [Hc _]. apply (at_app m 0 [_] [_]) in Hc as [Hb _].
  apply at_get1 in Hb. rewrite (wrap_small 8 type) in E3 by (unfold in_uint; lia).
  unfold IsRtcp, packet_length. rewrite Hb, E2, E3, E4. ostep.
  assert (127 < Z.lor 128 (Z.land (u8 count) 31) < 192) as Hfirst.
  { assert (forallb (fun c => (127 <? Z.lor 128 (Z.land (u8 c) 31)) && (Z.lor 128 (Z.land (u8 c) 31) <? 192)) (seqZ 0 32)
      = true) as H by by vm_compute.
    pose proof (forall_below 32 _ H count Ht) as H'. rewrite andb_true_iff, !Z.ltb_lt in H'. lia. }
  split_and!; [|do 2 f_equal; rewrite Hk, Z.div_mul by lia; rewrite wrap_small by (unfold in_uint; lia); lia|done|done].
  intros len Hlen. rewrite (proj2 (Z.ltb_ge len _)) by (unfold CommonHeaderSize; lia).
  rewrite !(proj2 (Z.ltb_lt _ _)) by lia. cbn [negb andb]. rewrite Z.eqb_refl. cbn [negb].
  by rewrite !(proj2 (Z.leb_le _ _)) by lia.
Qed.
End be.

(** * Items that were written *)

Section written.
Context {A : Type} (ParseItem : list Z -> Z -> Z -> outcome (option A)) (ItemSize : A -> Z) (Bytes : A -> list Z)
  (ok : A -> Prop) (m : list Z).
Hypothesis item_size : forall i, ok i -> zlen (Bytes i) = ItemSize i.
Hypothesis item_pos : forall i, ok i -> 0 < ItemSize i.
Hypothesis item_parse : forall off len i, ok i -> 0 <= off -> at_ m off (Bytes i) -> ItemSize i <= len ->
  ParseItem m off len = Ok (Some i).

Lemma zlen_written l : Forall ok l -> zlen (concat (Bytes <$> l)) = foldr (fun i n => ItemSize i + n) 0 l.
Proof. induction 1 as [|i l Hi Hl IH]; [done|]. cbn. by rewrite zlen_app, item_size, IH. Qed.

Lemma length_written l : Forall ok l -> Z.of_nat (length l) <= zlen (concat (Bytes <$> l)).
Proof.
  induction 1 as [|i l Hi Hl IH]; [done|]. cbn [fmap list_fmap concat length]. rewrite zlen_app, item_size by done.
  pose proof (item_pos i Hi). lia.
Qed.

(** The items are read, until the end or what is not an item. *)
Lemma parse_items_written len l : Forall ok l -> forall fuel off, 0 <= off ->
  at_ m off (concat (Bytes <$> l)) -> (Z.to_nat (len - off) <= fuel)%nat ->
  let end_ := off + zlen (concat (Bytes <$> l)) in
  end_ = len \/ end_ < len /\ ParseItem m end_ (len - end_) = Ok None ->
  parse_items ParseItem ItemSize fuel m len off = Ok l.
Proof.
  induction 1 as [|i l Hi Hl IH]; intros fuel off H0 Hat Hf end_ Hend; subst end_.
  { change (zlen (concat (Bytes <$> []))) with 0 in Hend. rewrite Z.add_0_r in Hend.
    destruct fuel as [|fuel]; cbn [parse_items]; destruct Hend as [->|[Hlt E]]; try (by rewrite Z.ltb_irrefl); [lia|].
    rewrite (proj2 (Z.ltb_lt _ _)) by done. by rewrite E. }
  cbn [fmap list_fmap concat] in *. apply at_app in Hat as [Hat Hrest]. rewrite zlen_app, item_size in * by done.
  pose proof (item_pos i Hi). pose proof (zlen_nonneg (concat (Bytes <$> l))).
  destruct fuel as [|fuel]; [lia|].
  cbn [parse_items]. rewrite (proj2 (Z.ltb_lt _ _)) by lia.
  rewrite (item_parse off _ i) by (done || lia). ostep.
  rewrite IH; [done|lia|done|lia|]. cbv zeta. by rewrite <- Z.add_assoc.
Qed.

End written.

(** * Packets of items: what is written is read back *)

Section items_facts.
Context {A : Type} (ParseItem : list Z -> Z -> Z -> outcome (option A)) (ItemSize : A -> Z)
  (SerializeItem : A -> list Z -> Z -> outcome (list Z * Z)) (ItemBytes : A -> list Z) (ok : A -> Prop).
Hypothesis item_emits : forall i, ok i -> emits (SerializeItem i) (ItemBytes i).
Hypothesis item_size : forall i, ok i -> zlen (ItemBytes i) = ItemSize i.
Hypothesis item_pos : forall i, ok i -> 0 < ItemSize i.
Hypothesis item_parse : forall m off len i, bytes m -> ok i -> 0 <= off -> at_ m off (ItemBytes i) ->
  ItemSize i <= len -> ParseItem m off len = Ok (Some i).

Definition items_bytes (h : feedback_header) (type : Z) (items : list A) : list Z :=
  feedback_bytes h type (ItemsSize ItemSize items) ++ concat (ItemBytes <$> items).

Lemma zlen_items_bytes h type items : Forall ok items -> zlen (items_bytes h type items) = ItemsSize ItemSize items.
Proof.
  intros Hall. unfold items_bytes, ItemsSize. rewrite zlen_app, (zlen_written ItemSize ItemBytes ok) by done.
  unfold feedback_bytes, common_bytes. rewrite !zlen_app, !zlen_be_bytes. reflexivity.
Qed.

Lemma serialize_items_emits items : Forall ok items ->
  emits (serialize_items SerializeItem items) (concat (ItemBytes <$> items)).
Proof.
  induction 1 as [|i items Hi Hall IH]; [apply emits_nil|].
  exact (emits_app _ _ _ _ (item_emits i Hi) IH).
Qed.

Lemma SerializeItems_emits h type items : Forall ok items ->
  emits (SerializeItems ItemSize SerializeItem h type items) (items_bytes h type items).
Proof. intros Hall. apply emits_app; [apply SerializeFeedback_emits|by apply serialize_items_emits]. Qed.

Lemma ParseItems_spec m h type items : bytes m -> Forall ok items ->
  in_uint 5 (messageType h) -> in_uint 32 (senderSsrc h) -> in_uint 32 (mediaSsrc h) ->
  at_ m 0 (items_bytes h type items) ->
  ParseItems ParseItem ItemSize m (ItemsSize ItemSize items) = Ok (h, items).
Proof.
  intros Hm Hall Ht Hs Hme. unfold items_bytes. rewrite at_app. intros [Hh Hi]. unfold ParseItems.
  pose proof (zlen_written ItemSize ItemBytes ok item_size items Hall) as Hz.
  pose proof (zlen_nonneg (concat (ItemBytes <$> items))).
  rewrite (proj2 (Z.ltb_ge _ _)) by (unfold ItemsSize; lia).
  rewrite (at_feedback m Hm h _ _ Ht Hs Hme Hh). ostep.
  change (0 + zlen (feedback_bytes h type (ItemsSize ItemSize items))) with (CommonHeaderSize + FeedbackHeaderSize) in Hi.
  rewrite (parse_items_written _ _ ItemBytes ok m item_size item_pos) with (l := items); [done| |done| |exact Hi| |].
  - intros off len i. by apply item_parse.
  - unfold CommonHeaderSize, FeedbackHeaderSize. lia.
  - unfold CommonHeaderSize, FeedbackHeaderSize. lia.
  - left. unfold ItemsSize. lia.
Qed.

(** The header announces the size, and the packet is seen to be RTCP. *)
Lemma items_packet m h type items : bytes m -> in_uint 5 (messageType h) -> 192 <= type <= 223 ->
  (4 | ItemsSize ItemSize items) -> 0 < ItemsSize ItemSize items <= 262144 ->
  at_ m 0 (items_bytes h type items) ->
  IsRtcp m (ItemsSize ItemSize items) = Ok true /\ packet_length m = Ok (ItemsSize ItemSize items) /\
  header_packetType m = Ok type.
Proof.
  intros Hm Ht Htype Hk Hsize. unfold items_bytes, feedback_bytes. rewrite <- app_assoc, at_app. intros [Hc _].
  destruct (at_packet m Hm (messageType h) type _ Ht Htype Hk Hsize Hc) as (E1 & E2 & E3 & _).
  split_and!; [|done|done]. apply E1. destruct Hk as [k Hk]. lia.
Qed.
End items_facts.
