(* ===== verification/RtcpNack.v ===== *)
(** NACK packets (worker/src/RTC/RTCP/FeedbackRtpNack.cpp, FeedbackRtp.cpp) and
    how [RtpStreamRecv] makes them of what [NackGenerator] asks for
    (worker/src/RTC/RtpStreamRecv.cpp). *)

From S2P Require Import Timer.
From S2P Require Export Rtcp Retransmission.
From S2P Require NackGenerator.

(** * Items *)

(** [messageType] of [FeedbackRtpNackItem]. *)
Definition NACK : Z := 1.

(** Packet id and bitmask, in host byte order. *)
Definition ParseNackItem (m : list Z) (off len : Z) : outcome (option (Z * Z)) :=
  if len <? 4 then Ok None
  else
    packetId ← Get2Bytes m off;
    lostPacketBitmask ← Get2Bytes m (off + 2);
    Ok (Some (packetId, lostPacketBitmask)).

Definition NackItemSize (item : Z * Z) : Z := 4.

Definition SerializeNackItem (item : Z * Z) (m : list Z) (off : Z) : outcome (list Z * Z) :=
  m ← Set2Bytes m off item.1;
  m ← Set2Bytes m (off + 2) item.2;
  Ok (m, off + 4).

(** [htons] on a little-endian host; the bits are counted in network order. *)
Definition htons (v : Z) : Z := u16 (Z.lor (Z.shiftl v 8) (Z.shiftr v 8)).

Definition CountRequestedPackets (item : Z * Z) : Z := CountSetBits (htons item.2) + 1.

Definition ParseNack : list Z -> Z -> outcome (feedback_header * list (Z * Z)) :=
  ParseItems ParseNackItem NackItemSize.

Definition SerializeNack (h : feedback_header) : list (Z * Z) -> list Z -> Z -> outcome (list Z * Z) :=
  SerializeItems NackItemSize SerializeNackItem h RTPFB.

Definition NackSize : list (Z * Z) -> Z := ItemsSize NackItemSize.

(** * Asking for packets *)

(** The part of [RtpStreamRecv] that asks for packets. *)
Module Recv.
Record nack_requester : Type := NackRequester {
  ssrc : Z;
  useNack : bool;
  nackCount : Z;
  nackPacketCount : Z
}.

(** The inner loop: the bitmask, and the numbers that are left. *)
Fixpoint bitmask_loop (seq bitmask : Z) (seqNumbers : list Z) : Z * list Z :=
  match seqNumbers with
  | [] => (bitmask, [])
  | q :: rest =>
      let shift := u16 (q - seq - 1) in
      if 15 <? shift then (bitmask, seqNumbers)
      else bitmask_loop seq (u16 (Z.lor bitmask (Z.shiftl 1 shift))) rest
  end.

(** The outer loop. *)
Fixpoint items_loop (fuel : nat) (seqNumbers : list Z) : outcome (list (Z * Z)) :=
  match seqNumbers with
  | [] => Ok []
  | seq :: rest =>
      match fuel with
      | O => Err OutOfFuel
      | S fuel =>
          let '(bitmask, rest) := bitmask_loop seq 0 rest in
          items ← items_loop fuel rest;
          Ok ((seq, bitmask) :: items)
      end
  end.

(** The state, [RTCP::Buffer], and the items of the packet handed to the listener. *)
Definition OnNackGeneratorNackRequired (s : nack_requester) (buffer seqNumbers : list Z)
  : outcome (nack_requester * list Z * option (list (Z * Z))) :=
  _ ← require AssertFailed (useNack s);
  items ← items_loop (length seqNumbers) seqNumbers;
  let numPacketsRequested := foldr (fun i n => CountRequestedPackets i + n) 0 items in
  if BufferSize <? NackSize items then Ok (s, buffer, None)
  else
    '(buffer, _) ← SerializeNack (FeedbackHeader NACK 0 (ssrc s)) items buffer 0;
    Ok (NackRequester (ssrc s) (useNack s) (u64 (nackCount s + 1))
          (u64 (nackPacketCount s + numPacketsRequested)), buffer, Some items).
End Recv.

(** * Facts *)

Definition item_ok (item : Z * Z) : Prop := in_uint 16 item.1 /\ in_uint 16 item.2.
Definition item_bytes (item : Z * Z) : list Z := be_bytes 2 item.1 ++ be_bytes 2 item.2.

Lemma nack_item_emits i : emits (SerializeNackItem i) (item_bytes i).
Proof.
  apply (emits_ext _ (fun m off => '(m, off) ← (m ← Set2Bytes m off i.1; Ok (m, off + Z.of_nat 2));
    m ← Set2Bytes m off i.2; Ok (m, off + Z.of_nat 2))).
  - intros m off. unfold SerializeNackItem. destruct (Set2Bytes m off _) as [m1|]; [|done]. ostep.
    change (off + Z.of_nat 2) with (off + 2). destruct (Set2Bytes m1 _ _) as [m2|]; [|done]. ostep.
    do 2 f_equal. lia.
  - apply emits_app; apply emits_set; intros; apply Set2Bytes_spec.
Qed.

Lemma nack_item_parse m off len i : bytes m -> item_ok i -> 0 <= off -> at_ m off (item_bytes i) ->
  NackItemSize i <= len -> ParseNackItem m off len = Ok (Some i).
Proof.
  intros Hm [H1 H2] _ Hat Hlen. unfold NackItemSize in Hlen. apply at_app in Hat as [A1 A2].
  rewrite zlen_be_bytes in A2. change (off + Z.of_nat 2) with (off + 2) in A2.
  unfold ParseNackItem. rewrite (proj2 (Z.ltb_ge _ _)) by lia.
  rewrite (at_Get2Bytes m Hm _ _ A1), (at_Get2Bytes m Hm _ _ A2). ostep.
  rewrite !wrap_small by done. by destruct i.
Qed.

Lemma NackSize_length items : NackSize items = 12 + 4 * Z.of_nat (length items).
Proof.
  unfold NackSize, ItemsSize. cut (foldr (fun i n => NackItemSize i + n) 0 items = 4 * Z.of_nat (length items)).
  { intros ->. unfold CommonHeaderSize, FeedbackHeaderSize. lia. }
  induction items as [|i items IH]; [done|]. cbn [foldr length]. rewrite IH. unfold NackItemSize. lia.
Qed.

(** Counting the bits in either byte order. *)
Lemma CountSetBits_htons v : in_uint 16 v -> CountSetBits (htons v) = CountSetBits v.
Proof.
  intros Hv. unfold in_uint in Hv. change (2 ^ 16) with 65536 in Hv.
  assert (forallb (fun a => forallb (fun b => CountSetBits (htons (256 * a + b)) =? CountSetBits (256 * a + b))
    (seqZ 0 256)) (seqZ 0 256) = true) as H by (vm_compute; reflexivity).
  pose proof (Z.div_mod v 256). pose proof (Z.mod_pos_bound v 256).
  pose proof (forall_below2 256 256 _ H (v / 256) (v `mod` 256)) as E.
  cbv beta in E. rewrite <- (Z.div_mod v 256) in E by lia. apply Z.eqb_eq, E; [|lia].
  split; [apply Z.div_pos; lia|apply Z.div_lt_upper_bound; lia].
Qed.

Lemma length_filter_fmap {A B} (f : A -> B) (P : B -> bool) l :
  length (List.filter (fun a => P (f a)) l) = length (filter (fun b => P b = true) (f <$> l)).
Proof.
  induction l as [|a l IH]; [done|]. rewrite fmap_cons, filter_cons. cbn [List.filter].
  destruct (P (f a)); [rewrite decide_True by done|rewrite decide_False by done]; cbn; by rewrite IH.
Qed.

Lemma CountRequestedPackets_requested i : item_ok i ->
  CountRequestedPackets i = Z.of_nat (length (requested i)).
Proof.
  intros [_ H2]. unfold CountRequestedPackets. rewrite CountSetBits_htons by done.
  unfold requested, following, CountSetBits. cbn [length]. rewrite length_fmap.
  rewrite (length_filter_fmap Z.of_nat (fun k => Z.testbit i.2 k)).
  change (Z.of_nat <$> seq 0 16) with (seqZ 0 (Z.of_nat 16)). lia.
Qed.

(** One more bit is one more packet. *)
Lemma filter_one_more {A} `{EqDecision A} (P Q : A -> Prop) `{forall x, Decision (P x), forall x, Decision (Q x)} k l :
  NoDup l -> k ∈ l -> ~ P k -> (forall x, x ∈ l -> Q x <-> x = k \/ P x) ->
  filter Q l ≡ₚ k :: filter P l.
Proof.
  intros Hl Hk HP HQ. apply NoDup_Permutation.
  - by apply NoDup_filter.
  - apply NoDup_cons. split; [|by apply NoDup_filter]. by intros [? _]%list_elem_of_filter.
  - intros x. rewrite elem_of_cons, !list_elem_of_filter. split.
    + intros [Hq Hx]. apply HQ in Hq as [->|]; auto.
    + intros [->|[Hp Hx]]; (split; [apply HQ; auto|done]).
Qed.

Lemma following_set_bit q bitmask k : 0 <= k < 16 -> in_uint 16 bitmask -> Z.testbit bitmask k = false ->
  following 16 q (u16 (Z.lor bitmask (Z.shiftl 1 k))) ≡ₚ u16 (q + 1 + k) :: following 16 q bitmask.
Proof.
  intros Hk Hb Hbit. unfold following. apply (fmap_Permutation (fun k => u16 (q + 1 + k)) _ (k :: _)).
  apply filter_one_more.
  - apply NoDup_seqZ.
  - by apply elem_of_seqZ.
  - by rewrite Hbit.
  - intros x Hx%elem_of_seqZ. unfold wrap. rewrite Z.mod_pow2_bits_low by lia.
    rewrite Z.lor_spec, orb_true_iff, Z.shiftl_spec by lia.
    assert (Z.testbit 1 (x - k) = true <-> x = k) as ->; [|tauto].
    change 1 with (2 ^ 0). rewrite Z.pow2_bits_eqb by lia. rewrite Z.eqb_eq. lia.
Qed.

(** The inner loop takes numbers that follow [seq] into the bitmask. *)
Lemma bitmask_loop_spec seq seqs : forall bitmask, in_uint 16 seq -> in_uint 16 bitmask ->
  Forall (in_uint 16) seqs -> NoDup (following 16 seq bitmask ++ seqs) ->
  exists bitmask' taken rest, Recv.bitmask_loop seq bitmask seqs = (bitmask', rest) /\ in_uint 16 bitmask' /\
    seqs = taken ++ rest /\ following 16 seq bitmask' ≡ₚ following 16 seq bitmask ++ taken.
Proof.
  induction seqs as [|q seqs IH]; intros bitmask Hs Hb Hall Hnd; cbn [Recv.bitmask_loop].
  { exists bitmask, [], []. split; [done|]. split; [exact Hb|]. split; [done|]. by rewrite app_nil_r. }
  apply Forall_cons in Hall as [Hq Hall]. destruct (Z.ltb_spec 15 (u16 (q - seq - 1))) as [_|Hsh].
  { exists bitmask, [], (q :: seqs). split; [done|]. split; [exact Hb|]. split; [done|]. by rewrite app_nil_r. }
  set (k := u16 (q - seq - 1)) in *.
  assert (0 <= k < 16) as Hk by (pose proof (wrap_range 16 (q - seq - 1) ltac:(lia)) as [? _]; subst k; lia).
  assert (u16 (seq + 1 + k) = q) as Eq.
  { subst k. rewrite wrap_add_r. etrans; [|by apply (wrap_small 16 q)]. f_equal. lia. }
  assert (Z.testbit bitmask k = false) as Hbit.
  { destruct (Z.testbit bitmask k) eqn:E; [|done]. exfalso. apply NoDup_app in Hnd as (_ & Hnd & _).
    apply (Hnd q); [|by left]. apply elem_of_following. exists k. split_and!; (done || lia). }
  pose proof (following_set_bit seq bitmask k Hk Hb Hbit) as Hp. rewrite Eq in Hp.
  destruct (IH (u16 (Z.lor bitmask (Z.shiftl 1 k)))) as (b' & taken & rest & E & Hb' & -> & Hp');
    [done|by apply wrap_range|done| |].
  { rewrite Hp. cbn [app]. by rewrite Permutation_middle. }
  exists b', (q :: taken), rest. split; [done|]. split; [exact Hb'|]. split; [done|].
  rewrite Hp', Hp. cbn [app]. by rewrite <- Permutation_middle.
Qed.

(** Every number is asked for, and asked for once. *)
Lemma items_loop_spec fuel : forall seqs, (length seqs <= fuel)%nat -> Forall (in_uint 16) seqs -> NoDup seqs ->
  exists items, Recv.items_loop fuel seqs = Ok items /\ Forall item_ok items /\
    concat (requested <$> items) ≡ₚ seqs.
Proof.
  induction fuel as [|fuel IH]; intros seqs Hf Hall Hnd.
  { destruct seqs; [|cbn in Hf; lia]. by exists []. }
  destruct seqs as [|seq seqs]; [by exists []|]. cbn [Recv.items_loop].
  apply Forall_cons in Hall as [Hs Hall]. apply NoDup_cons in Hnd as [Hni Hnd].
  destruct (bitmask_loop_spec seq seqs 0) as (b & taken & rest & -> & Hb & -> & Hp); [done|by vm_compute|done|done|].
  assert (following 16 seq 0 = []) as E0 by reflexivity.
  rewrite E0 in Hp. cbn [app] in Hp. apply Forall_app in Hall as [_ Hall]. apply NoDup_app in Hnd as (_ & _ & Hnd).
  destruct (IH rest) as (items & -> & Hok & Hpi); [|done|done|].
  { cbn [length] in Hf. rewrite length_app in Hf. lia. }
  ostep. exists ((seq, b) :: items). split; [done|]. split; [by constructor|].
  rewrite fmap_cons. cbn [concat]. unfold requested at 1. cbn [fst snd app]. by rewrite Hp, Hpi.
Qed.

Lemma requested_total items : Forall item_ok items ->
  foldr (fun i n => CountRequestedPackets i + n) 0 items = Z.of_nat (length (concat (requested <$> items))).
Proof.
  induction 1 as [|i items Hi _ IH]; [done|]. cbn [foldr]. rewrite IH, CountRequestedPackets_requested by done.
  rewrite fmap_cons. cbn [concat]. rewrite length_app. lia.
Qed.

Lemma length_items_requested items : (length items <= length (concat (requested <$> items)))%nat.
Proof.
  induction items as [|i items IH]; [done|]. rewrite fmap_cons. cbn [concat length]. rewrite length_app.
  unfold requested at 1. cbn [length]. lia.
Qed.

Lemma asked_concat items q : asked items q <-> q ∈ concat (requested <$> items).
Proof.
  unfold asked. induction items as [|i items IH].
  { split; [intros (i & Hi & _)|intros Hq]; by apply elem_of_nil in Hi || apply elem_of_nil in Hq. }
  rewrite fmap_cons. cbn [concat]. rewrite elem_of_app, <- IH. split.
  - intros (j & [->|Hj]%elem_of_cons & Hq); [by left|right; by exists j].
  - intros [Hq|(j & Hj & Hq)]; [exists i; split; [by left|done]|exists j; split; [by right|done]].
Qed.

(** The packet as it leaves. *)
Definition nack_bytes (ssrc : Z) (items : list (Z * Z)) : list Z :=
  items_bytes NackItemSize item_bytes (FeedbackHeader NACK 0 ssrc) RTPFB items.

Lemma ParseNack_bytes ssrc items : in_uint 32 ssrc -> Forall item_ok items -> bytes (nack_bytes ssrc items) ->
  ParseNack (nack_bytes ssrc items) (NackSize items) = Ok (FeedbackHeader NACK 0 ssrc, items).
Proof.
  intros Hs Hall Hb. apply (ParseItems_spec _ _ item_bytes item_ok) with (type := RTPFB); try done.
  - apply nack_item_parse.
  - apply at_whole.
Qed.

Lemma bytes_nack_bytes ssrc items : bytes (nack_bytes ssrc items).
Proof.
  unfold nack_bytes, items_bytes, feedback_bytes, common_bytes, bytes. rewrite !Forall_app. split_and!; try apply bytes_be_bytes.
  - constructor; [by vm_compute|]. constructor; [by vm_compute|constructor].
  - induction items as [|i items IH]; [constructor|]. rewrite fmap_cons. cbn [concat].
    apply Forall_app. split; [|exact IH]. apply Forall_app. split; apply bytes_be_bytes.
Qed.

Lemma request_spec r buffer batch : Recv.useNack r = true -> in_uint 32 (Recv.ssrc r) ->
  zlen buffer = BufferSize -> NoDup batch -> Forall (in_uint 16) batch -> Z.of_nat (length batch) <= 16381 ->
  exists buffer' items,
    Recv.OnNackGeneratorNackRequired r buffer batch
    = Ok (Recv.NackRequester (Recv.ssrc r) (Recv.useNack r) (u64 (Recv.nackCount r + 1))
            (u64 (Recv.nackPacketCount r + Z.of_nat (length batch))), buffer', Some items) /\
    slice buffer' 0 (NackSize items) = Ok (nack_bytes (Recv.ssrc r) items) /\
    Forall item_ok items /\ concat (requested <$> items) ≡ₚ batch /\ NackSize items <= BufferSize.
Proof.
  intros Hu Hs Hbuf Hnd Hall Hlen.
  destruct (items_loop_spec (length batch) batch) as (items & E & Hok & Hp); [lia|done|done|].
  pose proof (length_items_requested items) as Hle. rewrite Hp in Hle.
  pose proof (NackSize_length items) as Hsize.
  assert (NackSize items <= BufferSize) as Hfit by (unfold BufferSize; lia).
  assert (forall i, item_ok i -> zlen (item_bytes i) = NackItemSize i) as Hz by done.
  destruct (SerializeItems_emits NackItemSize SerializeNackItem item_bytes item_ok (fun i _ => nack_item_emits i)
    (FeedbackHeader NACK 0 (Recv.ssrc r)) RTPFB items Hok buffer 0) as (buffer' & Ew & Hw); [done| |].
  { rewrite (zlen_items_bytes _ _ item_ok) by done. fold NackSize. lia. }
  exists buffer', items. unfold Recv.OnNackGeneratorNackRequired. rewrite Hu, E. ostep.
  rewrite (proj2 (Z.ltb_ge _ _)) by done. unfold SerializeNack. rewrite Ew. ostep.
  rewrite requested_total by done. rewrite Hp. split; [done|]. split; [|done].
  apply slice_write_same in Hw. rewrite (zlen_items_bytes _ _ item_ok) in Hw by done. exact Hw.
Qed.

(** * Properties *)

(** C18: a NACK reaches the sender.  Whatever distinct sequence numbers
    [RtpStreamRecv] has to ask for, as long as they fit into the buffer: the
    packet it sends is an RTCP packet of the announced length from which the
    other end reads the same items, these ask for the same numbers, and the
    counter goes up by as many. *)
Theorem nack_round_trip r buffer batch :
  Recv.useNack r = true -> in_uint 32 (Recv.ssrc r) -> zlen buffer = BufferSize ->
  NoDup batch -> Forall (in_uint 16) batch -> Z.of_nat (length batch) <= 16381 ->
  exists r' buffer' items datagram,
    Recv.OnNackGeneratorNackRequired r buffer batch = Ok (r', buffer', Some items) /\
    slice buffer' 0 (NackSize items) = Ok datagram /\
    IsRtcp datagram (NackSize items) = Ok true /\ packet_length datagram = Ok (NackSize items) /\
    header_packetType datagram = Ok RTPFB /\
    ParseNack datagram (NackSize items) = Ok (FeedbackHeader NACK 0 (Recv.ssrc r), items) /\
    (forall q, asked items q <-> q ∈ batch) /\
    Recv.nackPacketCount r' = u64 (Recv.nackPacketCount r + Z.of_nat (length batch)).
Proof.
  intros Hu Hs Hbuf Hnd Hall Hlen.
  destruct (request_spec r buffer batch Hu Hs Hbuf Hnd Hall Hlen) as (buffer' & items & E & Hd & Hok & Hp & Hfit).
  pose proof (NackSize_length items) as Hsize. pose proof (bytes_nack_bytes (Recv.ssrc r) items) as Hb.
  eexists _, buffer', items, (nack_bytes (Recv.ssrc r) items). split; [exact E|]. split; [exact Hd|].
  destruct (items_packet NackItemSize item_bytes (nack_bytes (Recv.ssrc r) items)
    (FeedbackHeader NACK 0 (Recv.ssrc r)) RTPFB items Hb) as (E1 & E2 & E3); fold NackSize; try done.
  - exists (3 + Z.of_nat (length items)). lia.
  - unfold BufferSize in Hfit. lia.
  - apply at_whole.
  - split; [exact E1|]. split; [exact E2|]. split; [exact E3|]. split; [by apply ParseNack_bytes|].
    split; [|done]. intros q. by rewrite asked_concat, Hp.
Qed.

Lemma nack_round_trip_witness :
  exists r' buffer' items datagram,
    Recv.OnNackGeneratorNackRequired (Recv.NackRequester 7 true 0 0) (replicate 65536 0) [65534; 3; 20; 2]
    = Ok (r', buffer', Some items) /\
    slice buffer' 0 (NackSize items) = Ok datagram /\
    IsRtcp datagram (NackSize items) = Ok true /\ packet_length datagram = Ok (NackSize items) /\
    header_packetType datagram = Ok RTPFB /\
    ParseNack datagram (NackSize items) = Ok (FeedbackHeader NACK 0 7, items) /\
    (forall q, asked items q <-> q ∈ [65534; 3; 20; 2]) /\ Recv.nackPacketCount r' = 4.
Proof.
  apply (nack_round_trip (Recv.NackRequester 7 true 0 0) (replicate 65536 0) [65534; 3; 20; 2]); try done.
  - apply (bool_decide_eq_true_1 (NoDup _)). reflexivity.
  - repeat constructor; done.
Defined.

(** C17: from the loss to the packets sent again.  What the generator of a
    receiving stream asks for after any history, put into a NACK packet by the
    stream, read from the wire and answered by a sending stream of another
    worker: it sends exactly the packets asked for that are due there, each
    once. *)
Theorem loss_is_repaired {H} `{UvLaws H} (g : NackGenerator.nack_generator H) e g' calls batch
    r buffer s now rtt16 :
  NackGenerator.nack_reachable g -> NackGenerator.nack_event_ok g e ->
  NackGenerator.nack_step g e = Ok (g', calls) -> NackGenerator.OnNackGeneratorNackRequired batch ∈ calls ->
  Recv.useNack r = true -> in_uint 32 (Recv.ssrc r) -> zlen buffer = BufferSize ->
  answers_nacks s rtt16 -> now <> 0 ->
  exists r' buffer' sent datagram items s' ps qs,
    Recv.OnNackGeneratorNackRequired r buffer batch = Ok (r', buffer', Some sent) /\
    slice buffer' 0 (NackSize sent) = Ok datagram /\
    ParseNack datagram (zlen datagram) = Ok (FeedbackHeader NACK 0 (Recv.ssrc r), items) /\
    ReceiveNack s items now = Ok (s', ps) /\ NoDup qs /\
    (forall q, q ∈ qs <-> due s now rtt16 q = true /\ q ∈ batch) /\ Forall2 (resent_as s) qs ps.
Proof.
  intros Hg He Hstep Hbatch Hu Hs Hbuf Ha Hnow. apply NackGenerator.nack_reachable_inv in Hg.
  destruct (NackGenerator.nack_step_inv g e Hg He) as (g1 & calls1 & E & _ & Hcalls).
  rewrite E in Hstep. injection Hstep as <- <-. rewrite Forall_forall in Hcalls.
  destruct (Hcalls _ Hbatch) as (_ & Hnd & Hall & Hlen). unfold NackGenerator.MaxNackPackets in Hlen.
  destruct (request_spec r buffer batch Hu Hs Hbuf Hnd Hall) as (buffer' & items & Er & Hd & Hok & Hp & _); [lia|].
  destruct (ReceiveNack_spec s items now rtt16 Ha Hnow Hok) as (s' & ps & qs & Es & _ & Hqs & Hin & Hps).
  eexists _, buffer', items, (nack_bytes (Recv.ssrc r) items), items, s', ps, qs.
  split; [exact Er|]. split; [exact Hd|]. split.
  { rewrite (zlen_slice _ _ _ _ Hd). apply ParseNack_bytes; [done|done|apply bytes_nack_bytes]. }
  split; [done|]. split; [done|]. split; [|done]. intros q. by rewrite Hin, asked_concat, Hp.
Qed.

(** A generator that has received the packet 9. *)
Definition ng_nine : NackGenerator.nack_generator (option (Z * Z)) :=
  NackGenerator.NackGenerator [] [] [] true 9 100 timer_new.

Lemma ng_nine_reachable : NackGenerator.nack_reachable ng_nine.
Proof.
  apply (NackGenerator.nack_reachable_step NackGenerator.new_NackGenerator
    (NackGenerator.PacketReceived 9 false false 4) _ []); [constructor|done|reflexivity].
Qed.

Lemma loss_is_repaired_witness :
  exists r' buffer' sent datagram items s' ps qs,
    Recv.OnNackGeneratorNackRequired (Recv.NackRequester 7 true 0 0) (replicate 65536 0) [10]
    = Ok (r', buffer', Some sent) /\
    slice buffer' 0 (NackSize sent) = Ok datagram /\
    ParseNack datagram (zlen datagram) = Ok (FeedbackHeader NACK 0 7, items) /\
    ReceiveNack sample_send items 1000 = Ok (s', ps) /\ NoDup qs /\
    (forall q, q ∈ qs <-> due sample_send 1000 100 q = true /\ q ∈ [10]) /\ Forall2 (resent_as sample_send) qs ps.
Proof.
  destruct (NackGenerator.nack_step ng_nine (NackGenerator.PacketReceived 11 false false 5)) as [[g' calls]|] eqn:E;
    [|exfalso; revert E; by vm_compute].
  apply (loss_is_repaired ng_nine (NackGenerator.PacketReceived 11 false false 5) g' calls [10]
    (Recv.NackRequester 7 true 0 0) (replicate 65536 0) sample_send 1000 100 ng_nine_reachable); try done.
  - injection E as _ <-. by left.
  - apply sample_answers.
Defined.
