(* ===== verification/RtcpTransport.v ===== *)
(** Transport-wide congestion control feedback (worker/src/RTC/RTCP/FeedbackRtpTransport.cpp,
    worker/include/RTC/RTCP/FeedbackRtpTransport.hpp): which packets of a
    transport have arrived, and when, as one end tells the other.

    A packet is made by the worker with [AddPacket], or parsed. *)

From S2P Require Export Rtcp.
From S2P Require SeqManager.

(** * Data *)

Inductive status : Type := NotReceived | SmallDelta | LargeDelta | Reserved | NoStatus.

#[export] Instance status_eq_dec : EqDecision status.
Proof. solve_decision. Defined.

(** [static_cast<Status>] of two bits, and back. *)
Definition status_of (z : Z) : status :=
  match z with 0 => NotReceived | 1 => SmallDelta | 2 => LargeDelta | _ => Reserved end.

Definition status_num (s : status) : Z :=
  match s with NotReceived => 0 | SmallDelta => 1 | LargeDelta => 2 | Reserved => 3 | NoStatus => 4 end.

Definition is_received (s : status) : bool := bool_decide (s = SmallDelta) || bool_decide (s = LargeDelta).

Inductive chunk : Type :=
| RunLengthChunk (status : status) (count : Z)
| OneBitVectorChunk (statuses : list status)
| TwoBitVectorChunk (statuses : list status).

Record transport_packet : Type := TransportPacket {
  fbHeader : feedback_header;
  baseSequenceNumber : Z;
  referenceTime : Z;
  latestSequenceNumber : Z;
  latestTimestamp : Z;
  packetStatusCount : Z;
  feedbackPacketCount : Z;
  chunks : list chunk;
  deltas : list Z;
  allSameStatus : bool;       (** of the context *)
  currentStatus : status;
  statuses : list status;
  deltasAndChunksSize : Z;
  tp_size : Z                 (** [size]: 0 unless parsed *)
}.

Record packet_result : Type := PacketResult {
  pr_sequenceNumber : Z;
  pr_delta : Z;
  pr_received : bool;
  pr_receivedAtMs : Z
}.

Definition fixedHeaderSize : Z := 8.
Definition maxMissingPackets : Z := 8191.
Definition maxPacketStatusCount : Z := 65535.
Definition maxPacketDelta : Z := 32767.
Definition TCC : Z := 15.

Definition new_transport_packet (senderSsrc mediaSsrc : Z) : transport_packet :=
  TransportPacket (FeedbackHeader TCC senderSsrc mediaSsrc) 0 0 0 0 0 0 [] [] true NoStatus [] 0 0.

(** * Chunks *)

Definition GetCount (c : chunk) : Z :=
  match c with
  | RunLengthChunk _ count => count
  | OneBitVectorChunk l | TwoBitVectorChunk l => u16 (zlen l)
  end.

(** [uint16_t count]: one more for each status received. *)
Definition count_received (l : list status) : Z := foldl (fun n s => if is_received s then u16 (n + 1) else n) 0 l.

Definition GetReceivedStatusCount (c : chunk) : Z :=
  match c with
  | RunLengthChunk s count => if is_received s then count else 0
  | OneBitVectorChunk l | TwoBitVectorChunk l => count_received l
  end.

(** The constructors of the vector chunks: [i] from 0 while there are statuses. *)
Fixpoint vector_loop (n : nat) (symbolSize top buffer i count : Z) : list status :=
  match n with
  | O => []
  | S n =>
      if 0 <? count then
        status_of (Z.land (Z.shiftr buffer (symbolSize * (top - 1 - i))) (2 ^ symbolSize - 1))
        :: vector_loop n symbolSize top buffer (i + 1) (count - 1)
      else []
  end.

Definition OneBitVector (buffer count : Z) : outcome chunk :=
  _ ← require AssertFailed (truthy (Z.land buffer 32768));
  Ok (OneBitVectorChunk (vector_loop 14 1 14 buffer 0 count)).

Definition TwoBitVector (buffer count : Z) : outcome chunk :=
  _ ← require AssertFailed (truthy (Z.land buffer 49152));
  Ok (TwoBitVectorChunk (vector_loop 7 2 7 buffer 0 count)).

(** [Chunk::Parse] at [off], where [len] bytes are left and [count] statuses are
    to come. *)
Definition ParseChunk (m : list Z) (off len count : Z) : outcome (option chunk) :=
  if len <? 2 then Ok None
  else
    buffer ← Get2Bytes m off;
    let chunkType := Z.land (Z.shiftr buffer 15) 1 in
    if chunkType =? 0 then
      match status_of (Z.land (Z.shiftr buffer 13) 3) with
      | (NotReceived | SmallDelta | LargeDelta) as s => Ok (Some (RunLengthChunk s (Z.land buffer 8191)))
      | _ => Ok None
      end
    else
      b ← get1 m off;
      let symbolSize := Z.land b 64 in
      c ← (if symbolSize =? 0 then OneBitVector buffer count else TwoBitVector buffer count);
      Ok (Some c).

(** [AddDeltas]: the deltas with those of the chunk added and the offset behind
    them, or [None] when there is not enough space.  [offset] counts from
    [off], where the deltas of the chunk start. *)
Fixpoint run_deltas (n : nat) (bytes : Z) (m : list Z) (off : Z) (deltas : list Z) (offset : Z)
  : outcome (list Z * Z) :=
  match n with
  | O => Ok (deltas, offset)
  | S n =>
      delta ← (if bytes =? 1 then get1 m (off + offset) else Get2Bytes m (off + offset));
      run_deltas n bytes m off (deltas ++ [swrap 16 delta]) (offset + bytes)
  end.

Fixpoint vector_deltas (two : bool) (l : list status) (m : list Z) (off len : Z) (deltas : list Z) (offset : Z)
  : outcome (option (list Z * Z)) :=
  match l with
  | [] => Ok (Some (deltas, offset))
  | NotReceived :: l => vector_deltas two l m off len deltas offset
  | SmallDelta :: l =>
      if len <? 1 then Ok None
      else
        delta ← get1 m (off + offset);
        vector_deltas two l m off (len - 1) (deltas ++ [swrap 16 delta]) (offset + 1)
  | s :: l =>
      if negb two then Ok None
      else if bool_decide (s = LargeDelta) then
        if len <? 2 then Ok None
        else
          delta ← Get2Bytes m (off + offset);
          vector_deltas two l m off (len - 2) (deltas ++ [swrap 16 delta]) (offset + 2)
      else vector_deltas two l m off len deltas offset
  end.

Definition AddDeltas (c : chunk) (m : list Z) (off len : Z) (deltas : list Z) : outcome (option (list Z * Z)) :=
  match c with
  | RunLengthChunk NotReceived _ => Ok (Some (deltas, 0))
  | RunLengthChunk SmallDelta count =>
      if len <? count * 1 then Ok None
      else r ← run_deltas (Z.to_nat count) 1 m off deltas 0; Ok (Some r)
  | RunLengthChunk LargeDelta count =>
      if len <? count * 2 then Ok None
      else r ← run_deltas (Z.to_nat count) 2 m off deltas 0; Ok (Some r)
  | RunLengthChunk _ _ => Ok (Some (deltas, 0))
  | OneBitVectorChunk l => vector_deltas false l m off len deltas 0
  | TwoBitVectorChunk l => vector_deltas true l m off len deltas 0
  end.

(** * Parsing *)

(** [parseReferenceTime]: the sign of the 24 bits is kept. *)
Definition parseReferenceTime (m : list Z) (off : Z) : outcome Z :=
  unsignedVal ← Get3Bytes m off;
  let msb := u8 (Z.shiftr unsignedVal 16) in
  let unsignedVal := if truthy (Z.land msb 128) then Z.lor (u32 (Z.lnot 16777215)) unsignedVal else unsignedVal in
  if truthy (Z.land unsignedVal (2 ^ 31)) then Ok (Z.lor (Z.land unsignedVal (2 ^ 31 - 1)) (- 2 ^ 31))
  else Ok unsignedVal.

(** The loop over the chunks: chunks, offset, [count] and [receivedPacketStatusCount]. *)
Fixpoint chunk_loop (fuel : nat) (m : list Z) (content contentLen total : Z)
    (cs : list chunk) (offset count received : Z) : outcome (list chunk * Z * Z * Z) :=
  if (count <? total) && (offset <? contentLen) then
    match fuel with
    | O => Err OutOfFuel
    | S fuel =>
        if contentLen - offset <? 2 then Err Rejected
        else
          c ← ParseChunk m (content + offset) (contentLen - offset) (u16 (total - count));
          match c with
          | None => Err Rejected
          | Some c =>
              chunk_loop fuel m content contentLen total (cs ++ [c]) (offset + 2)
                (u16 (count + GetCount c)) (u16 (received + GetReceivedStatusCount c))
          end
    end
  else Ok (cs, offset, count, received).

Fixpoint delta_loop (cs : list chunk) (m : list Z) (content contentLen : Z) (deltas : list Z) (offset : Z)
  : outcome (list Z * Z) :=
  match cs with
  | [] => Ok (deltas, offset)
  | c :: cs =>
      if offset <? contentLen then
        r ← AddDeltas c m (content + offset) (contentLen - offset) deltas;
        match r with
        | None => Err Rejected
        | Some (deltas, deltasOffset) => delta_loop cs m content contentLen deltas (offset + deltasOffset)
        end
      else Ok (deltas, offset)
  end.

(** [FeedbackRtpTransportPacket::Parse]: [len] bytes are available. *)
Definition ParseTransport (m : list Z) (len : Z) : outcome transport_packet :=
  if len <? CommonHeaderSize + FeedbackHeaderSize + fixedHeaderSize then Err Rejected
  else
    h ← ParseFeedbackHeader m;
    announced ← packet_length m;
    if len <? announced then Err Rejected
    else
      let data := CommonHeaderSize + FeedbackHeaderSize in
      baseSequenceNumber ← Get2Bytes m data;
      packetStatusCount ← Get2Bytes m (data + 2);
      referenceTime ← parseReferenceTime m (data + 4);
      feedbackPacketCount ← get1 m (data + 7);
      let content := data + fixedHeaderSize in
      let contentLen := u64 (announced - CommonHeaderSize - FeedbackHeaderSize - fixedHeaderSize) in
      '(chunks, offset, count, received) ←
        chunk_loop (length m) m content contentLen packetStatusCount [] 0 0 0;
      if negb (count =? packetStatusCount) then Err Rejected
      else
        '(deltas, offset) ← delta_loop chunks m content contentLen [] offset;
        if negb (zlen deltas =? received) then Err Rejected
        else
          Ok (TransportPacket h baseSequenceNumber referenceTime 0 0 packetStatusCount feedbackPacketCount
                chunks deltas true NoStatus [] offset announced).

(** * What it says *)

(** [for (uint16_t count{ 1u }; count <= this->count; ++count)]. *)
Fixpoint run_results (fuel : nat) (received : bool) (count limit seq : Z) : outcome (list packet_result * Z) :=
  if count <=? limit then
    match fuel with
    | O => Err OutOfFuel
    | S fuel =>
        let seq := u16 (seq + 1) in
        '(rs, seq') ← run_results fuel received (u16 (count + 1)) limit seq;
        Ok (PacketResult seq 0 received 0 :: rs, seq')
    end
  else Ok ([], seq).

Fixpoint vector_results (l : list status) (seq : Z) : list packet_result * Z :=
  match l with
  | [] => ([], seq)
  | s :: l =>
      let seq := u16 (seq + 1) in
      let '(rs, seq') := vector_results l seq in
      (PacketResult seq 0 (is_received s) 0 :: rs, seq')
  end.

(** [FillResults]: the results of the chunk and the last sequence number. *)
Definition FillResults (c : chunk) (seq : Z) : outcome (list packet_result * Z) :=
  match c with
  | RunLengthChunk s count => run_results (Z.to_nat count) (is_received s) 1 count seq
  | OneBitVectorChunk l | TwoBitVectorChunk l => Ok (vector_results l seq)
  end.

Fixpoint fill_results (cs : list chunk) (seq : Z) : outcome (list packet_result) :=
  match cs with
  | [] => Ok []
  | c :: cs => '(rs, seq) ← FillResults c seq; rs' ← fill_results cs seq; Ok (rs ++ rs')
  end.

(** The loop that gives the received ones their times; [deltas.at] throws. *)
Fixpoint date_results (rs : list packet_result) (deltas : list Z) (currentReceivedAtMs : Z)
  : outcome (list packet_result) :=
  match rs with
  | [] => Ok []
  | r :: rs =>
      if negb (pr_received r) then rs ← date_results rs deltas currentReceivedAtMs; Ok (r :: rs)
      else
        match deltas with
        | [] => Err Thrown
        | d :: deltas =>
            let currentReceivedAtMs := currentReceivedAtMs + Z.quot d 4 in
            rs ← date_results rs deltas currentReceivedAtMs;
            Ok (PacketResult (pr_sequenceNumber r) d true currentReceivedAtMs :: rs)
        end
  end.

Definition GetPacketResults (p : transport_packet) : outcome (list packet_result) :=
  rs ← fill_results (chunks p) (u16 (baseSequenceNumber p - 1));
  date_results rs (deltas p) (referenceTime p * 64).

Definition GetPacketFractionLost (p : transport_packet) : Z :=
  let expected := packetStatusCount p in
  if expected =? 0 then 0
  else
    let lost := foldl (fun n c => u16 (n + (GetCount c - GetReceivedStatusCount c))) 0 (chunks p) in
    if lost =? expected then 255 else u8 (Z.quot (Z.shiftl lost 8) expected).

(** * Making one *)

Definition IsFull (p : transport_packet) : bool := maxPacketStatusCount - 7 <=? packetStatusCount p.
Definition IsSerializable (p : transport_packet) : bool := 0 <? zlen (deltas p).

(** [size += (-size) & 3]. *)
Definition pad4 (size : Z) : Z := size + Z.land (- size) 3.

Definition TransportSize (p : transport_packet) : Z :=
  if truthy (tp_size p) then tp_size p
  else pad4 (CommonHeaderSize + FeedbackHeaderSize + fixedHeaderSize + deltasAndChunksSize p).

(** The context of the chunks. *)
Definition set_context (p : transport_packet) same cur sts : transport_packet :=
  TransportPacket (fbHeader p) (baseSequenceNumber p) (referenceTime p) (latestSequenceNumber p) (latestTimestamp p)
    (packetStatusCount p) (feedbackPacketCount p) (chunks p) (deltas p) same cur sts
    (deltasAndChunksSize p) (tp_size p).

Definition add_chunk (p : transport_packet) (c : chunk) (count : Z) : transport_packet :=
  TransportPacket (fbHeader p) (baseSequenceNumber p) (referenceTime p) (latestSequenceNumber p) (latestTimestamp p)
    (u16 (packetStatusCount p + count)) (feedbackPacketCount p) (chunks p ++ [c]) (deltas p)
    (allSameStatus p) (currentStatus p) (statuses p) (deltasAndChunksSize p + 2) (tp_size p).

Definition add_delta (p : transport_packet) (s : status) (delta : Z) : transport_packet :=
  TransportPacket (fbHeader p) (baseSequenceNumber p) (referenceTime p) (latestSequenceNumber p) (latestTimestamp p)
    (packetStatusCount p) (feedbackPacketCount p) (chunks p) (deltas p ++ [delta])
    (allSameStatus p) (currentStatus p) (statuses p ++ [s])
    (deltasAndChunksSize p + if bool_decide (s = SmallDelta) then 1 else 2) (tp_size p).

Definition set_latest (p : transport_packet) (seq timestamp : Z) : transport_packet :=
  TransportPacket (fbHeader p) (baseSequenceNumber p) (referenceTime p) seq timestamp
    (packetStatusCount p) (feedbackPacketCount p) (chunks p) (deltas p)
    (allSameStatus p) (currentStatus p) (statuses p) (deltasAndChunksSize p) (tp_size p).

Definition set_base (p : transport_packet) (base time : Z) : transport_packet :=
  TransportPacket (fbHeader p) base time (latestSequenceNumber p) (latestTimestamp p)
    (packetStatusCount p) (feedbackPacketCount p) (chunks p) (deltas p)
    (allSameStatus p) (currentStatus p) (statuses p) (deltasAndChunksSize p) (tp_size p).

Definition SetFeedbackPacketCount (p : transport_packet) (count : Z) : transport_packet :=
  TransportPacket (fbHeader p) (baseSequenceNumber p) (referenceTime p) (latestSequenceNumber p) (latestTimestamp p)
    (packetStatusCount p) count (chunks p) (deltas p)
    (allSameStatus p) (currentStatus p) (statuses p) (deltasAndChunksSize p) (tp_size p).

Definition CreateRunLengthChunk (p : transport_packet) (s : status) (count : Z) : transport_packet :=
  add_chunk p (RunLengthChunk s (u16 count)) (u16 count).

Definition CreateTwoBitVectorChunk (p : transport_packet) (l : list status) : transport_packet :=
  add_chunk p (TwoBitVectorChunk l) (u16 (zlen l)).

(** The statuses cleared and the current status given. *)
Definition clear_statuses (p : transport_packet) (cur : status) : transport_packet :=
  set_context p (allSameStatus p) cur [].

(** [for (uint8_t i{ 0u }; i < missingPackets && statuses.size() < 7; ++i)]: the
    statuses and [representedPackets]. *)
Fixpoint missing_loop (fuel : nat) (i missingPackets : Z) (l : list status) (represented : Z)
  : outcome (list status * Z) :=
  if (i <? missingPackets) && (zlen l <? 7) then
    match fuel with
    | O => Err OutOfFuel
    | S fuel => missing_loop fuel (u8 (i + 1)) missingPackets (l ++ [NotReceived]) (represented + 1)
    end
  else Ok (l, represented).

(** The missing packets of [FillChunk]. *)
Definition fill_missing (p : transport_packet) (missingPackets : Z) : outcome transport_packet :=
  if missingPackets <=? 0 then Ok p
  else
    let p := if (7 <=? zlen (statuses p)) && allSameStatus p
             then clear_statuses (CreateRunLengthChunk p (currentStatus p) (zlen (statuses p))) NoStatus
             else p in
    '(l, represented) ← missing_loop 7 0 missingPackets (statuses p) 0;
    let p := set_context p (allSameStatus p) NotReceived l in
    let p := if zlen l =? 7 then clear_statuses (CreateTwoBitVectorChunk p l) NoStatus else p in
    let missingPackets := u16 (missingPackets - represented) in
    Ok (if negb (missingPackets =? 0)
        then clear_statuses (CreateRunLengthChunk p NotReceived missingPackets) NoStatus
        else p).

Definition status_of_delta (delta : Z) : status :=
  if (0 <=? delta) && (delta <=? 255) then SmallDelta else LargeDelta.

(** The packet received of [FillChunk]. *)
Definition fill_received (p : transport_packet) (delta : Z) : transport_packet :=
  let status := status_of_delta delta in
  let p := if (7 <=? zlen (statuses p)) && allSameStatus p && bool_decide (status <> currentStatus p)
           then clear_statuses (CreateRunLengthChunk p (currentStatus p) (zlen (statuses p))) (currentStatus p)
           else p in
  let p := add_delta p status delta in
  let same := bool_decide (currentStatus p = NoStatus) || (allSameStatus p && bool_decide (currentStatus p = status)) in
  let p := set_context p same status (statuses p) in
  if zlen (statuses p) <? 7 then p
  else if (zlen (statuses p) =? 7) && negb same
  then clear_statuses (CreateTwoBitVectorChunk p (statuses p)) NoStatus
  else p.

Definition FillChunk (p : transport_packet) (previousSequenceNumber sequenceNumber delta : Z)
  : outcome transport_packet :=
  let missingPackets := u16 (sequenceNumber - (previousSequenceNumber + 1)) in
  p ← fill_missing p missingPackets;
  Ok (fill_received p delta).

Definition AddPendingChunks (p : transport_packet) : outcome transport_packet :=
  match statuses p with
  | [] => Ok p
  | _ =>
      p ← (if allSameStatus p then Ok (CreateRunLengthChunk p (currentStatus p) (zlen (statuses p)))
           else
             _ ← require AssertFailed (zlen (statuses p) <? 7);
             Ok (CreateTwoBitVectorChunk p (statuses p)));
      Ok (clear_statuses p (currentStatus p))
  end.

Inductive add_result : Type := SUCCESS | MAX_SIZE_EXCEEDED | FATAL.

Definition AddPacket (p : transport_packet) (sequenceNumber timestamp maxRtcpPacketLen : Z)
  : outcome (transport_packet * add_result) :=
  _ ← require AssertFailed (negb (IsFull p));
  if latestTimestamp p =? 0 then
    let p := set_base p (u16 (sequenceNumber + 1)) (Z.land timestamp 536870848 / 64) in
    Ok (set_latest p sequenceNumber (u64 (Z.shiftr timestamp 6 * 64)), SUCCESS)
  else if negb (SeqManager.IsSeqHigherThan 16 sequenceNumber (latestSequenceNumber p)) then Ok (p, SUCCESS)
  else
    (* in int *)
    let missingPackets := sequenceNumber - (latestSequenceNumber p + 1) in
    if maxMissingPackets <? missingPackets then Ok (p, FATAL)
    else
      let delta64 := swrap 64 (u64 (u64 (timestamp - latestTimestamp p) * 4)) in
      if (maxPacketDelta <? delta64) || (delta64 <? -1 * maxPacketDelta) then Ok (p, FATAL)
      else
        let delta := swrap 16 delta64 in
        let size := pad4 (CommonHeaderSize + FeedbackHeaderSize + fixedHeaderSize + deltasAndChunksSize p + 2 + 2) in
        if maxRtcpPacketLen <? size then Ok (p, MAX_SIZE_EXCEEDED)
        else
          p ← FillChunk p (latestSequenceNumber p) sequenceNumber delta;
          Ok (set_latest p sequenceNumber timestamp, SUCCESS).

(** * Writing it *)

(** [bytes |= status << i; i -= step], with [uint8_t i]. *)
Fixpoint vector_bits (step : Z) (l : list status) (i bytes : Z) : Z :=
  match l with
  | [] => bytes
  | s :: l => vector_bits step l (u8 (i - step)) (u16 (Z.lor bytes (Z.shiftl (status_num s) i)))
  end.

Definition chunk_bits (c : chunk) : outcome Z :=
  match c with
  | RunLengthChunk s count => Ok (u16 (Z.lor (u16 (Z.shiftl (status_num s) 13)) (Z.land count 8191)))
  | OneBitVectorChunk l =>
      _ ← require AssertFailed (zlen l <=? 14);
      Ok (vector_bits 1 l 13 32768)
  | TwoBitVectorChunk l =>
      _ ← require AssertFailed (zlen l <=? 7);
      Ok (vector_bits 2 l 12 (Z.lor 32768 (Z.shiftl 1 14)))
  end.

Definition SerializeChunk (c : chunk) (m : list Z) (off : Z) : outcome (list Z * Z) :=
  bits ← chunk_bits c;
  m ← Set2Bytes m off bits;
  Ok (m, off + 2).

Fixpoint serialize_chunks (cs : list chunk) (m : list Z) (off : Z) : outcome (list Z * Z) :=
  match cs with
  | [] => Ok (m, off)
  | c :: cs => '(m, off) ← SerializeChunk c m off; serialize_chunks cs m off
  end.

Fixpoint serialize_deltas (ds : list Z) (m : list Z) (off : Z) : outcome (list Z * Z) :=
  match ds with
  | [] => Ok (m, off)
  | d :: ds =>
      if (0 <=? d) && (d <=? 255) then m ← set1 m off (u8 d); serialize_deltas ds m (off + 1)
      else m ← Set2Bytes m off (u16 d); serialize_deltas ds m (off + 2)
  end.

(** The packet with its pending chunks, the buffer and the offset behind what
    was written. *)
Definition SerializeTransport (p : transport_packet) (m : list Z) (buffer : Z)
  : outcome (transport_packet * list Z * Z) :=
  p ← AddPendingChunks p;
  '(m, off) ← SerializeFeedback (fbHeader p) RTPFB (TransportSize p) m buffer;
  m ← Set2Bytes m off (baseSequenceNumber p);
  m ← Set2Bytes m (off + 2) (packetStatusCount p);
  m ← Set3Bytes m (off + 4) (u32 (referenceTime p));
  m ← set1 m (off + 7) (feedbackPacketCount p);
  '(m, off) ← serialize_chunks (chunks p) m (off + 8);
  '(m, off) ← serialize_deltas (deltas p) m off;
  let padding := Z.land (- (off - buffer)) 3 in
  m ← memset m off 0 padding;
  Ok (p, m, off + padding).
