(* ===== verification/RtcpTransportFacts.v ===== *)
(** Transport-wide feedback: reading it is safe, and what [FeedbackRtpTransportPacket]
    writes is read back.

    Transport-wide feedback: what [AddPacket] keeps track of. *)

From S2P Require Export RtcpTransport.

(** * The statuses of a chunk *)

Definition chunk_statuses (c : chunk) : list status :=
  match c with
  | RunLengthChunk s count => replicate (Z.to_nat count) s
  | OneBitVectorChunk l | TwoBitVectorChunk l => l
  end.

Definition received (l : list status) : list status := filter (fun s => is_received s = true) l.

(** A status that a chunk off the wire may have. *)
Definition chunk_ok (c : chunk) : Prop :=
  match c with
  | RunLengthChunk s count => 0 <= count <= 8191 /\ (s = NotReceived \/ is_received s = true)
  | OneBitVectorChunk l => zlen l <= 14 /\ Forall (fun s => s = NotReceived \/ s = SmallDelta) l
  | TwoBitVectorChunk l => zlen l <= 7
  end.

Lemma received_app l k : received (l ++ k) = received l ++ received k.
Proof. apply filter_app. Qed.

Lemma received_cons s l : received (s :: l) = (if is_received s then [s] else []) ++ received l.
Proof.
  unfold received. rewrite filter_cons. destruct (is_received s); [by rewrite decide_True|by rewrite decide_False].
Qed.

Lemma received_replicate n s : received (replicate n s) = if is_received s then replicate n s else [].
Proof.
  induction n as [|n IH]; [by destruct (is_received s)|]. cbn [replicate]. rewrite received_cons, IH.
  by destruct (is_received s).
Qed.

Lemma zlen_received l : 0 <= zlen (received l) <= zlen l.
Proof.
  split; [apply zlen_nonneg|]. unfold zlen, received. pose proof (length_filter (fun s => is_received s = true) l). lia.
Qed.

Lemma count_received_spec l : zlen l < 65536 -> count_received l = zlen (received l).
Proof.
  unfold count_received. intros Hl.
  assert (forall l n, 0 <= n -> n + zlen l < 65536 ->
    foldl (fun n s => if is_received s then u16 (n + 1) else n) n l = n + zlen (received l)) as H; [|by apply H].
  clear. induction l as [|s l IH]; intros n Hn Hl; cbn [foldl].
  { change (zlen (received [])) with 0. lia. }
  rewrite zlen_cons in Hl. pose proof (zlen_nonneg l). rewrite received_cons, zlen_app.
  destruct (is_received s).
  - rewrite wrap_small by (unfold in_uint; lia). rewrite IH by lia. rewrite zlen_one. lia.
  - rewrite IH by lia. change (zlen (@nil status)) with 0. lia.
Qed.

Lemma GetCount_spec c : chunk_ok c -> GetCount c = zlen (chunk_statuses c).
Proof.
  destruct c as [s n|l|l]; cbn.
  - intros [H _]. unfold zlen. rewrite length_replicate. lia.
  - intros [H _]. pose proof (zlen_nonneg l). apply wrap_small. unfold in_uint. lia.
  - intros H. pose proof (zlen_nonneg l). apply wrap_small. unfold in_uint. lia.
Qed.

Lemma GetReceivedStatusCount_spec c : chunk_ok c -> GetReceivedStatusCount c = zlen (received (chunk_statuses c)).
Proof.
  destruct c as [s n|l|l]; cbn.
  - intros [H _]. rewrite received_replicate. destruct (is_received s); [|done]. unfold zlen. rewrite length_replicate. lia.
  - intros [H _]. apply count_received_spec. lia.
  - intros H. apply count_received_spec. lia.
Qed.

(** * Reading is safe *)

Section reading.
Context (m : list Z) (Hm : bytes m).

Lemma vector_loop_length n sym top buffer : forall i count, zlen (vector_loop n sym top buffer i count) <= Z.of_nat n.
Proof.
  induction n as [|n IH]; intros i count; cbn [vector_loop]; [done|].
  destruct (0 <? count); [|by unfold zlen; cbn; lia]. rewrite zlen_cons. specialize (IH (i + 1) (count - 1)). lia.
Qed.

Lemma one_bit_statuses n top buffer : forall i count,
  Forall (fun s => s = NotReceived \/ s = SmallDelta) (vector_loop n 1 top buffer i count).
Proof.
  induction n as [|n IH]; intros i count; cbn [vector_loop]; [constructor|].
  destruct (0 <? count); [|constructor]. constructor; [|apply IH]. rewrite land_low_ones by lia.
  pose proof (Z.mod_pos_bound (Z.shiftr buffer (1 * (top - 1 - i))) (2 ^ 1) ltac:(lia)) as H. change (2 ^ 1) with 2 in *.
  assert (Z.shiftr buffer (1 * (top - 1 - i)) `mod` 2 = 0 \/ Z.shiftr buffer (1 * (top - 1 - i)) `mod` 2 = 1)
    as [-> | ->] by lia; auto.
Qed.

(** The first bit tells a vector chunk. *)
Lemma vector_bit v : in_uint 16 v -> Z.land (Z.shiftr v 15) 1 <> 0 ->
  truthy (Z.land v 32768) = true /\ truthy (Z.land v 49152) = true.
Proof.
  intros Hv Hbit. change 1 with (Z.ones 1) in Hbit. rewrite Z.land_ones in Hbit by lia.
  rewrite Z.shiftr_div_pow2 in Hbit by lia. change (2 ^ 1) with 2 in Hbit.
  assert (Z.testbit v 15 = true) as Hb.
  { rewrite Z.testbit_true by lia. pose proof (Z.mod_pos_bound (v / 2 ^ 15) 2). lia. }
  unfold truthy. split; apply negb_true_iff, Z.eqb_neq; intros E;
    apply (f_equal (fun z => Z.testbit z 15)) in E; rewrite Z.land_spec, Hb in E; discriminate.
Qed.

Lemma ParseChunk_safe off len count : 0 <= off -> off + len <= zlen m ->
  exists r, ParseChunk m off len count = Ok r /\ forall c, r = Some c -> chunk_ok c.
Proof.
  intros H0 Hl. unfold ParseChunk. destruct (Z.ltb_spec len 2) as [|H2]; [by exists None|].
  destruct (Get2Bytes_in_bounds m off) as (v & -> & Hv); [lia..|]. ostep.
  destruct (Z.eqb_spec (Z.land (Z.shiftr v 15) 1) 0) as [|Hbit].
  { assert (0 <= Z.land v 8191 <= 8191) as Hc.
    { pose proof (land_low_ones 13 v ltac:(lia)) as E. change (2 ^ 13 - 1) with 8191 in E. rewrite E.
      pose proof (Z.mod_pos_bound v (2 ^ 13) ltac:(lia)). change (2 ^ 13) with 8192 in *. lia. }
    destruct (status_of _); (eexists; split; [done|]; intros c [= <-]); split; auto. }
  destruct (get1_in_bounds m off) as [b ->]; [lia|]. ostep.
  destruct (vector_bit v Hv Hbit) as [B1 B2]. unfold OneBitVector, TwoBitVector. rewrite B1, B2. ostep.
  destruct (_ =? 0); ostep; (eexists; split; [done|]; intros c [= <-]).
  - split; [exact (vector_loop_length 14 1 14 v 0 count)|exact (one_bit_statuses 14 14 v 0 count)].
  - exact (vector_loop_length 7 2 7 v 0 count).
Qed.

Lemma run_deltas_safe n k off : forall deltas offset, k = 1 \/ k = 2 -> 0 <= off + offset ->
  off + offset + Z.of_nat n * k <= zlen m ->
  exists ds, run_deltas n k m off deltas offset = Ok (deltas ++ ds, offset + Z.of_nat n * k) /\ length ds = n.
Proof.
  induction n as [|n IH]; intros deltas offset Hk H0 Hl; cbn [run_deltas].
  { exists []. split; [|done]. rewrite app_nil_r. do 2 f_equal. lia. }
  assert (exists d, (if k =? 1 then get1 m (off + offset) else Get2Bytes m (off + offset)) = Ok d) as [d ->].
  { destruct Hk as [-> | ->]; cbn [Z.eqb Pos.eqb].
    - apply get1_in_bounds. lia.
    - destruct (Get2Bytes_in_bounds m (off + offset)) as (v & -> & _); [lia..|]. by exists v. }
  ostep. destruct (IH (deltas ++ [swrap 16 d]) (offset + k) Hk) as (ds & -> & Hd); [lia..|].
  exists (swrap 16 d :: ds). rewrite <- app_assoc. split; [|cbn; by rewrite Hd]. do 2 f_equal. lia.
Qed.

Lemma vector_deltas_safe two l off : forall len deltas offset, 0 <= off + offset -> off + offset + len <= zlen m ->
  (two = false -> Forall (fun s => s = NotReceived \/ s = SmallDelta) l) ->
  exists r, vector_deltas two l m off len deltas offset = Ok r /\
    forall ds' o, r = Some (ds', o) -> 0 <= len ->
      exists ds, ds' = deltas ++ ds /\ zlen ds = zlen (received l) /\ offset <= o <= offset + len.
Proof.
  induction l as [|s l IH]; intros len deltas offset H0 Hl Htwo; cbn [vector_deltas].
  { eexists. split; [done|]. intros ds' o [= <- <-] Hlen. exists []. rewrite app_nil_r. split; [done|]. split; [done|lia]. }
  assert (two = false -> Forall (fun s => s = NotReceived \/ s = SmallDelta) l) as Hl'.
  { intros E. by apply Htwo, Forall_cons in E as [_ ?]. }
  assert (forall d k, 0 <= k <= len -> is_received s = true ->
    exists r, vector_deltas two l m off (len - k) (deltas ++ [d]) (offset + k) = Ok r /\
      forall ds' o, r = Some (ds', o) -> 0 <= len ->
      exists ds, ds' = deltas ++ ds /\ zlen ds = zlen (received (s :: l)) /\ offset <= o <= offset + len) as Hstep.
  { intros d k Hk Hs. destruct (IH (len - k) (deltas ++ [d]) (offset + k)) as (r & -> & Hr); [lia|lia|done|].
    exists r. split; [done|]. intros ds' o Er Hlen. destruct (Hr ds' o Er) as (ds & -> & Hd & Ho); [lia|].
    exists (d :: ds). rewrite received_cons, Hs, <- app_assoc. split; [done|]. cbn [app].
    rewrite !zlen_cons. split; [lia|lia]. }
  assert (is_received s = false ->
    exists r, vector_deltas two l m off len deltas offset = Ok r /\
      forall ds' o, r = Some (ds', o) -> 0 <= len ->
      exists ds, ds' = deltas ++ ds /\ zlen ds = zlen (received (s :: l)) /\ offset <= o <= offset + len) as Hskip.
  { intros Hs. destruct (IH len deltas offset H0 Hl Hl') as (r & E & Hr). exists r. split; [exact E|].
    rewrite received_cons, Hs. exact Hr. }
  destruct s; try (destruct two; cbn [negb]; [|by exists None]).
  - apply Hskip, eq_refl.
  - destruct (Z.ltb_spec len 1); [by exists None|]. destruct (get1_in_bounds m (off + offset)) as [d ->]; [lia|].
    ostep. apply Hstep; [lia|done].
  - rewrite bool_decide_true by done. destruct (Z.ltb_spec len 2); [by exists None|].
    destruct (Get2Bytes_in_bounds m (off + offset)) as (d & -> & _); [lia..|]. ostep. apply Hstep; [lia|done].
  - rewrite bool_decide_false by done. apply Hskip, eq_refl.
  - rewrite bool_decide_false by done. apply Hskip, eq_refl.
Qed.

Lemma AddDeltas_safe c off len deltas : chunk_ok c -> 0 <= off -> 0 <= len -> off + len <= zlen m ->
  exists r, AddDeltas c m off len deltas = Ok r /\
    forall ds' o, r = Some (ds', o) ->
      exists ds, ds' = deltas ++ ds /\ zlen ds = zlen (received (chunk_statuses c)) /\ 0 <= o <= len.
Proof.
  intros Hc H0 Hlen Hl. destruct c as [s n|l|l].
  - destruct Hc as [Hn Hs]. unfold chunk_statuses. rewrite received_replicate.
    assert (forall k, k = 1 \/ k = 2 -> is_received s = true -> len <? n * k = false ->
      exists r, (r ← run_deltas (Z.to_nat n) k m off deltas 0; Ok (Some r)) = Ok r /\
        forall ds' o, r = Some (ds', o) ->
          exists ds, ds' = deltas ++ ds /\ zlen ds = zlen (if is_received s then replicate (Z.to_nat n) s else []) /\
            0 <= o <= len) as H.
    { intros k Hk Hrec Hroom%Z.ltb_ge. rewrite Hrec.
      destruct (run_deltas_safe (Z.to_nat n) k off deltas 0 Hk) as (ds & -> & Hd); [lia|nia|].
      ostep. eexists. split; [done|]. intros ds' o [= <- <-]. exists ds. split; [done|]. unfold zlen.
      rewrite Hd, length_replicate. split; [done|nia]. }
    destruct Hs as [-> |Hs]; [|destruct s; try discriminate]; cbn [AddDeltas].
    + eexists. split; [done|]. intros ds' o [= <- <-]. exists []. rewrite app_nil_r. split; [done|]. split; [done|lia].
    + destruct (len <? n * 1) eqn:E; [by exists None|]. by apply H; [left| |].
    + destruct (len <? n * 2) eqn:E; [by exists None|]. by apply H; [right| |].
  - destruct Hc as [_ Hall].
    destruct (vector_deltas_safe false l off len deltas 0) as (r & E & Hr); [lia|lia|done|].
    exists r. split; [exact E|]. intros ds' o Er. destruct (Hr ds' o Er Hlen) as (ds & ? & ? & ?).
    exists ds. split; [done|]. split; [done|lia].
  - destruct (vector_deltas_safe true l off len deltas 0) as (r & E & Hr); [lia|lia|done|].
    exists r. split; [exact E|]. intros ds' o Er. destruct (Hr ds' o Er Hlen) as (ds & ? & ? & ?).
    exists ds. split; [done|]. split; [done|lia].
Qed.

(** All the statuses of the chunks. *)
Definition all_statuses (cs : list chunk) : list status := concat (chunk_statuses <$> cs).

Lemma all_statuses_app cs cs' : all_statuses (cs ++ cs') = all_statuses cs ++ all_statuses cs'.
Proof. unfold all_statuses. by rewrite fmap_app, concat_app. Qed.

Lemma all_statuses_one c : all_statuses [c] = chunk_statuses c.
Proof. apply app_nil_r. Qed.

Lemma all_statuses_cons c cs : all_statuses (c :: cs) = chunk_statuses c ++ all_statuses cs.
Proof. done. Qed.

Lemma chunk_loop_safe content contentLen total fuel : forall cs offset count rcvd,
  0 <= content -> content + contentLen <= zlen m -> 0 <= offset <= contentLen ->
  contentLen - offset < 2 * Z.of_nat fuel ->
  Forall chunk_ok cs -> count = u16 (zlen (all_statuses cs)) -> rcvd = u16 (zlen (received (all_statuses cs))) ->
  match chunk_loop fuel m content contentLen total cs offset count rcvd with
  | Ok (cs', offset', count', rcvd') =>
      Forall chunk_ok cs' /\ count' = u16 (zlen (all_statuses cs')) /\
      rcvd' = u16 (zlen (received (all_statuses cs'))) /\ offset <= offset' <= contentLen
  | Err e => e = Rejected
  end.
Proof.
  induction fuel as [|fuel IH]; intros cs offset count rcvd H0 Hl Hoff Hfuel Hcs Hcount Hr; cbn [chunk_loop].
  all: destruct ((count <? total) && (offset <? contentLen)) eqn:E; [|split_and!; (done || lia)].
  all: apply andb_true_iff in E as [_ E%Z.ltb_lt].
  1: lia.
  destruct (Z.ltb_spec (contentLen - offset) 2); [done|].
  destruct (ParseChunk_safe (content + offset) (contentLen - offset) (u16 (total - count))) as ([c|] & -> & Hc);
    [lia|lia| |done]. ostep.
  specialize (Hc c eq_refl). specialize (IH (cs ++ [c]) (offset + 2) (u16 (count + GetCount c)) (u16 (rcvd + GetReceivedStatusCount c))).
  destruct (chunk_loop _ _ _ _ _ _ _ _ _) as [[[[cs' offset'] count'] rcvd']|e].
  - destruct IH as (? & ? & ? & ?); [done|done|lia|lia| | | |].
    + apply Forall_app. by split; [|constructor].
    + rewrite all_statuses_app, all_statuses_one, zlen_app, Hcount, GetCount_spec, wrap_add_l by done. done.
    + rewrite all_statuses_app, all_statuses_one, received_app, zlen_app, Hr, GetReceivedStatusCount_spec, wrap_add_l
        by done. done.
    + split_and!; (done || lia).
  - apply IH; [done|done|lia|lia| | |].
    + apply Forall_app. by split; [|constructor].
    + rewrite all_statuses_app, all_statuses_one, zlen_app, Hcount, GetCount_spec, wrap_add_l by done. done.
    + rewrite all_statuses_app, all_statuses_one, received_app, zlen_app, Hr, GetReceivedStatusCount_spec, wrap_add_l
        by done. done.
Qed.

Lemma delta_loop_safe content contentLen cs : Forall chunk_ok cs -> forall deltas offset,
  0 <= content -> content + contentLen <= zlen m -> 0 <= offset <= contentLen ->
  match delta_loop cs m content contentLen deltas offset with
  | Ok (deltas', offset') =>
      zlen deltas <= zlen deltas' <= zlen deltas + zlen (received (all_statuses cs)) /\ offset <= offset' <= contentLen
  | Err e => e = Rejected
  end.
Proof.
  induction 1 as [|c cs Hc Hcs IH]; intros deltas offset H0 Hl Hoff; cbn [delta_loop].
  { change (zlen (received (all_statuses []))) with 0. lia. }
  rewrite all_statuses_cons, received_app, zlen_app.
  pose proof (zlen_nonneg (received (chunk_statuses c))). pose proof (zlen_nonneg (received (all_statuses cs))).
  destruct (Z.ltb_spec offset contentLen); [|lia].
  destruct (AddDeltas_safe c (content + offset) (contentLen - offset) deltas) as (r & -> & Hr); [done|lia|lia|lia|].
  ostep. destruct r as [[deltas' o]|]; [|done].
  destruct (Hr deltas' o eq_refl) as (ds & -> & Hd & Ho). specialize (IH (deltas ++ ds) (offset + o) H0 Hl).
  destruct (delta_loop _ _ _ _ _ _) as [[deltas'' o']|e]; [|apply IH; lia].
  rewrite zlen_app in IH. lia.
Qed.
End reading.

Lemma Get3Bytes_in_bounds m i : 0 <= i -> i + 3 <= zlen m -> exists v, Get3Bytes m i = Ok v.
Proof.
  intros ? ?. unfold Get3Bytes.
  destruct (get1_in_bounds m (i + 2)) as [b2 ->]; [lia|].
  destruct (get1_in_bounds m (i + 1)) as [b1 ->]; [lia|].
  destruct (get1_in_bounds m i) as [b0 ->]; [lia|]. ostep. by eexists.
Qed.

Lemma parseReferenceTime_in_bounds m i : 0 <= i -> i + 3 <= zlen m -> exists t, parseReferenceTime m i = Ok t.
Proof.
  intros ? ?. unfold parseReferenceTime. destruct (Get3Bytes_in_bounds m i) as [u ->]; [done|done|]. ostep.
  cbv zeta. set (v := if truthy _ then _ else u). destruct (truthy (Z.land v (2 ^ 31))); by eexists.
Qed.

(** What is known of a packet that was accepted. *)
Record accepted (p : transport_packet) : Prop := {
  ac_chunks : Forall chunk_ok (chunks p);
  ac_base : in_uint 16 (baseSequenceNumber p);
  ac_count : packetStatusCount p = u16 (zlen (all_statuses (chunks p)));
  ac_deltas : zlen (deltas p) = u16 (zlen (received (all_statuses (chunks p))))
}.

Lemma ParseTransport_safe m len : bytes m -> packet_length m = Ok len -> len <= zlen m ->
  match ParseTransport m len with Ok p => accepted p | Err e => e = Rejected end.
Proof.
  intros Hm Hlen Hl. unfold ParseTransport. destruct (Z.ltb_spec len (CommonHeaderSize + FeedbackHeaderSize + fixedHeaderSize)) as [|H20]; [done|].
  unfold CommonHeaderSize, FeedbackHeaderSize, fixedHeaderSize in *. cbn in H20.
  unfold ParseFeedbackHeader, header_count. destruct (get1_in_bounds m 0) as [b0 ->]; [lia|]. ostep.
  destruct (Get4Bytes_in_bounds m 4) as (ss & -> & _); [lia..|].
  destruct (Get4Bytes_in_bounds m 8) as (ms & -> & _); [lia..|]. ostep.
  assert (len <= 262144) as Hmax.
  { unfold packet_length, header_length in Hlen. destruct (Get2Bytes_in_bounds m 2) as (v & E & Hv); [lia..|].
    rewrite E in Hlen. injection Hlen as <-. unfold in_uint in Hv. change (2 ^ 16) with 65536 in Hv. lia. }
  rewrite Hlen. ostep. rewrite (proj2 (Z.ltb_ge len len)) by lia. cbv zeta.
  destruct (Get2Bytes_in_bounds m (4 + 8)) as (base & -> & Hbase); [lia..|].
  destruct (Get2Bytes_in_bounds m (4 + 8 + 2)) as (total & -> & Htotal); [lia..|]. ostep.
  destruct (parseReferenceTime_in_bounds m (4 + 8 + 4)) as [ref ->]; [lia..|]. ostep.
  destruct (get1_in_bounds m (4 + 8 + 7)) as [fb ->]; [lia|]. ostep.
  rewrite wrap_small by (unfold in_uint; lia).
  pose proof (chunk_loop_safe m (4 + 8 + 8) (len - 4 - 8 - 8) total (length m) [] 0 0 0) as Hc.
  destruct (chunk_loop _ _ _ _ _ _ _ _ _) as [[[[cs off] count] rcvd]|e].
  2: { apply Hc; try done; unfold zlen in *; lia. }
  destruct Hc as (Hcs & -> & -> & Hoff); try done; [unfold zlen in *; lia..|]. ostep.
  destruct (Z.eqb_spec (u16 (zlen (all_statuses cs))) total) as [E|]; [|done]. cbn [negb].
  pose proof (delta_loop_safe m (4 + 8 + 8) (len - 4 - 8 - 8) cs Hcs [] off) as Hd.
  destruct (delta_loop _ _ _ _ _ _) as [[ds off']|e]; [|apply Hd; lia]. ostep.
  destruct (Z.eqb_spec (zlen ds) (u16 (zlen (received (all_statuses cs))))) as [E'|]; [|done]. cbn [negb].
  by split.
Qed.

(** * The results *)

Lemma vector_results_app l k : forall seq, vector_results (l ++ k) seq =
  (let '(rs, seq') := vector_results l seq in let '(rs', seq'') := vector_results k seq' in (rs ++ rs', seq'')).
Proof.
  induction l as [|s l IH]; intros seq; cbn [vector_results app].
  - by destruct (vector_results k seq).
  - rewrite IH. destruct (vector_results l _) as [rs q]. by destruct (vector_results k q).
Qed.

Lemma run_results_spec s n : forall fuel count seq, Z.of_nat n + count <= 65535 -> 1 <= count -> fuel = n ->
  run_results fuel (is_received s) count (Z.of_nat n + count - 1) seq = Ok (vector_results (replicate n s) seq).
Proof.
  induction n as [|n IH]; intros fuel count seq Hn Hc ->; cbn [run_results replicate vector_results].
  { by rewrite (proj2 (Z.leb_gt _ _)) by lia. }
  rewrite (proj2 (Z.leb_le _ _)) by lia. cbv zeta. rewrite (wrap_small 16 (count + 1)) by (unfold in_uint; lia).
  replace (Z.of_nat (S n) + count - 1) with (Z.of_nat n + (count + 1) - 1) by lia.
  rewrite IH by lia. ostep. by destruct (vector_results (replicate n s) _).
Qed.

Lemma FillResults_spec c seq : chunk_ok c -> FillResults c seq = Ok (vector_results (chunk_statuses c) seq).
Proof.
  destruct c as [s n|l|l]; [|done..]. intros [Hn _]. cbn [FillResults chunk_statuses].
  rewrite <- (run_results_spec s (Z.to_nat n) (Z.to_nat n) 1 seq) by lia. f_equal. lia.
Qed.

Lemma fill_results_spec cs : Forall chunk_ok cs -> forall seq,
  fill_results cs seq = Ok (vector_results (all_statuses cs) seq).1.
Proof.
  induction 1 as [|c cs Hc Hcs IH]; intros seq; cbn [fill_results]; [done|].
  rewrite FillResults_spec by done. rewrite all_statuses_cons, vector_results_app. ostep.
  destruct (vector_results (chunk_statuses c) seq) as [rs q]. rewrite IH. ostep.
  by destruct (vector_results (all_statuses cs) q).
Qed.

Lemma vector_results_lookup l : forall seq i,
  (vector_results l seq).1 !! i
  = (fun s => PacketResult (u16 (seq + 1 + Z.of_nat i)) 0 (is_received s) 0) <$> l !! i.
Proof.
  induction l as [|s l IH]; intros seq i; cbn [vector_results]; [done|].
  specialize (IH (u16 (seq + 1))). destruct (vector_results l (u16 (seq + 1))) as [rs q]. cbn [fst] in *.
  destruct i as [|i]; cbn [lookup list_lookup fmap option_fmap option_map].
  - do 2 f_equal. f_equal. lia.
  - rewrite IH. destruct (l !! i); [|done]. cbn. do 2 f_equal. rewrite <- Z.add_assoc, wrap_add_l. f_equal. lia.
Qed.

(** The times are given in order to the packets received; too few deltas throw. *)
Lemma date_results_spec rs : forall ds time,
  if zlen (filter (fun r => pr_received r = true) rs) <=? zlen ds
  then exists rs', date_results rs ds time = Ok rs' /\
    Forall2 (fun r r' => pr_sequenceNumber r' = pr_sequenceNumber r /\ pr_received r' = pr_received r) rs rs'
  else date_results rs ds time = Err Thrown.
Proof.
  induction rs as [|r rs IH]; intros ds time; cbn [date_results].
  { change (zlen (filter _ [])) with 0. rewrite (proj2 (Z.leb_le 0 _)) by apply zlen_nonneg. by exists []. }
  rewrite filter_cons. destruct (pr_received r) eqn:Er; cbn [negb].
  - rewrite decide_True by done. destruct ds as [|d ds].
    { rewrite zlen_cons. change (zlen (@nil Z)) with 0. pose proof (zlen_nonneg (filter (fun r => pr_received r = true) rs)).
      by rewrite (proj2 (Z.leb_gt _ _)) by lia. }
    rewrite !zlen_cons. cbv zeta. specialize (IH ds (time + Z.quot d 4)).
    replace (1 + zlen (filter (fun r => pr_received r = true) rs) <=? 1 + zlen ds)
      with (zlen (filter (fun r => pr_received r = true) rs) <=? zlen ds)
      by (destruct (Z.leb_spec (zlen (filter (fun r => pr_received r = true) rs)) (zlen ds)); symmetry;
          [apply Z.leb_le|apply Z.leb_gt]; lia).
    destruct (_ <=? _); [|by rewrite IH]. destruct IH as (rs' & -> & Hrs). ostep. eexists. split; [done|].
    constructor; [by rewrite Er|done].
  - rewrite decide_False by congruence. specialize (IH ds time).
    destruct (_ <=? _); [|by rewrite IH]. destruct IH as (rs' & -> & Hrs). ostep. eexists. split; [done|].
    by constructor.
Qed.

Lemma received_results l : forall seq,
  zlen (filter (fun r => pr_received r = true) (vector_results l seq).1) = zlen (received l).
Proof.
  induction l as [|s l IH]; intros seq; cbn [vector_results]; [done|]. specialize (IH (u16 (seq + 1))).
  destruct (vector_results l (u16 (seq + 1))) as [rs q]. cbn [fst] in *. rewrite received_cons, zlen_app, filter_cons.
  cbn [pr_received]. destruct (is_received s); [rewrite decide_True by done|rewrite decide_False by done].
  - rewrite zlen_cons, zlen_one. lia.
  - rewrite IH. change (zlen (@nil status)) with 0. lia.
Qed.

(** What an accepted packet says is read, unless it has more packets received
    than 16 bits can count. *)
Lemma GetPacketResults_spec p : accepted p ->
  let all := all_statuses (chunks p) in
  if zlen (received all) <? 65536
  then exists rs, GetPacketResults p = Ok rs /\ zlen rs = zlen all /\
    forall i s, all !! i = Some s -> exists r, rs !! i = Some r /\ pr_received r = is_received s /\
      pr_sequenceNumber r = u16 (baseSequenceNumber p + Z.of_nat i)
  else GetPacketResults p = Err Thrown.
Proof.
  intros [Hc Hb Hn Hd] all. unfold GetPacketResults. rewrite fill_results_spec by done. ostep. fold all in Hd |- *.
  set (seq := u16 (baseSequenceNumber p - 1)).
  pose proof (date_results_spec (vector_results all seq).1 (deltas p) (referenceTime p * 64)) as H.
  rewrite received_results, Hd in H. pose proof (zlen_received all) as Hr.
  destruct (Z.ltb_spec (zlen (received all)) 65536).
  - rewrite wrap_small, (proj2 (Z.leb_le _ _)) in H by (unfold in_uint; lia).
    destruct H as (rs & -> & Hrs). exists rs. split; [done|]. split.
    { unfold zlen. f_equal. rewrite <- (Forall2_length _ _ _ Hrs).
      assert (forall l seq, length (vector_results l seq).1 = length l) as Hlen; [|apply Hlen].
      clear. induction l as [|s l IH]; intros seq; cbn [vector_results]; [done|]. specialize (IH (u16 (seq + 1))).
      destruct (vector_results l _). cbn in *. by rewrite IH. }
    intros i s Hs. pose proof (vector_results_lookup all seq i) as Hi. rewrite Hs in Hi.
    destruct (Forall2_lookup_l _ _ _ _ _ Hrs Hi) as (r & Hr' & Eseq & Erec). exists r. split; [done|].
    rewrite Eseq, Erec. split; [done|]. cbn [pr_sequenceNumber]. subst seq.
    rewrite <- Z.add_assoc, wrap_add_l. f_equal. lia.
  - rewrite (proj2 (Z.leb_gt _ _)) in H; [done|]. pose proof (wrap_range 16 (zlen (received all)) ltac:(lia)) as [_ Hw].
    change (2 ^ 16) with 65536 in Hw. lia.
Qed.

(** * The log of the packets reported *)

(** One entry for each sequence number from the base on: the time of arrival of
    the packet, if it has arrived.  The deltas and the statuses of a log whose
    times start at [t]. *)
Fixpoint deltas_of (t : Z) (log : list (option Z)) : list Z :=
  match log with
  | [] => []
  | None :: log => deltas_of t log
  | Some u :: log => (u - t) * 4 :: deltas_of u log
  end.

Fixpoint statuses_of (t : Z) (log : list (option Z)) : list status :=
  match log with
  | [] => []
  | None :: log => NotReceived :: statuses_of t log
  | Some u :: log => status_of_delta ((u - t) * 4) :: statuses_of u log
  end.

Fixpoint last_time (t : Z) (log : list (option Z)) : Z :=
  match log with
  | [] => t
  | None :: log => last_time t log
  | Some u :: log => last_time u log
  end.

Section log.
Implicit Types (log : list (option Z)) (t : Z).

Lemma deltas_of_app log log' : forall t, deltas_of t (log ++ log') = deltas_of t log ++ deltas_of (last_time t log) log'.
Proof. induction log as [|[u|] log IH]; intros t; cbn; [done| |done]. by rewrite IH. Qed.

Lemma statuses_of_app log log' : forall t,
  statuses_of t (log ++ log') = statuses_of t log ++ statuses_of (last_time t log) log'.
Proof. induction log as [|[u|] log IH]; intros t; cbn; [done| |]; by rewrite IH. Qed.

Lemma last_time_app log log' : forall t, last_time t (log ++ log') = last_time (last_time t log) log'.
Proof. induction log as [|[u|] log IH]; intros t; cbn; done. Qed.

Lemma deltas_of_missing n t : deltas_of t (replicate n None) = [].
Proof. by induction n. Qed.

Lemma statuses_of_missing n t : statuses_of t (replicate n None) = replicate n NotReceived.
Proof. induction n as [|n IH]; cbn; [done|]. by rewrite IH. Qed.

Lemma last_time_missing n t : last_time t (replicate n None) = t.
Proof. by induction n. Qed.

Lemma length_statuses_of log : forall t, length (statuses_of t log) = length log.
Proof. induction log as [|[u|] log IH]; intros t; cbn; [done| |]; by rewrite IH. Qed.
End log.

Lemma received_of_delta d : is_received (status_of_delta d) = true.
Proof. unfold status_of_delta. by destruct (_ && _). Qed.

(** * The chunks of a packet in the making *)

Definition reportable (s : status) : Prop := s = NotReceived \/ is_received s = true.

Definition chunk_full (c : chunk) : Prop :=
  match c with
  | RunLengthChunk s count => 1 <= count <= 8191 /\ reportable s
  | OneBitVectorChunk _ => False
  | TwoBitVectorChunk l => zlen l = 7 /\ Forall reportable l
  end.

Definition delta_size (d : Z) : Z := if (0 <=? d) && (d <=? 255) then 1 else 2.
Definition deltas_size (ds : list Z) : Z := foldr (fun d n => delta_size d + n) 0 ds.

Lemma delta_size_cases d : delta_size d = 1 \/ delta_size d = 2.
Proof. unfold delta_size. destruct (_ && _); auto. Qed.

Lemma deltas_size_cons d ds : deltas_size (d :: ds) = delta_size d + deltas_size ds.
Proof. done. Qed.

Lemma deltas_size_app ds ds' : deltas_size (ds ++ ds') = deltas_size ds + deltas_size ds'.
Proof. induction ds as [|d ds IH]; [done|]. cbn [app]. rewrite !deltas_size_cons, IH. lia. Qed.

Lemma deltas_size_length ds : zlen ds <= deltas_size ds.
Proof.
  induction ds as [|d ds IH]; [done|]. rewrite zlen_cons, deltas_size_cons. unfold delta_size. destruct (_ && _); lia.
Qed.

(** The statuses in the chunks and those still in the context. *)
Definition reported (p : transport_packet) : list status := all_statuses (chunks p) ++ statuses p.

Record tally (p : transport_packet) : Prop := {
  ta_chunks : Forall chunk_full (chunks p);
  ta_count : packetStatusCount p = u16 (zlen (all_statuses (chunks p)));
  ta_size : deltasAndChunksSize p = 2 * zlen (chunks p) + deltas_size (deltas p)
}.

Record context_ok (p : transport_packet) : Prop := {
  cx_statuses : Forall reportable (statuses p);
  cx_same : allSameStatus p = true -> currentStatus p = NotReceived \/ Forall (eq (currentStatus p)) (statuses p);
  cx_seven : 7 <= zlen (statuses p) -> allSameStatus p = true /\ Forall (eq (currentStatus p)) (statuses p);
  cx_none : currentStatus p = NoStatus -> statuses p = [];
  cx_length : zlen (statuses p) <= 7 + zlen (deltas p)
}.

Lemma context_ok_nil p : statuses p = [] -> context_ok p.
Proof.
  intros E. split; rewrite ?E.
  - constructor.
  - intros _. by right.
  - change (zlen (@nil status)) with 0. lia.
  - done.
  - change (zlen (@nil status)) with 0. pose proof (zlen_nonneg (deltas p)). lia.
Qed.

(** What building chunks leaves alone. *)
Record same_frame (p p' : transport_packet) : Prop := {
  fr_header : fbHeader p' = fbHeader p;
  fr_base : baseSequenceNumber p' = baseSequenceNumber p;
  fr_time : referenceTime p' = referenceTime p;
  fr_seq : latestSequenceNumber p' = latestSequenceNumber p;
  fr_latest : latestTimestamp p' = latestTimestamp p;
  fr_count : feedbackPacketCount p' = feedbackPacketCount p;
  fr_size : tp_size p' = tp_size p
}.

Lemma same_frame_trans p p' p'' : same_frame p p' -> same_frame p' p'' -> same_frame p p''.
Proof. intros [] []. split; congruence. Qed.

Lemma same_frame_refl p : same_frame p p.
Proof. by split. Qed.

Ltac tp_simpl := cbn [set_context add_chunk add_delta clear_statuses CreateRunLengthChunk CreateTwoBitVectorChunk
  set_latest set_base SetFeedbackPacketCount last_time deltas_of statuses_of fbHeader baseSequenceNumber referenceTime latestSequenceNumber latestTimestamp packetStatusCount feedbackPacketCount
  chunks deltas allSameStatus currentStatus statuses deltasAndChunksSize tp_size].

(** What the steps on the chunks and the context have in common; at most [n]
    chunks are added. *)
Record chunked (p : transport_packet) (all : list status) (n : Z) (p' : transport_packet) : Prop := {
  ch_tally : tally p';
  ch_context : context_ok p';
  ch_reported : reported p' = all;
  ch_frame : same_frame p p';
  ch_deltas : deltas p' = deltas p;
  ch_grow : zlen (chunks p') <= zlen (chunks p) + n
}.

(** A chunk added, and the context cleared. *)
Lemma push_chunk p c cur : tally p -> chunk_full c ->
  let p' := clear_statuses (add_chunk p c (zlen (chunk_statuses c))) cur in
  chunked p (all_statuses (chunks p) ++ chunk_statuses c) 1 p' /\ statuses p' = [] /\ currentStatus p' = cur.
Proof.
  intros [C Cn Sz] Hc p'. subst p'. split; [|done]. split; [split|by apply context_ok_nil| |by split|done|]; tp_simpl.
  - apply Forall_app. by split; [|constructor].
  - by rewrite all_statuses_app, all_statuses_one, zlen_app, Cn, wrap_add_l.
  - rewrite zlen_app, zlen_one, Sz. lia.
  - unfold reported. tp_simpl. by rewrite all_statuses_app, all_statuses_one, app_nil_r.
  - rewrite zlen_app, zlen_one. lia.
Qed.

Lemma replicate_all_same (s : status) l : Forall (eq s) l -> replicate (Z.to_nat (zlen l)) s = l.
Proof.
  unfold zlen. rewrite Nat2Z.id. induction 1 as [|x l <- Hl IH]; [done|]. cbn. by rewrite IH.
Qed.

(** The statuses of the context as a run. *)
Lemma push_run p cur : tally p -> Forall reportable (statuses p) -> 0 < zlen (statuses p) <= 8191 ->
  Forall (eq (currentStatus p)) (statuses p) ->
  let p' := clear_statuses (CreateRunLengthChunk p (currentStatus p) (zlen (statuses p))) cur in
  chunked p (reported p) 1 p' /\ statuses p' = [] /\ currentStatus p' = cur.
Proof.
  intros Hp S Hl Hall. unfold CreateRunLengthChunk. rewrite wrap_small by (unfold in_uint; lia).
  set (c := RunLengthChunk (currentStatus p) (zlen (statuses p))).
  assert (chunk_statuses c = statuses p) as E by by apply replicate_all_same.
  assert (chunk_full c) as Hc.
  { split; [lia|]. destruct (statuses p) as [|s l]; [unfold zlen in Hl; cbn in Hl; lia|].
    apply Forall_cons in S as [Hs _]. apply Forall_cons in Hall as [-> _]. exact Hs. }
  pose proof (push_chunk p c cur Hp Hc) as H. cbv zeta in H. rewrite E in H. exact H.
Qed.

Lemma push_two p cur : tally p -> Forall reportable (statuses p) -> zlen (statuses p) = 7 ->
  let p' := clear_statuses (CreateTwoBitVectorChunk p (statuses p)) cur in
  chunked p (reported p) 1 p' /\ statuses p' = [] /\ currentStatus p' = cur.
Proof.
  intros Hp S Hl. unfold CreateTwoBitVectorChunk. rewrite Hl. change (u16 7) with 7.
  assert (chunk_full (TwoBitVectorChunk (statuses p))) as Hc by by split.
  pose proof (push_chunk p _ cur Hp Hc) as H. cbv zeta in H. cbn [chunk_statuses] in H. rewrite Hl in H. exact H.
Qed.

(** * The packets missing *)

Lemma missing_loop_spec n : forall fuel i k l r, (n <= fuel)%nat -> 0 <= i -> i + Z.of_nat n <= 255 ->
  zlen l + Z.of_nat n <= 7 -> (i + Z.of_nat n = k \/ zlen l + Z.of_nat n = 7 /\ i + Z.of_nat n <= k) ->
  missing_loop fuel i k l r = Ok (l ++ replicate n NotReceived, r + Z.of_nat n).
Proof.
  induction n as [|n IH]; intros fuel i k l r Hf Hi Hn Hl Hk.
  { assert ((i <? k) && (zlen l <? 7) = false) as E.
    { apply andb_false_iff. rewrite !Z.ltb_ge. lia. }
    destruct fuel; cbn [missing_loop replicate]; rewrite E, app_nil_r, Z.add_0_r; done. }
  destruct fuel as [|fuel]; [lia|]. cbn [missing_loop].
  rewrite !(proj2 (Z.ltb_lt _ _)) by lia. cbn [andb]. rewrite wrap_small by (unfold in_uint; lia).
  rewrite IH; [|lia|lia|lia|rewrite zlen_app, zlen_one; lia|rewrite zlen_app, zlen_one; lia].
  rewrite <- app_assoc. cbn [app replicate]. do 2 f_equal. lia.
Qed.

(** Up to seven statuses in the context take the first missing packets. *)
Lemma missing_loop_fill k l : 0 < k -> zlen l < 7 ->
  missing_loop 7 0 k l 0
  = Ok (l ++ replicate (Z.to_nat (Z.min k (7 - zlen l))) NotReceived, Z.min k (7 - zlen l)).
Proof.
  intros Hk Hl. pose proof (zlen_nonneg l).
  rewrite (missing_loop_spec (Z.to_nat (Z.min k (7 - zlen l)))) by lia. do 2 f_equal. lia.
Qed.

Lemma Forall_replicate {A} (P : A -> Prop) n x : P x -> Forall P (replicate n x).
Proof. intros Hx. by induction n; constructor. Qed.

Lemma chunked_trans p all n p' all' n' p'' : chunked p all n p' -> chunked p' all' n' p'' -> chunked p all' (n + n') p''.
Proof.
  intros [_ _ _ F D G] [T C R F' D' G']. split; try done; [by eapply same_frame_trans|congruence|lia].
Qed.

Lemma chunked_weaken p all n n' p' : n <= n' -> chunked p all n p' -> chunked p all n' p'.
Proof. intros Hn [T C R F D G]. split; try done. lia. Qed.

Lemma chunked_refl p n : tally p -> context_ok p -> 0 <= n -> chunked p (reported p) n p.
Proof. intros. split; try done. lia. Qed.

(** The first missing packets, into the context. *)
Lemma fill_context p k : tally p -> context_ok p -> zlen (statuses p) < 7 -> 0 < k ->
  let r := Z.min k (7 - zlen (statuses p)) in
  let l := statuses p ++ replicate (Z.to_nat r) NotReceived in
  let p1 := set_context p (allSameStatus p) NotReceived l in
  let p' := if zlen l =? 7 then clear_statuses (CreateTwoBitVectorChunk p1 l) NoStatus else p1 in
  chunked p (reported p ++ replicate (Z.to_nat r) NotReceived) 1 p' /\ zlen (statuses p') < 7 /\
  (r < k -> statuses p' = []).
Proof.
  intros [C Cn Sz] [S Sm Sv N L] H7 Hk r l p1 p'. pose proof (zlen_nonneg (statuses p)).
  assert (zlen l = zlen (statuses p) + r) as Hl by (subst l; rewrite zlen_app, zlen_replicate; lia).
  assert (Forall reportable l) as Hall.
  { apply Forall_app. split; [done|]. apply Forall_replicate. by left. }
  assert (reported p1 = reported p ++ replicate (Z.to_nat r) NotReceived) as Hrep.
  { unfold reported, p1. tp_simpl. by rewrite <- app_assoc. }
  subst p'. destruct (Z.eqb_spec (zlen l) 7) as [E|E].
  - destruct (push_two p1 NoStatus) as (Hc & Hs & _); [by split|done|done|]. rewrite Hrep in Hc.
    change (statuses p1) with l in Hs, Hc. cbv zeta in Hs, Hc. rewrite Hs.
    split; [|done]. destruct Hc as [T X R [] D G]. by split.
  - split; [|split].
    + split; [by split| |done|by split|done|unfold p1; tp_simpl; lia]. split; unfold p1; tp_simpl; try done; try lia.
      * intros _. by left.
      * rewrite Hl. pose proof (zlen_nonneg (deltas p)). lia.
    + unfold p1. tp_simpl. lia.
    + lia.
Qed.

Lemma fill_missing_spec p k : tally p -> context_ok p -> zlen (statuses p) <= 8191 -> 0 <= k <= 8191 ->
  exists p', fill_missing p k = Ok p' /\ chunked p (reported p ++ replicate (Z.to_nat k) NotReceived) 3 p' /\
    (0 < k -> zlen (statuses p') < 7) /\ (k = 0 -> p' = p).
Proof.
  intros Hp Hx Hmax Hk. unfold fill_missing. destruct (Z.leb_spec k 0).
  { assert (k = 0) as -> by lia. exists p. split; [done|]. rewrite app_nil_r. split; [by apply chunked_refl|split; [lia|done]]. }
  set (p0 := if _ : bool then _ else p).
  assert (chunked p (reported p) 1 p0 /\ zlen (statuses p0) < 7) as [H0 H7].
  { subst p0. destruct (Z.leb_spec 7 (zlen (statuses p))) as [H7|H7]; cbn [andb].
    2: { split; [by apply chunked_refl|done]. }
    destruct (cx_seven p Hx H7) as [-> Hall].
    destruct (push_run p NoStatus Hp (cx_statuses p Hx)) as (Hc & -> & _); [lia|done|].
    split; [done|]. by change (zlen (@nil status)) with 0. }
  clearbody p0. rewrite missing_loop_fill by (done || lia). ostep.
  destruct (fill_context p0 k) as (H1 & Hl & Hnil); [by apply H0|by apply H0|done|lia|].
  cbv zeta in *. set (r := Z.min k _) in *. set (p1 := if _ =? 7 then _ else _) in *. clearbody p1.
  rewrite (ch_reported _ _ _ _ H0) in H1. pose proof (chunked_trans _ _ _ _ _ _ _ H0 H1) as H01.
  pose proof (zlen_nonneg (statuses p0)). rewrite wrap_small by (unfold in_uint; lia).
  destruct (Z.eqb_spec (k - r) 0) as [E|E]; cbn [negb].
  { exists p1. split; [done|]. replace k with r by lia. split; [|split; [done|lia]].
    by apply (chunked_weaken _ _ 2). }
  unfold CreateRunLengthChunk. rewrite wrap_small by (unfold in_uint; lia).
  destruct (push_chunk p1 (RunLengthChunk NotReceived (k - r)) NoStatus) as (Hpush & Hs & _);
    [by apply H1|split; [lia|by left]|].
  cbn [chunk_statuses] in Hpush, Hs. rewrite zlen_replicate in Hpush, Hs by lia.
  eexists. split; [done|]. rewrite Hs. split; [|split; [by change (zlen (@nil status)) with 0|lia]].
  pose proof (chunked_trans _ _ _ _ _ _ _ H01 Hpush) as Hall.
  assert (all_statuses (chunks p1) = reported p ++ replicate (Z.to_nat r) NotReceived) as E1.
  { rewrite <- (ch_reported _ _ _ _ H1). unfold reported. by rewrite Hnil, app_nil_r by lia. }
  rewrite E1, <- app_assoc, <- replicate_add in Hall. replace (Z.to_nat r + Z.to_nat (k - r))%nat with (Z.to_nat k) in Hall by lia.
  exact Hall.
Qed.

(** * The packet received *)

Lemma delta_size_status d : (if bool_decide (status_of_delta d = SmallDelta) then 1 else 2) = delta_size d.
Proof. unfold status_of_delta, delta_size. by destruct (_ && _). Qed.

Record filled (p : transport_packet) (all : list status) (ds : list Z) (n : Z) (p' : transport_packet) : Prop := {
  fi_tally : tally p';
  fi_context : context_ok p';
  fi_reported : reported p' = all;
  fi_deltas : deltas p' = ds;
  fi_frame : same_frame p p';
  fi_current : currentStatus p' <> NotReceived;
  fi_grow : zlen (chunks p') <= zlen (chunks p) + n
}.

(** The status and the delta are added to a context that has room for them. *)
Lemma add_received p0 d : tally p0 -> context_ok p0 ->
  let st := status_of_delta d in
  (7 <= zlen (statuses p0) -> allSameStatus p0 = true /\ currentStatus p0 = st) ->
  let same := bool_decide (currentStatus p0 = NoStatus) || (allSameStatus p0 && bool_decide (currentStatus p0 = st)) in
  let p2 := set_context (add_delta p0 st d) same st (statuses p0 ++ [st]) in
  let p' := if zlen (statuses p2) <? 7 then p2
            else if (zlen (statuses p2) =? 7) && negb same
            then clear_statuses (CreateTwoBitVectorChunk p2 (statuses p2)) NoStatus else p2 in
  filled p0 (reported p0 ++ [st]) (deltas p0 ++ [d]) 1 p'.
Proof.
  intros [C Cn Sz] [S Sm Sv N L] st Hroom same p2.
  assert (is_received st = true) as Hst by apply received_of_delta.
  assert (tally p2) as Ht2.
  { split; unfold p2; tp_simpl; [done|done|]. pose proof (delta_size_status d) as E. fold st in E.
    rewrite deltas_size_app, Sz, E. cbn. lia. }
  assert (Forall reportable (statuses p2)) as S2.
  { unfold p2. tp_simpl. apply Forall_app. split; [done|]. constructor; [by right|constructor]. }
  assert (same = true -> Forall (eq st) (statuses p2)) as Hsame.
  { unfold same, p2. tp_simpl. intros [Hn%bool_decide_eq_true|[Hs Hc%bool_decide_eq_true]%andb_true_iff]%orb_true_iff.
    - rewrite (N Hn). by constructor.
    - rewrite Forall_app. split; [|by constructor]. destruct (Sm Hs) as [E|Hall]; [|by rewrite <- Hc].
      rewrite E in Hc. rewrite <- Hc in Hst. discriminate. }
  assert (zlen (statuses p2) = zlen (statuses p0) + 1) as Hl2.
  { unfold p2. tp_simpl. by rewrite zlen_app, zlen_one. }
  assert (7 < zlen (statuses p2) -> same = true) as Hseven.
  { intros H7. destruct Hroom as [E1 E2]; [lia|]. unfold same. rewrite E1, E2, (bool_decide_true (st = st)) by done.
    apply orb_true_r. }
  assert (reported p2 = reported p0 ++ [st]) as Hrep.
  { unfold reported, p2. tp_simpl. by rewrite app_assoc. }
  assert ((7 <= zlen (statuses p2) -> same = true) -> filled p0 (reported p0 ++ [st]) (deltas p0 ++ [d]) 1 p2) as Hkeep.
  { intros H7. split; [done| |done|done|by split| |unfold p2; tp_simpl; lia].
    - split; [done| | | |].
      + intros E. right. by apply Hsame.
      + intros E. split; [by apply H7|by apply Hsame, H7].
      + intros E. change (st = NoStatus) in E. by rewrite E in Hst.
      + change (deltas p2) with (deltas p0 ++ [d]). rewrite Hl2, zlen_app, zlen_one. lia.
    - change (st <> NotReceived). intros E. by rewrite E in Hst. }
  clearbody st.
  intros p'. subst p'. destruct (Z.ltb_spec (zlen (statuses p2)) 7); [apply Hkeep; lia|].
  destruct (Z.eqb_spec (zlen (statuses p2)) 7) as [E|E]; cbn [andb]; [|apply Hkeep; intros _; apply Hseven; lia].
  destruct same eqn:Esame; cbn [negb]; [by apply Hkeep|].
  destruct (push_two p2 NoStatus Ht2 S2 E) as ([T X R [] D G] & _ & Hcur). cbv zeta in *.
  rewrite Hrep in R. split; [done|done|done|done|by split| |exact G]. by rewrite Hcur.
Qed.

Lemma fill_received_spec p d : tally p -> context_ok p -> zlen (statuses p) <= 8191 ->
  filled p (reported p ++ [status_of_delta d]) (deltas p ++ [d]) (if 7 <=? zlen (statuses p) then 2 else 1)
    (fill_received p d).
Proof.
  intros Hp Hx Hmax. unfold fill_received. cbv zeta. set (st := status_of_delta d).
  set (p0 := if _ : bool then _ else p).
  assert (chunked p (reported p) (if 7 <=? zlen (statuses p) then 1 else 0) p0 /\
    (7 <= zlen (statuses p0) -> allSameStatus p0 = true /\ currentStatus p0 = st)) as [[T X R F D G] H7].
  { subst p0. destruct (Z.leb_spec 7 (zlen (statuses p))) as [H7|H7]; cbn [andb].
    2: { split; [by apply chunked_refl|lia]. }
    destruct (cx_seven p Hx H7) as [Hs Hall]. rewrite Hs. cbn [andb].
    destruct (decide (st = currentStatus p)) as [E|E].
    - rewrite bool_decide_false by (intros H; by apply H). split; [by apply chunked_refl|done].
    - rewrite bool_decide_true by done.
      destruct (push_run p (currentStatus p) Hp (cx_statuses p Hx)) as (Hc & -> & _); [lia|done|].
      split; [done|]. change (zlen (@nil status)) with 0. lia. }
  clearbody p0. pose proof (add_received p0 d T X H7) as H. cbv zeta in H. fold st in H.
  rewrite R, D in H.
  destruct H as [T' X' R' D' F' C' G'].
  split; [exact T'|exact X'|exact R'|exact D'|exact (same_frame_trans _ _ _ F F')|exact C'|].
  etrans; [exact G'|]. destruct (7 <=? _); lia.
Qed.

Lemma FillChunk_spec p prev seq d : tally p -> context_ok p -> zlen (statuses p) <= 8184 ->
  let k := u16 (seq - (prev + 1)) in k <= 8191 ->
  exists p', FillChunk p prev seq d = Ok p' /\
    filled p (reported p ++ replicate (Z.to_nat k) NotReceived ++ [status_of_delta d]) (deltas p ++ [d]) 4 p'.
Proof.
  intros Hp Hx Hmax k Hk. unfold FillChunk. fold k. cbv zeta.
  pose proof (wrap_range 16 (seq - (prev + 1)) ltac:(lia)) as [H0 _]. fold k in H0.
  destruct (fill_missing_spec p k Hp Hx) as (p1 & -> & [T X R F D G] & Hlt & Hz); [lia|lia|]. ostep.
  eexists. split; [done|].
  destruct (fill_received_spec p1 d T X) as [T' X' R' D' F' C' G'].
  { destruct (Z.eq_dec k 0) as [E|E]; [rewrite Hz by done; lia|]. specialize (Hlt ltac:(lia)). lia. }
  split; [done|done| | | |done|].
  - by rewrite R', R, <- app_assoc.
  - by rewrite D', D.
  - by eapply same_frame_trans.
  - etrans; [exact G'|]. destruct (Z.eq_dec k 0) as [E|E].
    { rewrite (Hz E). destruct (7 <=? zlen (statuses p)); lia. }
    specialize (Hlt ltac:(lia)). rewrite (proj2 (Z.leb_gt 7 _)) by lia. lia.
Qed.

(** * [AddPacket] *)

(** [p] reports what is in the log; its times start at [t0], a multiple of 64. *)
Record building (t0 : Z) (log : list (option Z)) (p : transport_packet) : Prop := {
  bu_tally : tally p;
  bu_context : context_ok p;
  bu_current : currentStatus p <> NotReceived;
  bu_reported : reported p = statuses_of t0 log;
  bu_deltas : deltas p = deltas_of t0 log;
  bu_range : Forall (fun d => - maxPacketDelta <= d <= maxPacketDelta) (deltas p);
  bu_few : zlen (deltas p) <= 8000;
  bu_latest : latestTimestamp p = last_time t0 log;
  bu_started : latestTimestamp p <> 0;
  bu_seq : latestSequenceNumber p = u16 (baseSequenceNumber p - 1 + zlen log);
  bu_base : in_uint 16 (baseSequenceNumber p);
  bu_time : referenceTime p * 64 = t0 `mod` 2 ^ 29;
  bu_size : tp_size p = 0
}.

Lemma pad4_spec n : n <= pad4 n <= n + 3 /\ (4 | pad4 n).
Proof.
  unfold pad4. change 3 with (2 ^ 2 - 1). rewrite land_low_ones by lia. change (2 ^ 2) with 4.
  pose proof (Z.mod_pos_bound (- n) 4). split; [lia|]. pose proof (Z.div_mod (- n) 4).
  exists (- (- n / 4)). lia.
Qed.

Lemma reference_time ts : 0 <= ts ->
  Z.land ts 536870848 / 64 * 64 = (Z.shiftr ts 6 * 64) `mod` 2 ^ 29.
Proof.
  intros Hts. change 536870848 with (Z.shiftl (Z.ones 23) 6). rewrite land_shiftl_r by lia.
  rewrite Z.land_ones, Z.shiftl_mul_pow2 by lia. change (2 ^ 6) with 64. rewrite Z.div_mul by lia.
  change (2 ^ 29) with (2 ^ 23 * 64). rewrite Zmult_mod_distr_r. done.
Qed.

(** The first packet only sets the base. *)
Lemma AddPacket_first senderSsrc mediaSsrc count seq ts max : in_uint 16 seq -> 64 <= ts < 2 ^ 64 ->
  let p := SetFeedbackPacketCount (new_transport_packet senderSsrc mediaSsrc) count in
  exists p', AddPacket p seq ts max = Ok (p', SUCCESS) /\ building (Z.shiftr ts 6 * 64) [] p' /\
    fbHeader p' = fbHeader p /\ feedbackPacketCount p' = count /\ baseSequenceNumber p' = u16 (seq + 1).
Proof.
  intros Hseq Hts p. unfold AddPacket. change (IsFull p) with false. cbn [negb require mbind outcome_bind].
  change (latestTimestamp p =? 0) with true. cbv iota zeta.
  eexists. split; [done|]. split; [|done].
  assert (64 <= Z.shiftr ts 6 * 64 <= ts) as Ht.
  { rewrite Z.shiftr_div_pow2 by lia. change (2 ^ 6) with 64. pose proof (Z.div_mod ts 64). pose proof (Z.mod_pos_bound ts 64).
    assert (1 <= ts / 64) by (apply Z.div_le_lower_bound; lia). lia. }
  split; tp_simpl; try done.
  - by apply context_ok_nil.
  - apply wrap_small. unfold in_uint. lia.
  - rewrite wrap_small by (unfold in_uint; lia). lia.
  - change (zlen (@nil (option Z))) with 0. rewrite <- (wrap_small 16 seq) at 1 by done. 
    rewrite Z.add_0_r, wrap_sub_l. f_equal. lia.
  - by apply wrap_range.
  - apply reference_time. lia.
Qed.

(** The distance of a newer packet. *)
Lemma newer_packet seq latest : in_uint 16 seq -> in_uint 16 latest -> 1 <= u16 (seq - latest) <= 8192 ->
  SeqManager.IsSeqHigherThan 16 seq latest = true /\ seq - (latest + 1) <= 8191 /\
  u16 (seq - (latest + 1)) = u16 (seq - latest) - 1.
Proof.
  intros Hs Hl Hd. set (d := u16 (seq - latest)) in *.
  assert (seq = u16 (latest + d)) as E.
  { subst d. rewrite wrap_add_r, <- (wrap_small 16 seq) at 1 by done. f_equal. lia. }
  split; [|split].
  - rewrite E, <- (wrap_small 16 latest) by done. rewrite SeqManager.IsSeqHigherThan_wrap.
    + rewrite (wrap_small 16 latest) by done. apply Z.ltb_lt. lia.
    + lia.
    + rewrite (wrap_small 16 latest) by done. change (SeqManager.half_space 16) with 32768. lia.
  - subst d. unfold wrap, in_uint in *. change (2 ^ 16) with 65536 in *. destruct (Z.le_gt_cases latest seq).
    + rewrite Z.mod_small in Hd by lia. lia.
    + lia.
  - replace (seq - (latest + 1)) with (seq - latest - 1) by lia. rewrite <- wrap_sub_l. fold d.
    apply wrap_small. unfold in_uint. lia.
Qed.

Lemma delta_exact ts latest : - maxPacketDelta <= (ts - latest) * 4 <= maxPacketDelta ->
  swrap 64 (u64 (u64 (ts - latest) * 4)) = (ts - latest) * 4 /\ swrap 16 ((ts - latest) * 4) = (ts - latest) * 4.
Proof.
  unfold maxPacketDelta. intros H. split.
  - unfold swrap, wrap. rewrite Z.mul_mod_idemp_l, Z.add_mod_idemp_l by lia. rewrite Z.mod_small; lia.
  - unfold swrap. rewrite Z.mod_small; lia.
Qed.

Lemma AddPacket_spec p t0 log seq ts max : building t0 log p -> IsFull p = false ->
  in_uint 16 seq -> 0 < ts -> max <= 8000 ->
  let d := u16 (seq - latestSequenceNumber p) in
  1 <= d <= 8192 -> - maxPacketDelta <= (ts - latestTimestamp p) * 4 <= maxPacketDelta ->
  pad4 (24 + deltasAndChunksSize p) <= max ->
  exists p', AddPacket p seq ts max = Ok (p', SUCCESS) /\
    building t0 (log ++ replicate (Z.to_nat (d - 1)) None ++ [Some ts]) p' /\
    fbHeader p' = fbHeader p /\ feedbackPacketCount p' = feedbackPacketCount p /\
    deltasAndChunksSize p' <= deltasAndChunksSize p + 10.
Proof.
  intros [T X Cu R D Rg Fw La St Sq Ba Ti Si] Hfull Hseq Hts Hmax d Hd Hdelta Hsize.
  assert (in_uint 16 (latestSequenceNumber p)) as Hl by (rewrite Sq; by apply wrap_range).
  destruct (newer_packet seq _ Hseq Hl Hd) as (E1 & E2 & E3). fold d in E3.
  destruct (delta_exact ts _ Hdelta) as [E4 E5].
  unfold AddPacket. rewrite Hfull. cbn [negb require mbind outcome_bind].
  rewrite (proj2 (Z.eqb_neq _ 0)) by done. rewrite E1. cbn [negb].
  rewrite (proj2 (Z.ltb_ge maxMissingPackets _)) by (unfold maxMissingPackets; lia).
  cbv zeta. rewrite E4, E5.
  rewrite (proj2 (Z.ltb_ge maxPacketDelta _)), (proj2 (Z.ltb_ge _ (-1 * maxPacketDelta))) by lia. cbn [orb].
  unfold CommonHeaderSize, FeedbackHeaderSize, fixedHeaderSize.
  replace (4 + 8 + 8 + deltasAndChunksSize p + 2 + 2) with (24 + deltasAndChunksSize p) by lia.
  rewrite (proj2 (Z.ltb_ge max _)) by lia.
  pose proof (pad4_spec (24 + deltasAndChunksSize p)) as [Hpad _].
  pose proof (ta_size p T) as Hsz. pose proof (deltas_size_length (deltas p)). pose proof (zlen_nonneg (chunks p)).
  pose proof (cx_length p X) as Hlen.
  destruct (FillChunk_spec p (latestSequenceNumber p) seq ((ts - latestTimestamp p) * 4) T X) as (p' & -> & F); [lia|lia|].
  ostep. eexists. split; [done|]. rewrite E3 in F. destruct F as [T' X' R' D' [F1 F2 F3 F4 F5 F6 F7] C' G'].
  split; [|split; [done|split; [done|]]].
  2: { change (deltasAndChunksSize p' <= deltasAndChunksSize p + 10). rewrite (ta_size p' T'), Hsz, D', deltas_size_app.
    unfold deltas_size at 2. cbn [foldr]. destruct (delta_size_cases ((ts - latestTimestamp p) * 4)) as [->| ->]; lia. }
  split; cbn [set_latest]; tp_simpl; try done.
  - by destruct T'; split.
  - by destruct X'; split.
  - change (reported p' = statuses_of t0 (log ++ replicate (Z.to_nat (d - 1)) None ++ [Some ts])).
    rewrite R', R, !statuses_of_app, statuses_of_missing, last_time_missing, La. done.
  - rewrite D', D, !deltas_of_app, deltas_of_missing, last_time_missing, La. done.
  - rewrite D'. apply Forall_app. split; [done|]. by constructor.
  - rewrite D', zlen_app, zlen_one. lia.
  - rewrite !last_time_app, last_time_missing. done.
  - lia.
  - rewrite F2, !zlen_app, zlen_replicate, zlen_one by lia.
    replace (baseSequenceNumber p - 1 + (zlen log + (d - 1 + 1))) with (baseSequenceNumber p - 1 + zlen log + d) by lia.
    rewrite <- wrap_add_l, <- Sq. unfold d. rewrite wrap_add_r, <- (wrap_small 16 seq) at 1 by done. f_equal. lia.
  - by rewrite F2.
  - by rewrite F3.
  - by rewrite F7.
Qed.
