(* ===== verification/RtcpTransportWire.v ===== *)
(** Transport-wide feedback: the chunks and deltas that are written are read
    back, and so are the times of arrival. *)

From S2P Require Export RtcpTransportFacts.

(** * Chunks *)

(** A chunk that is written: run-length, or of up to seven two-bit symbols. *)
Definition chunk_wire (c : chunk) : Prop :=
  match c with
  | RunLengthChunk s count => 1 <= count <= 8191 /\ reportable s
  | OneBitVectorChunk _ => False
  | TwoBitVectorChunk l => 1 <= zlen l <= 7 /\ Forall reportable l
  end.

Definition chunk_code (c : chunk) : Z :=
  match c with
  | RunLengthChunk s count => status_num s * 8192 + count
  | OneBitVectorChunk l => 0
  | TwoBitVectorChunk l => vector_bits 2 l 12 49152
  end.

(** The short lists of statuses. *)
Fixpoint status_lists (n : nat) : list (list status) :=
  match n with
  | O => [[]]
  | S n => flat_map (fun l => [NotReceived :: l; SmallDelta :: l; LargeDelta :: l]) (status_lists n)
  end.

Lemma reportable_cases s : reportable s -> s = NotReceived \/ s = SmallDelta \/ s = LargeDelta.
Proof. intros [->|H]; [auto|]. destruct s; try discriminate; auto. Qed.

Lemma status_lists_complete l : Forall reportable l -> In l (status_lists (length l)).
Proof.
  induction 1 as [|s l Hs Hl IH]; [by left|]. cbn [length status_lists]. apply in_flat_map. exists l. split; [done|].
  destruct (reportable_cases s Hs) as [->|[->| ->]]; cbn; auto.
Qed.

(** What is read of the code of a vector. *)
Definition vector_check (l : list status) : bool :=
  let v := vector_bits 2 l 12 49152 in
  (0 <=? v) && (v <? 65536) && (Z.land (Z.shiftr v 15) 1 =? 1) && truthy (Z.land (Z.shiftr v 8) 64)
  && bool_decide (vector_loop 7 2 7 v 0 (zlen l) = l).

Lemma vector_checked l : Forall reportable l -> zlen l <= 7 -> vector_check l = true.
Proof.
  intros Hall Hl. assert (forallb (fun n => forallb vector_check (status_lists n)) (seq 0 8) = true) as H
    by (vm_compute; reflexivity).
  rewrite forallb_forall in H. specialize (H (length l)). rewrite forallb_forall in H. apply H.
  - apply in_seq. unfold zlen in Hl. lia.
  - by apply status_lists_complete.
Qed.

(** More statuses to come make no difference to a vector that is full. *)
Lemma vector_loop_full n sym top buffer : forall i count, Z.of_nat n <= count ->
  vector_loop n sym top buffer i count = vector_loop n sym top buffer i (Z.of_nat n).
Proof.
  induction n as [|n IH]; intros i count Hc; cbn [vector_loop]; [done|].
  rewrite !(proj2 (Z.ltb_lt 0 _)) by lia. f_equal.
  replace (Z.of_nat (S n) - 1) with (Z.of_nat n) by lia. apply IH. lia.
Qed.

Lemma run_code s n : 1 <= n <= 8191 -> reportable s ->
  u16 (Z.lor (u16 (Z.shiftl (status_num s) 13)) (Z.land n 8191)) = status_num s * 8192 + n /\
  0 <= status_num s <= 2.
Proof.
  intros Hn Hs. pose proof (land_low_ones 13 n ltac:(lia)) as E. change (2 ^ 13 - 1) with 8191 in E.
  rewrite E, Z.mod_small by lia.
  assert (0 <= status_num s <= 2) as Hr by (destruct (reportable_cases s Hs) as [->|[->| ->]]; cbn; lia).
  split; [|done]. rewrite (wrap_small 16 (Z.shiftl _ _)).
  - rewrite Z.lor_comm, lor_shiftl_add by (unfold in_uint; lia). change (2 ^ 13) with 8192.
    apply wrap_small. unfold in_uint. lia.
  - rewrite Z.shiftl_mul_pow2 by lia. change (2 ^ 13) with 8192. unfold in_uint. lia.
Qed.

Lemma chunk_bits_code c : chunk_wire c -> chunk_bits c = Ok (chunk_code c) /\ in_uint 16 (chunk_code c).
Proof.
  destruct c as [s n|l|l]; [|done|]; cbn [chunk_bits chunk_code].
  - intros [Hn Hs]. destruct (run_code s n Hn Hs) as [-> Hr]. split; [done|]. unfold in_uint. lia.
  - intros [Hl Hall]. rewrite (proj2 (Z.leb_le _ _)) by lia. split; [done|].
    pose proof (vector_checked l Hall ltac:(lia)) as H. unfold vector_check in H. cbv zeta in H.
    rewrite !andb_true_iff, Z.leb_le, Z.ltb_lt in H. unfold in_uint. change (2 ^ 16) with 65536. tauto.
Qed.

Section reading.
Context (m : list Z) (Hm : bytes m).

Lemma ParseChunk_run off len count s n : chunk_wire (RunLengthChunk s n) -> 2 <= len ->
  at_ m off (be_bytes 2 (chunk_code (RunLengthChunk s n))) ->
  ParseChunk m off len count = Ok (Some (RunLengthChunk s n)).
Proof.
  intros [Hn Hs] Hlen Hat. cbn [chunk_code] in Hat. unfold ParseChunk. rewrite (proj2 (Z.ltb_ge _ _)) by lia.
  rewrite (at_Get2Bytes m Hm _ _ Hat). destruct (run_code s n Hn Hs) as [_ Hr]. set (k := status_num s) in *.
  rewrite wrap_small by (unfold in_uint; lia). ostep.
  rewrite !Z.shiftr_div_pow2 by lia. rewrite (Z.div_small _ (2 ^ 15)) by lia. cbn [Z.land Z.eqb].
  change (2 ^ 13) with 8192. rewrite Z.div_add_l, (Z.div_small n 8192) by lia. rewrite Z.add_0_r.
  assert (status_of (Z.land k 3) = s) as ->.
  { subst k. destruct (reportable_cases s Hs) as [->|[->| ->]]; done. }
  assert (Z.land (k * 8192 + n) 8191 = n) as ->.
  { pose proof (land_low_ones 13 (k * 8192 + n) ltac:(lia)) as E. change (2 ^ 13 - 1) with 8191 in E. rewrite E.
    change (2 ^ 13) with 8192. rewrite Z.add_comm, Z_mod_plus_full. apply Z.mod_small. lia. }
  destruct (reportable_cases s Hs) as [->|[->| ->]]; done.
Qed.

Lemma ParseChunk_two off len count l : chunk_wire (TwoBitVectorChunk l) -> 2 <= len ->
  zlen l = 7 /\ 7 <= count \/ count = zlen l ->
  at_ m off (be_bytes 2 (chunk_code (TwoBitVectorChunk l))) ->
  ParseChunk m off len count = Ok (Some (TwoBitVectorChunk l)).
Proof.
  intros [Hl Hall] Hlen Hcount Hat. cbn [chunk_code] in Hat. set (v := vector_bits 2 l 12 49152) in *.
  pose proof (vector_checked l Hall ltac:(lia)) as H. unfold vector_check in H. cbv zeta in H. fold v in H.
  rewrite !andb_true_iff, Z.leb_le, Z.ltb_lt, Z.eqb_eq, bool_decide_eq_true in H.
  destruct H as ((((H0 & H1) & H15) & H8) & Hloop).
  unfold ParseChunk. rewrite (proj2 (Z.ltb_ge len 2)) by lia. rewrite (at_Get2Bytes m Hm _ _ Hat).
  assert (in_uint 16 v) as Hv by (unfold in_uint; lia). rewrite wrap_small by done. ostep.
  assert (get1 m off = Ok (Z.shiftr v 8)) as ->.
  { apply at_get1. rewrite !be_bytes_S in Hat. change ([?a; ?b]) with ([a] ++ [b]) in Hat.
    apply (at_app m off [_] _) in Hat as [Hat _]. change (8 * Z.of_nat 1) with 8 in Hat.
    rewrite wrap_small in Hat; [done|]. unfold in_uint. rewrite Z.shiftr_div_pow2 by lia. change (2 ^ 8) with 256.
    split; [apply Z.div_pos; lia|apply Z.div_lt_upper_bound; lia]. }
  destruct (vector_bit v Hv) as [_ B2]; [by rewrite H15|].
  rewrite H15. cbn [Z.eqb Pos.eqb]. ostep. unfold truthy in H8. apply negb_true_iff in H8. rewrite H8.
  unfold TwoBitVector. rewrite B2. ostep. do 3 f_equal. etrans; [|exact Hloop].
  destruct Hcount as [[E7 Hc]| ->]; [|done]. rewrite E7. rewrite (vector_loop_full 7) by (cbn; lia). done.
Qed.

(** A list of chunks of which only the last is a vector that is not full. *)
Fixpoint readable (cs : list chunk) : Prop :=
  match cs with
  | [] => True
  | c :: cs =>
      chunk_wire c /\ (forall l, c = TwoBitVectorChunk l -> zlen l = 7 \/ cs = []) /\ readable cs
  end.

Definition chunk_bytes (cs : list chunk) : list Z := concat ((fun c => be_bytes 2 (chunk_code c)) <$> cs).

Lemma wire_ok c : chunk_wire c -> chunk_ok c.
Proof. destruct c; cbn; [intuition lia|done|intuition lia]. Qed.

Lemma wire_length c : chunk_wire c -> 1 <= zlen (chunk_statuses c).
Proof. destruct c as [s n|l|l]; cbn; [intros [? _]; rewrite zlen_replicate; lia|done|intros [? _]; lia]. Qed.

Lemma zlen_chunk_bytes cs : zlen (chunk_bytes cs) = 2 * zlen cs.
Proof.
  unfold chunk_bytes. induction cs as [|c cs IH]; [done|]. rewrite fmap_cons. cbn [concat].
  rewrite zlen_app, zlen_be_bytes, IH, zlen_cons. lia.
Qed.

Lemma chunk_loop_wire content contentLen cs : readable cs -> forall fuel acc offset,
  let total := zlen (all_statuses (acc ++ cs)) in
  total <= 65535 -> at_ m (content + offset) (chunk_bytes cs) ->
  offset + 2 * zlen cs <= contentLen -> (length cs <= fuel)%nat ->
  chunk_loop fuel m content contentLen total acc offset (zlen (all_statuses acc)) (zlen (received (all_statuses acc)))
  = Ok (acc ++ cs, offset + 2 * zlen cs, total, zlen (received (all_statuses (acc ++ cs)))).
Proof.
  induction cs as [|c cs IH]; intros Hcs fuel acc offset total Htotal Hat Hoff Hfuel.
  { unfold total. rewrite !app_nil_r. change (zlen (@nil chunk)) with 0. rewrite Z.add_0_r.
    destruct fuel; cbn [chunk_loop]; by rewrite Z.ltb_irrefl. }
  destruct Hcs as (Hc & Hlast & Hcs). destruct fuel as [|fuel]; [cbn in Hfuel; lia|].
  unfold chunk_bytes in Hat. rewrite fmap_cons in Hat. cbn [concat] in Hat. apply at_app in Hat as [Hat Hrest].
  rewrite zlen_be_bytes in Hrest. rewrite zlen_cons in Hoff |- *. pose proof (zlen_nonneg cs).
  pose proof (wire_length c Hc) as H1. pose proof (wire_ok c Hc) as Hok.
  assert (total = zlen (all_statuses acc) + zlen (chunk_statuses c) + zlen (all_statuses cs)) as Et.
  { unfold total. rewrite all_statuses_app, all_statuses_cons, !zlen_app. lia. }
  pose proof (zlen_nonneg (all_statuses cs)). pose proof (zlen_nonneg (all_statuses acc)).
  cbn [chunk_loop]. rewrite !(proj2 (Z.ltb_lt _ _)) by lia. cbn [andb].
  rewrite (proj2 (Z.ltb_ge (contentLen - offset) 2)) by lia.
  rewrite (wrap_small 16 (total - _)) by (unfold in_uint; lia).
  assert (ParseChunk m (content + offset) (contentLen - offset) (total - zlen (all_statuses acc)) = Ok (Some c)) as ->.
  { destruct c as [s n|l|l]; [by apply ParseChunk_run; [| lia|]|done|]. apply ParseChunk_two; [done|lia| |done].
    destruct (Hlast l eq_refl) as [E| ->].
    - left. split; [done|]. cbn [chunk_statuses] in Et. lia.
    - right. rewrite Et. cbn [chunk_statuses]. change (zlen (all_statuses [])) with 0. lia. }
  ostep. rewrite GetCount_spec, GetReceivedStatusCount_spec by done.
  pose proof (zlen_received (all_statuses (acc ++ [c]))) as Hr.
  rewrite all_statuses_app, all_statuses_one, received_app, !zlen_app in Hr.
  rewrite !wrap_small by (unfold in_uint; lia).
  specialize (IH Hcs fuel (acc ++ [c]) (offset + 2)). cbv zeta in IH.
  assert (all_statuses (acc ++ [c]) = all_statuses acc ++ chunk_statuses c) as Eacc
    by by rewrite all_statuses_app, all_statuses_one.
  rewrite Eacc, received_app, !zlen_app, <- app_assoc in IH. change ([c] ++ cs) with (c :: cs) in IH. fold total in IH. rewrite IH; [do 2 f_equal; f_equal; f_equal; lia|lia| |lia|].
  - rewrite Z.add_assoc. exact Hrest.
  - cbn in Hfuel. lia.
Qed.
End reading.

(** * Deltas *)

Definition delta_bytes (d : Z) : list Z := if (0 <=? d) && (d <=? 255) then [d] else be_bytes 2 d.
Definition deltas_bytes (ds : list Z) : list Z := concat (delta_bytes <$> ds).

(** The deltas of the packets received. *)
Definition matches (l : list status) (ds : list Z) : Prop := Forall2 (fun s d => s = status_of_delta d) (received l) ds.

Definition in_range (d : Z) : Prop := - maxPacketDelta <= d <= maxPacketDelta.

Lemma deltas_bytes_cons d ds : deltas_bytes (d :: ds) = delta_bytes d ++ deltas_bytes ds.
Proof. done. Qed.

Lemma deltas_bytes_app ds ds' : deltas_bytes (ds ++ ds') = deltas_bytes ds ++ deltas_bytes ds'.
Proof. unfold deltas_bytes. by rewrite fmap_app, concat_app. Qed.

Lemma zlen_delta_bytes d : zlen (delta_bytes d) = delta_size d.
Proof. unfold delta_bytes, delta_size. by destruct (_ && _). Qed.

Lemma zlen_deltas_bytes ds : zlen (deltas_bytes ds) = deltas_size ds.
Proof.
  induction ds as [|d ds IH]; [done|]. by rewrite deltas_bytes_cons, zlen_app, zlen_delta_bytes, IH.
Qed.

Lemma delta_cases d :
  delta_size d = 1 /\ status_of_delta d = SmallDelta /\ delta_bytes d = [d] /\ 0 <= d <= 255 \/
  delta_size d = 2 /\ status_of_delta d = LargeDelta /\ delta_bytes d = be_bytes 2 d.
Proof.
  unfold delta_size, status_of_delta, delta_bytes. destruct ((0 <=? d) && (d <=? 255)) eqn:E; [left|by right].
  apply andb_true_iff in E as [E1%Z.leb_le E2%Z.leb_le]. done.
Qed.

Lemma swrap_small d : in_range d -> swrap 16 d = d.
Proof. unfold in_range, maxPacketDelta, swrap. intros H. rewrite Z.mod_small; lia. Qed.

Lemma swrap_wrap d : swrap 16 (u16 d) = swrap 16 d.
Proof. unfold swrap, wrap. by rewrite Zplus_mod_idemp_l. Qed.

Section reading.
Context (m : list Z) (Hm : bytes m).

(** One delta is read, with the bytes its status says. *)
Lemma read_delta off d : in_range d -> at_ m off (delta_bytes d) ->
  (delta_size d = 1 -> get1 m off = Ok d) /\
  (delta_size d = 2 -> exists v, Get2Bytes m off = Ok v /\ swrap 16 v = d).
Proof.
  intros Hd Hat. destruct (delta_cases d) as [(-> & _ & E & _)|(-> & _ & E)]; rewrite E in Hat.
  - split; [intros _; by apply at_get1|lia].
  - split; [lia|intros _]. exists (u16 d). split; [by apply at_Get2Bytes|]. by rewrite swrap_wrap, swrap_small.
Qed.

Lemma run_deltas_wire off s k ds : (k = 1 /\ s = SmallDelta \/ k = 2 /\ s = LargeDelta) ->
  Forall (fun d => s = status_of_delta d) ds -> Forall in_range ds ->
  forall acc offset, at_ m (off + offset) (deltas_bytes ds) ->
  run_deltas (length ds) k m off acc offset = Ok (acc ++ ds, offset + zlen (deltas_bytes ds)).
Proof.
  intros Hk Hall. induction Hall as [|d ds Hd Hall IH]; intros Hr acc offset Hat.
  { cbn [run_deltas length]. rewrite app_nil_r. change (zlen (deltas_bytes [])) with 0. by rewrite Z.add_0_r. }
  apply Forall_cons in Hr as [Hr1 Hr]. rewrite deltas_bytes_cons in Hat |- *. apply at_app in Hat as [H1 H2].
  rewrite zlen_app, zlen_delta_bytes in *. destruct (read_delta _ _ Hr1 H1) as [Hs1 Hs2].
  assert (delta_size d = k) as Ek.
  { destruct (delta_cases d) as [(-> & E & _)|(-> & E & _)]; destruct Hk as [[-> Es]|[-> Es]]; congruence. }
  assert (exists v, (if k =? 1 then get1 m (off + offset) else Get2Bytes m (off + offset)) = Ok v /\ swrap 16 v = d)
    as (v & Ev & Evd).
  { destruct Hk as [[-> _]|[-> _]]; cbn [Z.eqb Pos.eqb]; [|by apply Hs2].
    exists d. split; [by apply Hs1|by apply swrap_small]. }
  cbn [run_deltas length]. rewrite Ev. ostep. rewrite Evd, Ek in *. rewrite IH; [|done|by rewrite Z.add_assoc].
  rewrite <- app_assoc. do 2 f_equal. lia.
Qed.

Lemma vector_deltas_wire off l : Forall reportable l -> forall ds len acc offset,
  matches l ds -> Forall in_range ds -> at_ m (off + offset) (deltas_bytes ds) -> zlen (deltas_bytes ds) <= len ->
  vector_deltas true l m off len acc offset = Ok (Some (acc ++ ds, offset + zlen (deltas_bytes ds))).
Proof.
  induction 1 as [|s l Hs Hl IH]; intros ds len acc offset Hmt Hr Hat Hlen.
  { unfold matches in Hmt. apply Forall2_nil_inv_l in Hmt as ->. cbn [vector_deltas].
    rewrite app_nil_r. change (zlen (deltas_bytes [])) with 0. by rewrite Z.add_0_r. }
  unfold matches in Hmt. rewrite received_cons in Hmt. cbn [vector_deltas negb].
  assert (is_received s = true -> exists d ds', ds = d :: ds' /\ s = status_of_delta d /\ matches l ds' /\
    in_range d /\ Forall in_range ds' /\ at_ m (off + offset) (delta_bytes d) /\
    at_ m (off + (offset + delta_size d)) (deltas_bytes ds') /\
    zlen (deltas_bytes ds) = delta_size d + zlen (deltas_bytes ds')) as Hsplit.
  { intros E. rewrite E in Hmt. cbn [app] in Hmt. apply Forall2_cons_inv_l in Hmt as (d & ds' & Hd & Hmt & ->).
    apply Forall_cons in Hr as [Hr1 Hr]. rewrite deltas_bytes_cons in Hat |- *. apply at_app in Hat as [H1 H2].
    rewrite zlen_delta_bytes in H2. exists d, ds'. rewrite Z.add_assoc, zlen_app, zlen_delta_bytes. done. }
  destruct (reportable_cases s Hs) as [->|[->| ->]]; cbn [vector_deltas].
  - by apply IH.
  - destruct Hsplit as (d & ds' & -> & Hst & Hmt' & Hr1 & Hr' & H1 & H2 & E); [done|]. rewrite E in *.
    destruct (delta_cases d) as [(Ed & _)|(_ & E2 & _)]; [|congruence]. rewrite Ed in *.
    pose proof (zlen_nonneg (deltas_bytes ds')). rewrite (proj2 (Z.ltb_ge _ _)) by lia.
    destruct (read_delta _ _ Hr1 H1) as [-> _]; [|done]. ostep. rewrite swrap_small by done.
    rewrite (IH ds') by (done || lia). rewrite <- app_assoc. do 3 f_equal. lia.
  - destruct Hsplit as (d & ds' & -> & Hst & Hmt' & Hr1 & Hr' & H1 & H2 & E); [done|]. rewrite E in *.
    destruct (delta_cases d) as [(_ & E2 & _)|(Ed & _)]; [congruence|]. rewrite Ed in *.
    pose proof (zlen_nonneg (deltas_bytes ds')). rewrite bool_decide_true by done.
    rewrite (proj2 (Z.ltb_ge _ _)) by lia.
    destruct (read_delta _ _ Hr1 H1) as [_ (v & -> & Ev)]; [done|]. ostep. rewrite Ev.
    rewrite (IH ds') by (done || lia). rewrite <- app_assoc. do 3 f_equal. lia.
Qed.

Lemma AddDeltas_wire c off len ds acc : chunk_wire c -> matches (chunk_statuses c) ds -> Forall in_range ds ->
  at_ m off (deltas_bytes ds) -> zlen (deltas_bytes ds) <= len ->
  AddDeltas c m off len acc = Ok (Some (acc ++ ds, zlen (deltas_bytes ds))).
Proof.
  intros Hc Hmt Hr Hat Hlen. rewrite <- (Z.add_0_r off) in Hat. destruct c as [s n|l|l]; [|done|].
  2: { destruct Hc as [_ Hall]. cbn [AddDeltas]. by rewrite (vector_deltas_wire off l Hall ds). }
  destruct Hc as [Hn Hs]. unfold matches in Hmt. cbn [chunk_statuses] in Hmt. rewrite received_replicate in Hmt.
  assert (forall k, k = 1 /\ s = SmallDelta \/ k = 2 /\ s = LargeDelta -> is_received s = true ->
    (len <? n * k = false) /\
    run_deltas (Z.to_nat n) k m off acc 0 = Ok (acc ++ ds, zlen (deltas_bytes ds))) as H.
  { intros k Hk E. rewrite E in Hmt. pose proof (Forall2_length _ _ _ Hmt) as Hl. rewrite length_replicate in Hl.
    assert (Forall (fun d => s = status_of_delta d) ds) as Hall.
    { apply Forall_lookup_2. intros i d Hd. destruct (Forall2_lookup_r _ _ _ _ _ Hmt Hd) as (s' & Hs' & ->).
      apply lookup_replicate in Hs' as [-> _]. done. }
    assert (zlen (deltas_bytes ds) = n * k) as Ez.
    { rewrite zlen_deltas_bytes. replace n with (zlen ds) by (unfold zlen; lia). clear -Hall Hk.
      induction Hall as [|d ds Hd Hall IH]; [done|]. rewrite deltas_size_cons, zlen_cons, IH.
      destruct (delta_cases d) as [(-> & E & _)|(-> & E & _)]; destruct Hk as [[-> Es]|[-> Es]]; (congruence || lia). }
    split; [apply Z.ltb_ge; lia|]. rewrite Hl. rewrite (run_deltas_wire off s k ds Hk Hall Hr acc 0 Hat). done. }
  destruct (reportable_cases s Hs) as [->|[->| ->]]; cbn [AddDeltas].
  - apply Forall2_nil_inv_l in Hmt as ->. by rewrite app_nil_r.
  - destruct (H 1) as [-> ->]; [by left|done|]. done.
  - destruct (H 2) as [-> ->]; [by right|done|]. done.
Qed.

Lemma delta_loop_wire content contentLen cs : readable cs -> forall ds acc offset,
  matches (all_statuses cs) ds -> Forall in_range ds -> at_ m (content + offset) (deltas_bytes ds) ->
  offset + zlen (deltas_bytes ds) <= contentLen ->
  delta_loop cs m content contentLen acc offset = Ok (acc ++ ds, offset + zlen (deltas_bytes ds)).
Proof.
  induction cs as [|c cs IH]; intros Hcs ds acc offset Hmt Hr Hat Hoff.
  { apply Forall2_nil_inv_l in Hmt as ->. cbn [delta_loop]. rewrite app_nil_r.
    change (zlen (deltas_bytes [])) with 0. by rewrite Z.add_0_r. }
  destruct Hcs as (Hc & _ & Hcs). unfold matches in Hmt. rewrite all_statuses_cons, received_app in Hmt.
  apply Forall2_app_inv_l in Hmt as (ds1 & ds2 & Hm1 & Hm2 & ->). apply Forall_app in Hr as [Hr1 Hr2].
  rewrite deltas_bytes_app, zlen_app in *. apply at_app in Hat as [H1 H2].
  pose proof (zlen_nonneg (deltas_bytes ds1)). pose proof (zlen_nonneg (deltas_bytes ds2)).
  cbn [delta_loop]. destruct (Z.ltb_spec offset contentLen) as [_|Hge].
  - rewrite (AddDeltas_wire c _ _ ds1) by (done || lia). ostep.
    rewrite (IH Hcs ds2) by (done || lia || by rewrite Z.add_assoc). rewrite <- app_assoc. do 2 f_equal. lia.
  - assert (forall ds, zlen (deltas_bytes ds) <= 0 -> ds = []) as Hnil.
    { intros [|d ds]; [done|]. rewrite zlen_deltas_bytes. pose proof (deltas_size_length (d :: ds)).
      rewrite zlen_cons in *. pose proof (zlen_nonneg ds). lia. }
    rewrite (Hnil ds1), (Hnil ds2) by lia. rewrite !app_nil_r. do 2 f_equal.
    change (zlen (deltas_bytes [])) with 0. lia.
Qed.

Lemma read_reference_time off t : 0 <= t < 2 ^ 23 -> at_ m off (be_bytes 3 t) -> parseReferenceTime m off = Ok t.
Proof.
  intros Ht Hat. unfold parseReferenceTime. rewrite (at_Get3Bytes m Hm _ _ Hat). ostep. cbv zeta.
  rewrite (wrap_small 24) by (unfold in_uint; lia).
  assert (forall k z, 0 <= k -> 0 <= z < 2 ^ k -> Z.land z (2 ^ k) = 0) as Hland.
  { intros k z Hk Hz. apply Z.bits_inj_0. intros i. rewrite Z.land_spec, Z.pow2_bits_eqb by done.
    destruct (Z.eqb_spec k i) as [<-|]; [|by rewrite andb_false_r]. by rewrite (testbit_above k z k). }
  assert (0 <= Z.shiftr t 16 < 2 ^ 7) as Hmsb.
  { rewrite Z.shiftr_div_pow2 by lia. split; [apply Z.div_pos; lia|apply Z.div_lt_upper_bound; lia]. }
  rewrite (wrap_small 8) by (unfold in_uint; lia). pose proof (Hland 7 (Z.shiftr t 16) ltac:(lia) ltac:(lia)) as E.
  change (2 ^ 7) with 128 in E. rewrite E. cbn [truthy Z.eqb negb].
  rewrite (Hland 31 t) by lia. done.
Qed.
End reading.
