(* ===== verification/RtcpTransportProps.v ===== *)
(** Transport-wide feedback: the properties. *)

From S2P Require Export RtcpTransportWire.

(** * The chunks that were pending *)

Lemma full_wire c : chunk_full c -> chunk_wire c.
Proof. destruct c as [s n|l|l]; [exact id|exact id|]. intros [E ?]. split; [lia|done]. Qed.

Lemma readable_full cs c : Forall chunk_full cs -> chunk_wire c -> readable (cs ++ [c]).
Proof.
  induction 1 as [|c' cs Hc Hcs IH]; intros Hw; cbn [app readable].
  - split; [done|]. split; [by right|done].
  - split; [by apply full_wire|]. split; [|by apply IH]. intros l ->. left. by destruct Hc.
Qed.

Lemma readable_all cs : Forall chunk_full cs -> readable cs.
Proof.
  destruct cs as [|c cs _] using rev_ind; [by intros|]. intros [Hcs [Hc _]%Forall_cons]%Forall_app.
  apply readable_full; [done|by apply full_wire].
Qed.

(** [p] is ready to be written: it reports the log. *)
Record finished (t0 : Z) (log : list (option Z)) (p : transport_packet) : Prop := {
  fn_readable : readable (chunks p);
  fn_statuses : all_statuses (chunks p) = statuses_of t0 log;
  fn_deltas : deltas p = deltas_of t0 log;
  fn_range : Forall in_range (deltas p);
  fn_count : packetStatusCount p = u16 (zlen log);
  fn_size : deltasAndChunksSize p = 2 * zlen (chunks p) + deltas_size (deltas p);
  fn_base : in_uint 16 (baseSequenceNumber p);
  fn_time : referenceTime p * 64 = t0 `mod` 2 ^ 29;
  fn_parsed : tp_size p = 0
}.

Lemma zlen_statuses_of t log : zlen (statuses_of t log) = zlen log.
Proof. unfold zlen. by rewrite length_statuses_of. Qed.

Lemma AddPendingChunks_spec t0 log p : building t0 log p ->
  exists p', AddPendingChunks p = Ok p' /\ finished t0 log p' /\ same_frame p p' /\
    deltasAndChunksSize p' <= deltasAndChunksSize p + 2.
Proof.
  intros [[C Cn Sz] X Cu R D Rg Fw La St Sq Ba Ti Si]. unfold AddPendingChunks. unfold reported in R.
  assert (forall c, chunk_wire c -> chunk_statuses c = statuses p ->
    let p' := clear_statuses (add_chunk p c (zlen (statuses p))) (currentStatus p) in
    finished t0 log p' /\ same_frame p p' /\ deltasAndChunksSize p' <= deltasAndChunksSize p + 2) as Hpush.
  { intros c Hc E p'. split; [|split; [by split|unfold p'; tp_simpl; lia]]. split; unfold p'; tp_simpl; try done.
    - by apply readable_full.
    - by rewrite all_statuses_app, all_statuses_one, E.
    - rewrite Cn, wrap_add_l, <- zlen_app, R. by rewrite zlen_statuses_of.
    - rewrite zlen_app, zlen_one, Sz. lia. }
  destruct (statuses p) as [|s0 l0] eqn:El.
  { exists p. rewrite app_nil_r in R. split; [done|]. split; [|split; [by split|lia]]. split; try done.
    - by apply readable_all.
    - by rewrite Cn, R, zlen_statuses_of. }
  rewrite <- El in *. assert (0 < zlen (statuses p) <= 8191) as Hl.
  { pose proof (cx_length p X). rewrite El, zlen_cons in *. pose proof (zlen_nonneg l0). lia. }
  destruct (allSameStatus p) eqn:Es.
  - destruct (cx_same p X Es) as [E|Hall]; [done|]. unfold CreateRunLengthChunk.
    rewrite wrap_small by (unfold in_uint; lia). ostep. eexists. split; [done|]. apply Hpush.
    + split; [lia|]. pose proof (cx_statuses p X) as S. rewrite El in S, Hall.
      apply Forall_cons in S as [S _]. apply Forall_cons in Hall as [-> _]. exact S.
    + by apply replicate_all_same.
  - assert (zlen (statuses p) < 7) as H7.
    { destruct (Z.lt_ge_cases (zlen (statuses p)) 7) as [|H7]; [done|]. destruct (cx_seven p X H7). congruence. }
    rewrite (proj2 (Z.ltb_lt _ _)) by done. ostep. unfold CreateTwoBitVectorChunk.
    rewrite wrap_small by (unfold in_uint; lia). eexists. split; [done|]. apply Hpush; [|done].
    split; [lia|by apply cx_statuses].
Qed.

(** * Writing *)

Definition transport_fixed (p : transport_packet) (size : Z) : list Z :=
  feedback_bytes (fbHeader p) RTPFB size ++ be_bytes 2 (baseSequenceNumber p) ++ be_bytes 2 (packetStatusCount p)
  ++ be_bytes 3 (referenceTime p) ++ [feedbackPacketCount p].

Definition transport_content (p : transport_packet) : list Z := chunk_bytes (chunks p) ++ deltas_bytes (deltas p).

Definition transport_bytes (p : transport_packet) : list Z :=
  let content := transport_fixed p (TransportSize p) ++ transport_content p in
  content ++ padding (zlen content).

Lemma SerializeChunk_emits c : chunk_wire c -> emits (SerializeChunk c) (be_bytes 2 (chunk_code c)).
Proof.
  intros Hc. destruct (chunk_bits_code c Hc) as [E _].
  apply (emits_ext _ (fun m off => m ← Set2Bytes m off (chunk_code c); Ok (m, off + Z.of_nat 2))).
  - intros m off. unfold SerializeChunk. by rewrite E.
  - apply emits_set. intros. apply Set2Bytes_spec.
Qed.

Lemma readable_wire cs : readable cs -> Forall chunk_wire cs.
Proof. induction cs as [|c cs IH]; [constructor|]. intros (Hc & _ & Hcs). constructor; [done|by apply IH]. Qed.

Lemma serialize_chunks_emits cs : Forall chunk_wire cs -> emits (serialize_chunks cs) (chunk_bytes cs).
Proof.
  induction 1 as [|c cs Hc Hcs IH]; [apply emits_nil|].
  exact (emits_app _ _ _ _ (SerializeChunk_emits c Hc) IH).
Qed.

Lemma serialize_deltas_emits ds : emits (serialize_deltas ds) (deltas_bytes ds).
Proof.
  induction ds as [|d ds IH]; [apply emits_nil|]. rewrite deltas_bytes_cons. unfold delta_bytes.
  destruct ((0 <=? d) && (d <=? 255)) eqn:E.
  - apply (emits_ext _ (fun m off => '(m, off) ← (m ← set1 m off d; Ok (m, off + 1)); serialize_deltas ds m off)).
    + intros m off. cbn [serialize_deltas]. rewrite E. apply andb_true_iff in E as [E1%Z.leb_le E2%Z.leb_le].
      rewrite wrap_small by (unfold in_uint; lia). by destruct (set1 m off d).
    + apply emits_app; [apply emits_set1|done].
  - apply (emits_ext _ (fun m off => '(m, off) ← (m ← Set2Bytes m off (u16 d); Ok (m, off + Z.of_nat 2));
      serialize_deltas ds m off)).
    + intros m off. cbn [serialize_deltas]. rewrite E. by destruct (Set2Bytes m off (u16 d)).
    + apply emits_app; [|done]. rewrite <- (be_bytes_wrap 2 d). apply emits_set. intros. apply Set2Bytes_spec.
Qed.

Lemma zlen_transport_fixed p size : zlen (transport_fixed p size) = 20.
Proof. unfold transport_fixed, feedback_bytes, common_bytes. by rewrite !zlen_app, !zlen_be_bytes. Qed.

Lemma zlen_transport_content t0 log p : finished t0 log p -> zlen (transport_content p) = deltasAndChunksSize p.
Proof.
  intros Hp. unfold transport_content. by rewrite zlen_app, zlen_chunk_bytes, zlen_deltas_bytes, (fn_size _ _ _ Hp).
Qed.

Lemma zlen_transport_bytes t0 log p : finished t0 log p -> zlen (transport_bytes p) = TransportSize p.
Proof.
  intros Hp. unfold transport_bytes. cbv zeta. rewrite zlen_app, zlen_padding, zlen_app, zlen_transport_fixed.
  rewrite (zlen_transport_content t0 log p Hp). unfold TransportSize. rewrite (fn_parsed _ _ _ Hp). done.
Qed.

(** What is written up to the padding. *)
Definition transport_body (p : transport_packet) (m : list Z) (off : Z) : outcome (list Z * Z) :=
  '(m, off) ← SerializeFeedback (fbHeader p) RTPFB (TransportSize p) m off;
  m ← Set2Bytes m off (baseSequenceNumber p);
  m ← Set2Bytes m (off + 2) (packetStatusCount p);
  m ← Set3Bytes m (off + 4) (u32 (referenceTime p));
  m ← set1 m (off + 7) (feedbackPacketCount p);
  '(m, off) ← serialize_chunks (chunks p) m (off + 8);
  serialize_deltas (deltas p) m off.

Lemma transport_body_emits p : readable (chunks p) -> in_uint 32 (referenceTime p) ->
  emits (transport_body p) (transport_fixed p (TransportSize p) ++ transport_content p).
Proof.
  intros Hr%readable_wire Ht. unfold transport_fixed, transport_content. rewrite <- !app_assoc.
  apply (emits_ext _ (fun m off => '(m, off) ← SerializeFeedback (fbHeader p) RTPFB (TransportSize p) m off;
    '(m, off) ← (m ← Set2Bytes m off (baseSequenceNumber p); Ok (m, off + Z.of_nat 2));
    '(m, off) ← (m ← Set2Bytes m off (packetStatusCount p); Ok (m, off + Z.of_nat 2));
    '(m, off) ← (m ← Set3Bytes m off (referenceTime p); Ok (m, off + Z.of_nat 3));
    '(m, off) ← (m ← set1 m off (feedbackPacketCount p); Ok (m, off + 1));
    '(m, off) ← serialize_chunks (chunks p) m off; serialize_deltas (deltas p) m off)).
  - intros m off. unfold transport_body. destruct (SerializeFeedback _ _ _ _ _) as [[m1 o]|]; [|done]. ostep.
    destruct (Set2Bytes m1 o _) as [m2|]; [|done]. ostep. change (o + Z.of_nat 2) with (o + 2).
    destruct (Set2Bytes m2 _ _) as [m3|]; [|done]. ostep. replace (o + 2 + Z.of_nat 2) with (o + 4) by lia.
    rewrite (wrap_small 32) by done.
    destruct (Set3Bytes m3 _ _) as [m4|]; [|done]. ostep. replace (o + 4 + Z.of_nat 3) with (o + 7) by lia.
    destruct (set1 m4 _ _) as [m5|]; [|done]. ostep. by replace (o + 7 + 1) with (o + 8) by lia.
  - apply emits_app; [apply SerializeFeedback_emits|].
    apply emits_app; [apply emits_set; intros; apply Set2Bytes_spec|].
    apply emits_app; [apply emits_set; intros; apply Set2Bytes_spec|].
    apply emits_app; [apply emits_set; intros; apply Set3Bytes_spec|].
    apply (emits_app _ _ [_]); [apply emits_set1|].
    apply emits_app; [by apply serialize_chunks_emits|apply serialize_deltas_emits].
Qed.

Lemma reference_range t0 log p : finished t0 log p -> 0 <= referenceTime p < 2 ^ 23.
Proof.
  intros Hp. pose proof (fn_time _ _ _ Hp). pose proof (Z.mod_pos_bound t0 (2 ^ 29) ltac:(lia)).
  change (2 ^ 29) with (2 ^ 23 * 64) in *. lia.
Qed.

Lemma SerializeTransport_spec t0 log p m buffer : building t0 log p -> 0 <= buffer ->
  exists p', AddPendingChunks p = Ok p' /\ finished t0 log p' /\ same_frame p p' /\
    deltasAndChunksSize p' <= deltasAndChunksSize p + 2 /\
    (buffer + TransportSize p' <= zlen m ->
     exists m', SerializeTransport p m buffer = Ok (p', m', buffer + TransportSize p') /\
       write m buffer (transport_bytes p') = Ok m').
Proof.
  intros Hp Hb. destruct (AddPendingChunks_spec t0 log p Hp) as (p' & E & Hf & Hfr & Hgrow).
  exists p'. split; [done|]. split; [done|]. split; [done|]. split; [done|]. intros Hl.
  pose proof (reference_range _ _ _ Hf) as Ht. rewrite <- (zlen_transport_bytes t0 log p' Hf) in Hl |- *.
  unfold transport_bytes in *. cbv zeta in *. set (content := _ ++ transport_content p') in *.
  rewrite zlen_app in Hl |- *. pose proof (zlen_nonneg (padding (zlen content))). pose proof (zlen_nonneg content).
  destruct (transport_body_emits p' (fn_readable _ _ _ Hf)) with (m := m) (off := buffer) as (m1 & E1 & W1);
    [unfold in_uint; lia|done|fold content; lia|]. fold content in E1, W1.
  assert (SerializeTransport p m buffer = ('(m, off) ← transport_body p' m buffer;
    m ← memset m off 0 (Z.land (- (off - buffer)) 3); Ok (p', m, off + Z.land (- (off - buffer)) 3))) as ->.
  { unfold SerializeTransport, transport_body. rewrite E. ostep.
    destruct (SerializeFeedback _ _ _ _ _) as [[m2 o]|]; [|done]. ostep.
    destruct (Set2Bytes m2 o _) as [m3|]; [|done]. ostep.
    destruct (Set2Bytes m3 _ _) as [m4|]; [|done]. ostep.
    destruct (Set3Bytes m4 _ _) as [m5|]; [|done]. ostep.
    destruct (set1 m5 _ _) as [m6|]; [|done]. ostep.
    by destruct (serialize_chunks _ _ _) as [[m7 o7]|]. }
  rewrite E1. ostep. replace (buffer + zlen content - buffer) with (zlen content) by lia.
  pose proof (zlen_write _ _ _ _ W1) as L1.
  assert (exists m', memset m1 (buffer + zlen content) 0 (Z.land (- zlen content) 3) = Ok m') as [m' Em]
    by (apply write_in_bounds; [lia|]; fold (padding (zlen content)); lia).
  exists m'. rewrite Em. ostep. rewrite zlen_padding. split; [do 2 f_equal; lia|]. by eapply write_app.
Qed.

(** * Reading it again *)

Lemma matches_log log : forall t, matches (statuses_of t log) (deltas_of t log).
Proof.
  unfold matches. induction log as [|[u|] log IH]; intros t; cbn [statuses_of deltas_of]; [constructor| |].
  - rewrite received_cons, received_of_delta. cbn [app]. by constructor.
  - rewrite received_cons. apply IH.
Qed.

Lemma bytes_app a b : bytes (a ++ b) <-> bytes a /\ bytes b.
Proof. apply Forall_app. Qed.

Lemma bytes_deltas ds : bytes (deltas_bytes ds).
Proof.
  induction ds as [|d ds IH]; [constructor|]. rewrite deltas_bytes_cons. apply bytes_app. split; [|done].
  destruct (delta_cases d) as [(_ & _ & -> & Hd)|(_ & _ & ->)]; [|apply bytes_be_bytes].
  constructor; [unfold in_uint; lia|constructor].
Qed.

Lemma bytes_chunks cs : bytes (chunk_bytes cs).
Proof.
  unfold chunk_bytes. induction cs as [|c cs IH]; [constructor|]. rewrite fmap_cons. cbn [concat].
  apply bytes_app. split; [apply bytes_be_bytes|done].
Qed.

Lemma bytes_feedback h type size : in_uint 5 (messageType h) -> bytes (feedback_bytes h type size).
Proof.
  intros Ht. unfold feedback_bytes, common_bytes. rewrite !bytes_app. split_and!; try apply bytes_be_bytes.
  constructor; [|constructor; [by apply wrap_range|constructor]].
  assert (forallb (fun c => bool_decide (in_uint 8 (Z.lor 128 (Z.land (u8 c) 31)))) (seqZ 0 32) = true) as H
    by (vm_compute; reflexivity).
  pose proof (forall_below 32 _ H (messageType h) Ht) as H'. by apply bool_decide_eq_true in H'.
Qed.

(** The header of a packet in the making. *)
Definition header_ok (p : transport_packet) : Prop :=
  in_uint 5 (messageType (fbHeader p)) /\ in_uint 32 (senderSsrc (fbHeader p)) /\
  in_uint 32 (mediaSsrc (fbHeader p)) /\ in_uint 8 (feedbackPacketCount p).

Lemma bytes_transport p : header_ok p -> bytes (transport_bytes p).
Proof.
  intros (Ht & _ & _ & Hc). unfold transport_bytes, transport_fixed, transport_content, padding. cbv zeta.
  rewrite !bytes_app. split_and!; try apply bytes_be_bytes; [by apply bytes_feedback| |apply bytes_chunks|apply bytes_deltas|].
  - constructor; [done|constructor].
  - by apply Forall_replicate.
Qed.

Lemma transport_length t0 log p : finished t0 log p -> header_ok p -> TransportSize p <= 262144 ->
  20 <= TransportSize p /\ packet_length (transport_bytes p) = Ok (TransportSize p) /\
  20 + deltasAndChunksSize p <= TransportSize p.
Proof.
  intros Hf Hh Hsize. pose proof (bytes_transport p Hh) as Hb. destruct Hh as (Ht & Hs & Hme & Hc).
  assert (TransportSize p = pad4 (20 + deltasAndChunksSize p)) as E.
  { unfold TransportSize. rewrite (fn_parsed _ _ _ Hf). done. }
  destruct (pad4_spec (20 + deltasAndChunksSize p)) as [Hp [k Hk]]. rewrite <- E in *.
  assert (0 <= deltasAndChunksSize p) as Hd.
  { rewrite <- (zlen_transport_content _ _ _ Hf). apply zlen_nonneg. }
  split; [lia|]. split; [|lia]. pose proof (at_whole (transport_bytes p)) as Hat.
  unfold transport_bytes at 2, transport_fixed, feedback_bytes in Hat. cbv zeta in Hat. rewrite <- !app_assoc in Hat.
  apply at_app in Hat as [Hat _]. destruct (at_header _ Hb _ _ _ Ht Hat) as (_ & _ & _ & Hlen).
  unfold packet_length. rewrite Hlen. ostep. do 2 f_equal. rewrite Hk, Z.div_mul by lia.
  rewrite wrap_small by (unfold in_uint; lia). lia.
Qed.

Lemma ParseTransport_bytes t0 log p : finished t0 log p -> header_ok p -> TransportSize p <= 262144 ->
  zlen log <= 65535 ->
  exists q, ParseTransport (transport_bytes p) (TransportSize p) = Ok q /\
    fbHeader q = fbHeader p /\ baseSequenceNumber q = baseSequenceNumber p /\ referenceTime q = referenceTime p /\
    packetStatusCount q = zlen log /\ feedbackPacketCount q = feedbackPacketCount p /\
    chunks q = chunks p /\ deltas q = deltas p.
Proof.
  intros Hf Hh Hsize Hlog. destruct (transport_length t0 log p Hf Hh Hsize) as (H20 & Hlen & Hroom).
  pose proof (bytes_transport p Hh) as Hb. destruct Hh as (Ht & Hs & Hme & Hc).
  pose proof (reference_range _ _ _ Hf) as Href. pose proof (at_whole (transport_bytes p)) as Hat.
  pose proof (zlen_transport_bytes _ _ _ Hf) as Hz.
  unfold transport_bytes at 2 in Hat. cbv zeta in Hat. rewrite at_app in Hat. destruct Hat as [Hat _].
  apply at_app in Hat as [Hfix Hcon]. rewrite zlen_transport_fixed in Hcon. change (0 + 20) with 20 in Hcon.
  unfold transport_fixed in Hfix. rewrite !at_app in Hfix. destruct Hfix as (A1 & A2 & A3 & A4 & A5).
  rewrite !zlen_be_bytes in *. change (zlen (feedback_bytes (fbHeader p) RTPFB (TransportSize p))) with 12 in *.
  change (0 + 12) with 12 in *. change (12 + Z.of_nat 2) with 14 in *. change (14 + Z.of_nat 2) with 16 in *.
  change (16 + Z.of_nat 3) with 19 in *.
  unfold transport_content in Hcon. apply at_app in Hcon as [B1 B2]. rewrite zlen_chunk_bytes in B2.
  set (m := transport_bytes p) in *. unfold ParseTransport, CommonHeaderSize, FeedbackHeaderSize, fixedHeaderSize.
  rewrite (proj2 (Z.ltb_ge _ (4 + 8 + 8))) by lia. rewrite (at_feedback m Hb _ _ _ Ht Hs Hme A1). ostep.
  rewrite Hlen. ostep. rewrite Z.ltb_irrefl. cbv zeta. change (4 + 8) with 12.
  rewrite (at_Get2Bytes m Hb _ _ A2). ostep. change (12 + 2) with 14. rewrite (at_Get2Bytes m Hb _ _ A3). ostep.
  change (12 + 4) with 16. rewrite (read_reference_time m Hb _ _ Href A4). ostep.
  change (12 + 7) with 19. rewrite (at_get1 m _ _ A5). ostep. change (12 + 8) with 20.
  rewrite (wrap_small 64) by (unfold in_uint; lia). replace (TransportSize p - 4 - 8 - 8) with (TransportSize p - 20) by lia.
  destruct Hf as [R S D Rg Cn Sz Ba Ti Pa]. pose proof (zlen_nonneg log).
  pose proof (deltas_size_length (deltas p)). pose proof (zlen_nonneg (deltas p)).
  assert (packetStatusCount p = zlen log) as Epsc by (rewrite Cn; apply wrap_small; unfold in_uint; lia).
  rewrite Epsc, (wrap_small 16 (zlen log)), (wrap_small 16 (baseSequenceNumber p)) by (done || unfold in_uint; lia).
  pose proof (chunk_loop_wire m Hb 20 (TransportSize p - 20) (chunks p) R (length m) [] 0) as Hchunks.
  cbv zeta in Hchunks. cbn [app] in Hchunks. rewrite S, zlen_statuses_of in Hchunks.
  change (zlen (all_statuses [])) with 0 in Hchunks. change (zlen (received (all_statuses []))) with 0 in Hchunks.
  rewrite Hchunks; [|done|done|lia|unfold zlen in *; lia]. ostep. rewrite Z.eqb_refl. cbn [negb].
  pose proof (matches_log log t0) as Hmt. rewrite D in *.
  rewrite (delta_loop_wire m Hb 20 _ (chunks p) R (deltas_of t0 log)); [|by rewrite S|done|done|rewrite zlen_deltas_bytes; lia].
  ostep. cbn [app]. pose proof (Forall2_length _ _ _ Hmt) as El.
  assert (zlen (deltas_of t0 log) = zlen (received (statuses_of t0 log))) as -> by (unfold zlen; by rewrite El).
  rewrite Z.eqb_refl. cbn [negb]. eexists. split; [done|]. by split_and!.
Qed.

(** * The times of arrival *)

(** What the log says: the sequence numbers from [seq + 1] on, and the times
    less [k]. *)
Fixpoint results_of (seq t k : Z) (log : list (option Z)) : list packet_result :=
  match log with
  | [] => []
  | None :: log => PacketResult (u16 (seq + 1)) 0 false 0 :: results_of (u16 (seq + 1)) t k log
  | Some u :: log =>
      PacketResult (u16 (seq + 1)) ((u - t) * 4) true (u - k) :: results_of (u16 (seq + 1)) u k log
  end.

Lemma date_results_log log k : forall seq t,
  date_results (vector_results (statuses_of t log) seq).1 (deltas_of t log) (t - k) = Ok (results_of seq t k log).
Proof.
  induction log as [|[u|] log IH]; intros seq t; cbn [statuses_of deltas_of vector_results results_of]; [done| |].
  - specialize (IH (u16 (seq + 1)) u). destruct (vector_results _ _) as [rs q]. cbn [fst] in *. cbn [date_results pr_received].
    rewrite received_of_delta. cbn [negb]. cbv zeta.
    rewrite Z.quot_mul by lia. replace (t - k + (u - t)) with (u - k) by lia. by rewrite IH.
  - specialize (IH (u16 (seq + 1)) t). destruct (vector_results _ _) as [rs q]. cbn [fst] in *. cbn [date_results pr_received].
    change (is_received NotReceived) with false. cbn [negb]. by rewrite IH.
Qed.

Lemma GetPacketResults_log t0 log p q : finished t0 log p -> Forall chunk_ok (chunks p) ->
  chunks q = chunks p -> deltas q = deltas p -> baseSequenceNumber q = baseSequenceNumber p ->
  referenceTime q = referenceTime p ->
  GetPacketResults q = Ok (results_of (u16 (baseSequenceNumber p - 1)) t0 (t0 - t0 `mod` 2 ^ 29) log).
Proof.
  intros Hf Hok Ec Ed Eb Er. unfold GetPacketResults. rewrite Ec, Ed, Eb, Er.
  rewrite fill_results_spec by done. ostep. rewrite (fn_statuses _ _ _ Hf), (fn_deltas _ _ _ Hf), (fn_time _ _ _ Hf).
  rewrite <- date_results_log. f_equal. lia.
Qed.

(** * Runs *)

(** The packets made: the first packet added is the base; of those after it the
    ones that are not newer are left out, and the log of the others is kept. *)
Inductive reporting (max : Z) : Z -> list (option Z) -> transport_packet -> Prop :=
| reporting_first senderSsrc mediaSsrc count seq ts p :
    in_uint 32 senderSsrc -> in_uint 32 mediaSsrc -> in_uint 8 count -> in_uint 16 seq -> 64 <= ts < 2 ^ 60 ->
    AddPacket (SetFeedbackPacketCount (new_transport_packet senderSsrc mediaSsrc) count) seq ts max = Ok (p, SUCCESS) ->
    reporting max (Z.shiftr ts 6 * 64) [] p
| reporting_old t0 log p seq ts p' :
    reporting max t0 log p -> SeqManager.IsSeqHigherThan 16 seq (latestSequenceNumber p) = false ->
    AddPacket p seq ts max = Ok (p', SUCCESS) -> reporting max t0 log p'
| reporting_new t0 log p seq ts p' :
    reporting max t0 log p -> in_uint 16 seq -> 0 < ts < 2 ^ 60 ->
    1 <= u16 (seq - latestSequenceNumber p) <= maxMissingPackets + 1 ->
    AddPacket p seq ts max = Ok (p', SUCCESS) ->
    reporting max t0 (log ++ replicate (Z.to_nat (u16 (seq - latestSequenceNumber p) - 1)) None ++ [Some ts]) p'.

Lemma AddPacket_conditions p seq ts max p' : 0 < latestTimestamp p < 2 ^ 60 -> 0 < ts < 2 ^ 60 ->
  SeqManager.IsSeqHigherThan 16 seq (latestSequenceNumber p) = true ->
  AddPacket p seq ts max = Ok (p', SUCCESS) ->
  IsFull p = false /\ - maxPacketDelta <= (ts - latestTimestamp p) * 4 <= maxPacketDelta /\
  pad4 (24 + deltasAndChunksSize p) <= max.
Proof.
  intros Hla Hts Hh. unfold AddPacket. destruct (IsFull p); [done|]. cbn [negb require mbind outcome_bind].
  rewrite (proj2 (Z.eqb_neq _ 0)) by lia. rewrite Hh. cbn [negb].
  destruct (maxMissingPackets <? _); [done|]. cbv zeta.
  assert (swrap 64 (u64 (u64 (ts - latestTimestamp p) * 4)) = (ts - latestTimestamp p) * 4) as ->.
  { unfold swrap, wrap. rewrite Z.mul_mod_idemp_l, Z.add_mod_idemp_l by lia. rewrite Z.mod_small; lia. }
  destruct (Z.ltb_spec maxPacketDelta ((ts - latestTimestamp p) * 4)) as [|H1]; [done|].
  destruct (Z.ltb_spec ((ts - latestTimestamp p) * 4) (-1 * maxPacketDelta)) as [|H2]; [done|]. cbn [orb].
  unfold CommonHeaderSize, FeedbackHeaderSize, fixedHeaderSize.
  replace (4 + 8 + 8 + deltasAndChunksSize p + 2 + 2) with (24 + deltasAndChunksSize p) by lia.
  destruct (Z.ltb_spec max (pad4 (24 + deltasAndChunksSize p))) as [|H3]; [done|]. intros _. split; [done|]. lia.
Qed.

Lemma pad4_mono a b : a <= b -> pad4 a <= pad4 b.
Proof.
  intros H. destruct (pad4_spec a) as [Ha [k Hk]], (pad4_spec b) as [Hb [j Hj]]. lia.
Qed.

Lemma pad4_8 a : pad4 (a + 8) = pad4 a + 8.
Proof.
  destruct (pad4_spec a) as [Ha [k Hk]], (pad4_spec (a + 8)) as [Hb [j Hj]]. lia.
Qed.

Lemma reporting_building max t0 log p : reporting max t0 log p -> 16 <= max <= 8000 ->
  building t0 log p /\ header_ok p /\ 0 < latestTimestamp p < 2 ^ 60 /\
  pad4 (deltasAndChunksSize p + 22) <= max + 8.
Proof.
  intros Hrep Hmax. induction Hrep as [ss ms count seq ts p Hss Hms Hc Hseq Hts E
    |t0 log p seq ts p' Hrep IH Hold E|t0 log p seq ts p' Hrep IH Hseq Hts Hd E].
  - destruct (AddPacket_first ss ms count seq ts max Hseq) as (p1 & E1 & Hb & Eh & Ec & _); [lia|].
    rewrite E1 in E. injection E as ->. split; [done|]. unfold header_ok. rewrite Eh, Ec. split; [done|].
    rewrite (bu_latest _ _ _ Hb). cbn [last_time]. rewrite Z.shiftr_div_pow2 by lia. change (2 ^ 6) with 64.
    pose proof (Z.div_mod ts 64). pose proof (Z.mod_pos_bound ts 64).
    assert (1 <= ts / 64) by (apply Z.div_le_lower_bound; lia). split; [lia|].
    assert (deltasAndChunksSize p = 0) as ->; [|change (pad4 (0 + 22)) with 24; lia].
    revert E1. unfold AddPacket. change (IsFull _) with false. cbn [negb require mbind outcome_bind].
    change (latestTimestamp _ =? 0) with true. cbv iota zeta. by intros [= <-].
  - destruct IH as (Hb & IH'). revert E. unfold AddPacket. destruct (IsFull p); [done|].
    cbn [negb require mbind outcome_bind]. rewrite (proj2 (Z.eqb_neq _ 0)) by apply Hb. rewrite Hold. cbn [negb].
    by intros [= <-].
  - destruct IH as (Hb & Hh & Hla & Hfit). unfold maxMissingPackets in Hd.
    assert (in_uint 16 (latestSequenceNumber p)) as Hl by (rewrite (bu_seq _ _ _ Hb); by apply wrap_range).
    destruct (newer_packet seq _ Hseq Hl) as (Hhigh & _); [lia|].
    destruct (AddPacket_conditions p seq ts max p' Hla Hts Hhigh E) as (Hfull & Hdelta & Hsize).
    destruct (AddPacket_spec p t0 log seq ts max Hb Hfull Hseq) as (p1 & E1 & Hb1 & Eh & Ec & Hgrow); [lia..|].
    rewrite E1 in E. injection E as ->. split; [done|]. unfold header_ok in *. rewrite Eh, Ec. split; [done|].
    rewrite (bu_latest _ _ _ Hb1), !last_time_app. cbn [last_time]. split; [lia|].
    etrans; [apply pad4_mono; instantiate (1 := 24 + deltasAndChunksSize p + 8); lia|]. rewrite pad4_8. lia.
Qed.

(** * Properties *)

(** Reading transport-wide feedback is safe.  Whatever the bytes of a packet
    of the announced length, they are read within bounds, no assertion fails
    and the loops end: the packet is rejected or accepted.  One that is accepted
    says, for each status in it, whether the packet with the next sequence
    number has arrived, as long as fewer than 65536 have. *)
Theorem transport_feedback_safe m len : bytes m -> packet_length m = Ok len -> len <= zlen m ->
  match ParseTransport m len with
  | Ok p =>
      let all := all_statuses (chunks p) in
      packetStatusCount p = u16 (zlen all) /\
      (zlen (received all) < 65536 ->
       exists rs, GetPacketResults p = Ok rs /\ zlen rs = zlen all /\
         forall i s, all !! i = Some s -> exists r, rs !! i = Some r /\ pr_received r = is_received s /\
           pr_sequenceNumber r = u16 (baseSequenceNumber p + Z.of_nat i))
  | Err e => e = Rejected
  end.
Proof.
  intros Hm Hlen Hl. pose proof (ParseTransport_safe m len Hm Hlen Hl) as H.
  destruct (ParseTransport m len) as [p|e]; [|done]. split; [apply H|]. intros Hr.
  pose proof (GetPacketResults_spec p H) as Hp. cbv zeta in Hp. by rewrite (proj2 (Z.ltb_lt _ _)) in Hp.
Qed.

(** A packet of 56 bytes: 65536 packets received and 65535 not received. *)
Definition wrapping_packet : list Z :=
  [143; 205; 0; 13] ++ be_bytes 4 1 ++ be_bytes 4 2 ++ [0; 0; 255; 255; 0; 0; 1; 0]
  ++ concat (replicate 8 [63; 255]) ++ [32; 8] ++ concat (replicate 8 [31; 255]) ++ [0; 7].

(** A packet of 56 bytes that is accepted although it has no deltas for the
    65536 packets it says were received, because both counts are kept in 16
    bits; asking for its results throws. *)
Theorem transport_feedback_throws :
  bytes wrapping_packet /\ packet_length wrapping_packet = Ok 56 /\ zlen wrapping_packet = 56 /\
  exists p, ParseTransport wrapping_packet 56 = Ok p /\ GetPacketResults p = Err Thrown.
Proof.
  split; [by apply (bool_decide_eq_true_1 (bytes _)); vm_compute|]. split; [done|]. split; [done|].
  assert ((p ← ParseTransport wrapping_packet 56; GetPacketResults p) = Err Thrown) as E by (vm_compute; reflexivity).
  assert (match ParseTransport wrapping_packet 56 with Ok _ => true | Err _ => false end = true) as E0
    by (vm_compute; reflexivity).
  destruct (ParseTransport wrapping_packet 56) as [p|e]; [by exists p|discriminate].
Qed.

(** C33: what the worker reports arrives.  After any run of packets, none of them
    more than 8192 sequence numbers ahead of the one before, and at most 65535
    sequence numbers in all: the feedback packet is written into the buffer, and
    it is read as the same report: for each sequence number from the base on,
    whether the packet has arrived and when, up to a multiple of 2^29 ms. *)
Theorem transport_feedback_reports max t0 log p buffer :
  reporting max t0 log p -> 16 <= max <= 8000 -> zlen log <= 65535 -> zlen buffer = BufferSize ->
  exists p' buffer' size datagram q,
    SerializeTransport p buffer 0 = Ok (p', buffer', size) /\ size <= max + 8 /\
    slice buffer' 0 size = Ok datagram /\ packet_length datagram = Ok size /\
    ParseTransport datagram size = Ok q /\
    fbHeader q = fbHeader p /\ feedbackPacketCount q = feedbackPacketCount p /\
    packetStatusCount q = zlen log /\
    GetPacketResults q = Ok (results_of (u16 (baseSequenceNumber p - 1)) t0 (t0 - t0 `mod` 2 ^ 29) log).
Proof.
  intros Hrep Hmax Hlog Hbuf. destruct (reporting_building _ _ _ _ Hrep Hmax) as (Hb & Hh & _ & Hfit).
  destruct (SerializeTransport_spec t0 log p buffer 0 Hb) as (p' & _ & Hf & [F1 F2 F3 F4 F5 F6 F7] & Hgrow & Hser); [done|].
  assert (TransportSize p' <= max + 8) as Hsize.
  { unfold TransportSize. rewrite (fn_parsed _ _ _ Hf). cbn [truthy Z.eqb negb]. etrans; [|exact Hfit].
    apply pad4_mono. unfold CommonHeaderSize, FeedbackHeaderSize, fixedHeaderSize. lia. }
  assert (header_ok p') as Hh' by (unfold header_ok in *; by rewrite F1, F6).
  destruct Hser as (m' & -> & Hw); [unfold BufferSize in Hbuf; lia|].
  destruct (ParseTransport_bytes t0 log p' Hf Hh') as (q & Hq & Q1 & Q2 & Q3 & Q4 & Q5 & Q6 & Q7); [lia|lia|].
  exists p', m', (0 + TransportSize p'), (transport_bytes p'), q. split; [done|]. rewrite Z.add_0_l. split; [done|].
  split; [|split; [by apply (transport_length t0 log); [| |lia]|]].
  { rewrite <- (zlen_transport_bytes _ _ _ Hf). by apply (slice_write_same buffer). }
  split; [done|]. rewrite Q1, F1, Q5, F6. split; [done|]. split; [done|]. split; [done|]. rewrite <- F2.
  apply (GetPacketResults_log t0 log p'); try done.
  apply Forall_impl with chunk_wire; [apply readable_wire; by apply Hf|]. apply wire_ok.
Qed.

(** The packet 60000 is received a millisecond after the packet 59999. *)
Definition before_gap : transport_packet :=
  TransportPacket (FeedbackHeader TCC 0 1) 60000 100 60000 6401 0 0 [] [4] true SmallDelta [SmallDelta] 1 0.

Lemma before_gap_reporting : reporting 1500 6400 [Some 6401] before_gap.
Proof.
  apply (reporting_new 1500 6400 [] (set_latest (set_base (new_transport_packet 0 1) 60000 100) 59999 6400) 60000 6401);
    [|done|done|done|reflexivity].
  by apply (reporting_first 1500 0 1 0 59999 6400).
Qed.

(** The datagram of a packet. *)
Definition datagram_of (p : transport_packet) : outcome (list Z) :=
  '(_, m, size) ← SerializeTransport p (replicate (Z.to_nat BufferSize) 0) 0; slice m 0 size.

(** The limit on missing packets is checked on [int]s and does not see the
    wrap-around of the sequence numbers: after the packet 60000 the packet 10000
    is added although 15535 are missing in between, more than the 8191 that fit
    into a chunk, and the feedback packet that is written is rejected. *)
Theorem transport_feedback_gap :
  reporting 1500 6400 [Some 6401] before_gap /\
  maxMissingPackets < u16 (10000 - latestSequenceNumber before_gap) - 1 /\
  exists p datagram, AddPacket before_gap 10000 6402 1500 = Ok (p, SUCCESS) /\
    datagram_of p = Ok datagram /\ ParseTransport datagram (zlen datagram) = Err Rejected.
Proof.
  split; [exact before_gap_reporting|]. split; [done|].
  assert (match AddPacket before_gap 10000 6402 1500 with
          | Ok (p, SUCCESS) => match datagram_of p with
                               | Ok d => match ParseTransport d (zlen d) with Err Rejected => true | _ => false end
                               | Err _ => false
                               end
          | _ => false
          end = true) as E by (vm_compute; reflexivity).
  destruct (AddPacket before_gap 10000 6402 1500) as [[p []]|]; try discriminate.
  destruct (datagram_of p) as [d|] eqn:Ed; [|discriminate]. exists p, d. split; [done|]. split; [done|].
  by destruct (ParseTransport d (zlen d)) as [|[]].
Qed.

(** The bound [max + 8] is reached: seven packets, then one with nine missing
    before it, are more than [max = 32] bytes. *)
Definition add_packets (p : transport_packet) (packets : list (Z * Z)) (max : Z) : outcome transport_packet :=
  foldl (fun p '(seq, ts) => p ← p; '(p, _) ← AddPacket p seq ts max; Ok p) (Ok p) packets.

Lemma feedback_exceeds_limit :
  (p ← add_packets (new_transport_packet 0 1)
         [(1, 6400); (2, 6401); (3, 6402); (4, 6403); (5, 6404); (6, 6405); (7, 6406); (8, 6407); (18, 6500)] 32;
   d ← datagram_of p; Ok (zlen (deltas p), zlen d)) = Ok (8, 40).
Proof. vm_compute. reflexivity. Qed.

(** * Witnesses *)

(** The packets 3 and 6 received, 4 and 5 not; the packet 2 is the base. *)
Definition sample_report : transport_packet :=
  TransportPacket (FeedbackHeader TCC 0 1) 3 100 6 6405 0 0 [] [4; 16] false SmallDelta
    [SmallDelta; NotReceived; NotReceived; SmallDelta] 2 0.

Lemma sample_reporting : reporting 1500 6400 [Some 6401; None; None; Some 6405] sample_report.
Proof.
  pose (p0 := set_latest (set_base (new_transport_packet 0 1) 3 100) 2 6400).
  pose (p1 := TransportPacket (FeedbackHeader TCC 0 1) 3 100 3 6401 0 0 [] [4] true SmallDelta [SmallDelta] 1 0).
  apply (reporting_new 1500 6400 [Some 6401] p1 6 6405); [|done|done|done|reflexivity].
  apply (reporting_new 1500 6400 [] p0 3 6401); [|done|done|done|reflexivity].
  by apply (reporting_first 1500 0 1 0 2 6400).
Qed.

Lemma transport_feedback_reports_witness :
  exists p' buffer' size datagram q,
    SerializeTransport sample_report (replicate (Z.to_nat BufferSize) 0) 0 = Ok (p', buffer', size) /\ size <= 1508 /\
    slice buffer' 0 size = Ok datagram /\ packet_length datagram = Ok size /\
    ParseTransport datagram size = Ok q /\
    fbHeader q = FeedbackHeader TCC 0 1 /\ feedbackPacketCount q = 0 /\ packetStatusCount q = 4 /\
    GetPacketResults q = Ok [PacketResult 3 4 true 6401; PacketResult 4 0 false 0; PacketResult 5 0 false 0;
                             PacketResult 6 16 true 6405].
Proof.
  apply (transport_feedback_reports 1500 6400 [Some 6401; None; None; Some 6405] sample_report); [|lia|done|].
  - exact sample_reporting.
  - by rewrite zlen_replicate.
Defined.

Definition sample_feedback : list Z :=
  [143; 205; 0; 5] ++ be_bytes 4 0 ++ be_bytes 4 1 ++ [0; 3; 0; 4; 0; 0; 100; 0; 208; 64; 4; 16].

Lemma transport_feedback_safe_witness :
  match ParseTransport sample_feedback 24 with
  | Ok p =>
      let all := all_statuses (chunks p) in
      packetStatusCount p = u16 (zlen all) /\
      (zlen (received all) < 65536 ->
       exists rs, GetPacketResults p = Ok rs /\ zlen rs = zlen all /\
         forall i s, all !! i = Some s -> exists r, rs !! i = Some r /\ pr_received r = is_received s /\
           pr_sequenceNumber r = u16 (baseSequenceNumber p + Z.of_nat i))
  | Err e => e = Rejected
  end.
Proof.
  apply (transport_feedback_safe sample_feedback 24); [|reflexivity|by vm_compute].
  apply (bool_decide_eq_true_1 (bytes _)). vm_compute. reflexivity.
Defined.
