(* ===== verification/RtcpCodec.v ===== *)
(** Reading and writing the fields of RTCP packets: what the packets of the other
    files are read and written with, field after field. *)

From S2P Require Export Rtcp.

(** Written one after the other: the loops over the reports, chunks, items or
    blocks of a packet that call [Serialize] of each. *)
Fixpoint serialize_each {A} (Serialize : A -> list Z -> Z -> outcome (list Z * Z)) (l : list A)
  (m : list Z) (off : Z) : outcome (list Z * Z) :=
  match l with
  | [] => Ok (m, off)
  | a :: l => '(m, off) ← Serialize a m off; serialize_each Serialize l m off
  end.

(** [while ((count-- != 0u) && (len > offset))]: the items of a packet whose header
    says how many they are; stops at the first that is not there. *)
Section counted.
Context {A : Type} (ParseItem : list Z -> Z -> Z -> outcome (option A)) (ItemSize : A -> Z).

Fixpoint counted_items (count : nat) (m : list Z) (len offset : Z) : outcome (list A) :=
  match count with
  | O => Ok []
  | S count =>
      if offset <? len then
        item ← ParseItem m offset (len - offset);
        match item with
        | Some item => items ← counted_items count m len (offset + ItemSize item); Ok (item :: items)
        | None => Ok []
        end
      else Ok []
  end.
End counted.

(** * Loops over items *)

Section loops.
Context {A : Type} (ParseItem : list Z -> Z -> Z -> outcome (option A)) (ItemSize : A -> Z) (ok : A -> Prop).
Variable m : list Z.

(** The parser of an item stays within the bytes that are left. *)
Definition item_reader : Prop := forall off len, 0 <= off -> 0 <= len -> off + len <= zlen m ->
  returns (fun item => match item with Some i => ok i /\ 0 < ItemSize i | None => True end) (ParseItem m off len).

Lemma parse_items_safe : item_reader -> forall fuel len off, 0 <= off -> len <= zlen m -> (Z.to_nat (len - off) <= fuel)%nat ->
  returns (Forall ok) (parse_items ParseItem ItemSize fuel m len off).
Proof.
  intros Hread. induction fuel as [|fuel IH]; intros len off H0 Hl Hf; cbn [parse_items];
    destruct (Z.ltb_spec off len); try (apply returns_Ok; constructor); [lia|].
  eapply returns_bind; [apply Hread; lia|]. intros [i|]; [|intros _; apply returns_Ok; constructor].
  intros [Hi Hs]. eapply returns_bind; [apply IH; lia|]. intros items Hitems. apply returns_Ok. by constructor.
Qed.

Lemma counted_items_safe : item_reader -> forall count off len, 0 <= off -> len <= zlen m ->
  returns (Forall ok) (counted_items ParseItem ItemSize count m len off).
Proof.
  intros Hread. induction count as [|count IH]; intros off len H0 Hl; cbn [counted_items];
    [apply returns_Ok; constructor|].
  destruct (Z.ltb_spec off len); [|apply returns_Ok; constructor].
  eapply returns_bind; [apply Hread; lia|]. intros [i|]; [|intros _; apply returns_Ok; constructor].
  intros [Hi Hs]. eapply returns_bind; [apply IH; lia|]. intros items Hitems. apply returns_Ok. by constructor.
Qed.
End loops.

Definition header_ok (h : feedback_header) : Prop :=
  in_uint 5 (messageType h) /\ in_uint 32 (senderSsrc h) /\ in_uint 32 (mediaSsrc h).

Lemma header_count_reads m : bytes m -> 0 < zlen m -> returns (in_uint 5) (header_count m).
Proof.
  intros Hm H. unfold header_count. apply read1; [lia|done|lia|]. intros v Hv. apply returns_Ok.
  change 31 with (2 ^ 5 - 1). rewrite land_low_ones by lia. by apply Z.mod_pos_bound.
Qed.

Lemma ParseFeedbackHeader_reads m : bytes m -> 12 <= zlen m -> returns header_ok (ParseFeedbackHeader m).
Proof.
  intros Hm H. unfold ParseFeedbackHeader. eapply returns_bind; [apply header_count_reads; [done|lia]|].
  intros count Hc. reads. by apply returns_Ok.
Qed.

Lemma ParseItems_safe {A} (ParseItem : list Z -> Z -> Z -> outcome (option A)) ItemSize ok m len :
  bytes m -> len <= zlen m -> item_reader ParseItem ItemSize ok m ->
  yields (fun '(h, items) => header_ok h /\ Forall ok items) (ParseItems ParseItem ItemSize m len).
Proof.
  intros Hm Hl Hread. unfold ParseItems, CommonHeaderSize, FeedbackHeaderSize.
  destruct (Z.ltb_spec len (4 + 8)); [done|]. apply returns_yields.
  eapply returns_bind; [apply ParseFeedbackHeader_reads; [done|lia]|]. intros h Hh.
  eapply returns_bind; [apply (parse_items_safe _ _ ok m Hread); lia|]. intros items Hi. by apply returns_Ok.
Qed.

(** * Writing, field after field *)

(** [f] writes [bs] [d] bytes after the offset that it is given. *)
Definition emits_at (d : Z) (f : list Z -> Z -> outcome (list Z * Z)) (bs : list Z) : Prop :=
  forall m off, 0 <= off -> 0 <= d -> off + d + zlen bs <= zlen m ->
    exists m', f m off = Ok (m', off + d + zlen bs) /\ write m (off + d) bs = Ok m'.

Lemma emits_of f bs : emits_at 0 f bs -> emits f bs.
Proof.
  intros H m off H0 Hl. destruct (H m off) as (m' & E & W); [done|done|lia|].
  rewrite Z.add_0_r in *. by exists m'.
Qed.

Lemma emits_at_done d e : (forall off, e off = off + d) -> emits_at d (fun m off => Ok (m, e off)) [].
Proof.
  intros He m off H0 Hd Hl. exists m. change (zlen []) with 0 in *. rewrite He. split; [by rewrite !Z.add_0_r|].
  apply write_nil. lia.
Qed.

(** What follows is another writer. *)
Lemma emits_at_tail d e f bs : (forall off, e off = off + d) -> emits f bs -> emits_at d (fun m off => f m (e off)) bs.
Proof. intros He Hf m off H0 Hd Hl. rewrite He. apply Hf; lia. Qed.

Lemma emits_at_write d (o : Z -> Z) a k bs : (forall off, o off = off + d) -> emits_at (d + zlen a) k bs ->
  emits_at d (fun m off => m ← write m (o off) a; k m off) (a ++ bs).
Proof.
  intros Ho Hk m off H0 Hd Hl. rewrite zlen_app in *. rewrite Ho.
  pose proof (zlen_nonneg a). pose proof (zlen_nonneg bs).
  destruct (write_in_bounds m (off + d) a) as (m1 & W1); [lia|lia|]. rewrite W1. ostep.
  destruct (Hk m1 off) as (m2 & E2 & W2); [done|lia|rewrite (zlen_write _ _ _ _ W1); lia|].
  exists m2. rewrite E2. split; [do 2 f_equal; lia|]. eapply write_app; [done|]. by rewrite <- Z.add_assoc.
Qed.

Lemma emits_at_ext d f g bs : (forall m off, f m off = g m off) -> emits_at d g bs -> emits_at d f bs.
Proof. intros E H m off H0 Hd Hl. rewrite E. by apply H. Qed.

Lemma emits_at1 d o v k bs : (forall off, o off = off + d) -> emits_at (d + 1) k bs ->
  emits_at d (fun m off => m ← set1 m (o off) v; k m off) ([v] ++ bs).
Proof. intros Ho Hk. by apply (emits_at_write d o [v] k bs). Qed.

Section fields.
Context (d : Z) (o : Z -> Z) (v : Z) (k : list Z -> Z -> outcome (list Z * Z)) (bs : list Z).
Hypothesis Ho : forall off, o off = off + d.

Lemma emits_at2 : emits_at (d + 2) k bs -> emits_at d (fun m off => m ← Set2Bytes m (o off) v; k m off) (be_bytes 2 v ++ bs).
Proof.
  intros Hk. eapply emits_at_ext; [intros; by rewrite Set2Bytes_spec|]. by apply (emits_at_write d o _ k bs).
Qed.

Lemma emits_at3 : emits_at (d + 3) k bs -> emits_at d (fun m off => m ← Set3Bytes m (o off) v; k m off) (be_bytes 3 v ++ bs).
Proof.
  intros Hk. eapply emits_at_ext; [intros; by rewrite Set3Bytes_spec|]. by apply (emits_at_write d o _ k bs).
Qed.

Lemma emits_at4 : emits_at (d + 4) k bs -> emits_at d (fun m off => m ← Set4Bytes m (o off) v; k m off) (be_bytes 4 v ++ bs).
Proof.
  intros Hk. eapply emits_at_ext; [intros; by rewrite Set4Bytes_spec|]. by apply (emits_at_write d o _ k bs).
Qed.
End fields.

(** Writes the fields there are; what is left is a writer of its own. *)
Ltac writes :=
  apply emits_of; repeat first
    [ apply emits_at1; [intros; lia|]
    | apply emits_at2; [intros; lia|]
    | apply emits_at3; [intros; lia|]
    | apply emits_at4; [intros; lia|] ];
  try (apply emits_at_done; intros; lia).

(** One after the other. *)
Lemma serialize_each_emits {A} (Serialize : A -> list Z -> Z -> outcome (list Z * Z)) (Bytes : A -> list Z) (ok : A -> Prop) l :
  (forall a, ok a -> emits (Serialize a) (Bytes a)) -> Forall ok l ->
  emits (serialize_each Serialize l) (concat (Bytes <$> l)).
Proof.
  intros H. induction 1 as [|a l Ha Hl IH]; [apply emits_nil|]. exact (emits_app _ _ _ _ (H a Ha) IH).
Qed.

(** * Reading what was written, field after field *)

Lemma at_bounds m off bs : at_ m off bs -> off + zlen bs <= zlen m.
Proof. unfold at_. intros (?&?&?&_)%slice_Ok. done. Qed.

Lemma at_one m off x bs : at_ m off (x :: bs) <-> get1 m off = Ok x /\ at_ m (off + 1) bs.
Proof.
  unfold at_. rewrite zlen_cons, slice_cons by apply zlen_nonneg. split.
  - intros (b & E & H)%bind_Ok. apply bind_Ok in H as (s & Es & [= -> ->]). done.
  - intros [-> E]. ostep. by rewrite E.
Qed.

Section at_be.
Context (m : list Z) (Hm : bytes m) (off v : Z) (bs : list Z).

Lemma at_next (n : nat) w (get : list Z -> Z -> outcome Z) : (at_ m off (be_bytes n v) -> get m off = Ok (wrap w v)) ->
  at_ m off (be_bytes n v ++ bs) -> in_uint w v -> get m off = Ok v /\ at_ m (off + Z.of_nat n) bs.
Proof.
  intros Hget [H1 H2]%at_app Hv. rewrite zlen_be_bytes in H2. rewrite Hget by done. by rewrite wrap_small.
Qed.

Lemma at_next2 : at_ m off (be_bytes 2 v ++ bs) -> in_uint 16 v -> Get2Bytes m off = Ok v /\ at_ m (off + 2) bs.
Proof. apply (at_next 2 16 Get2Bytes). by apply at_Get2Bytes. Qed.

Lemma at_next3 : at_ m off (be_bytes 3 v ++ bs) -> in_uint 24 v -> Get3Bytes m off = Ok v /\ at_ m (off + 3) bs.
Proof. apply (at_next 3 24 Get3Bytes). by apply at_Get3Bytes. Qed.

Lemma at_next4 : at_ m off (be_bytes 4 v ++ bs) -> in_uint 32 v -> Get4Bytes m off = Ok v /\ at_ m (off + 4) bs.
Proof. apply (at_next 4 32 Get4Bytes). by apply at_Get4Bytes. Qed.
End at_be.

(** Sums of constants in the offsets of [H]. *)
Ltac norm_offsets H :=
  rewrite <- ?Z.add_assoc in H;
  repeat match type of H with
  | context [Z.add (Zpos ?a) (Zpos ?b)] =>
      let c := eval compute in (Zpos a + Zpos b) in change (Z.add (Zpos a) (Zpos b)) with c in H
  end.

(** Reads the fields that [H] says are there. *)
Ltac at_fields H :=
  repeat first
    [ apply at_next2 in H as [-> H]; [norm_offsets H; ostep|done|done]
    | apply at_next3 in H as [-> H]; [norm_offsets H; ostep|done|done]
    | apply at_next4 in H as [-> H]; [norm_offsets H; ostep|done|done]
    | apply at_one in H as [-> H]; norm_offsets H; ostep ].

(** * Items that were written *)

Section written_counted.
Context {A : Type} (ParseItem : list Z -> Z -> Z -> outcome (option A)) (ItemSize : A -> Z) (Bytes : A -> list Z)
  (ok : A -> Prop) (m : list Z).
Hypothesis item_size : forall i, ok i -> zlen (Bytes i) = ItemSize i.
Hypothesis item_pos : forall i, ok i -> 0 < ItemSize i.
Hypothesis item_parse : forall off len i, ok i -> 0 <= off -> at_ m off (Bytes i) -> ItemSize i <= len ->
  ParseItem m off len = Ok (Some i).

Lemma counted_items_written len l : Forall ok l -> forall off, 0 <= off ->
  at_ m off (concat (Bytes <$> l)) -> off + zlen (concat (Bytes <$> l)) <= len ->
  counted_items ParseItem ItemSize (length l) m len off = Ok l.
Proof.
  induction 1 as [|i l Hi Hl IH]; intros off H0 Hat Hend; [done|].
  cbn [fmap list_fmap concat length counted_items] in *. apply at_app in Hat as [Hat Hrest].
  rewrite zlen_app, item_size in * by done. pose proof (item_pos i Hi). pose proof (zlen_nonneg (concat (Bytes <$> l))).
  rewrite (proj2 (Z.ltb_lt _ _)) by lia. rewrite (item_parse off _ i) by (done || lia). ostep.
  rewrite IH; [done|lia|done|lia].
Qed.
End written_counted.
