(* ===== verification/RtcpReports.v ===== *)
(** RTCP packets of reports (worker/src/RTC/RTCP/SenderReport.cpp,
    ReceiverReport.cpp, Sdes.cpp, Bye.cpp, XR.cpp, XrReceiverReferenceTime.cpp,
    XrDelaySinceLastRr.cpp and their headers): how each is parsed and written.

    A parser is given the memory of the packet from its common header on and
    the length of the packet; [Err Rejected] stands for [nullptr].  A report
    holds the fields of the [Header] or [Body] it points to, in host byte order. *)

From S2P Require Export RtcpCodec.

Definition SR : Z := 200.
Definition RR : Z := 201.
Definition SDES : Z := 202.
Definition BYE : Z := 203.
Definition XR : Z := 207.

(** [for (i{ 0 }; i < padding; ++i) buffer[offset + i] = 0], where [padding] is
    [(-offset) & 3] and the offset is counted from [start]. *)
Definition pad_zeros (start : Z) (m : list Z) (off : Z) : outcome (list Z * Z) :=
  let padding := Z.land (- (off - start)) 3 in
  m ← memset m off 0 padding;
  Ok (m, off + padding).

(** [(size + 3) & ~3]. *)
Definition round4 (size : Z) : Z := Z.land (size + 3) (Z.lnot 3).

(** * Sender reports *)

Record sender_report : Type := SenderReport {
  sr_ssrc : Z;
  sr_ntpSec : Z;
  sr_ntpFrac : Z;
  sr_rtpTs : Z;
  sr_packetCount : Z;
  sr_octetCount : Z
}.

Definition SenderReportSize : Z := 24.

Definition ParseSenderReport (m : list Z) (off len : Z) : outcome (option sender_report) :=
  if len <? SenderReportSize then Ok None
  else
    ssrc ← Get4Bytes m off;
    ntpSec ← Get4Bytes m (off + 4);
    ntpFrac ← Get4Bytes m (off + 8);
    rtpTs ← Get4Bytes m (off + 12);
    packetCount ← Get4Bytes m (off + 16);
    octetCount ← Get4Bytes m (off + 20);
    Ok (Some (SenderReport ssrc ntpSec ntpFrac rtpTs packetCount octetCount)).

Definition SerializeSenderReport (r : sender_report) (m : list Z) (off : Z) : outcome (list Z * Z) :=
  m ← Set4Bytes m off (sr_ssrc r);
  m ← Set4Bytes m (off + 4) (sr_ntpSec r);
  m ← Set4Bytes m (off + 8) (sr_ntpFrac r);
  m ← Set4Bytes m (off + 12) (sr_rtpTs r);
  m ← Set4Bytes m (off + 16) (sr_packetCount r);
  m ← Set4Bytes m (off + 20) (sr_octetCount r);
  Ok (m, off + SenderReportSize).

(** The packet: its reports. *)
Definition ParseSenderReportPacket (m : list Z) (len : Z) : outcome (list sender_report) :=
  report ← ParseSenderReport m CommonHeaderSize (u64 (len - CommonHeaderSize));
  Ok (match report with Some report => [report] | None => [] end).

Definition SenderReportPacketSize (reports : list sender_report) : Z :=
  CommonHeaderSize + foldr (fun _ n => SenderReportSize + n) 0 reports.

Definition SerializeSenderReportPacket (reports : list sender_report) (m : list Z) (off : Z)
  : outcome (list Z * Z) :=
  _ ← require AssertFailed (zlen reports =? 1);
  '(m, off) ← SerializeCommon 0 SR (SenderReportPacketSize reports) m off;
  serialize_each SerializeSenderReport reports m off.

(** * Receiver reports *)

Record receiver_report : Type := ReceiverReport {
  rr_ssrc : Z;
  rr_fractionLost : Z;
  rr_totalLost : Z;           (** the 3 bytes, see [GetTotalLost] *)
  rr_lastSeq : Z;
  rr_jitter : Z;
  rr_lsr : Z;
  rr_dlsr : Z
}.

Definition ReceiverReportSize : Z := 24.

(** Of 3 bytes, as [int32_t]; [-value] is computed in [uint32_t]. *)
Definition GetTotalLost (value : Z) : Z :=
  if Z.land (Z.shiftr value 23) 1 =? 0 then value
  else
    let value := if value =? 8388608 then value else Z.land value (Z.lnot (Z.shiftl 1 23)) in
    swrap 32 (- value).

(** Of an [int32_t], the 3 bytes.  [-totalLost] is not defined for INT32_MIN, which
    the model takes to be negated to itself. *)
Definition SetTotalLost (totalLost : Z) : Z :=
  let minus := swrap 32 (- totalLost) in
  let clamp :=
    if 0 <=? totalLost then (if 8388607 <? totalLost then 8388607 else totalLost)
    else if 8388608 <? minus then 8388608 else minus in
  let value := if 0 <=? totalLost then Z.land clamp 8388607 else u32 (Z.lor clamp 8388608) in
  wrap 24 value.

Definition ParseReceiverReport (m : list Z) (off len : Z) : outcome (option receiver_report) :=
  if len <? ReceiverReportSize then Ok None
  else
    ssrc ← Get4Bytes m off;
    fractionLost ← Get1Byte m (off + 4);
    totalLost ← Get3Bytes m (off + 5);
    lastSeq ← Get4Bytes m (off + 8);
    jitter ← Get4Bytes m (off + 12);
    lsr ← Get4Bytes m (off + 16);
    dlsr ← Get4Bytes m (off + 20);
    Ok (Some (ReceiverReport ssrc fractionLost totalLost lastSeq jitter lsr dlsr)).

Definition SerializeReceiverReport (r : receiver_report) (m : list Z) (off : Z) : outcome (list Z * Z) :=
  m ← Set4Bytes m off (rr_ssrc r);
  m ← Set1Byte m (off + 4) (rr_fractionLost r);
  m ← Set3Bytes m (off + 5) (rr_totalLost r);
  m ← Set4Bytes m (off + 8) (rr_lastSeq r);
  m ← Set4Bytes m (off + 12) (rr_jitter r);
  m ← Set4Bytes m (off + 16) (rr_lsr r);
  m ← Set4Bytes m (off + 20) (rr_dlsr r);
  Ok (m, off + ReceiverReportSize).

(** The SSRC of the sender and the reports. *)
Definition ParseReceiverReportPacket (m : list Z) (len offset : Z) : outcome (Z * list receiver_report) :=
  if len <? CommonHeaderSize + 4 then Err Rejected
  else
    ssrc ← Get4Bytes m CommonHeaderSize;
    let offset := if offset =? 0 then CommonHeaderSize + 4 else offset in
    count ← header_count m;
    reports ← counted_items ParseReceiverReport (fun _ => ReceiverReportSize) (Z.to_nat count) m len offset;
    Ok (ssrc, reports).

Definition ReceiverReportPacketSize (reports : list receiver_report) : Z :=
  CommonHeaderSize + 4 + foldr (fun _ n => ReceiverReportSize + n) 0 reports.

Definition SerializeReceiverReportPacket (ssrc : Z) (reports : list receiver_report) (m : list Z) (off : Z)
  : outcome (list Z * Z) :=
  '(m, off) ← SerializeCommon (zlen reports) RR (ReceiverReportPacketSize reports) m off;
  m ← Set4Bytes m off ssrc;
  serialize_each SerializeReceiverReport reports m (off + 4).

(** * SDES *)

Record sdes_item : Type := SdesItem { sdes_type : Z; sdes_value : list Z }.

Definition END : Z := 0.
Definition CNAME : Z := 1.

Definition SdesItemSize (item : sdes_item) : Z := 2 + zlen (sdes_value item).

(** The constructor: [header->length] has 8 bits, and as many bytes are copied. *)
Definition NewSdesItem (type len : Z) (value : list Z) : outcome sdes_item :=
  value ← slice value 0 (u8 len);
  Ok (SdesItem type value).

Definition ParseSdesItem (m : list Z) (off len : Z) : outcome (option sdes_item) :=
  if len <? 2 then Ok None
  else
    length ← get1 m (off + 1);
    if len <? 2 + length then Ok None
    else
      type ← get1 m off;
      if type =? END then Ok None
      else value ← slice m (off + 2) length; Ok (Some (SdesItem type value)).

Definition SerializeSdesItem (item : sdes_item) (m : list Z) (off : Z) : outcome (list Z * Z) :=
  m ← set1 m off (sdes_type item);
  m ← set1 m (off + 1) (zlen (sdes_value item));
  m ← write m (off + 2) (sdes_value item);
  Ok (m, off + SdesItemSize item).

Record sdes_chunk : Type := SdesChunk { chunk_ssrc : Z; chunk_items : list sdes_item }.

Definition SdesChunkSize (chunk : sdes_chunk) : Z :=
  round4 (4 + foldr (fun i n => SdesItemSize i + n) 0 (chunk_items chunk)).

(** The chunk has the bytes from [off] to [off + len]. *)
Definition ParseSdesChunk (m : list Z) (off len : Z) : outcome (option sdes_chunk) :=
  if len <? 4 then Ok None
  else
    ssrc ← Get4Bytes m off;
    items ← parse_items ParseSdesItem SdesItemSize (Z.to_nat len) m (off + len) (off + 4);
    Ok (Some (SdesChunk ssrc items)).

Definition SerializeSdesChunk (chunk : sdes_chunk) (m : list Z) (start : Z) : outcome (list Z * Z) :=
  m ← Set4Bytes m start (chunk_ssrc chunk);
  '(m, off) ← serialize_each SerializeSdesItem (chunk_items chunk) m (start + 4);
  pad_zeros start m off.

Definition ParseSdesPacket (m : list Z) (len : Z) : outcome (list sdes_chunk) :=
  count ← header_count m;
  counted_items ParseSdesChunk SdesChunkSize (Z.to_nat count) m len CommonHeaderSize.

Definition SdesPacketSize (chunks : list sdes_chunk) : Z :=
  CommonHeaderSize + foldr (fun c n => SdesChunkSize c + n) 0 chunks.

Definition SerializeSdesPacket (chunks : list sdes_chunk) (m : list Z) (off : Z) : outcome (list Z * Z) :=
  '(m, off) ← SerializeCommon (zlen chunks) SDES (SdesPacketSize chunks) m off;
  serialize_each SerializeSdesChunk chunks m off.

(** * BYE *)

Record bye_packet : Type := ByePacket { bye_ssrcs : list Z; bye_reason : list Z }.

(** The SSRCs and the offset after them. *)
Fixpoint bye_loop (count : nat) (m : list Z) (len offset : Z) : outcome (list Z * Z) :=
  match count with
  | O => Ok ([], offset)
  | S count =>
      if offset <? len then
        if len - offset <? 4 then Err Rejected
        else
          ssrc ← Get4Bytes m offset;
          '(ssrcs, offset) ← bye_loop count m len (offset + 4);
          Ok (ssrc :: ssrcs, offset)
      else Ok ([], offset)
  end.

Definition ParseByePacket (m : list Z) (len : Z) : outcome bye_packet :=
  count ← header_count m;
  '(ssrcs, offset) ← bye_loop (Z.to_nat count) m len CommonHeaderSize;
  if offset <? len then
    length ← Get1Byte m offset;
    let offset := offset + 1 in
    if length <=? len - offset then reason ← slice m offset length; Ok (ByePacket ssrcs reason)
    else Ok (ByePacket ssrcs [])
  else Ok (ByePacket ssrcs []).

Definition ByePacketSize (p : bye_packet) : Z :=
  let size := CommonHeaderSize + zlen (bye_ssrcs p) * 4 in
  let size := match bye_reason p with [] => size | reason => size + 1 + zlen reason end in
  round4 size.

Definition SerializeSsrc (ssrc : Z) (m : list Z) (off : Z) : outcome (list Z * Z) :=
  m ← Set4Bytes m off ssrc; Ok (m, off + 4).

(** The length field and the reason, unless it is empty. *)
Definition SerializeReason (reason : list Z) (m : list Z) (off : Z) : outcome (list Z * Z) :=
  if bool_decide (reason = []) then Ok (m, off)
  else
    m ← Set1Byte m off (u8 (zlen reason));
    m ← write m (off + 1) reason;
    Ok (m, off + 1 + zlen reason).

Definition SerializeByePacket (p : bye_packet) (m : list Z) (start : Z) : outcome (list Z * Z) :=
  '(m, off) ← SerializeCommon (zlen (bye_ssrcs p)) BYE (ByePacketSize p) m start;
  '(m, off) ← serialize_each SerializeSsrc (bye_ssrcs p) m off;
  '(m, off) ← SerializeReason (bye_reason p) m off;
  pad_zeros start m off.

(** * Extended reports *)

Record ssrc_info : Type := SsrcInfo { si_ssrc : Z; si_lrr : Z; si_dlrr : Z }.

Inductive report_block : Type :=
| ReceiverReferenceTime (ntpSec ntpFrac : Z)
| DelaySinceLastRr (ssrcInfos : list ssrc_info).

Definition RRT : Z := 4.
Definition DLRR : Z := 5.

Definition SsrcInfoSize : Z := 12.
Definition BlockHeaderSize : Z := 4.
Definition ReferenceTimeSize : Z := 8.

Definition ReportBlockSize (b : report_block) : Z :=
  match b with
  | ReceiverReferenceTime _ _ => BlockHeaderSize + ReferenceTimeSize
  | DelaySinceLastRr infos => BlockHeaderSize + foldr (fun _ n => SsrcInfoSize + n) 0 infos
  end.

Definition ParseReferenceTime (m : list Z) (off len : Z) : outcome (option report_block) :=
  if len <? BlockHeaderSize + ReferenceTimeSize then Ok None
  else
    ntpSec ← Get4Bytes m (off + 4);
    ntpFrac ← Get4Bytes m (off + 8);
    Ok (Some (ReceiverReferenceTime ntpSec ntpFrac)).

Definition ParseSsrcInfo (m : list Z) (off len : Z) : outcome (option ssrc_info) :=
  if len <? SsrcInfoSize then Ok None
  else
    ssrc ← Get4Bytes m off;
    lrr ← Get4Bytes m (off + 4);
    dlrr ← Get4Bytes m (off + 8);
    Ok (Some (SsrcInfo ssrc lrr dlrr)).

(** The offset is advanced twice for each sub-block. *)
Fixpoint ssrc_infos_loop (fuel : nat) (m : list Z) (off len offset reportLength : Z) : outcome (list ssrc_info) :=
  if (offset <? len) && (SsrcInfoSize <=? reportLength) then
    match fuel with
    | O => Err OutOfFuel
    | S fuel =>
        info ← ParseSsrcInfo m (off + offset) (len - offset);
        match info with
        | Some info =>
            let offset := offset + SsrcInfoSize in
            let offset := offset + SsrcInfoSize in
            infos ← ssrc_infos_loop fuel m off len offset (u16 (reportLength - SsrcInfoSize));
            Ok (info :: infos)
        | None => Ok []
        end
    end
  else Ok [].

Definition ParseDelaySinceLastRr (m : list Z) (off len : Z) : outcome report_block :=
  length ← Get2Bytes m (off + 2);
  infos ← ssrc_infos_loop (Z.to_nat len) m off len BlockHeaderSize (u16 (length * 4));
  Ok (DelaySinceLastRr infos).

Definition ParseReportBlock (m : list Z) (off len : Z) : outcome (option report_block) :=
  if len <? BlockHeaderSize then Ok None
  else
    blockType ← get1 m off;
    if blockType =? RRT then ParseReferenceTime m off len
    else if blockType =? DLRR then block ← ParseDelaySinceLastRr m off len; Ok (Some block)
    else Ok None.

(** The SSRC of the sender and the blocks. *)
Definition ParseExtendedReportPacket (m : list Z) (len : Z) : outcome (Z * list report_block) :=
  if len <? CommonHeaderSize + 4 then Err Rejected
  else
    ssrc ← Get4Bytes m CommonHeaderSize;
    blocks ← parse_items ParseReportBlock ReportBlockSize (Z.to_nat len) m len (CommonHeaderSize + 4);
    Ok (ssrc, blocks).

Definition ExtendedReportPacketSize (blocks : list report_block) : Z :=
  CommonHeaderSize + 4 + foldr (fun b n => ReportBlockSize b + n) 0 blocks.

Definition SerializeSsrcInfo (i : ssrc_info) (m : list Z) (off : Z) : outcome (list Z * Z) :=
  m ← Set4Bytes m off (si_ssrc i);
  m ← Set4Bytes m (off + 4) (si_lrr i);
  m ← Set4Bytes m (off + 8) (si_dlrr i);
  Ok (m, off + SsrcInfoSize).

(** The header of a block: its type, 0, its length in words. *)
Definition SerializeBlockHeader (type length : Z) (m : list Z) (off : Z) : outcome (list Z * Z) :=
  m ← set1 m off type;
  m ← set1 m (off + 1) 0;
  m ← Set2Bytes m (off + 2) length;
  Ok (m, off + BlockHeaderSize).

Definition SerializeReportBlock (b : report_block) (m : list Z) (off : Z) : outcome (list Z * Z) :=
  match b with
  | ReceiverReferenceTime ntpSec ntpFrac =>
      '(m, off) ← SerializeBlockHeader RRT 2 m off;
      m ← Set4Bytes m off ntpSec;
      m ← Set4Bytes m (off + 4) ntpFrac;
      Ok (m, off + ReferenceTimeSize)
  | DelaySinceLastRr infos =>
      '(m, off) ← SerializeBlockHeader DLRR (u16 (SsrcInfoSize * zlen infos / 4)) m off;
      serialize_each SerializeSsrcInfo infos m off
  end.

Definition SerializeExtendedReportPacket (ssrc : Z) (blocks : list report_block) (m : list Z) (off : Z)
  : outcome (list Z * Z) :=
  '(m, off) ← SerializeCommon 0 XR (ExtendedReportPacketSize blocks) m off;
  m ← Set4Bytes m off ssrc;
  serialize_each SerializeReportBlock blocks m (off + 4).
