(* ===== verification/RtcpReportsFacts.v ===== *)
(** Reports: parsing them is safe, and what is written is read back.

    Reports: what is written is read back. *)

From S2P Require Export RtcpReports.

(** * What parsed packets look like *)

Definition sr_ok (r : sender_report) : Prop :=
  in_uint 32 (sr_ssrc r) /\ in_uint 32 (sr_ntpSec r) /\ in_uint 32 (sr_ntpFrac r) /\ in_uint 32 (sr_rtpTs r) /\
  in_uint 32 (sr_packetCount r) /\ in_uint 32 (sr_octetCount r).

Definition rr_ok (r : receiver_report) : Prop :=
  in_uint 32 (rr_ssrc r) /\ in_uint 8 (rr_fractionLost r) /\ in_uint 24 (rr_totalLost r) /\ in_uint 32 (rr_lastSeq r) /\
  in_uint 32 (rr_jitter r) /\ in_uint 32 (rr_lsr r) /\ in_uint 32 (rr_dlsr r).

Definition sdes_item_ok (i : sdes_item) : Prop :=
  in_uint 8 (sdes_type i) /\ sdes_type i <> END /\ bytes (sdes_value i) /\ in_uint 8 (zlen (sdes_value i)).

Definition sdes_chunk_ok (c : sdes_chunk) : Prop := in_uint 32 (chunk_ssrc c) /\ Forall sdes_item_ok (chunk_items c).

Definition bye_ok (p : bye_packet) : Prop :=
  Forall (in_uint 32) (bye_ssrcs p) /\ bytes (bye_reason p) /\ in_uint 8 (zlen (bye_reason p)).

Definition info_ok (i : ssrc_info) : Prop := in_uint 32 (si_ssrc i) /\ in_uint 32 (si_lrr i) /\ in_uint 32 (si_dlrr i).

Definition block_ok (b : report_block) : Prop :=
  match b with
  | ReceiverReferenceTime ntpSec ntpFrac => in_uint 32 ntpSec /\ in_uint 32 ntpFrac
  | DelaySinceLastRr infos => Forall info_ok infos
  end.

Definition option_ok {A} (P : A -> Prop) (o : option A) : Prop := match o with Some a => P a | None => True end.

(** * Sizes *)

Lemma round4_spec n : round4 n = (n + 3) / 4 * 4.
Proof.
  unfold round4. change (Z.lnot 3) with (Z.lnot (Z.ones 2)).
  by rewrite <- Z.ldiff_land, Z.ldiff_ones_r, Z.shiftr_div_pow2, Z.shiftl_mul_pow2 by lia.
Qed.

Lemma round4_ge n : n <= round4 n.
Proof. rewrite round4_spec. pose proof (Z.div_mod (n + 3) 4). pose proof (Z.mod_pos_bound (n + 3) 4). lia. Qed.

Lemma round4_divides n : (4 | round4 n).
Proof. rewrite round4_spec. by exists ((n + 3) / 4). Qed.

(** The padding of an offset makes it a multiple of 4. *)
Lemma round4_padding n : n + Z.land (- n) 3 = round4 n.
Proof.
  rewrite round4_spec. change 3 with (2 ^ 2 - 1) at 1. rewrite land_low_ones by lia. change (2 ^ 2) with 4.
  pose proof (Z.div_mod (n + 3) 4). pose proof (Z.mod_pos_bound (n + 3) 4).
  pose proof (Z.div_mod (- n) 4). pose proof (Z.mod_pos_bound (- n) 4). lia.
Qed.

(** * Parsing is safe *)

Section safe.
Context (m : list Z) (Hm : bytes m).

Lemma ParseSenderReport_safe off len : 0 <= off -> off + len <= zlen m ->
  returns (option_ok sr_ok) (ParseSenderReport m off len).
Proof.
  intros H0 Hl. unfold ParseSenderReport, SenderReportSize. destruct (Z.ltb_spec len 24); [by apply returns_Ok|].
  reads. by apply returns_Ok.
Qed.

Lemma receiver_report_reader : item_reader ParseReceiverReport (fun _ => ReceiverReportSize) rr_ok m.
Proof.
  intros off len H0 H1 Hl. unfold ParseReceiverReport, ReceiverReportSize, Get1Byte.
  destruct (Z.ltb_spec len 24); [by apply returns_Ok|]. reads. by apply returns_Ok.
Qed.

Lemma ParseSenderReportPacket_safe len : 4 <= len <= zlen m -> len < 2 ^ 64 ->
  returns (fun l => Forall sr_ok l /\ (length l <= 1)%nat) (ParseSenderReportPacket m len).
Proof.
  intros H Hs. unfold ParseSenderReportPacket, CommonHeaderSize. rewrite wrap_small by (unfold in_uint; lia).
  eapply returns_bind; [apply ParseSenderReport_safe; lia|]. intros [r|] Hr; apply returns_Ok; cbn; auto.
Qed.

Lemma ParseReceiverReportPacket_safe len off : 0 <= off -> len <= zlen m ->
  yields (fun '(ssrc, l) => in_uint 32 ssrc /\ Forall rr_ok l) (ParseReceiverReportPacket m len off).
Proof.
  intros H0 Hl. unfold ParseReceiverReportPacket, CommonHeaderSize. destruct (Z.ltb_spec len (4 + 4)); [done|].
  apply returns_yields. reads. cbv zeta. eapply returns_bind; [apply header_count_reads; [done|lia]|]. intros count Hc.
  eapply returns_bind; [apply (counted_items_safe _ _ _ m receiver_report_reader); [by case_match; lia|done]|]. intros l Hrs. by apply returns_Ok.
Qed.

Lemma sdes_item_reader : item_reader ParseSdesItem SdesItemSize sdes_item_ok m.
Proof.
  intros off len H0 H1 Hl. unfold ParseSdesItem. destruct (Z.ltb_spec len 2); [by apply returns_Ok|]. reads.
  destruct (Z.ltb_spec len (2 + v)); [by apply returns_Ok|]. reads.
  destruct (Z.eqb_spec v0 END) as [|Hend]; [by apply returns_Ok|]. unfold in_uint in *.
  apply read_slice; [lia|done|lia|lia|]. intros s Hs Hb. apply returns_Ok. unfold sdes_item_ok, SdesItemSize. cbn. rewrite Hs. split; [done|lia].
Qed.

Lemma SdesItemSize_pos i : 2 <= SdesItemSize i.
Proof. unfold SdesItemSize. pose proof (zlen_nonneg (sdes_value i)). lia. Qed.

Lemma SdesChunkSize_pos c : 4 <= SdesChunkSize c.
Proof.
  unfold SdesChunkSize. etrans; [|apply round4_ge].
  assert (0 <= foldr (fun i n => SdesItemSize i + n) 0 (chunk_items c)); [|lia].
  induction (chunk_items c) as [|i l IH]; [done|]. cbn. pose proof (SdesItemSize_pos i). lia.
Qed.

Lemma sdes_chunk_reader : item_reader ParseSdesChunk SdesChunkSize sdes_chunk_ok m.
Proof.
  intros off len H0 H1 Hl. unfold ParseSdesChunk. destruct (Z.ltb_spec len 4); [by apply returns_Ok|]. reads.
  eapply returns_bind; [apply (parse_items_safe _ _ _ m sdes_item_reader); lia|]. intros l Hit. apply returns_Ok.
  split; [done|]. pose proof (SdesChunkSize_pos (SdesChunk v l)). lia.
Qed.

Lemma ParseSdesPacket_safe len : 4 <= len <= zlen m -> returns (Forall sdes_chunk_ok) (ParseSdesPacket m len).
Proof.
  intros H. unfold ParseSdesPacket. eapply returns_bind; [apply header_count_reads; [done|lia]|]. intros count Hc.
  apply (counted_items_safe _ _ _ m sdes_chunk_reader); [done|lia].
Qed.

Lemma bye_loop_safe count : forall off len, 0 <= off -> len <= zlen m ->
  yields (fun '(ssrcs, off') => Forall (in_uint 32) ssrcs /\ off <= off') (bye_loop count m len off).
Proof.
  induction count as [|count IH]; intros off len H0 Hl; cbn [bye_loop]; [done|].
  destruct (Z.ltb_spec off len); [|done]. destruct (Z.ltb_spec (len - off) 4); [done|].
  destruct (Get4Bytes_in_bounds m off) as (v & -> & Hv); [lia..|]. ostep.
  eapply yields_bind; [apply IH; lia|]. intros [ssrcs off'] [Hs Ho]. cbn. split; [by constructor|lia].
Qed.

Lemma ParseByePacket_safe len : 4 <= len <= zlen m -> yields bye_ok (ParseByePacket m len).
Proof.
  intros H. unfold ParseByePacket. destruct (header_count_reads m Hm) as (count & -> & Hc); [lia|]. ostep.
  eapply yields_bind; [apply bye_loop_safe; [done|lia]|]. intros [ssrcs off] [Hs Ho]. unfold CommonHeaderSize in Ho.
  assert (bye_ok (ByePacket ssrcs [])) as Hnone by (split; [done|split; [constructor|done]]).
  destruct (Z.ltb_spec off len); [|done]. apply returns_yields. unfold Get1Byte. reads. cbv zeta.
  destruct (Z.leb_spec v (len - (off + 1))); [|by apply returns_Ok]. unfold in_uint in *.
  apply read_slice; [lia|done|lia|lia|]. intros s Hl Hb. apply returns_Ok. split; [done|]. split; [done|]. cbn. by rewrite Hl.
Qed.

Lemma ParseSsrcInfo_safe off len : 0 <= off -> off + len <= zlen m ->
  returns (option_ok info_ok) (ParseSsrcInfo m off len).
Proof.
  intros H0 Hl. unfold ParseSsrcInfo, SsrcInfoSize. destruct (Z.ltb_spec len 12); [by apply returns_Ok|].
  reads. by apply returns_Ok.
Qed.

Lemma ssrc_infos_loop_safe off len : 0 <= off -> off + len <= zlen m -> forall fuel offset rl, 0 <= offset ->
  (Z.to_nat (len - offset) <= fuel)%nat -> returns (Forall info_ok) (ssrc_infos_loop fuel m off len offset rl).
Proof.
  intros H0 Hl. induction fuel as [|fuel IH]; intros offset rl Ho Hf; cbn [ssrc_infos_loop];
    destruct (Z.ltb_spec offset len); cbn [andb]; try (by apply returns_Ok).
  - lia.
  - destruct (SsrcInfoSize <=? rl); [|by apply returns_Ok].
    eapply returns_bind; [apply ParseSsrcInfo_safe; lia|]. intros [i|] Hi; [|by apply returns_Ok].
    unfold SsrcInfoSize. eapply returns_bind; [apply IH; lia|]. intros l Hit. apply returns_Ok. by constructor.
Qed.

Lemma ReportBlockSize_pos b : 4 <= ReportBlockSize b.
Proof.
  destruct b as [s f|l]; [done|]. cbn [ReportBlockSize]. unfold BlockHeaderSize.
  assert (0 <= foldr (fun (_ : ssrc_info) n => SsrcInfoSize + n) 0 l); [|lia].
  induction l as [|i l IH]; [done|]. cbn [foldr]. unfold SsrcInfoSize in *. lia.
Qed.

Lemma ParseReportBlock_safe off len : 0 <= off -> off + len <= zlen m ->
  returns (option_ok block_ok) (ParseReportBlock m off len).
Proof.
  intros H0 Hl. unfold ParseReportBlock, BlockHeaderSize. destruct (Z.ltb_spec len 4); [by apply returns_Ok|]. reads.
  destruct (v =? RRT).
  - unfold ParseReferenceTime, BlockHeaderSize, ReferenceTimeSize. destruct (Z.ltb_spec len (4 + 8)); [by apply returns_Ok|].
    reads. by apply returns_Ok.
  - destruct (v =? DLRR); [|by apply returns_Ok]. unfold ParseDelaySinceLastRr, BlockHeaderSize.
    eapply returns_bind; [|intros b Hb; apply returns_Ok; exact Hb]. reads.
    eapply returns_bind; [apply ssrc_infos_loop_safe; lia|]. intros l Hi. by apply returns_Ok.
Qed.

Lemma report_block_reader : item_reader ParseReportBlock ReportBlockSize block_ok m.
Proof.
  intros off len H0 H1 Hl. eapply returns_weaken; [|by apply ParseReportBlock_safe].
  intros [b|]; [|done]. pose proof (ReportBlockSize_pos b). split; [done|lia].
Qed.

Lemma ParseExtendedReportPacket_safe len : len <= zlen m ->
  yields (fun '(ssrc, l) => in_uint 32 ssrc /\ Forall block_ok l) (ParseExtendedReportPacket m len).
Proof.
  intros Hl. unfold ParseExtendedReportPacket, CommonHeaderSize. destruct (Z.ltb_spec len (4 + 4)); [done|].
  apply returns_yields. reads. eapply returns_bind; [apply (parse_items_safe _ _ _ m report_block_reader); lia|]. intros l Hb. by apply returns_Ok.
Qed.
End safe.

(** * The bytes *)

Definition sr_bytes (r : sender_report) : list Z :=
  concat [be_bytes 4 (sr_ssrc r); be_bytes 4 (sr_ntpSec r); be_bytes 4 (sr_ntpFrac r); be_bytes 4 (sr_rtpTs r);
          be_bytes 4 (sr_packetCount r); be_bytes 4 (sr_octetCount r)].

Definition rr_bytes (r : receiver_report) : list Z :=
  concat [be_bytes 4 (rr_ssrc r); [rr_fractionLost r]; be_bytes 3 (rr_totalLost r); be_bytes 4 (rr_lastSeq r);
          be_bytes 4 (rr_jitter r); be_bytes 4 (rr_lsr r); be_bytes 4 (rr_dlsr r)].

Definition sdes_item_bytes (i : sdes_item) : list Z :=
  concat [[sdes_type i]; [zlen (sdes_value i)]; sdes_value i].

Definition sdes_chunk_content (c : sdes_chunk) : list Z :=
  be_bytes 4 (chunk_ssrc c) ++ concat (sdes_item_bytes <$> chunk_items c).

Definition sdes_chunk_bytes (c : sdes_chunk) : list Z :=
  sdes_chunk_content c ++ padding (zlen (sdes_chunk_content c)).

Definition info_bytes (i : ssrc_info) : list Z :=
  concat [be_bytes 4 (si_ssrc i); be_bytes 4 (si_lrr i); be_bytes 4 (si_dlrr i)].

Definition block_header_bytes (type length : Z) : list Z := concat [[type]; [0]; be_bytes 2 length].

Definition block_bytes (b : report_block) : list Z :=
  match b with
  | ReceiverReferenceTime ntpSec ntpFrac => block_header_bytes RRT 2 ++ concat [be_bytes 4 ntpSec; be_bytes 4 ntpFrac]
  | DelaySinceLastRr infos =>
      block_header_bytes DLRR (u16 (SsrcInfoSize * zlen infos / 4)) ++ concat (info_bytes <$> infos)
  end.

(** * Writing *)

Lemma sr_emits r : emits (SerializeSenderReport r) (sr_bytes r).
Proof. unfold sr_bytes, SerializeSenderReport, SenderReportSize. cbn [concat]. writes. Qed.

Lemma rr_emits r : emits (SerializeReceiverReport r) (rr_bytes r).
Proof. unfold rr_bytes, SerializeReceiverReport, ReceiverReportSize, Set1Byte. cbn [concat]. writes. Qed.

Lemma info_emits i : emits (SerializeSsrcInfo i) (info_bytes i).
Proof. unfold info_bytes, SerializeSsrcInfo, SsrcInfoSize. cbn [concat]. writes. Qed.

Lemma block_header_emits type length : emits (SerializeBlockHeader type length) (block_header_bytes type length).
Proof. unfold block_header_bytes, SerializeBlockHeader, BlockHeaderSize. cbn [concat]. writes. Qed.

(** What is padded is a multiple of 4 bytes long. *)
Lemma zlen_padded bs : zlen (bs ++ padding (zlen bs)) = round4 (zlen bs).
Proof. rewrite zlen_app, zlen_padding. apply round4_padding. Qed.

Lemma emits_pad f bs : emits f bs ->
  emits (fun m start => '(m, off) ← f m start; pad_zeros start m off) (bs ++ padding (zlen bs)).
Proof.
  intros Hf m start H0 Hl. rewrite zlen_app in *. pose proof (zlen_nonneg (padding (zlen bs))).
  destruct (Hf m start) as (m1 & E1 & W1); [done|lia|]. rewrite E1. ostep.
  destruct (write_in_bounds m1 (start + zlen bs) (padding (zlen bs))) as (m2 & W2);
    [pose proof (zlen_nonneg bs); lia|rewrite (zlen_write _ _ _ _ W1); lia|].
  exists m2. unfold pad_zeros, memset. replace (start + zlen bs - start) with (zlen bs) by lia.
  fold (padding (zlen bs)). rewrite W2. ostep. split; [rewrite zlen_padding; do 2 f_equal; lia|].
  by eapply write_app.
Qed.

Lemma sdes_item_emits i : emits (SerializeSdesItem i) (sdes_item_bytes i).
Proof.
  unfold sdes_item_bytes, SerializeSdesItem, SdesItemSize. cbn [concat]. writes.
  apply emits_at_write; [intros; lia|]. apply emits_at_done. intros; lia.
Qed.

Lemma sdes_chunk_emits c : emits (SerializeSdesChunk c) (sdes_chunk_bytes c).
Proof.
  apply (emits_ext _ (fun m start => '(m, off) ← (m ← Set4Bytes m start (chunk_ssrc c);
    serialize_each SerializeSdesItem (chunk_items c) m (start + 4)); pad_zeros start m off)).
  { intros m start. unfold SerializeSdesChunk. by destruct (Set4Bytes m start _). }
  apply emits_pad. unfold sdes_chunk_content. writes. apply emits_at_tail; [intros; lia|].
  apply (serialize_each_emits _ _ (fun _ => True)); [intros; apply sdes_item_emits|by apply Forall_true].
Qed.

Lemma block_emits b : emits (SerializeReportBlock b) (block_bytes b).
Proof.
  destruct b as [s f|infos]; cbn [SerializeReportBlock block_bytes].
  - apply emits_app; [apply block_header_emits|]. unfold ReferenceTimeSize. cbn [concat]. writes.
  - apply emits_app; [apply block_header_emits|].
    apply (serialize_each_emits _ _ (fun _ => True)); [intros; apply info_emits|by apply Forall_true].
Qed.

(** * Reading *)

Section read.
Context (m : list Z) (Hm : bytes m).

Lemma sr_reads off len r : sr_ok r -> at_ m off (sr_bytes r) -> SenderReportSize <= len ->
  ParseSenderReport m off len = Ok (Some r).
Proof.
  intros (H1 & H2 & H3 & H4 & H5 & H6) H Hl. unfold ParseSenderReport. rewrite (proj2 (Z.ltb_ge _ _)) by done.
  unfold sr_bytes in H. cbn [concat] in H. at_fields H. by destruct r.
Qed.

Lemma rr_reads off len r : rr_ok r -> 0 <= off -> at_ m off (rr_bytes r) -> ReceiverReportSize <= len ->
  ParseReceiverReport m off len = Ok (Some r).
Proof.
  intros (H1 & H2 & H3 & H4 & H5 & H6 & H7) _ H Hl. unfold ParseReceiverReport, Get1Byte. rewrite (proj2 (Z.ltb_ge _ _)) by done.
  unfold rr_bytes in H. cbn [concat app] in H. at_fields H. by destruct r.
Qed.

Lemma info_reads off len i : info_ok i -> at_ m off (info_bytes i) -> SsrcInfoSize <= len ->
  ParseSsrcInfo m off len = Ok (Some i).
Proof.
  intros (H1 & H2 & H3) H Hl. unfold ParseSsrcInfo. rewrite (proj2 (Z.ltb_ge _ _)) by done.
  unfold info_bytes in H. cbn [concat] in H. at_fields H. by destruct i.
Qed.

Lemma sdes_item_reads off len i : sdes_item_ok i -> 0 <= off -> at_ m off (sdes_item_bytes i) -> SdesItemSize i <= len ->
  ParseSdesItem m off len = Ok (Some i).
Proof.
  intros (H1 & H2 & H3 & H4) H0 H Hl. unfold ParseSdesItem, SdesItemSize in *. pose proof (zlen_nonneg (sdes_value i)).
  rewrite (proj2 (Z.ltb_ge _ _)) by lia. unfold sdes_item_bytes in H. cbn [concat app] in H. rewrite app_nil_r in H.
  apply at_one in H as [Ht H]. apply at_one in H as [-> H]. norm_offsets H. ostep.
  rewrite (proj2 (Z.ltb_ge _ _)) by lia. rewrite Ht. ostep. rewrite (proj2 (Z.eqb_neq _ _)) by done.
  change (1 + 1) with 2 in H. rewrite H. ostep. by destruct i.
Qed.

(** ** Chunks of SDES *)

(** There is padding after the items of the chunk, and so an item of type END. *)
Definition terminated (c : sdes_chunk) : Prop := Z.land (- zlen (sdes_chunk_content c)) 3 <> 0.

(** Every chunk but the last has its end marked. *)
Fixpoint chunks_readable (l : list sdes_chunk) : Prop :=
  match l with
  | [] | [_] => True
  | c :: l => terminated c /\ chunks_readable l
  end.

Lemma zlen_sdes_item i : zlen (sdes_item_bytes i) = SdesItemSize i.
Proof. unfold sdes_item_bytes, SdesItemSize. cbn [concat]. rewrite app_nil_r, !zlen_app, !zlen_one. lia. Qed.

Lemma zlen_sdes_content c : Forall sdes_item_ok (chunk_items c) ->
  zlen (sdes_chunk_content c) = 4 + foldr (fun i n => SdesItemSize i + n) 0 (chunk_items c).
Proof.
  intros H. unfold sdes_chunk_content. rewrite zlen_app, zlen_be_bytes.
  by rewrite (zlen_written SdesItemSize sdes_item_bytes sdes_item_ok) by (auto using zlen_sdes_item).
Qed.

Lemma zlen_sdes_chunk c : sdes_chunk_ok c -> zlen (sdes_chunk_bytes c) = SdesChunkSize c.
Proof.
  intros [_ H]. unfold sdes_chunk_bytes, SdesChunkSize. by rewrite zlen_padded, zlen_sdes_content.
Qed.

(** Where the padding starts there is no item. *)
Lemma padding_no_item off n len : 0 <= off -> 0 < n -> at_ m off (replicate (Z.to_nat n) 0) -> off + len <= zlen m ->
  ParseSdesItem m off len = Ok None.
Proof.
  intros H0 Hn Hat Hl. unfold ParseSdesItem. destruct (Z.ltb_spec len 2); [done|].
  destruct (get1_in_bounds m (off + 1)) as [b ->]; [lia|]. ostep. destruct (len <? 2 + b); [done|].
  destruct (Z.to_nat n) as [|k] eqn:E; [lia|]. cbn [replicate] in Hat. apply at_one in Hat as [-> _]. by ostep.
Qed.

Lemma sdes_chunk_reads off len c : sdes_chunk_ok c -> 0 <= off -> at_ m off (sdes_chunk_bytes c) ->
  SdesChunkSize c <= len -> off + len <= zlen m -> terminated c \/ len = SdesChunkSize c ->
  ParseSdesChunk m off len = Ok (Some c).
Proof.
  intros Hc H0 Hat Hl Hlm Hend. pose proof Hc as [Hs Hi]. pose proof (SdesChunkSize_pos c).
  pose proof (zlen_sdes_chunk c Hc) as Hsize. unfold sdes_chunk_bytes in Hat, Hsize. rewrite zlen_app, zlen_padding in Hsize.
  unfold ParseSdesChunk. rewrite (proj2 (Z.ltb_ge _ _)) by lia. apply at_app in Hat as [Hat Hpad].
  unfold sdes_chunk_content in Hat at 1. apply at_next4 in Hat as [-> Hat]; [|done|done]. ostep.
  set (n := zlen (sdes_chunk_content c)) in *.
  assert (off + 4 + zlen (concat (sdes_item_bytes <$> chunk_items c)) = off + n) as En.
  { subst n. unfold sdes_chunk_content. rewrite zlen_app, zlen_be_bytes. lia. }
  rewrite (parse_items_written _ _ sdes_item_bytes sdes_item_ok m) with (l := chunk_items c); [by destruct c| | | |done|lia|done|lia|].
  - auto using zlen_sdes_item.
  - intros i _. pose proof (SdesItemSize_pos i). lia.
  - intros o l i Hi'. by apply sdes_item_reads.
  - cbv zeta. rewrite En. assert (0 <= Z.land (- n) 3) by (change 3 with (2 ^ 2 - 1); rewrite land_low_ones by lia; by apply Z.mod_pos_bound).
    pose proof (zlen_nonneg (sdes_chunk_content c)).
    destruct (Z.eq_dec (Z.land (- n) 3) 0) as [E|E].
    + left. destruct Hend as [Hend|]; [done|lia].
    + right. split; [lia|]. apply (padding_no_item _ (Z.land (- n) 3)); [lia|lia|done|lia].
Qed.

Lemma sdes_chunks_read l : Forall sdes_chunk_ok l -> chunks_readable l -> forall off, 0 <= off ->
  at_ m off (concat (sdes_chunk_bytes <$> l)) ->
  counted_items ParseSdesChunk SdesChunkSize (length l) m (off + zlen (concat (sdes_chunk_bytes <$> l))) off = Ok l.
Proof.
  induction 1 as [|c l Hc Hl IH]; intros Hread off H0 Hat; [done|].
  pose proof Hat as Hm'%at_bounds. cbn [fmap list_fmap concat length counted_items] in *.
  apply at_app in Hat as [Hat Hrest]. rewrite zlen_app, zlen_sdes_chunk in * by done.
  pose proof (SdesChunkSize_pos c). pose proof (zlen_nonneg (concat (sdes_chunk_bytes <$> l))).
  rewrite (proj2 (Z.ltb_lt _ _)) by lia. rewrite (sdes_chunk_reads off _ c); [|done|done|done|lia|lia|].
  2: { destruct l; [right; change (zlen (concat (sdes_chunk_bytes <$> []))) with 0; lia|left; apply Hread]. }
  ostep. rewrite Z.add_assoc. rewrite IH; [done|destruct l; [done|apply Hread]|lia|done].
Qed.

(** ** Blocks of extended reports *)

(** The blocks that are read back: of at most one receiver. *)
Definition block_readable (b : report_block) : Prop :=
  match b with ReceiverReferenceTime _ _ => True | DelaySinceLastRr infos => (length infos <= 1)%nat end.

Lemma zlen_info i : zlen (info_bytes i) = SsrcInfoSize.
Proof. unfold info_bytes. cbn [concat]. by rewrite !zlen_app, !zlen_be_bytes. Qed.

Lemma zlen_block b : zlen (block_bytes b) = ReportBlockSize b.
Proof.
  destruct b as [s f|infos]; cbn [block_bytes ReportBlockSize]; rewrite zlen_app.
  - unfold block_header_bytes. cbn [concat]. by rewrite !zlen_app, !zlen_be_bytes.
  - rewrite (zlen_written (fun _ => SsrcInfoSize) info_bytes (fun _ => True)) by (auto using zlen_info, Forall_true).
    unfold block_header_bytes. cbn [concat]. by rewrite !zlen_app, !zlen_be_bytes.
Qed.

Lemma block_reads off len b : block_ok b /\ block_readable b -> 0 <= off -> at_ m off (block_bytes b) ->
  ReportBlockSize b <= len -> ParseReportBlock m off len = Ok (Some b).
Proof.
  intros [Hb Hr] H0 H Hl. unfold ParseReportBlock. pose proof (ReportBlockSize_pos b).
  rewrite (proj2 (Z.ltb_ge _ _)) by (unfold BlockHeaderSize; lia).
  destruct b as [s f|infos]; cbn [block_bytes] in H; unfold block_header_bytes in H; cbn [concat app] in H.
  - apply at_one in H as [-> H]. ostep. rewrite Z.eqb_refl. unfold ParseReferenceTime.
    rewrite (proj2 (Z.ltb_ge _ _)) by exact Hl. apply at_one in H as [_ H]. norm_offsets H.
    rewrite <- !app_assoc in H. cbn [app] in H. apply at_next2 in H as [_ H]; [|done|done]. norm_offsets H.
    destruct Hb as [Hs Hf]. at_fields H. done.
  - apply at_one in H as [-> H]. ostep. change (DLRR =? RRT) with false. change (DLRR =? DLRR) with true. cbn iota.
    apply at_one in H as [_ H]. norm_offsets H. rewrite <- !app_assoc in H. cbn [app] in H.
    apply at_next2 in H as [E H]; [|done|by apply wrap_range]. norm_offsets H.
    unfold ParseDelaySinceLastRr. rewrite E. ostep. clear E. cbn [block_ok block_readable ReportBlockSize] in *.
    destruct infos as [|i [|? ?]]; cbn [length] in Hr; [..|lia].
    + change (u16 (u16 (SsrcInfoSize * zlen []) * 4)) with 0. destruct (Z.to_nat len); cbn [ssrc_infos_loop];
        by rewrite andb_false_r.
    + change (u16 (u16 (SsrcInfoSize * zlen [i] / 4) * 4)) with 12. apply Forall_cons in Hb as [Hi _].
      cbn [foldr fmap list_fmap concat] in *. rewrite app_nil_r in H. unfold BlockHeaderSize, SsrcInfoSize in *.
      destruct (Z.to_nat len) as [|fuel] eqn:Ef; [lia|]. cbn [ssrc_infos_loop].
      rewrite (proj2 (Z.ltb_lt _ _)) by lia. change (SsrcInfoSize <=? 12) with true. cbn [andb].
      rewrite (info_reads _ _ i) by (done || unfold SsrcInfoSize; lia). ostep.
      change (u16 (12 - SsrcInfoSize)) with 0. destruct fuel; cbn [ssrc_infos_loop]; by rewrite andb_false_r.
Qed.
End read.
