(* ===== verification/RtcpFeedback.v ===== *)
(** The feedback packets but NACK and transport-wide feedback: payload-specific
    (worker/src/RTC/RTCP/FeedbackPs*.cpp) and of the transport layer
    (FeedbackRtpTmmb.cpp, FeedbackRtpTllei.cpp, FeedbackRtpEcn.cpp,
    FeedbackRtpSrReq.cpp), and how a feedback packet is parsed by its message
    type (Feedback.cpp).

    An item holds the words of the [Header] it points to, read in network byte
    order; the bit fields are laid out as on a little-endian host. *)

From S2P Require Export RtcpNack RtcpTransport RtcpReports.

(** * Message types *)

Definition PLI : Z := 1.
Definition SLI : Z := 2.
Definition RPSI : Z := 3.
Definition FIR : Z := 4.
Definition TSTR : Z := 5.
Definition TSTN : Z := 6.
Definition VBCM : Z := 7.
Definition PSLEI : Z := 8.
Definition AFB : Z := 15.

Definition TMMBR : Z := 3.
Definition TMMBN : Z := 4.
Definition SR_REQ : Z := 5.
Definition TLLEI : Z := 7.
Definition ECN : Z := 8.

(** * Payload-specific packets of items *)

Section ps_items.
Context {A : Type} (ParseItem : list Z -> Z -> Z -> outcome (option A)) (IsCorrect : A -> bool).

(** [FeedbackPsItemsPacket] stops at an item that is not correct as well. *)
Definition ParseCorrect (m : list Z) (off len : Z) : outcome (option A) :=
  item ← ParseItem m off len;
  Ok (match item with
      | Some item => if IsCorrect item then Some item else None
      | None => None
      end).

Definition ParsePsItems (ItemSize : A -> Z) : list Z -> Z -> outcome (feedback_header * list A) :=
  ParseItems ParseCorrect ItemSize.
End ps_items.

(** [IsCorrect] of [FeedbackItem]: what no constructor changes. *)
Definition always_correct {A} (item : A) : bool := true.

(** ** FIR, TSTR and TSTN: an SSRC and a word that starts with a sequence number *)

Record ssrc_word : Type := SsrcWord { sw_ssrc : Z; sw_word : Z }.

Definition SsrcWordSize (item : ssrc_word) : Z := 8.

Definition ParseSsrcWord (m : list Z) (off len : Z) : outcome (option ssrc_word) :=
  if len <? 8 then Ok None
  else
    ssrc ← Get4Bytes m off;
    word ← Get4Bytes m (off + 4);
    Ok (Some (SsrcWord ssrc word)).

Definition SerializeSsrcWord (item : ssrc_word) (m : list Z) (off : Z) : outcome (list Z * Z) :=
  m ← Set4Bytes m off (sw_ssrc item);
  m ← Set4Bytes m (off + 4) (sw_word item);
  Ok (m, off + 8).

(** [sequenceNumber] is the first byte; [index] the upper 5 bits of the last. *)
Definition GetSequenceNumber (item : ssrc_word) : Z := Z.shiftr (sw_word item) 24.
Definition GetIndex (item : ssrc_word) : Z := Z.shiftr (Z.land (sw_word item) 255) 3.

Definition FirItem (ssrc sequenceNumber : Z) : ssrc_word := SsrcWord ssrc (Z.shiftl (u8 sequenceNumber) 24).

Definition TstItem (ssrc sequenceNumber index : Z) : ssrc_word :=
  SsrcWord ssrc (Z.lor (Z.shiftl (u8 sequenceNumber) 24) (Z.shiftl (Z.land index 31) 3)).

(** ** SLI *)

Record sli_item : Type := SliItem { sli_first : Z; sli_number : Z; sli_pictureId : Z }.

Definition SliItemSize (item : sli_item) : Z := 4.

Definition ParseSliItem (m : list Z) (off len : Z) : outcome (option sli_item) :=
  if len <? 4 then Ok None
  else
    compact ← Get4Bytes m off;
    Ok (Some (SliItem (u16 (Z.shiftr compact 19)) (Z.land (Z.shiftr compact 6) 8191) (Z.land compact 63))).

Definition SerializeSliItem (item : sli_item) (m : list Z) (off : Z) : outcome (list Z * Z) :=
  let compact := u32 (Z.lor (Z.lor (Z.shiftl (sli_first item) 19) (Z.shiftl (sli_number item) 6)) (sli_pictureId item)) in
  m ← Set4Bytes m off compact;
  Ok (m, off + 4).

(** ** RPSI *)

Record rpsi_item : Type := RpsiItem {
  rpsi_paddingBits : Z;
  rpsi_payload : Z;           (** the byte of [zero] and [payloadType] *)
  rpsi_bitString : list Z;
  rpsi_length : Z;
  rpsi_isCorrect : bool
}.

Definition maxBitStringSize : Z := 6.
Definition RpsiItemSize (item : rpsi_item) : Z := 8.

(** [payloadType] is the upper 7 bits. *)
Definition GetPayloadType (item : rpsi_item) : Z := Z.shiftr (rpsi_payload item) 1.

Definition ParseRpsiItem (m : list Z) (off len : Z) : outcome (option rpsi_item) :=
  if len <? 8 then Ok None
  else
    paddingBits ← get1 m off;
    payload ← get1 m (off + 1);
    bitString ← slice m (off + 2) maxBitStringSize;
    let paddingBytes := paddingBits / 8 in
    let isCorrect := (paddingBits `mod` 8 =? 0) && (paddingBytes <=? maxBitStringSize) in
    Ok (Some (RpsiItem paddingBits payload bitString (u64 (maxBitStringSize - paddingBytes)) isCorrect)).

Definition SerializeRpsiItem (item : rpsi_item) (m : list Z) (off : Z) : outcome (list Z * Z) :=
  m ← set1 m off (rpsi_paddingBits item);
  m ← set1 m (off + 1) (rpsi_payload item);
  m ← write m (off + 2) (rpsi_bitString item);
  Ok (m, off + 8).

(** [raw[sizeof(Header) + i - 1] = 0]. *)
Fixpoint rpsi_fill (n : nat) (raw : list Z) (i : Z) : outcome (list Z) :=
  match n with
  | O => Ok raw
  | S n => raw ← set1 raw (8 + i - 1) 0; rpsi_fill n raw (i + 1)
  end.

(** The constructor from a bit string.  [raw] is the memory allocated, of 8
    bytes; [payloadType] is not stored. *)
Definition NewRpsiItem (raw : list Z) (payloadType : Z) (bitString : list Z) (length : Z) : outcome (list Z) :=
  _ ← require AssertFailed (payloadType <=? 127);
  _ ← require AssertFailed (length <=? maxBitStringSize);
  let padding := Z.land (- length) 3 in
  raw ← set1 raw 0 (u8 (padding * 8));
  second ← get1 raw 1;
  raw ← set1 raw 1 (Z.land second 254);
  value ← slice bitString 0 length;
  raw ← write raw 2 value;
  rpsi_fill (Z.to_nat padding) raw 0.

(** ** VBCM: a pointer to the item, whose value has the length that it announces *)

Record vbcm_item : Type := VbcmItem { vbcm_memory : list Z; vbcm_header : Z }.

Definition ParseVbcmItem (m : list Z) (off len : Z) : outcome (option vbcm_item) :=
  if len <? 8 then Ok None else Ok (Some (VbcmItem m off)).

Definition VbcmLength (item : vbcm_item) : outcome Z := Get2Bytes (vbcm_memory item) (vbcm_header item + 6).

Definition VbcmItemSize (item : vbcm_item) : outcome Z := length ← VbcmLength item; Ok (round4 (8 + length)).

Definition SerializeVbcmItem (item : vbcm_item) (m : list Z) (start : Z) : outcome (list Z * Z) :=
  header ← slice (vbcm_memory item) (vbcm_header item) 8;
  m ← write m start header;
  length ← VbcmLength item;
  value ← slice (vbcm_memory item) (vbcm_header item + 8) length;
  m ← write m (start + 8) value;
  pad_zeros start m (start + 8 + length).

(** [FeedbackPsItemsPacket<FeedbackPsVbcmItem>::Parse]: the size of an item is read
    from the memory. *)
Fixpoint vbcm_loop (fuel : nat) (m : list Z) (len offset : Z) : outcome (list vbcm_item) :=
  if offset <? len then
    match fuel with
    | O => Err OutOfFuel
    | S fuel =>
        item ← ParseVbcmItem m offset (len - offset);
        match item with
        | None => Ok []
        | Some item =>
            size ← VbcmItemSize item;
            items ← vbcm_loop fuel m len (offset + size);
            Ok (item :: items)
        end
    end
  else Ok [].

Definition ParseVbcm (m : list Z) (len : Z) : outcome (feedback_header * list vbcm_item) :=
  if len <? CommonHeaderSize + FeedbackHeaderSize then Err Rejected
  else
    h ← ParseFeedbackHeader m;
    items ← vbcm_loop (Z.to_nat len) m len (CommonHeaderSize + FeedbackHeaderSize);
    Ok (h, items).

(** ** LEI *)

Definition LeiItemSize (ssrc : Z) : Z := 4.

Definition ParseLeiItem (m : list Z) (off len : Z) : outcome (option Z) :=
  if len <? 4 then Ok None else ssrc ← Get4Bytes m off; Ok (Some ssrc).

(** * Packets without items: PLI, SR_REQ *)

Definition ParseNoItems (m : list Z) (len : Z) : outcome feedback_header :=
  if len <? CommonHeaderSize + FeedbackHeaderSize then Err Rejected else ParseFeedbackHeader m.

Definition SerializeNoItems (h : feedback_header) (type : Z) : list Z -> Z -> outcome (list Z * Z) :=
  SerializeFeedback h type (CommonHeaderSize + FeedbackHeaderSize).

(** * Bitrates: a mantissa and an exponent *)

(** [while (mantissa > max) { mantissa >>= 1; ++exponent; }]. *)
Fixpoint bitrate_loop (fuel : nat) (max mantissa exponent : Z) : outcome (Z * Z) :=
  if max <? mantissa then
    match fuel with
    | O => Err OutOfFuel
    | S fuel => bitrate_loop fuel max (Z.shiftr mantissa 1) (u8 (exponent + 1))
    end
  else Ok (mantissa, exponent).

Definition bitrate_of (mantissa exponent : Z) : Z := u64 (Z.shiftl mantissa exponent).

(** Whether the bitrate can be shifted back. *)
Definition bitrate_valid (mantissa exponent : Z) : bool :=
  Z.shiftr (bitrate_of mantissa exponent) exponent =? mantissa.

(** ** REMB and the other application layer packets *)

Definition uniqueIdentifier : Z := 1380273474.

Record remb_packet : Type := RembPacket {
  remb_header : feedback_header;
  remb_bitrate : Z;
  remb_ssrcs : list Z
}.

Fixpoint remb_ssrcs_loop (n : nat) (m : list Z) (index : Z) : outcome (list Z) :=
  match n with
  | O => Ok []
  | S n => ssrc ← Get4Bytes m index; ssrcs ← remb_ssrcs_loop n m (index + 4); Ok (ssrc :: ssrcs)
  end.

(** [FeedbackPsRembPacket::Parse] and the constructor. *)
Definition ParseRemb (m : list Z) (availableLen : Z) : outcome remb_packet :=
  if availableLen <? CommonHeaderSize + FeedbackHeaderSize + 8 then Err Rejected
  else
    h ← ParseFeedbackHeader m;
    len ← packet_length m;
    if availableLen <? len then Err Rejected
    else
      let data := CommonHeaderSize + FeedbackHeaderSize in
      numSsrcs ← get1 m (data + 4);
      if negb (len =? CommonHeaderSize + FeedbackHeaderSize + 8 + numSsrcs * 4) then Err Rejected
      else
        identifier ← Get4Bytes m data;
        if negb (identifier =? uniqueIdentifier) then Err Rejected
        else
          five ← get1 m (data + 5);
          low ← Get2Bytes m (data + 6);
          let exponent := Z.shiftr five 2 in
          let mantissa := Z.lor (Z.shiftl (Z.land five 3) 16) low in
          if negb (bitrate_valid mantissa exponent) then Err Rejected
          else
            ssrcs ← remb_ssrcs_loop (Z.to_nat numSsrcs) m (data + 8);
            Ok (RembPacket h (bitrate_of mantissa exponent) ssrcs).

Definition RembSize (p : remb_packet) : Z := CommonHeaderSize + FeedbackHeaderSize + 8 + 4 * zlen (remb_ssrcs p).

Definition SerializeRemb (p : remb_packet) (m : list Z) (off : Z) : outcome (list Z * Z) :=
  '(m, off) ← SerializeFeedback (remb_header p) PSFB (RembSize p) m off;
  '(mantissa, exponent) ← bitrate_loop 64 262143 (remb_bitrate p) 0;
  m ← Set4Bytes m off uniqueIdentifier;
  m ← set1 m (off + 4) (u8 (zlen (remb_ssrcs p)));
  m ← set1 m (off + 5) (u8 (Z.lor (Z.shiftl exponent 2) (Z.shiftr mantissa 16)));
  m ← Set2Bytes m (off + 6) (Z.land mantissa 65535);
  serialize_each SerializeSsrc (remb_ssrcs p) m (off + 8).

Inductive afb_packet : Type :=
| Remb (p : remb_packet)
| Afb (h : feedback_header) (data : list Z).

(** [size] is the announced length without the headers. *)
Definition ParseAfb (m : list Z) (len : Z) : outcome afb_packet :=
  if len <? CommonHeaderSize + FeedbackHeaderSize then Err Rejected
  else
    let Offset := CommonHeaderSize + FeedbackHeaderSize in
    remb ←
      (if Offset + 4 <=? len then
         identifier ← Get4Bytes m Offset;
         Ok (identifier =? uniqueIdentifier)
       else Ok false);
    if remb : bool then p ← ParseRemb m len; Ok (Remb p)
    else
      h ← ParseFeedbackHeader m;
      length ← packet_length m;
      data ← slice m Offset (u64 (length - Offset));
      Ok (Afb h data).

Definition AfbSize (p : afb_packet) : Z :=
  match p with
  | Remb p => RembSize p
  | Afb _ data => CommonHeaderSize + FeedbackHeaderSize + zlen data
  end.

Definition SerializeAfb (p : afb_packet) (m : list Z) (off : Z) : outcome (list Z * Z) :=
  match p with
  | Remb p => SerializeRemb p m off
  | Afb h data =>
      '(m, off) ← SerializeFeedback h PSFB (AfbSize p) m off;
      m ← write m off data;
      Ok (m, off + zlen data)
  end.

(** ** TMMBR and TMMBN *)

Record tmmb_item : Type := TmmbItem {
  tmmb_ssrc : Z;
  tmmb_bitrate : Z;
  tmmb_overhead : Z;
  tmmb_isCorrect : bool
}.

Definition TmmbItemSize (item : tmmb_item) : Z := 8.

Definition ParseTmmbItem (m : list Z) (off len : Z) : outcome (option tmmb_item) :=
  if len <? 8 then Ok None
  else
    ssrc ← Get4Bytes m off;
    compact ← Get4Bytes m (off + 4);
    let exponent := u8 (Z.shiftr compact 26) in
    let mantissa := Z.land (Z.shiftr compact 9) 131071 in
    let overhead := Z.land compact 511 in
    Ok (Some (TmmbItem ssrc (bitrate_of mantissa exponent) overhead (bitrate_valid mantissa exponent))).

Definition SerializeTmmbItem (item : tmmb_item) (m : list Z) (off : Z) : outcome (list Z * Z) :=
  '(mantissa, exponent) ← bitrate_loop 64 131071 (tmmb_bitrate item) 0;
  m ← Set4Bytes m off (tmmb_ssrc item);
  let compact := u32 (Z.lor (Z.lor (Z.shiftl exponent 26) (Z.shiftl mantissa 9)) (tmmb_overhead item)) in
  m ← Set4Bytes m (off + 4) compact;
  Ok (m, off + 8).

(** ** ECN *)

Record ecn_item : Type := EcnItem {
  ecn_sequenceNumber : Z;
  ecn_ect0Counter : Z;
  ecn_ect1Counter : Z;
  ecn_ecnCeCounter : Z;
  ecn_notEctCounter : Z;
  ecn_lostPackets : Z;
  ecn_duplicatedPackets : Z
}.

Definition EcnItemSize (item : ecn_item) : Z := 20.

Definition ParseEcnItem (m : list Z) (off len : Z) : outcome (option ecn_item) :=
  if len <? 20 then Ok None
  else
    sequenceNumber ← Get4Bytes m off;
    ect0Counter ← Get4Bytes m (off + 4);
    ect1Counter ← Get4Bytes m (off + 8);
    ecnCeCounter ← Get2Bytes m (off + 12);
    notEctCounter ← Get2Bytes m (off + 14);
    lostPackets ← Get2Bytes m (off + 16);
    duplicatedPackets ← Get2Bytes m (off + 18);
    Ok (Some (EcnItem sequenceNumber ect0Counter ect1Counter ecnCeCounter notEctCounter lostPackets duplicatedPackets)).

Definition SerializeEcnItem (item : ecn_item) (m : list Z) (off : Z) : outcome (list Z * Z) :=
  m ← Set4Bytes m off (ecn_sequenceNumber item);
  m ← Set4Bytes m (off + 4) (ecn_ect0Counter item);
  m ← Set4Bytes m (off + 8) (ecn_ect1Counter item);
  m ← Set2Bytes m (off + 12) (ecn_ecnCeCounter item);
  m ← Set2Bytes m (off + 14) (ecn_notEctCounter item);
  m ← Set2Bytes m (off + 16) (ecn_lostPackets item);
  m ← Set2Bytes m (off + 18) (ecn_duplicatedPackets item);
  Ok (m, off + 20).

(** * Parsing by the message type *)

Inductive psfb_packet : Type :=
| FeedbackPsPli (h : feedback_header)
| FeedbackPsSli (h : feedback_header) (items : list sli_item)
| FeedbackPsRpsi (h : feedback_header) (items : list rpsi_item)
| FeedbackPsFir (h : feedback_header) (items : list ssrc_word)
| FeedbackPsTst (h : feedback_header) (items : list ssrc_word)   (** TSTR and TSTN *)
| FeedbackPsVbcm (h : feedback_header) (items : list vbcm_item)
| FeedbackPsLei (h : feedback_header) (items : list Z)
| FeedbackPsAfb (p : afb_packet).

Inductive rtpfb_packet : Type :=
| FeedbackRtpNack (h : feedback_header) (items : list (Z * Z))
| FeedbackRtpTmmb (h : feedback_header) (items : list tmmb_item)   (** TMMBR and TMMBN *)
| FeedbackRtpSrReq (h : feedback_header)
| FeedbackRtpTllei (h : feedback_header) (items : list (Z * Z))
| FeedbackRtpEcn (h : feedback_header) (items : list ecn_item)
| FeedbackRtpTransport (p : transport_packet).

(** A packet of items, as a packet. *)
Definition of_items {A B} (packet : feedback_header -> list A -> B) (o : outcome (feedback_header * list A)) : outcome B :=
  '(h, items) ← o; Ok (packet h items).

(** [FeedbackPacket<FeedbackPs>::Parse]. *)
Definition ParseFeedbackPs (m : list Z) (len : Z) : outcome psfb_packet :=
  if len <? CommonHeaderSize + FeedbackHeaderSize then Err Rejected
  else
    count ← header_count m;
    if count =? PLI then h ← ParseNoItems m len; Ok (FeedbackPsPli h)
    else if count =? SLI then of_items FeedbackPsSli (ParsePsItems ParseSliItem always_correct SliItemSize m len)
    else if count =? RPSI then of_items FeedbackPsRpsi (ParsePsItems ParseRpsiItem rpsi_isCorrect RpsiItemSize m len)
    else if count =? FIR then of_items FeedbackPsFir (ParsePsItems ParseSsrcWord always_correct SsrcWordSize m len)
    else if (count =? TSTR) || (count =? TSTN) then
      of_items FeedbackPsTst (ParsePsItems ParseSsrcWord always_correct SsrcWordSize m len)
    else if count =? VBCM then of_items FeedbackPsVbcm (ParseVbcm m len)
    else if count =? PSLEI then of_items FeedbackPsLei (ParsePsItems ParseLeiItem always_correct LeiItemSize m len)
    else if count =? AFB then p ← ParseAfb m len; Ok (FeedbackPsAfb p)
    else Err Rejected.

(** [FeedbackPacket<FeedbackRtp>::Parse].  TLLEI items are those of NACK packets. *)
Definition ParseFeedbackRtp (m : list Z) (len : Z) : outcome rtpfb_packet :=
  if len <? CommonHeaderSize + FeedbackHeaderSize then Err Rejected
  else
    count ← header_count m;
    if count =? NACK then of_items FeedbackRtpNack (ParseNack m len)
    else if (count =? TMMBR) || (count =? TMMBN) then of_items FeedbackRtpTmmb (ParseItems ParseTmmbItem TmmbItemSize m len)
    else if count =? SR_REQ then h ← ParseNoItems m len; Ok (FeedbackRtpSrReq h)
    else if count =? TLLEI then of_items FeedbackRtpTllei (ParseItems ParseNackItem NackItemSize m len)
    else if count =? ECN then of_items FeedbackRtpEcn (ParseItems ParseEcnItem EcnItemSize m len)
    else if count =? TCC then p ← ParseTransport m len; Ok (FeedbackRtpTransport p)
    else Err Rejected.
