(* ===== verification/RtcpFeedbackFacts.v ===== *)
(** Feedback packets: parsing them is safe.

    Feedback packets: what is written is read back. *)

From S2P Require Export RtcpFeedback RtcpReportsFacts RtcpTransportFacts.

(** * What parsed packets look like *)

Definition ssrc_word_ok (i : ssrc_word) : Prop := in_uint 32 (sw_ssrc i) /\ in_uint 32 (sw_word i).

Definition sli_ok (i : sli_item) : Prop :=
  in_uint 13 (sli_first i) /\ in_uint 13 (sli_number i) /\ in_uint 6 (sli_pictureId i).

Definition rpsi_ok (i : rpsi_item) : Prop :=
  in_uint 8 (rpsi_paddingBits i) /\ in_uint 8 (rpsi_payload i) /\ bytes (rpsi_bitString i) /\
  zlen (rpsi_bitString i) = maxBitStringSize /\
  rpsi_length i = u64 (maxBitStringSize - rpsi_paddingBits i / 8) /\
  rpsi_isCorrect i = (rpsi_paddingBits i `mod` 8 =? 0) && (rpsi_paddingBits i / 8 <=? maxBitStringSize).

(** The fixed part is in memory; nothing is said of the value. *)
Definition vbcm_ok (i : vbcm_item) : Prop := 0 <= vbcm_header i /\ vbcm_header i + 8 <= zlen (vbcm_memory i).

Definition tmmb_ok (i : tmmb_item) : Prop :=
  in_uint 32 (tmmb_ssrc i) /\ in_uint 9 (tmmb_overhead i) /\
  exists mantissa exponent, in_uint 17 mantissa /\ 0 <= exponent < 64 /\
    tmmb_bitrate i = bitrate_of mantissa exponent /\ tmmb_isCorrect i = bitrate_valid mantissa exponent.

Definition ecn_ok (i : ecn_item) : Prop :=
  in_uint 32 (ecn_sequenceNumber i) /\ in_uint 32 (ecn_ect0Counter i) /\ in_uint 32 (ecn_ect1Counter i) /\
  in_uint 16 (ecn_ecnCeCounter i) /\ in_uint 16 (ecn_notEctCounter i) /\ in_uint 16 (ecn_lostPackets i) /\
  in_uint 16 (ecn_duplicatedPackets i).

Definition remb_ok (p : remb_packet) : Prop :=
  header_ok (remb_header p) /\ Forall (in_uint 32) (remb_ssrcs p) /\ in_uint 8 (zlen (remb_ssrcs p)) /\
  exists mantissa exponent, in_uint 18 mantissa /\ 0 <= exponent < 64 /\ bitrate_valid mantissa exponent = true /\
    remb_bitrate p = bitrate_of mantissa exponent.

Definition afb_ok (p : afb_packet) : Prop :=
  match p with Remb p => remb_ok p | Afb h data => header_ok h /\ bytes data end.

Definition psfb_ok (p : psfb_packet) : Prop :=
  match p with
  | FeedbackPsPli h => header_ok h
  | FeedbackPsSli h items => header_ok h /\ Forall sli_ok items
  | FeedbackPsRpsi h items => header_ok h /\ Forall (fun i => rpsi_ok i /\ rpsi_isCorrect i = true) items
  | FeedbackPsFir h items | FeedbackPsTst h items => header_ok h /\ Forall ssrc_word_ok items
  | FeedbackPsVbcm h items => header_ok h /\ Forall vbcm_ok items
  | FeedbackPsLei h items => header_ok h /\ Forall (in_uint 32) items
  | FeedbackPsAfb p => afb_ok p
  end.

Definition rtpfb_ok (p : rtpfb_packet) : Prop :=
  match p with
  | FeedbackRtpNack h items | FeedbackRtpTllei h items => header_ok h /\ Forall item_ok items
  | FeedbackRtpTmmb h items => header_ok h /\ Forall tmmb_ok items
  | FeedbackRtpSrReq h => header_ok h
  | FeedbackRtpEcn h items => header_ok h /\ Forall ecn_ok items
  | FeedbackRtpTransport p => accepted p
  end.

(** * Items *)

Section readers.
Context (m : list Z) (Hm : bytes m).

Lemma reader_correct {A} (ParseItem : list Z -> Z -> Z -> outcome (option A)) IsCorrect ItemSize ok :
  item_reader ParseItem ItemSize ok m ->
  item_reader (ParseCorrect ParseItem IsCorrect) ItemSize (fun i => ok i /\ IsCorrect i = true) m.
Proof.
  intros Hread off len H0 H1 Hl. unfold ParseCorrect. eapply returns_bind; [by apply Hread|].
  intros [i|] Hi; apply returns_Ok; [|done]. destruct (IsCorrect i) eqn:E; [|done]. tauto.
Qed.

Lemma reader_always {A} (ParseItem : list Z -> Z -> Z -> outcome (option A)) ItemSize ok :
  item_reader ParseItem ItemSize ok m -> item_reader (ParseCorrect ParseItem always_correct) ItemSize ok m.
Proof.
  intros Hread off len H0 H1 Hl. unfold ParseCorrect. eapply returns_bind; [by apply Hread|].
  intros [i|] Hi; by apply returns_Ok.
Qed.

Lemma ssrc_word_reader : item_reader ParseSsrcWord SsrcWordSize ssrc_word_ok m.
Proof.
  intros off len H0 H1 Hl. unfold ParseSsrcWord. destruct (Z.ltb_spec len 8); [by apply returns_Ok|].
  reads. by apply returns_Ok.
Qed.

Lemma sli_reader : item_reader ParseSliItem SliItemSize sli_ok m.
Proof.
  intros off len H0 H1 Hl. unfold ParseSliItem. destruct (Z.ltb_spec len 4); [by apply returns_Ok|].
  reads. apply returns_Ok. split; [|done]. unfold sli_ok. cbn [sli_first sli_number sli_pictureId].
  change 8191 with (2 ^ 13 - 1). change 63 with (2 ^ 6 - 1). rewrite !land_low_ones by lia.
  split_and!; [|apply Z.mod_pos_bound; lia..]. unfold in_uint in *. rewrite Z.shiftr_div_pow2 by lia.
  assert (0 <= v / 2 ^ 19 < 2 ^ 13) as Hq by (split; [apply Z.div_pos; lia|apply Z.div_lt_upper_bound; lia]).
  rewrite wrap_small; [done|]. unfold in_uint. lia.
Qed.

Lemma rpsi_reader : item_reader ParseRpsiItem RpsiItemSize rpsi_ok m.
Proof.
  intros off len H0 H1 Hl. unfold ParseRpsiItem. destruct (Z.ltb_spec len 8); [by apply returns_Ok|].
  reads. apply read_slice; [lia|done|done|unfold maxBitStringSize; lia|]. intros s Hs Hb. by apply returns_Ok.
Qed.

Lemma lei_reader : item_reader ParseLeiItem LeiItemSize (in_uint 32) m.
Proof.
  intros off len H0 H1 Hl. unfold ParseLeiItem. destruct (Z.ltb_spec len 4); [by apply returns_Ok|].
  reads. by apply returns_Ok.
Qed.

Lemma nack_reader : item_reader ParseNackItem NackItemSize item_ok m.
Proof.
  intros off len H0 H1 Hl. unfold ParseNackItem. destruct (Z.ltb_spec len 4); [by apply returns_Ok|].
  reads. by apply returns_Ok.
Qed.

Lemma ecn_reader : item_reader ParseEcnItem EcnItemSize ecn_ok m.
Proof.
  intros off len H0 H1 Hl. unfold ParseEcnItem. destruct (Z.ltb_spec len 20); [by apply returns_Ok|].
  reads. by apply returns_Ok.
Qed.

Lemma tmmb_reader : item_reader ParseTmmbItem TmmbItemSize tmmb_ok m.
Proof.
  intros off len H0 H1 Hl. unfold ParseTmmbItem. destruct (Z.ltb_spec len 8); [by apply returns_Ok|].
  reads. apply returns_Ok. split; [|done]. unfold tmmb_ok. cbn [tmmb_ssrc tmmb_overhead tmmb_bitrate tmmb_isCorrect].
  split; [done|]. change 511 with (2 ^ 9 - 1). change 131071 with (2 ^ 17 - 1). rewrite !land_low_ones by lia.
  split; [apply Z.mod_pos_bound; lia|]. do 2 eexists. split_and!; [apply Z.mod_pos_bound; lia| | |reflexivity|reflexivity].
  - by apply wrap_range.
  - unfold in_uint in *. rewrite Z.shiftr_div_pow2 by lia.
    assert (0 <= v0 / 2 ^ 26 < 64) as Hq by (split; [apply Z.div_pos; lia|apply Z.div_lt_upper_bound; lia]).
    rewrite wrap_small; [lia|]. unfold in_uint. lia.
Qed.

(** VBCM: the sizes come from the memory. *)
Lemma vbcm_loop_safe len : len <= zlen m -> forall fuel off, 0 <= off -> (Z.to_nat (len - off) <= fuel)%nat ->
  returns (Forall vbcm_ok) (vbcm_loop fuel m len off).
Proof.
  intros Hl. induction fuel as [|fuel IH]; intros off H0 Hf; cbn [vbcm_loop];
    destruct (Z.ltb_spec off len); try (by apply returns_Ok); [lia|].
  unfold ParseVbcmItem. destruct (Z.ltb_spec (len - off) 8); [by apply returns_Ok|]. ostep.
  unfold VbcmItemSize, VbcmLength. cbn [vbcm_memory vbcm_header].
  destruct (Get2Bytes_in_bounds m (off + 6)) as (v & -> & Hv); [lia..|]. ostep.
  pose proof (round4_ge (8 + v)). unfold in_uint in Hv.
  eapply returns_bind; [apply IH; lia|]. intros l Hit. apply returns_Ok. constructor; [|done].
  split; cbn; lia.
Qed.

Lemma ParseNoItems_safe len : len <= zlen m -> yields header_ok (ParseNoItems m len).
Proof.
  intros Hl. unfold ParseNoItems, CommonHeaderSize, FeedbackHeaderSize. destruct (Z.ltb_spec len (4 + 8)); [done|].
  apply returns_yields, ParseFeedbackHeader_reads; [done|lia].
Qed.

Lemma ParseVbcm_safe len : len <= zlen m ->
  yields (fun '(h, items) => header_ok h /\ Forall vbcm_ok items) (ParseVbcm m len).
Proof.
  intros Hl. unfold ParseVbcm, CommonHeaderSize, FeedbackHeaderSize. destruct (Z.ltb_spec len (4 + 8)); [done|].
  apply returns_yields. eapply returns_bind; [apply ParseFeedbackHeader_reads; [done|lia]|]. intros h Hh.
  eapply returns_bind; [apply vbcm_loop_safe; lia|]. intros l Hit. by apply returns_Ok.
Qed.

Lemma remb_ssrcs_loop_safe n : forall off, 0 <= off -> off + 4 * Z.of_nat n <= zlen m ->
  returns (fun l => Forall (in_uint 32) l /\ length l = n) (remb_ssrcs_loop n m off).
Proof.
  induction n as [|n IH]; intros off H0 Hl; cbn [remb_ssrcs_loop]; [by apply returns_Ok|].
  reads. eapply returns_bind; [apply IH; lia|]. intros l [Hs Hn]. apply returns_Ok. split; [by constructor|cbn; lia].
Qed.

(** The mantissa of REMB: the low bits of one byte, and two more bytes. *)
Lemma remb_mantissa five low : in_uint 8 five -> in_uint 16 low ->
  Z.lor (Z.shiftl (Z.land five 3) 16) low = 65536 * (five `mod` 4) + low.
Proof.
  intros Hf Hlow. change 3 with (2 ^ 2 - 1). rewrite land_low_ones by lia. change (2 ^ 2) with 4.
  rewrite Z.lor_comm, (lor_shiftl_add 16) by (done || apply Z.mod_pos_bound; lia).
  change (2 ^ 16) with 65536. lia.
Qed.

Lemma ParseRemb_safe len : len <= zlen m -> yields remb_ok (ParseRemb m len).
Proof.
  intros Hl. unfold ParseRemb, CommonHeaderSize, FeedbackHeaderSize. destruct (Z.ltb_spec len (4 + 8 + 8)); [done|].
  destruct (ParseFeedbackHeader_reads m Hm) as (h & -> & Hh); [lia|]. ostep.
  unfold packet_length, header_length. destruct (Get2Bytes_in_bounds m 2) as (l & -> & Hlen); [lia..|]. ostep.
  destruct (Z.ltb_spec len ((l + 1) * 4)); [done|]. cbv zeta. change (4 + 8) with 12 in *.
  destruct (get1_in_bounds m (12 + 4)) as (n & En); [lia|]. rewrite En. ostep.
  pose proof (get1_byte _ _ _ Hm En) as Hn.
  destruct (Z.eqb_spec ((l + 1) * 4) (12 + 8 + n * 4)) as [El|]; [|done]. cbn [negb].
  destruct (Get4Bytes_in_bounds m 12) as (id & -> & _); [lia..|]. ostep.
  destruct (id =? uniqueIdentifier); [|done]. cbn [negb].
  destruct (get1_in_bounds m (12 + 5)) as (five & E5); [lia|]. rewrite E5. ostep. pose proof (get1_byte _ _ _ Hm E5) as H5.
  destruct (Get2Bytes_in_bounds m (12 + 6)) as (low & -> & Hlow); [lia..|]. ostep.
  destruct (bitrate_valid _ _) eqn:Ev; [|done]. cbn [negb]. apply returns_yields.
  unfold in_uint in Hn. eapply returns_bind; [apply remb_ssrcs_loop_safe; lia|]. intros ssrcs [Hs Hlen']. apply returns_Ok.
  rewrite remb_mantissa in * by done. unfold in_uint in *.
  split; [exact Hh|]. split; [exact Hs|]. split; [unfold zlen, in_uint; cbn; lia|].
  do 2 eexists. split_and!; [| | |exact Ev|reflexivity].
  - pose proof (Z.mod_pos_bound five 4). unfold in_uint. lia.
  - rewrite Z.shiftr_div_pow2 by lia. apply Z.div_pos; lia.
  - rewrite Z.shiftr_div_pow2 by lia. apply Z.div_lt_upper_bound; lia.
Qed.

Lemma ParseAfb_safe len : packet_length m = Ok len -> len <= zlen m -> yields afb_ok (ParseAfb m len).
Proof.
  intros Hlen Hl. assert (len < 2 ^ 64) as Hs.
  { unfold packet_length, header_length in Hlen. apply bind_Ok in Hlen as (v & Hv & [= <-]).
    rewrite Get2Bytes_spec in Hv by done. apply bind_Ok in Hv as (s & Es & [= <-]).
    pose proof (be_val_range s (bytes_slice _ _ _ _ Hm Es)) as Hr. rewrite (zlen_slice _ _ _ _ Es) in Hr.
    unfold in_uint in Hr. lia. }
  unfold ParseAfb, CommonHeaderSize, FeedbackHeaderSize. destruct (Z.ltb_spec len (4 + 8)); [done|]. cbv zeta.
  change (4 + 8) with 12 in *.
  assert (returns (fun _ : bool => True) (if 12 + 4 <=? len then identifier ← Get4Bytes m 12; Ok (identifier =? uniqueIdentifier)
    else Ok false)) as (remb & -> & _).
  { destruct (Z.leb_spec (12 + 4) len); [|by apply returns_Ok]. reads. by apply returns_Ok. }
  ostep. destruct remb.
  - eapply yields_bind; [by apply ParseRemb_safe|]. by intros p.
  - apply returns_yields. eapply returns_bind; [apply ParseFeedbackHeader_reads; [done|lia]|]. intros h Hh.
    rewrite Hlen. ostep. rewrite wrap_small by (unfold in_uint; lia).
    apply read_slice; [lia|done|lia|lia|]. intros s _ Hb. by apply returns_Ok.
Qed.

(** * By the message type *)

Lemma of_items_safe {A B} (packet : feedback_header -> list A -> B) (ok : A -> Prop) (P : B -> Prop) o :
  (forall h items, header_ok h -> Forall ok items -> P (packet h items)) ->
  yields (fun '(h, items) => header_ok h /\ Forall ok items) o -> yields P (of_items packet o).
Proof. intros H. destruct o as [[h items]|]; [|done]. intros [Hh Hi]. by apply H. Qed.

Lemma ParseFeedbackPs_safe len : packet_length m = Ok len -> len <= zlen m -> yields psfb_ok (ParseFeedbackPs m len).
Proof.
  intros Hlen Hl. unfold ParseFeedbackPs, CommonHeaderSize, FeedbackHeaderSize.
  destruct (Z.ltb_spec len (4 + 8)); [done|].
  destruct (header_count_reads m Hm) as (count & -> & _); [lia|]. ostep.
  assert (forall A (Parse : list Z -> Z -> Z -> outcome (option A)) Size (ok : A -> Prop) packet,
    (forall h items, header_ok h -> Forall ok items -> psfb_ok (packet h items)) -> item_reader Parse Size ok m ->
    yields psfb_ok (of_items packet (ParsePsItems Parse always_correct Size m len))) as Hitems.
  { intros A Parse Size ok packet Hp Hread. eapply of_items_safe; [exact Hp|].
    apply ParseItems_safe; [done|done|]. by apply reader_always. }
  destruct (count =? PLI); [eapply yields_bind; [by apply ParseNoItems_safe|by intros h]|].
  destruct (count =? SLI); [by eapply Hitems, sli_reader|].
  destruct (count =? RPSI).
  { eapply of_items_safe; [|apply ParseItems_safe; [done|done|apply reader_correct, rpsi_reader]]. done. }
  destruct (count =? FIR); [by eapply Hitems, ssrc_word_reader|].
  destruct (_ || _); [by eapply Hitems, ssrc_word_reader|].
  destruct (count =? VBCM); [eapply of_items_safe; [|by apply ParseVbcm_safe]; done|].
  destruct (count =? PSLEI); [by eapply Hitems, lei_reader|].
  destruct (count =? AFB); [|done]. eapply yields_bind; [by apply ParseAfb_safe|by intros p].
Qed.

Lemma ParseFeedbackRtp_safe len : packet_length m = Ok len -> len <= zlen m -> yields rtpfb_ok (ParseFeedbackRtp m len).
Proof.
  intros Hlen Hl. unfold ParseFeedbackRtp, CommonHeaderSize, FeedbackHeaderSize.
  destruct (Z.ltb_spec len (4 + 8)); [done|].
  destruct (header_count_reads m Hm) as (count & -> & _); [lia|]. ostep.
  assert (forall A (Parse : list Z -> Z -> Z -> outcome (option A)) Size (ok : A -> Prop) packet,
    (forall h items, header_ok h -> Forall ok items -> rtpfb_ok (packet h items)) -> item_reader Parse Size ok m ->
    yields rtpfb_ok (of_items packet (ParseItems Parse Size m len))) as Hitems.
  { intros A Parse Size ok packet Hp Hread. eapply of_items_safe; [exact Hp|]. by apply ParseItems_safe. }
  destruct (count =? NACK); [by eapply Hitems, nack_reader|].
  destruct (_ || _); [by eapply Hitems, tmmb_reader|].
  destruct (count =? SR_REQ); [eapply yields_bind; [by apply ParseNoItems_safe|by intros h]|].
  destruct (count =? TLLEI); [by eapply Hitems, nack_reader|].
  destruct (count =? ECN); [by eapply Hitems, ecn_reader|].
  destruct (count =? TCC); [|done]. eapply yields_bind; [|by intros p].
  exact (ParseTransport_safe m len Hm Hlen Hl).
Qed.
End readers.

From S2P Require Export RtcpReportsFacts.

(** * Bitrates *)

Lemma bitrate_of_exact mantissa exponent : 0 <= mantissa -> 0 <= exponent -> mantissa * 2 ^ exponent < 2 ^ 64 ->
  bitrate_of mantissa exponent = mantissa * 2 ^ exponent /\ bitrate_valid mantissa exponent = true.
Proof.
  intros Hm He Hb. pose proof (Z.pow_pos_nonneg 2 exponent).
  assert (bitrate_of mantissa exponent = mantissa * 2 ^ exponent) as E.
  { unfold bitrate_of. rewrite Z.shiftl_mul_pow2 by done. apply wrap_small. unfold in_uint. nia. }
  split; [done|]. unfold bitrate_valid. rewrite E, Z.shiftr_div_pow2, Z.div_mul by lia. apply Z.eqb_refl.
Qed.

(** A bitrate that can be shifted back has lost no bits. *)
Lemma bitrate_valid_exact mantissa exponent : 0 <= mantissa -> 0 <= exponent < 64 ->
  bitrate_valid mantissa exponent = true -> bitrate_of mantissa exponent = mantissa * 2 ^ exponent /\
    mantissa * 2 ^ exponent < 2 ^ 64.
Proof.
  intros Hm He. unfold bitrate_valid. rewrite Z.eqb_eq, Z.shiftr_div_pow2 by lia. intros E.
  pose proof (Z.pow_pos_nonneg 2 exponent). assert (0 <= bitrate_of mantissa exponent < 2 ^ 64) as Hr by by apply wrap_range.
  assert (mantissa * 2 ^ exponent < 2 ^ 64) as Hlt.
  { rewrite <- E. pose proof (Z.div_mod (bitrate_of mantissa exponent) (2 ^ exponent)).
    pose proof (Z.mod_pos_bound (bitrate_of mantissa exponent) (2 ^ exponent)). nia. }
  split; [|done]. apply bitrate_of_exact; lia.
Qed.

Section loop.
Context (k : Z) (Hk : 0 < k).

Lemma bitrate_loop_spec fuel : forall mantissa exponent, 0 <= mantissa < 2 ^ (k + Z.of_nat fuel) ->
  0 <= exponent -> exponent + Z.of_nat fuel < 256 ->
  exists n, 0 <= n <= Z.of_nat fuel /\
    bitrate_loop fuel (2 ^ k - 1) mantissa exponent = Ok (mantissa / 2 ^ n, exponent + n) /\
    mantissa / 2 ^ n < 2 ^ k /\ (n = 0 \/ 2 ^ (k - 1) <= mantissa / 2 ^ n).
Proof.
  assert (2 ^ k = 2 * 2 ^ (k - 1)) as Hpow by (rewrite <- Z.pow_succ_r by lia; f_equal; lia).
  induction fuel as [|fuel IH]; intros mantissa exponent Hm He Hf; cbn [bitrate_loop];
    destruct (Z.ltb_spec (2 ^ k - 1) mantissa) as [Hgt|Hle].
  - rewrite Z.add_0_r in Hm. lia.
  - exists 0. rewrite Z.div_1_r, Z.add_0_r. split_and!; (done || lia || auto).
  - rewrite Z.shiftr_div_pow2, (wrap_small 8 (exponent + 1)) by (unfold in_uint; lia). change (2 ^ 1) with 2.
    assert (2 ^ (k + Z.of_nat (S fuel)) = 2 * 2 ^ (k + Z.of_nat fuel)) as Hpow'
      by (rewrite <- Z.pow_succ_r by lia; f_equal; lia).
    destruct (IH (mantissa / 2) (exponent + 1)) as (n & Hn & E & Hlt & Hge).
    { split; [apply Z.div_pos; lia|apply Z.div_lt_upper_bound; lia]. }
    { lia. } { lia. }
    assert (mantissa / 2 / 2 ^ n = mantissa / 2 ^ (n + 1)) as Hdiv.
    { rewrite Z.div_div by (lia || apply Z.pow_pos_nonneg; lia). by rewrite <- Z.pow_succ_r by lia. }
    rewrite Hdiv in *. exists (n + 1). split; [lia|]. split; [rewrite E; do 2 f_equal; lia|]. split; [done|]. right.
    destruct Hge as [->|Hge]; [|done]. rewrite <- Hdiv. change (2 ^ 0) with 1. rewrite Z.div_1_r.
    apply Z.div_le_lower_bound; lia.
  - exists 0. rewrite Z.div_1_r, Z.add_0_r. split_and!; (done || lia || auto).
Qed.

(** What the mantissa and the exponent stand for: the bitrate, but for the bits
    that do not fit in the mantissa. *)
Lemma bitrate_split bitrate : in_uint 64 bitrate -> k <= 32 ->
  exists mantissa exponent, bitrate_loop 64 (2 ^ k - 1) bitrate 0 = Ok (mantissa, exponent) /\
    in_uint k mantissa /\ 0 <= exponent < 64 /\ bitrate_valid mantissa exponent = true /\
    bitrate_of mantissa exponent <= bitrate /\ (bitrate - bitrate_of mantissa exponent) * 2 ^ (k - 1) <= bitrate /\
    ((exists m e, in_uint k m /\ 0 <= e /\ bitrate = m * 2 ^ e) -> bitrate_of mantissa exponent = bitrate).
Proof.
  intros Hb Hk32. unfold in_uint in *. pose proof (Z.pow_pos_nonneg 2 (k - 1)).
  destruct (bitrate_loop_spec 64 bitrate 0) as (n & Hn & E & Hlt & Hge); [|lia|lia|].
  { split; [lia|]. eapply Z.lt_le_trans; [apply Hb|]. apply Z.pow_le_mono_r; lia. }
  pose proof (Z.pow_pos_nonneg 2 n) as Hp. set (q := bitrate / 2 ^ n) in *.
  assert (0 <= q) as Hq by (apply Z.div_pos; lia).
  assert (q * 2 ^ n <= bitrate < q * 2 ^ n + 2 ^ n) as Hqb.
  { pose proof (Z.div_mod bitrate (2 ^ n) ltac:(lia)) as Hd. pose proof (Z.mod_pos_bound bitrate (2 ^ n) ltac:(lia)). fold q in Hd. lia. }
  assert (n < 64) as Hn64.
  { destruct Hge as [->|Hge]; [lia|]. destruct (Z.lt_ge_cases n 64); [done|]. assert (n = 64) as -> by lia.
    assert (q = 0) by (apply Z.div_small; lia). lia. }
  destruct (bitrate_of_exact q n) as [Ev Hv]; [done|lia|lia|].
  exists q, n. split; [exact E|]. split; [lia|]. split; [lia|]. split; [done|]. rewrite Ev. split; [lia|]. split.
  - destruct Hge as [->|Hge]; [change (2 ^ 0) with 1 in *; nia|].
    assert (bitrate - q * 2 ^ n <= 2 ^ n) by lia. nia.
  - intros (m & e & Hm & He & Hbe). destruct (Z.le_gt_cases n e) as [Hle|Hgt].
    + subst q. rewrite Hbe. replace e with (e - n + n) by lia. rewrite Z.pow_add_r by lia.
      by rewrite Z.mul_assoc, Z.div_mul by lia.
    + exfalso. destruct Hge as [->|Hge]; [lia|]. assert (q < 2 ^ (k - 1)); [|lia].
      subst q. apply Z.div_lt_upper_bound; [lia|]. rewrite Hbe.
      assert (2 ^ n = 2 ^ e * 2 ^ (n - e)) as -> by (rewrite <- Z.pow_add_r by lia; f_equal; lia).
      assert (2 * 1 <= 2 ^ (n - e)).
      { replace (n - e) with (Z.succ (n - e - 1)) by lia. rewrite Z.pow_succ_r by lia.
        pose proof (Z.pow_pos_nonneg 2 (n - e - 1)). lia. }
      assert (2 ^ k = 2 * 2 ^ (k - 1)) by (rewrite <- Z.pow_succ_r by lia; f_equal; lia).
      pose proof (Z.pow_pos_nonneg 2 e). assert (m < 2 ^ (k - 1) * 2 ^ (n - e)) by nia.
      replace (2 ^ e * 2 ^ (n - e) * 2 ^ (k - 1)) with (2 ^ (k - 1) * 2 ^ (n - e) * 2 ^ e) by lia.
      apply Z.mul_lt_mono_pos_r; lia.
Qed.

(** The bitrate that is read is split in the same way. *)
Lemma bitrate_loop_again bitrate mantissa exponent : in_uint 64 bitrate -> k <= 32 ->
  bitrate_loop 64 (2 ^ k - 1) bitrate 0 = Ok (mantissa, exponent) ->
  bitrate_loop 64 (2 ^ k - 1) (mantissa * 2 ^ exponent) 0 = Ok (mantissa, exponent).
Proof.
  intros Hb Hk32 E. unfold in_uint in Hb.
  assert (forall b, 0 <= b < 2 ^ 64 -> 0 <= b < 2 ^ (k + Z.of_nat 64)) as Hbig.
  { intros b Hb'. split; [lia|]. eapply Z.lt_le_trans; [apply Hb'|]. apply Z.pow_le_mono_r; lia. }
  destruct (bitrate_loop_spec 64 bitrate 0 (Hbig _ Hb)) as (n & Hn & E' & Hlt & Hge); [lia|lia|].
  rewrite E in E'. injection E' as -> ->. change (0 + n) with n. set (q := bitrate / 2 ^ n) in *.
  assert (0 < 2 ^ n) as Hp by (apply Z.pow_pos_nonneg; lia). assert (0 < 2 ^ (k - 1)) as Hp' by (apply Z.pow_pos_nonneg; lia).
  assert (2 ^ k = 2 * 2 ^ (k - 1)) as Hpow by (rewrite <- Z.pow_succ_r by lia; f_equal; lia).
  assert (0 <= q /\ q * 2 ^ n <= bitrate) as [Hq Hqb].
  { split; [apply Z.div_pos; lia|]. pose proof (Z.mul_div_le bitrate (2 ^ n)). fold q in H. lia. }
  destruct (bitrate_loop_spec 64 (q * 2 ^ n) 0) as (n' & Hn' & E' & Hlt' & Hge'); [apply Hbig; nia|lia|lia|].
  rewrite E'. change (0 + n') with n' in *. destruct (Z.lt_trichotomy n' n) as [Hc|[->|Hc]].
  - exfalso. replace n with (n - n' + n') in Hlt' by lia. rewrite Z.pow_add_r, Z.mul_assoc, Z.div_mul in Hlt' by lia.
    replace (n - n') with (Z.succ (n - n' - 1)) in Hlt' by lia. rewrite Z.pow_succ_r in Hlt' by lia.
    assert (0 < 2 ^ (n - n' - 1)) by (apply Z.pow_pos_nonneg; lia). destruct Hge as [->|Hge]; [lia|]. nia.
  - by rewrite Z.div_mul by lia.
  - exfalso. destruct Hge' as [->|Hge']; [lia|]. assert (q * 2 ^ n / 2 ^ n' < 2 ^ (k - 1)); [|lia].
    apply Z.div_lt_upper_bound; [apply Z.pow_pos_nonneg; lia|].
    replace n' with (n + Z.succ (n' - n - 1)) by lia. rewrite Z.pow_add_r, Z.pow_succ_r by lia.
    assert (0 < 2 ^ (n' - n - 1)) by (apply Z.pow_pos_nonneg; lia).
    assert (q < 2 * 2 ^ (n' - n - 1) * 2 ^ (k - 1)) by nia. nia.
Qed.
End loop.

(** * Items *)

(** Two fields of a word. *)
Lemma lor_fields k a b : 0 <= k -> in_uint k b -> Z.lor (Z.shiftl a k) b = a * 2 ^ k + b.
Proof. intros. rewrite Z.lor_comm. by apply lor_shiftl_add. Qed.

Lemma fields_high k a b : 0 <= k -> in_uint k b -> Z.shiftr (a * 2 ^ k + b) k = a.
Proof.
  intros Hk Hb. pose proof (Z.pow_pos_nonneg 2 k). rewrite Z.shiftr_div_pow2, Z.div_add_l by lia.
  rewrite Z.div_small by done. lia.
Qed.

Lemma fields_low k a b : 0 <= k -> in_uint k b -> Z.land (a * 2 ^ k + b) (2 ^ k - 1) = b.
Proof.
  intros Hk Hb. rewrite land_low_ones by done. rewrite Z.add_comm, Z_mod_plus_full. by apply Z.mod_small.
Qed.

Lemma fields_range j k a b : 0 <= j -> 0 <= k -> in_uint j a -> in_uint k b -> in_uint (j + k) (a * 2 ^ k + b).
Proof. unfold in_uint. intros Hj Hk Ha Hb. rewrite Z.pow_add_r by done. nia. Qed.

Definition ssrc_word_bytes (i : ssrc_word) : list Z := concat [be_bytes 4 (sw_ssrc i); be_bytes 4 (sw_word i)].

Definition sli_compact (i : sli_item) : Z := (sli_first i * 2 ^ 13 + sli_number i) * 2 ^ 6 + sli_pictureId i.
Definition sli_bytes (i : sli_item) : list Z := be_bytes 4 (sli_compact i).

Definition rpsi_bytes (i : rpsi_item) : list Z := concat [[rpsi_paddingBits i]; [rpsi_payload i]; rpsi_bitString i].

Definition ecn_bytes (i : ecn_item) : list Z :=
  concat [be_bytes 4 (ecn_sequenceNumber i); be_bytes 4 (ecn_ect0Counter i); be_bytes 4 (ecn_ect1Counter i);
          be_bytes 2 (ecn_ecnCeCounter i); be_bytes 2 (ecn_notEctCounter i); be_bytes 2 (ecn_lostPackets i);
          be_bytes 2 (ecn_duplicatedPackets i)].

(** The mantissa and the exponent of a bitrate, with mantissas of [k] bits. *)
Definition split_of (k bitrate : Z) : Z * Z :=
  match bitrate_loop 64 (2 ^ k - 1) bitrate 0 with Ok s => s | Err _ => (0, 0) end.

Definition tmmb_compact (i : tmmb_item) : Z :=
  let s := split_of 17 (tmmb_bitrate i) in (s.2 * 2 ^ 17 + s.1) * 2 ^ 9 + tmmb_overhead i.
Definition tmmb_bytes (i : tmmb_item) : list Z := concat [be_bytes 4 (tmmb_ssrc i); be_bytes 4 (tmmb_compact i)].

Lemma ssrc_word_emits i : emits (SerializeSsrcWord i) (ssrc_word_bytes i).
Proof. unfold ssrc_word_bytes, SerializeSsrcWord. cbn [concat]. writes. Qed.

Lemma sli_emits i : sli_ok i -> emits (SerializeSliItem i) (sli_bytes i).
Proof.
  intros (H1 & H2 & H3). unfold SerializeSliItem. cbv zeta.
  assert (Z.lor (Z.lor (Z.shiftl (sli_first i) 19) (Z.shiftl (sli_number i) 6)) (sli_pictureId i) = sli_compact i) as ->.
  { unfold sli_compact. replace 19 with (13 + 6) by done. rewrite <- Z.shiftl_shiftl, <- Z.shiftl_lor by done.
    by rewrite (lor_fields 13), (lor_fields 6) by done. }
  unfold sli_bytes. rewrite wrap_small; [apply (emits_set 4); intros; apply Set4Bytes_spec|].
  apply (fields_range 26 6); [done|done| |done]. by apply (fields_range 13 13).
Qed.

Lemma rpsi_emits i : zlen (rpsi_bitString i) = maxBitStringSize -> emits (SerializeRpsiItem i) (rpsi_bytes i).
Proof.
  intros Hl. unfold rpsi_bytes, SerializeRpsiItem. cbn [concat]. writes.
  apply emits_at_write; [intros; lia|]. rewrite Hl. apply emits_at_done. intros; unfold maxBitStringSize; lia.
Qed.

Lemma lei_emits ssrc : emits (SerializeSsrc ssrc) (be_bytes 4 ssrc).
Proof. apply (emits_set 4). intros. apply Set4Bytes_spec. Qed.

Lemma ecn_emits i : emits (SerializeEcnItem i) (ecn_bytes i).
Proof. unfold ecn_bytes, SerializeEcnItem. cbn [concat]. writes. Qed.

(** A bitrate that a parsed packet can hold is written as it is. *)
Definition split_ok (k bitrate : Z) (s : Z * Z) : Prop :=
  bitrate_loop 64 (2 ^ k - 1) bitrate 0 = Ok s /\ in_uint k s.1 /\ in_uint 6 s.2 /\
  bitrate_valid s.1 s.2 = true /\ bitrate_of s.1 s.2 = bitrate.

Lemma split_of_ok k bitrate mantissa exponent : 0 < k <= 32 -> in_uint k mantissa -> 0 <= exponent < 64 ->
  bitrate_valid mantissa exponent = true -> bitrate = bitrate_of mantissa exponent -> split_ok k bitrate (split_of k bitrate).
Proof.
  intros Hk Hm He Hv ->. destruct (bitrate_valid_exact mantissa exponent) as [Eb Hlt]; [apply Hm|done|done|].
  destruct (bitrate_split k ltac:(lia) (bitrate_of mantissa exponent)) as (m & e & E & Hm' & He' & Hv' & _ & _ & Hx);
    [by apply wrap_range|lia|].
  unfold split_ok, split_of. rewrite E. split_and!; [done|done|exact He'|done|]. apply Hx. exists mantissa, exponent. split_and!; [done|lia|done].
Qed.

Lemma tmmb_split i : tmmb_ok i -> tmmb_isCorrect i = true -> split_ok 17 (tmmb_bitrate i) (split_of 17 (tmmb_bitrate i)).
Proof. intros (_ & _ & m & e & Hm & He & Hb & Hv) Hc. apply (split_of_ok 17 _ m e); [lia|done|done|congruence|done]. Qed.

Lemma tmmb_compact_range i : tmmb_ok i -> tmmb_isCorrect i = true -> in_uint 32 (tmmb_compact i).
Proof.
  intros Hi Hc. destruct (tmmb_split i Hi Hc) as (_ & Hm & He & _). destruct Hi as (_ & Ho & _).
  apply (fields_range 23 9); [done|done| |done]. by apply (fields_range 6 17).
Qed.

Lemma tmmb_emits i : tmmb_ok i /\ tmmb_isCorrect i = true -> emits (SerializeTmmbItem i) (tmmb_bytes i).
Proof.
  intros [Hi Hc]. pose proof (tmmb_compact_range i Hi Hc) as Hr.
  destruct (tmmb_split i Hi Hc) as (E & Hm & He & _). destruct Hi as (_ & Ho & _).
  unfold SerializeTmmbItem. change 131071 with (2 ^ 17 - 1). rewrite E. unfold tmmb_bytes, tmmb_compact in *.
  destruct (split_of 17 (tmmb_bitrate i)) as [m e]. cbn [fst snd] in *. ostep. cbv zeta in *.
  assert (Z.lor (Z.lor (Z.shiftl e 26) (Z.shiftl m 9)) (tmmb_overhead i) = (e * 2 ^ 17 + m) * 2 ^ 9 + tmmb_overhead i) as ->.
  { replace 26 with (17 + 9) by done. rewrite <- Z.shiftl_shiftl, <- Z.shiftl_lor by done.
    by rewrite (lor_fields 17), (lor_fields 9) by done. }
  rewrite wrap_small by done. cbn [concat]. writes.
Qed.

(** * Reading items back *)

Section read.
Context (m : list Z) (Hm : bytes m).

(** The parser of an item reads [Bytes]. *)
Definition reads_back {A} (ParseItem : list Z -> Z -> Z -> outcome (option A)) (ItemSize : A -> Z)
  (Bytes : A -> list Z) (ok : A -> Prop) : Prop :=
  forall off len i, ok i -> 0 <= off -> at_ m off (Bytes i) -> ItemSize i <= len -> ParseItem m off len = Ok (Some i).

Lemma correct_reads {A} (ParseItem : list Z -> Z -> Z -> outcome (option A)) IsCorrect ItemSize Bytes ok :
  (forall i, ok i -> IsCorrect i = true) -> reads_back ParseItem ItemSize Bytes ok ->
  reads_back (ParseCorrect ParseItem IsCorrect) ItemSize Bytes ok.
Proof.
  intros Hc Hr off len i Hi H0 Hat Hl. unfold ParseCorrect. rewrite (Hr off len i) by done. ostep. by rewrite Hc.
Qed.

Lemma ssrc_word_reads : reads_back ParseSsrcWord SsrcWordSize ssrc_word_bytes ssrc_word_ok.
Proof.
  intros off len i [H1 H2] H0 H Hl. unfold ParseSsrcWord. rewrite (proj2 (Z.ltb_ge _ _)) by exact Hl.
  unfold ssrc_word_bytes in H. cbn [concat] in H. at_fields H. by destruct i.
Qed.

Lemma sli_reads : reads_back ParseSliItem SliItemSize sli_bytes sli_ok.
Proof.
  intros off len i (H1 & H2 & H3) H0 H Hl. unfold ParseSliItem. rewrite (proj2 (Z.ltb_ge _ _)) by exact Hl.
  unfold sli_bytes in H. rewrite <- (app_nil_r (be_bytes _ _)) in H.
  assert (in_uint 26 (sli_first i * 2 ^ 13 + sli_number i)) as H4 by by apply (fields_range 13 13).
  apply at_next4 in H as [-> _]; [|done|by apply (fields_range 26 6)]. ostep. unfold sli_compact.
  change 19 with (6 + 13). rewrite <- Z.shiftr_shiftr by done. change 63 with (2 ^ 6 - 1). change 8191 with (2 ^ 13 - 1).
  rewrite (fields_high 6), (fields_low 6), (fields_high 13), (fields_low 13) by done.
  rewrite wrap_small by (unfold in_uint in *; lia). by destruct i.
Qed.

Lemma rpsi_reads : reads_back ParseRpsiItem RpsiItemSize rpsi_bytes rpsi_ok.
Proof.
  intros off len i (H1 & H2 & H3 & H4 & H5 & H6) H0 H Hl. unfold ParseRpsiItem. rewrite (proj2 (Z.ltb_ge _ _)) by exact Hl.
  unfold rpsi_bytes in H. cbn [concat app] in H. rewrite app_nil_r in H. apply at_one in H as [-> H]. apply at_one in H as [-> H].
  norm_offsets H. ostep. unfold at_ in H. rewrite H4 in H. rewrite H. ostep. cbv zeta. rewrite <- H5, <- H6. by destruct i.
Qed.

Lemma lei_reads : reads_back ParseLeiItem LeiItemSize (be_bytes 4) (in_uint 32).
Proof.
  intros off len i Hi H0 H Hl. unfold ParseLeiItem. rewrite (proj2 (Z.ltb_ge _ _)) by exact Hl.
  rewrite <- (app_nil_r (be_bytes _ _)) in H. by apply at_next4 in H as [-> _].
Qed.

Lemma nack_reads : reads_back ParseNackItem NackItemSize item_bytes item_ok.
Proof. intros off len i Hi H0 H Hl. by apply nack_item_parse. Qed.

Lemma ecn_reads : reads_back ParseEcnItem EcnItemSize ecn_bytes ecn_ok.
Proof.
  intros off len i (H1 & H2 & H3 & H4 & H5 & H6 & H7) H0 H Hl. unfold ParseEcnItem. rewrite (proj2 (Z.ltb_ge _ _)) by exact Hl.
  unfold ecn_bytes in H. cbn [concat] in H. at_fields H. by destruct i.
Qed.

Lemma tmmb_reads : reads_back ParseTmmbItem TmmbItemSize tmmb_bytes (fun i => tmmb_ok i /\ tmmb_isCorrect i = true).
Proof.
  intros off len i [Hi Hc] H0 H Hl. unfold ParseTmmbItem. rewrite (proj2 (Z.ltb_ge _ _)) by exact Hl.
  pose proof (tmmb_compact_range i Hi Hc) as Hr. destruct (tmmb_split i Hi Hc) as (_ & Hma & He & Hv & Hb).
  destruct Hi as (Hs & Ho & _). unfold tmmb_bytes in H. cbn [concat] in H. at_fields H. unfold tmmb_compact in *.
  destruct (split_of 17 (tmmb_bitrate i)) as [ma e]. cbn [fst snd] in *. cbv zeta.
  assert (in_uint 23 (e * 2 ^ 17 + ma)) as H4 by by apply (fields_range 6 17).
  change 26 with (9 + 17). rewrite <- Z.shiftr_shiftr by done. change 511 with (2 ^ 9 - 1). change 131071 with (2 ^ 17 - 1).
  rewrite (fields_high 9), (fields_low 9), (fields_high 17), (fields_low 17) by done.
  rewrite (wrap_small 8 e) by (unfold in_uint in *; lia). rewrite Hv, Hb. destruct i. cbn in *. by subst.
Qed.
End read.

(** * REMB and the other application layer packets *)

Definition remb_fields (p : remb_packet) : list Z :=
  let s := split_of 18 (remb_bitrate p) in
  concat [be_bytes 4 uniqueIdentifier; [zlen (remb_ssrcs p)]; [s.2 * 4 + s.1 / 65536]; be_bytes 2 s.1;
          concat (be_bytes 4 <$> remb_ssrcs p)].

Definition remb_bytes (p : remb_packet) : list Z :=
  feedback_bytes (remb_header p) PSFB (RembSize p) ++ remb_fields p.

Lemma remb_split p : remb_ok p -> split_ok 18 (remb_bitrate p) (split_of 18 (remb_bitrate p)).
Proof. intros (_ & _ & _ & m & e & Hm & He & Hv & Hb). by apply (split_of_ok 18 _ m e). Qed.

Lemma remb_emits p : remb_ok p -> emits (SerializeRemb p) (remb_bytes p).
Proof.
  intros Hp. apply emits_app; [apply SerializeFeedback_emits|]. destruct (remb_split p Hp) as (E & Hm & He & _).
  destruct Hp as (_ & _ & Hn & _). change 262143 with (2 ^ 18 - 1). rewrite E. unfold remb_fields.
  destruct (split_of 18 (remb_bitrate p)) as [m e]. cbn [fst snd] in *. ostep. cbv zeta. unfold in_uint in *.
  assert (0 <= m / 65536 < 4) as Hhi by (split; [apply Z.div_pos; lia|apply Z.div_lt_upper_bound; lia]).
  assert (u8 (Z.lor (Z.shiftl e 2) (Z.shiftr m 16)) = e * 4 + m / 65536) as ->.
  { rewrite Z.shiftr_div_pow2 by done. change (2 ^ 16) with 65536. rewrite (lor_fields 2) by (done || unfold in_uint; lia).
    apply wrap_small. unfold in_uint. lia. }
  rewrite wrap_small by done.
  assert (be_bytes 2 m = be_bytes 2 (Z.land m 65535)) as ->.
  { change 65535 with (2 ^ 16 - 1). rewrite land_low_ones by done. symmetry. apply (be_bytes_wrap 2 m). }
  cbn [concat]. rewrite app_nil_r. writes. apply emits_at_tail; [intros; lia|].
  apply (serialize_each_emits _ _ (fun _ => True)); [intros; apply lei_emits|by apply Forall_true].
Qed.

Lemma zlen_remb_fields p : zlen (remb_fields p) = 8 + 4 * zlen (remb_ssrcs p).
Proof.
  unfold remb_fields. cbv zeta. cbn [concat]. rewrite app_nil_r, !zlen_app, !zlen_be_bytes, !zlen_one.
  rewrite (zlen_written (fun _ => 4) (be_bytes 4) (fun _ => True)) by (auto using zlen_be_bytes, Forall_true).
  assert (foldr (fun _ n => 4 + n) 0 (remb_ssrcs p) = 4 * zlen (remb_ssrcs p)) as ->; [|lia].
  induction (remb_ssrcs p) as [|s l IH]; [done|]. cbn [foldr]. rewrite IH, zlen_cons. lia.
Qed.

Lemma remb_ssrcs_read m l : bytes m -> Forall (in_uint 32) l -> forall off, 0 <= off -> at_ m off (concat (be_bytes 4 <$> l)) ->
  remb_ssrcs_loop (length l) m off = Ok l.
Proof.
  intros Hm. induction 1 as [|s l Hs Hl IH]; intros off H0 Hat; [done|]. cbn [fmap list_fmap concat length remb_ssrcs_loop] in *.
  apply at_next4 in Hat as [-> Hat]; [|done|done]. ostep. rewrite IH; [done|lia|done].
Qed.

Section read_remb.
Context (m : list Z) (Hm : bytes m).

Lemma remb_reads p : remb_ok p -> packet_length m = Ok (RembSize p) -> at_ m 0 (remb_bytes p) ->
  ParseRemb m (RembSize p) = Ok p.
Proof.
  intros Hp Hlen Hat. destruct (remb_split p Hp) as (_ & Hma & He & Hv & Hb). pose proof Hp as ((Ht & Hs & Hme) & Hss & Hn & _).
  unfold ParseRemb. pose proof (zlen_nonneg (remb_ssrcs p)). unfold remb_bytes in Hat. apply at_app in Hat as [Hh Hat].
  rewrite (proj2 (Z.ltb_ge _ _)) by (unfold RembSize; lia).
  rewrite (at_feedback m Hm (remb_header p) _ _ Ht Hs Hme Hh), Hlen. ostep. rewrite (proj2 (Z.ltb_ge _ _)) by lia. cbv zeta.
  change (0 + zlen (feedback_bytes (remb_header p) PSFB (RembSize p))) with (CommonHeaderSize + FeedbackHeaderSize) in Hat.
  set (data := CommonHeaderSize + FeedbackHeaderSize) in *. unfold remb_fields in Hat. cbv zeta in Hat. cbn [concat app] in Hat.
  apply at_next4 in Hat as [-> Hat]; [|done|done]. apply at_one in Hat as [-> Hat]. norm_offsets Hat. ostep.
  assert (RembSize p = data + 8 + zlen (remb_ssrcs p) * 4) as Esize by (unfold RembSize; subst data; lia).
  rewrite Esize, Z.eqb_refl. cbn [negb]. rewrite Z.eqb_refl. cbn [negb].
  apply at_one in Hat as [-> Hat]. norm_offsets Hat. ostep. rewrite <- (be_bytes_wrap 2) in Hat.
  apply at_next2 in Hat as [-> Hat]; [|done|by apply wrap_range]. norm_offsets Hat. ostep.
  destruct (split_of 18 (remb_bitrate p)) as [ma e]. cbn [fst snd] in *. change (8 * Z.of_nat 2) with 16.
  assert (0 <= ma / 65536 < 4) as Hhi.
  { unfold in_uint in Hma. split; [apply Z.div_pos; lia|apply Z.div_lt_upper_bound; lia]. }
  assert (Z.shiftr (e * 4 + ma / 65536) 2 = e) as -> by (apply (fields_high 2); [done|exact Hhi]).
  assert (Z.lor (Z.shiftl (Z.land (e * 4 + ma / 65536) 3) 16) (u16 ma) = ma) as ->.
  { assert (Z.land (e * 4 + ma / 65536) 3 = ma / 65536) as -> by (apply (fields_low 2); [done|exact Hhi]).
    rewrite (lor_fields 16) by (done || by apply wrap_range). unfold wrap. change (2 ^ 16) with 65536.
    pose proof (Z.div_mod ma 65536). lia. }
  rewrite Hv. cbn [negb]. unfold zlen. rewrite Nat2Z.id. rewrite app_nil_r in Hat.
  rewrite (remb_ssrcs_read m _ Hm Hss) by (done || subst data; unfold CommonHeaderSize, FeedbackHeaderSize; lia). ostep.
  rewrite Hb. by destruct p.
Qed.
End read_remb.

(** AFB packets that are not REMB: written with whole words, and no identifier. *)
Definition afb_readable (p : afb_packet) : Prop :=
  match p with
  | Remb p => True
  | Afb h data => (4 | zlen data) /\ take 4 data <> be_bytes 4 uniqueIdentifier
  end.

Definition afb_bytes (p : afb_packet) : list Z :=
  match p with Remb p => remb_bytes p | Afb h data => feedback_bytes h PSFB (AfbSize p) ++ data end.

Lemma afb_emits p : afb_ok p -> emits (SerializeAfb p) (afb_bytes p).
Proof.
  destruct p as [p|h data]; [apply remb_emits|]. intros _. apply emits_app; [apply SerializeFeedback_emits|].
  intros m off H0 Hl. destruct (write_in_bounds m off data) as (m' & W); [done..|]. exists m'. by rewrite W.
Qed.

Lemma afb_reads m p : bytes m -> afb_ok p -> afb_readable p -> packet_length m = Ok (AfbSize p) -> AfbSize p <= 262144 ->
  at_ m 0 (afb_bytes p) -> ParseAfb m (AfbSize p) = Ok p.
Proof.
  intros Hm Hp Hr Hlen Hmax Hat. unfold ParseAfb. cbv zeta.
  assert (CommonHeaderSize + FeedbackHeaderSize <= AfbSize p) as Hsize.
  { destruct p as [p|h data]; cbn [AfbSize]; [unfold RembSize; pose proof (zlen_nonneg (remb_ssrcs p)); lia|].
    pose proof (zlen_nonneg data). lia. }
  rewrite (proj2 (Z.ltb_ge _ _)) by done. set (data0 := CommonHeaderSize + FeedbackHeaderSize) in *.
  destruct p as [p|h data]; cbn [AfbSize afb_bytes] in *; fold data0 in Hsize, Hlen, Hmax, Hat |- *.
  - pose proof Hat as Hat'. unfold remb_bytes in Hat'. apply at_app in Hat' as [_ Hat'].
    change (0 + zlen (feedback_bytes (remb_header p) PSFB (RembSize p))) with data0 in Hat'.
    unfold remb_fields in Hat'. cbv zeta in Hat'. cbn [concat app] in Hat'. apply at_next4 in Hat' as [E _]; [|done|done].
    rewrite (proj2 (Z.leb_le _ _)) by (unfold RembSize, data0; pose proof (zlen_nonneg (remb_ssrcs p)); lia).
    rewrite E. ostep. rewrite Z.eqb_refl. by rewrite remb_reads.
  - apply at_app in Hat as [Hh Hat]. destruct Hp as [(Ht & Hs & Hme) Hb]. destruct Hr as [_ Hr].
    change (0 + zlen (feedback_bytes h PSFB (data0 + zlen data))) with data0 in Hat.
    assert ((if data0 + 4 <=? data0 + zlen data then identifier ← Get4Bytes m data0; Ok (identifier =? uniqueIdentifier)
      else Ok false) = Ok false) as ->.
    { destruct (Z.leb_spec (data0 + 4) (data0 + zlen data)); [|done]. rewrite Get4Bytes_spec by done.
      unfold at_ in Hat. replace (zlen data) with (4 + (zlen data - 4)) in Hat by lia.
      rewrite slice_split in Hat by lia. apply bind_Ok in Hat as (s1 & E1 & Hat). apply bind_Ok in Hat as (s2 & E2 & [= Hd]).
      rewrite E1. ostep. f_equal. apply Z.eqb_neq. intros E. apply Hr.
      pose proof (zlen_slice _ _ _ _ E1) as L. rewrite <- Hd, take_app_le, take_ge by (unfold zlen in L; lia).
      pose proof (be_bytes_be_val s1 (bytes_slice _ _ _ _ Hm E1)) as E'. rewrite E in E'.
      replace (length s1) with 4%nat in E' by (unfold zlen in L; lia). done. }
    ostep. rewrite (at_feedback m Hm h _ _ Ht Hs Hme Hh), Hlen. ostep.
    replace (data0 + zlen data - data0) with (zlen data) by lia.
    rewrite wrap_small by (pose proof (zlen_nonneg data); unfold in_uint, data0, CommonHeaderSize, FeedbackHeaderSize in *; lia).
    by rewrite Hat.
Qed.
