(* ===== verification/RtcpPacket.v ===== *)
(** RTCP datagrams: [Packet::Parse] (worker/src/RTC/RTCP/Packet.cpp), the packets
    it makes and how they are written; and the compound packets that the worker
    sends (worker/src/RTC/RTCP/CompoundPacket.cpp). *)

From S2P Require Export RtcpFeedback.

(** * Packets *)

Inductive rtcp_packet : Type :=
| SenderReportPacket (reports : list sender_report)
| ReceiverReportPacket (ssrc : Z) (reports : list receiver_report)
| SdesPacket (chunks : list sdes_chunk)
| Bye (p : bye_packet)
| FeedbackRtp (p : rtpfb_packet)
| FeedbackPs (p : psfb_packet)
| ExtendedReportPacket (ssrc : Z) (blocks : list report_block).

(** * Parsing *)

(** The packet of [packetLen] bytes at the start of [m], and what is linked after
    it.  [Err Rejected] when [current] is [nullptr]. *)
Definition ParseTyped (m : list Z) (packetLen : Z) : outcome (list rtcp_packet) :=
  packetType ← header_packetType m;
  if packetType =? SR then
    reports ← ParseSenderReportPacket m packetLen;
    let current := SenderReportPacket reports in
    count ← header_count m;
    if 0 <? count then
      match ParseReceiverReportPacket m packetLen (SenderReportPacketSize reports) with
      | Ok (ssrc, rr) => Ok [current; ReceiverReportPacket ssrc rr]
      | Err Rejected => Ok [current]
      | Err e => Err e
      end
    else Ok [current]
  else if packetType =? RR then
    '(ssrc, reports) ← ParseReceiverReportPacket m packetLen 0; Ok [ReceiverReportPacket ssrc reports]
  else if packetType =? SDES then chunks ← ParseSdesPacket m packetLen; Ok [SdesPacket chunks]
  else if packetType =? BYE then p ← ParseByePacket m packetLen; Ok [Bye p]
  else if packetType =? RTPFB then p ← ParseFeedbackRtp m packetLen; Ok [FeedbackRtp p]
  else if packetType =? PSFB then p ← ParseFeedbackPs m packetLen; Ok [FeedbackPs p]
  else if packetType =? XR then
    '(ssrc, blocks) ← ParseExtendedReportPacket m packetLen; Ok [ExtendedReportPacket ssrc blocks]
  else Err Rejected.

(** The packets of a datagram, up to the first that cannot be parsed. *)
Fixpoint parse_packets (fuel : nat) (data : list Z) (len : Z) : outcome (list rtcp_packet) :=
  if 0 <? len then
    match fuel with
    | O => Err OutOfFuel
    | S fuel =>
        isRtcp ← IsRtcp data len;
        if negb isRtcp then Ok []
        else
          packetLen ← packet_length data;
          if len <? packetLen then Ok []
          else
            match ParseTyped data packetLen with
            | Ok current =>
                rest ← parse_packets fuel (drop (Z.to_nat packetLen) data) (len - packetLen);
                Ok (current ++ rest)
            | Err Rejected => Ok []
            | Err e => Err e
            end
    end
  else Ok [].

Definition ParsePacket (data : list Z) (len : Z) : outcome (list rtcp_packet) := parse_packets (length data) data len.

(** * Writing *)

(** [GetSize] of a packet of VBCM items reads the lengths of the items. *)
Definition VbcmSize (items : list vbcm_item) : outcome Z :=
  foldr (fun i n => size ← VbcmItemSize i; n ← n; Ok (size + n)) (Ok (CommonHeaderSize + FeedbackHeaderSize)) items.

Definition SerializeFeedbackPs (p : psfb_packet) : list Z -> Z -> outcome (list Z * Z) :=
  match p with
  | FeedbackPsPli h => SerializeNoItems h PSFB
  | FeedbackPsSli h items => SerializeItems SliItemSize SerializeSliItem h PSFB items
  | FeedbackPsRpsi h items => SerializeItems RpsiItemSize SerializeRpsiItem h PSFB items
  | FeedbackPsFir h items | FeedbackPsTst h items => SerializeItems SsrcWordSize SerializeSsrcWord h PSFB items
  | FeedbackPsVbcm h items => fun m off =>
      size ← VbcmSize items;
      '(m, off) ← SerializeFeedback h PSFB size m off;
      serialize_each SerializeVbcmItem items m off
  | FeedbackPsLei h items => SerializeItems LeiItemSize SerializeSsrc h PSFB items
  | FeedbackPsAfb p => SerializeAfb p
  end.

Definition SerializeFeedbackRtp (p : rtpfb_packet) : list Z -> Z -> outcome (list Z * Z) :=
  match p with
  | FeedbackRtpNack h items | FeedbackRtpTllei h items => SerializeItems NackItemSize SerializeNackItem h RTPFB items
  | FeedbackRtpTmmb h items => SerializeItems TmmbItemSize SerializeTmmbItem h RTPFB items
  | FeedbackRtpSrReq h => SerializeNoItems h RTPFB
  | FeedbackRtpEcn h items => SerializeItems EcnItemSize SerializeEcnItem h RTPFB items
  | FeedbackRtpTransport p => fun m off => '(_, m, off) ← SerializeTransport p m off; Ok (m, off)
  end.

Definition SerializePacket (p : rtcp_packet) : list Z -> Z -> outcome (list Z * Z) :=
  match p with
  | SenderReportPacket reports => SerializeSenderReportPacket reports
  | ReceiverReportPacket ssrc reports => SerializeReceiverReportPacket ssrc reports
  | SdesPacket chunks => SerializeSdesPacket chunks
  | Bye p => SerializeByePacket p
  | FeedbackRtp p => SerializeFeedbackRtp p
  | FeedbackPs p => SerializeFeedbackPs p
  | ExtendedReportPacket ssrc blocks => SerializeExtendedReportPacket ssrc blocks
  end.

Definition FeedbackPsSize (p : psfb_packet) : outcome Z :=
  match p with
  | FeedbackPsPli h => Ok (CommonHeaderSize + FeedbackHeaderSize)
  | FeedbackPsSli h items => Ok (ItemsSize SliItemSize items)
  | FeedbackPsRpsi h items => Ok (ItemsSize RpsiItemSize items)
  | FeedbackPsFir h items | FeedbackPsTst h items => Ok (ItemsSize SsrcWordSize items)
  | FeedbackPsVbcm h items => VbcmSize items
  | FeedbackPsLei h items => Ok (ItemsSize LeiItemSize items)
  | FeedbackPsAfb p => Ok (AfbSize p)
  end.

Definition FeedbackRtpSize (p : rtpfb_packet) : outcome Z :=
  match p with
  | FeedbackRtpNack h items | FeedbackRtpTllei h items => Ok (ItemsSize NackItemSize items)
  | FeedbackRtpTmmb h items => Ok (ItemsSize TmmbItemSize items)
  | FeedbackRtpSrReq h => Ok (CommonHeaderSize + FeedbackHeaderSize)
  | FeedbackRtpEcn h items => Ok (ItemsSize EcnItemSize items)
  | FeedbackRtpTransport p => Ok (TransportSize p)
  end.

(** [GetSize] of a packet. *)
Definition RtcpSize (p : rtcp_packet) : outcome Z :=
  match p with
  | SenderReportPacket reports => Ok (SenderReportPacketSize reports)
  | ReceiverReportPacket ssrc reports => Ok (ReceiverReportPacketSize reports)
  | SdesPacket chunks => Ok (SdesPacketSize chunks)
  | Bye p => Ok (ByePacketSize p)
  | FeedbackRtp p => FeedbackRtpSize p
  | FeedbackPs p => FeedbackPsSize p
  | ExtendedReportPacket ssrc blocks => Ok (ExtendedReportPacketSize blocks)
  end.

(** * Compound packets *)

Record compound_packet : Type := CompoundPacket {
  cp_size : Z;
  cp_senderReports : list sender_report;
  cp_receiverReports : list receiver_report;   (** of a packet with the SSRC 0 *)
  cp_chunks : list sdes_chunk;
  cp_blocks : list report_block                (** of a packet with the SSRC 0 *)
}.

Definition new_compound : compound_packet := CompoundPacket 0 [] [] [] [].

Definition HasSenderReport (p : compound_packet) : bool := negb (bool_decide (cp_senderReports p = [])).

Definition HasReceiverReferenceTime (p : compound_packet) : bool :=
  existsb (fun b => match b with ReceiverReferenceTime _ _ => true | _ => false end) (cp_blocks p).

Definition AddSenderReport (p : compound_packet) (r : sender_report) : outcome compound_packet :=
  _ ← require AssertFailed (negb (HasSenderReport p));
  Ok (CompoundPacket (cp_size p) (cp_senderReports p ++ [r]) (cp_receiverReports p) (cp_chunks p) (cp_blocks p)).

Definition AddReceiverReport (p : compound_packet) (r : receiver_report) : compound_packet :=
  CompoundPacket (cp_size p) (cp_senderReports p) (cp_receiverReports p ++ [r]) (cp_chunks p) (cp_blocks p).

Definition AddSdesChunk (p : compound_packet) (c : sdes_chunk) : compound_packet :=
  CompoundPacket (cp_size p) (cp_senderReports p) (cp_receiverReports p) (cp_chunks p ++ [c]) (cp_blocks p).

Definition AddReceiverReferenceTime (p : compound_packet) (b : report_block) : compound_packet :=
  CompoundPacket (cp_size p) (cp_senderReports p) (cp_receiverReports p) (cp_chunks p) (cp_blocks p ++ [b]).

(** [header->count = count] of the common header at the start of [m]: 5 bits. *)
Definition set_header_count (m : list Z) (count : Z) : outcome (list Z) :=
  b ← get1 m 0;
  set1 m 0 (Z.lor (Z.land b 224) (Z.land (u8 count) 31)).

Definition CompoundSize (p : compound_packet) : Z :=
  (if HasSenderReport p then
     SenderReportPacketSize (cp_senderReports p) + ReceiverReportSize * zlen (cp_receiverReports p)
   else ReceiverReportPacketSize (cp_receiverReports p))
  + (if truthy (zlen (cp_chunks p)) then SdesPacketSize (cp_chunks p) else 0)
  + (match cp_blocks p with [] => 0 | blocks => ExtendedReportPacketSize blocks end).

(** [CompoundPacket::Serialize] into [m]: the buffer and the packet, with its size. *)
Definition SerializeCompound (p : compound_packet) (m : list Z) : outcome (list Z * compound_packet) :=
  let p := CompoundPacket (CompoundSize p) (cp_senderReports p) (cp_receiverReports p) (cp_chunks p) (cp_blocks p) in
  let rr := cp_receiverReports p in
  '(m, off) ←
    (if HasSenderReport p then
       '(m, _) ← SerializeSenderReportPacket (cp_senderReports p) m 0;
       let off := SenderReportPacketSize (cp_senderReports p) in
       m ← set_header_count m 0;
       if truthy (zlen rr) then
         m ← Set2Bytes m 2 ((SenderReportSize + ReceiverReportSize * zlen rr) / 4);
         m ← set_header_count m (zlen rr);
         serialize_each SerializeReceiverReport rr m off
       else Ok (m, off)
     else
       '(m, _) ← SerializeReceiverReportPacket 0 rr m 0;
       Ok (m, ReceiverReportPacketSize rr));
  '(m, off) ← (if truthy (zlen (cp_chunks p)) then SerializeSdesPacket (cp_chunks p) m off else Ok (m, off));
  '(m, _) ← (match cp_blocks p with
             | [] => Ok (m, off)
             | blocks => SerializeExtendedReportPacket 0 blocks m off
             end);
  Ok (m, p).
