(* ===== verification/RtcpPacketFacts.v ===== *)
(** RTCP datagrams: [Packet::Parse] is safe on every datagram.

    RTCP datagrams: what is written is read back. *)

From S2P Require Export RtcpPacket RtcpFeedbackFacts.

Definition rtcp_ok (p : rtcp_packet) : Prop :=
  match p with
  | SenderReportPacket reports => Forall sr_ok reports /\ (length reports <= 1)%nat
  | ReceiverReportPacket ssrc reports => in_uint 32 ssrc /\ Forall rr_ok reports
  | SdesPacket chunks => Forall sdes_chunk_ok chunks
  | Bye p => bye_ok p
  | FeedbackRtp p => rtpfb_ok p
  | FeedbackPs p => psfb_ok p
  | ExtendedReportPacket ssrc blocks => in_uint 32 ssrc /\ Forall block_ok blocks
  end.

Lemma packet_length_range m len : bytes m -> packet_length m = Ok len -> 4 <= len <= 262144.
Proof.
  intros Hm. unfold packet_length, header_length. intros (v & Hv & [= <-])%bind_Ok.
  rewrite Get2Bytes_spec in Hv by done. apply bind_Ok in Hv as (s & Es & [= <-]).
  pose proof (be_val_range s (bytes_slice _ _ _ _ Hm Es)) as Hr. rewrite (zlen_slice _ _ _ _ Es) in Hr.
  unfold in_uint in Hr. change (2 ^ (8 * 2)) with 65536 in Hr. lia.
Qed.

Lemma yields_one {A} (P : A -> Prop) (packet : A -> rtcp_packet) o :
  (forall a, P a -> rtcp_ok (packet a)) -> yields P o -> yields (Forall rtcp_ok) (a ← o; Ok [packet a]).
Proof. intros H Ho. eapply yields_bind; [exact Ho|]. intros a Ha. constructor; [by apply H|constructor]. Qed.

Lemma ParseTyped_safe m len : bytes m -> packet_length m = Ok len -> len <= zlen m ->
  yields (Forall rtcp_ok) (ParseTyped m len).
Proof.
  intros Hm Hlen Hl. pose proof (packet_length_range m len Hm Hlen). unfold ParseTyped, header_packetType.
  destruct (get1_in_bounds m 1) as (t & ->); [lia|]. ostep.
  destruct (t =? SR).
  { destruct (ParseSenderReportPacket_safe m len) as (rs & -> & Hrs & Hn); [lia|lia|]. ostep.
    destruct (header_count_reads m Hm) as (count & -> & _); [lia|]. ostep.
    destruct (0 <? count); [|by constructor].
    assert (0 <= SenderReportPacketSize rs) as Hs.
    { unfold SenderReportPacketSize, CommonHeaderSize, SenderReportSize. clear. induction rs; cbn [foldr]; lia. }
    pose proof (ParseReceiverReportPacket_safe m Hm len _ Hs Hl) as Hr.
    destruct (ParseReceiverReportPacket _ _ _) as [[ssrc rr]|e]; cbn in Hr; [|subst e; by constructor].
    constructor; [done|]. by constructor. }
  destruct (t =? RR).
  { pose proof (ParseReceiverReportPacket_safe m Hm len 0 (Z.le_refl 0) Hl) as Hr.
    destruct (ParseReceiverReportPacket _ _ _) as [[ssrc rr]|e]; cbn in Hr |- *; [|auto].
    constructor; [done|constructor]. }
  destruct (t =? SDES); [eapply yields_one, returns_yields, ParseSdesPacket_safe; [by intros|done|lia]|].
  destruct (t =? BYE); [eapply yields_one, ParseByePacket_safe; [by intros|done|lia]|].
  destruct (t =? RTPFB); [by eapply yields_one, ParseFeedbackRtp_safe|].
  destruct (t =? PSFB); [by eapply yields_one, ParseFeedbackPs_safe|].
  destruct (t =? XR); [|done].
  pose proof (ParseExtendedReportPacket_safe m Hm len Hl) as Hr.
  destruct (ParseExtendedReportPacket _ _) as [[ssrc l]|e]; cbn in Hr |- *; [|auto]. constructor; [done|constructor].
Qed.

Lemma IsRtcp_returns m len : len <= zlen m -> exists b, IsRtcp m len = Ok b /\ (b = true -> 4 <= len).
Proof.
  intros Hl. unfold IsRtcp, CommonHeaderSize, header_version, header_packetType.
  destruct (Z.ltb_spec len 4); [by exists false|].
  destruct (get1_in_bounds m 0) as (b & ->); [lia|]. ostep. destruct (negb _); [by exists false|].
  destruct (negb _); [by exists false|]. destruct (get1_in_bounds m 1) as (t & ->); [lia|]. ostep. by eexists.
Qed.

Lemma parse_packets_safe fuel : forall m, bytes m -> (length m <= fuel)%nat ->
  returns (Forall rtcp_ok) (parse_packets fuel m (zlen m)).
Proof.
  induction fuel as [|fuel IH]; intros m Hm Hf; cbn [parse_packets].
  { destruct m; [by apply returns_Ok|cbn in Hf; lia]. }
  destruct (Z.ltb_spec 0 (zlen m)); [|by apply returns_Ok].
  destruct (IsRtcp_returns m (zlen m)) as (b & -> & H4); [lia|]. ostep. destruct b; [|by apply returns_Ok].
  specialize (H4 eq_refl). cbn [negb].
  assert (exists len, packet_length m = Ok len) as [len Hlen].
  { unfold packet_length, header_length. destruct (Get2Bytes_in_bounds m 2) as (v & -> & _); [lia..|]. by eexists. }
  pose proof (packet_length_range m len Hm Hlen). rewrite Hlen. ostep.
  destruct (Z.ltb_spec (zlen m) len); [by apply returns_Ok|].
  pose proof (ParseTyped_safe m len Hm Hlen) as Hp. destruct (ParseTyped m len) as [ps|e].
  - assert (zlen m - len = zlen (drop (Z.to_nat len) m)) as -> by (unfold zlen in *; rewrite length_drop; lia).
    eapply returns_bind; [apply IH|].
    + by apply Forall_drop.
    + rewrite length_drop. unfold zlen in *. lia.
    + intros rest Hrest. apply returns_Ok. apply Forall_app. split; [by apply Hp|done].
  - cbn in Hp. rewrite Hp by done. by apply returns_Ok.
Qed.

From S2P Require Export RtcpFeedbackFacts.

(** * The bytes of a packet *)

Definition reason_bytes (reason : list Z) : list Z := match reason with [] => [] | _ => [zlen reason] ++ reason end.

Definition bye_content (p : bye_packet) : list Z :=
  common_bytes (zlen (bye_ssrcs p)) BYE (ByePacketSize p) ++ concat (be_bytes 4 <$> bye_ssrcs p) ++
  reason_bytes (bye_reason p).

Definition psfb_bytes (p : psfb_packet) : list Z :=
  match p with
  | FeedbackPsPli h => feedback_bytes h PSFB 12
  | FeedbackPsSli h items => items_bytes SliItemSize sli_bytes h PSFB items
  | FeedbackPsRpsi h items => items_bytes RpsiItemSize rpsi_bytes h PSFB items
  | FeedbackPsFir h items | FeedbackPsTst h items => items_bytes SsrcWordSize ssrc_word_bytes h PSFB items
  | FeedbackPsVbcm h items => []
  | FeedbackPsLei h items => items_bytes LeiItemSize (be_bytes 4) h PSFB items
  | FeedbackPsAfb p => afb_bytes p
  end.

Definition rtpfb_bytes (p : rtpfb_packet) : list Z :=
  match p with
  | FeedbackRtpNack h items | FeedbackRtpTllei h items => items_bytes NackItemSize item_bytes h RTPFB items
  | FeedbackRtpTmmb h items => items_bytes TmmbItemSize tmmb_bytes h RTPFB items
  | FeedbackRtpSrReq h => feedback_bytes h RTPFB 12
  | FeedbackRtpEcn h items => items_bytes EcnItemSize ecn_bytes h RTPFB items
  | FeedbackRtpTransport p => []
  end.

Definition packet_bytes (p : rtcp_packet) : list Z :=
  match p with
  | SenderReportPacket rs => common_bytes 0 SR (SenderReportPacketSize rs) ++ concat (sr_bytes <$> rs)
  | ReceiverReportPacket ssrc rs =>
      common_bytes (zlen rs) RR (ReceiverReportPacketSize rs) ++ be_bytes 4 ssrc ++ concat (rr_bytes <$> rs)
  | SdesPacket chunks => common_bytes (zlen chunks) SDES (SdesPacketSize chunks) ++ concat (sdes_chunk_bytes <$> chunks)
  | Bye p => bye_content p ++ padding (zlen (bye_content p))
  | FeedbackRtp p => rtpfb_bytes p
  | FeedbackPs p => psfb_bytes p
  | ExtendedReportPacket ssrc blocks =>
      common_bytes 0 XR (ExtendedReportPacketSize blocks) ++ be_bytes 4 ssrc ++ concat (block_bytes <$> blocks)
  end.

(** * Packets that are read back

    The message type of a feedback packet is that of its class.  Left out are
    VBCM packets and transport-wide feedback, whose parts are not all in the
    packet, and what the parser is known not to read back: TMMB items that are
    not correct, chunks of SDES whose end is not marked, DLRR blocks of several
    receivers, counts above 31. *)

Definition psfb_readable (p : psfb_packet) : Prop :=
  match p with
  | FeedbackPsPli h => messageType h = PLI
  | FeedbackPsSli h _ => messageType h = SLI
  | FeedbackPsRpsi h _ => messageType h = RPSI
  | FeedbackPsFir h _ => messageType h = FIR
  | FeedbackPsTst h _ => messageType h = TSTR \/ messageType h = TSTN
  | FeedbackPsVbcm _ _ => False
  | FeedbackPsLei h _ => messageType h = PSLEI
  | FeedbackPsAfb (Remb p as afb) => messageType (remb_header p) = AFB
  | FeedbackPsAfb (Afb h _ as afb) => messageType h = AFB /\ afb_readable afb
  end.

Definition rtpfb_readable (p : rtpfb_packet) : Prop :=
  match p with
  | FeedbackRtpNack h _ => messageType h = NACK
  | FeedbackRtpTmmb h items =>
      (messageType h = TMMBR \/ messageType h = TMMBN) /\ Forall (fun i => tmmb_isCorrect i = true) items
  | FeedbackRtpSrReq h => messageType h = SR_REQ
  | FeedbackRtpTllei h _ => messageType h = TLLEI
  | FeedbackRtpEcn h _ => messageType h = ECN
  | FeedbackRtpTransport _ => False
  end.

Definition readable_packet (p : rtcp_packet) : Prop :=
  match p with
  | SenderReportPacket rs => length rs = 1%nat
  | ReceiverReportPacket _ rs => zlen rs <= 31
  | SdesPacket chunks => zlen chunks <= 31 /\ chunks_readable chunks
  | Bye p => zlen (bye_ssrcs p) <= 31
  | FeedbackRtp p => rtpfb_readable p
  | FeedbackPs p => psfb_readable p
  | ExtendedReportPacket _ blocks => Forall block_readable blocks
  end.

(** What has to be known of each packet. *)
Record wired (p : rtcp_packet) : Prop := {
  wd_emits : emits (SerializePacket p) (packet_bytes p);
  wd_size : RtcpSize p = Ok (zlen (packet_bytes p));
  wd_words : (4 | zlen (packet_bytes p));
  wd_bytes : bytes (packet_bytes p);
  wd_header : exists count type rest, packet_bytes p = common_bytes count type (zlen (packet_bytes p)) ++ rest /\
    in_uint 5 count /\ 192 <= type <= 223;
  wd_parse : forall m, bytes m -> zlen (packet_bytes p) <= 262144 -> at_ m 0 (packet_bytes p) ->
    ParseTyped m (zlen (packet_bytes p)) = Ok [p]
}.

(** * Packets of items *)

Lemma zlen_common_bytes count type size : zlen (common_bytes count type size) = 4.
Proof. reflexivity. Qed.

Lemma bytes_common_bytes count type size : in_uint 5 count -> in_uint 8 type -> bytes (common_bytes count type size).
Proof.
  intros Hc Ht. unfold common_bytes, bytes. apply Forall_app. split; [|apply bytes_be_bytes].
  assert (forallb (fun c => Z.lor 128 (Z.land (u8 c) 31) <? 256) (seqZ 0 32) = true) as H by by vm_compute.
  pose proof (forall_below 32 _ H count Hc) as H'. apply Z.ltb_lt in H'.
  constructor; [|constructor; [by apply wrap_range|constructor]]. split; [|exact H'].
  apply Z.lor_nonneg. split; [done|]. apply Z.land_nonneg. by right.
Qed.

Lemma bytes_feedback_bytes h type size : header_ok h -> in_uint 8 type -> bytes (feedback_bytes h type size).
Proof.
  intros (H1 & H2 & H3) Ht. unfold feedback_bytes, bytes. rewrite !Forall_app.
  split_and!; [by apply bytes_common_bytes|apply bytes_be_bytes..].
Qed.

Lemma bytes_concat {A} (Bytes : A -> list Z) (ok : A -> Prop) l :
  (forall a, ok a -> bytes (Bytes a)) -> Forall ok l -> bytes (concat (Bytes <$> l)).
Proof. intros H. induction 1 as [|a l Ha Hl IH]; [constructor|]. cbn. apply Forall_app. split; [by apply H|done]. Qed.

Section items.
Context {A : Type} (ParseItem : list Z -> Z -> Z -> outcome (option A)) (ItemSize : A -> Z)
  (SerializeItem : A -> list Z -> Z -> outcome (list Z * Z)) (ItemBytes : A -> list Z) (ok : A -> Prop).
Hypothesis item_emits : forall i, ok i -> emits (SerializeItem i) (ItemBytes i).
Hypothesis item_size : forall i, ok i -> zlen (ItemBytes i) = ItemSize i.
Hypothesis item_pos : forall i, ok i -> 0 < ItemSize i.
Hypothesis item_words : forall i, ok i -> (4 | ItemSize i).
Hypothesis item_bytes_ok : forall i, ok i -> bytes (ItemBytes i).
Hypothesis item_reads : forall m, bytes m -> reads_back m ParseItem ItemSize ItemBytes ok.

Context (p : rtcp_packet) (h : feedback_header) (type : Z) (items : list A).
Hypothesis Hheader : header_ok h.
Hypothesis Hitems : Forall ok items.
Hypothesis Htype : 192 <= type <= 223.
Hypothesis Hserialize : SerializePacket p = SerializeItems ItemSize SerializeItem h type items.
Hypothesis Hsize : RtcpSize p = Ok (ItemsSize ItemSize items).
Hypothesis Hbytes : packet_bytes p = items_bytes ItemSize ItemBytes h type items.
(** The type and the message type lead to the parser of the items. *)
Hypothesis Hparse : forall m len, header_packetType m = Ok type -> header_count m = Ok (messageType h) -> 12 <= len ->
  ParseItems ParseItem ItemSize m len = Ok (h, items) -> ParseTyped m len = Ok [p].

Lemma items_wired : wired p.
Proof.
  assert (zlen (packet_bytes p) = ItemsSize ItemSize items) as Hz.
  { rewrite Hbytes. by apply (zlen_items_bytes _ _ ok). }
  assert ((4 | zlen (packet_bytes p))) as Hwords.
  { rewrite Hz. unfold ItemsSize. apply Z.divide_add_r; [by exists 3|]. clear Hparse Hbytes Hsize Hserialize Hz.
    induction Hitems as [|i l Hi Hl IH]; [by exists 0|]. cbn [foldr]. apply Z.divide_add_r; auto. }
  assert (12 <= zlen (packet_bytes p)) as H12.
  { rewrite Hbytes. unfold items_bytes. rewrite zlen_app.
    change (zlen (feedback_bytes h type (ItemsSize ItemSize items))) with 12.
    pose proof (zlen_nonneg (concat (ItemBytes <$> items))). lia. }
  split; [| |done| | |].
  - rewrite Hserialize, Hbytes. by apply (SerializeItems_emits _ _ _ ok).
  - by rewrite Hz.
  - rewrite Hbytes. unfold items_bytes. apply Forall_app. split; [|by apply (bytes_concat _ ok)].
    apply bytes_feedback_bytes; [done|unfold in_uint; lia].
  - exists (messageType h), type, ((be_bytes 4 (senderSsrc h) ++ be_bytes 4 (mediaSsrc h)) ++ concat (ItemBytes <$> items)).
    split; [|split; [apply Hheader|done]]. rewrite Hz, Hbytes. unfold items_bytes, feedback_bytes. by rewrite <- !app_assoc.
  - intros m Hm Hmax Hat. rewrite Hbytes in Hat. rewrite Hz in *. pose proof Hheader as (Ht & Hs & Hme).
    pose proof Hat as Hat'. unfold items_bytes, feedback_bytes in Hat'. rewrite <- app_assoc, at_app in Hat'.
    destruct Hat' as [Hc _]. destruct (at_packet m Hm (messageType h) type _ Ht Htype Hwords ltac:(lia) Hc) as (_ & _ & E3 & E4).
    apply Hparse; [done|done|done|]. apply (ParseItems_spec _ _ ItemBytes ok item_size item_pos) with (type := type); try done.
    intros m' off len i Hm'. by apply item_reads.
Qed.
End items.

(** * Feedback packets *)

Section dispatch.
Context (m : list Z) (len count : Z).
Hypothesis Hcount : header_count m = Ok count.
Hypothesis Hlen : 12 <= len.

Lemma ParseTyped_PSFB p : header_packetType m = Ok PSFB -> ParseFeedbackPs m len = Ok p -> ParseTyped m len = Ok [FeedbackPs p].
Proof. intros Ht E. unfold ParseTyped. rewrite Ht. ostep. cbn. by rewrite E. Qed.

Lemma ParseTyped_RTPFB p : header_packetType m = Ok RTPFB -> ParseFeedbackRtp m len = Ok p -> ParseTyped m len = Ok [FeedbackRtp p].
Proof. intros Ht E. unfold ParseTyped. rewrite Ht. ostep. cbn. by rewrite E. Qed.

(** The parser that the message type selects. *)
Lemma ParseFeedbackPs_count : ParseFeedbackPs m len =
  (if count =? PLI then h ← ParseNoItems m len; Ok (FeedbackPsPli h)
   else if count =? SLI then of_items FeedbackPsSli (ParsePsItems ParseSliItem always_correct SliItemSize m len)
   else if count =? RPSI then of_items FeedbackPsRpsi (ParsePsItems ParseRpsiItem rpsi_isCorrect RpsiItemSize m len)
   else if count =? FIR then of_items FeedbackPsFir (ParsePsItems ParseSsrcWord always_correct SsrcWordSize m len)
   else if (count =? TSTR) || (count =? TSTN) then
     of_items FeedbackPsTst (ParsePsItems ParseSsrcWord always_correct SsrcWordSize m len)
   else if count =? VBCM then of_items FeedbackPsVbcm (ParseVbcm m len)
   else if count =? PSLEI then of_items FeedbackPsLei (ParsePsItems ParseLeiItem always_correct LeiItemSize m len)
   else if count =? AFB then p ← ParseAfb m len; Ok (FeedbackPsAfb p)
   else Err Rejected).
Proof. unfold ParseFeedbackPs. rewrite (proj2 (Z.ltb_ge _ _)) by exact Hlen. rewrite Hcount. done. Qed.

Lemma ParseFeedbackRtp_count : ParseFeedbackRtp m len =
  (if count =? NACK then of_items FeedbackRtpNack (ParseNack m len)
   else if (count =? TMMBR) || (count =? TMMBN) then of_items FeedbackRtpTmmb (ParseItems ParseTmmbItem TmmbItemSize m len)
   else if count =? SR_REQ then h ← ParseNoItems m len; Ok (FeedbackRtpSrReq h)
   else if count =? TLLEI then of_items FeedbackRtpTllei (ParseItems ParseNackItem NackItemSize m len)
   else if count =? ECN then of_items FeedbackRtpEcn (ParseItems ParseEcnItem EcnItemSize m len)
   else if count =? TCC then p ← ParseTransport m len; Ok (FeedbackRtpTransport p)
   else Err Rejected).
Proof. unfold ParseFeedbackRtp. rewrite (proj2 (Z.ltb_ge _ _)) by exact Hlen. rewrite Hcount. done. Qed.
End dispatch.

(** [Forall] of both what a parsed item is and what makes it readable. *)
Lemma Forall_both {A} (P Q : A -> Prop) l : Forall P l -> Forall Q l -> Forall (fun a => P a /\ Q a) l.
Proof. intros. by apply Forall_and. Qed.

Ltac fields_bytes := unfold bytes; repeat first
  [ apply Forall_app; split | apply bytes_be_bytes | apply Forall_nil; done | assumption
  | apply Forall_cons; split; [assumption|] ].

Lemma bytes_ssrc_word i : ssrc_word_ok i -> bytes (ssrc_word_bytes i).
Proof. intros _. unfold ssrc_word_bytes. cbn [concat]. fields_bytes. Qed.
Lemma bytes_rpsi i : rpsi_ok i -> bytes (rpsi_bytes i).
Proof. intros (H1 & H2 & H3 & _). unfold rpsi_bytes. cbn [concat app]. fields_bytes. Qed.
Lemma bytes_ecn i : ecn_ok i -> bytes (ecn_bytes i).
Proof. intros _. unfold ecn_bytes. cbn [concat]. fields_bytes. Qed.
Lemma bytes_tmmb i : bytes (tmmb_bytes i).
Proof. unfold tmmb_bytes. cbn [concat]. fields_bytes. Qed.

Ltac ps_dispatch Hd := intros m len Hpt Hcount H12 E; apply ParseTyped_PSFB; [done|];
  rewrite (ParseFeedbackPs_count m len _ Hcount H12), Hd; cbn; unfold ParsePsItems, of_items; by rewrite E.

Ltac rtp_dispatch Hd := intros m len Hpt Hcount H12 E; apply ParseTyped_RTPFB; [done|];
  rewrite (ParseFeedbackRtp_count m len _ Hcount H12), Hd; cbn; unfold ParseNack, of_items; by rewrite E.

Lemma no_items_wired p h type : header_ok h -> 192 <= type <= 223 ->
  SerializePacket p = SerializeNoItems h type -> RtcpSize p = Ok 12 -> packet_bytes p = feedback_bytes h type 12 ->
  (forall m, bytes m -> header_packetType m = Ok type -> header_count m = Ok (messageType h) ->
    ParseFeedbackHeader m = Ok h -> ParseTyped m 12 = Ok [p]) -> wired p.
Proof.
  intros Hh Htype Hser Hsize Hb Hparse. assert (zlen (packet_bytes p) = 12) as Hz by by rewrite Hb.
  split; rewrite ?Hz; [| |by exists 3| | |].
  - rewrite Hser, Hb. apply SerializeFeedback_emits.
  - done.
  - rewrite Hb. apply bytes_feedback_bytes; [done|unfold in_uint; lia].
  - exists (messageType h), type, (be_bytes 4 (senderSsrc h) ++ be_bytes 4 (mediaSsrc h)).
    rewrite Hb. split; [done|split; [apply Hh|done]].
  - intros m Hm Hmax Hat. rewrite Hb in Hat. destruct Hh as (Ht & Hs & Hme). pose proof Hat as Hat'.
    unfold feedback_bytes in Hat'. apply at_app in Hat' as [Hc _].
    destruct (at_packet m Hm (messageType h) type 12 Ht Htype ltac:(by exists 3) ltac:(lia) Hc) as (_ & _ & E3 & E4).
    apply Hparse; [done..|]. by apply (at_feedback m Hm h type 12).
Qed.

Lemma sli_items_wired h items : header_ok h -> messageType h = SLI -> Forall sli_ok items -> wired (FeedbackPs (FeedbackPsSli h items)).
Proof.
  intros Hh Ht Hi. apply (items_wired (ParseCorrect ParseSliItem always_correct) SliItemSize SerializeSliItem sli_bytes sli_ok) with
    (h := h) (type := PSFB) (items := items); try done; try (by intros ? _; exists 1).
  - apply sli_emits.
  - intros. apply bytes_be_bytes.
  - intros m Hm. apply correct_reads; [done|by apply sli_reads].
  - ps_dispatch Ht.
Qed.

Lemma rpsi_items_wired h items : header_ok h -> messageType h = RPSI ->
  Forall (fun i => rpsi_ok i /\ rpsi_isCorrect i = true) items -> wired (FeedbackPs (FeedbackPsRpsi h items)).
Proof.
  intros Hh Ht Hi. apply (items_wired (ParseCorrect ParseRpsiItem rpsi_isCorrect) RpsiItemSize SerializeRpsiItem rpsi_bytes
    (fun i => rpsi_ok i /\ rpsi_isCorrect i = true)) with (h := h) (type := PSFB) (items := items); try done; try (by intros ? _; exists 2).
  - intros i [(_ & _ & _ & Hl & _) _]. by apply rpsi_emits.
  - intros i [(_ & _ & _ & Hl & _) _]. unfold rpsi_bytes. cbn [concat app]. by rewrite app_nil_r, !zlen_cons, Hl.
  - intros i [Hok _]. by apply bytes_rpsi.
  - intros m Hm. apply correct_reads; [by intros i [_ Hc]|]. intros off len i [Hok _]. by apply rpsi_reads.
  - ps_dispatch Ht.
Qed.

Lemma fir_items_wired h items : header_ok h -> messageType h = FIR -> Forall ssrc_word_ok items ->
  wired (FeedbackPs (FeedbackPsFir h items)).
Proof.
  intros Hh Ht Hi. apply (items_wired (ParseCorrect ParseSsrcWord always_correct) SsrcWordSize SerializeSsrcWord ssrc_word_bytes
    ssrc_word_ok) with (h := h) (type := PSFB) (items := items); try done; try (by intros ? _; exists 2).
  - intros. apply ssrc_word_emits.
  - apply bytes_ssrc_word.
  - intros m Hm. apply correct_reads; [done|by apply ssrc_word_reads].
  - ps_dispatch Ht.
Qed.

Lemma tst_items_wired h items : header_ok h -> messageType h = TSTR \/ messageType h = TSTN -> Forall ssrc_word_ok items ->
  wired (FeedbackPs (FeedbackPsTst h items)).
Proof.
  intros Hh Ht Hi. apply (items_wired (ParseCorrect ParseSsrcWord always_correct) SsrcWordSize SerializeSsrcWord ssrc_word_bytes
    ssrc_word_ok) with (h := h) (type := PSFB) (items := items); try done; try (by intros ? _; exists 2).
  - intros. apply ssrc_word_emits.
  - apply bytes_ssrc_word.
  - intros m Hm. apply correct_reads; [done|by apply ssrc_word_reads].
  - destruct Ht as [Ht|Ht]; ps_dispatch Ht.
Qed.

Lemma lei_items_wired h items : header_ok h -> messageType h = PSLEI -> Forall (in_uint 32) items ->
  wired (FeedbackPs (FeedbackPsLei h items)).
Proof.
  intros Hh Ht Hi. apply (items_wired (ParseCorrect ParseLeiItem always_correct) LeiItemSize SerializeSsrc (be_bytes 4)
    (in_uint 32)) with (h := h) (type := PSFB) (items := items); try done; try (by intros ? _; exists 1).
  - intros. apply lei_emits.
  - intros. apply bytes_be_bytes.
  - intros m Hm. apply correct_reads; [done|by apply lei_reads].
  - ps_dispatch Ht.
Qed.

Lemma nack_items_wired h items : header_ok h -> messageType h = NACK -> Forall item_ok items ->
  wired (FeedbackRtp (FeedbackRtpNack h items)).
Proof.
  intros Hh Ht Hi. apply (items_wired ParseNackItem NackItemSize SerializeNackItem item_bytes item_ok) with
    (h := h) (type := RTPFB) (items := items); try done; try (by intros ? _; exists 1).
  - intros. apply nack_item_emits.
  - intros. unfold item_bytes. fields_bytes.
  - intros m Hm. by apply nack_reads.
  - rtp_dispatch Ht.
Qed.

Lemma tllei_items_wired h items : header_ok h -> messageType h = TLLEI -> Forall item_ok items ->
  wired (FeedbackRtp (FeedbackRtpTllei h items)).
Proof.
  intros Hh Ht Hi. apply (items_wired ParseNackItem NackItemSize SerializeNackItem item_bytes item_ok) with
    (h := h) (type := RTPFB) (items := items); try done; try (by intros ? _; exists 1).
  - intros. apply nack_item_emits.
  - intros. unfold item_bytes. fields_bytes.
  - intros m Hm. by apply nack_reads.
  - rtp_dispatch Ht.
Qed.

Lemma ecn_items_wired h items : header_ok h -> messageType h = ECN -> Forall ecn_ok items ->
  wired (FeedbackRtp (FeedbackRtpEcn h items)).
Proof.
  intros Hh Ht Hi. apply (items_wired ParseEcnItem EcnItemSize SerializeEcnItem ecn_bytes ecn_ok) with
    (h := h) (type := RTPFB) (items := items); try done; try (by intros ? _; exists 5).
  - intros. apply ecn_emits.
  - apply bytes_ecn.
  - intros m Hm. by apply ecn_reads.
  - rtp_dispatch Ht.
Qed.

Lemma tmmb_items_wired h items : header_ok h -> messageType h = TMMBR \/ messageType h = TMMBN ->
  Forall (fun i => tmmb_ok i /\ tmmb_isCorrect i = true) items -> wired (FeedbackRtp (FeedbackRtpTmmb h items)).
Proof.
  intros Hh Ht Hi. apply (items_wired ParseTmmbItem TmmbItemSize SerializeTmmbItem tmmb_bytes
    (fun i => tmmb_ok i /\ tmmb_isCorrect i = true)) with (h := h) (type := RTPFB) (items := items); try done; try (by intros ? _; exists 2).
  - apply tmmb_emits.
  - intros. apply bytes_tmmb.
  - intros m Hm. by apply tmmb_reads.
  - destruct Ht as [Ht|Ht]; rtp_dispatch Ht.
Qed.

Lemma pli_wired h : header_ok h -> messageType h = PLI -> wired (FeedbackPs (FeedbackPsPli h)).
Proof.
  intros Hh Ht. apply (no_items_wired _ h PSFB); try done. intros m Hm Hpt Hcount E. apply ParseTyped_PSFB; [done|].
  rewrite (ParseFeedbackPs_count m 12 _ Hcount), Ht by done. cbn -[ParseNoItems]. change (ParseNoItems m 12) with (ParseFeedbackHeader m). by rewrite E.
Qed.

Lemma sr_req_wired h : header_ok h -> messageType h = SR_REQ -> wired (FeedbackRtp (FeedbackRtpSrReq h)).
Proof.
  intros Hh Ht. apply (no_items_wired _ h RTPFB); try done. intros m Hm Hpt Hcount E. apply ParseTyped_RTPFB; [done|].
  rewrite (ParseFeedbackRtp_count m 12 _ Hcount), Ht by done. cbn -[ParseNoItems]. change (ParseNoItems m 12) with (ParseFeedbackHeader m). by rewrite E.
Qed.

Definition afb_header (p : afb_packet) : feedback_header := match p with Remb p => remb_header p | Afb h _ => h end.

Lemma afb_bytes_fields p : afb_bytes p =
  feedback_bytes (afb_header p) PSFB (AfbSize p) ++ match p with Remb p => remb_fields p | Afb _ data => data end.
Proof. by destruct p. Qed.

Lemma bytes_remb_fields p : remb_ok p -> bytes (remb_fields p).
Proof.
  intros Hp. destruct (remb_split p Hp) as (_ & Hm & He & _). destruct Hp as (_ & _ & Hn & _).
  unfold remb_fields. cbv zeta. destruct (split_of 18 (remb_bitrate p)) as [m e]. cbn [fst snd concat app] in *.
  unfold bytes. apply Forall_app. split; [apply bytes_be_bytes|]. constructor; [done|]. constructor.
  - unfold in_uint in *. assert (0 <= m / 65536 < 4); [split; [apply Z.div_pos; lia|apply Z.div_lt_upper_bound; lia]|lia].
  - constructor; [by apply wrap_range|]. constructor; [by apply wrap_range|]. apply Forall_app. split; [|constructor].
    apply (bytes_concat _ (fun _ => True)); [intros; apply bytes_be_bytes|by apply Forall_true].
Qed.

Lemma afb_wired p : afb_ok p -> afb_readable p -> messageType (afb_header p) = AFB -> wired (FeedbackPs (FeedbackPsAfb p)).
Proof.
  intros Hp Hr Ht. assert (header_ok (afb_header p)) as Hh by (destruct p; apply Hp).
  assert (zlen (afb_bytes p) = AfbSize p) as Hz.
  { rewrite afb_bytes_fields, zlen_app. change (zlen (feedback_bytes _ _ _)) with 12.
    destruct p as [p|h data]; [|done]. rewrite zlen_remb_fields. cbn [AfbSize]. unfold RembSize, CommonHeaderSize, FeedbackHeaderSize. lia. }
  assert ((4 | AfbSize p)) as Hwords.
  { destruct p as [p|h data]; cbn [AfbSize].
    - exists (5 + zlen (remb_ssrcs p)). unfold RembSize, CommonHeaderSize, FeedbackHeaderSize. lia.
    - apply Z.divide_add_r; [by exists 3|apply Hr]. }
  assert (12 <= AfbSize p) as H12.
  { rewrite <- Hz, afb_bytes_fields, zlen_app. change (zlen (feedback_bytes _ _ _)) with 12.
    match goal with |- context [zlen ?l] => pose proof (zlen_nonneg l) end. lia. }
  split; cbn [SerializePacket SerializeFeedbackPs packet_bytes psfb_bytes RtcpSize FeedbackPsSize]; rewrite ?Hz; [|done|done| | |].
  - by apply afb_emits.
  - rewrite afb_bytes_fields. apply Forall_app. split; [by apply bytes_feedback_bytes|].
    destruct p as [p|h data]; [by apply bytes_remb_fields|apply Hp].
  - rewrite afb_bytes_fields. unfold feedback_bytes. eexists (messageType (afb_header p)), PSFB, _.
    split; [by rewrite <- !app_assoc|]. split; [apply Hh|done].
  - intros m Hm Hmax Hat. pose proof Hat as Hat'. rewrite afb_bytes_fields in Hat'. unfold feedback_bytes in Hat'.
    rewrite <- app_assoc in Hat'. apply at_app in Hat' as [Hc _].
    destruct (at_packet m Hm _ PSFB _ (proj1 Hh) ltac:(done) Hwords ltac:(lia) Hc) as (_ & E2 & E3 & E4).
    apply ParseTyped_PSFB; [done|]. rewrite (ParseFeedbackPs_count m _ _ E4), Ht by done. cbn. by rewrite afb_reads.
Qed.

(** * Packets of reports *)

(** A packet that is a common header and a body. *)
Lemma body_wired p count type body : in_uint 5 count -> 192 <= type <= 223 ->
  let size := 4 + zlen body in
  packet_bytes p = common_bytes count type size ++ body -> RtcpSize p = Ok size -> (4 | size) -> bytes body ->
  emits (SerializePacket p) (packet_bytes p) ->
  (forall m, bytes m -> size <= 262144 -> header_packetType m = Ok type -> header_count m = Ok count -> at_ m 4 body ->
    ParseTyped m size = Ok [p]) -> wired p.
Proof.
  intros Hc Ht size Hb Hsize Hwords Hbytes Hem Hparse. pose proof (zlen_nonneg body).
  assert (zlen (packet_bytes p) = size) as Hz by (rewrite Hb, zlen_app; done).
  split; rewrite ?Hz; [done|done|done| | |].
  - rewrite Hb. apply Forall_app. split; [|done]. apply bytes_common_bytes; [done|unfold in_uint; lia].
  - eexists count, type, body. by rewrite Hb.
  - intros m Hm Hmax Hat. rewrite Hb in Hat. apply at_app in Hat as [Hh Hat].
    destruct (at_packet m Hm count type size Hc Ht Hwords ltac:(lia) Hh) as (_ & _ & E3 & E4). by apply Hparse.
Qed.

Lemma bytes_sr r : bytes (sr_bytes r).
Proof. unfold sr_bytes. cbn [concat]. fields_bytes. Qed.

Lemma sr_wired r : sr_ok r -> wired (SenderReportPacket [r]).
Proof.
  intros Hr. apply (body_wired _ 0 SR (sr_bytes r)); try done.
  - by exists 7.
  - apply bytes_sr.
  - cbn [SerializePacket packet_bytes]. apply (emits_ext _ (fun m off => '(m, off) ← SerializeCommon 0 SR (SenderReportPacketSize [r]) m off;
      serialize_each SerializeSenderReport [r] m off)); [done|].
    apply emits_app; [apply SerializeCommon_emits|].
    apply (serialize_each_emits _ _ (fun _ => True)); [intros; apply sr_emits|by apply Forall_true].
  - intros m Hm _ Et Ec Hat. unfold ParseTyped. rewrite Et. ostep. change (SR =? SR) with true. cbn iota.
    unfold ParseSenderReportPacket. change (u64 (4 + zlen (sr_bytes r) - CommonHeaderSize)) with 24.
    rewrite (sr_reads m Hm CommonHeaderSize 24 r Hr Hat) by done. ostep. by rewrite Ec.
Qed.

(** Sizes that are sums. *)
Lemma fold_reports {A} (l : list A) n : foldr (fun _ k => n + k) 0 l = n * zlen l.
Proof. induction l as [|a l IH]; [by rewrite Z.mul_0_r|]. cbn [foldr]. rewrite IH, zlen_cons. lia. Qed.

Lemma zlen_reports {A} (Bytes : A -> list Z) n l : (forall a, zlen (Bytes a) = n) -> zlen (concat (Bytes <$> l)) = n * zlen l.
Proof.
  intros H. rewrite (zlen_written (fun _ => n) Bytes (fun _ => True)) by (auto using Forall_true). apply fold_reports.
Qed.

Lemma zlen_rr r : zlen (rr_bytes r) = ReceiverReportSize.
Proof. unfold rr_bytes. cbn [concat]. by rewrite !zlen_app, !zlen_be_bytes. Qed.

Lemma bytes_rr r : rr_ok r -> bytes (rr_bytes r).
Proof. intros (H1 & H2 & _). unfold rr_bytes. cbn [concat app]. fields_bytes. Qed.

Lemma length_zlen {A} (l : list A) : length l = Z.to_nat (zlen l).
Proof. unfold zlen. lia. Qed.

Lemma rr_wired ssrc rs : in_uint 32 ssrc -> Forall rr_ok rs -> zlen rs <= 31 -> wired (ReceiverReportPacket ssrc rs).
Proof.
  intros Hs Hrs Hn. pose proof (zlen_nonneg rs).
  assert (zlen (be_bytes 4 ssrc ++ concat (rr_bytes <$> rs)) = 4 + 24 * zlen rs) as Hb.
  { by rewrite zlen_app, zlen_be_bytes, (zlen_reports _ _ _ zlen_rr). }
  assert (ReceiverReportPacketSize rs = 4 + zlen (be_bytes 4 ssrc ++ concat (rr_bytes <$> rs))) as Hsize.
  { rewrite Hb. unfold ReceiverReportPacketSize. rewrite fold_reports. unfold CommonHeaderSize, ReceiverReportSize. lia. }
  apply (body_wired _ (zlen rs) RR (be_bytes 4 ssrc ++ concat (rr_bytes <$> rs))); rewrite <- ?Hsize; try done.
  - unfold in_uint. lia.
  - exists (2 + 6 * zlen rs). lia.
  - apply Forall_app. split; [apply bytes_be_bytes|by apply (bytes_concat _ rr_ok); [apply bytes_rr|]].
  - apply emits_app; [apply SerializeCommon_emits|].
    writes. apply emits_at_tail; [intros; lia|].
    apply (serialize_each_emits _ _ (fun _ => True)); [intros; apply rr_emits|by apply Forall_true].
  - intros m Hm _ Et Ec Hat. unfold ParseTyped. rewrite Et. ostep. change (RR =? SR) with false. change (RR =? RR) with true.
    cbn iota. unfold ParseReceiverReportPacket, CommonHeaderSize. rewrite (proj2 (Z.ltb_ge _ _)) by lia.
    apply at_next4 in Hat as [-> Hat]; [|done|done]. ostep. rewrite Ec. ostep. change (0 =? 0) with true. cbn iota zeta.
    rewrite <- length_zlen. rewrite (counted_items_written _ _ rr_bytes rr_ok m) with (l := rs); [done| | | |done|done|exact Hat|].
    + intros. apply zlen_rr.
    + done.
    + intros off len r Hr. by apply rr_reads.
    + rewrite (zlen_reports _ _ _ zlen_rr). unfold ReceiverReportSize. lia.
Qed.

Lemma bytes_sdes_chunk c : sdes_chunk_ok c -> bytes (sdes_chunk_bytes c).
Proof.
  intros [Hs Hi]. unfold sdes_chunk_bytes, sdes_chunk_content, bytes. rewrite !Forall_app. split_and!.
  - apply bytes_be_bytes.
  - apply (bytes_concat _ sdes_item_ok); [|done]. intros i (H1 & _ & H3 & H4). unfold sdes_item_bytes. cbn [concat app]. fields_bytes.
  - by apply Forall_replicate.
Qed.

Lemma sdes_wired chunks : Forall sdes_chunk_ok chunks -> zlen chunks <= 31 -> chunks_readable chunks -> wired (SdesPacket chunks).
Proof.
  intros Hc Hn Hr. pose proof (zlen_nonneg chunks). set (body := concat (sdes_chunk_bytes <$> chunks)).
  assert (zlen body = foldr (fun c n => SdesChunkSize c + n) 0 chunks) as Hb.
  { apply (zlen_written _ _ sdes_chunk_ok); [apply zlen_sdes_chunk|done]. }
  assert (SdesPacketSize chunks = 4 + zlen body) as Hsize by by rewrite Hb.
  apply (body_wired _ (zlen chunks) SDES body); rewrite <- ?Hsize; try done.
  - unfold in_uint. lia.
  - unfold SdesPacketSize. apply Z.divide_add_r; [by exists 1|]. clear. induction chunks as [|c l IH]; [by exists 0|].
    cbn [foldr]. apply Z.divide_add_r; [apply round4_divides|done].
  - by apply (bytes_concat _ sdes_chunk_ok); [apply bytes_sdes_chunk|].
  - apply emits_app; [apply SerializeCommon_emits|].
    apply (serialize_each_emits _ _ (fun _ => True)); [intros; apply sdes_chunk_emits|by apply Forall_true].
  - intros m Hm _ Et Ec Hat. unfold ParseTyped. rewrite Et. ostep. change (SDES =? SR) with false. change (SDES =? RR) with false.
    change (SDES =? SDES) with true. cbn iota. unfold ParseSdesPacket. rewrite Ec. ostep. rewrite <- length_zlen, Hsize.
    by rewrite (sdes_chunks_read m Hm).
Qed.

Lemma xr_wired ssrc blocks : in_uint 32 ssrc -> Forall block_ok blocks -> Forall block_readable blocks ->
  wired (ExtendedReportPacket ssrc blocks).
Proof.
  intros Hs Hb Hr. pose proof (Forall_both _ _ _ Hb Hr) as Hall. set (body := be_bytes 4 ssrc ++ concat (block_bytes <$> blocks)).
  assert (zlen (concat (block_bytes <$> blocks)) = foldr (fun b n => ReportBlockSize b + n) 0 blocks) as Hz.
  { apply (zlen_written _ _ (fun _ => True)); [intros; apply zlen_block|by apply Forall_true]. }
  assert (ExtendedReportPacketSize blocks = 4 + zlen body) as Hsize.
  { unfold body. rewrite zlen_app, Hz, zlen_be_bytes. unfold ExtendedReportPacketSize, CommonHeaderSize. lia. }
  apply (body_wired _ 0 XR body); rewrite <- ?Hsize; try done.
  - unfold ExtendedReportPacketSize. apply Z.divide_add_r; [by exists 2|]. clear. induction blocks as [|b l IH]; [by exists 0|].
    cbn [foldr]. apply Z.divide_add_r; [|done]. destruct b as [s f|infos]; [by exists 3|]. cbn [ReportBlockSize].
    rewrite fold_reports. exists (1 + 3 * zlen infos). unfold BlockHeaderSize, SsrcInfoSize. lia.
  - apply Forall_app. split; [apply bytes_be_bytes|]. apply (bytes_concat _ block_ok); [|done].
    intros [s f|infos] _; cbn [block_bytes]; unfold block_header_bytes; cbn [concat app].
    + unfold bytes. constructor; [done|]. constructor; [done|]. fields_bytes.
    + unfold bytes. constructor; [done|]. constructor; [done|]. apply Forall_app. split; [fields_bytes|].
      apply (bytes_concat _ (fun _ => True)); [|by apply Forall_true]. intros i _. unfold info_bytes. cbn [concat]. fields_bytes.
  - apply emits_app; [apply SerializeCommon_emits|]. writes. apply emits_at_tail; [intros; lia|].
    apply (serialize_each_emits _ _ (fun _ => True)); [intros; apply block_emits|by apply Forall_true].
  - intros m Hm _ Et Ec Hat. unfold ParseTyped. rewrite Et. ostep. cbn -[ParseExtendedReportPacket ExtendedReportPacketSize].
    unfold ParseExtendedReportPacket, CommonHeaderSize. pose proof (zlen_nonneg (concat (block_bytes <$> blocks))).
    unfold body in Hat, Hsize. rewrite zlen_app, zlen_be_bytes in Hsize.
    rewrite (proj2 (Z.ltb_ge _ _)) by lia.
    apply at_next4 in Hat as [-> Hat]; [|done|done]. ostep.
    rewrite (parse_items_written _ _ block_bytes (fun b => block_ok b /\ block_readable b) m) with (l := blocks);
      [done| | | |done|done|exact Hat|lia|].
    + intros. apply zlen_block.
    + intros b _. pose proof (ReportBlockSize_pos b). lia.
    + intros off len b Hb'. by apply block_reads.
    + left. lia.
Qed.

(** ** BYE *)

Lemma bye_content_fields p : bye_content p =
  common_bytes (zlen (bye_ssrcs p)) BYE (ByePacketSize p) ++ concat (be_bytes 4 <$> bye_ssrcs p) ++ reason_bytes (bye_reason p).
Proof. done. Qed. 

Lemma zlen_bye_content p : round4 (zlen (bye_content p)) = ByePacketSize p.
Proof.
  rewrite bye_content_fields, !zlen_app, zlen_common_bytes, (zlen_reports _ 4) by apply zlen_be_bytes.
  unfold ByePacketSize, CommonHeaderSize, reason_bytes. cbv zeta.
  destruct (bye_reason p) as [|b l]; [change (zlen []) with 0|rewrite zlen_app, zlen_one]; f_equal; lia.
Qed.

Lemma bytes_bye_content p : bye_ok p -> zlen (bye_ssrcs p) <= 31 -> bytes (bye_content p).
Proof.
  intros (Hs & Hb & Hn) H31. rewrite bye_content_fields. pose proof (zlen_nonneg (bye_ssrcs p)).
  apply Forall_app. split; [apply bytes_common_bytes; [unfold in_uint; lia|done]|]. apply Forall_app. split.
  - apply (bytes_concat _ (fun _ => True)); [intros; apply bytes_be_bytes|by apply Forall_true].
  - unfold reason_bytes. destruct (bye_reason p); [constructor|]. constructor; [exact Hn|exact Hb].
Qed.

Lemma reason_emits reason : in_uint 8 (zlen reason) -> emits (SerializeReason reason) (reason_bytes reason).
Proof.
  intros Hn. unfold SerializeReason. destruct reason as [|b l]; [apply emits_nil|]. cbn [reason_bytes].
  rewrite wrap_small by exact Hn. rewrite bool_decide_false by done. unfold Set1Byte. writes.
  rewrite <- (app_nil_r (b :: l)) at 1. apply emits_at_write; [intros; lia|]. apply emits_at_done. intros; lia.
Qed.

Lemma bye_emits p : bye_ok p -> emits (SerializePacket (Bye p)) (packet_bytes (Bye p)).
Proof.
  intros (_ & _ & Hn). cbn [SerializePacket packet_bytes].
  apply (emits_ext _ (fun m start => '(m, off) ← ('(m, off) ← SerializeCommon (zlen (bye_ssrcs p)) BYE (ByePacketSize p) m start;
    '(m, off) ← serialize_each SerializeSsrc (bye_ssrcs p) m off; SerializeReason (bye_reason p) m off); pad_zeros start m off)).
  { intros m start. unfold SerializeByePacket. destruct (SerializeCommon _ _ _ m start) as [[m1 o1]|]; [|done]. ostep.
    by destruct (serialize_each _ _ m1 o1) as [[m2 o2]|]. }
  apply emits_pad. rewrite bye_content_fields. apply emits_app; [apply SerializeCommon_emits|]. apply emits_app.
  - apply (serialize_each_emits _ _ (fun _ => True)); [intros; apply lei_emits|by apply Forall_true].
  - by apply reason_emits.
Qed.

Lemma bye_loop_read m len l : bytes m -> Forall (in_uint 32) l -> forall off, 0 <= off -> at_ m off (concat (be_bytes 4 <$> l)) ->
  off + 4 * zlen l <= len -> bye_loop (length l) m len off = Ok (l, off + 4 * zlen l).
Proof.
  intros Hm. induction 1 as [|s l Hs Hl IH]; intros off H0 Hat Hlen; cbn [fmap list_fmap concat length bye_loop] in *.
  { by rewrite Z.add_0_r. }
  rewrite zlen_cons in *. pose proof (zlen_nonneg l). rewrite (proj2 (Z.ltb_lt _ _)), (proj2 (Z.ltb_ge _ _)) by lia.
  apply at_next4 in Hat as [-> Hat]; [|done|done]. ostep. rewrite IH by (done || lia). ostep. do 2 f_equal. lia.
Qed.

Lemma bye_wired p : bye_ok p -> zlen (bye_ssrcs p) <= 31 -> wired (Bye p).
Proof.
  intros Hp H31. pose proof Hp as (Hs & Hb & Hn). pose proof (zlen_nonneg (bye_ssrcs p)) as H0.
  set (rest := concat (be_bytes 4 <$> bye_ssrcs p) ++ reason_bytes (bye_reason p)).
  assert (packet_bytes (Bye p) = common_bytes (zlen (bye_ssrcs p)) BYE (ByePacketSize p) ++ rest ++ padding (zlen (bye_content p))) as E.
  { cbn [packet_bytes]. rewrite bye_content_fields at 1. unfold rest. by rewrite <- !app_assoc. }
  assert (zlen (bye_content p) = 4 + zlen rest) as Hc by by rewrite bye_content_fields, zlen_app.
  assert (4 + zlen (rest ++ padding (zlen (bye_content p))) = ByePacketSize p) as Hz.
  { rewrite <- zlen_bye_content, <- round4_padding, <- zlen_padding, zlen_app. lia. }
  assert (zlen rest = 4 * zlen (bye_ssrcs p) + zlen (reason_bytes (bye_reason p))) as Hrest.
  { unfold rest. by rewrite zlen_app, (zlen_reports _ 4) by apply zlen_be_bytes. }
  apply (body_wired _ (zlen (bye_ssrcs p)) BYE (rest ++ padding (zlen (bye_content p)))); rewrite ?Hz; try done.
  - unfold in_uint. lia.
  - rewrite <- zlen_bye_content. apply round4_divides.
  - apply Forall_app. split; [|by apply Forall_replicate].
    pose proof (bytes_bye_content p Hp H31) as Hbc. rewrite bye_content_fields in Hbc. by apply Forall_app in Hbc as [_ ?].
  - by apply bye_emits.
  - intros m Hm _ Et Ec Hat. unfold ParseTyped. rewrite Et. ostep. change (BYE =? SR) with false. change (BYE =? RR) with false.
    change (BYE =? SDES) with false. change (BYE =? BYE) with true. cbn iota. unfold ParseByePacket, CommonHeaderSize.
    rewrite Ec. ostep. rewrite <- length_zlen. rewrite zlen_app in Hz. pose proof (zlen_nonneg (padding (zlen (bye_content p)))).
    pose proof (zlen_nonneg (reason_bytes (bye_reason p))).
    unfold rest in Hat. rewrite <- app_assoc in Hat. apply at_app in Hat as [Hat1 Hat].
    rewrite (bye_loop_read m _ _ Hm Hs) by (done || lia). ostep. rewrite (zlen_reports _ 4) in Hat by apply zlen_be_bytes.
    set (off := 4 + 4 * zlen (bye_ssrcs p)) in *. unfold Get1Byte.
    destruct (bye_reason p) as [|b l] eqn:Er; cbn [reason_bytes] in *.
    + destruct (Z.ltb_spec off (ByePacketSize p)) as [Hlt|]; [|destruct p; cbn in *; by subst].
      exfalso. assert (zlen (bye_content p) = off) as Eoff.
      { change (zlen []) with 0 in Hrest. lia. }
      rewrite <- zlen_bye_content, Eoff, round4_spec in Hlt. subst off.
      pose proof (Z.div_mod (4 + 4 * zlen (bye_ssrcs p) + 3) 4). pose proof (Z.mod_pos_bound (4 + 4 * zlen (bye_ssrcs p) + 3) 4). lia.
    + rewrite zlen_app, zlen_one in *. pose proof (zlen_nonneg (b :: l)).
      rewrite (proj2 (Z.ltb_lt _ _)) by lia. cbn [app] in Hat. apply at_one in Hat as [-> Hat]. ostep. cbv zeta.
      rewrite (proj2 (Z.leb_le _ _)) by lia. apply (at_app _ _ (b :: l)) in Hat as [Hat _]. unfold at_ in Hat. rewrite Hat.
      ostep. destruct p; cbn in *; by subst.
Qed.

(** * Every packet *)

Lemma packet_wired p : rtcp_ok p -> readable_packet p -> wired p.
Proof.
  destruct p as [rs|ssrc rs|chunks|p|p|p|ssrc blocks]; cbn [rtcp_ok readable_packet].
  - intros [Hrs _] Hn. destruct rs as [|r [|? ?]]; [done| |done]. apply sr_wired. by apply Forall_cons in Hrs as [? _].
  - intros [? ?] ?. by apply rr_wired.
  - intros ? [? ?]. by apply sdes_wired.
  - apply bye_wired.
  - destruct p as [h l|h l|h|h l|h l|p]; cbn [rtpfb_ok rtpfb_readable]; [| | | | |done].
    + intros [? ?] ?. by apply nack_items_wired.
    + intros [? ?] [? ?]. apply tmmb_items_wired; [done|done|by apply Forall_both].
    + apply sr_req_wired.
    + intros [? ?] ?. by apply tllei_items_wired.
    + intros [? ?] ?. by apply ecn_items_wired.
  - destruct p as [h|h l|h l|h l|h l|h l|h l|p]; cbn [psfb_ok psfb_readable]; try done.
    + apply pli_wired.
    + intros [? ?] ?. by apply sli_items_wired.
    + intros [? ?] ?. by apply rpsi_items_wired.
    + intros [? ?] ?. by apply fir_items_wired.
    + intros [? ?] ?. by apply tst_items_wired.
    + intros [? ?] ?. by apply lei_items_wired.
    + intros Hp Hr. destruct p as [p|h data]; [by apply (afb_wired (Remb p))|]. destruct Hr as [? ?]. by apply afb_wired.
  - intros [? ?] ?. by apply xr_wired.
Qed.
