(* ===== verification/RtcpPacketProps.v ===== *)
(** RTCP datagrams: the properties. *)

From S2P Require Export RtcpPacketFacts.

(** * What is written is read back *)

(** The bytes [bs] are a packet, from which [ps] are made. *)
Record framed (bs : list Z) (ps : list rtcp_packet) : Prop := {
  fr_words : (4 | zlen bs);
  fr_bytes : bytes bs;
  fr_header : exists count type rest, bs = common_bytes count type (zlen bs) ++ rest /\ in_uint 5 count /\ 192 <= type <= 223;
  fr_parse : forall m, bytes m -> zlen bs <= 262144 -> at_ m 0 bs -> ParseTyped m (zlen bs) = Ok ps
}.

Lemma wired_framed p : wired p -> framed (packet_bytes p) [p].
Proof. intros [? ? ? ? ? ?]. by split. Qed.

Lemma parse_packets_framed l : Forall (fun f => framed f.1 f.2) l -> zlen (concat l.*1) <= 262144 ->
  forall fuel, (length (concat l.*1) <= fuel)%nat ->
  parse_packets fuel (concat l.*1) (zlen (concat l.*1)) = Ok (concat l.*2).
Proof.
  induction 1 as [|[bs ps] l Hp Hps IH]; intros Hmax fuel Hf; [by destruct fuel|].
  assert (bytes (concat ((bs, ps) :: l).*1)) as Hb.
  { apply (bytes_concat fst (fun f => framed f.1 f.2)); [intros f Hfr; apply (fr_bytes _ _ Hfr)|by constructor]. }
  cbn [fmap list_fmap concat fst snd] in *. set (rest := concat l.*1) in *.
  destruct (fr_header _ _ Hp) as (count & type & tail & Eh & Hc & Ht).
  assert (at_ (bs ++ rest) 0 bs) as Hat by (eapply at_app, at_whole).
  pose proof Hat as Hat'. rewrite Eh, at_app in Hat'. destruct Hat' as [Hh _]. rewrite <- Eh in Hh.
  assert (4 <= zlen bs) as H4.
  { rewrite Eh at 1. rewrite zlen_app, zlen_common_bytes. pose proof (zlen_nonneg tail). lia. }
  pose proof (zlen_nonneg rest). rewrite zlen_app in *. rewrite length_app in Hf.
  destruct (at_packet _ Hb count type (zlen bs) Hc Ht (fr_words _ _ Hp) ltac:(lia) Hh) as (E1 & E2 & _ & _).
  destruct fuel as [|fuel]; [unfold zlen in H4; lia|]. cbn [parse_packets].
  rewrite (proj2 (Z.ltb_lt _ _)) by lia. rewrite E1 by lia. ostep. cbn [negb]. rewrite E2. ostep.
  rewrite (proj2 (Z.ltb_ge _ _)) by lia. rewrite (fr_parse _ _ Hp _ Hb ltac:(lia) Hat).
  replace (zlen bs + zlen rest - zlen bs) with (zlen rest) by lia.
  assert (drop (Z.to_nat (zlen bs)) (bs ++ rest) = rest) as -> by (unfold zlen; rewrite Nat2Z.id; apply drop_app_length).
  rewrite IH; [done|lia|unfold zlen in H4; lia].
Qed.

Lemma parse_packets_wired ps : Forall wired ps -> zlen (concat (packet_bytes <$> ps)) <= 262144 ->
  ParsePacket (concat (packet_bytes <$> ps)) (zlen (concat (packet_bytes <$> ps))) = Ok ps.
Proof.
  intros Hw Hmax. pose proof (parse_packets_framed ((fun p => (packet_bytes p, [p])) <$> ps)) as H.
  rewrite <- !list_fmap_compose in H. unfold compose in H. cbn [fst snd] in H. unfold ParsePacket.
  rewrite H; [|by apply Forall_fmap; eapply Forall_impl; [exact Hw|]; intros; apply wired_framed|done|done].
  f_equal. clear. induction ps as [|p ps IH]; [done|]. cbn. f_equal. exact IH.
Qed.

Lemma sizes_wired ps sizes : Forall wired ps -> Forall2 (fun p n => RtcpSize p = Ok n) ps sizes ->
  zlen (concat (packet_bytes <$> ps)) = foldr Z.add 0 sizes.
Proof.
  intros Hw Hs. induction Hs as [|p n ps sizes Hn Hs IH]; [done|]. apply Forall_cons in Hw as [Hp Hw].
  cbn [fmap list_fmap concat foldr]. rewrite zlen_app, IH by done. rewrite (wd_size p Hp) in Hn. congruence.
Qed.

(** C19: RTCP packets of the shapes in [readable_packet] survive the wire: any number of
    them put into a datagram one after the other, in any order, are what [Packet::Parse]
    makes of it.  Their fields fit, and the shapes are: sender reports of one report;
    receiver reports, SDES and BYE of at most 31 reports, chunks or SSRCs; SDES
    chunks that are followed by another have their end marked; extended reports whose DLRR
    blocks have at most one receiver; feedback of every type but VBCM and transport-wide
    (for which see [transport_feedback_reports]), with the message type of its class, TMMB
    items that are correct, and application feedback of whole words that does not begin
    like REMB.  The datagram has at most 65536 bytes. *)
Theorem rtcp_round_trip ps sizes buffer :
  Forall (fun p => rtcp_ok p /\ readable_packet p) ps -> Forall2 (fun p n => RtcpSize p = Ok n) ps sizes ->
  foldr Z.add 0 sizes <= zlen buffer -> zlen buffer <= BufferSize ->
  exists buffer' datagram,
    serialize_each SerializePacket ps buffer 0 = Ok (buffer', foldr Z.add 0 sizes) /\
    slice buffer' 0 (foldr Z.add 0 sizes) = Ok datagram /\
    ParsePacket datagram (foldr Z.add 0 sizes) = Ok ps.
Proof.
  intros Hps Hs Hl Hmax. assert (Forall wired ps) as Hw.
  { eapply Forall_impl; [exact Hps|]. intros p [? ?]. by apply packet_wired. }
  pose proof (sizes_wired ps sizes Hw Hs) as Hz. rewrite <- Hz in *.
  destruct (serialize_each_emits SerializePacket packet_bytes wired ps wd_emits Hw buffer 0) as (b & E & W); [done|lia|].
  exists b, (concat (packet_bytes <$> ps)). split; [exact E|]. split; [by apply slice_write_same in W|].
  apply parse_packets_wired; [done|unfold BufferSize in Hmax; lia].
Qed.

(** C21: [Packet::Parse] is safe.  Whatever bytes arrive, it ends, never reads
    outside of them, and every packet it makes has fields within their ranges. *)
Theorem rtcp_parse_safe datagram : bytes datagram ->
  exists packets, ParsePacket datagram (zlen datagram) = Ok packets /\ Forall rtcp_ok packets.
Proof. intros Hb. exact (parse_packets_safe _ datagram Hb (le_n _)). Qed.

(** * Bitrates *)

(** A REMB packet says how much can be sent, or slightly less.  The
    bitrate, any number of 64 bits, is read back rounded down by less than one
    part in 131072; the SSRCs are read back as they are. *)
Theorem remb_round_trip h bitrate ssrcs buffer :
  header_ok h -> messageType h = AFB -> in_uint 64 bitrate -> Forall (in_uint 32) ssrcs -> zlen ssrcs <= 255 ->
  20 + 4 * zlen ssrcs <= zlen buffer ->
  exists buffer' datagram bitrate',
    SerializeRemb (RembPacket h bitrate ssrcs) buffer 0 = Ok (buffer', 20 + 4 * zlen ssrcs) /\
    slice buffer' 0 (20 + 4 * zlen ssrcs) = Ok datagram /\
    ParsePacket datagram (20 + 4 * zlen ssrcs) = Ok [FeedbackPs (FeedbackPsAfb (Remb (RembPacket h bitrate' ssrcs)))] /\
    bitrate' <= bitrate /\ (bitrate - bitrate') * 131072 <= bitrate.
Proof.
  intros Hh Ht Hb Hs Hn Hl. pose proof (zlen_nonneg ssrcs).
  destruct (bitrate_split 18 ltac:(done) bitrate Hb ltac:(done)) as (m & e & E & Hm & He & Hv & Hle & Hacc & _).
  set (p' := RembPacket h (bitrate_of m e) ssrcs).
  assert (remb_ok p') as Hp'.
  { split; [done|]. split; [done|]. split; [split; cbn; lia|]. by exists m, e. }
  assert (SerializeRemb (RembPacket h bitrate ssrcs) buffer 0 = SerializeRemb p' buffer 0) as ->.
  { unfold SerializeRemb. cbn [remb_header remb_bitrate remb_ssrcs p']. change 262143 with (2 ^ 18 - 1).
    change (RembSize (RembPacket h bitrate ssrcs)) with (RembSize p'). rewrite E.
    destruct (bitrate_valid_exact m e) as [-> _]; [apply Hm|done|done|].
    by rewrite (bitrate_loop_again 18 ltac:(done) bitrate m e Hb ltac:(done) E). }
  assert (wired (FeedbackPs (FeedbackPsAfb (Remb p')))) as Hw by by apply (afb_wired (Remb p')).
  assert (zlen (packet_bytes (FeedbackPs (FeedbackPsAfb (Remb p')))) = 20 + 4 * zlen ssrcs) as Hz.
  { transitivity (RembSize p'); [by pose proof (wd_size _ Hw) as [= ->]|]. unfold RembSize, CommonHeaderSize, FeedbackHeaderSize. cbn [p' remb_ssrcs]. lia. }
  destruct (remb_emits p' Hp' buffer 0) as (b & Eb & W); [done|exact (eq_ind_r (fun n => 0 + n <= _) Hl Hz)|].
  exists b, (remb_bytes p'), (bitrate_of m e). change (zlen (remb_bytes p') = 20 + 4 * zlen ssrcs) in Hz.
  rewrite Hz in Eb. split; [exact Eb|]. split; [apply slice_write_same in W; by rewrite Hz in W|].
  split; [|split; [done|exact Hacc]].
  pose proof (parse_packets_wired [FeedbackPs (FeedbackPsAfb (Remb p'))]) as Hparse.
  cbn [fmap list_fmap concat packet_bytes psfb_bytes afb_bytes] in Hparse. rewrite app_nil_r, Hz in Hparse.
  apply Hparse; [by constructor|lia].
Qed.

(** * Concrete datagrams *)

(** The conditions on the fields of a concrete packet. *)
Ltac check_fields := repeat first [done | apply Forall_cons_2 | apply Forall_nil_2 | split].

(** A sender report, a description, and feedback of four kinds. *)
Definition example_packets : list rtcp_packet := [
  SenderReportPacket [SenderReport 1111 3874000000 2147483648 90000 77 65536];
  SdesPacket [SdesChunk 1111 [SdesItem CNAME [97; 98; 99]]];
  FeedbackPs (FeedbackPsFir (FeedbackHeader FIR 1111 2222) [FirItem 2222 7]);
  FeedbackPs (FeedbackPsAfb (Remb (RembPacket (FeedbackHeader AFB 1111 0) (bitrate_of 200000 3) [2222; 3333])));
  FeedbackRtp (FeedbackRtpNack (FeedbackHeader NACK 1111 2222) [(500, 257)]);
  Bye (ByePacket [1111] [98; 121; 101])
].

Lemma rtcp_round_trip_witness :
  exists buffer' datagram,
    serialize_each SerializePacket example_packets (replicate 200 0) 0 = Ok (buffer', 120) /\
    slice buffer' 0 120 = Ok datagram /\ ParsePacket datagram 120 = Ok example_packets.
Proof.
  apply (rtcp_round_trip example_packets [28; 16; 20; 28; 16; 12] (replicate 200 0)).
  - check_fields. by exists 200000, 3.
  - by repeat constructor.
  - by vm_compute.
  - by vm_compute.
Defined.

Lemma rtcp_parse_safe_witness :
  exists packets, ParsePacket ([128; 200] ++ replicate 40 255) 42 = Ok packets /\ Forall rtcp_ok packets.
Proof. apply (rtcp_parse_safe ([128; 200] ++ replicate 40 255)). by apply (bool_decide_unpack _); vm_compute. Defined.

Lemma remb_round_trip_witness :
  exists buffer' datagram bitrate',
    SerializeRemb (RembPacket (FeedbackHeader AFB 1111 0) 1234567891 [2222]) (replicate 24 0) 0 = Ok (buffer', 24) /\
    slice buffer' 0 24 = Ok datagram /\
    ParsePacket datagram 24 = Ok [FeedbackPs (FeedbackPsAfb (Remb (RembPacket (FeedbackHeader AFB 1111 0) bitrate' [2222])))] /\
    bitrate' <= 1234567891 /\ (1234567891 - bitrate') * 131072 <= 1234567891.
Proof.
  apply (remb_round_trip (FeedbackHeader AFB 1111 0) 1234567891 [2222] (replicate 24 0)); try done.
  by repeat constructor.
Defined.
