(* ===== verification/RtcpCompound.v ===== *)
(** Compound packets: what the worker sends is what the other end reads, up to 31
    receiver reports. *)

From S2P Require Export RtcpPacketProps.

(** * Patching what was written *)

(** The count and the length of the common header. *)
Lemma patch_count m count count' type size body m1 : in_uint 5 count -> in_uint 5 count' ->
  write m 0 (common_bytes count type size ++ body) = Ok m1 ->
  set_header_count m1 count' = write m 0 (common_bytes count' type size ++ body).
Proof.
  intros Hc Hc' W. unfold common_bytes in *. rewrite <- !app_assoc in *. cbn [app] in *.
  set (rest := u8 type :: _) in *. unfold set_header_count. rewrite (get1_write _ _ _ _ 0 W).
  rewrite zlen_cons. pose proof (zlen_nonneg rest). rewrite (proj2 (Z.ltb_lt _ _)) by lia. cbn [andb Z.leb Z.compare].
  match goal with |- context [get1 (?x :: ?l) (0 - 0)] => change (get1 (x :: l) (0 - 0)) with (@Ok Z x) end. ostep.
  assert (forallb (fun c => Z.land (Z.lor 128 (Z.land (u8 c) 31)) 224 =? 128) (seqZ 0 32) = true) as Hall by by vm_compute.
  pose proof (forall_below 32 _ Hall count Hc) as E. apply Z.eqb_eq in E. rewrite E.
  by apply (write_patch m 0 [] [Z.lor 128 (Z.land (u8 count) 31)] [Z.lor 128 (Z.land (u8 count') 31)] rest).
Qed.

Lemma patch_length m count type size body v m1 : write m 0 (common_bytes count type size ++ body) = Ok m1 ->
  Set2Bytes m1 2 v = write m 0 (common_bytes count type (4 * (v + 1)) ++ body).
Proof.
  intros W. rewrite Set2Bytes_spec. unfold common_bytes in *. rewrite <- !app_assoc in *.
  rewrite (Z.mul_comm 4), Z.div_mul, Z.add_simpl_r by done.
  exact (write_patch m 0 [_; _] (be_bytes 2 (size / 4 - 1)) (be_bytes 2 v) body m1 eq_refl W).
Qed.

(** * Packets of a sender report and receiver reports *)

Definition sr_rr_body (r : sender_report) (rr : list receiver_report) : list Z := sr_bytes r ++ concat (rr_bytes <$> rr).

Definition sr_rr_bytes (r : sender_report) (rr : list receiver_report) : list Z :=
  common_bytes (zlen rr) SR (28 + 24 * zlen rr) ++ sr_rr_body r rr.

Lemma zlen_sr_rr r rr : zlen (sr_rr_bytes r rr) = 28 + 24 * zlen rr.
Proof.
  unfold sr_rr_bytes, sr_rr_body. rewrite !zlen_app, zlen_common_bytes, (zlen_reports _ _ _ zlen_rr).
  change (zlen (sr_bytes r)) with 24. unfold ReceiverReportSize. lia.
Qed.

Lemma sr_rr_framed r rr : sr_ok r -> Forall rr_ok rr -> 0 < zlen rr <= 31 ->
  framed (sr_rr_bytes r rr) [SenderReportPacket [r]; ReceiverReportPacket (sr_ssrc r) rr].
Proof.
  intros Hr Hrr Hn. pose proof (zlen_sr_rr r rr) as Hz. assert ((4 | zlen (sr_rr_bytes r rr))) as Hw.
  { rewrite Hz. exists (7 + 6 * zlen rr). lia. }
  split; [done| | |].
  - apply Forall_app. split; [apply bytes_common_bytes; [unfold in_uint; lia|done]|]. apply Forall_app.
    split; [apply bytes_sr|]. by apply (bytes_concat _ rr_ok); [apply bytes_rr|].
  - eexists (zlen rr), SR, _. rewrite Hz. split; [done|]. unfold in_uint. split; [lia|done].
  - intros m Hm Hmax Hat. rewrite Hz in *. unfold sr_rr_bytes in Hat. apply at_app in Hat as [Hh Hat].
    destruct (at_packet m Hm (zlen rr) SR (28 + 24 * zlen rr)) as (_ & _ & E3 & E4);
      [unfold in_uint; lia|done|done|lia|done|]. rewrite zlen_common_bytes in Hat.
    apply at_app in Hat as [Hsr Hat]. change (0 + 4 + zlen (sr_bytes r)) with 28 in Hat. change (0 + 4) with 4 in Hsr.
    unfold ParseTyped. rewrite E3. ostep. change (SR =? SR) with true. cbn iota.
    unfold ParseSenderReportPacket. rewrite wrap_small by (unfold in_uint, CommonHeaderSize; lia).
    rewrite (sr_reads m Hm CommonHeaderSize _ r Hr Hsr) by (unfold CommonHeaderSize, SenderReportSize; lia). ostep.
    rewrite E4. ostep. rewrite (proj2 (Z.ltb_lt _ _)) by lia. change (SenderReportPacketSize [r]) with 28.
    unfold ParseReceiverReportPacket, CommonHeaderSize. rewrite (proj2 (Z.ltb_ge _ _)) by lia.
    destruct Hr as (Hs & _). unfold sr_bytes in Hsr. cbn [concat] in Hsr. apply at_next4 in Hsr as [-> _]; [|done|done].
    ostep. rewrite E4. ostep. change (28 =? 0) with false. cbn iota zeta. rewrite <- length_zlen.
    rewrite (counted_items_written _ _ rr_bytes rr_ok m) with (l := rr); [done| | | |done|done|exact Hat|].
    + intros. apply zlen_rr.
    + done.
    + intros off len x Hx. by apply rr_reads.
    + rewrite (zlen_reports _ _ _ zlen_rr). unfold ReceiverReportSize. lia.
Qed.

(** * Writing *)

(** The sender report, if there is one, and the receiver reports. *)
Definition compound_head (p : compound_packet) : list Z :=
  match cp_senderReports p, cp_receiverReports p with
  | [], rr => packet_bytes (ReceiverReportPacket 0 rr)
  | r :: _, [] => packet_bytes (SenderReportPacket [r])
  | r :: _, rr => sr_rr_bytes r rr
  end.

Definition compound_tail (p : compound_packet) : list rtcp_packet :=
  (if truthy (zlen (cp_chunks p)) then [SdesPacket (cp_chunks p)] else []) ++
  (match cp_blocks p with [] => [] | blocks => [ExtendedReportPacket 0 blocks] end).

(** What the other end is to make of a compound packet. *)
Definition compound_packets (p : compound_packet) : list rtcp_packet :=
  match cp_senderReports p, cp_receiverReports p with
  | [], rr => [ReceiverReportPacket 0 rr]
  | r :: _, [] => [SenderReportPacket [r]]
  | r :: _, rr => [SenderReportPacket [r]; ReceiverReportPacket (sr_ssrc r) rr]
  end ++ compound_tail p.

(** A compound packet made by the worker: at most one sender report. *)
Definition compound_ok (p : compound_packet) : Prop :=
  (length (cp_senderReports p) <= 1)%nat /\ Forall sr_ok (cp_senderReports p) /\ Forall rr_ok (cp_receiverReports p) /\
  Forall sdes_chunk_ok (cp_chunks p) /\ chunks_readable (cp_chunks p) /\ zlen (cp_chunks p) <= 31 /\
  Forall block_ok (cp_blocks p) /\ Forall block_readable (cp_blocks p).

Lemma compound_tail_wired p : compound_ok p -> Forall wired (compound_tail p).
Proof.
  intros (_ & _ & _ & Hc & Hcr & Hn & Hb & Hbr). unfold compound_tail. apply Forall_app. split.
  - destruct (truthy _); [|constructor]. constructor; [by apply sdes_wired|constructor].
  - destruct (cp_blocks p); [constructor|]. constructor; [by apply xr_wired|constructor].
Qed.

Lemma truthy_nil {A} (l : list A) : truthy (zlen l) = negb (match l with [] => true | _ => false end).
Proof. destruct l; [done|]. unfold truthy. rewrite zlen_cons. pose proof (zlen_nonneg l). by destruct (Z.eqb_spec (1 + zlen l) 0); [lia|]. Qed.

Lemma compound_size p : compound_ok p ->
  CompoundSize p = zlen (compound_head p ++ concat (packet_bytes <$> compound_tail p)).
Proof.
  intros Hp. pose proof (compound_tail_wired p Hp) as Ht. unfold CompoundSize, compound_head, compound_tail, HasSenderReport in *.
  rewrite zlen_app. destruct Hp as (Hn & _).
  assert (forall ssrc rr, zlen (packet_bytes (ReceiverReportPacket ssrc rr)) = ReceiverReportPacketSize rr) as Hrr.
  { intros ssrc rr. cbn [packet_bytes]. rewrite !zlen_app, zlen_common_bytes, zlen_be_bytes, (zlen_reports _ _ _ zlen_rr).
    unfold ReceiverReportPacketSize. rewrite fold_reports. unfold CommonHeaderSize. lia. }
  rewrite fmap_app, concat_app, zlen_app. rewrite Z.add_assoc. f_equal; [f_equal|].
  - destruct (cp_senderReports p) as [|r [|? ?]]; cbn [length] in Hn; [|  |lia].
    + rewrite bool_decide_true by done. cbn [negb]. by rewrite Hrr.
    + rewrite bool_decide_false by done. cbn [negb]. change (SenderReportPacketSize [r]) with 28.
      destruct (cp_receiverReports p) as [|x l]; [done|]. rewrite zlen_sr_rr. unfold ReceiverReportSize. lia.
  - apply Forall_app in Ht as [Ht _]. destruct (truthy _); [|done]. apply Forall_cons in Ht as [Ht _].
    cbn [fmap list_fmap concat]. rewrite app_nil_r. by pose proof (wd_size _ Ht) as [= ->].
  - apply Forall_app in Ht as [_ Ht]. destruct (cp_blocks p); [done|]. apply Forall_cons in Ht as [Ht _].
    cbn [fmap list_fmap concat]. rewrite app_nil_r. by pose proof (wd_size _ Ht) as [= ->].
Qed.

(** The head is written, also when there are too many receiver reports: then
    their count is what 5 bits can hold. *)
Lemma sr_head_written r rr m : in_uint 5 (zlen rr) -> rr <> [] -> 28 + 24 * zlen rr <= zlen m ->
  exists m',
    ('(m, _) ← SerializeSenderReportPacket [r] m 0;
     m ← set_header_count m 0;
     m ← Set2Bytes m 2 ((SenderReportSize + ReceiverReportSize * zlen rr) / 4);
     m ← set_header_count m (zlen rr);
     serialize_each SerializeReceiverReport rr m (SenderReportPacketSize [r])) = Ok (m', 28 + 24 * zlen rr) /\
    write m 0 (sr_rr_bytes r rr) = Ok m'.
Proof.
  intros Hn Hne Hl. unfold in_uint in Hn. assert (emits (SerializePacket (SenderReportPacket [r])) (packet_bytes (SenderReportPacket [r]))) as Hem.
  { cbn [SerializePacket packet_bytes]. apply (emits_ext _ (fun m off => '(m, off) ← SerializeCommon 0 SR (SenderReportPacketSize [r]) m off;
      serialize_each SerializeSenderReport [r] m off)); [done|].
    apply emits_app; [apply SerializeCommon_emits|].
    apply (serialize_each_emits _ _ (fun _ => True)); [intros; apply sr_emits|by apply Forall_true]. }
  destruct (Hem m 0) as (m1 & E1 & W1); [done|change (0 + 28 <= zlen m); lia|]. cbn [SerializePacket] in E1. rewrite E1. ostep.
  cbn [packet_bytes fmap list_fmap concat] in W1. rewrite app_nil_r in W1.
  rewrite (patch_count m 0 0 SR _ _ _ ltac:(done) ltac:(done) W1), W1. ostep.
  rewrite (patch_length m 0 SR _ _ _ _ W1).
  destruct (write_in_bounds m 0 (common_bytes 0 SR (4 * ((SenderReportSize + ReceiverReportSize * zlen rr) / 4 + 1)) ++ sr_bytes r))
    as (m2 & W2); [done|change (0 + 28 <= zlen m); lia|]. rewrite W2. ostep.
  rewrite (patch_count m 0 (zlen rr) SR _ _ _ ltac:(done) ltac:(done) W2).
  destruct (write_in_bounds m 0 (common_bytes (zlen rr) SR (4 * ((SenderReportSize + ReceiverReportSize * zlen rr) / 4 + 1)) ++ sr_bytes r))
    as (m3 & W3); [done|change (0 + 28 <= zlen m); lia|]. rewrite W3. ostep.
  assert (4 * ((SenderReportSize + ReceiverReportSize * zlen rr) / 4 + 1) = 28 + 24 * zlen rr) as Esize.
  { unfold SenderReportSize, ReceiverReportSize. replace (24 + 24 * zlen rr) with ((6 + 6 * zlen rr) * 4) by lia.
    rewrite Z.div_mul by done. lia. }
  rewrite Esize in W3. pose proof (zlen_write _ _ _ _ W3) as L3.
  destruct (serialize_each_emits SerializeReceiverReport rr_bytes (fun _ => True) rr (fun r _ => rr_emits r) ltac:(by apply Forall_true)
    m3 28) as (m4 & E4 & W4); [done|rewrite (zlen_reports _ _ _ zlen_rr); unfold ReceiverReportSize; lia|].
  exists m4. change (SenderReportPacketSize [r]) with 28. rewrite E4, (zlen_reports _ _ _ zlen_rr). split; [done|].
  unfold sr_rr_bytes, sr_rr_body. rewrite app_assoc. by apply (write_app m 0 _ _ m3 m4).
Qed.

Lemma rr_emits_packet ssrc rr : emits (SerializeReceiverReportPacket ssrc rr) (packet_bytes (ReceiverReportPacket ssrc rr)).
Proof.
  cbn [packet_bytes]. apply emits_app; [apply SerializeCommon_emits|]. writes. apply emits_at_tail; [intros; lia|].
  apply (serialize_each_emits _ _ (fun _ => True)); [intros; apply rr_emits|by apply Forall_true].
Qed.

Lemma zlen_rr_packet ssrc rr : zlen (packet_bytes (ReceiverReportPacket ssrc rr)) = ReceiverReportPacketSize rr.
Proof.
  cbn [packet_bytes]. rewrite !zlen_app, zlen_common_bytes, zlen_be_bytes, (zlen_reports _ _ _ zlen_rr).
  unfold ReceiverReportPacketSize. rewrite fold_reports. unfold CommonHeaderSize. lia.
Qed.

(** The first part of [CompoundPacket::Serialize]. *)
Definition SerializeHead (p : compound_packet) (m : list Z) : outcome (list Z * Z) :=
  let rr := cp_receiverReports p in
  if HasSenderReport p then
    '(m, _) ← SerializeSenderReportPacket (cp_senderReports p) m 0;
    let off := SenderReportPacketSize (cp_senderReports p) in
    m ← set_header_count m 0;
    if truthy (zlen rr) then
      m ← Set2Bytes m 2 ((SenderReportSize + ReceiverReportSize * zlen rr) / 4);
      m ← set_header_count m (zlen rr);
      serialize_each SerializeReceiverReport rr m off
    else Ok (m, off)
  else
    '(m, _) ← SerializeReceiverReportPacket 0 rr m 0;
    Ok (m, ReceiverReportPacketSize rr).

Lemma head_written p m : (length (cp_senderReports p) <= 1)%nat ->
  (cp_senderReports p <> [] -> in_uint 5 (zlen (cp_receiverReports p))) -> zlen (compound_head p) <= zlen m ->
  exists m', SerializeHead p m = Ok (m', zlen (compound_head p)) /\ write m 0 (compound_head p) = Ok m'.
Proof.
  intros Hn H31 Hl. unfold SerializeHead, compound_head, HasSenderReport in *.
  destruct (cp_senderReports p) as [|r [|? ?]]; cbn [length] in Hn; [| |lia].
  - rewrite bool_decide_true by done. cbn [negb].
    destruct (rr_emits_packet 0 (cp_receiverReports p) m 0) as (m' & E & W); [done|lia|]. exists m'. rewrite E. ostep.
    by rewrite zlen_rr_packet.
  - rewrite bool_decide_false by done. cbn [negb]. destruct (cp_receiverReports p) as [|x l].
    + assert (emits (SerializePacket (SenderReportPacket [r])) (packet_bytes (SenderReportPacket [r]))) as Hem.
      { cbn [SerializePacket packet_bytes]. apply (emits_ext _ (fun m off => '(m, off) ← SerializeCommon 0 SR (SenderReportPacketSize [r]) m off;
          serialize_each SerializeSenderReport [r] m off)); [done|].
        apply emits_app; [apply SerializeCommon_emits|].
        apply (serialize_each_emits _ _ (fun _ => True)); [intros; apply sr_emits|by apply Forall_true]. }
      destruct (Hem m 0) as (m1 & E1 & W1); [done|lia|]. cbn [SerializePacket] in E1. rewrite E1. ostep. cbv zeta.
      pose proof W1 as W1'. cbn [packet_bytes] in W1'. rewrite (patch_count m 0 0 SR _ _ _ ltac:(done) ltac:(done) W1'), W1'.
      ostep. change (truthy (zlen [])) with false. cbn iota. by exists m1.
    + destruct (sr_head_written r (x :: l) m) as (m' & E & W); [by apply H31|done|by rewrite zlen_sr_rr in Hl|].
      exists m'. rewrite zlen_sr_rr. split; [|done]. rewrite truthy_nil. cbn [negb]. exact E.
Qed.

Lemma SerializeCompound_head p m :
  SerializeCompound p m =
    ('(m, off) ← SerializeHead p m;
     '(m, off) ← (if truthy (zlen (cp_chunks p)) then SerializeSdesPacket (cp_chunks p) m off else Ok (m, off));
     '(m, _) ← (match cp_blocks p with [] => Ok (m, off) | blocks => SerializeExtendedReportPacket 0 blocks m off end);
     Ok (m, CompoundPacket (CompoundSize p) (cp_senderReports p) (cp_receiverReports p) (cp_chunks p) (cp_blocks p))).
Proof. reflexivity. Qed.

Lemma SerializeCompound_spec p m : compound_ok p ->
  (cp_senderReports p <> [] -> in_uint 5 (zlen (cp_receiverReports p))) -> CompoundSize p <= zlen m ->
  exists m', SerializeCompound p m =
      Ok (m', CompoundPacket (CompoundSize p) (cp_senderReports p) (cp_receiverReports p) (cp_chunks p) (cp_blocks p)) /\
    write m 0 (compound_head p ++ concat (packet_bytes <$> compound_tail p)) = Ok m'.
Proof.
  intros Hp H31 Hl. rewrite (compound_size p Hp), zlen_app in Hl. pose proof (zlen_nonneg (concat (packet_bytes <$> compound_tail p))).
  pose proof (compound_tail_wired p Hp) as Ht. destruct Hp as [Hn _].
  destruct (head_written p m Hn H31) as (m1 & E1 & W1); [lia|].
  pose proof (serialize_each_emits SerializePacket packet_bytes wired _ wd_emits Ht m1 (zlen (compound_head p))) as Htail.
  destruct Htail as (m2 & E2 & W2); [apply zlen_nonneg|rewrite (zlen_write _ _ _ _ W1); lia|].
  exists m2. split; [|by apply (write_app m 0 _ _ m1 m2)]. rewrite SerializeCompound_head, E1. ostep.
  unfold compound_tail in E2. destruct (truthy (zlen (cp_chunks p))), (cp_blocks p) as [|b bs];
    cbn [app serialize_each SerializePacket] in E2; cbn [mbind outcome_bind] in *.
  - destruct (SerializeSdesPacket _ _ _) as [[m3 o3]|]; [|done]. by injection E2 as -> _.
  - destruct (SerializeSdesPacket _ _ _) as [[m3 o3]|]; [|done]. cbn [mbind outcome_bind] in *.
    destruct (SerializeExtendedReportPacket _ _ _ _) as [[m4 o4]|]; [|done]. by injection E2 as -> _.
  - by injection E2 as -> _.
  - destruct (SerializeExtendedReportPacket _ _ _ _) as [[m4 o4]|]; [|done]. by injection E2 as -> _.
Qed.

(** * Properties *)

Lemma compound_head_framed p : compound_ok p -> zlen (cp_receiverReports p) <= 31 ->
  exists ps, framed (compound_head p) ps /\ compound_packets p = ps ++ compound_tail p.
Proof.
  intros (Hn & Hs & Hr & _) H31. unfold compound_head, compound_packets.
  destruct (cp_senderReports p) as [|r [|? ?]]; cbn [length] in Hn; [| |lia].
  - eexists. split; [apply wired_framed, rr_wired; done|done].
  - apply Forall_cons in Hs as [Hs _]. destruct (cp_receiverReports p) as [|x l].
    + eexists. split; [by apply wired_framed, sr_wired|done].
    + eexists. split; [apply sr_rr_framed; [done|done|]|done]. rewrite zlen_cons in *. pose proof (zlen_nonneg l). lia.
Qed.

(** C20: the reports of a compound packet arrive.  A compound packet that the
    worker makes, of at most one sender report, at most 31 receiver reports,
    chunks of SDES and extended reports, is written with the size it then has,
    and the other end reads the sender report, the receiver reports, attributed
    to the sender of that report, the chunks and the blocks. *)
Theorem compound_round_trip p buffer : compound_ok p -> zlen (cp_receiverReports p) <= 31 ->
  CompoundSize p <= zlen buffer -> zlen buffer <= BufferSize ->
  exists buffer' p' datagram,
    SerializeCompound p buffer = Ok (buffer', p') /\ cp_size p' = CompoundSize p /\
    slice buffer' 0 (CompoundSize p) = Ok datagram /\
    ParsePacket datagram (CompoundSize p) = Ok (compound_packets p).
Proof.
  intros Hp H31 Hl Hmax. pose proof (compound_size p Hp) as Hz. unfold BufferSize in Hmax.
  destruct (SerializeCompound_spec p buffer Hp) as (m' & E & W); [|done|].
  { unfold in_uint. pose proof (zlen_nonneg (cp_receiverReports p)). lia. }
  eexists m', _, _. split; [exact E|]. split; [done|]. rewrite Hz. split; [by apply slice_write_same in W|].
  destruct (compound_head_framed p Hp H31) as (ps & Hf & ->).
  pose proof (parse_packets_framed ((compound_head p, ps) :: ((fun p => (packet_bytes p, [p])) <$> compound_tail p))) as H.
  cbn [fmap list_fmap concat fst snd] in H. change (list_fmap ?f ?l) with (f <$> l) in H.
  rewrite <- !list_fmap_compose in H. unfold compose in H. cbn [fst snd] in H.
  change (fun p => packet_bytes p) with packet_bytes in H.
  unfold ParsePacket. rewrite H; [| |lia|done].
  - do 2 f_equal. clear. induction (compound_tail p) as [|x l IH]; [done|]. cbn. f_equal. exact IH.
  - constructor; [exact Hf|]. apply Forall_fmap. eapply Forall_impl; [by apply compound_tail_wired|]. intros; by apply wired_framed.
Qed.

Lemma common_bytes_count count type size : 0 <= count -> common_bytes count type size = common_bytes (count `mod` 32) type size.
Proof.
  intros Hc. unfold common_bytes. do 3 f_equal. unfold u8. change 31 with (2 ^ 5 - 1). rewrite !land_low_ones by done.
  change (2 ^ 8) with 256. change (2 ^ 5) with 32. Z.div_mod_to_equations. lia.
Qed.

(** Of the receiver reports of one packet, the reader finds as many as their
    number modulo 32. *)
Lemma rr_packet_truncated rr : Forall rr_ok rr ->
  framed (packet_bytes (ReceiverReportPacket 0 rr)) [ReceiverReportPacket 0 (take (Z.to_nat (zlen rr `mod` 32)) rr)].
Proof.
  intros Hrr. pose proof (zlen_rr_packet 0 rr) as Hz. unfold ReceiverReportPacketSize in Hz. rewrite fold_reports in Hz.
  pose proof (zlen_nonneg rr). pose proof (Z.mod_pos_bound (zlen rr) 32 ltac:(done)) as Hc.
  unfold CommonHeaderSize, ReceiverReportSize in Hz.
  assert (packet_bytes (ReceiverReportPacket 0 rr) = common_bytes (zlen rr `mod` 32) RR (zlen (packet_bytes (ReceiverReportPacket 0 rr))) ++
    be_bytes 4 0 ++ concat (rr_bytes <$> rr)) as Eb.
  { rewrite <- common_bytes_count by done. rewrite zlen_rr_packet. done. }
  set (n := Z.to_nat (zlen rr `mod` 32)). assert (Z.of_nat n = zlen rr `mod` 32) as Hn by lia.
  assert (length (take n rr) = n) as Ht.
  { rewrite length_take. pose proof (Z.mod_le (zlen rr) 32). unfold zlen in *. lia. }
  split.
  - rewrite Hz. exists (2 + 6 * zlen rr). lia.
  - rewrite Eb. apply Forall_app. split; [by apply bytes_common_bytes|]. apply Forall_app.
    split; [apply bytes_be_bytes|by apply (bytes_concat _ rr_ok); [apply bytes_rr|]].
  - eexists _, RR, _. split; [exact Eb|]. by unfold in_uint.
  - intros m Hm Hmax Hat. rewrite Eb in Hat. rewrite Hz in *. apply at_app in Hat as [Hh Hat].
    destruct (at_packet m Hm (zlen rr `mod` 32) RR (4 + 4 + 24 * zlen rr)) as (_ & _ & E3 & E4);
      [done|done|exists (2 + 6 * zlen rr); lia|lia|done|]. rewrite zlen_common_bytes in Hat. change (0 + 4) with 4 in Hat.
    unfold ParseTyped. rewrite E3. ostep. change (RR =? SR) with false. change (RR =? RR) with true.
    cbn iota. unfold ParseReceiverReportPacket, CommonHeaderSize. rewrite (proj2 (Z.ltb_ge _ _)) by lia.
    apply at_next4 in Hat as [-> Hat]; [|done|done]. ostep. rewrite E4. ostep. change (0 =? 0) with true. cbn iota zeta. fold n.
    rewrite <- (take_drop n rr), fmap_app, concat_app in Hat. apply at_app in Hat as [Hat _].
    rewrite <- Ht at 1. rewrite (counted_items_written _ _ rr_bytes rr_ok m) with (l := take n rr); [done| | | |by apply Forall_take|done|exact Hat|].
    + intros. apply zlen_rr.
    + done.
    + intros off len r Hr. by apply rr_reads.
    + rewrite (zlen_reports _ _ _ zlen_rr). unfold ReceiverReportSize. unfold zlen in *. rewrite Ht.
      pose proof (Z.mod_le (Z.of_nat (length rr)) 32). lia.
Qed.

(** Receiver reports are lost when there are many.  The count of a
    receiver report packet has 5 bits: of a compound packet with any number of
    receiver reports, and without sender report, chunks and blocks, only the
    first ones are read, as many as the number of reports modulo 32.  Nothing in
    the worker keeps the number below 32, and all of them are written. *)
Theorem receiver_reports_lost rr buffer : Forall rr_ok rr -> 8 + 24 * zlen rr <= zlen buffer -> zlen buffer <= BufferSize ->
  let p := foldl AddReceiverReport new_compound rr in
  exists buffer' p' datagram,
    SerializeCompound p buffer = Ok (buffer', p') /\ cp_size p' = 8 + 24 * zlen rr /\
    slice buffer' 0 (8 + 24 * zlen rr) = Ok datagram /\
    ParsePacket datagram (8 + 24 * zlen rr) = Ok [ReceiverReportPacket 0 (take (Z.to_nat (zlen rr `mod` 32)) rr)].
Proof.
  intros Hrr Hl Hmax p. assert (p = CompoundPacket 0 [] rr [] []) as ->.
  { subst p. cut (forall l l', foldl AddReceiverReport (CompoundPacket 0 [] l [] []) l' = CompoundPacket 0 [] (l ++ l') [] []).
    { intros H. exact (H [] rr). }
    intros l l'. revert l. induction l' as [|x l' IH]; intros l; [by rewrite app_nil_r|]. cbn [foldl].
    unfold AddReceiverReport at 2. cbn. rewrite IH. by rewrite <- app_assoc. }
  set (p := CompoundPacket 0 [] rr [] []).
  assert (compound_ok p) as Hp by (unfold compound_ok; subst p; cbn; split_and!; first [done|lia|constructor]).
  assert (CompoundSize p = 8 + 24 * zlen rr) as Hz.
  { change (CompoundSize p) with (ReceiverReportPacketSize rr + 0 + 0). unfold ReceiverReportPacketSize. rewrite fold_reports.
    unfold CommonHeaderSize, ReceiverReportSize. lia. }
  destruct (SerializeCompound_spec p buffer Hp) as (m' & E & W); [done|lia|].
  eexists m', _, _. split; [exact E|]. split; [done|]. cbn [cp_size] in *. unfold BufferSize in Hmax.
  change (compound_tail p) with (@nil rtcp_packet) in W. cbn [fmap list_fmap concat] in W. rewrite app_nil_r in W.
  change (compound_head p) with (packet_bytes (ReceiverReportPacket 0 rr)) in W.
  pose proof (zlen_rr_packet 0 rr) as Hzb. assert (ReceiverReportPacketSize rr = 8 + 24 * zlen rr) as Hrs.
  { unfold ReceiverReportPacketSize. rewrite fold_reports. unfold CommonHeaderSize, ReceiverReportSize. lia. }
  rewrite Hrs in Hzb.
  apply slice_write_same in W. rewrite Hzb in W. split; [exact W|].
  pose proof (parse_packets_framed [(packet_bytes (ReceiverReportPacket 0 rr), [ReceiverReportPacket 0 (take (Z.to_nat (zlen rr `mod` 32)) rr)])]) as H.
  cbn [fmap list_fmap concat fst snd] in H. rewrite !app_nil_r in H. rewrite Hzb in H.
  unfold ParsePacket. apply H; [|lia|done]. constructor; [|constructor]. cbn [fst snd].
  by apply rr_packet_truncated.
Qed.

(** * Concrete packets *)

Definition example_compound : compound_packet :=
  CompoundPacket 0 [SenderReport 1111 3874000000 2147483648 90000 77 65536]
    [ReceiverReport 2222 12 3 65536 40 0 0; ReceiverReport 3333 0 0 1000 0 5 6]
    [SdesChunk 1111 [SdesItem CNAME [97; 98; 99]]] [ReceiverReferenceTime 3874000000 1; DelaySinceLastRr [SsrcInfo 1 2 3]].

Lemma compound_round_trip_witness :
  exists buffer' p' datagram,
    SerializeCompound example_compound (replicate 200 0) = Ok (buffer', p') /\ cp_size p' = CompoundSize example_compound /\
    slice buffer' 0 (CompoundSize example_compound) = Ok datagram /\
    ParsePacket datagram (CompoundSize example_compound) = Ok (compound_packets example_compound).
Proof.
  apply (compound_round_trip example_compound (replicate 200 0)); [|done|done|done].
  unfold example_compound. check_fields. exact (le_n 1).
Defined.

(** Of 33 reports one arrives. *)
Lemma receiver_reports_lost_witness :
  let r := ReceiverReport 2222 12 3 65536 40 0 0 in
  exists buffer' p' datagram,
    SerializeCompound (foldl AddReceiverReport new_compound (replicate 33 r)) (replicate 1000 0) = Ok (buffer', p') /\
    cp_size p' = 800 /\ slice buffer' 0 800 = Ok datagram /\ ParsePacket datagram 800 = Ok [ReceiverReportPacket 0 [r]].
Proof.
  apply (receiver_reports_lost (replicate 33 (ReceiverReport 2222 12 3 65536 40 0 0)) (replicate 1000 0)); [|done|done].
  by apply Forall_replicate.
Defined.
