(* ===== verification/Floats.v ===== *)
(** Floating point numbers: what the operations of SpecFloat compute, as rational
    numbers.

    [is_val f x] says that the float [f] is the nonnegative rational [x].  The result
    of an operation is the exact one rounded: [rounded prec x r] says that no number
    with [prec] bits lies strictly between [x] and [r].  That is all that is needed
    of rounding to nearest. *)

From Stdlib Require Import QArith Qpower Qround Lqa Floats.SpecFloat.
From S2P Require Export Utils RtpStreamSend.

Local Open Scope Q_scope.

(** * Powers of two *)

Definition bpow (e : Z) : Q := (2 # 1) ^ e.

Lemma bpow_pos e : 0 < bpow e.
Proof. by apply Qpower_0_lt. Qed.

Lemma bpow_add e f : bpow (e + f) == bpow e * bpow f.
Proof. by apply Qpower_plus. Qed.

Lemma bpow_nonneg e : (0 <= e)%Z -> bpow e == inject_Z (2 ^ e).
Proof. intros He. unfold bpow. symmetry. by apply Zpower_Qpower. Qed.

Lemma bpow_1 : bpow 1 == 2.
Proof. done. Qed.

Lemma bpow_succ e : bpow (e + 1) == 2 * bpow e.
Proof. rewrite bpow_add, bpow_1. ring. Qed.

Lemma bpow_le e f : (e <= f)%Z -> bpow e <= bpow f.
Proof.
  intros Hef. replace f with (e + (f - e))%Z by lia. rewrite bpow_add, (bpow_nonneg (f - e)) by lia.
  assert (1 <= inject_Z (2 ^ (f - e))) as H1.
  { change 1 with (inject_Z 1). rewrite <- Zle_Qle. pose proof (Z.pow_pos_nonneg 2 (f - e)). lia. }
  pose proof (bpow_pos e). nra.
Qed.

Lemma bpow_lt_inv e f : bpow e < bpow f -> (e < f)%Z.
Proof.
  intros H. destruct (Z.lt_ge_cases e f) as [|Hfe]; [done|]. apply bpow_le in Hfe. lra.
Qed.

(** The number with mantissa [m] and exponent [e]. *)
Definition dyad (m e : Z) : Q := inject_Z m * bpow e.

Lemma num_le m n e : (m <= n)%Z <-> dyad m e <= dyad n e.
Proof.
  unfold dyad. pose proof (bpow_pos e). rewrite Zle_Qle. split; [intros; nra|].
  intros Hm. apply Qnot_lt_le. intros Hn. nra.
Qed.

Lemma num_lt m n e : (m < n)%Z <-> dyad m e < dyad n e.
Proof. rewrite Z.lt_nge, num_le. split; [apply Qnot_le_lt|apply Qlt_not_le]. Qed.

Lemma num_shift m e k : (0 <= k)%Z -> dyad m (e + k) == dyad (m * 2 ^ k) e.
Proof. intros Hk. unfold dyad. rewrite bpow_add, (bpow_nonneg k) by done. rewrite inject_Z_mult. ring. Qed.

Lemma num_succ m e : dyad (m + 1) e == dyad m e + bpow e.
Proof. unfold dyad. rewrite inject_Z_plus. change (inject_Z 1) with 1. ring. Qed.

Lemma num_pos m e : (0 < m)%Z <-> 0 < dyad m e.
Proof. rewrite (num_lt 0 m e). unfold dyad at 1. by rewrite Qmult_0_l. Qed.

Lemma num_nonneg m e : (0 <= m)%Z <-> 0 <= dyad m e.
Proof. rewrite (num_le 0 m e). unfold dyad at 1. by rewrite Qmult_0_l. Qed.

(** * Digits *)

Lemma digits_bounds m : (0 < m)%Z -> (2 ^ (Zdigits2 m - 1) <= m < 2 ^ Zdigits2 m)%Z.
Proof.
  destruct m as [|m|m]; try lia. intros _. cbn [Zdigits2].
  induction m as [m IH|m IH|]; cbn [digits2_pos]; [| |done];
    rewrite Pos2Z.inj_succ; unfold Z.succ; rewrite Z.add_simpl_r;
    (rewrite (Z.pow_add_r 2 _ 1) by lia);
    (assert (Z.pos (digits2_pos m) = Z.pos (digits2_pos m) - 1 + 1)%Z as E by lia);
    (rewrite E at 1); rewrite Z.pow_add_r by lia; lia.
Qed.

Lemma digits_pos m : (0 < m)%Z -> (0 < Zdigits2 m)%Z.
Proof. by destruct m. Qed.

Lemma num_digits m e : (0 < m)%Z -> bpow (Zdigits2 m + e - 1) <= dyad m e < bpow (Zdigits2 m + e).
Proof.
  intros Hm. destruct (digits_bounds m Hm) as [Hlo Hhi]. pose proof (digits_pos m Hm).
  assert (bpow (Zdigits2 m + e - 1) == dyad (2 ^ (Zdigits2 m - 1)) e) as ->.
  { replace (Zdigits2 m + e - 1)%Z with (Zdigits2 m - 1 + e)%Z by lia.
    unfold dyad. rewrite bpow_add, (bpow_nonneg (Zdigits2 m - 1)) by lia. ring. }
  assert (bpow (Zdigits2 m + e) == dyad (2 ^ (Zdigits2 m)) e) as ->.
  { unfold dyad. rewrite bpow_add, (bpow_nonneg (Zdigits2 m)) by lia. ring. }
  split; [by apply num_le|by apply num_lt].
Qed.

(** * Shifting *)

(** The rest [y] of a number over its integer part, as the record says it. *)
Definition rest_is (r s : bool) (y : Q) : Prop :=
  match r, s with
  | false, false => y == 0
  | false, true => 0 < y < 1 # 2
  | true, false => y == 1 # 2
  | true, true => (1 # 2) < y < 1
  end.

Definition shr_is (mrs : shr_record) (e : Z) (x : Q) : Prop :=
  (0 <= shr_m mrs)%Z /\ exists y, x == (inject_Z (shr_m mrs) + y) * bpow e /\ rest_is (shr_r mrs) (shr_s mrs) y.

Lemma rest_range r s y : rest_is r s y -> 0 <= y < 1.
Proof. destruct r, s; cbn; lra. Qed.

Lemma shr_1_is mrs e x : shr_is mrs e x -> shr_is (shr_1 mrs) (e + 1) x.
Proof.
  destruct mrs as [m r s]. intros (Hm & y & Hx & Hy). cbn [shr_m shr_r shr_s] in *.
  assert (exists p b, m = (2 * p + Z.b2z b)%Z /\ (0 <= p)%Z /\ shr_1 (Build_shr_record m r s) = Build_shr_record p b (r || s)) as (p & b & -> & Hp & ->).
  { destruct m as [|[m|m|]|]; try lia.
    - by exists 0%Z, false.
    - by exists (Z.pos m), true.
    - by exists (Z.pos m), false.
    - by exists 0%Z, true. }
  split; [done|]. exists ((y + inject_Z (Z.b2z b)) / 2). cbn [shr_m shr_r shr_s]. split.
  - rewrite Hx, bpow_succ, inject_Z_plus, inject_Z_mult. change (inject_Z 2) with 2. field.
  - pose proof (rest_range _ _ _ Hy). destruct b, r, s; cbn in *; change (inject_Z 1) with 1; change (inject_Z 0) with 0;
      try split; try (apply Qlt_shift_div_l; lra); try (apply Qlt_shift_div_r; lra); try (rewrite Hy; reflexivity).
Qed.

Lemma iter_pos_is p : forall mrs e x, shr_is mrs e x -> shr_is (SpecFloat.iter_pos shr_1 p mrs) (e + Z.pos p) x.
Proof.
  induction p as [p IH|p IH|]; intros mrs e x H; cbn [SpecFloat.iter_pos].
  - replace (e + Z.pos p~1)%Z with (e + 1 + Z.pos p + Z.pos p)%Z by lia. by apply IH, IH, shr_1_is.
  - replace (e + Z.pos p~0)%Z with (e + Z.pos p + Z.pos p)%Z by lia. by apply IH, IH.
  - by apply shr_1_is.
Qed.

Lemma shr_spec mrs e n x : shr_is mrs e x -> shr_is (shr mrs e n).1 (shr mrs e n).2 x /\ (shr mrs e n).2 = (e + Z.max 0 n)%Z.
Proof.
  intros H. unfold shr. destruct n as [|n|n]; cbn [fst snd].
  - split; [done|lia].
  - split; [by apply iter_pos_is|lia].
  - split; [done|lia].
Qed.

(** A location says of the rest what a record says. *)
Definition loc_is (l : location) (y : Q) : Prop :=
  match l with
  | loc_Exact => y == 0
  | loc_Inexact Lt => 0 < y < 1 # 2
  | loc_Inexact Eq => y == 1 # 2
  | loc_Inexact Gt => (1 # 2) < y < 1
  end.

Lemma shr_record_of_loc_is m l e x y : (0 <= m)%Z -> x == (inject_Z m + y) * bpow e -> loc_is l y ->
  shr_is (shr_record_of_loc m l) e x.
Proof. intros Hm Hx Hl. split; [by destruct l as [|[]]|]. exists y. by destruct l as [|[]]. Qed.

Lemma loc_of_shr_record_is mrs y : rest_is (shr_r mrs) (shr_s mrs) y -> loc_is (loc_of_shr_record mrs) y.
Proof. by destruct mrs as [m [] []]. Qed.

(** * Rounding *)

Definition fmt (prec : Z) (b : Q) : Prop := exists m e, (0 <= m < 2 ^ prec)%Z /\ b == dyad m e.

Definition rounded (prec : Z) (x r : Q) : Prop :=
  fmt prec r /\ forall b, fmt prec b -> (x <= b -> r <= b) /\ (b <= x -> b <= r).

#[export] Instance fmt_Proper prec : Proper (Qeq ==> iff) (fmt prec).
Proof. intros a b Hab. unfold fmt. split; intros (m & e & Hm & E); exists m, e; split; try done; by rewrite <- E. Qed.

#[export] Instance rounded_Proper prec : Proper (Qeq ==> Qeq ==> iff) (rounded prec).
Proof.
  intros x x' Hx r r' Hr. unfold rounded. rewrite Hr.
  split; intros [Hf H]; (split; [done|]); intros b Hb; specialize (H b Hb);
    [rewrite <- Hx, <- Hr|rewrite Hx, Hr]; done.
Qed.

Lemma fmt_num prec m e : (0 <= m < 2 ^ prec)%Z -> fmt prec (dyad m e).
Proof. intros Hm. by exists m, e. Qed.

Lemma fmt_Z prec m : (0 <= m < 2 ^ prec)%Z -> fmt prec (inject_Z m).
Proof. intros Hm. exists m, 0%Z. split; [done|]. unfold dyad. change (bpow 0) with 1. ring. Qed.

Lemma rounded_exact prec x : fmt prec x -> rounded prec x x.
Proof. done. Qed.

Lemma rounded_eq prec x r : fmt prec x -> rounded prec x r -> r == x.
Proof. intros Hx [_ H]. destruct (H x Hx) as [H1 H2]. apply Qle_antisym; [apply H1|apply H2]; apply Qle_refl. Qed.

Section round.
Context (prec emax : Z) (Hprec : (1 < prec)%Z).

Lemma fmt_bound b m e : fmt prec b -> (2 ^ (prec - 1) <= m)%Z -> dyad m e < b -> dyad (m + 1) e <= b.
Proof.
  intros (k & f & Hk & Hb) Hm Hlt. rewrite Hb in *. destruct (Z.le_gt_cases e f) as [Hef|Hef].
  - replace f with (e + (f - e))%Z in * by lia. rewrite num_shift in * by lia.
    apply num_lt in Hlt. apply num_le. lia.
  - exfalso. assert (dyad k f < bpow (prec + f)) as H1.
    { assert (bpow (prec + f) == dyad (2 ^ prec) f) as ->.
      { unfold dyad. rewrite bpow_add, (bpow_nonneg prec) by lia. done. }
      apply num_lt. lia. }
    assert (bpow (prec - 1 + e) <= dyad m e) as H2.
    { assert (bpow (prec - 1 + e) == dyad (2 ^ (prec - 1)) e) as ->.
      { unfold dyad. rewrite bpow_add, (bpow_nonneg (prec - 1)) by lia. done. }
      by apply num_le. }
    pose proof (bpow_le (prec + f) (prec - 1 + e) ltac:(lia)). lra.
Qed.

Lemma nearest_range m l : (m <= round_nearest_even m l <= m + 1)%Z.
Proof. destruct l as [|[]]; cbn; try destruct (Z.even m); lia. Qed.

Lemma nearest_rounded m l e x y : (0 <= m < 2 ^ prec)%Z -> x == (inject_Z m + y) * bpow e -> loc_is l y ->
  l = loc_Exact \/ (2 ^ (prec - 1) <= m)%Z ->
  forall b, fmt prec b -> (x <= b -> dyad (round_nearest_even m l) e <= b) /\ (b <= x -> b <= dyad (round_nearest_even m l) e).
Proof.
  intros Hm Hx Hl Hbig b Hb. pose proof (bpow_pos e) as He.
  assert (l = loc_Exact \/ (dyad m e < x < dyad (m + 1) e /\ (2 ^ (prec - 1) <= m)%Z)) as [->|[[Hlo Hhi] Hm1]].
  { destruct l as [|c]; [by left|]. right. destruct Hbig as [|Hbig]; [done|]. split; [|done].
    assert (0 < y < 1) by (destruct c; cbn in Hl; lra). rewrite num_succ, Hx. unfold dyad. nra. }
  - cbn in *. assert (dyad m e == x) as -> by (rewrite Hx, Hl; unfold dyad; ring). done.
  - pose proof (nearest_range m l) as Hq.
    assert (round_nearest_even m l = m \/ round_nearest_even m l = m + 1)%Z as [->| ->] by lia; split; intros Hbx.
    + lra.
    + destruct (Qlt_le_dec (dyad m e) b) as [Hlt|]; [|done]. pose proof (fmt_bound b m e Hb Hm1 Hlt). lra.
    + apply fmt_bound; [done|done|lra].
    + lra.
Qed.

(** What a number may be for the operations to stay in the normal numbers. *)
Definition in_range (x : Q) : Prop := bpow (emin prec emax + prec) <= x < bpow (emax - prec).

#[export] Instance in_range_Proper : Proper (Qeq ==> iff) in_range.
Proof. intros x y E. unfold in_range. by rewrite E. Qed.

Definition is_val (f : spec_float) (x : Q) : Prop :=
  match f with
  | S754_zero _ => x == 0
  | S754_finite false m e => x == dyad (Z.pos m) e
  | _ => False
  end.

#[export] Instance is_val_Proper f : Proper (Qeq ==> iff) (is_val f).
Proof. intros x y E. destruct f as [| | |[]]; cbn; try done; by rewrite E. Qed.

Lemma shr_exact q e : (0 < q <= 2 ^ prec)%Z -> (emin prec emax <= e)%Z ->
  exists r, shr_m (shr_fexp prec emax q e loc_Exact).1 = Z.pos r /\ (Z.pos r < 2 ^ prec)%Z /\
    dyad (Z.pos r) (shr_fexp prec emax q e loc_Exact).2 == dyad q e /\
    (e <= (shr_fexp prec emax q e loc_Exact).2 <= e + 1)%Z.
Proof.
  intros Hq He. unfold shr_fexp, fexp. set (n := (Z.max _ _ - e)%Z).
  destruct (Z.eq_dec q (2 ^ prec)) as [->|Hne].
  - assert (Zdigits2 (2 ^ prec) = prec + 1)%Z as Hd.
    { pose proof (digits_pos (2 ^ prec) ltac:(lia)). pose proof (digits_bounds (2 ^ prec) ltac:(lia)) as [H1 H2].
      apply Z.pow_le_mono_r_iff in H1; [|lia|lia]. apply Z.pow_lt_mono_r_iff in H2; lia. }
    assert (n = 1%Z) as -> by (unfold n; rewrite Hd; lia). cbn [shr SpecFloat.iter_pos shr_record_of_loc fst snd].
    assert (shr_is (Build_shr_record (2 ^ prec) false false) e (dyad (2 ^ prec) e)) as H0.
    { split; [cbn; lia|]. exists 0. split; [cbn; unfold dyad; ring|done]. }
    apply shr_1_is in H0 as (Hm & y & Hx & Hy). set (mrs := shr_1 _) in *.
    assert (dyad (2 ^ prec) e == dyad (2 ^ (prec - 1)) (e + 1)) as Hnum.
    { rewrite num_shift by lia. replace (2 ^ prec)%Z with (2 ^ (prec - 1) * 2 ^ 1)%Z; [done|]. rewrite <- Z.pow_add_r; [f_equal; lia|lia|lia]. }
    assert (shr_m mrs = 2 ^ (prec - 1))%Z as Hmrs.
    { rewrite Hnum in Hx. unfold dyad in Hx. pose proof (bpow_pos (e + 1)) as Hp. pose proof (rest_range _ _ _ Hy) as Hr.
      assert (inject_Z (2 ^ (prec - 1)) == inject_Z (shr_m mrs) + y) as E by (apply (Qmult_inj_r _ _ (bpow (e + 1))); [lra|done]).
      assert (inject_Z (shr_m mrs) <= inject_Z (2 ^ (prec - 1)) < inject_Z (shr_m mrs + 1)) as [H1 H2].
      { rewrite inject_Z_plus. change (inject_Z 1) with 1. lra. }
      rewrite <- Zle_Qle in H1. rewrite <- Zlt_Qlt in H2. lia. }
    exists (Z.to_pos (2 ^ (prec - 1))). rewrite Hmrs. pose proof (Z.pow_pos_nonneg 2 (prec - 1)).
    rewrite Z2Pos.id by lia. rewrite Hnum. repeat (split; [done || lia|]); try lia.
    split; [apply Z.pow_lt_mono_r; lia|]. split; [done|lia].
  - assert (Zdigits2 q <= prec)%Z as Hd.
    { pose proof (digits_bounds q ltac:(lia)) as [H1 _]. assert (2 ^ (Zdigits2 q - 1) < 2 ^ prec)%Z as H2 by lia.
      apply Z.pow_lt_mono_r_iff in H2; lia. }
    assert (n <= 0)%Z by (unfold n; lia). exists (Z.to_pos q).
    assert (shr (shr_record_of_loc q loc_Exact) e n = (Build_shr_record q false false, e)) as -> by (unfold shr; destruct n; done || lia).
    cbn [fst snd shr_m]. rewrite Z2Pos.id by lia. repeat (split; [done || lia|]). lia.
Qed.

(** [binary_round_aux] rounded. *)
Lemma round_aux_rounded m e l x y : (0 < m)%Z -> x == (inject_Z m + y) * bpow e -> loc_is l y ->
  (l = loc_Exact \/ prec <= Zdigits2 m)%Z -> in_range x ->
  exists r, is_val (binary_round_aux prec emax false m e l) r /\ rounded prec x r.
Proof.
  intros Hm Hx Hl Hbig [Hlo Hhi]. pose proof (num_digits m e Hm) as [Hd1 Hd2].
  assert (0 <= y < 1) as Hy by (destruct l as [|[]]; cbn in Hl; lra). pose proof (bpow_pos e) as He.
  assert (dyad m e <= x < dyad (m + 1) e) as [Hx1 Hx2] by (rewrite num_succ, Hx; unfold dyad; nra).
  assert (x < bpow (Zdigits2 m + e)) as Hxd.
  { eapply Qlt_le_trans; [done|]. assert (bpow (Zdigits2 m + e) == dyad (2 ^ Zdigits2 m) e) as ->.
    { unfold dyad. pose proof (digits_pos m Hm). rewrite bpow_add, (bpow_nonneg (Zdigits2 m)) by lia. done. }
    apply num_le. pose proof (digits_bounds m Hm). lia. }
  assert (emin prec emax < Zdigits2 m + e - prec)%Z as Hmin.
  { pose proof (bpow_lt_inv (emin prec emax + prec) (Zdigits2 m + e) ltac:(lra)). lia. }
  assert (Zdigits2 m + e <= emax - prec)%Z as Hmax.
  { pose proof (bpow_lt_inv (Zdigits2 m + e - 1) (emax - prec) ltac:(lra)). lia. }
  unfold binary_round_aux, shr_fexp at 1. unfold fexp at 1. rewrite Z.max_l by lia.
  pose proof (shr_spec _ e (Zdigits2 m + e - prec - e) x (shr_record_of_loc_is m l e x y ltac:(lia) Hx Hl)) as [Hs He1].
  destruct (shr _ e _) as [mrs1 e1] eqn:E1. cbn [fst snd] in *. destruct Hs as (Hm1 & y1 & Hx1' & Hy1).
  pose proof (rest_range _ _ _ Hy1) as Hy1'. apply loc_of_shr_record_is in Hy1. pose proof (bpow_pos e1) as He1p.
  assert (dyad (shr_m mrs1) e1 <= x < dyad (shr_m mrs1 + 1) e1) as [Hx3 Hx4] by (rewrite num_succ, Hx1'; unfold dyad; nra).
  assert ((0 < shr_m mrs1 < 2 ^ prec)%Z /\ (loc_of_shr_record mrs1 = loc_Exact \/ (2 ^ (prec - 1) <= shr_m mrs1)%Z)
    /\ (emin prec emax <= e1)%Z /\ (e1 <= emax - prec - 1)%Z) as (Hr1 & Hb1 & He1min & He1max).
  { destruct (Z.le_gt_cases prec (Zdigits2 m)) as [Hn|Hn].
    - assert (e1 = Zdigits2 m + e - prec)%Z as -> by lia.
      assert (2 ^ (prec - 1) <= shr_m mrs1 < 2 ^ prec)%Z as Hrange.
      { split.
        - assert (dyad (2 ^ (prec - 1)) (Zdigits2 m + e - prec) < dyad (shr_m mrs1 + 1) (Zdigits2 m + e - prec)) as Hlt.
          { eapply Qle_lt_trans; [|exact Hx4]. eapply Qle_trans; [|exact Hx1]. eapply Qle_trans; [|exact Hd1].
            unfold dyad. rewrite <- bpow_nonneg, <- bpow_add by lia.
            replace (prec - 1 + (Zdigits2 m + e - prec))%Z with (Zdigits2 m + e - 1)%Z by lia. apply Qle_refl. }
          apply num_lt in Hlt. lia.
        - assert (dyad (shr_m mrs1) (Zdigits2 m + e - prec) < dyad (2 ^ prec) (Zdigits2 m + e - prec)) as Hlt.
          { eapply Qle_lt_trans; [exact Hx3|]. eapply Qlt_le_trans; [exact Hxd|].
            unfold dyad. rewrite <- bpow_nonneg, <- bpow_add by lia.
            replace (prec + (Zdigits2 m + e - prec))%Z with (Zdigits2 m + e)%Z by lia. apply Qle_refl. }
          apply num_lt in Hlt. lia. }
      pose proof (Z.pow_pos_nonneg 2 (prec - 1)). repeat split; lia.
    - assert (l = loc_Exact) as -> by (destruct Hbig; [done|lia]).
      assert (mrs1 = Build_shr_record m false false /\ e1 = e) as [-> ->].
      { unfold shr in E1. destruct (Zdigits2 m + e - prec - e)%Z eqn:En; try lia; by inversion E1. }
      cbn [shr_m] in *. pose proof (digits_bounds m Hm). pose proof (digits_pos m Hm).
      assert (2 ^ Zdigits2 m <= 2 ^ prec)%Z by (apply Z.pow_le_mono_r; lia). repeat split; first [lia|by left]. }
  set (q := round_nearest_even _ _). pose proof (nearest_range (shr_m mrs1) (loc_of_shr_record mrs1)) as Hq. fold q in Hq.
  destruct (shr_exact q e1 ltac:(lia) He1min) as (r & Er & Hr & Hv & Hev).
  destruct (shr_fexp prec emax q e1 loc_Exact) as [mrs2 e2]. cbn [fst snd] in *. rewrite Er.
  rewrite (proj2 (Z.leb_le e2 (emax - prec)%Z)) by lia.
  exists (dyad (Z.pos r) e2). split; [done|]. split; [apply fmt_num; lia|]. intros b Hb. rewrite Hv.
  apply (nearest_rounded _ _ _ _ y1); [lia|done|done|done|done].
Qed.

Lemma rounded_pos x r : 0 < x -> rounded prec x r -> 0 <= r.
Proof.
  intros Hx [_ H]. apply (H 0); [|lra]. exists 0%Z, 0%Z. split; [|done].
  pose proof (Z.pow_pos_nonneg 2 prec). lia.
Qed.

Lemma is_val_nonneg f x : is_val f x -> 0 <= x.
Proof. destruct f as [| | |[]]; cbn; try done; intros ->; [done|]. apply num_nonneg. lia. Qed.

Lemma rounded_0 : rounded prec 0 0.
Proof. apply rounded_exact. exists 0%Z, 0%Z. split; [|done]. pose proof (Z.pow_pos_nonneg 2 prec). lia. Qed.

(** ** Operations *)

Lemma num_mul m n e f : dyad m e * dyad n f == dyad (m * n) (e + f).
Proof. unfold dyad. rewrite inject_Z_mult, bpow_add. ring. Qed.

Lemma SFmul_ok a b x y : is_val a x -> is_val b y -> x * y == 0 \/ in_range (x * y) ->
  exists r, is_val (SFmul prec emax a b) r /\ rounded prec (x * y) r.
Proof.
  intros Ha Hb Hr. destruct a as [sa| | |[] ma ea]; try done; destruct b as [sb| | |[] mb eb]; try done; cbn in Ha, Hb.
  1-3: exists 0; split; [done|]; (assert (x * y == 0) as -> by (rewrite Ha, Hb; ring)); apply rounded_0.
  cbn [SFmul xorb].
  assert (x * y == dyad (Z.pos (ma * mb)) (ea + eb)) as E by (by rewrite Ha, Hb, num_mul).
  rewrite E in Hr; setoid_rewrite E. destruct Hr as [Hr|Hr].
  { pose proof (proj1 (num_pos (Z.pos (ma * mb)) (ea + eb)) eq_refl). lra. }
  apply round_aux_rounded with (y := 0); [done|unfold dyad; ring|done|by left|done].
Qed.

Lemma iter_xO m d : Z.pos (Pos.iter xO m d) = (Z.pos m * 2 ^ Z.pos d)%Z.
Proof.
  revert m. induction d as [|d IH] using Pos.peano_ind; intros m; [cbn; lia|].
  rewrite Pos.iter_succ. rewrite Pos2Z.inj_succ, Z.pow_succ_r by lia.
  change (Z.pos (xO (Pos.iter xO m d))) with (2 * Z.pos (Pos.iter xO m d))%Z. rewrite IH. ring.
Qed.

Lemma shl_align_num m e f : (1 < prec)%Z -> dyad (Z.pos (shl_align m e f).1) (shl_align m e f).2 == dyad (Z.pos m) e.
Proof.
  intros _. unfold shl_align. destruct (f - e)%Z as [|d|d] eqn:Ed; try done. cbn [fst snd].
  replace e with (f + Z.pos d)%Z by lia. by rewrite num_shift, iter_xO by lia.
Qed.

Lemma binary_round_ok m e : in_range (dyad (Z.pos m) e) ->
  exists r, is_val (binary_round prec emax false m e) r /\ rounded prec (dyad (Z.pos m) e) r.
Proof.
  intros Hr. unfold binary_round.
  pose proof (shl_align_num m e (fexp prec emax (Z.pos (digits2_pos m) + e)) Hprec) as Hv.
  destruct (shl_align m e _) as [m' e']. cbn [fst snd] in Hv. rewrite <- Hv in Hr; setoid_rewrite <- Hv.
  apply round_aux_rounded with (y := 0); [done|unfold dyad; ring|done|by left|done].
Qed.

Lemma SFdiv_ok a b x y : is_val a x -> is_val b y -> 0 < y -> x == 0 \/ in_range (x / y) ->
  exists r, is_val (SFdiv prec emax a b) r /\ rounded prec (x / y) r.
Proof.
  intros Ha Hb Hy Hr. destruct a as [sa| | |[] ma ea]; try done; destruct b as [sb| | |[] mb eb]; try done; cbn in Ha, Hb.
  1,3: exfalso; lra.
  { exists 0. split; [done|]. assert (x / y == 0) as -> by (rewrite Ha; field; lra). apply rounded_0. }
  cbn [SFdiv xorb]. assert (in_range (x / y)) as Hxy.
  { destruct Hr as [Hr|]; [|done]. pose proof (proj1 (num_pos (Z.pos ma) ea) eq_refl). lra. }
  clear Hr. unfold SFdiv_core_binary. set (d1 := Zdigits2 (Z.pos ma)). set (d2 := Zdigits2 (Z.pos mb)).
  pose proof (num_digits (Z.pos ma) ea eq_refl) as [A1 A2]. pose proof (num_digits (Z.pos mb) eb eq_refl) as [B1 B2].
  fold d1 in A1, A2. fold d2 in B1, B2. rewrite <- Ha in A1, A2. rewrite <- Hb in B1, B2.
  assert (x / y < bpow (d1 + ea - (d2 + eb) + 1)) as Hlt.
  { apply Qlt_shift_div_r; [done|]. eapply Qlt_le_trans; [exact A2|].
    assert (bpow (d1 + ea) == bpow (d1 + ea - (d2 + eb) + 1) * bpow (d2 + eb - 1)) as ->.
    { rewrite <- bpow_add. replace (d1 + ea - (d2 + eb) + 1 + (d2 + eb - 1))%Z with (d1 + ea)%Z by lia. done. }
    pose proof (bpow_pos (d1 + ea - (d2 + eb) + 1)). nra. }
  destruct Hxy as [Hlo Hhi].
  assert (emin prec emax + prec < d1 + ea - (d2 + eb) + 1)%Z as Hmin by (apply bpow_lt_inv; lra).
  unfold fexp. rewrite (Z.max_l (d1 + ea - (d2 + eb) - prec)) by lia. set (e' := Z.min _ _).
  assert (e' <= d1 + ea - (d2 + eb) - prec)%Z as He1 by lia.
  set (s := (ea - eb - e')%Z). assert (0 <= s)%Z as Hs by lia.
  assert (match s with Z0 => Z.pos ma | Z.pos _ => Z.shiftl (Z.pos ma) s | Z.neg _ => 0 end = Z.pos ma * 2 ^ s)%Z as ->.
  { destruct s eqn:Es; [by rewrite Z.mul_1_r|rewrite Z.shiftl_mul_pow2 by lia; done|lia]. }
  set (m' := (Z.pos ma * 2 ^ s)%Z). pose proof (Z.div_mod m' (Z.pos mb) ltac:(done)) as Hdm.
  pose proof (Z.mod_pos_bound m' (Z.pos mb) eq_refl) as Hmod. unfold Z.div, Z.modulo in *.
  destruct (Z.div_eucl m' (Z.pos mb)) as [q r] eqn:Eq. pose proof (digits_bounds (Z.pos ma) eq_refl) as [D1 _]. fold d1 in D1.
  pose proof (digits_bounds (Z.pos mb) eq_refl) as [_ D2]. fold d2 in D2. pose proof (digits_pos (Z.pos ma) eq_refl). pose proof (digits_pos (Z.pos mb) eq_refl). fold d1 in H. fold d2 in H0.
  assert (2 ^ (prec - 1) <= q)%Z as Hq.
  { assert (2 ^ (d2 + prec - 1) <= m')%Z.
    { unfold m'. transitivity (2 ^ (d1 - 1) * 2 ^ s)%Z; [|nia]. rewrite <- Z.pow_add_r by lia. apply Z.pow_le_mono_r; lia. }
    replace (d2 + prec - 1)%Z with (d2 + (prec - 1))%Z in * by lia. rewrite Z.pow_add_r in * by lia. nia. }
  assert (0 < 2 ^ (prec - 1))%Z by (apply Z.pow_pos_nonneg; lia).
  apply round_aux_rounded with (y := inject_Z r / inject_Z (Z.pos mb)); [lia| | | |done].
  - rewrite Ha, Hb. unfold dyad. assert (inject_Z m' == inject_Z (Z.pos mb) * inject_Z q + inject_Z r) as Hm'.
    { by rewrite <- inject_Z_mult, <- inject_Z_plus, <- Hdm. }
    assert (bpow ea == bpow s * bpow e' * bpow eb) as -> by (rewrite <- !bpow_add; unfold s; replace (ea - eb - e' + e' + eb)%Z with ea by lia; done).
    rewrite (bpow_nonneg s) by done. unfold m' in Hm'. rewrite inject_Z_mult in Hm'.
    assert (~ inject_Z (Z.pos mb) == 0) by done. pose proof (bpow_pos eb). 
    apply (Qmult_inj_r _ _ (inject_Z (Z.pos mb))); [done|].
    transitivity (inject_Z (Z.pos ma) * inject_Z (2 ^ s) * bpow e'); [field; split; [lra|done]|]. rewrite Hm'. field. done.
  - assert (0 < inject_Z (Z.pos mb)) as Hmb by done.
    assert (forall c, (2 * r ?= Z.pos mb = c)%Z -> r <> 0%Z -> loc_is (loc_Inexact c) (inject_Z r / inject_Z (Z.pos mb))) as Hc.
    { intros c Hc Hr0. assert (0 < r)%Z as Hr' by lia.
      assert (0 < inject_Z r) by (change 0 with (inject_Z 0); by rewrite <- Zlt_Qlt).
      assert (inject_Z r < inject_Z (Z.pos mb)) by (rewrite <- Zlt_Qlt; lia).
      assert (inject_Z (2 * r) == 2 * inject_Z r) as E2 by by rewrite inject_Z_mult.
      destruct c; cbn [loc_is].
      - apply Z.compare_eq in Hc. rewrite <- Hc, E2. field. lra.
      - rewrite Z.compare_lt_iff, Zlt_Qlt, E2 in Hc. split; [apply Qlt_shift_div_l; lra|apply Qlt_shift_div_r; lra].
      - rewrite Z.compare_gt_iff, Zlt_Qlt, E2 in Hc. split; [apply Qlt_shift_div_l; lra|apply Qlt_shift_div_r; lra]. }
    unfold new_location. destruct (Z.even (Z.pos mb)) eqn:Ev; unfold new_location_even, new_location_odd;
      (destruct (Z.eqb_spec r 0) as [->|Hr0]; [unfold loc_is, Qdiv; apply Qmult_0_l|]).
    + by apply Hc.
    + apply Hc; [|done]. rewrite <- Z.negb_odd in Ev. apply negb_false_iff, Z.odd_spec in Ev as [k Hk].
      destruct (Z.compare_spec (2 * r + 1) (Z.pos mb)); [apply Z.compare_lt_iff|apply Z.compare_lt_iff|apply Z.compare_gt_iff]; lia.
  - right. pose proof (digits_bounds q ltac:(lia)) as [_ Dq]. pose proof (digits_pos q ltac:(lia)).
    assert (2 ^ (prec - 1) < 2 ^ Zdigits2 q)%Z as Hpw by lia. apply Z.pow_lt_mono_r_iff in Hpw; lia.
Qed.

Lemma SFadd_ok a b x y : is_val a x -> is_val b y -> x + y == 0 \/ in_range (x + y) ->
  (x == 0 -> fmt prec y) -> (y == 0 -> fmt prec x) ->
  exists r, is_val (SFadd prec emax a b) r /\ rounded prec (x + y) r.
Proof.
  intros Ha Hb Hr Fy Fx. pose proof (is_val_nonneg _ _ Ha). pose proof (is_val_nonneg _ _ Hb).
  destruct a as [sa| | |[] ma ea]; try done; destruct b as [sb| | |[] mb eb]; try done; cbn in Ha, Hb.
  - exists 0. split; [by destruct sa, sb|]. assert (x + y == 0) as -> by lra. apply rounded_0.
  - exists y. split; [done|]. assert (x + y == y) as -> by lra. by apply rounded_exact, Fy.
  - exists x. split; [done|]. assert (x + y == x) as -> by lra. by apply rounded_exact, Fx.
  - cbn [SFadd cond_Zopp]. set (ez := Z.min ea eb).
    pose proof (shl_align_num ma ea ez Hprec) as Va. pose proof (shl_align_num mb eb ez Hprec) as Vb.
    assert ((shl_align ma ea ez).2 = ez) as Ea by (unfold shl_align; destruct (ez - ea)%Z eqn:E; cbn; lia).
    assert ((shl_align mb eb ez).2 = ez) as Eb by (unfold shl_align; destruct (ez - eb)%Z eqn:E; cbn; lia).
    rewrite Ea in Va. rewrite Eb in Vb. change fst with (@fst positive Z).
    destruct (shl_align ma ea ez) as [ma' ea'], (shl_align mb eb ez) as [mb' eb']. cbn [fst snd] in *.
    assert (x + y == dyad (Z.pos (ma' + mb')) ez) as Hxy.
    { rewrite Ha, Hb, <- Va, <- Vb. unfold dyad. rewrite Pos2Z.inj_add, inject_Z_plus. ring. }
    rewrite <- Pos2Z.inj_add. cbn [binary_normalize]. rewrite Hxy in Hr; setoid_rewrite Hxy. apply binary_round_ok.
    destruct Hr as [Hr|]; [|done]. pose proof (proj1 (num_pos (Z.pos (ma' + mb')) ez) eq_refl). lra.
Qed.
Lemma shl_align_min m e f : (f <= e)%Z -> (shl_align m e f).2 = f /\ dyad (Z.pos (shl_align m e f).1) f == dyad (Z.pos m) e.
Proof.
  intros Hf. assert ((shl_align m e f).2 = f) as E by (unfold shl_align; destruct (f - e)%Z eqn:E; cbn; lia).
  split; [done|]. pose proof (shl_align_num m e f Hprec) as Hv. by rewrite E in Hv.
Qed.

Lemma SFsub_ok a b x y : is_val a x -> is_val b y -> y <= x -> x - y == 0 \/ in_range (x - y) -> fmt prec x ->
  exists r, is_val (SFsub prec emax a b) r /\ rounded prec (x - y) r.
Proof.
  intros Ha Hb Hxy Hr Fx. pose proof (is_val_nonneg _ _ Ha). pose proof (is_val_nonneg _ _ Hb).
  destruct a as [sa| | |[] ma ea]; try done; destruct b as [sb| | |[] mb eb]; try done; cbn in Ha, Hb.
  - exists 0. split; [by destruct sa, sb|]. assert (x - y == 0) as -> by lra. apply rounded_0.
  - exfalso. pose proof (proj1 (num_pos (Z.pos mb) eb) eq_refl). lra.
  - exists x. split; [done|]. assert (x - y == x) as -> by lra. by apply rounded_exact.
  - cbn [SFsub cond_Zopp]. set (ez := Z.min ea eb).
    destruct (shl_align_min ma ea ez) as [Ea Va]; [lia|]. destruct (shl_align_min mb eb ez) as [Eb Vb]; [lia|].
    change fst with (@fst positive Z). destruct (shl_align ma ea ez) as [ma' ea'], (shl_align mb eb ez) as [mb' eb']. cbn [fst snd] in *.
    assert (x - y == dyad (Z.pos ma' - Z.pos mb') ez) as E.
    { rewrite Ha, Hb, <- Va, <- Vb. unfold dyad, Zminus. rewrite inject_Z_plus, inject_Z_opp. ring. }
    rewrite E in Hr. setoid_rewrite E. assert (0 <= dyad (Z.pos ma' - Z.pos mb') ez) as Hz by lra. apply num_nonneg in Hz.
    destruct (Z.pos ma' - Z.pos mb')%Z as [|z|z]; [|cbn [binary_normalize]|lia].
    + exists 0. split; [done|]. assert (dyad 0 ez == 0) as -> by (unfold dyad; ring). apply rounded_0.
    + apply binary_round_ok. destruct Hr as [Hr|]; [|done]. pose proof (proj1 (num_pos (Z.pos z) ez) eq_refl). lra.
Qed.
End round.

(** ** Signs *)

Lemma binary_round_opp prec emax s m e : binary_round prec emax (negb s) m e = SFopp (binary_round prec emax s m e).
Proof.
  unfold binary_round. destruct (shl_align _ _ _) as [mz ez]. unfold binary_round_aux.
  destruct (shr_fexp _ _ _ _ _) as [mrs1 e1]. destruct (shr_fexp _ _ _ _ _) as [mrs2 e2].
  destruct (shr_m mrs2); try done. by destruct (_ <=? _)%Z.
Qed.

Lemma SFsub_opp prec emax a b x y : is_val a x -> is_val b y -> x < y -> SFsub prec emax a b = SFopp (SFsub prec emax b a).
Proof.
  intros Ha Hb Hxy. pose proof (is_val_nonneg _ _ Ha).
  destruct a as [sa| | |[] ma ea]; try done; destruct b as [sb| | |[] mb eb]; try done; cbn in Ha, Hb; [lra|].
  cbn [SFsub cond_Zopp]. rewrite (Z.min_comm eb ea).
  set (p := Z.pos (shl_align ma ea (Z.min ea eb)).1). set (q := Z.pos (shl_align mb eb (Z.min ea eb)).1).
  destruct (shl_align_min 53 eq_refl ma ea (Z.min ea eb)) as [_ Va]; [lia|]. destruct (shl_align_min 53 eq_refl mb eb (Z.min ea eb)) as [_ Vb]; [lia|].
  rewrite Ha, Hb, <- Va, <- Vb in Hxy. fold p q in Hxy. apply num_lt in Hxy. change fst with (@fst positive Z). fold p q.
  assert (exists d, p - q = Z.neg d /\ q - p = Z.pos d)%Z as (d & -> & ->).
  { exists (Z.to_pos (q - p)). split; lia. }
  cbn [binary_normalize]. apply (binary_round_opp _ _ false).
Qed.

Lemma SFmul_opp prec emax a b x y : is_val a x -> is_val b y -> SFmul prec emax a (SFopp b) = SFopp (SFmul prec emax a b).
Proof.
  destruct a as [sa| | |[] ma ea]; try done; destruct b as [sb| | |[] mb eb]; try done; intros _ _; cbn; try (by destruct sa); try (by destruct sb); try (by destruct sa, sb).
  unfold binary_round_aux. destruct (shr_fexp _ _ _ _ _) as [mrs1 e1]. destruct (shr_fexp _ _ _ _ _) as [mrs2 e2].
  destruct (shr_m mrs2); try done. by destruct (_ <=? _)%Z.
Qed.

Lemma SFadd_opp prec emax a b x y : is_val a x -> is_val b y -> 0 < y -> SFadd prec emax a (SFopp b) = SFsub prec emax a b.
Proof.
  destruct a as [sa| | |[] ma ea]; try done; destruct b as [sb| | |[] mb eb]; try done; intros Ha Hb Hy; cbn in Ha, Hb; try done; lra.
Qed.

(** * Integers and floats *)

Lemma num_0 m : dyad m 0 == inject_Z m.
Proof. unfold dyad. change (bpow 0) with 1. ring. Qed.

Lemma of_Z_ok prec emax z : (1 < prec)%Z -> (3 <= emax)%Z -> (prec <= emax)%Z -> (0 <= z < 2 ^ (emax - prec))%Z ->
  exists r, is_val (binary_normalize prec emax z 0 false) r /\ rounded prec (inject_Z z) r.
Proof.
  intros Hp He Hpe Hz. destruct z as [|z|z]; [|cbn [binary_normalize]|lia].
  - exists 0. split; [done|]. by apply rounded_0.
  - setoid_rewrite <- num_0. apply binary_round_ok; [done|]. split.
    + assert (bpow (emin prec emax + prec) <= bpow 0) by (apply bpow_le; unfold emin; lia).
      eapply Qle_trans; [done|]. rewrite num_0. change (bpow 0) with (inject_Z 1). rewrite <- Zle_Qle. lia.
    + rewrite num_0, bpow_nonneg by lia. rewrite <- Zlt_Qlt. lia.
Qed.

Lemma of_Z_exact prec emax z : (1 < prec)%Z -> (3 <= emax)%Z -> (2 * prec <= emax)%Z -> (0 <= z < 2 ^ prec)%Z ->
  is_val (binary_normalize prec emax z 0 false) (inject_Z z).
Proof.
  intros Hp He Hpe Hz. destruct (of_Z_ok prec emax z) as (r & Hr & Hz'); [done|done|lia| |].
  - split; [lia|]. eapply Z.lt_le_trans; [apply Hz|]. apply Z.pow_le_mono_r; lia.
  - rewrite (rounded_eq prec (inject_Z z) r) in Hr; [done|by apply fmt_Z|done].
Qed.

Lemma double_of_Z_val z : (0 <= z < 2 ^ 53)%Z -> is_val (double_of_Z z) (inject_Z z).
Proof. intros Hz. by apply of_Z_exact. Qed.

Lemma float_of_Z_rounded z : (0 <= z < 2 ^ 64)%Z -> exists r, is_val (float_of_Z z) r /\ rounded 24 (inject_Z z) r.
Proof.
  intros Hz. apply of_Z_ok; [done|done|done|]. split; [lia|]. eapply Z.lt_le_trans; [apply Hz|]. by apply Z.pow_le_mono_r.
Qed.

Lemma num_neg m e : (e < 0)%Z -> dyad m e == inject_Z m / inject_Z (2 ^ (- e)).
Proof.
  intros He. unfold dyad. assert (bpow e * bpow (- e) == 1) as E by (rewrite <- bpow_add, Z.add_opp_diag_r; done).
  rewrite <- bpow_nonneg by lia. pose proof (bpow_pos (- e)). unfold Qdiv. f_equiv.
  apply (Qmult_inj_r _ _ (bpow (- e))); [lra|]. rewrite E. field. lra.
Qed.

Lemma div_floor a b : (0 < b)%Z -> inject_Z (a / b) <= inject_Z a / inject_Z b < inject_Z (a / b + 1).
Proof.
  intros Hb. pose proof (Z.div_mod a b ltac:(lia)). pose proof (Z.mod_pos_bound a b Hb).
  assert (0 < inject_Z b) by (change 0 with (inject_Z 0); by rewrite <- Zlt_Qlt).
  split; [apply Qle_shift_div_l; [done|]|apply Qlt_shift_div_r; [done|]]; rewrite <- inject_Z_mult.
  - rewrite <- Zle_Qle. nia.
  - rewrite <- Zlt_Qlt. nia.
Qed.

(** [double_trunc] is the integer part, [double_round] that of a half more. *)
Lemma trunc_spec f x : is_val f x -> inject_Z (double_trunc f) <= x < inject_Z (double_trunc f + 1).
Proof.
  destruct f as [| | |[] m e]; cbn; try done; intros ->; [split; done|].
  destruct (Z.leb_spec 0 e).
  - assert (dyad (Z.pos m) e == inject_Z (Z.pos m * 2 ^ e)) as ->.
    { unfold dyad. by rewrite bpow_nonneg, inject_Z_mult. }
    split; [apply Qle_refl|]. rewrite <- Zlt_Qlt. lia.
  - rewrite num_neg by done. apply div_floor. apply Z.pow_pos_nonneg; lia.
Qed.

Lemma round_spec f x : is_val f x ->
  inject_Z (double_round f) <= x + (1 # 2) < inject_Z (double_round f + 1).
Proof.
  destruct f as [| | |[] m e]; cbn; try done; intros ->; [split; done|].
  destruct (Z.leb_spec 0 e).
  - assert (dyad (Z.pos m) e == inject_Z (Z.pos m * 2 ^ e)) as ->.
    { unfold dyad. by rewrite bpow_nonneg, inject_Z_mult. }
    rewrite inject_Z_plus. change (inject_Z 1) with 1. lra.
  - rewrite num_neg by done.
    assert (inject_Z (Z.pos m) / inject_Z (2 ^ (- e)) + (1 # 2) == inject_Z (Z.pos m + 2 ^ (- e - 1)) / inject_Z (2 ^ (- e))) as ->.
    { assert (2 ^ (- e) = 2 * 2 ^ (- e - 1))%Z as E by (rewrite <- Z.pow_succ_r by lia; f_equal; lia).
      pose proof (Z.pow_pos_nonneg 2 (- e - 1)).
      assert (0 < inject_Z (2 ^ (- e - 1))) by (change 0 with (inject_Z 0); rewrite <- Zlt_Qlt; lia).
      rewrite E, inject_Z_plus, inject_Z_mult. change (inject_Z 2) with 2. field. lra. }
    apply div_floor. apply Z.pow_pos_nonneg; lia.
Qed.

Lemma Z_of_bounds z k x : inject_Z z <= x -> x < inject_Z (k + 1) -> (z <= k)%Z.
Proof. intros H1 H2. assert (inject_Z z < inject_Z (k + 1)) as H by lra. rewrite <- Zlt_Qlt in H. lia. Qed.

Lemma Q_div_le a b c d : (0 < b)%Z -> (0 < d)%Z -> (a * d <= c * b)%Z -> inject_Z a / inject_Z b <= inject_Z c / inject_Z d.
Proof.
  intros Hb Hd H. rewrite Zle_Qle, !inject_Z_mult in H. rewrite Zlt_Qlt in Hb, Hd. change (inject_Z 0) with 0 in *.
  apply Qle_shift_div_l; [done|]. assert (inject_Z a / inject_Z b * inject_Z d == inject_Z a * inject_Z d / inject_Z b) as -> by (field; lra).
  by apply Qle_shift_div_r.
Qed.

(** The rounded quotient of two integers is the exact one: floating point
    changes nothing. *)
Theorem div_round_exact a b : (0 <= a)%Z -> (0 < b < 2 ^ 32)%Z -> (a < b * 2 ^ 19)%Z ->
  double_round (SFdiv 53 1024 (double_of_Z a) (double_of_Z b)) = ((2 * a + b) / (2 * b))%Z.
Proof.
  intros Ha Hb Hab. pose proof (double_of_Z_val a ltac:(lia)) as Va. pose proof (double_of_Z_val b ltac:(lia)) as Vb.
  assert (0 < inject_Z b) as Hb0 by (change 0 with (inject_Z 0); rewrite <- Zlt_Qlt; lia).
  set (k := ((2 * a + b) / (2 * b))%Z).
  assert (2 * b * k <= 2 * a + b < 2 * b * (k + 1))%Z as Hk.
  { pose proof (Z.div_mod (2 * a + b) (2 * b) ltac:(lia)). pose proof (Z.mod_pos_bound (2 * a + b) (2 * b) ltac:(lia)).
    fold k in H. nia. }
  assert (0 <= k <= 2 ^ 19)%Z as Hk19 by nia.
  destruct (SFdiv_ok 53 1024 eq_refl _ _ _ _ Va Vb Hb0) as (r & Vr & Hr).
  { destruct (Z.eq_dec a 0) as [->|Ha0]; [by left|right]. split.
    - eapply Qle_trans; [apply (bpow_le _ (-32)); by vm_compute|]. assert (bpow (-32) == inject_Z 1 / inject_Z (2 ^ 32)) as -> by done.
      apply Q_div_le; lia.
    - eapply Qle_lt_trans; [|apply (Qlt_le_trans _ (bpow 53)); [|apply bpow_le; done]].
      + apply (Q_div_le a b a 1); [lia|lia|nia].
      + assert (inject_Z a / inject_Z 1 == inject_Z a) as -> by (change (inject_Z 1) with 1; field). rewrite bpow_nonneg, <- Zlt_Qlt by lia. lia. }
  pose proof (round_spec _ _ Vr) as [R1 R2]. rewrite inject_Z_plus in R2. change (inject_Z 1) with 1 in R2.
  assert (r < inject_Z k + (1 # 2)) as Hup.
  { assert (fmt 53 (dyad ((2 * k + 1) * 2 ^ 32 - 1) (-33))) as Hf by (apply fmt_num; lia).
    destruct Hr as [_ Hr]. destruct (Hr _ Hf) as [Hr1 _].
    assert (dyad ((2 * k + 1) * 2 ^ 32 - 1) (-33) == inject_Z ((2 * k + 1) * 2 ^ 32 - 1) / inject_Z (2 ^ 33)) as E by by rewrite num_neg.
    rewrite E in Hr1. eapply Qle_lt_trans; [apply Hr1; apply Q_div_le; lia|].
    apply Qlt_shift_div_r; [done|]. unfold Zminus. rewrite inject_Z_plus, inject_Z_mult, inject_Z_plus, inject_Z_mult.
    change (inject_Z (2 ^ 33)) with (2 * inject_Z (2 ^ 32)). change (inject_Z 2) with 2. change (inject_Z 1) with 1.
    change (inject_Z (- (1))) with (- (1)). lra. }
  apply Z.le_antisymm.
  - apply (Z_of_bounds _ _ _ R1). rewrite inject_Z_plus. change (inject_Z 1) with 1. lra.
  - apply (Z_of_bounds _ _ (r + (1 # 2))); [|rewrite inject_Z_plus; change (inject_Z 1) with 1; lra].
    destruct (Z.eq_dec k 0) as [->|Hk0].
    { pose proof (is_val_nonneg _ _ Vr). change (inject_Z 0) with 0. lra. }
    assert (fmt 53 (dyad (2 * k - 1) (-1))) as Hf by (apply fmt_num; lia).
    destruct Hr as [_ Hr]. destruct (Hr _ Hf) as [_ Hr2].
    assert (dyad (2 * k - 1) (-1) == inject_Z (2 * k - 1) / inject_Z (2 ^ 1)) as E by by rewrite num_neg.
    rewrite E in Hr2. assert (inject_Z (2 * k - 1) / inject_Z (2 ^ 1) == inject_Z k - (1 # 2)) as E2.
    { unfold Zminus. rewrite inject_Z_plus, inject_Z_mult. change (inject_Z (2 ^ 1)) with 2. change (inject_Z 2) with 2. change (inject_Z (- (1))) with (- (1)). field. }
    assert (inject_Z k - (1 # 2) <= r) as H by (rewrite <- E2; apply Hr2; apply Q_div_le; lia). lra.
Qed.

(** * How close *)

Lemma between_powers x : 0 < x -> exists k, bpow k <= x < bpow (k + 1).
Proof.
  intros Hx. set (n := Z.pos (Qden x)). assert (1 <= x * bpow n) as H1.
  { destruct x as [a b]. assert (0 < a)%Z by (unfold Qlt in Hx; cbn in Hx; lia). rewrite bpow_nonneg by lia.
    unfold Qle, Qmult. cbn [Qnum Qden inject_Z n]. assert (Z.pos b <= 2 ^ Z.pos b)%Z by (pose proof (Z.pow_gt_lin_r 2 (Z.pos b)); lia).
    unfold n. cbn [Qden]. rewrite !Z.mul_1_l, Pos.mul_1_r. nia. }
  set (f := Qfloor (x * bpow n)). pose proof (Qfloor_le (x * bpow n)) as F1. pose proof (Qlt_floor (x * bpow n)) as F2.
  fold f in F1, F2. assert (0 < f)%Z as Hf.
  { assert (inject_Z 1 < inject_Z (f + 1)) as H by (change (inject_Z 1) with 1; lra). rewrite <- Zlt_Qlt in H. lia. }
  pose proof (Z.log2_spec f Hf) as [L1 L2]. pose proof (Z.log2_nonneg f).
  exists (Z.log2 f - n)%Z. pose proof (bpow_pos n) as Hn.
  assert (forall j, (0 <= j)%Z -> bpow (j - n) * bpow n == inject_Z (2 ^ j)) as Hj.
  { intros j Hj. rewrite <- bpow_add, Z.sub_add. by apply bpow_nonneg. }
  split.
  - apply (Qmult_le_r _ _ (bpow n) Hn). rewrite Hj by done. rewrite Zle_Qle in L1. lra.
  - apply (Qmult_lt_r _ _ (bpow n) Hn). replace (Z.log2 f - n + 1)%Z with (Z.log2 f + 1 - n)%Z by lia. rewrite Hj by lia.
    assert (f + 1 <= 2 ^ (Z.log2 f + 1))%Z as L3 by (unfold Z.succ in L2; lia). rewrite Zle_Qle in L3. lra.
Qed.

Lemma rounded_close prec x r : (1 < prec)%Z -> 0 < x -> rounded prec x r ->
  x * (1 - bpow (1 - prec)) <= r <= x * (1 + bpow (1 - prec)).
Proof.
  intros Hp Hx [_ Hr]. destruct (between_powers x Hx) as (k & K1 & K2).
  set (u := bpow (k + 1 - prec)). pose proof (bpow_pos (k + 1 - prec)) as Hu. fold u in Hu.
  assert (u == bpow (1 - prec) * bpow k) as Eu by (unfold u; rewrite <- bpow_add; by replace (1 - prec + k)%Z with (k + 1 - prec)%Z by lia).
  set (m := Qfloor (x / u)). pose proof (Qfloor_le (x / u)) as F1. pose proof (Qlt_floor (x / u)) as F2. fold m in F1, F2.
  assert (x == x / u * u) as Exu by (field; lra). set (y := x / u) in *.
  assert (bpow k == inject_Z (2 ^ (prec - 1)) * u) as Ek.
  { unfold u. rewrite <- bpow_nonneg, <- bpow_add by lia. by replace (prec - 1 + (k + 1 - prec))%Z with k by lia. }
  assert (2 ^ (prec - 1) <= m < 2 ^ prec)%Z as Hm.
  { split.
    - assert (inject_Z (2 ^ (prec - 1)) <= y) as Hy by (apply (Qmult_le_r _ _ u Hu); lra).
      apply (Z_of_bounds _ _ y); [done|lra].
    - assert (y < inject_Z (2 ^ prec)) as Hy.
      { apply (Qmult_lt_r _ _ u Hu). rewrite bpow_succ in K2.
        assert (inject_Z (2 ^ prec) == 2 * inject_Z (2 ^ (prec - 1))) as ->.
        { replace (2 ^ prec)%Z with (2 * 2 ^ (prec - 1))%Z; [by rewrite inject_Z_mult|]. rewrite <- Z.pow_succ_r by lia. f_equal. lia. }
        lra. }
      assert (inject_Z m < inject_Z (2 ^ prec)) as H by lra. by rewrite <- Zlt_Qlt in H. }
  assert (0 < 2 ^ (prec - 1))%Z by (apply Z.pow_pos_nonneg; lia).
  assert (fmt prec (inject_Z m * u)) as Fm by (apply (fmt_num prec m (k + 1 - prec)); lia).
  assert (fmt prec ((inject_Z m + 1) * u)) as Fm1.
  { assert ((inject_Z m + 1) * u == dyad (m + 1) (k + 1 - prec)) as ->.
    { unfold dyad. rewrite inject_Z_plus. change (inject_Z 1) with 1. done. }
    destruct (Z.eq_dec (m + 1) (2 ^ prec)) as [->|]; [|apply fmt_num; lia].
    exists (2 ^ (prec - 1))%Z, (k + 1 - prec + 1)%Z. split; [split; [lia|]; apply Z.pow_lt_mono_r; lia|].
    rewrite num_shift by lia. unfold dyad. f_equiv. replace (2 ^ prec)%Z with (2 ^ (prec - 1) * 2 ^ 1)%Z; [done|].
    rewrite <- Z.pow_add_r by lia. f_equal. lia. }
  destruct (Hr _ Fm) as [_ R1]. destruct (Hr _ Fm1) as [R2 _].
  assert (inject_Z m * u <= x) as X1 by (rewrite Exu; apply Qmult_le_compat_r; lra).
  assert (x <= (inject_Z m + 1) * u) as X2.
  { rewrite Exu. apply Qmult_le_compat_r; [|lra]. rewrite inject_Z_plus in F2. change (inject_Z 1) with 1 in F2. lra. }
  specialize (R1 X1). specialize (R2 X2). pose proof (bpow_pos (1 - prec)).
  assert (u <= bpow (1 - prec) * x) by (rewrite Eu; nra). split; lra.
Qed.
