(* ===== verification/RateCalculator.v ===== *)
(** [RTC::RateCalculator] and [RTC::RtpDataCounter] (worker/src/RTC/RateCalculator.cpp,
    worker/include/RTC/RateCalculator.hpp): how many bits a second came within the
    last milliseconds, counted in a ring of one entry for each millisecond.

    The clock is an argument. *)

From Stdlib Require Import Floats.SpecFloat.
From S2P Require Export Floats.

Definition DefaultBpsScale : spec_float := float_of_Z 8000.

Record rate_calculator : Type := RateCalculator {
  windowSize : Z;
  scale : spec_float;
  buffer : list Z;
  oldestTime : Z;
  oldestIndex : Z;
  totalCount : Z;
  rc_bytes : Z;               (** [bytes] *)
  lastRate : Z;
  lastTime : Z
}.

(** [Reset]: all but the bytes. *)
Definition Reset (s : rate_calculator) (nowMs : Z) : rate_calculator :=
  RateCalculator (windowSize s) (scale s) (replicate (Z.to_nat (windowSize s)) 0) (u64 (nowMs - windowSize s)) 0 0
    (rc_bytes s) 0 0.

Definition new_RateCalculator (windowSize : Z) (scale : spec_float) (nowMs : Z) : rate_calculator :=
  Reset (RateCalculator windowSize scale [] 0 0 0 0 0 0) nowMs.

Definition buffer_at (s : rate_calculator) (i : Z) : outcome Z :=
  match buffer s !! Z.to_nat i with Some c => Ok c | None => Err OutOfBounds end.

(** [while (oldestTime < newOldestTime)]. *)
Fixpoint remove_loop (fuel : nat) (newOldestTime : Z) (s : rate_calculator) : outcome rate_calculator :=
  if oldestTime s <? newOldestTime then
    match fuel with
    | O => Err OutOfFuel
    | S fuel =>
        count ← buffer_at s (oldestIndex s);
        let index := u32 (oldestIndex s + 1) in
        remove_loop fuel newOldestTime
          (RateCalculator (windowSize s) (scale s) (<[Z.to_nat (oldestIndex s) := 0]> (buffer s)) (u64 (oldestTime s + 1))
             (if windowSize s <=? index then 0 else index) (u64 (totalCount s - count)) (rc_bytes s) (lastRate s) (lastTime s))
    end
  else Ok s.

Definition set_oldestTime (s : rate_calculator) (t : Z) : rate_calculator :=
  RateCalculator (windowSize s) (scale s) (buffer s) t (oldestIndex s) (totalCount s) (rc_bytes s) (lastRate s) (lastTime s).

Definition RemoveOldData (s : rate_calculator) (nowMs : Z) : outcome rate_calculator :=
  let newOldestTime := u64 (nowMs - windowSize s) in
  if newOldestTime <? oldestTime s then Ok s
  else if newOldestTime =? oldestTime s then Ok s
  else if u64 (oldestTime s + windowSize s) <? newOldestTime then Ok (Reset s nowMs)
  else
    s ← remove_loop (Z.to_nat (windowSize s)) newOldestTime s;
    Ok (set_oldestTime s newOldestTime).

Definition Update (s : rate_calculator) (size nowMs : Z) : outcome rate_calculator :=
  if nowMs <? oldestTime s then Ok s
  else
    s ← RemoveOldData (RateCalculator (windowSize s) (scale s) (buffer s) (oldestTime s) (oldestIndex s) (totalCount s)
          (u64 (rc_bytes s + size)) (lastRate s) (lastTime s)) nowMs;
    let offset := u32 (windowSize s - 1) in
    let index := u32 (oldestIndex s + offset) in
    let index := if windowSize s <=? index then u32 (index - windowSize s) else index in
    count ← buffer_at s index;
    Ok (RateCalculator (windowSize s) (scale s) (<[Z.to_nat index := u64 (count + size)]> (buffer s)) (oldestTime s)
          (oldestIndex s) (u64 (totalCount s + size)) (rc_bytes s) 0 0).

(** The conversion of a nonnegative [float] to [uint32_t], defined when it fits. *)
Definition float_to_u32 (f : spec_float) : outcome Z :=
  match f with
  | S754_finite false _ _ | S754_zero _ => if double_trunc f <? 2 ^ 32 then Ok (double_trunc f) else Err OutOfBounds
  | _ => Err OutOfBounds
  end.

Definition float_0_5 : spec_float := SFdiv 24 128 (float_of_Z 1) (float_of_Z 2).

(** [std::trunc(totalCount * scale + 0.5f)]. *)
Definition rate_of (windowSize : Z) (scale : spec_float) (totalCount : Z) : outcome Z :=
  let scale := SFdiv 24 128 scale (float_of_Z windowSize) in
  float_to_u32 (SFadd 24 128 (SFmul 24 128 (float_of_Z totalCount) scale) float_0_5).

Definition GetRate (s : rate_calculator) (nowMs : Z) : outcome (rate_calculator * Z) :=
  if nowMs =? lastTime s then Ok (s, lastRate s)
  else
    s ← RemoveOldData s nowMs;
    rate ← rate_of (windowSize s) (scale s) (totalCount s);
    Ok (RateCalculator (windowSize s) (scale s) (buffer s) (oldestTime s) (oldestIndex s) (totalCount s) (rc_bytes s)
          rate nowMs, rate).

Definition GetBytes (s : rate_calculator) : Z := rc_bytes s.

(** * [RtpDataCounter] *)

Record data_counter : Type := DataCounter { rate : rate_calculator; packets : Z }.

Definition new_RtpDataCounter (windowSize nowMs : Z) : data_counter :=
  DataCounter (new_RateCalculator windowSize DefaultBpsScale nowMs) 0.

(** [Update] with a packet of [size] bytes. *)
Definition counter_Update (c : data_counter) (size nowMs : Z) : outcome data_counter :=
  r ← Update (rate c) size nowMs;
  Ok (DataCounter r (u64 (packets c + 1))).

Definition counter_GetBitrate (c : data_counter) (nowMs : Z) : outcome (data_counter * Z) :=
  '(r, b) ← GetRate (rate c) nowMs;
  Ok (DataCounter r (packets c), b).

Definition GetPacketCount (c : data_counter) : Z := packets c.
Definition counter_GetBytes (c : data_counter) : Z := GetBytes (rate c).
