(* ===== verification/RateFacts.v ===== *)
(** The rate a [RateCalculator] tells is that of what came within its window:
    the ring and the remembered rate change nothing. *)

From Stdlib Require Import Floats.SpecFloat.
From S2P Require Export RateCalculator.

(** * What came *)

(** The bytes that came at a time, within the window that ends at a time, and
    altogether; [h] has what came, each with its time. *)
Definition sum_if (f : Z -> bool) (h : list (Z * Z)) : Z := foldr (fun e n => (if f e.1 then e.2 else 0) + n) 0 h.
Definition came_at (t : Z) : list (Z * Z) -> Z := sum_if (Z.eqb t).
Definition window_sum (W now : Z) : list (Z * Z) -> Z := sum_if (Z.ltb (now - W)).
Definition came : list (Z * Z) -> Z := sum_if (fun _ => true).
Arguments sum_if : simpl never.
Arguments came_at : simpl never.
Arguments window_sum : simpl never.
Arguments came : simpl never.

Definition sane (T : Z) (h : list (Z * Z)) : Prop := Forall (fun e => e.1 <= T /\ 0 <= e.2) h.

Lemma sum_if_cons f e h : sum_if f (e :: h) = (if f e.1 then e.2 else 0) + sum_if f h.
Proof. done. Qed.

Lemma sum_if_range f T h : sane T h -> 0 <= sum_if f h <= came h.
Proof. unfold came. induction 1 as [|e h [_ He] _ IH]; [done|]. rewrite !sum_if_cons. destruct (f e.1); lia. Qed.

Lemma sum_if_none f T h : sane T h -> (forall t, t <= T -> f t = false) -> sum_if f h = 0.
Proof. intros Hs Hf. induction Hs as [|e h [He _] _ IH]; [done|]. rewrite sum_if_cons, Hf by done. lia. Qed.

Lemma window_sum_step W T h : window_sum W T h = came_at (T - W + 1) h + window_sum W (T + 1) h.
Proof.
  induction h as [|e h IH]; [done|]. unfold window_sum, came_at in *. rewrite !sum_if_cons, IH.
  destruct (Z.ltb_spec (T - W) e.1), (Z.eqb_spec (T - W + 1) e.1), (Z.ltb_spec (T + 1 - W) e.1); lia.
Qed.

Lemma sane_mono T T' h : T <= T' -> sane T h -> sane T' h.
Proof. intros HT Hs. eapply Forall_impl; [exact Hs|]. cbn. intros e. lia. Qed.

(** * The ring *)

(** The ring at time [T]: but for the remembered rate. *)
Record ring (W : Z) (sc : spec_float) (T : Z) (h : list (Z * Z)) (s : rate_calculator) : Prop := {
  rg_window : windowSize s = W;
  rg_scale : scale s = sc;
  rg_length : length (buffer s) = Z.to_nat W;
  rg_oldest : oldestTime s = T - W;
  rg_index : 0 <= oldestIndex s < W;
  rg_buffer k : 0 <= k < W -> buffer s !! Z.to_nat ((oldestIndex s + k) `mod` W) = Some (came_at (T - W + 1 + k) h);
  rg_total : totalCount s = window_sum W T h;
  rg_sane : sane T h
}.

(** Entries of the ring are told apart by their offsets. *)
Lemma ring_index_inj W i k j : 0 <= i < W -> 0 <= k < W -> 0 <= j < W -> (i + k) `mod` W = (i + j) `mod` W -> k = j.
Proof.
  intros Hi Hk Hj E. pose proof (Z.div_mod (i + k) W ltac:(lia)). pose proof (Z.div_mod (i + j) W ltac:(lia)).
  rewrite E in *. set (a := (i + k) / W) in *. set (b := (i + j) / W) in *.
  assert (W * (a - b) = k - j) by lia. assert (a - b = 0) by nia. nia.
Qed.

Section ring.
Context (W : Z) (sc : spec_float) (HW : 0 < W < 2 ^ 31).
Implicit Types (s : rate_calculator) (h : list (Z * Z)).

Definition in_time (T : Z) : Prop := W <= T < 2 ^ 63.

Lemma ring_Reset T s h : in_time T -> windowSize s = W -> scale s = sc -> sane (T - W) h ->
  ring W sc T h (Reset s T).
Proof.
  intros HT Hw Hs Hh. unfold in_time in HT. split; cbn; rewrite ?Hw; try done.
  - by rewrite length_replicate.
  - apply wrap_small. unfold in_uint. lia.
  - lia.
  - intros k Hk. rewrite lookup_replicate_2 by (rewrite Z.add_0_l, Z.mod_small by lia; lia).
    f_equal. symmetry. apply (sum_if_none _ (T - W)); [done|]. intros t Ht. apply Z.eqb_neq. lia.
  - symmetry. apply (sum_if_none _ (T - W)); [done|]. intros t Ht. apply Z.ltb_ge. lia.
  - eapply sane_mono; [|done]. lia.
Qed.

Lemma ring_step T s h : in_time T -> came h < 2 ^ 64 -> ring W sc T h s ->
  exists count, buffer_at s (oldestIndex s) = Ok count /\
    ring W sc (T + 1) h
      (RateCalculator (windowSize s) (scale s) (<[Z.to_nat (oldestIndex s) := 0]> (buffer s)) (u64 (oldestTime s + 1))
         (if windowSize s <=? u32 (oldestIndex s + 1) then 0 else u32 (oldestIndex s + 1)) (u64 (totalCount s - count))
         (rc_bytes s) (lastRate s) (lastTime s)).
Proof.
  intros HT Hc [Hw Hsc Hl Ho Hi Hb Ht Hs]. unfold in_time in HT. exists (came_at (T - W + 1) h). split.
  - unfold buffer_at. specialize (Hb 0 ltac:(lia)). rewrite Z.add_0_r, Z.mod_small in Hb by done. rewrite Hb.
    by rewrite Z.add_0_r.
  - rewrite (wrap_small 32 (oldestIndex s + 1)) by (unfold in_uint; lia). rewrite Hw.
    set (i' := if W <=? oldestIndex s + 1 then 0 else oldestIndex s + 1).
    assert (i' = (oldestIndex s + 1) `mod` W) as Ei.
    { unfold i'. destruct (Z.leb_spec W (oldestIndex s + 1)); [|by rewrite Z.mod_small by lia].
      replace (oldestIndex s + 1) with W by lia. by rewrite Z.mod_same by lia. }
    split; cbn; try done.
    + by rewrite length_insert.
    + rewrite Ho, wrap_small by (unfold in_uint; lia). lia.
    + rewrite Ei. apply Z.mod_pos_bound. lia.
    + intros k Hk. rewrite Ei, Z.add_mod_idemp_l by lia.
      destruct (Z.eq_dec k (W - 1)) as [->|Hk'].
      * replace (oldestIndex s + 1 + (W - 1)) with (oldestIndex s + 1 * W) by lia.
        rewrite Z_mod_plus_full, Z.mod_small by lia. rewrite list_lookup_insert_eq by lia. f_equal.
        symmetry. apply (sum_if_none _ T); [done|]. intros t Ht'. apply Z.eqb_neq. lia.
      * assert (0 <= (oldestIndex s + 1 + k) `mod` W < W) by (apply Z.mod_pos_bound; lia).
        rewrite list_lookup_insert_ne.
        { replace (oldestIndex s + 1 + k) with (oldestIndex s + (k + 1)) by lia. rewrite Hb by lia. do 2 f_equal. lia. }
        intros E. apply Z2Nat.inj in E; [|lia|lia].
        assert ((oldestIndex s + 0) `mod` W = (oldestIndex s + (k + 1)) `mod` W) as E'.
        { rewrite Z.add_0_r, Z.mod_small by lia. rewrite E. f_equal. lia. }
        apply ring_index_inj in E'; lia.
    + rewrite Ht, window_sum_step, Z.add_simpl_l. apply wrap_small. unfold in_uint.
      pose proof (sum_if_range (Z.ltb (T + 1 - W)) T h Hs). unfold window_sum. lia.
    + eapply sane_mono; [|done]. lia.
Qed.

Lemma remove_loop_ring d : forall fuel T s h, in_time T -> T + Z.of_nat d < 2 ^ 63 -> came h < 2 ^ 64 -> ring W sc T h s ->
  (d <= fuel)%nat ->
  exists s', remove_loop fuel (T + Z.of_nat d - W) s = Ok s' /\ ring W sc (T + Z.of_nat d) h s' /\
    lastRate s' = lastRate s /\ lastTime s' = lastTime s /\ rc_bytes s' = rc_bytes s.
Proof.
  induction d as [|d IH]; intros fuel T s h HT HTd Hc Hr Hf.
  - exists s. rewrite Z.add_0_r in *. unfold remove_loop. destruct fuel; rewrite (rg_oldest _ _ _ _ _ Hr), Z.ltb_irrefl; done.
  - destruct fuel as [|fuel]; [lia|]. cbn [remove_loop]. pose proof (rg_oldest _ _ _ _ _ Hr) as Ho.
    rewrite (proj2 (Z.ltb_lt (oldestTime s) _)) by lia. destruct (ring_step T s h HT Hc Hr) as (count & Hb & Hr'). rewrite Hb. ostep.
    destruct (IH fuel (T + 1) _ h ltac:(unfold in_time in *; lia) ltac:(lia) Hc Hr' ltac:(lia)) as (s' & E & Hs').
    replace (T + 1 + Z.of_nat d) with (T + Z.of_nat (Datatypes.S d)) in * by lia. rewrite E. by exists s'.
Qed.

Lemma RemoveOldData_ring T now s h : in_time T -> T <= now -> in_time now -> came h < 2 ^ 64 -> ring W sc T h s ->
  exists s', RemoveOldData s now = Ok s' /\ ring W sc now h s' /\ rc_bytes s' = rc_bytes s.
Proof.
  intros HT HTn Hn Hc Hr. unfold in_time in *. pose proof Hr as [Hw Hsc Hl Ho Hi Hb Ht Hs]. unfold RemoveOldData. rewrite Hw, Ho.
  rewrite (wrap_small 64 (now - W)) by (unfold in_uint; lia). rewrite (proj2 (Z.ltb_ge _ _)) by lia.
  destruct (Z.eqb_spec (now - W) (T - W)) as [E|Hne].
  { assert (now = T) as -> by lia. exists s. split; [done|]. done. }
  rewrite (wrap_small 64 (T - W + W)) by (unfold in_uint; lia). destruct (Z.ltb_spec (T - W + W) (now - W)).
  - eexists. split; [done|]. split; [|done]. apply ring_Reset; try done. eapply sane_mono; [|done]. lia.
  - destruct (remove_loop_ring (Z.to_nat (now - T)) (Z.to_nat W) T s h HT ltac:(lia) Hc Hr ltac:(lia)) as (s' & E & Hr' & E1 & E2 & E3).
    rewrite Z2Nat.id in * by lia. replace (T + (now - T)) with now in * by lia. rewrite E. ostep.
    eexists. split; [done|]. destruct Hr' as [Hw' Hsc' Hl' Ho' Hi' Hb' Ht' Hs']. by split; [split|].
Qed.
(** With the bytes and the remembered rate. *)
Definition reports T h s : Prop :=
  ring W sc T h s /\ rc_bytes s = came h /\
  (lastTime s = 0 \/ lastTime s = T /\ rate_of W sc (window_sum W T h) = Ok (lastRate s)).

Lemma new_reports T : in_time T -> reports T [] (new_RateCalculator W sc T).
Proof. intros HT. split; [apply ring_Reset; [done|done|done|constructor]|]. split; [done|by left]. Qed.

Lemma Update_reports T now size s h : in_time T -> T <= now -> in_time now -> 0 <= size -> came h + size < 2 ^ 64 ->
  reports T h s -> exists s', Update s size now = Ok s' /\ reports now ((now, size) :: h) s'.
Proof.
  intros HT HTn Hn Hsz Hc (Hr & Hby & _). unfold Update. rewrite (rg_oldest _ _ _ _ _ Hr). unfold in_time in *.
  rewrite (proj2 (Z.ltb_ge _ _)) by lia.
  pose proof (sum_if_range (fun _ => true) T h (rg_sane _ _ _ _ _ Hr)) as Hcame. fold came in Hcame. rewrite Hby.
  set (s0 := RateCalculator _ _ _ _ _ _ _ _ _).
  destruct (RemoveOldData_ring T now s0 h HT HTn Hn ltac:(lia)) as (s1 & E1 & Hr1 & Hb1).
  { destruct Hr. by split. }
  rewrite E1. ostep. cbn zeta. destruct Hr1 as [Hw Hsc Hl Ho Hi Hb Ht Hs].
  assert (exists i, (if windowSize s1 <=? u32 (oldestIndex s1 + u32 (windowSize s1 - 1))
      then u32 (u32 (oldestIndex s1 + u32 (windowSize s1 - 1)) - windowSize s1)
      else u32 (oldestIndex s1 + u32 (windowSize s1 - 1))) = i /\ i = (oldestIndex s1 + (W - 1)) `mod` W /\ 0 <= i < W)
    as (i & -> & Ei & Hiw).
  { eexists. split; [done|]. rewrite Hw, (wrap_small 32 (W - 1)), (wrap_small 32) by (unfold in_uint; lia).
    destruct (Z.leb_spec W (oldestIndex s1 + (W - 1))).
    - rewrite wrap_small by (unfold in_uint; lia). split; [|lia].
      replace (oldestIndex s1 + (W - 1)) with (oldestIndex s1 + (W - 1) - W + 1 * W) at 2 by lia.
      by rewrite Z_mod_plus_full, Z.mod_small by lia.
    - split; [by rewrite Z.mod_small by lia|lia]. }
  pose proof (Hb (W - 1) ltac:(lia)) as Hbi. rewrite <- Ei in Hbi. replace (now - W + 1 + (W - 1)) with now in Hbi by lia.
  unfold buffer_at. rewrite Hbi. ostep. eexists. split; [done|].
  assert (0 <= came_at now h <= came h) by apply (sum_if_range _ _ _ Hs).
  assert (0 <= window_sum W now h <= came h) by apply (sum_if_range _ _ _ Hs).
  split; [split; cbn; try done|split; [|by left]].
  - by rewrite length_insert.
  - intros k Hk. destruct (Z.eq_dec k (W - 1)) as [->|Hne].
    + rewrite <- Ei, list_lookup_insert_eq by lia. f_equal. replace (now - W + 1 + (W - 1)) with now by lia.
      change (came_at now ((now, size) :: h)) with ((if now =? now then size else 0) + came_at now h). rewrite Z.eqb_refl.
      rewrite wrap_small by (unfold in_uint; lia). lia.
    + rewrite list_lookup_insert_ne.
      * rewrite Hb by done. f_equal. unfold came_at. rewrite sum_if_cons. cbn [fst]. by rewrite (proj2 (Z.eqb_neq _ _)) by lia.
      * intros E. apply Z2Nat.inj in E; [|lia|apply Z.mod_pos_bound; lia]. rewrite Ei in E.
        apply ring_index_inj in E; lia.
  - rewrite Ht. change (window_sum W now ((now, size) :: h)) with ((if now - W <? now then size else 0) + window_sum W now h).
    rewrite (proj2 (Z.ltb_lt (now - W) now)) by lia. rewrite wrap_small by (unfold in_uint; lia). lia.
  - by apply Forall_cons.
  - rewrite Hb1. change (came ((now, size) :: h)) with (size + came h). cbn. rewrite wrap_small by (unfold in_uint; lia). lia.
Qed.

Lemma GetRate_reports T now s h : in_time T -> T <= now -> in_time now -> came h < 2 ^ 64 -> reports T h s ->
  match rate_of W sc (window_sum W now h) with
  | Ok v => exists s', GetRate s now = Ok (s', v) /\ reports now h s'
  | Err e => GetRate s now = Err e
  end.
Proof.
  intros HT HTn Hn Hc (Hr & Hby & Hl). unfold GetRate. destruct (Z.eqb_spec now (lastTime s)) as [E|Hne].
  - unfold in_time in *. assert (lastTime s = T /\ rate_of W sc (window_sum W T h) = Ok (lastRate s)) as [E' Hv] by (destruct Hl; [lia|done]).
    assert (now = T) as -> by lia. rewrite Hv. exists s. split; [done|]. split; [done|]. split; [done|by right].
  - destruct (RemoveOldData_ring T now s h HT HTn Hn Hc Hr) as (s1 & E1 & Hr1 & Hb1). rewrite E1. ostep.
    rewrite (rg_window _ _ _ _ _ Hr1), (rg_scale _ _ _ _ _ Hr1), (rg_total _ _ _ _ _ Hr1).
    destruct (rate_of W sc (window_sum W now h)) as [v|e] eqn:Ev; ostep; [|done].
    eexists. split; [done|]. split; [by destruct Hr1|]. split; [by rewrite <- Hby|]. right. split; done.
Qed.
End ring.

(** * Any use of it *)

Inductive rate_op : Type :=
| UpdateOp (size nowMs : Z)
| GetRateOp (nowMs : Z).

Definition op_time (o : rate_op) : Z := match o with UpdateOp _ t | GetRateOp t => t end.

(** The rates told. *)
Fixpoint run (s : rate_calculator) (l : list rate_op) : outcome (list Z) :=
  match l with
  | [] => Ok []
  | UpdateOp size now :: l => s ← Update s size now; run s l
  | GetRateOp now :: l => '(s, v) ← GetRate s now; r ← run s l; Ok (v :: r)
  end.

(** Those of what came in the window each time. *)
Fixpoint rates (W : Z) (sc : spec_float) (h : list (Z * Z)) (l : list rate_op) : outcome (list Z) :=
  match l with
  | [] => Ok []
  | UpdateOp size now :: l => rates W sc ((now, size) :: h) l
  | GetRateOp now :: l => v ← rate_of W sc (window_sum W now h); r ← rates W sc h l; Ok (v :: r)
  end.

(** Times do not go back, and sizes are those of packets. *)
Fixpoint proceeds (T : Z) (l : list rate_op) : Prop :=
  match l with
  | [] => True
  | o :: l => T <= op_time o < 2 ^ 63 /\ match o with UpdateOp size _ => 0 <= size < 2 ^ 16 | _ => True end /\ proceeds (op_time o) l
  end.

Lemma run_rates W sc (HW : 0 < W < 2 ^ 31) l : forall T s h, in_time W T -> proceeds T l ->
  came h + 2 ^ 16 * Z.of_nat (length l) < 2 ^ 64 -> reports W sc T h s -> run s l = rates W sc h l.
Proof.
  induction l as [|o l IH]; intros T s h HT Hp Hc Hr; [done|].
  destruct Hp as (Ho & Hsz & Hp). cbn [length] in Hc. assert (in_time W (op_time o)) as Ho' by (unfold in_time in *; lia).
  destruct o as [size now|now]; cbn [run rates op_time] in *.
  - destruct (Update_reports W sc HW T now size s h HT ltac:(lia) Ho' ltac:(lia) ltac:(lia) Hr) as (s' & -> & Hr'). ostep.
    apply (IH now); [done|done| |done]. unfold came in *. rewrite sum_if_cons. cbn [snd]. lia.
  - pose proof (GetRate_reports W sc HW T now s h HT ltac:(lia) Ho' ltac:(lia) Hr) as Hg.
    destruct (rate_of W sc (window_sum W now h)) as [v|e]; [|by rewrite Hg]. destruct Hg as (s' & -> & Hr'). ostep.
    by rewrite (IH now s' h Ho' Hp ltac:(lia) Hr').
Qed.

(** * The rate of a number of bytes *)

From Stdlib Require Import QArith Lqa.
Local Open Scope Q_scope.

Lemma in_float_range x : bpow (-100) <= x -> x < bpow 100 -> in_range 24 128 x.
Proof.
  intros H1 H2. split; [eapply Qle_trans; [apply bpow_le|done]; done|eapply Qlt_le_trans; [done|by apply bpow_le]].
Qed.

Lemma float_to_u32_Ok f x : is_val f x -> x < 4294967296 ->
  exists v, float_to_u32 f = Ok v /\ (0 <= v < 2 ^ 32)%Z /\ inject_Z v <= x < inject_Z v + 1.
Proof.
  intros Hf Hx. pose proof (is_val_nonneg _ _ Hf) as H0. pose proof (trunc_spec _ _ Hf) as [T1 T2].
  assert (0 <= double_trunc f)%Z by (apply (Z_of_bounds 0 _ x); done).
  assert (double_trunc f < 2 ^ 32)%Z.
  { assert (inject_Z (double_trunc f) < inject_Z (2 ^ 32)) as HZ by (change (inject_Z (2 ^ 32)) with 4294967296; lra). by rewrite <- Zlt_Qlt in HZ. }
  exists (double_trunc f). rewrite inject_Z_plus in T2. change (inject_Z 1) with 1 in T2.
  destruct f as [| | |[] m e]; try done; cbn [float_to_u32]; rewrite (proj2 (Z.ltb_lt _ _)) by done; done.
Qed.

(** Two roundings of [e] each. *)
Lemma twice_close e x y z : 0 <= x -> 0 <= e -> e <= 1 # 100 -> x * (1 - e) <= y -> y <= x * (1 + e) ->
  y * (1 - e) <= z -> z <= y * (1 + e) -> x * (1 - 2 * e) <= z /\ z <= x * (1 + 3 * e).
Proof. intros Hx He He' H1 H2 H3 H4. assert (0 <= y) by nra. split; nra. Qed.

Lemma float_of_Z_val z : (0 <= z < 2 ^ 24)%Z -> is_val (float_of_Z z) (inject_Z z).
Proof. intros Hz. by apply of_Z_exact. Qed.

Lemma float_0_5_val : is_val float_0_5 (1 # 2).
Proof. vm_compute. done. Qed.

Definition eps : Q := 1 # 8388608.

Lemma close24 x r : 0 < x -> rounded 24 x r -> x * (1 - eps) <= r /\ r <= x * (1 + eps).
Proof. intros Hx Hr. apply (rounded_close 24); done. Qed.

(** The scale for a window. *)
Lemma scale_close W : (1000 <= W < 2 ^ 24)%Z ->
  exists rs, is_val (SFdiv 24 128 DefaultBpsScale (float_of_Z W)) rs /\
    8000 / inject_Z W * (1 - eps) <= rs /\ rs <= 8000 / inject_Z W * (1 + eps) /\
    1 # 4096 <= 8000 / inject_Z W /\ 8000 / inject_Z W <= 8.
Proof.
  intros HW. assert (1000 <= inject_Z W) as W1 by (change 1000 with (inject_Z 1000); rewrite <- Zle_Qle; lia).
  assert (inject_Z W < 16777216) as W2 by (change 16777216 with (inject_Z 16777216); rewrite <- Zlt_Qlt; lia).
  destruct (SFdiv_ok 24 128 eq_refl DefaultBpsScale (float_of_Z W) 8000 (inject_Z W)) as (rs & Vs & Rs).
  { by apply float_of_Z_val. } { apply float_of_Z_val. lia. } { lra. }
  { right. apply in_float_range.
    - eapply Qle_trans; [apply (bpow_le _ (-12)); done|]. apply Qle_shift_div_l; [lra|]. change (bpow (-12)) with (1 # 4096). lra.
    - eapply Qlt_le_trans; [|apply (bpow_le 4); done]. apply Qlt_shift_div_r; [lra|]. change (bpow 4) with 16. lra. }
  assert (0 < 8000 / inject_Z W) as Hs0 by (apply Qlt_shift_div_l; lra).
  destruct (close24 _ _ Hs0 Rs) as [S1 S2]. exists rs. repeat (split; [done|]).
  split; [apply Qle_shift_div_l; lra|apply Qle_shift_div_r; lra].
Qed.

(** The bytes times the scale. *)
Lemma scaled_close W total : (1000 <= W < 2 ^ 24)%Z -> (0 < total <= 2 ^ 28)%Z ->
  exists p, is_val (SFmul 24 128 (float_of_Z total) (SFdiv 24 128 DefaultBpsScale (float_of_Z W))) p /\ fmt 24 p /\
    inject_Z (8000 * total) / inject_Z W * (1 - 3 * eps) <= p /\ p <= inject_Z (8000 * total) / inject_Z W * (1 + 5 * eps) /\
    1 # 16384 <= p /\ p <= 2500000000.
Proof.
  intros HW Ht. destruct (scale_close W HW) as (rs & Vs & S1 & S2 & S3 & S4).
  destruct (float_of_Z_rounded total ltac:(lia)) as (rt & Vt & Rt).
  assert (1 <= inject_Z total) as T1 by (change 1 with (inject_Z 1); rewrite <- Zle_Qle; lia).
  assert (inject_Z total <= 268435456) as T2 by (change 268435456 with (inject_Z (2 ^ 28)); rewrite <- Zle_Qle; lia).
  destruct (close24 (inject_Z total) rt ltac:(lra) Rt) as [T3 T4].
  assert (inject_Z (8000 * total) / inject_Z W == inject_Z total * (8000 / inject_Z W)) as Ets.
  { rewrite inject_Z_mult. change (inject_Z 8000) with 8000. field. intros E. rewrite E in S3. by vm_compute in S3. }
  setoid_rewrite Ets.
  set (s := 8000 / inject_Z W) in *. set (t := inject_Z total) in *.
  unfold eps in *. assert (1 # 8192 <= rs /\ rs <= 9) as [S5 S6] by (split; lra).
  assert (1 # 2 <= rt /\ rt <= 268435500) as [T5 T6] by (split; lra).
  assert (1 # 16384 <= rt * rs) as P3 by nra. assert (rt * rs <= 2415919500) as P4 by nra.
  destruct (SFmul_ok 24 128 eq_refl _ _ _ _ Vt Vs) as (p & Vp & Rp).
  { right. apply in_float_range.
    - eapply Qle_trans; [apply (bpow_le _ (-14)); done|]. exact P3.
    - eapply Qlt_le_trans; [|apply (bpow_le 40); done]. change (bpow 40) with 1099511627776. lra. }
  destruct (close24 (rt * rs) p ltac:(lra) Rp) as [P1 P2]. unfold eps in *. exists p. split; [done|]. split; [apply Rp|].
  assert (0 <= t * s) by (apply Qmult_le_0_compat; lra). assert (t * s * (1 - 2 * (1 # 8388608)) <= rt * rs /\ rt * rs <= t * s * (1 + 3 * (1 # 8388608))) as [Q1 Q2].
  { pose proof (Qmult_le_compat_r _ _ s T3 ltac:(lra)). pose proof (Qmult_le_compat_r _ _ s T4 ltac:(lra)).
    pose proof (Qmult_le_compat_r _ _ rt S1 ltac:(lra)). pose proof (Qmult_le_compat_r _ _ rt S2 ltac:(lra)).
    apply (twice_close _ _ (rt * s)); [done|done|done|lra|lra|lra|lra]. }
  split; [lra|]. split; [lra|]. split; [|lra].
  apply (proj2 Rp (dyad 1 (-14))); [by apply fmt_num|]. exact P3.
Qed.

(** The rate is 8000 times the bytes per window, but for one part in 2^20 and one
    bit per second. *)
Lemma rate_of_close W total : (1000 <= W < 2 ^ 24)%Z -> (0 <= total <= 2 ^ 28)%Z ->
  exists v, rate_of W DefaultBpsScale total = Ok v /\ (0 <= v < 2 ^ 32)%Z /\
    (Z.abs (v * W - 8000 * total) * 2 ^ 20 <= 8000 * total + W * 2 ^ 20)%Z.
Proof.
  intros HW Ht. unfold rate_of. destruct (Z.eq_dec total 0) as [->|Hne].
  { exists 0%Z. split; [|lia]. change (float_of_Z 0) with (S754_zero false).
    destruct (scale_close W HW) as (rs & Vs & _). destruct (SFdiv 24 128 DefaultBpsScale (float_of_Z W)) as [| | |[]]; try done; by vm_compute. }
  destruct (scaled_close W total HW ltac:(lia)) as (p & Vp & Fp & P1 & P2 & P3 & P4).
  destruct (SFadd_ok 24 128 eq_refl _ _ _ _ Vp float_0_5_val) as (q & Vq & Rq).
  { right. apply in_float_range.
    - eapply Qle_trans; [apply (bpow_le _ (-14)); done|]. change (bpow (-14)) with (1 # 16384). lra.
    - eapply Qlt_le_trans; [|apply (bpow_le 40); done]. change (bpow 40) with 1099511627776. lra. }
  { intros E. lra. } { done. }
  destruct (close24 (p + (1 # 2)) q ltac:(lra) Rq) as [Q1 Q2]. unfold eps in *.
  destruct (float_to_u32_Ok _ q Vq ltac:(lra)) as (v & Ev & Hv & V1 & V2).
  exists v. split; [done|]. split; [done|].
  assert (0 < inject_Z W) as HW0 by (change 0 with (inject_Z 0); rewrite <- Zlt_Qlt; lia).
  set (x := inject_Z (8000 * total) / inject_Z W) in *. assert (x * inject_Z W == inject_Z (8000 * total)) as Ex by (unfold x; field; lra).
  assert (0 <= x) as Hx by (apply Qle_shift_div_l; [done|]; rewrite Qmult_0_l; change 0 with (inject_Z 0); rewrite <- Zle_Qle; lia).
  assert (inject_Z v <= x * (1 + (1 # 1048576)) + 1) as U1 by lra.
  assert (x * (1 - (1 # 1048576)) - 1 <= inject_Z v) as U2 by lra.
  apply (Qmult_le_compat_r _ _ (inject_Z W)) in U1; [|lra]. apply (Qmult_le_compat_r _ _ (inject_Z W)) in U2; [|lra].
  assert (inject_Z (v * W) == inject_Z v * inject_Z W) as Ev' by by rewrite inject_Z_mult.
  assert (inject_Z (v * W * 1048576) <= inject_Z (8000 * total * 1048577 + W * 1048576)) as Z1.
  { rewrite inject_Z_plus, !(inject_Z_mult _ 1048576), (inject_Z_mult _ 1048577), Ev', <- Ex.
    change (inject_Z 1048576) with 1048576. change (inject_Z 1048577) with 1048577. lra. }
  assert (inject_Z (8000 * total * 1048575) <= inject_Z (v * W * 1048576 + W * 1048576)) as Z2.
  { rewrite inject_Z_plus, !(inject_Z_mult _ 1048576), (inject_Z_mult _ 1048575), Ev', <- Ex.
    change (inject_Z 1048576) with 1048576. change (inject_Z 1048575) with 1048575. lra. }
  rewrite <- Zle_Qle in Z1, Z2. lia.
Qed.
Local Open Scope Z_scope.

(** * Whatever the clock says

    Neither [Update] nor [GetRate] leaves the ring, also when the clock goes back or
    is less than the window. *)

Record shape (s : rate_calculator) : Prop := {
  sh_window : 1000 <= windowSize s < 2 ^ 24;
  sh_scale : scale s = DefaultBpsScale;
  sh_length : length (buffer s) = Z.to_nat (windowSize s);
  sh_index : 0 <= oldestIndex s < windowSize s;
  sh_oldest : in_uint 64 (oldestTime s);
  sh_rate : in_uint 32 (lastRate s)
}.

(** The bytes in the ring are counted, and not more than a rate can tell. *)
Definition zsum : list Z -> Z := foldr Z.add 0.
Definition tame (s : rate_calculator) : Prop :=
  Forall (Z.le 0) (buffer s) /\ totalCount s = zsum (buffer s) /\ totalCount s <= 2 ^ 28.

Lemma zsum_insert l i c x : l !! i = Some c -> zsum (<[i := x]> l) = zsum l - c + x.
Proof.
  unfold zsum. revert i. induction l as [|y l IH]; intros i Hi; [done|]. destruct i as [|i].
  - injection Hi as ->. cbn. lia.
  - specialize (IH i Hi). change (<[Datatypes.S i := x]> (y :: l)) with (y :: <[i := x]> l). cbn [foldr]. lia.
Qed.

Lemma zsum_nonneg l : Forall (Z.le 0) l -> 0 <= zsum l.
Proof. induction 1; cbn; lia. Qed.

Lemma zsum_at l i c : Forall (Z.le 0) l -> l !! i = Some c -> 0 <= c <= zsum l.
Proof.
  intros Hl Hi. pose proof (zsum_insert l i c 0 Hi) as E.
  pose proof (zsum_nonneg (<[i := 0]> l) (Forall_insert (Z.le 0) l i 0 Hl ltac:(done))).
  split; [by apply (Forall_lookup_1 _ _ _ _ Hl Hi)|lia].
Qed.

Lemma buffer_at_shape s i : shape s -> 0 <= i < windowSize s -> exists c, buffer_at s i = Ok c /\ buffer s !! Z.to_nat i = Some c.
Proof.
  intros Hs Hi. destruct (lookup_lt_is_Some_2 (buffer s) (Z.to_nat i)) as [c Hc]; [rewrite (sh_length _ Hs); lia|].
  exists c. unfold buffer_at. by rewrite Hc.
Qed.

Lemma remove_loop_shape new fuel : forall s, shape s -> in_uint 64 new -> new - oldestTime s <= Z.of_nat fuel ->
  exists s', remove_loop fuel new s = Ok s' /\ shape s' /\ (tame s -> tame s') /\ lastTime s' = lastTime s.
Proof.
  induction fuel as [|fuel IH]; intros s Hs Hn Hf; cbn [remove_loop].
  - rewrite (proj2 (Z.ltb_ge (oldestTime s) new)) by lia. by exists s.
  - destruct (Z.ltb_spec (oldestTime s) new) as [Hlt|]; [|by exists s]. pose proof Hs as [Hw Hsc Hl Hi Ho Hr].
    destruct (buffer_at_shape s (oldestIndex s) Hs Hi) as (c & -> & Hc). ostep.
    rewrite (wrap_small 32 (oldestIndex s + 1)) by (unfold in_uint; lia).
    rewrite (wrap_small 64 (oldestTime s + 1)) by (unfold in_uint in *; lia).
    set (s1 := RateCalculator _ _ _ _ _ _ _ _ _). destruct (IH s1) as (s' & E & Hs' & Ht & El); [|done|cbn; lia|].
    { split; cbn; [done|done|by rewrite length_insert| |unfold in_uint in *; lia|done].
      destruct (Z.leb_spec (windowSize s) (oldestIndex s + 1)); lia. }
    exists s'. split; [exact E|]. split; [done|]. split; [|done]. intros (T1 & T2 & T3). apply Ht.
    pose proof (zsum_at _ _ _ T1 Hc). split; [|split]; cbn.
    + by apply Forall_insert.
    + rewrite (zsum_insert _ _ c 0 Hc), wrap_small by (unfold in_uint; lia). lia.
    + rewrite wrap_small by (unfold in_uint; lia). lia.
Qed.

Lemma Reset_shape s now : shape s -> shape (Reset s now) /\ tame (Reset s now).
Proof.
  intros [Hw Hsc Hl Hi Ho Hr]. split; [split; cbn|].
  - done.
  - done.
  - by rewrite length_replicate.
  - lia.
  - apply wrap_range. lia.
  - by vm_compute.
  - split; [apply Forall_replicate; done|]. cbn. split; [|lia].
    assert (forall n, zsum (replicate n 0) = 0) as -> by (intros n; induction n; [done|]; cbn; done). done.
Qed.

Lemma RemoveOldData_shape s now : shape s -> exists s', RemoveOldData s now = Ok s' /\ shape s' /\ (tame s -> tame s').
Proof.
  intros Hs. pose proof Hs as [Hw Hsc Hl Hi Ho Hr]. unfold RemoveOldData.
  set (new := u64 (now - windowSize s)). assert (in_uint 64 new) as Hn by (apply wrap_range; lia).
  destruct (Z.ltb_spec new (oldestTime s)); [by exists s|]. destruct (Z.eqb_spec new (oldestTime s)); [by exists s|].
  destruct (Z.ltb_spec (u64 (oldestTime s + windowSize s)) new) as [Hlt|Hge].
  { destruct (Reset_shape s now Hs). by eexists. }
  destruct (remove_loop_shape new (Z.to_nat (windowSize s)) s Hs Hn) as (s1 & E & Hs1 & Ht & _).
  { unfold in_uint in *. destruct (Z.lt_ge_cases (oldestTime s + windowSize s) (2 ^ 64)).
    - rewrite wrap_small in Hge by (unfold in_uint; lia). lia.
    - replace (oldestTime s + windowSize s) with (oldestTime s + windowSize s - 2 ^ 64 + 1 * 2 ^ 64) in Hge by lia.
      unfold wrap in Hge. rewrite Z_mod_plus_full, Z.mod_small in Hge by lia. lia. }
  rewrite E. ostep. eexists. split; [done|]. destruct Hs1. split; [by split|]. exact Ht.
Qed.

Lemma Update_shape s size now : shape s -> exists s', Update s size now = Ok s' /\ shape s'.
Proof.
  intros Hs. unfold Update. destruct (now <? oldestTime s); [by exists s|].
  set (s0 := RateCalculator _ _ _ _ _ _ (u64 _) _ _). assert (shape s0) as Hs0 by by destruct Hs.
  destruct (RemoveOldData_shape s0 now Hs0) as (s1 & -> & Hs1 & _). ostep. cbn zeta. pose proof Hs1 as [Hw Hsc Hl Hi Ho Hr].
  rewrite (wrap_small 32 (windowSize s1 - 1)), (wrap_small 32 (oldestIndex s1 + _)) by (unfold in_uint; lia).
  destruct (Z.leb_spec (windowSize s1) (oldestIndex s1 + (windowSize s1 - 1))).
  - rewrite (wrap_small 32) by (unfold in_uint; lia).
    destruct (buffer_at_shape s1 (oldestIndex s1 + (windowSize s1 - 1) - windowSize s1) Hs1) as (c & -> & _); [lia|]. ostep.
    eexists. split; [done|]. split; cbn; try done; by rewrite length_insert.
  - destruct (buffer_at_shape s1 (oldestIndex s1 + (windowSize s1 - 1)) Hs1) as (c & -> & _); [lia|]. ostep.
    eexists. split; [done|]. split; cbn; try done; by rewrite length_insert.
Qed.

Lemma GetRate_tame s now : shape s -> tame s ->
  exists s' v, GetRate s now = Ok (s', v) /\ shape s' /\ tame s' /\ in_uint 32 v.
Proof.
  intros Hs Ht. unfold GetRate. destruct (now =? lastTime s).
  { exists s, (lastRate s). pose proof (sh_rate _ Hs). done. }
  destruct (RemoveOldData_shape s now Hs) as (s1 & -> & Hs1 & Ht1). ostep. specialize (Ht1 Ht) as (T1 & T2 & T3).
  pose proof Hs1 as [Hw Hsc Hl Hi Ho Hr]. pose proof (zsum_nonneg _ T1).
  destruct (rate_of_close (windowSize s1) (totalCount s1)) as (v & Ev & Hv & _); [done|lia|].
  rewrite Hsc, Ev. ostep. do 2 eexists. split; [done|]. split; [by split; cbn|]. by split; [split|].
Qed.

Lemma new_shape W now : 1000 <= W < 2 ^ 24 ->
  shape (new_RateCalculator W DefaultBpsScale now) /\ tame (new_RateCalculator W DefaultBpsScale now).
Proof.
  intros HW. unfold new_RateCalculator. split; [split; cbn|].
  - done.
  - done.
  - by rewrite length_replicate.
  - lia.
  - apply wrap_range. lia.
  - by vm_compute.
  - split; [apply Forall_replicate; done|]. cbn. split; [|lia].
    assert (forall n, zsum (replicate n 0) = 0) as -> by (intros n; induction n; [done|]; cbn; done). done.
Qed.

(** * The theorem *)

(** C36: the rate is that of the last [W] milliseconds.  Whatever packets come and
    whenever the rate is asked for, as long as the clock does not go back and is
    not less than the window, each rate told is that of the bytes that came within
    the [W] milliseconds before: the ring of counters, the rates remembered and the
    entries dropped with the time change nothing.  It is 8000 times the bytes over
    [W], up to one bit per second and one part in 2^20 of float rounding, for up to
    2^28 bytes in the window. *)
Theorem rate_is_window W t l : 1000 <= W < 2 ^ 24 -> W <= t < 2 ^ 63 -> proceeds t l -> Z.of_nat (length l) < 2 ^ 47 ->
  run (new_RateCalculator W DefaultBpsScale t) l = rates W DefaultBpsScale [] l /\
  forall now h, window_sum W now h <= 2 ^ 28 -> sane now h -> exists v, rate_of W DefaultBpsScale (window_sum W now h) = Ok v /\
    in_uint 32 v /\
    Z.abs (v * W - 8000 * window_sum W now h) * 2 ^ 20 <= 8000 * window_sum W now h + W * 2 ^ 20.
Proof.
  intros HW Ht Hp Hl. split.
  - apply (run_rates W DefaultBpsScale ltac:(lia) l t); [done|done| |by apply new_reports; [lia|]].
    change (came []) with 0. lia.
  - intros now h Hh Hs. pose proof (sum_if_range (Z.ltb (now - W)) now h Hs). apply rate_of_close; [done|].
    unfold window_sum in *. lia.
Qed.

Lemma rate_is_window_witness :
  run (new_RateCalculator 2500 DefaultBpsScale 5000) [UpdateOp 1000 5001; UpdateOp 500 6000; GetRateOp 6000; GetRateOp 7501]
    = Ok [4800; 1600].
Proof.
  destruct (rate_is_window 2500 5000 [UpdateOp 1000 5001; UpdateOp 500 6000; GetRateOp 6000; GetRateOp 7501]) as [E _].
  - lia.
  - lia.
  - cbn. lia.
  - cbn. lia.
  - rewrite E. vm_compute. reflexivity.
Defined.

(** When the clock is less than the window at the start, [oldestTime] wraps around
    and nothing is counted. *)
Theorem early_clock W t size now : 0 <= t < W -> W < 2 ^ 32 -> 0 <= now < 2 ^ 63 ->
  Update (new_RateCalculator W DefaultBpsScale t) size now = Ok (new_RateCalculator W DefaultBpsScale t).
Proof.
  intros Ht HW Hn. unfold Update, new_RateCalculator. cbn.
  assert (u64 (t - W) = t - W + 2 ^ 64) as ->.
  { unfold wrap. rewrite <- (Z_mod_plus_full _ 1). apply Z.mod_small. lia. }
  by rewrite (proj2 (Z.ltb_lt _ _)) by lia.
Qed.
