(* ===== verification/RtxStream.v ===== *)
(** [RTC::RtxStream] (worker/src/RTC/RtxStream.cpp, worker/include/RTC/RtxStream.hpp),
    the stream of the retransmissions that come in, and the receiver reports it
    shares with [RTC::RtpStreamRecv]. *)

From Stdlib Require Import Floats.SpecFloat.
From S2P Require Export Floats RtpStream RtcpReports.

(** * What receiver reports tell of losses *)

Record loss_state : Type := LossState {
  expectedPrior : Z;
  receivedPrior : Z;
  ls_packetsLost : Z;
  ls_fractionLost : Z;
  reportedPacketLost : Z
}.

Definition new_loss_state : loss_state := LossState 0 0 0 0 0.

(** [std::round] of a [double] and its conversion to [uint8_t]. *)
Definition round_to_u8 (f : spec_float) : outcome Z :=
  match f with
  | S754_finite false _ _ | S754_zero _ => if double_round f <? 256 then Ok (double_round f) else Err OutOfBounds
  | _ => Err OutOfBounds
  end.

(** Packets lost, and the intervals since the last report: [expected] and
    [received] count all packets. *)
Definition update_lost (s : loss_state) (expected received : Z) : loss_state :=
  LossState expected (u32 received) (if received <? expected then u32 (expected - received) else 0)
    (ls_fractionLost s) (reportedPacketLost s).

Definition expected_interval (s : loss_state) (expected : Z) : Z := u32 (expected - expectedPrior s).
Definition received_interval (s : loss_state) (received : Z) : Z := u32 (received - receivedPrior s).

(** [std::round(static_cast<double>(lostInterval << 8) / expectedInterval)]: the shift
    and the conversion are not always defined. *)
Definition fraction_lost (expectedInterval receivedInterval : Z) : outcome Z :=
  let lostInterval := swrap 32 (u32 (expectedInterval - receivedInterval)) in
  if (expectedInterval =? 0) || (lostInterval <=? 0) then Ok 0
  else
    _ ← require OutOfBounds (lostInterval <? 2 ^ 23);
    round_to_u8 (SFdiv 53 1024 (double_of_Z (Z.shiftl lostInterval 8)) (double_of_Z expectedInterval)).

Definition set_fraction (s : loss_state) (fraction reported : Z) : loss_state :=
  LossState (expectedPrior s) (receivedPrior s) (ls_packetsLost s) fraction reported.

(** * The last sender report *)

Record sr_state : Type := SrState { lastSrTimestamp : Z; lastSrReceived : Z }.

Definition receive_sr (report : sender_report) (now : Z) : sr_state :=
  SrState (u32 (u32 (Z.shiftl (sr_ntpSec report) 16) + Z.shiftr (sr_ntpFrac report) 16)) now.

(** The fields "last SR" and "delay since last SR" of a report. *)
Definition sr_fields (s : sr_state) (now : Z) : Z * Z :=
  if negb (lastSrReceived s =? 0) then
    let delayMs := u32 (now - lastSrReceived s) in
    let dlsr := u32 (Z.shiftl (delayMs / 1000) 16) in
    let dlsr := Z.lor dlsr (u32 (delayMs `mod` 1000 * 65536) / 1000) in
    (lastSrTimestamp s, dlsr)
  else (0, 0).

(** * The stream *)

Record rtx_stream : Type := RtxStream {
  rx_ssrc : Z;
  rx_maxSeq : Z;
  rx_cycles : Z;
  rx_baseSeq : Z;
  rx_badSeq : Z;
  rx_maxPacketTs : Z;
  rx_maxPacketMs : Z;
  rx_packetsDiscarded : Z;
  rx_packetsCount : Z;
  rx_started : bool;
  rx_loss : loss_state;
  rx_sr : sr_state
}.

Definition new_RtxStream (ssrc : Z) : rtx_stream :=
  RtxStream ssrc 0 0 0 0 0 0 0 0 false new_loss_state (SrState 0 0).

Definition rx_set_seq (s : rtx_stream) (max cyc base bad : Z) : rtx_stream :=
  RtxStream (rx_ssrc s) max cyc base bad (rx_maxPacketTs s) (rx_maxPacketMs s) (rx_packetsDiscarded s) (rx_packetsCount s)
    (rx_started s) (rx_loss s) (rx_sr s).
Definition rx_set_max_packet (s : rtx_stream) (ts ms : Z) : rtx_stream :=
  RtxStream (rx_ssrc s) (rx_maxSeq s) (rx_cycles s) (rx_baseSeq s) (rx_badSeq s) ts ms (rx_packetsDiscarded s)
    (rx_packetsCount s) (rx_started s) (rx_loss s) (rx_sr s).
Definition rx_set_counts (s : rtx_stream) (discarded count : Z) (start : bool) : rtx_stream :=
  RtxStream (rx_ssrc s) (rx_maxSeq s) (rx_cycles s) (rx_baseSeq s) (rx_badSeq s) (rx_maxPacketTs s) (rx_maxPacketMs s)
    discarded count start (rx_loss s) (rx_sr s).
Definition rx_set_reports (s : rtx_stream) (l : loss_state) (r : sr_state) : rtx_stream :=
  RtxStream (rx_ssrc s) (rx_maxSeq s) (rx_cycles s) (rx_baseSeq s) (rx_badSeq s) (rx_maxPacketTs s) (rx_maxPacketMs s)
    (rx_packetsDiscarded s) (rx_packetsCount s) (rx_started s) l r.

Definition rx_InitSeq (s : rtx_stream) (seq : Z) : rtx_stream := rx_set_seq s seq (rx_cycles s) seq (RtpSeqMod + 1).

Definition rx_UpdateSeq (s : rtx_stream) (seq timestamp now : Z) : rtx_stream * bool :=
  let udelta := u16 (seq - rx_maxSeq s) in
  if udelta <? MaxDropout then
    (rx_set_seq s seq (if seq <? rx_maxSeq s then u32 (rx_cycles s + RtpSeqMod) else rx_cycles s) (rx_baseSeq s) (rx_badSeq s), true)
  else if udelta <=? RtpSeqMod - MaxMisorder then
    if seq =? rx_badSeq s then (rx_set_max_packet (rx_InitSeq s seq) timestamp now, true)
    else
      let s := rx_set_seq s (rx_maxSeq s) (rx_cycles s) (rx_baseSeq s) (Z.land (seq + 1) (RtpSeqMod - 1)) in
      (rx_set_counts s (u64 (rx_packetsDiscarded s + 1)) (rx_packetsCount s) (rx_started s), false)
  else (s, true).

Definition rx_ReceivePacket (s : rtx_stream) (p : rtp_packet) (now : Z) : outcome (rtx_stream * bool) :=
  seq ← GetSequenceNumber p;
  ts ← GetTimestamp p;
  let s := if rx_started s then s
           else
             let s := rx_set_counts (rx_InitSeq s seq) (rx_packetsDiscarded s) (rx_packetsCount s) true in
             let s := rx_set_seq s (u16 (seq - 1)) (rx_cycles s) (rx_baseSeq s) (rx_badSeq s) in
             rx_set_max_packet s ts now in
  let '(s, ok) := rx_UpdateSeq s seq ts now in
  if negb ok then Ok (s, false)
  else
    let s := if IsSeqHigherThan 32 ts (rx_maxPacketTs s) then rx_set_max_packet s ts now else s in
    Ok (rx_set_counts s (rx_packetsDiscarded s) (u64 (rx_packetsCount s + 1)) (rx_started s), true).

Definition rx_GetExpectedPackets (s : rtx_stream) : Z :=
  u32 (u32 (u32 (rx_cycles s + rx_maxSeq s) - rx_baseSeq s) + 1).

Definition rx_GetRtcpReceiverReport (s : rtx_stream) (now : Z) : outcome (rtx_stream * receiver_report) :=
  let prevPacketsLost := ls_packetsLost (rx_loss s) in
  let expected := rx_GetExpectedPackets s in
  let l := update_lost (rx_loss s) expected (rx_packetsCount s) in
  fraction ← fraction_lost (expected_interval (rx_loss s) expected) (received_interval (rx_loss s) (rx_packetsCount s));
  let reported := u32 (reportedPacketLost l + u32 (ls_packetsLost l - prevPacketsLost)) in
  let '(lsr, dlsr) := sr_fields (rx_sr s) now in
  Ok (rx_set_reports s (set_fraction l fraction reported) (rx_sr s),
      ReceiverReport (rx_ssrc s) fraction (SetTotalLost (swrap 32 reported)) (u32 (rx_maxSeq s + rx_cycles s)) 0 lsr dlsr).

Definition rx_ReceiveRtcpSenderReport (s : rtx_stream) (report : sender_report) (now : Z) : rtx_stream :=
  rx_set_reports s (rx_loss s) (receive_sr report now).
