(* ===== verification/RtpStreamRecv.v ===== *)
(** [RTC::RtpStreamRecv] (worker/src/RTC/RtpStreamRecv.cpp,
    worker/include/RTC/RtpStreamRecv.hpp): a stream of packets that comes in, with
    what is asked of its sender (packets again, key frames), what is reported to it,
    its bitrates and its score.

    The packets are serialized into a static buffer right before they are handed to
    the listener; the calls of the listener are [recv_event]s.  [std::pow] is not
    computed to the last bit by every library: it is the class [PowFunction]. *)

From Stdlib Require Import Floats.SpecFloat.
From S2P Require Export NackGenerator RtcpPacket RateCalculator RtxStream Consumer.

(** * [TransmissionCounter] *)

(** [spatialLayerCounters]. *)
Abbreviation transmission_counter := (list (list data_counter)).

Definition new_TransmissionCounter (spatialLayers temporalLayers windowSize now : Z) : transmission_counter :=
  replicate (Z.to_nat spatialLayers) (replicate (Z.to_nat temporalLayers) (new_RtpDataCounter windowSize now)).

Definition counter_at (c : transmission_counter) (spatial temporal : Z) : outcome data_counter :=
  match c !! Z.to_nat spatial with
  | Some l => match l !! Z.to_nat temporal with Some d => Ok d | None => Err OutOfBounds end
  | None => Err OutOfBounds
  end.

Definition set_counter (c : transmission_counter) (spatial temporal : Z) (d : data_counter) : transmission_counter :=
  alter (fun l => <[Z.to_nat temporal := d]> l) (Z.to_nat spatial) c.

(** A layer, not higher than the [n] that are counted: [size() - 1] is of 64 bits. *)
Definition clamp_layer (layer : Z) (n : nat) : Z :=
  let last := u64 (Z.of_nat n - 1) in if last <? layer then u8 last else layer.

Definition tc_Update (c : transmission_counter) (p : video_packet) (now : Z) : outcome transmission_counter :=
  let spatial := clamp_layer (GetSpatialLayer p) (length c) in
  first ← match c with l :: _ => Ok l | [] => Err OutOfBounds end;
  let temporal := clamp_layer (GetTemporalLayer p) (length first) in
  d ← counter_at c spatial temporal;
  d ← counter_Update d (GetSize (vp_packet p)) now;
  Ok (set_counter c spatial temporal d).

(** The bitrates of some counters, added up. *)
Fixpoint sum_bitrates (l : list data_counter) (now rate : Z) : outcome (list data_counter * Z) :=
  match l with
  | [] => Ok ([], rate)
  | d :: l =>
      '(d, b) ← counter_GetBitrate d now;
      '(l, rate) ← sum_bitrates l now (u32 (rate + b));
      Ok (d :: l, rate)
  end.

Fixpoint sum_layers (c : transmission_counter) (now rate : Z) : outcome (transmission_counter * Z) :=
  match c with
  | [] => Ok ([], rate)
  | l :: c =>
      '(l, rate) ← sum_bitrates l now rate;
      '(c, rate) ← sum_layers c now rate;
      Ok (l :: c, rate)
  end.

Definition tc_GetBitrate (c : transmission_counter) (now : Z) : outcome (transmission_counter * Z) := sum_layers c now 0.

Definition layer_counters (c : transmission_counter) (spatial : Z) : outcome (list data_counter) :=
  match c !! Z.to_nat spatial with Some l => Ok l | None => Err AssertFailed end.

(** [GetBitrate] of a layer with those it needs. *)
Definition tc_GetLayersBitrate (c : transmission_counter) (now spatial temporal : Z) : outcome (transmission_counter * Z) :=
  l ← layer_counters c spatial;
  _ ← require AssertFailed (temporal <? zlen l);
  d ← counter_at c spatial temporal;
  '(d, b) ← counter_GetBitrate d now;
  let c := set_counter c spatial temporal d in
  if b =? 0 then Ok (c, 0)
  else
    '(lower, rate) ← sum_layers (take (Z.to_nat spatial) c) now 0;
    l ← layer_counters c spatial;
    '(part, rate) ← sum_bitrates (take (Z.to_nat temporal + 1) l) now rate;
    Ok (lower ++ (part ++ drop (Z.to_nat temporal + 1) l) :: drop (Z.to_nat spatial + 1) c, rate).

Definition tc_GetSpatialLayerBitrate (c : transmission_counter) (now spatial : Z) : outcome (transmission_counter * Z) :=
  l ← layer_counters c spatial;
  '(l, rate) ← sum_bitrates l now 0;
  Ok (<[Z.to_nat spatial := l]> c, rate).

Definition tc_GetLayerBitrate (c : transmission_counter) (now spatial temporal : Z) : outcome (transmission_counter * Z) :=
  l ← layer_counters c spatial;
  _ ← require AssertFailed (temporal <? zlen l);
  d ← counter_at c spatial temporal;
  '(d, b) ← counter_GetBitrate d now;
  Ok (set_counter c spatial temporal d, b).

Definition tc_GetPacketCount (c : transmission_counter) : Z := foldl (fun n d => u64 (n + GetPacketCount d)) 0 (concat c).
Definition tc_GetBytes (c : transmission_counter) : Z := foldl (fun n d => u64 (n + counter_GetBytes d)) 0 (concat c).

(** * The stream *)

Definition InactivityCheckInterval : Z := 1500.
Definition InactivityCheckIntervalWithDtx : Z := 5000.

(** [std::pow(x, 4)] of a [double]. *)
Class PowFunction : Type := pow4 : spec_float -> spec_float.

(** The parameters that [RtpStream.params] leaves out. *)
Record recv_params : Type := RecvParams {
  rp_payloadType : Z;
  rp_codec : option codec;          (** of [mimeType] *)
  rp_usePli : bool;
  rp_useFir : bool;
  rp_useInBandFec : bool;
  rp_useDtx : bool;
  rp_spatialLayers : Z;
  rp_temporalLayers : Z
}.

(** Packets up to the last score: expected, received, repaired, sent again. *)
Record score_priors : Type := ScorePriors { sp_expected : Z; sp_received : Z; sp_repaired : Z; sp_retransmitted : Z }.

(** What was asked of the sender. *)
Record request_counts : Type := RequestCounts {
  rq_pliCount : Z;
  rq_firCount : Z;
  rq_firSeqNumber : Z;
  rq_nackCount : Z;
  rq_nackPacketCount : Z
}.

Inductive recv_event : Type :=
| StreamScore (score previousScore : Z)        (** [OnRtpStreamScore] *)
| SendRtcpPacket (p : rtcp_packet).            (** [OnRtpStreamSendRtcpPacket] *)

Section recv.
Context {H : Type} `{UvTimer H}.

Record rtp_stream_recv : Type := RtpStreamRecv {
  rv_stream : rtp_stream;
  rv_par : recv_params;
  rv_rtxStream : option rtx_stream;
  rv_loss : loss_state;
  rv_sr : sr_state;
  rv_ntp : Z * Z;                  (** [lastSenderReportNtpMs], [lastSenderReporTs] *)
  rv_prior : score_priors;
  rv_transit : Z;
  rv_jitter : Z;
  rv_rtt : spec_float * bool;      (** [rtt], [hasRtt] *)
  rv_counts : request_counts;
  rv_nack : option (nack_generator H);
  rv_timer : timer H;              (** [inactivityCheckPeriodicTimer] *)
  rv_inactive : bool;
  rv_counter : transmission_counter;
  rv_media : data_counter          (** [mediaTransmissionCounter] *)
}.

Notation op := (act rtp_stream_recv recv_event).

Definition set_stream (s : rtp_stream_recv) (st : rtp_stream) : rtp_stream_recv :=
  RtpStreamRecv st (rv_par s) (rv_rtxStream s) (rv_loss s) (rv_sr s) (rv_ntp s) (rv_prior s) (rv_transit s) (rv_jitter s)
    (rv_rtt s) (rv_counts s) (rv_nack s) (rv_timer s) (rv_inactive s) (rv_counter s) (rv_media s).
Definition set_rtxStream (s : rtp_stream_recv) (x : option rtx_stream) : rtp_stream_recv :=
  RtpStreamRecv (rv_stream s) (rv_par s) x (rv_loss s) (rv_sr s) (rv_ntp s) (rv_prior s) (rv_transit s) (rv_jitter s)
    (rv_rtt s) (rv_counts s) (rv_nack s) (rv_timer s) (rv_inactive s) (rv_counter s) (rv_media s).
Definition set_loss (s : rtp_stream_recv) (l : loss_state) : rtp_stream_recv :=
  RtpStreamRecv (rv_stream s) (rv_par s) (rv_rtxStream s) l (rv_sr s) (rv_ntp s) (rv_prior s) (rv_transit s) (rv_jitter s)
    (rv_rtt s) (rv_counts s) (rv_nack s) (rv_timer s) (rv_inactive s) (rv_counter s) (rv_media s).
Definition set_sr (s : rtp_stream_recv) (r : sr_state) (ntp : Z * Z) : rtp_stream_recv :=
  RtpStreamRecv (rv_stream s) (rv_par s) (rv_rtxStream s) (rv_loss s) r ntp (rv_prior s) (rv_transit s) (rv_jitter s)
    (rv_rtt s) (rv_counts s) (rv_nack s) (rv_timer s) (rv_inactive s) (rv_counter s) (rv_media s).
Definition set_prior (s : rtp_stream_recv) (p : score_priors) : rtp_stream_recv :=
  RtpStreamRecv (rv_stream s) (rv_par s) (rv_rtxStream s) (rv_loss s) (rv_sr s) (rv_ntp s) p (rv_transit s) (rv_jitter s)
    (rv_rtt s) (rv_counts s) (rv_nack s) (rv_timer s) (rv_inactive s) (rv_counter s) (rv_media s).
Definition set_jitter (s : rtp_stream_recv) (transit jitter : Z) : rtp_stream_recv :=
  RtpStreamRecv (rv_stream s) (rv_par s) (rv_rtxStream s) (rv_loss s) (rv_sr s) (rv_ntp s) (rv_prior s) transit jitter
    (rv_rtt s) (rv_counts s) (rv_nack s) (rv_timer s) (rv_inactive s) (rv_counter s) (rv_media s).
Definition set_rtt (s : rtp_stream_recv) (r : spec_float * bool) : rtp_stream_recv :=
  RtpStreamRecv (rv_stream s) (rv_par s) (rv_rtxStream s) (rv_loss s) (rv_sr s) (rv_ntp s) (rv_prior s) (rv_transit s) (rv_jitter s)
    r (rv_counts s) (rv_nack s) (rv_timer s) (rv_inactive s) (rv_counter s) (rv_media s).
Definition set_counts (s : rtp_stream_recv) (c : request_counts) : rtp_stream_recv :=
  RtpStreamRecv (rv_stream s) (rv_par s) (rv_rtxStream s) (rv_loss s) (rv_sr s) (rv_ntp s) (rv_prior s) (rv_transit s) (rv_jitter s)
    (rv_rtt s) c (rv_nack s) (rv_timer s) (rv_inactive s) (rv_counter s) (rv_media s).
Definition set_nack (s : rtp_stream_recv) (g : nack_generator H) : rtp_stream_recv :=
  RtpStreamRecv (rv_stream s) (rv_par s) (rv_rtxStream s) (rv_loss s) (rv_sr s) (rv_ntp s) (rv_prior s) (rv_transit s) (rv_jitter s)
    (rv_rtt s) (rv_counts s) (Some g) (rv_timer s) (rv_inactive s) (rv_counter s) (rv_media s).
Definition set_activity (s : rtp_stream_recv) (t : timer H) (inactive : bool) : rtp_stream_recv :=
  RtpStreamRecv (rv_stream s) (rv_par s) (rv_rtxStream s) (rv_loss s) (rv_sr s) (rv_ntp s) (rv_prior s) (rv_transit s) (rv_jitter s)
    (rv_rtt s) (rv_counts s) (rv_nack s) t inactive (rv_counter s) (rv_media s).
Definition set_counters (s : rtp_stream_recv) (c : transmission_counter) (m : data_counter) : rtp_stream_recv :=
  RtpStreamRecv (rv_stream s) (rv_par s) (rv_rtxStream s) (rv_loss s) (rv_sr s) (rv_ntp s) (rv_prior s) (rv_transit s) (rv_jitter s)
    (rv_rtt s) (rv_counts s) (rv_nack s) (rv_timer s) (rv_inactive s) c m.

Definition useNack (s : rtp_stream_recv) : bool := par_useNack (RtpStream.par (rv_stream s)).
Definition GetSsrc (s : rtp_stream_recv) : Z := par_ssrc (RtpStream.par (rv_stream s)).
Definition recv_HasRtx (s : rtp_stream_recv) : bool := HasRtx (rv_stream s).

(** The constructor.  The generator is there when NACK is used; the timer, that of
    inactivity, starts. *)
Definition new_RtpStreamRecv (p : params) (rp : recv_params) (now : Z) : outcome rtp_stream_recv :=
  let windowSize := if rp_useDtx rp then 6000 else 2500 in
  t ← Start timer_new (if rp_useDtx rp then InactivityCheckIntervalWithDtx else InactivityCheckInterval) 0;
  Ok (RtpStreamRecv (new_RtpStream p 10 now) rp None new_loss_state (SrState 0 0) (0, 0) (ScorePriors 0 0 0 0) 0 0
        (S754_zero false, false) (RequestCounts 0 0 0 0 0) (if par_useNack p then Some new_NackGenerator else None) t false
        (new_TransmissionCounter (rp_spatialLayers rp) (rp_temporalLayers rp) windowSize now) (new_RtpDataCounter 2500 now)).

(** [RtpStream::SetRtx]. *)
Definition recv_SetRtx (payloadType ssrc : Z) : op unit :=
  modify (fun s => set_rtxStream (set_stream s (RtpStream.SetRtx (rv_stream s) payloadType ssrc)) (Some (new_RtxStream ssrc))).

(** * Requests *)

Definition set_pli (c : request_counts) : request_counts :=
  RequestCounts (u64 (rq_pliCount c + 1)) (rq_firCount c) (rq_firSeqNumber c) (rq_nackCount c) (rq_nackPacketCount c).
Definition set_fir (c : request_counts) : request_counts :=
  RequestCounts (rq_pliCount c) (u64 (rq_firCount c + 1)) (u8 (rq_firSeqNumber c + 1)) (rq_nackCount c) (rq_nackPacketCount c).
Definition set_nacks (c : request_counts) (n : Z) : request_counts :=
  RequestCounts (rq_pliCount c) (rq_firCount c) (rq_firSeqNumber c) (u64 (rq_nackCount c + 1)) (u64 (rq_nackPacketCount c + n)).

Definition RequestKeyFrame : op unit :=
  s ← get;
  if rp_usePli (rv_par s) then
    _ ← modify (fun s => set_counts s (set_pli (rv_counts s)));
    emit (SendRtcpPacket (FeedbackPs (FeedbackPsPli (FeedbackHeader PLI (GetSsrc s) (GetSsrc s)))))
  else if rp_useFir (rv_par s) then
    _ ← modify (fun s => set_counts s (set_fir (rv_counts s)));
    s ← get;
    emit (SendRtcpPacket (FeedbackPs (FeedbackPsFir (FeedbackHeader FIR (GetSsrc s) (GetSsrc s))
      [FirItem (GetSsrc s) (rq_firSeqNumber (rv_counts s))])))
  else skip.

Definition OnNackGeneratorNackRequired (seqNumbers : list Z) : op unit :=
  s ← get;
  _ ← lift (require AssertFailed (useNack s));
  items ← lift (Recv.items_loop (length seqNumbers) seqNumbers);
  if BufferSize <? NackSize items then skip
  else
    _ ← modify (fun s => set_counts s (set_nacks (rv_counts s) (foldr (fun i n => CountRequestedPackets i + n) 0 items)));
    emit (SendRtcpPacket (FeedbackRtp (FeedbackRtpNack (FeedbackHeader NACK 0 (GetSsrc s)) items))).

(** What the generator asks for. *)
Definition nack_handler (c : nack_call) : op unit :=
  match c with
  | NackGenerator.OnNackGeneratorNackRequired l => OnNackGeneratorNackRequired l
  | OnNackGeneratorKeyFrameRequired => RequestKeyFrame
  end.

Fixpoint nack_handlers (l : list nack_call) : op unit :=
  match l with
  | [] => skip
  | c :: l => _ ← nack_handler c; nack_handlers l
  end.

Definition generator (s : rtp_stream_recv) : outcome (nack_generator H) :=
  match rv_nack s with Some g => Ok g | None => Err OutOfBounds end.

(** [nackGenerator->ReceivePacket]. *)
Definition nack_receive (p : video_packet) (isRecovered : bool) (now : Z) : op bool :=
  s ← get;
  g ← lift (generator s);
  seq ← lift (GetSequenceNumber (vp_packet p));
  '(g, calls, found) ← lift (NackGenerator.ReceivePacket g seq (IsKeyFrame p) isRecovered now);
  _ ← modify (fun s => set_nack s g);
  _ ← nack_handlers calls;
  mret found.

(** * Packets *)

Definition emit_score (e : score_event) : op unit :=
  match e with Some (new, old) => emit (StreamScore new old) | None => skip end.

Definition reset_score (x now : Z) : op unit :=
  s ← get;
  let '(st, e) := ResetScore (rv_stream s) x true now in
  _ ← modify (fun s => set_stream s st);
  emit_score e.

Definition modify_stream (f : rtp_stream -> rtp_stream) : op unit := modify (fun s => set_stream s (f (rv_stream s))).

(** [jitter += (1. / 16.) * (static_cast<double>(d) - jitter)]. *)
Definition jitter_step (jitter d : Z) : outcome Z :=
  double_to_u32 (SFadd 53 1024 (double_of_Z jitter)
    (SFmul 53 1024 (SFdiv 53 1024 (double_of_Z 1) (double_of_Z 16)) (SFsub 53 1024 (double_of_Z d) (double_of_Z jitter)))).

(** The product with the timestamp has 32 bits; the negation is not defined for the
    least [int]. *)
Definition CalculateJitter (rtpTimestamp now : Z) : op unit :=
  s ← get;
  let clockRate := par_clockRate (RtpStream.par (rv_stream s)) in
  if clockRate =? 0 then skip
  else
    let transit := swrap 32 (u64 (now - u32 (rtpTimestamp * 1000) / clockRate)) in
    let d := swrap 32 (u32 (transit - rv_transit s)) in
    _ ← lift (require OutOfBounds (negb (d =? - 2 ^ 31)));
    jitter ← lift (jitter_step (rv_jitter s) (Z.abs d));
    modify (fun s => set_jitter s (u32 transit) jitter).

(** "Not inactive anymore", and the restart of the timer. *)
Definition become_active (now : Z) : op unit :=
  s ← get;
  _ ← (if rv_inactive s then
         _ ← modify (fun s => set_activity s (rv_timer s) false);
         reset_score 10 now
       else skip);
  s ← get;
  t ← lift (Restart (rv_timer s));
  modify (fun s => set_activity s t (rv_inactive s)).

Definition count_packet (p : video_packet) (now : Z) : op unit :=
  s ← get;
  c ← lift (tc_Update (rv_counter s) p now);
  modify (fun s => set_counters s c (rv_media s)).

(** [Tools::ProcessRtpPacket], if the packet is of the codec. *)
Definition process_codec (s : rtp_stream_recv) (p : rtp_packet) : outcome video_packet :=
  payloadType ← GetPayloadType p;
  if payloadType =? rp_payloadType (rv_par s) then ProcessRtpPacket (rp_codec (rv_par s)) p else Ok (VideoPacket p None).

(** The packet as it is left, and the result. *)
Definition ReceivePacket (now : Z) (p : rtp_packet) : op (video_packet * bool) :=
  s ← get;
  '(st, ok) ← lift (RtpStream.ReceivePacket (rv_stream s) p now);
  _ ← modify (fun s => set_stream s st);
  if negb ok then mret (VideoPacket p None, false)
  else
    p ← lift (process_codec s p);
    _ ← (if useNack s then
           found ← nack_receive p false now;
           if negb (recv_HasRtx s) && found then
             _ ← modify_stream PacketRetransmitted;
             modify_stream PacketRepaired
           else skip
         else skip);
    timestamp ← lift (GetTimestamp (vp_packet p));
    _ ← CalculateJitter timestamp now;
    _ ← count_packet p now;
    s ← get;
    m ← lift (counter_Update (rv_media s) (GetSize (vp_packet p)) now);
    _ ← modify (fun s => set_counters s (rv_counter s) m);
    _ ← become_active now;
    mret (p, true).

Definition ReceiveRtxPacket (now : Z) (p : rtp_packet) : op (video_packet * bool) :=
  s ← get;
  if negb (useNack s) then mret (VideoPacket p None, false)
  else
    ssrc ← lift (RtpPacket.GetSsrc p);
    _ ← lift (require AssertFailed (ssrc =? par_rtxSsrc (RtpStream.par (rv_stream s))));
    payloadType ← lift (GetPayloadType p);
    if negb (payloadType =? par_rtxPayloadType (RtpStream.par (rv_stream s))) then mret (VideoPacket p None, false)
    else
      go ← (if recv_HasRtx s then
              rtx ← lift (match rv_rtxStream s with Some x => Ok x | None => Err OutOfBounds end);
              '(rtx, ok) ← lift (rx_ReceivePacket rtx p now);
              _ ← modify (fun s => set_rtxStream s (Some rtx));
              mret ok
            else mret true);
      if negb go then mret (VideoPacket p None, false)
      else
        '(p, ok) ← lift (RtxDecode p (rp_payloadType (rv_par s)) (GetSsrc s));
        if negb ok then mret (VideoPacket p None, false)
        else
          seq ← lift (GetSequenceNumber p);
          timestamp ← lift (GetTimestamp p);
          let '(st, ok) := UpdateSeq (rv_stream s) seq timestamp now in
          _ ← modify (fun s => set_stream s st);
          if negb ok then mret (VideoPacket p None, false)
          else
            p ← lift (process_codec s p);
            _ ← modify_stream PacketRetransmitted;
            found ← nack_receive p true now;
            if negb found then mret (p, false)
            else
              _ ← modify_stream PacketRepaired;
              _ ← count_packet p now;
              _ ← become_active now;
              mret (p, true).
(** * Reports *)

(** [GetRtcpReceiverReport]; [worst] is what [OnRtpStreamNeedWorstRemoteFractionLost]
    answers, which is asked with in band FEC. *)
Definition GetRtcpReceiverReport (now worst : Z) : op receiver_report :=
  s ← get;
  let worstRemoteFractionLost := if rp_useInBandFec (rv_par s) then worst else 0 in
  let prevPacketsLost := ls_packetsLost (rv_loss s) in
  let expected := GetExpectedPackets (rv_stream s) in
  let received := GetPacketCount (rv_media s) in
  let expectedInterval := expected_interval (rv_loss s) expected in
  let receivedInterval := received_interval (rv_loss s) received in
  let l := update_lost (rv_loss s) expected received in
  fraction ← lift (fraction_lost expectedInterval receivedInterval);
  let '(reported, fractionLost) :=
    if worstRemoteFractionLost <=? fraction then (u32 (reportedPacketLost l + u32 (ls_packetsLost l - prevPacketsLost)), fraction)
    else
      let newLostInterval := Z.shiftr (u32 (worstRemoteFractionLost * expectedInterval)) 8 in
      let newReceivedInterval := u32 (expectedInterval - newLostInterval) in
      (u32 (reportedPacketLost l + u32 (receivedInterval - newReceivedInterval)), worstRemoteFractionLost) in
  _ ← modify (fun s => set_loss s (set_fraction l fraction reported));
  let '(lsr, dlsr) := sr_fields (rv_sr s) now in
  mret (ReceiverReport (GetSsrc s) fractionLost (SetTotalLost (swrap 32 reported)) (u32 (maxSeq (rv_stream s) + cycles (rv_stream s)))
          (rv_jitter s) lsr dlsr).

Definition GetRtxRtcpReceiverReport (now : Z) : op (option receiver_report) :=
  s ← get;
  if recv_HasRtx s then
    rtx ← lift (match rv_rtxStream s with Some x => Ok x | None => Err OutOfBounds end);
    '(rtx, report) ← lift (rx_GetRtcpReceiverReport rtx now);
    _ ← modify (fun s => set_rtxStream s (Some rtx));
    mret (Some report)
  else mret None.

(** ** The score *)

(** The packets of the interval that were lost, repaired and sent again, as
    [UpdateScore] takes them. *)
Definition score_counts (hasRtx : bool) (expected received repaired retransmitted : Z) : Z * Z * Z :=
  let lost := if expected <? received then 0 else u32 (expected - received) in
  let lost := if received <? lost then received else lost in
  if lost <? repaired then
    if hasRtx then (lost, lost, u32 (retransmitted - u32 (lost - lost))) else (repaired, repaired, retransmitted)
  else (lost, repaired, retransmitted).

(** The score of an interval in which packets were expected. *)
Definition interval_score `{PowFunction} (received lost repaired retransmitted : Z) : outcome Z :=
  let repairedRatio := SFdiv 24 128 (float_of_Z repaired) (float_of_Z received) in
  let repairedWeight := pow4 (float_to_double (SFdiv 24 128 (float_of_Z 1) (SFadd 24 128 repairedRatio (float_of_Z 1)))) in
  _ ← require AssertFailed (repaired <=? retransmitted);
  let repairedWeight :=
    if 0 <? retransmitted
    then SFmul 53 1024 repairedWeight (float_to_double (SFdiv 24 128 (float_of_Z repaired) (float_of_Z retransmitted)))
    else repairedWeight in
  lost ← double_to_u32 (SFsub 53 1024 (double_of_Z lost) (SFmul 53 1024 (double_of_Z repaired) repairedWeight));
  let deliveredRatio := SFdiv 24 128 (float_of_Z (u32 (received - lost))) (float_of_Z received) in
  round_to_u8 (SFmul 53 1024 (pow4 (float_to_double deliveredRatio)) (double_of_Z 10)).

Definition update_score (x now : Z) : op unit :=
  s ← get;
  let '(st, e) := UpdateScore (rv_stream s) x now in
  _ ← modify (fun s => set_stream s st);
  emit_score e.

(** [RtpStreamRecv::UpdateScore]. *)
Definition recv_UpdateScore `{PowFunction} (now : Z) : op unit :=
  s ← get;
  let totalExpected := GetExpectedPackets (rv_stream s) in
  let totalReceived := GetPacketCount (rv_media s) in
  let totalRepaired := packetsRepaired (rv_stream s) in
  let totalRetransmitted := packetsRetransmitted (rv_stream s) in
  let expected := u32 (totalExpected - sp_expected (rv_prior s)) in
  let received := u32 (totalReceived - sp_received (rv_prior s)) in
  let repaired := u32 (totalRepaired - sp_repaired (rv_prior s)) in
  let retransmitted := u32 (totalRetransmitted - sp_retransmitted (rv_prior s)) in
  _ ← modify (fun s => set_prior s (ScorePriors totalExpected (u32 totalReceived) (u32 totalRepaired) (u32 totalRetransmitted)));
  if rv_inactive s then skip
  else if expected =? 0 then update_score 10 now
  else
    let '(lost, repaired, retransmitted) := score_counts (recv_HasRtx s) expected received repaired retransmitted in
    score ← lift (interval_score received lost repaired retransmitted);
    update_score score now.

Definition ReceiveRtcpSenderReport `{PowFunction} (report : sender_report) (now : Z) : op unit :=
  _ ← modify (fun s => set_sr s (receive_sr report now) (Ntp2TimeMs (sr_ntpSec report, sr_ntpFrac report), sr_rtpTs report));
  recv_UpdateScore now.

Definition ReceiveRtxRtcpSenderReport (report : sender_report) (now : Z) : op unit :=
  s ← get;
  if recv_HasRtx s then
    rtx ← lift (match rv_rtxStream s with Some x => Ok x | None => Err OutOfBounds end);
    modify (fun s => set_rtxStream s (Some (rx_ReceiveRtcpSenderReport rtx report now)))
  else skip.

Definition ReceiveRtcpXrDelaySinceLastRr (info : ssrc_info) (nowMs : Z) : op unit :=
  let '(seconds, fractions) := TimeMs2Ntp nowMs in
  let compactNtp := u32 (Z.shiftl (Z.land seconds 65535) 16) in
  let compactNtp := Z.lor compactNtp (Z.shiftr (Z.land fractions 4294901760) 16) in
  let lastRr := si_lrr info in
  let dlrr := si_dlrr info in
  let rtt := if truthy lastRr && truthy dlrr && (u32 (dlrr + lastRr) <? compactNtp)
             then u32 (compactNtp - dlrr - lastRr) else 0 in
  let ms := SFmul 24 128 (float_of_Z (Z.shiftr rtt 16)) (float_of_Z 1000) in
  let ms := SFadd 24 128 ms
              (SFmul 24 128 (SFdiv 24 128 (float_of_Z (Z.land rtt 65535)) (float_of_Z 65536)) (float_of_Z 1000)) in
  _ ← modify (fun s => set_rtt s (ms, (rv_rtt s).2 || SFltb (S754_zero false) ms));
  s ← get;
  if useNack s then
    g ← lift (generator s);
    rtt ← lift (float_to_u32 ms);
    modify (fun s => set_nack s (UpdateRtt g rtt))
  else skip.

(** * Activity *)

Definition Pause : op unit :=
  s ← get;
  t ← lift (Stop (rv_timer s));
  _ ← modify (fun s => set_activity s t (rv_inactive s));
  if useNack s then
    g ← lift (generator s);
    modify (fun s => set_nack s (NackGenerator.Reset g))
  else skip.

Definition Resume : op unit :=
  s ← get;
  if negb (rv_inactive s) then
    t ← lift (Restart (rv_timer s));
    modify (fun s => set_activity s t (rv_inactive s))
  else skip.

(** The inactivity timer fires. *)
Definition OnTimer (now : Z) : op unit :=
  _ ← modify (fun s => set_activity s (fired (rv_timer s)) true);
  reset_score 0 now.

(** The timer of the generator fires. *)
Definition OnNackTimer (now : Z) : op unit :=
  s ← get;
  g ← lift (generator s);
  '(g, calls) ← lift (NackGenerator.OnTimer g now);
  _ ← modify (fun s => set_nack s g);
  nack_handlers calls.
End recv.

Arguments rtp_stream_recv H : clear implicits.
