(* ===== verification/RecvFacts.v ===== *)
(** The floating point arithmetic of [RtpStreamRecv] and [RtxStream]: jitter, the
    fraction of the packets lost, the score of an interval, the round trip time.

    What the parts of [RtpStreamRecv] do, but for their arithmetic:
    the counters of the layers, and packets. *)

From Stdlib Require Import QArith Lqa Floats.SpecFloat.
From S2P Require Export RtpStreamRecv RateFacts.

Local Open Scope Q_scope.

(** * Conversions *)

Lemma double_to_u32_Ok f x z : is_val f x -> inject_Z z <= x -> x < inject_Z z + 1 -> (0 <= z < 2 ^ 32)%Z -> double_to_u32 f = Ok z.
Proof.
  intros Hf H1 H2 Hz. pose proof (trunc_spec _ _ Hf) as [T1 T2]. rewrite inject_Z_plus in T2. change (inject_Z 1) with 1 in T2.
  assert (double_trunc f = z) as E.
  { apply Z.le_antisymm; [apply (Z_of_bounds _ _ x T1)|apply (Z_of_bounds _ _ x H1)]; rewrite inject_Z_plus; change (inject_Z 1) with 1; lra. }
  destruct f as [| | |[] m e]; try done; cbn in E; unfold double_to_u32.
  - subst z. done.
  - rewrite E. by rewrite (proj2 (Z.ltb_lt _ _)) by lia.
Qed.

Lemma in_double_range x : bpow (-900) <= x -> x < bpow 900 -> in_range 53 1024 x.
Proof.
  intros H1 H2. split; [eapply Qle_trans; [apply bpow_le|done]; done|eapply Qlt_le_trans; [done|by apply bpow_le]].
Qed.

(** A number that fits is what the operation gives. *)
Lemma exact53 f x : fmt 53 x -> (exists r, is_val f r /\ rounded 53 x r) -> is_val f x.
Proof. intros Hx (r & Hf & Hr). by rewrite <- (rounded_eq 53 x r Hx Hr). Qed.

Lemma num_range m e : (0 < m < 2 ^ 200)%Z -> (-200 <= e <= 200)%Z -> in_range 53 1024 (dyad m e).
Proof.
  intros Hm He. apply in_double_range.
  - eapply Qle_trans; [apply (bpow_le _ (-200)); done|]. eapply Qle_trans; [apply (bpow_le _ e); lia|].
    assert (bpow e == dyad 1 e) as -> by (unfold dyad; change (inject_Z 1) with 1; ring). apply num_le. lia.
  - eapply Qlt_le_trans; [apply (num_lt _ (2 ^ 200) e); lia|]. unfold dyad. rewrite <- bpow_nonneg, <- bpow_add by lia. apply bpow_le. lia.
Qed.

(** * Jitter *)

Lemma num_scale m e x k : (0 <= k)%Z -> x == dyad m e -> x == dyad (m * 2 ^ k) (e - k).
Proof. intros Hk ->. rewrite <- num_shift by done. by rewrite Z.sub_add. Qed.

Lemma sixteenth_val : is_val (SFdiv 53 1024 (double_of_Z 1) (double_of_Z 16)) (dyad 1 (-4)).
Proof. vm_compute. done. Qed.

(** The sixteenth of a difference. *)
Lemma sixteenth_of a b : (0 <= b <= a)%Z -> (a < 2 ^ 53)%Z ->
  is_val (SFsub 53 1024 (double_of_Z a) (double_of_Z b)) (dyad (a - b) 0) /\
  is_val (SFmul 53 1024 (SFdiv 53 1024 (double_of_Z 1) (double_of_Z 16)) (SFsub 53 1024 (double_of_Z a) (double_of_Z b))) (dyad (a - b) (-4)).
Proof.
  intros Hab Ha. assert (inject_Z a - inject_Z b == dyad (a - b) 0) as E.
  { rewrite num_0. unfold Zminus. rewrite inject_Z_plus, inject_Z_opp. ring. }
  assert (is_val (SFsub 53 1024 (double_of_Z a) (double_of_Z b)) (dyad (a - b) 0)) as Hs.
  { apply exact53; [apply fmt_num; lia|]. setoid_rewrite <- E.
    apply SFsub_ok; [done|apply double_of_Z_val; lia|apply double_of_Z_val; lia|rewrite <- Zle_Qle; lia| |apply fmt_Z; lia].
    destruct (Z.eq_dec a b) as [->|]; [left; ring|right]. rewrite E. apply num_range; lia. }
  split; [done|]. assert (dyad 1 (-4) * dyad (a - b) 0 == dyad (a - b) (-4)) as Em by (rewrite num_mul; f_equiv; lia).
  apply exact53; [apply fmt_num; lia|]. setoid_rewrite <- Em. apply SFmul_ok; [done|apply sixteenth_val|done|].
  rewrite Em. destruct (Z.eq_dec a b) as [->|]; [left; rewrite Z.sub_diag; unfold dyad; ring|right; apply num_range; lia].
Qed.

(** The jitter moves by a sixteenth of the difference, rounded down. *)
Lemma jitter_step_spec j d : (0 <= j < 2 ^ 32)%Z -> (0 <= d < 2 ^ 32)%Z -> jitter_step j d = Ok ((15 * j + d) / 16)%Z.
Proof.
  intros Hj Hd. unfold jitter_step. pose proof (double_of_Z_val j ltac:(lia)) as Vj.
  assert (forall f, is_val f (dyad (15 * j + d) (-4)) -> double_to_u32 f = Ok ((15 * j + d) / 16)%Z) as Hconv.
  { intros f Hf. rewrite num_neg in Hf by lia. change (2 ^ - -4)%Z with 16%Z in Hf.
    pose proof (div_floor (15 * j + d) 16 ltac:(lia)) as [D1 D2]. rewrite (inject_Z_plus _ 1) in D2. change (inject_Z 1) with 1 in D2.
    apply (double_to_u32_Ok _ _ _ Hf); [exact D1|exact D2|]. split; [apply Z.div_pos; lia|apply Z.div_lt_upper_bound; lia]. }
  assert (inject_Z j == dyad (16 * j) (-4)) as Ej by (rewrite <- num_0; rewrite (num_scale j 0 _ 4) by done; by rewrite Z.mul_comm).
  apply Hconv. destruct (Z.le_gt_cases j d) as [Hle|Hgt].
  - destruct (sixteenth_of d j) as [_ Vm]; [lia|lia|]. apply exact53; [apply fmt_num; lia|].
    assert (inject_Z j + dyad (d - j) (-4) == dyad (15 * j + d) (-4)) as E.
    { rewrite Ej. unfold dyad. rewrite <- Qmult_plus_distr_l, <- inject_Z_plus. f_equiv. f_equiv. lia. }
    setoid_rewrite <- E. apply (SFadd_ok 53 1024 eq_refl _ _ _ _ Vj Vm); [|intros; apply fmt_num; lia|intros; apply fmt_Z; lia].
    destruct (Z.eq_dec (15 * j + d) 0) as [E0|]; [left; rewrite E, E0; unfold dyad; ring|right; rewrite E; apply num_range; lia].
  - destruct (sixteenth_of j d) as [Vs Vm]; [lia|lia|].
    rewrite (SFsub_opp _ _ (double_of_Z d) (double_of_Z j) (inject_Z d) (inject_Z j)) by (apply double_of_Z_val || rewrite <- Zlt_Qlt; lia).
    rewrite (SFmul_opp _ _ _ _ _ _ sixteenth_val Vs).
    rewrite (SFadd_opp _ _ _ _ _ _ Vj Vm) by (apply num_pos; lia).
    apply exact53; [apply fmt_num; lia|]. assert (inject_Z j - dyad (j - d) (-4) == dyad (15 * j + d) (-4)) as E.
    { rewrite Ej. replace (15 * j + d)%Z with (16 * j + - (j - d))%Z by lia. unfold dyad. rewrite inject_Z_plus, inject_Z_opp. ring. }
    setoid_rewrite <- E. apply (SFsub_ok 53 1024 eq_refl _ _ _ _ Vj Vm); [| |apply fmt_Z; lia].
    + rewrite Ej. apply num_le. lia.
    + right. rewrite E. apply num_range; lia.
Qed.

(** * The score of an interval *)

Lemma fmt_weaken p q x : (0 <= p <= q)%Z -> fmt p x -> fmt q x.
Proof.
  intros Hpq (m & e & Hm & E). exists m, e. split; [|done]. split; [lia|]. eapply Z.lt_le_trans; [apply Hm|]. apply Z.pow_le_mono_r; lia.
Qed.

Lemma fmt_1 p : (1 < p)%Z -> fmt p 1.
Proof. intros Hp. apply (fmt_Z p 1). split; [lia|]. apply (Z.pow_lt_mono_r 2 0); lia. Qed.

Lemma fmt_bpow p e : (1 < p)%Z -> fmt p (bpow e).
Proof.
  intros Hp. exists 1%Z, e. split; [split; [lia|]; apply (Z.pow_lt_mono_r 2 0); lia|]. unfold dyad. change (inject_Z 1) with 1. ring.
Qed.

(** Zero, or at most one and not less than [2^-k]. *)
Definition share (k : Z) (x : Q) : Prop := x == 0 \/ (bpow (- k) <= x /\ x <= 1).

Lemma share_range k x : share k x -> 0 <= x /\ x <= 1.
Proof. pose proof (bpow_pos (- k)). intros [E|[]]; [rewrite E|]; lra. Qed.

Lemma share_weaken k k' x : (k <= k')%Z -> share k x -> share k' x.
Proof.
  intros Hk [E|[H1 H2]]; [by left|right]. split; [|done]. eapply Qle_trans; [|exact H1]. apply bpow_le. lia.
Qed.

Lemma rounded_share p k x r : (1 < p)%Z -> share k x -> rounded p x r -> share k r.
Proof.
  intros Hp [E|[H1 H2]] Hr.
  - left. rewrite E in Hr. apply (rounded_eq p 0 r); [apply (fmt_Z p 0)|done]. pose proof (Z.pow_pos_nonneg 2 p). lia.
  - right. destruct Hr as [_ Hr]. split; [apply (Hr _ (fmt_bpow p (- k) Hp)), H1|apply (Hr _ (fmt_1 p Hp)), H2].
Qed.

Lemma share_float k x : (k <= 100)%Z -> share k x -> x == 0 \/ in_range 24 128 x.
Proof.
  intros Hk [E|[H1 H2]]; [by left|right]. apply in_float_range.
  - eapply Qle_trans; [|exact H1]. apply bpow_le. lia.
  - eapply Qle_lt_trans; [exact H2|]. done.
Qed.

Lemma share_double k x : (k <= 800)%Z -> share k x -> x == 0 \/ in_range 53 1024 x.
Proof.
  intros Hk [E|[H1 H2]]; [by left|right]. apply in_double_range.
  - eapply Qle_trans; [|exact H1]. apply bpow_le. lia.
  - eapply Qle_lt_trans; [exact H2|]. apply (Qlt_le_trans _ (bpow 1)); [done|]. by apply bpow_le.
Qed.

Lemma share_mul k l x y : share k x -> share l y -> share (k + l) (x * y).
Proof.
  intros [E|[H1 H2]] [F|[G1 G2]]; try (left; rewrite ?E, ?F; ring). right.
  pose proof (bpow_pos (- k)). pose proof (bpow_pos (- l)). replace (- (k + l))%Z with (- k + - l)%Z by lia. rewrite bpow_add. split; nra.
Qed.

(** What [std::pow] promises of fourth powers between 0 and 1. *)
Class PowLaws `{PowFunction} : Prop := {
  pow4_share f x : is_val f x -> share 100 x ->
    exists y, is_val (pow4 f) y /\ fmt 53 y /\ share 500 y /\ (1 # 2 <= x -> 1 # 32 <= y)
}.

Lemma float_to_double_val f x : is_val f x -> fmt 24 x -> share 100 x -> is_val (float_to_double f) x.
Proof.
  intros Hf Hx Hs. destruct f as [| | |[] m e]; try done. cbn [float_to_double binary_normalize].
  apply exact53; [by apply (fmt_weaken 24)|]. cbn in Hf. setoid_rewrite Hf. apply binary_round_ok; [done|]. rewrite <- Hf.
  destruct (share_double 100 x ltac:(lia) Hs) as [E|]; [|done]. pose proof (proj1 (num_pos (Z.pos m) e) eq_refl). lra.
Qed.

(** The quotient of two counts. *)
Lemma count_ratio a b : (0 <= a <= b)%Z -> (0 < b < 2 ^ 24)%Z ->
  exists r, is_val (SFdiv 24 128 (float_of_Z a) (float_of_Z b)) r /\ fmt 24 r /\ share 24 r /\ (a = b -> r == 1).
Proof.
  intros Ha Hb. assert (0 < inject_Z b) as Hb0 by (change 0 with (inject_Z 0); rewrite <- Zlt_Qlt; lia).
  assert (share 24 (inject_Z a / inject_Z b)) as Hs.
  { destruct (Z.eq_dec a 0) as [->|]; [left; change (inject_Z 0) with 0; field; lra|right]. split.
    - assert (bpow (- (24)) == inject_Z 1 / inject_Z (2 ^ 24)) as -> by done. apply Q_div_le; lia.
    - assert (1 == inject_Z 1 / inject_Z 1) as -> by done. apply Q_div_le; lia. }
  destruct (SFdiv_ok 24 128 eq_refl _ _ _ _ (float_of_Z_val a ltac:(lia)) (float_of_Z_val b ltac:(lia)) Hb0) as (r & Hr & Rr).
  { destruct (share_float 24 _ ltac:(lia) Hs) as [E|]; [left|by right].
    assert (inject_Z a == inject_Z a / inject_Z b * inject_Z b) as -> by (field; lra). rewrite E. ring. }
  exists r. split; [done|]. split; [apply Rr|]. split; [by apply (rounded_share 24 24 _ _ eq_refl Hs)|].
  intros ->. assert (inject_Z b / inject_Z b == 1) as E by (field; lra). rewrite E in Rr. apply (rounded_eq 24); [by apply fmt_1|done].
Qed.

(** The weight of the repaired packets. *)
Lemma weight_share `{PowLaws} received repaired : (0 <= repaired <= received)%Z -> (0 < received < 2 ^ 24)%Z ->
  exists w, is_val (pow4 (float_to_double (SFdiv 24 128 (float_of_Z 1)
      (SFadd 24 128 (SFdiv 24 128 (float_of_Z repaired) (float_of_Z received)) (float_of_Z 1))))) w /\
    fmt 53 w /\ share 5 w.
Proof.
  intros Hr1 Hr2. destruct (count_ratio repaired received Hr1 Hr2) as (r1 & V1 & F1 & S1 & _). apply share_range in S1 as [L1 U1].
  assert (is_val (float_of_Z 1) 1) as Vone by by apply (float_of_Z_val 1).
  destruct (SFadd_ok 24 128 eq_refl _ _ _ _ V1 Vone) as (r2 & V2 & R2).
  { right. apply in_float_range; [|apply (Qle_lt_trans _ 2); [lra|done]]. apply (Qle_trans _ 1); [done|lra]. }
  { intros _. by apply fmt_1. } { intros E. lra. }
  assert (1 <= r2 /\ r2 <= 2) as [L2 U2].
  { destruct R2 as [_ R2]. split; [apply (R2 _ (fmt_1 24 eq_refl)); lra|apply (R2 _ (fmt_Z 24 2 ltac:(lia))); change (inject_Z 2) with 2; lra]. }
  assert (1 # 2 <= 1 / r2 /\ 1 / r2 <= 1) as [L3 U3] by (split; [apply Qle_shift_div_l; lra|apply Qle_shift_div_r; lra]).
  destruct (SFdiv_ok 24 128 eq_refl _ _ _ _ Vone V2 ltac:(lra)) as (r3 & V3 & R3).
  { right. apply in_float_range; [|apply (Qle_lt_trans _ 1); [lra|done]]. apply (Qle_trans _ (1 # 2)); [done|lra]. }
  assert (1 # 2 <= r3 /\ r3 <= 1) as [L4 U4].
  { destruct R3 as [_ R3']. split; [|apply (R3' _ (fmt_1 24 eq_refl)); lra].
    apply (R3' (1 # 2)); [|done]. by apply (fmt_bpow 24 (-1)). }
  assert (share 100 r3) as S3 by (right; split; [apply (Qle_trans _ (1 # 2)); [done|lra]|lra]).
  destruct (pow4_share _ r3 (float_to_double_val _ r3 V3 (proj1 R3) S3) S3) as (w & Vw & Fw & Sw & Lw).
  exists w. split; [done|]. split; [done|]. right. apply share_range in Sw. split; [|lra]. specialize (Lw L4).
  change (bpow (- (5))) with (1 # 32). done.
Qed.

(** Numbers of 53 bits that are not too small are multiples of [2^-k]. *)
Lemma fmt_multiple k x : (0 <= k)%Z -> fmt 53 x -> bpow (- k) <= x -> exists m, x == dyad m (- (k + 53)).
Proof.
  intros Hk (m & e & Hm & E) Hx. rewrite E in Hx. assert (- k < 53 + e)%Z.
  { apply bpow_lt_inv. eapply Qle_lt_trans; [exact Hx|]. assert (bpow (53 + e) == dyad (2 ^ 53) e) as ->.
    { unfold dyad. by rewrite bpow_add, (bpow_nonneg 53). }
    apply num_lt. lia. }
  exists (m * 2 ^ (e + (k + 53)))%Z. rewrite E. replace e with (- (k + 53) + (e + (k + 53)))%Z at 1 by lia. apply num_shift. lia.
Qed.

(** A count less a smaller number. *)
Lemma count_less n x : (0 <= n < 2 ^ 24)%Z -> fmt 53 x -> x == 0 \/ bpow (- (30)) <= x -> x <= inject_Z n ->
  inject_Z n - x == 0 \/ in_range 53 1024 (inject_Z n - x).
Proof.
  intros Hn Fx Hx Hle. assert (exists m, x == dyad m (- (83))) as [m E].
  { destruct Hx as [E|Hx]; [exists 0%Z; rewrite E; done|]. by apply (fmt_multiple 30). }
  assert (inject_Z n == dyad (n * 2 ^ 83) (- (83))) as En.
  { rewrite <- num_0. replace 0%Z with (- (83) + 83)%Z by lia. by apply num_shift. }
  assert (inject_Z n - x == dyad (n * 2 ^ 83 - m) (- (83))) as ->.
  { rewrite En, E. unfold dyad, Zminus. rewrite inject_Z_plus, inject_Z_opp. ring. }
  assert (0 <= m)%Z.
  { apply (num_nonneg m (- (83))). rewrite <- E. destruct Hx as [Ex|Hx]; [rewrite Ex; done|]. pose proof (bpow_pos (- (30))). lra. }
  rewrite En, E in Hle. apply num_le in Hle. destruct (Z.eq_dec (n * 2 ^ 83) m) as [->|]; [left; unfold dyad; rewrite Z.sub_diag; ring|right].
  apply num_range; lia.
Qed.

(** The packets that are still lost, once the repaired ones are weighed. *)
Lemma weighed_lost lost repaired w x : (0 <= repaired <= lost)%Z -> (lost < 2 ^ 24)%Z -> is_val w x -> share 29 x ->
  exists z, double_to_u32 (SFsub 53 1024 (double_of_Z lost) (SFmul 53 1024 (double_of_Z repaired) w)) = Ok z /\ (0 <= z <= lost)%Z.
Proof.
  intros Hr Hl Hw Hs. pose proof (share_range _ _ Hs) as [L1 U1].
  assert (0 <= inject_Z repaired) as Hr0 by (change 0 with (inject_Z 0); rewrite <- Zle_Qle; lia).
  assert (inject_Z repaired <= inject_Z lost) as Hrl by (rewrite <- Zle_Qle; lia).
  assert (inject_Z repaired * x <= inject_Z repaired) as Hup by nra.
  assert (inject_Z repaired * x == 0 \/ bpow (- (29)) <= inject_Z repaired * x) as Hlow.
  { destruct (Z.eq_dec repaired 0) as [->|]; [left; change (inject_Z 0) with 0; ring|]. destruct Hs as [->|[Hs _]]; [left; ring|right].
    assert (1 <= inject_Z repaired) by (change 1 with (inject_Z 1); rewrite <- Zle_Qle; lia). pose proof (bpow_pos (- (29))). nra. }
  destruct (SFmul_ok 53 1024 eq_refl _ _ _ _ (double_of_Z_val repaired ltac:(lia)) Hw) as (p & Vp & Rp).
  { destruct Hlow as [|Hlow]; [by left|right]. apply in_double_range; [apply (Qle_trans _ (bpow (- (29)))); [by apply bpow_le|exact Hlow]|].
    assert (inject_Z repaired < inject_Z (2 ^ 24)) as Hb by (rewrite <- Zlt_Qlt; lia). rewrite <- bpow_nonneg in Hb by done.
    assert (bpow 24 <= bpow 900) by by apply bpow_le. lra. }
  assert (p <= inject_Z repaired) as Up by (destruct Rp as [_ Rp]; apply (Rp _ (fmt_Z 53 repaired ltac:(lia))); done).
  assert (p == 0 \/ bpow (- (30)) <= p) as Lp.
  { destruct Hlow as [E|Hlow]; [left|right].
    - rewrite E in Rp. apply (rounded_eq 53 0 p); [|done]. by apply (fmt_Z 53 0).
    - apply (Qle_trans _ (bpow (- (29)))); [by apply bpow_le|]. destruct Rp as [_ Rp]. by apply (Rp _ (fmt_bpow 53 (- (29)) eq_refl)). }
  destruct (SFsub_ok 53 1024 eq_refl _ _ _ _ (double_of_Z_val lost ltac:(lia)) Vp ltac:(lra)) as (r & Vr & Rr).
  { apply count_less; [lia|apply Rp|done|lra]. } { apply fmt_Z. lia. }
  assert (0 <= p) as Hp0 by (apply (is_val_nonneg _ _ Vp)). pose proof (is_val_nonneg _ _ Vr) as Hr1.
  assert (r <= inject_Z lost) as Ur by (destruct Rr as [_ Rr]; apply (Rr _ (fmt_Z 53 lost ltac:(lia))); lra).
  pose proof (trunc_spec _ _ Vr) as [T1 T2]. set (z := double_trunc _) in *.
  assert (0 <= z <= lost)%Z as Hz.
  { split; [by apply (Z_of_bounds 0 z r)|]. apply (Z_of_bounds z lost r); [done|]. rewrite inject_Z_plus. change (inject_Z 1) with 1. lra. }
  exists z. split; [|done]. rewrite (inject_Z_plus z 1) in T2. change (inject_Z 1) with 1 in T2.
  apply (double_to_u32_Ok _ r _ Vr T1 T2). lia.
Qed.

(** Ten times a share. *)
Lemma ten_shares f y : is_val f y -> share 500 y -> exists sc, round_to_u8 (SFmul 53 1024 f (double_of_Z 10)) = Ok sc /\ (0 <= sc <= 10)%Z.
Proof.
  intros Hf Hs. pose proof (share_range _ _ Hs) as [L U].
  destruct (SFmul_ok 53 1024 eq_refl _ _ _ _ Hf (double_of_Z_val 10 ltac:(lia))) as (r & Vr & Rr).
  { change (inject_Z 10) with 10. destruct Hs as [->|[Hs _]]; [by left|right]. apply in_double_range.
    - apply (Qle_trans _ (bpow (- (500)))); [by apply bpow_le|lra].
    - apply (Qle_lt_trans _ 10); [lra|]. apply (Qlt_le_trans _ (bpow 4)); [done|by apply bpow_le]. }
  assert (r <= 10) as Ur by (destruct Rr as [_ Rr]; apply (Rr _ (fmt_Z 53 10 ltac:(lia))); change (inject_Z 10) with 10; lra).
  pose proof (is_val_nonneg _ _ Vr) as H0. pose proof (round_spec _ _ Vr) as [R1 R2].
  assert (0 <= double_round (SFmul 53 1024 f (double_of_Z 10)) <= 10)%Z as Hd.
  { split; [apply (Z_of_bounds 0 _ (r + (1 # 2))); [change (inject_Z 0) with 0; lra|done]|].
    apply (Z_of_bounds _ 10 (r + (1 # 2))); [done|]. change (inject_Z (10 + 1)) with 11. lra. }
  exists (double_round (SFmul 53 1024 f (double_of_Z 10))). split; [|done].
  destruct (SFmul 53 1024 f (double_of_Z 10)) as [| | |[]]; try done; unfold round_to_u8; by rewrite (proj2 (Z.ltb_lt _ _)) by lia.
Qed.

Lemma interval_score_ok `{PowLaws} received lost repaired retransmitted : (0 < received < 2 ^ 24)%Z ->
  (0 <= repaired <= lost)%Z -> (lost <= received)%Z -> (repaired <= retransmitted < 2 ^ 24)%Z ->
  exists sc, interval_score received lost repaired retransmitted = Ok sc /\ (0 <= sc <= 10)%Z.
Proof.
  intros Hr Hp Hl Ht. unfold interval_score. destruct (weight_share received repaired ltac:(lia) Hr) as (w & Vw & _ & Sw).
  rewrite (proj2 (Z.leb_le repaired retransmitted)) by lia. ostep. set (pow := pow4 _) in *.
  assert (exists x, is_val (if (0 <? retransmitted)%Z then SFmul 53 1024 pow
      (float_to_double (SFdiv 24 128 (float_of_Z repaired) (float_of_Z retransmitted))) else pow) x /\ share 29 x) as (x & Vx & Sx).
  { destruct (Z.ltb_spec 0 retransmitted) as [Hpos|]; [|exists w; split; [done|]; by apply (share_weaken 5)].
    destruct (count_ratio repaired retransmitted ltac:(lia) ltac:(lia)) as (r & V & F & S & _).
    pose proof (share_mul _ _ _ _ Sw S) as Sm. change (5 + 24)%Z with 29%Z in Sm.
    destruct (SFmul_ok 53 1024 eq_refl _ _ _ _ Vw (float_to_double_val _ r V F (share_weaken 24 100 r ltac:(lia) S))) as (x & Vx & Rx);
      [by apply (share_double 29)|].
    exists x. split; [done|]. by apply (rounded_share 53 29 _ _ eq_refl Sm). }
  destruct (weighed_lost lost repaired _ x Hp ltac:(lia) Vx Sx) as (z & -> & Hz). ostep.
  rewrite (wrap_small 32 (received - z)) by (unfold in_uint; lia).
  destruct (count_ratio (received - z) received ltac:(lia) Hr) as (r & V & F & S & _).
  destruct (pow4_share _ r (float_to_double_val _ r V F (share_weaken 24 100 r ltac:(lia) S)) (share_weaken 24 100 r ltac:(lia) S)) as (y & Vy & _ & Sy & _).
  by apply (ten_shares _ y).
Qed.

(** * [std::pow] by squaring twice *)

#[export] Instance pow4_squares : PowFunction := fun f => SFmul 53 1024 (SFmul 53 1024 f f) (SFmul 53 1024 f f).

Lemma rounded_ge p x r b : rounded p x r -> fmt p b -> b <= x -> b <= r.
Proof. intros [_ Hr] Hb. by apply Hr. Qed.

Lemma square_share f x k : (1 <= k <= 400)%Z -> is_val f x -> share k x ->
  exists y, is_val (SFmul 53 1024 f f) y /\ fmt 53 y /\ share (k + k) y /\ forall e, bpow e <= x -> bpow (e + e) <= y.
Proof.
  intros Hk Hf Hs. pose proof (share_mul _ _ _ _ Hs Hs) as Hm.
  destruct (SFmul_ok 53 1024 eq_refl _ _ _ _ Hf Hf) as (y & Vy & Ry); [apply (share_double (k + k)); [lia|done]|].
  exists y. split; [done|]. split; [apply Ry|]. split; [by apply (rounded_share 53 (k + k) _ _ eq_refl Hm)|].
  intros e He. apply (rounded_ge 53 _ _ _ Ry (fmt_bpow 53 (e + e) eq_refl)). rewrite bpow_add. pose proof (bpow_pos e). nra.
Qed.

#[export] Instance pow4_squares_laws : PowLaws.
Proof.
  split. intros f x Hf Hs. destruct (square_share f x 100 ltac:(lia) Hf Hs) as (y & Vy & _ & Sy & Ly).
  destruct (square_share _ y 200 ltac:(lia) Vy Sy) as (z & Vz & Fz & Sz & Lz).
  exists z. split; [done|]. split; [done|]. split; [by apply (share_weaken 400)|].
  intros Hx. specialize (Ly (-1)%Z Hx). specialize (Lz (-2)%Z Ly). apply (Qle_trans _ (bpow (-4))); [done|exact Lz].
Qed.

Local Close Scope Q_scope.
Local Open Scope Z_scope.

(** * The fraction lost *)

(** The losses of an interval: a number of 32 bits with sign. *)
Definition lost_interval (expectedInterval receivedInterval : Z) : Z := swrap 32 (u32 (expectedInterval - receivedInterval)).

(** Where the fraction has 8 bits. *)
Definition fraction_defined (expectedInterval receivedInterval : Z) : Prop :=
  expectedInterval = 0 \/ lost_interval expectedInterval receivedInterval <= 0 \/
  lost_interval expectedInterval receivedInterval < 2 ^ 23 /\
    512 * lost_interval expectedInterval receivedInterval < 511 * expectedInterval.

(** 256 times the quotient, rounded. *)
Definition fraction_of (expectedInterval receivedInterval : Z) : Z :=
  let lost := lost_interval expectedInterval receivedInterval in
  if (expectedInterval =? 0) || (lost <=? 0) then 0 else (512 * lost + expectedInterval) / (2 * expectedInterval).

Lemma fraction_lost_ok e r : in_uint 32 e -> fraction_defined e r ->
  fraction_lost e r = Ok (fraction_of e r) /\ in_uint 8 (fraction_of e r).
Proof.
  intros He Hd. unfold fraction_lost, fraction_of, fraction_defined in *. fold (lost_interval e r) in *. set (l := lost_interval e r) in *.
  unfold in_uint in *. destruct (Z.eqb_spec e 0) as [|He0]; [by split|]. destruct (Z.leb_spec l 0) as [|Hl]; [by split|]. cbn [orb].
  destruct Hd as [|[|[H1 H2]]]; [done|lia|]. rewrite (proj2 (Z.ltb_lt l _)) by done. ostep.
  rewrite Z.shiftl_mul_pow2 by lia. change (2 ^ 8) with 256.
  pose proof (div_round_exact (l * 256) e ltac:(lia) ltac:(lia) ltac:(lia)) as Hr.
  replace (2 * (l * 256) + e) with (512 * l + e) in Hr by lia.
  assert (0 <= (512 * l + e) / (2 * e) < 256) as Hb by (split; [apply Z.div_pos; lia|apply Z.div_lt_upper_bound; lia]).
  split; [|exact Hb]. pose proof (double_of_Z_val (l * 256) ltac:(lia)) as Va. pose proof (double_of_Z_val e ltac:(lia)) as Vb.
  unfold round_to_u8. rewrite Hr, (proj2 (Z.ltb_lt _ 256)) by lia.
  enough (exists x, is_val (SFdiv 53 1024 (double_of_Z (l * 256)) (double_of_Z e)) x) as [x Hx] by (destruct (SFdiv _ _ _ _) as [| | |[]]; done).
  destruct (SFdiv_ok 53 1024 eq_refl _ _ _ _ Va Vb) as (x & Hx & _); [change 0%Q with (inject_Z 0); rewrite <- Zlt_Qlt; lia| |by exists x].
  right. apply in_double_range.
  - apply (Qle_trans _ (bpow (-32))); [by apply bpow_le|]. change (bpow (-32)) with (inject_Z 1 / inject_Z (2 ^ 32))%Q. apply Q_div_le; lia.
  - apply (Qle_lt_trans _ (inject_Z (2 ^ 31) / inject_Z 1)%Q); [apply Q_div_le; lia|]. apply (Qlt_le_trans _ (bpow 32)); [done|by apply bpow_le].
Qed.

(** Otherwise it is not defined. *)
Lemma fraction_lost_undefined e r : in_uint 32 e -> e <> 0 -> 0 < lost_interval e r < 2 ^ 23 ->
  511 * e <= 512 * lost_interval e r -> lost_interval e r < 2 ^ 11 * e -> fraction_lost e r = Err OutOfBounds.
Proof.
  intros He He0 Hl H1 H2. unfold fraction_lost. fold (lost_interval e r) in *. set (l := lost_interval e r) in *. unfold in_uint in *.
  rewrite (proj2 (Z.eqb_neq e 0)), (proj2 (Z.leb_gt l 0)) by lia. cbn [orb]. rewrite (proj2 (Z.ltb_lt l _)) by lia. ostep.
  rewrite Z.shiftl_mul_pow2 by lia. change (2 ^ 8) with 256.
  pose proof (div_round_exact (l * 256) e ltac:(lia) ltac:(lia) ltac:(lia)) as Hr. unfold round_to_u8. rewrite Hr.
  assert (256 <= (2 * (l * 256) + e) / (2 * e)) by (apply Z.div_le_lower_bound; lia).
  rewrite (proj2 (Z.ltb_ge _ 256)) by done. by destruct (SFdiv _ _ _ _) as [| | |[]].
Qed.

(** * The round trip time *)

(** [rtt] in milliseconds. *)
Definition rtt_ms (rtt : Z) : spec_float :=
  SFadd 24 128 (SFmul 24 128 (float_of_Z (Z.shiftr rtt 16)) (float_of_Z 1000))
    (SFmul 24 128 (SFdiv 24 128 (float_of_Z (Z.land rtt 65535)) (float_of_Z 65536)) (float_of_Z 1000)).

(** Zero, or between two powers of two. *)
Definition within (k n : Z) (x : Q) : Prop := (x == 0 \/ bpow (- k) <= x /\ x <= bpow n)%Q.

Lemma within_float k n x : k <= 100 -> n <= 99 -> within k n x -> (x == 0 \/ in_range 24 128 x)%Q.
Proof.
  intros Hk Hn [E|[H1 H2]]; [by left|right]. apply in_float_range.
  - apply (Qle_trans _ (bpow (- k))); [apply bpow_le; lia|done].
  - apply (Qle_lt_trans _ (bpow n)); [done|]. apply (Qle_lt_trans _ (bpow 99)); [by apply bpow_le|done].
Qed.

Lemma rounded_within p k n x r : 1 < p -> within k n x -> rounded p x r -> within k n r.
Proof.
  intros Hp [E|[H1 H2]] Hr.
  - left. rewrite E in Hr. apply (rounded_eq p 0%Q r); [|done]. apply (fmt_Z p 0). pose proof (Z.pow_pos_nonneg 2 p). lia.
  - right. destruct Hr as [_ Hr]. split; [apply (Hr _ (fmt_bpow p (- k) Hp)), H1|apply (Hr _ (fmt_bpow p n Hp)), H2].
Qed.

Lemma within_mul k n l m x y : within k n x -> within l m y -> within (k + l) (n + m) (x * y).
Proof.
  intros [E|[H1 H2]] [F|[G1 G2]]; try (left; rewrite ?E, ?F; ring). right.
  pose proof (bpow_pos (- k)). pose proof (bpow_pos (- l)). replace (- (k + l)) with (- k + - l) by lia. rewrite !bpow_add.
  split; apply Qmult_le_compat_nonneg; split; lra.
Qed.

Lemma within_add k n l m x y : within k n x -> within l m y -> within (Z.max k l) (Z.max n m + 1) (x + y).
Proof.
  pose proof (bpow_le (- Z.max k l) (- k) ltac:(lia)). pose proof (bpow_le (- Z.max k l) (- l) ltac:(lia)).
  pose proof (bpow_le n (Z.max n m) ltac:(lia)). pose proof (bpow_le m (Z.max n m) ltac:(lia)). pose proof (bpow_succ (Z.max n m)).
  pose proof (bpow_pos (- k)). pose proof (bpow_pos (- l)). pose proof (bpow_pos (Z.max n m)).
  intros [E|[X1 X2]] [F|[Y1 Y2]]; [left; lra|right; split; lra..].
Qed.

Lemma within_Z z n : 0 <= z <= 2 ^ n -> 0 <= n -> within 0 n (inject_Z z).
Proof.
  intros Hz Hn. destruct (Z.eq_dec z 0) as [->|]; [by left|right]. split.
  - change (bpow (- 0)) with (inject_Z 1). rewrite <- Zle_Qle. lia.
  - rewrite bpow_nonneg by done. rewrite <- Zle_Qle. lia.
Qed.

Lemma rtt_ms_fits rtt : in_uint 32 rtt -> exists v, float_to_u32 (rtt_ms rtt) = Ok v /\ in_uint 32 v.
Proof.
  intros Hr. unfold in_uint in Hr. assert (0 <= Z.shiftr rtt 16 < 65536) as Ha.
  { rewrite Z.shiftr_div_pow2 by lia. split; [apply Z.div_pos; lia|apply Z.div_lt_upper_bound; lia]. }
  assert (0 <= Z.land rtt 65535 < 65536) as Hb by (change 65535 with (Z.ones 16); rewrite Z.land_ones by lia; apply Z.mod_pos_bound; lia).
  unfold rtt_ms. set (a := Z.shiftr rtt 16) in *. set (b := Z.land rtt 65535) in *.
  pose proof (float_of_Z_val 1000 ltac:(lia)) as V1000. pose proof (within_Z 1000 10 ltac:(lia) ltac:(lia)) as W1000.
  pose proof (within_mul _ _ _ _ _ _ (within_Z a 16 ltac:(lia) ltac:(lia)) W1000) as Wa.
  destruct (SFmul_ok 24 128 eq_refl _ _ _ _ (float_of_Z_val a ltac:(lia)) V1000) as (p & Vp & Rp); [exact (within_float 0 26 _ ltac:(lia) ltac:(lia) Wa)|].
  apply (rounded_within 24 _ _ _ p eq_refl) in Wa; [|exact Rp].
  assert (within 16 0 (inject_Z b / inject_Z 65536)) as Wb.
  { destruct (Z.eq_dec b 0) as [->|]; [by left|right]. change (bpow (- (16))) with (inject_Z 1 / inject_Z 65536)%Q.
    change (bpow 0) with (inject_Z 1 / inject_Z 1)%Q. split; apply Q_div_le; lia. }
  destruct (SFdiv_ok 24 128 eq_refl _ _ _ _ (float_of_Z_val b ltac:(lia)) (float_of_Z_val 65536 ltac:(lia)) eq_refl) as (q & Vq & Rq).
  { destruct (Z.eq_dec b 0) as [->|]; [by left|right]. destruct (within_float 16 0 _ ltac:(lia) ltac:(lia) Wb) as [E|Hin]; [|exact Hin].
    exfalso. apply (Qlt_not_eq 0 (inject_Z b / inject_Z 65536)); [|symmetry; exact E].
    apply Qlt_shift_div_l; [done|]. rewrite Qmult_0_l. change 0%Q with (inject_Z 0). rewrite <- Zlt_Qlt. lia. }
  apply (rounded_within 24 _ _ _ q eq_refl) in Wb; [|exact Rq]. pose proof (within_mul _ _ _ _ _ _ Wb W1000) as Wq.
  destruct (SFmul_ok 24 128 eq_refl _ _ _ _ Vq V1000) as (t & Vt & Rt); [exact (within_float 16 10 _ ltac:(lia) ltac:(lia) Wq)|].
  apply (rounded_within 24 _ _ _ t eq_refl) in Wq; [|exact Rt]. pose proof (within_add _ _ _ _ _ _ Wa Wq) as Wv.
  destruct (SFadd_ok 24 128 eq_refl _ _ _ _ Vp Vt) as (v & Vv & Rv); [exact (within_float 16 27 _ ltac:(lia) ltac:(lia) Wv)|intros _; apply Rt|intros _; apply Rp|].
  apply (rounded_within 24 _ _ _ v eq_refl) in Wv; [|exact Rv].
  destruct (float_to_u32_Ok _ v Vv) as (z & E & Hz & _); [|exists z; split; [exact E|exact Hz]].
  clear - Wv. destruct Wv as [->|[_ Wv]]; [done|]. by apply (Qle_lt_trans _ (bpow 27)).
Qed.

Lemma swrap_range z : - 2 ^ 31 <= swrap 32 z < 2 ^ 31.
Proof. unfold swrap. pose proof (Z.mod_pos_bound (z + 2 ^ (32 - 1)) (2 ^ 32) ltac:(lia)). lia. Qed.

From S2P Require Export CodecsProps RtpPacketProps Retransmission.

(** * Counters *)

Definition counter_ok (d : data_counter) : Prop := shape (rate d).
Definition counter_tame (d : data_counter) : Prop := shape (rate d) /\ tame (rate d).

(** [S] by [T] counters, each as [P] says. *)
Definition counters (P : data_counter -> Prop) (S T : Z) (c : transmission_counter) : Prop :=
  zlen c = S /\ Forall (fun l => zlen l = T /\ Forall P l) c.

Lemma counter_Update_ok d size now : counter_ok d -> exists d', counter_Update d size now = Ok d' /\ counter_ok d' /\
  packets d' = u64 (packets d + 1).
Proof.
  intros Hd. unfold counter_Update. destruct (Update_shape (rate d) size now Hd) as (r & -> & Hr). ostep. by eexists.
Qed.

Lemma counter_at_ok P S T c spatial temporal : counters P S T c -> 0 <= spatial < S -> 0 <= temporal < T ->
  exists l d, c !! Z.to_nat spatial = Some l /\ l !! Z.to_nat temporal = Some d /\ counter_at c spatial temporal = Ok d /\ P d /\
    zlen l = T /\ Forall P l.
Proof.
  intros [Hc Hl] Hs Ht. destruct (lookup_lt_is_Some_2 c (Z.to_nat spatial)) as [l El]; [unfold zlen in *; lia|].
  destruct (Forall_lookup_1 _ _ _ _ Hl El) as [HT HP].
  destruct (lookup_lt_is_Some_2 l (Z.to_nat temporal)) as [d Ed]; [unfold zlen in *; lia|].
  pose proof (Forall_lookup_1 _ _ _ _ HP Ed). exists l, d. split; [exact El|]. split; [exact Ed|]. split; [|done]. unfold counter_at. by rewrite El, Ed.
Qed.

Lemma set_counter_ok P S T c spatial temporal d : counters P S T c -> P d -> counters P S T (set_counter c spatial temporal d).
Proof.
  intros [Hc Hl] Hd. split; [unfold zlen, set_counter in *; by rewrite length_alter|].
  apply Forall_alter; [done|]. intros l El [HT HP]. split; [unfold zlen in *; by rewrite length_insert|by apply Forall_insert].
Qed.

Lemma clamp_layer_range layer n : 0 <= layer -> (0 < n)%nat -> Z.of_nat n < 256 -> 0 <= clamp_layer layer n < Z.of_nat n.
Proof.
  intros Hl Hn Hn'. unfold clamp_layer. rewrite (wrap_small 64) by (unfold in_uint; lia).
  destruct (Z.ltb_spec (Z.of_nat n - 1) layer); [rewrite wrap_small by (unfold in_uint; lia)|]; lia.
Qed.

Lemma layers_nonneg p : handled p -> 0 <= GetSpatialLayer p /\ 0 <= GetTemporalLayer p.
Proof.
  intros [_ Hh]. unfold GetSpatialLayer, GetTemporalLayer, vp9_spatialLayer, vp9_temporalLayer.
  destruct (vp_handler p) as [[d|d|d]|]; [|destruct Hh as [_ [[] []] _ _]|destruct Hh|done].
  - destruct Hh as ([[Hok _ _ _ _ _ _ _ []] _] & _). by destruct (vp8_hasTlIndex d).
  - by destruct (vp9_hasSlIndex d), (vp9_hasTlIndex d).
  - done.
Qed.

Lemma tc_Update_ok S T c p now : counters counter_ok S T c -> 0 < S < 256 -> 0 < T < 256 -> handled p ->
  exists c', tc_Update c p now = Ok c' /\ counters counter_ok S T c'.
Proof.
  intros Hc HS HT Hp. destruct (layers_nonneg p Hp) as [Hs Ht]. unfold tc_Update. pose proof Hc as [Hlen Hl].
  destruct c as [|l c]; [change (zlen []) with 0 in Hlen; lia|]. ostep. assert (zlen l = T) as HlT by (by apply Forall_cons in Hl as [[? _] _]).
  unfold zlen in *.
  pose proof (clamp_layer_range (GetSpatialLayer p) (length (l :: c)) Hs ltac:(cbn [length]; lia) ltac:(lia)).
  pose proof (clamp_layer_range (GetTemporalLayer p) (length l) Ht ltac:(lia) ltac:(lia)).
  destruct (counter_at_ok counter_ok S T (l :: c) (clamp_layer (GetSpatialLayer p) (length (l :: c)))
    (clamp_layer (GetTemporalLayer p) (length l)) Hc) as (l' & d & _ & _ & -> & Hd & _); [lia|lia|]. ostep.
  destruct (counter_Update_ok d (GetSize (vp_packet p)) now Hd) as (d' & -> & Hd' & _). ostep. eexists. split; [done|].
  by apply set_counter_ok.
Qed.

(** ** Bitrates *)

Lemma counter_GetBitrate_ok d now : counter_tame d ->
  exists d' b, counter_GetBitrate d now = Ok (d', b) /\ counter_tame d' /\ in_uint 32 b.
Proof.
  intros [Hs Ht]. unfold counter_GetBitrate. destruct (GetRate_tame (rate d) now Hs Ht) as (r & b & -> & ? & ? & ?). ostep.
  by do 2 eexists.
Qed.

Lemma sum_bitrates_ok l now : forall r, Forall counter_tame l -> in_uint 32 r ->
  exists l' r', sum_bitrates l now r = Ok (l', r') /\ Forall counter_tame l' /\ zlen l' = zlen l /\ in_uint 32 r'.
Proof.
  induction l as [|d l IH]; intros r Hl Hr; [by exists [], r|]. apply Forall_cons in Hl as [Hd Hl]. cbn [sum_bitrates].
  destruct (counter_GetBitrate_ok d now Hd) as (d' & b & -> & Hd' & Hb). ostep.
  destruct (IH (u32 (r + b)) Hl ltac:(apply wrap_range; lia)) as (l' & r' & -> & Hl' & E & Hr'). ostep.
  exists (d' :: l'), r'. split; [done|]. split; [by apply Forall_cons|]. split; [by rewrite !zlen_cons, E|done].
Qed.

Lemma sum_layers_ok S T c now : forall r, counters counter_tame S T c -> in_uint 32 r ->
  exists c' r', sum_layers c now r = Ok (c', r') /\ counters counter_tame S T c' /\ in_uint 32 r'.
Proof.
  revert S. induction c as [|l c IH]; intros S r [Hc Hl] Hr; [by exists [], r|]. apply Forall_cons in Hl as [[HT Hl] Hcs]. cbn [sum_layers].
  destruct (sum_bitrates_ok l now r Hl Hr) as (l' & r' & -> & Hl' & E & Hr'). ostep.
  destruct (IH (S - 1) r') as (c' & r2 & -> & [Hc' Hl2] & Hr2); [split; [rewrite zlen_cons in Hc; lia|done]|done|]. ostep.
  exists (l' :: c'), r2. split; [done|]. split; [|done]. split; [rewrite zlen_cons; lia|]. apply Forall_cons. split; [|done].
  split; [lia|done].
Qed.

Lemma tc_GetBitrate_ok S T c now : counters counter_tame S T c ->
  exists c' r, tc_GetBitrate c now = Ok (c', r) /\ counters counter_tame S T c' /\ in_uint 32 r.
Proof. intros Hc. apply sum_layers_ok; done. Qed.

Lemma layer_counters_ok S T c spatial : counters counter_tame S T c -> 0 <= spatial < S ->
  exists l, layer_counters c spatial = Ok l /\ c !! Z.to_nat spatial = Some l /\ zlen l = T /\ Forall counter_tame l.
Proof.
  intros [Hc Hl] Hs. destruct (lookup_lt_is_Some_2 c (Z.to_nat spatial)) as [l El]; [unfold zlen in *; lia|].
  destruct (Forall_lookup_1 _ _ _ _ Hl El). exists l. unfold layer_counters. by rewrite El.
Qed.

Lemma tc_GetSpatialLayerBitrate_ok S T c now spatial : counters counter_tame S T c -> 0 <= spatial < S ->
  exists c' r, tc_GetSpatialLayerBitrate c now spatial = Ok (c', r) /\ counters counter_tame S T c' /\ in_uint 32 r.
Proof.
  intros Hc Hs. unfold tc_GetSpatialLayerBitrate. destruct (layer_counters_ok S T c spatial Hc Hs) as (l & -> & El & HT & Hl). ostep.
  destruct (sum_bitrates_ok l now 0 Hl) as (l' & r & -> & Hl' & E & Hr); [done|]. ostep. do 2 eexists. split; [done|]. split; [|done].
  destruct Hc as [Hc Hcs]. split; [unfold zlen in *; by rewrite length_insert|]. apply Forall_insert; [done|]. split; [lia|done].
Qed.

Lemma tc_GetLayerBitrate_ok S T c now spatial temporal : counters counter_tame S T c -> 0 <= spatial < S -> 0 <= temporal < T ->
  exists c' r, tc_GetLayerBitrate c now spatial temporal = Ok (c', r) /\ counters counter_tame S T c' /\ in_uint 32 r.
Proof.
  intros Hc Hs Ht. unfold tc_GetLayerBitrate. destruct (layer_counters_ok S T c spatial Hc Hs) as (l & -> & El & HT & Hl). ostep.
  rewrite (proj2 (Z.ltb_lt temporal (zlen l))) by lia. ostep.
  destruct (counter_at_ok _ S T c spatial temporal Hc Hs Ht) as (l' & d & _ & _ & -> & Hd & _). ostep.
  destruct (counter_GetBitrate_ok d now Hd) as (d' & b & -> & Hd' & Hb). ostep. do 2 eexists. split; [done|].
  split; [by apply set_counter_ok|done].
Qed.

Lemma new_counters S T W now : 1000 <= W < 2 ^ 24 -> 0 <= S -> 0 <= T ->
  counters counter_tame S T (new_TransmissionCounter S T W now).
Proof.
  intros HW HS HT. unfold new_TransmissionCounter, zlen. split; [unfold zlen; rewrite length_replicate; lia|].
  apply Forall_replicate. split; [unfold zlen; rewrite length_replicate; lia|]. apply Forall_replicate. by apply new_shape.
Qed.

(** * Packets *)

(** Outside the first twelve bytes, and before the payload, decoding changes nothing. *)
Lemma RtxDecode_frame p pt ssrc q : rtp_wf p -> zlen (mem p) < 2 ^ 32 -> RtxDecode p pt ssrc = Ok (q, true) ->
  forall i, 12 <= i < payload p -> get1 (mem q) i = get1 (mem p) i.
Proof.
  intros Hwf Hsmall. unfold RtxDecode, SetPayloadType, SetSequenceNumber, SetSsrc, remove_padding, SetPayloadPaddingFlag.
  destruct (payloadLength p <? 2); [done|]. intros Hd i Hi. ok_inv.
  repeat match goal with
  | E : Set2Bytes ?m ?i ?v = Ok _ |- _ => rewrite Set2Bytes_spec in E; apply same_except_write in E as [_ E]
  | E : Set4Bytes ?m ?i ?v = Ok _ |- _ => rewrite Set4Bytes_spec in E; apply same_except_write in E as [_ E]
  | E : memmove _ _ _ _ = Ok _ |- _ => apply same_except_memmove in E as [_ E]
  end.
  cbn [mem set_mem set_payload payload payloadLength payloadPadding size] in *. rewrite ?zlen_be_bytes in *.
  assert (get1 x3 i = get1 (mem p) i) as E3.
  { rewrite H3, H5, H2 by lia. apply (get1_set_bits_other _ _ _ _ _ _ _ H1). lia. }
  destruct (truthy _); ok_inv; cbn [mem set_mem set_payload] in *; rewrite <- E3; [|done].
  eapply get1_set_bits_other; [eassumption|lia].
Qed.

Lemma one_byte_entries_ext m m' start end_ map : (forall i, start <= i < end_ -> get1 m' i = get1 m i) ->
  one_byte_entries m start end_ map -> one_byte_entries m' start end_ map.
Proof.
  intros Hm He. eapply map_Forall_impl; [exact He|]. intros id o (Hid & Ho & b & Hb & Hs & He'). split; [done|]. split; [done|].
  exists b. pose proof (get1_bounds _ _ _ Hb). split; [|done]. rewrite Hm; [done|].
  assert (0 <= Z.land b 15) by (apply Z.land_nonneg; lia). lia.
Qed.

Lemma two_bytes_entries_ext m m' start end_ map : (forall i, start <= i < end_ -> get1 m' i = get1 m i) ->
  two_bytes_entries m start end_ map -> two_bytes_entries m' start end_ map.
Proof.
  intros Hm He. eapply map_Forall_impl; [exact He|]. intros id o (Hid & Ho & len & H1 & H2 & H3 & He'). split; [done|]. split; [done|].
  exists len. rewrite !Hm by lia. done.
Qed.

(** What is decoded has arrived, too. *)
Lemma RtxDecode_arrived p pt ssrc : arrived p ->
  RtxDecode p pt ssrc = Ok (p, false) \/ exists q, RtxDecode p pt ssrc = Ok (q, true) /\ arrived q.
Proof.
  intros (Hwf & Hmaps & Hroom & Hsmall). destruct (Z.lt_ge_cases (payloadLength p) 2) as [Hl|Hl].
  { left. unfold RtxDecode. by rewrite (proj2 (Z.ltb_lt _ _) Hl). }
  right. destruct (wf_payload p Hwf) as (H12 & Hend & _). unfold HeaderSize in H12. pose proof (wf_lengths p Hwf) as (_ & Hpad & Hsum).
  assert (exists a pl, payload_bytes p = Ok (be_bytes 2 a ++ pl)) as (a & pl & Hpl).
  { unfold payload_bytes. replace (payloadLength p) with (2 + (payloadLength p - 2)) by lia. rewrite slice_split by lia.
    destruct (slice_in_bounds (mem p) (payload p) 2) as [s1 E1]; [lia..|].
    destruct (slice_in_bounds (mem p) (payload p + 2) (payloadLength p - 2)) as [s2 E2]; [lia..|]. rewrite E1, E2. ostep.
    exists (be_val s1), s2. pose proof (zlen_slice _ _ _ _ E1) as L1. f_equal. f_equal.
    rewrite <- (be_bytes_be_val s1) at 1 by (eapply bytes_slice; [apply (wf_bytes p Hwf)|exact E1]). f_equal. unfold zlen in L1. lia. }
  destruct (RtxDecode_spec p pt ssrc pl a Hwf Hsmall Hpl) as (q & E & Hq & Hsh & _ & Hlen & Hpad' & _).
  pose proof (RtxDecode_frame p pt ssrc q Hwf Hsmall E) as Hf. exists q. split; [done|].
  destruct Hsh as (_ & Hext & Hpay & Hm1 & Hm2 & _ & Hz). pose proof (wf_lengths q Hq) as (_ & _ & Hsum').
  split; [done|]. split; [|split; lia]. unfold maps_ok in *. rewrite Hext, Hm1, Hm2. destruct (headerExtension p) as [h|] eqn:Eh; [|done].
  pose proof (wf_layout p Hwf) as (count & Hc & _ & Hlay). rewrite Eh in Hlay. destruct Hlay as (_ & Hh & n & En & Epay).
  apply get_bits_range in Hc; [|lia]. unfold HeaderSize in Hh. pose proof (Get2Bytes_range _ _ _ (wf_bytes p Hwf) En) as Hn. unfold in_uint in Hn.
  intros n' En'. rewrite (Get2Bytes_ext (mem p)) in En' by (intros; apply Hf; lia). rewrite En in En'. injection En' as <-.
  assert (forall i, h + 4 <= i < h + 4 + n * 4 -> get1 (mem q) i = get1 (mem p) i) as Hf' by (intros; apply Hf; lia).
  destruct (Hmaps n En) as [M1 M2]. split; [exact (one_byte_entries_ext _ _ _ _ _ Hf' M1)|exact (two_bytes_entries_ext _ _ _ _ _ Hf' M2)].
Qed.
