(* ===== verification/RecvSteps.v ===== *)
(** What the operations of [RtpStreamRecv] do, whatever arrives: the invariant, and
    that each operation keeps it.

    [leads m R s]: run in the state [s], [m] returns; the state it leaves satisfies
    the invariant, the scores told to the listener link the old score to the new
    one, the packets it asked to be sent are in order, and [R] holds.

    What the operations of a receiving stream leave alone, and the packets they
    give back: whatever happens to a stream, its parameters and its RTX stream
    stay; a packet comes back as it was given, or with its descriptor. *)

From Stdlib Require Import Floats.SpecFloat.
From S2P Require Export RecvFacts.
From S2P Require Import RtpStreamRecv.

(** * What is told to the listener *)

(** The score after the calls: each tells the previous one, and a new one. *)
Fixpoint told (x : Z) (es : list recv_event) : option Z :=
  match es with
  | [] => Some x
  | StreamScore new old :: es => if (old =? x) && negb (new =? x) then told new es else None
  | SendRtcpPacket _ :: es => told x es
  end.

Lemma told_app es es' : forall x y, told x es = Some y -> told x (es ++ es') = told y es'.
Proof.
  induction es as [|[new old|p] es IH]; intros x y; cbn [told app].
  - by intros [= ->].
  - destruct ((old =? x) && negb (new =? x)); [apply IH|done].
  - apply IH.
Qed.

(** The calls of a stream: scores from 0 to 10, and requests for its sender. *)
Definition asks (ssrc : Z) (e : recv_event) : Prop :=
  match e with
  | StreamScore new _ => 0 <= new <= 10
  | SendRtcpPacket (FeedbackPs (FeedbackPsPli h)) => h = FeedbackHeader PLI ssrc ssrc
  | SendRtcpPacket (FeedbackPs (FeedbackPsFir h items)) => h = FeedbackHeader FIR ssrc ssrc /\ exists n, items = [FirItem ssrc n]
  | SendRtcpPacket (FeedbackRtp (FeedbackRtpNack h items)) =>
      h = FeedbackHeader NACK 0 ssrc /\ Forall item_ok items /\ NoDup (concat (requested <$> items)) /\ NackSize items <= BufferSize
  | SendRtcpPacket _ => False
  end.

Section recv.
Context {H : Type} `{UvLaws H} `{PowLaws}.
Implicit Types s : rtp_stream_recv H.

Notation op := (act (rtp_stream_recv H) recv_event).

(** * The invariant *)

Definition score_ok (st : rtp_stream) : Prop :=
  Forall (fun x => 0 <= x <= 10) (scores st) /\ (length (scores st) <= ScoreHistogramLength)%nat /\ 0 <= score st <= 10.

Definition recv_timer_ok (t : timer H) : Prop :=
  closed t = false /\ Timer.repeat t = 0 /\ (Timer.IsActive t = true -> one_shot t).

Record core s : Prop := Core {
  co_layers : 0 < rp_spatialLayers (rv_par s) < 256 /\ 0 < rp_temporalLayers (rv_par s) < 256;
  co_counters : counters counter_ok (rp_spatialLayers (rv_par s)) (rp_temporalLayers (rv_par s)) (rv_counter s);
  co_media : counter_ok (rv_media s);
  co_timer : recv_timer_ok (rv_timer s);
  co_inactive : rv_inactive s = true -> Timer.IsActive (rv_timer s) = false;
  co_nack : useNack s = true -> exists g, rv_nack s = Some g /\ ng_inv g;
  co_rtx : recv_HasRtx s = true -> is_Some (rv_rtxStream s);
  co_score : score_ok (rv_stream s);
  co_jitter : in_uint 32 (rv_jitter s)
}.

(** The packets since the last score: repaired, sent again, received; and whether
    retransmissions have a stream. *)
Record tally : Type := Tally { ta_repaired : Z; ta_retransmitted : Z; ta_received : Z; ta_rtx : bool }.

Definition tally_of s : tally :=
  Tally (u32 (packetsRepaired (rv_stream s) - sp_repaired (rv_prior s)))
    (u32 (packetsRetransmitted (rv_stream s) - sp_retransmitted (rv_prior s)))
    (u32 (packets (rv_media s) - sp_received (rv_prior s))) (recv_HasRtx s).

Definition tally_ok (t : tally) : Prop :=
  0 <= ta_repaired t <= ta_retransmitted t /\ ta_retransmitted t < 2 ^ 24 /\ 0 <= ta_received t < 2 ^ 24 /\
  (ta_rtx t = false -> ta_repaired t <= ta_received t).

Definition recv_inv s : Prop := core s /\ tally_ok (tally_of s).

Definition same_base s s' : Prop :=
  RtpStreamRecv.GetSsrc s' = RtpStreamRecv.GetSsrc s /\ useNack s' = useNack s /\ rv_par s' = rv_par s /\
  par_clockRate (RtpStream.par (rv_stream s')) = par_clockRate (RtpStream.par (rv_stream s)).

Record moved s (es : list recv_event) s' : Prop := Moved {
  mv_core : core s';
  mv_told : told (score (rv_stream s)) es = Some (score (rv_stream s'));
  mv_asks : Forall (asks (RtpStreamRecv.GetSsrc s)) es;
  mv_base : same_base s s'
}.

Lemma moved_refl s : core s -> moved s [] s.
Proof. intros Hs. by split. Qed.

Lemma moved_trans s es s1 es' s2 : moved s es s1 -> moved s1 es' s2 -> moved s (es ++ es') s2.
Proof.
  intros [_ T1 A1 (B1 & B2 & B3 & B4)] [C2 T2 A2 (D1 & D2 & D3 & D4)]. split; [done| | |].
  - by rewrite (told_app _ _ _ _ T1).
  - apply Forall_app. split; [done|]. by rewrite <- B1.
  - unfold same_base. rewrite D1, D2, D3, D4. by split_and!.
Qed.

Definition leads {A} (m : op A) (R : A -> rtp_stream_recv H -> Prop) s : Prop :=
  does m (fun a s' es => moved s es s' /\ R a s') s.

Lemma leads_bind {A B} (m : op A) (k : A -> op B) (R : A -> rtp_stream_recv H -> Prop) Q s : leads m R s ->
  (forall a s1, core s1 -> same_base s s1 -> R a s1 -> leads (k a) Q s1) -> leads (m ≫= k) Q s.
Proof.
  intros Hm Hk. apply does_bind. eapply does_weaken; [exact Hm|]. intros a s1 es [M Ra]. cbn beta.
  eapply does_weaken; [apply (Hk a s1 (mv_core _ _ _ M) (mv_base _ _ _ M) Ra)|]. intros b s2 es' [M' Qb]. split; [|done]. by eapply moved_trans.
Qed.

(** Read the state, or compute something that is known. *)
Lemma leads_state {B} (k : _ -> op B) Q s : core s -> leads (k s) Q s -> leads (get ≫= k) Q s.
Proof. intros _ Hk. apply does_bind, does_get. exact Hk. Qed.

Lemma leads_known {A B} (m : outcome A) a (k : A -> op B) Q s : m = Ok a -> core s -> leads (k a) Q s -> leads (lift m ≫= k) Q s.
Proof. intros E _ Hk. apply does_bind. eapply does_lift; [exact E|]. exact Hk. Qed.

Lemma leads_weaken {A} (m : op A) (R Q : A -> rtp_stream_recv H -> Prop) s : leads m R s -> (forall a s', R a s' -> Q a s') -> leads m Q s.
Proof. intros Hm HQ. eapply does_weaken; [exact Hm|]. intros a s' es [M Ra]. split; [done|]. by apply HQ. Qed.

Lemma leads_ret {A} (a : A) (R : A -> rtp_stream_recv H -> Prop) s : core s -> R a s -> leads (mret a) R s.
Proof. intros Hc HR. apply does_ret. split; [by apply moved_refl|done]. Qed.

Lemma leads_skip (R : unit -> rtp_stream_recv H -> Prop) s : core s -> R () s -> leads skip R s.
Proof. apply leads_ret. Qed.

Lemma leads_modify f (R : unit -> rtp_stream_recv H -> Prop) s : core (f s) -> same_base s (f s) ->
  score (rv_stream (f s)) = score (rv_stream s) -> R () (f s) -> leads (modify f) R s.
Proof. intros Hc Hb Hs HR. apply does_modify. split; [|done]. split; [done| |constructor|done]. cbn. by rewrite Hs. Qed.

Lemma leads_emit e (R : unit -> rtp_stream_recv H -> Prop) s : core s -> asks (RtpStreamRecv.GetSsrc s) e ->
  match e with StreamScore _ _ => False | _ => True end -> R () s -> leads (emit e) R s.
Proof.
  intros Hc Ha He HR. apply does_emit. split; [|done]. split; [done| |by apply Forall_singleton|by split]. by destruct e.
Qed.

(** ** Parts of the state *)

Definition keeps s s' : Prop := tally_of s' = tally_of s /\ rv_transit s' = rv_transit s.

Lemma keeps_refl s : keeps s s.
Proof. done. Qed.

Lemma keeps_trans s s1 s2 : keeps s s1 -> keeps s1 s2 -> keeps s s2.
Proof. intros [E1 E2] [F1 F2]. split; congruence. Qed.

(** The part of the stream that only scores change. *)
Definition same_counts (st st' : rtp_stream) : Prop :=
  RtpStream.par st' = RtpStream.par st /\ hasRtxStream st' = hasRtxStream st /\
  packetsRepaired st' = packetsRepaired st /\ packetsRetransmitted st' = packetsRetransmitted st.

Lemma core_set_stream s st : core s -> RtpStream.par st = RtpStream.par (rv_stream s) ->
  hasRtxStream st = hasRtxStream (rv_stream s) -> score_ok st -> core (set_stream s st).
Proof.
  intros [] Ep Eh Hs. split; cbn; try done; unfold useNack, recv_HasRtx, HasRtx in *; cbn; by rewrite ?Ep, ?Eh.
Qed.

Lemma base_set_stream s st : RtpStream.par st = RtpStream.par (rv_stream s) -> same_base s (set_stream s st).
Proof. intros E. unfold same_base, RtpStreamRecv.GetSsrc, useNack. cbn. by rewrite E. Qed.

Lemma tally_set_stream s st : same_counts (rv_stream s) st -> tally_of (set_stream s st) = tally_of s.
Proof. intros (_ & E1 & E2 & E3). unfold tally_of, recv_HasRtx, HasRtx. cbn. by rewrite E1, E2, E3. Qed.

(** A setter of the other fields. *)
Ltac core_tac := intros []; split; done.

Lemma core_set_nack s g : core s -> ng_inv g -> core (set_nack s g).
Proof. intros [] Hg. split; try done. intros _. by exists g. Qed.

Lemma core_set_activity s t b : core s -> recv_timer_ok t -> (b = true -> Timer.IsActive t = false) -> core (set_activity s t b).
Proof. by intros [] Ht Hb; split. Qed.

Lemma core_set_counts s c : core s -> core (set_counts s c).
Proof. core_tac. Qed.

Lemma core_set_loss s l : core s -> core (set_loss s l).
Proof. core_tac. Qed.

Lemma core_set_sr s r ntp : core s -> core (set_sr s r ntp).
Proof. core_tac. Qed.

Lemma core_set_prior s p : core s -> core (set_prior s p).
Proof. core_tac. Qed.

Lemma core_set_rtt s r : core s -> core (set_rtt s r).
Proof. core_tac. Qed.

Lemma core_set_rtx s x : core s -> core (set_rtxStream s (Some x)).
Proof. by intros []; split. Qed.

Lemma core_set_jitter s transit j : core s -> in_uint 32 j -> core (set_jitter s transit j).
Proof. by intros [] Hj; split. Qed.

Lemma core_set_counters s c m : core s -> counters counter_ok (rp_spatialLayers (rv_par s)) (rp_temporalLayers (rv_par s)) c ->
  counter_ok m -> core (set_counters s c m).
Proof. by intros [] Hc Hm; split. Qed.

(** ** The score *)

Lemma score_leads s st : core s -> score_ok st -> same_counts (rv_stream s) st ->
  leads (_ ← modify (fun s => set_stream s st);
         emit_score (if score st =? score (rv_stream s) then None else Some (score st, score (rv_stream s))))
    (fun _ s' => s' = set_stream s st) s.
Proof.
  intros Hc Hs Hst. pose proof Hst as (E1 & E2 & _). unfold leads. repeat does_step.
  pose proof (core_set_stream s st Hc E1 E2 Hs) as Hc'. pose proof (base_set_stream s st E1) as Hb. destruct Hs as (_ & _ & Hs).
  destruct (Z.eqb_spec (score st) (score (rv_stream s))) as [E|E]; cbn [emit_score]; repeat does_step; (split; [|done]); split; try done.
  - cbn. by rewrite E.
  - cbn. by rewrite Z.eqb_refl, (proj2 (Z.eqb_neq _ _) E).
  - by apply Forall_singleton.
Qed.

Lemma reset_score_leads s x now : core s -> 0 <= x <= 10 -> leads (reset_score x now)
  (fun _ s' => exists st, s' = set_stream s st /\ same_counts (rv_stream s) st /\ score st = x) s.
Proof.
  intros Hc Hx. unfold reset_score. apply leads_state; [done|]. unfold ResetScore.
  destruct (Z.eqb_spec (score (rv_stream s)) x) as [E|E]; cbn [negb].
  - set (st := set_score _ _ _ _). pose proof (score_leads s st Hc) as L. change (score st) with (score (rv_stream s)) in L.
    rewrite Z.eqb_refl in L. eapply leads_weaken; [apply L; [|done]|].
    + split; [constructor|]. split; [cbn; lia|cbn; lia].
    + intros _ s' ->. by exists st.
  - set (st := set_score _ _ _ _). pose proof (score_leads s st Hc) as L. change (score st) with x in L.
    rewrite (proj2 (Z.eqb_neq x _)) in L by congruence. eapply leads_weaken; [apply L; [|done]|].
    + split; [constructor|]. split; [cbn; lia|done].
    + intros _ s' ->. by exists st.
Qed.

Lemma update_score_leads s x now : core s -> 0 <= x <= 10 -> leads (RtpStreamRecv.update_score x now)
  (fun _ s' => exists st, s' = set_stream s st /\ same_counts (rv_stream s) st) s.
Proof.
  intros Hc Hx. unfold RtpStreamRecv.update_score. apply leads_state; [done|]. destruct (co_score s Hc) as (S1 & S2 & S3).
  destruct (UpdateScore_mean (rv_stream s) x now S1 Hx S2) as (st & e & E & Hh & Hm & Hlo & ->).
  assert (same_counts (rv_stream s) st) as Hst.
  { unfold UpdateScore in E. destruct (score_loop _ _ _ _) as [sm t]. destruct (negb _); injection E as <- _; done. }
  rewrite E. eapply leads_weaken; [apply (score_leads s st Hc); [|done]|intros _ s' ->; by exists st].
  assert (Forall (fun x => 0 <= x <= 10) (histogram (rv_stream s) x)) as Hall.
  { unfold histogram. apply Forall_app. split; [|by apply Forall_singleton]. case_bool_decide; [|done].
    destruct (scores _); [done|]. by apply Forall_cons in S1 as [_ S1]. }
  split; [by rewrite Hh|]. split; [rewrite Hh; by apply zlen_histogram|]. by apply Hlo.
Qed.

(** ** Requests *)

Lemma RequestKeyFrame_leads s : core s -> leads RequestKeyFrame (fun _ s' => keeps s s') s.
Proof.
  intros Hc. unfold RequestKeyFrame. apply leads_state; [done|]. destruct (rp_usePli (rv_par s)).
  - eapply leads_bind; [apply (leads_modify _ (fun _ s' => keeps s s')); try done; by apply core_set_counts|].
    intros [] s1 Hc1 (Hs & _) Hk. apply leads_emit; try done. cbn. by rewrite Hs.
  - destruct (rp_useFir (rv_par s)); [|by apply leads_skip].
    eapply leads_bind; [apply (leads_modify _ (fun _ s' => keeps s s')); try done; by apply core_set_counts|].
    intros [] s1 Hc1 _ Hk. apply leads_state; [done|]. apply leads_emit; try done. split; [done|by eexists].
Qed.

Lemma NackRequired_leads s l : core s -> useNack s = true -> batch_ok l ->
  leads (OnNackGeneratorNackRequired l) (fun _ s' => keeps s s') s.
Proof.
  intros Hc Hn (Hne & Hnd & Hl & _). unfold OnNackGeneratorNackRequired. apply leads_state; [done|].
  apply (leads_known _ ()); [by rewrite Hn|done|].
  destruct (items_loop_spec (length l) l) as (items & E & Hit & Hp); [lia|done|done|].
  eapply leads_known; [eassumption|done|].
  destruct (Z.ltb_spec BufferSize (NackSize items)); [by apply leads_skip|].
  eapply leads_bind; [apply (leads_modify _ (fun _ s' => keeps s s')); try done; by apply core_set_counts|].
  intros [] s1 Hc1 (Hs & _) Hk. apply leads_emit; try done. cbn. rewrite Hs. split; [done|]. split; [done|]. split; [by rewrite Hp|done].
Qed.

Lemma nack_handlers_leads s l : core s -> useNack s = true -> Forall call_ok l ->
  leads (nack_handlers l) (fun _ s' => keeps s s') s.
Proof.
  intros Hc Hn Hl. revert s Hc Hn. induction Hl as [|c l Hcall Hl IH]; intros s Hc Hn; [by apply leads_skip|]. cbn [nack_handlers].
  eapply (leads_bind _ _ (fun _ s' => keeps s s')).
  - destruct c; [by apply NackRequired_leads|by apply RequestKeyFrame_leads].
  - intros [] s1 Hc1 (_ & Hn1 & _) Hk. eapply leads_weaken; [apply IH; [done|by rewrite Hn1]|]. intros [] s2 Hk2. by eapply keeps_trans.
Qed.

(** The generator, and what it asks for. *)
Lemma generator_ok s : core s -> useNack s = true -> exists g, generator s = Ok g /\ ng_inv g.
Proof. intros Hc Hn. destruct (co_nack s Hc Hn) as (g & E & Hg). exists g. unfold generator. by rewrite E. Qed.

Lemma nack_receive_leads s p isRecovered now : core s -> useNack s = true -> rtp_wf (vp_packet p) -> 0 < now < 2 ^ 64 ->
  leads (nack_receive p isRecovered now) (fun _ s' => keeps s s') s.
Proof.
  intros Hc Hn Hwf Hnow. unfold nack_receive. apply leads_state; [done|].
  destruct (generator_ok s Hc Hn) as (g & Eg & Hg).
  eapply leads_known; [eassumption|done|].
  destruct (wf_reads _ Hwf) as (seq & ts & Es & Hseq & _).
  eapply leads_known; [eassumption|done|].
  destruct (nack_step_inv g (PacketReceived seq (IsKeyFrame p) isRecovered now) Hg) as (g' & calls & E & Hg' & Hcalls); [done|].
  cbn [nack_step] in E. apply bind_Ok in E as ([[g1 calls1] found] & E & [= -> ->]).
  eapply leads_known; [eassumption|done|].
  eapply leads_bind; [apply (leads_modify _ (fun _ s' => keeps s s')); try done; by apply core_set_nack|]. intros [] s1 Hc1 (_ & Hn1 & _) Hk.
  eapply leads_bind; [apply nack_handlers_leads; [done|by rewrite Hn1|done]|]. intros [] s2 Hc2 _ Hk2.
  apply leads_ret; [done|]. by eapply keeps_trans.
Qed.

(** ** Jitter and activity *)

(** The difference whose absolute value is taken. *)
Definition transit_diff s (timestamp now : Z) : Z :=
  swrap 32 (u32 (swrap 32 (u64 (now - u32 (timestamp * 1000) / par_clockRate (RtpStream.par (rv_stream s)))) - rv_transit s)).

Definition jitter_defined s (timestamp now : Z) : Prop :=
  par_clockRate (RtpStream.par (rv_stream s)) = 0 \/ transit_diff s timestamp now <> - 2 ^ 31.

Lemma CalculateJitter_leads s timestamp now : core s -> jitter_defined s timestamp now ->
  leads (CalculateJitter timestamp now) (fun _ s' => tally_of s' = tally_of s) s.
Proof.
  intros Hc Hd. unfold CalculateJitter. apply leads_state; [done|].
  destruct (Z.eqb_spec (par_clockRate (RtpStream.par (rv_stream s))) 0) as [|Hne]; [by apply leads_skip|].
  destruct Hd as [|Hd]; [done|]. cbn zeta. fold (transit_diff s timestamp now). set (d := transit_diff s timestamp now) in *.
  apply (leads_known _ ()); [by rewrite (proj2 (Z.eqb_neq _ _) Hd)|done|].
  pose proof (co_jitter s Hc) as Hj. assert (0 <= Z.abs d < 2 ^ 32) as Hd2.
  { pose proof (swrap_range (u32 (swrap 32 (u64 (now - u32 (timestamp * 1000) / par_clockRate (RtpStream.par (rv_stream s)))) - rv_transit s))) as Hr.
    fold (transit_diff s timestamp now) in Hr. fold d in Hr. lia. }
  pose proof (jitter_step_spec (rv_jitter s) (Z.abs d) Hj Hd2) as E.
  eapply leads_known; [eassumption|done|]. apply leads_modify; try done. apply core_set_jitter; [done|]. unfold in_uint in *.
  split; [apply Z.div_pos; lia|apply Z.div_lt_upper_bound; lia].
Qed.

Lemma Restart_ok t : recv_timer_ok t -> exists t', Restart t = Ok t' /\ recv_timer_ok t'.
Proof.
  intros (Hc & Hr & _). destruct (Restart_open t Hc Hr) as (t' & E & _ & Ho & _). exists t'. split; [done|].
  pose proof Ho as (? & ? & _). by split_and!.
Qed.

Lemma become_active_leads s now : core s -> leads (become_active now) (fun _ s' => tally_of s' = tally_of s) s.
Proof.
  intros Hc. unfold become_active. apply leads_state; [done|].
  eapply (leads_bind _ _ (fun _ s' => tally_of s' = tally_of s /\ rv_inactive s' = false)).
  - destruct (rv_inactive s) eqn:Ei; [|by apply leads_skip].
    eapply leads_bind.
    { apply (leads_modify _ (fun _ s' => tally_of s' = tally_of s /\ rv_inactive s' = false)); try done. apply core_set_activity; [done| |done]. apply Hc. }
    intros [] s1 Hc1 _ [E1 E2]. eapply leads_weaken; [by apply reset_score_leads|]. intros [] s2 (st & -> & Hst & _).
    rewrite <- E1, <- E2. split; [by apply tally_set_stream|done].
  - intros [] s1 Hc1 _ [E1 E2]. apply leads_state; [done|]. destruct (Restart_ok _ (co_timer s1 Hc1)) as (t & Et & Ht).
    eapply leads_known; [eassumption|done|].
    apply leads_modify; try done. apply core_set_activity; [done|done|]. by rewrite E2.
Qed.

Lemma count_packet_leads s p now : core s -> handled p -> leads (count_packet p now) (fun _ s' => keeps s s') s.
Proof.
  intros Hc Hp. unfold count_packet. apply leads_state; [done|]. pose proof (co_layers s Hc) as [L1 L2].
  destruct (tc_Update_ok _ _ (rv_counter s) p now (co_counters s Hc) L1 L2 Hp) as (c & Ec & Hcc).
  eapply leads_known; [eassumption|done|].
  apply leads_modify; try done. apply core_set_counters; [done|done|apply Hc].
Qed.

(** ** Packets *)

Lemma UpdateSeq_counts st seq ts now : same_counts st (UpdateSeq st seq ts now).1 /\
  score (UpdateSeq st seq ts now).1 = score st /\ scores (UpdateSeq st seq ts now).1 = scores st.
Proof. unfold UpdateSeq. destruct (_ <? _); [done|]. destruct (_ <=? _); [|done]. by destruct (_ =? _). Qed.

Lemma receive_counts st p now st' ok : RtpStream.ReceivePacket st p now = Ok (st', ok) ->
  same_counts st st' /\ score st' = score st /\ scores st' = scores st.
Proof.
  unfold RtpStream.ReceivePacket. intros E. ok_inv. set (s0 := if started st then st else _) in *.
  pose proof (UpdateSeq_counts s0 x x0 now) as Hu. destruct (UpdateSeq s0 x x0 now) as [s1 b].
  assert (same_counts st s0 /\ score s0 = score st /\ scores s0 = scores st) as ((A1 & A2 & A3 & A4) & A5 & A6) by (unfold s0; by destruct (started st)).
  destruct Hu as ((U1 & U2 & U3 & U4) & U5 & U6). cbn [fst] in *. unfold same_counts.
  destruct (negb b); [|destruct (IsSeqHigherThan _ _ _)]; injection E as <- <-; cbn; split_and!; congruence.
Qed.

Lemma set_stream_leads s st (R : unit -> rtp_stream_recv H -> Prop) : core s -> RtpStream.par st = RtpStream.par (rv_stream s) ->
  hasRtxStream st = hasRtxStream (rv_stream s) -> score st = score (rv_stream s) -> scores st = scores (rv_stream s) ->
  R () (set_stream s st) -> leads (modify (fun s => set_stream s st)) R s.
Proof.
  intros Hc Hp Hh Hs Hl HR. apply leads_modify; try done; [|by apply base_set_stream].
  apply core_set_stream; [done..|]. destruct (co_score s Hc). split; [by rewrite Hl|]. by rewrite Hl, Hs.
Qed.

(** A packet counted as sent again, and as repaired. *)
Definition add_retransmitted (t : tally) : tally := Tally (ta_repaired t) (u32 (ta_retransmitted t + 1)) (ta_received t) (ta_rtx t).
Definition add_repaired (t : tally) : tally := Tally (u32 (ta_repaired t + 1)) (ta_retransmitted t) (ta_received t) (ta_rtx t).
Definition add_received (t : tally) : tally := Tally (ta_repaired t) (ta_retransmitted t) (u32 (ta_received t + 1)) (ta_rtx t).

Lemma count_more n prior : u32 (u64 (n + 1) - prior) = u32 (u32 (n - prior) + 1).
Proof.
  rewrite wrap_add_l. unfold wrap. change (2 ^ 64) with (2 ^ 32 * 2 ^ 32). rewrite <- (Zminus_mod_idemp_l (_ `mod` _)).
  rewrite Z.mod_mod_divide by (by exists (2 ^ 32)). rewrite Zminus_mod_idemp_l. f_equal. lia.
Qed.

Lemma PacketRetransmitted_leads s : core s ->
  leads (modify_stream PacketRetransmitted) (fun _ s' => tally_of s' = add_retransmitted (tally_of s) /\ rv_transit s' = rv_transit s) s.
Proof.
  intros Hc. apply leads_modify; try done; [apply core_set_stream; [done..|apply Hc]|].
  split; [|done]. unfold tally_of, add_retransmitted. cbn. by rewrite count_more.
Qed.

Lemma PacketRepaired_leads s : core s ->
  leads (modify_stream PacketRepaired) (fun _ s' => tally_of s' = add_repaired (tally_of s) /\ rv_transit s' = rv_transit s) s.
Proof.
  intros Hc. apply leads_modify; try done; [apply core_set_stream; [done..|apply Hc]|].
  split; [|done]. unfold tally_of, add_repaired. cbn. by rewrite count_more.
Qed.

Lemma process_codec_ok s p : arrived p -> exists q, process_codec s p = Ok q /\ handled q /\ GetTimestamp (vp_packet q) = GetTimestamp p.
Proof.
  intros Hp. pose proof Hp as (Hwf & _). destruct (wf_payload p Hwf) as (H12 & Hend & _). unfold HeaderSize in H12.
  pose proof (wf_lengths p Hwf) as (? & ? & ?). unfold process_codec, GetPayloadType.
  destruct (get_bits_in_bounds (mem p) 1 0 7 ltac:(lia)) as (pt & ->). ostep. destruct (_ =? _); [|by eexists].
  destruct (ProcessRtpPacket_handled (rp_codec (rv_par s)) p Hp) as (q & -> & Hq & _ & _ & Hf & _). exists q. split; [done|]. split; [done|].
  apply Get4Bytes_ext. intros i Hi. apply Hf. lia.
Qed.

(** Room for one more packet in the tally. *)
Definition tally_room s : Prop := ta_retransmitted (tally_of s) + 1 < 2 ^ 24 /\ ta_received (tally_of s) + 1 < 2 ^ 24.

Definition media_allowed s (now : Z) (p : rtp_packet) : Prop :=
  arrived p /\ 0 < now < 2 ^ 64 /\ (forall ts, GetTimestamp p = Ok ts -> jitter_defined s ts now) /\ tally_room s.

Ltac tally_tac := unfold tally_ok, add_retransmitted, add_repaired, add_received, tally_room in *; cbn in *;
  rewrite ?(wrap_small 32) by (unfold in_uint; lia); intuition (lia || congruence).

(** The media packet and the generator: without RTX, what it waited for is counted. *)
Lemma media_nack_leads s p now : core s -> rtp_wf (vp_packet p) -> 0 < now < 2 ^ 64 -> tally_room s -> tally_ok (tally_of s) ->
  leads (if useNack s then
           found ← nack_receive p false now;
           if negb (recv_HasRtx s) && found then
             _ ← modify_stream PacketRetransmitted;
             modify_stream PacketRepaired
           else skip
         else skip)
    (fun _ s' => rv_transit s' = rv_transit s /\
       (tally_of s' = tally_of s \/ ta_rtx (tally_of s) = false /\ tally_of s' = add_repaired (add_retransmitted (tally_of s)))) s.
Proof.
  intros Hc Hwf Hnow Hroom Ht. destruct (useNack s) eqn:En; [|apply leads_skip; [done|]; split; [done|by left]].
  eapply leads_bind; [by apply nack_receive_leads|]. intros found s1 Hc1 _ [Ek Etr].
  destruct (negb (recv_HasRtx s) && found) eqn:Ef; [|apply leads_skip; [done|]; split; [done|by left]].
  eapply leads_bind; [by apply PacketRetransmitted_leads|]. intros [] s2 Hc2 _ [E2 Etr2].
  eapply leads_weaken; [by apply PacketRepaired_leads|]. intros [] s3 [E3 Etr3]. split; [congruence|]. right.
  apply andb_true_iff in Ef as [Ef _]. apply negb_true_iff in Ef. split; [exact Ef|]. by rewrite E3, E2, Ek.
Qed.

Lemma ReceivePacket_leads s now p : recv_inv s -> media_allowed s now p ->
  leads (RtpStreamRecv.ReceivePacket now p) (fun _ s' => tally_ok (tally_of s')) s.
Proof.
  intros [Hc Ht] (Hp & Hnow & Hj & Hroom). pose proof Hp as (Hwf & _). unfold RtpStreamRecv.ReceivePacket. apply leads_state; [done|].
  destruct (ReceivePacket_Ok (rv_stream s) p now Hwf) as [[st ok] E]. destruct (receive_counts _ _ _ _ _ E) as (Hst & Hsc & Hl).
  pose proof Hst as (Hpar & Hrtx & _). eapply leads_known; [exact E|done|].
  eapply leads_bind; [apply (set_stream_leads s st (fun _ s' => s' = set_stream s st)); done|]. intros [] s1 Hc1 _ ->.
  pose proof (tally_set_stream s st Hst) as Et. assert (tally_room (set_stream s st)) as Hroom1 by (unfold tally_room; by rewrite Et).
  destruct ok; cbn [negb]; [|apply leads_ret; [done|by rewrite Et]].
  destruct (process_codec_ok s p Hp) as (q & Eq & Hq & Hts). eapply leads_known; [exact Eq|done|].
  replace (useNack s) with (useNack (set_stream s st)) by (unfold useNack; cbn; by rewrite Hpar).
  replace (recv_HasRtx s) with (recv_HasRtx (set_stream s st)) by (unfold recv_HasRtx, HasRtx; cbn; by rewrite Hrtx).
  eapply leads_bind; [apply (media_nack_leads (set_stream s st)); [done|apply Hq|done|done|by rewrite Et]|].
  intros [] s2 Hc2 (_ & _ & _ & Hclk) (Etr & Htally). rewrite Et in Htally.
  destruct (wf_reads _ Hwf) as (seq & ts & _ & _ & Ets & _). eapply leads_known; [rewrite Hts; exact Ets|done|].
  eapply leads_bind; [apply CalculateJitter_leads; [done|]|].
  { specialize (Hj ts Ets). unfold jitter_defined, transit_diff in *. rewrite Hclk, Etr. cbn [rv_stream set_stream rv_transit]. by rewrite Hpar. }
  intros [] s3 Hc3 _ E3. eapply leads_bind; [by apply count_packet_leads|]. intros [] s4 Hc4 _ [E4 _]. apply leads_state; [done|].
  destruct (counter_Update_ok (rv_media s4) (GetSize (vp_packet q)) now (co_media s4 Hc4)) as (m & Em & Hm & Hcount).
  eapply leads_known; [exact Em|done|].
  eapply leads_bind.
  { apply (leads_modify _ (fun _ s' => tally_of s' = add_received (tally_of s4))); try done; [apply core_set_counters; [done|apply Hc4|done]|].
    unfold tally_of, add_received. cbn. by rewrite Hcount, count_more. }
  intros [] s5 Hc5 _ E5. eapply leads_bind; [by apply become_active_leads|]. intros [] s6 Hc6 _ E6. apply leads_ret; [done|].
  rewrite E6, E5, E4, E3. unfold tally_room in Hroom. clear - Ht Hroom Htally. destruct Htally as [->|[Ef ->]]; destruct (tally_of s) as [a b c r]; tally_tac.
Qed.

(** A packet of the RTX stream. *)
Definition rtx_allowed s (now : Z) (p : rtp_packet) : Prop :=
  arrived p /\ 0 < now < 2 ^ 64 /\ tally_room s /\ recv_HasRtx s = true /\
  RtpPacket.GetSsrc p = Ok (par_rtxSsrc (RtpStream.par (rv_stream s))).

Lemma rx_ReceivePacket_ok x p now : rtp_wf p -> exists r, rx_ReceivePacket x p now = Ok r.
Proof.
  intros Hwf. destruct (wf_reads p Hwf) as (q & ts & Hq & _ & Ht & _). unfold rx_ReceivePacket.
  rewrite Hq, Ht. ostep. set (x0 := if rx_started x then x else _). destruct (rx_UpdateSeq x0 q ts now) as [x1 ok].
  by destruct ok; eexists.
Qed.

(** The end of [ReceiveRtxPacket], once the packet is decoded. *)
Lemma rtx_recovered_leads s0 s p now : recv_inv s -> arrived p -> 0 < now < 2 ^ 64 -> tally_room s -> recv_HasRtx s = true -> useNack s = true ->
  leads (p ← lift (process_codec s0 p);
         _ ← modify_stream PacketRetransmitted;
         found ← nack_receive p true now;
         if negb found then mret (p, false)
         else
           _ ← modify_stream PacketRepaired;
           _ ← count_packet p now;
           _ ← become_active now;
           mret (p, true)) (fun _ s' => tally_ok (tally_of s')) s.
Proof.
  intros [Hc Ht] Hp Hnow Hroom Hrtx Hn. destruct (process_codec_ok s0 p Hp) as (q & Eq & Hq & _). eapply leads_known; [exact Eq|done|].
  eapply leads_bind; [by apply PacketRetransmitted_leads|]. intros [] s1 Hc1 (_ & Hn1 & _) [E1 _].
  eapply leads_bind; [apply nack_receive_leads; [done|by rewrite Hn1|apply Hq|done]|]. intros found s2 Hc2 _ [E2 _].
  assert (ta_rtx (tally_of s) = true) as Hr by exact Hrtx. unfold tally_room in Hroom.
  destruct found; cbn [negb]; [|apply leads_ret; [done|]; rewrite E2, E1; destruct (tally_of s) as [a b c r]; tally_tac].
  eapply leads_bind; [by apply PacketRepaired_leads|]. intros [] s3 Hc3 _ [E3 _].
  eapply leads_bind; [by apply count_packet_leads|]. intros [] s4 Hc4 _ [E4 _].
  eapply leads_bind; [by apply become_active_leads|]. intros [] s5 Hc5 _ E5. apply leads_ret; [done|].
  rewrite E5, E4, E3, E2, E1. destruct (tally_of s) as [a b c r]; tally_tac.
Qed.

Lemma ReceiveRtxPacket_leads s now p : recv_inv s -> rtx_allowed s now p ->
  leads (ReceiveRtxPacket now p) (fun _ s' => tally_ok (tally_of s')) s.
Proof.
  intros [Hc Ht] (Hp & Hnow & Hroom & Hrtx & Hssrc). pose proof Hp as (Hwf & _). unfold ReceiveRtxPacket. apply leads_state; [done|].
  destruct (useNack s) eqn:Hn; cbn [negb]; [|by apply leads_ret].
  eapply leads_known; [exact Hssrc|done|]. apply (leads_known _ ()); [by rewrite Z.eqb_refl|done|].
  destruct (wf_payload p Hwf) as (H12 & Hend & _). unfold HeaderSize in H12. pose proof (wf_lengths p Hwf) as (? & ? & ?).
  destruct (get_bits_in_bounds (mem p) 1 0 7 ltac:(lia)) as (pt & Ept). eapply leads_known; [exact Ept|done|].
  destruct (negb (pt =? _)); [by apply leads_ret|]. rewrite Hrtx.
  destruct (co_rtx s Hc Hrtx) as [x Ex]. destruct (rx_ReceivePacket_ok x p now Hwf) as [[x' ok] Erx].
  eapply (leads_bind _ _ (fun _ s' => s' = set_rtxStream s (Some x'))).
  { apply (leads_known _ x); [by rewrite Ex|done|]. eapply leads_known; [exact Erx|done|].
    eapply leads_bind; [apply (leads_modify _ (fun _ s' => s' = set_rtxStream s (Some x'))); try done; by apply core_set_rtx|].
    intros [] s1 Hc1 _ ->. by apply leads_ret. }
  intros go s1 Hc1 _ ->. destruct go; cbn [negb]; [|by apply leads_ret].
  destruct (RtxDecode_arrived p (rp_payloadType (rv_par s)) (RtpStreamRecv.GetSsrc s) Hp) as [E|(q & E & Hq)];
    (eapply leads_known; [exact E|done|]); cbn [negb]; [by apply leads_ret|].
  destruct (wf_reads q (proj1 Hq)) as (seq & ts & Es & _ & Ets & _).
  eapply leads_known; [exact Es|done|]. eapply leads_known; [exact Ets|done|].
  destruct (UpdateSeq_counts (rv_stream s) seq ts now) as (Hst & Hsc & Hl). destruct (UpdateSeq (rv_stream s) seq ts now) as [st ok2].
  cbn [fst] in *. pose proof Hst as (Hpar & Hr & _). set (s1 := set_rtxStream s (Some x')) in *.
  eapply leads_bind; [apply (set_stream_leads s1 st (fun _ s' => s' = set_stream s1 st)); done|]. intros [] s2 Hc2 _ ->.
  assert (tally_of (set_stream s1 st) = tally_of s) as Et by by apply (tally_set_stream s1 st).
  destruct ok2; cbn [negb]; [|apply leads_ret; [done|by rewrite Et]].
  apply rtx_recovered_leads.
  - split; [exact Hc2|by rewrite Et].
  - exact Hq.
  - exact Hnow.
  - unfold tally_room. by rewrite Et.
  - unfold recv_HasRtx, HasRtx in *. cbn. by rewrite Hr.
  - unfold useNack in *. cbn. by rewrite Hpar.
Qed.

(** * Reports *)

(** The intervals of a report have a fraction. *)
Definition report_defined (l : loss_state) (expected received : Z) : Prop :=
  fraction_defined (expected_interval l expected) (received_interval l received).

Lemma fraction_known l expected received : report_defined l expected received ->
  fraction_lost (expected_interval l expected) (received_interval l received)
  = Ok (fraction_of (expected_interval l expected) (received_interval l received)).
Proof. intros Hd. by apply fraction_lost_ok; [apply wrap_range|]. Qed.

Lemma GetRtcpReceiverReport_leads s now worst : core s ->
  report_defined (rv_loss s) (GetExpectedPackets (rv_stream s)) (GetPacketCount (rv_media s)) ->
  leads (GetRtcpReceiverReport now worst) (fun _ s' => keeps s s') s.
Proof.
  intros Hc Hd. unfold GetRtcpReceiverReport. apply leads_state; [done|].
  eapply leads_known; [by apply fraction_known|done|]. destruct (if _ <=? _ then _ else _) as [reported fractionLost].
  eapply leads_bind; [apply (leads_modify _ (fun _ s' => keeps s s')); try done; by apply core_set_loss|]. intros [] s1 Hc1 _ Hk.
  destruct (sr_fields _ _). by apply leads_ret.
Qed.

Definition rtx_report_defined s : Prop :=
  forall x, rv_rtxStream s = Some x -> report_defined (rx_loss x) (rx_GetExpectedPackets x) (rx_packetsCount x).

Lemma GetRtxRtcpReceiverReport_leads s now : core s -> rtx_report_defined s ->
  leads (GetRtxRtcpReceiverReport now) (fun _ s' => keeps s s') s.
Proof.
  intros Hc Hd. unfold GetRtxRtcpReceiverReport. apply leads_state; [done|]. destruct (recv_HasRtx s) eqn:Hr; [|by apply leads_ret].
  destruct (co_rtx s Hc Hr) as [x Ex]. apply (leads_known _ x); [by rewrite Ex|done|].
  unfold rx_GetRtcpReceiverReport. rewrite fraction_known by by apply Hd. ostep. destruct (sr_fields _ _).
  eapply leads_known; [done|done|]. eapply leads_bind; [apply (leads_modify _ (fun _ s' => keeps s s')); try done; by apply core_set_rtx|].
  intros [] s1 Hc1 _ Hk. by apply leads_ret.
Qed.

(** ** The score of a sender report *)

Definition expected_since s : Z := u32 (GetExpectedPackets (rv_stream s) - sp_expected (rv_prior s)).

(** An interval in which packets were expected has a score if one was received. *)
Definition score_defined s : Prop := rv_inactive s = true \/ expected_since s = 0 \/ 0 < ta_received (tally_of s).

Lemma score_counts_ok hasRtx expected received repaired retransmitted : 0 <= received < 2 ^ 24 ->
  0 <= repaired <= retransmitted -> retransmitted < 2 ^ 24 -> (hasRtx = false -> repaired <= received) ->
  let '(lost, repaired', retransmitted') := score_counts hasRtx expected received repaired retransmitted in
  0 <= repaired' <= lost /\ lost <= received /\ repaired' <= retransmitted' /\ retransmitted' < 2 ^ 24.
Proof.
  intros Hrec Hrep Hret Hrtx. unfold score_counts. set (l0 := if expected <? received then 0 else _).
  assert (0 <= l0) as Hl0 by (unfold l0; destruct (_ <? _); [lia|]; apply Z.mod_pos_bound; lia).
  set (lost := if received <? l0 then received else l0).
  assert (0 <= lost <= received) as Hl by (unfold lost; destruct (Z.ltb_spec received l0); lia).
  destruct (Z.ltb_spec lost repaired); [|lia]. destruct hasRtx; [|specialize (Hrtx eq_refl); lia].
  rewrite Z.sub_diag. change (u32 0) with 0. rewrite Z.sub_0_r, wrap_small by (unfold in_uint; lia). lia.
Qed.

(** The tally starts again. *)
Lemma tally_reset s : tally_of (set_prior s (ScorePriors (GetExpectedPackets (rv_stream s)) (u32 (packets (rv_media s)))
    (u32 (packetsRepaired (rv_stream s))) (u32 (packetsRetransmitted (rv_stream s))))) = Tally 0 0 0 (recv_HasRtx s).
Proof. unfold tally_of. cbn [rv_stream rv_prior rv_media set_prior sp_repaired sp_retransmitted sp_received recv_HasRtx]. by rewrite !wrap_sub_r, !Z.sub_diag. Qed.

Lemma recv_UpdateScore_leads s now : recv_inv s -> score_defined s -> leads (recv_UpdateScore now) (fun _ s' => tally_ok (tally_of s')) s.
Proof.
  intros [Hc Ht] Hd. unfold recv_UpdateScore. apply leads_state; [done|].
  fold (expected_since s). pose proof (tally_reset s) as Et. unfold GetPacketCount in *. set (prior := ScorePriors _ _ _ _) in *.
  set (s1 := set_prior s prior) in *. assert (tally_ok (tally_of s1)) as Ht1 by (rewrite Et; unfold tally_ok; cbn; lia).
  eapply leads_bind; [apply (leads_modify _ (fun _ s' => s' = s1)); try done; by apply core_set_prior|]. intros [] s' Hc1 _ ->.
  destruct (rv_inactive s) eqn:Ei; [by apply leads_skip|].
  assert (forall sc, 0 <= sc <= 10 -> leads (RtpStreamRecv.update_score sc now) (fun _ s' => tally_ok (tally_of s')) s1) as Hup.
  { intros sc Hsc. eapply leads_weaken; [by apply update_score_leads|]. intros [] s2 (st & -> & Hst). by rewrite tally_set_stream. }
  destruct (Z.eqb_spec (expected_since s) 0) as [|Hne]; [by apply Hup|]. destruct Hd as [Hd|[Hd|Hd]]; [congruence|done|].
  unfold tally_ok, tally_of in Ht, Hd. cbn [ta_repaired ta_retransmitted ta_received ta_rtx] in Ht, Hd. destruct Ht as (T1 & T2 & T3 & T4).
  pose proof (score_counts_ok (recv_HasRtx s) (expected_since s) _ _ _ T3 T1 T2 T4) as Hs.
  destruct (score_counts _ _ _ _ _) as [[lost repaired] retransmitted]. destruct Hs as (S1 & S2 & S3 & S4).
  destruct (interval_score_ok (u32 (packets (rv_media s) - sp_received (rv_prior s))) lost repaired retransmitted) as (sc & Esc & Hsc); [lia..|].
  eapply leads_known; [exact Esc|done|]. by apply Hup.
Qed.

Lemma ReceiveRtcpSenderReport_leads s report now : recv_inv s -> score_defined s ->
  leads (RtpStreamRecv.ReceiveRtcpSenderReport report now) (fun _ s' => tally_ok (tally_of s')) s.
Proof.
  intros [Hc Ht] Hd. unfold RtpStreamRecv.ReceiveRtcpSenderReport. set (r := receive_sr report now). set (ntp := (_, _)).
  eapply leads_bind; [apply (leads_modify _ (fun _ s' => s' = set_sr s r ntp)); try done; by apply core_set_sr|].
  intros [] s1 Hc1 _ ->. by apply recv_UpdateScore_leads.
Qed.

Lemma ReceiveRtxRtcpSenderReport_leads s report now : core s -> leads (ReceiveRtxRtcpSenderReport report now) (fun _ s' => keeps s s') s.
Proof.
  intros Hc. unfold ReceiveRtxRtcpSenderReport. apply leads_state; [done|]. destruct (recv_HasRtx s) eqn:Hr; [|by apply leads_skip].
  destruct (co_rtx s Hc Hr) as [x Ex]. apply (leads_known _ x); [by rewrite Ex|done|]. apply leads_modify; try done. by apply core_set_rtx.
Qed.

Lemma ReceiveRtcpXr_leads s info now : core s -> leads (ReceiveRtcpXrDelaySinceLastRr info now) (fun _ s' => keeps s s') s.
Proof.
  intros Hc. unfold ReceiveRtcpXrDelaySinceLastRr. destruct (TimeMs2Ntp now) as [seconds fractions]. cbn zeta.
  set (rtt := if _ && _ && _ then _ else 0). fold (rtt_ms rtt).
  assert (in_uint 32 rtt) as Hrtt by (unfold rtt; destruct (_ && _ && _); [by apply wrap_range|done]).
  destruct (rtt_ms_fits rtt Hrtt) as (v & Ev & Hv).
  eapply leads_bind; [apply (leads_modify _ (fun _ s' => keeps s s')); try done; by apply core_set_rtt|]. intros [] s1 Hc1 _ Hk.
  apply leads_state; [done|]. destruct (useNack s1) eqn:Hn; [|by apply leads_skip].
  destruct (generator_ok s1 Hc1 Hn) as (g & Eg & Hg). eapply leads_known; [exact Eg|done|]. eapply leads_known; [exact Ev|done|].
  apply leads_modify; try done. apply core_set_nack; [done|].
  destruct (nack_step_inv g (RttUpdated v) Hg) as (g' & calls & [= <- <-] & Hg' & _); [done|exact Hg'].
Qed.

(** * Activity *)

Lemma Stop_ok t : recv_timer_ok t -> exists t', Stop t = Ok t' /\ recv_timer_ok t' /\ Timer.IsActive t' = false.
Proof.
  intros (Hcl & Hr & _). destruct (Stop_open t Hcl) as (t' & E & Ha & Hcl'). exists t'. split; [done|]. split; [|done].
  split; [done|]. split; [|congruence]. unfold Stop in E. rewrite Hcl in E. destruct (uv_timer_stop _). ok_inv. done.
Qed.

Lemma Pause_leads s : core s -> leads RtpStreamRecv.Pause (fun _ s' => keeps s s') s.
Proof.
  intros Hc. unfold RtpStreamRecv.Pause. apply leads_state; [done|]. destruct (Stop_ok _ (co_timer s Hc)) as (t & Et & Ht & Ha).
  eapply leads_known; [exact Et|done|].
  eapply leads_bind; [apply (leads_modify _ (fun _ s' => keeps s s' /\ rv_nack s' = rv_nack s)); try done; by apply core_set_activity|].
  intros [] s1 Hc1 (_ & Hn1 & _) [Hk Ek]. destruct (useNack s) eqn:Hn; [|by apply leads_skip].
  destruct (generator_ok s Hc Hn) as (g & Eg & Hg). eapply leads_known; [exact Eg|done|].
  apply leads_modify; try done. apply core_set_nack; [done|].
  destruct (nack_step_inv g WasReset Hg) as (g' & calls & [= <- <-] & Hg' & _); [done|exact Hg'].
Qed.

Lemma Resume_leads s : core s -> leads Resume (fun _ s' => keeps s s') s.
Proof.
  intros Hc. unfold Resume. apply leads_state; [done|]. destruct (rv_inactive s) eqn:Ei; cbn [negb]; [by apply leads_skip|].
  destruct (Restart_ok _ (co_timer s Hc)) as (t & Et & Ht). eapply leads_known; [exact Et|done|].
  apply leads_modify; try done. apply core_set_activity; [exact Hc|exact Ht|by rewrite Ei].
Qed.

Lemma OnTimer_leads s now : core s -> Timer.IsActive (rv_timer s) = true -> leads (RtpStreamRecv.OnTimer now) (fun _ s' => tally_of s' = tally_of s) s.
Proof.
  intros Hc Ha. unfold RtpStreamRecv.OnTimer. destruct (co_timer s Hc) as (_ & _ & Ho). destruct (fired_one_shot _ (Ho Ha)) as (F1 & F2 & F3).
  eapply leads_bind.
  { apply (leads_modify _ (fun _ s' => tally_of s' = tally_of s)); try done. apply core_set_activity; [done| |done].
    split; [done|]. split; [done|]. by rewrite F1. }
  intros [] s1 Hc1 _ E. eapply leads_weaken; [by apply reset_score_leads|]. intros [] s2 (st & -> & Hst & _). rewrite <- E. by apply tally_set_stream.
Qed.

Lemma OnNackTimer_leads s now g : core s -> useNack s = true -> rv_nack s = Some g -> Timer.IsActive (ng_timer g) = true -> 0 < now < 2 ^ 64 ->
  leads (OnNackTimer now) (fun _ s' => keeps s s') s.
Proof.
  intros Hc Hn Eg Ha Hnow. unfold OnNackTimer. apply leads_state; [done|]. destruct (co_nack s Hc Hn) as (g0 & E0 & Hg). rewrite Eg in E0. injection E0 as <-.
  apply (leads_known _ g); [by unfold generator; rewrite Eg|done|].
  destruct (nack_step_inv g (TimerFired now) Hg) as (g' & calls & E & Hg' & Hcalls); [done|]. eapply leads_known; [exact E|done|].
  eapply leads_bind; [apply (leads_modify _ (fun _ s' => keeps s s')); try done; by apply core_set_nack|]. intros [] s1 Hc1 (_ & Hn1 & _) Hk.
  eapply leads_weaken; [apply nack_handlers_leads; [done|by rewrite Hn1|done]|]. intros [] s2 Hk2. by eapply keeps_trans.
Qed.

Lemma recv_SetRtx_leads s payloadType ssrc : recv_inv s -> leads (recv_SetRtx payloadType ssrc) (fun _ s' => tally_ok (tally_of s')) s.
Proof.
  intros [Hc Ht]. apply leads_modify; try done.
  - destruct Hc as [C1 C2 C3 C4 C5 C6 C7 C8 C9]. by split.
  - unfold tally_ok, tally_of in *. cbn in *. destruct Ht as (T1 & T2 & T3 & T4). intuition (lia || discriminate).
Qed.
End recv.

From Stdlib Require Import Floats.SpecFloat.
From S2P Require Import RtpStreamRecv.

Section frame.
Context {H : Type} `{UvTimer H}.
Implicit Types s : rtp_stream_recv H.

(** The parameters, and whether there is an RTX stream. *)
Definition pinned s s' : Prop :=
  RtpStream.par (rv_stream s') = RtpStream.par (rv_stream s) /\ recv_HasRtx s' = recv_HasRtx s /\ rv_par s' = rv_par s.

Lemma pinned_refl s : pinned s s.
Proof. done. Qed.

Lemma pinned_trans s s1 s2 : pinned s s1 -> pinned s1 s2 -> pinned s s2.
Proof. intros (E1 & E2 & E3) (F1 & F2 & F3). split_and!; congruence. Qed.

Lemma pinned_stream s st : same_counts (rv_stream s) st -> pinned s (set_stream s st).
Proof. intros (E1 & E2 & _). by split_and!. Qed.

Notation pins m := (forall s, may m (fun _ s' => pinned s s') s).

(** A call that pins, after others that did. *)
Lemma pins_call {A} (m : act (rtp_stream_recv H) recv_event A) s0 s (Q : A -> rtp_stream_recv H -> Prop) :
  pins m -> pinned s0 s -> (forall a s1, pinned s0 s1 -> Q a s1) -> may m Q s.
Proof. intros Hm Hs Hk. eapply may_weaken; [apply Hm|]. intros a s1 H1. apply Hk. by eapply pinned_trans. Qed.

Lemma emit_score_pins e : pins (emit_score e).
Proof. intros s. by destruct e as [[]|]; cbn; repeat may_step. Qed.

Lemma ResetScore_counts st x b now : same_counts st (ResetScore st x b now).1.
Proof. unfold ResetScore. by destruct (negb _). Qed.

Lemma UpdateScore_counts st x now : same_counts st (UpdateScore st x now).1.
Proof. unfold UpdateScore. destruct (score_loop _ _ _ _). by destruct (negb _). Qed.

Lemma reset_score_pins x now : pins (reset_score x now).
Proof.
  intros s. unfold reset_score. repeat may_step. pose proof (ResetScore_counts (rv_stream s) x true now) as Hs.
  destruct (ResetScore _ _ _ _) as [st e]. repeat may_step. eapply may_weaken; [apply emit_score_pins|]. intros [] s' Hp.
  eapply pinned_trans; [by apply pinned_stream|exact Hp].
Qed.

Lemma update_score_pins x now : pins (update_score x now).
Proof.
  intros s. unfold update_score. repeat may_step. pose proof (UpdateScore_counts (rv_stream s) x now) as Hs.
  destruct (UpdateScore _ _ _) as [st e]. repeat may_step. eapply may_weaken; [apply emit_score_pins|]. intros [] s' Hp.
  eapply pinned_trans; [by apply pinned_stream|exact Hp].
Qed.

Lemma RequestKeyFrame_pins : pins RequestKeyFrame.
Proof. intros s. unfold RequestKeyFrame. by repeat may_step. Qed.

Lemma NackRequired_pins l : pins (OnNackGeneratorNackRequired l).
Proof. intros s. unfold OnNackGeneratorNackRequired. by repeat may_step. Qed.

Lemma nack_handlers_pins l : pins (nack_handlers l).
Proof.
  induction l as [|c l IH]; intros s; cbn [nack_handlers]; [by repeat may_step|].
  may_step. apply (pins_call _ s); [|done|].
  - destruct c; [apply NackRequired_pins|apply RequestKeyFrame_pins].
  - intros a s1 Hs. by apply (pins_call _ s).
Qed.

Lemma nack_receive_pins p b now : pins (nack_receive p b now).
Proof.
  intros s. unfold nack_receive. repeat may_step. destruct a1 as [[g calls] found]. repeat may_step.
  eapply may_weaken; [apply nack_handlers_pins|]. intros [] s' Hs. by repeat may_step.
Qed.

Lemma CalculateJitter_pins t now : pins (CalculateJitter t now).
Proof. intros s. unfold CalculateJitter. by repeat may_step. Qed.

Lemma become_active_pins now : pins (become_active now).
Proof.
  intros s. unfold become_active. repeat may_step; [|done].
  apply (pins_call _ s); [apply reset_score_pins|done|]. intros [] s1 Hs. by repeat may_step.
Qed.

Lemma count_packet_pins p now : pins (count_packet p now).
Proof. intros s. unfold count_packet. by repeat may_step. Qed.

Lemma process_codec_pinned s s' p : pinned s s' -> process_codec s' p = process_codec s p.
Proof. intros (_ & _ & E). unfold process_codec. by rewrite E. Qed.

(** The packet that is given back: the one that came, or the one that was processed. *)
Definition media_back s (p : rtp_packet) (q : video_packet) : Prop := q = VideoPacket p None \/ process_codec s p = Ok q.

Lemma ReceivePacket_may now p s : may (RtpStreamRecv.ReceivePacket now p) (fun r s' => pinned s s' /\ media_back s p r.1) s.
Proof.
  unfold RtpStreamRecv.ReceivePacket. do 2 may_step. may_step. may_step. destruct a as [st ok].
  pose proof (receive_counts _ _ _ _ _ H1) as (Hst & _). may_step. may_step.
  assert (pinned s (set_stream s st)) as Hs by by apply pinned_stream.
  destruct ok; cbn [negb]; [|by repeat may_step; split; [|left]].
  assert (forall s1 a, pinned s s1 -> process_codec s p = Ok a -> may (timestamp ← lift (GetTimestamp (vp_packet a));
    _ ← CalculateJitter timestamp now; _ ← count_packet a now; s ← get;
    m ← lift (counter_Update (rv_media s) (GetSize (vp_packet a)) now); _ ← modify (fun s => set_counters s (rv_counter s) m);
    _ ← become_active now; mret (a, true)) (fun r s' => pinned s s' /\ media_back s p r.1) s1) as Htail.
  { intros s1 a Hs1 Ea. repeat may_step. apply (pins_call _ s); [apply CalculateJitter_pins|done|]. intros [] s2 Hs2. may_step.
    apply (pins_call _ s); [apply count_packet_pins|done|]. intros [] s3 Hs3. repeat may_step.
    apply (pins_call _ s); [apply become_active_pins|done|]. intros [] s4 Hs4. repeat may_step. split; [done|by right]. }
  may_step. may_step. may_step. may_step; [|may_step; by apply Htail]. may_step.
  apply (pins_call _ s); [apply nack_receive_pins|done|]. intros found s2 Hs2. may_step; [|may_step; by apply Htail].
  apply may_bind, may_modify, may_modify, Htail; [|done]. by apply (pinned_trans s s2).
Qed.

(** The RTX packet that is given back: decoded, and processed if it was expected. *)
Definition decoded_back s (p : rtp_packet) (r : video_packet * bool) : Prop :=
  r = (VideoPacket p None, false) \/
  exists d ok, RtxDecode p (rp_payloadType (rv_par s)) (RtpStreamRecv.GetSsrc s) = Ok (d, ok) /\
    (r = (VideoPacket d None, false) \/ ok = true /\ process_codec s d = Ok r.1).

Lemma ReceiveRtxPacket_may now p s : may (ReceiveRtxPacket now p) (fun r s' => pinned s s' /\ decoded_back s p r) s.
Proof.
  unfold ReceiveRtxPacket. apply may_bind, may_get.
  assert (forall s', pinned s s' -> may (mret (VideoPacket p None, false) : act (rtp_stream_recv H) recv_event _) (fun r s' => pinned s s' /\ decoded_back s p r) s') as Hno.
  { intros s' Hs. apply may_ret. split; [done|by left]. }
  destruct (useNack s); cbn [negb]; [|by apply Hno]. do 2 (apply may_bind, may_lift; intros ? _). apply may_bind, may_lift; intros pt _.
  destruct (negb _); [by apply Hno|]. apply may_bind.
  apply (pins_call _ s); [|done|].
  { intros s1. destruct (recv_HasRtx s); [|by repeat may_step]. repeat may_step. destruct a2. by repeat may_step. }
  intros go s1 Hs1. destruct go; cbn [negb]; [|by apply Hno]. apply may_match, may_lift. intros [d ok] Ed. cbn [fst snd].
  assert (forall s', pinned s s' -> may (mret (VideoPacket d None, false) : act (rtp_stream_recv H) recv_event _) (fun r s' => pinned s s' /\ decoded_back s p r) s') as Hdec.
  { intros s' Hs. apply may_ret. split; [done|right]. exists d, ok. split; [done|by left]. }
  destruct ok; cbn [negb]; [|by apply Hdec]. do 2 (apply may_bind, may_lift; intros ? _).
  pose proof (UpdateSeq_counts (rv_stream s) a1 a2 now) as (Hst & _). destruct (UpdateSeq _ _ _ _) as [st ok]. cbn [fst] in Hst.
  apply may_bind, may_modify. assert (pinned s (set_stream s1 st)) as Hs2.
  { destruct Hst as (E1 & E2 & _). destruct Hs1 as (_ & _ & E3). by split_and!. }
  destruct ok; cbn [negb]; [|by apply Hdec]. apply may_bind, may_lift. intros q Eq.
  assert (forall b, decoded_back s p (q, b)) as Hq by (intros b; right; exists d, true; split; [done|by right]).
  apply may_bind, may_modify. apply may_bind. apply (pins_call _ s); [apply nack_receive_pins|by apply (pinned_trans s (set_stream s1 st))|].
  intros found s3 Hs3. destruct found; cbn [negb]; [|by apply may_ret]. apply may_bind, may_modify. apply may_bind.
  apply (pins_call _ s); [apply count_packet_pins|by apply (pinned_trans s s3)|]. intros [] s4 Hs4. apply may_bind.
  apply (pins_call _ s); [apply become_active_pins|done|]. intros [] s5 Hs5. by apply may_ret.
Qed.

(** ** Reports, scores, timers *)

Lemma Pause_pins : pins Pause.
Proof. intros s. unfold Pause. by repeat may_step. Qed.

Lemma Resume_pins : pins Resume.
Proof. intros s. unfold Resume. by repeat may_step. Qed.

Lemma OnTimer_pins now : pins (RtpStreamRecv.OnTimer now).
Proof. intros s. unfold RtpStreamRecv.OnTimer. apply may_bind, may_modify. apply (pins_call _ s); [apply reset_score_pins|done|]. by intros [] s1. Qed.

Lemma OnNackTimer_pins now : pins (OnNackTimer now).
Proof.
  intros s. unfold OnNackTimer. repeat may_step. destruct a0. repeat may_step.
  apply (pins_call _ s); [apply nack_handlers_pins|done|]. by intros [] s1.
Qed.

Lemma ReceiverReport_pins now worst : pins (GetRtcpReceiverReport now worst).
Proof.
  intros s. unfold GetRtcpReceiverReport. repeat may_step. destruct (if _ <=? _ then _ else _) as [reported fractionLost].
  repeat may_step. destruct (sr_fields _ _). by repeat may_step.
Qed.

Lemma RtxReceiverReport_pins now : pins (GetRtxRtcpReceiverReport now).
Proof. intros s. unfold GetRtxRtcpReceiverReport. repeat may_step; [|done]. destruct a0. by repeat may_step. Qed.

Lemma SenderReport_pins `{PowFunction} report now : pins (ReceiveRtcpSenderReport report now).
Proof.
  intros s. unfold ReceiveRtcpSenderReport, recv_UpdateScore. repeat may_step; [done| |].
  - apply (pins_call _ s); [apply update_score_pins|done|]. by intros [] s1.
  - destruct (score_counts _ _ _ _ _) as [[lost repaired] retransmitted]. repeat may_step.
    apply (pins_call _ s); [apply update_score_pins|done|]. by intros [] s1.
Qed.

Lemma RtxSenderReport_pins report now : pins (ReceiveRtxRtcpSenderReport report now).
Proof. intros s. unfold ReceiveRtxRtcpSenderReport. by repeat may_step. Qed.

Lemma Xr_pins info now : pins (ReceiveRtcpXrDelaySinceLastRr info now).
Proof. intros s. unfold ReceiveRtcpXrDelaySinceLastRr. destruct (TimeMs2Ntp now). by repeat may_step. Qed.
End frame.
