(* ===== verification/RecvProps.v ===== *)
(** Theorems about [RtpStreamRecv]: runs, receiver reports, the score; and the
    streams as the consumers know them. *)

From Stdlib Require Import Floats.SpecFloat.
From S2P Require Export RecvSteps.
From S2P Require Import RtpStreamRecv.

(** * Runs *)

(** What happens to a stream: packets and reports arrive, reports are asked for,
    timers fire, the producer pauses and resumes. *)
Inductive recv_input : Type :=
| RtxAdded (payloadType ssrc : Z)
| MediaPacket (now : Z) (p : rtp_packet)
| RtxPacket (now : Z) (p : rtp_packet)
| ReportSent (now worst : Z)
| RtxReportSent (now : Z)
| SenderReportReceived (now : Z) (report : sender_report)
| RtxSenderReportReceived (now : Z) (report : sender_report)
| XrReceived (now : Z) (info : ssrc_info)
| KeyFrameNeeded
| WasPaused
| WasResumed
| InactivityTimerFired (now : Z)
| NackTimerFired (now : Z).

Section runs.
Context {H : Type} `{UvLaws H} `{PowLaws}.
Implicit Types s : rtp_stream_recv H.

Definition recv_step (i : recv_input) : act (rtp_stream_recv H) recv_event unit :=
  match i with
  | RtxAdded payloadType ssrc => recv_SetRtx payloadType ssrc
  | MediaPacket now p => _ ← ReceivePacket now p; skip
  | RtxPacket now p => _ ← ReceiveRtxPacket now p; skip
  | ReportSent now worst => _ ← GetRtcpReceiverReport now worst; skip
  | RtxReportSent now => _ ← GetRtxRtcpReceiverReport now; skip
  | SenderReportReceived now report => ReceiveRtcpSenderReport report now
  | RtxSenderReportReceived now report => ReceiveRtxRtcpSenderReport report now
  | XrReceived now info => ReceiveRtcpXrDelaySinceLastRr info now
  | KeyFrameNeeded => RequestKeyFrame
  | WasPaused => Pause
  | WasResumed => Resume
  | InactivityTimerFired now => OnTimer now
  | NackTimerFired now => OnNackTimer now
  end.

(** What may happen in a state.  That a difference is not the least [int], that the
    fraction lost fits into 8 bits, and that an interval in which packets were
    expected has one that was received, the code takes for granted. *)
Definition allowed s (i : recv_input) : Prop :=
  match i with
  | MediaPacket now p => media_allowed s now p
  | RtxPacket now p => rtx_allowed s now p
  | ReportSent _ _ => report_defined (rv_loss s) (GetExpectedPackets (rv_stream s)) (GetPacketCount (rv_media s))
  | RtxReportSent _ => rtx_report_defined s
  | SenderReportReceived _ _ => score_defined s
  | InactivityTimerFired _ => Timer.IsActive (rv_timer s) = true
  | NackTimerFired now => useNack s = true /\ 0 < now < 2 ^ 64 /\ exists g, rv_nack s = Some g /\ Timer.IsActive (ng_timer g) = true
  | _ => True
  end.

Inductive recv_reachable (p : params) (rp : recv_params) : rtp_stream_recv H -> Prop :=
| reach_new now s : new_RtpStreamRecv p rp now = Ok s -> recv_reachable p rp s
| reach_step s i s' es : recv_reachable p rp s -> allowed s i -> recv_step i s = Ok ((), s', es) -> recv_reachable p rp s'.

Lemma new_recv_inv p rp now : 0 < rp_spatialLayers rp < 256 -> 0 < rp_temporalLayers rp < 256 ->
  exists s, new_RtpStreamRecv p rp now = Ok s /\ recv_inv s.
Proof.
  intros HS HT. unfold new_RtpStreamRecv. destruct (Start_open (H := H) timer_new (if rp_useDtx rp then InactivityCheckIntervalWithDtx else InactivityCheckInterval) eq_refl)
    as (t & -> & Ha & Ho & _). ostep. eexists. split; [done|]. split.
  - split; cbn [rv_par rv_counter rv_media rv_timer rv_inactive rv_nack rv_stream rv_jitter]; try done.
    + destruct (new_counters (rp_spatialLayers rp) (rp_temporalLayers rp) (if rp_useDtx rp then 6000 else 2500) now) as [C1 C2]; [by destruct (rp_useDtx rp)|lia|lia|].
      split; [done|]. eapply Forall_impl; [exact C2|]. intros l [E Hl]. split; [done|]. eapply Forall_impl; [exact Hl|]. by intros d [].
    + by apply new_shape.
    + pose proof Ho as (? & ? & _). by split_and!.
    + unfold useNack. cbn. intros ->. exists new_NackGenerator. split; [done|]. apply nack_reachable_inv. constructor.
    + split; [constructor|]. split; [cbn; lia|done].
  - match goal with |- tally_ok (tally_of ?s) => assert (tally_of s = Tally 0 0 0 false) as -> by done end. unfold tally_ok. cbn. lia.
Qed.

Lemma step_leads s i : recv_inv s -> allowed s i -> leads (recv_step i) (fun _ s' => tally_ok (tally_of s')) s.
Proof.
  intros Hinv Hal. pose proof Hinv as [Hc Ht].
  assert (forall m : act (rtp_stream_recv H) recv_event unit, leads m (fun _ s' => RecvSteps.keeps s s') s -> leads m (fun _ s' => tally_ok (tally_of s')) s) as Hkeep.
  { intros m Hm. eapply leads_weaken; [exact Hm|]. intros [] s' [-> _]. exact Ht. }
  assert (forall A (m : act (rtp_stream_recv H) recv_event A), leads m (fun _ s' => tally_ok (tally_of s')) s ->
    leads (_ ← m; skip) (fun _ s' => tally_ok (tally_of s')) s) as Hskip.
  { intros A m Hm. eapply leads_bind; [exact Hm|]. intros a s1 Hc1 _ Ht1. by apply leads_skip. }
  destruct i; cbn [recv_step allowed] in *.
  - by apply recv_SetRtx_leads.
  - by apply Hskip, ReceivePacket_leads.
  - by apply Hskip, ReceiveRtxPacket_leads.
  - apply Hskip. eapply leads_weaken; [by apply GetRtcpReceiverReport_leads|]. by intros r s' [-> _].
  - apply Hskip. eapply leads_weaken; [by apply GetRtxRtcpReceiverReport_leads|]. by intros r s' [-> _].
  - by apply ReceiveRtcpSenderReport_leads.
  - by apply Hkeep, ReceiveRtxRtcpSenderReport_leads.
  - by apply Hkeep, ReceiveRtcpXr_leads.
  - by apply Hkeep, RequestKeyFrame_leads.
  - by apply Hkeep, Pause_leads.
  - by apply Hkeep, Resume_leads.
  - eapply leads_weaken; [by apply OnTimer_leads|]. by intros [] s' ->.
  - destruct Hal as (Hn & Hnow & g & Eg & Hg). by eapply Hkeep, OnNackTimer_leads.
Qed.

Lemma recv_reachable_inv p rp s : 0 < rp_spatialLayers rp < 256 -> 0 < rp_temporalLayers rp < 256 -> recv_reachable p rp s -> recv_inv s.
Proof.
  intros HS HT. induction 1 as [now s E|s i s' es Hs IH Hal E].
  - destruct (new_recv_inv p rp now HS HT) as (s1 & E1 & Hinv). congruence.
  - destruct (does_run _ _ _ _ _ _ (step_leads s i IH Hal) E) as [[Hc _ _ _] Ht]. by split.
Qed.

(** C6: a stream survives whatever arrives.  In a run in which reports and scores
    are defined, every packet, report, request and timer is handled: no read
    outside a buffer, no failed assertion - those of the NACK generator, of the
    timers, and that no more packets are repaired than were sent again - and no
    conversion of a floating point number that does not fit.  The scores told are
    linked and from 0 to 10, the packets to be sent are well-formed requests with
    the stream's SSRC, and a stream that is inactive does not wait for that. *)
Theorem recv_safe p rp s i : 0 < rp_spatialLayers rp < 256 -> 0 < rp_temporalLayers rp < 256 ->
  recv_reachable p rp s -> allowed s i ->
  exists s' es, recv_step i s = Ok ((), s', es) /\
    told (score (rv_stream s)) es = Some (score (rv_stream s')) /\ 0 <= score (rv_stream s') <= 10 /\
    Forall (asks (GetSsrc s)) es /\
    ta_repaired (tally_of s') <= ta_retransmitted (tally_of s') /\
    (rv_inactive s' = true -> Timer.IsActive (rv_timer s') = false).
Proof.
  intros HS HT Hs Hal. destruct (step_leads s i (recv_reachable_inv p rp s HS HT Hs) Hal) as ([] & s' & es & E & [Hc Htold Hask _] & Ht).
  exists s', es. split; [done|]. split; [done|]. split; [apply (co_score s' Hc)|]. split; [done|]. split; [apply Ht|apply (co_inactive s' Hc)].
Qed.

(** ** Receiver reports *)

(** A delay in 65536ths of a second: the seconds and the rest do not overlap. *)
Lemma delay_units d : 0 <= d < 65536000 ->
  Z.lor (u32 (Z.shiftl (d / 1000) 16)) (u32 (d `mod` 1000 * 65536) / 1000) = d * 65536 / 1000.
Proof.
  intros Hd. pose proof (Z.div_mod d 1000 ltac:(lia)) as Edm. pose proof (Z.mod_pos_bound d 1000 ltac:(lia)) as Hm.
  assert (0 <= d / 1000 < 65536) as Hq by (split; [apply Z.div_pos; lia|apply Z.div_lt_upper_bound; lia]).
  rewrite !(wrap_small 32) by (rewrite ?Z.shiftl_mul_pow2 by lia; unfold in_uint; lia).
  set (q := d / 1000) in *. set (r := d `mod` 1000) in *.
  assert (0 <= r * 65536 / 1000 < 65536) as Hr by (split; [apply Z.div_pos; lia|apply Z.div_lt_upper_bound; lia]).
  assert (d * 65536 / 1000 = q * 65536 + r * 65536 / 1000) as ->.
  { rewrite Edm. replace ((1000 * q + r) * 65536) with (r * 65536 + (q * 65536) * 1000) by lia. rewrite Z.div_add by lia. lia. }
  rewrite Z.lor_comm. apply (lor_shiftl_add 16); [lia|]. unfold in_uint. lia.
Qed.

(** C25: what a report tells the sender.  Without in band FEC: the part of the packets
    expected since the last report that did not come, in 256ths, rounded; the
    packets lost in all; the highest number with its wrap-arounds; the jitter; and
    the time since the last sender report in 65536ths of a second.  The counts are
    kept for the next report, and nothing else changes. *)
Theorem receiver_report s now worst :
  let expected := GetExpectedPackets (rv_stream s) in
  let received := GetPacketCount (rv_media s) in
  let lost := if received <? expected then u32 (expected - received) else 0 in
  let fraction := fraction_of (u32 (expected - expectedPrior (rv_loss s))) (u32 (received - receivedPrior (rv_loss s))) in
  let since := now - lastSrReceived (rv_sr s) in
  rp_useInBandFec (rv_par s) = false -> report_defined (rv_loss s) expected received ->
  reportedPacketLost (rv_loss s) = ls_packetsLost (rv_loss s) -> (lastSrReceived (rv_sr s) <> 0 -> 0 <= since < 65536000) ->
  GetRtcpReceiverReport now worst s
  = Ok (ReceiverReport (GetSsrc s) fraction (SetTotalLost (swrap 32 lost)) (u32 (maxSeq (rv_stream s) + cycles (rv_stream s))) (rv_jitter s)
          (if lastSrReceived (rv_sr s) =? 0 then 0 else lastSrTimestamp (rv_sr s))
          (if lastSrReceived (rv_sr s) =? 0 then 0 else since * 65536 / 1000),
        set_loss s (LossState expected (u32 received) lost fraction lost), []).
Proof.
  cbn zeta. intros Hfec Hd Hrep Hsr. apply does_exactly. unfold GetRtcpReceiverReport. repeat does_step. rewrite Hfec.
  pose proof (fraction_known _ _ _ Hd) as E. destruct (fraction_lost_ok _ _ (wrap_range 32 _ ltac:(lia)) Hd) as [_ Hf].
  does_by E. unfold expected_interval, received_interval in *. set (f := fraction_of _ _) in *. unfold in_uint in Hf.
  rewrite (proj2 (Z.leb_le 0 f)) by lia. repeat does_step.
  unfold update_lost. cbn [ls_packetsLost reportedPacketLost ls_fractionLost]. rewrite Hrep, wrap_add_r.
  set (lost := if _ <? _ then _ else _). replace (ls_packetsLost (rv_loss s) + _) with lost by lia.
  rewrite (wrap_small 32 lost) by (unfold lost; destruct (_ <? _); [by apply wrap_range|done]).
  unfold sr_fields. destruct (Z.eqb_spec (lastSrReceived (rv_sr s)) 0) as [E0|E0]; repeat does_step; [done|].
  specialize (Hsr E0). rewrite (wrap_small 32 (now - _)) by (unfold in_uint; lia). by rewrite delay_units.
Qed.

(** ** The score when nothing was received *)

(** An interval in which packets were expected and none came has no score: the
    quotient of the repaired packets by those received is not a number, and what
    it is converted to is not defined.  Such an interval does occur: packets of
    the RTX stream move the highest number, but are not counted as received. *)
Theorem score_undefined s now : pow4 S754_nan = S754_nan -> tally_ok (tally_of s) -> rv_inactive s = false ->
  expected_since s <> 0 -> ta_received (tally_of s) = 0 -> recv_UpdateScore now s = Err OutOfBounds.
Proof.
  intros Hnan (T1 & T2 & T3 & T4) Hin He Hr. unfold tally_of in *. cbn [ta_repaired ta_retransmitted ta_received ta_rtx] in *.
  unfold recv_UpdateScore. rewrite act_get_bind. cbn beta zeta. fold (expected_since s). unfold GetPacketCount in *.
  rewrite act_modify_bind, Hr, Hin, (proj2 (Z.eqb_neq _ 0) He).
  set (a := u32 (packetsRepaired _ - _)) in *. set (b := u32 (packetsRetransmitted _ - _)) in *.
  pose proof (score_counts_ok (recv_HasRtx s) (expected_since s) 0 a b ltac:(lia) T1 T2 ltac:(intros Hx; specialize (T4 Hx); lia)) as Hs.
  destruct (score_counts _ _ _ _ _) as [[lost repaired] retransmitted]. destruct Hs as (S1 & S2 & S3 & S4).
  assert (lost = 0) as -> by lia. assert (repaired = 0) as -> by lia. apply act_lift_Err. unfold interval_score.
  rewrite (proj2 (Z.leb_le 0 retransmitted)) by lia.
  change (SFdiv 24 128 (float_of_Z 0) (float_of_Z 0)) with S754_nan.
  change (float_to_double (SFdiv 24 128 (float_of_Z 1) (SFadd 24 128 S754_nan (float_of_Z 1)))) with S754_nan. rewrite Hnan.
  by destruct (0 <? retransmitted).
Qed.
End runs.

(** * The streams of a producer

    What a consumer asks of a stream whose counters can tell a rate. *)

Section producer.
Context {H : Type} `{UvTimer H}.

Definition ready (s : rtp_stream_recv H) : Prop :=
  in_uint 8 (score (rv_stream s)) /\ counters counter_tame (rp_spatialLayers (rv_par s)) (rp_temporalLayers (rv_par s)) (rv_counter s).

Definition ready_stream : Type := { s : rtp_stream_recv H | ready s }.

(** [RtpStream::GetActiveMs]. *)
Definition active_ms (s : rtp_stream_recv H) (now : Z) : Z := u64 (now - activeSinceMs (rv_stream s)).

Definition bitrate_of (s : rtp_stream_recv H) (now : Z) : Z :=
  match tc_GetBitrate (rv_counter s) now with Ok (_, b) => b | Err _ => 0 end.

#[export] Instance recv_producer : ProducerStream ready_stream := {
  GetScore s := score (rv_stream (`s));
  GetActiveMs s now := active_ms (`s) now;
  GetSenderReportNtpMs s := (rv_ntp (`s)).1;
  GetSenderReportTs s := (rv_ntp (`s)).2;
  GetSpatialLayers s := rp_spatialLayers (rv_par (`s));
  GetTemporalLayers s := rp_temporalLayers (rv_par (`s));
  GetBitrate s now := bitrate_of (`s) now;
  GetSpatialLayerBitrate s now l := '(_, b) ← tc_GetSpatialLayerBitrate (rv_counter (`s)) now l; Ok b;
  GetLayerBitrate s now l t := '(_, b) ← tc_GetLayerBitrate (rv_counter (`s)) now l t; Ok b
}.

#[export] Instance recv_producer_laws : ProducerStreamLaws ready_stream.
Proof.
  split.
  - intros [s Hs]. apply Hs.
  - intros [s Hr] now. pose proof Hr as [_ Hs]. cbn. unfold bitrate_of. by destruct (tc_GetBitrate_ok _ _ _ now Hs) as (c & b & -> & _ & Hb).
  - intros [s Hr] now l Hl. pose proof Hr as [_ Hs]. cbn in *. destruct (tc_GetSpatialLayerBitrate_ok _ _ _ now l Hs Hl) as (c & b & -> & _ & Hb). by exists b.
  - intros [s Hr] now l t Hl Ht. pose proof Hr as [_ Hs]. cbn in *. destruct (tc_GetLayerBitrate_ok _ _ _ now l t Hs Hl Ht) as (c & b & -> & _ & Hb). by exists b.
Qed.
End producer.

(** * Concrete runs *)

(** The retransmission of the packet after [vp8_packet]. *)
Definition rtx_data : list Z :=
  [128; 97; 0; 1; 0; 0; 0; 200; 0; 0; 7; 208; 0; 11; 144; 224; 6; 7; 32; 0; 1; 2] ++ replicate 20 0.

Definition rtx_packet : rtp_packet := RtpPacket rtx_data None None ∅ ∅ no_ids 12 10 0 22.

Lemma rtx_packet_arrived : arrived rtx_packet.
Proof.
  assert (bytes rtx_data) as Hb by (apply (bool_decide_unpack _); vm_compute; exact I).
  assert (Parse rtx_data 22 = Ok rtx_packet) as E by (vm_compute; reflexivity).
  pose proof (Parse_cases rtx_data 22 Hb) as Hc. rewrite E in Hc.
  destruct Hc as (Hwf & Hmaps & _); [by vm_compute|]. by split_and!.
Qed.

Definition video_params : recv_params := RecvParams 96 (Some VP8) true false false false 1 1.

Definition recv_blank : rtp_stream_recv (option (Z * Z)) :=
  RtpStreamRecv (new_RtpStream sample_params 10 1000) video_params None new_loss_state (SrState 0 0) (0, 0) (ScorePriors 0 0 0 0) 0 0
    (S754_zero false, false) (RequestCounts 0 0 0 0 0) None timer_new false [] (new_RtpDataCounter 2500 1000).

Definition or_blank (m : outcome (rtp_stream_recv (option (Z * Z)))) : rtp_stream_recv (option (Z * Z)) :=
  match m with Ok s => s | Err _ => recv_blank end.

Definition next (i : recv_input) (s : rtp_stream_recv (option (Z * Z))) : rtp_stream_recv (option (Z * Z)) :=
  or_blank ('(_, s, _) ← recv_step i s; Ok s).

Definition sample_recv0 : rtp_stream_recv (option (Z * Z)) := or_blank (new_RtpStreamRecv sample_params video_params 5000).
Definition sample_recv1 : rtp_stream_recv (option (Z * Z)) := next (MediaPacket 6000 vp8_packet) (next (RtxAdded 97 2000) sample_recv0).
Definition sample_recv2 : rtp_stream_recv (option (Z * Z)) := next (RtxPacket 6100 rtx_packet) sample_recv1.

Lemma reach_next p rp s i : recv_reachable p rp s -> allowed s i ->
  match recv_step i s with Ok (_, _, _) => true | Err _ => false end = true -> recv_reachable p rp (next i s).
Proof.
  intros Hs Hal. unfold next. destruct (recv_step i s) as [[[[] s'] es]|e] eqn:E; [|done]. intros _. ostep. by eapply reach_step.
Qed.

Lemma sample_recv1_reachable : recv_reachable sample_params video_params sample_recv1.
Proof.
  apply reach_next; [apply reach_next; [apply (reach_new _ _ 5000); vm_compute; reflexivity|exact I|vm_compute; reflexivity]| |vm_compute; reflexivity].
  split; [apply vp8_packet_arrived|]. split; [lia|]. split.
  - intros ts E. right. vm_compute in E. injection E as <-. vm_compute. discriminate.
  - split; vm_compute; reflexivity.
Qed.

Lemma recv_safe_witness :
  exists s' es, recv_step (RtxPacket 6100 rtx_packet) sample_recv1 = Ok ((), s', es) /\ 0 <= score (rv_stream s') <= 10.
Proof.
  destruct (recv_safe sample_params video_params sample_recv1 (RtxPacket 6100 rtx_packet)) as (s' & es & E & _ & Hs & _).
  - split; reflexivity.
  - split; reflexivity.
  - exact sample_recv1_reachable.
  - split; [exact rtx_packet_arrived|]. split; [lia|]. split; [split; vm_compute; reflexivity|]. split; vm_compute; reflexivity.
  - exists s', es. split; [exact E|exact Hs].
Defined.

(** Two packets were expected and one came: a half is lost. *)
Lemma receiver_report_witness :
  exists s', GetRtcpReceiverReport 7000 0 sample_recv2 = Ok (ReceiverReport 1000 128 1 11 (rv_jitter sample_recv2) 0 0, s', []) /\
    rv_loss s' = LossState 2 1 1 128 1.
Proof.
  pose proof (receiver_report sample_recv2 7000 0) as R. cbn zeta in R. eexists. split.
  - rewrite R; [vm_compute; reflexivity|vm_compute; reflexivity| |vm_compute; reflexivity|intros E; vm_compute in E; contradiction].
    right. right. split; vm_compute; reflexivity.
  - vm_compute. reflexivity.
Defined.

(** After a sender report, only a packet of the RTX stream comes. *)
Definition sample_recv3 : rtp_stream_recv (option (Z * Z)) :=
  next (RtxPacket 6200 rtx_packet) (next (SenderReportReceived 6100 (SenderReport 1000 1 2 3 4 5)) sample_recv1).

Lemma score_undefined_witness :
  recv_reachable sample_params video_params sample_recv3 /\ recv_UpdateScore 7000 sample_recv3 = Err OutOfBounds.
Proof.
  split.
  - apply reach_next; [apply reach_next; [exact sample_recv1_reachable|right; right; vm_compute; reflexivity|vm_compute; reflexivity]| |vm_compute; reflexivity].
    split; [exact rtx_packet_arrived|]. split; [lia|]. split; [split; vm_compute; reflexivity|]. split; vm_compute; reflexivity.
  - apply score_undefined.
    + reflexivity.
    + repeat split; vm_compute; (reflexivity || discriminate || (intros E; discriminate E)).
    + vm_compute. reflexivity.
    + vm_compute. discriminate.
    + vm_compute. reflexivity.
Defined.
