(* ===== verification/RtpListener.v ===== *)
(** [RTC::RtpListener] (worker/src/RTC/RtpListener.cpp): which producer a
    received RTP packet is for.

    A pointer to a producer is an address; MIDs and RIDs are the bytes that a
    packet carries. *)

From S2P Require Export RtpPacketFacts.

Abbreviation addr := nat.

(** What the listener reads of the parameters of a producer; 0 is no SSRC. *)
Record encoding : Type := Encoding {
  enc_ssrc : Z;
  enc_rtx_ssrc : Z;
  enc_rid : list Z
}.

Record rtp_parameters : Type := RtpParameters {
  rp_mid : list Z;
  rp_encodings : list encoding
}.

Record rtp_listener : Type := RtpListener {
  ssrcTable : gmap Z addr;
  midTable : gmap (list Z) addr;
  ridTable : gmap (list Z) addr
}.

Definition new_RtpListener : rtp_listener := RtpListener ∅ ∅ ∅.

(** Every entry of the three tables that points to the producer. *)
Definition RemoveProducer (l : rtp_listener) (producer : addr) : rtp_listener :=
  RtpListener (filter (fun kv => kv.2 <> producer) (ssrcTable l))
    (filter (fun kv => kv.2 <> producer) (midTable l))
    (filter (fun kv => kv.2 <> producer) (ridTable l)).

(** One SSRC of an encoding; [None] when it is taken. *)
Definition add_ssrc (l : rtp_listener) (producer : addr) (ssrc : Z) : option rtp_listener :=
  if truthy ssrc then
    match ssrcTable l !! ssrc with
    | None => Some (RtpListener (<[ssrc := producer]> (ssrcTable l)) (midTable l) (ridTable l))
    | Some _ => None
    end
  else Some l.

(** The loops stop at the first SSRC, or RID, that is taken, with the tables as
    they are then. *)
Fixpoint add_encodings (l : rtp_listener) (producer : addr) (encodings : list encoding)
  : rtp_listener * bool :=
  match encodings with
  | [] => (l, true)
  | e :: encodings =>
      match add_ssrc l producer (enc_ssrc e) with
      | None => (l, false)
      | Some l =>
          match add_ssrc l producer (enc_rtx_ssrc e) with
          | None => (l, false)
          | Some l => add_encodings l producer encodings
          end
      end
  end.

Definition add_mid (l : rtp_listener) (producer : addr) (mid : list Z) : option rtp_listener :=
  match mid with
  | [] => Some l
  | _ =>
      match midTable l !! mid with
      | None => Some (RtpListener (ssrcTable l) (<[mid := producer]> (midTable l)) (ridTable l))
      | Some _ => None
      end
  end.

Fixpoint add_rids (l : rtp_listener) (producer : addr) (has_mid : bool) (encodings : list encoding)
  : rtp_listener * bool :=
  match encodings with
  | [] => (l, true)
  | e :: encodings =>
      match enc_rid e with
      | [] => add_rids l producer has_mid encodings
      | rid =>
          match ridTable l !! rid with
          | None =>
              add_rids (RtpListener (ssrcTable l) (midTable l) (<[rid := producer]> (ridTable l)))
                producer has_mid encodings
          | Some _ =>
              if has_mid then add_rids l producer has_mid encodings else (l, false)
          end
      end
  end.

Definition empty (l : list Z) : bool := match l with [] => true | _ => false end.

(** The tables, and whether it returned; otherwise it threw. *)
Definition AddProducer (l : rtp_listener) (producer : addr) (rtpParameters : rtp_parameters)
  : rtp_listener * bool :=
  let '(l, ok) := add_encodings l producer (rp_encodings rtpParameters) in
  if negb ok then (RemoveProducer l producer, false)
  else
    match add_mid l producer (rp_mid rtpParameters) with
    | None => (RemoveProducer l producer, false)
    | Some l =>
        let '(l, ok) := add_rids l producer (negb (empty (rp_mid rtpParameters))) (rp_encodings rtpParameters) in
        if negb ok then (RemoveProducer l producer, false) else (l, true)
    end.

Definition learn_ssrc (l : rtp_listener) (ssrc : Z) (producer : addr) : rtp_listener :=
  RtpListener (<[ssrc := producer]> (ssrcTable l)) (midTable l) (ridTable l).

(** The producer of a value that the packet may carry. *)
Definition find_value (table : gmap (list Z) addr) (value : option (list Z)) : option addr :=
  v ← value; table !! v.

(** [GetProducer] of a packet. *)
Definition GetProducer (l : rtp_listener) (p : rtp_packet) : outcome (rtp_listener * option addr) :=
  ssrc ← GetSsrc p;
  match ssrcTable l !! ssrc with
  | Some producer => Ok (l, Some producer)
  | None =>
      mid ← ReadMid p;
      match find_value (midTable l) mid with
      | Some producer => Ok (learn_ssrc l ssrc producer, Some producer)
      | None =>
          rid ← ReadRid p;
          match find_value (ridTable l) rid with
          | Some producer => Ok (learn_ssrc l ssrc producer, Some producer)
          | None => Ok (l, None)
          end
      end
  end.

(** [GetProducer] of an SSRC. *)
Definition GetProducerBySsrc (l : rtp_listener) (ssrc : Z) : option addr := ssrcTable l !! ssrc.

(** * The producers of the tables *)

Definition pointed (l : rtp_listener) (a : addr) : Prop :=
  (exists k, ssrcTable l !! k = Some a) \/ (exists k, midTable l !! k = Some a) \/
  (exists k, ridTable l !! k = Some a).

(** The entries of the others, and what is not pointed to by anyone. *)
Definition same_but (a : addr) (l l' : rtp_listener) : Prop :=
  (forall k b, b <> a -> ssrcTable l' !! k = Some b <-> ssrcTable l !! k = Some b) /\
  (forall k b, b <> a -> midTable l' !! k = Some b <-> midTable l !! k = Some b) /\
  (forall k b, b <> a -> ridTable l' !! k = Some b <-> ridTable l !! k = Some b).

Section table.
Context `{Countable K}.
Implicit Types m : gmap K addr.

Lemma filter_lookup m a k b : filter (fun kv : K * addr => kv.2 <> a) m !! k = Some b <-> m !! k = Some b /\ b <> a.
Proof. apply map_lookup_filter_Some. Qed.

Lemma insert_new_lookup m k k' a b : m !! k = None -> b <> a -> <[k := a]> m !! k' = Some b <-> m !! k' = Some b.
Proof.
  intros Hn Hb. destruct (decide (k' = k)) as [->|Hk].
  - rewrite lookup_insert_eq. split; congruence.
  - by rewrite lookup_insert_ne.
Qed.

Lemma filter_absent m a : (forall k, m !! k <> Some a) -> filter (fun kv : K * addr => kv.2 <> a) m = m.
Proof.
  intros Hn. apply map_eq. intros k. apply option_eq. intros b. rewrite filter_lookup.
  split; [tauto|]. intros E. split; [done|]. intros ->. by apply (Hn k).
Qed.
End table.

Lemma same_but_refl a l : same_but a l l.
Proof. by split_and!. Qed.

Lemma same_but_trans a l1 l2 l3 : same_but a l1 l2 -> same_but a l2 l3 -> same_but a l1 l3.
Proof.
  intros (A1 & A2 & A3) (B1 & B2 & B3). split; [|split]; intros k b Hb;
    [rewrite (B1 k b Hb)|rewrite (B2 k b Hb)|rewrite (B3 k b Hb)]; auto.
Qed.

Lemma RemoveProducer_same l a : same_but a l (RemoveProducer l a).
Proof. split; [|split]; intros k b Hb; cbn; rewrite filter_lookup; tauto. Qed.

Lemma RemoveProducer_gone l a : ~ pointed (RemoveProducer l a) a.
Proof. intros [[k E]|[[k E]|[k E]]]; cbn in E; by apply filter_lookup in E as [_ ?]. Qed.

Lemma pointed_same a b l l' : same_but a l l' -> b <> a -> pointed l' b <-> pointed l b.
Proof.
  intros (A1 & A2 & A3) Hb. unfold pointed.
  split; (intros [[k E]|[[k E]|[k E]]]; [left|right; left|right; right]; exists k);
    by (apply A1 + apply A2 + apply A3).
Qed.

(** Back to the tables without the producer. *)
Lemma RemoveProducer_restores a l l' : ~ pointed l a -> same_but a l l' -> RemoveProducer l' a = l.
Proof.
  intros Hn (A1 & A2 & A3). destruct l as [s m r]. unfold RemoveProducer. cbn in *.
  f_equal; apply map_eq; intros k; apply option_eq; intros b; rewrite filter_lookup.
  - split; [intros [E Hb]; by apply A1|]. intros E. split; [|intros ->; apply Hn; left; by exists k].
    apply A1; [|done]. intros ->. apply Hn. left. by exists k.
  - split; [intros [E Hb]; by apply A2|]. intros E. split; [|intros ->; apply Hn; right; left; by exists k].
    apply A2; [|done]. intros ->. apply Hn. right. left. by exists k.
  - split; [intros [E Hb]; by apply A3|]. intros E. split; [|intros ->; apply Hn; right; right; by exists k].
    apply A3; [|done]. intros ->. apply Hn. right. right. by exists k.
Qed.

(** * Adding a producer *)

Section add.
Context (a : addr).
Implicit Types l : rtp_listener.

Lemma add_ssrc_spec l ssrc l' : add_ssrc l a ssrc = Some l' ->
  same_but a l l' /\ (ssrc <> 0 -> ssrcTable l' !! ssrc = Some a) /\
  (forall k, ssrcTable l !! k = Some a -> ssrcTable l' !! k = Some a) /\
  midTable l' = midTable l /\ ridTable l' = ridTable l.
Proof.
  unfold add_ssrc, truthy. destruct (Z.eqb_spec ssrc 0) as [->|]; cbn [negb].
  { intros [= <-]. split; [apply same_but_refl|]. by split. }
  destruct (ssrcTable l !! ssrc) eqn:E; [done|]. intros [= <-]. cbn. split.
  { split; [|by split]. intros k b Hb. by apply insert_new_lookup. }
  split; [by rewrite lookup_insert_eq|]. split; [|done].
  intros k Hk. destruct (decide (k = ssrc)) as [->|]; [congruence|by rewrite lookup_insert_ne].
Qed.

(** The SSRCs of the encodings go to [a]. *)
Definition owns_ssrcs l (es : list encoding) : Prop :=
  Forall (fun e => (enc_ssrc e <> 0 -> ssrcTable l !! enc_ssrc e = Some a) /\
                   (enc_rtx_ssrc e <> 0 -> ssrcTable l !! enc_rtx_ssrc e = Some a)) es.

Lemma add_encodings_spec es : forall l, exists l' ok, add_encodings l a es = (l', ok) /\
  same_but a l l' /\ (ok = true -> owns_ssrcs l' es) /\
  (forall k, ssrcTable l !! k = Some a -> ssrcTable l' !! k = Some a) /\
  midTable l' = midTable l /\ ridTable l' = ridTable l.
Proof.
  induction es as [|e es IH]; intros l; cbn [add_encodings].
  { exists l, true. split; [done|]. split; [apply same_but_refl|]. split; [by constructor|]. by split. }
  destruct (add_ssrc l a (enc_ssrc e)) as [l1|] eqn:E1.
  2: { exists l, false. split; [done|]. split; [apply same_but_refl|]. by split. }
  apply add_ssrc_spec in E1 as (S1 & O1 & K1 & M1 & R1).
  destruct (add_ssrc l1 a (enc_rtx_ssrc e)) as [l2|] eqn:E2.
  2: { exists l1, false. split; [done|]. split; [done|]. by split. }
  apply add_ssrc_spec in E2 as (S2 & O2 & K2 & M2 & R2).
  destruct (IH l2) as (l' & ok & E & S & O & K & M & R). exists l', ok. split; [done|].
  split; [apply (same_but_trans a l l1); [done|]; by apply (same_but_trans a l1 l2)|]. split; [|split; [by auto|split; congruence]].
  intros Hok. constructor; [|by apply O]. split; intros Hs; apply K; [apply K2|]; auto.
Qed.

Lemma add_mid_spec l mid l' : add_mid l a mid = Some l' ->
  same_but a l l' /\ (mid <> [] -> midTable l' !! mid = Some a) /\
  ssrcTable l' = ssrcTable l /\ ridTable l' = ridTable l.
Proof.
  unfold add_mid. destruct mid as [|x mid].
  { intros [= <-]. split; [apply same_but_refl|]. by split. }
  destruct (midTable l !! (x :: mid)) eqn:E; [done|]. intros [= <-]. cbn. split.
  { split; [done|]. split; [|done]. intros k b Hb. by apply insert_new_lookup. }
  split; [by rewrite lookup_insert_eq|done].
Qed.

(** Each RID is known: to [a], unless somebody else had it. *)
Definition knows_rids l0 l (es : list encoding) : Prop :=
  Forall (fun e => enc_rid e <> [] -> match ridTable l0 !! enc_rid e with
                                      | Some b => ridTable l !! enc_rid e = Some b
                                      | None => ridTable l !! enc_rid e = Some a
                                      end) es.

Lemma add_rids_spec has_mid es : forall l, exists l' ok, add_rids l a has_mid es = (l', ok) /\
  same_but a l l' /\ (ok = true -> knows_rids l l' es) /\
  (forall k b, ridTable l !! k = Some b -> ridTable l' !! k = Some b) /\
  ssrcTable l' = ssrcTable l /\ midTable l' = midTable l.
Proof.
  induction es as [|e es IH]; intros l; cbn [add_rids].
  { exists l, true. split; [done|]. split; [apply same_but_refl|]. split; [by constructor|]. by split. }
  assert (Hskip : forall l', knows_rids l l' es -> (enc_rid e <> [] -> match ridTable l !! enc_rid e with
      Some b => ridTable l' !! enc_rid e = Some b | None => ridTable l' !! enc_rid e = Some a end) ->
      knows_rids l l' (e :: es)) by (intros; by constructor).
  destruct (enc_rid e) as [|x rid] eqn:Er.
  { destruct (IH l) as (l' & ok & E & S & O & K & M). exists l', ok. split; [done|]. split; [done|].
    split; [|done]. intros Hok. by apply Hskip; [apply O|]. }
  set (r := x :: rid) in *. destruct (ridTable l !! r) as [b|] eqn:E1.
  { destruct has_mid; [|exists l, false; split; [done|]; split; [apply same_but_refl|by split]].
    destruct (IH l) as (l' & ok & E & S & O & K & M). exists l', ok. split; [done|]. split; [done|].
    split; [|done]. intros Hok. apply Hskip; [by apply O|]. intros _. by apply K. }
  set (l1 := RtpListener (ssrcTable l) (midTable l) (<[r := a]> (ridTable l))).
  destruct (IH l1) as (l' & ok & E & S & O & K & M). exists l', ok. split; [done|].
  assert (same_but a l l1) as S1.
  { split; [done|]. split; [done|]. intros k b Hb. by apply insert_new_lookup. }
  assert (ridTable l' !! r = Some a) as Hr by (apply K; cbn; by rewrite lookup_insert_eq).
  split; [by apply (same_but_trans a l l1)|]. split; [|split; [|done]].
  - intros Hok. apply Hskip; [|done]. specialize (O Hok). unfold knows_rids in *. clear -O Hr E1.
    induction O as [|e' es Hd _ IHes]; constructor; [|done]. intros Hne. specialize (Hd Hne). cbn in Hd.
    destruct (decide (enc_rid e' = r)) as [Er|Hn].
    + rewrite Er, E1. done.
    + by rewrite lookup_insert_ne in Hd.
  - intros k b Hk. apply K. cbn. destruct (decide (k = r)) as [->|]; [congruence|by rewrite lookup_insert_ne].
Qed.

(** Either the producer is in the tables, or they are as before. *)
Lemma AddProducer_spec l par : ~ pointed l a -> exists l' ok, AddProducer l a par = (l', ok) /\
  same_but a l l' /\
  if ok then owns_ssrcs l' (rp_encodings par) /\
             (rp_mid par <> [] -> midTable l' !! rp_mid par = Some a) /\ knows_rids l l' (rp_encodings par)
  else l' = l.
Proof.
  intros Hn. unfold AddProducer.
  destruct (add_encodings_spec (rp_encodings par) l) as (l1 & ok1 & -> & S1 & O1 & _ & M1 & R1).
  destruct ok1; cbn [negb].
  2: { eexists _, false. split; [done|]. split; [apply (same_but_trans a l l1); [done|apply RemoveProducer_same]|].
       by apply RemoveProducer_restores. }
  destruct (add_mid l1 a (rp_mid par)) as [l2|] eqn:E2.
  2: { eexists _, false. split; [done|]. split; [apply (same_but_trans a l l1); [done|apply RemoveProducer_same]|].
       by apply RemoveProducer_restores. }
  apply add_mid_spec in E2 as (S2 & O2 & T2 & R2).
  destruct (add_rids_spec (negb (empty (rp_mid par))) (rp_encodings par) l2)
    as (l3 & ok3 & -> & S3 & O3 & K3 & T3 & M3).
  assert (same_but a l l3) as S by (apply (same_but_trans a l l1); [done|]; by apply (same_but_trans a l1 l2)).
  destruct ok3; cbn [negb].
  2: { eexists _, false. split; [done|]. split; [apply (same_but_trans a l l3); [done|apply RemoveProducer_same]|].
       by apply RemoveProducer_restores. }
  exists l3, true. split; [done|]. split; [done|]. specialize (O1 eq_refl). specialize (O3 eq_refl).
  split; [|split].
  - unfold owns_ssrcs in *. by rewrite T3, T2.
  - rewrite M3. done.
  - unfold knows_rids in *. by rewrite <- R1, <- R2.
Qed.
End add.

(** A producer that is returned was in the tables, or has just been learned from
    them; nobody else comes into them. *)
Lemma GetProducer_pointed l p l' r : GetProducer l p = Ok (l', r) ->
  (forall b, pointed l' b -> pointed l b) /\ (forall b, r = Some b -> pointed l b).
Proof.
  unfold GetProducer. intros (ssrc & _ & H)%bind_Ok.
  assert (Hlearn : forall b, pointed l b -> forall c, pointed (learn_ssrc l ssrc b) c -> pointed l c).
  { intros b Hb c [[k E]|[E|E]]; [|by right; left|by right; right]. cbn in E.
    destruct (decide (k = ssrc)) as [->|]; [|rewrite lookup_insert_ne in E by done; left; by exists k].
    rewrite lookup_insert_eq in E. congruence. }
  destruct (ssrcTable l !! ssrc) as [b|] eqn:E1.
  { injection H as <- <-. split; [done|]. intros c [= <-]. left. by exists ssrc. }
  apply bind_Ok in H as (mid & _ & H). unfold find_value in H.
  destruct (mid ≫= _) as [b|] eqn:E2.
  { injection H as <- <-. destruct mid as [mid|]; [|done]. cbn in E2.
    assert (pointed l b) by (right; left; by exists mid).
    split; [by apply Hlearn|]. by intros c [= <-]. }
  apply bind_Ok in H as (rid & _ & H). destruct (rid ≫= _) as [b|] eqn:E3.
  - injection H as <- <-. destruct rid as [rid|]; [|done]. cbn in E3.
    assert (pointed l b) by (right; right; by exists rid).
    split; [by apply Hlearn|]. by intros c [= <-].
  - injection H as <- <-. by split.
Qed.

(** * What a parsed packet carries can be read *)

Section read.
Context (p : rtp_packet) (Hwf : rtp_wf p) (Hmaps : maps_ok p).

Lemma ReadMid_Ok : exists mid, ReadMid p = Ok mid.
Proof.
  unfold ReadMid. destruct (GetExtension_in_buffer p Hwf Hmaps (midExtensionId (ids p))) as (r & -> & Hr). ostep.
  destruct r as [[v l]|]; [|by eexists]. destruct (Hr v l eq_refl) as (? & ? & ?).
  destruct (l =? 0); [by eexists|]. destruct (slice_in_bounds (mem p) v l) as (s & ->); [lia..|]. ostep. by eexists.
Qed.

Lemma ReadRid_Ok : exists rid, ReadRid p = Ok rid.
Proof.
  unfold ReadRid. destruct (GetExtension_in_buffer p Hwf Hmaps (ridExtensionId (ids p))) as (r & -> & Hr). ostep.
  assert (forall r, (forall v l, r = Some (v, l) -> 0 <= v /\ 0 < l /\ v + l <= zlen (mem p)) ->
    forall k, (exists x, k = Ok x) ->
    exists x, match nonempty r with Some (v, l) => s ← slice (mem p) v l; Ok (Some s) | None => k end = Ok x) as H.
  { clear. intros [[v l]|] Hr k Hk; [|done]. destruct (Hr v l eq_refl) as (? & ? & ?). cbn.
    destruct (0 <? l); [|exact Hk]. destruct (slice_in_bounds (mem p) v l) as (s & ->); [lia..|]. ostep. by eexists. }
  apply H; [exact Hr|]. destruct (GetExtension_in_buffer p Hwf Hmaps (rridExtensionId (ids p))) as (r' & -> & Hr'). ostep.
  apply H; [exact Hr'|by eexists].
Qed.

Lemma GetSsrc_Ok : exists ssrc, GetSsrc p = Ok ssrc /\ in_uint 32 ssrc.
Proof.
  destruct Hwf as [_ [Hs0 Hs] Hr _ _ _]. apply IsRtp_true in Hr as [Hr _]. unfold HeaderSize in Hr.
  apply Get4Bytes_in_bounds; lia.
Qed.

(** The listener answers. *)
Lemma GetProducer_total l : exists l' r, GetProducer l p = Ok (l', r) /\ (r = None -> l' = l).
Proof.
  unfold GetProducer. destruct GetSsrc_Ok as (ssrc & -> & _). ostep.
  destruct (ssrcTable l !! ssrc); [by eexists _, _|].
  destruct ReadMid_Ok as (mid & ->). ostep. destruct (find_value _ mid); [by eexists _, _|].
  destruct ReadRid_Ok as (rid & ->). ostep. destruct (find_value _ rid); by eexists _, _.
Qed.
End read.
