(* ===== verification/RtpParameters.v ===== *)
(** The RTP dictionaries (worker/src/RTC/RtpDictionaries/, worker/src/RTC/Parameters.cpp):
    codecs and encodings of a producer or consumer, how they are validated, and how
    the codec of an encoding is found.

    The structures are what the constructors read of their JSON data; an RID is
    the bytes that packets carry. *)

From Stdlib Require Import Floats.SpecFloat Strings.Ascii.
From S2P Require Export Consumer.

(** * Parameters *)

Module Parameters.

Inductive value : Type :=
| BooleanValue (b : bool)
| IntegerValue (z : Z)
| DoubleValue (d : spec_float)
| StringValue (s : string)
| ArrayOfIntegers (l : list Z).

Abbreviation map := (gmap string value).

(** A value of a JSON object, with what [type()] and [get()] tell of it. *)
Inductive json_value : Type :=
| json_boolean (b : bool)
| json_number_integer (z : Z)
| json_number_float (d : spec_float)
| json_string (s : string)
| json_array (integers : list (option Z))    (** [None]: not an integer *)
| json_other.

Definition value_of (v : json_value) : option value :=
  match v with
  | json_boolean b => Some (BooleanValue b)
  | json_number_integer z => Some (IntegerValue (swrap 32 z))
  | json_number_float d => Some (DoubleValue d)
  | json_string s => Some (StringValue s)
  | json_array l =>
      match mapM id l with
      | Some (x :: l) => Some (ArrayOfIntegers (swrap 32 <$> x :: l))
      | _ => None
      end
  | json_other => None
  end.

(** [Set]; [emplace] leaves a key that is there. *)
Definition set_key (p : map) (kv : string * json_value) : map :=
  match value_of kv.2 with
  | Some v => match p !! kv.1 with None => <[kv.1 := v]> p | Some _ => p end
  | None => p
  end.

Definition Set_ (p : map) (data : list (string * json_value)) : map := foldl set_key p data.

Definition HasBoolean (p : map) (key : string) : bool :=
  match p !! key with Some (BooleanValue _) => true | _ => false end.
Definition HasInteger (p : map) (key : string) : bool :=
  match p !! key with Some (IntegerValue _) => true | _ => false end.
Definition HasPositiveInteger (p : map) (key : string) : bool :=
  match p !! key with Some (IntegerValue z) => 0 <=? z | _ => false end.
Definition HasDouble (p : map) (key : string) : bool :=
  match p !! key with Some (DoubleValue _) => true | _ => false end.
Definition HasString (p : map) (key : string) : bool :=
  match p !! key with Some (StringValue _) => true | _ => false end.
Definition HasArrayOfIntegers (p : map) (key : string) : bool :=
  match p !! key with Some (ArrayOfIntegers _) => true | _ => false end.
Definition IncludesInteger (p : map) (key : string) (integer : Z) : bool :=
  match p !! key with Some (ArrayOfIntegers l) => bool_decide (integer ∈ l) | _ => false end.

(** The field of a value of another type has its default. *)
Definition GetBoolean (p : map) (key : string) : outcome bool :=
  match p !! key with
  | None => Err AssertFailed
  | Some (BooleanValue b) => Ok b
  | Some _ => Ok false
  end.
Definition GetInteger (p : map) (key : string) : outcome Z :=
  match p !! key with
  | None => Err AssertFailed
  | Some (IntegerValue z) => Ok z
  | Some _ => Ok 0
  end.
Definition GetDouble (p : map) (key : string) : outcome spec_float :=
  match p !! key with
  | None => Err AssertFailed
  | Some (DoubleValue d) => Ok d
  | Some _ => Ok (S754_zero false)
  end.
Definition GetString (p : map) (key : string) : outcome string :=
  match p !! key with
  | None => Err AssertFailed
  | Some (StringValue s) => Ok s
  | Some _ => Ok EmptyString
  end.
Definition GetArrayOfIntegers (p : map) (key : string) : outcome (list Z) :=
  match p !! key with
  | None => Err AssertFailed
  | Some (ArrayOfIntegers l) => Ok l
  | Some _ => Ok []
  end.
End Parameters.

Abbreviation parameters := (gmap string Parameters.value).

(** * MIME types *)

Module MimeType.

Inductive type : Type := AUDIO | VIDEO.

Inductive subtype : Type :=
| OPUS | PCMA | PCMU | ISAC | G722 | ILBC | SILK
| VP8 | VP9 | H264 | X_H264UC | H265
| CN | TELEPHONE_EVENT
| RTX | ULPFEC | X_ULPFECUC | FLEXFEC | RED.

#[export] Instance type_eq_dec : EqDecision type.
Proof. solve_decision. Defined.
#[export] Instance subtype_eq_dec : EqDecision subtype.
Proof. solve_decision. Defined.

(** The values of the enumeration. *)
Definition number (s : subtype) : Z :=
  match s with
  | OPUS => 100 | PCMA => 101 | PCMU => 102 | ISAC => 103 | G722 => 104 | ILBC => 105 | SILK => 106
  | VP8 => 200 | VP9 => 201 | H264 => 202 | X_H264UC => 203 | H265 => 204
  | CN => 300 | TELEPHONE_EVENT => 301
  | RTX => 400 | ULPFEC => 401 | X_ULPFECUC => 402 | FLEXFEC => 403 | RED => 404
  end.

Definition string2Type : list (string * type) := [("audio"%string, AUDIO); ("video"%string, VIDEO)].

Definition type2String (t : type) : string := match t with AUDIO => "audio" | VIDEO => "video" end%string.

Definition string2Subtype : list (string * subtype) :=
  [("opus", OPUS); ("pcma", PCMA); ("pcmu", PCMU); ("isac", ISAC); ("g722", G722); ("ilbc", ILBC); ("silk", SILK);
   ("vp8", VP8); ("vp9", VP9); ("h264", H264); ("x-h264uc", X_H264UC); ("h265", H265);
   ("cn", CN); ("telephone-event", TELEPHONE_EVENT);
   ("rtx", RTX); ("ulpfec", ULPFEC); ("flexfec", FLEXFEC); ("x-ulpfecuc", X_ULPFECUC); ("red", RED)]%string.

Definition subtype2String (s : subtype) : string :=
  match s with
  | OPUS => "opus" | PCMA => "PCMA" | PCMU => "PCMU" | ISAC => "ISAC" | G722 => "G722" | ILBC => "iLBC" | SILK => "SILK"
  | VP8 => "VP8" | VP9 => "VP9" | H264 => "H264" | X_H264UC => "X-H264UC" | H265 => "H265"
  | CN => "CN" | TELEPHONE_EVENT => "telephone-event"
  | RTX => "rtx" | ULPFEC => "ulpfec" | X_ULPFECUC => "x-ulpfecuc" | FLEXFEC => "flexfec" | RED => "red"
  end%string.

Definition IsMediaCodec (s : subtype) : bool := (100 <=? number s) && (number s <? 300).
Definition IsComplementaryCodec (s : subtype) : bool := (300 <=? number s) && (number s <? 400).
Definition IsFeatureCodec (s : subtype) : bool := 400 <=? number s.

(** [::tolower] of the C locale. *)
Definition lower (c : ascii) : ascii :=
  let n := N_of_ascii c in if ((65 <=? n) && (n <=? 90))%N then ascii_of_N (n + 32) else c.

Fixpoint ToLowerCase (s : string) : string :=
  match s with
  | EmptyString => EmptyString
  | String c s => String (lower c) (ToLowerCase s)
  end.

Fixpoint find {A} (table : list (string * A)) (key : string) : outcome A :=
  match table with
  | [] => Err Thrown
  | (k, x) :: table => if bool_decide (k = key) then Ok x else find table key
  end.

(** The parts of [mimeType] around its first slash, neither of them empty. *)
Definition split_slash (mimeType : string) : outcome (string * string) :=
  match String.index 0 "/" mimeType with
  | None => Err Thrown
  | Some slashPos =>
      if bool_decide (slashPos = O) || bool_decide (S slashPos = String.length mimeType) then Err Thrown
      else Ok (String.substring 0 slashPos mimeType,
               String.substring (S slashPos) (String.length mimeType - S slashPos) mimeType)
  end.

Definition SetMimeType (mimeType : string) : outcome (type * subtype) :=
  '(t, s) ← split_slash mimeType;
  t ← find string2Type (ToLowerCase t);
  s ← find string2Subtype (ToLowerCase s);
  Ok (t, s).

(** [mimeType], as [SetMimeType] and [UpdateMimeType] leave it. *)
Definition ToString (t : type) (s : subtype) : string := (type2String t ++ "/" ++ subtype2String s)%string.

(** The codecs of which [Tools] knows the payload: they are of video. *)
Definition codec_of (t : type) (s : subtype) : option codec :=
  match t, s with
  | VIDEO, VP8 => Some Codecs.VP8
  | VIDEO, VP9 => Some Codecs.VP9
  | VIDEO, H264 => Some Codecs.H264
  | VIDEO, H265 => Some Codecs.H265
  | _, _ => None
  end.
End MimeType.

(** * Codecs and encodings *)

Record rtp_codec_parameters : Type := RtpCodecParameters {
  co_type : MimeType.type;
  co_subtype : MimeType.subtype;
  co_payloadType : Z;
  co_clockRate : Z;
  co_parameters : parameters;
  co_rtcpFeedback : list (string * string)     (** [type], [parameter] *)
}.

Definition apt : string := "apt".

(** [CheckCodec]. *)
Definition CheckCodec (c : rtp_codec_parameters) : outcome unit :=
  match co_subtype c with
  | MimeType.RTX => require Thrown (Parameters.HasPositiveInteger (co_parameters c) apt)
  | _ => Ok ()
  end.

Record rtp_encoding_parameters : Type := RtpEncodingParameters {
  ep_ssrc : Z;
  ep_rid : list Z;
  ep_codecPayloadType : option Z;        (** with [hasCodecPayloadType] *)
  ep_rtx : option Z;                     (** [rtx.ssrc], with [hasRtx] *)
  ep_dtx : bool;
  ep_spatialLayers : Z;
  ep_temporalLayers : Z;
  ep_ksvc : bool
}.

Record rtp_params : Type := RtpParams {
  rtp_mid : list Z;
  rtp_codecs : list rtp_codec_parameters;
  rtp_encodings : list rtp_encoding_parameters
}.

(** ** The scalability mode *)

Definition digit (c : ascii) : option Z :=
  let n := Z.of_N (N_of_ascii c) - 48 in if (0 <=? n) && (n <=? 9) then Some n else None.

(** [[1-9]\d{0,1}], as many digits as there are. *)
Definition layers_number (s : string) : option (Z * string) :=
  match s with
  | String c s =>
      match digit c with
      | Some a =>
          if a =? 0 then None
          else
            match s with
            | String c' s' => match digit c' with Some b => Some (10 * a + b, s') | None => Some (a, s) end
            | EmptyString => Some (a, s)
            end
      | None => None
      end
  | EmptyString => None
  end.

(** What [.*] matches: no end of line. *)
Fixpoint one_line (s : string) : bool :=
  match s with
  | EmptyString => true
  | String c s => negb (bool_decide (c = "010"%char)) && negb (bool_decide (c = "013"%char)) && one_line s
  end.

(** Match of [^[LS]([1-9]\d{0,1})T([1-9]\d{0,1})(_KEY)?.*]: layers and [_KEY]. *)
Definition scalability_mode (s : string) : option (Z * Z * bool) :=
  match s with
  | String c s =>
      if bool_decide (c = "L"%char) || bool_decide (c = "S"%char) then
        '(spatial, s) ← layers_number s;
        match s with
        | String c s =>
            if bool_decide (c = "T"%char) then
              '(temporal, s) ← layers_number s;
              if one_line s then Some (spatial, temporal, String.prefix "_KEY" s) else None
            else None
        | EmptyString => None
        end
      else None
  | EmptyString => None
  end.

(** The fields that [scalabilityMode] sets, and their defaults. *)
Definition layers_of (mode : option string) : Z * Z * bool :=
  match mode ≫= scalability_mode with Some r => r | None => (1, 1, false) end.

(** ** Validation *)

Definition has_payload_type (payloadType : Z) (c : rtp_codec_parameters) : bool := co_payloadType c =? payloadType.

Fixpoint find_codec (codecs : list rtp_codec_parameters) (payloadType : Z) : option rtp_codec_parameters :=
  match codecs with
  | [] => None
  | c :: codecs => if has_payload_type payloadType c then Some c else find_codec codecs payloadType
  end.

(** The codec that the [apt] of an RTX codec points to. *)
Definition check_apt (codecs : list rtp_codec_parameters) (c : rtp_codec_parameters) : outcome unit :=
  match co_subtype c with
  | MimeType.RTX =>
      target ← Parameters.GetInteger (co_parameters c) apt;
      match find_codec codecs target with
      | None => Err Thrown
      | Some c' =>
          match co_subtype c' with
          | MimeType.RTX | MimeType.ULPFEC | MimeType.FLEXFEC => Err Thrown
          | _ => Ok ()
          end
      end
  | _ => Ok ()
  end.

Fixpoint validate_codecs_loop (codecs rest : list rtp_codec_parameters) (payloadTypes : gset Z) : outcome unit :=
  match rest with
  | [] => Ok ()
  | c :: rest =>
      _ ← require Thrown (bool_decide (co_payloadType c ∉ payloadTypes));
      _ ← check_apt codecs c;
      validate_codecs_loop codecs rest ({[ co_payloadType c ]} ∪ payloadTypes)
  end.

Definition ValidateCodecs (codecs : list rtp_codec_parameters) : outcome unit := validate_codecs_loop codecs codecs ∅.

Fixpoint first_media_codec (codecs : list rtp_codec_parameters) : outcome Z :=
  match codecs with
  | [] => Err Thrown
  | c :: codecs => if MimeType.IsMediaCodec (co_subtype c) then Ok (co_payloadType c) else first_media_codec codecs
  end.

Definition set_codec (e : rtp_encoding_parameters) (payloadType : Z) : rtp_encoding_parameters :=
  RtpEncodingParameters (ep_ssrc e) (ep_rid e) (Some payloadType) (ep_rtx e) (ep_dtx e) (ep_spatialLayers e)
    (ep_temporalLayers e) (ep_ksvc e).

Definition validate_encoding (codecs : list rtp_codec_parameters) (firstMediaPayloadType : Z) (several : bool)
    (e : rtp_encoding_parameters) : outcome rtp_encoding_parameters :=
  _ ← require Thrown (negb ((1 <? ep_spatialLayers e) && several));
  match ep_codecPayloadType e with
  | None => Ok (set_codec e firstMediaPayloadType)
  | Some payloadType =>
      match find_codec codecs payloadType with
      | None => Err Thrown
      | Some c => _ ← require Thrown (MimeType.IsMediaCodec (co_subtype c)); Ok e
      end
  end.

Definition ValidateEncodings (codecs : list rtp_codec_parameters) (encodings : list rtp_encoding_parameters)
  : outcome (list rtp_encoding_parameters) :=
  firstMediaPayloadType ← first_media_codec codecs;
  mapM (validate_encoding codecs firstMediaPayloadType (1 <? zlen encodings)) encodings.

(** The constructor, of the codecs and encodings that are in its data. *)
Definition new_RtpParameters (mid : option (list Z)) (codecs : list rtp_codec_parameters)
    (encodings : list rtp_encoding_parameters) : outcome rtp_params :=
  _ ← require Thrown (bool_decide (mid <> Some []));
  _ ← mapM CheckCodec codecs;
  _ ← require Thrown (bool_decide (codecs <> []));
  _ ← require Thrown (bool_decide (encodings <> []));
  _ ← ValidateCodecs codecs;
  encodings ← ValidateEncodings codecs encodings;
  Ok (RtpParams (default [] mid) codecs encodings).

(** ** Lookups *)

Definition codec_payload_type (e : rtp_encoding_parameters) : Z := default 0 (ep_codecPayloadType e).

Definition GetCodecForEncoding (p : rtp_params) (e : rtp_encoding_parameters) : outcome rtp_codec_parameters :=
  match find_codec (rtp_codecs p) (codec_payload_type e) with
  | Some c => Ok c
  | None => Err AssertFailed
  end.

Fixpoint find_rtx (codecs : list rtp_codec_parameters) (payloadType : Z) : outcome (option rtp_codec_parameters) :=
  match codecs with
  | [] => Ok None
  | c :: codecs =>
      if MimeType.IsFeatureCodec (co_subtype c) then
        a ← Parameters.GetInteger (co_parameters c) apt;
        if a =? payloadType then Ok (Some c) else find_rtx codecs payloadType
      else find_rtx codecs payloadType
  end.

Definition GetRtxCodecForEncoding (p : rtp_params) (e : rtp_encoding_parameters) : outcome (option rtp_codec_parameters) :=
  find_rtx (rtp_codecs p) (codec_payload_type e).

(** [RtpParameters::GetType]. *)
Definition GetType (p : rtp_params) : rtp_type :=
  match rtp_encodings p with
  | [] => NONE
  | [e] => if (1 <? ep_spatialLayers e) || (1 <? ep_temporalLayers e) then SVC else SIMPLE
  | _ => SIMULCAST
  end.

(** * What validation establishes *)

Definition media_codec_of (codecs : list rtp_codec_parameters) (e : rtp_encoding_parameters) : Prop :=
  exists c, ep_codecPayloadType e = Some (co_payloadType c) /\ c ∈ codecs /\ MimeType.IsMediaCodec (co_subtype c) = true.

Record params_ok (p : rtp_params) : Prop := ParamsOk {
  pa_types : NoDup (co_payloadType <$> rtp_codecs p);
  pa_apt : Forall (fun c => co_subtype c = MimeType.RTX -> Parameters.HasPositiveInteger (co_parameters c) apt = true) (rtp_codecs p);
  pa_encodings : Forall (media_codec_of (rtp_codecs p)) (rtp_encodings p);
  pa_some : rtp_encodings p <> []
}.

Lemma find_codec_Some codecs pt c : find_codec codecs pt = Some c -> c ∈ codecs /\ co_payloadType c = pt.
Proof.
  induction codecs as [|c' codecs IH]; [done|]. cbn. unfold has_payload_type.
  destruct (Z.eqb_spec (co_payloadType c') pt) as [E|E].
  - intros [= <-]. split; [left|done].
  - intros Hc. destruct (IH Hc). split; [by right|done].
Qed.

Lemma find_codec_elem codecs c : c ∈ codecs -> NoDup (co_payloadType <$> codecs) -> find_codec codecs (co_payloadType c) = Some c.
Proof.
  induction codecs as [|c' codecs IH]; [by intros ?%not_elem_of_nil|]. intros Hc [Hn Hd]%NoDup_cons. cbn. unfold has_payload_type.
  apply elem_of_cons in Hc as [<-|Hc]; [by rewrite Z.eqb_refl|].
  destruct (Z.eqb_spec (co_payloadType c') (co_payloadType c)) as [E|E]; [|by apply IH].
  destruct Hn. rewrite E. by apply list_elem_of_fmap_2.
Qed.

Lemma validate_codecs_spec codecs rest seen : validate_codecs_loop codecs rest seen = Ok () ->
  NoDup (co_payloadType <$> rest) /\ Forall (fun c => co_payloadType c ∉ seen) rest.
Proof.
  revert seen. induction rest as [|c rest IH]; intros seen; cbn; [split; constructor|]. 
  intros (? & E1%require_Ok & (? & _ & E)%bind_Ok)%bind_Ok. apply bool_decide_eq_true in E1. destruct (IH _ E) as [Hd Hs]. split.
  - apply NoDup_cons. split; [|done]. intros (c' & Ec & Hc)%list_elem_of_fmap. rewrite Forall_forall in Hs. specialize (Hs c' Hc). set_solver.
  - constructor; [done|]. eapply Forall_impl; [exact Hs|]. set_solver.
Qed.

Lemma mapM_outcome_length {A B} (f : A -> outcome B) l k : mapM f l = Ok k -> Forall2 (fun x y => f x = Ok y) l k.
Proof.
  revert k. induction l as [|x l IH]; intros k; cbn; [by intros [= <-]|]. intros (y & E1 & (k' & E2 & [= <-])%bind_Ok)%bind_Ok.
  constructor; [done|by apply IH].
Qed.

Lemma first_media_spec codecs pt : first_media_codec codecs = Ok pt ->
  exists c, c ∈ codecs /\ co_payloadType c = pt /\ MimeType.IsMediaCodec (co_subtype c) = true.
Proof.
  induction codecs as [|c codecs IH]; [done|]. cbn. destruct (MimeType.IsMediaCodec _) eqn:Em.
  - intros [= <-]. exists c. split; [left|done].
  - intros E. destruct (IH E) as (c' & ? & ?). exists c'. split; [by right|done].
Qed.

Lemma validate_encoding_spec codecs pt several e e' : (exists c, c ∈ codecs /\ co_payloadType c = pt /\ MimeType.IsMediaCodec (co_subtype c) = true) ->
  validate_encoding codecs pt several e = Ok e' ->
  media_codec_of codecs e' /\ (several = true -> ep_spatialLayers e' <= 1) /\ ep_ssrc e' = ep_ssrc e /\ ep_rid e' = ep_rid e /\
  ep_rtx e' = ep_rtx e /\ ep_spatialLayers e' = ep_spatialLayers e /\ ep_temporalLayers e' = ep_temporalLayers e.
Proof.
  intros (c & Hc & <- & Hm) (? & E1%require_Ok & E)%bind_Ok.
  assert (several = true -> ep_spatialLayers e <= 1) by (intros ->; destruct (Z.ltb_spec 1 (ep_spatialLayers e)); [done|lia]).
  destruct (ep_codecPayloadType e) as [pt|] eqn:Ep.
  - destruct (find_codec codecs pt) as [c'|] eqn:Ef; [|done]. apply find_codec_Some in Ef as [Hc' <-].
    apply bind_Ok in E as (? & E2%require_Ok & [= <-]). split; [by exists c'|done].
  - injection E as <-. split; [by exists c|done].
Qed.

(** The parameters of validated data; the encodings are those of the data, with their codecs. *)
Lemma new_RtpParameters_ok mid codecs encodings p : new_RtpParameters mid codecs encodings = Ok p ->
  params_ok p /\ rtp_codecs p = codecs /\
  Forall2 (fun e e' => ep_ssrc e' = ep_ssrc e /\ ep_rid e' = ep_rid e /\ ep_rtx e' = ep_rtx e /\
    ep_spatialLayers e' = ep_spatialLayers e /\ ep_temporalLayers e' = ep_temporalLayers e) encodings (rtp_encodings p) /\
  (1 < zlen encodings -> Forall (fun e => ep_spatialLayers e <= 1) (rtp_encodings p)).
Proof.
  unfold new_RtpParameters. intros (? & _ & (l & E2 & (? & _ & (? & E3%require_Ok & (? & E4 & (es & E5 & [= <-])%bind_Ok)%bind_Ok)%bind_Ok)%bind_Ok)%bind_Ok)%bind_Ok.
  cbn [rtp_codecs rtp_encodings]. apply bool_decide_eq_true in E3. unfold ValidateCodecs in E4. destruct x2.
  apply validate_codecs_spec in E4 as [Hd _]. unfold ValidateEncodings in E5. apply bind_Ok in E5 as (pt & Ept & E5).
  apply first_media_spec in Ept. apply mapM_outcome_length in E5.
  assert (Forall2 (fun e e' => media_codec_of codecs e' /\ ((1 <? zlen encodings) = true -> ep_spatialLayers e' <= 1) /\ ep_ssrc e' = ep_ssrc e /\ ep_rid e' = ep_rid e /\
    ep_rtx e' = ep_rtx e /\ ep_spatialLayers e' = ep_spatialLayers e /\ ep_temporalLayers e' = ep_temporalLayers e) encodings es) as Hall.
  { eapply Forall2_impl; [exact E5|]. intros e e' E. by eapply validate_encoding_spec. }
  split; [split|split; [done|split]]; cbn [rtp_codecs rtp_encodings].
  - done.
  - apply mapM_outcome_length in E2. clear -E2. induction E2 as [|c [] codecs l Ec Hl IH]; constructor; [|done].
    intros Es. unfold CheckCodec in Ec. rewrite Es in Ec. by apply require_Ok in Ec.
  - eapply Forall2_Forall_r; [exact Hall|]. apply Forall_true. by intros e e' (? & _).
  - intros ->. by apply Forall2_nil_inv_r in E5.
  - eapply Forall2_impl; [exact Hall|]. by intros e e' (_ & _ & ?).
  - intros Hn. eapply Forall2_Forall_r; [exact Hall|]. apply Forall_true. intros e e' (_ & Hs & _). apply Hs. by apply Z.ltb_lt.
Qed.

(** The codec of an encoding is there, is of media, and is the only one of its payload type. *)
Lemma GetCodecForEncoding_ok p e : params_ok p -> e ∈ rtp_encodings p ->
  exists c, GetCodecForEncoding p e = Ok c /\ MimeType.IsMediaCodec (co_subtype c) = true /\
    forall c', c' ∈ rtp_codecs p -> co_payloadType c' = co_payloadType c -> c' = c.
Proof.
  intros [Hd _ He _] Hin. rewrite Forall_forall in He. destruct (He e Hin) as (c & Ep & Hc & Hm). exists c.
  unfold GetCodecForEncoding, codec_payload_type. rewrite Ep. cbn. rewrite (find_codec_elem _ _ Hc Hd). split_and!; [done..|].
  intros c' Hc' E. pose proof (find_codec_elem _ _ Hc' Hd) as E'. rewrite E, (find_codec_elem _ _ Hc Hd) in E'. congruence.
Qed.

(** Where every feature codec has [apt], looking for the RTX codec does not abort. *)
Definition apt_everywhere (p : rtp_params) : Prop :=
  Forall (fun c => MimeType.IsFeatureCodec (co_subtype c) = true -> is_Some (co_parameters c !! apt)) (rtp_codecs p).

Lemma GetRtxCodecForEncoding_ok p e : apt_everywhere p -> exists r, GetRtxCodecForEncoding p e = Ok r.
Proof.
  unfold GetRtxCodecForEncoding. generalize (codec_payload_type e) as pt. intros pt. unfold apt_everywhere.
  induction 1 as [|c codecs Hc _ IH]; [by eexists|]. cbn. destruct (MimeType.IsFeatureCodec _); [|done].
  destruct (Hc eq_refl) as [v Ev]. unfold Parameters.GetInteger. rewrite Ev.
  destruct v; ostep; (destruct (_ =? _); [by eexists|done]).
Qed.

(** ** MIME types and scalability modes *)

Lemma mime_round_trip t s : MimeType.SetMimeType (MimeType.ToString t s) = Ok (t, s).
Proof. by destruct t, s. Qed.

Lemma digit_range c n : digit c = Some n -> 0 <= n <= 9.
Proof. unfold digit. cbn zeta. destruct (_ && _) eqn:E; [|done]. intros [= <-]. lia. Qed.

Lemma layers_number_range s n r : layers_number s = Some (n, r) -> 1 <= n <= 99.
Proof.
  destruct s as [|c s]; [done|]. cbn. destruct (digit c) as [a|] eqn:Ea; [|done]. apply digit_range in Ea.
  destruct (Z.eqb_spec a 0) as [|Hne]; [done|]. destruct s as [|c' s']; [intros [= <- _]; lia|].
  destruct (digit c') as [b|] eqn:Eb; [|intros [= <- _]; lia]. apply digit_range in Eb. intros [= <- _]. lia.
Qed.

(** From 1 to 99 layers, whatever the string. *)
Lemma layers_of_range mode spatial temporal k : layers_of mode = (spatial, temporal, k) -> 1 <= spatial <= 99 /\ 1 <= temporal <= 99.
Proof.
  unfold layers_of. destruct mode as [s|]; cbn; [|intros [= <- <- _]; lia].
  destruct (scalability_mode s) as [[[a b] k']|] eqn:E; [|intros [= <- <- _]; lia]. intros [= -> -> ->].
  destruct s as [|c s]; [done|]. cbn in E. destruct (_ || _); [|done].
  destruct (layers_number s) as [[a s1]|] eqn:E1; [|done]. cbn in E. destruct s1 as [|c1 s1]; [done|]. destruct (bool_decide _); [|done].
  destruct (layers_number s1) as [[b s2]|] eqn:E2; [|done]. cbn in E. destruct (one_line s2); [|done]. injection E as -> -> _.
  by apply layers_number_range in E1, E2.
Qed.
