(* ===== verification/Producer.v ===== *)
(** [RTC::Producer] (worker/src/RTC/Producer.cpp, worker/include/RTC/Producer.hpp):
    what becomes of the packets of an endpoint before the router sees them.

    The producer finds or creates the stream of a packet, hands the packet to it,
    asks for key frames, and rewrites the packet for the consumers.  A stream has
    the index of its encoding as its address.  What the listener (the transport,
    and the consumers behind it) asks for while it is called is a parameter, a
    [producer_listener].  The calls that a stream makes are handled when its
    operation has returned: after a call, an operation does nothing that the
    handling could see or change. *)

From Stdlib Require Import Floats.SpecFloat.
From stdpp Require Import sorting.
From S2P Require Export RtpParameters KeyFrame RtpStreamRecv.

(** * Data *)

Record rtp_mapping : Type := RtpMapping {
  mp_codecs : gmap Z Z;              (** payload type to mapped payload type *)
  mp_encodings : list Z              (** [mappedSsrc] *)
}.

(** An entry of [rtpMapping.encodings]: [ssrc] and [rid] where they are. *)
Record mapping_entry : Type := MappingEntry {
  me_ssrc : option Z;
  me_rid : option (list Z);
  me_mappedSsrc : Z
}.

Record trace_types : Type := TraceEventTypes {
  te_rtp : bool;
  te_keyframe : bool;
  te_nack : bool;
  te_pli : bool;
  te_fir : bool
}.

Definition no_traces : trace_types := TraceEventTypes false false false false false.

(** The ids of the extensions, with that of toffset. *)
Record header_extension_ids : Type := HeaderExtensionIds { hx_ids : extension_ids; hx_toffset : Z }.

(** [RtpHeaderExtensionUri::Type]. *)
Inductive extension_type : Type :=
| UNKNOWN | MID | RTP_STREAM_ID | REPAIRED_RTP_STREAM_ID | ABS_SEND_TIME | TRANSPORT_WIDE_CC_01
| FRAME_MARKING_07 | FRAME_MARKING | SSRC_AUDIO_LEVEL | VIDEO_ORIENTATION | TOFFSET.

Definition extension_number (t : extension_type) : Z :=
  match t with
  | UNKNOWN => 0 | MID => 1 | RTP_STREAM_ID => 2 | REPAIRED_RTP_STREAM_ID => 3 | ABS_SEND_TIME => 4
  | TRANSPORT_WIDE_CC_01 => 5 | FRAME_MARKING_07 => 6 | FRAME_MARKING => 7 | SSRC_AUDIO_LEVEL => 10
  | VIDEO_ORIENTATION => 11 | TOFFSET => 12
  end.

(** What the constructor sets and nothing changes. *)
Record producer_setup : Type := ProducerSetup {
  ps_video : bool;                   (** [kind] *)
  ps_params : rtp_params;
  ps_mapping : rtp_mapping;
  ps_ids : header_extension_ids
}.

Definition maxRtcpInterval (u : producer_setup) : Z := if ps_video u then 1000 else 5000.

(** The score of a stream that is notified: encoding, SSRC, RID if there is one. *)
Record score_entry : Type := ScoreEntry { sc_encodingIdx : nat; sc_ssrc : Z; sc_rid : option (list Z); sc_score : Z }.

Inductive trace_event : Type :=
| TraceKeyFrame (isRtx : bool)
| TraceRtp (isRtx : bool)
| TracePli (ssrc : Z)
| TraceFir (ssrc : Z)
| TraceNack.

(** Calls of the listener, and notifications. *)
Inductive producer_event : Type :=
| OnProducerPaused
| OnProducerResumed
| OnProducerNewRtpStream (idx : nat) (mappedSsrc : Z)
| OnProducerRtpStreamScore (idx : nat) (score previousScore : Z)
| OnProducerRtcpSenderReport (idx : nat) (first : bool)
| OnProducerRtpPacketReceived (p : video_packet)
| OnProducerSendRtcpPacket (p : rtcp_packet)
| EmittedScore (l : list score_entry)
| EmittedOrientation (camera flip : bool) (rotation : Z)
| EmittedTrace (t : trace_event).

(** The listener: the mapped SSRCs for which consumers ask for a key frame while it
    is called, and the worst fraction lost that consumers reported. *)
Record producer_listener : Type := ProducerListener {
  asked : producer_event -> list Z;
  worst_lost : Z -> Z
}.

Inductive receive_result : Type := DISCARDED | MEDIA | RETRANSMISSION.

(** ** The constructor *)

(** The first extension of each type has its id. *)
Definition first_id (old id : Z) : Z := if old =? 0 then id else old.

Definition set_extension_id (x : header_extension_ids) (t : extension_type) (id : Z) : header_extension_ids :=
  let i := hx_ids x in
  match t with
  | UNKNOWN => x
  | MID => HeaderExtensionIds (ExtensionIds (first_id (midExtensionId i) id) (ridExtensionId i) (rridExtensionId i)
      (absSendTimeExtensionId i) (transportWideCc01ExtensionId i) (frameMarking07ExtensionId i) (frameMarkingExtensionId i)
      (ssrcAudioLevelExtensionId i) (videoOrientationExtensionId i)) (hx_toffset x)
  | RTP_STREAM_ID => HeaderExtensionIds (ExtensionIds (midExtensionId i) (first_id (ridExtensionId i) id) (rridExtensionId i)
      (absSendTimeExtensionId i) (transportWideCc01ExtensionId i) (frameMarking07ExtensionId i) (frameMarkingExtensionId i)
      (ssrcAudioLevelExtensionId i) (videoOrientationExtensionId i)) (hx_toffset x)
  | REPAIRED_RTP_STREAM_ID => HeaderExtensionIds (ExtensionIds (midExtensionId i) (ridExtensionId i) (first_id (rridExtensionId i) id)
      (absSendTimeExtensionId i) (transportWideCc01ExtensionId i) (frameMarking07ExtensionId i) (frameMarkingExtensionId i)
      (ssrcAudioLevelExtensionId i) (videoOrientationExtensionId i)) (hx_toffset x)
  | ABS_SEND_TIME => HeaderExtensionIds (ExtensionIds (midExtensionId i) (ridExtensionId i) (rridExtensionId i)
      (first_id (absSendTimeExtensionId i) id) (transportWideCc01ExtensionId i) (frameMarking07ExtensionId i) (frameMarkingExtensionId i)
      (ssrcAudioLevelExtensionId i) (videoOrientationExtensionId i)) (hx_toffset x)
  | TRANSPORT_WIDE_CC_01 => HeaderExtensionIds (ExtensionIds (midExtensionId i) (ridExtensionId i) (rridExtensionId i)
      (absSendTimeExtensionId i) (first_id (transportWideCc01ExtensionId i) id) (frameMarking07ExtensionId i) (frameMarkingExtensionId i)
      (ssrcAudioLevelExtensionId i) (videoOrientationExtensionId i)) (hx_toffset x)
  | FRAME_MARKING_07 => HeaderExtensionIds (ExtensionIds (midExtensionId i) (ridExtensionId i) (rridExtensionId i)
      (absSendTimeExtensionId i) (transportWideCc01ExtensionId i) (first_id (frameMarking07ExtensionId i) id) (frameMarkingExtensionId i)
      (ssrcAudioLevelExtensionId i) (videoOrientationExtensionId i)) (hx_toffset x)
  | FRAME_MARKING => HeaderExtensionIds (ExtensionIds (midExtensionId i) (ridExtensionId i) (rridExtensionId i)
      (absSendTimeExtensionId i) (transportWideCc01ExtensionId i) (frameMarking07ExtensionId i) (first_id (frameMarkingExtensionId i) id)
      (ssrcAudioLevelExtensionId i) (videoOrientationExtensionId i)) (hx_toffset x)
  | SSRC_AUDIO_LEVEL => HeaderExtensionIds (ExtensionIds (midExtensionId i) (ridExtensionId i) (rridExtensionId i)
      (absSendTimeExtensionId i) (transportWideCc01ExtensionId i) (frameMarking07ExtensionId i) (frameMarkingExtensionId i)
      (first_id (ssrcAudioLevelExtensionId i) id) (videoOrientationExtensionId i)) (hx_toffset x)
  | VIDEO_ORIENTATION => HeaderExtensionIds (ExtensionIds (midExtensionId i) (ridExtensionId i) (rridExtensionId i)
      (absSendTimeExtensionId i) (transportWideCc01ExtensionId i) (frameMarking07ExtensionId i) (frameMarkingExtensionId i)
      (ssrcAudioLevelExtensionId i) (first_id (videoOrientationExtensionId i) id)) (hx_toffset x)
  | TOFFSET => HeaderExtensionIds i (first_id (hx_toffset x) id)
  end.

Fixpoint fill_extension_ids (x : header_extension_ids) (headerExtensions : list (extension_type * Z)) : outcome header_extension_ids :=
  match headerExtensions with
  | [] => Ok x
  | (t, id) :: l => _ ← require Thrown (negb (id =? 0)); fill_extension_ids (set_extension_id x t id) l
  end.

(** What an entry of the mapping must have. *)
Definition check_entry (mid : list Z) (count : Z) (e : mapping_entry) : outcome unit :=
  let absent := bool_decide (me_ssrc e = None) && bool_decide (me_rid e = None) in
  _ ← require Thrown (negb ((1 <? count) && absent));
  require Thrown (negb (bool_decide (mid = []) && (count =? 1) && absent)).

Section producer.
Context {H : Type} `{UvTimer H}.

Record rtp_producer : Type := RtpProducer {
  pd_setup : producer_setup;
  pd_streams : list (option (rtp_stream_recv H));      (** [rtpStreamByEncodingIdx] *)
  pd_scores : list Z;                                  (** [rtpStreamScores] *)
  pd_ssrcs : gmap Z nat;                               (** [mapSsrcRtpStream] *)
  pd_rtxSsrcs : gmap Z nat;                            (** [mapRtxSsrcRtpStream] *)
  pd_mapped : gmap nat Z;                              (** [mapRtpStreamMappedSsrc] *)
  pd_unmapped : gmap Z Z;                              (** [mapMappedSsrcSsrc] *)
  pd_manager : option (key_frame_request_manager H);
  pd_paused : bool;
  pd_current : option video_packet;                    (** [currentRtpPacket] *)
  pd_lastRtcpSentTime : Z;
  pd_orientation : option (bool * bool * Z);           (** [videoOrientation], once it was detected *)
  pd_traces : trace_types
}.

Definition set_pd_streams p x := RtpProducer (pd_setup p) x (pd_scores p) (pd_ssrcs p) (pd_rtxSsrcs p) (pd_mapped p)
  (pd_unmapped p) (pd_manager p) (pd_paused p) (pd_current p) (pd_lastRtcpSentTime p) (pd_orientation p) (pd_traces p).
Definition set_pd_scores p x := RtpProducer (pd_setup p) (pd_streams p) x (pd_ssrcs p) (pd_rtxSsrcs p) (pd_mapped p)
  (pd_unmapped p) (pd_manager p) (pd_paused p) (pd_current p) (pd_lastRtcpSentTime p) (pd_orientation p) (pd_traces p).
Definition set_pd_rtxSsrcs p x := RtpProducer (pd_setup p) (pd_streams p) (pd_scores p) (pd_ssrcs p) x (pd_mapped p)
  (pd_unmapped p) (pd_manager p) (pd_paused p) (pd_current p) (pd_lastRtcpSentTime p) (pd_orientation p) (pd_traces p).
Definition set_pd_manager p x := RtpProducer (pd_setup p) (pd_streams p) (pd_scores p) (pd_ssrcs p) (pd_rtxSsrcs p) (pd_mapped p)
  (pd_unmapped p) (Some x) (pd_paused p) (pd_current p) (pd_lastRtcpSentTime p) (pd_orientation p) (pd_traces p).
Definition set_pd_paused p x := RtpProducer (pd_setup p) (pd_streams p) (pd_scores p) (pd_ssrcs p) (pd_rtxSsrcs p) (pd_mapped p)
  (pd_unmapped p) (pd_manager p) x (pd_current p) (pd_lastRtcpSentTime p) (pd_orientation p) (pd_traces p).
Definition set_pd_current p x := RtpProducer (pd_setup p) (pd_streams p) (pd_scores p) (pd_ssrcs p) (pd_rtxSsrcs p) (pd_mapped p)
  (pd_unmapped p) (pd_manager p) (pd_paused p) x (pd_lastRtcpSentTime p) (pd_orientation p) (pd_traces p).
Definition set_pd_lastRtcpSentTime p x := RtpProducer (pd_setup p) (pd_streams p) (pd_scores p) (pd_ssrcs p) (pd_rtxSsrcs p)
  (pd_mapped p) (pd_unmapped p) (pd_manager p) (pd_paused p) (pd_current p) x (pd_orientation p) (pd_traces p).
Definition set_pd_orientation p x := RtpProducer (pd_setup p) (pd_streams p) (pd_scores p) (pd_ssrcs p) (pd_rtxSsrcs p)
  (pd_mapped p) (pd_unmapped p) (pd_manager p) (pd_paused p) (pd_current p) (pd_lastRtcpSentTime p) (Some x) (pd_traces p).
Definition set_pd_traces p x := RtpProducer (pd_setup p) (pd_streams p) (pd_scores p) (pd_ssrcs p) (pd_rtxSsrcs p)
  (pd_mapped p) (pd_unmapped p) (pd_manager p) (pd_paused p) (pd_current p) (pd_lastRtcpSentTime p) (pd_orientation p) x.

(** The four tables and the slots, with a new stream. *)
Definition insert_stream p (idx : nat) (s : rtp_stream_recv H) (ssrc mappedSsrc : Z) :=
  RtpProducer (pd_setup p) (<[idx := Some s]> (pd_streams p)) (<[idx := RtpStream.score (rv_stream s)]> (pd_scores p))
    (<[ssrc := idx]> (pd_ssrcs p)) (pd_rtxSsrcs p) (<[idx := mappedSsrc]> (pd_mapped p)) (<[mappedSsrc := ssrc]> (pd_unmapped p))
    (pd_manager p) (pd_paused p) (pd_current p) (pd_lastRtcpSentTime p) (pd_orientation p) (pd_traces p).

(** The constructor, of what it reads of its data. *)
Definition new_Producer (video : bool) (params : rtp_params) (codecs : gmap Z Z) (entries : list mapping_entry)
    (headerExtensions : list (extension_type * Z)) (paused : bool) (keyFrameRequestDelay : Z) : outcome rtp_producer :=
  first ← match rtp_encodings params with e :: _ => Ok e | [] => Err OutOfBounds end;
  mediaCodec ← GetCodecForEncoding params first;
  _ ← require Thrown (IsValidTypeForCodec (GetType params) (MimeType.codec_of (co_type mediaCodec) (co_subtype mediaCodec)));
  _ ← mapM (check_entry (rtp_mid params) (zlen entries)) entries;
  _ ← require Thrown (bool_decide (length (rtp_encodings params) = length entries));
  ids ← fill_extension_ids (HeaderExtensionIds no_ids 0) headerExtensions;
  let count := length (rtp_encodings params) in
  Ok (RtpProducer (ProducerSetup video params (RtpMapping codecs (me_mappedSsrc <$> entries)) ids)
        (replicate count None) (replicate count 0) ∅ ∅ ∅ ∅ (if video then Some (kf_init keyFrameRequestDelay) else None)
        paused None 0 None no_traces).

Notation op := (act rtp_producer producer_event).

(** * Streams *)

Definition stream_of (p : rtp_producer) (idx : nat) : option (rtp_stream_recv H) := mjoin (pd_streams p !! idx).

Definition stream_at (idx : nat) : op (rtp_stream_recv H) :=
  p ← get; lift (match stream_of p idx with Some s => Ok s | None => Err OutOfBounds end).

Definition set_stream_at (idx : nat) (s : rtp_stream_recv H) : op unit :=
  modify (fun p => set_pd_streams p (<[idx := Some s]> (pd_streams p))).

Definition encodings_of (p : rtp_producer) : list rtp_encoding_parameters := rtp_encodings (ps_params (pd_setup p)).

(** [GetRid] of a stream: that of its encoding. *)
Definition rid_of (p : rtp_producer) (idx : nat) : list Z :=
  match encodings_of p !! idx with Some e => ep_rid e | None => [] end.

(** The streams of [mapSsrcRtpStream], as it is gone through. *)
Definition streams_in_order (p : rtp_producer) : list (Z * nat) :=
  omap (fun ssrc => pair ssrc <$> pd_ssrcs p !! ssrc) (merge_sort Z.le (map_to_list (pd_ssrcs p)).*1).

(** ** Notifications *)

Definition score_entries (p : rtp_producer) (told : nat -> option Z) : list score_entry :=
  omap (fun idx => s ← stream_of p idx;
    Some (ScoreEntry idx (RtpStreamRecv.GetSsrc s) (match rid_of p idx with [] => None | rid => Some rid end)
            (default (RtpStream.score (rv_stream s)) (told idx)))) (seq 0 (length (pd_streams p))).

(** [EmitScore]; [told]: the score that a stream is just telling. *)
Definition EmitScore (told : nat -> option Z) : op unit := p ← get; emit (EmittedScore (score_entries p told)).

Definition emit_trace (enabled : trace_types -> bool) (t : trace_event) : op unit :=
  p ← get; if enabled (pd_traces p) then emit (EmittedTrace t) else skip.

Definition EmitTraceEventPliType (ssrc : Z) : op unit := emit_trace te_pli (TracePli ssrc).
Definition EmitTraceEventFirType (ssrc : Z) : op unit := emit_trace te_fir (TraceFir ssrc).
Definition EmitTraceEventNackType : op unit := emit_trace te_nack TraceNack.

Definition EmitTraceEventRtpAndKeyFrameTypes (packet : video_packet) (isRtx : bool) : op unit :=
  p ← get;
  if te_keyframe (pd_traces p) && IsKeyFrame packet then emit (EmittedTrace (TraceKeyFrame isRtx))
  else if te_rtp (pd_traces p) then emit (EmittedTrace (TraceRtp isRtx))
  else skip.

(** ** What a stream asks for *)

(** The header of a feedback packet; AFB packets are not of the types below. *)
Definition psfb_header (p : psfb_packet) : option feedback_header :=
  match p with
  | FeedbackPsPli h | FeedbackPsSli h _ | FeedbackPsRpsi h _ | FeedbackPsFir h _ | FeedbackPsTst h _
  | FeedbackPsVbcm h _ | FeedbackPsLei h _ => Some h
  | FeedbackPsAfb _ => None
  end.

Definition rtpfb_header (p : rtpfb_packet) : option feedback_header :=
  match p with
  | FeedbackRtpNack h _ | FeedbackRtpTmmb h _ | FeedbackRtpSrReq h | FeedbackRtpTllei h _ | FeedbackRtpEcn h _ => Some h
  | FeedbackRtpTransport _ => None
  end.

(** The case of [RTPFB]; that of [PSFB] goes on with it. *)
Definition trace_rtpfb (h : option feedback_header) : op unit :=
  match h with
  | Some h => if messageType h =? NACK then EmitTraceEventNackType else skip
  | None => skip
  end.

Definition trace_psfb (h : option feedback_header) : op unit :=
  match h with
  | Some h =>
      if messageType h =? PLI then EmitTraceEventPliType (mediaSsrc h)
      else if messageType h =? FIR then EmitTraceEventFirType (mediaSsrc h)
      else skip
  | None => skip
  end.

Definition OnRtpStreamSendRtcpPacket (p : rtcp_packet) : op unit :=
  _ ← match p with
      | FeedbackPs p => _ ← trace_psfb (psfb_header p); trace_rtpfb (psfb_header p)
      | FeedbackRtp p => trace_rtpfb (rtpfb_header p)
      | _ => skip
      end;
  emit (OnProducerSendRtcpPacket p).

(** The calls of a request: packets to be sent, and no score. *)
Fixpoint handle_sent (es : list recv_event) : op unit :=
  match es with
  | [] => skip
  | SendRtcpPacket p :: es => _ ← OnRtpStreamSendRtcpPacket p; handle_sent es
  | StreamScore _ _ :: es => handle_sent es
  end.

Definition stream_RequestKeyFrame (idx : nat) : op unit :=
  s ← stream_at idx;
  '(_, s, es) ← lift (RtpStreamRecv.RequestKeyFrame s);
  _ ← set_stream_at idx s;
  handle_sent es.

(** * Key frames *)

(** The manager asks for a key frame. *)
Definition OnKeyFrameNeeded (ssrc : Z) : op unit :=
  p ← get;
  match pd_ssrcs p !! ssrc with
  | Some idx => stream_RequestKeyFrame idx
  | None => skip
  end.

Fixpoint for_all {A} (f : A -> op unit) (l : list A) : op unit :=
  match l with
  | [] => skip
  | x :: l => _ ← f x; for_all f l
  end.

(** An operation of the manager, with what it asks for. *)
Definition with_manager (f : key_frame_request_manager H -> outcome (key_frame_request_manager H * list Z)) : op unit :=
  p ← get;
  match pd_manager p with
  | Some m =>
      '(m, ssrcs) ← lift (f m);
      _ ← modify (fun p => set_pd_manager p m);
      for_all OnKeyFrameNeeded ssrcs
  | None => skip
  end.

(** The packet in [currentRtpPacket] is a key frame of the stream. *)
Definition current_key_frame (p : rtp_producer) (ssrc : Z) : outcome bool :=
  match pd_current p with
  | None => Ok false
  | Some packet => s ← RtpPacket.GetSsrc (vp_packet packet); Ok ((s =? ssrc) && IsKeyFrame packet)
  end.

Definition RequestKeyFrame (mappedSsrc : Z) : op unit :=
  p ← get;
  if bool_decide (pd_manager p = None) || pd_paused p then skip
  else
    match pd_unmapped p !! mappedSsrc with
    | None => skip
    | Some ssrc =>
        current ← lift (current_key_frame p ssrc);
        if current : bool then skip else with_manager (fun m => KeyFrameNeeded m ssrc)
    end.

(** Timers of the manager. *)
Definition OnPendingTimer (ssrc : Z) : op unit := with_manager (fun m => OnKeyFrameRequestTimeout m ssrc).
Definition OnDelayerTimer (ssrc : Z) : op unit := with_manager (fun m => OnKeyFrameDelayTimeout m ssrc).

Section listener.
Context (listener : producer_listener).

(** A call of the listener, which may ask for key frames. *)
Definition tell (e : producer_event) : op unit := _ ← emit e; for_all RequestKeyFrame (asked listener e).

Definition OnRtpStreamScore (idx : nat) (score previousScore : Z) : op unit :=
  _ ← modify (fun p => set_pd_scores p (<[idx := score]> (pd_scores p)));
  _ ← tell (OnProducerRtpStreamScore idx score previousScore);
  EmitScore (fun i => if bool_decide (i = idx) then Some score else None).

Fixpoint handle (idx : nat) (es : list recv_event) : op unit :=
  match es with
  | [] => skip
  | StreamScore score previousScore :: es => _ ← OnRtpStreamScore idx score previousScore; handle idx es
  | SendRtcpPacket p :: es => _ ← OnRtpStreamSendRtcpPacket p; handle idx es
  end.

(** An operation of a stream, with its calls. *)
Definition with_stream {A} (idx : nat) (m : act (rtp_stream_recv H) recv_event A) : op A :=
  s ← stream_at idx;
  '(a, s, es) ← lift (m s);
  _ ← set_stream_at idx s;
  _ ← handle idx es;
  mret a.

(** * Finding the stream of a packet *)

(** [params.useNack], [usePli] and [useFir], as the loop over the feedback of the codec leaves them. *)
Definition add_feedback (f : bool * bool * bool) (fb : string * string) : bool * bool * bool :=
  let '(useNack, usePli, useFir) := f in
  let '(type, parameter) := fb in
  if negb useNack && bool_decide (type = "nack"%string) && bool_decide (parameter = EmptyString) then (true, usePli, useFir)
  else if negb usePli && bool_decide (type = "nack"%string) && bool_decide (parameter = "pli"%string) then (useNack, true, useFir)
  else if negb useFir && bool_decide (type = "ccm"%string) && bool_decide (parameter = "fir"%string) then (useNack, usePli, true)
  else f.

(** [HasInteger(key) && GetInteger(key) == 1]. *)
Definition is_one (p : parameters) (key : string) : bool :=
  match p !! key with Some (Parameters.IntegerValue z) => z =? 1 | _ => false end.

(** The parameters of a new stream. *)
Definition stream_params (ssrc : Z) (c : rtp_codec_parameters) (e : rtp_encoding_parameters) : params * recv_params :=
  let '(useNack, usePli, useFir) := foldl add_feedback (false, false, false) (co_rtcpFeedback c) in
  (RtpStream.Params ssrc (co_clockRate c) 0 0 useNack,
   RecvParams (co_payloadType c) (MimeType.codec_of (co_type c) (co_subtype c)) usePli useFir
     (is_one (co_parameters c) "useinbandfec") (is_one (co_parameters c) "usedtx" || ep_dtx e)
     (ep_spatialLayers e) (ep_temporalLayers e)).

Definition CreateRtpStream (now ssrc : Z) (mediaCodec : rtp_codec_parameters) (encodingIdx : nat) : op nat :=
  p ← get;
  _ ← lift (require AssertFailed (bool_decide (pd_ssrcs p !! ssrc = None)));
  slot ← lift (match pd_streams p !! encodingIdx with Some x => Ok x | None => Err OutOfBounds end);
  _ ← lift (require AssertFailed (bool_decide (slot = None)));
  encoding ← lift (match encodings_of p !! encodingIdx with Some e => Ok e | None => Err OutOfBounds end);
  mappedSsrc ← lift (match mp_encodings (ps_mapping (pd_setup p)) !! encodingIdx with Some m => Ok m | None => Err OutOfBounds end);
  let '(par, rp) := stream_params ssrc mediaCodec encoding in
  s ← lift (new_RtpStreamRecv par rp now);
  _ ← modify (fun p => insert_stream p encodingIdx s ssrc mappedSsrc);
  _ ← (if pd_paused p then with_stream encodingIdx Pause else skip);
  _ ← EmitScore (fun _ => None);
  mret encodingIdx.

(** A stream without RTX gets the RTX stream of the packet. *)
Definition add_rtx (idx : nat) (payloadType ssrc : Z) : op (option nat) :=
  s ← stream_at idx;
  if recv_HasRtx s then mret None
  else
    _ ← with_stream idx (recv_SetRtx payloadType ssrc);
    _ ← modify (fun p => set_pd_rtxSsrcs p (<[ssrc := idx]> (pd_rtxSsrcs p)));
    mret (Some idx).

(** The codecs of an encoding that have the payload type: of media, or of RTX. *)
Definition packet_kind (params : rtp_params) (e : rtp_encoding_parameters) (payloadType : Z)
  : outcome (rtp_codec_parameters * bool * bool) :=
  mediaCodec ← GetCodecForEncoding params e;
  rtxCodec ← GetRtxCodecForEncoding params e;
  Ok (mediaCodec, co_payloadType mediaCodec =? payloadType,
      match rtxCodec with Some c => co_payloadType c =? payloadType | None => false end).

(** The three lookups: [None] when there is nothing to return yet. *)
Abbreviation lookup := (option (option nat)).

Fixpoint ssrc_lookup (now payloadType ssrc : Z) (params : rtp_params) (i : nat) (encodings : list rtp_encoding_parameters) : op lookup :=
  match encodings with
  | [] => mret None
  | e :: encodings =>
      '(mediaCodec, isMediaPacket, isRtxPacket) ← lift (packet_kind params e payloadType);
      if isMediaPacket && (ep_ssrc e =? ssrc) then idx ← CreateRtpStream now ssrc mediaCodec i; mret (Some (Some idx))
      else if isRtxPacket && bool_decide (ep_rtx e = Some ssrc) then
        p ← get;
        match pd_ssrcs p !! ep_ssrc e with
        | None => mret (Some None)
        | Some idx => r ← add_rtx idx payloadType ssrc; mret (Some r)
        end
      else ssrc_lookup now payloadType ssrc params (S i) encodings
  end.

(** The first stream with the RID. *)
Definition find_rid (p : rtp_producer) (rid : list Z) : option nat :=
  head (filter (fun idx => rid_of p idx = rid) (streams_in_order p).*2).

Fixpoint rid_lookup (now payloadType ssrc : Z) (rid : list Z) (params : rtp_params) (i : nat) (encodings : list rtp_encoding_parameters)
  : op (option nat) :=
  match encodings with
  | [] => mret None
  | e :: encodings =>
      if bool_decide (ep_rid e <> rid) then rid_lookup now payloadType ssrc rid params (S i) encodings
      else
        '(mediaCodec, isMediaPacket, isRtxPacket) ← lift (packet_kind params e payloadType);
        p ← get;
        if isMediaPacket : bool then
          match find_rid p rid with
          | Some _ => mret None
          | None => idx ← CreateRtpStream now ssrc mediaCodec i; mret (Some idx)
          end
        else if isRtxPacket : bool then
          match find_rid p rid with
          | Some idx => add_rtx idx payloadType ssrc
          | None => mret None
          end
        else rid_lookup now payloadType ssrc rid params (S i) encodings
  end.

Definition single_lookup (now payloadType ssrc : Z) (params : rtp_params) : op (option nat) :=
  match rtp_encodings params with
  | [e] =>
      if negb (truthy (ep_ssrc e)) && bool_decide (ep_rid e = []) then
        '(mediaCodec, isMediaPacket, isRtxPacket) ← lift (packet_kind params e payloadType);
        p ← get;
        if isMediaPacket : bool then
          if bool_decide (pd_ssrcs p = ∅) then idx ← CreateRtpStream now ssrc mediaCodec 0; mret (Some idx) else mret None
        else if isRtxPacket : bool then
          match streams_in_order p with
          | [] => mret None
          | (_, idx) :: _ => add_rtx idx payloadType ssrc
          end
        else mret None
      else mret None
  | _ => mret None
  end.

Definition GetRtpStream (now : Z) (packet : rtp_packet) : op (option nat) :=
  ssrc ← lift (RtpPacket.GetSsrc packet);
  payloadType ← lift (GetPayloadType packet);
  p ← get;
  let params := ps_params (pd_setup p) in
  match pd_ssrcs p !! ssrc with
  | Some idx => mret (Some idx)
  | None =>
      match pd_rtxSsrcs p !! ssrc with
      | Some idx => mret (Some idx)
      | None =>
          r ← ssrc_lookup now payloadType ssrc params 0 (rtp_encodings params);
          match r with
          | Some idx => mret idx
          | None =>
              rid ← lift (ReadRid packet);
              match rid with
              | Some rid => rid_lookup now payloadType ssrc rid params 0 (rtp_encodings params)
              | None => single_lookup now payloadType ssrc params
              end
          end
      end
  end.

(** * Rewriting a packet *)

Definition PreProcessRtpPacket (u : producer_setup) (packet : rtp_packet) : rtp_packet :=
  if ps_video u then
    let i := ids packet in
    set_ids packet (ExtensionIds (midExtensionId i) (ridExtensionId i) (rridExtensionId i) (absSendTimeExtensionId i)
      (transportWideCc01ExtensionId i) (frameMarking07ExtensionId (hx_ids (ps_ids u))) (frameMarkingExtensionId (hx_ids (ps_ids u)))
      (ssrcAudioLevelExtensionId i) (videoOrientationExtensionId i))
  else packet.

(** An extension that is passed on with a new id: its value is copied. *)
Definition proxied (packet : rtp_packet) (id : Z) (t : extension_type) : outcome (list generic_extension) :=
  e ← GetExtension packet id;
  match e with
  | Some (value, len) => v ← slice (mem packet) value len; Ok [GenericExtension (extension_number t) len v]
  | None => Ok []
  end.

(** A value of zeros: room for those who send the packet. *)
Definition reserved (t : extension_type) (len : Z) : generic_extension :=
  GenericExtension (extension_number t) len (replicate (Z.to_nat len) 0).

Definition mangled_extensions (u : producer_setup) (packet : rtp_packet) : outcome (list generic_extension) :=
  let i := hx_ids (ps_ids u) in
  if ps_video u then
    a ← proxied packet (frameMarking07ExtensionId i) FRAME_MARKING_07;
    b ← proxied packet (frameMarkingExtensionId i) FRAME_MARKING;
    c ← proxied packet (videoOrientationExtensionId i) VIDEO_ORIENTATION;
    d ← proxied packet (hx_toffset (ps_ids u)) TOFFSET;
    Ok ([reserved MID MidMaxLength; reserved ABS_SEND_TIME 3; reserved TRANSPORT_WIDE_CC_01 2] ++ a ++ b ++ c ++ d)
  else
    a ← proxied packet (ssrcAudioLevelExtensionId i) SSRC_AUDIO_LEVEL;
    Ok (reserved MID MidMaxLength :: a).

(** The ids that the packet has from then on. *)
Definition router_ids : extension_ids :=
  ExtensionIds (extension_number MID) 0 0 (extension_number ABS_SEND_TIME) (extension_number TRANSPORT_WIDE_CC_01)
    (extension_number FRAME_MARKING_07) (extension_number FRAME_MARKING) (extension_number SSRC_AUDIO_LEVEL)
    (extension_number VIDEO_ORIENTATION).

Definition MangleRtpPacket (p : rtp_producer) (packet : rtp_packet) (idx : nat) : outcome (rtp_packet * bool) :=
  payloadType ← GetPayloadType packet;
  match mp_codecs (ps_mapping (pd_setup p)) !! payloadType with
  | None => Ok (packet, false)
  | Some mappedPayloadType =>
      packet ← SetPayloadType packet mappedPayloadType;
      mappedSsrc ← match pd_mapped p !! idx with Some m => Ok m | None => Err AssertFailed end;
      packet ← SetSsrc packet mappedSsrc;
      extensions ← mangled_extensions (pd_setup p) packet;
      packet ← SetExtensions packet 1 extensions;
      Ok (set_ids packet router_ids, true)
  end.

(** The orientation of a video packet, when it is new or has changed. *)
Definition PostProcessRtpPacket (packet : rtp_packet) : op unit :=
  p ← get;
  if ps_video (pd_setup p) then
    o ← lift (ReadVideoOrientation packet);
    match o with
    | Some (camera, flip, rotation) =>
        if bool_decide (pd_orientation p = Some (camera, flip, rotation)) then skip
        else
          _ ← modify (fun p => set_pd_orientation p (camera, flip, rotation));
          emit (EmittedOrientation camera flip rotation)
    | None => skip
    end
  else skip.

(** * Receiving *)

Definition NotifyNewRtpStream (idx : nat) : op unit :=
  p ← get;
  mappedSsrc ← lift (match pd_mapped p !! idx with Some m => Ok m | None => Err AssertFailed end);
  tell (OnProducerNewRtpStream idx mappedSsrc).

(** The packet is given to its stream: what is left of it, the result, and whether to go on. *)
Definition process_packet (now : Z) (idx : nat) (packet : rtp_packet) : op (video_packet * receive_result * bool) :=
  ssrc ← lift (RtpPacket.GetSsrc packet);
  s ← stream_at idx;
  if ssrc =? RtpStreamRecv.GetSsrc s then
    '(packet, ok) ← with_stream idx (RtpStreamRecv.ReceivePacket now packet); mret (packet, MEDIA, ok)
  else if ssrc =? par_rtxSsrc (RtpStream.par (rv_stream s)) then
    '(packet, ok) ← with_stream idx (ReceiveRtxPacket now packet); mret (packet, RETRANSMISSION, ok)
  else lift (Err AssertFailed).

(** The manager is told of a key frame. *)
Definition key_frame_received (packet : video_packet) : op unit :=
  if IsKeyFrame packet then
    ssrc ← lift (RtpPacket.GetSsrc (vp_packet packet));
    with_manager (fun m => KeyFrameReceived m ssrc)
  else skip.

(** A new stream: a key frame is asked for, and the listener is told. *)
Definition announce (idx : nat) (packet : video_packet) : op unit :=
  p ← get;
  _ ← (if negb (pd_paused p) && negb (IsKeyFrame packet) then
         ssrc ← lift (RtpPacket.GetSsrc (vp_packet packet));
         with_manager (fun m => ForceKeyFrameNeeded m ssrc)
       else skip);
  _ ← modify (fun p => set_pd_current p (Some packet));
  _ ← NotifyNewRtpStream idx;
  modify (fun p => set_pd_current p None).

(** The packet goes to the listener, unless the producer is paused or does not know its payload type. *)
Definition deliver (idx : nat) (packet : video_packet) (result : receive_result) : op (video_packet * receive_result) :=
  p ← get;
  if pd_paused p then mret (packet, result)
  else
    _ ← EmitTraceEventRtpAndKeyFrameTypes packet (match result with RETRANSMISSION => true | _ => false end);
    '(q, ok) ← lift (MangleRtpPacket p (vp_packet packet) idx);
    let packet := VideoPacket q (vp_handler packet) in
    if negb ok then mret (packet, DISCARDED)
    else
      _ ← PostProcessRtpPacket q;
      _ ← tell (OnProducerRtpPacketReceived packet);
      mret (packet, result).

Definition ReceiveRtpPacket (now : Z) (packet : rtp_packet) : op (video_packet * receive_result) :=
  _ ← modify (fun p => set_pd_current p None);
  before ← get;
  stream ← GetRtpStream now packet;
  match stream with
  | None => mret (VideoPacket packet None, DISCARDED)
  | Some idx =>
      p ← get;
      let isNew := (base.size (pd_ssrcs before) <? base.size (pd_ssrcs p))%nat in
      '(packet, result, ok) ← process_packet now idx (PreProcessRtpPacket (pd_setup p) packet);
      if negb ok then
        _ ← (match result with MEDIA => if isNew then NotifyNewRtpStream idx else skip | _ => skip end);
        mret (packet, result)
      else
        _ ← key_frame_received packet;
        _ ← (if isNew then announce idx packet else skip);
        deliver idx packet result
  end.

(** * RTCP *)

Definition ReceiveRtcpSenderReport `{PowFunction} (now : Z) (report : sender_report) : op unit :=
  p ← get;
  match pd_ssrcs p !! sr_ssrc report with
  | Some idx =>
      s ← stream_at idx;
      let first := (rv_ntp s).1 =? 0 in
      _ ← with_stream idx (RtpStreamRecv.ReceiveRtcpSenderReport report now);
      tell (OnProducerRtcpSenderReport idx first)
  | None =>
      match pd_rtxSsrcs p !! sr_ssrc report with
      | Some idx => with_stream idx (RtpStreamRecv.ReceiveRtxRtcpSenderReport report now)
      | None => skip
      end
  end.

Definition ReceiveRtcpXrDelaySinceLastRr (now : Z) (info : ssrc_info) : op unit :=
  p ← get;
  match pd_ssrcs p !! si_ssrc info with
  | Some idx => with_stream idx (RtpStreamRecv.ReceiveRtcpXrDelaySinceLastRr info now)
  | None => skip
  end.

(** [1.15], and the conversion of a [double] to a [float]. *)
Definition double_1_15 : spec_float := S754_finite false 5179139571476070 (-52).

Definition double_to_float (d : spec_float) : spec_float :=
  match d with
  | S754_finite s m e => binary_normalize 24 128 (if s then Z.neg m else Z.pos m) e s
  | _ => d
  end.

Definition too_early (u : producer_setup) (lastRtcpSentTime nowMs : Z) : bool :=
  SFltb (double_to_float (SFmul 53 1024 (double_of_Z (u64 (nowMs - lastRtcpSentTime))) double_1_15)) (float_of_Z (maxRtcpInterval u)).

(** [OnRtpStreamNeedWorstRemoteFractionLost]. *)
Definition NeedWorstRemoteFractionLost (idx : nat) : op Z :=
  p ← get;
  mappedSsrc ← lift (match pd_mapped p !! idx with Some m => Ok m | None => Err AssertFailed end);
  mret (worst_lost listener mappedSsrc).

(** The reports of one stream: of media, and of RTX if it has it. *)
Definition stream_reports (nowMs : Z) (idx : nat) : op (list receiver_report) :=
  s ← stream_at idx;
  worst ← (if rp_useInBandFec (rv_par s) then NeedWorstRemoteFractionLost idx else mret 0);
  report ← with_stream idx (GetRtcpReceiverReport nowMs worst);
  rtxReport ← with_stream idx (GetRtxRtcpReceiverReport nowMs);
  mret (report :: option_list rtxReport).

Fixpoint all_reports (nowMs : Z) (l : list (Z * nat)) : op (list receiver_report) :=
  match l with
  | [] => mret []
  | (_, idx) :: l => rs ← stream_reports nowMs idx; rs' ← all_reports nowMs l; mret (rs ++ rs')
  end.

Definition GetRtcp (packet : compound_packet) (nowMs : Z) : op compound_packet :=
  p ← get;
  if too_early (pd_setup p) (pd_lastRtcpSentTime p) nowMs then mret packet
  else
    reports ← all_reports nowMs (streams_in_order p);
    let packet := foldl AddReceiverReport packet reports in
    let packet := if HasReceiverReferenceTime packet then packet
                  else let '(seconds, fractions) := TimeMs2Ntp nowMs in
                       AddReceiverReferenceTime packet (ReceiverReferenceTime seconds fractions) in
    _ ← modify (fun p => set_pd_lastRtcpSentTime p nowMs);
    mret packet.

(** * Requests *)

Definition HandlePause : op unit :=
  p ← get;
  if pd_paused p then skip
  else
    _ ← for_all (fun kv => with_stream kv.2 Pause) (streams_in_order p);
    _ ← modify (fun p => set_pd_paused p true);
    tell OnProducerPaused.

Definition HandleResume : op unit :=
  p ← get;
  if negb (pd_paused p) then skip
  else
    _ ← for_all (fun kv => with_stream kv.2 Resume) (streams_in_order p);
    _ ← modify (fun p => set_pd_paused p false);
    _ ← tell OnProducerResumed;
    p ← get;
    for_all (fun kv => with_manager (fun m => ForceKeyFrameNeeded m kv.1)) (streams_in_order p).

(** The types of a request: those of its strings that are known. *)
Definition trace_types_of (types : list string) : trace_types :=
  let has s := bool_decide (s ∈ types) in
  TraceEventTypes (has "rtp"%string) (has "keyframe"%string) (has "nack"%string) (has "pli"%string) (has "fir"%string).

Definition HandleEnableTraceEvent (types : option (list (option string))) : op unit :=
  types ← lift (match types with Some l => match mapM id l with Some l => Ok l | None => Err Thrown end | None => Err Thrown end);
  modify (fun p => set_pd_traces p (trace_types_of types)).

(** Timers of a stream. *)
Definition OnInactivityTimer (now : Z) (idx : nat) : op unit := with_stream idx (RtpStreamRecv.OnTimer now).
Definition OnGeneratorTimer (now : Z) (idx : nat) : op unit := with_stream idx (OnNackTimer now).
End listener.
End producer.

Arguments rtp_producer H : clear implicits.
