(* ===== verification/ProducerPackets.v ===== *)
(** The packet that a producer rewrites for the router: payload type, SSRC and
    header extensions are those that consumers know, and the rest stays. *)

From S2P Require Export RtpExtensions RecvFacts RtpParameters Producer.
From S2P Require Import RtpStreamRecv Producer.

(** * Changes of the fixed header *)

(** A change of the second byte, of the numbers, of the SSRC. *)
Record header_changed (p q : rtp_packet) : Prop := HeaderChanged {
  hc_shape : same_shape p q;
  hc_lengths : payloadLength q = payloadLength p /\ payloadPadding q = payloadPadding p /\ size q = size p;
  hc_bytes : bytes (mem q);
  hc_frame : forall i, i = 0 \/ 12 <= i -> get1 (mem q) i = get1 (mem p) i
}.

Lemma header_changed_wf p q : rtp_wf p -> header_changed p q -> rtp_wf q.
Proof.
  intros Hwf [(Hc & Hh & Hp & _ & _ & _ & Hz) (Hl & Hk & Hs) Hb Hf]. destruct (wf_payload p Hwf) as (H12 & _ & _). unfold HeaderSize in H12.
  pose proof Hwf as [Hm Hfit _ _ (? & ? & ?) (Hpad & Hpadb)].
  assert (forall lo n, get_bits (mem q) 0 lo n = get_bits (mem p) 0 lo n) as G by (intros; apply get_bits_ext, Hf; by left).
  apply (wf_rebuild p); try done; rewrite ?Hl, ?Hk, ?Hs, ?Hz; try done; try lia.
  - apply G.
  - apply G.
  - apply G.
  - intros i Hi. unfold HeaderSize in Hi. apply Hf. lia.
  - rewrite <- Hpad. apply G.
  - intros Hn. rewrite Hf by lia. by apply Hpadb.
Qed.

Lemma header_changed_extension p q id : rtp_wf p -> maps_ok p -> header_changed p q -> GetExtension q id = GetExtension p id.
Proof.
  intros Hwf Hmaps [(Hc & Hh & Hp & H1 & H2 & _ & Hz) _ _ Hf]. unfold GetExtension.
  destruct (id =? 0); [done|]. unfold HasOneByteExtensions, HasTwoBytesExtensions, GetHeaderExtensionId, maps_ok in *.
  rewrite Hh, H1, H2. destruct (headerExtension p) as [h|] eqn:Eh; [|done].
  destruct Hwf as [Hb _ _ (count & Hcount & _ & Hlay) _ _]. rewrite Eh in Hlay. destruct Hlay as (_ & -> & n & Hn & _).
  apply get_bits_range in Hcount; [|lia]. unfold HeaderSize in *. rewrite (Get2Bytes_ext (mem p) (mem q)) by (intros; apply Hf; lia).
  destruct (Get2Bytes (mem p) (12 + count * 4)) as [i|] eqn:Ei; ostep; [|done]. destruct (Hmaps n Hn) as [M1 M2]. destruct (i =? 48862).
  - destruct (mapOneByteExtensions p !! id) as [e|] eqn:E; [|done]. destruct (M1 _ _ E) as (_ & ? & _).
    by rewrite (get_bits_ext (mem p)) by (apply Hf; lia).
  - destruct (Z.land i 65520 =? 4096); [|done]. destruct (mapTwoBytesExtensions p !! id) as [e|] eqn:E; [|done].
    destruct (M2 _ _ E) as (_ & ? & _). by rewrite Hf by lia.
Qed.

Lemma SetPayloadType_changed p v : rtp_wf p -> exists q, SetPayloadType p v = Ok q /\ header_changed p q /\
  GetPayloadType q = Ok (Z.land v 127) /\ HasMarker q = HasMarker p /\ forall i, i <> 1 -> get1 (mem q) i = get1 (mem p) i.
Proof.
  intros Hwf. destruct (wf_payload p Hwf) as (H12 & Hend & _). unfold HeaderSize in H12. pose proof (wf_lengths p Hwf) as (? & ? & ?).
  destruct (set_bits_in_bounds (mem p) 1 0 7 v) as (m & E); [lia|]. pose proof (wf_bytes p Hwf) as Hm.
  unfold SetPayloadType, GetPayloadType, HasMarker. rewrite E. ostep. eexists. split; [done|]. cbn [mem set_mem].
  assert (forall i, i <> 1 -> get1 m i = get1 (mem p) i) as Hf by (intros; by eapply get1_set_bits_other).
  split; [split; try done|split; [|split; [|done]]].
  - split_and!; try done. cbn. by apply zlen_set_bits in E.
  - by apply (bytes_set_bits _ _ 0 7 _ _ Hm ltac:(lia) ltac:(lia) ltac:(lia) E).
  - intros i Hi. apply Hf. lia.
  - rewrite (get_bits_set_same (mem p) 1 0 7 v m); [done|lia|lia|exact E].
  - rewrite (get_bits_set_other (mem p) 1 0 7 v m 1 7 1); [done|lia..|done].
Qed.

Lemma SetSsrc_changed p v : rtp_wf p -> exists q, SetSsrc p v = Ok q /\ header_changed p q /\
  RtpPacket.GetSsrc q = Ok (u32 v) /\ forall i, i < 8 \/ 12 <= i -> get1 (mem q) i = get1 (mem p) i.
Proof.
  intros Hwf. destruct (wf_payload p Hwf) as (H12 & Hend & _). unfold HeaderSize in H12. pose proof (wf_lengths p Hwf) as (? & ? & ?).
  pose proof (wf_bytes p Hwf) as Hm. destruct (sets_Set4Bytes (mem p) 8 v) as (m & E & [L F] & B & _); [lia|lia|].
  change (Z.of_nat 4) with 4 in *. unfold SetSsrc. rewrite E. ostep. eexists. split; [done|].
  split; [split; try done; [by apply B|intros i Hi; apply F; lia]|]. split; [|intros i Hi; apply F; lia].
  unfold RtpPacket.GetSsrc. by eapply Set4Bytes_read; [apply B|].
Qed.

Lemma header_changed_trans p q r : header_changed p q -> header_changed q r -> header_changed p r.
Proof.
  intros [(A1 & A2 & A3 & A4 & A5 & A6 & A7) (A8 & A9 & A10) _ A11] [(B1 & B2 & B3 & B4 & B5 & B6 & B7) (B8 & B9 & B10) B11 B12].
  split; [split_and!; congruence|split_and!; congruence|done|]. intros i Hi. rewrite B12, A11; done.
Qed.

(** The header and its extension are as they were. *)
Lemma same_shape_maps p q : rtp_wf p -> maps_ok p -> same_shape p q ->
  (forall i, 12 <= i < payload p -> get1 (mem q) i = get1 (mem p) i) -> maps_ok q.
Proof.
  intros Hwf Hmaps (Hc & Hh & Hp & H1 & H2 & _ & Hz) Hf. unfold maps_ok in *. rewrite Hh, H1, H2.
  destruct (headerExtension p) as [h|] eqn:Eh; [|done]. destruct Hwf as [Hb _ _ (count & Hcount & _ & Hlay) _ _]. rewrite Eh in Hlay.
  destruct Hlay as (_ & -> & n & Hn & Hpay). apply get_bits_range in Hcount; [|lia]. pose proof (Get2Bytes_range _ _ _ Hb Hn) as [Hn0 _].
  unfold HeaderSize in *. intros k. rewrite (Get2Bytes_ext (mem p) (mem q)) by (intros; apply Hf; lia). intros Ek.
  assert (k = n) as -> by congruence. destruct (Hmaps n Ek) as [M1 M2].
  split; [eapply one_byte_entries_ext; [|exact M1]|eapply two_bytes_entries_ext; [|exact M2]]; intros; apply Hf; lia.
Qed.

Lemma header_changed_maps p q : rtp_wf p -> maps_ok p -> header_changed p q -> maps_ok q.
Proof. intros Hwf Hmaps [Hs _ _ Hf]. eapply same_shape_maps; [done..|]. intros; apply Hf; lia. Qed.

(** * Values of extensions *)

(** The packet has an extension of that id with the value. *)
Definition has_extension (p : rtp_packet) (id : Z) (v : list Z) : Prop :=
  exists off, GetExtension p id = Ok (Some (off, zlen v)) /\ slice (mem p) off (zlen v) = Ok v.

Lemma GetExtension_len p id v len : bytes (mem p) -> GetExtension p id = Ok (Some (v, len)) -> len < 256.
Proof.
  intros Hm. unfold GetExtension. destruct (id =? 0); [done|]. intros (one & _ & E)%bind_Ok. destruct one.
  - destruct (mapOneByteExtensions p !! id) as [e|]; [|done]. apply bind_Ok in E as (l & El & [= _ <-]).
    apply get_bits_range in El; [|lia]. lia.
  - apply bind_Ok in E as (two & _ & E). destruct two; [|done]. destruct (mapTwoBytesExtensions p !! id) as [e|]; [|done].
    apply bind_Ok in E as (l & El & E). apply (get1_byte _ _ _ Hm) in El. destruct (l =? 0); [done|]. injection E as _ <-. apply El.
Qed.

Lemma GetExtension_offset p id v len : rtp_wf p -> maps_ok p -> GetExtension p id = Ok (Some (v, len)) -> 12 <= v.
Proof.
  intros Hwf Hmaps. unfold GetExtension. destruct (id =? 0); [done|].
  unfold HasOneByteExtensions, HasTwoBytesExtensions, GetHeaderExtensionId, maps_ok in *.
  destruct (headerExtension p) as [h|] eqn:Eh; [|done]. destruct Hwf as [Hb _ _ (count & Hcount & _ & Hlay) _ _]. rewrite Eh in Hlay.
  destruct Hlay as (_ & -> & n & Hn & _). apply get_bits_range in Hcount; [|lia]. unfold HeaderSize in *. destruct (Hmaps n Hn) as [M1 M2].
  intros (one & _ & E)%bind_Ok. destruct one.
  - destruct (mapOneByteExtensions p !! id) as [e|] eqn:Ee; [|done]. destruct (M1 _ _ Ee) as (_ & ? & _).
    apply bind_Ok in E as (? & _ & [= <- _]). lia.
  - apply bind_Ok in E as (two & _ & E). destruct two; [|done]. destruct (mapTwoBytesExtensions p !! id) as [e|] eqn:Ee; [|done].
    destruct (M2 _ _ Ee) as (_ & ? & _). apply bind_Ok in E as (l & _ & E). destruct (l =? 0); [done|]. injection E as <- _. lia.
Qed.

(** What is passed on of an extension: nothing, or its value with the new id. *)
Lemma proxied_spec p id t : rtp_wf p -> maps_ok p -> extension_number t <> 0 -> extension_number t <= 14 -> exists l, proxied p id t = Ok l /\
  Forall element_ok l /\ extensions_size 1 l <= 17 /\ Forall (fun e => ge_id e = extension_number t) l /\ (length l <= 1)%nat /\
  forall v, has_extension p id v -> l = [GenericExtension (extension_number t) (zlen v) v].
Proof.
  intros Hwf Hmaps Hn0 Hn14. unfold proxied. destruct (GetExtension_in_buffer p Hwf Hmaps id) as (r & Er & Hr). rewrite Er. ostep.
  destruct r as [[off len]|].
  - destruct (Hr off len eq_refl) as (? & ? & ?). destruct (slice_in_bounds (mem p) off len) as [v Ev]; [lia..|]. rewrite Ev. ostep.
    pose proof (zlen_slice _ _ _ _ Ev) as Lv. pose proof (GetExtension_len _ _ _ _ (wf_bytes p Hwf) Er).
    eexists. split; [done|]. split; [|split; [|split; [by apply Forall_singleton|split; [done|]]]].
    + apply Forall_singleton. split; [cbn; unfold in_uint; destruct t; cbn in *; lia|]. split; [cbn; unfold in_uint; lia|].
      split; [by eapply bytes_slice; [apply (wf_bytes p Hwf)|exact Ev]|cbn; lia].
    + cbn [extensions_size]. unfold extension_kept, extension_size. cbn [ge_id ge_len Z.eqb Pos.eqb].
      destruct (Z.ltb_spec 16 len); rewrite ?orb_true_r; cbn [negb]; [lia|]. destruct (negb _); lia.
    + intros w (off' & Ew & Sw). rewrite Er in Ew. injection Ew as <- Elen. rewrite <- Elen, Ev in Sw. injection Sw as <-. by rewrite Lv.
  - exists []. split; [done|]. split; [constructor|]. split; [cbn; lia|]. split; [constructor|]. split; [cbn; lia|].
    intros v (off & Ev & _). congruence.
Qed.

(** What a producer passes on, and the new ids. *)
Definition passed_on (u : producer_setup) : list (Z * extension_type) :=
  let i := hx_ids (ps_ids u) in
  if ps_video u then [(frameMarking07ExtensionId i, FRAME_MARKING_07); (frameMarkingExtensionId i, FRAME_MARKING);
                      (videoOrientationExtensionId i, VIDEO_ORIENTATION); (hx_toffset (ps_ids u), TOFFSET)]
  else [(ssrcAudioLevelExtensionId i, SSRC_AUDIO_LEVEL)].

(** What it makes room for. *)
Definition made_room (u : producer_setup) : list (extension_type * Z) :=
  (MID, MidMaxLength) :: (if ps_video u then [(ABS_SEND_TIME, 3); (TRANSPORT_WIDE_CC_01, 2)] else []).

Definition exts_ok (l : list generic_extension) (ts : list extension_type) : Prop :=
  Forall element_ok l /\ NoDup (ge_id <$> l) /\ Forall (fun e => exists t, t ∈ ts /\ ge_id e = extension_number t) l.

Lemma exts_ok_app l k ts us : exts_ok l ts -> exts_ok k us -> (forall t u, t ∈ ts -> u ∈ us -> extension_number t <> extension_number u) ->
  exts_ok (l ++ k) (ts ++ us).
Proof.
  intros (A1 & A2 & A3) (B1 & B2 & B3) Hd. split; [by apply Forall_app|]. split.
  - rewrite fmap_app. apply NoDup_app. split; [done|]. split; [|done]. intros x (e & -> & He)%list_elem_of_fmap (e' & E & He')%list_elem_of_fmap.
    rewrite Forall_forall in A3, B3. destruct (A3 e He) as (t & Ht & Et). destruct (B3 e' He') as (u & Hu & Eu). apply (Hd t u Ht Hu). congruence.
  - apply Forall_app. split; [eapply Forall_impl; [exact A3|]|eapply Forall_impl; [exact B3|]]; intros e (t & Ht & Et); exists t; set_solver.
Qed.

Lemma extensions_size_app type l k : extensions_size type (l ++ k) = extensions_size type l + extensions_size type k.
Proof. induction l as [|e l IH]; [done|]. cbn [extensions_size app]. rewrite IH. lia. Qed.

Lemma proxied_exts p id t : rtp_wf p -> maps_ok p -> extension_number t <> 0 -> extension_number t <= 14 -> exists l, proxied p id t = Ok l /\
  exts_ok l [t] /\ extensions_size 1 l <= 17 /\
  forall v, has_extension p id v -> GenericExtension (extension_number t) (zlen v) v ∈ l.
Proof.
  intros Hwf Hmaps H0 H14. destruct (proxied_spec p id t Hwf Hmaps H0 H14) as (l & E & A1 & A2 & A3 & A4 & A5). exists l.
  split; [done|]. split; [|split; [done|intros v Hv; rewrite (A5 v Hv); left]]. split; [done|]. split.
  - destruct l as [|e [|? ?]]; [constructor| |cbn in A4; lia]. apply NoDup_singleton.
  - eapply Forall_impl; [exact A3|]. intros e Ee. exists t. split; [left|done].
Qed.

Lemma reserved_exts t n : extension_number t <> 0 -> 0 <= n < 256 -> exts_ok [reserved t n] [t].
Proof.
  intros H0 Hn. split; [|split; [apply NoDup_singleton|apply Forall_singleton; exists t; split; [left|done]]].
  apply Forall_singleton. unfold element_ok, reserved. cbn. split; [unfold in_uint; destruct t; cbn; lia|]. split; [done|]. split.
  - by apply Forall_replicate.
  - unfold zlen. rewrite length_replicate. lia.
Qed.

Lemma mangled_extensions_spec u p : rtp_wf p -> maps_ok p -> exists es, mangled_extensions u p = Ok es /\
  Forall element_ok es /\ NoDup (ge_id <$> es) /\ extensions_size 1 es <= 84 /\
  (forall t n, (t, n) ∈ made_room u -> reserved t n ∈ es) /\
  (forall id t v, (id, t) ∈ passed_on u -> has_extension p id v -> GenericExtension (extension_number t) (zlen v) v ∈ es).
Proof.
  intros Hwf Hmaps. unfold mangled_extensions, made_room, passed_on. destruct (ps_video u).
  - destruct (proxied_exts p (frameMarking07ExtensionId (hx_ids (ps_ids u))) FRAME_MARKING_07 Hwf Hmaps) as (a & -> & A1 & A2 & A3); [done..|].
    destruct (proxied_exts p (frameMarkingExtensionId (hx_ids (ps_ids u))) FRAME_MARKING Hwf Hmaps) as (b & -> & B1 & B2 & B3); [done..|].
    destruct (proxied_exts p (videoOrientationExtensionId (hx_ids (ps_ids u))) VIDEO_ORIENTATION Hwf Hmaps) as (c & -> & C1 & C2 & C3); [done..|].
    destruct (proxied_exts p (hx_toffset (ps_ids u)) TOFFSET Hwf Hmaps) as (d & -> & D1 & D2 & D3); [done..|]. ostep.
    eexists. split; [done|]. set (head := [reserved MID MidMaxLength; reserved ABS_SEND_TIME 3; reserved TRANSPORT_WIDE_CC_01 2]).
    assert (exts_ok head [MID; ABS_SEND_TIME; TRANSPORT_WIDE_CC_01]) as Hh.
    { apply (exts_ok_app [_] [_; _] [_] [_; _]); [by apply reserved_exts| |set_solver].
      apply (exts_ok_app [_] [_] [_] [_]); [by apply reserved_exts..|set_solver]. }
    assert (exts_ok (head ++ a ++ b ++ c ++ d) ([MID; ABS_SEND_TIME; TRANSPORT_WIDE_CC_01] ++ [FRAME_MARKING_07] ++ [FRAME_MARKING] ++ [VIDEO_ORIENTATION] ++ [TOFFSET])) as (E1 & E2 & _).
    { repeat (apply exts_ok_app; [done| |intros t t'; rewrite ?elem_of_app, ?elem_of_cons, ?elem_of_nil; intros; destruct_or!; subst; done]). done. }
    split; [done|]. split; [done|]. rewrite !extensions_size_app. change (extensions_size 1 head) with 16. split; [lia|]. split.
    + intros t n Hin. apply elem_of_app. left. unfold head. set_solver.
    + intros id t v Hin Hv. rewrite !elem_of_app. repeat (apply elem_of_cons in Hin as [[= -> ->]|Hin]; [naive_solver|]). by apply elem_of_nil in Hin.
  - destruct (proxied_exts p (ssrcAudioLevelExtensionId (hx_ids (ps_ids u))) SSRC_AUDIO_LEVEL Hwf Hmaps) as (a & -> & A1 & A2 & A3); [done..|]. ostep.
    eexists. split; [done|]. assert (exts_ok ([reserved MID MidMaxLength] ++ a) ([MID] ++ [SSRC_AUDIO_LEVEL])) as (E1 & E2 & _).
    { apply exts_ok_app; [by apply reserved_exts|done|]. intros t t'; rewrite !elem_of_cons, !elem_of_nil; intros; destruct_or!; subst; done. }
    split; [done|]. split; [done|]. change (reserved MID MidMaxLength :: a) with ([reserved MID MidMaxLength] ++ a).
    rewrite extensions_size_app. change (extensions_size 1 [reserved MID MidMaxLength]) with 9. split; [lia|]. split.
    + intros t n Hin. apply elem_of_app. left. set_solver.
    + intros id t v Hin Hv. apply elem_of_app. right. apply elem_of_cons in Hin as [[= -> ->]|Hin]; [by apply A3|]. by apply elem_of_nil in Hin.
Qed.

(** * The rewritten packet *)

Lemma set_extensions_found p es e q : rtp_wf p -> fits_extensions p 1 es -> NoDup (ge_id <$> es) -> e ∈ es ->
  extension_kept 1 e = true -> SetExtensions p 1 es = Ok q -> has_extension q (ge_id e) (take (Z.to_nat (ge_len e)) (ge_value e)).
Proof.
  intros Hwf Hfits Hnd Hin Hk E. pose proof Hfits as (Hes & _). pose proof Hes as He. rewrite Forall_forall in He. specialize (He e Hin).
  destruct (SetExtensions_spec p 1 es Hwf ltac:(by left) Hfits)
    as (q' & h & E' & Hwfq & Hh & Hpl & _ & _ & _ & _ & _ & _ & (i & Hid & Hmatch) & _ & _ & Hholds & Hmap & _).
  rewrite E in E'. injection E' as <-. cbn [Z.eqb Pos.eqb] in Hmap.
  destruct (elements_map_lookup 1 (mem q) (payload q) es (h + 4) ∅ e Hes Hholds Hnd Hin Hk) as (o & Ho & Hs & _).
  destruct (kept_one_byte 1 e eq_refl He Hk) as [_ Hlen].
  destruct (get_extension_parsed 1 q e o) as (v & Hv & Hval); [by left|done|done|lia|apply (wf_bytes q Hwfq)|by exists h, i|cbn; by rewrite Hmap|done|].
  assert (zlen (take (Z.to_nat (ge_len e)) (ge_value e)) = ge_len e) as El.
  { destruct He as (_ & _ & _ & Hz). unfold zlen in *. rewrite length_take. lia. }
  exists v. by rewrite El.
Qed.

Lemma set_extensions_maps p es q : rtp_wf p -> fits_extensions p 1 es -> SetExtensions p 1 es = Ok q -> maps_ok q.
Proof.
  intros Hwf Hfits E. pose proof Hfits as (Hes & _).
  destruct (SetExtensions_spec p 1 es Hwf ltac:(by left) Hfits)
    as (q' & h & E' & Hwfq & Hh & Hpl & _ & _ & _ & _ & _ & _ & Hid & Hn & _ & Hholds & Hm1 & Hm2).
  rewrite E in E'. injection E' as <-. destruct (Parse_wf q Hwfq) as (r & _ & (V1 & _ & V3 & _) & Hr & Hnew).
  pose proof (parsed_maps 1 es q r h ltac:(by left) Hes (wf_bytes q Hwfq) Hh Hpl Hn Hid Hholds Hnew) as Hmaps. cbn [Z.eqb Pos.eqb] in *.
  unfold maps_ok in *. rewrite V1, V3, Hh, Hmaps in Hr. rewrite Hh, Hm1, Hm2. intros n En. split; [by apply Hr|]. by intros i o.
Qed.

(** The same numbers, timestamp and marker. *)
Definition same_media (p q : rtp_packet) : Prop :=
  GetSequenceNumber q = GetSequenceNumber p /\ GetTimestamp q = GetTimestamp p /\ HasMarker q = HasMarker p /\ payload_bytes q = payload_bytes p.

Definition can_mangle (p : rtp_packet) : Prop :=
  rtp_wf p /\ maps_ok p /\ extension_length p <= 32000 /\ size p - extension_length p + 88 <= zlen (mem p) /\ zlen (mem p) < 2 ^ 32.

Section mangle.
Context {H : Type} `{UvTimer H}.

(** What a consumer can count on. *)
Definition mangled_ok (u : producer_setup) (packet q : rtp_packet) (mappedPayloadType mappedSsrc : Z) : Prop :=
  rtp_wf q /\ maps_ok q /\ GetPayloadType q = Ok (Z.land mappedPayloadType 127) /\ RtpPacket.GetSsrc q = Ok (u32 mappedSsrc) /\
  same_media packet q /\ ids q = router_ids /\
  (forall t n, (t, n) ∈ made_room u -> has_extension q (extension_number t) (replicate (Z.to_nat n) 0)) /\
  (forall id t v, (id, t) ∈ passed_on u -> has_extension packet id v -> zlen v <= 16 -> has_extension q (extension_number t) v).

Lemma same_head p q : (forall i, 2 <= i < 8 -> get1 (mem q) i = get1 (mem p) i) -> HasMarker q = HasMarker p ->
  payload_bytes q = payload_bytes p -> same_media p q.
Proof.
  intros Hf Hm Hp. split; [by apply Get2Bytes_ext; intros; apply Hf; lia|]. split; [by apply Get4Bytes_ext; intros; apply Hf; lia|done].
Qed.

Lemma header_changed_payload p q : rtp_wf p -> header_changed p q -> payload_bytes q = payload_bytes p.
Proof.
  intros Hwf [(_ & _ & Hp & _ & _ & _ & Hz) (Hl & _ & _) _ Hf]. destruct (wf_payload p Hwf) as (H12 & _ & _). unfold HeaderSize in H12.
  unfold payload_bytes. rewrite Hp, Hl. apply slice_ext; [done|]. intros; apply Hf; lia.
Qed.

Lemma MangleRtpPacket_spec (p : rtp_producer H) packet idx payloadType mappedPayloadType mappedSsrc : can_mangle packet ->
  GetPayloadType packet = Ok payloadType -> mp_codecs (ps_mapping (pd_setup p)) !! payloadType = Some mappedPayloadType ->
  pd_mapped p !! idx = Some mappedSsrc ->
  exists q, MangleRtpPacket p packet idx = Ok (q, true) /\ mangled_ok (pd_setup p) packet q mappedPayloadType mappedSsrc.
Proof.
  intros (Hwf & Hmaps & Hext & Hroom & Hsmall) Ept Emp Ems. unfold MangleRtpPacket. rewrite Ept. ostep. rewrite Emp.
  destruct (SetPayloadType_changed packet mappedPayloadType Hwf) as (p1 & -> & C1 & G1 & M1 & F1). ostep. rewrite Ems. ostep.
  pose proof (header_changed_wf _ _ Hwf C1) as Hwf1.
  destruct (SetSsrc_changed p1 mappedSsrc Hwf1) as (p2 & -> & C2 & G2 & F2). ostep.
  pose proof (header_changed_trans _ _ _ C1 C2) as C. pose proof (header_changed_wf _ _ Hwf C) as Hwf2.
  pose proof (header_changed_maps _ _ Hwf Hmaps C) as Hmaps2.
  destruct (mangled_extensions_spec (pd_setup p) p2 Hwf2 Hmaps2) as (es & -> & Hes & Hnd & Hsize & Hres & Hpass). ostep.
  pose proof C as [(_ & Hh & Hp & _ & _ & _ & Hz) (_ & _ & Hs) _ Hfr].
  assert (extension_length p2 = extension_length packet) as Hx by (unfold extension_length; by rewrite Hh, Hp).
  pose proof (extensions_size_nonneg 1 es Hes) as Hs0. destruct (padded_bounds 1 es Hs0) as [Hpb _].
  assert (padded 1 es <= 84) as Hpad by (unfold padded in *; pose proof (Z.div_le_mono (extensions_size 1 es + 3) 87 4 ltac:(lia) ltac:(lia)) as Hd; change (87 / 4) with 21 in Hd; lia).
  assert (fits_extensions p2 1 es) as Hfits by (split; [done|]; rewrite Hx, Hs, Hz; split_and!; lia).
  destruct (SetExtensions_spec p2 1 es Hwf2 ltac:(by left) Hfits)
    as (q & h & E & Hwfq & _ & _ & _ & _ & _ & _ & Hpay & Fq & _). rewrite E. ostep. eexists. split; [done|]. unfold HeaderSize in Fq.
  assert (get1 (mem q) 1 = get1 (mem p1) 1) as Eq1 by (rewrite Fq, F2 by lia; done).
  pose proof (set_extensions_maps p2 es q Hwf2 Hfits E) as Hmq. split; [destruct Hwfq; by split|]. split; [exact Hmq|]. split; [|split; [|split; [|split; [done|split]]]].
  - rewrite <- G1. by apply get_bits_ext.
  - rewrite <- G2. apply Get4Bytes_ext. intros; apply Fq; lia.
  - apply same_head.
    + intros i Hi. cbn. rewrite Fq, F2, F1 by lia. done.
    + rewrite <- M1. unfold HasMarker. by rewrite (get_bits_ext (mem p1)).
    + cbn. unfold payload_bytes in *. cbn. rewrite Hpay. apply (header_changed_payload packet p2 Hwf C).
  - intros t n Hin. pose proof (set_extensions_found p2 es (reserved t n) q Hwf2 Hfits Hnd (Hres t n Hin)) as Hf. cbn [reserved ge_id ge_len ge_value] in Hf.
    rewrite take_ge in Hf by by rewrite length_replicate. apply Hf; [|done]. unfold made_room in Hin.
    destruct (ps_video _); repeat (apply elem_of_cons in Hin as [[= -> ->]|Hin]; [done|]); by apply elem_of_nil in Hin.
  - intros id t v Hin (off & Ev & Sv) Hv. assert (has_extension p2 id v) as Hv2.
    { exists off. rewrite (header_changed_extension _ _ id Hwf Hmaps C). split; [done|]. rewrite <- Sv.
      pose proof (GetExtension_offset _ _ _ _ Hwf Hmaps Ev). apply slice_ext; [done|]. intros i Hi. apply Hfr. lia. }
    destruct (GetExtension_in_buffer packet Hwf Hmaps id) as (r & Er & Hr). rewrite Ev in Er. injection Er as <-.
    destruct (Hr _ _ eq_refl) as (_ & Hl & _).
    pose proof (set_extensions_found p2 es (GenericExtension (extension_number t) (zlen v) v) q Hwf2 Hfits Hnd (Hpass id t v Hin Hv2)) as Hf.
    cbn [ge_id ge_len ge_value] in Hf. rewrite take_ge in Hf by (unfold zlen; lia). apply Hf; [|done].
    unfold extension_kept. cbn [ge_id ge_len Z.eqb Pos.eqb]. unfold passed_on in Hin. destruct t; cbn [extension_number];
      repeat match goal with |- context [?a <? ?b] => destruct (Z.ltb_spec a b); [lia|] | |- context [?a =? ?b] => destruct (Z.eqb_spec a b); [lia|] end; try done.
    all: exfalso; destruct (ps_video _); repeat (apply elem_of_cons in Hin as [Hin|Hin]; [discriminate Hin|]); by apply elem_of_nil in Hin.
Qed.
End mangle.
