(* ===== verification/ProducerFacts.v ===== *)
(** The state of a producer: what its tables and streams have in common, and that
    the calls among the producer, its streams, the key frame manager and the
    listener keep that.

    How a producer finds or creates the stream of a packet. *)

From Stdlib Require Import Floats.SpecFloat.
From S2P Require Export Producer RecvSteps ProducerPackets.
From S2P Require Import RtpStreamRecv Producer.

Section facts.
Context {H : Type} `{UvLaws H} `{PowLaws}.
Implicit Types p : rtp_producer H.
Implicit Types s : rtp_stream_recv H.

Notation op := (act (rtp_producer H) producer_event).

(** * The invariant *)

Definition rtx_of s (ssrc : Z) : Prop := recv_HasRtx s = true /\ par_rtxSsrc (RtpStream.par (rv_stream s)) = ssrc.

Definition layers_ok (e : rtp_encoding_parameters) : Prop := 0 < ep_spatialLayers e < 256 /\ 0 < ep_temporalLayers e < 256.

(** What never changes. *)
Record setup_ok (u : producer_setup) : Prop := SetupOk {
  su_params : params_ok (ps_params u);
  su_apt : apt_everywhere (ps_params u);
  su_layers : Forall layers_ok (rtp_encodings (ps_params u));
  su_mapping : length (mp_encodings (ps_mapping u)) = length (rtp_encodings (ps_params u))
}.

Record producer_inv p : Prop := ProducerInv {
  pi_setup : setup_ok (pd_setup p);
  pi_slots : length (pd_streams p) = length (encodings_of p);
  pi_ssrcs : forall ssrc idx, pd_ssrcs p !! ssrc = Some idx <-> exists s, stream_of p idx = Some s /\ RtpStreamRecv.GetSsrc s = ssrc;
  pi_rtx : forall ssrc idx, pd_rtxSsrcs p !! ssrc = Some idx -> exists s, stream_of p idx = Some s /\ rtx_of s ssrc;
  pi_mapped : forall idx s, stream_of p idx = Some s -> pd_mapped p !! idx = mp_encodings (ps_mapping (pd_setup p)) !! idx;
  pi_streams : forall idx s, stream_of p idx = Some s -> recv_inv s;
  pi_manager : forall m, pd_manager p = Some m -> kf_inv m;
  pi_owner : forall idx s e, stream_of p idx = Some s -> encodings_of p !! idx = Some e -> ep_rid e = [] -> ep_ssrc e <> 0 ->
    RtpStreamRecv.GetSsrc s = ep_ssrc e;
  pi_current : forall q, pd_current p = Some q -> rtp_wf (vp_packet q)
}.

Lemma stream_slot p idx s : stream_of p idx = Some s <-> pd_streams p !! idx = Some (Some s).
Proof. unfold stream_of. destruct (pd_streams p !! idx) as [[s'|]|]; cbn; split; congruence. Qed.

Lemma stream_slot_lt p idx s : stream_of p idx = Some s -> (idx < length (pd_streams p))%nat.
Proof. intros E%stream_slot. by eapply lookup_lt_Some. Qed.

(** The same tables; the streams have the same parameters. *)
Definition same_streams p p' : Prop :=
  length (pd_streams p') = length (pd_streams p) /\
  forall idx, match stream_of p idx, stream_of p' idx with
              | Some s, Some s' => pinned s s'
              | None, None => True
              | _, _ => False
              end.

Record kept p p' : Prop := Kept {
  ke_setup : pd_setup p' = pd_setup p;
  ke_ssrcs : pd_ssrcs p' = pd_ssrcs p;
  ke_rtx : pd_rtxSsrcs p' = pd_rtxSsrcs p;
  ke_mapped : pd_mapped p' = pd_mapped p;
  ke_unmapped : pd_unmapped p' = pd_unmapped p;
  ke_streams : same_streams p p'
}.

Lemma same_streams_refl p p' : pd_streams p' = pd_streams p -> same_streams p p'.
Proof. intros E. unfold same_streams, stream_of. rewrite E. split; [done|]. intros idx. by destruct (mjoin _). Qed.

Lemma kept_refl p : kept p p.
Proof. split; try done. by apply same_streams_refl. Qed.

Lemma kept_trans p p1 p2 : kept p p1 -> kept p1 p2 -> kept p p2.
Proof.
  intros [A1 A2 A3 A4 A5 [A7 A8]] [B1 B2 B3 B4 B5 [B7 B8]]. split; try congruence. split; [congruence|]. intros idx.
  specialize (A8 idx). specialize (B8 idx). destruct (stream_of p idx), (stream_of p1 idx), (stream_of p2 idx); try done. by eapply pinned_trans.
Qed.

Lemma kept_back p p' idx s' : kept p p' -> stream_of p' idx = Some s' -> exists s, stream_of p idx = Some s /\ pinned s s'.
Proof. intros [_ _ _ _ _ [_ Hk]] E. specialize (Hk idx). rewrite E in Hk. destruct (stream_of p idx) as [s|]; [|done]. by exists s. Qed.

Lemma kept_forth p p' idx s : kept p p' -> stream_of p idx = Some s -> exists s', stream_of p' idx = Some s' /\ pinned s s'.
Proof. intros [_ _ _ _ _ [_ Hk]] E. specialize (Hk idx). rewrite E in Hk. destruct (stream_of p' idx) as [s'|]; [|done]. by exists s'. Qed.

Lemma pinned_ssrc s s' : pinned s s' -> RtpStreamRecv.GetSsrc s' = RtpStreamRecv.GetSsrc s.
Proof. intros (E & _). unfold RtpStreamRecv.GetSsrc. by rewrite E. Qed.

Lemma pinned_rtx s s' ssrc : pinned s s' -> rtx_of s ssrc -> rtx_of s' ssrc.
Proof. intros (E1 & E2 & _) [R1 R2]. split; congruence. Qed.

Lemma kept_inv p p' : producer_inv p -> kept p p' -> (forall idx s, stream_of p' idx = Some s -> recv_inv s) ->
  (forall m, pd_manager p' = Some m -> kf_inv m) -> (forall q, pd_current p' = Some q -> rtp_wf (vp_packet q)) -> producer_inv p'.
Proof.
  intros [I1 I2 I3 I4 I5 I6 I7 I8 I9] Hk Hs Hm Hq. pose proof Hk as [K1 K2 K3 K4 _ [K7 _]]. split; try done.
  - by rewrite K1.
  - unfold encodings_of. by rewrite K7, K1.
  - intros ssrc idx. rewrite K2, I3. split.
    + intros (s & Es & E). destruct (kept_forth _ _ _ _ Hk Es) as (s' & Es' & Hp). exists s'. split; [done|]. by rewrite (pinned_ssrc s).
    + intros (s' & Es & E). destruct (kept_back _ _ _ _ Hk Es) as (s & Es' & Hp). exists s. split; [done|]. by rewrite <- (pinned_ssrc s s').
  - intros ssrc idx. rewrite K3. intros Er. destruct (I4 _ _ Er) as (s & Es & Hr). destruct (kept_forth _ _ _ _ Hk Es) as (s' & Es' & Hp).
    exists s'. split; [done|]. by eapply pinned_rtx.
  - intros idx s' Es. destruct (kept_back _ _ _ _ Hk Es) as (s & Es' & _). rewrite K4, K1. by eapply I5.
  - intros idx s' e Es. unfold encodings_of. rewrite K1. destruct (kept_back _ _ _ _ Hk Es) as (s & Es' & Hp).
    rewrite (pinned_ssrc _ _ Hp). by eapply I8.
Qed.

(** * Calls that keep the tables *)

(** What the router is given: a packet with a payload type, an SSRC and ids of its own,
    and with room for what consumers write into it. *)
Definition router_packet (u : producer_setup) (q : rtp_packet) : Prop :=
  rtp_wf q /\ maps_ok q /\ ids q = router_ids /\
  (exists payloadType mapped, mp_codecs (ps_mapping u) !! payloadType = Some mapped /\ GetPayloadType q = Ok (Z.land mapped 127)) /\
  (exists mapped, mapped ∈ mp_encodings (ps_mapping u) /\ RtpPacket.GetSsrc q = Ok (u32 mapped)) /\
  (forall t n, (t, n) ∈ made_room u -> has_extension q (extension_number t) (replicate (Z.to_nat n) 0)).

Definition seen (u : producer_setup) (e : producer_event) : Prop :=
  match e with OnProducerRtpPacketReceived q => router_packet u (vp_packet q) | _ => True end.

Definition calls {A} (m : op A) (R : A -> Prop) p : Prop :=
  does m (fun a p' es => producer_inv p' /\ kept p p' /\ R a /\ Forall (seen (pd_setup p)) es) p.

Lemma calls_bind {A B} (m : op A) (k : A -> op B) R Q p : calls m R p ->
  (forall a p1, producer_inv p1 -> kept p p1 -> R a -> calls (k a) Q p1) -> calls (m ≫= k) Q p.
Proof.
  intros Hm Hk. apply does_bind. eapply does_weaken; [exact Hm|]. intros a p1 es (Hi & Hp & Ra & Hes). cbn beta.
  eapply does_weaken; [by apply (Hk a p1 Hi Hp Ra)|]. intros b p2 es' (Hi2 & Hp2 & Qb & Hes'). split; [done|].
  split; [by eapply kept_trans|]. split; [done|]. apply Forall_app. split; [done|]. by rewrite <- (ke_setup _ _ Hp).
Qed.

Lemma calls_state {B} (k : _ -> op B) Q p : calls (k p) Q p -> calls (get ≫= k) Q p.
Proof. intros Hk. apply does_bind, does_get. exact Hk. Qed.

Lemma calls_known {A B} (m : outcome A) a (k : A -> op B) Q p : m = Ok a -> calls (k a) Q p -> calls (lift m ≫= k) Q p.
Proof. intros E Hk. apply does_bind. eapply does_lift; [exact E|]. exact Hk. Qed.

Lemma calls_ret {A} (a : A) (R : A -> Prop) p : producer_inv p -> R a -> calls (mret a) R p.
Proof. intros Hi HR. apply does_ret. split; [done|]. split; [apply kept_refl|]. split; [done|constructor]. Qed.

Lemma calls_skip p : producer_inv p -> calls skip (fun _ => True) p.
Proof. intros Hi. by apply calls_ret. Qed.

Lemma calls_emit e p : producer_inv p -> seen (pd_setup p) e -> calls (emit e) (fun _ => True) p.
Proof. intros Hi He. apply does_emit. split; [done|]. split; [apply kept_refl|]. split; [done|by apply Forall_singleton]. Qed.

Lemma calls_modify f p : producer_inv (f p) -> kept p (f p) -> calls (modify f) (fun _ => True) p.
Proof. intros Hi Hk. by apply does_modify. Qed.

Lemma calls_weaken {A} (m : op A) (R Q : A -> Prop) p : calls m R p -> (forall a, R a -> Q a) -> calls m Q p.
Proof. intros Hm HQ. eapply does_weaken; [exact Hm|]. intros a p' es (Hi & Hk & Ra & Hes). split; [done|]. split; [done|]. split; [by apply HQ|done]. Qed.

Lemma calls_then {B} (m : op unit) (k : unit -> op B) Q p : calls m (fun _ => True) p ->
  (forall p1, producer_inv p1 -> kept p p1 -> calls (k ()) Q p1) -> calls (m ≫= k) Q p.
Proof. intros Hm Hk. eapply calls_bind; [exact Hm|]. intros [] p1 Hi Hp _. by apply Hk. Qed.

Lemma calls_for_all {A} (f : A -> op unit) l p : producer_inv p ->
  (forall x p1, x ∈ l -> producer_inv p1 -> kept p p1 -> calls (f x) (fun _ => True) p1) -> calls (for_all f l) (fun _ => True) p.
Proof.
  intros Hp Hf. assert (forall p1, producer_inv p1 -> kept p p1 -> calls (for_all f l) (fun _ => True) p1) as Hall.
  { induction l as [|x l IH]; intros p1 Hi Hk; cbn [for_all]; [by apply calls_skip|].
    apply calls_then; [apply Hf; [left|done..]|]. intros p2 Hi2 Hk2.
    apply IH; [|done|by eapply kept_trans]. intros y p3 Hy. apply Hf. by right. }
  apply Hall; [done|apply kept_refl].
Qed.

(** ** One stream *)

Lemma stream_at_known {B} idx s (k : _ -> op B) Q p : stream_of p idx = Some s -> calls (k s) Q p -> calls (stream_at idx ≫= k) Q p.
Proof.
  intros E Hk. apply does_bind. unfold stream_at. apply does_bind, does_get. eapply does_lift; [by rewrite E|]. exact Hk.
Qed.

Lemma stream_of_insert p idx s i : (idx < length (pd_streams p))%nat ->
  stream_of (set_pd_streams p (<[idx := Some s]> (pd_streams p))) i = if bool_decide (i = idx) then Some s else stream_of p i.
Proof.
  intros Hl. unfold stream_of. cbn. case_bool_decide as E; [subst; by rewrite list_lookup_insert_eq|by rewrite list_lookup_insert_ne].
Qed.

Lemma kept_insert p idx s s' : stream_of p idx = Some s -> pinned s s' -> kept p (set_pd_streams p (<[idx := Some s']> (pd_streams p))).
Proof.
  intros E Hp. pose proof (stream_slot_lt _ _ _ E) as Hl. split; try done. split; [cbn; by rewrite length_insert|].
  intros i. rewrite stream_of_insert by done. case_bool_decide as Ei; [subst; by rewrite E|]. by destruct (stream_of p i).
Qed.

Lemma set_stream_calls p idx s s' : producer_inv p -> stream_of p idx = Some s -> pinned s s' -> recv_inv s' ->
  calls (set_stream_at idx s') (fun _ => True) p.
Proof.
  intros Hi E Hp Hs. pose proof (kept_insert p idx s s' E Hp) as Hk. apply calls_modify; [|done].
  apply (kept_inv p); [done|done| |apply Hi|apply Hi]. intros i s1. rewrite stream_of_insert by by eapply stream_slot_lt.
  case_bool_decide; [by intros [= <-]|]. apply Hi.
Qed.

(** ** Requests *)

Lemma emit_trace_calls enabled t p : producer_inv p -> calls (emit_trace enabled t) (fun _ => True) p.
Proof. intros Hi. unfold emit_trace. apply calls_state. destruct (enabled _); [by apply calls_emit|by apply calls_skip]. Qed.

Lemma SendRtcpPacket_calls q p : producer_inv p -> calls (OnRtpStreamSendRtcpPacket q) (fun _ => True) p.
Proof.
  intros Hi. unfold OnRtpStreamSendRtcpPacket. apply calls_then; [|intros; by apply calls_emit].
  assert (forall h p, producer_inv p -> calls (trace_rtpfb h) (fun _ => True) p) as Hr.
  { intros [h|] p1 Hp1; cbn; [|by apply calls_skip]. destruct (_ =? _); [by apply emit_trace_calls|by apply calls_skip]. }
  assert (forall h p, producer_inv p -> calls (trace_psfb h) (fun _ => True) p) as Hs.
  { intros [h|] p1 Hp1; cbn; [|by apply calls_skip]. destruct (_ =? _); [by apply emit_trace_calls|].
    destruct (_ =? _); [by apply emit_trace_calls|by apply calls_skip]. }
  destruct q; try by apply calls_skip.
  - by apply Hr.
  - apply calls_then; [by apply Hs|]. intros; by apply Hr.
Qed.

Lemma handle_sent_calls es p : producer_inv p -> calls (handle_sent es) (fun _ => True) p.
Proof.
  revert p. induction es as [|[|q] es IH]; intros p Hi; cbn [handle_sent]; [by apply calls_skip|by apply IH|].
  apply calls_then; [by apply SendRtcpPacket_calls|]. intros; by apply IH.
Qed.

(** A stream that ran: its invariant, and that its parameters stayed. *)
Lemma ran_inv {A} (m : act (rtp_stream_recv H) recv_event A) s (R : A -> Prop) :
  leads m (fun _ s' => tally_ok (tally_of s')) s -> may m (fun a s' => pinned s s' /\ R a) s ->
  exists a s' es, m s = Ok (a, s', es) /\ recv_inv s' /\ pinned s s' /\ R a.
Proof.
  intros (a & s' & es & E & [Hc _ _ _] & Ht) Hm. exists a, s', es. split; [done|]. split; [by split|]. by apply (Hm a s' es).
Qed.

Lemma pins_may {A} (m : act (rtp_stream_recv H) recv_event A) s : may m (fun _ s' => pinned s s') s -> may m (fun _ s' => pinned s s' /\ True) s.
Proof. intros Hm. by eapply may_weaken. Qed.

Lemma keeps_leads {A} (m : act (rtp_stream_recv H) recv_event A) s : recv_inv s -> leads m (fun _ s' => RecvSteps.keeps s s') s ->
  leads m (fun _ s' => tally_ok (tally_of s')) s.
Proof. intros [_ Ht] Hm. eapply leads_weaken; [exact Hm|]. intros a s' [-> _]. exact Ht. Qed.

Lemma stream_RequestKeyFrame_calls idx s p : producer_inv p -> stream_of p idx = Some s -> calls (stream_RequestKeyFrame idx) (fun _ => True) p.
Proof.
  intros Hi E. pose proof (pi_streams p Hi _ _ E) as Hs. unfold stream_RequestKeyFrame. eapply stream_at_known; [exact E|].
  destruct (ran_inv RtpStreamRecv.RequestKeyFrame s (fun _ => True)) as ([] & s' & es & Er & Hs' & Hp & _).
  { apply keeps_leads; [done|]. apply RequestKeyFrame_leads. apply Hs. } { apply pins_may, RequestKeyFrame_pins. }
  eapply calls_known; [exact Er|]. apply calls_then; [by eapply set_stream_calls|]. intros; by apply handle_sent_calls.
Qed.

Lemma OnKeyFrameNeeded_calls ssrc p : producer_inv p -> calls (OnKeyFrameNeeded ssrc) (fun _ => True) p.
Proof.
  intros Hi. unfold OnKeyFrameNeeded. apply calls_state. destruct (pd_ssrcs p !! ssrc) as [idx|] eqn:E; [|by apply calls_skip].
  apply (pi_ssrcs p Hi) in E as (s & Es & _). by eapply stream_RequestKeyFrame_calls.
Qed.

Definition manages (f : key_frame_request_manager H -> outcome (key_frame_request_manager H * list Z)) : Prop :=
  forall m, kf_inv m -> exists m' l, f m = Ok (m', l) /\ kf_inv m'.

Lemma post_manages f ssrc a m : kf_post m ssrc (f m) a -> exists m' l, f m = Ok (m', l) /\ kf_inv m'.
Proof. intros (m' & E & Hm & _). by eexists _, _. Qed.

Lemma needed_manages ssrc : manages (fun m => KeyFrameNeeded m ssrc).
Proof. intros m Hm. apply (post_manages (fun m => KeyFrameNeeded m ssrc) ssrc _ _ (KeyFrameNeeded_post m ssrc Hm)). Qed.

Lemma forced_manages ssrc : manages (fun m => ForceKeyFrameNeeded m ssrc).
Proof. intros m Hm. apply (post_manages (fun m => ForceKeyFrameNeeded m ssrc) ssrc _ _ (ForceKeyFrameNeeded_post m ssrc Hm)). Qed.

Lemma received_manages ssrc : manages (fun m => KeyFrameReceived m ssrc).
Proof. intros m Hm. apply (post_manages (fun m => KeyFrameReceived m ssrc) ssrc _ _ (KeyFrameReceived_post m ssrc Hm)). Qed.

Lemma kept_same p p' : pd_setup p' = pd_setup p -> pd_ssrcs p' = pd_ssrcs p -> pd_rtxSsrcs p' = pd_rtxSsrcs p -> pd_mapped p' = pd_mapped p ->
  pd_unmapped p' = pd_unmapped p -> pd_streams p' = pd_streams p -> kept p p'.
Proof. intros. split; try done. by apply same_streams_refl. Qed.

Lemma with_manager_calls f p : producer_inv p -> (forall m, pd_manager p = Some m -> kf_inv m -> exists m' l, f m = Ok (m', l) /\ kf_inv m') ->
  calls (with_manager f) (fun _ => True) p.
Proof.
  intros Hi Hf. unfold with_manager. apply calls_state. destruct (pd_manager p) as [m|] eqn:Em; [|by apply calls_skip].
  destruct (Hf m eq_refl (pi_manager p Hi m Em)) as (m' & l & Er & Hm'). eapply calls_known; [exact Er|].
  assert (kept p (set_pd_manager p m')) as Hk by by apply kept_same.
  apply calls_then.
  - apply calls_modify; [|done]. apply (kept_inv p); [done|done|apply Hi| |apply Hi]. by intros m1 [= <-].
  - intros p1 Hi1 _. apply calls_for_all; [done|]. intros ssrc p2 _ Hi2 _. by apply OnKeyFrameNeeded_calls.
Qed.

Lemma wf_GetSsrc q : rtp_wf q -> exists ssrc, RtpPacket.GetSsrc q = Ok ssrc.
Proof.
  intros Hwf. destruct (wf_payload q Hwf) as (H12 & Hend & _). unfold HeaderSize in H12. pose proof (wf_lengths q Hwf) as (? & ? & ?).
  destruct (Get4Bytes_in_bounds (mem q) 8) as (x & E & _); [lia|lia|]. by exists x.
Qed.

Lemma RequestKeyFrame_calls mapped p : producer_inv p -> calls (Producer.RequestKeyFrame mapped) (fun _ => True) p.
Proof.
  intros Hi. unfold Producer.RequestKeyFrame. apply calls_state. destruct (_ || _); [by apply calls_skip|].
  destruct (pd_unmapped p !! mapped) as [ssrc|]; [|by apply calls_skip].
  assert (exists b, current_key_frame p ssrc = Ok b) as [b Eb].
  { unfold current_key_frame. destruct (pd_current p) as [q|] eqn:Eq; [|by eexists].
    destruct (wf_GetSsrc _ (pi_current p Hi q Eq)) as [x ->]. ostep. by eexists. }
  eapply calls_known; [exact Eb|]. destruct b; [by apply calls_skip|]. apply with_manager_calls; [done|]. intros m _. apply needed_manages.
Qed.

(** ** The listener *)

Section listener.
Context (listener : producer_listener).

Lemma tell_calls e p : producer_inv p -> seen (pd_setup p) e -> calls (tell listener e) (fun _ => True) p.
Proof.
  intros Hi He. unfold tell. apply calls_then; [by apply calls_emit|]. intros p1 Hi1 _. apply calls_for_all; [done|].
  intros m p2 _ Hi2 _. by apply RequestKeyFrame_calls.
Qed.

Lemma EmitScore_calls t p : producer_inv p -> calls (EmitScore t) (fun _ => True) p.
Proof. intros Hi. unfold EmitScore. apply calls_state. by apply calls_emit. Qed.

Lemma set_scores_inv p l : producer_inv p -> producer_inv (set_pd_scores p l) /\ kept p (set_pd_scores p l).
Proof.
  intros Hi. assert (kept p (set_pd_scores p l)) as Hk by by apply kept_same. split; [|done].
  apply (kept_inv p); [done|done|apply Hi|apply Hi|apply Hi].
Qed.

Lemma OnRtpStreamScore_calls idx x y p : producer_inv p -> calls (OnRtpStreamScore listener idx x y) (fun _ => True) p.
Proof.
  intros Hi. unfold OnRtpStreamScore. apply calls_then; [by apply calls_modify; apply set_scores_inv|]. intros p1 Hi1 _.
  apply calls_then; [by apply tell_calls|]. intros. by apply EmitScore_calls.
Qed.

Lemma handle_calls idx es p : producer_inv p -> calls (handle listener idx es) (fun _ => True) p.
Proof.
  revert p. induction es as [|[x y|q] es IH]; intros p Hi; cbn [handle]; [by apply calls_skip| |].
  - apply calls_then; [by apply OnRtpStreamScore_calls|]. intros; by apply IH.
  - apply calls_then; [by apply SendRtcpPacket_calls|]. intros; by apply IH.
Qed.

Lemma with_stream_calls {A} idx (m : act (rtp_stream_recv H) recv_event A) s (R : A -> Prop) p : producer_inv p -> stream_of p idx = Some s ->
  leads m (fun _ s' => tally_ok (tally_of s')) s -> may m (fun a s' => pinned s s' /\ R a) s -> calls (with_stream listener idx m) R p.
Proof.
  intros Hi E Hm Hr. destruct (ran_inv m s R Hm Hr) as (a & s' & es & Er & Hs' & Hp & HR).
  unfold with_stream. eapply stream_at_known; [exact E|]. eapply calls_known; [exact Er|].
  apply calls_then; [by eapply set_stream_calls|]. intros p1 Hi1 _. apply calls_then; [by apply handle_calls|].
  intros p2 Hi2 _. by apply calls_ret.
Qed.

(** An operation of a stream that makes no calls. *)
Lemma with_stream_quiet {A} idx (m : act (rtp_stream_recv H) recv_event A) s a s' p : stream_of p idx = Some s -> m s = Ok (a, s', []) ->
  with_stream listener idx m p = Ok (a, set_pd_streams p (<[idx := Some s']> (pd_streams p)), []).
Proof.
  intros E Em. unfold with_stream, stream_at, set_stream_at. apply does_exactly.
  apply does_bind, does_bind, does_get. eapply does_lift; [by rewrite E|]. apply does_bind. eapply does_lift; [exact Em|].
  apply does_bind, does_modify. cbn [handle]. by repeat does_step.
Qed.
End listener.
End facts.

From Stdlib Require Import Floats.SpecFloat.
From stdpp Require Import sorting.
From S2P Require Import RecvProps RtpListener.
From S2P Require Import KeyFrame RtpStreamRecv RtpParameters Producer.

Section streams.
Context {H : Type} `{UvLaws H} `{PowLaws} (listener : producer_listener).
Implicit Types p : rtp_producer H.
Implicit Types s : rtp_stream_recv H.

(** * The streams in order *)

Lemma streams_in_order_elem p ssrc idx : (ssrc, idx) ∈ streams_in_order p <-> pd_ssrcs p !! ssrc = Some idx.
Proof.
  unfold streams_in_order. rewrite list_elem_of_omap. split.
  - intros (k & _ & E). destruct (pd_ssrcs p !! k) as [i|] eqn:Ek; cbn in E; [|done]. by injection E as <- <-.
  - intros E. exists ssrc. rewrite E. split; [|done]. rewrite merge_sort_Permutation. apply list_elem_of_fmap.
    exists (ssrc, idx). split; [done|]. by apply elem_of_map_to_list.
Qed.

Lemma find_rid_Some p rid idx : find_rid p rid = Some idx -> (exists ssrc, pd_ssrcs p !! ssrc = Some idx) /\ rid_of p idx = rid.
Proof.
  unfold find_rid. intros E. apply head_Some_elem_of in E. apply list_elem_of_filter in E as [Er E]. split; [|done].
  apply list_elem_of_fmap in E as ([ssrc i] & -> & E). exists ssrc. by apply streams_in_order_elem.
Qed.

Lemma find_rid_None p rid ssrc idx : find_rid p rid = None -> pd_ssrcs p !! ssrc = Some idx -> rid_of p idx <> rid.
Proof.
  unfold find_rid. intros E Ei Er. destruct (filter _ _) as [|x l] eqn:El; [|done].
  assert (idx ∈ filter (fun i => rid_of p i = rid) (streams_in_order p).*2) as Hin.
  { apply list_elem_of_filter. split; [done|]. apply list_elem_of_fmap. exists (ssrc, idx). split; [done|]. by apply streams_in_order_elem. }
  rewrite El in Hin. by apply not_elem_of_nil in Hin.
Qed.

(** * A stream more, or its RTX stream *)

(** The jitter of the first packet of a stream is defined. *)
Definition fresh_jitter (clockRate timestamp now : Z) : Prop :=
  clockRate = 0 \/ swrap 32 (u32 (swrap 32 (u64 (now - u32 (timestamp * 1000) / clockRate)) - 0)) <> - 2 ^ 31.

(** The streams can take a packet of that time. *)
Definition calm p (timestamp now : Z) : Prop :=
  (forall idx s, stream_of p idx = Some s -> jitter_defined s timestamp now /\ tally_room s) /\
  Forall (fun c => fresh_jitter (co_clockRate c) timestamp now) (rtp_codecs (ps_params (pd_setup p))).

Record grown p p' : Prop := Grown {
  gr_setup : pd_setup p' = pd_setup p;
  gr_current : pd_current p' = pd_current p;
  gr_paused : pd_paused p' = pd_paused p;
  gr_calm : forall timestamp now, calm p timestamp now -> calm p' timestamp now
}.

Lemma grown_refl p : grown p p.
Proof. by split. Qed.

Lemma Pause_quiet s a s' es : RtpStreamRecv.Pause s = Ok (a, s', es) -> es = [].
Proof.
  intros E. unfold RtpStreamRecv.Pause, mbind, act_bind, get, lift, modify, skip, mret, act_ret in E. cbn in E.
  destruct (Stop _); cbn in E; [|done]. destruct (useNack s); [|by simplify_eq/=]. destruct (generator s); cbn in E; by simplify_eq/=.
Qed.

Lemma stream_of_new p idx s ssrc m i : (idx < length (pd_streams p))%nat ->
  stream_of (insert_stream p idx s ssrc m) i = if bool_decide (i = idx) then Some s else stream_of p i.
Proof. intros Hl. unfold stream_of. cbn. case_bool_decide as E; [subst; by rewrite list_lookup_insert_eq|by rewrite list_lookup_insert_ne]. Qed.

Lemma insert_stream_inv p idx s ssrc m : producer_inv p -> recv_inv s -> RtpStreamRecv.GetSsrc s = ssrc -> pd_ssrcs p !! ssrc = None ->
  stream_of p idx = None -> (idx < length (pd_streams p))%nat -> mp_encodings (ps_mapping (pd_setup p)) !! idx = Some m ->
  (forall e, encodings_of p !! idx = Some e -> ep_rid e = [] -> ep_ssrc e <> 0 -> ssrc = ep_ssrc e) -> producer_inv (insert_stream p idx s ssrc m).
Proof.
  intros [I1 I2 I3 I4 I5 I6 I7 I8 I9] Hs Hssrc Hnew Hslot Hl Hm Hown.
  assert (forall i s', stream_of (insert_stream p idx s ssrc m) i = Some s' -> i = idx /\ s' = s \/ i <> idx /\ stream_of p i = Some s') as Hcase.
  { intros i s'. rewrite stream_of_new by done. case_bool_decide; [by intros [= <-]; left|by right]. }
  split; try done.
  - cbn. by rewrite length_insert.
  - intros k i. cbn. destruct (decide (k = ssrc)) as [->|Hk].
    + rewrite lookup_insert_eq. split; [intros [= <-]; exists s; by rewrite stream_of_new, bool_decide_true|].
      intros (s' & [[-> _]|[_ Es]]%Hcase & E); [done|]. assert (pd_ssrcs p !! ssrc = Some i) by (apply I3; by exists s'). congruence.
    + rewrite lookup_insert_ne by done. rewrite I3. split; intros (s' & Es & E).
      * exists s'. rewrite stream_of_new by done. case_bool_decide; [congruence|done].
      * apply Hcase in Es as [[-> ->]|[_ Es]]; [congruence|by exists s'].
  - intros k i. cbn. intros Er. destruct (I4 _ _ Er) as (s' & Es & Hr). exists s'. rewrite stream_of_new by done.
    case_bool_decide; [congruence|done].
  - intros i s' Es. cbn. apply Hcase in Es as [[-> ->]|[Hi Es]]; [by rewrite lookup_insert_eq|]. rewrite lookup_insert_ne by done. by eapply I5.
  - intros i s' [[-> ->]|[_ Es]]%Hcase; [done|by eapply I6].
  - intros i s' e [[-> ->]|[_ Es]]%Hcase He Hr Hne; [rewrite Hssrc; by apply Hown|]. by eapply I8.
Qed.

(** A stream of the same parameters in a slot. *)
Lemma replace_stream_inv p idx s s' : producer_inv p -> stream_of p idx = Some s -> pinned s s' -> recv_inv s' ->
  producer_inv (set_pd_streams p (<[idx := Some s']> (pd_streams p))).
Proof.
  intros Hi E Hp Hs. apply (kept_inv p); [done|by eapply kept_insert| |apply Hi|apply Hi]. intros i s1.
  rewrite stream_of_insert by by eapply stream_slot_lt. case_bool_decide; [by intros [= <-]|]. apply Hi.
Qed.

Lemma calm_keeps s s' timestamp now : RecvSteps.keeps s s' -> pinned s s' -> jitter_defined s timestamp now /\ tally_room s ->
  jitter_defined s' timestamp now /\ tally_room s'.
Proof.
  intros [Et Er] (Ep & _). unfold jitter_defined, transit_diff, tally_room. by rewrite Et, Er, Ep.
Qed.

Definition created p idx ssrc p' : Prop :=
  producer_inv p' /\ grown p p' /\ exists s, stream_of p' idx = Some s /\ RtpStreamRecv.GetSsrc s = ssrc.

Lemma new_stream now ssrc c e : layers_ok e -> let '(par, rp) := stream_params ssrc c e in
  exists s, new_RtpStreamRecv par rp now = Ok s /\ recv_inv s /\ RtpStreamRecv.GetSsrc s = ssrc /\
    forall timestamp now', fresh_jitter (co_clockRate c) timestamp now' -> jitter_defined s timestamp now' /\ tally_room s.
Proof.
  intros [L1 L2]. unfold stream_params. destruct (foldl _ _ _) as [[useNack usePli] useFir].
  set (rp := RecvParams _ _ _ _ _ _ _ _). destruct (new_recv_inv (RtpStream.Params ssrc (co_clockRate c) 0 0 useNack) rp now L1 L2) as (s & E & Hs).
  exists s. split; [done|]. split; [done|]. unfold new_RtpStreamRecv in E. ok_inv. split; [done|]. intros ts now' Hj. split; [exact Hj|].
  split; vm_compute; reflexivity.
Qed.

Lemma CreateRtpStream_spec now ssrc c idx e p : producer_inv p -> pd_ssrcs p !! ssrc = None -> stream_of p idx = None ->
  encodings_of p !! idx = Some e -> c ∈ rtp_codecs (ps_params (pd_setup p)) -> (ep_rid e = [] -> ep_ssrc e <> 0 -> ssrc = ep_ssrc e) ->
  does (CreateRtpStream listener now ssrc c idx) (fun r p' _ => r = idx /\ created p idx ssrc p') p.
Proof.
  intros Hi Hnew Hslot He Hc Hown. pose proof (pi_setup p Hi) as [_ _ Hlay Hmap]. pose proof (lookup_lt_Some _ _ _ He) as Hl.
  rewrite <- (pi_slots p Hi) in Hl. assert (layers_ok e) as Hle by (rewrite Forall_forall in Hlay; apply Hlay; by eapply list_elem_of_lookup_2).
  unfold CreateRtpStream. apply does_bind, does_get. apply does_bind. eapply does_lift; [by rewrite Hnew|].
  apply does_bind. destruct (lookup_lt_is_Some_2 _ _ Hl) as [x Ex]. eapply does_lift; [by rewrite Ex|].
  assert (x = None) as -> by (unfold stream_of in Hslot; by rewrite Ex in Hslot).
  apply does_bind. eapply does_lift; [done|]. apply does_bind. eapply does_lift; [by rewrite He|].
  destruct (lookup_lt_is_Some_2 (mp_encodings (ps_mapping (pd_setup p))) idx) as [m Em].
  { rewrite Hmap. fold (encodings_of p). by eapply lookup_lt_Some. }
  apply does_bind. eapply does_lift; [by rewrite Em|]. pose proof (new_stream now ssrc c e Hle) as Hns.
  destruct (stream_params ssrc c e) as [par rp]. destruct Hns as (s & Es & Hs & Hssrc & Hcalm).
  apply does_bind. eapply does_lift; [exact Es|]. apply does_bind, does_modify. set (p1 := insert_stream p idx s ssrc m).
  assert (producer_inv p1) as Hi1 by (apply insert_stream_inv; try done; intros e'; rewrite He; by intros [= <-]).
  assert (stream_of p1 idx = Some s) as Es1 by (unfold p1; by rewrite stream_of_new, bool_decide_true).
  assert (forall p2 s2, producer_inv p2 -> pd_setup p2 = pd_setup p -> pd_current p2 = pd_current p -> pd_paused p2 = pd_paused p ->
    (forall i, stream_of p2 i = if bool_decide (i = idx) then Some s2 else stream_of p i) -> RecvSteps.keeps s s2 -> pinned s s2 -> created p idx ssrc p2) as Hdone.
  { intros p2 s2 Hi2 E1 E2 E3 E4 Hk Hp. split; [done|]. split.
    - split; [done..|]. intros ts now' [C1 C2]. split; [|by rewrite E1]. intros i s'. rewrite E4. case_bool_decide; [|apply C1].
      intros [= <-]. apply (calm_keeps s s2); [done..|]. apply Hcalm. rewrite Forall_forall in C2. by apply C2.
    - exists s2. rewrite E4, bool_decide_true by done. split; [done|]. by rewrite (pinned_ssrc _ _ Hp). }
  apply does_bind. destruct (pd_paused p) eqn:Epaused.
  - destruct (Pause_leads s (proj1 Hs)) as ([] & s2 & es & Ep & M & Hk). pose proof (Pause_quiet _ _ _ _ Ep) as ->.
    pose proof (Pause_pins s _ _ _ Ep) as Hp. eexists _, _, []. split; [by apply (with_stream_quiet listener idx _ s)|].
    unfold EmitScore. repeat does_step. split; [done|]. apply (Hdone _ s2); try done.
    + apply (replace_stream_inv p1 idx s); [done..|]. split; [apply M|]. destruct Hk as [-> _]. apply Hs.
    + intros i. rewrite stream_of_insert by by eapply stream_slot_lt. unfold p1. rewrite stream_of_new by done. by case_bool_decide.
  - unfold EmitScore. repeat does_step. split; [done|]. apply (Hdone _ s); try done. intros i. unfold p1. by rewrite stream_of_new.
Qed.

(** The answer of a lookup. *)
Definition located p ssrc (r : option nat) p' : Prop :=
  producer_inv p' /\ grown p p' /\
  match r with Some idx => exists s, stream_of p' idx = Some s /\ (RtpStreamRecv.GetSsrc s = ssrc \/ rtx_of s ssrc) | None => True end.

Lemma created_located p idx ssrc p' : created p idx ssrc p' -> located p ssrc (Some idx) p'.
Proof. intros (Hi & Hg & s & Es & E). split; [done|]. split; [done|]. exists s. split; [done|by left]. Qed.

Lemma nothing_located p ssrc : producer_inv p -> located p ssrc None p.
Proof. intros Hi. split; [done|]. split; [apply grown_refl|done]. Qed.

Definition with_rtx s (payloadType ssrc : Z) : rtp_stream_recv H :=
  set_rtxStream (set_stream s (RtpStream.SetRtx (rv_stream s) payloadType ssrc)) (Some (new_RtxStream ssrc)).

Lemma with_rtx_inv s payloadType ssrc : recv_inv s -> recv_inv (with_rtx s payloadType ssrc).
Proof. intros Hs. destruct (recv_SetRtx_leads s payloadType ssrc Hs) as ([] & s' & es & [= <- <-] & [Hc _ _ _] & Ht). by split. Qed.

Lemma add_rtx_inv p idx s payloadType ssrc : producer_inv p -> stream_of p idx = Some s -> recv_HasRtx s = false ->
  located p ssrc (Some idx) (set_pd_rtxSsrcs (set_pd_streams p (<[idx := Some (with_rtx s payloadType ssrc)]> (pd_streams p))) (<[ssrc := idx]> (pd_rtxSsrcs p))).
Proof.
  intros Hi Es Hr. pose proof Hi as [I1 I2 I3 I4 I5 I6 I7 I8 I9]. pose proof (stream_slot_lt _ _ _ Es) as Hl.
  set (s1 := with_rtx s payloadType ssrc). set (p1 := set_pd_rtxSsrcs _ _).
  assert (forall i, stream_of p1 i = if bool_decide (i = idx) then Some s1 else stream_of p i) as Hof.
  { intros i. change (stream_of p1 i) with (stream_of (set_pd_streams p (<[idx := Some s1]> (pd_streams p))) i). by apply stream_of_insert. }
  assert (forall i s', stream_of p1 i = Some s' -> i = idx /\ s' = s1 \/ i <> idx /\ stream_of p i = Some s') as Hcase.
  { intros i s'. rewrite Hof. case_bool_decide; [by intros [= <-]; left|by right]. }
  assert (RtpStreamRecv.GetSsrc s1 = RtpStreamRecv.GetSsrc s) as Hssrc by done.
  assert (stream_of p1 idx = Some s1) as Es1 by by rewrite Hof, bool_decide_true.
  split; [|split].
  - split; try done.
    + cbn. by rewrite length_insert.
    + intros k i. change (pd_ssrcs p1) with (pd_ssrcs p). rewrite I3. split.
      * intros (s' & E' & E). destruct (decide (i = idx)) as [->|Hne]; [exists s1; split; [done|congruence]|].
        exists s'. by rewrite Hof, bool_decide_false.
      * intros (s' & [[-> ->]|[_ E']]%Hcase & E); [exists s; split; [done|congruence]|by exists s'].
    + intros k i. cbn. destruct (decide (k = ssrc)) as [->|Hk].
      * rewrite lookup_insert_eq. intros [= <-]. by exists s1.
      * rewrite lookup_insert_ne by done. intros Er. destruct (I4 _ _ Er) as (s' & E' & R'). exists s'. rewrite Hof.
        case_bool_decide as Ei; [|done]. subst i. destruct R' as [R' _]. congruence.
    + intros i s' [[-> ->]|[_ E']]%Hcase; [by apply (I5 _ s)|by apply (I5 _ s')].
    + intros i s' [[-> ->]|[_ E']]%Hcase; [by apply with_rtx_inv, (I6 idx)|by apply (I6 i)].
    + intros i s' e [[-> ->]|[_ E']]%Hcase; [by apply (I8 _ s)|by apply (I8 _ s')].
  - split; [done..|]. intros ts now [C1 C2]. split; [|done]. intros i s' [[-> ->]|[_ E']]%Hcase; [by apply (C1 idx s)|by apply (C1 i)].
  - exists s1. split; [done|by right].
Qed.

Lemma add_rtx_spec idx payloadType ssrc p s : producer_inv p -> stream_of p idx = Some s ->
  does (add_rtx listener idx payloadType ssrc) (fun r p' _ => located p ssrc r p') p.
Proof.
  intros Hi Es. unfold add_rtx, stream_at. apply does_bind, does_bind, does_get. eapply does_lift; [by rewrite Es|].
  destruct (recv_HasRtx s) eqn:Hr; [by apply does_ret, nothing_located|]. apply does_bind.
  eexists _, _, []. split; [by apply (with_stream_quiet listener idx _ s () (with_rtx s payloadType ssrc))|].
  cbn beta. apply does_bind, does_modify, does_ret. exact (add_rtx_inv p idx s payloadType ssrc Hi Es Hr).
Qed.

(** * The lookups *)

Lemma drop_S_tail {A} (l k : list A) x i : drop i l = x :: k -> drop (S i) l = k.
Proof. intros E. by rewrite <- Nat.add_1_r, <- drop_drop, E. Qed.

(** An encoding is known by its SSRC or by its RID, not by both. *)
Definition separate (e : rtp_encoding_parameters) : Prop := ep_ssrc e = 0 \/ ep_rid e = [].

Lemma packet_kind_ok u e payloadType : setup_ok u -> e ∈ rtp_encodings (ps_params u) ->
  exists c isMedia isRtx, packet_kind (ps_params u) e payloadType = Ok (c, isMedia, isRtx) /\ c ∈ rtp_codecs (ps_params u).
Proof.
  intros [Hp Ha _ _] He. unfold packet_kind. destruct (GetCodecForEncoding_ok _ _ Hp He) as (c & Ec & _).
  destruct (GetRtxCodecForEncoding_ok (ps_params u) e Ha) as [r Er]. rewrite Ec, Er. ostep. eexists c, _, _. split; [done|].
  unfold GetCodecForEncoding in Ec. destruct (find_codec _ _) eqn:Ef; [|done]. injection Ec as <-. by apply find_codec_Some in Ef as [? _].
Qed.

Section lookups.
Context (now payloadType ssrc : Z) p (Hinv : producer_inv p) (Hnew : pd_ssrcs p !! ssrc = None).

Lemma slot_empty_own i e : encodings_of p !! i = Some e -> ep_rid e = [] -> ep_ssrc e <> 0 -> ep_ssrc e = ssrc -> stream_of p i = None.
Proof.
  intros He Hr Hne E. destruct (stream_of p i) as [s|] eqn:Es; [|done]. pose proof (pi_owner p Hinv _ _ _ Es He Hr Hne) as Eo.
  assert (pd_ssrcs p !! ssrc = Some i) by (apply (pi_ssrcs p Hinv); exists s; split; [done|congruence]). congruence.
Qed.

Lemma in_table i s : stream_of p i = Some s -> pd_ssrcs p !! RtpStreamRecv.GetSsrc s = Some i.
Proof. intros Es. apply (pi_ssrcs p Hinv). by exists s. Qed.

Lemma ssrc_lookup_spec i encodings : ssrc <> 0 -> Forall separate (encodings_of p) -> drop i (encodings_of p) = encodings ->
  does (ssrc_lookup listener now payloadType ssrc (ps_params (pd_setup p)) i encodings)
    (fun r p' _ => match r with Some r => located p ssrc r p' | None => p' = p end) p.
Proof.
  intros Hz Hsep. revert i. induction encodings as [|e encodings IH]; intros i Hd; cbn [ssrc_lookup]; [by apply does_ret|].
  assert (encodings_of p !! i = Some e) as He.
  { rewrite <- (Nat.add_0_r i), <- lookup_drop, Hd. done. }
  pose proof (list_elem_of_lookup_2 _ _ _ He) as Hin.
  destruct (packet_kind_ok (pd_setup p) e payloadType (pi_setup p Hinv) Hin) as (c & isMedia & isRtx & Ek & Hc).
  apply does_bind. eapply does_lift; [exact Ek|]. cbn beta iota. destruct (isMedia && (ep_ssrc e =? ssrc)) eqn:Em.
  - apply andb_true_iff in Em as [_ Em%Z.eqb_eq]. rewrite Forall_forall in Hsep.
    assert (ep_rid e = []) as Hr by (destruct (Hsep e Hin); congruence).
    apply does_bind. eapply does_weaken; [apply (CreateRtpStream_spec now ssrc c i e); try done|].
    + apply (slot_empty_own i e); [done|done|congruence|done].
    + intros r p' es [-> Hcr]. by apply does_ret, created_located.
  - destruct (isRtx && _).
    + apply does_bind, does_get. destruct (pd_ssrcs p !! ep_ssrc e) as [idx|] eqn:Es; [|by apply does_ret, nothing_located].
      apply (pi_ssrcs p Hinv) in Es as (s & Es & _). apply does_bind. eapply does_weaken; [by eapply add_rtx_spec|].
      intros r p' es Hr. by apply does_ret.
    + apply IH. by rewrite (drop_S_tail _ _ _ _ Hd).
Qed.

Lemma slot_empty_rid i e : encodings_of p !! i = Some e -> find_rid p (ep_rid e) = None -> stream_of p i = None.
Proof.
  intros He Hf. destruct (stream_of p i) as [s|] eqn:Es; [|done]. pose proof (find_rid_None _ _ _ _ Hf (in_table _ _ Es)) as Hne.
  unfold rid_of in Hne. by rewrite He in Hne.
Qed.

Lemma rid_lookup_spec rid i encodings : rid <> [] -> drop i (encodings_of p) = encodings ->
  does (rid_lookup listener now payloadType ssrc rid (ps_params (pd_setup p)) i encodings) (fun r p' _ => located p ssrc r p') p.
Proof.
  intros Hrid. revert i. induction encodings as [|e encodings IH]; intros i Hd; cbn [rid_lookup]; [by apply does_ret, nothing_located|].
  case_bool_decide as Er; [apply IH; by rewrite (drop_S_tail _ _ _ _ Hd)|].
  assert (ep_rid e = rid) as <- by (destruct (decide (ep_rid e = rid)); [done|by destruct Er]).
  assert (encodings_of p !! i = Some e) as He by by rewrite <- (Nat.add_0_r i), <- lookup_drop, Hd.
  pose proof (list_elem_of_lookup_2 _ _ _ He) as Hin.
  destruct (packet_kind_ok (pd_setup p) e payloadType (pi_setup p Hinv) Hin) as (c & isMedia & isRtx & Ek & Hc).
  apply does_bind. eapply does_lift; [exact Ek|]. cbn beta iota. apply does_bind, does_get.
  destruct isMedia; [|destruct isRtx].
  - destruct (find_rid p (ep_rid e)) as [idx|] eqn:Ef; [by apply does_ret, nothing_located|].
    apply does_bind. eapply does_weaken; [apply (CreateRtpStream_spec now ssrc c i e); try done; by apply (slot_empty_rid i e)|].
    intros r p' es [-> Hcr]. by apply does_ret, created_located.
  - destruct (find_rid p (ep_rid e)) as [idx|] eqn:Ef; [|by apply does_ret, nothing_located].
    apply find_rid_Some in Ef as ((k & Ek') & _). apply (pi_ssrcs p Hinv) in Ek' as (s & Es & _). by eapply add_rtx_spec.
  - apply IH. by rewrite (drop_S_tail _ _ _ _ Hd).
Qed.

Lemma single_lookup_spec : does (single_lookup listener now payloadType ssrc (ps_params (pd_setup p))) (fun r p' _ => located p ssrc r p') p.
Proof.
  assert (does (mret None : act (rtp_producer H) producer_event (option nat)) (fun r p' _ => located p ssrc r p') p) as Hno.
  { by apply does_ret, nothing_located. }
  unfold single_lookup. destruct (rtp_encodings (ps_params (pd_setup p))) as [|e [|? ?]] eqn:Ee; [done| |done].
  destruct (negb _ && _) eqn:Ec; [|done]. apply andb_true_iff in Ec as [Ez%negb_true_iff Er%bool_decide_eq_true].
  apply negb_false_iff, Z.eqb_eq in Ez.
  assert (encodings_of p !! 0%nat = Some e) as He by (unfold encodings_of; by rewrite Ee).
  destruct (packet_kind_ok (pd_setup p) e payloadType (pi_setup p Hinv)) as (c & isMedia & isRtx & Ek & Hc); [rewrite Ee; left|].
  apply does_bind. eapply does_lift; [exact Ek|]. cbn beta iota. apply does_bind, does_get.
  destruct isMedia; [|destruct isRtx; [|done]].
  - case_bool_decide as Em; [|done]. apply does_bind.
    eapply does_weaken; [apply (CreateRtpStream_spec now ssrc c 0 e); try done|].
    + destruct (stream_of p 0) as [s|] eqn:Es; [|done]. apply in_table in Es. by rewrite Em in Es.
    + intros r p' es [-> Hcr]. by apply does_ret, created_located.
  - destruct (streams_in_order p) as [|[k idx] l] eqn:El; [done|].
    assert ((k, idx) ∈ streams_in_order p) as Hin by (rewrite El; left). apply streams_in_order_elem in Hin.
    apply (pi_ssrcs p Hinv) in Hin as (s & Es & _). by eapply add_rtx_spec.
Qed.
End lookups.

Lemma ReadRid_nonempty q rid : ReadRid q = Ok (Some rid) -> rid <> [].
Proof.
  unfold ReadRid. intros (e & _ & E)%bind_Ok.
  assert (forall e v l r, nonempty e = Some (v, l) -> slice (mem q) v l = Ok r -> r <> []) as Hs.
  { intros [[v l]|] v' l' r; [|done]. cbn. destruct (Z.ltb_spec 0 l); [|done]. intros [= <- <-] Es%zlen_slice ->. change (zlen []) with 0 in Es. lia. }
  destruct (nonempty e) as [[v l]|] eqn:En.
  - apply bind_Ok in E as (s & Es & [= <-]). by eapply Hs.
  - apply bind_Ok in E as (e' & _ & E). destruct (nonempty e') as [[v l]|] eqn:En'; [|done].
    apply bind_Ok in E as (s & Es & [= <-]). by eapply Hs.
Qed.

(** A stream is found or made, or there is none; nothing else happens. *)
Lemma GetRtpStream_spec now q ssrc p : producer_inv p -> rtp_wf q -> maps_ok q -> RtpPacket.GetSsrc q = Ok ssrc -> ssrc <> 0 ->
  Forall separate (encodings_of p) ->
  does (GetRtpStream listener now q) (fun r p' _ => located p ssrc r p') p.
Proof.
  intros Hi Hwf Hmaps Es Hz Hsep. unfold GetRtpStream. apply does_bind. eapply does_lift; [exact Es|].
  destruct (wf_payload q Hwf) as (H12 & Hend & _). unfold HeaderSize in H12. pose proof (wf_lengths q Hwf) as (? & ? & ?).
  destruct (get_bits_in_bounds (mem q) 1 0 7 ltac:(lia)) as (pt & Ept). apply does_bind. eapply does_lift; [exact Ept|].
  apply does_bind, does_get. destruct (pd_ssrcs p !! ssrc) as [idx|] eqn:E1.
  { apply does_ret. apply (pi_ssrcs p Hi) in E1 as (s & Es1 & E). split; [done|]. split; [apply grown_refl|]. exists s. split; [done|by left]. }
  destruct (pd_rtxSsrcs p !! ssrc) as [idx|] eqn:E2.
  { apply does_ret. apply (pi_rtx p Hi) in E2 as (s & Es1 & E). split; [done|]. split; [apply grown_refl|]. exists s. split; [done|by right]. }
  apply does_bind. eapply does_weaken; [by apply ssrc_lookup_spec|]. intros [r|] p1 es Hr; [by apply does_ret|]. subst p1.
  destruct (ReadRid_Ok q Hwf Hmaps) as [rid Erid]. apply does_bind. eapply does_lift; [exact Erid|]. destruct rid as [rid|].
  - eapply does_weaken; [apply rid_lookup_spec; [done|done|by eapply ReadRid_nonempty|done]|]. done.
  - by apply single_lookup_spec.
Qed.

(** ** No packet goes to the router *)

Definition no_packet (e : producer_event) : Prop := match e with OnProducerRtpPacketReceived _ => False | _ => True end.

Notation quiet m := (only no_packet m).

Lemma for_all_quiet {A} (f : A -> act (rtp_producer H) producer_event unit) l : (forall x, quiet (f x)) -> quiet (for_all f l).
Proof. intros Hf. induction l as [|x l IH]; cbn [for_all]; [apply only_ret|]. by apply only_bind. Qed.

Lemma SendRtcpPacket_quiet q : quiet (OnRtpStreamSendRtcpPacket q : act (rtp_producer H) producer_event unit).
Proof.
  unfold OnRtpStreamSendRtcpPacket, trace_psfb, trace_rtpfb, EmitTraceEventPliType, EmitTraceEventFirType, EmitTraceEventNackType, emit_trace.
  repeat only_step.
Qed.

Lemma OnKeyFrameNeeded_quiet ssrc : quiet (OnKeyFrameNeeded ssrc : act (rtp_producer H) producer_event unit).
Proof.
  unfold OnKeyFrameNeeded, stream_RequestKeyFrame, stream_at, set_stream_at. repeat only_step.
  induction l as [|[] l IH]; cbn [handle_sent]; [apply only_ret|done|]. apply only_bind; [apply SendRtcpPacket_quiet|done].
Qed.

Lemma tell_quiet e : no_packet e -> quiet (tell listener e : act (rtp_producer H) producer_event unit).
Proof.
  intros He. unfold tell. apply only_bind; [by apply only_emit|]. intros []. apply for_all_quiet. intros m.
  unfold Producer.RequestKeyFrame, with_manager. repeat only_step. apply for_all_quiet, OnKeyFrameNeeded_quiet.
Qed.

Lemma handle_quiet idx es : quiet (handle listener idx es : act (rtp_producer H) producer_event unit).
Proof.
  induction es as [|[x y|q] es IH]; cbn [handle]; [apply only_ret| |].
  - apply only_bind; [|done]. unfold OnRtpStreamScore, EmitScore. apply only_bind; [apply only_modify|]. intros _.
    apply only_bind; [by apply tell_quiet|]. intros _. repeat only_step.
  - apply only_bind; [apply SendRtcpPacket_quiet|done].
Qed.

Lemma with_stream_no_packet {A} idx (m : act (rtp_stream_recv H) recv_event A) : quiet (with_stream listener idx m).
Proof. unfold with_stream, stream_at, set_stream_at. repeat only_step. apply handle_quiet. Qed.

Lemma CreateRtpStream_quiet now ssrc c idx : quiet (CreateRtpStream listener now ssrc c idx : act (rtp_producer H) producer_event nat).
Proof. unfold CreateRtpStream, EmitScore. repeat only_step. apply with_stream_no_packet. Qed.

Lemma add_rtx_quiet idx payloadType ssrc : quiet (add_rtx listener idx payloadType ssrc : act (rtp_producer H) producer_event (option nat)).
Proof. unfold add_rtx, stream_at. repeat only_step. apply with_stream_no_packet. Qed.

Lemma GetRtpStream_quiet now q : quiet (GetRtpStream listener now q : act (rtp_producer H) producer_event (option nat)).
Proof.
  assert (forall payloadType ssrc params i l, quiet (ssrc_lookup listener now payloadType ssrc params i l : act (rtp_producer H) producer_event (option (option nat)))) as H1'.
  { intros pt ssrc params i l. revert i. induction l as [|e l IH]; intros i; cbn [ssrc_lookup]; repeat only_step; [apply CreateRtpStream_quiet|apply add_rtx_quiet|apply IH]. }
  assert (forall payloadType ssrc rid params i l, quiet (rid_lookup listener now payloadType ssrc rid params i l : act (rtp_producer H) producer_event (option nat))) as H2'.
  { intros pt ssrc rid params i l. revert i. induction l as [|e l IH]; intros i; cbn [rid_lookup]; repeat only_step; try apply IH; [apply CreateRtpStream_quiet|apply add_rtx_quiet]. }
  unfold GetRtpStream, single_lookup. repeat only_step; try apply H1'; try apply H2'; try apply CreateRtpStream_quiet; apply add_rtx_quiet.
Qed.

(** ** The abort *)

(** A packet with the SSRC 0 is taken for that of an encoding that has no SSRC. *)
Lemma zero_ssrc_stream now q p e encodings s c : pd_ssrcs p !! 0 = None -> pd_rtxSsrcs p !! 0 = None ->
  encodings_of p = e :: encodings -> ep_ssrc e = 0 -> stream_of p 0 = Some s -> RtpPacket.GetSsrc q = Ok 0 ->
  GetCodecForEncoding (ps_params (pd_setup p)) e = Ok c -> apt_everywhere (ps_params (pd_setup p)) -> GetPayloadType q = Ok (co_payloadType c) ->
  GetRtpStream listener now q p = Err AssertFailed.
Proof.
  intros E1 E2 Ee Ez Es Eq Ec Ha Ept. destruct (GetRtxCodecForEncoding_ok _ e Ha) as [r Er].
  assert (packet_kind (ps_params (pd_setup p)) e (co_payloadType c) = Ok (c, true, match r with Some c' => co_payloadType c' =? co_payloadType c | None => false end)) as Ek.
  { unfold packet_kind. rewrite Ec, Er. ostep. by rewrite Z.eqb_refl. }
  assert (CreateRtpStream listener now 0 c 0 p = Err AssertFailed) as Ecr.
  { unfold CreateRtpStream. rewrite act_get_bind. unfold lift, mbind, act_bind. rewrite E1. ostep.
    apply stream_slot in Es. rewrite Es. ostep. done. }
  unfold GetRtpStream, lift. rewrite Eq, Ept. ostep. unfold mbind at 1, act_bind at 1. unfold mbind at 1, act_bind at 1. rewrite act_get_bind, E1, E2.
  unfold encodings_of in Ee. rewrite Ee. cbn [ssrc_lookup]. rewrite Ez. unfold lift. rewrite Ek. unfold mbind, act_bind. ostep. cbn. by rewrite Ecr.
Qed.
End streams.
