(* ===== verification/ProducerSteps.v ===== *)
(** A producer that receives a packet: whatever the packet holds and whatever
    the listener asks for meanwhile, the producer answers and keeps its tables.

    The other operations of a producer: reports, requests, timers; and all of them
    together, as what may happen to it. *)

From Stdlib Require Import Floats.SpecFloat.
From S2P Require Export ProducerFacts ProducerPackets.
From S2P Require Import RtpStreamRecv Producer.

(** * What is left of a packet that was received *)

(** The packet has the shape that it came with, and is at most a byte longer. *)
Record worked (p q : rtp_packet) : Prop := Worked {
  wo_wf : rtp_wf q;
  wo_maps : maps_ok q;
  wo_shape : same_shape p q;
  wo_size : size q <= size p + 1
}.

Lemma worked_refl p : arrived p -> worked p p.
Proof. intros (Hwf & Hmaps & _). split; [done..|lia]. Qed.

Lemma ProcessRtpPacket_size codec p q : 0 <= size p -> ProcessRtpPacket codec p = Ok q -> size (vp_packet q) <= size p + 1.
Proof.
  intros Hs. assert (u64 (size p + 1) <= size p + 1) as Hu by (unfold u64, wrap; pose proof (Z.mod_le (size p + 1) (2 ^ 64)); lia).
  assert (forall kf r, ProcessRtpPacketH26x kf p = Ok r -> r.1 = p) as H26.
  { intros kf r. unfold ProcessRtpPacketH26x. intros (fm & _ & E)%bind_Ok. destruct (ParseH26x _ _ _ _ _) as [d|[]]; by simplify_eq/=. }
  destruct codec as [[]|]; cbn [ProcessRtpPacket]; [intros E0; apply bind_Ok in E0 as ([r o] & E & [= <-]); cbn [vp_packet]..|intros E0; injection E0 as <-; cbn; lia].
  - unfold ProcessRtpPacketVP8 in E. destruct (ParseVP8 _ _ _) as [d|[]]; simplify_eq/=; [|lia]. destruct (vp8_hasOneBytePictureId d); [|simplify_eq; lia].
    apply bind_Ok in E as (r' & Er & E). apply bind_Ok in E as (m & _ & [= <- <-]). unfold ShiftPayload in Er. cbn [Z.eqb] in Er. ok_inv. cbn. lia.
  - unfold ProcessRtpPacketVP9 in E. destruct (ParseVP9 _ _ _) as [d|[]]; simplify_eq/=; lia.
  - apply H26 in E. cbn in E. subst. lia.
  - apply H26 in E. cbn in E. subst. lia.
Qed.

Lemma process_codec_worked {H : Type} (s : rtp_stream_recv H) p q : arrived p -> process_codec s p = Ok q -> worked p (vp_packet q).
Proof.
  intros Hp. pose proof Hp as (Hwf & Hmaps & _). unfold process_codec. intros (pt & _ & E)%bind_Ok. destruct (pt =? _).
  - destruct (ProcessRtpPacket_handled (rp_codec (rv_par s)) p Hp) as (q' & Eq & [Hq _] & _ & Hs & Hf & _). rewrite E in Eq. injection Eq as <-.
    split; [done| |done|]. { apply (same_shape_maps p); [done..|]. intros i Hi. apply Hf. lia. }
    eapply ProcessRtpPacket_size; [|exact E]. pose proof (wf_lengths p Hwf). pose proof (wf_payload p Hwf). unfold HeaderSize in *. lia.
  - injection E as <-. by apply worked_refl.
Qed.

Lemma RtxDecode_worked p pt ssrc q ok : arrived p -> RtxDecode p pt ssrc = Ok (q, ok) -> arrived q /\ worked p q /\ size q <= size p.
Proof.
  intros Hp E. pose proof Hp as (Hwf & Hmaps & Hroom & Hsmall).
  destruct (RtxDecode_arrived p pt ssrc Hp) as [E'|(q' & E' & Hq)]; rewrite E' in E; injection E as <- <-; [split; [done|]; split; [by apply worked_refl|lia]|].
  pose proof Hq as (Hwfq & Hmq & _). destruct (payload_bytes p) as [l|] eqn:El.
  2: { destruct (wf_payload p Hwf) as (H12 & Hend & _). pose proof (wf_lengths p Hwf) as (? & ? & ?). unfold HeaderSize in *.
       unfold payload_bytes in El. destruct (slice_in_bounds (mem p) (payload p) (payloadLength p)) as [l El']; [lia..|congruence]. }
  assert (2 <= payloadLength p) as Hl.
  { destruct (Z.lt_ge_cases (payloadLength p) 2) as [Hl|Hl]; [|done]. unfold RtxDecode in E'. by rewrite (proj2 (Z.ltb_lt _ _) Hl) in E'. }
  assert (same_shape p q' /\ payloadLength q' = payloadLength p - 2 /\ payloadPadding q' = 0) as (Hs & Hql & Hqp).
  { pose proof (zlen_slice _ _ _ _ El) as Ll. destruct l as [|a [|b l]]; cbn in Ll; [unfold zlen in Ll; cbn in Ll; lia|unfold zlen in Ll; cbn in Ll; lia|].
    pose proof (bytes_slice _ _ _ _ (wf_bytes p Hwf) El) as Hb.
    assert (be_bytes 2 (be_val [a; b]) = [a; b]) as Eab by exact (be_bytes_be_val [a; b] (Forall_take _ 2 _ Hb)).
    destruct (RtxDecode_spec p pt ssrc l (be_val [a; b]) Hwf Hsmall) as (q & Eq & _ & Hsh & _ & Hql & Hqp & _); [by rewrite Eab|].
    rewrite E' in Eq. by injection Eq as <-. }
  assert (size q' <= size p).
  { pose proof (wf_lengths p Hwf) as (_ & ? & ?). pose proof (wf_lengths q' Hwfq) as (_ & _ & ?). destruct Hs as (_ & _ & Hpay & _). lia. }
  split; [done|]. split; [split; [done..|lia]|done].
Qed.

Lemma worked_trans p d q : size d <= size p -> same_shape p d -> worked d q -> worked p q.
Proof. intros Hz (A1 & A2 & A3 & A4 & A5 & A6 & A7) [W1 W2 (B1 & B2 & B3 & B4 & B5 & B6 & B7) W4]. split; [done..| |lia]. split_and!; congruence. Qed.

Section receive.
Context {H : Type} `{UvLaws H} `{PowLaws} (listener : producer_listener).
Implicit Types p : rtp_producer H.
Implicit Types s : rtp_stream_recv H.

Lemma given_back_worked s packet q : arrived packet -> media_back s packet q -> worked packet (vp_packet q).
Proof. intros Hp [->|E]; [by apply worked_refl|by eapply process_codec_worked]. Qed.

Lemma decoded_back_worked s packet r : arrived packet -> decoded_back s packet r -> worked packet (vp_packet r.1).
Proof.
  intros Hp [->|(d & ok & E & Hr)]; [by apply worked_refl|].
  destruct (RtxDecode_worked _ _ _ _ _ Hp E) as (Hd & Hw & Hz). destruct Hr as [->|[_ Er]]; [done|].
  eapply (worked_trans packet d); [done|apply Hw|]. by eapply process_codec_worked.
Qed.

(** * The stream of the packet *)

(** The stream can take the packet now. *)
Definition ready p (now : Z) (packet : rtp_packet) : Prop :=
  0 < now < 2 ^ 64 /\ forall ts, GetTimestamp packet = Ok ts -> calm p ts now.

Lemma process_packet_calls now idx packet ssrc s p : producer_inv p -> stream_of p idx = Some s -> arrived packet -> ready p now packet ->
  RtpPacket.GetSsrc packet = Ok ssrc -> RtpStreamRecv.GetSsrc s = ssrc \/ rtx_of s ssrc ->
  calls (process_packet listener now idx packet) (fun r => worked packet (vp_packet r.1.1)) p.
Proof.
  intros Hi Es Hp [Hnow Hcalm] Essrc Hown. unfold process_packet. eapply calls_known; [exact Essrc|]. eapply stream_at_known; [exact Es|].
  pose proof (pi_streams p Hi _ _ Es) as Hs. pose proof Hp as (Hwf & _). destruct (wf_reads packet Hwf) as (_ & ts & _ & _ & Ets & _).
  destruct (Hcalm ts Ets) as [Hst _]. destruct (Hst idx s Es) as [Hj Hroom]. destruct (Z.eqb_spec ssrc (RtpStreamRecv.GetSsrc s)) as [E|Hne].
  - eapply (calls_bind _ _ (fun r => worked packet (vp_packet r.1))).
    + eapply with_stream_calls; [done|exact Es| |].
      * apply ReceivePacket_leads; [done|]. split; [done|]. split; [done|]. split; [|done]. intros ts'. rewrite Ets. by intros [= <-].
      * eapply may_weaken; [apply ReceivePacket_may|]. intros r s' [Hpin Hg]. split; [done|]. by eapply given_back_worked.
    + intros [q ok] p1 Hi1 _ Hq. by apply calls_ret.
  - destruct Hown as [|[Hr Er]]; [congruence|]. rewrite Er, Z.eqb_refl. eapply (calls_bind _ _ (fun r => worked packet (vp_packet r.1))).
    + eapply with_stream_calls; [done|exact Es| |].
      * apply ReceiveRtxPacket_leads; [done|]. split; [done|]. split; [done|]. split; [done|]. split; [done|congruence].
      * eapply may_weaken; [apply ReceiveRtxPacket_may|]. intros r s' [Hpin Hg]. split; [done|]. by eapply decoded_back_worked.
    + intros [q ok] p1 Hi1 _ Hq. by apply calls_ret.
Qed.
(** * What follows *)

Lemma key_frame_received_calls packet p : producer_inv p -> rtp_wf (vp_packet packet) -> calls (key_frame_received packet) (fun _ => True) p.
Proof.
  intros Hi Hwf. unfold key_frame_received. destruct (IsKeyFrame packet); [|by apply calls_skip].
  destruct (wf_GetSsrc _ Hwf) as [ssrc E]. eapply calls_known; [exact E|]. apply with_manager_calls; [done|]. intros m _. apply received_manages.
Qed.

Lemma mapped_stream p idx s : producer_inv p -> stream_of p idx = Some s -> exists m, pd_mapped p !! idx = Some m.
Proof.
  intros Hi Es. rewrite (pi_mapped p Hi _ _ Es). apply lookup_lt_is_Some_2. rewrite (su_mapping _ (pi_setup p Hi)). fold (encodings_of p).
  rewrite <- (pi_slots p Hi). by eapply stream_slot_lt.
Qed.

Lemma NotifyNewRtpStream_calls idx s p : producer_inv p -> stream_of p idx = Some s -> calls (NotifyNewRtpStream listener idx) (fun _ => True) p.
Proof.
  intros Hi Es. unfold NotifyNewRtpStream. apply calls_state. destruct (mapped_stream p idx s Hi Es) as [m Em].
  eapply calls_known; [by rewrite Em|]. by apply tell_calls.
Qed.

Lemma set_current_calls c p : producer_inv p -> (forall q, c = Some q -> rtp_wf (vp_packet q)) ->
  calls (modify (fun p => set_pd_current p c)) (fun _ => True) p.
Proof.
  intros Hi Hc. assert (kept p (set_pd_current p c)) as Hk by by apply kept_same. apply calls_modify; [|done].
  apply (kept_inv p); [done|done|apply Hi|apply Hi|done].
Qed.

Lemma announce_calls idx s packet p : producer_inv p -> stream_of p idx = Some s -> rtp_wf (vp_packet packet) ->
  calls (announce listener idx packet) (fun _ => True) p.
Proof.
  intros Hi Es Hwf. unfold announce. apply calls_state. apply calls_then.
  - destruct (_ && _); [|by apply calls_skip]. destruct (wf_GetSsrc _ Hwf) as [ssrc E]. eapply calls_known; [exact E|].
    apply with_manager_calls; [done|]. intros m _. apply forced_manages.
  - intros p1 Hi1 Hk1. apply calls_then; [apply set_current_calls; [done|]; by intros q [= <-]|]. intros p2 Hi2 Hk2.
    destruct (kept_forth _ _ _ _ (kept_trans _ _ _ Hk1 Hk2) Es) as (s2 & Es2 & _).
    apply calls_then; [by eapply NotifyNewRtpStream_calls|]. intros p3 Hi3 _. by apply set_current_calls.
Qed.

Lemma PostProcessRtpPacket_calls q p : producer_inv p -> rtp_wf q -> maps_ok q -> calls (PostProcessRtpPacket q) (fun _ => True) p.
Proof.
  intros Hi Hwf Hmaps. unfold PostProcessRtpPacket. apply calls_state. destruct (ps_video _); [|by apply calls_skip].
  assert (exists o, ReadVideoOrientation q = Ok o) as [o Eo].
  { unfold ReadVideoOrientation, extension_of_length. destruct (GetExtension_in_buffer q Hwf Hmaps (videoOrientationExtensionId (ids q))) as (e & -> & He).
    ostep. destruct e as [[v l]|]; [|by eexists]. destruct (He v l eq_refl) as (? & ? & ?). destruct (l =? 1); [|by eexists].
    ostep. unfold Get1Byte. destruct (get1_in_bounds (mem q) v) as [b ->]; [lia..|]. ostep. by eexists. }
  eapply calls_known; [exact Eo|]. destruct o as [[[camera flip] rotation]|]; [|by apply calls_skip].
  case_bool_decide; [by apply calls_skip|]. assert (kept p (set_pd_orientation p (camera, flip, rotation))) as Hk by by apply kept_same.
  apply calls_then; [apply calls_modify; [|done]; apply (kept_inv p); [done|done|apply Hi..]|]. intros. by apply calls_emit.
Qed.

Definition spacious (packet : rtp_packet) : Prop :=
  extension_length packet <= 32000 /\ size packet - extension_length packet + 89 <= zlen (mem packet).

Lemma worked_can_mangle packet q : arrived packet -> spacious packet -> worked packet q -> can_mangle q.
Proof.
  intros (_ & _ & _ & Hsmall) [Hx Hz] [W1 W2 (_ & E1 & E2 & _ & _ & _ & E3) W4].
  assert (extension_length q = extension_length packet) as Ex by (unfold extension_length; by rewrite E1, E2).
  split; [done|]. split; [done|]. rewrite Ex, E3. split_and!; lia.
Qed.

Lemma deliver_calls idx s packet result p : producer_inv p -> stream_of p idx = Some s -> can_mangle (vp_packet packet) ->
  calls (deliver listener idx packet result) (fun _ => True) p.
Proof.
  intros Hi Es Hcan. pose proof Hcan as (Hwf & Hmaps & _). unfold deliver. apply calls_state. destruct (pd_paused p); [by apply calls_ret|]. apply calls_then.
  { unfold EmitTraceEventRtpAndKeyFrameTypes. apply calls_state. repeat case_match; by apply calls_emit || by apply calls_skip. }
  intros p1 Hi1 Hk1. destruct (wf_payload _ Hwf) as (H12 & Hend & _). unfold HeaderSize in H12. pose proof (wf_lengths _ Hwf) as (? & ? & ?).
  destruct (get_bits_in_bounds (mem (vp_packet packet)) 1 0 7 ltac:(lia)) as (pt & Ept).
  destruct (mp_codecs (ps_mapping (pd_setup p)) !! pt) as [mpt|] eqn:Em.
  - destruct (mapped_stream p idx s Hi Es) as [ms Ems].
    destruct (MangleRtpPacket_spec p (vp_packet packet) idx pt mpt ms Hcan Ept Em Ems) as (q & Eq & Hwfq & Hmq & Hpt & Hssrc & _ & Hids & Hroom & _).
    assert (router_packet (pd_setup p) q) as Hseen.
    { split; [done|]. split; [done|]. split; [done|]. split; [by exists pt, mpt|]. split; [|done]. exists ms. split; [|done].
      rewrite (pi_mapped p Hi _ _ Es) in Ems. by eapply list_elem_of_lookup_2. }
    eapply calls_known; [exact Eq|]. cbn beta iota zeta. cbn [negb].
    apply calls_then; [by apply PostProcessRtpPacket_calls|]. intros p2 Hi2 Hk2.
    apply calls_then; [apply tell_calls; [done|]; cbn; by rewrite (ke_setup _ _ Hk2), (ke_setup _ _ Hk1)|]. intros p3 Hi3 _. by apply calls_ret.
  - eapply (calls_known _ (vp_packet packet, false)); [|by apply calls_ret].
    unfold MangleRtpPacket, GetPayloadType. rewrite Ept. ostep. by rewrite Em.
Qed.

(** * The packet *)

Lemma PreProcess_same u packet : arrived packet -> let q := PreProcessRtpPacket u packet in
  arrived q /\ mem q = mem packet /\ size q = size packet /\ extension_length q = extension_length packet.
Proof.
  intros (Hwf & Hmaps & Hroom & Hsmall). unfold PreProcessRtpPacket. destruct (ps_video u); [|by split_and!].
  split_and!; try done. by destruct Hwf; split.
Qed.

Lemma calm_current p c ts now : calm p ts now -> calm (set_pd_current p c) ts now.
Proof. done. Qed.

Lemma ReceiveRtpPacket_answers now packet ssrc p : producer_inv p -> arrived packet -> spacious packet -> ready p now packet ->
  RtpPacket.GetSsrc packet = Ok ssrc -> ssrc <> 0 -> Forall separate (encodings_of p) ->
  does (Producer.ReceiveRtpPacket listener now packet)
    (fun _ p' es => producer_inv p' /\ pd_setup p' = pd_setup p /\ Forall (seen (pd_setup p)) es) p.
Proof.
  intros Hi Hp Hspace [Hnow Hcalm] Essrc Hz Hsep. pose proof Hp as (Hwf & Hmaps & _). unfold Producer.ReceiveRtpPacket.
  destruct (set_current_calls None p Hi) as ([] & p0 & es0 & E0 & Hi0 & Hk0 & _); [done|]. injection E0 as <- <-.
  apply does_bind, does_modify. apply does_bind, does_get. apply does_bind.
  eapply does_weaken; [by apply (only_run no_packet), (GetRtpStream_spec listener now packet ssrc (set_pd_current p None)); [apply GetRtpStream_quiet|..]|].
  assert (forall es, Forall no_packet es -> Forall (seen (pd_setup p)) es) as Hquiet by (intros es Hes; eapply Forall_impl; [exact Hes|]; by intros []).
  intros [idx|] p1 es1 [(Hi1 & [G1 G2 G3 G4] & Hidx) Hes1]; [|apply does_ret; split; [done|]; split; [done|]; rewrite app_nil_r; by apply Hquiet]. destruct Hidx as (s & Es & Hown).
  apply does_bind, does_get. cbn zeta. destruct (PreProcess_same (pd_setup p1) packet Hp) as (Hp' & Em & Ez & Ex).
  set (packet' := PreProcessRtpPacket (pd_setup p1) packet) in *.
  assert (forall A (Q : A -> Prop) m, calls m Q p1 -> does m (fun _ p' es => producer_inv p' /\ pd_setup p' = pd_setup p /\ Forall (seen (pd_setup p)) (es1 ++ es)) p1) as Hdone.
  { intros A Q m Hm. eapply does_weaken; [exact Hm|]. intros a p' es (Hi' & Hk' & _ & Hes). split; [done|].
    split; [by rewrite (ke_setup _ _ Hk'), G1|]. apply Forall_app. split; [by apply Hquiet|]. by rewrite G1 in Hes. }
  eapply (Hdone _ (fun _ => True)). eapply calls_bind.
  { apply (process_packet_calls now idx packet' ssrc s); try done.
    - split; [done|]. intros ts Ets. apply G4, calm_current, Hcalm. by rewrite <- Ets; unfold GetTimestamp; rewrite Em.
    - by rewrite <- Essrc; unfold RtpPacket.GetSsrc; rewrite Em. }
  intros [[packet2 result] ok] p2 Hi2 Hk2 Hw. cbn [fst snd] in Hw. destruct (kept_forth _ _ _ _ Hk2 Es) as (s2 & Es2 & _).
  destruct ok; cbn [negb].
  - apply calls_then; [apply key_frame_received_calls; [done|apply Hw]|]. intros p3 Hi3 Hk3. destruct (kept_forth _ _ _ _ Hk3 Es2) as (s3 & Es3 & _).
    apply calls_then. { destruct (_ <? _)%nat; [eapply announce_calls; [done|exact Es3|apply Hw]|by apply calls_skip]. }
    intros p4 Hi4 Hk4. destruct (kept_forth _ _ _ _ Hk4 Es3) as (s4 & Es4 & _). eapply deliver_calls; [done|exact Es4|].
    apply (worked_can_mangle packet'); [done| |done]. destruct Hspace. split; [by rewrite Ex|by rewrite Ex, Ez, Em].
  - apply calls_then; [|intros; by apply calls_ret].
    destruct result; try by apply calls_skip. destruct (_ <? _)%nat; [by eapply NotifyNewRtpStream_calls|by apply calls_skip].
Qed.
End receive.

From Stdlib Require Import Floats.SpecFloat.
From stdpp Require Import sorting.
From S2P Require Import KeyFrame RtpStreamRecv Producer.

(** * What happens to a producer *)

Inductive producer_input : Type :=
| PacketReceived (now : Z) (packet : rtp_packet)
| KeyFrameAsked (mappedSsrc : Z)
| PendingTimerFired (ssrc : Z)
| DelayerTimerFired (ssrc : Z)
| SenderReported (now : Z) (report : sender_report)
| XrReported (now : Z) (info : ssrc_info)
| ReportsAsked (packet : compound_packet) (nowMs : Z)
| PauseAsked
| ResumeAsked
| TracesAsked (types : list string)
| StreamInactive (now : Z) (idx : nat)
| StreamNackTimer (now : Z) (idx : nat).

Section steps.
Context {H : Type} `{UvLaws H} `{PowLaws} (listener : producer_listener).
Implicit Types p : rtp_producer H.
Implicit Types s : rtp_stream_recv H.

Notation op := (act (rtp_producer H) producer_event).

Definition producer_step (i : producer_input) : op unit :=
  match i with
  | PacketReceived now packet => _ ← Producer.ReceiveRtpPacket listener now packet; skip
  | KeyFrameAsked mappedSsrc => Producer.RequestKeyFrame mappedSsrc
  | PendingTimerFired ssrc => OnPendingTimer ssrc
  | DelayerTimerFired ssrc => OnDelayerTimer ssrc
  | SenderReported now report => Producer.ReceiveRtcpSenderReport listener now report
  | XrReported now info => Producer.ReceiveRtcpXrDelaySinceLastRr listener now info
  | ReportsAsked packet nowMs => _ ← Producer.GetRtcp listener packet nowMs; skip
  | PauseAsked => HandlePause listener
  | ResumeAsked => HandleResume listener
  | TracesAsked types => HandleEnableTraceEvent (Some (Some <$> types))
  | StreamInactive now idx => OnInactivityTimer listener now idx
  | StreamNackTimer now idx => OnGeneratorTimer listener now idx
  end.

Definition reports_defined s : Prop :=
  report_defined (rv_loss s) (GetExpectedPackets (rv_stream s)) (GetPacketCount (rv_media s)) /\ rtx_report_defined s.

(** What may happen: packets with an SSRC and room, timers that run, and reports of
    intervals in which the numbers of the streams are defined. *)
Definition may_happen p (i : producer_input) : Prop :=
  match i with
  | PacketReceived now packet => arrived packet /\ spacious packet /\ ready p now packet /\ RtpPacket.GetSsrc packet <> Ok 0
  | PendingTimerFired ssrc => forall m, pd_manager p = Some m -> kf_enabled m ssrc RequestTimeout
  | DelayerTimerFired ssrc => forall m, pd_manager p = Some m -> kf_enabled m ssrc DelayTimeout
  | SenderReported _ report => forall idx s, pd_ssrcs p !! sr_ssrc report = Some idx -> stream_of p idx = Some s -> score_defined s
  | ReportsAsked _ _ => forall idx s, stream_of p idx = Some s -> reports_defined s
  | StreamInactive _ idx => exists s, stream_of p idx = Some s /\ Timer.IsActive (rv_timer s) = true
  | StreamNackTimer now idx => 0 < now < 2 ^ 64 /\ exists s g, stream_of p idx = Some s /\ useNack s = true /\ rv_nack s = Some g /\ Timer.IsActive (ng_timer g) = true
  | _ => True
  end.

(** * Operations of one stream *)

Lemma keeps_stream_calls {A} idx (m : act (rtp_stream_recv H) recv_event A) s p : producer_inv p -> stream_of p idx = Some s ->
  leads m (fun _ s' => RecvSteps.keeps s s') s -> may m (fun _ s' => pinned s s') s -> calls (with_stream listener idx m) (fun _ => True) p.
Proof.
  intros Hi Es Hl Hm. eapply with_stream_calls; [done|exact Es| |by apply pins_may].
  eapply keeps_leads; [by apply (pi_streams p Hi idx)|exact Hl].
Qed.

Lemma each_stream_calls (m : act (rtp_stream_recv H) recv_event unit) p : producer_inv p ->
  (forall s, core s -> leads m (fun _ s' => RecvSteps.keeps s s') s) -> (forall s, may m (fun _ s' => pinned s s') s) ->
  calls (for_all (fun kv : Z * nat => with_stream listener kv.2 m) (streams_in_order p)) (fun _ => True) p.
Proof.
  intros Hi Hl Hm. apply calls_for_all; [done|]. intros [ssrc idx] p1 Hin Hi1 Hk. apply streams_in_order_elem in Hin.
  apply (pi_ssrcs p Hi) in Hin as (s & Es & _). destruct (kept_forth _ _ _ _ Hk Es) as (s1 & Es1 & _).
  eapply keeps_stream_calls; [done|exact Es1|apply Hl, (pi_streams p1 Hi1 _ _ Es1)|apply Hm].
Qed.

Lemma set_paused_calls b p : producer_inv p -> calls (modify (fun p => set_pd_paused p b)) (fun _ => True) p.
Proof.
  intros Hi. assert (kept p (set_pd_paused p b)) as Hk by by apply kept_same. apply calls_modify; [|done].
  apply (kept_inv p); [done|done|apply Hi..].
Qed.

Lemma HandlePause_calls p : producer_inv p -> calls (HandlePause listener) (fun _ => True) p.
Proof.
  intros Hi. unfold HandlePause. apply calls_state. destruct (pd_paused p); [by apply calls_skip|].
  apply calls_then; [apply each_stream_calls; [done|by apply Pause_leads|apply Pause_pins]|]. intros p1 Hi1 _.
  apply calls_then; [by apply set_paused_calls|]. intros p2 Hi2 _. by apply tell_calls.
Qed.

Lemma HandleResume_calls p : producer_inv p -> calls (HandleResume listener) (fun _ => True) p.
Proof.
  intros Hi. unfold HandleResume. apply calls_state. destruct (negb _); [by apply calls_skip|].
  apply calls_then; [apply each_stream_calls; [done|by apply Resume_leads|apply Resume_pins]|]. intros p1 Hi1 _.
  apply calls_then; [by apply set_paused_calls|]. intros p2 Hi2 _. apply calls_then; [by apply tell_calls|]. intros p3 Hi3 _.
  apply calls_state. apply calls_for_all; [done|]. intros kv p4 _ Hi4 _. apply with_manager_calls; [done|]. intros m _. apply forced_manages.
Qed.

Lemma SenderReport_calls now report p : producer_inv p -> may_happen p (SenderReported now report) ->
  calls (Producer.ReceiveRtcpSenderReport listener now report) (fun _ => True) p.
Proof.
  intros Hi Hm. cbn in Hm. unfold Producer.ReceiveRtcpSenderReport. apply calls_state. destruct (pd_ssrcs p !! sr_ssrc report) as [idx|] eqn:E.
  - pose proof E as E'. apply (pi_ssrcs p Hi) in E' as (s & Es & _). eapply stream_at_known; [exact Es|].
    apply calls_then; [|intros; by apply tell_calls]. eapply with_stream_calls; [done|exact Es| |apply pins_may, SenderReport_pins].
    apply ReceiveRtcpSenderReport_leads; [by apply (pi_streams p Hi idx)|by eapply Hm].
  - destruct (pd_rtxSsrcs p !! sr_ssrc report) as [idx|] eqn:E2; [|by apply calls_skip].
    apply (pi_rtx p Hi) in E2 as (s & Es & _). eapply keeps_stream_calls; [done|exact Es| |apply RtxSenderReport_pins].
    apply ReceiveRtxRtcpSenderReport_leads. apply (pi_streams p Hi _ _ Es).
Qed.

Lemma Xr_calls now info p : producer_inv p -> calls (Producer.ReceiveRtcpXrDelaySinceLastRr listener now info) (fun _ => True) p.
Proof.
  intros Hi. unfold Producer.ReceiveRtcpXrDelaySinceLastRr. apply calls_state.
  destruct (pd_ssrcs p !! si_ssrc info) as [idx|] eqn:E; [|by apply calls_skip]. apply (pi_ssrcs p Hi) in E as (s & Es & _).
  eapply keeps_stream_calls; [done|exact Es|apply ReceiveRtcpXr_leads, (pi_streams p Hi _ _ Es)|apply Xr_pins].
Qed.

Lemma traces_calls types p : producer_inv p -> calls (HandleEnableTraceEvent (Some (Some <$> types)) : op unit) (fun _ => True) p.
Proof.
  intros Hi. unfold HandleEnableTraceEvent. assert (mapM id (Some <$> types) = Some types) as E.
  { clear. induction types as [|t l IH]; [done|]. cbn. change (mapM id (Some <$> l)) with (mapM (M := option) id (Some <$> l)). by rewrite IH. }
  eapply calls_known; [by rewrite E|]. assert (kept p (set_pd_traces p (trace_types_of types))) as Hk by by apply kept_same.
  apply calls_modify; [|done]. apply (kept_inv p); [done|done|apply Hi..].
Qed.

(** * Reports *)

(** The streams other than [idx] are as they were. *)
Definition apart (idx : nat) p p' : Prop := forall i, i <> idx -> stream_of p' i = stream_of p i.

Lemma no_calls (es : list recv_event) : Forall (fun _ => False) es -> es = [].
Proof. by destruct 1. Qed.

Lemma report_run s now worst : recv_inv s -> reports_defined s -> exists r s', GetRtcpReceiverReport now worst s = Ok (r, s', []) /\
  recv_inv s' /\ pinned s s' /\ rtx_report_defined s'.
Proof.
  intros Hs [Hd Hr]. destruct (ran_inv (GetRtcpReceiverReport now worst) s (fun _ => True)) as (r & s' & es & E & Hs' & Hp & _).
  { apply keeps_leads; [done|]. apply GetRtcpReceiverReport_leads; [apply Hs|done]. } { apply pins_may, ReceiverReport_pins. }
  assert (es = []) as ->.
  { assert (only (fun _ => False) (GetRtcpReceiverReport (H := H) now worst)) as Hq.
    { unfold GetRtcpReceiverReport. repeat only_step. }
    by eapply no_calls, Hq. }
  exists r, s'. split; [done|]. split; [done|]. split; [done|].
  assert (may (GetRtcpReceiverReport now worst) (fun _ s' => rv_rtxStream s' = rv_rtxStream s) s) as Hm.
  { unfold GetRtcpReceiverReport. repeat may_step. destruct (if _ <=? _ then _ else _). repeat may_step. destruct (sr_fields _ _). by repeat may_step. }
  unfold rtx_report_defined. by rewrite (Hm _ _ _ E).
Qed.

Lemma rtx_report_run s now : recv_inv s -> rtx_report_defined s -> exists r s', GetRtxRtcpReceiverReport now s = Ok (r, s', []) /\
  recv_inv s' /\ pinned s s'.
Proof.
  intros Hs Hr. destruct (ran_inv (GetRtxRtcpReceiverReport now) s (fun _ => True)) as (r & s' & es & E & Hs' & Hp & _).
  { apply keeps_leads; [done|]. apply GetRtxRtcpReceiverReport_leads; [apply Hs|done]. } { apply pins_may, RtxReceiverReport_pins. }
  assert (es = []) as ->.
  { assert (only (fun _ => False) (GetRtxRtcpReceiverReport (H := H) now)) as Hq.
    { unfold GetRtxRtcpReceiverReport. repeat only_step. }
    by eapply no_calls, Hq. }
  by exists r, s'.
Qed.

Lemma quiet_bind {A B} (m : op A) (k : A -> op B) p a p1 : m p = Ok (a, p1, []) -> (m ≫= k) p = k a p1.
Proof. intros E. unfold mbind, act_bind. rewrite E. by destruct (k a p1) as [[[b p2] es]|e]. Qed.

(** A stream that made no calls. *)
Lemma quiet_stream {A} idx (m : act (rtp_stream_recv H) recv_event A) s a s' p : producer_inv p -> stream_of p idx = Some s ->
  m s = Ok (a, s', []) -> recv_inv s' -> pinned s s' ->
  exists p', with_stream listener idx m p = Ok (a, p', []) /\ producer_inv p' /\ kept p p' /\ apart idx p p' /\ stream_of p' idx = Some s'.
Proof.
  intros Hi Es Em Hs Hp. pose proof (stream_slot_lt _ _ _ Es) as Hl. eexists. split; [by apply (with_stream_quiet listener idx m s a s')|].
  split; [by eapply replace_stream_inv|]. split; [by eapply kept_insert|]. split; [|by rewrite stream_of_insert, bool_decide_true].
  intros i Hne. by rewrite stream_of_insert, bool_decide_false.
Qed.

Lemma stream_reports_run now idx s p : producer_inv p -> stream_of p idx = Some s -> reports_defined s ->
  exists l p', stream_reports listener now idx p = Ok (l, p', []) /\ producer_inv p' /\ kept p p' /\ apart idx p p'.
Proof.
  intros Hi Es Hd. pose proof (pi_streams p Hi _ _ Es) as Hs.
  assert (exists w, (if rp_useInBandFec (rv_par s) then NeedWorstRemoteFractionLost listener idx else mret 0) p = Ok (w, p, [])) as [w Ew].
  { destruct (rp_useInBandFec (rv_par s)); [|by eexists]. destruct (mapped_stream p idx s Hi Es) as [m Em]. exists (worst_lost listener m).
    apply does_exactly. unfold NeedWorstRemoteFractionLost. apply does_bind, does_get, does_bind. eapply does_lift; [by rewrite Em|]. by apply does_ret. }
  destruct (report_run s now w Hs Hd) as (r & s1 & E1 & Hs1 & Hp1 & Hd1). destruct (rtx_report_run s1 now Hs1 Hd1) as (r2 & s2 & E2 & Hs2 & Hp2).
  destruct (quiet_stream idx _ s r s1 p Hi Es E1 Hs1 Hp1) as (p1 & W1 & Hi1 & K1 & A1 & Es1).
  destruct (quiet_stream idx _ s1 r2 s2 p1 Hi1 Es1 E2 Hs2 Hp2) as (p2 & W2 & Hi2 & K2 & A2 & _).
  exists (r :: option_list r2), p2. unfold stream_reports. assert (stream_at idx p = Ok (s, p, [])) as E.
  { apply does_exactly. unfold stream_at. apply does_bind, does_get. eapply does_lift; [by rewrite Es|done]. }
  rewrite (quiet_bind _ _ _ _ _ E), (quiet_bind _ _ _ _ _ Ew), (quiet_bind _ _ _ _ _ W1), (quiet_bind _ _ _ _ _ W2).
  split; [done|]. split; [done|]. split; [by eapply kept_trans|]. intros i Hne. by rewrite A2, A1.
Qed.

Lemma all_reports_run now l p : producer_inv p -> NoDup l.*2 ->
  (forall idx, idx ∈ l.*2 -> exists s, stream_of p idx = Some s /\ reports_defined s) ->
  exists rs p', all_reports listener now l p = Ok (rs, p', []) /\ producer_inv p' /\ kept p p'.
Proof.
  revert p. induction l as [|[ssrc idx] l IH]; intros p Hi Hnd Hl; cbn [all_reports].
  - exists [], p. split; [done|]. split; [done|apply kept_refl].
  - cbn [fmap list_fmap snd] in *. apply NoDup_cons in Hnd as [Hni Hnd]. destruct (Hl idx) as (s & Es & Hd); [left|].
    destruct (stream_reports_run now idx s p Hi Es Hd) as (r & p1 & E1 & Hi1 & K1 & A1).
    destruct (IH p1 Hi1 Hnd) as (rs & p2 & E2 & Hi2 & K2).
    { intros i Hin. destruct (Hl i) as (si & Ei & Hdi); [by right|]. exists si. split; [|done]. rewrite A1; [done|]. by intros ->. }
    exists (r ++ rs), p2. rewrite (quiet_bind _ _ _ _ _ E1), (quiet_bind _ _ _ _ _ E2). split; [done|]. split; [done|by eapply kept_trans].
Qed.

Lemma streams_in_order_NoDup p : producer_inv p -> NoDup (streams_in_order p).*2.
Proof.
  intros Hi. unfold streams_in_order.
  assert (NoDup (merge_sort Z.le (map_to_list (pd_ssrcs p)).*1)) as Hk by (rewrite merge_sort_Permutation; apply NoDup_fst_map_to_list).
  induction Hk as [|k l Hn Hk IH]; [constructor|]. cbn. destruct (pd_ssrcs p !! k) as [idx|] eqn:E; cbn; [|done].
  apply NoDup_cons. split; [|done]. intros ([k' i] & -> & Hin)%list_elem_of_fmap. cbn in *. apply list_elem_of_omap in Hin as (k2 & Hk2 & E2).
  destruct (pd_ssrcs p !! k2) as [i2|] eqn:Ek2; cbn in E2; [|done]. injection E2 as -> ->.
  apply (pi_ssrcs p Hi) in E as (s & Es & <-), Ek2 as (s2 & Es2 & <-). rewrite Es in Es2. injection Es2 as <-. done.
Qed.

Lemma GetRtcp_calls packet now p : producer_inv p -> (forall idx s, stream_of p idx = Some s -> reports_defined s) ->
  calls (Producer.GetRtcp listener packet now) (fun _ => True) p.
Proof.
  intros Hi Hd. unfold Producer.GetRtcp. apply calls_state. destruct (too_early _ _ _); [by apply calls_ret|].
  destruct (all_reports_run now (streams_in_order p) p Hi (streams_in_order_NoDup p Hi)) as (rs & p1 & E & Hi1 & K1).
  { intros idx ([ssrc i] & -> & Hin)%list_elem_of_fmap. apply streams_in_order_elem in Hin. apply (pi_ssrcs p Hi) in Hin as (s & Es & _).
    exists s. split; [done|by eapply Hd]. }
  eapply (calls_bind _ _ (fun _ => True)). { exists rs, p1, []. split; [done|]. split; [done|]. split; [done|]. split; [done|constructor]. }
  intros rs' p2 Hi2 _ _. assert (kept p2 (set_pd_lastRtcpSentTime p2 now)) as Hk by by apply kept_same.
  apply calls_then; [|intros; by apply calls_ret]. apply calls_modify; [|done]. apply (kept_inv p2); [done|done|apply Hi2..].
Qed.

(** * All of them *)

Lemma step_answers i p : producer_inv p -> Forall separate (encodings_of p) -> may_happen p i ->
  does (producer_step i) (fun _ p' es => producer_inv p' /\ pd_setup p' = pd_setup p /\ Forall (seen (pd_setup p)) es) p.
Proof.
  intros Hi Hsep Hm.
  assert (forall m : op unit, calls m (fun _ => True) p -> does m (fun _ p' es => producer_inv p' /\ pd_setup p' = pd_setup p /\ Forall (seen (pd_setup p)) es) p) as Hcalls.
  { intros m Hc. eapply does_weaken; [exact Hc|]. intros a p' es (Hi' & Hk & _ & Hes). split; [done|]. split; [apply Hk|done]. }
  destruct i; cbn [producer_step may_happen] in *.
  - destruct Hm as (Hp & Hs & Hr & Hz). destruct (wf_GetSsrc packet (proj1 Hp)) as [ssrc E].
    apply does_bind. eapply does_weaken; [apply (ReceiveRtpPacket_answers listener now packet ssrc); try done; congruence|].
    intros a p' es Hq. apply does_ret. by rewrite app_nil_r.
  - by apply Hcalls, RequestKeyFrame_calls.
  - apply Hcalls, with_manager_calls; [done|]. intros m Em Hk. eapply (post_manages (fun m => OnKeyFrameRequestTimeout m ssrc)), OnKeyFrameRequestTimeout_post; [done|by apply Hm].
  - apply Hcalls, with_manager_calls; [done|]. intros m Em Hk. eapply (post_manages (fun m => OnKeyFrameDelayTimeout m ssrc)), OnKeyFrameDelayTimeout_post; [done|by apply Hm].
  - by apply Hcalls, SenderReport_calls.
  - by apply Hcalls, Xr_calls.
  - apply Hcalls. eapply calls_bind; [by apply GetRtcp_calls|]. intros. by apply calls_skip.
  - by apply Hcalls, HandlePause_calls.
  - by apply Hcalls, HandleResume_calls.
  - by apply Hcalls, traces_calls.
  - destruct Hm as (s & Es & Ha). apply Hcalls. eapply with_stream_calls; [done|exact Es| |apply pins_may, OnTimer_pins].
    pose proof (pi_streams p Hi _ _ Es) as [Hc Ht]. eapply leads_weaken; [by apply OnTimer_leads|]. by intros [] s' ->.
  - destruct Hm as (Hnow & s & g & Es & Hn & Eg & Hg). apply Hcalls. eapply keeps_stream_calls; [done|exact Es| |apply OnNackTimer_pins].
    eapply OnNackTimer_leads; try done. apply (pi_streams p Hi _ _ Es).
Qed.
End steps.
