(* ===== verification/ProducerProps.v ===== *)
(** What holds of producers: made of validated parameters they are consistent,
    and stay so whatever packets come; what the router is given; and the packet
    that takes the process down. *)

From Stdlib Require Import Floats.SpecFloat.
From S2P Require Export ProducerSteps.
From S2P Require Import KeyFrame RecvFacts RtpStreamRecv RtpParameters Producer.

Section properties.
Context {H : Type} `{UvLaws H} `{PowLaws}.
Implicit Types p : rtp_producer H.
Implicit Types s : rtp_stream_recv H.

(** * The constructor *)

Lemma check_entries_length mid count entries l : mapM (check_entry mid count) entries = Ok l -> length l = length entries.
Proof. intros E%mapM_outcome_length. by apply Forall2_length in E. Qed.

Lemma stream_of_none p n idx : pd_streams p = replicate n None -> stream_of p idx = None.
Proof.
  intros E. unfold stream_of. rewrite E. destruct (replicate n None !! idx) as [x|] eqn:Ex; [|done]. by apply lookup_replicate in Ex as [-> _].
Qed.

Lemma new_Producer_ok video params codecs entries exts paused delay p : params_ok params -> apt_everywhere params ->
  Forall layers_ok (rtp_encodings params) -> new_Producer video params codecs entries exts paused delay = Ok p -> producer_inv p.
Proof.
  intros Hp Ha Hl. unfold new_Producer. intros (e & _ & E)%bind_Ok. apply bind_Ok in E as (c & _ & E). apply bind_Ok in E as (? & _ & E).
  apply bind_Ok in E as (l & _ & E). apply bind_Ok in E as (? & Hlen%require_Ok & E). apply bind_Ok in E as (i & _ & [= <-]).
  apply bool_decide_eq_true in Hlen. set (p := RtpProducer _ _ _ _ _ _ _ _ _ _ _ _ _).
  assert (forall idx, stream_of p idx = None) as Hnone by (intros idx; by eapply stream_of_none).
  split; cbn [p pd_setup pd_streams pd_ssrcs pd_rtxSsrcs pd_mapped pd_manager pd_current].
  - split; cbn; [done..|]. by rewrite length_fmap.
  - unfold p, encodings_of. cbn. by rewrite length_replicate.
  - intros ssrc idx. rewrite lookup_empty. split; [done|]. intros (s & Es & _). by rewrite Hnone in Es.
  - intros ssrc idx. by rewrite lookup_empty.
  - intros idx s. by rewrite Hnone.
  - intros idx s. by rewrite Hnone.
  - intros m. destruct video; [|done]. intros [= <-]. apply kf_inv_init.
  - intros idx s e'. by rewrite Hnone.
  - done.
Qed.

(** The layers of an encoding are those of its scalability mode. *)
Definition mode_layers (e : rtp_encoding_parameters) : Prop :=
  exists mode, layers_of mode = (ep_spatialLayers e, ep_temporalLayers e, ep_ksvc e).

Lemma new_Producer_consistent mid codecs encodings params video mapping entries exts paused delay p :
  new_RtpParameters mid codecs encodings = Ok params -> Forall mode_layers encodings -> apt_everywhere params ->
  new_Producer video params mapping entries exts paused delay = Ok p -> producer_inv p /\ encodings_of p = rtp_encodings params.
Proof.
  intros Ep Hm Ha En. destruct (new_RtpParameters_ok _ _ _ _ Ep) as (Hp & _ & Hf & _).
  assert (Forall layers_ok (rtp_encodings params)) as Hl.
  { clear -Hm Hf. induction Hf as [|e e' l l' (_ & _ & _ & E1 & E2) Hf IH]; [constructor|]. apply Forall_cons in Hm as [[mode Em] Hm].
    constructor; [|by apply IH]. apply layers_of_range in Em. unfold layers_ok. rewrite E1, E2. lia. }
  split; [by eapply new_Producer_ok|]. unfold new_Producer in En. apply bind_Ok in En as (? & _ & E). apply bind_Ok in E as (? & _ & E).
  apply bind_Ok in E as (? & _ & E). apply bind_Ok in E as (? & _ & E). apply bind_Ok in E as (? & _ & E). by apply bind_Ok in E as (? & _ & [= <-]).
Qed.

(** * Runs *)

(** A producer made of parameters that pass the validation, whatever has happened to it since. *)
Inductive producer_reachable (listener : producer_listener) : rtp_producer H -> Prop :=
| producer_made mid codecs encodings params video mapping entries exts paused delay p :
    new_RtpParameters mid codecs encodings = Ok params -> Forall mode_layers encodings -> apt_everywhere params ->
    Forall separate (rtp_encodings params) -> new_Producer video params mapping entries exts paused delay = Ok p ->
    producer_reachable listener p
| producer_stepped p i p' es : producer_reachable listener p -> may_happen p i -> producer_step listener i p = Ok ((), p', es) ->
    producer_reachable listener p'.

Lemma producer_reachable_inv listener p : producer_reachable listener p -> producer_inv p /\ Forall separate (encodings_of p).
Proof.
  induction 1 as [mid codecs encodings params video mapping entries exts paused delay p Ep Hm Ha Hs En|p i p' es Hr [Hi Hs] Hm E].
  - destruct (new_Producer_consistent _ _ _ _ _ _ _ _ _ _ _ Ep Hm Ha En) as [Hi Ee]. by rewrite Ee.
  - destruct (does_run _ _ _ _ _ _ (step_answers listener i p Hi Hs Hm) E) as (Hi' & Eu & _). split; [done|].
    unfold encodings_of in *. by rewrite Eu.
Qed.

(** C3: a producer of which no encoding has both an SSRC and a RID, and each of whose
    feature codecs has [apt], answers everything that keeps the conditions of
    [may_happen], in any order, and the listener may ask for key frames whenever it is
    called.  The conditions: the packets were parsed, have an SSRC that is not 0 and room
    for the extensions; the clock is above 0, and fewer than 2^24 packets are counted
    between two scores; the jitter, score and fraction lost that a packet or a report has
    computed are numbers that fit their types; and a timer that fires was running.  Then
    no assertion of the producer, of its streams or of its key frame manager fails, and no
    memory outside a packet is touched; the tables stay consistent with the streams; and
    every packet that the router is given has a mapped payload type and SSRC, the ids of
    the router, and room for the extensions that consumers write.  Without the conditions
    it is not so: see [zero_ssrc_aborts] for a packet with SSRC 0. *)
Theorem producer_safe (listener : producer_listener) p i : producer_reachable listener p -> may_happen p i ->
  exists p' es, producer_step listener i p = Ok ((), p', es) /\ producer_inv p' /\ pd_setup p' = pd_setup p /\ Forall (seen (pd_setup p)) es.
Proof.
  intros Hr Hm. destruct (producer_reachable_inv listener p Hr) as [Hi Hs].
  destruct (step_answers listener i p Hi Hs Hm) as ([] & p' & es & E & Hi' & Eu & Hes). by exists p', es.
Qed.

(** C4: the packet for the router has the mapped payload type and the mapped SSRC, and the
    number, timestamp, marker and payload it came with; the extensions that are passed on
    have the values they had under the ids of the router, and there is room for those that
    consumers write. *)
Theorem MangleRtpPacket_mangles p packet idx payloadType mappedPayloadType mappedSsrc : can_mangle packet ->
  GetPayloadType packet = Ok payloadType -> mp_codecs (ps_mapping (pd_setup p)) !! payloadType = Some mappedPayloadType ->
  pd_mapped p !! idx = Some mappedSsrc ->
  exists q, MangleRtpPacket p packet idx = Ok (q, true) /\ mangled_ok (pd_setup p) packet q mappedPayloadType mappedSsrc.
Proof. apply MangleRtpPacket_spec. Qed.

(** C34: a media packet with the SSRC 0 makes an assertion fail, and with it the process, when
    the first encoding was signalled without an SSRC and its stream is there: it is taken
    for the first packet of that encoding. *)
Theorem zero_ssrc_aborts (listener : producer_listener) now packet p e encodings s c : producer_reachable listener p ->
  encodings_of p = e :: encodings -> ep_ssrc e = 0 -> stream_of p 0 = Some s -> pd_ssrcs p !! 0 = None -> pd_rtxSsrcs p !! 0 = None ->
  RtpPacket.GetSsrc packet = Ok 0 -> GetCodecForEncoding (ps_params (pd_setup p)) e = Ok c -> GetPayloadType packet = Ok (co_payloadType c) ->
  Producer.ReceiveRtpPacket listener now packet p = Err AssertFailed.
Proof.
  intros Hr Ee Ez Es E1 E2 Eq Ec Ept. destruct (producer_reachable_inv listener p Hr) as [Hi _].
  pose proof (su_apt _ (pi_setup p Hi)) as Ha. unfold Producer.ReceiveRtpPacket. rewrite act_modify_bind, act_get_bind.
  pose proof (zero_ssrc_stream listener now packet (set_pd_current p None) e encodings s c E1 E2 Ee Ez Es Eq Ec Ha Ept) as Eg.
  unfold mbind, act_bind. by rewrite Eg.
Qed.
End properties.

(** * A producer of video *)

Definition sample_codecs : list rtp_codec_parameters :=
  [RtpCodecParameters MimeType.VIDEO MimeType.VP8 96 90000 ∅ [("nack"%string, EmptyString); ("nack"%string, "pli"%string)];
   RtpCodecParameters MimeType.VIDEO MimeType.RTX 97 90000 {[ apt := Parameters.IntegerValue 96 ]} []].

(** One encoding, signalled without an SSRC. *)
Definition sample_encoding : rtp_encoding_parameters := RtpEncodingParameters 0 [] None None false 1 1 false.

Definition sample_rtp : rtp_params := Eval vm_compute in
  match new_RtpParameters None sample_codecs [sample_encoding] with Ok p => p | Err _ => RtpParams [] [] [] end.

Definition sample_producer_blank : rtp_producer (option (Z * Z)) :=
  RtpProducer (ProducerSetup true sample_rtp (RtpMapping ∅ []) (HeaderExtensionIds no_ids 0)) [] [] ∅ ∅ ∅ ∅ None false None 0 None no_traces.

Definition make_sample : outcome (rtp_producer (option (Z * Z))) :=
  new_Producer true sample_rtp (<[96 := 101]> ∅) [MappingEntry None (Some [49]) 555] [(VIDEO_ORIENTATION, 4); (TOFFSET, 2)] false 0.

Definition sample_producer : rtp_producer (option (Z * Z)) :=
  match make_sample with Ok p => p | Err _ => sample_producer_blank end.

(** A listener that asks for a key frame of every new stream. *)
Definition sample_listener : producer_listener :=
  ProducerListener (fun e => match e with OnProducerNewRtpStream _ mapped => [mapped] | _ => [] end) (fun _ => 0).

(** The VP8 packet of SSRC 1000, with room. *)
Definition roomy_data (ssrc : list Z) : list Z := [128; 96; 0; 10; 0; 0; 0; 100] ++ ssrc ++ [144; 224; 5; 7; 32; 0; 1; 2] ++ replicate 100 0.

Definition roomy_packet (ssrc : list Z) : rtp_packet := RtpPacket (roomy_data ssrc) None None ∅ ∅ no_ids 12 8 0 20.

Lemma roomy_packet_arrived : arrived (roomy_packet [0; 0; 3; 232]).
Proof.
  assert (bytes (roomy_data [0; 0; 3; 232])) as Hb by (apply (bool_decide_unpack _); vm_compute; exact I).
  assert (Parse (roomy_data [0; 0; 3; 232]) 20 = Ok (roomy_packet [0; 0; 3; 232])) as E by (vm_compute; reflexivity).
  pose proof (Parse_cases (roomy_data [0; 0; 3; 232]) 20 Hb) as Hc. rewrite E in Hc.
  destruct Hc as (Hwf & Hmaps & _); [by vm_compute|]. by split_and!.
Qed.

Lemma sample_made : make_sample = Ok sample_producer.
Proof. unfold sample_producer. assert (is_Ok : match make_sample with Ok _ => true | Err _ => false end = true) by (vm_compute; reflexivity). by destruct make_sample. Qed.

Lemma sample_apt : apt_everywhere sample_rtp.
Proof. repeat constructor; cbn; intros E; try discriminate E. by eexists. Qed.

Lemma sample_producer_reachable : producer_reachable sample_listener sample_producer.
Proof.
  apply (producer_made sample_listener None sample_codecs [sample_encoding] sample_rtp true (<[96 := 101]> ∅) [MappingEntry None (Some [49]) 555]
           [(VIDEO_ORIENTATION, 4); (TOFFSET, 2)] false 0 sample_producer).
  - vm_compute. reflexivity.
  - constructor; [|constructor]. exists None. reflexivity.
  - exact sample_apt.
  - repeat constructor.
  - exact sample_made.
Qed.

Lemma sample_ready : ready sample_producer 6000 (roomy_packet [0; 0; 3; 232]).
Proof.
  split; [lia|]. intros ts Ets. vm_compute in Ets. injection Ets as <-. split.
  - intros idx s Es. exfalso. rewrite (stream_of_none sample_producer 1 idx) in Es; [discriminate Es|vm_compute; reflexivity].
  - constructor; [right; vm_compute; discriminate|]. constructor; [right; vm_compute; discriminate|constructor].
Qed.

Lemma sample_happens : may_happen sample_producer (ProducerSteps.PacketReceived 6000 (roomy_packet [0; 0; 3; 232])).
Proof. split; [exact roomy_packet_arrived|]. split; [split; vm_compute; discriminate|]. split; [exact sample_ready|]. vm_compute. discriminate. Qed.

Lemma producer_safe_witness :
  exists p' es, producer_step sample_listener (ProducerSteps.PacketReceived 6000 (roomy_packet [0; 0; 3; 232])) sample_producer = Ok ((), p', es) /\
    producer_inv p' /\ pd_setup p' = pd_setup sample_producer /\ Forall (seen (pd_setup sample_producer)) es.
Proof.
  apply (producer_safe sample_listener sample_producer (ProducerSteps.PacketReceived 6000 (roomy_packet [0; 0; 3; 232]))).
  - exact sample_producer_reachable.
  - exact sample_happens.
Defined.

Definition first_packet : rtp_producer (option (Z * Z)) :=
  match producer_step sample_listener (ProducerSteps.PacketReceived 6000 (roomy_packet [0; 0; 3; 232])) sample_producer with
  | Ok (_, p, _) => p
  | Err _ => sample_producer_blank
  end.

Lemma first_packet_reachable : producer_reachable sample_listener first_packet.
Proof.
  assert (match producer_step sample_listener (ProducerSteps.PacketReceived 6000 (roomy_packet [0; 0; 3; 232])) sample_producer with
    Ok _ => true | Err _ => false end = true) as E by (vm_compute; reflexivity). unfold first_packet.
  destruct (producer_step _ _ sample_producer) as [[[[] p] es]|] eqn:Es; [|discriminate E].
  exact (producer_stepped sample_listener sample_producer _ p es sample_producer_reachable sample_happens Es).
Qed.

(** The first packet is that of the router. *)
Example first_packet_seen :
  match Producer.ReceiveRtpPacket sample_listener 6000 (roomy_packet [0; 0; 3; 232]) sample_producer with
  | Ok (_, p, es) => pd_ssrcs p = {[ 1000 := 0%nat ]} /\
      match last es with Some (OnProducerRtpPacketReceived q) => RtpPacket.GetSsrc (vp_packet q) = Ok 555 /\ GetPayloadType (vp_packet q) = Ok 101 | _ => False end
  | Err _ => False
  end.
Proof. vm_compute. repeat split. Qed.

Lemma sample_can_mangle : can_mangle (roomy_packet [0; 0; 3; 232]).
Proof. pose proof roomy_packet_arrived as (? & ? & _). split; [done|]. split; [done|]. split_and!; vm_compute; (discriminate || reflexivity). Qed.

Lemma MangleRtpPacket_mangles_witness :
  exists q, MangleRtpPacket first_packet (roomy_packet [0; 0; 3; 232]) 0 = Ok (q, true) /\
    mangled_ok (pd_setup first_packet) (roomy_packet [0; 0; 3; 232]) q 101 555.
Proof. apply (MangleRtpPacket_mangles first_packet _ 0 96); [exact sample_can_mangle|vm_compute; reflexivity..]. Defined.

(** The second packet has the SSRC 0. *)
Lemma zero_ssrc_aborts_witness : Producer.ReceiveRtpPacket sample_listener 6100 (roomy_packet [0; 0; 0; 0]) first_packet = Err AssertFailed.
Proof.
  assert (match stream_of first_packet 0 with Some _ => true | None => false end = true) as E by (vm_compute; reflexivity).
  destruct (stream_of first_packet 0) as [s|] eqn:Es; [|discriminate E].
  apply (zero_ssrc_aborts sample_listener 6100 (roomy_packet [0; 0; 0; 0]) first_packet (hd sample_encoding (rtp_encodings sample_rtp)) [] s
           (hd (RtpCodecParameters MimeType.VIDEO MimeType.VP8 96 90000 ∅ []) sample_codecs)).
  - exact first_packet_reachable.
  - vm_compute. reflexivity.
  - vm_compute. reflexivity.
  - exact Es.
  - vm_compute. reflexivity.
  - vm_compute. reflexivity.
  - vm_compute. reflexivity.
  - vm_compute. reflexivity.
  - vm_compute. reflexivity.
Defined.
