(* ===== verification/AudioLevelObserver.v ===== *)
(** [RTC::AudioLevelObserver] (worker/src/RTC/AudioLevelObserver.cpp) and its base
    [RTC::RtpObserver]: which producers are the loudest.

    The producers are addresses; an [std::unordered_map] is a finite map, and
    where the code goes through it the order is an argument. *)

From S2P Require Export RtpListener.
From S2P Require Timer.
From Stdlib Require Import Sorted.

(** * Levels *)

Record dbovs : Type := DBovs {
  totalSum : Z;   (** uint16_t *)
  count : Z       (** size_t *)
}.

Definition new_DBovs : dbovs := DBovs 0 0.

(** The observer, without its timer. *)
Record levels : Type := Levels {
  maxEntries : Z;      (** uint16_t *)
  threshold : Z;       (** int8_t *)
  interval : Z;        (** uint16_t *)
  mapProducerDBovs : gmap addr dbovs;
  silence : bool;
  paused : bool
}.

(** The constructor, with the numbers that the JSON data has; it throws for those
    out of range. *)
Definition clamp_interval (interval : Z) : Z :=
  if interval <? 250 then 250 else if 5000 <? interval then 5000 else interval.

Definition new_levels (maxEntries threshold interval : Z) : outcome levels :=
  _ ← require Thrown (negb (maxEntries <? 1));
  _ ← require Thrown (negb ((threshold <? -127) || (0 <? threshold)));
  Ok (Levels maxEntries threshold (clamp_interval interval) ∅ true false).

Definition set_dbovs (s : levels) (m : gmap addr dbovs) : levels :=
  Levels (maxEntries s) (threshold s) (interval s) m (silence s) (paused s).

Definition set_silence (s : levels) (b : bool) : levels :=
  Levels (maxEntries s) (threshold s) (interval s) (mapProducerDBovs s) b (paused s).

Definition set_paused (s : levels) (b : bool) : levels :=
  Levels (maxEntries s) (threshold s) (interval s) (mapProducerDBovs s) (silence s) b.

(** [this->mapProducerDBovs[producer]]: an entry is made if there is none. *)
Definition with_entry (m : gmap addr dbovs) (a : addr) : gmap addr dbovs :=
  match m !! a with Some _ => m | None => <[a := new_DBovs]> m end.

(** [audio]: what the producer's [GetKind] is. *)
Definition levels_AddProducer (s : levels) (a : addr) (audio : bool) : outcome levels :=
  _ ← require Thrown audio; Ok (set_dbovs s (with_entry (mapProducerDBovs s) a)).

Definition levels_RemoveProducer (s : levels) (a : addr) : levels :=
  set_dbovs s (delete a (mapProducerDBovs s)).

Definition levels_ProducerPaused (s : levels) (a : addr) : levels :=
  set_dbovs s (delete a (mapProducerDBovs s)).

Definition levels_ProducerResumed (s : levels) (a : addr) : levels :=
  set_dbovs s (with_entry (mapProducerDBovs s) a).

(** [volume]: what [ReadSsrcAudioLevel] reads of the packet, if it has one.  The
    exception of [at()] is caught by nobody. *)
Definition levels_ReceiveRtpPacket (s : levels) (a : addr) (volume : option Z) : outcome levels :=
  if paused s then Ok s
  else
    match volume with
    | None => Ok s
    | Some volume =>
        match mapProducerDBovs s !! a with
        | None => Err AssertFailed
        | Some d =>
            Ok (set_dbovs s (<[a := DBovs (u16 (totalSum d + volume)) (u64 (count d + 1))]> (mapProducerDBovs s)))
        end
    end.

(** What the observer notifies. *)
Inductive level_event : Type :=
| Silence
| Volumes (entries : list (addr * Z)).

Definition ResetMapProducerDBovs (m : gmap addr dbovs) : gmap addr dbovs := (fun _ => new_DBovs) <$> m.

Definition levels_Paused (s : levels) : levels * list level_event :=
  let s := set_dbovs s (ResetMapProducerDBovs (mapProducerDBovs s)) in
  if negb (silence s) then (set_silence s true, [Silence]) else (s, []).

(** [RtpObserver::Pause] and [Resume]. *)
Definition levels_Pause (s : levels) : levels * list level_event :=
  if paused s then (s, []) else levels_Paused (set_paused s true).

Definition levels_Resume (s : levels) : levels := if negb (paused s) then s else set_paused s false.

(** [-1 * static_cast<int8_t>(std::lround(dBovs.totalSum / dBovs.count))]: the
    division is that of [size_t]. *)
Definition avgDBov (d : dbovs) : Z := -1 * swrap 8 (totalSum d / count d).

(** [mapDBovsProducer[avgDBov] = producer], the greatest key first. *)
Fixpoint map_set (m : list (Z * addr)) (v : Z) (a : addr) : list (Z * addr) :=
  match m with
  | [] => [(v, a)]
  | (v', a') :: m' =>
      if v' <? v then (v, a) :: m
      else if v' =? v then (v, a) :: m'
      else (v', a') :: map_set m' v a
  end.

(** A producer is heard when ten packets gave its level, and it reaches the
    threshold. *)
Definition heard (s : levels) (d : dbovs) : bool := negb (count d <? 10) && (threshold s <=? avgDBov d).

Fixpoint mapDBovsProducer (s : levels) (order : list (addr * dbovs)) (m : list (Z * addr)) : list (Z * addr) :=
  match order with
  | [] => m
  | (a, d) :: order => mapDBovsProducer s order (if heard s d then map_set m (swrap 8 (avgDBov d)) a else m)
  end.

(** [order]: the entries of the map as the loop meets them. *)
Definition Update (s : levels) (order : list (addr * dbovs)) : levels * list level_event :=
  let m := mapDBovsProducer s order [] in
  let s := set_dbovs s (ResetMapProducerDBovs (mapProducerDBovs s)) in
  match m with
  | [] => if negb (silence s) then (set_silence s true, [Silence]) else (s, [])
  | _ => (set_silence s false,
          [Volumes ((fun va => (va.2, va.1)) <$> take (Z.to_nat (maxEntries s)) m)])
  end.

(** * With its timer *)

Section timer.
Context {H : Type} `{Timer.UvTimer H}.

Record audio_level_observer : Type := AudioLevelObserver {
  state : levels;
  periodicTimer : Timer.timer H
}.

Definition new_AudioLevelObserver (maxEntries threshold interval : Z) : outcome audio_level_observer :=
  s ← new_levels maxEntries threshold interval;
  t ← Timer.Start Timer.timer_new (AudioLevelObserver.interval s) (AudioLevelObserver.interval s);
  Ok (AudioLevelObserver s t).

(** [RtpObserver::Pause] and [Resume], with [Paused] and [Resumed]. *)
Definition Pause (o : audio_level_observer) : outcome (audio_level_observer * list level_event) :=
  if paused (state o) then Ok (o, [])
  else
    t ← Timer.Stop (periodicTimer o);
    let '(s, events) := levels_Pause (state o) in
    Ok (AudioLevelObserver s t, events).

Definition Resume (o : audio_level_observer) : outcome audio_level_observer :=
  if negb (paused (state o)) then Ok o
  else
    t ← Timer.Restart (periodicTimer o);
    Ok (AudioLevelObserver (levels_Resume (state o)) t).

Definition OnTimer (o : audio_level_observer) (order : list (addr * dbovs)) : audio_level_observer * list level_event :=
  let '(s, events) := Update (state o) order in (AudioLevelObserver s (periodicTimer o), events).
End timer.
Arguments audio_level_observer H : clear implicits.

(** * The greatest levels *)

Definition descending (m : list (Z * addr)) : Prop := StronglySorted (fun x y : Z * addr => y.1 < x.1) m.

Lemma map_set_elem m v a x : descending m -> x ∈ map_set m v a <-> x = (v, a) \/ x ∈ m /\ x.1 <> v.
Proof.
  intros Hs. induction Hs as [|[v' a'] m Hs IH Hm]; cbn [map_set].
  { rewrite list_elem_of_singleton. split; [tauto|]. by intros [|[?%elem_of_nil _]]. }
  rewrite Forall_forall in Hm. destruct (Z.ltb_spec v' v); [|destruct (Z.eqb_spec v' v)].
  - rewrite !elem_of_cons. split; [|naive_solver]. intros [->|[->|Hx]]; [tauto|cbn; right; split; [tauto|lia]|].
    right. split; [tauto|]. apply Hm in Hx. cbn in Hx. lia.
  - subst v'. rewrite !elem_of_cons. split; [|cbn; intros [->|[[->|Hx] Hn]]; [tauto|done|tauto]].
    intros [->|Hx]; [tauto|]. right. split; [tauto|]. apply Hm in Hx. cbn in Hx. lia.
  - rewrite !elem_of_cons, IH. split; [|naive_solver]. intros [->|[->|[Hx ?]]]; [cbn; tauto|tauto|tauto].
Qed.

Lemma map_set_descending m v a : descending m -> descending (map_set m v a).
Proof.
  intros Hs. induction Hs as [|[v' a'] m Hs IH Hm]; cbn [map_set]; [repeat constructor|].
  pose proof Hm as Hm'. rewrite Forall_forall in Hm'.
  destruct (Z.ltb_spec v' v); [|destruct (Z.eqb_spec v' v)].
  - constructor; [by constructor|]. constructor; [done|]. apply Forall_forall. intros x Hx%Hm'. cbn in *. lia.
  - subst v'. by constructor.
  - constructor; [done|]. apply Forall_forall. intros x [->|[Hx _]]%map_set_elem; [cbn; lia|by apply Hm'|done].
Qed.

(** The level that is reported for an entry. *)
Definition level (d : dbovs) : Z := swrap 8 (avgDBov d).

Lemma mapDBovsProducer_spec s order : forall m, descending m -> descending (mapDBovsProducer s order m) /\
  (forall v a, (v, a) ∈ mapDBovsProducer s order m ->
     (v, a) ∈ m \/ exists d, (a, d) ∈ order /\ heard s d = true /\ v = level d) /\
  (forall v a, (v, a) ∈ m -> exists b, (v, b) ∈ mapDBovsProducer s order m) /\
  (forall a d, (a, d) ∈ order -> heard s d = true -> exists b, (level d, b) ∈ mapDBovsProducer s order m).
Proof.
  induction order as [|[a d] order IH]; intros m Hm; cbn [mapDBovsProducer].
  { split_and!; [done|tauto|intros v a Ha; by exists a|]. by intros a d ?%elem_of_nil. }
  set (m1 := if heard s d then _ else _).
  assert (descending m1) as Hm1 by (unfold m1; destruct (heard s d); [by apply map_set_descending|done]).
  destruct (IH m1 Hm1) as (D & A & K & C).
  assert (forall v b, (v, b) ∈ m1 -> (v, b) ∈ m \/ heard s d = true /\ (v, b) = (level d, a)) as A1.
  { unfold m1. intros v b. destruct (heard s d); [|tauto]. rewrite map_set_elem by done. unfold level. tauto. }
  assert (forall v b, (v, b) ∈ m -> exists c, (v, c) ∈ m1) as K1.
  { unfold m1. intros v b Hv. destruct (heard s d); [|by exists b]. destruct (decide (v = level d)) as [->|Hn].
    - exists a. apply map_set_elem; [done|by left].
    - exists b. apply map_set_elem; [done|]. by right. }
  split_and!; [done| | |].
  - intros v b Hv. destruct (A v b Hv) as [[H1|[Hh [= -> ->]]]%A1|(e & He & Hh & ->)].
    + by left.
    + right. exists d. split; [left|done].
    + right. exists e. split; [by right|done].
  - intros v b Hv. destruct (K1 v b Hv) as [c Hc]. by apply (K v c).
  - intros b e [[= -> ->]|He]%elem_of_cons Hh; [|by apply (C b)].
    apply (K (level d) a). unfold m1. rewrite Hh. apply map_set_elem; [done|by left].
Qed.

Lemma descending_take m n x y : descending m -> x ∈ take n m -> y ∈ m -> y ∈ take n m \/ y.1 < x.1.
Proof.
  intros Hs. revert n. induction Hs as [|z m Hs IH Hm]; intros n Hx Hy; [by apply elem_of_nil in Hy|].
  destruct n as [|n]; [by apply elem_of_nil in Hx|]. cbn [take] in *. rewrite elem_of_cons in *.
  rewrite Forall_forall in Hm. destruct Hy as [->|Hy]; [by left; left|].
  destruct Hx as [->|Hx]; [right; by apply Hm|]. destruct (IH n Hx Hy); tauto.
Qed.

Lemma descending_prefix m n : descending m -> descending (take n m).
Proof.
  intros Hs. revert n. induction Hs as [|z m Hs IH Hm]; intros [|n]; cbn; try constructor; [by apply IH|by apply Forall_take].
Qed.

(** What is counted while packets come in. *)
Fixpoint receive_all (s : levels) (a : addr) (volumes : list Z) : outcome levels :=
  match volumes with
  | [] => Ok s
  | v :: volumes => s ← levels_ReceiveRtpPacket s a (Some v); receive_all s a volumes
  end.

Definition total (volumes : list Z) : Z := foldr Z.add 0 volumes.

Lemma total_bounds volumes : Forall (fun v => 0 <= v <= 127) volumes -> 0 <= total volumes <= 127 * Z.of_nat (length volumes).
Proof. unfold total. induction 1 as [|v l Hv _ IH]; cbn [foldr length]; lia. Qed.

Lemma receive_all_spec s a volumes d : paused s = false -> mapProducerDBovs s !! a = Some d ->
  Forall (fun v => 0 <= v <= 127) volumes -> 0 <= totalSum d -> totalSum d + total volumes < 2 ^ 16 ->
  0 <= count d -> count d + Z.of_nat (length volumes) < 2 ^ 64 ->
  exists s', receive_all s a volumes = Ok s' /\
    mapProducerDBovs s' !! a = Some (DBovs (totalSum d + total volumes) (count d + Z.of_nat (length volumes))).
Proof.
  intros Hp Ha Hv. revert s d Hp Ha. induction Hv as [|v l Hv Hl IH]; intros s d Hp Ha H1 H2 H3 H4; cbn [receive_all].
  { exists s. split; [done|]. rewrite Ha. f_equal. destruct d. cbn. f_equal; lia. }
  pose proof (total_bounds l Hl) as Ht. unfold total in *. cbn [foldr length] in *.
  unfold levels_ReceiveRtpPacket. rewrite Hp, Ha. ostep.
  rewrite !wrap_small by (unfold in_uint; lia).
  set (d1 := DBovs _ _). destruct (IH (set_dbovs s (<[a := d1]> (mapProducerDBovs s))) d1) as (s' & E & Hs');
    [done|cbn; apply lookup_insert_eq|cbn; lia..|].
  exists s'. split; [done|]. rewrite Hs'. cbn. f_equal. f_equal; lia.
Qed.

(** * The producers of an observer *)

Lemma dom_with_entry m a : dom (with_entry m a) = {[ a ]} ∪ dom m.
Proof.
  unfold with_entry. destruct (m !! a) as [d|] eqn:E; [|apply dom_insert_L].
  apply elem_of_dom_2 in E. set_solver.
Qed.

Lemma levels_ReceiveRtpPacket_Ok s a volume : a ∈ dom (mapProducerDBovs s) ->
  exists s', levels_ReceiveRtpPacket s a volume = Ok s' /\ dom (mapProducerDBovs s') = dom (mapProducerDBovs s).
Proof.
  intros Ha. unfold levels_ReceiveRtpPacket. destruct (paused s); [by exists s|].
  destruct volume as [v|]; [|by exists s]. pose proof Ha as [d Hd]%elem_of_dom. rewrite Hd. eexists. split; [done|].
  cbn. rewrite dom_insert_L. set_solver.
Qed.

Lemma levels_Pause_dom s : dom (mapProducerDBovs (levels_Pause s).1) = dom (mapProducerDBovs s).
Proof.
  unfold levels_Pause, levels_Paused, ResetMapProducerDBovs. destruct (paused s); [done|]. cbn.
  destruct (silence s); cbn; apply dom_fmap_L.
Qed.

Lemma levels_Resume_dom s : dom (mapProducerDBovs (levels_Resume s)) = dom (mapProducerDBovs s).
Proof. unfold levels_Resume. by destruct (paused s). Qed.

(** What is notified is about them. *)
Lemma Update_dom s order s' events : order ≡ₚ map_to_list (mapProducerDBovs s) -> Update s order = (s', events) ->
  dom (mapProducerDBovs s') = dom (mapProducerDBovs s) /\
  forall es a v, Volumes es ∈ events -> (a, v) ∈ es -> a ∈ dom (mapProducerDBovs s).
Proof.
  intros Ho. destruct (mapDBovsProducer_spec s order []) as (_ & A & _); [constructor|]. unfold Update.
  destruct (mapDBovsProducer s order []) as [|x m] eqn:Em.
  - intros E. assert (events = [] \/ events = [Silence]) as Hev.
    { destruct (negb (silence _)); injection E as <- <-; tauto. }
    split; [|intros es a v H; by destruct Hev as [-> | ->]; repeat apply elem_of_cons in H as [H|H]; try apply elem_of_nil in H].
    destruct (negb (silence _)); injection E as <- _; cbn; apply dom_fmap_L.
  - intros [= <- <-]. split; [cbn; apply dom_fmap_L|]. intros es a v [= ->]%list_elem_of_singleton Hin.
    apply list_elem_of_fmap in Hin as ([u b] & [= -> ->] & Hin%elem_of_take). destruct Hin as (i & Hi & _).
    apply list_elem_of_lookup_2 in Hi. destruct (A u b Hi) as [?%elem_of_nil|(d & Hd & _)]; [done|].
    rewrite Ho in Hd. apply elem_of_map_to_list in Hd. by eapply elem_of_dom_2.
Qed.

(** * Properties *)

(** The levels that are notified are the greatest levels, each with one of the
    producers that were heard at it, in descending order and no more than
    [maxEntries]; when no producer is heard the observer notifies silence, once.
    The counters start again. *)
Theorem Update_loudest s order : order ≡ₚ map_to_list (mapProducerDBovs s) ->
  let heard_at v a := exists d, mapProducerDBovs s !! a = Some d /\ heard s d = true /\ v = level d in
  exists s' events, Update s order = (s', events) /\
    mapProducerDBovs s' = ResetMapProducerDBovs (mapProducerDBovs s) /\
    ((exists v a, heard_at v a) -> exists es, events = [Volumes es] /\ silence s' = false /\
       Z.of_nat (length es) <= Z.max 0 (maxEntries s) /\
       StronglySorted (fun x y => y.2 < x.2) es /\
       (forall a v, (a, v) ∈ es -> heard_at v a) /\
       (forall v a, heard_at v a -> (exists b, (b, v) ∈ es) \/
          (Z.of_nat (length es) = Z.max 0 (maxEntries s) /\ forall b u, (b, u) ∈ es -> v < u))) /\
    (~ (exists v a, heard_at v a) -> events = (if silence s then [] else [Silence]) /\ silence s' = true).
Proof.
  intros Ho heard_at.
  destruct (mapDBovsProducer_spec s order []) as (D & A & _ & C); [constructor|].
  assert (Hin : forall a d, (a, d) ∈ order <-> mapProducerDBovs s !! a = Some d).
  { intros a d. rewrite Ho. apply elem_of_map_to_list. }
  assert (A' : forall v a, (v, a) ∈ mapDBovsProducer s order [] -> heard_at v a).
  { intros v a Hm. destruct (A v a Hm) as [?%elem_of_nil|(d & Hd & Hh & ->)]; [done|]. exists d. by rewrite <- Hin. }
  assert (C' : forall v a, heard_at v a -> exists b, (v, b) ∈ mapDBovsProducer s order []).
  { intros v a (d & Hd & Hh & ->). apply (C a d); [by apply Hin|done]. }
  clear A C. unfold Update. generalize dependent (mapDBovsProducer s order []). intros m D A' C'.
  destruct (decide (m = [])) as [->|Hm].
  { assert (~ exists v a, heard_at v a) as Hno.
    { intros (v & a & Hh). destruct (C' v a Hh) as [b Hb]. by apply elem_of_nil in Hb. }
    eexists _, _. split; [apply surjective_pairing|].
    cbn. destruct (silence s) eqn:Es; cbn; (split; [done|]; split; [intros Hy; by destruct Hno|done]). }
  set (n := Z.to_nat (maxEntries s)).
  exists (set_silence (set_dbovs s (ResetMapProducerDBovs (mapProducerDBovs s))) false),
    [Volumes ((fun va => (va.2, va.1)) <$> take n m)].
  split; [by destruct m|]. split; [done|].
  split; [|intros Hno; destruct Hno; destruct m as [|x m]; [done|]; exists x.1, x.2; apply A'; destruct x; left].
  intros _. eexists. split; [done|]. split; [done|].
  assert (Hes : forall a v, (a, v) ∈ ((fun va => (va.2, va.1)) <$> take n m) <-> (v, a) ∈ take n m).
  { intros a v. rewrite list_elem_of_fmap. split; [intros ([v' a'] & [= -> ->] & H); done|]. by exists (v, a). }
  split; [rewrite length_fmap, length_take; lia|]. split; [|split].
  - pose proof (descending_prefix m n D) as Dn. unfold descending in Dn. clear -Dn.
      induction Dn as [|[v a] l Hs IH Hl]; cbn; constructor; [done|]. rewrite Forall_fmap. by eapply Forall_impl.
  - intros a v (i & Hi & _)%Hes%elem_of_take. apply A'. by eapply list_elem_of_lookup_2.
  - intros v a Hh. destruct (C' v a Hh) as [b Hb]. rewrite length_fmap, length_take.
      destruct (decide ((v, b) ∈ take n m)) as [Ht|Ht]; [left; exists b; by apply Hes|]. right.
      assert (n < length m)%nat as Hlen by (destruct (decide (n < length m)%nat); [done|rewrite take_ge in Ht by lia; done]).
      split; [lia|]. intros c u Hu%Hes. destruct (descending_take m n (u, c) (v, b) D Hu Hb); done.
Qed.

Definition four_levels : levels :=
  Levels 2 (-100) 1000 (<[1%nat := DBovs 300 10]> (<[2%nat := DBovs 500 10]> (<[3%nat := DBovs 305 10]>
    (<[4%nat := DBovs 10 9]> ∅)))) true false.

(** The third producer has the level of the first, and is not told apart; the
    fourth has too few packets. *)
Lemma Update_loudest_witness :
  let order := map_to_list (mapProducerDBovs four_levels) in
  let heard_at v a := exists d, mapProducerDBovs four_levels !! a = Some d /\ heard four_levels d = true /\ v = level d in
  (exists s' events, Update four_levels order = (s', events) /\
    mapProducerDBovs s' = ResetMapProducerDBovs (mapProducerDBovs four_levels) /\
    ((exists v a, heard_at v a) -> exists es, events = [Volumes es] /\ silence s' = false /\
       Z.of_nat (length es) <= Z.max 0 (maxEntries four_levels) /\
       StronglySorted (fun x y => y.2 < x.2) es /\
       (forall a v, (a, v) ∈ es -> heard_at v a) /\
       (forall v a, heard_at v a -> (exists b, (b, v) ∈ es) \/
          (Z.of_nat (length es) = Z.max 0 (maxEntries four_levels) /\ forall b u, (b, u) ∈ es -> v < u))) /\
    (~ (exists v a, heard_at v a) -> events = (if silence four_levels then [] else [Silence]) /\ silence s' = true)) /\
  (Update four_levels [(1%nat, DBovs 300 10); (2%nat, DBovs 500 10); (3%nat, DBovs 305 10); (4%nat, DBovs 10 9)]).2
  = [Volumes [(3%nat, -30); (2%nat, -50)]].
Proof.
  intros order heard_at. split; [exact (Update_loudest four_levels order (Permutation_refl _))|by vm_compute].
Defined.

(** The level of a producer is the mean of the volumes of its packets, which
    are 0 to 127, rounded down, when there are no more than 516 of them. *)
Theorem level_is_mean s a volumes : paused s = false -> mapProducerDBovs s !! a = Some new_DBovs ->
  Forall (fun v => 0 <= v <= 127) volumes -> (0 < length volumes)%nat -> Z.of_nat (length volumes) <= 516 ->
  exists s' d, receive_all s a volumes = Ok s' /\ mapProducerDBovs s' !! a = Some d /\
    count d = Z.of_nat (length volumes) /\ level d = - (total volumes / Z.of_nat (length volumes)) /\ -127 <= level d <= 0.
Proof.
  intros Hp Ha Hv Hlen Hmax. pose proof (total_bounds volumes Hv) as Ht.
  destruct (receive_all_spec s a volumes new_DBovs Hp Ha Hv) as (s' & E & Hs'); [cbn; lia..|].
  eexists s', _. split; [done|]. split; [done|]. unfold level, avgDBov. cbn [totalSum count new_DBovs].
  rewrite !Z.add_0_l. split; [done|]. set (n := Z.of_nat (length volumes)) in *.
  assert (0 <= total volumes / n <= 127) as Hq.
  { split; [apply Z.div_pos; lia|]. apply Z.div_le_upper_bound; lia. }
  assert (swrap 8 (total volumes / n) = total volumes / n) as ->.
  { unfold swrap. change (2 ^ (8 - 1)) with 128. rewrite Z.mod_small; lia. }
  assert (swrap 8 (-1 * (total volumes / n)) = -1 * (total volumes / n)) as ->; [|lia].
  unfold swrap. change (2 ^ (8 - 1)) with 128. rewrite Z.mod_small; lia.
Qed.

Definition one_level : levels := Levels 1 (-100) 5000 (<[1%nat := new_DBovs]> ∅) true false.

(** One more packet can be one too many: 517 packets of silence, 127, are reported
    as the loudest sound. *)
Lemma level_is_mean_witness :
  (exists s' d, receive_all one_level 1 [10; 13; 20] = Ok s' /\ mapProducerDBovs s' !! 1%nat = Some d /\
    count d = Z.of_nat (length [10; 13; 20]) /\ level d = - (total [10; 13; 20] / Z.of_nat (length [10; 13; 20])) /\
    -127 <= level d <= 0) /\
  match receive_all one_level 1 (repeat 127 517) with
  | Ok s' => (Update s' (map_to_list (mapProducerDBovs s'))).2
  | Err _ => []
  end = [Volumes [(1%nat, 0)]].
Proof.
  split; [|by vm_compute]. apply (level_is_mean one_level 1 [10; 13; 20]); [done|by vm_compute| |cbn; lia..].
  repeat (constructor; [lia|]). constructor.
Defined.

(** * The timer runs unless the observer is paused *)

Section timer_laws.
Context {H : Type} `{Timer.UvLaws H}.

Definition timer_ok (o : audio_level_observer H) : Prop :=
  Timer.closed (periodicTimer o) = false /\ Timer.IsActive (periodicTimer o) = negb (paused (state o)).

Lemma started_timer (t : Timer.timer H) timeout repeat : Timer.closed t = false ->
  exists t', Timer.Start t timeout repeat = Ok t' /\ Timer.IsActive t' = true /\ Timer.closed t' = false.
Proof.
  intros Ho. unfold Timer.Start. rewrite Ho. set (t1 := Timer.Timer _ _ _ _).
  assert (exists t2, (if Timer.uv_is_active (Timer.uvHandle t1) then Timer.Stop t1 else Ok t1) = Ok t2 /\
                     Timer.closed t2 = false) as (t2 & -> & Ho2).
  { destruct (Timer.uv_is_active _); [|by exists t1].
    destruct (Timer.Stop_open t1) as (t2 & ? & _ & ?); [by subst t1|by exists t2]. }
  ostep. pose proof (Timer.uv_start_ok (Timer.uvHandle t2) timeout repeat) as He.
  pose proof (Timer.uv_start_active (Timer.uvHandle t2) timeout repeat) as Hact.
  destruct (Timer.uv_timer_start _ _ _) as [h err]. cbn in *. subst err. by eexists.
Qed.

Lemma new_AudioLevelObserver_ok maxEntries threshold interval o :
  new_AudioLevelObserver maxEntries threshold interval = Ok o -> timer_ok o.
Proof.
  unfold new_AudioLevelObserver, new_levels. intros (s & Hs & Hb)%bind_Ok.
  apply bind_Ok in Hs as (_ & _ & Hs). apply bind_Ok in Hs as (_ & _ & [= <-]).
  apply bind_Ok in Hb as (t & Ht & [= <-]).
  edestruct (started_timer (Timer.timer_new (H := H))) as (t' & E & Ha & Hc); [done|]. rewrite E in Ht.
  injection Ht as <-. by split.
Qed.

Lemma Pause_ok o : timer_ok o -> exists o' es, Pause o = Ok (o', es) /\ timer_ok o' /\ paused (state o') = true.
Proof.
  intros [Hc Ha]. unfold Pause. destruct (paused (state o)) eqn:Ep; [exists o, []; unfold timer_ok; by rewrite Ep|].
  destruct (Timer.Stop_open (periodicTimer o) Hc) as (t & -> & Hi & Hc'). ostep. unfold levels_Pause, levels_Paused. rewrite Ep. cbn.
  destruct (silence (state o)); cbn; eexists _, _; (split; [done|]); by split.
Qed.

Lemma Resume_ok o : timer_ok o -> exists o', Resume o = Ok o' /\ timer_ok o' /\ paused (state o') = false.
Proof.
  intros [Hc Ha]. unfold Resume. destruct (paused (state o)) eqn:Ep; cbn [negb].
  - destruct (periodicTimer o) as [h c n r] eqn:Et. cbn in Hc. subst c.
    assert (Timer.Restart (Timer.Timer h false n r) = Timer.Start (Timer.Timer h false n r) n r) as ->.
    { unfold Timer.Restart, Timer.Start, Timer.Stop. cbn. destruct (Timer.uv_is_active h); [|done].
      destruct (Timer.uv_timer_stop h) as [h' e]. cbn. by destruct (e =? 0). }
    destruct (started_timer (Timer.Timer h false n r) n r) as (t & -> & Hi & Hc); [done|]. ostep.
    eexists. split; [done|]. unfold timer_ok, levels_Resume. rewrite Ep. by split.
  - exists o. split; [done|]. split; [|done]. by split; rewrite ?Ep.
Qed.

Lemma OnTimer_ok o order : timer_ok o -> timer_ok (OnTimer o order).1.
Proof.
  intros [Hc Ha]. unfold OnTimer, Update, timer_ok. destruct (mapDBovsProducer _ _ _); [destruct (silence _)|]; done.
Qed.
End timer_laws.
