(* ===== verification/Router.v ===== *)
(** The media objects of a router (worker/src/RTC/Router.cpp, and the parts of
    Transport.cpp, Producer.cpp and Consumer.cpp that create, connect and delete
    them): transports, producers, consumers and RTP
    observers, which know each other by pointers.

    The objects live in a heap: a pointer is an address, [delete] frees it, and
    following a pointer to a freed object is undefined behaviour
    ([OutOfBounds]).  A transport is owned by its entry in [mapTransports] and
    known by its id.  Requests carry the ids they name, the address that the
    allocator gives to the object they create (any free one), and what the
    constructor reads of their JSON data, or nothing when it throws.

    A failed [MS_ASSERT], and the exception of [at()], which nobody catches, end
    the process ([AssertFailed]).  An error thrown by [MS_THROW_ERROR] becomes
    the answer of the request: the requests return whether they are accepted. *)

From S2P Require Export AudioLevelObserver.

(** * Objects *)

Record producer : Type := Producer {
  p_id : string;
  p_transport : string;          (** [listener] *)
  p_audio : bool;                (** [kind] is audio *)
  p_rtpParameters : rtp_parameters;
  p_extensionIds : extension_ids;
  p_paused : bool
}.

Record consumer : Type := Consumer {
  c_id : string;
  c_transport : string;
  c_mediaSsrcs : list Z;
  c_rtxSsrcs : list Z;
  c_producerPaused : bool
}.

(** An [AudioLevelObserver]; its timer brings the requests [LevelsTimer] below. *)
Record observer : Type := Observer {
  o_id : string;
  o_levels : levels
}.

Record transport : Type := Transport {
  t_mapProducers : gmap string addr;
  t_mapConsumers : gmap string addr;
  t_mapSsrcConsumer : gmap Z addr;
  t_mapRtxSsrcConsumer : gmap Z addr;
  t_rtpListener : rtp_listener;
  t_extensionIds : extension_ids       (** [recvRtpHeaderExtensionIds] *)
}.

Definition new_Transport : transport := Transport ∅ ∅ ∅ ∅ new_RtpListener no_ids.

Record router : Type := Router {
  producers : gmap addr producer;      (** the heap *)
  consumers : gmap addr consumer;
  observers : gmap addr observer;
  mapTransports : gmap string transport;
  mapRtpObservers : gmap string addr;
  mapProducerConsumers : gmap addr (gset addr);
  mapConsumerProducer : gmap addr addr;
  mapProducerRtpObservers : gmap addr (gset addr);
  mapProducers : gmap string addr
}.

Definition new_Router : router := Router ∅ ∅ ∅ ∅ ∅ ∅ ∅ ∅ ∅.

Definition set_producers w x := Router x (consumers w) (observers w) (mapTransports w) (mapRtpObservers w)
  (mapProducerConsumers w) (mapConsumerProducer w) (mapProducerRtpObservers w) (mapProducers w).
Definition set_consumers w x := Router (producers w) x (observers w) (mapTransports w) (mapRtpObservers w)
  (mapProducerConsumers w) (mapConsumerProducer w) (mapProducerRtpObservers w) (mapProducers w).
Definition set_observers w x := Router (producers w) (consumers w) x (mapTransports w) (mapRtpObservers w)
  (mapProducerConsumers w) (mapConsumerProducer w) (mapProducerRtpObservers w) (mapProducers w).
Definition set_mapTransports w x := Router (producers w) (consumers w) (observers w) x (mapRtpObservers w)
  (mapProducerConsumers w) (mapConsumerProducer w) (mapProducerRtpObservers w) (mapProducers w).
Definition set_mapRtpObservers w x := Router (producers w) (consumers w) (observers w) (mapTransports w) x
  (mapProducerConsumers w) (mapConsumerProducer w) (mapProducerRtpObservers w) (mapProducers w).
Definition set_mapProducerConsumers w x := Router (producers w) (consumers w) (observers w) (mapTransports w)
  (mapRtpObservers w) x (mapConsumerProducer w) (mapProducerRtpObservers w) (mapProducers w).
Definition set_mapConsumerProducer w x := Router (producers w) (consumers w) (observers w) (mapTransports w)
  (mapRtpObservers w) (mapProducerConsumers w) x (mapProducerRtpObservers w) (mapProducers w).
Definition set_mapProducerRtpObservers w x := Router (producers w) (consumers w) (observers w) (mapTransports w)
  (mapRtpObservers w) (mapProducerConsumers w) (mapConsumerProducer w) x (mapProducers w).
Definition set_mapProducers w x := Router (producers w) (consumers w) (observers w) (mapTransports w)
  (mapRtpObservers w) (mapProducerConsumers w) (mapConsumerProducer w) (mapProducerRtpObservers w) x.

(** * Memory *)

(** The object at a pointer, in its table. *)
Definition deref {K A} `{Countable K} (heap : gmap K A) (a : K) : outcome A :=
  match heap !! a with Some x => Ok x | None => Err OutOfBounds end.

(** What [MS_ASSERT] wants, or [at()] returns. *)
Definition present {K A} `{Countable K} (table : gmap K A) (k : K) : outcome A :=
  match table !! k with Some x => Ok x | None => Err AssertFailed end.

Definition assert (P : Prop) `{Decision P} : outcome unit := require AssertFailed (bool_decide P).

Definition set_producer (w : router) (a : addr) (p : producer) : router :=
  set_producers w (<[a := p]> (producers w)).
Definition set_consumer (w : router) (c : addr) (co : consumer) : router :=
  set_consumers w (<[c := co]> (consumers w)).
Definition set_observer (w : router) (o : addr) (ob : observer) : router :=
  set_observers w (<[o := ob]> (observers w)).
Definition set_transport (w : router) (t : string) (tr : transport) : router :=
  set_mapTransports w (<[t := tr]> (mapTransports w)).

(** [delete]: of an object that exists. *)
Definition delete_producer (w : router) (a : addr) : outcome router :=
  _ ← deref (producers w) a; Ok (set_producers w (delete a (producers w))).
Definition delete_consumer (w : router) (c : addr) : outcome router :=
  _ ← deref (consumers w) c; Ok (set_consumers w (delete c (consumers w))).
Definition delete_observer (w : router) (o : addr) : outcome router :=
  _ ← deref (observers w) o; Ok (set_observers w (delete o (observers w))).

(** A loop over a container that the calls made in it must not change: a change
    leaves the iterator invalid. *)
Fixpoint for_each_in {A C} `{EqDecision C} (container : router -> option C)
    (f : router -> A -> outcome router) (xs : list A) (w : router) : outcome router :=
  match xs with
  | [] => Ok w
  | x :: xs =>
      w' ← f w x;
      _ ← require OutOfBounds (bool_decide (container w' = container w));
      for_each_in container f xs w'
  end.

(** * AudioLevelObserver *)

Definition set_o_levels (ob : observer) (s : levels) : observer := Observer (o_id ob) s.

Definition ObserverAddProducer (w : router) (o a : addr) : outcome router :=
  ob ← deref (observers w) o;
  p ← deref (producers w) a;
  s ← levels_AddProducer (o_levels ob) a (p_audio p);
  Ok (set_observer w o (set_o_levels ob s)).

Definition ObserverRemoveProducer (w : router) (o a : addr) : outcome router :=
  ob ← deref (observers w) o;
  Ok (set_observer w o (set_o_levels ob (levels_RemoveProducer (o_levels ob) a))).

Definition ObserverProducerPaused (w : router) (o a : addr) : outcome router :=
  ob ← deref (observers w) o;
  Ok (set_observer w o (set_o_levels ob (levels_ProducerPaused (o_levels ob) a))).

Definition ObserverProducerResumed (w : router) (o a : addr) : outcome router :=
  ob ← deref (observers w) o;
  Ok (set_observer w o (set_o_levels ob (levels_ProducerResumed (o_levels ob) a))).

Definition ObserverReceiveRtpPacket (w : router) (o a : addr) (volume : option Z) : outcome router :=
  ob ← deref (observers w) o;
  s ← levels_ReceiveRtpPacket (o_levels ob) a volume;
  Ok (set_observer w o (set_o_levels ob s)).

Definition ObserverPause (w : router) (o : addr) : outcome router :=
  ob ← deref (observers w) o;
  Ok (set_observer w o (set_o_levels ob (levels_Pause (o_levels ob)).1)).

Definition ObserverResume (w : router) (o : addr) : outcome router :=
  ob ← deref (observers w) o;
  Ok (set_observer w o (set_o_levels ob (levels_Resume (o_levels ob)))).

(** What is notified has the ids of the producers. *)
Fixpoint named (w : router) (entries : list (addr * Z)) : outcome (list (string * Z)) :=
  match entries with
  | [] => Ok []
  | (a, v) :: entries =>
      p ← deref (producers w) a;
      l ← named w entries;
      Ok ((p_id p, v) :: l)
  end.

Definition notified (w : router) (events : list level_event) : outcome (list (list (string * Z))) :=
  match events with
  | Volumes entries :: _ => l ← named w entries; Ok [l]
  | _ => Ok []
  end.

(** [Update], with the notification of volumes if there is one; [order]: how the
    loop goes through the map. *)
Definition ObserverUpdate (w : router) (o : addr) (order : list (addr * dbovs))
  : outcome (router * list (list (string * Z))) :=
  ob ← deref (observers w) o;
  let '(s, events) := Update (o_levels ob) order in
  l ← notified w events;
  Ok (set_observer w o (set_o_levels ob s), l).

(** * Consumer *)

Definition set_producerPaused (w : router) (c : addr) (b : bool) : outcome router :=
  co ← deref (consumers w) c;
  Ok (set_consumer w c (Consumer (c_id co) (c_transport co) (c_mediaSsrcs co) (c_rtxSsrcs co) b)).

(** [Consumer::ProducerPaused] and [ProducerResumed]: what they notify apart. *)
Definition ConsumerProducerPaused (w : router) (c : addr) : outcome router := set_producerPaused w c true.
Definition ConsumerProducerResumed (w : router) (c : addr) : outcome router := set_producerPaused w c false.

(** [SendRtpPacket] of a consumer that exists. *)
Definition ConsumerSendRtpPacket (w : router) (c : addr) : outcome router :=
  _ ← deref (consumers w) c; Ok w.

(** * Callbacks of the router for the transports *)

Definition OnTransportNewProducer (w : router) (a : addr) : outcome router :=
  _ ← assert (mapProducerConsumers w !! a = None);
  p ← deref (producers w) a;
  _ ← require Thrown (bool_decide (mapProducers w !! p_id p = None));
  let w := set_mapProducers w (<[p_id p := a]> (mapProducers w)) in
  let w := set_mapProducerConsumers w (<[a := ∅]> (mapProducerConsumers w)) in
  Ok (match mapProducerRtpObservers w !! a with
      | Some _ => w
      | None => set_mapProducerRtpObservers w (<[a := ∅]> (mapProducerRtpObservers w))
      end).

(** [this->mapConsumerProducer] only: the set of the producer stays. *)
Definition OnTransportConsumerProducerClosed (w : router) (c : addr) : outcome router :=
  _ ← present (mapConsumerProducer w) c;
  Ok (set_mapConsumerProducer w (delete c (mapConsumerProducer w))).

Definition OnTransportConsumerClosed (w : router) (c : addr) : outcome router :=
  producer ← present (mapConsumerProducer w) c;
  consumers ← present (mapProducerConsumers w) producer;
  let w := set_mapProducerConsumers w (<[producer := consumers ∖ {[ c ]}]> (mapProducerConsumers w)) in
  Ok (set_mapConsumerProducer w (delete c (mapConsumerProducer w))).

(** The consumer disappears from the three maps of its transport. *)
Definition erase_ssrcs (m : gmap Z addr) (ssrcs : list Z) : gmap Z addr := foldl (fun m s => delete s m) m ssrcs.

Definition forget_consumer (tr : transport) (co : consumer) : transport :=
  Transport (t_mapProducers tr) (delete (c_id co) (t_mapConsumers tr))
    (erase_ssrcs (t_mapSsrcConsumer tr) (c_mediaSsrcs co))
    (erase_ssrcs (t_mapRtxSsrcConsumer tr) (c_rtxSsrcs co))
    (t_rtpListener tr) (t_extensionIds tr).

(** [Transport::OnConsumerProducerClosed]. *)
Definition OnConsumerProducerClosed (w : router) (c : addr) : outcome router :=
  co ← deref (consumers w) c;
  tr ← deref (mapTransports w) (c_transport co);
  let w := set_transport w (c_transport co) (forget_consumer tr co) in
  w ← OnTransportConsumerProducerClosed w c;
  delete_consumer w c.

(** [Consumer::ProducerClosed]. *)
Definition ConsumerProducerClosed (w : router) (c : addr) : outcome router :=
  _ ← deref (consumers w) c;
  OnConsumerProducerClosed w c.

Definition OnTransportProducerClosed (w : router) (a : addr) : outcome router :=
  p ← deref (producers w) a;
  consumers ← present (mapProducerConsumers w) a;
  _ ← present (mapProducers w) (p_id p);
  rtpObservers ← present (mapProducerRtpObservers w) a;
  w ← for_each_in (fun w => mapProducerConsumers w !! a) ConsumerProducerClosed (elements consumers) w;
  w ← for_each_in (fun w => mapProducerRtpObservers w !! a)
        (fun w o => ObserverRemoveProducer w o a) (elements rtpObservers) w;
  let w := set_mapProducers w (delete (p_id p) (mapProducers w)) in
  let w := set_mapProducerConsumers w (delete a (mapProducerConsumers w)) in
  Ok (set_mapProducerRtpObservers w (delete a (mapProducerRtpObservers w))).

(** The observers of a producer, if it has an entry. *)
Definition tell_observers (f : router -> addr -> outcome router) (w : router) (a : addr) : outcome router :=
  match mapProducerRtpObservers w !! a with
  | Some rtpObservers =>
      for_each_in (fun w => mapProducerRtpObservers w !! a) f (elements rtpObservers) w
  | None => Ok w
  end.

Definition tell_consumers (f : router -> addr -> outcome router) (w : router) (a : addr) : outcome router :=
  consumers ← present (mapProducerConsumers w) a;
  for_each_in (fun w => mapProducerConsumers w !! a) f (elements consumers) w.

Definition OnTransportProducerPaused (w : router) (a : addr) : outcome router :=
  w ← tell_consumers ConsumerProducerPaused w a;
  tell_observers (fun w o => ObserverProducerPaused w o a) w a.

Definition OnTransportProducerResumed (w : router) (a : addr) : outcome router :=
  w ← tell_consumers ConsumerProducerResumed w a;
  tell_observers (fun w o => ObserverProducerResumed w o a) w a.

Definition OnTransportProducerRtpPacketReceived (w : router) (a : addr) (volume : option Z) : outcome router :=
  w ← tell_consumers ConsumerSendRtpPacket w a;
  tell_observers (fun w o => ObserverReceiveRtpPacket w o a volume) w a.

Definition OnTransportNewConsumer (w : router) (c : addr) (producerId : string) : outcome router :=
  match mapProducers w !! producerId with
  | None => Err Thrown
  | Some producer =>
      consumers ← present (mapProducerConsumers w) producer;
      _ ← assert (mapConsumerProducer w !! c = None);
      p ← deref (producers w) producer;
      w ← (if p_paused p then ConsumerProducerPaused w c else Ok w);
      let w := set_mapProducerConsumers w (<[producer := {[ c ]} ∪ consumers]> (mapProducerConsumers w)) in
      Ok (set_mapConsumerProducer w (<[c := producer]> (mapConsumerProducer w)))
  end.

(** The producer that is asked for a key frame. *)
Definition OnTransportConsumerKeyFrameRequested (w : router) (c : addr) : outcome addr :=
  a ← present (mapConsumerProducer w) c;
  _ ← deref (producers w) a;
  Ok a.

(** * Requests *)

(** The answer to a request: accepted or not, and the objects. *)
Definition reply : Type := router * bool.

(** An error that is thrown before anything has changed. *)
Definition catch (w : router) (m : outcome reply) : outcome reply :=
  match m with Err Thrown => Ok (w, false) | _ => m end.

(** [Get...FromInternal] and [SetNew...IdFromInternal]. *)
Definition found {A} (table : gmap string A) (id : string) : outcome A :=
  match table !! id with Some x => Ok x | None => Err Thrown end.

Definition is_new {A} (table : gmap string A) (id : string) : outcome unit :=
  match table !! id with Some _ => Err Thrown | None => Ok () end.

Definition set_t_mapProducers (tr : transport) m : transport :=
  Transport m (t_mapConsumers tr) (t_mapSsrcConsumer tr) (t_mapRtxSsrcConsumer tr) (t_rtpListener tr)
    (t_extensionIds tr).

Definition set_t_mapConsumers (tr : transport) m : transport :=
  Transport (t_mapProducers tr) m (t_mapSsrcConsumer tr) (t_mapRtxSsrcConsumer tr) (t_rtpListener tr)
    (t_extensionIds tr).

Definition set_t_ssrcs (tr : transport) m m' : transport :=
  Transport (t_mapProducers tr) (t_mapConsumers tr) m m' (t_rtpListener tr) (t_extensionIds tr).

Definition set_t_rtpListener (tr : transport) l : transport :=
  Transport (t_mapProducers tr) (t_mapConsumers tr) (t_mapSsrcConsumer tr) (t_mapRtxSsrcConsumer tr) l
    (t_extensionIds tr).

Definition set_t_extensionIds (tr : transport) i : transport :=
  Transport (t_mapProducers tr) (t_mapConsumers tr) (t_mapSsrcConsumer tr) (t_mapRtxSsrcConsumer tr)
    (t_rtpListener tr) i.

(** The transport takes the ids of the extensions that the producer has. *)
Definition take_id (old new : Z) : Z := if truthy new then new else old.

Definition take_ids (t p : extension_ids) : extension_ids :=
  ExtensionIds (take_id (midExtensionId t) (midExtensionId p))
    (take_id (ridExtensionId t) (ridExtensionId p))
    (take_id (rridExtensionId t) (rridExtensionId p))
    (take_id (absSendTimeExtensionId t) (absSendTimeExtensionId p))
    (take_id (transportWideCc01ExtensionId t) (transportWideCc01ExtensionId p))
    (frameMarking07ExtensionId t) (frameMarkingExtensionId t) (ssrcAudioLevelExtensionId t)
    (videoOrientationExtensionId t).

(** The data of a new producer: kind, parameters, extension ids, paused. *)
Record producer_data : Type := ProducerData {
  pd_audio : bool;
  pd_rtpParameters : rtp_parameters;
  pd_extensionIds : extension_ids;
  pd_paused : bool
}.

Record consumer_data : Type := ConsumerData {
  cd_mediaSsrcs : list Z;
  cd_rtxSsrcs : list Z
}.

(** [TRANSPORT_PRODUCE]. *)
Definition TransportProduce (w : router) (tid pid : string) (a : addr) (data : option producer_data)
  : outcome reply :=
  tr ← found (mapTransports w) tid;
  _ ← is_new (t_mapProducers tr) pid;
  match data with
  | None => Err Thrown
  | Some d =>
      let w' := set_producer w a (Producer pid tid (pd_audio d) (pd_rtpParameters d) (pd_extensionIds d)
                                    (pd_paused d)) in
      let '(l, ok) := AddProducer (t_rtpListener tr) a (pd_rtpParameters d) in
      let w' := set_transport w' tid (set_t_rtpListener tr l) in
      if negb ok then w' ← delete_producer w' a; Ok (w', false)
      else
        match OnTransportNewProducer w' a with
        | Err Thrown =>
            let w' := set_transport w' tid (set_t_rtpListener tr (RemoveProducer l a)) in
            w' ← delete_producer w' a; Ok (w', false)
        | Err e => Err e
        | Ok w' =>
            tr ← deref (mapTransports w') tid;
            let tr := set_t_mapProducers tr (<[pid := a]> (t_mapProducers tr)) in
            let tr := set_t_extensionIds tr (take_ids (t_extensionIds tr) (pd_extensionIds d)) in
            Ok (set_transport w' tid tr, true)
        end
  end.

(** [TRANSPORT_CONSUME]. *)
Definition TransportConsume (w : router) (tid cid producerId : string) (c : addr) (data : option consumer_data)
  : outcome reply :=
  tr ← found (mapTransports w) tid;
  _ ← is_new (t_mapConsumers tr) cid;
  match data with
  | None => Err Thrown
  | Some d =>
      let w' := set_consumer w c (Consumer cid tid (cd_mediaSsrcs d) (cd_rtxSsrcs d) false) in
      match OnTransportNewConsumer w' c producerId with
      | Err Thrown => w' ← delete_consumer w' c; Ok (w', false)
      | Err e => Err e
      | Ok w' =>
          tr ← deref (mapTransports w') tid;
          let tr := set_t_mapConsumers tr (<[cid := c]> (t_mapConsumers tr)) in
          let tr := set_t_ssrcs tr (foldl (fun m s => <[s := c]> m) (t_mapSsrcConsumer tr) (cd_mediaSsrcs d))
                      (foldl (fun m s => <[s := c]> m) (t_mapRtxSsrcConsumer tr) (cd_rtxSsrcs d)) in
          Ok (set_transport w' tid tr, true)
      end
  end.

(** [PRODUCER_CLOSE]. *)
Definition ProducerClose (w : router) (tid pid : string) : outcome reply :=
  tr ← found (mapTransports w) tid;
  a ← found (t_mapProducers tr) pid;
  let tr := set_t_rtpListener tr (RemoveProducer (t_rtpListener tr) a) in
  p ← deref (producers w) a;
  let w := set_transport w tid (set_t_mapProducers tr (delete (p_id p) (t_mapProducers tr))) in
  w ← OnTransportProducerClosed w a;
  w ← delete_producer w a;
  Ok (w, true).

(** [CONSUMER_CLOSE]. *)
Definition ConsumerClose (w : router) (tid cid : string) : outcome reply :=
  tr ← found (mapTransports w) tid;
  c ← found (t_mapConsumers tr) cid;
  co ← deref (consumers w) c;
  let w := set_transport w tid (forget_consumer tr co) in
  w ← OnTransportConsumerClosed w c;
  w ← delete_consumer w c;
  Ok (w, true).

(** [PRODUCER_PAUSE] and [PRODUCER_RESUME]. *)
Definition ProducerPause (w : router) (tid pid : string) : outcome reply :=
  tr ← found (mapTransports w) tid;
  a ← found (t_mapProducers tr) pid;
  p ← deref (producers w) a;
  if p_paused p then Ok (w, true)
  else
    let w := set_producer w a (Producer (p_id p) (p_transport p) (p_audio p) (p_rtpParameters p)
                                 (p_extensionIds p) true) in
    w ← OnTransportProducerPaused w a;
    Ok (w, true).

Definition ProducerResume (w : router) (tid pid : string) : outcome reply :=
  tr ← found (mapTransports w) tid;
  a ← found (t_mapProducers tr) pid;
  p ← deref (producers w) a;
  if negb (p_paused p) then Ok (w, true)
  else
    let w := set_producer w a (Producer (p_id p) (p_transport p) (p_audio p) (p_rtpParameters p)
                                 (p_extensionIds p) false) in
    w ← OnTransportProducerResumed w a;
    Ok (w, true).

(** [Transport::CloseProducersAndConsumers]; the pointers of the two maps go
    stale while their loops run. *)
Definition CloseProducersAndConsumers (w : router) (tid : string) : outcome router :=
  tr ← deref (mapTransports w) tid;
  w ← for_each_in (fun w => t_mapProducers <$> mapTransports w !! tid)
        (fun w a => w ← OnTransportProducerClosed w a; delete_producer w a)
        (map_to_list (t_mapProducers tr)).*2 w;
  tr ← deref (mapTransports w) tid;
  let w := set_transport w tid (set_t_mapProducers tr ∅) in
  w ← for_each_in (fun w => t_mapConsumers <$> mapTransports w !! tid)
        (fun w c => w ← OnTransportConsumerClosed w c; delete_consumer w c)
        (map_to_list (t_mapConsumers tr)).*2 w;
  tr ← deref (mapTransports w) tid;
  Ok (set_transport w tid (set_t_ssrcs (set_t_mapConsumers tr ∅) ∅ ∅)).

(** [ROUTER_CREATE_..._TRANSPORT]; [ok]: the constructor returns. *)
Definition RouterCreateTransport (w : router) (tid : string) (ok : bool) : outcome reply :=
  _ ← is_new (mapTransports w) tid;
  _ ← require Thrown ok;
  Ok (set_transport w tid new_Transport, true).

(** [TRANSPORT_CLOSE]. *)
Definition TransportClose (w : router) (tid : string) : outcome reply :=
  _ ← found (mapTransports w) tid;
  w ← CloseProducersAndConsumers w tid;
  Ok (set_mapTransports w (delete tid (mapTransports w)), true).

(** [ROUTER_CREATE_AUDIO_LEVEL_OBSERVER]. *)
Definition RouterCreateObserver (w : router) (oid : string) (o : addr) (data : option (Z * Z * Z)) : outcome reply :=
  _ ← is_new (mapRtpObservers w) oid;
  s ← (match data with
       | Some (maxEntries, threshold, interval) => new_levels maxEntries threshold interval
       | None => Err Thrown
       end);
  let w := set_observer w o (Observer oid s) in
  Ok (set_mapRtpObservers w (<[oid := o]> (mapRtpObservers w)), true).

(** [RTP_OBSERVER_CLOSE]. *)
Definition RtpObserverClose (w : router) (oid : string) : outcome reply :=
  o ← found (mapRtpObservers w) oid;
  ob ← deref (observers w) o;
  let w := set_mapRtpObservers w (delete (o_id ob) (mapRtpObservers w)) in
  let w := set_mapProducerRtpObservers w ((fun s => s ∖ {[ o ]}) <$> mapProducerRtpObservers w) in
  w ← delete_observer w o;
  Ok (w, true).

(** [RTP_OBSERVER_PAUSE] and [RTP_OBSERVER_RESUME]. *)
Definition RtpObserverPause (w : router) (oid : string) : outcome reply :=
  o ← found (mapRtpObservers w) oid; w ← ObserverPause w o; Ok (w, true).
Definition RtpObserverResume (w : router) (oid : string) : outcome reply :=
  o ← found (mapRtpObservers w) oid; w ← ObserverResume w o; Ok (w, true).

(** [mapProducerRtpObservers[producer]], which makes the entry if there is none. *)
Definition observers_of (w : router) (a : addr) : gset addr := default ∅ (mapProducerRtpObservers w !! a).

(** [RTP_OBSERVER_ADD_PRODUCER]. *)
Definition RtpObserverAddProducer (w : router) (oid pid : string) : outcome reply :=
  o ← found (mapRtpObservers w) oid;
  a ← found (mapProducers w) pid;
  w ← ObserverAddProducer w o a;
  Ok (set_mapProducerRtpObservers w (<[a := {[ o ]} ∪ observers_of w a]> (mapProducerRtpObservers w)), true).

(** [RTP_OBSERVER_REMOVE_PRODUCER]. *)
Definition RtpObserverRemoveProducer (w : router) (oid pid : string) : outcome reply :=
  o ← found (mapRtpObservers w) oid;
  a ← found (mapProducers w) pid;
  w ← ObserverRemoveProducer w o a;
  Ok (set_mapProducerRtpObservers w (<[a := observers_of w a ∖ {[ o ]}]> (mapProducerRtpObservers w)), true).

(** The timer of an observer expires. *)
Definition RtpObserverOnTimer (w : router) (oid : string) (order : list (addr * dbovs)) : outcome reply :=
  o ← found (mapRtpObservers w) oid;
  '(w, _) ← ObserverUpdate w o order;
  Ok (w, true).

(** * Packets *)

(** The ids of the transport, given to a received packet. *)
Definition with_ids (p : rtp_packet) (t : extension_ids) : rtp_packet :=
  set_ids p (ExtensionIds (midExtensionId t) (ridExtensionId t) (rridExtensionId t)
    (absSendTimeExtensionId t) (transportWideCc01ExtensionId t)
    (frameMarking07ExtensionId (ids p)) (frameMarkingExtensionId (ids p))
    (ssrcAudioLevelExtensionId (ids p)) (videoOrientationExtensionId (ids p))).

(** [Transport::ReceiveRtpPacket].  [forwarded]: the producer, if it is not paused,
    hands the packet on; [volume]: the audio level that it then has, if any. *)
Definition ReceiveRtpPacket (w : router) (tid : string) (p : rtp_packet) (forwarded : bool) (volume : option Z)
  : outcome reply :=
  tr ← found (mapTransports w) tid;
  '(l, r) ← GetProducer (t_rtpListener tr) (with_ids p (t_extensionIds tr));
  let w := set_transport w tid (set_t_rtpListener tr l) in
  match r with
  | None => Ok (w, false)
  | Some a =>
      pr ← deref (producers w) a;
      if p_paused pr || negb forwarded then Ok (w, true)
      else w ← OnTransportProducerRtpPacketReceived w a volume; Ok (w, true)
  end.

(** * The router as a state machine *)

Inductive request : Type :=
| CreateTransport (tid : string) (ok : bool)
| CloseTransport (tid : string)
| CreateObserver (oid : string) (o : addr) (data : option (Z * Z * Z))
| CloseObserver (oid : string)
| PauseObserver (oid : string)
| ResumeObserver (oid : string)
| AddToObserver (oid pid : string)
| RemoveFromObserver (oid pid : string)
| Produce (tid pid : string) (a : addr) (data : option producer_data)
| Consume (tid cid producerId : string) (c : addr) (data : option consumer_data)
| CloseProducer (tid pid : string)
| CloseConsumer (tid cid : string)
| PauseProducer (tid pid : string)
| ResumeProducer (tid pid : string)
| RtpPacketReceived (tid : string) (p : rtp_packet) (forwarded : bool) (volume : option Z)
| LevelsTimer (oid : string) (order : list (addr * dbovs)).

Definition HandleRequest (w : router) (r : request) : outcome reply :=
  catch w
    match r with
    | CreateTransport tid ok => RouterCreateTransport w tid ok
    | CloseTransport tid => TransportClose w tid
    | CreateObserver oid o data => RouterCreateObserver w oid o data
    | CloseObserver oid => RtpObserverClose w oid
    | PauseObserver oid => RtpObserverPause w oid
    | ResumeObserver oid => RtpObserverResume w oid
    | AddToObserver oid pid => RtpObserverAddProducer w oid pid
    | RemoveFromObserver oid pid => RtpObserverRemoveProducer w oid pid
    | Produce tid pid a data => TransportProduce w tid pid a data
    | Consume tid cid producerId c data => TransportConsume w tid cid producerId c data
    | CloseProducer tid pid => ProducerClose w tid pid
    | CloseConsumer tid cid => ConsumerClose w tid cid
    | PauseProducer tid pid => ProducerPause w tid pid
    | ResumeProducer tid pid => ProducerResume w tid pid
    | RtpPacketReceived tid p forwarded volume => ReceiveRtpPacket w tid p forwarded volume
    | LevelsTimer oid order => RtpObserverOnTimer w oid order
    end.

(** What can arrive: the allocator gives out free addresses, and packets have been
    parsed; a loop goes through each entry of a map once. *)
Definition possible (w : router) (r : request) : Prop :=
  match r with
  | CreateObserver _ o _ => observers w !! o = None
  | Produce _ _ a _ => producers w !! a = None
  | Consume _ _ _ c _ => consumers w !! c = None
  | RtpPacketReceived _ p _ _ => exists data len, bytes data /\ 0 <= len <= zlen data /\ Parse data len = Ok p
  | LevelsTimer oid order => forall o ob, mapRtpObservers w !! oid = Some o -> observers w !! o = Some ob ->
      order ≡ₚ map_to_list (mapProducerDBovs (o_levels ob))
  | _ => True
  end.

(** The requests one after the other. *)
Inductive reachable : router -> Prop :=
| reach_new : reachable new_Router
| reach_step w r w' b : reachable w -> possible w r -> HandleRequest w r = Ok (w', b) -> reachable w'.
