(* ===== verification/RouterFacts.v ===== *)
(** The objects of a router: the invariant that ties them together, and what
    closing a producer or a consumer does to them.

    Every request keeps the invariant of the objects of a router, and is answered. *)

From S2P Require Export Router.

(** * Invariant

    While an object is being closed it is no longer in the tables of its
    transport: [cp] and [cc] are the producer and the consumer being closed.
    While a transport is being closed its own tables go stale: [sp] is the
    transport whose table of producers, and [sc] the one whose table of
    consumers, says nothing. *)

Definition holds_producer (w : router) (tid id : string) (a : addr) : Prop :=
  exists tr, mapTransports w !! tid = Some tr /\ t_mapProducers tr !! id = Some a.

Definition holds_consumer (w : router) (tid id : string) (c : addr) : Prop :=
  exists tr, mapTransports w !! tid = Some tr /\ t_mapConsumers tr !! id = Some c.

(** The producers whose levels an observer has. *)
Definition o_producers (ob : observer) : gset addr := dom (mapProducerDBovs (o_levels ob)).

Record graph (cp cc : option addr) (sp sc : option string) (w : router) : Prop := {
  g_producer : forall a p, producers w !! a = Some p ->
    mapProducers w !! p_id p = Some a /\ is_Some (mapProducerConsumers w !! a) /\
    is_Some (mapProducerRtpObservers w !! a);
  g_in_transport : forall a p, producers w !! a = Some p -> cp <> Some a ->
    holds_producer w (p_transport p) (p_id p) a;
  g_mapProducers : forall id a, mapProducers w !! id = Some a ->
    exists p, producers w !! a = Some p /\ p_id p = id;
  g_consumers_of : forall a s, mapProducerConsumers w !! a = Some s ->
    is_Some (producers w !! a) /\ forall c, c ∈ s -> mapConsumerProducer w !! c = Some a;
  g_producer_of : forall c a, mapConsumerProducer w !! c = Some a ->
    is_Some (consumers w !! c) /\ exists s, mapProducerConsumers w !! a = Some s /\ c ∈ s;
  g_consumer : forall c co, consumers w !! c = Some co ->
    is_Some (mapConsumerProducer w !! c) /\ (cc <> Some c -> holds_consumer w (c_transport co) (c_id co) c);
  g_t_producers : forall tid tr, mapTransports w !! tid = Some tr -> sp <> Some tid ->
    (forall id a, t_mapProducers tr !! id = Some a ->
       cp <> Some a /\ exists p, producers w !! a = Some p /\ p_id p = id /\ p_transport p = tid) /\
    (forall a, pointed (t_rtpListener tr) a ->
       cp <> Some a /\ exists p, producers w !! a = Some p /\ p_transport p = tid);
  g_t_consumers : forall tid tr, mapTransports w !! tid = Some tr -> sc <> Some tid ->
    (forall id c, t_mapConsumers tr !! id = Some c ->
       cc <> Some c /\ exists co, consumers w !! c = Some co /\ c_id co = id /\ c_transport co = tid) /\
    (forall s c, t_mapSsrcConsumer tr !! s = Some c ->
       cc <> Some c /\ exists co, consumers w !! c = Some co /\ c_transport co = tid /\ s ∈ c_mediaSsrcs co) /\
    (forall s c, t_mapRtxSsrcConsumer tr !! s = Some c ->
       cc <> Some c /\ exists co, consumers w !! c = Some co /\ c_transport co = tid /\ s ∈ c_rtxSsrcs co);
  g_mapRtpObservers : forall oid o, mapRtpObservers w !! oid = Some o ->
    exists ob, observers w !! o = Some ob /\ o_id ob = oid;
  g_observer : forall o ob, observers w !! o = Some ob ->
    mapRtpObservers w !! o_id ob = Some o /\
    forall a, a ∈ o_producers ob -> exists s, mapProducerRtpObservers w !! a = Some s /\ o ∈ s;
  g_observers_of : forall a s, mapProducerRtpObservers w !! a = Some s ->
    is_Some (producers w !! a) /\ forall o, o ∈ s -> exists ob, observers w !! o = Some ob /\
      forall p, producers w !! a = Some p -> p_paused p = false -> a ∈ o_producers ob;
  g_paused : forall c a co p, mapConsumerProducer w !! c = Some a -> consumers w !! c = Some co ->
    producers w !! a = Some p -> c_producerPaused co = p_paused p
}.

Definition graph_ok : router -> Prop := graph None None None None.

Lemma new_Router_ok : graph_ok new_Router.
Proof. split; intros *; cbn; rewrite lookup_empty; discriminate. Qed.

(** * Lookups *)

Lemma deref_Ok {K A} `{Countable K} (m : gmap K A) k x : m !! k = Some x -> deref m k = Ok x.
Proof. unfold deref. by intros ->. Qed.

Lemma present_Ok {K A} `{Countable K} (m : gmap K A) k x : m !! k = Some x -> present m k = Ok x.
Proof. unfold present. by intros ->. Qed.

Lemma found_Ok {A} (m : gmap string A) k x : m !! k = Some x -> found m k = Ok x.
Proof. unfold found. by intros ->. Qed.

Lemma insert_lookup {K A} `{Countable K} (m : gmap K A) k k' x :
  <[k := x]> m !! k' = if decide (k' = k) then Some x else m !! k'.
Proof. destruct (decide (k' = k)) as [->|]; [apply lookup_insert_eq|by apply lookup_insert_ne]. Qed.

Lemma delete_lookup {K A} `{Countable K} (m : gmap K A) k k' :
  delete k m !! k' = if decide (k' = k) then None else m !! k'.
Proof. destruct (decide (k' = k)) as [->|]; [apply lookup_delete_eq|by apply lookup_delete_ne]. Qed.

Lemma erase_ssrcs_lookup l : forall (m : gmap Z addr) s,
  erase_ssrcs m l !! s = if decide (s ∈ l) then None else m !! s.
Proof.
  unfold erase_ssrcs. induction l as [|x l IH]; intros m s; cbn [foldl]; [by rewrite decide_False by apply not_elem_of_nil|].
  rewrite IH, delete_lookup. destruct (decide (s ∈ l)) as [Hl|Hl], (decide (s = x)) as [->|Hx].
  - by rewrite decide_True by (left).
  - by rewrite decide_True by (by right).
  - by rewrite decide_True by (left).
  - rewrite decide_False; [done|]. by intros [?|?]%elem_of_cons.
Qed.

(** * Consumers that go with their producer *)

(** The transport without the consumers of [l]. *)
Record fewer (l : list addr) (tr tr' : transport) : Prop := {
  fw_producers : t_mapProducers tr' = t_mapProducers tr;
  fw_listener : t_rtpListener tr' = t_rtpListener tr;
  fw_consumers : forall id c, t_mapConsumers tr' !! id = Some c <-> t_mapConsumers tr !! id = Some c /\ c ∉ l;
  fw_ssrcs : forall s c, t_mapSsrcConsumer tr' !! s = Some c -> t_mapSsrcConsumer tr !! s = Some c /\ c ∉ l;
  fw_rtx : forall s c, t_mapRtxSsrcConsumer tr' !! s = Some c -> t_mapRtxSsrcConsumer tr !! s = Some c /\ c ∉ l
}.

(** Everything but the consumers is the same. *)
Definition same_producers (w w' : router) : Prop :=
  producers w' = producers w /\ mapProducers w' = mapProducers w /\
  mapProducerConsumers w' = mapProducerConsumers w /\ mapProducerRtpObservers w' = mapProducerRtpObservers w /\
  observers w' = observers w /\ mapRtpObservers w' = mapRtpObservers w.

Record without (l : list addr) (w w' : router) : Prop := {
  wo_same : same_producers w w';
  wo_consumers : forall c, consumers w' !! c = if decide (c ∈ l) then None else consumers w !! c;
  wo_links : forall c, mapConsumerProducer w' !! c = if decide (c ∈ l) then None else mapConsumerProducer w !! c;
  wo_transports : forall tid, match mapTransports w !! tid, mapTransports w' !! tid with
                              | Some tr, Some tr' => fewer l tr tr'
                              | None, None => True
                              | _, _ => False
                              end
}.

Lemma fewer_nil tr : fewer [] tr tr.
Proof. split; try done; intros; [split; [|tauto]|..]; intros; (split; [done|apply not_elem_of_nil]). Qed.

Lemma without_nil w : without [] w w.
Proof.
  split; try done; try (intros c; by rewrite decide_False by apply not_elem_of_nil).
  intros tid. destruct (mapTransports w !! tid); [apply fewer_nil|done].
Qed.

Lemma fewer_trans l1 l2 t1 t2 t3 : fewer l1 t1 t2 -> fewer l2 t2 t3 -> fewer (l1 ++ l2) t1 t3.
Proof.
  intros [P1 L1 C1 S1 R1] [P2 L2 C2 S2 R2]. split; [congruence|congruence|..].
  - intros id c. rewrite C2, C1, not_elem_of_app. tauto.
  - intros s c [H ?]%S2. apply S1 in H as [? ?]. by rewrite not_elem_of_app.
  - intros s c [H ?]%R2. apply R1 in H as [? ?]. by rewrite not_elem_of_app.
Qed.

Lemma without_trans l1 l2 w1 w2 w3 : without l1 w1 w2 -> without l2 w2 w3 -> without (l1 ++ l2) w1 w3.
Proof.
  intros [(A1 & A2 & A3 & A4 & A5 & A6) C1 K1 T1] [(B1 & B2 & B3 & B4 & B5 & B6) C2 K2 T2].
  split; [unfold same_producers; split_and!; congruence| | |].
  - intros c. rewrite C2, C1. destruct (decide (c ∈ l1 ++ l2)) as [H|H]; rewrite elem_of_app in H;
      destruct (decide (c ∈ l1)), (decide (c ∈ l2)); tauto.
  - intros c. rewrite K2, K1. destruct (decide (c ∈ l1 ++ l2)) as [H|H]; rewrite elem_of_app in H;
      destruct (decide (c ∈ l1)), (decide (c ∈ l2)); tauto.
  - intros tid. specialize (T1 tid). specialize (T2 tid).
    destruct (mapTransports w1 !! tid), (mapTransports w2 !! tid), (mapTransports w3 !! tid); try done.
    by eapply fewer_trans.
Qed.

(** The consumer is in the tables of its transport, under its id and its SSRCs,
    and nowhere else. *)
Definition well_placed (w : router) (c : addr) : Prop :=
  exists co, consumers w !! c = Some co /\ is_Some (mapConsumerProducer w !! c) /\
    holds_consumer w (c_transport co) (c_id co) c /\
    forall tid tr, mapTransports w !! tid = Some tr ->
      (forall id, t_mapConsumers tr !! id = Some c -> tid = c_transport co /\ id = c_id co) /\
      (forall s, t_mapSsrcConsumer tr !! s = Some c -> tid = c_transport co /\ s ∈ c_mediaSsrcs co) /\
      (forall s, t_mapRtxSsrcConsumer tr !! s = Some c -> tid = c_transport co /\ s ∈ c_rtxSsrcs co).

Lemma graph_well_placed cp sp w c : graph cp None sp None w -> is_Some (consumers w !! c) -> well_placed w c.
Proof.
  intros G [co Hc]. exists co. destruct (g_consumer _ _ _ _ _ G c co Hc) as [Hl Hh].
  split; [done|]. split; [done|]. split; [by apply Hh|]. intros tid tr Ht.
  destruct (g_t_consumers _ _ _ _ _ G tid tr Ht) as (A & B & C); [done|].
  split; [|split].
  - intros id (_ & co' & E & ? & ?)%A. by simplify_eq.
  - intros s (_ & co' & E & ? & ?)%B. by simplify_eq.
  - intros s (_ & co' & E & ? & ?)%C. by simplify_eq.
Qed.

Lemma forget_fewer tr co c :
  t_mapConsumers tr !! c_id co = Some c ->
  (forall id, t_mapConsumers tr !! id = Some c -> id = c_id co) ->
  (forall s, t_mapSsrcConsumer tr !! s = Some c -> s ∈ c_mediaSsrcs co) ->
  (forall s, t_mapRtxSsrcConsumer tr !! s = Some c -> s ∈ c_rtxSsrcs co) ->
  fewer [c] tr (forget_consumer tr co).
Proof.
  intros Hc Hid Hs Hr. split; [done|done|..]; cbn.
  - intros id b. rewrite delete_lookup, list_elem_of_singleton. destruct (decide (id = c_id co)) as [->|Hn].
    + rewrite Hc. split; [done|]. by intros [[= ->] []].
    + split; [|tauto]. intros E. split; [done|]. intros ->. by apply Hn, Hid.
  - intros s b. rewrite erase_ssrcs_lookup, list_elem_of_singleton. destruct (decide _) as [|Hn]; [done|].
    intros E. split; [done|]. intros ->. by apply Hn, Hs.
  - intros s b. rewrite erase_ssrcs_lookup, list_elem_of_singleton. destruct (decide _) as [|Hn]; [done|].
    intros E. split; [done|]. intros ->. by apply Hn, Hr.
Qed.

(** A transport that does not know the consumer. *)
Lemma fewer_stranger tr c :
  (forall id, t_mapConsumers tr !! id <> Some c) -> (forall s, t_mapSsrcConsumer tr !! s <> Some c) ->
  (forall s, t_mapRtxSsrcConsumer tr !! s <> Some c) -> fewer [c] tr tr.
Proof.
  intros A B C. split; [done|done|..].
  - intros id b. rewrite list_elem_of_singleton. split; [|tauto]. intros E. split; [done|]. intros ->. by apply (A id).
  - intros s b E. rewrite list_elem_of_singleton. split; [done|]. intros ->. by apply (B s).
  - intros s b E. rewrite list_elem_of_singleton. split; [done|]. intros ->. by apply (C s).
Qed.

(** The tables of its transport have forgotten the consumer. *)
Lemma forget_transports w c co tr :
  consumers w !! c = Some co -> well_placed w c -> mapTransports w !! c_transport co = Some tr ->
  forall tid, match mapTransports w !! tid, mapTransports (set_transport w (c_transport co) (forget_consumer tr co)) !! tid with
              | Some tr, Some tr' => fewer [c] tr tr'
              | None, None => True
              | _, _ => False
              end.
Proof.
  intros Hc (co' & Hc' & _ & (tr' & Ht' & Hid) & Hall) Ht tid.
  assert (co' = co) as -> by congruence. assert (tr' = tr) as -> by congruence. cbn. rewrite insert_lookup.
  destruct (decide (tid = c_transport co)) as [->|Hn].
  - rewrite Ht. destruct (Hall _ _ Ht) as (A & B & C).
    apply (forget_fewer tr co c); [done|..]; intros ? H; [by apply A in H as [_ ?]|by apply B in H as [_ ?]|by apply C in H as [_ ?]].
  - destruct (mapTransports w !! tid) as [tr'|] eqn:E; [|done]. destruct (Hall _ _ E) as (A & B & C).
    apply fewer_stranger; intros ? H; [by apply A in H as []|by apply B in H as []|by apply C in H as []].
Qed.

Lemma consumer_gone w c : well_placed w c ->
  exists w', ConsumerProducerClosed w c = Ok w' /\ without [c] w w'.
Proof.
  intros Hw. pose proof Hw as (co & Hc & [a Hl] & (tr & Ht & Hid) & _).
  unfold ConsumerProducerClosed, OnConsumerProducerClosed, OnTransportConsumerProducerClosed, delete_consumer.
  rewrite (deref_Ok _ _ _ Hc). ostep. rewrite (deref_Ok _ _ _ Ht). ostep.
  cbn [mapConsumerProducer set_transport set_mapTransports]. rewrite (present_Ok _ _ _ Hl). ostep.
  cbn [consumers set_mapConsumerProducer set_mapTransports set_transport]. rewrite (deref_Ok _ _ _ Hc). ostep.
  eexists. split; [done|]. split; [done|..].
  - intros b. cbn. rewrite delete_lookup. destruct (decide (b = c)) as [->|Hn].
    + by rewrite decide_True by by apply list_elem_of_singleton.
    + by rewrite decide_False by by rewrite list_elem_of_singleton.
  - intros b. cbn. rewrite delete_lookup. destruct (decide (b = c)) as [->|Hn].
    + by rewrite decide_True by by apply list_elem_of_singleton.
    + by rewrite decide_False by by rewrite list_elem_of_singleton.
  - exact (forget_transports w c co tr Hc Hw Ht).
Qed.

Lemma well_placed_without w w' l c : without l w w' -> c ∉ l -> well_placed w c -> well_placed w' c.
Proof.
  intros [S C K T] Hn (co & Hc & Hl & (tr & Ht & Hid) & Hall). exists co.
  rewrite C, K, !decide_False by done. split; [done|]. split; [done|].
  pose proof (T (c_transport co)) as T1. rewrite Ht in T1.
  destruct (mapTransports w' !! c_transport co) as [tr'|] eqn:E; [|done]. split.
  - exists tr'. split; [done|]. by apply (fw_consumers _ _ _ T1).
  - intros tid t2 Et. pose proof (T tid) as T2. rewrite Et in T2.
    destruct (mapTransports w !! tid) as [t1|] eqn:E1; [|done]. destruct (Hall tid t1 E1) as (A1 & A2 & A3).
    split; [|split].
    + intros id H. apply (fw_consumers _ _ _ T2) in H as [H _]. by apply A1.
    + intros s H. apply (fw_ssrcs _ _ _ T2) in H as [H _]. by apply A2.
    + intros s H. apply (fw_rtx _ _ _ T2) in H as [H _]. by apply A3.
Qed.

Lemma consumers_gone a l : forall w, NoDup l -> (forall c, c ∈ l -> well_placed w c) ->
  exists w', for_each_in (fun w => mapProducerConsumers w !! a) ConsumerProducerClosed l w = Ok w' /\ without l w w'.
Proof.
  induction l as [|c l IH]; intros w Hnd Hall; cbn [for_each_in].
  { exists w. split; [done|apply without_nil]. }
  apply NoDup_cons in Hnd as [Hc Hnd].
  destruct (consumer_gone w c) as (w1 & -> & W1); [apply Hall; left|]. ostep.
  destruct (wo_same _ _ _ W1) as (_ & _ & -> & _). rewrite bool_decide_true by done. ostep.
  destruct (IH w1 Hnd) as (w2 & -> & W2).
  { intros b Hb. apply (well_placed_without w w1 [c]); [done| |apply Hall; by right].
    rewrite list_elem_of_singleton. by intros ->. }
  exists w2. split; [done|]. by apply (without_trans [c] l w w1 w2).
Qed.

(** * Loops over the observers *)

(** One of the objects changes. *)
Definition with_observers (w : router) (f : addr -> observer -> observer) (l : list addr) (w' : router) : Prop :=
  w' = set_observers w (observers w') /\
  forall o, observers w' !! o = if decide (o ∈ l) then f o <$> observers w !! o else observers w !! o.

Lemma observers_loop (P : observer -> Prop) (C : router -> option (gset addr))
    (g : router -> addr -> outcome router) f l :
  (forall w x, C (set_observers w x) = C w) ->
  (forall w o ob, observers w !! o = Some ob -> P ob -> g w o = Ok (set_observer w o (f o ob))) ->
  forall w, NoDup l -> (forall o, o ∈ l -> exists ob, observers w !! o = Some ob /\ P ob) ->
  exists w', for_each_in C g l w = Ok w' /\ with_observers w f l w'.
Proof.
  intros HC Hg. induction l as [|o l IH]; intros w Hnd Hall; cbn [for_each_in].
  { exists w. split; [done|]. split; [by destruct w|]. intros b. by rewrite decide_False by apply not_elem_of_nil. }
  apply NoDup_cons in Hnd as [Ho Hnd]. destruct (Hall o) as (ob & Hob & HP); [left|].
  rewrite (Hg w o ob Hob HP). ostep.
  assert (C (set_observer w o (f o ob)) = C w) as -> by apply HC. rewrite bool_decide_true by done. ostep.
  destruct (IH (set_observer w o (f o ob)) Hnd) as (w2 & -> & E2 & H2).
  { intros b Hb. cbn. rewrite insert_lookup, decide_False by by intros ->. apply Hall. by right. }
  exists w2. split; [done|]. split; [by rewrite E2|]. intros b. rewrite H2. cbn. rewrite insert_lookup.
  destruct (decide (b = o)) as [->|Hn].
  - rewrite decide_False, (decide_True (P := o ∈ o :: l)), Hob by (done || by left). done.
  - destruct (decide (b ∈ l)) as [Hb|Hb].
    + by rewrite decide_True by (by right).
    + rewrite decide_False; [done|]. by intros [?|?]%elem_of_cons.
Qed.

(** * A producer goes *)

Definition drop_producer (a : addr) (ob : observer) : observer :=
  set_o_levels ob (levels_RemoveProducer (o_levels ob) a).

Lemma o_producers_drop a ob : o_producers (drop_producer a ob) = o_producers ob ∖ {[ a ]}.
Proof. apply dom_delete_L. Qed.

Lemma drop_absent a ob : a ∉ o_producers ob -> drop_producer a ob = ob.
Proof.
  unfold o_producers. intros Hn%not_elem_of_dom. unfold drop_producer, levels_RemoveProducer. rewrite delete_id by done.
  destruct ob as [i []]. done.
Qed.

(** [w'] is [w] without the producer [a] and its consumers. *)
Record producer_gone (a : addr) (p : producer) (w w' : router) : Prop := {
  pg_producers : producers w' = delete a (producers w);
  pg_mapProducers : mapProducers w' = delete (p_id p) (mapProducers w);
  pg_consumers_of : mapProducerConsumers w' = delete a (mapProducerConsumers w);
  pg_observers_of : mapProducerRtpObservers w' = delete a (mapProducerRtpObservers w);
  pg_mapRtpObservers : mapRtpObservers w' = mapRtpObservers w;
  pg_consumers : forall c, consumers w' !! c =
    if decide (mapConsumerProducer w !! c = Some a) then None else consumers w !! c;
  pg_links : forall c, mapConsumerProducer w' !! c =
    if decide (mapConsumerProducer w !! c = Some a) then None else mapConsumerProducer w !! c;
  pg_observers : forall o, observers w' !! o = drop_producer a <$> observers w !! o;
  pg_transports : forall tid, match mapTransports w !! tid, mapTransports w' !! tid with
    | Some tr, Some tr' => exists l, (forall c, c ∈ l <-> mapConsumerProducer w !! c = Some a) /\ fewer l tr tr'
    | None, None => True
    | _, _ => False
    end
}.

Lemma producer_closes cp sp w a p : graph cp None sp None w -> producers w !! a = Some p ->
  exists w1 w2, OnTransportProducerClosed w a = Ok w1 /\ delete_producer w1 a = Ok w2 /\ producer_gone a p w w2.
Proof.
  intros G Ha. destruct (g_producer _ _ _ _ _ G a p Ha) as (Hid & [s Hs] & [os Hos]).
  destruct (g_consumers_of _ _ _ _ _ G a s Hs) as [_ Hc]. destruct (g_observers_of _ _ _ _ _ G a os Hos) as [_ Ho].
  unfold OnTransportProducerClosed. rewrite (deref_Ok _ _ _ Ha). ostep.
  rewrite (present_Ok _ _ _ Hs). ostep. rewrite (present_Ok _ _ _ Hid). ostep.
  rewrite (present_Ok _ _ _ Hos). ostep.
  assert (Hmem : forall c, c ∈ elements s <-> mapConsumerProducer w !! c = Some a).
  { intros c. rewrite elem_of_elements. split; [apply Hc|]. intros Hl.
    destruct (g_producer_of _ _ _ _ _ G c a Hl) as (_ & s' & E & ?). congruence. }
  destruct (consumers_gone a (elements s) w) as (w1 & -> & W1); [apply NoDup_elements| |].
  { intros c Hin. apply (graph_well_placed cp sp); [done|]. apply Hmem in Hin.
    by apply (g_producer_of _ _ _ _ _ G) in Hin as [? _]. }
  ostep. destruct W1 as [(E1 & E2 & E3 & E4 & E5 & E6) C K T].
  destruct (observers_loop (fun _ => True) (fun w => mapProducerRtpObservers w !! a) (fun w o => ObserverRemoveProducer w o a)
              (fun _ => drop_producer a) (elements os)) with (w := w1) as (w2 & -> & Ew2 & O2).
  - done.
  - intros w' o ob Hob _. unfold ObserverRemoveProducer. by rewrite (deref_Ok _ _ _ Hob).
  - apply NoDup_elements.
  - intros o Hin%elem_of_elements. rewrite E5. destruct (Ho o Hin) as (ob & ? & _). by exists ob.
  - ostep. unfold delete_producer. rewrite Ew2. eexists _, _. split; [done|].
    cbn [producers set_mapProducerRtpObservers set_mapProducerConsumers set_mapProducers set_observers].
    rewrite E1, (deref_Ok _ _ _ Ha). ostep. split; [done|]. split; cbn; try congruence.
    + intros c. rewrite C. destruct (decide (c ∈ elements s)) as [H|H], (decide (_ = Some a)) as [H'|H']; try done;
        [by destruct H'; apply Hmem|by destruct H; apply Hmem].
    + intros c. rewrite K. destruct (decide (c ∈ elements s)) as [H|H], (decide (_ = Some a)) as [H'|H']; try done;
        [by destruct H'; apply Hmem|by destruct H; apply Hmem].
    + intros o. rewrite O2, E5. destruct (decide (o ∈ elements os)) as [H|H]; [done|].
      destruct (observers w !! o) as [ob|] eqn:Hob; [|done]. cbn. f_equal. rewrite drop_absent; [done|]. intros Hin.
      destruct (g_observer _ _ _ _ _ G o ob Hob) as [_ Hobs]. destruct (Hobs a Hin) as (s' & E & ?).
      apply H, elem_of_elements. congruence.
    + intros tid. specialize (T tid). destruct (mapTransports w !! tid), (mapTransports w1 !! tid); try done.
      by exists (elements s).
Qed.

Lemma producer_gone_transport a p w w' tid tr' : producer_gone a p w w' -> mapTransports w' !! tid = Some tr' ->
  exists tr l, mapTransports w !! tid = Some tr /\ (forall c, c ∈ l <-> mapConsumerProducer w !! c = Some a) /\
    fewer l tr tr'.
Proof.
  intros Hg Ht. pose proof (pg_transports _ _ _ _ Hg tid) as T. rewrite Ht in T.
  destruct (mapTransports w !! tid) as [tr|]; [|done]. destruct T as (l & Hl & Hf). by exists tr, l.
Qed.

Lemma producer_gone_transport' a p w w' tid tr : producer_gone a p w w' -> mapTransports w !! tid = Some tr ->
  exists tr' l, mapTransports w' !! tid = Some tr' /\ (forall c, c ∈ l <-> mapConsumerProducer w !! c = Some a) /\
    fewer l tr tr'.
Proof.
  intros Hg Ht. pose proof (pg_transports _ _ _ _ Hg tid) as T. rewrite Ht in T.
  destruct (mapTransports w' !! tid) as [tr'|]; [|done]. destruct T as (l & Hl & Hf). by exists tr', l.
Qed.

Lemma producer_gone_graph cp sp w w' a p : graph cp None sp None w -> cp = None \/ cp = Some a ->
  (cp = None -> sp = Some (p_transport p)) -> producers w !! a = Some p -> producer_gone a p w w' ->
  graph None None sp None w'.
Proof.
  intros G Hcp Hsp Ha Hg. pose proof Hg as [E1 E2 E3 E4 E6 C K O T].
  destruct (g_producer _ _ _ _ _ G a p Ha) as (Hid & _ & _).
  split.
  - intros b p' Hb. rewrite E1, delete_lookup in Hb. destruct (decide (b = a)) as [|Hn]; [done|].
    destruct (g_producer _ _ _ _ _ G b p' Hb) as (Hid' & H1 & H2).
    rewrite E2, E3, E4, !delete_lookup, !(decide_False (P := b = a)) by done.
    rewrite decide_False by congruence. done.
  - intros b p' Hb _. rewrite E1, delete_lookup in Hb. destruct (decide (b = a)) as [|Hn]; [done|].
    destruct (g_in_transport _ _ _ _ _ G b p' Hb) as (tr & Ht & Hin); [naive_solver|].
    destruct (producer_gone_transport' a p w w' _ _ Hg Ht) as (tr' & l & Ht' & _ & Hf).
    exists tr'. split; [done|]. by rewrite (fw_producers _ _ _ Hf).
  - intros id b Hb. rewrite E2, delete_lookup in Hb. destruct (decide _) as [|Hn]; [done|].
    destruct (g_mapProducers _ _ _ _ _ G id b Hb) as (p' & Hp' & Hid').
    exists p'. rewrite E1, delete_lookup, decide_False by congruence. done.
  - intros b s Hb. rewrite E3, delete_lookup in Hb. destruct (decide _) as [|Hn]; [done|].
    destruct (g_consumers_of _ _ _ _ _ G b s Hb) as [Hp Hc]. rewrite E1, delete_lookup, decide_False by done.
    split; [done|]. intros c Hin. rewrite K, decide_False by (rewrite (Hc c Hin); congruence). by apply Hc.
  - intros c b Hb. rewrite K in Hb. destruct (decide _) as [|Hn]; [done|].
    destruct (g_producer_of _ _ _ _ _ G c b Hb) as (Hc & s & Hs & Hin).
    rewrite C, decide_False by done. split; [done|]. exists s.
    rewrite E3, delete_lookup, decide_False by congruence. done.
  - intros c co Hc. rewrite C in Hc. destruct (decide _) as [|Hn]; [done|].
    destruct (g_consumer _ _ _ _ _ G c co Hc) as [Hl Hh]. rewrite K, decide_False by done. split; [done|].
    intros _. destruct Hh as (tr & Ht & Hin); [done|].
    destruct (producer_gone_transport' a p w w' _ _ Hg Ht) as (tr' & l & Ht' & Hl' & Hf).
    exists tr'. split; [done|]. apply (fw_consumers _ _ _ Hf). by rewrite Hl'.
  - intros tid tr' Ht' Hsp'.
    destruct (producer_gone_transport a p w w' tid tr' Hg Ht') as (tr & l & Ht & _ & Hf).
    destruct (g_t_producers _ _ _ _ _ G tid tr Ht Hsp') as [A B].
    rewrite (fw_producers _ _ _ Hf), (fw_listener _ _ _ Hf).
    assert (forall b, (cp <> Some b /\ exists p', producers w !! b = Some p' /\ p_transport p' = tid) -> b <> a) as Hne.
    { intros b (Hcb & p' & Hp' & Htid) ->. destruct Hcp as [-> | ->]; [|done]. rewrite Hsp in Hsp' by done.
      congruence. }
    split.
    + intros id b Hb. destruct (A id b Hb) as (Hcb & p' & Hp' & Hpid & Htid). split; [done|]. exists p'.
      rewrite E1, delete_lookup, decide_False; [done|]. apply Hne. split; [done|]. by exists p'.
    + intros b Hb. destruct (B b Hb) as (Hcb & p' & Hp' & Htid). split; [done|]. exists p'.
      rewrite E1, delete_lookup, decide_False; [done|]. apply Hne. split; [done|]. by exists p'.
  - intros tid tr' Ht' _.
    destruct (producer_gone_transport a p w w' tid tr' Hg Ht') as (tr & l & Ht & Hl & Hf).
    destruct (g_t_consumers _ _ _ _ _ G tid tr Ht) as (A & B & D); [done|]. split; [|split].
    + intros id c H. apply (fw_consumers _ _ _ Hf) in H as [H Hn]. rewrite Hl in Hn.
      rewrite C, decide_False by done. by apply A.
    + intros s c H. apply (fw_ssrcs _ _ _ Hf) in H as [H Hn]. rewrite Hl in Hn.
      rewrite C, decide_False by done. by apply B.
    + intros s c H. apply (fw_rtx _ _ _ Hf) in H as [H Hn]. rewrite Hl in Hn.
      rewrite C, decide_False by done. by apply D.
  - intros oid o Ho. rewrite E6 in Ho. destruct (g_mapRtpObservers _ _ _ _ _ G oid o Ho) as (ob & Hob & Hoid).
    exists (drop_producer a ob). by rewrite O, Hob.
  - intros o ob' Ho. rewrite O in Ho. destruct (observers w !! o) as [ob|] eqn:Hob; [|done].
    injection Ho as <-. destruct (g_observer _ _ _ _ _ G o ob Hob) as [Hm Hin]. rewrite E6. split; [done|].
    intros b. rewrite o_producers_drop, elem_of_difference, elem_of_singleton. intros [Hb Hn].
    rewrite E4, delete_lookup, decide_False by done. by apply Hin.
  - intros b s Hb. rewrite E4, delete_lookup in Hb. destruct (decide _) as [|Hn]; [done|].
    destruct (g_observers_of _ _ _ _ _ G b s Hb) as [Hp Ho]. rewrite E1, delete_lookup, decide_False by done.
    split; [done|]. intros o Hin. destruct (Ho o Hin) as (ob & Hob & Hpa). exists (drop_producer a ob).
    rewrite O, Hob. split; [done|]. intros p' Hp' Hpp. rewrite o_producers_drop, elem_of_difference, elem_of_singleton.
    split; [by apply (Hpa p')|done].
  - intros c b co p' Hl Hc Hb. rewrite K in Hl. destruct (decide _) as [|Hn]; [done|].
    rewrite C, decide_False in Hc by done. rewrite E1, delete_lookup in Hb. destruct (decide (b = a)); [done|].
    by apply (g_paused _ _ _ _ _ G c b).
Qed.

(** * A consumer goes *)

Lemma consumer_closes cc sp sc w c co : graph None cc sp sc w -> consumers w !! c = Some co ->
  exists w1 w2 a s, OnTransportConsumerClosed w c = Ok w1 /\ delete_consumer w1 c = Ok w2 /\
    mapConsumerProducer w !! c = Some a /\ mapProducerConsumers w !! a = Some s /\
    w2 = Router (producers w) (delete c (consumers w)) (observers w) (mapTransports w) (mapRtpObservers w)
           (<[a := s ∖ {[ c ]}]> (mapProducerConsumers w)) (delete c (mapConsumerProducer w))
           (mapProducerRtpObservers w) (mapProducers w).
Proof.
  intros G Hc. destruct (g_consumer _ _ _ _ _ G c co Hc) as [[a Hl] _].
  destruct (g_producer_of _ _ _ _ _ G c a Hl) as (_ & s & Hs & _).
  unfold OnTransportConsumerClosed. rewrite (present_Ok _ _ _ Hl). ostep. rewrite (present_Ok _ _ _ Hs). ostep.
  eexists _, _, a, s. split; [done|]. unfold delete_consumer.
  cbn [consumers set_mapConsumerProducer set_mapProducerConsumers]. rewrite (deref_Ok _ _ _ Hc). ostep. done.
Qed.

Lemma consumer_gone_graph cc sp sc w c co a s : graph None cc sp sc w -> cc = None \/ cc = Some c ->
  (cc = None -> sc = Some (c_transport co)) -> consumers w !! c = Some co ->
  mapConsumerProducer w !! c = Some a -> mapProducerConsumers w !! a = Some s ->
  graph None None sp sc (Router (producers w) (delete c (consumers w)) (observers w) (mapTransports w)
    (mapRtpObservers w) (<[a := s ∖ {[ c ]}]> (mapProducerConsumers w)) (delete c (mapConsumerProducer w))
    (mapProducerRtpObservers w) (mapProducers w)).
Proof.
  intros G Hcc Hsc Hc Hl Hs. pose proof (g_consumers_of _ _ _ _ _ G a s Hs) as [Ha Hall].
  split; cbn [producers consumers observers mapTransports mapRtpObservers mapProducerConsumers mapConsumerProducer
    mapProducerRtpObservers mapProducers].
  - intros b p Hb. destruct (g_producer _ _ _ _ _ G b p Hb) as (H1 & H2 & H3). split; [done|]. split; [|done].
    rewrite insert_lookup. destruct (decide _); [by eexists|done].
  - apply (g_in_transport _ _ _ _ _ G).
  - apply (g_mapProducers _ _ _ _ _ G).
  - intros b t. rewrite insert_lookup. destruct (decide (b = a)) as [->|Hn].
    + intros [= <-]. split; [done|]. intros d [Hd Hdc]%elem_of_difference. rewrite elem_of_singleton in Hdc.
      rewrite delete_lookup, decide_False by done. by apply Hall.
    + intros Hb. destruct (g_consumers_of _ _ _ _ _ G b t Hb) as [H1 H2]. split; [done|].
      intros d Hd. rewrite delete_lookup, decide_False; [by apply H2|]. intros ->. apply H2 in Hd. congruence.
  - intros d b. rewrite !delete_lookup. destruct (decide (d = c)) as [|Hn]; [done|]. intros Hd.
    destruct (g_producer_of _ _ _ _ _ G d b Hd) as (H1 & t & Ht & Hin). split; [done|].
    rewrite insert_lookup. destruct (decide (b = a)) as [->|]; [|by exists t].
    exists (s ∖ {[ c ]}). split; [done|]. assert (t = s) as -> by congruence. set_solver.
  - intros d co'. rewrite !delete_lookup. destruct (decide (d = c)) as [|Hn]; [done|]. intros Hd.
    destruct (g_consumer _ _ _ _ _ G d co' Hd) as [H1 H2]. split; [done|]. intros _. apply H2. naive_solver.
  - apply (g_t_producers _ _ _ _ _ G).
  - intros tid tr Ht Hn. destruct (g_t_consumers _ _ _ _ _ G tid tr Ht Hn) as (A & B & D).
    assert (Hne : forall d, cc <> Some d -> (exists co', consumers w !! d = Some co' /\ c_transport co' = tid) -> d <> c).
    { intros d Hd (co' & Hco' & Htid) ->. destruct Hcc as [-> | ->]; [|done]. rewrite Hsc in Hn by done. congruence. }
    split; [|split].
    + intros id d (Hd & co' & E & ? & ?)%A. split; [done|]. exists co'.
      rewrite delete_lookup, decide_False; [done|]. apply Hne; [done|]. by exists co'.
    + intros id d (Hd & co' & E & ? & ?)%B. split; [done|]. exists co'.
      rewrite delete_lookup, decide_False; [done|]. apply Hne; [done|]. by exists co'.
    + intros id d (Hd & co' & E & ? & ?)%D. split; [done|]. exists co'.
      rewrite delete_lookup, decide_False; [done|]. apply Hne; [done|]. by exists co'.
  - apply (g_mapRtpObservers _ _ _ _ _ G).
  - apply (g_observer _ _ _ _ _ G).
  - apply (g_observers_of _ _ _ _ _ G).
  - intros d b co' p. rewrite !delete_lookup. destruct (decide _); [done|]. apply (g_paused _ _ _ _ _ G).
Qed.

(** * The tables of one transport change *)

(** What the tables of producers of a transport may say. *)
Definition producers_told (cp : option addr) (w : router) (tid : string) (tr : transport) : Prop :=
  (forall id a, t_mapProducers tr !! id = Some a ->
     cp <> Some a /\ exists p, producers w !! a = Some p /\ p_id p = id /\ p_transport p = tid) /\
  (forall a, pointed (t_rtpListener tr) a ->
     cp <> Some a /\ exists p, producers w !! a = Some p /\ p_transport p = tid).

Definition consumers_told (cc : option addr) (w : router) (tid : string) (tr : transport) : Prop :=
  (forall id c, t_mapConsumers tr !! id = Some c ->
     cc <> Some c /\ exists co, consumers w !! c = Some co /\ c_id co = id /\ c_transport co = tid) /\
  (forall s c, t_mapSsrcConsumer tr !! s = Some c ->
     cc <> Some c /\ exists co, consumers w !! c = Some co /\ c_transport co = tid /\ s ∈ c_mediaSsrcs co) /\
  (forall s c, t_mapRtxSsrcConsumer tr !! s = Some c ->
     cc <> Some c /\ exists co, consumers w !! c = Some co /\ c_transport co = tid /\ s ∈ c_rtxSsrcs co).

(** The objects being closed or opened are of this transport. *)
Definition of_transport (w : router) (tid : string) (cp cc : option addr) : Prop :=
  (forall a p, producers w !! a = Some p -> cp = Some a -> p_transport p = tid) /\
  (forall c co, consumers w !! c = Some co -> cc = Some c -> c_transport co = tid).

Lemma graph_transport cp cc cp' cc' sp sc w tid tr :
  graph cp cc sp sc w -> of_transport w tid cp cc -> of_transport w tid cp' cc' ->
  (forall a p, producers w !! a = Some p -> cp' <> Some a -> p_transport p = tid ->
     t_mapProducers tr !! p_id p = Some a) ->
  (forall c co, consumers w !! c = Some co -> cc' <> Some c -> c_transport co = tid ->
     t_mapConsumers tr !! c_id co = Some c) ->
  (sp <> Some tid -> producers_told cp' w tid tr) -> (sc <> Some tid -> consumers_told cc' w tid tr) ->
  graph cp' cc' sp sc (set_transport w tid tr).
Proof.
  intros G [Op Oc] [Op' Oc'] Hp Hc Tp Tc.
  assert (Hother : forall t, t <> tid -> mapTransports (set_transport w tid tr) !! t = mapTransports w !! t).
  { intros t Ht. cbn. rewrite insert_lookup. by rewrite decide_False. }
  assert (Hthis : mapTransports (set_transport w tid tr) !! tid = Some tr) by (cbn; apply lookup_insert_eq).
  split; try apply G; try done.
  - intros a p Ha Hcp. destruct (decide (p_transport p = tid)) as [Et|Hn].
    + exists tr. rewrite Et. split; [done|by apply Hp].
    + destruct (g_in_transport _ _ _ _ _ G a p Ha) as (t & Ht & Hin); [intros ->; by apply Hn, (Op a)|].
      exists t. by rewrite Hother.
  - intros c co Hco. destruct (g_consumer _ _ _ _ _ G c co Hco) as [Hl Hh]. split; [done|]. intros Hcc.
    destruct (decide (c_transport co = tid)) as [Et|Hn].
    + exists tr. rewrite Et. split; [done|by apply Hc].
    + destruct Hh as (t & Ht & Hin); [intros ->; by apply Hn, (Oc c)|]. exists t. by rewrite Hother.
  - intros t tr' Ht Hsp. destruct (decide (t = tid)) as [->|Hn].
    { rewrite Hthis in Ht. injection Ht as <-. by apply Tp. }
    rewrite Hother in Ht by done. destruct (g_t_producers _ _ _ _ _ G t tr' Ht Hsp) as [A B]. split.
    + intros id a H. apply A in H as (_ & p & E & Eid & Et). split; [|by exists p].
      intros ->. apply Hn. rewrite <- Et. by apply (Op' a).
    + intros a H. apply B in H as (_ & p & E & Et). split; [|by exists p].
      intros ->. apply Hn. rewrite <- Et. by apply (Op' a).
  - intros t tr' Ht Hsc. destruct (decide (t = tid)) as [->|Hn].
    { rewrite Hthis in Ht. injection Ht as <-. by apply Tc. }
    rewrite Hother in Ht by done. destruct (g_t_consumers _ _ _ _ _ G t tr' Ht Hsc) as (A & B & C).
    split; [|split].
    + intros id c H. apply A in H as (_ & co & E & Eid & Et). split; [|by exists co].
      intros ->. apply Hn. rewrite <- Et. by apply (Oc' c).
    + intros id c H. apply B in H as (_ & co & E & Et & Es). split; [|by exists co].
      intros ->. apply Hn. rewrite <- Et. by apply (Oc' c).
    + intros id c H. apply C in H as (_ & co & E & Et & Es). split; [|by exists co].
      intros ->. apply Hn. rewrite <- Et. by apply (Oc' c).
Qed.

Lemma of_transport_none w tid : of_transport w tid None None.
Proof. by split. Qed.

(** The answers to requests: the objects stay tied together, and a request that is
    refused changes nothing. *)
Definition answered (w : router) (m : outcome reply) : Prop :=
  m = Err Thrown \/ exists w' b, m = Ok (w', b) /\ graph_ok w' /\ (b = false -> w' = w).

Lemma answered_Ok w w' : graph_ok w' -> answered w (Ok (w', true)).
Proof. intros H. right. by exists w', true. Qed.

Lemma answered_refused w b : graph_ok w -> answered w (Ok (w, b)).
Proof. intros H. right. by exists w, b. Qed.

Lemma answered_found {A} w (m : gmap string A) id (f : A -> outcome reply) :
  (forall x, m !! id = Some x -> answered w (f x)) -> answered w (x ← found m id; f x).
Proof. intros H. unfold found. destruct (m !! id) as [x|] eqn:E; [by apply H|by left]. Qed.

Lemma answered_new {A} w (m : gmap string A) id (f : unit -> outcome reply) :
  (m !! id = None -> answered w (f ())) -> answered w (x ← is_new m id; f x).
Proof. intros H. unfold is_new. destruct (m !! id) eqn:E; [by left|by apply H]. Qed.

(** * Transports *)

Section steps.
Context (w : router) (G : graph_ok w).

Lemma create_transport tid ok : answered w (RouterCreateTransport w tid ok).
Proof.
  apply answered_new. intros Hn. destruct ok; [|by left]. ostep. apply answered_Ok.
  apply (graph_transport None None None None None None); try done.
  - intros a p Ha _ Ht. destruct (g_in_transport _ _ _ _ _ G a p Ha) as (tr & E & _); [done|]. congruence.
  - intros c co Hc _ Ht. destruct (g_consumer _ _ _ _ _ G c co Hc) as [_ Hh]. destruct Hh as (tr & E & _); [done|].
    congruence.
  - intros _. split; intros *; cbn; [by rewrite lookup_empty|].
    intros [[k E]|[[k E]|[k E]]]; cbn in E; by rewrite lookup_empty in E.
Qed.

(** * Producers *)

(** The producer [a] of the transport [tid], without its entry in the tables. *)
Definition close_tables (tr : transport) (a : addr) (pid : string) : transport :=
  set_t_mapProducers (set_t_rtpListener tr (RemoveProducer (t_rtpListener tr) a)) (delete pid (t_mapProducers tr)).

Lemma close_tables_graph tid tr pid a p :
  mapTransports w !! tid = Some tr -> t_mapProducers tr !! pid = Some a ->
  producers w !! a = Some p -> p_id p = pid -> p_transport p = tid ->
  graph (Some a) None None None (set_transport w tid (close_tables tr a pid)).
Proof.
  intros Ht Ha Hp Hid Htid. destruct (g_t_producers _ _ _ _ _ G tid tr Ht) as [A B]; [done|].
  apply (graph_transport None None (Some a) None None None).
  - done.
  - apply of_transport_none.
  - split; [|done]. intros b q Hb [= <-]. congruence.
  - intros b q Hb Hne Hbt. cbn. rewrite delete_lookup.
    destruct (g_in_transport _ _ _ _ _ G b q Hb) as (tr' & Ht' & Hin); [done|]. rewrite Hbt in Ht'.
    assert (tr' = tr) as -> by congruence. rewrite decide_False; [done|]. intros E. congruence.
  - intros c co Hc _ Hct. destruct (g_consumer _ _ _ _ _ G c co Hc) as [_ Hh].
    destruct Hh as (tr' & Ht' & Hin); [done|]. rewrite Hct in Ht'. by assert (tr' = tr) as -> by congruence.
  - intros _. split; cbn.
    + intros id b. rewrite delete_lookup. destruct (decide (id = pid)) as [|Hn]; [done|]. intros H.
      apply A in H as (_ & q & Hq & Hqid & Hqt). split; [|by exists q]. intros [= ->]. congruence.
    + intros b Hb. assert (b <> a) as Hn by (intros ->; by eapply RemoveProducer_gone).
      split; [congruence|]. apply (pointed_same a b (t_rtpListener tr) _ (RemoveProducer_same _ _) Hn) in Hb. by apply B in Hb as [_ ?].
  - intros _. apply (g_t_consumers _ _ _ _ _ G tid tr Ht). done.
Qed.

Lemma producer_close tid pid : answered w (ProducerClose w tid pid).
Proof.
  apply answered_found. intros tr Ht. apply answered_found. intros a Ha.
  destruct (g_t_producers _ _ _ _ _ G tid tr Ht) as [A _]; [done|].
  destruct (A pid a Ha) as (_ & p & Hp & Hid & Htid). rewrite (deref_Ok _ _ _ Hp). ostep. rewrite Hid.
  pose proof (close_tables_graph tid tr pid a p Ht Ha Hp Hid Htid) as G1. unfold close_tables in G1.
  set (w1 := set_transport w tid _) in *.
  destruct (producer_closes (Some a) None w1 a p G1 Hp) as (w2 & w3 & -> & E & Hg). ostep. rewrite E. ostep.
  apply answered_Ok. apply (producer_gone_graph (Some a) None w1 w3 a p); try done. by right.
Qed.

(** A new producer, but for its transport. *)
Definition with_producer (a : addr) (p : producer) : router :=
  Router (<[a := p]> (producers w)) (consumers w) (observers w) (mapTransports w) (mapRtpObservers w)
    (<[a := ∅]> (mapProducerConsumers w)) (mapConsumerProducer w) (<[a := ∅]> (mapProducerRtpObservers w))
    (<[p_id p := a]> (mapProducers w)).

Lemma free_producer a : producers w !! a = None ->
  mapProducerConsumers w !! a = None /\ mapProducerRtpObservers w !! a = None /\
  (forall id, mapProducers w !! id <> Some a) /\
  (forall tid tr, mapTransports w !! tid = Some tr -> ~ pointed (t_rtpListener tr) a) /\
  (forall c, mapConsumerProducer w !! c <> Some a).
Proof.
  intros Ha.
  assert (mapProducerConsumers w !! a = None) as Hpc.
  { destruct (mapProducerConsumers w !! a) as [s|] eqn:E; [|done].
    apply (g_consumers_of _ _ _ _ _ G) in E as [[p Hp] _]. congruence. }
  split; [done|]. split; [|split; [|split]].
  - destruct (mapProducerRtpObservers w !! a) as [s|] eqn:E; [|done].
    apply (g_observers_of _ _ _ _ _ G) in E as [[p Hp] _]. congruence.
  - intros id E. apply (g_mapProducers _ _ _ _ _ G) in E as (p & Hp & _). congruence.
  - intros tid tr Ht Hp. destruct (g_t_producers _ _ _ _ _ G tid tr Ht) as [_ B]; [done|].
    apply B in Hp as (_ & p & Hp & _). congruence.
  - intros c E. apply (g_producer_of _ _ _ _ _ G) in E as (_ & s & Hs & _). congruence.
Qed.

Lemma with_producer_graph a p : producers w !! a = None -> mapProducers w !! p_id p = None ->
  graph (Some a) None None None (with_producer a p).
Proof.
  intros Ha Hid. destruct (free_producer a Ha) as (F1 & F2 & F3 & F4 & F5).
  assert (Hold : forall b q, producers w !! b = Some q -> b <> a) by (intros b q Hb ->; congruence).
  assert (Hnew : forall b q, producers w !! b = Some q -> <[a := p]> (producers w) !! b = Some q).
  { intros b q Hb. rewrite insert_lookup, decide_False; [done|by eapply Hold]. }
  split; cbn [with_producer producers consumers observers mapTransports mapRtpObservers mapProducerConsumers
    mapConsumerProducer mapProducerRtpObservers mapProducers].
  - intros b q. rewrite !insert_lookup. destruct (decide (b = a)) as [->|Hn].
    + intros [= <-]. rewrite decide_True by done. split; [done|]. by split; eexists.
    + intros Hb. destruct (g_producer _ _ _ _ _ G b q Hb) as (H1 & H2 & H3).
      rewrite decide_False by congruence. done.
  - intros b q. rewrite insert_lookup. destruct (decide (b = a)) as [->|Hn]; [done|].
    intros Hb _. by apply (g_in_transport _ _ _ _ _ G).
  - intros id b. rewrite !insert_lookup. destruct (decide (id = p_id p)) as [->|Hn].
    + intros [= <-]. rewrite decide_True by done. by exists p.
    + intros Hb. destruct (g_mapProducers _ _ _ _ _ G id b Hb) as (q & Hq & Hqid). exists q. rewrite <- insert_lookup. by rewrite (Hnew b q).
  - intros b s. rewrite !insert_lookup. destruct (decide (b = a)) as [->|Hn].
    + intros [= <-]. split; [by eexists|]. by intros c ?%elem_of_empty.
    + apply (g_consumers_of _ _ _ _ _ G).
  - intros c b Hc. destruct (g_producer_of _ _ _ _ _ G c b Hc) as (H1 & s & Hs & Hin). split; [done|]. exists s.
    rewrite insert_lookup, decide_False by congruence. done.
  - apply (g_consumer _ _ _ _ _ G).
  - intros tid tr Ht _. destruct (g_t_producers _ _ _ _ _ G tid tr Ht) as [A B]; [done|]. split.
    + intros id b (_ & q & Hq & Hqid & Hqt)%A. split; [intros [= ->]; congruence|]. exists q. by rewrite (Hnew b q Hq).
    + intros b (_ & q & Hq & Hqt)%B. split; [intros [= ->]; congruence|]. exists q. by rewrite (Hnew b q Hq).
  - apply (g_t_consumers _ _ _ _ _ G).
  - apply (g_mapRtpObservers _ _ _ _ _ G).
  - intros o ob Ho. destruct (g_observer _ _ _ _ _ G o ob Ho) as [H1 H2]. split; [done|].
    intros b Hb. destruct (H2 b Hb) as (s & Hs & Hin). exists s. rewrite insert_lookup, decide_False by congruence. done.
  - intros b s. rewrite !insert_lookup. destruct (decide (b = a)) as [->|Hn].
    + intros [= <-]. split; [by eexists|]. by intros o ?%elem_of_empty.
    + apply (g_observers_of _ _ _ _ _ G).
  - intros c b co q Hc Hco. rewrite insert_lookup. destruct (decide (b = a)) as [->|Hn]; [by apply F5 in Hc|].
    by apply (g_paused _ _ _ _ _ G c b).
Qed.

(** Back where it was. *)
Lemma undo_produce tid tr a p l : mapTransports w !! tid = Some tr -> producers w !! a = None -> l = t_rtpListener tr ->
  delete_producer (set_transport (set_producer w a p) tid (set_t_rtpListener tr l)) a = Ok w.
Proof.
  intros Ht Ha ->. unfold delete_producer, deref. cbn. rewrite lookup_insert_eq. ostep. f_equal.
  assert (<[tid := set_t_rtpListener tr (t_rtpListener tr)]> (mapTransports w) = mapTransports w) as E1.
  { apply insert_id. rewrite Ht. by destruct tr. }
  unfold set_producers, set_transport, set_mapTransports, set_producer, set_producers. cbn.
  rewrite delete_insert_id, E1 by done. by destruct w.
Qed.

Lemma OnTransportNewProducer_spec w0 a p : mapProducerConsumers w0 !! a = None -> producers w0 !! a = Some p ->
  mapProducerRtpObservers w0 !! a = None ->
  OnTransportNewProducer w0 a =
    match mapProducers w0 !! p_id p with
    | Some _ => Err Thrown
    | None => Ok (Router (producers w0) (consumers w0) (observers w0) (mapTransports w0) (mapRtpObservers w0)
        (<[a := ∅]> (mapProducerConsumers w0)) (mapConsumerProducer w0)
        (<[a := ∅]> (mapProducerRtpObservers w0)) (<[p_id p := a]> (mapProducers w0)))
    end.
Proof.
  intros H1 H2 H3. unfold OnTransportNewProducer, assert. rewrite H1, bool_decide_true by done. ostep.
  rewrite (deref_Ok _ _ _ H2). ostep. destruct (mapProducers w0 !! p_id p) as [b|] eqn:E.
  - by rewrite bool_decide_false.
  - rewrite bool_decide_true by done. ostep. cbn. by rewrite H3.
Qed.

Lemma transport_produce tid pid a data : producers w !! a = None ->
  answered w (TransportProduce w tid pid a data).
Proof.
  intros Hfree. apply answered_found. intros tr Ht. apply answered_new. intros Hpid.
  destruct data as [d|]; [|by left]. set (p := Producer _ _ _ _ _ _).
  destruct (free_producer a Hfree) as (F1 & F2 & F3 & F4 & F5).
  destruct (AddProducer_spec a (t_rtpListener tr) (pd_rtpParameters d) (F4 tid tr Ht)) as (l & ok & -> & Hsame & Hok).
  destruct ok; cbn [negb].
  2: { rewrite (undo_produce tid tr a p l) by done. ostep. by apply answered_refused. }
  rewrite (OnTransportNewProducer_spec _ a p) by (done || apply lookup_insert_eq).
  change (mapProducers (set_transport (set_producer w a p) tid (set_t_rtpListener tr l))) with (mapProducers w).
  change (p_id p) with pid. destruct (mapProducers w !! pid) as [b|] eqn:Hm.
  { assert (RemoveProducer l a = t_rtpListener tr) as Hback by (apply RemoveProducer_restores; [by eapply F4|done]).
    pose proof (undo_produce tid tr a p (RemoveProducer l a) Ht Hfree Hback) as U.
    unfold set_transport, set_mapTransports, set_producer, set_producers in *.
    cbn [producers consumers observers mapTransports mapRtpObservers mapProducerConsumers mapConsumerProducer
      mapProducerRtpObservers mapProducers] in *.
    rewrite insert_insert_eq, U. ostep. by apply answered_refused. }
  cbn [mapTransports set_transport set_mapTransports set_producer]. unfold deref. rewrite lookup_insert_eq. ostep.
  set (tr' := set_t_extensionIds _ _).
  assert (forall x, x = set_transport (with_producer a p) tid tr' -> graph_ok x) as H.
  { intros x ->. destruct (g_t_producers _ _ _ _ _ G tid tr Ht) as [A B]; [done|].
    assert (Hnew : forall b q, producers w !! b = Some q -> <[a := p]> (producers w) !! b = Some q).
    { intros b q Hb. rewrite insert_lookup, decide_False; [done|]. intros ->. congruence. }
    apply (graph_transport (Some a) None None None None None).
    - by apply with_producer_graph.
    - split; [|done]. cbn. intros b q. rewrite insert_lookup. intros Hb [= <-]. rewrite decide_True in Hb by done.
      by injection Hb as <-.
    - apply of_transport_none.
    - cbn. intros b q. rewrite !insert_lookup. destruct (decide (b = a)) as [->|Hn].
      + intros [= <-] _ _. by rewrite decide_True.
      + intros Hb _ Htid. destruct (g_in_transport _ _ _ _ _ G b q Hb) as (tr2 & Ht2 & Hin); [done|].
        rewrite Htid, Ht in Ht2. injection Ht2 as <-. rewrite decide_False; [done|]. intros E. congruence.
    - cbn. intros c co Hc _ Hct. destruct (g_consumer _ _ _ _ _ G c co Hc) as [_ Hh].
      destruct Hh as (tr2 & Ht2 & Hin); [done|]. rewrite Hct, Ht in Ht2. by injection Ht2 as <-.
    - intros _. split; cbn.
      + intros id b. rewrite insert_lookup. destruct (decide (id = pid)) as [->|Hn].
        * intros [= <-]. split; [done|]. exists p. by rewrite lookup_insert_eq.
        * intros (_ & q & Hq & Hqid)%A. split; [done|]. exists q. by rewrite (Hnew b q Hq).
      + intros b Hb. split; [done|]. destruct (decide (b = a)) as [->|Hn].
        * exists p. by rewrite lookup_insert_eq.
        * apply (pointed_same a b (t_rtpListener tr) l Hsame Hn) in Hb. apply B in Hb as (_ & q & Hq & Hqt).
          exists q. by rewrite (Hnew b q Hq).
    - intros _. apply (g_t_consumers _ _ _ _ _ G tid tr Ht). done. }
  apply answered_Ok, H. unfold set_transport, with_producer. cbn. f_equal. by rewrite insert_insert_eq.
Qed.

(** * Consumers *)

Lemma free_consumer c : consumers w !! c = None ->
  mapConsumerProducer w !! c = None /\ forall a s, mapProducerConsumers w !! a = Some s -> c ∉ s.
Proof.
  intros Hc. assert (mapConsumerProducer w !! c = None) as Hl.
  { destruct (mapConsumerProducer w !! c) as [a|] eqn:E; [|done].
    apply (g_producer_of _ _ _ _ _ G) in E as [[co Hco] _]. congruence. }
  split; [done|]. intros a s Hs Hin. destruct (g_consumers_of _ _ _ _ _ G a s Hs) as [_ H].
  apply H in Hin. congruence.
Qed.

Definition with_consumer (c : addr) (co : consumer) (a : addr) (s : gset addr) : router :=
  Router (producers w) (<[c := co]> (consumers w)) (observers w) (mapTransports w) (mapRtpObservers w)
    (<[a := {[ c ]} ∪ s]> (mapProducerConsumers w)) (<[c := a]> (mapConsumerProducer w))
    (mapProducerRtpObservers w) (mapProducers w).

Lemma with_consumer_graph c co a s p : consumers w !! c = None -> mapProducerConsumers w !! a = Some s ->
  producers w !! a = Some p -> c_producerPaused co = p_paused p ->
  graph None (Some c) None None (with_consumer c co a s).
Proof.
  intros Hc Hs Hp Hpause. destruct (free_consumer c Hc) as (F1 & F2).
  assert (Hnew : forall d q, consumers w !! d = Some q -> <[c := co]> (consumers w) !! d = Some q).
  { intros d q Hd. rewrite insert_lookup, decide_False; [done|]. intros ->. congruence. }
  destruct (g_consumers_of _ _ _ _ _ G a s Hs) as [_ Hsc].
  split; cbn [with_consumer producers consumers observers mapTransports mapRtpObservers mapProducerConsumers
    mapConsumerProducer mapProducerRtpObservers mapProducers].
  - intros b q Hb. destruct (g_producer _ _ _ _ _ G b q Hb) as (H1 & H2 & H3). split; [done|]. split; [|done].
    rewrite insert_lookup. destruct (decide _); [by eexists|done].
  - apply (g_in_transport _ _ _ _ _ G).
  - apply (g_mapProducers _ _ _ _ _ G).
  - intros b t. rewrite insert_lookup. destruct (decide (b = a)) as [->|Hn].
    + intros [= <-]. split; [by eexists|]. intros d Hd. rewrite insert_lookup. destruct (decide (d = c)); [done|].
      apply Hsc. set_solver.
    + intros Hb. destruct (g_consumers_of _ _ _ _ _ G b t Hb) as [H1 H2]. split; [done|]. intros d Hd.
      rewrite insert_lookup, decide_False; [by apply H2|]. intros ->. by apply (F2 b t).
  - intros d b. rewrite !insert_lookup. destruct (decide (d = c)) as [->|Hn].
    + intros [= <-]. split; [by eexists|]. rewrite decide_True by done. eexists. split; [done|]. set_solver.
    + intros Hd. destruct (g_producer_of _ _ _ _ _ G d b Hd) as (H1 & t & Ht & Hin). split; [done|].
      destruct (decide (b = a)) as [->|]; [|by exists t]. eexists. split; [done|].
      assert (t = s) as -> by congruence. set_solver.
  - intros d q. rewrite !insert_lookup. destruct (decide (d = c)) as [->|Hn]; [by split; [eexists|]|].
    intros Hd. destruct (g_consumer _ _ _ _ _ G d q Hd) as [H1 H2]. split; [done|]. intros _. by apply H2.
  - apply (g_t_producers _ _ _ _ _ G).
  - intros tid tr Ht _. destruct (g_t_consumers _ _ _ _ _ G tid tr Ht) as (A & B & C); [done|].
    split; [|split].
    + intros id d (_ & q & Hq & ? & ?)%A. split; [intros [= ->]; congruence|]. exists q. by rewrite (Hnew d q Hq).
    + intros id d (_ & q & Hq & ? & ?)%B. split; [intros [= ->]; congruence|]. exists q. by rewrite (Hnew d q Hq).
    + intros id d (_ & q & Hq & ? & ?)%C. split; [intros [= ->]; congruence|]. exists q. by rewrite (Hnew d q Hq).
  - apply (g_mapRtpObservers _ _ _ _ _ G).
  - apply (g_observer _ _ _ _ _ G).
  - apply (g_observers_of _ _ _ _ _ G).
  - intros d b q r. rewrite !insert_lookup. destruct (decide (d = c)) as [->|Hn].
    + intros [= <-] [= <-] Hb. congruence.
    + by apply (g_paused _ _ _ _ _ G d b).
Qed.

Lemma insert_ssrcs_lookup c l : forall (m : gmap Z addr) s,
  foldl (fun m s => <[s := c]> m) m l !! s = if decide (s ∈ l) then Some c else m !! s.
Proof.
  induction l as [|x l IH]; intros m s; cbn [foldl]; [by rewrite decide_False by apply not_elem_of_nil|].
  rewrite IH, insert_lookup. destruct (decide (s ∈ l)) as [Hl|Hl], (decide (s = x)) as [->|Hx].
  - by rewrite decide_True by (left).
  - by rewrite decide_True by (by right).
  - by rewrite decide_True by (left).
  - rewrite decide_False; [done|]. by intros [?|?]%elem_of_cons.
Qed.

Lemma OnTransportNewConsumer_spec c co producerId :
  consumers w !! c = None -> c_producerPaused co = false ->
  OnTransportNewConsumer (set_consumer w c co) c producerId = Err Thrown \/
  exists a s p, OnTransportNewConsumer (set_consumer w c co) c producerId =
      Ok (with_consumer c (Consumer (c_id co) (c_transport co) (c_mediaSsrcs co) (c_rtxSsrcs co) (p_paused p)) a s) /\
    mapProducerConsumers w !! a = Some s /\ producers w !! a = Some p.
Proof.
  intros Hc Hf. unfold OnTransportNewConsumer.
  change (mapProducers (set_consumer w c co)) with (mapProducers w).
  destruct (mapProducers w !! producerId) as [a|] eqn:Hm; [|by left]. right.
  destruct (g_mapProducers _ _ _ _ _ G producerId a Hm) as (p & Hp & Hid).
  destruct (g_producer _ _ _ _ _ G a p Hp) as (_ & [s Hs] & _). exists a, s, p.
  change (mapProducerConsumers (set_consumer w c co)) with (mapProducerConsumers w).
  rewrite (present_Ok _ _ _ Hs). ostep. unfold assert.
  change (mapConsumerProducer (set_consumer w c co)) with (mapConsumerProducer w).
  rewrite (proj1 (free_consumer c Hc)), bool_decide_true by done. ostep.
  change (producers (set_consumer w c co)) with (producers w). rewrite (deref_Ok _ _ _ Hp). ostep.
  split; [|done]. destruct (p_paused p).
  - unfold ConsumerProducerPaused, set_producerPaused, deref. cbn [consumers set_consumer set_consumers].
    rewrite lookup_insert_eq. ostep. unfold with_consumer, set_consumer, set_consumers, set_mapProducerConsumers,
      set_mapConsumerProducer. cbn. by rewrite insert_insert_eq.
  - ostep. unfold with_consumer. cbn. do 3 f_equal. destruct co; cbn in *. by rewrite Hf.
Qed.

Lemma transport_consume tid cid producerId c data : consumers w !! c = None ->
  answered w (TransportConsume w tid cid producerId c data).
Proof.
  intros Hfree. apply answered_found. intros tr Ht. apply answered_new. intros Hcid.
  destruct data as [d|]; [|by left]. cbv zeta. set (co := Consumer _ _ _ _ _).
  destruct (OnTransportNewConsumer_spec c co producerId Hfree eq_refl) as [-> | (a & s & p & -> & Hs & Hp)].
  { unfold delete_consumer, deref. cbn. rewrite lookup_insert_eq. ostep. unfold set_consumers. cbn.
    rewrite delete_insert_id by done. destruct w. by apply answered_refused. }
  set (co' := Consumer _ _ _ _ _). cbn [mapTransports with_consumer]. rewrite (deref_Ok _ _ _ Ht). ostep.
  apply answered_Ok. destruct (g_t_consumers _ _ _ _ _ G tid tr Ht) as (A & B & C); [done|].
  assert (Hnew : forall d q, consumers w !! d = Some q -> <[c := co']> (consumers w) !! d = Some q).
  { intros e q He. rewrite insert_lookup, decide_False; [done|]. intros ->. congruence. }
  apply (graph_transport None (Some c) None None None None).
  - by apply (with_consumer_graph c co' a s p).
  - split; [done|]. cbn. intros e q. rewrite insert_lookup. intros He [= <-]. rewrite decide_True in He by done.
    by injection He as <-.
  - apply of_transport_none.
  - cbn. intros b q Hb _ Hbt. destruct (g_in_transport _ _ _ _ _ G b q Hb) as (tr2 & Ht2 & Hin); [done|].
    rewrite Hbt, Ht in Ht2. by injection Ht2 as <-.
  - cbn. intros e q. rewrite !insert_lookup. destruct (decide (e = c)) as [->|Hn].
    + intros [= <-] _ _. by rewrite decide_True.
    + intros He _ Htid. destruct (g_consumer _ _ _ _ _ G e q He) as [_ Hh].
      destruct Hh as (tr2 & Ht2 & Hin); [done|]. rewrite Htid, Ht in Ht2. injection Ht2 as <-.
      rewrite decide_False; [done|]. intros E. congruence.
  - intros _. apply (g_t_producers _ _ _ _ _ G tid tr Ht). done.
  - assert (Hc' : <[c := co']> (consumers w) !! c = Some co') by apply lookup_insert_eq.
    intros _. split; [|split]; cbn.
    + intros id e. rewrite insert_lookup. destruct (decide (id = cid)) as [->|Hn].
      * intros [= <-]. split; [done|]. by exists co'.
      * intros (_ & q & Hq & ? & ?)%A. split; [done|]. exists q. by rewrite (Hnew e q Hq).
    + intros x e. rewrite insert_ssrcs_lookup. destruct (decide _) as [Hx|Hx].
      * intros [= <-]. split; [done|]. by exists co'.
      * intros (_ & q & Hq & ? & ?)%B. split; [done|]. exists q. by rewrite (Hnew e q Hq).
    + intros x e. rewrite insert_ssrcs_lookup. destruct (decide _) as [Hx|Hx].
      * intros [= <-]. split; [done|]. by exists co'.
      * intros (_ & q & Hq & ? & ?)%C. split; [done|]. exists q. by rewrite (Hnew e q Hq).
Qed.

Lemma consumer_close tid cid : answered w (ConsumerClose w tid cid).
Proof.
  apply answered_found. intros tr Ht. apply answered_found. intros c Hc.
  destruct (g_t_consumers _ _ _ _ _ G tid tr Ht) as (A & B & C); [done|].
  destruct (A cid c Hc) as (_ & co & Hco & Hid & Htid). rewrite (deref_Ok _ _ _ Hco). ostep. subst tid.
  assert (well_placed w c) as Hw by (apply (graph_well_placed None None); [done|by eexists]).
  pose proof (forget_transports w c co tr Hco Hw Ht (c_transport co)) as Hf. rewrite Ht in Hf. cbn in Hf.
  rewrite lookup_insert_eq in Hf. set (w1 := set_transport w _ _).
  assert (graph None (Some c) None None w1) as G1.
  { apply (graph_transport None None None (Some c) None None).
    - done.
    - apply of_transport_none.
    - split; [done|]. intros d q Hd [= <-]. congruence.
    - intros b q Hb _ Hbt. destruct (g_in_transport _ _ _ _ _ G b q Hb) as (tr2 & Ht2 & Hin); [done|].
      rewrite Hbt, Ht in Ht2. by injection Ht2 as <-.
    - intros d q Hd Hne Hdt. destruct (g_consumer _ _ _ _ _ G d q Hd) as [_ Hh].
      destruct Hh as (tr2 & Ht2 & Hin); [done|]. rewrite Hdt, Ht in Ht2. injection Ht2 as <-.
      apply (fw_consumers _ _ _ Hf). split; [done|]. rewrite list_elem_of_singleton. congruence.
    - intros _. apply (g_t_producers _ _ _ _ _ G (c_transport co) tr Ht). done.
    - intros _. split; [|split].
      + intros id d Hd. apply (fw_consumers _ _ _ Hf) in Hd as [Hd Hn]. rewrite list_elem_of_singleton in Hn.
        split; [congruence|]. by apply A in Hd as [_ ?].
      + intros x d Hd. apply (fw_ssrcs _ _ _ Hf) in Hd as [Hd Hn]. rewrite list_elem_of_singleton in Hn.
        split; [congruence|]. by apply B in Hd as [_ ?].
      + intros x d Hd. apply (fw_rtx _ _ _ Hf) in Hd as [Hd Hn]. rewrite list_elem_of_singleton in Hn.
        split; [congruence|]. by apply C in Hd as [_ ?]. }
  destruct (consumer_closes (Some c) None None w1 c co G1 Hco) as (w2 & w3 & a & s & -> & E & Hl & Hs & ->).
  ostep. rewrite E. ostep. apply answered_Ok.
  apply (consumer_gone_graph (Some c) None None w1 c co a s); try done. by right.
Qed.
End steps.

(** * Pausing and resuming *)

Lemma set_producerPaused_Ok w c b co : consumers w !! c = Some co ->
  set_producerPaused w c b =
    Ok (set_consumer w c (Consumer (c_id co) (c_transport co) (c_mediaSsrcs co) (c_rtxSsrcs co) b)).
Proof. intros H. unfold set_producerPaused. by rewrite (deref_Ok _ _ _ H). Qed.

Lemma consumers_loop (C : router -> option (gset addr)) b l :
  (forall w x, C (set_consumers w x) = C w) ->
  forall w, NoDup l -> (forall c, c ∈ l -> is_Some (consumers w !! c)) ->
  exists cs, for_each_in C (fun w c => set_producerPaused w c b) l w = Ok (set_consumers w cs) /\
    forall c, cs !! c = if decide (c ∈ l)
      then (fun co => Consumer (c_id co) (c_transport co) (c_mediaSsrcs co) (c_rtxSsrcs co) b) <$> consumers w !! c
      else consumers w !! c.
Proof.
  intros HC. induction l as [|c l IH]; intros w Hnd Hall; cbn [for_each_in].
  { exists (consumers w). split; [by destruct w|]. intros d. by rewrite decide_False by apply not_elem_of_nil. }
  apply NoDup_cons in Hnd as [Hc Hnd]. destruct (Hall c) as [co Hco]; [left|].
  rewrite (set_producerPaused_Ok w c b co Hco). ostep.
  set (w1 := set_consumer w c _). assert (C w1 = C w) as -> by apply HC. rewrite bool_decide_true by done. ostep.
  destruct (IH w1 Hnd) as (cs & -> & H2).
  { intros d Hd. cbn. rewrite insert_lookup. destruct (decide _); [by eexists|]. apply Hall. by right. }
  exists cs. split; [done|]. intros d. rewrite H2. cbn. rewrite insert_lookup.
  destruct (decide (d = c)) as [->|Hn].
  - rewrite decide_False, (decide_True (P := c ∈ c :: l)), Hco by (done || by left). done.
  - destruct (decide (d ∈ l)) as [Hb|Hb].
    + by rewrite decide_True by (by right).
    + rewrite decide_False; [done|]. by intros [?|?]%elem_of_cons.
Qed.

Section pause.
Context (w : router) (G : graph_ok w).

Definition with_paused (p : producer) (b : bool) : producer :=
  Producer (p_id p) (p_transport p) (p_audio p) (p_rtpParameters p) (p_extensionIds p) b.

(** What the loops leave. *)
Lemma tell_all a p b s os (g : router -> addr -> outcome router) f :
  producers w !! a = Some p -> mapProducerConsumers w !! a = Some s -> mapProducerRtpObservers w !! a = Some os ->
  (forall w o ob, observers w !! o = Some ob -> g w o = Ok (set_observer w o (f ob))) ->
  exists cs obs, (w ← tell_consumers (fun w c => set_producerPaused w c b) (set_producer w a (with_paused p b)) a;
       tell_observers g w a) =
    Ok (Router (<[a := with_paused p b]> (producers w)) cs obs (mapTransports w) (mapRtpObservers w)
         (mapProducerConsumers w) (mapConsumerProducer w) (mapProducerRtpObservers w) (mapProducers w)) /\
    (forall c, cs !! c = if decide (c ∈ s)
      then (fun co => Consumer (c_id co) (c_transport co) (c_mediaSsrcs co) (c_rtxSsrcs co) b) <$> consumers w !! c
      else consumers w !! c) /\
    (forall o, obs !! o = if decide (o ∈ os) then f <$> observers w !! o else observers w !! o).
Proof.
  intros Hp Hs Hos Hg. unfold tell_consumers, tell_observers.
  set (w1 := set_producer w a (with_paused p b)).
  change (mapProducerConsumers w1) with (mapProducerConsumers w). rewrite (present_Ok _ _ _ Hs). ostep.
  destruct (consumers_loop (fun w => mapProducerConsumers w !! a) b (elements s)) with (w := w1) as (cs & -> & Hcs).
  - done.
  - apply NoDup_elements.
  - intros c Hc%elem_of_elements. destruct (g_consumers_of _ _ _ _ _ G a s Hs) as [_ H].
    apply H in Hc. by apply (g_producer_of _ _ _ _ _ G) in Hc as [? _].
  - ostep. change (mapProducerRtpObservers (set_consumers w1 cs)) with (mapProducerRtpObservers w). rewrite Hos.
    destruct (observers_loop (fun _ => True) (fun w => mapProducerRtpObservers w !! a) g (fun _ => f) (elements os))
      with (w := set_consumers w1 cs) as (w2 & -> & Ew2 & O2).
    + done.
    + intros w' o ob Hob _. by apply Hg.
    + apply NoDup_elements.
    + intros o Ho%elem_of_elements. destruct (g_observers_of _ _ _ _ _ G a os Hos) as [_ H].
      destruct (H o Ho) as (ob & Hob & _). by exists ob.
    + exists cs, (observers w2). split; [by rewrite Ew2|]. split.
      * intros c. rewrite Hcs. cbn. by destruct (decide (c ∈ elements s)) as [H|H], (decide (c ∈ s)) as [H'|H'];
          rewrite elem_of_elements in H.
      * intros o. rewrite O2. cbn. by destruct (decide (o ∈ elements os)) as [H|H], (decide (o ∈ os)) as [H'|H'];
          rewrite elem_of_elements in H.
Qed.

Lemma told_graph a p b s os f cs obs :
  producers w !! a = Some p -> mapProducerConsumers w !! a = Some s -> mapProducerRtpObservers w !! a = Some os ->
  (forall ob, o_id (f ob) = o_id ob) ->
  (forall ob x, x <> a -> x ∈ o_producers (f ob) <-> x ∈ o_producers ob) ->
  (forall ob, b = false -> a ∈ o_producers (f ob)) ->
  (forall c, cs !! c = if decide (c ∈ s)
     then (fun co => Consumer (c_id co) (c_transport co) (c_mediaSsrcs co) (c_rtxSsrcs co) b) <$> consumers w !! c
     else consumers w !! c) ->
  (forall o, obs !! o = if decide (o ∈ os) then f <$> observers w !! o else observers w !! o) ->
  graph_ok (Router (<[a := with_paused p b]> (producers w)) cs obs (mapTransports w) (mapRtpObservers w)
         (mapProducerConsumers w) (mapConsumerProducer w) (mapProducerRtpObservers w) (mapProducers w)).
Proof.
  intros Hp Hs Hos Fid Fin Fa Hcs Hobs.
  assert (Hback : forall c q, cs !! c = Some q -> exists q0, consumers w !! c = Some q0 /\ c_id q = c_id q0 /\
    c_transport q = c_transport q0 /\ c_producerPaused q = if decide (c ∈ s) then b else c_producerPaused q0).
  { intros c q. rewrite Hcs. destruct (decide (c ∈ s)); [|intros H; by exists q].
    destruct (consumers w !! c) as [q0|]; [|done]. intros [= <-]. by exists q0. }
  assert (Hfwd : forall c q0, consumers w !! c = Some q0 -> exists q, cs !! c = Some q /\ c_id q = c_id q0 /\
    c_transport q = c_transport q0 /\ c_mediaSsrcs q = c_mediaSsrcs q0 /\ c_rtxSsrcs q = c_rtxSsrcs q0).
  { intros c q0 H. rewrite Hcs, H. destruct (decide (c ∈ s)); by eexists. }
  assert (Pback : forall x q, <[a := with_paused p b]> (producers w) !! x = Some q -> exists q0,
    producers w !! x = Some q0 /\ p_id q = p_id q0 /\ p_transport q = p_transport q0 /\
    p_paused q = if decide (x = a) then b else p_paused q0).
  { intros x q. rewrite insert_lookup. destruct (decide (x = a)) as [->|]; [|intros H; by exists q].
    intros [= <-]. by exists p. }
  assert (Pfwd : forall x q0, producers w !! x = Some q0 -> exists q,
    <[a := with_paused p b]> (producers w) !! x = Some q /\ p_id q = p_id q0 /\ p_transport q = p_transport q0).
  { intros x q0 H. rewrite insert_lookup. destruct (decide (x = a)) as [->|]; [|by exists q0].
    assert (q0 = p) as -> by congruence. by eexists. }
  split; cbn [producers consumers observers mapTransports mapRtpObservers mapProducerConsumers
    mapConsumerProducer mapProducerRtpObservers mapProducers].
  - intros x q (q0 & H & -> & _)%Pback. by apply (g_producer _ _ _ _ _ G).
  - intros x q (q0 & H & -> & -> & _)%Pback _. by apply (g_in_transport _ _ _ _ _ G).
  - intros id x H. destruct (g_mapProducers _ _ _ _ _ G id x H) as (q0 & H0 & <-).
    destruct (Pfwd x q0 H0) as (q & Hq & Hid & _). by exists q.
  - intros x t H. destruct (g_consumers_of _ _ _ _ _ G x t H) as [[q0 H0] H1]. split; [|done].
    destruct (Pfwd x q0 H0) as (q & Hq & _). by exists q.
  - intros c x H. destruct (g_producer_of _ _ _ _ _ G c x H) as [[q0 H0] H1]. split; [|done].
    destruct (Hfwd c q0 H0) as (q & Hq & _). by exists q.
  - intros c q (q0 & H & -> & -> & _)%Hback. by apply (g_consumer _ _ _ _ _ G).
  - intros tid tr Ht _. destruct (g_t_producers _ _ _ _ _ G tid tr Ht) as [A B]; [done|]. split.
    + intros id x (_ & q0 & H & Hid & Htid)%A. split; [done|]. destruct (Pfwd x q0 H) as (q & Hq & E1 & E2).
      exists q. by rewrite E1, E2.
    + intros x (_ & q0 & H & Htid)%B. split; [done|]. destruct (Pfwd x q0 H) as (q & Hq & E1 & E2).
      exists q. by rewrite E2.
  - intros tid tr Ht _. destruct (g_t_consumers _ _ _ _ _ G tid tr Ht) as (A & B & C); [done|]. split; [|split].
    + intros id x (_ & q0 & H & Hid & Htid)%A. split; [done|]. destruct (Hfwd x q0 H) as (q & Hq & E1 & E2 & _).
      exists q. by rewrite E1, E2.
    + intros id x (_ & q0 & H & Hid & Htid)%B. split; [done|]. destruct (Hfwd x q0 H) as (q & Hq & E1 & E2 & E3 & _).
      exists q. by rewrite E2, E3.
    + intros id x (_ & q0 & H & Hid & Htid)%C. split; [done|]. destruct (Hfwd x q0 H) as (q & Hq & E1 & E2 & _ & E4).
      exists q. by rewrite E2, E4.
  - intros oid o H. destruct (g_mapRtpObservers _ _ _ _ _ G oid o H) as (ob & Hob & Hoid). rewrite Hobs, Hob.
    destruct (decide (o ∈ os)); eexists; (split; [done|]); [by rewrite Fid|done].
  - intros o ob H. rewrite Hobs in H. destruct (decide (o ∈ os)) as [Ho|Ho].
    + destruct (observers w !! o) as [ob0|] eqn:E; [|done]. injection H as <-. rewrite Fid.
      destruct (g_observer _ _ _ _ _ G o ob0 E) as [H1 H2]. split; [done|]. intros x Hx.
      destruct (decide (x = a)) as [->|Hn]; [by exists os|]. apply H2. by apply (Fin ob0 x Hn).
    + by apply (g_observer _ _ _ _ _ G).
  - intros x t H. destruct (g_observers_of _ _ _ _ _ G x t H) as [[q0 H0] H1].
    split; [destruct (Pfwd x q0 H0) as (q & Hq & _); by exists q|]. intros o Ho.
    destruct (H1 o Ho) as (ob & Hob & Hin). rewrite Hobs, Hob. destruct (decide (x = a)) as [->|Hn].
    + assert (t = os) as -> by congruence. rewrite decide_True by done. eexists. split; [done|].
      intros q Hq Hpq. apply Fa. destruct (Pback a q Hq) as (q1 & _ & _ & _ & E). rewrite decide_True in E by done. congruence.
    + assert (Hx : forall q, <[a := with_paused p b]> (producers w) !! x = Some q -> p_paused q = false -> x ∈ o_producers ob).
      { intros q Hq. rewrite insert_lookup, decide_False in Hq by done. by apply Hin. }
      destruct (decide (o ∈ os)); eexists; (split; [done|]); [|done]. intros q Hq Hpq. apply Fin; [done|]. by apply (Hx q).
  - intros c x q r Hl (q0 & Hq & _ & _ & ->)%Hback (r0 & Hr & _ & _ & ->)%Pback.
    destruct (decide (c ∈ s)) as [Hc|Hc], (decide (x = a)) as [->|Hx]; try done.
    + destruct (g_consumers_of _ _ _ _ _ G a s Hs) as [_ H]. apply H in Hc. congruence.
    + destruct (g_producer_of _ _ _ _ _ G c a Hl) as (_ & t & Ht & Hin). congruence.
    + by apply (g_paused _ _ _ _ _ G c x).
Qed.

Lemma producer_tables tid tr pid a : mapTransports w !! tid = Some tr -> t_mapProducers tr !! pid = Some a ->
  exists p s os, producers w !! a = Some p /\ mapProducerConsumers w !! a = Some s /\
    mapProducerRtpObservers w !! a = Some os.
Proof.
  intros Ht Ha. destruct (g_t_producers _ _ _ _ _ G tid tr Ht) as [A _]; [done|].
  destruct (A pid a Ha) as (_ & p & Hp & _). destruct (g_producer _ _ _ _ _ G a p Hp) as (_ & [s Hs] & [os Hos]).
  by exists p, s, os.
Qed.

Lemma producer_pause tid pid : answered w (ProducerPause w tid pid).
Proof.
  apply answered_found. intros tr Ht. apply answered_found. intros a Ha.
  destruct (producer_tables tid tr pid a Ht Ha) as (p & s & os & Hp & Hs & Hos).
  rewrite (deref_Ok _ _ _ Hp). ostep. destruct (p_paused p); [by apply answered_Ok|].
  destruct (tell_all a p true s os (fun w o => ObserverProducerPaused w o a) (drop_producer a) Hp Hs Hos)
    as (cs & obs & E & Hcs & Hobs).
  { intros w' o ob Hob. unfold ObserverProducerPaused. by rewrite (deref_Ok _ _ _ Hob). }
  unfold OnTransportProducerPaused. cbv zeta. unfold with_paused in E. unfold ConsumerProducerPaused. rewrite E. ostep.
  apply answered_Ok. apply (told_graph a p true s os (drop_producer a)); try done.
  intros ob x Hx. rewrite o_producers_drop. set_solver.
Qed.

Definition add_producer (a : addr) (ob : observer) : observer :=
  set_o_levels ob (levels_ProducerResumed (o_levels ob) a).

Lemma o_producers_add a ob : o_producers (add_producer a ob) = {[ a ]} ∪ o_producers ob.
Proof. apply dom_with_entry. Qed.

Lemma producer_resume tid pid : answered w (ProducerResume w tid pid).
Proof.
  apply answered_found. intros tr Ht. apply answered_found. intros a Ha.
  destruct (producer_tables tid tr pid a Ht Ha) as (p & s & os & Hp & Hs & Hos).
  rewrite (deref_Ok _ _ _ Hp). ostep. destruct (negb (p_paused p)); [by apply answered_Ok|].
  set (f := add_producer a).
  destruct (tell_all a p false s os (fun w o => ObserverProducerResumed w o a) f Hp Hs Hos)
    as (cs & obs & E & Hcs & Hobs).
  { intros w' o ob Hob. unfold ObserverProducerResumed. by rewrite (deref_Ok _ _ _ Hob). }
  unfold OnTransportProducerResumed. cbv zeta. unfold with_paused in E. unfold ConsumerProducerResumed. rewrite E. ostep.
  apply answered_Ok. apply (told_graph a p false s os (add_producer a)); try done.
  - intros ob x Hx. rewrite o_producers_add. set_solver.
  - intros ob _. rewrite o_producers_add. set_solver.
Qed.
End pause.
