(* ===== verification/RouterRequests.v ===== *)
(** Requests on the observers of a router, packets, and the end of a transport. *)

From S2P Require Export RouterFacts.

(** * Observers *)

Section observers.
Context (w : router) (G : graph_ok w).

(** Only the observers, and the tables that name them, change. *)
Lemma graph_observers obs names told :
  (forall a, is_Some (mapProducerRtpObservers w !! a) <-> is_Some (told !! a)) ->
  (forall oid o, names !! oid = Some o -> exists ob, obs !! o = Some ob /\ o_id ob = oid) ->
  (forall o ob, obs !! o = Some ob -> names !! o_id ob = Some o /\
     forall a, a ∈ o_producers ob -> exists s, told !! a = Some s /\ o ∈ s) ->
  (forall a s p o, told !! a = Some s -> producers w !! a = Some p -> o ∈ s ->
     exists ob, obs !! o = Some ob /\ (p_paused p = false -> a ∈ o_producers ob)) ->
  graph_ok (Router (producers w) (consumers w) obs (mapTransports w) names (mapProducerConsumers w)
    (mapConsumerProducer w) told (mapProducers w)).
Proof.
  intros Ht Hn Ho Hs. split; cbn [producers consumers observers mapTransports mapRtpObservers
    mapProducerConsumers mapConsumerProducer mapProducerRtpObservers mapProducers]; try apply G; try done.
  - intros a p Hp. destruct (g_producer _ _ _ _ _ G a p Hp) as (H1 & H2 & H3). split_and!; [done|done|]. by apply Ht.
  - intros a s Ha. destruct (proj2 (Ht a)) as [s' Hs']; [by eexists|].
    destruct (g_observers_of _ _ _ _ _ G a s' Hs') as [[p Hp] _]. split; [by eexists|]. intros o Hin.
    destruct (Hs a s p o Ha Hp Hin) as (ob & Hob & H). exists ob. split; [done|]. intros q Hq. by simplify_eq.
Qed.

Lemma create_observer oid o data : observers w !! o = None -> answered w (RouterCreateObserver w oid o data).
Proof.
  intros Hfree. apply answered_new. intros Hnew.
  destruct data as [[[m t] iv]|]; [|by left]. unfold new_levels.
  destruct (negb (m <? 1)); [|by left]. ostep. destruct (negb _); [|by left]. ostep. apply answered_Ok.
  apply graph_observers; cbn.
  - done.
  - intros i x. rewrite !insert_lookup. destruct (decide (i = oid)) as [->|Hn].
    + intros [= <-]. rewrite decide_True by done. by eexists.
    + intros H. destruct (g_mapRtpObservers _ _ _ _ _ G i x H) as (ob & Hob & Hid).
      rewrite decide_False by congruence. by exists ob.
  - intros x ob. rewrite !insert_lookup. destruct (decide (x = o)) as [->|Hn].
    + intros [= <-]. cbn. rewrite decide_True by done. split; [done|]. intros a Ha. unfold o_producers in Ha. cbn in Ha. by rewrite dom_empty_L in Ha.
    + intros H. destruct (g_observer _ _ _ _ _ G x ob H) as [Hid Hin]. rewrite decide_False by congruence. done.
  - intros a s p x Hs Hp Hin. destruct (g_observers_of _ _ _ _ _ G a s Hs) as [_ H].
    destruct (H x Hin) as (ob & Hob & Hpa). exists ob. rewrite insert_lookup, decide_False by congruence.
    split; [done|by apply Hpa].
Qed.

(** An observer is set. *)
Lemma graph_set_observer o ob ob' :
  observers w !! o = Some ob -> o_id ob' = o_id ob -> o_producers ob' = o_producers ob ->
  graph_ok (set_observer w o ob').
Proof.
  intros Ho Eid Ep. apply graph_observers; cbn.
  - done.
  - intros i x H. destruct (g_mapRtpObservers _ _ _ _ _ G i x H) as (b & Hb & Hid).
    rewrite insert_lookup. destruct (decide _) as [->|]; [|by exists b]. exists ob'. split; [done|]. congruence.
  - intros x b. rewrite insert_lookup. destruct (decide (x = o)) as [->|Hn]; [|apply (g_observer _ _ _ _ _ G)].
    intros [= <-]. rewrite Eid, Ep. by apply (g_observer _ _ _ _ _ G).
  - intros a s p x Hs Hp Hin. destruct (g_observers_of _ _ _ _ _ G a s Hs) as [_ H].
    destruct (H x Hin) as (b & Hb & Hpa). rewrite insert_lookup. destruct (decide _) as [->|Hn].
    + exists ob'. split; [done|]. intros Hf. rewrite Ep. assert (b = ob) as -> by congruence. by apply (Hpa p).
    + exists b. split; [done|]. by apply Hpa.
Qed.

Lemma observer_pause oid : answered w (RtpObserverPause w oid).
Proof.
  apply answered_found. intros o Ho. destruct (g_mapRtpObservers _ _ _ _ _ G oid o Ho) as (ob & Hob & _).
  unfold ObserverPause. rewrite (deref_Ok _ _ _ Hob). ostep.
  eapply answered_Ok, graph_set_observer; [done|done|apply levels_Pause_dom].
Qed.

Lemma observer_resume oid : answered w (RtpObserverResume w oid).
Proof.
  apply answered_found. intros o Ho. destruct (g_mapRtpObservers _ _ _ _ _ G oid o Ho) as (ob & Hob & _).
  unfold ObserverResume. rewrite (deref_Ok _ _ _ Hob). ostep.
  eapply answered_Ok, graph_set_observer; [done|done|apply levels_Resume_dom].
Qed.

Lemma observer_close oid : answered w (RtpObserverClose w oid).
Proof.
  apply answered_found. intros o Ho. destruct (g_mapRtpObservers _ _ _ _ _ G oid o Ho) as (ob & Hob & Hid).
  rewrite (deref_Ok _ _ _ Hob). ostep. unfold delete_observer.
  cbn [observers set_mapProducerRtpObservers set_mapRtpObservers]. rewrite (deref_Ok _ _ _ Hob). ostep.
  apply answered_Ok. rewrite Hid. apply graph_observers; cbn.
  - intros a. by rewrite lookup_fmap, fmap_is_Some.
  - intros i x. rewrite !delete_lookup. destruct (decide (i = oid)) as [|Hn]; [done|]. intros H.
    destruct (g_mapRtpObservers _ _ _ _ _ G i x H) as (b & Hb & Hbid).
    rewrite decide_False by congruence. by exists b.
  - intros x b. rewrite !delete_lookup. destruct (decide (x = o)) as [|Hn]; [done|]. intros H.
    destruct (g_observer _ _ _ _ _ G x b H) as [Hn' Hin]. rewrite decide_False by congruence. split; [done|].
    intros a Ha. destruct (Hin a Ha) as (s & Hs & Hx). exists (s ∖ {[ o ]}). rewrite lookup_fmap, Hs.
    split; [done|]. set_solver.
  - intros a s p x. rewrite lookup_fmap. destruct (_ !! a) as [s0|] eqn:Hs; [|done]. intros [= <-] Hp.
    rewrite elem_of_difference, elem_of_singleton. intros [Hin Hn].
    destruct (g_observers_of _ _ _ _ _ G a s0 Hs) as [_ H]. destruct (H x Hin) as (b & Hb & Hpa). exists b.
    rewrite delete_lookup, decide_False by done. split; [done|]. by apply Hpa.
Qed.

Lemma producer_observers pid a : mapProducers w !! pid = Some a ->
  exists p s, producers w !! a = Some p /\ mapProducerRtpObservers w !! a = Some s /\ observers_of w a = s.
Proof.
  intros H. destruct (g_mapProducers _ _ _ _ _ G pid a H) as (p & Hp & _).
  destruct (g_producer _ _ _ _ _ G a p Hp) as (_ & _ & [s Hs]). exists p, s. unfold observers_of. by rewrite Hs.
Qed.

Lemma observer_add oid pid : answered w (RtpObserverAddProducer w oid pid).
Proof.
  apply answered_found. intros o Ho. apply answered_found. intros a Ha.
  destruct (g_mapRtpObservers _ _ _ _ _ G oid o Ho) as (ob & Hob & Hid).
  destruct (producer_observers pid a Ha) as (p & s & Hp & Hs & _).
  unfold ObserverAddProducer. rewrite (deref_Ok _ _ _ Hob). ostep. rewrite (deref_Ok _ _ _ Hp). ostep.
  unfold levels_AddProducer. destruct (p_audio p); [|by left]. ostep. apply answered_Ok.
  fold (levels_ProducerResumed (o_levels ob) a). fold (add_producer a ob).
  unfold observers_of. cbn [mapProducerRtpObservers set_observer set_observers]. rewrite Hs. cbn [default].
  apply graph_observers; cbn [observers mapRtpObservers set_observer set_observers].
  - intros b. rewrite insert_lookup. destruct (decide _) as [->|]; [|done]. rewrite Hs. split; by eexists.
  - intros i x H. destruct (g_mapRtpObservers _ _ _ _ _ G i x H) as (b & Hb & Hbid).
    rewrite insert_lookup. destruct (decide _) as [->|]; [|by exists b]. eexists. split; [done|]. cbn. congruence.
  - intros x b Hx.
    assert (exists b0, observers w !! x = Some b0 /\ o_id b0 = o_id b /\ (forall c, c ∈ o_producers b ->
       c ∈ o_producers b0 \/ c = a /\ x = o)) as (b0 & Hb0 & <- & Hback).
    { rewrite insert_lookup in Hx. destruct (decide _) as [->|]; [|exists b; tauto]. injection Hx as <-.
      exists ob. split_and!; [done|done|]. rewrite o_producers_add. set_solver. }
    destruct (g_observer _ _ _ _ _ G x b0 Hb0) as [H1 H2]. split; [done|]. intros c Hc.
    rewrite insert_lookup. destruct (Hback c Hc) as [Hc0|[-> ->]].
    + destruct (H2 c Hc0) as (t & Ht & Hin). destruct (decide (c = a)) as [->|]; [|by exists t].
      eexists. split; [done|]. assert (t = s) as -> by congruence. set_solver.
    + rewrite decide_True by done. eexists. split; [done|]. set_solver.
  - intros b t q x. rewrite !insert_lookup. intros Ht Hq Hx.
    assert (x = o /\ b = a \/ exists t0, mapProducerRtpObservers w !! b = Some t0 /\ x ∈ t0) as [[-> ->]|(t0 & Ht0 & Hx0)].
    { destruct (decide (b = a)) as [->|]; [|right; by exists t]. injection Ht as <-.
      apply elem_of_union in Hx as [->%elem_of_singleton|Hx]; [by left|right; by exists s]. }
    + rewrite decide_True by done. eexists. split; [done|]. intros _. rewrite o_producers_add. set_solver.
    + destruct (g_observers_of _ _ _ _ _ G b t0 Ht0) as [_ H]. destruct (H x Hx0) as (b0 & Hb0 & Hpa).
      destruct (decide (x = o)) as [->|]; [|exists b0; split; [done|by apply Hpa]].
      eexists. split; [done|]. intros Hf. rewrite o_producers_add. assert (b0 = ob) as -> by congruence.
      specialize (Hpa q Hq Hf). set_solver.
Qed.

Lemma observer_remove oid pid : answered w (RtpObserverRemoveProducer w oid pid).
Proof.
  apply answered_found. intros o Ho. apply answered_found. intros a Ha.
  destruct (g_mapRtpObservers _ _ _ _ _ G oid o Ho) as (ob & Hob & Hid).
  destruct (producer_observers pid a Ha) as (p & s & Hp & Hs & _).
  unfold ObserverRemoveProducer. rewrite (deref_Ok _ _ _ Hob). ostep. apply answered_Ok. fold (drop_producer a ob).
  unfold observers_of. cbn [mapProducerRtpObservers set_observer set_observers]. rewrite Hs. cbn [default].
  apply graph_observers; cbn [observers mapRtpObservers set_observer set_observers].
  - intros b. rewrite insert_lookup. destruct (decide _) as [->|]; [|done]. rewrite Hs. split; by eexists.
  - intros i x H. destruct (g_mapRtpObservers _ _ _ _ _ G i x H) as (b & Hb & Hbid).
    rewrite insert_lookup. destruct (decide _) as [->|]; [|by exists b]. eexists. split; [done|]. cbn. congruence.
  - intros x b Hx.
    assert (exists b0, observers w !! x = Some b0 /\ o_id b0 = o_id b /\ (forall c, c ∈ o_producers b ->
       c ∈ o_producers b0 /\ ~ (c = a /\ x = o))) as (b0 & Hb0 & <- & Hback).
    { rewrite insert_lookup in Hx. destruct (decide _) as [->|]; [|exists b; naive_solver]. injection Hx as <-.
      exists ob. split_and!; [done|done|]. rewrite o_producers_drop. set_solver. }
    destruct (g_observer _ _ _ _ _ G x b0 Hb0) as [H1 H2]. split; [done|]. intros c Hc.
    rewrite insert_lookup. destruct (Hback c Hc) as [Hc0 Hne]. destruct (H2 c Hc0) as (t & Ht & Hin).
    destruct (decide (c = a)) as [->|]; [|by exists t]. eexists. split; [done|].
    assert (t = s) as -> by congruence. apply elem_of_difference. split; [done|]. rewrite elem_of_singleton. naive_solver.
  - intros b t q x. rewrite !insert_lookup. intros Ht Hq Hx.
    assert (~ (b = a /\ x = o) /\ exists t0, mapProducerRtpObservers w !! b = Some t0 /\ x ∈ t0) as (Hne & t0 & Ht0 & Hx0).
    { destruct (decide (b = a)) as [->|]; [|split; [naive_solver|by exists t]]. injection Ht as <-.
      apply elem_of_difference in Hx as [Hx Hn]. rewrite elem_of_singleton in Hn. split; [naive_solver|by exists s]. }
    destruct (g_observers_of _ _ _ _ _ G b t0 Ht0) as [_ H]. destruct (H x Hx0) as (b0 & Hb0 & Hpa).
    destruct (decide (x = o)) as [->|]; [|exists b0; split; [done|by apply Hpa]].
    eexists. split; [done|]. intros Hf. rewrite o_producers_drop. assert (b0 = ob) as -> by congruence.
    specialize (Hpa q Hq Hf). set_solver.
Qed.

(** An observer reports the levels. *)
Lemma named_Ok es : (forall a v, (a, v) ∈ es -> is_Some (producers w !! a)) -> exists l, named w es = Ok l.
Proof.
  induction es as [|[a v] es IH]; intros H; cbn [named]; [by eexists|].
  destruct (H a v) as [p Hp]; [left|]. rewrite (deref_Ok _ _ _ Hp). ostep.
  destruct IH as [l ->]; [|ostep; by eexists]. intros b u Hb. apply (H b u). by right.
Qed.

Lemma ObserverUpdate_spec o ob order : observers w !! o = Some ob ->
  order ≡ₚ map_to_list (mapProducerDBovs (o_levels ob)) ->
  exists s l, ObserverUpdate w o order = Ok (set_observer w o (set_o_levels ob s), l) /\
    dom (mapProducerDBovs s) = o_producers ob.
Proof.
  intros Ho Hord. unfold ObserverUpdate. rewrite (deref_Ok _ _ _ Ho). ostep.
  destruct (Update (o_levels ob) order) as [s events] eqn:E. destruct (Update_dom _ _ _ _ Hord E) as [Hd Hev].
  assert (exists l, notified w events = Ok l) as [l Hl].
  { unfold notified. destruct events as [|[|es] events]; [by eexists..|].
    destruct (named_Ok es) as [l Hl]; [|rewrite Hl; ostep; by eexists]. intros a v Hin.
    assert (a ∈ o_producers ob) as Ha by (eapply (Hev es); [left|done]).
    destruct (g_observer _ _ _ _ _ G o ob Ho) as [_ H]. destruct (H a Ha) as (t & Ht & _).
    by apply (g_observers_of _ _ _ _ _ G) in Ht as [? _]. }
  rewrite Hl. ostep. by exists s, l.
Qed.

Lemma observer_timer oid order :
  (forall o ob, mapRtpObservers w !! oid = Some o -> observers w !! o = Some ob ->
     order ≡ₚ map_to_list (mapProducerDBovs (o_levels ob))) ->
  answered w (RtpObserverOnTimer w oid order).
Proof.
  intros Hord. apply answered_found. intros o Ho.
  destruct (g_mapRtpObservers _ _ _ _ _ G oid o Ho) as (ob & Hob & _).
  destruct (ObserverUpdate_spec o ob order Hob (Hord o ob Ho Hob)) as (s & l & -> & Hd). ostep.
  eapply answered_Ok, graph_set_observer; [done|done|exact Hd].
Qed.
End observers.

(** * A transport is closed *)

Lemma graph_stale cp cc sp sc w : graph cp cc None None w -> graph cp cc sp sc w.
Proof.
  intros G. split; try apply G.
  - intros tid tr Ht _. by apply (g_t_producers _ _ _ _ _ G).
  - intros tid tr Ht _. by apply (g_t_consumers _ _ _ _ _ G).
Qed.

Lemma graph_stale_consumers cp cc sp sc w : graph cp cc sp None w -> graph cp cc sp sc w.
Proof. intros G. split; try apply G. intros tid tr Ht _. by apply (g_t_consumers _ _ _ _ _ G). Qed.

(** The objects that a table holds. *)
Lemma elem_of_values {A} (m : gmap string A) x : x ∈ (map_to_list m).*2 <-> exists id, m !! id = Some x.
Proof.
  rewrite list_elem_of_fmap. split.
  - intros ([id y] & -> & H). exists id. by apply elem_of_map_to_list.
  - intros [id H]. exists (id, x). split; [done|]. by apply elem_of_map_to_list.
Qed.

Lemma NoDup_values {A} (m : gmap string A) :
  (forall i j x, m !! i = Some x -> m !! j = Some x -> i = j) -> NoDup (map_to_list m).*2.
Proof.
  intros H. apply NoDup_fmap_2_strong; [|apply NoDup_map_to_list].
  intros [i x] [j y] Hx Hy E. cbn in E. subst y. apply elem_of_map_to_list in Hx, Hy. f_equal. by apply (H i j x).
Qed.

Section close.
Context (tid : string).

(** The producers of [l], and their consumers, are gone. *)
Record producers_gone (l : list addr) (w w' : router) : Prop := {
  pl_producers : forall a p, producers w' !! a = Some p <-> producers w !! a = Some p /\ a ∉ l;
  pl_links : forall c a, mapConsumerProducer w' !! c = Some a <-> mapConsumerProducer w !! c = Some a /\ a ∉ l;
  pl_consumers : forall c co, consumers w' !! c = Some co <->
    consumers w !! c = Some co /\ forall a, mapConsumerProducer w !! c = Some a -> a ∉ l;
  pl_transports : forall t, is_Some (mapTransports w' !! t) <-> is_Some (mapTransports w !! t)
}.

Lemma producers_gone_nil w : producers_gone [] w w.
Proof.
  split; intros; [split; [|tauto]|split; [|tauto]|split; [|tauto]|done]; intros; split; try done; intros;
    apply not_elem_of_nil.
Qed.

Lemma producers_gone_cons a p l w w1 w2 :
  producer_gone a p w w1 -> producers_gone l w1 w2 -> producers_gone (a :: l) w w2.
Proof.
  intros Hg [P L C T]. split.
  - intros b q. rewrite P, (pg_producers _ _ _ _ Hg), delete_lookup, not_elem_of_cons.
    destruct (decide (b = a)); [|tauto]. split; [|tauto]. by intros [].
  - intros c b. rewrite L, (pg_links _ _ _ _ Hg), not_elem_of_cons.
    destruct (decide _) as [E|E]; split; [by intros []|intros (? & ? & ?); congruence| |tauto].
    intros [? ?]. split; [done|]. split; [congruence|done].
  - intros c co. rewrite C, (pg_consumers _ _ _ _ Hg), (pg_links _ _ _ _ Hg).
    destruct (decide _) as [E|E].
    + split; [by intros []|]. intros [_ H]. destruct (H a E). by left.
    + split; intros [H1 H2]; (split; [done|]); intros b Hb.
      * rewrite not_elem_of_cons. split; [congruence|by apply H2].
      * apply H2 in Hb. by apply not_elem_of_cons in Hb as [_ ?].
  - intros t. rewrite T. pose proof (pg_transports _ _ _ _ Hg t) as H.
    destruct (mapTransports w !! t), (mapTransports w1 !! t); try done; split; intros; by eexists.
Qed.

Lemma close_producers l : forall w, graph None None (Some tid) None w -> NoDup l ->
  (forall a, a ∈ l -> exists p, producers w !! a = Some p /\ p_transport p = tid) ->
  exists w', for_each_in (fun w => t_mapProducers <$> mapTransports w !! tid)
      (fun w a => w ← OnTransportProducerClosed w a; delete_producer w a) l w = Ok w' /\
    graph None None (Some tid) None w' /\ producers_gone l w w'.
Proof.
  induction l as [|a l IH]; intros w G Hnd Hall; cbn [for_each_in].
  { exists w. split_and!; [done|done|apply producers_gone_nil]. }
  apply NoDup_cons in Hnd as [Ha Hnd]. destruct (Hall a) as (p & Hp & Ht); [left|].
  destruct (producer_closes None (Some tid) w a p G Hp) as (w1 & w2 & -> & E & Hg). ostep. rewrite E. ostep.
  rewrite bool_decide_true.
  2: { pose proof (pg_transports _ _ _ _ Hg tid) as H. destruct (mapTransports w !! tid), (mapTransports w2 !! tid); try done.
       destruct H as (? & _ & Hf). cbn. f_equal. apply Hf. }
  ostep. assert (graph None None (Some tid) None w2) as G2.
  { apply (producer_gone_graph None (Some tid) w w2 a p); try done; [by left|]. by rewrite Ht. }
  destruct (IH w2 G2 Hnd) as (w3 & -> & G3 & H3).
  - intros b Hb. destruct (Hall b) as (q & Hq & Hqt); [by right|]. exists q. split; [|done].
    rewrite (pg_producers _ _ _ _ Hg), delete_lookup, decide_False; [done|]. by intros ->.
  - exists w3. split_and!; [done|done|]. by eapply producers_gone_cons.
Qed.

Lemma close_consumers l : forall w, graph None None (Some tid) (Some tid) w -> NoDup l ->
  (forall c, c ∈ l -> exists co, consumers w !! c = Some co /\ c_transport co = tid) ->
  exists w', for_each_in (fun w => t_mapConsumers <$> mapTransports w !! tid)
      (fun w c => w ← OnTransportConsumerClosed w c; delete_consumer w c) l w = Ok w' /\
    graph None None (Some tid) (Some tid) w' /\ producers w' = producers w /\
    mapTransports w' = mapTransports w /\
    forall c co, consumers w' !! c = Some co <-> consumers w !! c = Some co /\ c ∉ l.
Proof.
  induction l as [|c l IH]; intros w G Hnd Hall; cbn [for_each_in].
  { exists w. split_and!; try done. intros c co. split; [|tauto]. intros. split; [done|apply not_elem_of_nil]. }
  apply NoDup_cons in Hnd as [Hc Hnd]. destruct (Hall c) as (co & Hco & Ht); [left|].
  destruct (consumer_closes None (Some tid) (Some tid) w c co G Hco) as (w1 & w2 & a & s & -> & E & Hl & Hs & Ew2).
  ostep. rewrite E. ostep. rewrite bool_decide_true by by rewrite Ew2. ostep.
  assert (graph None None (Some tid) (Some tid) w2) as G2.
  { rewrite Ew2. apply (consumer_gone_graph None (Some tid) (Some tid) w c co a s); try done; [by left|]. by rewrite Ht. }
  assert (forall d q, consumers w2 !! d = Some q <-> consumers w !! d = Some q /\ d <> c) as C2.
  { intros d q. rewrite Ew2. cbn. rewrite delete_lookup. destruct (decide (d = c)); [|tauto]. split; [done|]. by intros []. }
  destruct (IH w2 G2 Hnd) as (w3 & -> & G3 & P3 & T3 & C3).
  - intros d Hd. destruct (Hall d) as (q & Hq & Hqt); [by right|]. exists q. split; [|done].
    apply C2. split; [done|]. by intros ->.
  - exists w3. rewrite P3, T3, Ew2. split_and!; try done. intros d q. rewrite C3, C2, not_elem_of_cons. tauto.
Qed.

(** The transport is deleted. *)
Lemma transport_gone w : graph None None (Some tid) (Some tid) w ->
  (forall a p, producers w !! a = Some p -> p_transport p <> tid) ->
  (forall c co, consumers w !! c = Some co -> c_transport co <> tid) ->
  graph_ok (set_mapTransports w (delete tid (mapTransports w))).
Proof.
  intros G Hp Hc. split; try apply G.
  - intros a p Ha _. destruct (g_in_transport _ _ _ _ _ G a p Ha) as (tr & Ht & H); [done|]. exists tr.
    cbn. rewrite delete_lookup, decide_False; [done|]. by apply (Hp a).
  - intros c co Hco. destruct (g_consumer _ _ _ _ _ G c co Hco) as [Hl Hh]. split; [done|]. intros _.
    destruct Hh as (tr & Ht & H); [done|]. exists tr. cbn. rewrite delete_lookup, decide_False; [done|]. by apply (Hc c).
  - intros t tr Ht _. cbn in Ht. rewrite delete_lookup in Ht. destruct (decide _); [done|].
    apply (g_t_producers _ _ _ _ _ G t tr Ht). congruence.
  - intros t tr Ht _. cbn in Ht. rewrite delete_lookup in Ht. destruct (decide _); [done|].
    apply (g_t_consumers _ _ _ _ _ G t tr Ht). congruence.
Qed.

Definition no_producers (w : router) : Prop := forall a p, producers w !! a = Some p -> p_transport p <> tid.
Definition no_consumers (w : router) : Prop := forall c co, consumers w !! c = Some co -> c_transport co <> tid.

(** The tables that went stale are cleared. *)
Lemma clear_producers w tr : graph None None (Some tid) None w -> mapTransports w !! tid = Some tr ->
  no_producers w -> graph None None (Some tid) None (set_transport w tid (set_t_mapProducers tr ∅)).
Proof.
  intros G Ht Hn. apply (graph_transport None None None None (Some tid) None); try done.
  - intros a p Ha _ E. by destruct (Hn a p Ha).
  - intros c co Hco _ E. destruct (g_consumer _ _ _ _ _ G c co Hco) as [_ Hh].
    destruct Hh as (tr' & Ht' & H); [done|]. cbn. rewrite E in Ht'. congruence.
  - intros _. apply (g_t_consumers _ _ _ _ _ G tid tr Ht). done.
Qed.

Lemma clear_consumers w tr : graph None None (Some tid) (Some tid) w -> no_producers w -> no_consumers w ->
  graph None None (Some tid) (Some tid) (set_transport w tid tr).
Proof.
  intros G Hp Hc. apply (graph_transport None None None None (Some tid) (Some tid)); try done.
  - intros a p Ha _ E. by destruct (Hp a p Ha).
  - intros c co Hco _ E. by destruct (Hc c co Hco).
Qed.

(** What is left. *)
Record transport_closed (w w' : router) : Prop := {
  tc_ok : graph_ok w';
  tc_gone : mapTransports w' !! tid = None;
  tc_producers : forall a p, producers w' !! a = Some p <-> producers w !! a = Some p /\ p_transport p <> tid;
  tc_consumers : forall c co, consumers w' !! c = Some co <->
    consumers w !! c = Some co /\ c_transport co <> tid /\
    forall a p, mapConsumerProducer w !! c = Some a -> producers w !! a = Some p -> p_transport p <> tid;
  tc_transports : forall t, t <> tid -> is_Some (mapTransports w' !! t) <-> is_Some (mapTransports w !! t)
}.

Lemma TransportClose_spec w tr : graph_ok w -> mapTransports w !! tid = Some tr ->
  exists w', TransportClose w tid = Ok (w', true) /\ transport_closed w w'.
Proof.
  intros G Ht. unfold TransportClose, CloseProducersAndConsumers.
  rewrite (found_Ok _ _ _ Ht). ostep. rewrite (deref_Ok _ _ _ Ht). ostep.
  set (l := (map_to_list (t_mapProducers tr)).*2).
  destruct (g_t_producers _ _ _ _ _ G tid tr Ht) as [A _]; [done|].
  assert (Hl : forall a, a ∈ l <-> exists p, producers w !! a = Some p /\ p_transport p = tid).
  { intros a. unfold l. rewrite elem_of_values. split.
    - intros [id (_ & p & Hp & _ & Htid)%A]. by exists p.
    - intros (p & Hp & Htid). destruct (g_in_transport _ _ _ _ _ G a p Hp) as (tr' & Ht' & H); [done|].
      exists (p_id p). congruence. }
  destruct (close_producers l w) as (w1 & -> & G1 & P1).
  - by apply graph_stale.
  - apply NoDup_values. intros i j x (_ & p & Hp & <- & _)%A (_ & q & Hq & <- & _)%A. congruence.
  - intros a. apply Hl.
  - ostep. destruct (proj2 (pl_transports _ _ _ P1 tid)) as [tr1 Ht1]; [by eexists|].
    rewrite (deref_Ok _ _ _ Ht1). ostep.
    assert (no_producers w1) as Np.
    { intros a p [Hp Hn]%(pl_producers _ _ _ P1) E. apply Hn, Hl. by exists p. }
    pose proof (clear_producers w1 tr1 G1 Ht1 Np) as G2. set (w2 := set_transport w1 tid _) in *.
    destruct (g_t_consumers _ _ _ _ _ G1 tid tr1 Ht1) as (B & _); [done|].
    set (k := (map_to_list _).*2).
    assert (Hk : forall c, c ∈ k <-> exists co, consumers w1 !! c = Some co /\ c_transport co = tid).
    { intros c. unfold k. rewrite elem_of_values. split.
      - intros [id (_ & co & Hco & _ & Htid)%B]. by exists co.
      - intros (co & Hco & Htid). destruct (g_consumer _ _ _ _ _ G1 c co Hco) as [_ Hh].
        destruct Hh as (tr' & Ht' & H); [done|]. exists (c_id co). cbn. congruence. }
    destruct (close_consumers k w2) as (w3 & -> & G3 & P3 & T3 & C3).
    + by apply graph_stale_consumers.
    + apply NoDup_values. intros i j x (_ & p & Hp & <- & _)%B (_ & q & Hq & <- & _)%B. congruence.
    + intros c. apply Hk.
    + ostep. rewrite T3. cbn [mapTransports set_transport set_mapTransports w2]. unfold deref at 1.
      rewrite lookup_insert_eq. ostep. eexists. split; [done|].
      assert (no_producers w3) as Np3 by (intros a p; rewrite P3; apply Np).
      assert (no_consumers w3) as Nc3.
      { intros c co [Hc Hn]%C3 E. apply Hn, Hk. by exists co. }
      split.
      * apply transport_gone; [by apply clear_consumers|done|done].
      * cbn. apply lookup_delete_eq.
      * cbn. intros a p. rewrite P3. cbn. rewrite (pl_producers _ _ _ P1), Hl. split; intros [Hp Hn]; (split; [done|]).
        -- intros E. apply Hn. by exists p.
        -- intros (q & Hq & E). congruence.
      * cbn. intros c co. rewrite C3. cbn. rewrite Hk, (pl_consumers _ _ _ P1). split.
        -- intros [[Hc Ha] Hn]. split; [done|]. split.
           ++ intros E. apply Hn. exists co. split; [|done]. apply (pl_consumers _ _ _ P1). by split.
           ++ intros a p Hca Hp E. apply (Ha a Hca), Hl. by exists p.
        -- intros (Hc & Hct & Ha). split; [split; [done|]|].
           ++ intros a Hca (p & Hp & E)%Hl. by destruct (Ha a p).
           ++ intros (co' & [Hc' _]%(pl_consumers _ _ _ P1) & E). congruence.
      * cbn. intros t Hne. rewrite delete_lookup, decide_False by done. rewrite insert_lookup, decide_False by done.
        rewrite T3. cbn. rewrite insert_lookup, decide_False by done. apply (pl_transports _ _ _ P1).
Qed.

Lemma transport_close w : graph_ok w -> answered w (TransportClose w tid).
Proof.
  intros G. destruct (mapTransports w !! tid) as [tr|] eqn:Ht.
  - destruct (TransportClose_spec w tr G Ht) as (w' & -> & H). apply answered_Ok, H.
  - left. unfold TransportClose, found. by rewrite Ht.
Qed.
End close.

(** * Packets *)

Lemma for_each_in_same {A C} `{EqDecision C} (container : router -> option C) (f : router -> A -> outcome router) l w :
  (forall x, x ∈ l -> f w x = Ok w) -> for_each_in container f l w = Ok w.
Proof.
  induction l as [|x l IH]; intros H; [done|]. cbn [for_each_in]. rewrite (H x) by left. ostep.
  rewrite bool_decide_true by done. ostep. apply IH. intros y Hy. apply H. by right.
Qed.

Section packet.
Context (w : router) (G : graph_ok w).

(** The packets of a producer that is not paused reach its consumers and its
    observers. *)
Lemma packet_received a p volume : producers w !! a = Some p -> p_paused p = false ->
  exists w', OnTransportProducerRtpPacketReceived w a volume = Ok w' /\ graph_ok w'.
Proof.
  intros Hp Hf. destruct (g_producer _ _ _ _ _ G a p Hp) as (_ & [s Hs] & [os Hos]).
  unfold OnTransportProducerRtpPacketReceived, tell_consumers, tell_observers.
  rewrite (present_Ok _ _ _ Hs). ostep. rewrite for_each_in_same.
  2: { intros c Hc%elem_of_elements. destruct (g_consumers_of _ _ _ _ _ G a s Hs) as [_ H].
       apply H in Hc. apply (g_producer_of _ _ _ _ _ G) in Hc as [[co Hco] _].
       unfold ConsumerSendRtpPacket. by rewrite (deref_Ok _ _ _ Hco). }
  ostep. rewrite Hos.
  set (f := fun (_ : addr) ob => set_o_levels ob
    (match levels_ReceiveRtpPacket (o_levels ob) a volume with Ok s => s | Err _ => o_levels ob end)).
  assert (Hdom : forall o ob, o_producers (f o ob) = o_producers ob).
  { intros o ob. unfold f, o_producers. cbn. destruct (levels_ReceiveRtpPacket _ _ _) as [l|] eqn:E; [|done].
    unfold levels_ReceiveRtpPacket in E. destruct (paused _); [by injection E as <-|].
    destruct volume as [v|]; [|by injection E as <-]. destruct (mapProducerDBovs (o_levels ob) !! a) as [d|] eqn:Ed; [|done].
    injection E as <-. cbn. rewrite dom_insert_L. apply elem_of_dom_2 in Ed. set_solver. }
  destruct (observers_loop (fun ob => a ∈ o_producers ob) (fun w => mapProducerRtpObservers w !! a)
    (fun w o => ObserverReceiveRtpPacket w o a volume) f (elements os)) with (w := w) as (w' & -> & Ew & Ow).
  - done.
  - intros w' o ob Hob Ha. unfold ObserverReceiveRtpPacket, f. rewrite (deref_Ok _ _ _ Hob). ostep.
    destruct (levels_ReceiveRtpPacket_Ok (o_levels ob) a volume Ha) as (l & -> & _). by ostep.
  - apply NoDup_elements.
  - intros o Ho%elem_of_elements. destruct (g_observers_of _ _ _ _ _ G a os Hos) as [_ H].
    destruct (H o Ho) as (ob & Hob & Hin). exists ob. split; [done|]. by apply (Hin p).
  - exists w'. split; [done|]. rewrite Ew. unfold set_observers.
    assert (forall o, observers w' !! o = observers w !! o \/ observers w' !! o = f o <$> observers w !! o) as Hobs.
    { intros o. rewrite Ow. destruct (decide _); [by right|by left]. }
    apply graph_observers; [done|done|..].
    + intros oid o Ho. destruct (g_mapRtpObservers _ _ _ _ _ G oid o Ho) as (ob & Hob & Hid).
      destruct (Hobs o) as [-> | ->]; rewrite Hob; by eexists.
    + intros o ob' Hob'. destruct (Hobs o) as [E|E]; rewrite E in Hob'; [by apply (g_observer _ _ _ _ _ G)|].
      destruct (observers w !! o) as [ob|] eqn:Hob; [|done]. injection Hob' as <-. rewrite Hdom.
      exact (g_observer _ _ _ _ _ G o ob Hob).
    + intros b t q o Ht Hq Hin. destruct (g_observers_of _ _ _ _ _ G b t Ht) as [_ H].
      destruct (H o Hin) as (ob & Hob & Hpa). specialize (Hpa q Hq).
      destruct (Hobs o) as [-> | ->]; rewrite Hob; eexists; (split; [done|]); [done|by rewrite Hdom].
Qed.

(** The listener of a transport learns an SSRC. *)
Lemma learned_graph tid tr l : mapTransports w !! tid = Some tr ->
  (forall b, pointed l b -> pointed (t_rtpListener tr) b) ->
  graph_ok (set_transport w tid (set_t_rtpListener tr l)).
Proof.
  intros Ht Hl. destruct (g_t_producers _ _ _ _ _ G tid tr Ht) as [A B]; [done|].
  apply (graph_transport None None None None None None); try done.
  - intros a p Ha _ E. destruct (g_in_transport _ _ _ _ _ G a p Ha) as (tr' & Ht' & H); [done|]. cbn. congruence.
  - intros c co Hc _ E. destruct (g_consumer _ _ _ _ _ G c co Hc) as [_ Hh].
    destruct Hh as (tr' & Ht' & H); [done|]. cbn. congruence.
  - intros _. split; [exact A|]. intros a Ha. by apply B, Hl.
  - intros _. apply (g_t_consumers _ _ _ _ _ G tid tr Ht). done.
Qed.
End packet.

Lemma rtp_packet_received w tid p forwarded volume : graph_ok w -> rtp_wf p -> maps_ok p ->
  answered w (ReceiveRtpPacket w tid p forwarded volume).
Proof.
  intros G Hwf Hm. apply answered_found. intros tr Ht.
  assert (rtp_wf (with_ids p (t_extensionIds tr))) as Hwf' by (by destruct Hwf).
  assert (maps_ok (with_ids p (t_extensionIds tr))) as Hm' by exact Hm.
  destruct (GetProducer_total _ Hwf' Hm' (t_rtpListener tr)) as (l & r & E & Hnone). rewrite E. ostep.
  destruct (GetProducer_pointed _ _ _ _ E) as [Hl Hr]. pose proof (learned_graph w G tid tr l Ht Hl) as G'.
  destruct r as [a|].
  - destruct (g_t_producers _ _ _ _ _ G tid tr Ht) as [_ B]; [done|].
    destruct (B a (Hr a eq_refl)) as (_ & q & Hq & _).
    cbn [producers set_transport set_mapTransports]. rewrite (deref_Ok _ _ _ Hq). ostep.
    destruct (p_paused q) eqn:Hf; [by apply answered_Ok|]. destruct forwarded; [|by apply answered_Ok].
    cbn [negb orb]. destruct (packet_received _ G' a q volume Hq Hf) as (w' & -> & Hw'). ostep. by apply answered_Ok.
  - rewrite (Hnone eq_refl).
    assert (set_transport w tid (set_t_rtpListener tr (t_rtpListener tr)) = w) as ->; [|by apply answered_refused].
    unfold set_transport. rewrite insert_id; [by destruct w|]. rewrite Ht. by destruct tr.
Qed.

(** * Every request *)

Lemma HandleRequest_spec w r : graph_ok w -> possible w r ->
  exists w' b, HandleRequest w r = Ok (w', b) /\ graph_ok w' /\ (b = false -> w' = w).
Proof.
  intros G Hr. unfold HandleRequest.
  match goal with |- context [catch w ?m] => assert (answered w m) as [-> | (w' & b & -> & H)] end.
  - destruct r; cbn in Hr.
    + by apply create_transport.
    + by apply transport_close.
    + by apply create_observer.
    + by apply observer_close.
    + by apply observer_pause.
    + by apply observer_resume.
    + by apply observer_add.
    + by apply observer_remove.
    + by apply transport_produce.
    + by apply transport_consume.
    + by apply producer_close.
    + by apply consumer_close.
    + by apply producer_pause.
    + by apply producer_resume.
    + destruct Hr as (data & len & Hb & Hl & Hp). pose proof (Parse_cases data len Hb Hl) as H. rewrite Hp in H.
      destruct H as (Hwf & Hm & _). by apply rtp_packet_received.
    + by apply observer_timer.
  - by exists w, false.
  - by exists w', b.
Qed.

Lemma reachable_graph w : reachable w -> graph_ok w.
Proof.
  induction 1 as [|w r w' b _ IH Hr E]; [apply new_Router_ok|].
  destruct (HandleRequest_spec w r IH Hr) as (w2 & b2 & E2 & H & _). congruence.
Qed.
