(* ===== verification/RouterProps.v ===== *)
(** What a router guarantees, whatever requests it gets. *)

From S2P Require Export RouterRequests.

(** * Witnesses: two transports, a producer, a consumer and an observer *)

Definition microphone : producer_data :=
  ProducerData true (RtpParameters [65] [Encoding 1111 2222 []; Encoding 3333 0 [104; 105]]) no_ids false.

Definition example_requests : list request :=
  [CreateTransport "t1" true; CreateTransport "t2" true; CreateObserver "o" 7 (Some (2, -80, 1000));
   Produce "t1" "p" 1 (Some microphone); Consume "t2" "c" "p" 2 (Some (ConsumerData [5] [6]));
   AddToObserver "o" "p"].

Fixpoint run (rs : list request) (w : router) : outcome router :=
  match rs with
  | [] => Ok w
  | r :: rs => '(w, _) ← HandleRequest w r; run rs w
  end.

(** The address that a request brings is free. *)
Definition allocates (w : router) (r : request) : bool :=
  match r with
  | CreateObserver _ o _ => bool_decide (observers w !! o = None)
  | Produce _ _ a _ => bool_decide (producers w !! a = None)
  | Consume _ _ _ c _ => bool_decide (consumers w !! c = None)
  | RtpPacketReceived _ _ _ _ | LevelsTimer _ _ => false
  | _ => true
  end.

Lemma allocates_possible w r : allocates w r = true -> possible w r.
Proof. destruct r; cbn; try done; by intros ?%bool_decide_eq_true. Qed.

Fixpoint allocated (rs : list request) (w : router) : bool :=
  match rs with
  | [] => true
  | r :: rs => allocates w r && match HandleRequest w r with Ok (w, _) => allocated rs w | Err _ => false end
  end.

Lemma run_reachable rs : forall w w', reachable w -> allocated rs w = true -> run rs w = Ok w' -> reachable w'.
Proof.
  induction rs as [|r rs IH]; intros w w' Hw; cbn [allocated run]; [by intros _ [= <-]|].
  destruct (HandleRequest w r) as [[w1 b]|] eqn:E; cbn; [|done]. intros [Ha Hr]%andb_prop. apply IH; [|done].
  apply (reach_step w r w1 b); [done|by apply allocates_possible|done].
Qed.

Definition example_router : router :=
  Eval vm_compute in match run example_requests new_Router with Ok w => w | Err _ => new_Router end.

Lemma example_reachable : reachable example_router.
Proof. apply (run_reachable example_requests new_Router); [constructor|by vm_compute..]. Qed.

(** * Properties *)

(** C7: whatever requests a router got, each pointer of its maps, of its
    transports, of their listeners and of its observers is to an object that
    exists and that points back; ids are those of the objects; a consumer knows
    whether its producer is paused; an observer has each of its producers that
    is not paused. *)
Theorem reachable_consistent w : reachable w -> graph_ok w.
Proof. apply reachable_graph. Qed.

Lemma reachable_consistent_witness : reachable example_router /\ graph_ok example_router.
Proof. split; [apply example_reachable|apply (reachable_consistent example_router), example_reachable]. Defined.

(** C5: each request, and each packet, that comes to a router is answered: no
    assertion fails, no freed object is used and no container changes during a
    loop over it.  What is refused changes nothing. *)
Theorem requests_answered w r : reachable w -> possible w r ->
  exists w' b, HandleRequest w r = Ok (w', b) /\ (b = false -> w' = w).
Proof.
  intros Hw Hr. destruct (HandleRequest_spec w r (reachable_graph w Hw) Hr) as (w' & b & E & _ & H).
  by exists w', b.
Qed.

Lemma requests_answered_witness :
  reachable example_router /\
  (exists w' b, HandleRequest example_router (CloseTransport "t1") = Ok (w', b) /\ (b = false -> w' = example_router)) /\
  (exists w' b, HandleRequest example_router (Produce "t2" "p" 9 (Some microphone)) = Ok (w', b) /\
     (b = false -> w' = example_router)) /\
  (match HandleRequest example_router (CloseTransport "t1") with
   | Ok (w', b) => (b, map_to_list (producers w'), map_to_list (consumers w')) | Err _ => (false, [], []) end)
  = (true, [], []).
Proof.
  split; [apply example_reachable|].
  split; [apply (requests_answered example_router); [apply example_reachable|done]|].
  split; [apply (requests_answered example_router); [apply example_reachable|by vm_compute]|by vm_compute].
Defined.

(** C8: closing a transport takes away its producers and consumers and the
    consumers, wherever they are, of its producers; the other objects stay. *)
Theorem TransportClose_closes w tid tr : reachable w -> mapTransports w !! tid = Some tr ->
  exists w', TransportClose w tid = Ok (w', true) /\ mapTransports w' !! tid = None /\
    (forall a p, producers w' !! a = Some p <-> producers w !! a = Some p /\ p_transport p <> tid) /\
    (forall c co, consumers w' !! c = Some co <->
       consumers w !! c = Some co /\ c_transport co <> tid /\
       forall a p, mapConsumerProducer w !! c = Some a -> producers w !! a = Some p -> p_transport p <> tid) /\
    (forall t, t <> tid -> is_Some (mapTransports w' !! t) <-> is_Some (mapTransports w !! t)).
Proof.
  intros Hw Ht. destruct (TransportClose_spec tid w tr (reachable_graph w Hw) Ht) as (w' & E & []).
  by exists w'.
Qed.

Lemma TransportClose_closes_witness :
  exists tr, mapTransports example_router !! "t1" = Some tr /\
  exists w', TransportClose example_router "t1" = Ok (w', true) /\ mapTransports w' !! "t1" = None /\
    (forall a p, producers w' !! a = Some p <-> producers example_router !! a = Some p /\ p_transport p <> "t1") /\
    (forall c co, consumers w' !! c = Some co <->
       consumers example_router !! c = Some co /\ c_transport co <> "t1" /\
       forall a p, mapConsumerProducer example_router !! c = Some a -> producers example_router !! a = Some p ->
         p_transport p <> "t1") /\
    (forall t, t <> "t1" -> is_Some (mapTransports w' !! t) <-> is_Some (mapTransports example_router !! t)).
Proof.
  eexists. split; [by vm_compute|]. eapply (TransportClose_closes example_router "t1"); [apply example_reachable|by vm_compute].
Defined.

(** What timers and consumers call later finds its objects: an observer
    reports levels under the ids of producers that exist, and stays as it is but
    for its counters; a key frame that a consumer asks for is asked of the
    producer that the consumer is of. *)
Theorem callbacks_safe w : reachable w ->
  (forall o ob order, observers w !! o = Some ob -> order ≡ₚ map_to_list (mapProducerDBovs (o_levels ob)) ->
     exists s l, ObserverUpdate w o order = Ok (set_observer w o (set_o_levels ob s), l) /\
       dom (mapProducerDBovs s) = o_producers ob) /\
  (forall c co, consumers w !! c = Some co -> exists a s,
     OnTransportConsumerKeyFrameRequested w c = Ok a /\ mapProducerConsumers w !! a = Some s /\ c ∈ s).
Proof.
  intros G%reachable_graph. split.
  - intros o ob order Ho Hord. by apply (ObserverUpdate_spec w G).
  - intros c co Hc. destruct (g_consumer _ _ _ _ _ G c co Hc) as [[a Ha] _].
    destruct (g_producer_of _ _ _ _ _ G c a Ha) as (_ & s & Hs & Hin). exists a, s. split; [|done].
    unfold OnTransportConsumerKeyFrameRequested. rewrite (present_Ok _ _ _ Ha). ostep.
    destruct (g_consumers_of _ _ _ _ _ G a s Hs) as [[p Hp] _]. by rewrite (deref_Ok _ _ _ Hp).
Qed.

Lemma callbacks_safe_witness :
  reachable example_router /\
  ((forall o ob order, observers example_router !! o = Some ob ->
      order ≡ₚ map_to_list (mapProducerDBovs (o_levels ob)) ->
      exists s l, ObserverUpdate example_router o order = Ok (set_observer example_router o (set_o_levels ob s), l) /\
        dom (mapProducerDBovs s) = o_producers ob) /\
   (forall c co, consumers example_router !! c = Some co -> exists a s,
      OnTransportConsumerKeyFrameRequested example_router c = Ok a /\
      mapProducerConsumers example_router !! a = Some s /\ c ∈ s)) /\
  (exists ob, observers example_router !! 7%nat = Some ob /\ o_producers ob = {[ 1%nat ]}) /\
  OnTransportConsumerKeyFrameRequested example_router 2 = Ok 1%nat.
Proof.
  split; [apply example_reachable|]. split; [apply (callbacks_safe example_router), example_reachable|].
  split; [eexists; by vm_compute|by vm_compute].
Defined.

(** A listener takes a producer with all its SSRCs, its MID and its RIDs, or
    throws and is as it was before; in both cases the entries of the other
    producers stay. *)
Theorem AddProducer_atomic a l par : ~ pointed l a -> exists l' ok, AddProducer l a par = (l', ok) /\
  same_but a l l' /\
  if ok then owns_ssrcs a l' (rp_encodings par) /\
             (rp_mid par <> [] -> midTable l' !! rp_mid par = Some a) /\ knows_rids a l l' (rp_encodings par)
  else l' = l.
Proof. apply AddProducer_spec. Qed.

Lemma AddProducer_atomic_witness :
  let l := RtpListener (<[3333 := 4%nat]> ∅) ∅ ∅ in
  ~ pointed l 1 /\
  (exists l' ok, AddProducer l 1 (pd_rtpParameters microphone) = (l', ok) /\ same_but 1 l l' /\
     if ok then owns_ssrcs 1 l' (rp_encodings (pd_rtpParameters microphone)) /\
                (rp_mid (pd_rtpParameters microphone) <> [] ->
                 midTable l' !! rp_mid (pd_rtpParameters microphone) = Some 1%nat) /\
                knows_rids 1 l l' (rp_encodings (pd_rtpParameters microphone))
     else l' = l) /\
  (AddProducer l 1 (pd_rtpParameters microphone)).2 = false.
Proof.
  intros l.
  assert (~ pointed l 1) as Hn.
  { intros [[k E]|[[k E]|[k E]]]; cbn in E; [|by rewrite lookup_empty in E..].
    rewrite insert_lookup, lookup_empty in E. by destruct (decide _). }
  split; [exact Hn|]. split; [exact (AddProducer_atomic 1 l (pd_rtpParameters microphone) Hn)|by vm_compute].
Defined.

(** Once a packet has found its producer, by SSRC, MID or RID, each packet
    with that SSRC goes to the same producer, whatever else it carries, and the
    tables change no more; the other SSRCs stay. *)
Theorem GetProducer_learns l p l' a : GetProducer l p = Ok (l', Some a) ->
  exists ssrc, GetSsrc p = Ok ssrc /\ GetProducerBySsrc l' ssrc = Some a /\
    (forall q, GetSsrc q = Ok ssrc -> GetProducer l' q = Ok (l', Some a)) /\
    (forall k, k <> ssrc -> GetProducerBySsrc l' k = GetProducerBySsrc l k).
Proof.
  intros H. unfold GetProducer in H. apply bind_Ok in H as (ssrc & Hs & H). exists ssrc. split; [done|].
  assert (GetProducerBySsrc l' ssrc = Some a /\ forall k, k <> ssrc -> GetProducerBySsrc l' k = GetProducerBySsrc l k) as [E1 E2].
  { unfold GetProducerBySsrc. destruct (ssrcTable l !! ssrc) as [b|] eqn:E; [by injection H as <- <-|].
    assert (forall b, l' = learn_ssrc l ssrc b -> a = b -> ssrcTable l' !! ssrc = Some a /\
      forall k, k <> ssrc -> ssrcTable l' !! k = ssrcTable l !! k) as Hl.
    { intros b -> ->. cbn. split; [apply lookup_insert_eq|]. intros k Hk. by apply lookup_insert_ne. }
    apply bind_Ok in H as (mid & _ & H). destruct (find_value _ mid) as [b|]; [injection H as <- <-; by apply (Hl b)|].
    apply bind_Ok in H as (rid & _ & H). destruct (find_value _ rid) as [b|]; [injection H as <- <-; by apply (Hl b)|done]. }
  split; [done|]. split; [|done]. intros q Hq. unfold GetProducer. rewrite Hq. ostep.
  unfold GetProducerBySsrc in E1. by rewrite E1.
Qed.

(** A packet whose one extension, of id 1, is the MID "A", of the SSRC 77. *)
Definition mid_packet : list Z :=
  [144; 96; 0; 1; 0; 0; 0; 0; 0; 0; 0; 77; 190; 222; 0; 1; 16; 65; 0; 0; 1; 2; 3].

Lemma GetProducer_learns_witness :
  exists p l', Parse mid_packet 23 = Ok p /\
    let q := with_ids p (ExtensionIds 1 0 0 0 0 0 0 0 0) in
    GetProducer (RtpListener ∅ (<[[65] := 4%nat]> ∅) ∅) q = Ok (l', Some 4%nat) /\
    exists ssrc, GetSsrc q = Ok ssrc /\ GetProducerBySsrc l' ssrc = Some 4%nat /\
      (forall q, GetSsrc q = Ok ssrc -> GetProducer l' q = Ok (l', Some 4%nat)) /\
      (forall k, k <> ssrc -> GetProducerBySsrc l' k =
         GetProducerBySsrc (RtpListener ∅ (<[[65] := 4%nat]> ∅) ∅) k).
Proof.
  eexists _, _. split; [by vm_compute|]. split; [by vm_compute|].
  apply (GetProducer_learns (RtpListener ∅ (<[[65] := 4%nat]> ∅) ∅)). by vm_compute.
Defined.
