(* ===== verification/DtlsTransport.v ===== *)
(** [RTC::DtlsTransport] (worker/src/RTC/DtlsTransport.cpp): the DTLS connection of
    a transport, from its start to the SRTP keys.

    The connection itself is OpenSSL's: its functions are those of the class
    [OpenSSL], whose state [SSL] includes the memory BIOs that it reads from and
    writes to; what a function tells [OnSslInfo] while it runs is a part of what
    it returns.  [OpenSSLLaws] is what its documentation promises of a handshake
    that was completed.  The listener is told in events; it is taken to call no
    method of the transport meanwhile, as the header of the class asks of it. *)

From S2P Require Export Bytes Effects Timer.

(** * Definitions *)

Inductive DtlsState : Type := NEW | CONNECTING | CONNECTED | FAILED | CLOSED.

Inductive Role : Type := NONE | AUTO | CLIENT | SERVER.

Inductive FingerprintAlgorithm : Type := NO_ALGORITHM | SHA1 | SHA224 | SHA256 | SHA384 | SHA512.

Inductive CryptoSuite : Type :=
| AES_CM_128_HMAC_SHA1_80 | AES_CM_128_HMAC_SHA1_32 | AEAD_AES_256_GCM | AEAD_AES_128_GCM.

#[export] Instance DtlsState_eq_dec : EqDecision DtlsState.
Proof. solve_decision. Defined.
#[export] Instance Role_eq_dec : EqDecision Role.
Proof. solve_decision. Defined.
#[export] Instance FingerprintAlgorithm_eq_dec : EqDecision FingerprintAlgorithm.
Proof. solve_decision. Defined.
#[export] Instance CryptoSuite_eq_dec : EqDecision CryptoSuite.
Proof. solve_decision. Defined.

Record fingerprint : Type := Fingerprint {
  algorithm : FingerprintAlgorithm;
  value : list Z
}.

(** What OpenSSL does; the lists of [where] are the calls of [OnSslInfo].  The
    third result of [SSL_read] is what it stores. *)
Class OpenSSL (SSL X509 : Type) : Type := {
  SSL_new : SSL;
  SSL_set_connect_state : SSL -> SSL;
  SSL_set_accept_state : SSL -> SSL;
  SSL_do_handshake : SSL -> Z -> SSL * list Z;
  SSL_read : SSL -> Z -> Z -> SSL * list Z * (Z * list Z);
  SSL_write : SSL -> Z -> list Z -> SSL * list Z * Z;
  SSL_shutdown : SSL -> SSL * list Z;
  SSL_clear : SSL -> SSL;
  SSL_get_error : SSL -> Z -> Z;
  SSL_get_shutdown : SSL -> Z;
  BIO_write : SSL -> list Z -> SSL;
  BIO_eof : SSL -> bool;
  BIO_get_mem_data : SSL -> list Z;
  BIO_reset : SSL -> SSL;
  DTLSv1_get_timeout : SSL -> Z -> option (Z * Z);
  DTLSv1_handle_timeout : SSL -> Z -> SSL * list Z;
  SSL_get_peer_certificate : SSL -> option X509;
  X509_digest : FingerprintAlgorithm -> X509 -> option (list Z);
  PEM_write_bio_X509 : X509 -> option (list Z);
  SSL_get_selected_srtp_profile : SSL -> option string;
  SSL_export_keying_material : SSL -> Z -> Z * list Z
}.

Definition EVP_MAX_MD_SIZE : Z := 64.
Definition SslReadBufferSize : Z := 65536.

Definition SSL_ERROR_SSL : Z := 1.
Definition SSL_ERROR_SYSCALL : Z := 5.
Definition SSL_RECEIVED_SHUTDOWN : Z := 2.

Definition srtpCryptoSuites : list (CryptoSuite * string) :=
  [(AEAD_AES_256_GCM, "SRTP_AEAD_AES_256_GCM"); (AEAD_AES_128_GCM, "SRTP_AEAD_AES_128_GCM");
   (AES_CM_128_HMAC_SHA1_80, "SRTP_AES128_CM_SHA1_80");
   (AES_CM_128_HMAC_SHA1_32, "SRTP_AES128_CM_SHA1_32")]%string.

Inductive dtls_event : Type :=
| OnDtlsTransportConnecting
| OnDtlsTransportConnected (suite : CryptoSuite) (srtpLocalKey srtpRemoteKey remoteCert : list Z)
| OnDtlsTransportFailed
| OnDtlsTransportClosed
| OnDtlsTransportSendData (data : list Z)
| OnDtlsTransportApplicationDataReceived (data : list Z).

(** ** Fingerprints *)

(** [%.2X:]. *)
Definition hex_digit (d : Z) : Z := if d <? 10 then 48 + d else 55 + d.

Definition hex_byte (b : Z) : list Z := [hex_digit (Z.shiftr b 4); hex_digit (Z.land b 15); 58].

(** The [sprintf] of each byte, with the zero at its end. *)
Fixpoint print_hex (hexFingerprint : list Z) (i : Z) (digest : list Z) : outcome (list Z) :=
  match digest with
  | [] => Ok hexFingerprint
  | b :: digest =>
      h ← write hexFingerprint (i * 3) (hex_byte b ++ [0]);
      print_hex h (i + 1) digest
  end.

(** A C string: up to the first zero. *)
Fixpoint c_string (l : list Z) : list Z :=
  match l with
  | [] => []
  | x :: l => if x =? 0 then [] else x :: c_string l
  end.

Definition hex_fingerprint (digest : list Z) : outcome (list Z) :=
  h ← print_hex (replicate (Z.to_nat (EVP_MAX_MD_SIZE * 3 + 1)) 0) 0 digest;
  h ← write h (u32 (zlen digest * 3 - 1)) [0];
  Ok (c_string h).

(** ** SRTP keys *)

Definition srtpKeyLength (suite : CryptoSuite) : Z :=
  match suite with
  | AES_CM_128_HMAC_SHA1_80 | AES_CM_128_HMAC_SHA1_32 => 16
  | AEAD_AES_256_GCM => 32
  | AEAD_AES_128_GCM => 16
  end.

Definition srtpSaltLength (suite : CryptoSuite) : Z :=
  match suite with
  | AES_CM_128_HMAC_SHA1_80 | AES_CM_128_HMAC_SHA1_32 => 14
  | AEAD_AES_256_GCM | AEAD_AES_128_GCM => 12
  end.

Definition srtpMasterLength (suite : CryptoSuite) : Z := srtpKeyLength suite + srtpSaltLength suite.

(** A master key: a key and a salt of the material. *)
Definition master_key (material : list Z) (suite : CryptoSuite) (key salt : Z) : outcome (list Z) :=
  k ← slice material key (srtpKeyLength suite);
  s ← slice material salt (srtpSaltLength suite);
  Ok (k ++ s).

(** The local and the remote master key. *)
Definition master_keys (material : list Z) (suite : CryptoSuite) (role : Role) : outcome (list Z * list Z) :=
  let n := srtpKeyLength suite in
  let m := srtpSaltLength suite in
  match role with
  | SERVER =>
      l ← master_key material suite n (n + n + m);
      r ← master_key material suite 0 (n + n);
      Ok (l, r)
  | CLIENT =>
      l ← master_key material suite 0 (n + n);
      r ← master_key material suite n (n + n + m);
      Ok (l, r)
  | _ => Err AssertFailed
  end.

(** ** The transport *)

Section dtls.
Context {SSL X509 H : Type} `{OpenSSL SSL X509} `{UvTimer H}.

Record dtls_transport : Type := DtlsTransport {
  ssl : SSL;
  dtlsTimer : timer H;
  state : DtlsState;
  localRole : Role;
  remoteFingerprint : fingerprint;
  handshakeDone : bool;
  handshakeDoneNow : bool;
  remoteCert : list Z
}.

Definition new_DtlsTransport : dtls_transport :=
  DtlsTransport SSL_new timer_new NEW NONE (Fingerprint NO_ALGORITHM []) false false [].

Definition set_ssl (s : dtls_transport) (x : SSL) : dtls_transport :=
  DtlsTransport x (dtlsTimer s) (state s) (localRole s) (remoteFingerprint s) (handshakeDone s)
    (handshakeDoneNow s) (remoteCert s).

Definition set_timer (s : dtls_transport) (t : timer H) : dtls_transport :=
  DtlsTransport (ssl s) t (state s) (localRole s) (remoteFingerprint s) (handshakeDone s)
    (handshakeDoneNow s) (remoteCert s).

Definition set_state (s : dtls_transport) (st : DtlsState) : dtls_transport :=
  DtlsTransport (ssl s) (dtlsTimer s) st (localRole s) (remoteFingerprint s) (handshakeDone s)
    (handshakeDoneNow s) (remoteCert s).

Definition set_role (s : dtls_transport) (r : Role) : dtls_transport :=
  DtlsTransport (ssl s) (dtlsTimer s) (state s) r (remoteFingerprint s) (handshakeDone s)
    (handshakeDoneNow s) (remoteCert s).

Definition set_fingerprint (s : dtls_transport) (f : fingerprint) : dtls_transport :=
  DtlsTransport (ssl s) (dtlsTimer s) (state s) (localRole s) f (handshakeDone s)
    (handshakeDoneNow s) (remoteCert s).

Definition set_done (s : dtls_transport) (done now : bool) : dtls_transport :=
  DtlsTransport (ssl s) (dtlsTimer s) (state s) (localRole s) (remoteFingerprint s) done now (remoteCert s).

Definition set_cert (s : dtls_transport) (c : list Z) : dtls_transport :=
  DtlsTransport (ssl s) (dtlsTimer s) (state s) (localRole s) (remoteFingerprint s) (handshakeDone s)
    (handshakeDoneNow s) c.

Notation dtls := (act dtls_transport dtls_event).

Definition IsRunning (s : dtls_transport) : bool :=
  match state s with CONNECTING | CONNECTED => true | _ => false end.

(** What a call of [OnSslInfo] tells: whether a handshake is done. *)
Definition tells_done (where_ : Z) : bool :=
  negb (truthy (Z.land where_ 1)) && negb (truthy (Z.land where_ 16384)) && negb (truthy (Z.land where_ 2))
  && negb (truthy (Z.land where_ 16)) && truthy (Z.land where_ 32).

Definition OnSslInfo (s : dtls_transport) (where_ : Z) : dtls_transport :=
  if tells_done where_ then set_done s (handshakeDone s) true else s.

(** A call of OpenSSL: its state after it, and what it told. *)
Definition ssl_call (x : SSL * list Z) : dtls unit :=
  modify (fun s => foldl OnSslInfo (set_ssl s x.1) x.2).

Definition stop_timer : dtls unit :=
  s ← get; t ← lift (Stop (dtlsTimer s)); modify (fun s => set_timer s t).

Definition SendPendingOutgoingDtlsData : dtls unit :=
  s ← get;
  if BIO_eof (ssl s) then skip
  else
    let data := BIO_get_mem_data (ssl s) in
    if zlen data <=? 0 then skip
    else
      emit (OnDtlsTransportSendData data);;
      modify (fun s => set_ssl s (BIO_reset (ssl s))).

Definition Reset : dtls unit :=
  s ← get;
  if negb (IsRunning s) then skip
  else
    stop_timer;;
    s ← get; ssl_call (SSL_shutdown (ssl s));;
    modify (fun s => set_done (set_state (set_role s NONE) NEW) false false);;
    modify (fun s => set_ssl s (SSL_clear (ssl s))).

(** The connection has failed, or was closed. *)
Definition break_off (st : DtlsState) (e : dtls_event) : dtls bool :=
  Reset;;
  modify (fun s => set_state s st);;
  emit e;;
  mret false.

Definition SetTimeout (now : Z) : dtls bool :=
  s ← get;
  lift (require AssertFailed (IsRunning s));;
  match DTLSv1_get_timeout (ssl s) now with
  | None => mret true
  | Some (tv_sec, tv_usec) =>
      let timeoutMs := u64 (u64 (tv_sec * 1000) + Z.quot tv_usec 1000) in
      if timeoutMs =? 0 then mret true
      else if timeoutMs <? 30000 then
        t ← lift (Start (dtlsTimer s) timeoutMs 0);
        modify (fun s => set_timer s t);;
        mret true
      else break_off FAILED OnDtlsTransportFailed
  end.

(** [None]: the certificate is not what was announced. *)
Definition check_certificate (s : dtls_transport) : outcome (option (list Z)) :=
  match SSL_get_peer_certificate (ssl s) with
  | None => Ok None
  | Some certificate =>
      match X509_digest (algorithm (remoteFingerprint s)) certificate with
      | None => Ok None
      | Some digest =>
          hexFingerprint ← hex_fingerprint digest;
          if negb (bool_decide (value (remoteFingerprint s) = hexFingerprint)) then Ok None
          else
            match PEM_write_bio_X509 certificate with
            | None => Ok None
            | Some pem => if zlen pem =? 0 then Ok None else Ok (Some pem)
            end
      end
  end.

Definition has_fingerprint (s : dtls_transport) : bool :=
  negb (bool_decide (algorithm (remoteFingerprint s) = NO_ALGORITHM)).

Definition CheckRemoteFingerprint : dtls bool :=
  s ← get;
  lift (require AssertFailed (has_fingerprint s));;
  r ← lift (check_certificate s);
  match r with
  | None => mret false
  | Some pem => modify (fun s => set_cert s pem);; mret true
  end.

(** The last entry with the name. *)
Fixpoint find_suite (l : list (CryptoSuite * string)) (name : string) (found : option CryptoSuite)
  : option CryptoSuite :=
  match l with
  | [] => found
  | (suite, n) :: l => find_suite l name (if bool_decide (name = n) then Some suite else found)
  end.

Definition GetNegotiatedSrtpCryptoSuite (s : dtls_transport) : outcome (option CryptoSuite) :=
  match SSL_get_selected_srtp_profile (ssl s) with
  | None => Ok None
  | Some name =>
      match find_suite srtpCryptoSuites name None with
      | None => Err AssertFailed
      | Some suite => Ok (Some suite)
      end
  end.

Definition ExtractSrtpKeys (suite : CryptoSuite) : dtls unit :=
  s ← get;
  let '(ret, material) := SSL_export_keying_material (ssl s) (srtpMasterLength suite * 2) in
  lift (require AssertFailed (truthy ret));;
  keys ← lift (master_keys material suite (localRole s));
  modify (fun s => set_state s CONNECTED);;
  emit (OnDtlsTransportConnected suite keys.1 keys.2 (remoteCert s)).

Definition ProcessHandshake : dtls bool :=
  s ← get;
  lift (require AssertFailed (handshakeDone s));;
  lift (require AssertFailed (has_fingerprint s));;
  ok ← CheckRemoteFingerprint;
  if negb ok then break_off FAILED OnDtlsTransportFailed
  else
    s ← get;
    suite ← lift (GetNegotiatedSrtpCryptoSuite s);
    match suite with
    | Some suite => ExtractSrtpKeys suite;; mret true
    | None => break_off FAILED OnDtlsTransportFailed
    end.

Definition CheckStatus (returnCode : Z) : dtls bool :=
  s ← get;
  let wasHandshakeDone := handshakeDone s in
  let err := SSL_get_error (ssl s) returnCode in
  if handshakeDoneNow s then
    put (set_done s true false);;
    stop_timer;;
    if negb wasHandshakeDone && has_fingerprint s then ProcessHandshake else mret true
  else if truthy (Z.land (SSL_get_shutdown (ssl s)) SSL_RECEIVED_SHUTDOWN)
          || (err =? SSL_ERROR_SSL) || (err =? SSL_ERROR_SYSCALL) then
    if bool_decide (state s = CONNECTED) then break_off CLOSED OnDtlsTransportClosed
    else break_off FAILED OnDtlsTransportFailed
  else mret true.

Definition Run (now : Z) (role : Role) : dtls unit :=
  lift (require AssertFailed (bool_decide (role = CLIENT) || bool_decide (role = SERVER)));;
  s ← get;
  if bool_decide (role = localRole s) then skip
  else
    (if bool_decide (localRole s = CLIENT) || bool_decide (localRole s = SERVER) then Reset else skip);;
    modify (fun s => set_state (set_role s role) CONNECTING);;
    emit OnDtlsTransportConnecting;;
    match role with
    | CLIENT =>
        modify (fun s => set_ssl s (SSL_set_connect_state (ssl s)));;
        s ← get; ssl_call (SSL_do_handshake (ssl s) now);;
        SendPendingOutgoingDtlsData;;
        _ ← SetTimeout now; skip
    | SERVER =>
        modify (fun s => set_ssl s (SSL_set_accept_state (ssl s)));;
        s ← get; ssl_call (SSL_do_handshake (ssl s) now)
    | _ => lift (Err AssertFailed)
    end.

Definition SetRemoteFingerprint (f : fingerprint) : dtls bool :=
  lift (require AssertFailed (negb (bool_decide (algorithm f = NO_ALGORITHM))));;
  modify (fun s => set_fingerprint s f);;
  s ← get;
  if handshakeDone s && negb (bool_decide (state s = CONNECTED)) then ProcessHandshake else mret true.

Definition ProcessDtlsData (now : Z) (data : list Z) : dtls unit :=
  s ← get;
  if negb (IsRunning s) then skip
  else
    put (set_ssl s (BIO_write (ssl s) data));;
    s ← get;
    let '(x, (read, sslReadBuffer)) := SSL_read (ssl s) now SslReadBufferSize in
    ssl_call x;;
    SendPendingOutgoingDtlsData;;
    ok ← CheckStatus read;
    if negb ok then skip
    else
      ok ← SetTimeout now;
      if negb ok then skip
      else if 0 <? read then
        s ← get;
        if negb (handshakeDone s) then skip
        else emit (OnDtlsTransportApplicationDataReceived sslReadBuffer)
      else skip.

Definition SendApplicationData (now : Z) (data : list Z) : dtls unit :=
  s ← get;
  if negb (bool_decide (state s = CONNECTED)) then skip
  else if zlen data =? 0 then skip
  else
    let '(x, written) := SSL_write (ssl s) now data in
    ssl_call x;;
    if written <? 0 then
      ok ← CheckStatus written;
      if negb ok then skip else SendPendingOutgoingDtlsData
    else SendPendingOutgoingDtlsData.

(** The timer has fired. *)
Definition OnTimer (now : Z) : dtls unit :=
  modify (fun s => set_timer s (fired (dtlsTimer s)));;
  s ← get;
  if handshakeDone s then skip
  else
    ssl_call (DTLSv1_handle_timeout (ssl s) now);;
    SendPendingOutgoingDtlsData;;
    _ ← SetTimeout now; skip.
End dtls.
Arguments dtls_transport SSL H : clear implicits.

(** * What OpenSSL documents *)

(** A call tells that a handshake was completed. *)
Definition told_done (infos : list Z) : bool := existsb tells_done infos.

(** [keyed]: a handshake was completed, and the state not cleared since.  Then keys
    can be exported; the profile is one of those that were offered, and a digest
    has at most [EVP_MAX_MD_SIZE] bytes. *)
Class OpenSSLLaws (SSL X509 : Type) `{OpenSSL SSL X509} : Type := {
  keyed : SSL -> Prop;
  do_handshake_keyed x now : let r := SSL_do_handshake x now in keyed x \/ told_done r.2 = true -> keyed r.1;
  read_keyed x now n : let r := (SSL_read x now n).1 in keyed x \/ told_done r.2 = true -> keyed r.1;
  write_keyed x now data : let r := (SSL_write x now data).1 in keyed x \/ told_done r.2 = true -> keyed r.1;
  timeout_keyed x now : let r := DTLSv1_handle_timeout x now in keyed x \/ told_done r.2 = true -> keyed r.1;
  BIO_write_keyed x data : keyed x -> keyed (BIO_write x data);
  BIO_reset_keyed x : keyed x -> keyed (BIO_reset x);
  export_keyed x n : keyed x -> (SSL_export_keying_material x n).1 <> 0;
  export_length x n : 0 <= n -> zlen (SSL_export_keying_material x n).2 = n;
  profile_offered x name : SSL_get_selected_srtp_profile x = Some name -> name ∈ srtpCryptoSuites.*2;
  digest_size a c d : X509_digest a c = Some d -> bytes d /\ 0 < zlen d <= EVP_MAX_MD_SIZE
}.

(** * Fingerprints as text *)

(** The bytes in hexadecimal, with colons between them. *)
Definition hex_bytes (digest : list Z) : list Z := concat (hex_byte <$> digest).

Definition hex_text (digest : list Z) : list Z := take (length (hex_bytes digest) - 1) (hex_bytes digest).

Lemma zlen_hex_bytes digest : zlen (hex_bytes digest) = zlen digest * 3.
Proof.
  induction digest as [|b digest IH]; [done|]. unfold hex_bytes in *. cbn [fmap list_fmap concat].
  rewrite zlen_app, IH, zlen_cons. change (zlen (hex_byte b)) with 3. lia.
Qed.

Lemma write_at_app a r bs :
  zlen bs <= zlen r -> write (a ++ r) (zlen a) bs = Ok (a ++ bs ++ drop (length bs) r).
Proof.
  intros Hl. apply write_Ok. rewrite zlen_app. split_and!; [apply zlen_nonneg|lia|].
  unfold zlen. rewrite Nat2Z.id, take_app_length, drop_app.
  rewrite (drop_ge a) by lia. by replace (length a + length bs - length a)%nat with (length bs) by lia.
Qed.

Lemma print_hex_text digest a r i :
  zlen a = i * 3 -> zlen digest * 3 + 1 <= zlen r ->
  exists r', print_hex (a ++ r) i digest = Ok (a ++ hex_bytes digest ++ r') /\ zlen r' = zlen r - zlen digest * 3.
Proof.
  revert a r i. induction digest as [|b digest IH]; intros a r i Ha Hl; cbn [print_hex].
  - exists r. split; [done|]. change (zlen []) with 0. lia.
  - rewrite zlen_cons in *. pose proof (zlen_nonneg digest).
    rewrite <- Ha, write_at_app by (change (zlen (hex_byte b ++ [0])) with 4; lia). ostep.
    rewrite <- app_assoc, app_assoc.
    assert (zlen (drop (length (hex_byte b ++ [0])) r) = zlen r - 4) as Ld.
    { unfold zlen in *. rewrite length_drop. cbn. lia. }
    destruct (IH (a ++ hex_byte b) ([0] ++ drop (length (hex_byte b ++ [0])) r) (i + 1)) as (r' & E & L).
    { rewrite zlen_app, Ha. change (zlen (hex_byte b)) with 3. lia. }
    { rewrite zlen_app, zlen_one, Ld. lia. }
    exists r'. rewrite E. split; [|rewrite L, zlen_app, zlen_one, Ld; lia].
    unfold hex_bytes. cbn [fmap list_fmap concat]. by rewrite <- !app_assoc.
Qed.

Lemma c_string_app x y : Forall (fun c => c <> 0) x -> c_string (x ++ 0 :: y) = x.
Proof.
  induction 1 as [|c x Hc Hx IH]; [done|]. cbn. rewrite (proj2 (Z.eqb_neq _ _)) by done. by rewrite IH.
Qed.

Lemma hex_digit_pos d : 0 <= d -> 0 < hex_digit d.
Proof. unfold hex_digit. destruct (Z.ltb_spec d 10); lia. Qed.

Lemma hex_bytes_pos digest : bytes digest -> Forall (fun c => c <> 0) (hex_bytes digest).
Proof.
  induction 1 as [|b digest Hb Hd IH]; [constructor|]. unfold in_uint in Hb.
  pose proof (hex_digit_pos (Z.shiftr b 4)). pose proof (hex_digit_pos (Z.land b 15)).
  assert (0 <= Z.shiftr b 4) by (apply Z.shiftr_nonneg; lia). assert (0 <= Z.land b 15) by (apply Z.land_nonneg; lia).
  change (hex_bytes (b :: digest)) with (hex_byte b ++ hex_bytes digest). apply Forall_app. split; [|done].
  repeat apply Forall_cons_2; [lia..|constructor].
Qed.

Lemma hex_text_last digest : digest <> [] -> hex_bytes digest = hex_text digest ++ [58].
Proof.
  intros Hd. unfold hex_text. destruct (exists_last Hd) as (l & b & ->).
  assert (hex_bytes (l ++ [b]) = (hex_bytes l ++ [hex_digit (Z.shiftr b 4); hex_digit (Z.land b 15)]) ++ [58]) as ->.
  { unfold hex_bytes. rewrite fmap_app, concat_app. by rewrite <- app_assoc. }
  rewrite length_app. cbn [length]. rewrite Nat.add_sub. by rewrite take_app_length.
Qed.

(** The text is that of the digest, and inside of its buffer. *)
Lemma hex_fingerprint_text digest :
  bytes digest -> 0 < zlen digest <= EVP_MAX_MD_SIZE -> hex_fingerprint digest = Ok (hex_text digest).
Proof.
  intros Hb Hl. unfold EVP_MAX_MD_SIZE in Hl. unfold hex_fingerprint.
  destruct (print_hex_text digest [] (replicate 193 0) 0) as (r & E & Lr); [done| |].
  { change (zlen (replicate 193 0)) with 193. lia. }
  change (Z.to_nat (EVP_MAX_MD_SIZE * 3 + 1)) with 193%nat. change ([] ++ replicate 193 0) with (replicate 193 0) in E.
  rewrite E. ostep. cbn [app]. assert (digest <> []) as Hne by (intros ->; change (zlen []) with 0 in Hl; lia).
  pose proof (zlen_hex_bytes digest) as Lh. rewrite (hex_text_last _ Hne) in *. rewrite zlen_app, zlen_one in Lh.
  rewrite wrap_small by (unfold in_uint; change (2 ^ 32) with 4294967296; lia).
  replace (zlen digest * 3 - 1) with (zlen (hex_text digest)) by lia. rewrite <- app_assoc, write_at_app.
  - ostep. cbn [length drop app]. rewrite c_string_app; [done|]. pose proof (hex_bytes_pos digest Hb) as Hp.
    rewrite (hex_text_last _ Hne) in Hp. by apply Forall_app in Hp as [? _].
  - rewrite zlen_app, !zlen_one. pose proof (zlen_nonneg r). lia.
Qed.

(** * What holds between calls *)

Section facts.
Context {SSL X509 H : Type} `{OpenSSLLaws SSL X509} `{UvLaws H}.

Notation transport := (dtls_transport SSL H).
Notation dtls := (act transport dtls_event).
Implicit Types s : transport.

Record dtls_inv s : Prop := DtlsInv {
  di_timer : closed (dtlsTimer s) = false;
  di_active : IsActive (dtlsTimer s) = true -> IsRunning s = true /\ one_shot (dtlsTimer s);
  di_role : if IsRunning s then localRole s = CLIENT \/ localRole s = SERVER else localRole s = NONE;
  di_idle : IsRunning s = false -> handshakeDone s = false /\ handshakeDoneNow s = false;
  di_keyed : handshakeDone s = true \/ handshakeDoneNow s = true -> keyed (ssl s);
  di_connected : state s = CONNECTED -> handshakeDone s = true /\ has_fingerprint s = true
}.

(** Once the handshake is done and there is a fingerprint to compare, the
    connection is up. *)
Definition settled s : Prop := handshakeDone s = true -> has_fingerprint s = true -> state s = CONNECTED.

(** The state as the listener was told of it. *)
Definition tell (st : DtlsState) (e : dtls_event) : DtlsState :=
  match e with
  | OnDtlsTransportConnecting => CONNECTING
  | OnDtlsTransportConnected _ _ _ _ => CONNECTED
  | OnDtlsTransportFailed => FAILED
  | OnDtlsTransportClosed => CLOSED
  | _ => st
  end.

Definition told (st : DtlsState) (es : list dtls_event) : DtlsState := foldl tell st es.

Lemma dtls_told_app st es es' : told st (es ++ es') = told (told st es) es'.
Proof. apply foldl_app. Qed.

(** The keys the listener is given are those of a handshake in which the peer had
    a certificate with the announced fingerprint. *)
Definition attested (f : fingerprint) (e : dtls_event) : Prop :=
  match e with
  | OnDtlsTransportConnected suite localKey remoteKey cert =>
      exists (x : SSL) (role : Role) certificate digest ret material,
        algorithm f <> NO_ALGORITHM
        /\ SSL_get_peer_certificate x = Some certificate /\ X509_digest (algorithm f) certificate = Some digest
        /\ value f = hex_text digest /\ PEM_write_bio_X509 certificate = Some cert
        /\ SSL_export_keying_material x (srtpMasterLength suite * 2) = (ret, material) /\ ret <> 0
        /\ (role = CLIENT \/ role = SERVER)
        /\ master_keys material suite role = Ok (localKey, remoteKey)
  | _ => True
  end.

(** What a call did. *)
Definition went (f : fingerprint) s s' (es : list dtls_event) : Prop :=
  dtls_inv s' /\ remoteFingerprint s' = f /\ state s' = told (state s) es /\ Forall (attested f) es.

(** What a call did that leaves the state and the handshake as they were. *)
Definition like s s' : Prop :=
  state s' = state s /\ localRole s' = localRole s /\ remoteFingerprint s' = remoteFingerprint s
  /\ handshakeDone s' = handshakeDone s.

Lemma like_trans s1 s2 s3 : like s1 s2 -> like s2 s3 -> like s1 s3.
Proof. intros (?&?&?&?) (?&?&?&?). repeat split; congruence. Qed.

Lemma like_running s s' : like s s' -> IsRunning s' = IsRunning s.
Proof. intros (E & _). unfold IsRunning. by rewrite E. Qed.

Lemma like_fingerprint s s' : like s s' -> has_fingerprint s' = has_fingerprint s.
Proof. intros (_ & _ & E & _). unfold has_fingerprint. by rewrite E. Qed.

Lemma like_settled s s' : like s s' -> settled s -> settled s'.
Proof. intros L. pose proof (like_fingerprint _ _ L) as Ef. destruct L as (E & _ & _ & E'). unfold settled. by rewrite E, E', Ef. Qed.

Lemma went_trans f s s1 s' es es' : went f s s1 es -> went f s1 s' es' -> went f s s' (es ++ es').
Proof.
  intros (_ & _ & T & A) (I & F & T' & A'). split_and!; [done..| |].
  - by rewrite dtls_told_app, <- T.
  - by apply Forall_app.
Qed.

Lemma like_went s s' es :
  dtls_inv s' -> like s s' -> Forall (fun e => exists d, e = OnDtlsTransportSendData d) es ->
  went (remoteFingerprint s) s s' es.
Proof.
  intros I (E & _ & F & _) He. unfold went. rewrite E. split_and!; [done..| |].
  - induction He as [|e es (d & ->) He IH]; [done|]. exact IH.
  - eapply Forall_impl; [exact He|]. by intros e (d & ->).
Qed.

(** ** Calls of OpenSSL and of the timer *)

Lemma OnSslInfo_spec s l :
  let s' := foldl OnSslInfo s l in
  like s s' /\ ssl s' = ssl s /\ dtlsTimer s' = dtlsTimer s
  /\ handshakeDoneNow s' = handshakeDoneNow s || told_done l.
Proof.
  revert s. induction l as [|w l IH]; intros s; cbn [foldl]; [by rewrite orb_false_r|].
  destruct (IH (OnSslInfo s w)) as (L & E1 & E2 & E3).
  unfold told_done in *. cbn [existsb].
  assert (OnSslInfo s w = if tells_done w then set_done s (handshakeDone s) true else s) as Eo by done.
  rewrite Eo in *. destruct (tells_done w); cbn in *; split_and!; try done.
  rewrite E3. by destruct (handshakeDoneNow s).
Qed.

(** A call while the transport runs. *)
Lemma does_ssl_call x s :
  dtls_inv s -> IsRunning s = true -> (keyed (ssl s) \/ told_done x.2 = true -> keyed x.1) ->
  does (ssl_call x : dtls unit) (fun _ s' es => es = [] /\ like s s' /\ dtls_inv s' /\ ssl s' = x.1) s.
Proof.
  intros I R K. apply does_modify. destruct (OnSslInfo_spec (set_ssl s x.1) x.2) as (L & E1 & E2 & E3).
  set (s' := foldl _ _ _) in *. assert (like s s') as L' by exact L.
  pose proof (like_running _ _ L') as R'. split_and!; [done..| |done].
  destruct I, L' as (F1 & F2 & F3 & F4). split.
  - by rewrite E2.
  - rewrite E2, R', R. intros Ha. split; [done|]. by apply di_active0.
  - by rewrite R', F2.
  - rewrite R', R. done.
  - rewrite F4, E1, E3. cbn. intros Hd. apply K. rewrite orb_true_iff in Hd. destruct Hd as [Hd|[Hd|Hd]]; [left; apply di_keyed0; by left|left; apply di_keyed0; by right|by right].
  - unfold has_fingerprint. rewrite F1, F3, F4. done.
Qed.

Lemma inv_set_ssl s x : dtls_inv s -> (keyed (ssl s) -> keyed x) -> dtls_inv (set_ssl s x).
Proof. intros [] K. split; cbn; try done. auto. Qed.

Lemma inv_set_timer s t :
  dtls_inv s -> closed t = false -> (IsActive t = true -> IsRunning s = true /\ one_shot t) -> dtls_inv (set_timer s t).
Proof. intros [] C A. by split. Qed.

Lemma does_stop_timer s :
  dtls_inv s ->
  does (stop_timer : dtls unit) (fun _ s' es => es = [] /\ like s s' /\ dtls_inv s' /\ ssl s' = ssl s
    /\ handshakeDoneNow s' = handshakeDoneNow s /\ IsActive (dtlsTimer s') = false) s.
Proof.
  intros I. unfold stop_timer. apply does_bind, does_get. cbv beta.
  destruct (Stop_open (dtlsTimer s) (di_timer _ I)) as (t & E & A & C).
  apply does_bind, (does_lift _ t); [done|]. apply does_modify. split_and!; try done.
  apply inv_set_timer; [done..|]. by rewrite A.
Qed.

Lemma does_SendPending s :
  dtls_inv s ->
  does (SendPendingOutgoingDtlsData : dtls unit) (fun _ s' es =>
    Forall (fun e => exists d, e = OnDtlsTransportSendData d) es /\ like s s' /\ dtls_inv s'
    /\ handshakeDoneNow s' = handshakeDoneNow s) s.
Proof.
  intros I. unfold SendPendingOutgoingDtlsData. apply does_bind, does_get. cbv beta.
  destruct (BIO_eof (ssl s)); [by apply does_skip|]. cbn zeta. destruct (_ <=? 0); [by apply does_skip|].
  apply does_bind, does_emit, does_modify. split_and!; [|done| |done].
  - apply Forall_singleton. by eexists.
  - apply inv_set_ssl; [done|]. apply BIO_reset_keyed.
Qed.

(** ** Giving up *)

(** A transport that does not run. *)
Definition idle s : Prop := IsRunning s = false /\ handshakeDone s = false.

Lemma idle_settled s : idle s -> settled s.
Proof. intros [_ E] Hd. congruence. Qed.

Lemma idle_inv s st :
  dtls_inv s -> IsRunning s = false -> st <> CONNECTING -> st <> CONNECTED -> dtls_inv (set_state s st).
Proof.
  intros I E N1 N2. assert (IsRunning (set_state s st) = false) as E' by (by destruct st).
  destruct I. rewrite E in di_role0. split; rewrite ?E'; cbn; try done.
  - intros Ha. destruct (di_active0 Ha). congruence.
  - intros _. by apply di_idle0.
Qed.

Lemma does_Reset s :
  dtls_inv s ->
  does (Reset : dtls unit) (fun _ s' es => es = [] /\ dtls_inv s' /\ idle s'
    /\ remoteFingerprint s' = remoteFingerprint s) s.
Proof.
  intros I. unfold Reset. apply does_bind, does_get. cbv beta. destruct (IsRunning s) eqn:R; cbn [negb].
  2:{ apply does_skip. split_and!; try done. split; [done|]. by apply (di_idle _ I). }
  apply does_bind. eapply does_weaken; [by apply does_stop_timer|].
  intros u s1 es1 (-> & L & I1 & _ & _ & A). apply does_bind, does_get. cbv beta.
  apply does_bind, does_modify, does_bind, does_modify, does_modify.
  destruct (OnSslInfo_spec (set_ssl s1 (SSL_shutdown (ssl s1)).1) (SSL_shutdown (ssl s1)).2) as (L2 & E1 & E2 & E3).
  set (s2 := foldl _ _ _) in *. destruct L as (_ & _ & F & _), L2 as (_ & _ & F2 & _). cbn in F2, E2.
  split_and!; [done| |by split|cbn; congruence]. split; cbn; try done.
  - rewrite E2. apply (di_timer _ I1).
  - rewrite E2, A. done.
  - intros [?|?]; done.
Qed.

Lemma does_break_off st e s :
  dtls_inv s -> (st = FAILED /\ e = OnDtlsTransportFailed \/ st = CLOSED /\ e = OnDtlsTransportClosed) ->
  does (break_off st e : dtls bool) (fun ok s' es => ok = false /\ went (remoteFingerprint s) s s' es /\ idle s') s.
Proof.
  intros I He. unfold break_off. apply does_bind. eapply does_weaken; [by apply does_Reset|].
  intros u s' es (-> & I' & [R D] & F). apply does_bind, does_modify, does_bind, does_emit, does_ret.
  assert (st <> CONNECTING /\ st <> CONNECTED) as [N1 N2] by (destruct He as [[-> _]|[-> _]]; done).
  split_and!; [done| |by split; [destruct st|]]. unfold went. split_and!; [by apply idle_inv|done| |].
  - by destruct He as [[-> ->]|[-> ->]].
  - apply Forall_singleton. by destruct He as [[-> ->]|[-> ->]].
Qed.

(** The result of a call that may give up. *)
Definition goes (ok : bool) s s' (es : list dtls_event) : Prop :=
  went (remoteFingerprint s) s s' es /\ if ok then IsRunning s' = true else idle s'.

Lemma does_failed s :
  dtls_inv s -> does (break_off FAILED OnDtlsTransportFailed : dtls bool) (fun ok s' es => ok = false /\ goes ok s s' es) s.
Proof.
  intros I. eapply does_weaken; [apply does_break_off; [done|by left]|].
  intros ok s' es (-> & W & Id). done.
Qed.

Lemma does_SetTimeout now s :
  dtls_inv s -> IsRunning s = true ->
  does (SetTimeout now : dtls bool) (fun ok s' es => goes ok s s' es /\ (ok = true -> like s s')) s.
Proof.
  intros I R. unfold SetTimeout. apply does_bind, does_get. cbv beta.
  apply does_bind, (does_lift _ ()); [by rewrite R|]. cbv beta.
  assert (goes true s s [] /\ (true = true -> like s s)) as Hsame.
  { split; [|done]. split; [|done]. apply like_went; [done..|constructor]. }
  destruct (DTLSv1_get_timeout (ssl s) now) as [[sec usec]|]; [|by apply does_ret].
  cbn zeta. destruct (_ =? 0); [by apply does_ret|]. destruct (_ <? 30000).
  - destruct (Start_open (dtlsTimer s) (u64 (u64 (sec * 1000) + Z.quot usec 1000)) (di_timer _ I)) as (t & E & A & O & _).
    apply does_bind, (does_lift _ t); [done|]. apply does_bind, does_modify, does_ret.
    split; [|done]. split; [|done]. apply like_went; [|done|constructor].
    apply inv_set_timer; [done| |done]. apply O.
  - eapply does_weaken; [by apply does_failed|]. intros ok s' es (-> & G). done.
Qed.

(** ** The handshake *)

(** The certificate of the peer is the announced one. *)
Definition authentic s (pem : list Z) : Prop :=
  exists certificate digest,
    SSL_get_peer_certificate (ssl s) = Some certificate
    /\ X509_digest (algorithm (remoteFingerprint s)) certificate = Some digest
    /\ value (remoteFingerprint s) = hex_text digest /\ PEM_write_bio_X509 certificate = Some pem.

Lemma check_certificate_spec s :
  exists r, check_certificate s = Ok r /\ forall pem, r = Some pem -> authentic s pem.
Proof.
  unfold check_certificate. destruct (SSL_get_peer_certificate (ssl s)) as [c|] eqn:Ec; [|by exists None].
  destruct (X509_digest _ c) as [d|] eqn:Ed; [|by exists None].
  destruct (digest_size _ _ _ Ed) as [Hb Hl]. rewrite hex_fingerprint_text by done. ostep.
  destruct (bool_decide_reflect (value (remoteFingerprint s) = hex_text d)) as [Ev|]; cbn [negb]; [|by exists None].
  destruct (PEM_write_bio_X509 c) as [pem|] eqn:Ep; [|by exists None].
  destruct (zlen pem =? 0); [by exists None|]. exists (Some pem). split; [done|]. intros p [= <-]. by exists c, d.
Qed.

Lemma find_suite_found l name found :
  name ∈ l.*2 \/ is_Some found -> is_Some (find_suite l name found).
Proof.
  revert found. induction l as [|[suite n] l IH]; intros found Hf; cbn.
  - destruct Hf as [Hf|Hf]; [by apply elem_of_nil in Hf|done].
  - apply IH. case_bool_decide as E; [right; by eexists|].
    destruct Hf as [[Hf|Hf]%elem_of_cons|Hf]; [by destruct E|by left|by right].
Qed.

Lemma GetNegotiated_spec s : exists r, GetNegotiatedSrtpCryptoSuite s = Ok r.
Proof.
  unfold GetNegotiatedSrtpCryptoSuite. destruct (SSL_get_selected_srtp_profile (ssl s)) as [name|] eqn:E; [|by exists None].
  destruct (find_suite_found srtpCryptoSuites name None) as [suite ->]; [left; by apply profile_offered in E|].
  by exists (Some suite).
Qed.

Lemma master_keys_total material suite role :
  zlen material = srtpMasterLength suite * 2 -> role = CLIENT \/ role = SERVER ->
  exists l r, master_keys material suite role = Ok (l, r).
Proof.
  intros Hl Hr. unfold master_keys, master_key. unfold srtpMasterLength in Hl.
  assert (0 <= srtpKeyLength suite /\ 0 <= srtpSaltLength suite) as [Hk Hs] by (destruct suite; done).
  set (n := srtpKeyLength suite) in *. set (m := srtpSaltLength suite) in *.
  destruct (slice_in_bounds material 0 n) as [k1 E1]; [lia..|].
  destruct (slice_in_bounds material n n) as [k2 E2]; [lia..|].
  destruct (slice_in_bounds material (n + n) m) as [s1 E3]; [lia..|].
  destruct (slice_in_bounds material (n + n + m) m) as [s2 E4]; [lia..|].
  destruct Hr as [-> | ->]; rewrite E1, E2, E3, E4; cbn; eauto.
Qed.

Lemma does_ExtractSrtpKeys suite pem s :
  dtls_inv s -> IsRunning s = true -> handshakeDone s = true -> has_fingerprint s = true ->
  authentic s pem -> remoteCert s = pem ->
  does (ExtractSrtpKeys suite : dtls unit) (fun _ s' es => goes true s s' es /\ settled s') s.
Proof.
  intros I R D F (c & d & Ec & Ed & Ev & Ep) Er. unfold ExtractSrtpKeys. apply does_bind, does_get. cbv beta.
  pose proof (export_keyed (ssl s) (srtpMasterLength suite * 2)) as Hk.
  pose proof (export_length (ssl s) (srtpMasterLength suite * 2)) as Hl.
  destruct (SSL_export_keying_material (ssl s) (srtpMasterLength suite * 2)) as [ret material] eqn:Ex. cbn in Hk, Hl.
  assert (ret <> 0) as Hret by (apply Hk, (di_keyed _ I); by left).
  pose proof (di_role _ I) as Hr. rewrite R in Hr.
  destruct (master_keys_total material suite (localRole s)) as (l & r & Em); [apply Hl; by destruct suite|done|].
  apply does_bind, (does_lift _ ()).
  { apply require_true. unfold truthy. by rewrite (proj2 (Z.eqb_neq _ _)). }
  apply does_bind, (does_lift _ (l, r)); [done|]. apply does_bind, does_modify, does_emit.
  split; [|by intros ? ?]. split; [|done]. unfold went. split_and!; [|done|done|].
  - destruct I. split; cbn; try done. intros Ha. split; [done|]. by apply di_active0.
  - apply Forall_singleton. cbn. exists (ssl s), (localRole s), c, d, ret, material. subst pem.
    unfold has_fingerprint in F. by rewrite negb_true_iff, bool_decide_eq_false in F.
Qed.

Lemma does_ProcessHandshake s :
  dtls_inv s -> IsRunning s = true -> handshakeDone s = true -> has_fingerprint s = true ->
  does (ProcessHandshake : dtls bool) (fun ok s' es => goes ok s s' es /\ settled s') s.
Proof.
  intros I R D F. unfold ProcessHandshake. apply does_bind, does_get. cbv beta.
  apply does_bind, (does_lift _ ()); [by rewrite D|]. apply does_bind, (does_lift _ ()); [by rewrite F|].
  apply does_bind. unfold CheckRemoteFingerprint. apply does_bind, does_get. cbv beta.
  apply does_bind, (does_lift _ ()); [by rewrite F|].
  destruct (check_certificate_spec s) as (r & E & Hr). apply does_bind, (does_lift _ r); [done|]. cbv beta.
  assert (forall m : dtls bool, m = break_off FAILED OnDtlsTransportFailed -> forall s', dtls_inv s' ->
    does m (fun ok s2 es => goes ok s' s2 es /\ settled s2) s') as Hfail.
  { intros m -> s' I'. eapply does_weaken; [by apply does_failed|]. intros ok s2 es (-> & G). split; [done|].
    by apply idle_settled, G. }
  destruct r as [pem|]; [|by apply does_ret, Hfail]. apply does_bind, does_modify, does_ret. cbv beta. cbn [negb].
  assert (dtls_inv (set_cert s pem)) as I' by (destruct I; by split).
  apply does_bind, does_get. cbv beta. destruct (GetNegotiated_spec (set_cert s pem)) as (q & Eq).
  apply does_bind, (does_lift _ q); [done|]. cbv beta. destruct q as [suite|]; [|exact (Hfail _ eq_refl (set_cert s pem) I')].
  apply does_bind. eapply does_weaken; [apply (does_ExtractSrtpKeys suite pem (set_cert s pem)); first [done|exact (Hr pem eq_refl)]|].
  intros u s' es (G & S). apply does_ret. rewrite (app_nil_r es). exact (conj G S).
Qed.

(** ** The operations *)

Lemma does_CheckStatus ret s :
  dtls_inv s -> IsRunning s = true -> settled s ->
  does (CheckStatus ret : dtls bool) (fun ok s' es => goes ok s s' es /\ settled s') s.
Proof.
  intros I R S. unfold CheckStatus. apply does_bind, does_get. cbv beta zeta.
  destruct (handshakeDoneNow s) eqn:Dn.
  - apply does_bind, does_put. apply does_bind.
    assert (dtls_inv (set_done s true false)) as I1.
    { destruct I. split; cbn; try done; [intros E; change (IsRunning s = false) in E; congruence|intros _; apply di_keyed0; by right|].
      intros Ec. split; [done|]. by apply di_connected0. }
    eapply does_weaken; [by apply does_stop_timer|]. intros u s1 es1 (-> & L & I1' & _ & _ & _).
    pose proof (like_running _ _ L) as R1. pose proof (like_fingerprint _ _ L) as F1.
    destruct L as (L1 & L2 & L3 & L4). cbn in *. change (IsRunning (set_done s true false)) with (IsRunning s) in R1.
    change (has_fingerprint (set_done s true false)) with (has_fingerprint s) in F1. rewrite R in R1.
    destruct (negb (handshakeDone s) && has_fingerprint s) eqn:Eb.
    + apply andb_true_iff in Eb as [_ Hf]. rewrite Hf in F1.
      eapply does_weaken; [by apply does_ProcessHandshake|]. intros ok s' es' [[(W1 & W2 & W3 & W4) G] S']. split; [|done].
      split; [|done]. rewrite L3 in *. rewrite L1 in W3. done.
    + apply does_ret. split; [|].
      * split; [|congruence]. unfold went. split_and!; [done|done|done|constructor].
      * intros _ Hf. rewrite L1. rewrite F1 in Hf. rewrite Hf, andb_true_r, negb_false_iff in Eb. by apply S.
  - assert (forall st e, (st = FAILED /\ e = OnDtlsTransportFailed \/ st = CLOSED /\ e = OnDtlsTransportClosed) ->
      does (break_off st e : dtls bool) (fun ok s' es => goes ok s s' es /\ settled s') s) as Hg.
    { intros st e He. eapply does_weaken; [by apply does_break_off|]. intros ok s' es (-> & W & Id).
      split; [done|by apply idle_settled]. }
    destruct (_ || _); [|].
    + case_bool_decide; apply Hg; auto.
    + apply does_ret. split; [|done]. split; [|done]. apply like_went; [done..|constructor].
Qed.

Lemma goes_trans ok ok' s s1 s' es es' : goes ok s s1 es -> goes ok' s1 s' es' -> goes ok' s s' (es ++ es').
Proof.
  intros [W _] [W' G]. split; [|done]. pose proof W as (_ & F & _). rewrite F in W'. by eapply went_trans.
Qed.

(** A call that leaves the transport running, and those after it. *)
Lemma like_goes s s1 es :
  dtls_inv s1 -> like s s1 -> IsRunning s = true -> Forall (fun e => exists d, e = OnDtlsTransportSendData d) es ->
  goes true s s1 es.
Proof.
  intros I L R He. split; [by apply like_went|]. by rewrite (like_running _ _ L).
Qed.

(** What an operation does. *)
Definition operates s s' (es : list dtls_event) : Prop := went (remoteFingerprint s) s s' es /\ settled s'.

Lemma does_ProcessDtlsData now data s :
  dtls_inv s -> settled s -> does (ProcessDtlsData now data : dtls unit) (fun _ s' es => operates s s' es) s.
Proof.
  intros I S. unfold ProcessDtlsData. apply does_bind, does_get. cbv beta. destruct (IsRunning s) eqn:R; cbn [negb].
  2:{ apply does_skip. split; [|done]. apply like_went; [done..|constructor]. }
  apply does_bind, does_put. apply does_bind, does_get. cbv beta.
  set (s1 := set_ssl s (BIO_write (ssl s) data)) in *.
  assert (dtls_inv s1) as I1 by (apply inv_set_ssl; [done|apply BIO_write_keyed]).
  pose proof (read_keyed (ssl s1) now SslReadBufferSize) as Hk.
  destruct (SSL_read (ssl s1) now SslReadBufferSize) as [x [read buf]] eqn:Er. cbn in Hk.
  apply does_bind. eapply does_weaken; [by apply does_ssl_call|]. intros u s2 es2 (-> & L2 & I2 & _).
  apply does_bind. eapply does_weaken; [by apply does_SendPending|]. intros u3 s3 es3 (E3 & L3 & I3 & _).
  assert (like s s3) as L by (eapply like_trans; [|exact L3]; exact L2).
  pose proof (like_goes s s3 es3 I3 L R E3) as G3. pose proof (like_settled _ _ L S) as S3.
  apply does_bind. eapply does_weaken; [apply does_CheckStatus; [done|apply G3|done]|].
  intros ok s4 es4 [G4 S4]. pose proof (goes_trans _ _ _ _ _ _ _ G3 G4) as G34.
  destruct ok; cbn [negb].
  2:{ apply does_skip. rewrite !app_nil_r. split; [apply G34|done]. }
  apply does_bind. eapply does_weaken; [apply does_SetTimeout; apply G4|]. intros ok s5 es5 [G5 L5].
  pose proof (goes_trans _ _ _ _ _ _ _ G34 G5) as G35. rewrite <- app_assoc in G35.
  destruct ok; cbn [negb].
  2:{ apply does_skip. rewrite !app_nil_r. split; [apply G35|]. apply idle_settled, G5. }
  pose proof (like_settled _ _ (L5 eq_refl) S4) as S5.
  assert (operates s s5 (es3 ++ es4 ++ es5 ++ [])) as Hop by (rewrite app_nil_r; split; [apply G35|done]).
  destruct (0 <? read); [|by apply does_skip]. apply does_bind, does_get. cbv beta.
  destruct (handshakeDone s5); cbn [negb]; [|by apply does_skip]. apply does_emit.
  cbn [app]. split; [|done]. destruct G35 as [(W1 & W2 & W3 & W4) _]. unfold went. split_and!; [done..| |].
  - by rewrite !app_assoc, dtls_told_app, <- !app_assoc, <- W3.
  - rewrite !app_assoc. apply Forall_app. split; [by rewrite <- !app_assoc|by apply Forall_singleton].
Qed.

Lemma does_SendApplicationData now data s :
  dtls_inv s -> settled s -> does (SendApplicationData now data : dtls unit) (fun _ s' es => operates s s' es) s.
Proof.
  intros I S. unfold SendApplicationData. apply does_bind, does_get. cbv beta.
  assert (operates s s []) as Hno by (split; [apply like_went; [done..|constructor]|done]).
  destruct (bool_decide_reflect (state s = CONNECTED)) as [Ec|]; cbn [negb]; [|by apply does_skip].
  destruct (zlen data =? 0); [by apply does_skip|]. assert (IsRunning s = true) as R by (unfold IsRunning; by rewrite Ec).
  pose proof (write_keyed (ssl s) now data) as Hk. destruct (SSL_write (ssl s) now data) as [x written] eqn:Ew. cbn in Hk.
  apply does_bind. eapply does_weaken; [by apply does_ssl_call|]. intros u s2 es2 (-> & L2 & I2 & _).
  pose proof (like_goes s s2 [] I2 L2 R (Forall_nil_2 _)) as G2. pose proof (like_settled _ _ L2 S) as S2.
  assert (forall s3 es3, goes true s s3 es3 -> settled s3 ->
    does (SendPendingOutgoingDtlsData : dtls unit) (fun _ s' es => operates s s' (es3 ++ es)) s3) as Hsend.
  { intros s3 es3 G3 S3. eapply does_weaken; [apply does_SendPending; apply G3|]. intros u3 s4 es4 (E4 & L4 & I4 & _).
    split; [|by eapply like_settled]. eapply went_trans; [apply G3|].
    destruct G3 as [(_ & F3 & _) _]. rewrite <- F3. by apply like_went. }
  destruct (written <? 0); [|by apply (Hsend s2 [])].
  apply does_bind. eapply does_weaken; [apply does_CheckStatus; [done|apply G2|done]|]. intros ok s3 es3 [G3 S3].
  pose proof (goes_trans _ _ _ _ _ _ _ G2 G3) as G23. destruct ok; cbn [negb].
  - eapply does_weaken; [by apply (Hsend s3 es3)|]. done.
  - apply does_skip. rewrite !app_nil_r. split; [apply G23|done].
Qed.

Lemma does_OnTimer now s :
  dtls_inv s -> settled s -> IsActive (dtlsTimer s) = true ->
  does (OnTimer now : dtls unit) (fun _ s' es => operates s s' es) s.
Proof.
  intros I S A. unfold OnTimer. destruct (di_active _ I A) as [R O]. destruct (fired_one_shot _ O) as (A1 & C1 & _).
  apply does_bind, does_modify. apply does_bind, does_get. cbv beta.
  set (s1 := set_timer s (fired (dtlsTimer s))) in *.
  assert (dtls_inv s1) as I1 by (apply inv_set_timer; [done..|by rewrite A1]).
  destruct (handshakeDone s1) eqn:D.
  { apply does_skip. split; [|done]. apply like_went; [done..|constructor]. }
  pose proof (timeout_keyed (ssl s1) now) as Hk. apply does_bind.
  eapply does_weaken; [by apply does_ssl_call|]. intros u s2 es2 (-> & L2 & I2 & _).
  apply does_bind. eapply does_weaken; [by apply does_SendPending|]. intros u3 s3 es3 (E3 & L3 & I3 & _).
  assert (like s s3) as L by (eapply like_trans; [|exact L3]; exact L2).
  pose proof (like_goes s s3 es3 I3 L R E3) as G3.
  apply does_bind. eapply does_weaken; [apply does_SetTimeout; apply G3|]. intros ok s5 es5 [G5 L5].
  apply does_skip. cbn [app]. rewrite !app_nil_r. pose proof (goes_trans _ _ _ _ _ _ _ G3 G5) as G. split; [apply G|].
  destruct ok; [|apply idle_settled, G5]. eapply like_settled; [by apply L5|]. by eapply like_settled.
Qed.

(** A transport that starts. *)
Lemma starts_inv s role :
  dtls_inv s -> idle s -> role = CLIENT \/ role = SERVER ->
  dtls_inv (set_state (set_role s role) CONNECTING) /\ settled (set_state (set_role s role) CONNECTING).
Proof.
  intros I [R D] Hr. destruct I. split; [|intros Hd; cbn in Hd; congruence]. split; cbn; try done.
  intros Ha. destruct (di_active0 Ha) as [R' _]. congruence.
Qed.

Lemma starts_ssl s role x :
  dtls_inv s -> idle s -> role = CLIENT \/ role = SERVER ->
  dtls_inv (set_ssl (set_state (set_role s role) CONNECTING) x).
Proof.
  intros I Id Hr. destruct (starts_inv s role I Id Hr) as [[] _]. destruct Id as [R D].
  destruct (di_idle _ I R) as [_ Dn]. split; cbn in *; try done. rewrite D, Dn. by intros [?|?].
Qed.

Lemma does_Run now role s :
  dtls_inv s -> settled s -> role = CLIENT \/ role = SERVER ->
  does (Run now role : dtls unit) (fun _ s' es => operates s s' es) s.
Proof.
  intros I S Hr. unfold Run. apply does_bind, (does_lift _ ()); [by destruct Hr as [-> | ->]|].
  apply does_bind, does_get. cbv beta. case_bool_decide as Er.
  { apply does_skip. split; [|done]. apply like_went; [done..|constructor]. }
  apply does_bind. apply does_weaken with (Q := fun _ s1 es => es = [] /\ dtls_inv s1 /\ idle s1
    /\ remoteFingerprint s1 = remoteFingerprint s).
  { pose proof (di_role _ I) as Hrole. destruct (IsRunning s) eqn:R.
    - rewrite (proj2 (orb_true_iff _ _)); [by apply does_Reset|]. rewrite !bool_decide_eq_true. done.
    - rewrite Hrole. apply does_skip. split_and!; try done. split; [done|]. by apply (di_idle _ I). }
  intros u s1 es1 (-> & I1 & Id1 & F1). destruct (starts_inv s1 role I1 Id1 Hr) as [I2 S2].
  apply does_bind, does_modify. apply does_bind, does_emit. cbv beta.
  set (s2 := set_state (set_role s1 role) CONNECTING) in *.
  assert (went (remoteFingerprint s) s s2 [OnDtlsTransportConnecting]) as W2.
  { unfold went. split_and!; [done|by rewrite <- F1|done|by apply Forall_singleton]. }
  assert (forall x, does (ssl_call (SSL_do_handshake x now) : dtls unit)
    (fun _ s3 es => es = [] /\ like s2 s3 /\ dtls_inv s3) (set_ssl s2 x)) as Hshake.
  { intros x. eapply does_weaken; [apply does_ssl_call; [by apply starts_ssl|done|apply do_handshake_keyed]|].
    intros u3 s3 es3 (-> & L3 & I3 & _). done. }
  destruct Hr as [-> | ->].
  - apply does_bind, does_modify, does_bind, does_get. cbv beta. apply does_bind.
    eapply does_weaken; [apply Hshake|]. intros u3 s3 es3 (-> & L3 & I3).
    apply does_bind. eapply does_weaken; [by apply does_SendPending|]. intros u4 s4 es4 (E4 & L4 & I4 & _).
    pose proof (like_goes s2 s4 es4 I4 (like_trans _ _ _ L3 L4) eq_refl E4) as G4.
    apply does_bind. eapply does_weaken; [apply does_SetTimeout; apply G4|]. intros ok s5 es5 [G5 L5].
    apply does_skip. pose proof (goes_trans _ _ _ _ _ _ _ G4 G5) as G. cbn [app]. rewrite !app_nil_r.
    split; [|].
    + apply (went_trans _ _ s2 _ [OnDtlsTransportConnecting]); [done|]. destruct G as [G _].
      replace (remoteFingerprint s) with (remoteFingerprint s2) by (by rewrite <- F1). done.
    + destruct ok; [|apply idle_settled, G5]. eapply like_settled; [by apply L5|].
      eapply like_settled; [exact L4|]. by eapply like_settled.
  - apply does_bind, does_modify, does_bind, does_get. cbv beta.
    eapply does_weaken; [apply Hshake|]. intros u3 s3 es3 (-> & L3 & I3).
    pose proof (like_goes s2 s3 [] I3 L3 eq_refl (Forall_nil_2 _)) as [G _].
    split; [|by eapply like_settled]. apply (went_trans _ _ s2 _ [OnDtlsTransportConnecting] []); [done|].
    replace (remoteFingerprint s) with (remoteFingerprint s2) by (by rewrite <- F1). done.
Qed.

Lemma does_SetRemoteFingerprint f s :
  dtls_inv s -> algorithm f <> NO_ALGORITHM ->
  does (SetRemoteFingerprint f : dtls bool) (fun _ s' es => went f s s' es /\ settled s') s.
Proof.
  intros I Hf. unfold SetRemoteFingerprint. apply does_bind, (does_lift _ ()); [by rewrite bool_decide_false|].
  apply does_bind, does_modify, does_bind, does_get. cbv beta.
  assert (has_fingerprint (set_fingerprint s f) = true) as F by (unfold has_fingerprint; cbn; by rewrite bool_decide_false).
  assert (dtls_inv (set_fingerprint s f)) as I1.
  { destruct I. split; cbn; try done. intros Ec. split; [|done]. by apply di_connected0. }
  destruct (handshakeDone (set_fingerprint s f) && negb (bool_decide (state (set_fingerprint s f) = CONNECTED))) eqn:E.
  - apply andb_true_iff in E as [D _]. eapply does_weaken; [apply does_ProcessHandshake; try done|].
    + destruct (IsRunning (set_fingerprint s f)) eqn:R; [done|]. destruct (di_idle _ I1 R). congruence.
    + intros ok s' es [[W _] S]. done.
  - apply does_ret. split.
    + unfold went. split_and!; [done..|constructor].
    + intros D _. rewrite D in E. cbn [andb] in E. by rewrite negb_false_iff, bool_decide_eq_true in E.
Qed.

(** ** Runs *)

(** What can happen to a transport. *)
Inductive dtls_op : Type :=
| RunOp (now : Z) (role : Role)
| FingerprintOp (f : fingerprint)
| DataOp (now : Z) (data : list Z)
| SendOp (now : Z) (data : list Z)
| TimerOp (now : Z).

Definition run_op (op : dtls_op) : dtls unit :=
  match op with
  | RunOp now role => Run now role
  | FingerprintOp f => _ ← SetRemoteFingerprint f; skip
  | DataOp now data => ProcessDtlsData now data
  | SendOp now data => SendApplicationData now data
  | TimerOp now => OnTimer now
  end.

(** The roles and the fingerprints its owner may give; a timer that runs. *)
Definition op_fine s (op : dtls_op) : Prop :=
  match op with
  | RunOp _ role => role = CLIENT \/ role = SERVER
  | FingerprintOp f => algorithm f <> NO_ALGORITHM
  | DataOp _ _ | SendOp _ _ => True
  | TimerOp _ => IsActive (dtlsTimer s) = true
  end.

Definition op_fingerprint s (op : dtls_op) : fingerprint :=
  match op with FingerprintOp f => f | _ => remoteFingerprint s end.

Lemma does_dtls_op op s :
  dtls_inv s -> settled s -> op_fine s op ->
  does (run_op op) (fun _ s' es => went (op_fingerprint s op) s s' es /\ settled s') s.
Proof.
  intros I S Hop. destruct op as [now role|f|now data|now data|now]; cbn [run_op op_fingerprint op_fine] in *.
  - by apply does_Run.
  - apply does_bind. eapply does_weaken; [by apply does_SetRemoteFingerprint|]. intros ok s' es Hq.
    apply does_skip. by rewrite app_nil_r.
  - by apply does_ProcessDtlsData.
  - by apply does_SendApplicationData.
  - by apply does_OnTimer.
Qed.

(** A transport, the fingerprints it was given, and what it told. *)
Inductive dtls_run : transport -> list fingerprint -> list dtls_event -> Prop :=
| dtls_new : dtls_run new_DtlsTransport [] []
| dtls_step s fs es op s' es' :
    dtls_run s fs es -> op_fine s op -> run_op op s = Ok ((), s', es') ->
    dtls_run s' (match op with FingerprintOp f => f :: fs | _ => fs end) (es ++ es').

Lemma new_dtls_inv : dtls_inv new_DtlsTransport /\ settled new_DtlsTransport.
Proof.
  split; [|done]. split; cbn; try done; [|by intros [?|?]].
  unfold IsActive, timer_new. cbn. by rewrite uv_init_inactive.
Qed.

(** Every connection that was told is with a peer that has a certificate with one
    of the fingerprints. *)
Definition attested_by (fs : list fingerprint) (e : dtls_event) : Prop :=
  match e with OnDtlsTransportConnected _ _ _ _ => exists f, f ∈ fs /\ attested f e | _ => True end.

Lemma attested_weaken fs fs' e : (forall f, f ∈ fs -> f ∈ fs') -> attested_by fs e -> attested_by fs' e.
Proof. intros Hs. destruct e; try done. intros (f & Hf & A). exists f. auto. Qed.

Lemma dtls_run_inv s fs es :
  dtls_run s fs es ->
  dtls_inv s /\ settled s /\ state s = told NEW es /\ Forall (attested_by fs) es
  /\ (has_fingerprint s = true -> remoteFingerprint s ∈ fs) /\ (fs <> [] -> has_fingerprint s = true).
Proof.
  induction 1 as [|s fs es op s' es' Hrun (I & S & T & A & Hf & Hn) Hop E].
  { destruct new_dtls_inv. split_and!; try done. }
  destruct (does_run _ _ _ _ _ _ (does_dtls_op op s I S Hop) E) as [(I' & F & T' & A') S'].
  set (fs' := match op with FingerprintOp f => f :: fs | _ => fs end).
  assert (forall f, f ∈ fs -> f ∈ fs') as Hsub by (intros f Hin; subst fs'; destruct op; try done; by apply elem_of_cons; right).
  assert (has_fingerprint s' = true -> remoteFingerprint s' ∈ fs') as Hf'.
  { unfold has_fingerprint. rewrite F. subst fs'. destruct op; cbn; try done; intros _; apply elem_of_cons; by left. }
  assert (fs' <> [] -> has_fingerprint s' = true) as Hn'.
  { unfold has_fingerprint. rewrite F. subst fs'. destruct op; cbn; try exact Hn. intros _. by rewrite bool_decide_false. }
  split_and!; [done|done| | |done|done].
  - by rewrite dtls_told_app, <- T.
  - apply Forall_app. split; [eapply Forall_impl; [exact A|]; intros e; by apply attested_weaken|].
    apply Forall_forall. intros e He. pose proof (proj1 (Forall_forall _ _) A' e He) as Ha. destruct e; try done.
    exists (op_fingerprint s op). split; [|done]. rewrite <- F. apply Hf'. unfold has_fingerprint.
    destruct Ha as (_ & _ & _ & _ & _ & _ & Hna & _). rewrite F. by rewrite bool_decide_false.
Qed.

(** Both ends of a connection get the same keys. *)
Lemma master_keys_agree material suite l r :
  master_keys material suite CLIENT = Ok (l, r) <-> master_keys material suite SERVER = Ok (r, l).
Proof.
  unfold master_keys. destruct (master_key material suite 0 _), (master_key material suite (srtpKeyLength suite) _);
    cbn; split; congruence.
Qed.

(** C29: whatever data, requests and timers come, every operation of a DTLS
    transport returns; the state is the one its listener was told; and whenever
    the listener is told that it is connected, the certificate of the peer has a
    fingerprint that was announced, and the keys are the local and the remote
    ones of the material exported from that connection.  Once the handshake is
    done and a fingerprint is known, it is connected. *)
Theorem dtls_safe s fs es :
  dtls_run s fs es ->
  (forall op, op_fine s op -> exists s' es', run_op op s = Ok ((), s', es'))
  /\ state s = told NEW es /\ Forall (attested_by fs) es
  /\ (handshakeDone s = true -> fs <> [] -> state s = CONNECTED).
Proof.
  intros Hrun. destruct (dtls_run_inv _ _ _ Hrun) as (I & S & T & A & _ & Hn). split_and!; [|done|done|by auto].
  intros op Hop. destruct (does_dtls_op op s I S Hop) as ([] & s' & es' & E & _). by exists s', es'.
Qed.
End facts.

(** * An SSL library for examples *)

(** A handshake is one record that begins with 20, application data one that
    begins with 23; a close alert one that begins with 21. *)
Record sample_ssl : Type := SampleSsl {
  s_done : bool;
  s_closed : bool;
  s_in : list Z;
  s_out : list Z
}.

#[export] Instance sample_openssl : OpenSSL sample_ssl (list Z) := {
  SSL_new := SampleSsl false false [] [];
  SSL_set_connect_state x := x;
  SSL_set_accept_state x := x;
  SSL_do_handshake x now := (SampleSsl (s_done x) (s_closed x) (s_in x) [22], [16]);
  SSL_read x now n :=
    let y := SampleSsl (s_done x) (s_closed x) [] (s_out x) in
    match s_in x with
    | [] => (y, [], (-1, []))
    | c :: d =>
        if c =? 20 then (SampleSsl true (s_closed x) [] (s_out x), [32], (-1, []))
        else if c =? 21 then (SampleSsl (s_done x) true [] (s_out x), [], (0, []))
        else if c =? 23 then (y, [], (zlen d, d))
        else (y, [], (-1, []))
    end;
  SSL_write x now data := (SampleSsl (s_done x) (s_closed x) (s_in x) (23 :: data), [], zlen data);
  SSL_shutdown x := (x, []);
  SSL_clear x := SampleSsl false false [] (s_out x);
  SSL_get_error x ret := 2;
  SSL_get_shutdown x := if s_closed x then 2 else 0;
  BIO_write x data := SampleSsl (s_done x) (s_closed x) data (s_out x);
  BIO_eof x := match s_out x with [] => true | _ => false end;
  BIO_get_mem_data x := s_out x;
  BIO_reset x := SampleSsl (s_done x) (s_closed x) (s_in x) [];
  DTLSv1_get_timeout x now := if s_done x then None else Some (1, 0);
  DTLSv1_handle_timeout x now := (SampleSsl (s_done x) (s_closed x) (s_in x) [22], []);
  SSL_get_peer_certificate x := if s_done x then Some [1; 2; 3] else None;
  X509_digest a c := Some [10; 171];
  PEM_write_bio_X509 c := Some (45 :: c);
  SSL_get_selected_srtp_profile x := Some "SRTP_AES128_CM_SHA1_80"%string;
  SSL_export_keying_material x n := (1, Z.of_nat <$> seq 0 (Z.to_nat n))
}.

#[export] Program Instance sample_openssl_laws : OpenSSLLaws sample_ssl (list Z) := {
  keyed x := s_done x = true
}.
Next Obligation. intros x now. cbn. by intros [?|?]. Qed.
Next Obligation.
  intros x now n. cbn. destruct (s_in x) as [|c l]; [by intros [?|?]|].
  destruct (c =? 20); [done|]. destruct (c =? 21), (c =? 23); by intros [?|?].
Qed.
Next Obligation. intros x now data. cbn. by intros [?|?]. Qed.
Next Obligation. intros x now. cbn. by intros [?|?]. Qed.
Next Obligation. intros x data Hk. done. Qed.
Next Obligation. intros x Hk. done. Qed.
Next Obligation. done. Qed.
Next Obligation. intros x n Hn. cbn. unfold zlen. rewrite length_fmap, length_seq. lia. Qed.
Next Obligation. intros x name [= <-]. cbn. set_solver. Qed.
Next Obligation.
  intros a c d [= <-]. split; [|done]. repeat apply Forall_cons_2; [unfold in_uint; lia..|constructor].
Qed.

(** ["0A:AB"], the fingerprint of its certificates. *)
Definition sample_fingerprint : fingerprint := Fingerprint SHA256 [48; 65; 58; 65; 66].

Definition sample_ops : list dtls_op :=
  [RunOp 0 CLIENT; TimerOp 1000; FingerprintOp sample_fingerprint; DataOp 1100 [20]; DataOp 1200 [23; 7];
   SendOp 1300 [8]].

Notation sample_transport := (dtls_transport sample_ssl (option (Z * Z))).

Fixpoint run_ops (ops : list dtls_op) : act sample_transport dtls_event unit :=
  match ops with [] => skip | op :: ops => run_op op;; run_ops ops end.

Definition sample_run : sample_transport * list dtls_event :=
  match run_ops sample_ops new_DtlsTransport with Ok (_, s, es) => (s, es) | Err _ => (new_DtlsTransport, []) end.

Example sample_run_events :
  sample_run.2 = [OnDtlsTransportConnecting; OnDtlsTransportSendData [22]; OnDtlsTransportSendData [22];
    OnDtlsTransportConnected AES_CM_128_HMAC_SHA1_80 ((Z.of_nat <$> seq 0 16) ++ (Z.of_nat <$> seq 32 14))
      ((Z.of_nat <$> seq 16 16) ++ (Z.of_nat <$> seq 46 14)) [45; 1; 2; 3];
    OnDtlsTransportApplicationDataReceived [7]; OnDtlsTransportSendData [23; 8]].
Proof. vm_compute. reflexivity. Qed.


Definition op_ok (s : sample_transport) (op : dtls_op) : bool :=
  match op with
  | RunOp _ role => bool_decide (role = CLIENT) || bool_decide (role = SERVER)
  | FingerprintOp f => negb (bool_decide (algorithm f = NO_ALGORITHM))
  | DataOp _ _ | SendOp _ _ => true
  | TimerOp _ => IsActive (dtlsTimer s)
  end.

Lemma op_ok_fine s op : op_ok s op = true -> op_fine s op.
Proof.
  destruct op as [now role|f| | |]; cbn; try done.
  - by rewrite orb_true_iff, !bool_decide_eq_true.
  - by rewrite negb_true_iff, bool_decide_eq_false.
Qed.

Fixpoint ops_ok (ops : list dtls_op) (s : sample_transport) : bool :=
  match ops with
  | [] => true
  | op :: ops => op_ok s op && match run_op op s with Ok (_, s', _) => ops_ok ops s' | Err _ => false end
  end.

Definition add_fingerprint (fs : list fingerprint) (op : dtls_op) : list fingerprint :=
  match op with FingerprintOp f => f :: fs | _ => fs end.

Lemma run_ops_run ops (s : sample_transport) fs es s' es' :
  dtls_run s fs es -> ops_ok ops s = true -> run_ops ops s = Ok ((), s', es') ->
  dtls_run s' (foldl add_fingerprint fs ops) (es ++ es').
Proof.
  revert s fs es es'. induction ops as [|op ops IH]; intros s fs es es' Hr Hok; cbn [run_ops foldl].
  { intros [= <- <-]. by rewrite app_nil_r. }
  cbn [ops_ok] in Hok. apply andb_true_iff in Hok as [Hop Hok]. unfold mbind, act_bind.
  destruct (run_op op s) as [[[[] s1] es1]|] eqn:E1; [|done].
  destruct (run_ops ops s1) as [[[[] s2] es2]|] eqn:E2; [|done]. intros [= <- <-].
  rewrite app_assoc. apply (IH s1); [|done..]. apply (dtls_step s fs es op s1 es1); [done|by apply op_ok_fine|done].
Qed.

Lemma sample_ops_run (s : sample_transport) es :
  run_ops sample_ops new_DtlsTransport = Ok ((), s, es) -> dtls_run s [sample_fingerprint] es.
Proof.
  intros E. assert (ops_ok sample_ops new_DtlsTransport = true) as Hok by (vm_compute; reflexivity).
  exact (run_ops_run sample_ops new_DtlsTransport [] [] s es dtls_new Hok E).
Qed.

Example dtls_safe_witness :
  exists s es, run_ops sample_ops new_DtlsTransport = Ok ((), s, es) /\ state s = CONNECTED
    /\ Forall (attested_by [sample_fingerprint]) es.
Proof.
  destruct (run_ops sample_ops new_DtlsTransport) as [[[[] s] es]|e] eqn:E.
  - exists s, es. split; [reflexivity|]. split.
    + vm_compute in E. injection E as <- <-. reflexivity.
    + apply (dtls_safe s [sample_fingerprint] es (sample_ops_run s es E)).
  - vm_compute in E. discriminate E.
Defined.
