(* ===== verification/WebRtcTransport.v ===== *)
(** [RTC::WebRtcTransport] (worker/src/RTC/WebRtcTransport.cpp) and
    [RTC::SrtpSession] (worker/src/RTC/SrtpSession.cpp): what arrives is told apart
    (STUN, RTCP, RTP, DTLS) and given to the [IceServer], to the [DtlsTransport] or,
    decrypted, to the parent class; what is sent is encrypted and goes to the
    selected tuple.

    The encryption of media is libsrtp's, the class [LibSrtp]; what is sent on a
    tuple and what the parent class is told are events.  The servers tell their
    listener at the end of their calls, or with values they do not change after,
    and the listeners modelled here do not call them back: the transport handles
    what they told when the call has returned.  (The parent class starts SCTP when
    it is told of the connection, and sends its first data in that call; here that
    is an operation of its own, [SendSctpData].) *)

From S2P Require IceServer IceFacts IceProps StunFacts RtpPacketFacts RtcpPacketFacts RtcpPacketProps.
From S2P Require Import Bytes Effects Timer DtlsTransport.

(** * Definitions *)

Inductive session_type : Type := INBOUND | OUTBOUND.

(** libsrtp: [srtp_create] may fail; the others work in place, and tell the
    length, or [None] when they fail. *)
Class LibSrtp (Srtp : Type) : Type := {
  cipher_key_len : CryptoSuite -> Z;
  srtp_create : session_type -> CryptoSuite -> list Z -> option Srtp;
  srtp_dealloc : Srtp -> Z;
  srtp_protect : Srtp -> list Z -> Srtp * option (list Z);
  srtp_protect_rtcp : Srtp -> list Z -> Srtp * option (list Z);
  srtp_unprotect : Srtp -> list Z -> Srtp * list Z * option Z;
  srtp_unprotect_rtcp : Srtp -> list Z -> Srtp * list Z * option Z;
  srtp_remove_stream : Srtp -> Z -> Srtp
}.

Definition EncryptBufferSize : Z := 65536.
Definition SRTP_MAX_TRAILER_LEN : Z := 144.

(** [DtlsTransport::IsDtls]. *)
Definition IsDtls (data : list Z) (len : Z) : outcome bool :=
  if 13 <=? len then b ← get1 data 0; Ok ((19 <? b) && (b <? 64)) else Ok false.

(** A parser that returns [nullptr]. *)
Definition parsed {A} (m : outcome A) : outcome (option A) :=
  match m with Ok a => Ok (Some a) | Err Rejected => Ok None | Err e => Err e end.

Definition StringToRole (role : string) : Role :=
  if bool_decide (role = "auto"%string) then AUTO
  else if bool_decide (role = "client"%string) then CLIENT
  else if bool_decide (role = "server"%string) then SERVER
  else NONE.

Definition GetFingerprintAlgorithm (name : string) : FingerprintAlgorithm :=
  if bool_decide (name = "sha-1"%string) then SHA1
  else if bool_decide (name = "sha-224"%string) then SHA224
  else if bool_decide (name = "sha-256"%string) then SHA256
  else if bool_decide (name = "sha-384"%string) then SHA384
  else if bool_decide (name = "sha-512"%string) then SHA512
  else NO_ALGORITHM.

(** The [dtlsParameters] of a request, of the right types. *)
Record dtls_parameters : Type := DtlsParameters {
  fingerprints : list (string * list Z);
  role : option string
}.

Inductive webrtc_event : Type :=
| IceSelectedTupleChange (t : IceServer.tuple)
| IceStateChange (st : IceServer.IceState)
| DtlsStateChange (st : DtlsState) (remoteCert : list Z)
| TupleSend (t : IceServer.tuple) (data : list Z)
| SendCallback (sent : bool)
| DataSent (len : Z)
| DataReceived (len : Z)
| TransportConnected
| TransportDisconnected
| ReceiveRtpPacket (packet : RtpPacket.rtp_packet)
| ReceiveRtcpPacket (packets : list RtcpPacket.rtcp_packet)
| ReceiveSctpData (data : list Z).

Section webrtc.
Context {SSL X509 H Srtp : Type} `{OpenSSL SSL X509} `{UvTimer H} `{LibSrtp Srtp} `{StunPacket.HmacSha1}.

Record webrtc_transport : Type := WebRtcTransport {
  iceServer : IceServer.ice_server;
  dtlsTransport : dtls_transport SSL H;
  srtpRecvSession : option Srtp;
  srtpSendSession : option Srtp;
  connectCalled : bool;
  dtlsRole : Role
}.

Definition new_WebRtcTransport (usernameFragment password buffer : list Z) : webrtc_transport :=
  WebRtcTransport (IceServer.new_IceServer usernameFragment password buffer) new_DtlsTransport None None false AUTO.

Definition set_ice (s : webrtc_transport) (i : IceServer.ice_server) : webrtc_transport :=
  WebRtcTransport i (dtlsTransport s) (srtpRecvSession s) (srtpSendSession s) (connectCalled s) (dtlsRole s).

Definition set_dtls (s : webrtc_transport) (d : dtls_transport SSL H) : webrtc_transport :=
  WebRtcTransport (iceServer s) d (srtpRecvSession s) (srtpSendSession s) (connectCalled s) (dtlsRole s).

Definition set_recv (s : webrtc_transport) (x : option Srtp) : webrtc_transport :=
  WebRtcTransport (iceServer s) (dtlsTransport s) x (srtpSendSession s) (connectCalled s) (dtlsRole s).

Definition set_send (s : webrtc_transport) (x : option Srtp) : webrtc_transport :=
  WebRtcTransport (iceServer s) (dtlsTransport s) (srtpRecvSession s) x (connectCalled s) (dtlsRole s).

Definition set_role (s : webrtc_transport) (r : Role) : webrtc_transport :=
  WebRtcTransport (iceServer s) (dtlsTransport s) (srtpRecvSession s) (srtpSendSession s) (connectCalled s) r.

Definition set_connectCalled (s : webrtc_transport) : webrtc_transport :=
  WebRtcTransport (iceServer s) (dtlsTransport s) (srtpRecvSession s) (srtpSendSession s) true (dtlsRole s).

Notation webrtc := (act webrtc_transport webrtc_event).

(** ** [SrtpSession] *)

(** The constructor; [None] when it throws. *)
Definition new_SrtpSession (type : session_type) (suite : CryptoSuite) (key : list Z) : outcome (option Srtp) :=
  _ ← require AssertFailed (zlen key =? cipher_key_len suite);
  Ok (srtp_create type suite key).

(** [delete] of a session, or of none. *)
Definition delete_session (x : option Srtp) : outcome unit :=
  match x with Some x => require AssertFailed (srtp_dealloc x =? 0) | None => Ok () end.

(** libsrtp may write a trailer after the packet, in the buffer of the code. *)
Definition EncryptRtp (x : Srtp) (data : list Z) : outcome (Srtp * option (list Z)) :=
  if EncryptBufferSize <? zlen data + SRTP_MAX_TRAILER_LEN then Ok (x, None)
  else
    _ ← require OutOfBounds (zlen data + SRTP_MAX_TRAILER_LEN <=? EncryptBufferSize);
    Ok (srtp_protect x data).

(** For RTCP the trailer may have four bytes more. *)
Definition EncryptRtcp (x : Srtp) (data : list Z) : outcome (Srtp * option (list Z)) :=
  if EncryptBufferSize <? zlen data + SRTP_MAX_TRAILER_LEN then Ok (x, None)
  else
    _ ← require OutOfBounds (zlen data + SRTP_MAX_TRAILER_LEN + 4 <=? EncryptBufferSize);
    Ok (srtp_protect_rtcp x data).

(** ** The selected tuple *)

(** [this->iceServer->GetSelectedTuple()], followed. *)
Definition selected_tuple (i : IceServer.ice_server) : outcome IceServer.tuple :=
  match IceServer.selectedTuple i with
  | None => Err OutOfBounds
  | Some a => match IceServer.deref (IceServer.tuples i) a with Some t => Ok t | None => Err OutOfBounds end
  end.

Definition ice_connected (s : webrtc_transport) : bool :=
  match IceServer.state (iceServer s) with
  | IceServer.CONNECTED | IceServer.COMPLETED => true
  | _ => false
  end.

Definition dtls_connected (s : webrtc_transport) : bool := bool_decide (state (dtlsTransport s) = CONNECTED).

Definition IsConnected (s : webrtc_transport) : bool := ice_connected s && dtls_connected s.

(** ** The listener of the DTLS transport *)

Definition OnDtlsTransportConnected_ (suite : CryptoSuite) (localKey remoteKey cert : list Z) : webrtc unit :=
  s ← get;
  lift (delete_session (srtpSendSession s));;
  modify (fun s => set_send s None);;
  lift (delete_session (srtpRecvSession s));;
  modify (fun s => set_recv s None);;
  x ← lift (new_SrtpSession OUTBOUND suite localKey);
  modify (fun s => set_send s x);;
  y ← lift (new_SrtpSession INBOUND suite remoteKey);
  match y with
  | Some y =>
      modify (fun s => set_recv s (Some y));;
      emit (DtlsStateChange CONNECTED cert);;
      emit TransportConnected
  | None =>
      lift (delete_session x);;
      modify (fun s => set_send s None)
  end.

Definition OnDtlsTransportSendData_ (data : list Z) : webrtc unit :=
  s ← get;
  match IceServer.selectedTuple (iceServer s) with
  | None => skip
  | Some _ =>
      t ← lift (selected_tuple (iceServer s));
      emit (TupleSend t data);;
      emit (DataSent (zlen data))
  end.

Definition handle_dtls (e : dtls_event) : webrtc unit :=
  match e with
  | OnDtlsTransportConnecting => emit (DtlsStateChange CONNECTING [])
  | OnDtlsTransportConnected suite localKey remoteKey cert => OnDtlsTransportConnected_ suite localKey remoteKey cert
  | OnDtlsTransportFailed => emit (DtlsStateChange FAILED [])
  | OnDtlsTransportClosed => emit (DtlsStateChange CLOSED []);; emit TransportDisconnected
  | OnDtlsTransportSendData data => OnDtlsTransportSendData_ data
  | OnDtlsTransportApplicationDataReceived data => emit (ReceiveSctpData data)
  end.

Fixpoint handle_all {E} (handle : E -> webrtc unit) (es : list E) : webrtc unit :=
  match es with [] => skip | e :: es => handle e;; handle_all handle es end.

(** A call of the DTLS transport, and what it tells. *)
Definition dtls_call {A} (m : act (dtls_transport SSL H) dtls_event A) : webrtc A :=
  s ← get;
  r ← lift (m (dtlsTransport s));
  modify (fun s => set_dtls s r.1.2);;
  handle_all handle_dtls r.2;;
  mret r.1.1.

Definition MayRunDtlsTransport (now : Z) : webrtc unit :=
  s ← get;
  if bool_decide (localRole (dtlsTransport s) = dtlsRole s) then skip
  else
    match dtlsRole s with
    | AUTO =>
        if ice_connected s then
          modify (fun s => set_role s SERVER);;
          dtls_call (Run now SERVER)
        else skip
    | CLIENT => if ice_connected s then dtls_call (Run now CLIENT) else skip
    | SERVER => if ice_connected s then dtls_call (Run now SERVER) else skip
    | NONE => lift (Err AssertFailed)
    end.

(** ** The listener of the ICE server *)

Definition OnIceServerConnected_ (now : Z) (st : IceServer.IceState) : webrtc unit :=
  emit (IceStateChange st);;
  MayRunDtlsTransport now;;
  s ← get;
  if dtls_connected s then emit TransportConnected else skip.

Definition handle_ice (now : Z) (e : IceServer.event) : webrtc unit :=
  match e with
  | IceServer.OnIceServerSendStunPacket p t =>
      let len := StunPacket.size p in
      emit (TupleSend t (take (Z.to_nat len) (StunPacket.data p)));;
      emit (DataSent len)
  | IceServer.OnIceServerSelectedTuple _ =>
      s ← get;
      t ← lift (selected_tuple (iceServer s));
      emit (IceSelectedTupleChange t)
  | IceServer.OnIceServerConnected => OnIceServerConnected_ now IceServer.CONNECTED
  | IceServer.OnIceServerCompleted => OnIceServerConnected_ now IceServer.COMPLETED
  | IceServer.OnIceServerDisconnected =>
      emit (IceStateChange IceServer.DISCONNECTED);;
      s ← get;
      if dtls_connected s then emit TransportDisconnected else skip
  end.

(** A call of the ICE server, and what it tells. *)
Definition ice_call (now : Z) (f : IceServer.ice_server -> outcome IceServer.ice_server) : webrtc unit :=
  s ← get;
  i ← lift (f (iceServer s));
  modify (fun s => set_ice s i);;
  handle_all (handle_ice now) (drop (length (IceServer.emitted (iceServer s))) (IceServer.emitted i)).

(** ** Requests *)

(** Only the first fingerprint is looked at. *)
Definition remote_fingerprint (p : dtls_parameters) : outcome DtlsTransport.fingerprint :=
  match fingerprints p with
  | [] => Ok (Fingerprint NO_ALGORITHM [])
  | (name, v) :: _ =>
      let a := GetFingerprintAlgorithm name in
      _ ← require Thrown (negb (bool_decide (a = NO_ALGORITHM)));
      Ok (Fingerprint a v)
  end.

Definition remote_role (p : dtls_parameters) : outcome Role :=
  match role p with
  | None => Ok AUTO
  | Some r =>
      let r := StringToRole r in
      _ ← require Thrown (negb (bool_decide (r = NONE)));
      Ok r
  end.

(** The local role for the role of the peer. *)
Definition local_role (remote : Role) : outcome Role :=
  match remote with
  | CLIENT => Ok SERVER
  | SERVER | AUTO => Ok CLIENT
  | NONE => Err Thrown
  end.

(** The case [TRANSPORT_CONNECT] of [HandleRequest]: the role it answers. *)
Definition HandleConnect (now : Z) (p : dtls_parameters) : webrtc Role :=
  s ← get;
  lift (require Thrown (negb (connectCalled s)));;
  f ← lift (remote_fingerprint p);
  remote ← lift (remote_role p);
  r ← lift (local_role remote);
  modify (fun s => set_role s r);;
  modify set_connectCalled;;
  ok ← dtls_call (SetRemoteFingerprint f);
  (if ok : bool then MayRunDtlsTransport now else skip);;
  s ← get;
  match dtlsRole s with
  | CLIENT | SERVER => mret (dtlsRole s)
  | _ => lift (Err AssertFailed)
  end.

(** The case [TRANSPORT_RESTART_ICE], with two random strings. *)
Definition HandleRestartIce (usernameFragment password : list Z) : webrtc (list Z * list Z) :=
  modify (fun s => set_ice s (IceServer.SetUsernameFragment (iceServer s) usernameFragment));;
  modify (fun s => set_ice s (IceServer.SetPassword (iceServer s) password));;
  s ← get;
  mret (IceServer.usernameFragment (iceServer s), IceServer.password (iceServer s)).

(** ** Sending *)

Definition call_back (cb sent : bool) : webrtc unit := if cb then emit (SendCallback sent) else skip.

(** [GetSelectedTuple()->Send(data, len)]. *)
Definition send_selected (data : list Z) : webrtc unit :=
  s ← get;
  t ← lift (selected_tuple (iceServer s));
  emit (TupleSend t data).

(** What the socket does with the callback is an argument. *)
Definition SendRtpPacket (data : list Z) (cb sent : bool) : webrtc unit :=
  s ← get;
  if negb (IsConnected s) then call_back cb false
  else
    match srtpSendSession s with
    | None => call_back cb false
    | Some x =>
        r ← lift (EncryptRtp x data);
        modify (fun s => set_send s (Some r.1));;
        match r.2 with
        | None => call_back cb false
        | Some data =>
            send_selected data;;
            call_back cb sent;;
            emit (DataSent (zlen data))
        end
    end.

(** [SendRtcpPacket] and [SendRtcpCompoundPacket]. *)
Definition SendRtcpPacket (data : list Z) : webrtc unit :=
  s ← get;
  if negb (IsConnected s) then skip
  else
    match srtpSendSession s with
    | None => skip
    | Some x =>
        r ← lift (EncryptRtcp x data);
        modify (fun s => set_send s (Some r.1));;
        match r.2 with
        | None => skip
        | Some data => send_selected data;; emit (DataSent (zlen data))
        end
    end.

Definition SendSctpData (now : Z) (data : list Z) : webrtc unit :=
  s ← get;
  if negb (IsConnected s) then skip else dtls_call (SendApplicationData now data).

Definition RecvStreamClosed (ssrc : Z) : webrtc unit :=
  s ← get;
  match srtpRecvSession s with
  | None => skip
  | Some x => put (set_recv s (Some (srtp_remove_stream x ssrc)))
  end.

Definition SendStreamClosed (ssrc : Z) : webrtc unit :=
  s ← get;
  match srtpSendSession s with
  | None => skip
  | Some x => put (set_send s (Some (srtp_remove_stream x ssrc)))
  end.

(** ** Receiving *)

Definition OnStunDataReceived (now : Z) (t : IceServer.tuple) (data : list Z) (len : Z) : webrtc unit :=
  packet ← lift (parsed (StunPacket.Parse data len));
  match packet with
  | None => skip
  | Some packet => ice_call now (fun i => IceServer.ProcessStunPacket i packet t)
  end.

Definition OnDtlsDataReceived (now : Z) (t : IceServer.tuple) (data : list Z) : webrtc unit :=
  s ← get;
  valid ← lift (IceServer.IsValidTuple (iceServer s) t);
  if negb valid then skip
  else
    ice_call now (fun i => IceServer.ForceSelectedTuple i t);;
    s ← get;
    if bool_decide (state (dtlsTransport s) = CONNECTING) || dtls_connected s
    then dtls_call (ProcessDtlsData now data)
    else skip.

Definition OnRtpDataReceived (now : Z) (t : IceServer.tuple) (data : list Z) : webrtc unit :=
  s ← get;
  if negb (dtls_connected s) then skip
  else
    match srtpRecvSession s with
    | None => skip
    | Some x =>
        valid ← lift (IceServer.IsValidTuple (iceServer s) t);
        if negb valid then skip
        else
          let '(x, data, len) := srtp_unprotect x data in
          put (set_recv s (Some x));;
          match len with
          | None => _ ← lift (parsed (RtpPacket.Parse data (zlen data))); skip
          | Some len =>
              packet ← lift (parsed (RtpPacket.Parse data len));
              match packet with
              | None => skip
              | Some packet =>
                  ice_call now (fun i => IceServer.ForceSelectedTuple i t);;
                  emit (ReceiveRtpPacket packet)
              end
          end
    end.

Definition OnRtcpDataReceived (t : IceServer.tuple) (data : list Z) : webrtc unit :=
  s ← get;
  if negb (dtls_connected s) then skip
  else
    match srtpRecvSession s with
    | None => skip
    | Some x =>
        valid ← lift (IceServer.IsValidTuple (iceServer s) t);
        if negb valid then skip
        else
          let '(x, data, len) := srtp_unprotect_rtcp x data in
          put (set_recv s (Some x));;
          match len with
          | None => skip
          | Some len =>
              packets ← lift (RtcpPacket.ParsePacket (take (Z.to_nat len) data) len);
              match packets with
              | [] => skip
              | _ => emit (ReceiveRtcpPacket packets)
              end
          end
    end.

Definition OnPacketReceived (now : Z) (t : IceServer.tuple) (data : list Z) : webrtc unit :=
  let len := zlen data in
  emit (DataReceived len);;
  stun ← lift (StunPacket.IsStun data len);
  if stun : bool then OnStunDataReceived now t data len
  else
    rtcp ← lift (Rtcp.IsRtcp data len);
    if rtcp : bool then OnRtcpDataReceived t data
    else
      rtp ← lift (RtpPacket.IsRtp data len);
      if rtp : bool then OnRtpDataReceived now t data
      else
        dtls ← lift (IsDtls data len);
        if dtls : bool then OnDtlsDataReceived now t data else skip.

Definition OnRtcTcpConnectionClosed (now : Z) (t : IceServer.tuple) : webrtc unit :=
  ice_call now (fun i => Ok (IceServer.RemoveTuple i t)).

(** The timer of the DTLS transport has fired. *)
Definition OnDtlsTimer (now : Z) : webrtc unit := dtls_call (OnTimer now).
End webrtc.
Arguments webrtc_transport SSL H Srtp : clear implicits.
