(* ===== verification/WebRtcFacts.v ===== *)
(** WebRTC transports: their invariant, and what every operation does; media is
    received from valid tuples only, with keys that a handshake with the announced
    peer gave, and sent to the selected tuple, encrypted. *)

From S2P Require IceServer IceFacts IceProps StunFacts RtpPacketFacts RtcpPacketFacts RtcpPacketProps.
From S2P Require Import Bytes Effects Timer DtlsTransport.
From S2P Require Export WebRtcTransport.

(** libsrtp: the lengths of the keys, and that it works in place. *)
Class LibSrtpLaws (Srtp : Type) `{LibSrtp Srtp} : Prop := {
  key_len suite : cipher_key_len suite = srtpMasterLength suite;
  dealloc_ok x : srtp_dealloc x = 0;
  unprotect_in_place x data :
    let r := srtp_unprotect x data in
    bytes data -> bytes r.1.2 /\ zlen r.1.2 = zlen data /\ (forall n, r.2 = Some n -> 0 <= n <= zlen data);
  unprotect_rtcp_in_place x data :
    let r := srtp_unprotect_rtcp x data in
    bytes data -> bytes r.1.2 /\ zlen r.1.2 = zlen data /\ (forall n, r.2 = Some n -> 0 <= n <= zlen data)
}.

Section facts.
Context {SSL X509 H Srtp : Type} `{OpenSSLLaws SSL X509} `{UvLaws H} `{LibSrtpLaws Srtp} `{StunPacket.HmacLaws}.

Notation transport := (webrtc_transport SSL H Srtp).
Notation webrtc := (act transport webrtc_event).
Notation dtls := (act (dtls_transport SSL H) dtls_event).
Implicit Types s : transport.

(** A session that was made with a key. *)
Inductive session_of (type : session_type) (suite : CryptoSuite) (key : list Z) : Srtp -> Prop :=
| session_created x : srtp_create type suite key = Some x -> session_of type suite key x
| session_protect x data : session_of type suite key x -> session_of type suite key (srtp_protect x data).1
| session_protect_rtcp x data : session_of type suite key x -> session_of type suite key (srtp_protect_rtcp x data).1
| session_unprotect x data : session_of type suite key x -> session_of type suite key (srtp_unprotect x data).1.1
| session_unprotect_rtcp x data :
    session_of type suite key x -> session_of type suite key (srtp_unprotect_rtcp x data).1.1
| session_remove x ssrc : session_of type suite key x -> session_of type suite key (srtp_remove_stream x ssrc).

(** The fingerprint that was announced. *)
Definition announced (d : dtls_transport SSL H) : option DtlsTransport.fingerprint :=
  if has_fingerprint d then Some (remoteFingerprint d) else None.

(** A session with keys of a handshake with the announced peer. *)
Definition authentic_session (type : session_type) (f : option DtlsTransport.fingerprint) (x : Srtp) : Prop :=
  exists fp suite localKey remoteKey cert,
    f = Some fp /\ attested fp (OnDtlsTransportConnected suite localKey remoteKey cert)
    /\ session_of type suite (match type with INBOUND => remoteKey | OUTBOUND => localKey end) x.

Record webrtc_inv s : Prop := WebrtcInv {
  wi_ice : IceFacts.ice_inv (iceServer s);
  wi_dtls : dtls_inv (dtlsTransport s);
  wi_settled : settled (dtlsTransport s);
  wi_recv : forall x, srtpRecvSession s = Some x -> authentic_session INBOUND (announced (dtlsTransport s)) x;
  wi_send : forall x, srtpSendSession s = Some x -> authentic_session OUTBOUND (announced (dtlsTransport s)) x;
  wi_role : dtlsRole s <> NONE
}.

(** ** The selected tuple *)

Lemma selected_tuple_ok i :
  IceFacts.ice_inv i -> is_Some (IceServer.selectedTuple i) -> exists t, selected_tuple i = Ok t.
Proof.
  intros I [a E]. pose proof (IceFacts.inv_selected i I) as Hs. rewrite E in Hs.
  destruct (IceFacts.elem_fst _ _ Hs) as [t Ht]. exists t. unfold selected_tuple.
  by rewrite E, (IceFacts.deref_elem _ _ _ (IceFacts.inv_nodup i I) Ht).
Qed.

Lemma connected_selected s :
  webrtc_inv s -> ice_connected s = true -> exists t, selected_tuple (iceServer s) = Ok t.
Proof.
  intros I E. apply selected_tuple_ok; [apply I|].
  destruct (IceFacts.busy_selected (iceServer s) (wi_ice _ I)) as (a & -> & _); [|by exists a].
  unfold ice_connected in E. unfold IceFacts.busy. destruct (IceServer.state (iceServer s)); auto; done.
Qed.

(** ** What the listeners do *)

(** Events other than media and data received. *)
Definition plain (e : webrtc_event) : Prop :=
  match e with ReceiveRtpPacket _ | ReceiveRtcpPacket _ | ReceiveSctpData _ => False | _ => True end.

Definition not_media (e : webrtc_event) : Prop :=
  match e with ReceiveRtpPacket _ | ReceiveRtcpPacket _ => False | _ => True end.

Lemma plain_not_media e : plain e -> not_media e.
Proof. by destruct e. Qed.

Definition is_app (e : dtls_event) : bool :=
  match e with OnDtlsTransportApplicationDataReceived _ => true | _ => false end.

Definition not_app (e : dtls_event) : Prop := is_app e = false.

(** The role goes from [AUTO] to [SERVER], or stays. *)
Definition role_goes (r r' : Role) : Prop := r' = r \/ r = AUTO /\ r' = SERVER.

Lemma role_goes_trans r1 r2 r3 : role_goes r1 r2 -> role_goes r2 r3 -> role_goes r1 r3.
Proof. unfold role_goes. intros [-> | [-> ->]] [-> | [? ->]]; try done; auto. Qed.

(** A call that keeps the invariant, the fingerprint and whether it was given. *)
Definition calm (P : webrtc_event -> Prop) s s' (es : list webrtc_event) : Prop :=
  webrtc_inv s' /\ connectCalled s' = connectCalled s
  /\ announced (dtlsTransport s') = announced (dtlsTransport s)
  /\ role_goes (dtlsRole s) (dtlsRole s') /\ Forall P es.

Lemma calm_nil P s : webrtc_inv s -> calm P s s [].
Proof. intros I. split_and!; try done. by left. Qed.

Lemma calm_trans P s s1 s' es es' : calm P s s1 es -> calm P s1 s' es' -> calm P s s' (es ++ es').
Proof.
  intros (_ & C1 & F1 & R1 & E1) (I & C2 & F2 & R2 & E2). split; [done|]. split; [congruence|]. split; [congruence|].
  split.
  - by eapply role_goes_trans.
  - by apply Forall_app.
Qed.

Lemma calm_weaken (P Q : webrtc_event -> Prop) s s' es : (forall e, P e -> Q e) -> calm P s s' es -> calm Q s s' es.
Proof. intros HPQ (? & ? & ? & ? & E). split_and!; try done. eapply Forall_impl; [exact E|exact HPQ]. Qed.

(** Events only. *)
Lemma calm_events (P : webrtc_event -> Prop) s es : webrtc_inv s -> Forall P es -> calm P s s es.
Proof. intros I E. split_and!; try done. by left. Qed.

Lemma master_keys_length material suite r localKey remoteKey :
  master_keys material suite r = Ok (localKey, remoteKey) ->
  zlen localKey = srtpMasterLength suite /\ zlen remoteKey = srtpMasterLength suite.
Proof.
  assert (forall k t x, master_key material suite k t = Ok x -> zlen x = srtpMasterLength suite) as Hk.
  { intros k t x. unfold master_key. intros (a & Ea & (b & Eb & [= <-])%bind_Ok)%bind_Ok.
    by rewrite zlen_app, (zlen_slice _ _ _ _ Ea), (zlen_slice _ _ _ _ Eb). }
  unfold master_keys. destruct r; try done; intros (a & Ea & (b & Eb & [= <- <-])%bind_Ok)%bind_Ok; eauto.
Qed.

Lemma delete_ok (x : option Srtp) : delete_session x = Ok ().
Proof. destruct x as [x|]; [|done]. cbn. by rewrite dealloc_ok. Qed.

Lemma new_session_ok type suite (key : list Z) :
  zlen key = srtpMasterLength suite ->
  new_SrtpSession type suite key = Ok (srtp_create type suite key : option Srtp).
Proof. intros E. unfold new_SrtpSession. rewrite key_len, E, Z.eqb_refl. done. Qed.

(** What the listener of the DTLS transport leaves alone. *)
Definition framed s s' : Prop :=
  iceServer s' = iceServer s /\ dtlsTransport s' = dtlsTransport s /\ connectCalled s' = connectCalled s
  /\ dtlsRole s' = dtlsRole s.

Lemma framed_refl s : framed s s.
Proof. done. Qed.

Lemma framed_trans s1 s2 s3 : framed s1 s2 -> framed s2 s3 -> framed s1 s3.
Proof. intros (?&?&?&?) (?&?&?&?). repeat split; congruence. Qed.

(** The keys of an attested connection make authentic sessions. *)
Lemma does_Connected suite l r cert s :
  webrtc_inv s -> attested (remoteFingerprint (dtlsTransport s)) (OnDtlsTransportConnected suite l r cert) ->
  does (OnDtlsTransportConnected_ suite l r cert : webrtc unit)
    (fun _ s' es => webrtc_inv s' /\ framed s s' /\ Forall plain es) s.
Proof.
  intros [I1 I2 I3 I4 I5 I6] A. pose proof A as (x & role & c & d & ret & m & Ha & _ & _ & _ & _ & _ & _ & _ & Hm).
  apply master_keys_length in Hm as [Ll Lr].
  assert (announced (dtlsTransport s) = Some (remoteFingerprint (dtlsTransport s))) as Ef.
  { unfold announced, has_fingerprint. by rewrite bool_decide_false. }
  unfold OnDtlsTransportConnected_. apply does_bind, does_get. cbv beta.
  apply does_bind, (does_lift _ ()); [apply delete_ok|]. apply does_bind, does_modify.
  apply does_bind, (does_lift _ ()); [apply delete_ok|]. apply does_bind, does_modify.
  eapply does_bind, does_lift; [by apply new_session_ok|]. cbv beta. apply does_bind, does_modify.
  eapply does_bind, does_lift; [by apply new_session_ok|]. cbv beta.
  destruct (srtp_create INBOUND suite r) as [y|] eqn:Ey.
  - apply does_bind, does_modify, does_bind, does_emit, does_emit. split; [|split; [done|by repeat constructor]].
    split; cbn; try done.
    + intros z [= <-]. rewrite Ef. exists (remoteFingerprint (dtlsTransport s)), suite, l, r, cert.
      split_and!; [done..|]. by apply session_created.
    + intros z Ez. rewrite Ef. exists (remoteFingerprint (dtlsTransport s)), suite, l, r, cert.
      split_and!; [done..|]. by apply session_created.
  - apply does_bind, (does_lift _ ()); [apply delete_ok|]. apply does_modify. split; [|done]. by split; cbn.
Qed.

Lemma does_handle_dtls e s :
  webrtc_inv s -> attested (remoteFingerprint (dtlsTransport s)) e ->
  does (handle_dtls e : webrtc unit)
    (fun _ s' es => webrtc_inv s' /\ framed s s' /\ Forall not_media es /\ (not_app e -> Forall plain es)) s.
Proof.
  intros I A. assert (forall es, Forall plain es -> Forall not_media es) as Hpn.
  { intros es E. eapply Forall_impl; [exact E|apply plain_not_media]. }
  assert (forall es, Forall plain es ->
    webrtc_inv s /\ framed s s /\ Forall not_media es /\ (not_app e -> Forall plain es)) as Hev.
  { intros es E. split_and!; try done; by apply Hpn. }
  destruct e as [|suite l r cert| | |data|data]; cbn [handle_dtls].
  - apply does_emit, Hev. by repeat constructor.
  - eapply does_weaken; [by apply does_Connected|]. intros u s' es (I' & F & E). split_and!; try done. by apply Hpn.
  - apply does_emit, Hev. by repeat constructor.
  - apply does_bind, does_emit, does_emit, Hev. by repeat constructor.
  - unfold OnDtlsTransportSendData_. apply does_bind, does_get. cbv beta.
    destruct (IceServer.selectedTuple (iceServer s)) as [a|] eqn:Es; [|apply does_skip, Hev; constructor].
    destruct (selected_tuple_ok (iceServer s)) as [t Et]; [apply I|by exists a|].
    apply does_bind, (does_lift _ t); [done|]. apply does_bind, does_emit, does_emit, Hev. by repeat constructor.
  - apply does_emit. split_and!; try done; by repeat constructor.
Qed.

Lemma does_handle_dtls_all es s :
  webrtc_inv s -> Forall (attested (remoteFingerprint (dtlsTransport s))) es ->
  does (handle_all handle_dtls es : webrtc unit)
    (fun _ s' es' => webrtc_inv s' /\ framed s s' /\ Forall not_media es' /\ (Forall not_app es -> Forall plain es')) s.
Proof.
  intros I A. revert s I A. induction es as [|e es IH]; intros s I A; cbn [handle_all].
  { by apply does_skip. }
  apply Forall_cons in A as [Ae A]. apply does_bind. eapply does_weaken; [by apply does_handle_dtls|].
  intros u s1 es1 (I1 & F1 & N1 & P1). pose proof F1 as (_ & Ed & _).
  eapply does_weaken; [apply IH; [done|by rewrite Ed]|]. intros u' s' es' (I' & F' & N' & P').
  split_and!; [done|by eapply framed_trans|by apply Forall_app|]. intros [He Hes]%Forall_cons. apply Forall_app. auto.
Qed.

(** A call of the DTLS transport that keeps the fingerprint, or gives the first one. *)
Lemma does_dtls_call {A} (m : dtls A) f s :
  webrtc_inv s ->
  does m (fun _ d es => went f (dtlsTransport s) d es /\ settled d) (dtlsTransport s) ->
  f = remoteFingerprint (dtlsTransport s) \/ announced (dtlsTransport s) = None ->
  does (dtls_call m : webrtc A)
    (fun a s' es => exists d es', m (dtlsTransport s) = Ok (a, d, es') /\ framed (set_dtls s d) s' /\ webrtc_inv s'
       /\ remoteFingerprint d = f /\ Forall not_media es /\ (Forall not_app es' -> Forall plain es)) s.
Proof.
  intros I (a & d & es & E & (Id & Ef & Et & At) & Sd) Hf. unfold dtls_call. apply does_bind, does_get. cbv beta.
  apply does_bind, (does_lift _ (a, d, es)); [done|]. apply does_bind, does_modify. cbn [fst snd].
  assert (forall type x, authentic_session type (announced (dtlsTransport s)) x -> authentic_session type (announced d) x)
    as Hs.
  { intros type x (fp & suite & l & r & c & E1 & E2 & E3). destruct Hf as [Hf|Hf]; [|congruence].
    exists fp, suite, l, r, c. split_and!; [|done..]. unfold announced, has_fingerprint in *. rewrite Ef, Hf. done. }
  assert (webrtc_inv (set_dtls s d)) as I1.
  { destruct I. split; cbn; try done; eauto. }
  apply does_bind. eapply does_weaken; [apply (does_handle_dtls_all es (set_dtls s d) I1); cbn; by rewrite Ef|].
  intros u s' es' (I' & F' & N & P). apply does_ret. cbn [app]. rewrite app_nil_r. exists d, es. by split_and!.
Qed.

(** ** Only received DTLS data carries application data *)

Ltac quiet := repeat (only_step || (progress cbv beta)).

Lemma only_ssl_call x : only not_app (ssl_call x : dtls unit).
Proof. apply only_modify. Qed.

Lemma only_SendPending : only not_app (SendPendingOutgoingDtlsData : dtls unit).
Proof. unfold SendPendingOutgoingDtlsData. quiet. Qed.

Lemma only_Reset : only not_app (Reset : dtls unit).
Proof. unfold Reset, stop_timer. quiet; apply only_ssl_call. Qed.

Lemma only_break_off st e : not_app e -> only not_app (break_off st e : dtls bool).
Proof. intros He. unfold break_off. quiet. apply only_Reset. Qed.

Lemma only_SetTimeout now : only not_app (SetTimeout now : dtls bool).
Proof. unfold SetTimeout. quiet. by apply only_break_off. Qed.

Lemma only_ProcessHandshake : only not_app (ProcessHandshake : dtls bool).
Proof.
  unfold ProcessHandshake, CheckRemoteFingerprint, ExtractSrtpKeys. quiet; try by apply only_break_off.
Qed.

Lemma only_CheckStatus ret : only not_app (CheckStatus ret : dtls bool).
Proof.
  unfold CheckStatus, stop_timer. quiet; try apply only_ProcessHandshake; try by apply only_break_off.
Qed.

Lemma only_Run now r : only not_app (Run now r : dtls unit).
Proof.
  unfold Run. quiet; try apply only_ssl_call; try apply only_Reset; try apply only_SendPending; apply only_SetTimeout.
Qed.

Lemma only_SetRemoteFingerprint f : only not_app (SetRemoteFingerprint f : dtls bool).
Proof. unfold SetRemoteFingerprint. quiet. apply only_ProcessHandshake. Qed.

Lemma only_SendApplicationData now data : only not_app (SendApplicationData now data : dtls unit).
Proof.
  unfold SendApplicationData. quiet; try apply only_ssl_call; try apply only_CheckStatus; apply only_SendPending.
Qed.

Lemma only_OnTimer now : only not_app (OnTimer now : dtls unit).
Proof.
  unfold OnTimer. quiet; try apply only_ssl_call; try apply only_SendPending; apply only_SetTimeout.
Qed.

(** An operation of the DTLS transport without application data. *)
Lemma does_dtls_operation {A} (m : dtls A) s :
  webrtc_inv s -> only not_app m ->
  does m (fun _ d es => operates (dtlsTransport s) d es) (dtlsTransport s) ->
  does (dtls_call m : webrtc A) (fun _ s' es => calm plain s s' es /\ iceServer s' = iceServer s
    /\ dtlsRole s' = dtlsRole s) s.
Proof.
  intros I Ho Hm. eapply does_weaken; [eapply does_dtls_call; [done|exact Hm|by left]|].
  intros a s' es (d & es' & E & (F1 & F2 & F3 & F4) & I' & Hf & _ & P). cbn in *.
  split; [|by split]. split_and!; [done|done| | |by apply P, (Ho _ _ _ _ E)].
  - rewrite F2. unfold announced, has_fingerprint. by rewrite Hf.
  - rewrite F4. by left.
Qed.

Lemma does_MayRun now s :
  webrtc_inv s ->
  does (MayRunDtlsTransport now : webrtc unit) (fun _ s' es => calm plain s s' es /\ iceServer s' = iceServer s) s.
Proof.
  intros I. pose proof (wi_role _ I) as Hr. unfold MayRunDtlsTransport. apply does_bind, does_get. cbv beta.
  assert (calm plain s s [] /\ iceServer s = iceServer s) as Hno by (split; [by apply calm_nil|done]).
  assert (forall r s1, r = CLIENT \/ r = SERVER -> webrtc_inv s1 -> calm plain s s1 [] -> iceServer s1 = iceServer s ->
    does (dtls_call (Run now r) : webrtc unit) (fun _ s' es => calm plain s s' es /\ iceServer s' = iceServer s) s1) as Hrun.
  { intros r s1 Hr1 I1 C1 E1. eapply does_weaken.
    { apply does_dtls_operation; [done|apply only_Run|]. apply does_Run; [apply I1..|done]. }
    intros u s' es (C & E & _). split; [|congruence]. exact (calm_trans _ _ _ _ [] _ C1 C). }
  case_bool_decide; [by apply does_skip|].
  destruct (dtlsRole s) eqn:Er; try done; (destruct (ice_connected s); [|by apply does_skip]).
  - apply does_bind, does_modify. assert (webrtc_inv (set_role s SERVER)) as I1 by (destruct I; by split).
    apply Hrun; [by right|done| |done]. split_and!; try done. cbn. right. done.
  - apply Hrun; auto. by apply calm_nil.
  - apply Hrun; auto. by apply calm_nil.
Qed.

(** ** The listener of the ICE server *)

Lemma does_handle_ice now e s :
  webrtc_inv s -> (forall a, e = IceServer.OnIceServerSelectedTuple a -> is_Some (IceServer.selectedTuple (iceServer s))) ->
  does (handle_ice now e : webrtc unit) (fun _ s' es => calm plain s s' es /\ iceServer s' = iceServer s) s.
Proof.
  intros I Hs.
  assert (forall es s1 es1, calm plain s s1 es1 /\ iceServer s1 = iceServer s -> Forall plain es ->
    calm plain s s1 (es1 ++ es) /\ iceServer s1 = iceServer s) as Hafter.
  { intros es s1 es1 [C E] Hes. split; [|done]. eapply calm_trans; [exact C|]. apply calm_events; [apply C|done]. }
  assert (forall es, Forall plain es -> calm plain s s es /\ iceServer s = iceServer s) as Hev.
  { intros es Hes. split; [by apply calm_events|done]. }
  assert (forall st, does (OnIceServerConnected_ now st : webrtc unit)
    (fun _ s' es => calm plain s s' es /\ iceServer s' = iceServer s) s) as Hconn.
  { intros st. unfold OnIceServerConnected_. apply does_bind, does_emit. apply does_bind.
    eapply does_weaken; [by apply does_MayRun|]. intros u s1 es1 [C1 E1]. apply does_bind, does_get. cbv beta.
    assert (calm plain s s1 (IceStateChange st :: es1) /\ iceServer s1 = iceServer s) as C2.
    { split; [|done]. apply (calm_trans _ _ s _ [IceStateChange st]); [|done]. apply calm_events; [done|by repeat constructor]. }
    destruct (dtls_connected s1).
    - apply does_emit. apply (Hafter [TransportConnected] s1 (IceStateChange st :: es1)); [done|by repeat constructor].
    - apply does_skip. cbn [app]. by rewrite !app_nil_r. }
  destruct e as [p t|a| | |]; cbn [handle_ice].
  - apply does_bind, does_emit, does_emit, Hev. by repeat constructor.
  - apply does_bind, does_get. cbv beta. destruct (selected_tuple_ok (iceServer s)) as [t Et]; [apply I|by eapply Hs|].
    apply does_bind, (does_lift _ t); [done|]. apply does_emit, Hev. by repeat constructor.
  - apply Hconn.
  - apply Hconn.
  - apply does_bind, does_emit, does_bind, does_get. cbv beta.
    destruct (dtls_connected s); [apply does_emit|apply does_skip]; apply Hev; by repeat constructor.
Qed.

Lemma does_handle_ice_all now es s :
  webrtc_inv s ->
  (forall a, IceServer.OnIceServerSelectedTuple a ∈ es -> is_Some (IceServer.selectedTuple (iceServer s))) ->
  does (handle_all (handle_ice now) es : webrtc unit) (fun _ s' es' => calm plain s s' es' /\ iceServer s' = iceServer s) s.
Proof.
  revert s. induction es as [|e es IH]; intros s I Hs; cbn [handle_all].
  { apply does_skip. split; [by apply calm_nil|done]. }
  apply does_bind. eapply does_weaken; [apply does_handle_ice; [done|]|].
  { intros a ->. apply (Hs a). apply elem_of_cons. by left. }
  intros u s1 es1 [C1 E1]. eapply does_weaken; [apply IH; [apply C1|]|].
  { intros a Ha. rewrite E1. apply (Hs a). apply elem_of_cons. by right. }
  intros u' s' es' [C2 E2]. split; [by eapply calm_trans|congruence].
Qed.

(** A call of the ICE server that tells [evs]. *)
Lemma does_ice_call now f i evs s :
  webrtc_inv s -> f (iceServer s) = Ok i -> IceFacts.ice_inv i -> IceServer.emitted i = IceServer.emitted (iceServer s) ++ evs ->
  (forall a, IceServer.OnIceServerSelectedTuple a ∈ evs -> is_Some (IceServer.selectedTuple i)) ->
  does (ice_call now f : webrtc unit) (fun _ s' es => calm plain s s' es /\ iceServer s' = i) s.
Proof.
  intros I Ef Ii Ee Hs. unfold ice_call. apply does_bind, does_get. cbv beta.
  apply does_bind, (does_lift _ i); [done|]. apply does_bind, does_modify. rewrite Ee, drop_app_length. cbn [app].
  assert (webrtc_inv (set_ice s i)) as I1 by (destruct I; by split).
  eapply does_weaken; [by apply does_handle_ice_all|]. intros u s' es [C E]. split; [exact C|exact E].
Qed.

(** ** The calls of the ICE server *)

Lemma does_stun now p t s :
  webrtc_inv s -> StunFacts.stun_wf p -> IceFacts.tuple_ok t ->
  does (ice_call now (fun i => IceServer.ProcessStunPacket i p t) : webrtc unit) (fun _ s' es => calm plain s s' es) s.
Proof.
  intros I Hp Ht. destruct (IceProps.ProcessStunPacket_outcome (iceServer s) p t (wi_ice _ I) Hp Ht) as (i & Ei & Ii & Ho).
  assert (exists evs, IceServer.emitted i = IceServer.emitted (iceServer s) ++ evs
    /\ forall a, IceServer.OnIceServerSelectedTuple a ∈ evs -> is_Some (IceServer.selectedTuple i)) as (evs & Ee & Hs).
  { unfold IceProps.outcome_of in Ho. destruct (IceProps.judge (iceServer s) p) as [|code|key].
    - exists []. subst i. split; [by rewrite app_nil_r|]. by intros a ?%elem_of_nil.
    - destruct Ho as (q & [Ee _] & _). eexists. split; [exact Ee|]. intros a Ha. by apply list_elem_of_singleton in Ha.
    - destruct Ho as (q & evs & a & [Ee _] & _ & _ & _ & _ & Esel & _). eexists. split; [exact Ee|].
      intros b _. rewrite Esel. destruct (StunPacket.hasUseCandidate p); [by exists a|].
      destruct (IceServer.selectedTuple (iceServer s)); by eexists. }
  eapply does_weaken; [by eapply does_ice_call|]. by intros u s' es [C _].
Qed.

Lemma does_force now t s :
  webrtc_inv s -> IceServer.IsValidTuple (iceServer s) t = Ok true ->
  does (ice_call now (fun i => IceServer.ForceSelectedTuple i t) : webrtc unit)
    (fun _ s' es => calm plain s s' es /\ exists i, IceServer.ForceSelectedTuple (iceServer s) t = Ok i) s.
Proof.
  intros I Hv. pose proof (IceFacts.ForceSelectedTuple_spec (iceServer s) t (wi_ice _ I)) as Hf.
  destruct (IceServer.ForceSelectedTuple (iceServer s) t) as [i|e] eqn:Ei; [|destruct Hf; congruence].
  destruct Hf as (Ii & (a & _ & Esel) & _ & _ & evs & [Ee _] & _).
  eapply does_weaken; [eapply does_ice_call; [done|exact Ei|done|exact Ee|]|].
  - intros b _. rewrite Esel. by exists a.
  - intros u s' es [C _]. split; [done|by exists i].
Qed.

Lemma RemoveTuple_events i t :
  exists evs, IceServer.emitted (IceServer.RemoveTuple i t) = IceServer.emitted i ++ evs
    /\ forall a, IceServer.OnIceServerSelectedTuple a ∈ evs ->
         is_Some (IceServer.selectedTuple (IceServer.RemoveTuple i t)).
Proof.
  unfold IceServer.RemoveTuple.
  assert (exists evs, IceServer.emitted i = IceServer.emitted i ++ evs /\
    forall a, IceServer.OnIceServerSelectedTuple a ∈ evs -> is_Some (IceServer.selectedTuple i)) as Hno.
  { exists []. split; [by rewrite app_nil_r|]. by intros a ?%elem_of_nil. }
  destruct (IceServer.find_tuple _ t) as [r|]; [|done]. cbn zeta.
  destruct (negb _).
  { destruct Hno as (evs & E & Hs). exists []. split; [by rewrite app_nil_r|]. by intros a ?%elem_of_nil. }
  destruct (IceServer.erase_tuple _ r) as [|[first w] l]; cbn zeta.
  - exists [IceServer.OnIceServerDisconnected]. split; [done|]. intros a Ha. by apply list_elem_of_singleton in Ha.
  - exists [IceServer.OnIceServerSelectedTuple first]. unfold IceServer.SetSelectedTuple. cbn.
    rewrite bool_decide_false by done. split; [done|]. intros a _. by exists first.
Qed.

(** ** Operations *)

(** What can happen to a transport. *)
Inductive webrtc_op : Type :=
| PacketOp (now : Z) (t : IceServer.tuple) (data : list Z)
| TcpClosedOp (now : Z) (t : IceServer.tuple)
| DtlsTimerOp (now : Z)
| ConnectOp (now : Z) (p : dtls_parameters)
| RestartIceOp (usernameFragment password : list Z)
| SendRtpOp (data : list Z) (cb sent : bool)
| SendRtcpOp (data : list Z)
| SendSctpOp (now : Z) (data : list Z)
| RecvStreamClosedOp (ssrc : Z)
| SendStreamClosedOp (ssrc : Z).

Definition run_op (op : webrtc_op) : webrtc unit :=
  match op with
  | PacketOp now t data => OnPacketReceived now t data
  | TcpClosedOp now t => OnRtcTcpConnectionClosed now t
  | DtlsTimerOp now => OnDtlsTimer now
  | ConnectOp now p => _ ← HandleConnect now p; skip
  | RestartIceOp u p => _ ← HandleRestartIce u p; skip
  | SendRtpOp data cb sent => SendRtpPacket data cb sent
  | SendRtcpOp data => SendRtcpPacket data
  | SendSctpOp now data => SendSctpData now data
  | RecvStreamClosedOp ssrc => RecvStreamClosed ssrc
  | SendStreamClosedOp ssrc => SendStreamClosed ssrc
  end.

(** Packets as they come from sockets; a request has a fingerprint; a packet to be
    sent leaves room for the trailer. *)
Definition op_fine s (op : webrtc_op) : Prop :=
  match op with
  | PacketOp _ t data => bytes data /\ zlen data <= 65535 /\ IceFacts.tuple_ok t
  | DtlsTimerOp _ => IsActive (dtlsTimer (dtlsTransport s)) = true
  | ConnectOp _ p => fingerprints p <> []
  | SendRtcpOp data => zlen data + SRTP_MAX_TRAILER_LEN + 4 <= EncryptBufferSize
  | _ => True
  end.

(** Where an event of an operation comes from. *)
Definition allowed s (op : webrtc_op) (e : webrtc_event) : Prop :=
  match e with
  | ReceiveRtpPacket packet =>
      exists now t data x, op = PacketOp now t data /\ IceServer.IsValidTuple (iceServer s) t = Ok true
        /\ dtls_connected s = true /\ srtpRecvSession s = Some x
        /\ authentic_session INBOUND (announced (dtlsTransport s)) x
        /\ exists len, (srtp_unprotect x data).2 = Some len
             /\ RtpPacket.Parse (srtp_unprotect x data).1.2 len = Ok packet
  | ReceiveRtcpPacket packets =>
      exists now t data x, op = PacketOp now t data /\ IceServer.IsValidTuple (iceServer s) t = Ok true
        /\ dtls_connected s = true /\ srtpRecvSession s = Some x
        /\ authentic_session INBOUND (announced (dtlsTransport s)) x
        /\ exists len, (srtp_unprotect_rtcp x data).2 = Some len
             /\ RtcpPacket.ParsePacket (take (Z.to_nat len) (srtp_unprotect_rtcp x data).1.2) len = Ok packets
  | ReceiveSctpData _ => exists now t data, op = PacketOp now t data /\ IceServer.IsValidTuple (iceServer s) t = Ok true
  | TupleSend t d =>
      match op with
      | SendRtpOp data _ _ =>
          IsConnected s = true /\ selected_tuple (iceServer s) = Ok t
          /\ exists x, srtpSendSession s = Some x /\ authentic_session OUTBOUND (announced (dtlsTransport s)) x
               /\ (srtp_protect x data).2 = Some d
      | SendRtcpOp data =>
          IsConnected s = true /\ selected_tuple (iceServer s) = Ok t
          /\ exists x, srtpSendSession s = Some x /\ authentic_session OUTBOUND (announced (dtlsTransport s)) x
               /\ (srtp_protect_rtcp x data).2 = Some d
      | _ => True
      end
  | _ => True
  end.

(** What an operation does: it keeps the invariant, whether there was a connect
    request, and the role as it was or chosen. *)
Definition keeps s (op : webrtc_op) s' (es : list webrtc_event) : Prop :=
  calm (allowed s op) s s' es.

(** Operations that send no media. *)
Definition no_send (op : webrtc_op) : Prop := match op with SendRtpOp _ _ _ | SendRtcpOp _ => False | _ => True end.

Lemma plain_allowed s op e : no_send op -> plain e -> allowed s op e.
Proof. by destruct op, e. Qed.

Lemma calm_kept s op s' es : no_send op -> calm plain s s' es -> keeps s op s' es.
Proof. intros Hop. apply calm_weaken. intros e. by apply plain_allowed. Qed.

Lemma inv_set_recv s x :
  webrtc_inv s -> authentic_session INBOUND (announced (dtlsTransport s)) x -> webrtc_inv (set_recv s (Some x)).
Proof. intros [] A. split; cbn; try done. by intros y [= <-]. Qed.

Lemma inv_set_send s x :
  webrtc_inv s -> authentic_session OUTBOUND (announced (dtlsTransport s)) x -> webrtc_inv (set_send s (Some x)).
Proof. intros [] A. split; cbn; try done. by intros y [= <-]. Qed.

Lemma authentic_step type f x x' :
  (forall suite key, session_of type suite key x -> session_of type suite key x') ->
  authentic_session type f x -> authentic_session type f x'.
Proof. intros Hx (fp & suite & l & r & c & E1 & E2 & E3). exists fp, suite, l, r, c. auto. Qed.

(** ** Sending *)

Lemma does_send_selected data s :
  webrtc_inv s -> ice_connected s = true ->
  does (send_selected data : webrtc unit)
    (fun _ s' es => s' = s /\ exists t, selected_tuple (iceServer s) = Ok t /\ es = [TupleSend t data]) s.
Proof.
  intros I E. destruct (connected_selected s I E) as [t Et]. unfold send_selected.
  apply does_bind, does_get. cbv beta. apply does_bind, (does_lift _ t); [done|]. apply does_emit. split; [done|by exists t].
Qed.

Lemma does_sent_back op cb sent s s1 :
  calm (allowed s op) s s1 [] -> does (call_back cb sent : webrtc unit) (fun _ s' es => keeps s op s' es) s1.
Proof.
  intros C. unfold call_back, keeps. destruct cb; [apply does_emit|by apply does_skip].
  apply (calm_trans _ _ s1 _ []); [done|]. apply calm_events; [apply C|by repeat constructor].
Qed.

(** A session is used, and the packet sent, when it could be encrypted. *)
Lemma does_send_encrypted op data s s1 (m : webrtc unit) t :
  webrtc_inv s -> IsConnected s = true -> calm (allowed s op) s s1 [] -> iceServer s1 = iceServer s ->
  (forall s2, calm (allowed s op) s s2 [TupleSend t data] -> does m (fun _ s' es => keeps s op s' (TupleSend t data :: es)) s2) ->
  allowed s op (TupleSend t data) -> selected_tuple (iceServer s) = Ok t ->
  does (send_selected data;; m : webrtc unit) (fun _ s' es => keeps s op s' es) s1.
Proof.
  intros I Hc C E Hm Ha Et. apply does_bind. unfold send_selected. apply does_bind, does_get. cbv beta.
  apply does_bind, (does_lift _ t); [by rewrite E|]. apply does_emit. cbn [app]. apply Hm.
  apply (calm_trans _ _ s1 _ []); [done|]. apply calm_events; [apply C|by apply Forall_singleton].
Qed.

Lemma does_SendRtpPacket data cb sent s :
  webrtc_inv s ->
  does (SendRtpPacket data cb sent : webrtc unit) (fun _ s' es => keeps s (SendRtpOp data cb sent) s' es) s.
Proof.
  intros I. set (op := SendRtpOp data cb sent). unfold SendRtpPacket. apply does_bind, does_get. cbv beta.
  destruct (IsConnected s) eqn:Ec; cbn [negb]; [|by apply does_sent_back, calm_nil].
  destruct (srtpSendSession s) as [x|] eqn:Ex; [|by apply does_sent_back, calm_nil].
  pose proof (wi_send _ I x Ex) as Ax. pose proof Ec as [Ei _]%andb_true_iff.
  destruct (connected_selected s I Ei) as [t Et].
  assert (exists r, EncryptRtp x data = Ok r /\ (r = (x, None) \/ r = srtp_protect x data)) as (r & Er & Hr).
  { unfold EncryptRtp. destruct (Z.ltb_spec EncryptBufferSize (zlen data + SRTP_MAX_TRAILER_LEN)); [by eexists; auto|].
    rewrite require_true by lia. eexists. split; [done|by right]. }
  apply does_bind, (does_lift _ r); [done|]. apply does_bind, does_modify. cbn [app].
  assert (calm (allowed s op) s (set_send s (Some r.1)) []) as C.
  { split_and!; try done; [|by left]. apply inv_set_send; [done|].
    destruct Hr as [-> | ->]; [done|]. eapply authentic_step; [|exact Ax]. intros suite key. apply session_protect. }
  destruct r.2 as [d|] eqn:Ed; [|by apply does_sent_back].
  apply (does_send_encrypted op d s (set_send s (Some r.1)) _ t); try done.
  - intros s2 C2. apply does_bind. unfold call_back.
    assert (forall es s3, calm (allowed s op) s s3 (TupleSend t d :: es) -> does (emit (DataSent (zlen d)) : webrtc unit)
      (fun _ s' es' => keeps s op s' (TupleSend t d :: es ++ es')) s3) as Hend.
    { intros es s3 C3. apply does_emit. apply (calm_trans _ _ s3 _ (TupleSend t d :: es)); [done|].
      apply calm_events; [apply C3|by repeat constructor]. }
    destruct cb; [apply does_emit|apply does_skip]; [|by apply (Hend [])].
    apply (Hend [SendCallback sent]). apply (calm_trans _ _ s2 _ [TupleSend t d]); [done|].
    apply calm_events; [apply C2|by repeat constructor].
  - cbn. split_and!; try done. exists x. split_and!; try done. destruct Hr as [-> | ->]; done.
Qed.

Lemma does_SendRtcpPacket data s :
  webrtc_inv s -> zlen data + SRTP_MAX_TRAILER_LEN + 4 <= EncryptBufferSize ->
  does (SendRtcpPacket data : webrtc unit) (fun _ s' es => keeps s (SendRtcpOp data) s' es) s.
Proof.
  intros I Hl. set (op := SendRtcpOp data). unfold SendRtcpPacket. apply does_bind, does_get. cbv beta.
  destruct (IsConnected s) eqn:Ec; cbn [negb]; [|by apply does_skip, calm_nil].
  destruct (srtpSendSession s) as [x|] eqn:Ex; [|by apply does_skip, calm_nil].
  pose proof (wi_send _ I x Ex) as Ax. pose proof Ec as [Ei _]%andb_true_iff.
  destruct (connected_selected s I Ei) as [t Et].
  assert (exists r, EncryptRtcp x data = Ok r /\ (r = (x, None) \/ r = srtp_protect_rtcp x data)) as (r & Er & Hr).
  { unfold EncryptRtcp. destruct (EncryptBufferSize <? _); [by eexists; auto|].
    rewrite require_true by lia. eexists. split; [done|by right]. }
  apply does_bind, (does_lift _ r); [done|]. apply does_bind, does_modify. cbn [app].
  assert (calm (allowed s op) s (set_send s (Some r.1)) []) as C.
  { split_and!; try done; [|by left]. apply inv_set_send; [done|].
    destruct Hr as [-> | ->]; [done|]. eapply authentic_step; [|exact Ax]. intros suite key. apply session_protect_rtcp. }
  destruct r.2 as [d|] eqn:Ed; [|by apply does_skip].
  apply (does_send_encrypted op d s (set_send s (Some r.1)) _ t); try done.
  - intros s2 C2. apply does_emit. apply (calm_trans _ _ s2 _ [TupleSend t d]); [done|].
    apply calm_events; [apply C2|by repeat constructor].
  - cbn. split_and!; try done. exists x. split_and!; try done. destruct Hr as [-> | ->]; done.
Qed.

(** ** Receiving *)

Lemma parsed_stun data :
  bytes data -> zlen data <= 65535 ->
  exists r, parsed (StunPacket.Parse data (zlen data)) = Ok r /\ forall p, r = Some p -> StunFacts.stun_wf p.
Proof.
  intros Hb Hl. pose proof (StunFacts.StunParse_safe data (zlen data) Hb (Z.le_refl _) Hl) as Hs.
  destruct (StunPacket.Parse data (zlen data)) as [p|e].
  - exists (Some p). split; [done|]. intros q [= <-]. apply Hs.
  - subst e. by exists None.
Qed.

Lemma parsed_rtp data len :
  bytes data -> 0 <= len <= zlen data ->
  exists r, parsed (RtpPacket.Parse data len) = Ok r /\ forall p, r = Some p -> RtpPacket.Parse data len = Ok p.
Proof.
  intros Hb Hl. pose proof (RtpPacketFacts.Parse_cases data len Hb Hl) as Hs.
  destruct (RtpPacket.Parse data len) as [p|e].
  - exists (Some p). split; [done|]. by intros q [= <-].
  - subst e. by exists None.
Qed.

Lemma does_OnStunDataReceived now t data s :
  webrtc_inv s -> bytes data -> zlen data <= 65535 -> IceFacts.tuple_ok t ->
  does (OnStunDataReceived now t data (zlen data) : webrtc unit) (fun _ s' es => calm plain s s' es) s.
Proof.
  intros I Hb Hl Ht. unfold OnStunDataReceived. destruct (parsed_stun data Hb Hl) as (r & Er & Hr).
  apply does_bind, (does_lift _ r); [done|]. cbv beta. destruct r as [p|]; [|by apply does_skip, calm_nil].
  apply does_stun; [done|by apply Hr|done].
Qed.

Lemma does_OnDtlsDataReceived now t data s op :
  webrtc_inv s -> op = PacketOp now t data ->
  does (OnDtlsDataReceived now t data : webrtc unit) (fun _ s' es => keeps s op s' es) s.
Proof.
  intros I ->. set (op := PacketOp now t data). unfold OnDtlsDataReceived. apply does_bind, does_get. cbv beta.
  destruct (IceFacts.IsValidTuple_spec (iceServer s) t (wi_ice _ I)) as (b & Eb & _).
  apply does_bind, (does_lift _ b); [done|]. cbv beta. destruct b; cbn [negb]; [|by apply does_skip, calm_nil].
  apply does_bind. eapply does_weaken; [by apply does_force|]. intros u s1 es1 [C1 _].
  pose proof C1 as (I1 & _ & Hf1 & _). apply (calm_kept s op) in C1; [|done].
  apply does_bind, does_get. cbv beta.
  destruct (_ || _); [|apply does_skip; cbn [app]; by rewrite app_nil_r].
  eapply does_weaken; [eapply does_dtls_call; [done|apply does_ProcessDtlsData; apply I1|by left]|].
  intros a s' es (d & es' & E & (F1 & F2 & F3 & F4) & I' & Hf & Hnm & _). cbn in F1, F2, F3, F4 |- *.
  apply (calm_trans _ s s1); [done|]. split_and!; [done|done| |rewrite F4; by left|].
  - rewrite F2. unfold announced, has_fingerprint. by rewrite Hf.
  - eapply Forall_impl; [exact Hnm|]. intros e. destruct e; try done. intros _. by exists now, t, data.
Qed.

Lemma does_OnRtpDataReceived now t data s op :
  webrtc_inv s -> op = PacketOp now t data -> bytes data ->
  does (OnRtpDataReceived now t data : webrtc unit) (fun _ s' es => keeps s op s' es) s.
Proof.
  intros I Hop Hb. unfold OnRtpDataReceived. apply does_bind, does_get. cbv beta.
  destruct (dtls_connected s) eqn:Ed; cbn [negb]; [|by apply does_skip, calm_nil].
  destruct (srtpRecvSession s) as [x|] eqn:Ex; [|by apply does_skip, calm_nil].
  destruct (IceFacts.IsValidTuple_spec (iceServer s) t (wi_ice _ I)) as (b & Eb & _).
  apply does_bind, (does_lift _ b); [done|]. cbv beta. destruct b; cbn [negb]; [|by apply does_skip, calm_nil].
  pose proof (unprotect_in_place x data Hb) as (Hm & Lm & Hn). pose proof (wi_recv _ I x Ex) as Ax.
  assert (authentic_session INBOUND (announced (dtlsTransport s)) (srtp_unprotect x data).1.1) as Ax'.
  { eapply authentic_step; [|exact Ax]. intros suite key. apply session_unprotect. }
  assert (forall p len, (srtp_unprotect x data).2 = Some len -> RtpPacket.Parse (srtp_unprotect x data).1.2 len = Ok p ->
    allowed s op (ReceiveRtpPacket p)) as Hall.
  { intros p len E1 E2. exists now, t, data, x. split_and!; try done. by exists len. }
  destruct (srtp_unprotect x data) as [[x' m] [len|]]; cbn in Hm, Lm, Hn, Ax', Hall;
    apply does_bind, does_put; cbn [app].
  - specialize (Hn len eq_refl). destruct (parsed_rtp m len) as (r & Er & Hr); [done|lia|].
    apply does_bind, (does_lift _ r); [done|]. cbv beta.
    pose proof (inv_set_recv s x' I Ax') as I1.
    assert (calm (allowed s op) s (set_recv s (Some x')) []) as C1 by (split_and!; try done; by left).
    destruct r as [p|]; [|by apply does_skip].
    apply does_bind. eapply does_weaken; [by apply does_force|]. intros u s2 es2 [C2 _].
    apply does_emit. cbn [app]. apply (calm_trans _ _ s2 _ es2).
    + apply (calm_trans _ _ _ _ [] es2 C1). eapply calm_weaken; [|exact C2]. intros e. apply plain_allowed. by rewrite Hop.
    + apply calm_events; [apply C2|]. apply Forall_singleton. by eapply Hall, Hr.
  - destruct (parsed_rtp m (zlen m)) as (r & Er & _); [done|pose proof (zlen_nonneg m); lia|].
    apply does_bind, (does_lift _ r); [done|]. apply does_skip.
    split_and!; try done; [by apply inv_set_recv|by left].
Qed.

Lemma does_OnRtcpDataReceived now t data s op :
  webrtc_inv s -> op = PacketOp now t data -> bytes data ->
  does (OnRtcpDataReceived t data : webrtc unit) (fun _ s' es => keeps s op s' es) s.
Proof.
  intros I Hop Hb. unfold OnRtcpDataReceived. apply does_bind, does_get. cbv beta.
  destruct (dtls_connected s) eqn:Ed; cbn [negb]; [|by apply does_skip, calm_nil].
  destruct (srtpRecvSession s) as [x|] eqn:Ex; [|by apply does_skip, calm_nil].
  destruct (IceFacts.IsValidTuple_spec (iceServer s) t (wi_ice _ I)) as (b & Eb & _).
  apply does_bind, (does_lift _ b); [done|]. cbv beta. destruct b; cbn [negb]; [|by apply does_skip, calm_nil].
  pose proof (unprotect_rtcp_in_place x data Hb) as (Hm & Lm & Hn). pose proof (wi_recv _ I x Ex) as Ax.
  assert (authentic_session INBOUND (announced (dtlsTransport s)) (srtp_unprotect_rtcp x data).1.1) as Ax'.
  { eapply authentic_step; [|exact Ax]. intros suite key. apply session_unprotect_rtcp. }
  assert (forall ps len, (srtp_unprotect_rtcp x data).2 = Some len ->
    RtcpPacket.ParsePacket (take (Z.to_nat len) (srtp_unprotect_rtcp x data).1.2) len = Ok ps ->
    allowed s op (ReceiveRtcpPacket ps)) as Hall.
  { intros ps len E1 E2. exists now, t, data, x. split_and!; try done. by exists len. }
  destruct (srtp_unprotect_rtcp x data) as [[x' m] [len|]]; cbn in Hm, Lm, Hn, Ax', Hall;
    apply does_bind, does_put; cbn [app].
  - specialize (Hn len eq_refl). set (d := take (Z.to_nat len) m) in *.
    assert (zlen d = len) as Ld by (unfold d, zlen in *; rewrite length_take; lia).
    assert (bytes d) as Hd by by apply Forall_take.
    destruct (RtcpPacketFacts.parse_packets_safe (length d) d Hd (le_n _)) as (ps & Eps & _).
    assert (RtcpPacket.ParsePacket d len = Ok ps) as Eparse by (rewrite <- Ld; exact Eps).
    apply does_bind, (does_lift _ ps); [done|]. cbv beta.
    assert (calm (allowed s op) s (set_recv s (Some x')) []) as C1.
    { split_and!; try done; [by apply inv_set_recv|by left]. }
    destruct ps as [|p ps]; [by apply does_skip|]. apply does_emit. cbn [app].
    apply (calm_trans _ _ _ _ [] _ C1). apply calm_events; [apply C1|]. apply Forall_singleton. by eapply Hall.
  - apply does_skip. split_and!; try done; [by apply inv_set_recv|by left].
Qed.

Lemma does_OnPacketReceived now t data s :
  webrtc_inv s -> bytes data -> zlen data <= 65535 -> IceFacts.tuple_ok t ->
  does (OnPacketReceived now t data : webrtc unit) (fun _ s' es => keeps s (PacketOp now t data) s' es) s.
Proof.
  intros I Hb Hl Ht. set (op := PacketOp now t data). unfold OnPacketReceived. cbn zeta. apply does_bind, does_emit. cbv beta.
  assert (forall m : webrtc unit, does m (fun _ s' es => keeps s op s' es) s ->
    does m (fun _ s' es => keeps s op s' (DataReceived (zlen data) :: es)) s) as Hd.
  { intros m Hm. eapply does_weaken; [exact Hm|]. intros u s' es C.
    apply (calm_trans _ _ s _ [DataReceived (zlen data)]); [|done]. apply calm_events; [done|by repeat constructor]. }
  destruct (StunFacts.IsStun_total data (zlen data) (Z.le_refl _)) as (b1 & E1 & _).
  apply does_bind, (does_lift _ b1); [done|]. destruct b1.
  { apply Hd. eapply does_weaken; [by apply does_OnStunDataReceived|]. intros u s' es. by apply calm_kept. }
  destruct (RtcpPacketFacts.IsRtcp_returns data (zlen data) (Z.le_refl _)) as (b2 & E2 & _).
  apply does_bind, (does_lift _ b2); [done|]. destruct b2; [by apply Hd; eapply does_OnRtcpDataReceived|].
  destruct (RtpPacketFacts.IsRtp_Ok data (zlen data) Hb (Z.le_refl _)) as (b3 & E3).
  apply does_bind, (does_lift _ b3); [done|]. destruct b3; [by apply Hd, does_OnRtpDataReceived|].
  assert (exists b4, IsDtls data (zlen data) = Ok b4) as (b4 & E4).
  { unfold IsDtls. destruct (Z.leb_spec 13 (zlen data)); [|by eexists].
    destruct (get1_in_bounds data 0) as [x ->]; [lia|]. by eexists. }
  apply does_bind, (does_lift _ b4); [done|]. destruct b4; [by apply Hd, does_OnDtlsDataReceived|].
  apply Hd, does_skip, calm_nil, I.
Qed.

(** ** The other operations *)

Lemma does_TcpClosed now t s :
  webrtc_inv s -> does (OnRtcTcpConnectionClosed now t : webrtc unit) (fun _ s' es => calm plain s s' es) s.
Proof.
  intros I. destruct (RemoveTuple_events (iceServer s) t) as (evs & Ee & Hs).
  eapply does_weaken; [eapply does_ice_call; [done|done| |exact Ee|exact Hs]|by intros u s' es [C _]].
  apply (IceFacts.RemoveTuple_spec (iceServer s) t), I.
Qed.

Lemma does_OnDtlsTimer now s :
  webrtc_inv s -> IsActive (dtlsTimer (dtlsTransport s)) = true ->
  does (OnDtlsTimer now : webrtc unit) (fun _ s' es => calm plain s s' es) s.
Proof.
  intros I A. eapply does_weaken; [apply does_dtls_operation; [done|apply only_OnTimer|]|by intros u s' es [C _]].
  apply does_OnTimer; [apply I|apply I|done].
Qed.

Lemma does_SendSctpData now data s :
  webrtc_inv s -> does (SendSctpData now data : webrtc unit) (fun _ s' es => calm plain s s' es) s.
Proof.
  intros I. unfold SendSctpData. apply does_bind, does_get. cbv beta.
  destruct (IsConnected s); cbn [negb]; [|by apply does_skip, calm_nil].
  eapply does_weaken; [apply does_dtls_operation; [done|apply only_SendApplicationData|]|by intros u s' es [C _]].
  apply does_SendApplicationData; apply I.
Qed.

Lemma does_RestartIce u p s :
  webrtc_inv s -> does (HandleRestartIce u p : webrtc (list Z * list Z)) (fun _ s' es => calm plain s s' es) s.
Proof.
  intros I. unfold HandleRestartIce. apply does_bind, does_modify, does_bind, does_modify, does_bind, does_get, does_ret.
  split_and!; try done; [|by left]. destruct I as [Ii]. split; try done. cbn.
  by apply (IceFacts.ice_inv_build (iceServer s) (IceServer.state (iceServer s)) (IceServer.tuples (iceServer s))
    (IceServer.selectedTuple (iceServer s)) (IceServer.nextAddress (iceServer s))); try apply Ii.
Qed.

Lemma does_StreamClosed ssrc s :
  webrtc_inv s ->
  does (RecvStreamClosed ssrc : webrtc unit) (fun _ s' es => calm plain s s' es) s
  /\ does (SendStreamClosed ssrc : webrtc unit) (fun _ s' es => calm plain s s' es) s.
Proof.
  intros I. split; [unfold RecvStreamClosed|unfold SendStreamClosed]; apply does_bind, does_get; cbv beta.
  - destruct (srtpRecvSession s) as [x|] eqn:Ex; [|by apply does_skip, calm_nil]. apply does_put.
    split_and!; try done; [|by left]. apply inv_set_recv; [done|].
    eapply authentic_step; [|by apply (wi_recv _ I)]. intros suite key. apply session_remove.
  - destruct (srtpSendSession s) as [x|] eqn:Ex; [|by apply does_skip, calm_nil]. apply does_put.
    split_and!; try done; [|by left]. apply inv_set_send; [done|].
    eapply authentic_step; [|by apply (wi_send _ I)]. intros suite key. apply session_remove.
Qed.

(** ** The connect request *)

(** Whether there was one, what it gave, and the role. *)
Definition called s : Prop :=
  if connectCalled s then is_Some (announced (dtlsTransport s)) /\ (dtlsRole s = CLIENT \/ dtlsRole s = SERVER)
  else announced (dtlsTransport s) = None /\ (dtlsRole s = AUTO \/ dtlsRole s = SERVER).

Lemma calm_called P s s' es : calm P s s' es -> called s -> called s'.
Proof.
  intros (_ & C & F & R & _). unfold called. rewrite C, F. destruct (connectCalled s); intros [? Hr]; (split; [done|]).
  - by destruct R as [-> | [E ->]]; [|right].
  - destruct R as [-> | [E ->]]; auto.
Qed.

(** A request is refused when there was one, or a name is not known. *)
Definition refused s (p : dtls_parameters) : bool :=
  connectCalled s
  || match fingerprints p with (name, _) :: _ => bool_decide (GetFingerprintAlgorithm name = NO_ALGORITHM) | [] => false end
  || match role p with Some r => bool_decide (StringToRole r = NONE) | None => false end.

Lemma HandleConnect_refused now p s :
  refused s p = true -> (HandleConnect now p : webrtc Role) s = Err Thrown.
Proof.
  unfold refused, HandleConnect. rewrite act_get_bind.
  destruct (connectCalled s); cbn [negb orb]; [intros _; by apply act_lift_Err|].
  unfold remote_fingerprint, remote_role. intros Hr.
  destruct (fingerprints p) as [|[name v] l]; cbn [orb] in Hr.
  - destruct (role p) as [r|]; [|done]. unfold lift, mbind, act_bind. cbn. by rewrite Hr.
  - destruct (bool_decide (GetFingerprintAlgorithm name = NO_ALGORITHM)) eqn:En; cbn [orb] in Hr.
    + unfold lift, mbind, act_bind. cbn. done.
    + destruct (role p) as [r|]; [|done]. unfold lift, mbind, act_bind. cbn. by rewrite Hr.
Qed.

Lemma does_HandleConnect now p s :
  webrtc_inv s -> called s -> refused s p = false -> fingerprints p <> [] ->
  does (HandleConnect now p : webrtc Role) (fun r s' es =>
    webrtc_inv s' /\ called s' /\ connectCalled s' = true /\ r = dtlsRole s' /\ Forall plain es
    /\ exists f, remote_fingerprint p = Ok f /\ announced (dtlsTransport s') = Some f) s.
Proof.
  intros I Hc Href Hne. unfold refused in Href. apply orb_false_iff in Href as [Href Hr]. apply orb_false_iff in Href as [Hcc Hf].
  unfold called in Hc. rewrite Hcc in Hc. destruct Hc as [Ha _].
  destruct (fingerprints p) as [|[name v] l] eqn:Ep; [done|].
  assert (exists f, remote_fingerprint p = Ok f /\ algorithm f <> NO_ALGORITHM) as (f & Ef & Hn).
  { unfold remote_fingerprint. rewrite Ep, Hf. eexists. split; [done|]. by apply bool_decide_eq_false in Hf. }
  assert (exists remote r, remote_role p = Ok remote /\ local_role remote = Ok r /\ (r = CLIENT \/ r = SERVER))
    as (remote & r & Er & El & Hrole).
  { unfold remote_role. destruct (role p) as [x|]; [|exists AUTO; cbn; eauto].
    rewrite Hr. cbn. apply bool_decide_eq_false in Hr. exists (StringToRole x).
    destruct (StringToRole x); cbn; try done; eauto. }
  unfold HandleConnect. apply does_bind, does_get. cbv beta.
  apply does_bind, (does_lift _ ()); [by rewrite Hcc|]. apply does_bind, (does_lift _ f); [done|].
  apply does_bind, (does_lift _ remote); [done|]. apply does_bind, (does_lift _ r); [done|]. cbv beta.
  apply does_bind, does_modify, does_bind, does_modify. cbn [app]. set (s1 := set_connectCalled (set_role s r)).
  assert (webrtc_inv s1) as I1.
  { destruct I. split; cbn; try done. by destruct Hrole as [-> | ->]. }
  apply does_bind. eapply does_weaken.
  { eapply does_dtls_call; [done|by apply does_SetRemoteFingerprint; [apply I1|exact Hn]|by right]. }
  intros ok s2 es2 (d & es' & E & (F1 & F2 & F3 & F4) & I2 & Hf2 & _ & P2). cbn in F1, F2, F3, F4.
  assert (Forall plain es2) as Pl2 by (by apply P2, (only_SetRemoteFingerprint f _ _ _ _ E)).
  assert (announced (dtlsTransport s2) = Some f) as A2.
  { unfold announced, has_fingerprint. rewrite F2, Hf2. by rewrite bool_decide_false. }
  assert (called s2) as C2 by (unfold called; rewrite F3, A2, F4; cbn; eauto).
  apply does_bind. apply does_weaken with (Q := fun _ s3 es3 => calm plain s2 s3 es3).
  { destruct ok; [|by apply does_skip, calm_nil]. eapply does_weaken; [by apply does_MayRun|]. by intros u s3 es3 [C _]. }
  intros u s3 es3 C3. pose proof (calm_called _ _ _ _ C3 C2) as C3'. destruct C3 as (I3 & Cc & A3 & R3 & P3).
  apply does_bind, does_get. cbv beta. rewrite F3 in Cc.
  assert (does (match dtlsRole s3 with CLIENT | SERVER => mret (dtlsRole s3) | _ => lift (Err AssertFailed) end : webrtc Role)
    (fun r0 s' es => s' = s3 /\ r0 = dtlsRole s3 /\ es = []) s3) as Hlast.
  { unfold called in C3'. rewrite Cc in C3'. destruct C3' as [_ [-> | ->]]; by apply does_ret. }
  eapply does_weaken; [exact Hlast|]. intros r0 s' es (-> & -> & ->).
  rewrite A3, A2. split_and!; try done; [|by exists f]. cbn [app]. rewrite !app_nil_r. apply Forall_app. by split.
Qed.

(** ** Every operation *)

(** An operation returns and keeps what holds, or the request is refused. *)
Definition answered s (op : webrtc_op) : Prop :=
  does (run_op op) (fun _ s' es => webrtc_inv s' /\ called s' /\ Forall (allowed s op) es
    /\ announced (dtlsTransport s') = match op with
                                      | ConnectOp _ p => match remote_fingerprint p with Ok f => Some f | Err _ => None end
                                      | _ => announced (dtlsTransport s)
                                      end) s
  \/ exists now p, op = ConnectOp now p /\ refused s p = true /\ run_op op s = Err Thrown.

Lemma keeps_answered s op :
  called s -> (forall now p, op <> ConnectOp now p) ->
  does (run_op op) (fun _ s' es => keeps s op s' es) s -> answered s op.
Proof.
  intros Hc Hop Hd. left. eapply does_weaken; [exact Hd|]. intros u s' es C. pose proof (calm_called _ _ _ _ C Hc) as C'.
  destruct C as (I & _ & A & _ & E). split_and!; try done. rewrite A. destruct op; try done. by destruct (Hop now p).
Qed.

Lemma calm_answered s op :
  called s -> no_send op -> (forall now p, op <> ConnectOp now p) ->
  does (run_op op) (fun _ s' es => calm plain s s' es) s -> answered s op.
Proof.
  intros Hc Hns Hop Hd. apply keeps_answered; [done..|]. eapply does_weaken; [exact Hd|]. intros u s' es. by apply calm_kept.
Qed.

Lemma does_op s op : webrtc_inv s -> called s -> op_fine s op -> answered s op.
Proof.
  intros I Hc Hop. destruct op as [now t data|now t|now|now p|u p|data cb sent|data|now data|ssrc|ssrc]; cbn [op_fine] in Hop.
  - destruct Hop as (Hb & Hl & Ht). apply keeps_answered; [done..|]. by apply does_OnPacketReceived.
  - apply calm_answered; [done..|]. by apply does_TcpClosed.
  - apply calm_answered; [done..|]. by apply does_OnDtlsTimer.
  - destruct (refused s p) eqn:Er.
    + right. exists now, p. split_and!; try done. cbn [run_op]. unfold mbind, act_bind. by rewrite HandleConnect_refused.
    + left. cbn [run_op]. apply does_bind. eapply does_weaken; [by apply does_HandleConnect|].
      intros r s' es (I' & C' & _ & _ & P & f & -> & A). apply does_skip. rewrite app_nil_r. split_and!; try done.
      eapply Forall_impl; [exact P|]. intros e. by apply plain_allowed.
  - apply calm_answered; [done..|]. cbn [run_op]. apply does_bind. eapply does_weaken; [by apply does_RestartIce|].
    intros r s' es C. apply does_skip. by rewrite app_nil_r.
  - apply keeps_answered; [done..|]. by apply does_SendRtpPacket.
  - apply keeps_answered; [done..|]. by apply does_SendRtcpPacket.
  - apply calm_answered; [done..|]. by apply does_SendSctpData.
  - apply calm_answered; [done..|]. by apply does_StreamClosed.
  - apply calm_answered; [done..|]. by apply does_StreamClosed.
Qed.

(** ** Runs *)

(** A transport with given credentials, and the fingerprint a request announced. *)
Inductive webrtc_run (u pw b : list Z) : transport -> option DtlsTransport.fingerprint -> Prop :=
| webrtc_new : webrtc_run u pw b (new_WebRtcTransport u pw b) None
| webrtc_step s given op s' es :
    webrtc_run u pw b s given -> op_fine s op -> run_op op s = Ok ((), s', es) ->
    webrtc_run u pw b s' (match op with
                          | ConnectOp _ p => match remote_fingerprint p with Ok f => Some f | Err _ => None end
                          | _ => given
                          end).

Lemma new_webrtc_inv u pw b :
  bytes b -> zlen b = IceServer.StunSerializeBufferSize ->
  webrtc_inv (new_WebRtcTransport u pw b) /\ called (new_WebRtcTransport u pw b).
Proof.
  intros Hb Hl. split; [|split; [done|by left]]. destruct new_dtls_inv as [Id Sd].
  split; cbn; try done. by apply IceProps.new_inv.
Qed.

Lemma webrtc_run_inv u pw b s given :
  bytes b -> zlen b = IceServer.StunSerializeBufferSize -> webrtc_run u pw b s given ->
  webrtc_inv s /\ called s /\ announced (dtlsTransport s) = given.
Proof.
  intros Hb Hl. induction 1 as [|s given op s' es Hrun (I & C & A) Hop E].
  { by destruct (new_webrtc_inv u pw b Hb Hl). }
  destruct (does_op s op I C Hop) as [Hd|(now & p & -> & _ & E')]; [|congruence].
  destruct (does_run _ _ _ _ _ _ Hd E) as (I' & C' & _ & A'). split_and!; try done.
  rewrite A'. destruct op; try done.
Qed.

(** What [op_fine] leaves out. *)
Lemma connect_without_fingerprints s now p r :
  fingerprints p = [] -> connectCalled s = false -> remote_role p = Ok r -> run_op (ConnectOp now p) s = Err AssertFailed.
Proof.
  intros Hf Hc Hr. assert (exists l, local_role r = Ok l) as [l El].
  { unfold remote_role in Hr. destruct (role p) as [x|]; [|injection Hr as <-; by exists CLIENT].
    revert Hr. destruct (StringToRole x); cbn; try done; intros [= <-]; eauto. }
  cbn [run_op]. apply act_bind_Err. unfold HandleConnect. rewrite act_get_bind.
  rewrite (act_lift_Ok _ _ ()) by by rewrite Hc. rewrite (act_lift_Ok _ _ (Fingerprint NO_ALGORITHM [])).
  2: { unfold remote_fingerprint. by rewrite Hf. }
  rewrite (act_lift_Ok _ _ r), (act_lift_Ok _ _ l), !act_modify_bind by done. done.
Qed.

Lemma rtcp_without_room s data x :
  IsConnected s = true -> srtpSendSession s = Some x ->
  zlen data + SRTP_MAX_TRAILER_LEN <= EncryptBufferSize < zlen data + SRTP_MAX_TRAILER_LEN + 4 ->
  run_op (SendRtcpOp data) s = Err OutOfBounds.
Proof.
  intros Hc Hx [Hle Hlt]. cbn [run_op]. unfold SendRtcpPacket, mbind, act_bind, get, lift. rewrite Hc. cbn [negb].
  rewrite Hx. unfold EncryptRtcp. rewrite (proj2 (Z.ltb_ge _ _)), (proj2 (Z.leb_gt _ _)) by done. done.
Qed.

(** C1: every operation of a WebRTC transport returns, whatever operations came before
    it, in whatever order, as long as each keeps the conditions of [op_fine]: a packet
    that comes is of bytes, at most 65535, from a tuple with addresses; the DTLS timer
    fires while it runs; a connect request has at least one fingerprint; an RTCP packet
    to be sent leaves the room for the trailer that libsrtp asks for.  Then no assertion
    fails, nothing is read outside of a packet, and no tuple is used that is not there;
    only a connect request can be refused, a second one or one with an unknown name; and
    while the transport is connected there is a selected tuple.  The last two conditions
    are needed: a first connect request without fingerprints, whose role is known, makes
    an assertion fail, and while connected an RTCP packet that the code lets pass
    without that room may be encrypted past the end of the buffer ([OutOfBounds]). *)
Theorem webrtc_safe u pw b s given op :
  bytes b -> zlen b = IceServer.StunSerializeBufferSize -> webrtc_run u pw b s given -> op_fine s op ->
  ((exists s' es, run_op op s = Ok ((), s', es))
   \/ exists now p, op = ConnectOp now p /\ refused s p = true /\ run_op op s = Err Thrown)
  /\ (IsConnected s = true -> exists t, selected_tuple (iceServer s) = Ok t)
  /\ (forall now p r, fingerprints p = [] -> connectCalled s = false -> remote_role p = Ok r ->
        run_op (ConnectOp now p) s = Err AssertFailed)
  /\ (forall data x, IsConnected s = true -> srtpSendSession s = Some x ->
        zlen data + SRTP_MAX_TRAILER_LEN <= EncryptBufferSize < zlen data + SRTP_MAX_TRAILER_LEN + 4 ->
        run_op (SendRtcpOp data) s = Err OutOfBounds).
Proof.
  intros Hb Hl Hrun Hop. destruct (webrtc_run_inv u pw b s given Hb Hl Hrun) as (I & C & _). split_and!.
  - destruct (does_op s op I C Hop) as [([] & s' & es & E & _)|Hr]; [left; by exists s', es|by right].
  - intros [Ei _]%andb_true_iff. by apply connected_selected.
  - intros now p r. apply connect_without_fingerprints.
  - intros data x. apply rtcp_without_room.
Qed.

(** C2: media is authentic.  An RTP or RTCP packet is given to the parent class
    only when it came from a valid tuple while DTLS was connected and was
    decrypted by the receiving session, whose key is of a handshake in which the
    peer had a certificate with the fingerprint of the connect request; data of
    other channels only comes from valid tuples.  RTP and RTCP packets are sent to
    the selected tuple only, and encrypted with the local key of such a
    handshake. *)
Theorem media_authentic u pw b s given op s' es :
  bytes b -> zlen b = IceServer.StunSerializeBufferSize -> webrtc_run u pw b s given -> op_fine s op ->
  run_op op s = Ok ((), s', es) ->
  announced (dtlsTransport s) = given /\ Forall (allowed s op) es.
Proof.
  intros Hb Hl Hrun Hop E. destruct (webrtc_run_inv u pw b s given Hb Hl Hrun) as (I & C & A). split; [done|].
  destruct (does_op s op I C Hop) as [Hd|(now & p & -> & _ & E')]; [|congruence].
  apply (does_run _ _ _ _ _ _ Hd E).
Qed.
End facts.

(** * Witnesses *)

#[local] Existing Instance StunFacts.sum_HmacSha1.
#[local] Existing Instance StunFacts.sum_HmacLaws.

(** A session is its key; a trailer of one byte. *)
#[export] Instance sample_srtp : LibSrtp (list Z) := {
  cipher_key_len suite := srtpMasterLength suite;
  srtp_create type suite key := Some key;
  srtp_dealloc x := 0;
  srtp_protect x data := (x, Some (data ++ [1]));
  srtp_protect_rtcp x data := (x, Some (data ++ [2]));
  srtp_unprotect x data := (x, data, if zlen data =? 0 then None else Some (zlen data - 1));
  srtp_unprotect_rtcp x data := (x, data, if zlen data =? 0 then None else Some (zlen data - 1));
  srtp_remove_stream x ssrc := x
}.

#[export] Instance sample_srtp_laws : LibSrtpLaws (list Z).
Proof.
  split; try done; intros x data; cbn; intros Hb; split_and!; try done; intros n;
    destruct (Z.eqb_spec (zlen data) 0); try done; intros [= <-]; pose proof (zlen_nonneg data); lia.
Qed.

Notation sample_webrtc := (webrtc_transport sample_ssl (option (Z * Z)) (list Z)).

(** A nomination, a connect request, the handshake. *)
Definition sample_start : list webrtc_op :=
  [PacketOp 0 IceProps.sample_tuple (StunPacket.data IceProps.sample_nomination);
   ConnectOp 10 (DtlsParameters [("sha-256"%string, [48; 65; 58; 65; 66])] (Some "client"%string));
   PacketOp 20 IceProps.sample_tuple (20 :: replicate 12 0)].

#[export] Instance tuple_ok_dec t : Decision (IceFacts.tuple_ok t).
Proof. unfold IceFacts.tuple_ok, IP.inet. destruct (IceServer.GetRemoteAddress t); apply _. Defined.

Definition webrtc_op_ok (s : sample_webrtc) (op : webrtc_op) : bool :=
  match op with
  | PacketOp _ t data => bool_decide (bytes data) && (zlen data <=? 65535) && bool_decide (IceFacts.tuple_ok t)
  | DtlsTimerOp _ => IsActive (dtlsTimer (dtlsTransport s))
  | ConnectOp _ p => match fingerprints p with [] => false | _ => true end
  | SendRtcpOp data => zlen data + SRTP_MAX_TRAILER_LEN + 4 <=? EncryptBufferSize
  | _ => true
  end.

Lemma webrtc_op_ok_fine (s : sample_webrtc) op : webrtc_op_ok s op = true -> op_fine s op.
Proof.
  destruct op as [now t data|now t|now|now p|u p|data cb sent|data|now data|ssrc|ssrc]; cbn [webrtc_op_ok op_fine]; try done.
  - rewrite !andb_true_iff, !bool_decide_eq_true. intros [[? ?] ?]. split_and!; [done|lia|done].
  - by destruct (fingerprints p).
  - lia.
Qed.

Fixpoint run_webrtc (ops : list webrtc_op) (s : sample_webrtc) : outcome sample_webrtc :=
  match ops with
  | [] => Ok s
  | op :: ops =>
      if webrtc_op_ok s op then
        match run_op op s with Ok (_, s', _) => run_webrtc ops s' | Err e => Err e end
      else Err AssertFailed
  end.

(** The fingerprint given by the last connect request. *)
Definition give (given : option DtlsTransport.fingerprint) (op : webrtc_op) : option DtlsTransport.fingerprint :=
  match op with
  | ConnectOp _ p => match remote_fingerprint p with Ok f => Some f | Err _ => None end
  | _ => given
  end.

Lemma run_webrtc_run u pw b ops : forall (s s' : sample_webrtc) given,
  webrtc_run u pw b s given -> run_webrtc ops s = Ok s' -> webrtc_run u pw b s' (foldl give given ops).
Proof.
  induction ops as [|op ops IH]; intros s s' given Hr; cbn [run_webrtc foldl]; [by intros [= <-]|].
  destruct (webrtc_op_ok s op) eqn:Hok; [|done].
  destruct (run_op op s) as [[[[] s1] es]|] eqn:E; [|done]. apply IH.
  exact (webrtc_step u pw b s given op s1 es Hr (webrtc_op_ok_fine s op Hok) E).
Qed.

Definition sample_buffer : list Z := replicate (Z.to_nat IceServer.StunSerializeBufferSize) 0.

Lemma sample_buffer_ok : bytes sample_buffer /\ zlen sample_buffer = IceServer.StunSerializeBufferSize.
Proof.
  split; [|vm_compute; reflexivity]. apply Forall_replicate. split; [discriminate|reflexivity].
Qed.

Definition sample_new : sample_webrtc := new_WebRtcTransport [97; 98] [1; 2] sample_buffer.

Definition connected_only (o : outcome sample_webrtc) : option sample_webrtc :=
  match o with Ok s => if IsConnected s then Some s else None | Err _ => None end.

Lemma connected_only_run (s0 : sample_webrtc) ops u pw b o s :
  s0 = new_WebRtcTransport u pw b -> run_webrtc ops s0 = o -> connected_only o = Some s ->
  webrtc_run u pw b s (foldl give None ops) /\ IsConnected s = true.
Proof.
  intros E0 Eo. destruct o as [s'|]; cbn [connected_only]; [|done]. destruct (IsConnected s') eqn:Ec; [|done].
  intros [= <-]. split; [|done]. refine (run_webrtc_run u pw b ops s0 s' None _ Eo). rewrite E0. apply webrtc_new.
Qed.

(** An encrypted packet from the selected tuple. *)
Definition sample_packet_op : webrtc_op :=
  PacketOp 30 IceProps.sample_tuple (take 29 RtpPacketFacts.sample_data ++ [99]).

Definition sample_received (s : sample_webrtc) : option (sample_webrtc * list webrtc_event) :=
  if webrtc_op_ok s sample_packet_op then
    match run_op sample_packet_op s with Ok (_, s', es) => Some (s', es) | Err _ => None end
  else None.

Lemma sample_received_run (s s' : sample_webrtc) es :
  sample_received s = Some (s', es) -> op_fine s sample_packet_op /\ run_op sample_packet_op s = Ok ((), s', es).
Proof.
  unfold sample_received. destruct (webrtc_op_ok s sample_packet_op) eqn:Hok; [|done].
  destruct (run_op sample_packet_op s) as [[[[] s1] es1]|]; [|done]. intros [= <- <-].
  split; [by apply webrtc_op_ok_fine|done].
Qed.

Definition receive_after (o : outcome sample_webrtc) : option (sample_webrtc * sample_webrtc * list webrtc_event) :=
  match connected_only o with
  | Some s => match sample_received s with Some (s', es) => Some (s, s', es) | None => None end
  | None => None
  end.

Definition gives_rtp (es : list webrtc_event) : bool :=
  existsb (fun e => match e with ReceiveRtpPacket _ => true | _ => false end) es.

Definition receives_rtp (r : option (sample_webrtc * sample_webrtc * list webrtc_event)) : bool :=
  match r with Some (_, _, es) => gives_rtp es | None => false end.

Example sample_media_received : receives_rtp (receive_after (run_webrtc sample_start sample_new)) = true.
Proof. vm_compute. reflexivity. Qed.

Lemma receives_some r : receives_rtp r = true -> exists s s' es, r = Some (s, s', es) /\ gives_rtp es = true.
Proof. destruct r as [[[s s'] es]|]; [|done]. by exists s, s', es. Qed.

Lemma receive_after_run o s s' es :
  receive_after o = Some (s, s', es) -> connected_only o = Some s /\ sample_received s = Some (s', es).
Proof.
  unfold receive_after. destruct (connected_only o) as [s0|]; [|done].
  destruct (sample_received s0) as [[s1 es1]|] eqn:Er; [|done]. by intros [= <- <- <-].
Qed.

Lemma media_run_of (s0 : sample_webrtc) ops u pw b o :
  s0 = new_WebRtcTransport u pw b -> run_webrtc ops s0 = o -> receives_rtp (receive_after o) = true ->
  exists (s s' : sample_webrtc) es,
    webrtc_run u pw b s (foldl give None ops) /\ IsConnected s = true
    /\ op_fine s sample_packet_op /\ run_op sample_packet_op s = Ok ((), s', es) /\ gives_rtp es = true.
Proof.
  intros E0 Eo Hr. destruct (receives_some _ Hr) as (s & s' & es & E & Hg). exists s, s', es.
  destruct (receive_after_run o s s' es E) as [Ec Er].
  destruct (connected_only_run s0 ops u pw b o s E0 Eo Ec). by destruct (sample_received_run s s' es Er).
Qed.

Definition sample_media_run :=
  media_run_of sample_new sample_start [97; 98] [1; 2] sample_buffer _ eq_refl eq_refl sample_media_received.

(** A connected transport takes the packet; it has a selected tuple. *)
Example webrtc_safe_witness :
  exists s s' es t, run_op sample_packet_op s = Ok ((), s', es) /\ gives_rtp es = true
    /\ selected_tuple (iceServer s) = Ok t.
Proof.
  destruct sample_media_run as (s & s' & es & Hr & Hc & Hop & Hrun & Hg).
  destruct sample_buffer_ok as [Hb Hl].
  destruct (webrtc_safe [97; 98] [1; 2] sample_buffer s _ sample_packet_op Hb Hl Hr Hop) as (_ & Ht & _).
  destruct (Ht Hc) as [t Et]. exists s, s', es, t. exact (conj Hrun (conj Hg Et)).
Defined.

(** The packet given to the parent class came from a valid tuple. *)
Example media_authentic_witness :
  exists s s' es, run_op sample_packet_op s = Ok ((), s', es) /\ gives_rtp es = true
    /\ announced (dtlsTransport s) = Some (DtlsTransport.Fingerprint SHA256 [48; 65; 58; 65; 66])
    /\ Forall (allowed s sample_packet_op) es.
Proof.
  destruct sample_media_run as (s & s' & es & Hr & Hc & Hop & Hrun & Hg).
  destruct sample_buffer_ok as [Hb Hl].
  destruct (media_authentic [97; 98] [1; 2] sample_buffer s _ sample_packet_op s' es Hb Hl Hr Hop Hrun) as [Ha Hf].
  exists s, s', es. exact (conj Hrun (conj Hg (conj Ha Hf))).
Defined.
